(* ===== verification/_CoqProject ===== *)
-Q . S2P
Prelude.v
Floats.v
StateError.v
Lifecycle.v
Sha256.v
Json.v
Db.v
EvidenceMac.v
Flush.v
Samples.v
FlushFacts.v
Store.v
RemoteEffects.v
Recovery.v
Fleet.v
Escalation.v
Routing.v
Events.v
Runtime.v
RuntimeFacts.v
Policy.v
ToolProxy.v
ToolProxyFacts.v
DecisionGate.v
Checks.v
Plans.v
JsonText.v
DispatchKey.v
Oracle.v
Acceptance.v
Evaluate.v
Verdict.v
Trees.v
Revisions.v
UnitOfWork.v
Execution.v
BeginFacts.v
Finish.v
FinishFacts.v
Auth.v
Gate.v
GateFacts.v
Messaging.v
MessagingFacts.v
Scoped.v
RunConfig.v
Coordinator.v
RunLoop.v
RunFacts.v
RunBounds.v
JsonParse.v
Cursor.v
Keyset.v
Redact.v
HumanRead.v
CoreQuery.v
Impact.v
Usage.v
Qualify.v
Graph.v
Objectives.v
Url.v
Credentials.v
CredentialsFacts.v
Injection.v
Timeline.v
Measurement.v
Attempt.v
