(* ===== verification/Prelude.v ===== *)
(** * SDF Core: a verification library

    SDF Core ([src/sdf_core/]) runs coding agents on Tasks and decides, from
    evidence it produced itself, whether a Task succeeded.  This library models
    the parts that decide and the database they decide on, and proves what they
    promise each other.  Every definition is a translation of the named source;
    what another system answers (the file system, a sandboxed process, a
    provider, the clock, [uuid4]) is an argument.

    ** The program and the files that model it

    - The state: [Db] has a Record per table of [db.py] and the whole database;
      [Flush] the session, its [before_flush] listeners, insert hooks and
      constraints ([db.py], [casefold.py]); [Store] the row operations the
      services share; [UnitOfWork] a request's session with commit, rollback,
      UPDATE statements, the clock and random ids.
    - Tasks and Attempts: [Lifecycle] ([model.py], [state.py]); [Execution]
      ([execution.py]: the gates, [begin], failing an Attempt), [Finish]
      ([finish]), [Verdict] (its decision), [Recovery] and [Fleet]
      ([recovery.py]: leases, fencing and the orphan sweep, for one process and
      for several), [RemoteEffects] ([remote_effects.py]), [Revisions] and
      [Trees] ([revisions.py]).
    - Evidence: [Checks] ([checks.py]), [Evaluate] ([evaluator.py]), [Oracle]
      (the pure part of [oracle.py]), [Acceptance] ([acceptance.py]),
      [EvidenceMac] ([evidence_mac.py]).
    - People: [Plans] ([plans.py]) and [DecisionGate] ([decision_gate.py]).
    - Agents: [Runtime] ([runtime.py]), [Events] ([events.py]), [Policy]
      ([policy.py]) and [ToolProxy] ([tools.py], and [execute_tool] of
      [execution.py] with the request around it), the boundary every action of
      an agent crosses; [Messaging] ([agent_messaging.py], [materiality.py]), the
      hub their messages go through.
    - Callers: [Auth] ([auth.py]: tokens and the lockout of failed logins) and
      [Gate], the authentication and authorization of a request in [api.py].
    - Runs ([coordinator.py]): [RunConfig], the configuration and its caps;
      [Scoped], which changes of a worker reach the workspace; [Coordinator],
      the creation of a run; [RunLoop], the run itself from its first sandbox to
      its last row; [RunBounds], how much it may do.  [Attempt] is
      [ExecutionService.run], the synchronous run of one Task.
    - Choosing a model: [Routing] ([routing.py]), [Escalation]
      ([escalation.py]); [Qualify] ([qualification.py]: what an agent has
      proved, and the choice among those that have); [DispatchKey]
      ([dispatch_key.py]) names a request.
    - Credentials: [Url] (the URLs and IPv4 addresses of the standard library
      that a base URL is checked with), [Credentials] ([credentials.py],
      [agent_models.py], [project_trust.py]) and [Injection]
      ([credential_injection.py], [plugin_bridge.py], and the command lines of
      [turn_guard.py] and [subagents.py]): what of them enters a sandbox.
    - Measuring: [Impact] ([impact.py], [impact_repository.py]),
      [Objectives] (outcomes and their evidence in [api.py]), [Measurement]
      ([measurement.py]) and [Usage] ([usage.py]: tokens, prices, ledger).
    - Reading: [HumanRead] with [Cursor] and [Keyset] ([human_read.py]: the
      lists people page through), [CoreQuery] ([core_mcp.py]: what an agent may
      read), [Timeline] ([timeline.py]), [Graph] (the decision graph, its trace
      and the Task endpoints of [api.py]), [Redact] (secrets in
      [observability.py]).
    - Python: this file (exceptions, strings, lists), [Floats] (binary64 order),
      [Json], [JsonText] and [JsonParse] (JSON values, their canonical text and
      the reading of it), [Sha256], [StateError] (stateful code that raises),
      [Samples] (blank rows for the concrete inputs of the witnesses).

    A file named after another with [Facts] holds the theorems of the first.

    ** How the parts interact

    A request gets an Attempt from [Execution.begin], behind the plan gate of
    [Flush] and the decision gate of [DecisionGate]; the agent acts through
    [ToolProxy] and its events are recorded by [Runtime]; [Finish.finish] closes
    the revision, asks [Evaluate] about the diff, passes the answer through
    [Verdict] and [Acceptance], and settles the Attempt and its Task by
    compare-and-swap; [Recovery] settles the Attempts of executors that died.
    [RunLoop] strings these together for a whole Plan: it relays the agents'
    mail through [Messaging], holds what [DecisionGate] says must wait, and
    begins and finishes the Attempt of each worker.  What its agents' reads are
    answered ([CoreQuery]) and what its sandboxes are started with ([Injection],
    from the plans of [Credentials]) are arguments of it.  Every row any of them writes goes through [Flush], and
    [Impact], [Qualify], [Measurement], [HumanRead] and [Timeline] read those
    rows, through [Redact] where free text is shown.

    ** What the theorems show

    - [run_success], [gate_holds]: a run succeeds only on Evidence of its own and
      does nothing a pending decision stops; [run_bounds]: the turns it starts
      and the Attempts it begins (the trace [co_calls] of [RunLoop.Co], which the
      code does not keep) stay within caps no caller can lift;
      [apply_scoped_spec]: only in-scope changes of a worker reach the workspace
      that is judged.
    - [finish_spec], [finish_error], [begin_spec]: every way out of the two
      operations that move a Task, with other requests committing in between.
      [finish] begins in any session that inserts no Attempt, so also in that of
      [RunLoop.note_usage] and [Attempt.record_measured_telemetry]
      ([usage_usable], [telemetry_usable]); [begin_spec] starts from a session
      with nothing pending.
    - [verdict_spec], [run_one_pass], [evaluate_spec], [acceptance_spec]: what a
      success proves.
    - [recover_spec], [settled_once], [crash_recovered]: an Attempt is settled
      once, by its owner or by recovery, and not left running by a crash.
    - [credential_plan_spec], [injection_spec], [credential_hidden]: which
      credential an agent gets, that nothing else can replace it in the sandbox,
      and that no error, seed or printed plan shows it.
    - [selected_agent_proven], [routing_trusted_only], [claim_spec],
      [scorecard_spec], [outcome_evidence_spec]: an agent is chosen, an outcome
      claimed and a scorecard filled only from accepted, authentic records.
    - [trace_spec]: a trace is exactly what the graph reaches, and terminates.
    - [plan_gate_final], [reachable_evidence_binding] and the [flush_...]
      theorems: what holds of the stored rows whatever code ran.
    - [access_decision], [mutation_recorded], [token_roundtrip]: who may change
      anything, and that it is recorded.
    - [inbox_spec], [pages_complete], [cursor_roundtrip]: a reader who follows
      the cursors sees every row once, and an inbox only what waits for them;
      [redact_hides], [agent_reads_own_rows]: what a reader never sees.
    - [ingest_spec], [material_held], [proxy_mediates], [proxy_at_most_once]: the
      agent boundary.  A delivery of an action is one request: what it recorded
      is lost when it raises, so an action runs again only after every delivery
      that ran it raised ([run_twice] shows one that does).
    - [verify_revision_spec]: what the offline check of a revision accepts, and
      the stored MAC on which it raises.

    The other theorems ([close_revision_spec], [seal_body_injective],
    [lockout_spec], [timeline_sorted], [attribute_spec], [run_joins] and more)
    state the contract of the operation beside which they stand.

    ** Conventions

    An operation that may raise returns [result A] (below); one that changes
    state and may raise is a [StateError.ST].  A float is a [spec_float] of
    binary64, a timestamp is microseconds since the epoch with a flag for a time
    zone, a string is a list of code points below 256 (so no lone surrogate,
    which [body.encode()] in [agent_messaging.py] refuses).  Recursion is structural
    or has fuel computed from the input: [Json] (the shortest decimal that reads
    back, at most 17 digits for binary64), [JsonParse] (the length of the text,
    of which every step consumes some), [Sha256] (words and blocks, by their
    number), [Events] (the merge, by the number of events:
    [merge_heads_concat]), [Graph] (the walk, by the number of edges:
    [walk_Some]), [Keyset] (the pages, by the number of rows: [pages_complete]),
    [RunLoop.rounds] (on what the outside answered in each
    round: a run that has not ended after them is still in its loop, and the
    theorems about it hold after any number) and [Runtime] (the chain of superseded sessions, by
    the size of the map: [generation_total]).  Hash functions
    are defined, and where distinct inputs matter a theorem says which two byte
    strings would have to collide.

    ** Not modelled

    The HTTP layer ([api.py]) beyond its gate and the handlers named above,
    command lines and shims; the drivers of external agents, sandboxes and
    providers, and the shell scripts they carry; the default materiality
    patterns; log handlers and tracing; the Go orchestrator; database
    migrations.  Some library functions are arguments: IPv6 addresses, regular
    expressions a caller supplies, [datetime.fromisoformat], [urllib]'s
    [unquote], the iteration order of a set, and the rounding of a sum of
    floats.  Threads are represented by the interleavings of their steps
    ([Fleet]) and by what other requests commit during one operation. *)

From stdpp Require Export base gmap strings list pretty sorting.
From Stdlib Require Export ZArith Lia SpecFloat.
From Stdlib Require Ascii String.
Export Stdlib.Strings.Ascii (ascii(..), nat_of_ascii, ascii_of_nat).

#[global] Open Scope Z_scope.

(** ** Exceptions and the error monad

    A Python function that can raise returns [result A]: [Ok v] for a normal
    return, [Err e] for an exception.  The class of the exception is a
    constructor; the text is kept where the source builds it from strings and
    integers. *)

Inductive exn : Type :=
  | ValueError (msg : string)
  | TypeError (msg : string)
  | LookupError (msg : string)
  | KeyError (msg : string)
  | RuntimeError (msg : string)
  | PermissionError (msg : string)
  | TimeoutError (msg : string)
  | AssertionError
  | IntegrityError (msg : string)     (* the database refuses a row *)
  | PlanGateError (msg : string)
  | SeparationOfDutiesError (msg : string)
  | DecisionGateError (msg : string)
  | AcceptanceError (msg : string)
  | EvidenceMacKeyError (msg : string)
  | UntrustedEventError (msg : string)
  | HTTPException (status : Z) (detail : string) (headers : list (string * string))
  | OtherError (cls msg : string).

#[export] Instance exn_eq_dec : EqDecision exn.
Proof. solve_decision. Defined.

Inductive result (A : Type) : Type :=
  | Ok (a : A)
  | Err (e : exn).
Arguments Ok {A} _.
Arguments Err {A} _.

#[export] Instance result_ret : MRet result := fun A x => Ok x.
#[export] Instance result_bind : MBind result := fun A B f m =>
  match m with Ok x => f x | Err e => Err e end.
#[export] Instance result_fmap : FMap result := fun A B f m =>
  match m with Ok x => Ok (f x) | Err e => Err e end.

Definition is_ok {A} (r : result A) : bool :=
  match r with Ok _ => true | Err _ => false end.

(** [raise_if b e] is the statement [if b: raise e]. *)
Definition raise_if (b : bool) (e : exn) : result unit :=
  if b then Err e else Ok ().

(** [require_some o e] is [if o is None: raise e], continuing with the value. *)
Definition require_some {A} (o : option A) (e : exn) : result A :=
  match o with Some a => Ok a | None => Err e end.

(** [try_except m handler] is [try: return m except ...]: the handler answers
    for the exceptions it catches and re-raises by answering [None]. *)
Definition try_except {A} (m : result A) (handler : exn -> option A) : result A :=
  match m with
  | Ok a => Ok a
  | Err e => match handler e with Some a => Ok a | None => Err e end
  end.

Fixpoint result_map {A B} (f : A -> result B) (l : list A) : result (list B) :=
  match l with
  | [] => Ok []
  | x :: l => y ← f x; ys ← result_map f l; Ok (y :: ys)
  end.

(** A [for] loop whose body may raise and threads a state. *)
Fixpoint result_fold {A S} (f : S -> A -> result S) (s : S) (l : list A) : result S :=
  match l with
  | [] => Ok s
  | x :: l => s' ← f s x; result_fold f s' l
  end.

Section result_laws.
Context {A B : Type}.
Implicit Types (m : result A) (f : A -> result B).

Lemma bind_Ok (m : result A) f b :
  (m ≫= f) = Ok b <-> exists a, m = Ok a /\ f a = Ok b.
Proof.
  destruct m; simpl; split; [eauto|intros (? & [= ->] & ?); done|done|].
  by intros (? & ? & ?).
Qed.

Lemma bind_Err (m : result A) f e :
  (m ≫= f) = Err e <-> m = Err e \/ exists a, m = Ok a /\ f a = Err e.
Proof.
  destruct m; simpl; split; [eauto| |intros [= ->]; by left|].
  - by intros [?|(? & [= ->] & ?)].
  - by intros [[= ->]|(? & ? & ?)].
Qed.

Lemma raise_if_Ok b e u : raise_if b e = Ok u <-> b = false.
Proof. by destruct b, u. Qed.

Lemma raise_if_Err b e e' : raise_if b e = Err e' <-> b = true /\ e' = e.
Proof. destruct b; simpl; split; [by intros [= ->]|by intros [_ ->]|done|by intros []]. Qed.

Lemma require_some_Ok (o : option A) e a : require_some o e = Ok a <-> o = Some a.
Proof. destruct o; simpl; split; by intros [= ->]. Qed.

Lemma require_some_Err (o : option A) e e' :
  require_some o e = Err e' <-> o = None /\ e' = e.
Proof. destruct o; simpl; split; [done|by intros []|by intros [= ->]|by intros [_ ->]]. Qed.
End result_laws.

Create HintDb sdf discriminated.
Create Rewrite HintDb sdf.
#[export] Hint Rewrite @bind_Ok @bind_Err @raise_if_Ok @raise_if_Err
  @require_some_Ok @require_some_Err : sdf.

(** ** Tactics *)

(** Split every conjunction, existential and equation of constructors that the
    context holds. *)
Ltac crush_hyps :=
  repeat match goal with
  | H : _ /\ _ |- _ => destruct H
  | H : exists _, _ |- _ => destruct H
  | H : Ok _ = Ok _ |- _ => injection H as H; subst
  | H : Ok _ = Err _ |- _ => discriminate H
  | H : Err _ = Ok _ |- _ => discriminate H
  | H : Err _ = Err _ |- _ => injection H as H; subst
  | H : raise_if _ _ = Ok _ |- _ => apply raise_if_Ok in H
  | H : raise_if _ _ = Err _ |- _ => apply raise_if_Err in H
  | H : require_some _ _ = Ok _ |- _ => apply require_some_Ok in H
  | H : (_ ≫= _) = Ok _ |- _ => apply bind_Ok in H
  end.

(** Case split on the innermost scrutinee of a match or if in hypothesis [H]. *)
Ltac split_match_in H :=
  match type of H with
  | context [ match ?x with _ => _ end ] =>
      lazymatch x with
      | context [ match _ with _ => _ end ] => fail
      | _ => destruct x eqn:?
      end
  end.

(** Follow every branch of a computation that returned normally. *)
Ltac ok_split :=
  repeat (crush_hyps; simpl in *; try discriminate;
          match goal with H : _ = Ok _ |- _ => split_match_in H end);
  crush_hyps.

Ltac split_match_goal :=
  match goal with
  | |- context [ match ?x with _ => _ end ] =>
      lazymatch x with
      | context [ match _ with _ => _ end ] => fail
      | _ => destruct x eqn:?
      end
  end.

(** Turn boolean tests of the code into the propositions they decide. *)
Ltac boolify :=
  repeat match goal with
  | H : andb _ _ = true |- _ => apply andb_true_iff in H; destruct H
  | H : orb _ _ = false |- _ => apply orb_false_iff in H; destruct H
  | H : negb _ = true |- _ => apply negb_true_iff in H
  | H : negb _ = false |- _ => apply negb_false_iff in H
  | H : bool_decide _ = true |- _ => apply bool_decide_eq_true in H
  | H : bool_decide _ = false |- _ => apply bool_decide_eq_false in H
  | H : (_ <=? _) = true |- _ => apply Z.leb_le in H
  | H : (_ <=? _) = false |- _ => apply Z.leb_gt in H
  | H : (_ <? _) = true |- _ => apply Z.ltb_lt in H
  | H : (_ <? _) = false |- _ => apply Z.ltb_ge in H
  | H : (_ =? _)%Z = true |- _ => apply Z.eqb_eq in H
  | H : (_ =? _)%Z = false |- _ => apply Z.eqb_neq in H
  | |- andb _ _ = true => apply andb_true_iff; split
  | |- orb _ _ = false => apply orb_false_iff; split
  | |- negb _ = true => apply negb_true_iff
  | |- negb _ = false => apply negb_false_iff
  | |- bool_decide _ = true => apply bool_decide_eq_true
  | |- bool_decide _ = false => apply bool_decide_eq_false
  end.

(** ** Python strings

    A [str] is a [string] whose characters are code points; the text the code
    classifies (case, blanks, digits) is ASCII. *)

Definition str_len (s : string) : Z := Z.of_nat (String.length s).

(** [bool(s)] *)
Definition str_truthy (s : string) : bool :=
  match s with EmptyString => false | _ => true end.

(** [x or ""] on an optional string. *)
Definition or_empty (o : option string) : string := default "" o.

(** [bool(x)] on an optional string. *)
Definition opt_truthy (o : option string) : bool := str_truthy (or_empty o).

(** One character of [str.lower()] and [str.upper()], for a code point whose
    other case is below 256 too and is one character: sharp s, the micro sign
    and y with diaeresis stand for themselves. *)
Definition char_lower (c : ascii) : ascii :=
  let n := nat_of_ascii c in
  if ((65 <=? n) && (n <=? 90) || (192 <=? n) && (n <=? 222) && negb (n =? 215))%nat then ascii_of_nat (n + 32) else c.

Definition char_upper (c : ascii) : ascii :=
  let n := nat_of_ascii c in
  if ((97 <=? n) && (n <=? 122) || (224 <=? n) && (n <=? 254) && negb (n =? 247))%nat then ascii_of_nat (n - 32) else c.

Fixpoint str_map (f : ascii -> ascii) (s : string) : string :=
  match s with
  | EmptyString => EmptyString
  | String c s => String (f c) (str_map f s)
  end.

Definition str_lower : string -> string := str_map char_lower.
Definition str_upper : string -> string := str_map char_upper.

Fixpoint str_forallb (f : ascii -> bool) (s : string) : bool :=
  match s with
  | EmptyString => true
  | String c s => f c && str_forallb f s
  end.

Definition is_space (c : ascii) : bool :=
  let n := nat_of_ascii c in
  ((9 <=? n)%nat && (n <=? 13)%nat) || ((28 <=? n)%nat && (n <=? 32)%nat) || (n =? 133)%nat || (n =? 160)%nat.
Definition is_digit (c : ascii) : bool :=
  let n := nat_of_ascii c in (48 <=? n)%nat && (n <=? 57)%nat.
Definition is_upper (c : ascii) : bool :=
  let n := nat_of_ascii c in (65 <=? n)%nat && (n <=? 90)%nat.
Definition is_lower (c : ascii) : bool :=
  let n := nat_of_ascii c in (97 <=? n)%nat && (n <=? 122)%nat.
Definition is_alnum (c : ascii) : bool := is_digit c || is_upper c || is_lower c.

Fixpoint str_lstrip (s : string) : string :=
  match s with
  | EmptyString => EmptyString
  | String c t => if is_space c then str_lstrip t else s
  end.

Fixpoint str_rstrip (s : string) : string :=
  match s with
  | EmptyString => EmptyString
  | String c t =>
      match str_rstrip t with
      | EmptyString => if is_space c then EmptyString else String c EmptyString
      | t' => String c t'
      end
  end.

Definition str_strip (s : string) : string := str_rstrip (str_lstrip s).

(** [s[:n]] for [n >= 0]. *)
Definition str_take (n : nat) (s : string) : string := String.substring 0 n s.

(** What follows a prefix. *)
Fixpoint strip_prefix (p s : string) : option string :=
  match p, s with
  | EmptyString, _ => Some s
  | String a p, String b s => if bool_decide (a = b) then strip_prefix p s else None
  | _, _ => None
  end.

Definition str_startswith (p s : string) : bool := String.prefix p s.

(** [needle in s] *)
Fixpoint str_contains (needle s : string) : bool :=
  String.prefix needle s ||
  match s with EmptyString => false | String _ t => str_contains needle t end.

(** [c in s] for one character. *)
Fixpoint str_has_char (c : ascii) (s : string) : bool :=
  match s with
  | EmptyString => false
  | String d t => bool_decide (c = d) || str_has_char c t
  end.

(** [s.split(c)] for a one-character separator. *)
Fixpoint str_split (c : ascii) (s : string) : list string :=
  match s with
  | EmptyString => [""]
  | String d t =>
      if bool_decide (c = d) then "" :: str_split c t
      else match str_split c t with
           | [] => [String d EmptyString]
           | w :: ws => String d w :: ws
           end
  end.

Fixpoint str_join (sep : string) (l : list string) : string :=
  match l with
  | [] => ""
  | [x] => x
  | x :: l => x +:+ sep +:+ str_join sep l
  end.

Definition str_in (s : string) (l : list string) : bool := bool_decide (s ∈ l).

(** Python's [==] on strings and on [None | str]. *)
Definition str_eq (s t : string) : bool := bool_decide (s = t).
Definition opt_str_eq (a b : option string) : bool := bool_decide (a = b).

(** Python's [<=] on strings: by code point. *)
Definition str_le (s t : string) : bool := String.leb s t.

(** ** Python floats

    IEEE 754 binary64 with its rounding, NaN and infinities included. *)

Abbreviation float := spec_float.
Definition f_add : float -> float -> float := SFadd 53 1024.
Definition f_sub : float -> float -> float := SFsub 53 1024.
Definition f_mul : float -> float -> float := SFmul 53 1024.
Definition f_div : float -> float -> float := SFdiv 53 1024.
Definition f_neg : float -> float := SFopp.
Definition f_lt : float -> float -> bool := SFltb.
Definition f_le : float -> float -> bool := SFleb.
Definition f_eq : float -> float -> bool := SFeqb.
Definition f_of_Z (z : Z) : float := binary_normalize 53 1024 z 0 false.
Definition f_zero : float := S754_zero false.

#[export] Instance float_eq_dec : EqDecision float.
Proof. solve_decision. Defined.

(** The double nearest to [num / den]: what a decimal literal denotes. *)
Definition f_ratio (num : Z) (den : positive) : float :=
  match num with
  | Z0 => f_zero
  | Zpos p => SFdiv 53 1024 (S754_finite false p 0) (S754_finite false den 0)
  | Zneg p => SFdiv 53 1024 (S754_finite true p 0) (S754_finite false den 0)
  end.

(** Truthiness of a float: [bool(x)] is false only for the zeros. *)
Definition f_truthy (x : float) : bool :=
  match x with S754_zero _ => false | _ => true end.

(** ** Instants

    A [datetime] is an instant in microseconds and whether it carries a time
    zone; comparing an aware with a naive value raises, as in Python. *)

Record datetime : Type := DateTime { dt_us : Z; dt_aware : bool }.

#[export] Instance datetime_eq_dec : EqDecision datetime.
Proof. solve_decision. Defined.

Definition dt_le (a b : datetime) : result bool :=
  if Bool.eqb a.(dt_aware) b.(dt_aware) then Ok (a.(dt_us) <=? b.(dt_us))
  else Err (TypeError "can't compare offset-naive and offset-aware datetimes").

(** [value.replace(tzinfo=utc)] when the value is naive. *)
Definition aware (d : datetime) : datetime := DateTime d.(dt_us) true.

Definition dt_add (d : datetime) (us : Z) : datetime := DateTime (d.(dt_us) + us) d.(dt_aware).

Definition seconds : Z := 1000000.
Definition hours : Z := 3600 * seconds.

(** ** Sorting by a key

    Python's [sorted(l, key=k)] is stable; insertion that stops at the first
    strictly greater key is the same permutation. *)

Section sort_by.
Context {A : Type} (le : A -> A -> bool).

Fixpoint insert_by (x : A) (l : list A) : list A :=
  match l with
  | [] => [x]
  | y :: l => if le x y then x :: y :: l else y :: insert_by x l
  end.

Definition sort_by (l : list A) : list A := foldr insert_by [] l.

Lemma insert_by_perm x l : insert_by x l ≡ₚ x :: l.
Proof.
  induction l as [|y l IH]; simpl; [done|].
  destruct (le x y); [done|]. rewrite IH. apply Permutation_swap.
Qed.

Lemma sort_by_perm l : sort_by l ≡ₚ l.
Proof. induction l as [|x l IH]; simpl; [done|]. by rewrite insert_by_perm, IH. Qed.

Lemma sort_by_length l : length (sort_by l) = length l.
Proof. apply Permutation_length, sort_by_perm. Qed.

Context (le_total : forall a b, le a b = true \/ le b a = true).
Context (le_trans : forall a b c, le a b = true -> le b c = true -> le a c = true).

Lemma insert_by_sorted x l :
  StronglySorted (fun a b => le a b = true) l ->
  StronglySorted (fun a b => le a b = true) (insert_by x l).
Proof.
  induction 1 as [|y l Hl IH Hy]; simpl.
  { repeat constructor. }
  destruct (le x y) eqn:E.
  - constructor; [by constructor|]. constructor; [done|].
    eapply Forall_impl; [exact Hy|]. simpl. eauto.
  - constructor; [done|]. rewrite insert_by_perm. constructor; [|done].
    destruct (le_total x y); congruence.
Qed.

Lemma sort_by_sorted l : StronglySorted (fun a b => le a b = true) (sort_by l).
Proof. induction l; simpl; [constructor|by apply insert_by_sorted]. Qed.
End sort_by.

(** [max(l, key=...)] keeps the first of equal keys; [gt a b] says the key of
    [a] is strictly greater. *)
Section max_by.
Context {A : Type} (gt : A -> A -> bool).

Definition max_by (x : A) (l : list A) : A :=
  fold_left (fun best y => if gt y best then y else best) l x.

Lemma max_by_elem x l : max_by x l = x \/ max_by x l ∈ l.
Proof.
  unfold max_by. revert x. induction l as [|y l IH]; intros x; simpl; [by left|].
  destruct (IH (if gt y x then y else x)) as [->|H].
  - destruct (gt y x); [right|left]; set_solver.
  - right. set_solver.
Qed.

Context (P : A -> Prop).
Context (gt_negtrans : forall a b c, P a -> P b -> P c -> gt a b = false -> gt b c = false -> gt a c = false).
Context (gt_asym : forall a b, P a -> P b -> gt a b = true -> gt b a = false).

Lemma max_by_ge_start x l : P x -> Forall P l -> gt x (max_by x l) = false.
Proof using gt_negtrans gt_asym.
  unfold max_by. intros Hx Hl. revert x Hx. induction Hl as [|y l Hy Hl IH]; intros x Hx; simpl.
  { destruct (gt x x) eqn:E; [|done]. by rewrite (gt_asym _ _ Hx Hx E) in E. }
  destruct (gt y x) eqn:E; [|by apply IH].
  apply (gt_negtrans _ y); [done|done| |by apply gt_asym|by apply IH].
  change (P (max_by y l)). destruct (max_by_elem y l) as [->|H]; [done|].
  rewrite Forall_forall in Hl. by apply Hl.
Qed.

Lemma max_by_ge x l y : P x -> Forall P l -> y ∈ l -> gt y (max_by x l) = false.
Proof using gt_negtrans gt_asym.
  intros Hx Hl. revert x Hx. induction Hl as [|z l Hz Hl IH]; intros x Hx Hy; [by apply not_elem_of_nil in Hy|].
  assert (P (if gt z x then z else x)) as Hb by by destruct (gt z x).
  apply elem_of_cons in Hy as [->|Hy]; [|by apply (IH _ Hb)].
  change (gt z (max_by (if gt z x then z else x) l) = false).
  pose proof (max_by_ge_start _ _ Hb Hl) as Hm.
  destruct (gt z x) eqn:E; [done|].
  apply (gt_negtrans _ x); [done|done| |done|done].
  destruct (max_by_elem x l) as [->|H]; [done|].
  rewrite Forall_forall in Hl. by apply Hl.
Qed.
End max_by.

(** [range(1, n)] *)
Definition range1 (n : Z) : list Z := seqZ 1 (n - 1).

(** [sum(xs)] on integers. *)
Definition sumZ (l : list Z) : Z := foldr Z.add 0 l.

Lemma sumZ_app l k : sumZ (l ++ k) = sumZ l + sumZ k.
Proof. induction l; simpl; lia. Qed.

Lemma sumZ_nonneg l : Forall (fun x => 0 <= x) l -> 0 <= sumZ l.
Proof. induction 1; simpl; lia. Qed.

(** ** Membership in mapped and filtered lists *)

Lemma elem_map {A B} (f : A -> B) l y : y ∈ map f l <-> exists x, x ∈ l /\ y = f x.
Proof.
  rewrite list_elem_of_In, List.in_map_iff. setoid_rewrite <- list_elem_of_In. naive_solver.
Qed.

Lemma elem_filterb {A} (p : A -> bool) l x : x ∈ List.filter p l <-> x ∈ l /\ p x = true.
Proof. by rewrite list_elem_of_In, List.filter_In, <- list_elem_of_In. Qed.

(** Leaving rows out keeps the order of the others. *)
Lemma filter_sorted {A} (R : A -> A -> Prop) (p : A -> bool) l : StronglySorted R l -> StronglySorted R (List.filter p l).
Proof.
  induction 1 as [|x l Hl IH Hx]; [constructor|]. cbn [List.filter]. destruct (p x); [|done]. constructor; [done|].
  rewrite Forall_forall in Hx |- *. intros y [Hy _]%elem_filterb. by apply Hx.
Qed.

Lemma result_map_elem {A B} (f : A -> result B) l l' :
  result_map f l = Ok l' -> forall y, y ∈ l' <-> exists x, x ∈ l /\ f x = Ok y.
Proof.
  revert l'. induction l as [|x l IH]; simpl; intros l' H y.
  - injection H as <-. split; [by intros ?%not_elem_of_nil|by intros (? & ?%not_elem_of_nil & _)].
  - apply bind_Ok in H as (z & Hz & H). apply bind_Ok in H as (zs & Hzs & [= <-]).
    rewrite elem_of_cons, (IH _ Hzs). setoid_rewrite elem_of_cons.
    split; [intros [->|(w & ? & ?)]; eauto|]. intros (w & [->|?] & ?); [left; congruence|eauto].
Qed.

Lemma result_map_nil {A B} (f : A -> result B) l : result_map f l = Ok [] -> l = [].
Proof. destruct l as [|x l]; [done|]. simpl. intros (y & _ & H)%bind_Ok. by apply bind_Ok in H as (ys & _ & [=]). Qed.

Lemma NoDup_map_inj {A B} (f : A -> B) (l : list A) x y :
  NoDup (map f l) -> x ∈ l -> y ∈ l -> f x = f y -> x = y.
Proof.
  induction l as [|a l IH]; simpl; intros Hnd Hx Hy Hf; [by apply not_elem_of_nil in Hx|].
  apply NoDup_cons in Hnd as [Ha Hnd].
  assert (forall z, z ∈ l -> f z ∈ map f l) as Hin.
  { intros z Hz. apply list_elem_of_In, List.in_map, list_elem_of_In. done. }
  apply elem_of_cons in Hx as [->|Hx]; apply elem_of_cons in Hy as [->|Hy]; auto.
  - exfalso. apply Ha. rewrite Hf. auto.
  - exfalso. apply Ha. rewrite <- Hf. auto.
Qed.

(** ** Orders as boolean tests *)

Lemma str_le_total a b : str_le a b = true \/ str_le b a = true.
Proof. apply String.leb_total. Qed.

Lemma str_le_antisym a b : str_le a b = true -> str_le b a = true -> a = b.
Proof. apply String.leb_antisym. Qed.

Lemma str_le_cons a b s t :
  str_le (String a s) (String b t) =
  (N.ltb (Ascii.N_of_ascii a) (Ascii.N_of_ascii b)) || (bool_decide (a = b) && str_le s t).
Proof.
  unfold str_le, String.leb. simpl. unfold Ascii.compare, N.ltb.
  destruct (N.compare_spec (Ascii.N_of_ascii a) (Ascii.N_of_ascii b)) as [E|E|E]; simpl.
  - apply (f_equal Ascii.ascii_of_N) in E. rewrite !Ascii.ascii_N_embedding in E.
    by rewrite bool_decide_eq_true_2.
  - done.
  - rewrite bool_decide_eq_false_2; [done|]. intros ->. lia.
Qed.

Lemma str_le_trans a b c : str_le a b = true -> str_le b c = true -> str_le a c = true.
Proof.
  revert b c. induction a as [|x a IH]; intros [|y b] [|z c]; try done.
  rewrite !str_le_cons, !orb_true_iff, !andb_true_iff, !bool_decide_eq_true, !N.ltb_lt.
  intros [H|[-> H]] [K|[-> K]]; [left; lia|by left|by left|right; eauto].
Qed.

(** A strict weak order on the elements [P] describes. *)
Record swo {A} (P : A -> Prop) (lt : A -> A -> bool) : Prop := {
  swo_asym : forall a b, P a -> P b -> lt a b = true -> lt b a = false;
  swo_negtrans : forall a b c, P a -> P b -> P c -> lt a b = false -> lt b c = false -> lt a c = false
}.

Lemma swo_map {A B} (f : B -> A) (P : A -> Prop) (Q : B -> Prop) lt :
  (forall b, Q b -> P (f b)) -> swo P lt -> swo Q (fun a b => lt (f a) (f b)).
Proof. intros HQ [Ha Hn]. split; eauto. Qed.

Lemma swo_flip {A} (P : A -> Prop) lt : swo P lt -> swo P (fun a b => lt b a).
Proof. intros [Ha Hn]. split; eauto. Qed.

(** Comparing by one key, and by a second where the first are equal. *)
Lemma swo_lex {A} (P : A -> Prop) (eq1 lt1 lt2 : A -> A -> bool) :
  (forall a b, P a -> P b -> eq1 a b = negb (lt1 a b) && negb (lt1 b a)) ->
  swo P lt1 -> swo P lt2 -> swo P (fun a b => if negb (eq1 a b) then lt1 a b else lt2 a b).
Proof.
  intros He [Ha Hn] [Ha2 Hn2]. split.
  - intros a b Pa Pb. rewrite (He a b), (He b a) by done.
    pose proof (Ha a b Pa Pb). pose proof (Ha b a Pb Pa). pose proof (Ha2 a b Pa Pb).
    destruct (lt1 a b), (lt1 b a); simpl in *; auto.
  - intros a b c Pa Pb Pc. rewrite (He a b), (He b c), (He a c) by done.
    pose proof (Ha a b Pa Pb). pose proof (Ha b c Pb Pc). pose proof (Ha a c Pa Pc).
    pose proof (Hn a b c Pa Pb Pc). pose proof (Hn c b a Pc Pb Pa). pose proof (Hn2 a b c Pa Pb Pc).
    pose proof (Hn a c b Pa Pc Pb). pose proof (Hn b a c Pb Pa Pc). pose proof (Hn c a b Pc Pa Pb).
    pose proof (Hn b c a Pb Pc Pa).
    destruct (lt1 a b), (lt1 b a), (lt1 b c), (lt1 c b), (lt1 a c), (lt1 c a); simpl in *; auto;
      intuition congruence.
Qed.

Lemma swo_Z {A} (P : A -> Prop) (k : A -> Z) : swo P (fun a b => k a <? k b).
Proof. split; intros; boolify; lia. Qed.

Lemma swo_str {A} (P : A -> Prop) (k : A -> string) : swo P (fun a b => negb (str_le (k b) (k a))).
Proof.
  split.
  - intros a b _ _ H. apply negb_true_iff in H. apply negb_false_iff.
    by destruct (str_le_total (k a) (k b)) as [|E]; [|congruence].
  - intros a b c _ _ _ H%negb_false_iff K%negb_false_iff. apply negb_false_iff. eauto using str_le_trans.
Qed.

Lemma result_map_all {A B} (f : A -> result B) l l' x :
  result_map f l = Ok l' -> x ∈ l -> exists y, f x = Ok y.
Proof.
  revert l'. induction l as [|z l IH]; simpl; intros l' H Hx; [by apply not_elem_of_nil in Hx|].
  apply bind_Ok in H as (y & Hy & H). apply bind_Ok in H as (ys & Hys & _).
  apply elem_of_cons in Hx as [->|Hx]; eauto.
Qed.

(** ** Grouping

    [groups.setdefault(key(x), []).append(x)] over a list: a dict from key to
    the elements with that key, in insertion order. *)

Section group.
Context {A K : Type} `{EqDecision K} (key : A -> K).

Fixpoint group_add (x : A) (g : list (K * list A)) : list (K * list A) :=
  match g with
  | [] => [(key x, [x])]
  | (k, xs) :: g => if decide (k = key x) then (k, xs ++ [x]) :: g else (k, xs) :: group_add x g
  end.

Definition group (l : list A) : list (K * list A) := fold_left (fun g x => group_add x g) l [].

Definition members (k : K) (l : list A) : list A := List.filter (fun x => bool_decide (key x = k)) l.

Lemma group_add_keys x g k : k ∈ map fst (group_add x g) <-> k = key x \/ k ∈ map fst g.
Proof.
  induction g as [|[k' xs] g IH]; simpl; [by rewrite !elem_of_cons|].
  destruct (decide (k' = key x)) as [->|]; simpl; rewrite !elem_of_cons; [tauto|]. rewrite IH. tauto.
Qed.

Lemma group_add_NoDup x g : NoDup (map fst g) -> NoDup (map fst (group_add x g)).
Proof.
  induction g as [|[k' xs] g IH]; simpl; [intros; by repeat constructor; apply not_elem_of_nil|].
  intros [Hk Hnd]%NoDup_cons. destruct (decide (k' = key x)); simpl; apply NoDup_cons; [done|].
  split; [|auto]. rewrite group_add_keys. naive_solver.
Qed.

Lemma group_add_elem x g k ys : NoDup (map fst g) ->
  (k, ys) ∈ group_add x g <->
  (k <> key x /\ (k, ys) ∈ g) \/ (k = key x /\ k ∉ map fst g /\ ys = [x]) \/
  (k = key x /\ exists xs, (k, xs) ∈ g /\ ys = xs ++ [x]).
Proof.
  induction g as [|[k' xs] g IH]; simpl.
  { intros _. rewrite list_elem_of_singleton. split.
    - intros [= -> ->]. right; left. split_and!; [done|by apply not_elem_of_nil|done].
    - intros [[_ []%not_elem_of_nil]|[(-> & _ & ->)|(_ & ? & []%not_elem_of_nil & _)]]; done. }
  intros [Hk Hnd]%NoDup_cons.
  assert (forall zs, (k', zs) ∈ g -> False) as Hout.
  { intros zs Hin. apply Hk, elem_map. by exists (k', zs). }
  destruct (decide (k' = key x)) as [->|Hne]; rewrite !elem_of_cons; [|rewrite (IH Hnd)];
    setoid_rewrite elem_of_cons; split; naive_solver.
Qed.

Lemma group_snoc l x : group (l ++ [x]) = group_add x (group l).
Proof. unfold group. by rewrite fold_left_app. Qed.

Lemma members_snoc k l x : members k (l ++ [x]) = members k l ++ (if bool_decide (key x = k) then [x] else []).
Proof. unfold members. rewrite List.filter_app. simpl. by destruct (bool_decide _). Qed.

Lemma elem_members k l x : x ∈ members k l <-> x ∈ l /\ key x = k.
Proof. unfold members. by rewrite elem_filterb, bool_decide_eq_true. Qed.

(** A group holds the elements of its key, in order; every key that occurs has
    exactly one group. *)
Lemma group_spec l : NoDup (map fst (group l)) /\
  forall k xs, (k, xs) ∈ group l <-> xs = members k l /\ xs <> [].
Proof.
  induction l as [|x l [IHn IH]] using rev_ind.
  - split; [constructor|]. intros k xs. split; [by intros ?%not_elem_of_nil|by intros [-> []]].
  - rewrite group_snoc. split; [by apply group_add_NoDup|]. intros k xs.
    rewrite (group_add_elem _ _ _ _ IHn), members_snoc. setoid_rewrite IH.
    assert (k ∈ map fst (group l) <-> members k l <> []) as Hkeys.
    { rewrite elem_map. split.
      - intros ([k' ys] & [-> ?]%IH & ->). done.
      - intros Hne. exists (k, members k l). split; [by apply IH|done]. }
    rewrite Hkeys. case_bool_decide as Hd.
    + subst k. split.
      * intros [[]|[(_ & Hn & ->)|(_ & ys & [-> _] & ->)]]; [done| |split; [done|by destruct (members _ l)]].
        destruct (members (key x) l); [done|]. exfalso. by apply Hn.
      * intros [-> _]. right. destruct (members (key x) l) as [|y ys] eqn:E; [left|right; split; [done|]; eauto].
        split_and!; [done| |done]. by intros [].
    + rewrite app_nil_r. split; [|intros [-> ?]; left; split; [congruence|done]].
      intros [[_ ?]|[(-> & _)|(-> & _)]]; done.
Qed.

Lemma group_concat_perm l : concat (map snd (group l)) ≡ₚ l.
Proof.
  induction l as [|x l IH] using rev_ind; [done|]. rewrite group_snoc.
  transitivity (concat (map snd (group l)) ++ [x]); [|by rewrite IH].
  generalize (group l) as g. clear. induction g as [|[k xs] g IH]; simpl; [done|].
  destruct (decide (k = key x)); simpl; [|by rewrite IH, app_assoc].
  rewrite <- !app_assoc. apply Permutation_app_head, Permutation_app_comm.
Qed.
End group.

(** The repr of a string, as f-strings print it with [!r]. *)
Definition repr_char (quote : ascii) (c : ascii) : string :=
  let n := nat_of_ascii c in
  let esc (s : string) := String (ascii_of_nat 92) s in
  let hexd (d : nat) := String (ascii_of_nat (if (d <? 10)%nat then 48 + d else 87 + d)) "" in
  if (n =? 92)%nat || bool_decide (c = quote) then esc (String c "")
  else if (n =? 9)%nat then esc "t" else if (n =? 10)%nat then esc "n" else if (n =? 13)%nat then esc "r"
  else if (n <? 32)%nat || ((127 <=? n)%nat && (n <=? 160)%nat) || (n =? 173)%nat
  then esc ("x" +:+ hexd (n / 16)%nat +:+ hexd (n mod 16)%nat)
  else String c "".

Fixpoint str_concat_map (f : ascii -> string) (s : string) : string :=
  match s with EmptyString => "" | String c s => f c +:+ str_concat_map f s end.

Definition str_repr (s : string) : string :=
  let single := ascii_of_nat 39 in
  let double := ascii_of_nat 34 in
  let quote := if str_has_char single s && negb (str_has_char double s) then double else single in
  String quote (str_concat_map (repr_char quote) s) +:+ String quote "".

Lemma swo_ext {A} (P : A -> Prop) (lt lt' : A -> A -> bool) :
  (forall a b, P a -> P b -> lt a b = lt' a b) -> swo P lt' -> swo P lt.
Proof.
  intros He [Ha Hn]. split.
  - intros a b Pa Pb. rewrite !He by done. auto.
  - intros a b c Pa Pb Pc. rewrite !He by done. eauto.
Qed.

(** Comparing by an integer key first. *)
Lemma swo_lex_Z {A} (P : A -> Prop) (k : A -> Z) (lt2 : A -> A -> bool) :
  swo P lt2 -> swo P (fun a b => if negb (k a =? k b) then k a <? k b else lt2 a b).
Proof.
  intros H2. apply (swo_lex P (fun a b => k a =? k b) (fun a b => k a <? k b)); [|apply swo_Z|done].
  intros a b _ _. apply eq_true_iff_eq. rewrite andb_true_iff, !negb_true_iff, Z.eqb_eq, !Z.ltb_ge. lia.
Qed.

Lemma max_by_elem_cons {A} (gt : A -> A -> bool) x l : max_by gt x l ∈ x :: l.
Proof. rewrite elem_of_cons. apply max_by_elem. Qed.

Lemma max_by_maximal {A} (P : A -> Prop) (gt : A -> A -> bool) x l y :
  swo P gt -> Forall P (x :: l) -> y ∈ x :: l -> gt y (max_by gt x l) = false.
Proof.
  intros [Ha Hn] [Hx Hl]%Forall_cons [->|Hy]%elem_of_cons.
  - by apply (max_by_ge_start gt P).
  - by apply (max_by_ge gt P).
Qed.

(** The extreme element of a list does not depend on the order of the list
    when the order separates its elements. *)
Lemma max_by_perm {A} (P : A -> Prop) (gt : A -> A -> bool) x l y k :
  swo P gt -> Forall P (x :: l) -> x :: l ≡ₚ y :: k ->
  (forall a b, a ∈ x :: l -> b ∈ x :: l -> gt a b = false -> gt b a = false -> a = b) ->
  max_by gt x l = max_by gt y k.
Proof.
  intros Hs HP Hp Hsep.
  assert (Forall P (y :: k)) as HP' by by rewrite <- Hp.
  assert (max_by gt y k ∈ x :: l) as Hin by (rewrite Hp; apply max_by_elem_cons).
  apply Hsep; [apply max_by_elem_cons|done| |].
  - apply (max_by_maximal P); [done|done|]. rewrite <- Hp. apply max_by_elem_cons.
  - by apply (max_by_maximal P).
Qed.

(** [type(exc).__name__] and [str(exc)]. *)
Definition exn_class (e : exn) : string :=
  match e with
  | ValueError _ => "ValueError" | TypeError _ => "TypeError" | LookupError _ => "LookupError"
  | KeyError _ => "KeyError" | RuntimeError _ => "RuntimeError" | PermissionError _ => "PermissionError"
  | TimeoutError _ => "TimeoutError" | AssertionError => "AssertionError" | IntegrityError _ => "IntegrityError"
  | PlanGateError _ => "PlanGateError" | SeparationOfDutiesError _ => "SeparationOfDutiesError"
  | DecisionGateError _ => "DecisionGateError" | AcceptanceError _ => "AcceptanceError"
  | EvidenceMacKeyError _ => "EvidenceMacKeyError" | UntrustedEventError _ => "UntrustedEventError"
  | HTTPException _ _ _ => "HTTPException"
  | OtherError cls _ => cls
  end.

(** [str] of a [KeyError] is the repr of its key. *)
Definition exn_text (e : exn) : string :=
  match e with
  | KeyError m => str_repr m
  | AssertionError => ""
  | HTTPException status detail _ => pretty status +:+ ": " +:+ detail
  | ValueError m | TypeError m | LookupError m | RuntimeError m | PermissionError m | TimeoutError m
  | IntegrityError m | PlanGateError m | SeparationOfDutiesError m | DecisionGateError m | AcceptanceError m
  | EvidenceMacKeyError m | UntrustedEventError m | OtherError _ m => m
  end.

(** ** Blank strings *)

Lemma str_rstrip_blank s : str_rstrip s = "" <-> str_forallb is_space s = true.
Proof.
  induction s as [|c s IH]; [done|]. simpl. rewrite andb_true_iff, <- IH.
  destruct (str_rstrip s); [|split; [done|by intros [_ ?]]].
  destruct (is_space c); split; try done. by intros [? _].
Qed.

Lemma str_lstrip_blank s : str_forallb is_space (str_lstrip s) = str_forallb is_space s.
Proof. induction s as [|c s IH]; [done|]. simpl. destruct (is_space c) eqn:E; simpl; [done|by rewrite E]. Qed.

Lemma str_strip_truthy s : str_truthy (str_strip s) = negb (str_forallb is_space s).
Proof.
  unfold str_strip. rewrite <- (str_lstrip_blank s).
  destruct (str_forallb is_space (str_lstrip s)) eqn:E.
  - by apply str_rstrip_blank in E as ->.
  - destruct (str_rstrip (str_lstrip s)) eqn:F; [|done]. apply str_rstrip_blank in F. congruence.
Qed.

Lemma str_forallb_app f s t : str_forallb f (s +:+ t) = str_forallb f s && str_forallb f t.
Proof. induction s as [|c s IH]; [done|]. simpl. by rewrite IH, andb_assoc. Qed.

Lemma result_map_Err {A B} (f : A -> result B) l e : result_map f l = Err e -> exists x, x ∈ l /\ f x = Err e.
Proof.
  induction l as [|x l IH]; simpl; [done|]. intros [H|(y & _ & [H|(ys & _ & H)]%bind_Err)]%bind_Err; [| |done].
  - exists x. split; [left|done].
  - destruct (IH H) as (z & Hz & Hf). exists z. split; [by right|done].
Qed.

(** ** Concatenation of strings *)

Lemma str_app_cons c a b : String c a +:+ b = String c (a +:+ b).
Proof. done. Qed.

Lemma str_app_nil b : "" +:+ b = b.
Proof. done. Qed.

Lemma str_app_empty a : a +:+ "" = a.
Proof. induction a as [|c a IH]; [done|]. by rewrite str_app_cons, IH. Qed.

Lemma str_app_assoc a b c : (a +:+ b) +:+ c = a +:+ b +:+ c.
Proof. induction a as [|x a IH]; [done|]. rewrite !str_app_cons. f_equal. exact IH. Qed.

(** A separator that neither prefix contains splits a text one way. *)
Lemma str_cut sep a b x y : str_has_char sep a = false -> str_has_char sep b = false ->
  a +:+ String sep x = b +:+ String sep y -> a = b /\ x = y.
Proof.
  revert b. induction a as [|c a IH]; intros [|d b]; rewrite ?str_app_cons, ?str_app_nil;
    cbn [str_has_char]; intros Ha Hb H; simplify_eq; boolify; try done.
  destruct (IH b) as [-> ->]; done.
Qed.

Lemma has_char_app c a b : str_has_char c (a +:+ b) = str_has_char c a || str_has_char c b.
Proof. induction a as [|d a IH]; [done|]. rewrite str_app_cons. cbn [str_has_char]. by rewrite <- orb_assoc, <- IH. Qed.
