(* ===== verification/Floats.v ===== *)
(** * Floats: the order on Python numbers

    Facts about the comparison of binary64 values (a total preorder once NaN is
    excluded), and Python's exact comparison of a float with an integer. *)

From S2P Require Import Prelude.

Definition f_is_nan (x : float) : bool :=
  match x with S754_nan => true | _ => false end.

(** [x] compared with the integer [z], without rounding [z]. *)
Definition f_cmp_Z (x : float) (z : Z) : option comparison :=
  match x with
  | S754_zero _ => Some (0 ?= z)
  | S754_infinity s => Some (if s then Lt else Gt)
  | S754_nan => None
  | S754_finite s m e =>
      let v := if s then Zneg m else Zpos m in
      Some (if 0 <=? e then v * 2 ^ e ?= z else v ?= z * 2 ^ (- e))
  end.

Definition f_gt_Z (x : float) (z : Z) : bool := bool_decide (f_cmp_Z x z = Some Gt).
Definition f_lt_Z (x : float) (z : Z) : bool := bool_decide (f_cmp_Z x z = Some Lt).
Definition f_le_Z (x : float) (z : Z) : bool :=
  match f_cmp_Z x z with Some Lt | Some Eq => true | _ => false end.

(** The position of a number in the order, read lexicographically. *)
Definition rank (x : float) : Z * Z * Z :=
  match x with
  | S754_infinity true => (-2, 0, 0)
  | S754_finite true m e => (-1, - e, - Zpos m)
  | S754_zero _ | S754_nan => (0, 0, 0)
  | S754_finite false m e => (1, e, Zpos m)
  | S754_infinity false => (2, 0, 0)
  end.

Definition rank_compare (a b : Z * Z * Z) : comparison :=
  match a.1.1 ?= b.1.1 with
  | Eq => match a.1.2 ?= b.1.2 with Eq => a.2 ?= b.2 | c => c end
  | c => c
  end.

Definition rank_lt (a b : Z * Z * Z) : Prop :=
  a.1.1 < b.1.1 \/ (a.1.1 = b.1.1 /\ (a.1.2 < b.1.2 \/ (a.1.2 = b.1.2 /\ a.2 < b.2))).

Lemma rank_compare_spec a b :
  match rank_compare a b with Lt => rank_lt a b | Gt => rank_lt b a | Eq => a = b end.
Proof.
  destruct a as [[a1 a2] a3], b as [[b1 b2] b3]. unfold rank_compare, rank_lt. simpl.
  destruct (Z.compare_spec a1 b1); [|lia|lia].
  destruct (Z.compare_spec a2 b2); [|lia|lia].
  destruct (Z.compare_spec a3 b3); [congruence|lia|lia].
Qed.

Lemma SFcompare_rank x y : f_is_nan x = false -> f_is_nan y = false ->
  SFcompare x y = Some (rank_compare (rank x) (rank y)).
Proof.
  intros Hx Hy.
  destruct x as [sx|sx| |sx mx ex], y as [sy|sy| |sy my ey]; try discriminate;
    try destruct sx; try destruct sy; try reflexivity; simpl; unfold rank_compare; simpl.
  - rewrite Z.compare_opp, (Z.compare_antisym ex ey). by destruct (ex ?= ey).
Qed.

Lemma f_lt_rank x y : f_is_nan x = false -> f_is_nan y = false ->
  f_lt x y = true <-> rank_lt (rank x) (rank y).
Proof.
  intros Hx Hy. unfold f_lt, SFltb. rewrite SFcompare_rank by done.
  pose proof (rank_compare_spec (rank x) (rank y)) as H.
  destruct (rank_compare _ _); split; try done; unfold rank_lt in *; [rewrite H|]; lia.
Qed.

Lemma f_le_rank x y : f_is_nan x = false -> f_is_nan y = false ->
  f_le x y = true <-> ~ rank_lt (rank y) (rank x).
Proof.
  intros Hx Hy. unfold f_le, SFleb. rewrite SFcompare_rank by done.
  pose proof (rank_compare_spec (rank x) (rank y)) as H.
  destruct (rank_compare _ _); split; try done; unfold rank_lt in *; [rewrite H|]; lia.
Qed.

Lemma f_eq_rank x y : f_is_nan x = false -> f_is_nan y = false ->
  f_eq x y = true <-> rank x = rank y.
Proof.
  intros Hx Hy. unfold f_eq, SFeqb. rewrite SFcompare_rank by done.
  pose proof (rank_compare_spec (rank x) (rank y)) as H.
  destruct (rank_compare _ _); split; try done; unfold rank_lt in *; intros E; rewrite E in H; lia.
Qed.

(** On numbers, [<=] is the negation of the converse [<]. *)
Lemma f_le_not_lt x y : f_is_nan x = false -> f_is_nan y = false -> f_le x y = negb (f_lt y x).
Proof.
  intros Hx Hy. apply eq_true_iff_eq.
  rewrite negb_true_iff, <- not_true_iff_false, f_le_rank, f_lt_rank by done. done.
Qed.

Lemma f_le_nan_r x : f_le x S754_nan = false.
Proof. by destruct x. Qed.

(** A comparison that answered [true] compared numbers. *)
Lemma f_le_num x y : f_le x y = true -> f_is_nan x = false /\ f_is_nan y = false.
Proof. by destruct x, y. Qed.

Lemma f_neg_nan x : f_is_nan (f_neg x) = f_is_nan x.
Proof. by destruct x. Qed.

Lemma swo_float : swo (fun x => f_is_nan x = false) f_lt.
Proof.
  split.
  - intros a b Ha Hb H. apply not_true_iff_false. intros K.
    rewrite f_lt_rank in H, K by done. unfold rank_lt in *. lia.
  - intros a b c Ha Hb Hc H K. rewrite <- not_true_iff_false in H, K |- *.
    rewrite f_lt_rank in H, K |- * by done. unfold rank_lt in *. lia.
Qed.

Lemma f_eq_lt x y : f_is_nan x = false -> f_is_nan y = false -> f_eq x y = negb (f_lt x y) && negb (f_lt y x).
Proof.
  intros Hx Hy. apply eq_true_iff_eq.
  rewrite andb_true_iff, !negb_true_iff, <- !not_true_iff_false, f_eq_rank, !f_lt_rank by done.
  pose proof (rank_compare_spec (rank x) (rank y)) as H.
  destruct (rank_compare (rank x) (rank y)); unfold rank_lt in *.
  - rewrite H. split; [lia|done].
  - split; [intros E; rewrite E in H; lia|tauto].
  - split; [intros E; rewrite E in H; lia|tauto].
Qed.

Lemma swo_lex_float {A} (P : A -> Prop) (k : A -> float) (lt2 : A -> A -> bool) :
  (forall a, P a -> f_is_nan (k a) = false) -> swo P lt2 ->
  swo P (fun a b => if negb (f_eq (k a) (k b)) then f_lt (k a) (k b) else lt2 a b).
Proof.
  intros Hk H2. apply (swo_lex P (fun a b => f_eq (k a) (k b)) (fun a b => f_lt (k a) (k b))); [|by eapply swo_map, swo_float|done].
  intros a b Ha Hb. by apply f_eq_lt; apply Hk.
Qed.
