(* ===== verification/StateError.v ===== *)
(** * StateError: stateful code that can raise

    A method that changes its object, the database or an external service and
    may raise is [S -> S * result A].  An exception keeps the changes made
    before it, as in Python; undoing them is the caller's business (a database
    transaction).  [hoare] states what such a method guarantees on each way
    out. *)

From S2P Require Import Prelude.

Definition ST (S A : Type) : Type := S -> S * result A.

Section monad.
Context {S : Type}.

#[export] Instance st_ret : MRet (ST S) := fun A a s => (s, Ok a).
#[export] Instance st_bind : MBind (ST S) := fun A B f m s =>
  match m s with
  | (s, Ok a) => f a s
  | (s, Err e) => (s, Err e)
  end.

Definition fail {A} (e : exn) : ST S A := fun s => (s, Err e).
Definition lift {A} (r : result A) : ST S A := fun s => (s, r).
Definition gets {A} (f : S -> A) : ST S A := fun s => (s, Ok (f s)).
Definition modify (f : S -> S) : ST S unit := fun s => (f s, Ok ()).
(** [if b: raise e] *)
Definition guard (b : bool) (e : exn) : ST S unit := lift (raise_if b e).
(** [if b: m] *)
Definition when (b : bool) (m : ST S unit) : ST S unit := if b then m else mret ().
(** [try: m  except ...: handler]; [handler] answers [None] to re-raise. *)
Definition catch {A} (m : ST S A) (handler : exn -> option (ST S A)) : ST S A := fun s =>
  match m s with
  | (s, Ok a) => (s, Ok a)
  | (s, Err e) => match handler e with Some k => k s | None => (s, Err e) end
  end.
(** [[f(x) for x in l]] *)
Fixpoint for_each {A B} (f : A -> ST S B) (l : list A) : ST S (list B) :=
  match l with
  | [] => mret []
  | x :: l => y ← f x; ys ← for_each f l; mret (y :: ys)
  end.

(** From a state satisfying [P], a normal return satisfies [Q] and an
    exception [E]. *)
Definition hoare {A} (P : S -> Prop) (m : ST S A) (Q : A -> S -> Prop) (E : exn -> S -> Prop) : Prop :=
  forall s, P s -> match m s with (s', Ok a) => Q a s' | (s', Err e) => E e s' end.

Lemma hoare_ret {A} (P : S -> Prop) (a : A) (Q : A -> S -> Prop) E :
  (forall s, P s -> Q a s) -> hoare P (mret a) Q E.
Proof. intros H s Hs. by apply H. Qed.

Lemma hoare_bind {A B} P (m : ST S A) (f : A -> ST S B) (R : A -> S -> Prop) Q E :
  hoare P m R E -> (forall a, hoare (R a) (f a) Q E) -> hoare P (m ≫= f) Q E.
Proof.
  intros Hm Hf s Hs. specialize (Hm s Hs). unfold mbind, st_bind.
  destruct (m s) as [s' [a|e]]; [|done]. by apply Hf.
Qed.

Lemma hoare_weaken {A} (P P' : S -> Prop) (m : ST S A) (Q Q' : A -> S -> Prop) (E E' : exn -> S -> Prop) :
  (forall s, P' s -> P s) -> (forall a s, Q a s -> Q' a s) -> (forall e s, E e s -> E' e s) ->
  hoare P m Q E -> hoare P' m Q' E'.
Proof.
  intros HP HQ HE Hm s Hs. specialize (Hm s (HP s Hs)). destruct (m s) as [s' [a|e]]; auto.
Qed.

Lemma hoare_lift {A} P (r : result A) Q (E : exn -> S -> Prop) :
  (forall s a, P s -> r = Ok a -> Q a s) -> (forall s e, P s -> r = Err e -> E e s) -> hoare P (lift r) Q E.
Proof. intros HQ HE s Hs. unfold lift. destruct r; auto. Qed.

Lemma hoare_fail {A} (P : S -> Prop) e (Q : A -> S -> Prop) (E : exn -> S -> Prop) :
  (forall s, P s -> E e s) -> hoare P (fail e) Q E.
Proof. intros H s Hs. by apply H. Qed.

Lemma hoare_gets {A} (P : S -> Prop) (f : S -> A) Q (E : exn -> S -> Prop) :
  (forall s, P s -> Q (f s) s) -> hoare P (gets f) Q E.
Proof. intros H s Hs. by apply H. Qed.

(** Reading the state and going on; the continuation may use the value. *)
Lemma hoare_gets_bind {A B} (P : S -> Prop) (f : S -> A) (k : A -> ST S B) Q (E : exn -> S -> Prop) :
  (forall a, hoare (fun s => P s /\ f s = a) (k a) Q E) -> hoare P (gets f ≫= k) Q E.
Proof. intros H s Hs. by apply (H (f s)). Qed.

Lemma hoare_gets_skip {A B} (P : S -> Prop) (f : S -> A) (k : A -> ST S B) Q (E : exn -> S -> Prop) :
  (forall a, hoare P (k a) Q E) -> hoare P (gets f ≫= k) Q E.
Proof. intros H s Hs. by apply (H (f s)). Qed.

Lemma hoare_pre {A} (P P' : S -> Prop) (m : ST S A) (Q : A -> S -> Prop) (E : exn -> S -> Prop) :
  (forall s, P' s -> P s) -> hoare P m Q E -> hoare P' m Q E.
Proof. intros HP Hm s Hs. by apply Hm, HP. Qed.

(** A fact about the arguments holds throughout. *)
Lemma hoare_frame {A} (X : Prop) (P : S -> Prop) (m : ST S A) (Q : A -> S -> Prop) (E : exn -> S -> Prop) :
  hoare P m Q E -> hoare (fun s => P s /\ X) m (fun a s => Q a s /\ X) E.
Proof. intros H s [Hs HX]. specialize (H s Hs). by destruct (m s) as [s' [a|e]]. Qed.

Lemma hoare_for_each {A B} (P : S -> Prop) (f : A -> ST S B) (E : exn -> S -> Prop) l :
  (forall x, x ∈ l -> hoare P (f x) (fun _ => P) E) -> hoare P (for_each f l) (fun _ => P) E.
Proof.
  induction l as [|x l IH]; intros H; [by apply hoare_ret|]. cbn [for_each].
  eapply hoare_bind; [apply H; left|intros y]. eapply hoare_bind; [apply IH; intros; apply H; by right|intros ys]. by apply hoare_ret.
Qed.

Lemma hoare_modify P (f : S -> S) (Q : unit -> S -> Prop) (E : exn -> S -> Prop) :
  (forall s, P s -> Q () (f s)) -> hoare P (modify f) Q E.
Proof. intros H s Hs. by apply H. Qed.

Lemma hoare_guard P b e (Q : unit -> S -> Prop) (E : exn -> S -> Prop) :
  (forall s, P s -> b = false -> Q () s) -> (forall s, P s -> b = true -> E e s) -> hoare P (guard b e) Q E.
Proof. intros HQ HE s Hs. unfold guard, lift. destruct b; simpl; auto. Qed.

Lemma hoare_when P b (m : ST S unit) Q E :
  (b = true -> hoare P m Q E) -> (b = false -> forall s, P s -> Q () s) -> hoare P (when b m) Q E.
Proof. unfold when. destruct b; intros H1 H2; [by apply H1|apply hoare_ret; by apply H2]. Qed.

Lemma hoare_catch {A} P (m : ST S A) handler (Q : A -> S -> Prop) (E1 E : exn -> S -> Prop) :
  hoare P m Q E1 -> (forall e k, handler e = Some k -> hoare (E1 e) k Q E) ->
  (forall e s, handler e = None -> E1 e s -> E e s) -> hoare P (catch m handler) Q E.
Proof.
  intros Hm Hh Hn s Hs. specialize (Hm s Hs). unfold catch. destruct (m s) as [s' [a|e]]; [done|].
  destruct (handler e) as [k|] eqn:Ek; [by apply (Hh e k Ek)|auto].
Qed.

Lemma st_bind_run {A B} (m : ST S A) (f : A -> ST S B) s :
  (m ≫= f) s = match m s with (s', Ok a) => f a s' | (s', Err e) => (s', Err e) end.
Proof. reflexivity. Qed.

(** Running the first statement of a block. *)
Lemma gets_bind {A B} (f : S -> A) (k : A -> ST S B) s : (gets f ≫= k) s = k (f s) s.
Proof. reflexivity. Qed.
Lemma ret_bind {A B} (a : A) (k : A -> ST S B) s : (mret a ≫= k) s = k a s.
Proof. reflexivity. Qed.
Lemma modify_bind {B} (f : S -> S) (k : unit -> ST S B) s : (modify f ≫= k) s = k () (f s).
Proof. reflexivity. Qed.
Lemma lift_bind {A B} (r : result A) (k : A -> ST S B) s :
  (lift r ≫= k) s = match r with Ok a => k a s | Err e => (s, Err e) end.
Proof. by destruct r. Qed.
Lemma guard_bind {B} b e (k : unit -> ST S B) s : (guard b e ≫= k) s = if b then (s, Err e) else k () s.
Proof. by destruct b. Qed.

(** A guard over a batch: it changes nothing; past it no element is refused. *)
Lemma for_each_guard_run {A} (b : A -> bool) (e : A -> exn) l s :
  (exists us, for_each (fun x => guard (b x) (e x)) l s = (s, Ok us) /\ Forall (fun x => b x = false) l) \/
  (exists x, for_each (fun x => guard (b x) (e x)) l s = (s, Err (e x))).
Proof.
  induction l as [|x l IH]; [left; by exists []|]. cbn [for_each]. rewrite st_bind_run.
  change (guard (b x) (e x) s) with (s, raise_if (b x) (e x)).
  destruct (b x) eqn:Eb; cbn [raise_if]; [right; by exists x|]. rewrite st_bind_run.
  destruct IH as [(us & -> & Hf)|(y & ->)]; [left|right; eauto]. eexists. split; [done|]. by constructor.
Qed.

(** A relation between the state before and after, on every way out. *)
Definition steps {A} (R : S -> S -> Prop) (m : ST S A) : Prop :=
  forall s, R s (m s).1.

Section steps.
Context (R : S -> S -> Prop) `{!Reflexive R, !Transitive R}.

Lemma steps_ret {A} (a : A) : steps R (mret a).
Proof using Type*. intros s. simpl. reflexivity. Qed.

Lemma steps_lift {A} (r : result A) : steps R (lift r).
Proof using Type*. intros s. simpl. reflexivity. Qed.

Lemma steps_gets {A} (f : S -> A) : steps R (gets f).
Proof using Type*. intros s. simpl. reflexivity. Qed.

Lemma steps_fail {A} e : steps R (@fail A e).
Proof using Type*. intros s. simpl. reflexivity. Qed.

Lemma steps_bind {A B} (m : ST S A) (f : A -> ST S B) :
  steps R m -> (forall a, steps R (f a)) -> steps R (m ≫= f).
Proof using Type*.
  intros Hm Hf s. specialize (Hm s). unfold mbind, st_bind.
  destruct (m s) as [s' [a|e]]; simpl in *; [|done]. etrans; [done|apply Hf].
Qed.

Lemma steps_guard b e : steps R (guard b e).
Proof using Type*. apply steps_lift. Qed.

Lemma steps_when b (m : ST S unit) : steps R m -> steps R (when b m).
Proof using Type*. intros H. unfold when. destruct b; [done|apply steps_ret]. Qed.

Lemma steps_catch {A} (m : ST S A) handler :
  steps R m -> (forall e k, handler e = Some k -> steps R k) -> steps R (catch m handler).
Proof using Type*.
  intros Hm Hh s. specialize (Hm s). unfold catch. destruct (m s) as [s' [a|e]]; simpl in *; [done|].
  destruct (handler e) as [k|] eqn:E; [|done]. etrans; [done|by apply (Hh _ _ E)].
Qed.

Lemma steps_for_each {A B} (f : A -> ST S B) l : (forall x, x ∈ l -> steps R (f x)) -> steps R (for_each f l).
Proof using Type*.
  induction l as [|x l IH]; intros H; [apply steps_ret|]. simpl. apply steps_bind.
  - apply H, elem_of_cons. by left.
  - intros y. apply steps_bind; [apply IH; intros; apply H, elem_of_cons; by right|intros; apply steps_ret].
Qed.
End steps.

(** A relational guarantee used as a triple. *)
Lemma hoare_of_steps {A} (R : S -> S -> Prop) (P Q E : S -> Prop) (m : ST S A) :
  steps R m -> (forall s s', P s -> R s s' -> Q s') -> (forall s s', P s -> R s s' -> E s') ->
  hoare P m (fun _ => Q) (fun _ => E).
Proof.
  intros Hm HQ HE s Hs. specialize (Hm s). destruct (m s) as [s' [a|e]]; simpl in Hm; eauto.
Qed.
End monad.

(** Follow a stateful method's binds. *)
Ltac st_step :=
  lazymatch goal with
  | |- steps _ (_ ≫= _) => apply steps_bind; [..|intros ?]
  | |- steps _ (mret _) => apply steps_ret
  | |- steps _ (lift _) => apply steps_lift
  | |- steps _ (gets _) => apply steps_gets
  | |- steps _ (fail _) => apply steps_fail
  | |- steps _ (guard _ _) => apply steps_guard
  | |- steps _ (when _ _) => apply steps_when
  | |- steps _ (for_each _ _) => apply steps_for_each; intros ? ?
  | |- steps _ (match ?x with _ => _ end) => destruct x eqn:?
  end.
