(* ===== verification/Lifecycle.v ===== *)
(** * Lifecycle: the Task and Attempt state machines

    Models [src/sdf_core/model.py] (the state enumerations) and
    [src/sdf_core/state.py] (the transition tables and their two guards). *)

From S2P Require Import Prelude.

(** ** Data ([model.py]) *)

Inductive TaskState : Type :=
  | TCREATED | TREADY | TRUNNING | TEVALUATING | TSUCCEEDED | TFAILED | TINCONCLUSIVE.

Inductive AttemptState : Type :=
  | ACREATED | ADISPATCHED | ARUNNING | ACOMPLETED | AFAILED | ACANCELLED.

#[export] Instance TaskState_eq_dec : EqDecision TaskState.
Proof. solve_decision. Defined.
#[export] Instance AttemptState_eq_dec : EqDecision AttemptState.
Proof. solve_decision. Defined.

(** The [StrEnum] values, which are what the database columns hold. *)
Definition TaskState_value (s : TaskState) : string :=
  match s with
  | TCREATED => "created" | TREADY => "ready" | TRUNNING => "running"
  | TEVALUATING => "evaluating" | TSUCCEEDED => "succeeded" | TFAILED => "failed"
  | TINCONCLUSIVE => "inconclusive"
  end.

Definition AttemptState_value (s : AttemptState) : string :=
  match s with
  | ACREATED => "created" | ADISPATCHED => "dispatched" | ARUNNING => "running"
  | ACOMPLETED => "completed" | AFAILED => "failed" | ACANCELLED => "cancelled"
  end.

(** [TaskState(value)]: the member a stored column value names. *)
Definition TaskState_of (v : string) : result TaskState :=
  require_some
    (list_find (fun s => TaskState_value s = v)
       [TCREATED; TREADY; TRUNNING; TEVALUATING; TSUCCEEDED; TFAILED; TINCONCLUSIVE]
     ≫= fun p => Some p.2)
    (ValueError (v +:+ " is not a valid TaskState")).

Definition AttemptState_of (v : string) : result AttemptState :=
  require_some
    (list_find (fun s => AttemptState_value s = v)
       [ACREATED; ADISPATCHED; ARUNNING; ACOMPLETED; AFAILED; ACANCELLED]
     ≫= fun p => Some p.2)
    (ValueError (v +:+ " is not a valid AttemptState")).

(** ** The transition tables ([state.py]) *)

Definition TASK_TRANSITIONS (s : TaskState) : list TaskState :=
  match s with
  | TCREATED => [TREADY]
  | TREADY => [TRUNNING]
  | TRUNNING => [TEVALUATING]
  | TEVALUATING => [TSUCCEEDED; TFAILED; TINCONCLUSIVE]
  | TSUCCEEDED => []
  | TFAILED => [TREADY]
  | TINCONCLUSIVE => [TREADY]
  end.

Definition ATTEMPT_TRANSITIONS (s : AttemptState) : list AttemptState :=
  match s with
  | ACREATED => [ADISPATCHED]
  | ADISPATCHED => [ARUNNING]
  | ARUNNING => [ACOMPLETED; AFAILED; ACANCELLED]
  | ACOMPLETED | AFAILED | ACANCELLED => []
  end.

Definition transition_task (current target : TaskState) : result TaskState :=
  if bool_decide (target ∉ TASK_TRANSITIONS current)
  then Err (ValueError ("invalid task transition: " +:+ TaskState_value current
                        +:+ " -> " +:+ TaskState_value target))
  else Ok target.

Definition transition_attempt (current target : AttemptState) : result AttemptState :=
  if bool_decide (target ∉ ATTEMPT_TRANSITIONS current)
  then Err (ValueError ("invalid attempt transition: " +:+ AttemptState_value current
                        +:+ " -> " +:+ AttemptState_value target))
  else Ok target.

(** ** Histories: the states a Task or an Attempt is moved through, in order *)

Definition run_task (start : TaskState) (targets : list TaskState) : result TaskState :=
  result_fold transition_task start targets.

Definition run_attempt (start : AttemptState) (targets : list AttemptState) : result AttemptState :=
  result_fold transition_attempt start targets.

(** A Task that may be started or retried. *)
Definition startable (s : TaskState) : bool :=
  match s with TCREATED | TFAILED | TINCONCLUSIVE => true | _ => false end.

(** A verdict that lets the Task be tried again. *)
Definition retryable (s : TaskState) : bool :=
  match s with TFAILED | TINCONCLUSIVE => true | _ => false end.

(** The rejected tries of a Task, each ready, run, evaluated and refused. *)
Definition rejected_tries (verdicts : list TaskState) : list TaskState :=
  verdicts ≫= fun v => [TREADY; TRUNNING; TEVALUATING; v].

Definition terminal_attempt (s : AttemptState) : bool :=
  match s with ACOMPLETED | AFAILED | ACANCELLED => true | _ => false end.

(** ** Lemmas *)

Lemma transition_task_Ok s t u :
  transition_task s t = Ok u <-> u = t /\ t ∈ TASK_TRANSITIONS s.
Proof.
  unfold transition_task. case_bool_decide as H; split; [done|by intros []| |].
  - intros [= ->]. split; [done|]. by destruct (decide (u ∈ TASK_TRANSITIONS s)).
  - by intros [-> _].
Qed.

Lemma transition_attempt_Ok s t u :
  transition_attempt s t = Ok u <-> u = t /\ t ∈ ATTEMPT_TRANSITIONS s.
Proof.
  unfold transition_attempt. case_bool_decide as H; split; [done|by intros []| |].
  - intros [= ->]. split; [done|]. by destruct (decide (u ∈ ATTEMPT_TRANSITIONS s)).
  - by intros [-> _].
Qed.

Lemma run_task_cons s t l u :
  run_task s (t :: l) = Ok u <-> t ∈ TASK_TRANSITIONS s /\ run_task t l = Ok u.
Proof.
  unfold run_task. cbn [result_fold]. rewrite bind_Ok.
  setoid_rewrite transition_task_Ok. naive_solver.
Qed.

Lemma run_attempt_cons s t l u :
  run_attempt s (t :: l) = Ok u <-> t ∈ ATTEMPT_TRANSITIONS s /\ run_attempt t l = Ok u.
Proof.
  unfold run_attempt. cbn [result_fold]. rewrite bind_Ok.
  setoid_rewrite transition_attempt_Ok. naive_solver.
Qed.

(** The next transitions of a startable Task are forced. *)
Lemma startable_next s t : startable s = true -> t ∈ TASK_TRANSITIONS s <-> t = TREADY.
Proof. destruct s; simpl; set_solver. Qed.

Lemma run_task_tries s vs l u :
  startable s = true -> forallb retryable vs = true ->
  run_task (default s (last vs)) l = Ok u ->
  run_task s (rejected_tries vs ++ l) = Ok u.
Proof.
  revert s. induction vs as [|v vs IH]; intros s Hs Hvs Hl; [done|].
  simpl in Hvs. apply andb_true_iff in Hvs as [Hv Hvs].
  unfold rejected_tries. cbn [mbind list_bind app].
  rewrite !run_task_cons. change (vs ≫= _) with (rejected_tries vs).
  split; [by apply startable_next|]. split; [set_solver|]. split; [set_solver|].
  split; [destruct v; set_solver|].
  apply IH; [by destruct v|done|].
  by rewrite last_cons in Hl; destruct (last vs).
Qed.

Lemma run_task_from_startable n s l u :
  (length l <= n)%nat -> startable s = true -> run_task s l = Ok u ->
  exists vs tl, forallb retryable vs = true /\ l = rejected_tries vs ++ tl /\
    tl `prefix_of` [TREADY; TRUNNING; TEVALUATING; TSUCCEEDED] /\
    u = default (default s (last vs)) (last tl).
Proof.
  revert s l. induction n as [n IH] using lt_wf_ind. intros s l Hn Hs Hrun.
  destruct l as [|a l]; [exists [], []; injection Hrun as [= ->]; by split_and!; try apply prefix_nil|].
  apply run_task_cons in Hrun as [Ha Hrun]. apply startable_next in Ha as ->; [|done].
  destruct l as [|b l].
  { exists [], [TREADY]. injection Hrun as [= ->]. split_and!; try done. by eexists [_; _; _]. }
  apply run_task_cons in Hrun as [Hb Hrun]. apply list_elem_of_singleton in Hb as ->.
  destruct l as [|c l].
  { exists [], [TREADY; TRUNNING]. injection Hrun as [= ->]. split_and!; try done. by eexists [_; _]. }
  apply run_task_cons in Hrun as [Hc Hrun]. apply list_elem_of_singleton in Hc as ->.
  destruct l as [|d l].
  { exists [], [TREADY; TRUNNING; TEVALUATING]. injection Hrun as [= ->]. split_and!; try done. by eexists [_]. }
  apply run_task_cons in Hrun as [Hd Hrun].
  assert (d = TSUCCEEDED \/ retryable d = true) as [->|Hr] by (destruct d; set_solver).
  - destruct l as [|e l]; [|apply run_task_cons in Hrun as [He _]; set_solver].
    exists [], [TREADY; TRUNNING; TEVALUATING; TSUCCEEDED]. injection Hrun as [= ->].
    split_and!; try done.
  - simpl in Hn.
    destruct (IH (length l) ltac:(lia) d l ltac:(lia) ltac:(by destruct d) Hrun)
      as (vs & tl & Hvs & -> & Htl & ->).
    exists (d :: vs), tl. split_and!; try done.
    + simpl. by rewrite Hr.
    + by rewrite last_cons; destruct (last vs).
Qed.

Lemma run_task_happy s tl :
  startable s = true -> tl `prefix_of` [TREADY; TRUNNING; TEVALUATING; TSUCCEEDED] ->
  run_task s tl = Ok (default s (last tl)).
Proof.
  intros Hs [k Hk].
  destruct tl as [|? [|? [|? [|? [|]]]]]; simplify_list_eq; destruct s; done.
Qed.

(** ** Properties *)

(** The histories a Task can have are exactly: some number of tries that
    were made ready, run, evaluated and refused (failed or inconclusive), then
    a prefix of one more try that is made ready, run, evaluated and succeeds.
    So a Task succeeds only out of an evaluation, at most once, and nothing
    follows success. *)
Theorem task_history_shape targets u :
  run_task TCREATED targets = Ok u <->
  exists vs tl, forallb retryable vs = true /\ targets = rejected_tries vs ++ tl /\
    tl `prefix_of` [TREADY; TRUNNING; TEVALUATING; TSUCCEEDED] /\
    u = default (default TCREATED (last vs)) (last tl).
Proof.
  split; [by apply (run_task_from_startable (length targets))|].
  intros (vs & tl & Hvs & -> & Htl & ->).
  apply run_task_tries; [done|done|]. apply run_task_happy; [|done].
  destruct (last vs) as [v|] eqn:E; [|done]. apply last_Some_elem_of in E.
  eapply List.forallb_forall in Hvs; [|by apply list_elem_of_In]. by destruct v.
Qed.

(** An Attempt is moved at most three times, through dispatched and
    running to one terminal state, and a terminal Attempt is never moved
    again. *)
Theorem attempt_history_shape targets u :
  run_attempt ACREATED targets = Ok u <->
  exists t, terminal_attempt t = true /\ targets `prefix_of` [ADISPATCHED; ARUNNING; t] /\
    u = default ACREATED (last targets).
Proof.
  split.
  - intros H. destruct targets as [|a [|b [|c [|d l]]]];
      rewrite ?run_attempt_cons in H; simpl in H.
    + exists ACOMPLETED. injection H as [= ->]. split_and!; try done. apply prefix_nil.
    + destruct H as [Ha H]. apply list_elem_of_singleton in Ha as ->. injection H as [= ->].
      exists ACOMPLETED. split_and!; try done. by eexists [_; _].
    + destruct H as (Ha & Hb & H). apply list_elem_of_singleton in Ha as ->.
      apply list_elem_of_singleton in Hb as ->. injection H as [= ->].
      exists ACOMPLETED. split_and!; try done. by eexists [_].
    + destruct H as (Ha & Hb & Hc & H). apply list_elem_of_singleton in Ha as ->.
      apply list_elem_of_singleton in Hb as ->. injection H as [= ->].
      exists u. split_and!; try done. destruct u; set_solver.
    + destruct H as (Ha & Hb & Hc & Hd & H). apply list_elem_of_singleton in Ha as ->.
      apply list_elem_of_singleton in Hb as ->. destruct c; set_solver.
  - intros (t & Ht & [k Hk] & ->).
    destruct targets as [|? [|? [|? [|]]]]; simplify_list_eq; try done.
    match goal with |- run_attempt _ [_; _; ?x] = _ => by destruct x end.
Qed.
