(* ===== verification/Sha256.v ===== *)
(** * SHA-256 and HMAC-SHA-256

    What the code uses of Python's [hashlib] and [hmac]: the digest of a byte
    string and its lower-case hexadecimal form.  A byte string is a [string];
    32-bit words are [Z] in [0, 2^32). *)

From S2P Require Import Prelude.

Module Sha256.

Definition wrap (x : Z) : Z := Z.land x 4294967295.
Definition rotr (n x : Z) : Z := Z.lor (Z.shiftr x n) (wrap (Z.shiftl x (32 - n))).
Definition wnot (x : Z) : Z := Z.lxor x 4294967295.

(** The constants are fractional parts of roots of the first primes. *)
Definition is_prime (n : nat) : bool :=
  forallb (fun d => negb (n mod d =? 0)%nat) (seq 2 (n - 2)).

Definition primes : list Z := map Z.of_nat (List.filter is_prime (seq 2 310)).

(** [floor (n ^ (1/3))] by bisection between [lo] and [lo + 2 ^ bits]. *)
Fixpoint icbrt (bits : nat) (lo n : Z) : Z :=
  match bits with
  | O => lo
  | S b =>
      let mid := lo + 2 ^ Z.of_nat b in
      icbrt b (if mid * mid * mid <=? n then mid else lo) n
  end.

Definition K : list Z :=
  Eval vm_compute in map (fun p => wrap (icbrt 36 0 (p * 2 ^ 96))) primes.

Record hstate : Type := H { ha : Z; hb : Z; hc : Z; hd : Z; he : Z; hf : Z; hg : Z; hh : Z }.

Definition H0 : hstate :=
  Eval vm_compute in
  match map (fun p => wrap (Z.sqrt (p * 2 ^ 64))) primes with
  | a :: b :: c :: d :: e :: f :: g :: h :: _ => H a b c d e f g h
  | _ => H 0 0 0 0 0 0 0 0
  end.

(** The message schedule, most recent word first. *)
Fixpoint schedule (n : nat) (w : list Z) : list Z :=
  match n with
  | O => w
  | S n =>
      let g i := default 0 (w !! i) in
      let s0 := let x := g 14%nat in Z.lxor (Z.lxor (rotr 7 x) (rotr 18 x)) (Z.shiftr x 3) in
      let s1 := let x := g 1%nat in Z.lxor (Z.lxor (rotr 17 x) (rotr 19 x)) (Z.shiftr x 10) in
      schedule n (wrap (g 15%nat + s0 + g 6%nat + s1) :: w)
  end.

Definition round (s : hstate) (kw : Z * Z) : hstate :=
  let '(H a b c d e f g h) := s in
  let S1 := Z.lxor (Z.lxor (rotr 6 e) (rotr 11 e)) (rotr 25 e) in
  let ch := Z.lxor (Z.land e f) (Z.land (wnot e) g) in
  let t1 := wrap (h + S1 + ch + kw.1 + kw.2) in
  let S0 := Z.lxor (Z.lxor (rotr 2 a) (rotr 13 a)) (rotr 22 a) in
  let maj := Z.lxor (Z.lxor (Z.land a b) (Z.land a c)) (Z.land b c) in
  H (wrap (t1 + wrap (S0 + maj))) a b c (wrap (d + t1)) e f g.

Definition compress (s : hstate) (block : list Z) : hstate :=
  let w := rev (schedule 48 (rev block)) in
  let r := fold_left round (zip K w) s in
  H (wrap (ha s + ha r)) (wrap (hb s + hb r)) (wrap (hc s + hc r)) (wrap (hd s + hd r))
    (wrap (he s + he r)) (wrap (hf s + hf r)) (wrap (hg s + hg r)) (wrap (hh s + hh r)).

Fixpoint bytes_of (s : string) : list Z :=
  match s with
  | EmptyString => []
  | String c s => Z.of_nat (nat_of_ascii c) :: bytes_of s
  end.

Definition pad (m : list Z) : list Z :=
  let n := Z.of_nat (length m) in
  let zeros := Z.to_nat ((55 - n) mod 64) in
  m ++ [128] ++ replicate zeros 0 ++
  map (fun i => Z.land (Z.shiftr (8 * n) (8 * i)) 255) [7; 6; 5; 4; 3; 2; 1; 0].

Fixpoint words (fuel : nat) (l : list Z) : list Z :=
  match fuel, l with
  | S fuel, a :: b :: c :: d :: l =>
      (Z.shiftl a 24 + Z.shiftl b 16 + Z.shiftl c 8 + d) :: words fuel l
  | _, _ => []
  end.

Fixpoint blocks (fuel : nat) (w : list Z) : list (list Z) :=
  match fuel, w with
  | S fuel, _ :: _ => take 16 w :: blocks fuel (drop 16 w)
  | _, _ => []
  end.

Definition word_bytes (x : Z) : list Z :=
  map (fun i => Z.land (Z.shiftr x (8 * i)) 255) [3; 2; 1; 0].

(** The 32 bytes of [hashlib.sha256(m).digest()]. *)
Definition digest (m : list Z) : list Z :=
  let p := pad m in
  let '(H a b c d e f g h) := fold_left compress (blocks (length p) (words (length p) p)) H0 in
  mjoin (map word_bytes [a; b; c; d; e; f; g; h]).

Definition hex_digit (n : Z) : ascii :=
  ascii_of_nat (Z.to_nat (if n <? 10 then 48 + n else 87 + n)).

Fixpoint hex (l : list Z) : string :=
  match l with
  | [] => EmptyString
  | b :: l => String (hex_digit (Z.shiftr b 4)) (String (hex_digit (Z.land b 15)) (hex l))
  end.

(** [hmac.new(key, msg, sha256).digest()] *)
Definition hmac (key msg : list Z) : list Z :=
  let k0 := if (64 <? Z.of_nat (length key)) then digest key else key in
  let k := k0 ++ replicate (64 - length k0)%nat 0 in
  digest (map (Z.lxor 92) k ++ digest (map (Z.lxor 54) k ++ msg)).

End Sha256.


Example sha256_abc :
  Sha256.hex (Sha256.digest (Sha256.bytes_of "abc")) = "ba7816bf8f01cfea414140de5dae2223b00361a396177a9cb410ff61f20015ad".
Proof. vm_compute. reflexivity. Qed.

Example sha256_two_blocks :
  Sha256.hex (Sha256.digest (Sha256.bytes_of "abcdbcdecdefdefgefghfghighijhijkijkljklmklmnlmnomnopnopq")) =
  "248d6a61d20638b8e5c026930c3e6039a33ce45964ff2167f6ecedd419db06c1".
Proof. vm_compute. reflexivity. Qed.

Example hmac_jefe :
  Sha256.hex (Sha256.hmac (Sha256.bytes_of "Jefe") (Sha256.bytes_of "what do ya want for nothing?")) =
  "5bdcc146bf60754e6a042426089575c75a003f089d2739839dec58b964ec3843".
Proof. vm_compute. reflexivity. Qed.


(** ** Shape of a digest *)

Definition is_byte (b : Z) : Prop := 0 <= b < 256.

Lemma word_bytes_bytes x : Forall is_byte (Sha256.word_bytes x).
Proof.
  unfold Sha256.word_bytes. apply Forall_map, Forall_true. intros i. unfold is_byte. simpl.
  change 255 with (Z.ones 8). rewrite Z.land_ones by lia. apply Z.mod_pos_bound. done.
Qed.

Lemma digest_bytes m : Forall is_byte (Sha256.digest m) /\ length (Sha256.digest m) = 32%nat.
Proof.
  unfold Sha256.digest.
  destruct (fold_left Sha256.compress _ Sha256.H0) as [a b c d e f g h].
  split; [|done]. cbn [map mjoin list_join].
  repeat (apply Forall_app; split; [apply word_bytes_bytes|]). constructor.
Qed.

Definition is_hex_char (c : ascii) : bool :=
  is_digit c || let n := nat_of_ascii c in (97 <=? n)%nat && (n <=? 102)%nat.

Lemma hex_digit_ok n : 0 <= n < 16 -> is_hex_char (Sha256.hex_digit n) = true.
Proof. intros H. destruct n as [|p|p]; [done| |lia]. do 4 (destruct p; try done; try lia). Qed.

Lemma hex_ok l : Forall is_byte l ->
  str_len (Sha256.hex l) = 2 * Z.of_nat (length l) /\ str_forallb is_hex_char (Sha256.hex l) = true.
Proof.
  unfold str_len. induction 1 as [|b l Hb Hl [IH1 IH2]]; [done|].
  unfold is_byte in Hb. cbn [Sha256.hex String.length str_forallb length]. split; [lia|].
  rewrite IH2, !hex_digit_ok; [done| |].
  - change 15 with (Z.ones 4). rewrite Z.land_ones by lia. apply Z.mod_pos_bound. done.
  - rewrite Z.shiftr_div_pow2 by lia. split; [apply Z.div_pos; lia|apply Z.div_lt_upper_bound; lia].
Qed.
