(* ===== verification/Json.v ===== *)
(** * JSON values and their canonical text

    The Python values that the code stores in JSON columns or hashes, and
    [json.dumps(value, sort_keys=True, separators=(",", ":"))], the canonical
    text behind every content hash, action id and dispatch key. *)

From S2P Require Import Prelude Floats Sha256.

(** A Python value made of [None], booleans, numbers, strings, lists and
    dicts with string keys (in insertion order). *)
Inductive json : Type :=
  | JNull
  | JBool (b : bool)
  | JInt (z : Z)
  | JFloat (f : float)
  | JStr (s : string)
  | JArr (l : list json)
  | JObj (kvs : list (string * json)).

Fixpoint json_eqb (a b : json) : bool :=
  let fix all (l k : list json) : bool :=
    match l, k with
    | [], [] => true
    | x :: l, y :: k => json_eqb x y && all l k
    | _, _ => false
    end in
  let fix allkv (l k : list (string * json)) : bool :=
    match l, k with
    | [], [] => true
    | (i, x) :: l, (j, y) :: k => str_eq i j && json_eqb x y && allkv l k
    | _, _ => false
    end in
  match a, b with
  | JNull, JNull => true
  | JBool x, JBool y => Bool.eqb x y
  | JInt x, JInt y => x =? y
  | JFloat x, JFloat y => bool_decide (x = y)
  | JStr x, JStr y => str_eq x y
  | JArr l, JArr k => all l k
  | JObj l, JObj k => allkv l k
  | _, _ => false
  end.

(** [bool(value)] *)
Definition json_truthy (j : json) : bool :=
  match j with
  | JNull => false
  | JBool b => b
  | JInt z => negb (z =? 0)
  | JFloat f => f_truthy f
  | JStr s => str_truthy s
  | JArr l => negb (bool_decide (l = []))
  | JObj l => match l with [] => false | _ => true end
  end.

(** [d.get(key)] on a dict, [None] on a missing key. *)
Fixpoint kv_get (key : string) (kvs : list (string * json)) : json :=
  match kvs with
  | [] => JNull
  | (k, v) :: kvs => if str_eq k key then v else kv_get key kvs
  end.

(** [key in d] *)
Definition kv_has (key : string) (kvs : list (string * json)) : bool :=
  existsb (fun kv => str_eq kv.1 key) kvs.

Definition jget (key : string) (j : json) : json :=
  match j with JObj kvs => kv_get key kvs | _ => JNull end.

Definition is_true (j : json) : bool :=
  match j with JBool true => true | _ => false end.

Definition json_str (o : option string) : json :=
  match o with Some s => JStr s | None => JNull end.
Definition json_int (o : option Z) : json :=
  match o with Some z => JInt z | None => JNull end.

(** ** [repr(float)]: the shortest decimal text that reads back as the float *)

Module FloatRepr.

(** The decimal exponent [k] and [n]-digit integers around [m * 2^e]. *)
Definition scaled (m : positive) (e k : Z) : Z * Z :=
  (* m * 2^e * 10^k as a fraction *)
  let num := Zpos m * (if 0 <=? e then 2 ^ e else 1) * (if 0 <=? k then 10 ^ k else 1) in
  let den := (if 0 <=? e then 1 else 2 ^ (- e)) * (if 0 <=? k then 1 else 10 ^ (- k)) in
  (num, den).

Fixpoint ndigits (fuel : nat) (z : Z) : Z :=
  match fuel with
  | O => 0
  | S fuel => if z <? 10 then 1 else 1 + ndigits fuel (z / 10)
  end.

(** [floor(log10(m * 2^e)) + 1]: where the decimal point goes. *)
Definition point (m : positive) (e : Z) : Z :=
  let '(num, den) := scaled m e 330 in
  ndigits 700 (num / den) - 330.

Definition reads_back (m : positive) (e digits k : Z) : bool :=
  (* digits * 10^-k rounds to m * 2^e *)
  match digits with
  | Zpos d =>
      let v := if 0 <=? k then f_ratio (Zpos d) (Z.to_pos (10 ^ k))
               else f_ratio (Zpos d * 10 ^ (- k)) 1 in
      f_eq v (S754_finite false m e)
  | _ => false
  end.

(** The first [n] for which some [n]-digit decimal reads back; of the two
    neighbours the closer one. *)
Fixpoint shortest (fuel : nat) (n : Z) (m : positive) (e p : Z) : Z * Z :=
  match fuel with
  | O => (0, 0)
  | S fuel =>
      let k := n - p in
      let '(num, den) := scaled m e k in
      let lo := num / den in
      let hi := lo + 1 in
      let near := if 2 * (num - lo * den) <=? den then [lo; hi] else [hi; lo] in
      match filter (fun d => Is_true (reads_back m e d k)) near with
      | d :: _ => (d, n)
      | [] => shortest fuel (n + 1) m e p
      end
  end.

Fixpoint zeros (n : nat) : string :=
  match n with O => "" | S n => "0" +:+ zeros n end.

Fixpoint strip0 (fuel : nat) (d n : Z) : Z * Z :=
  match fuel with
  | O => (d, n)
  | S fuel => if (1 <? n) && (d mod 10 =? 0) then strip0 fuel (d / 10) (n - 1) else (d, n)
  end.

Definition two_digits (z : Z) : string :=
  if z <? 10 then "0" +:+ pretty z else pretty z.

Definition text (m : positive) (e : Z) : string :=
  let p := point m e in
  let '(d0, n0) := shortest 18 1 m e p in
  (* rounding up can carry into one more digit *)
  let '(d0, n0, p) := if 10 ^ n0 <=? d0 then (d0 / 10, n0, p + 1) else (d0, n0, p) in
  let '(d, n) := strip0 20 d0 n0 in
  let ds := pretty d in
  if (-4 <? p) && (p <=? 16) then
    if p <=? 0 then "0." +:+ zeros (Z.to_nat (- p)) +:+ ds
    else if n <=? p then ds +:+ zeros (Z.to_nat (p - n)) +:+ ".0"
    else String.substring 0 (Z.to_nat p) ds +:+ "." +:+
         String.substring (Z.to_nat p) (Z.to_nat (n - p)) ds
  else
    let ex := p - 1 in
    let mant := if n =? 1 then ds
                else String.substring 0 1 ds +:+ "." +:+ String.substring 1 (Z.to_nat (n - 1)) ds in
    mant +:+ "e" +:+ (if ex <? 0 then "-" else "+") +:+ two_digits (Z.abs ex).

End FloatRepr.

Definition float_repr (f : float) : string :=
  match f with
  | S754_zero s => if s then "-0.0" else "0.0"
  | S754_infinity s => if s then "-inf" else "inf"
  | S754_nan => "nan"
  | S754_finite s m e => (if s then "-" else "") +:+ FloatRepr.text m e
  end.

(** [json.dumps] spells the special values its own way. *)
Definition json_float (f : float) : string :=
  match f with
  | S754_infinity s => if s then "-Infinity" else "Infinity"
  | S754_nan => "NaN"
  | _ => float_repr f
  end.

Example repr_tests :
  map float_repr
    [f_ratio 1 1; f_ratio 1 10; f_ratio 123456 1000; f_ratio 303 10000000; f_ratio 1 3;
     f_ratio (10 ^ 16) 1; f_ratio 15 1; f_add (f_ratio 1 10) (f_ratio 2 10);
     f_ratio 1 (10 ^ 22); S754_finite false 1 (-1074); f_ratio 1 (2 ^ 44); f_ratio 999 1000; f_ratio (-5) 2] =
    ["1.0"; "0.1"; "123.456"; "3.03e-05"; "0.3333333333333333"; "1e+16"; "15.0";
     "0.30000000000000004"; "1e-22"; "5e-324"; "5.684341886080802e-14"; "0.999"; "-2.5"].
Proof. vm_compute. reflexivity. Qed.

(** ** [json.dumps] *)

Definition dquote : ascii := ascii_of_nat 34.
Definition backslash : ascii := ascii_of_nat 92.
Definition char_str (c : ascii) : string := String c EmptyString.

Definition hex4 (n : Z) : string :=
  Sha256.hex [Z.shiftr n 8; Z.land n 255].

(** One character inside a JSON string; [ensure_ascii] decides whether a
    character outside the printable ASCII range is escaped. *)
Definition escape_char (ensure_ascii : bool) (c : ascii) : string :=
  let n := nat_of_ascii c in
  match n with
  | 34%nat => char_str backslash +:+ char_str dquote
  | 92%nat => char_str backslash +:+ char_str backslash
  | 8%nat => char_str backslash +:+ "b"
  | 9%nat => char_str backslash +:+ "t"
  | 10%nat => char_str backslash +:+ "n"
  | 12%nat => char_str backslash +:+ "f"
  | 13%nat => char_str backslash +:+ "r"
  | _ =>
      if (n <? 32)%nat || (ensure_ascii && (126 <? n)%nat)
      then char_str backslash +:+ "u" +:+ hex4 (Z.of_nat n)
      else char_str c
  end.

Fixpoint escape (ensure_ascii : bool) (s : string) : string :=
  match s with
  | EmptyString => EmptyString
  | String c s => escape_char ensure_ascii c +:+ escape ensure_ascii s
  end.

Definition quote (ensure_ascii : bool) (s : string) : string :=
  char_str dquote +:+ escape ensure_ascii s +:+ char_str dquote.

Definition key_le {A} (a b : string * A) : bool := str_le a.1 b.1.

Fixpoint dumps (ensure_ascii : bool) (j : json) : string :=
  match j with
  | JNull => "null"
  | JBool b => if b then "true" else "false"
  | JInt z => pretty z
  | JFloat f => json_float f
  | JStr s => quote ensure_ascii s
  | JArr l => "[" +:+ str_join "," (map (dumps ensure_ascii) l) +:+ "]"
  | JObj kvs =>
      "{" +:+ str_join "," (map snd (sort_by key_le (map (fun kv =>
          (kv.1, quote ensure_ascii kv.1 +:+ ":" +:+ dumps ensure_ascii kv.2)) kvs))) +:+ "}"
  end.

(** [text.encode("utf-8")] for code points below 256. *)
Fixpoint utf8 (s : string) : list Z :=
  match s with
  | EmptyString => []
  | String c s =>
      let n := Z.of_nat (nat_of_ascii c) in
      if n <? 128 then n :: utf8 s else (192 + n / 64) :: (128 + n mod 64) :: utf8 s
  end.

(** [hashlib.sha256(text.encode("utf-8")).hexdigest()] *)
Definition sha256_text (s : string) : string := Sha256.hex (Sha256.digest (utf8 s)).

Definition hmac_text (key : list Z) (s : string) : string := Sha256.hex (Sha256.hmac key (utf8 s)).

Example dumps_sorted :
  dumps true (JObj [("b", JArr [JInt (-3); JNull]); ("a", JStr "x")]) =
  dumps true (JObj [("a", JStr "x"); ("b", JArr [JInt (-3); JNull])]).
Proof. vm_compute. reflexivity. Qed.

(** ** Decidable equality *)

Section json_ind.
Context (P : json -> Prop).
Context (Pnull : P JNull) (Pbool : forall b, P (JBool b)) (Pint : forall z, P (JInt z))
  (Pfloat : forall f, P (JFloat f)) (Pstr : forall s, P (JStr s))
  (Parr : forall l, Forall P l -> P (JArr l))
  (Pobj : forall l, Forall (fun kv => P kv.2) l -> P (JObj l)).

Fixpoint json_nested_ind (j : json) : P j :=
  match j with
  | JNull => Pnull
  | JBool b => Pbool b
  | JInt z => Pint z
  | JFloat f => Pfloat f
  | JStr s => Pstr s
  | JArr l => Parr l ((fix go l : Forall P l :=
      match l with
      | [] => Forall_nil_2 _
      | x :: l => Forall_cons_2 _ _ _ (json_nested_ind x) (go l)
      end) l)
  | JObj l => Pobj l ((fix go l : Forall (fun kv => P kv.2) l :=
      match l with
      | [] => Forall_nil_2 _
      | x :: l => Forall_cons_2 _ _ _ (json_nested_ind x.2) (go l)
      end) l)
  end.
End json_ind.

Lemma json_eqb_eq a b : json_eqb a b = true <-> a = b.
Proof.
  revert b. induction a as [|x|x|x|x|l IH|l IH] using json_nested_ind; intros [|y|y|y|y|k|k];
    simpl; try (split; congruence).
  - by destruct x, y.
  - rewrite Z.eqb_eq. split; congruence.
  - rewrite bool_decide_eq_true. split; congruence.
  - unfold str_eq. rewrite bool_decide_eq_true. split; congruence.
  - revert k. induction IH as [|x l Hx Hl IHl]; intros [|y k]; try (split; congruence).
    rewrite andb_true_iff, Hx. split.
    + intros [-> H]. apply IHl in H. congruence.
    + intros [= -> ->]. split; [done|]. by apply IHl.
  - revert k. induction IH as [|[i x] l Hx Hl IHl]; intros [|[j y] k]; try (split; congruence).
    simpl in Hx. unfold str_eq. rewrite !andb_true_iff, bool_decide_eq_true, Hx. split.
    + intros [[-> ->] H]. apply IHl in H. congruence.
    + intros [= -> -> ->]. split; [done|]. by apply IHl.
Qed.

#[export] Instance json_eq_dec : EqDecision json := fun a b =>
  match json_eqb a b as r return json_eqb a b = r -> Decision (a = b) with
  | true => fun H => left (proj1 (json_eqb_eq a b) H)
  | false => fun H => right (fun E => eq_ind false (fun b => if b then False else True) I true
      (eq_trans (eq_sym H) (proj2 (json_eqb_eq a b) E)))
  end eq_refl.

(** ** [datetime.isoformat()] of an instant in UTC *)

Module Iso.

(** Year, month and day of a day number counted from 1970-01-01. *)
Definition civil (days : Z) : Z * Z * Z :=
  let z := days + 719468 in
  let era := z / 146097 in
  let doe := z mod 146097 in
  let yoe := (doe - doe / 1460 + doe / 36524 - doe / 146096) / 365 in
  let doy := doe - (365 * yoe + yoe / 4 - yoe / 100) in
  let mp := (5 * doy + 2) / 153 in
  let d := doy - (153 * mp + 2) / 5 + 1 in
  let m := if mp <? 10 then mp + 3 else mp - 9 in
  ((yoe + era * 400 + (if m <=? 2 then 1 else 0)), m, d).

Fixpoint padded (width : nat) (z : Z) : string :=
  match width with
  | O => ""
  | S w => padded w (z / 10) +:+ char_str (ascii_of_nat (48 + Z.to_nat (z mod 10)))
  end.

Definition format (us : Z) : string :=
  let days := us / (86400 * seconds) in
  let rest := us mod (86400 * seconds) in
  let secs := rest / seconds in
  let frac := rest mod seconds in
  let '(y, m, d) := civil days in
  padded 4 y +:+ "-" +:+ padded 2 m +:+ "-" +:+ padded 2 d +:+ "T" +:+
  padded 2 (secs / 3600) +:+ ":" +:+ padded 2 (secs / 60 mod 60) +:+ ":" +:+ padded 2 (secs mod 60) +:+
  (if frac =? 0 then "" else "." +:+ padded 6 frac).

End Iso.

Definition isoformat (d : datetime) : string :=
  Iso.format d.(dt_us) +:+ (if d.(dt_aware) then "+00:00" else "").

Example isoformat_tests :
  map isoformat [DateTime 0 true; DateTime 1709210096123456 true; DateTime (-1) false] =
  ["1970-01-01T00:00:00+00:00"; "2024-02-29T12:34:56.123456+00:00"; "1969-12-31T23:59:59.999999"].
Proof. vm_compute. reflexivity. Qed.

(** ** Python's [==]

    Dicts compare regardless of insertion order; a bool is the number 0 or 1
    and an integer equals the float of the same value. *)

Definition as_num (j : json) : option (Z + float) :=
  match j with
  | JBool b => Some (inl (if b then 1 else 0))
  | JInt z => Some (inl z)
  | JFloat f => Some (inr f)
  | _ => None
  end.

Definition num_eqb (a b : Z + float) : bool :=
  match a, b with
  | inl x, inl y => x =? y
  | inr x, inr y => f_eq x y
  | inl z, inr f | inr f, inl z => bool_decide (f_cmp_Z f z = Some Eq)
  end.

Fixpoint kv_find (key : string) (kvs : list (string * json)) : option json :=
  match kvs with
  | [] => None
  | (k, v) :: kvs => if str_eq k key then Some v else kv_find key kvs
  end.

Fixpoint py_eq (a b : json) : bool :=
  match a, b with
  | JNull, JNull => true
  | JStr x, JStr y => str_eq x y
  | JArr l, JArr k =>
      (fix all (l k : list json) : bool :=
        match l, k with
        | [], [] => true
        | x :: l, y :: k => py_eq x y && all l k
        | _, _ => false
        end) l k
  | JObj l, JObj k =>
      (length l =? length k)%nat &&
      forallb (fun kv : string * json => match kv_find kv.1 k with Some y => py_eq kv.2 y | None => false end) l
  | JBool _, _ | JInt _, _ | JFloat _, _ =>
      match as_num a, as_num b with Some x, Some y => num_eqb x y | _, _ => false end
  | _, _ => false
  end.

(** A value a dict and a JSON column can hold: keys are unique, no NaN. *)
Fixpoint json_wf (j : json) : bool :=
  match j with
  | JFloat f => negb (f_is_nan f)
  | JArr l => forallb json_wf l
  | JObj l => bool_decide (NoDup (map fst l)) && forallb (fun kv => json_wf kv.2) l
  | _ => true
  end.

Lemma kv_find_elem k v (kvs : list (string * json)) : NoDup (map fst kvs) -> (k, v) ∈ kvs -> kv_find k kvs = Some v.
Proof.
  induction kvs as [|[i x] kvs IH]; [by intros _ ?%not_elem_of_nil|]. intros [Hi Hnd]%NoDup_cons Hin. simpl.
  unfold str_eq. apply elem_of_cons in Hin as [[= -> ->]|Hin]; [by rewrite bool_decide_eq_true_2|].
  rewrite bool_decide_eq_false_2; [auto|]. intros ->. apply Hi, elem_map. by exists (k, v).
Qed.

Lemma f_eq_refl f : f_is_nan f = false -> f_eq f f = true.
Proof. intros H. by apply f_eq_rank. Qed.

Lemma py_eq_refl j : json_wf j = true -> py_eq j j = true.
Proof.
  induction j as [|b|z|f|s|l IH|l IH] using json_nested_ind; intros Hwf.
  - done.
  - by destruct b.
  - simpl. apply Z.eqb_refl.
  - simpl in *. apply f_eq_refl. by boolify.
  - simpl. unfold str_eq. by rewrite bool_decide_eq_true_2.
  - simpl in *. induction IH as [|x l Hx Hl IHl]; [done|]. simpl in Hwf. boolify; [by apply Hx|by apply IHl].
  - cbn [py_eq json_wf] in *. rewrite Nat.eqb_refl. simpl.
    apply andb_true_iff in Hwf as [Hnd Hwf]. apply bool_decide_eq_true in Hnd.
    apply forallb_forall. intros [k x] Hin. rewrite forallb_forall in Hwf. rewrite Forall_forall in IH.
    simpl. rewrite (kv_find_elem k x) by (done || by apply list_elem_of_In).
    apply (IH (k, x)); [by apply list_elem_of_In|]. exact (Hwf (k, x) Hin).
Qed.
