(* ===== verification/Db.v ===== *)
(** * Db: the tables, the session and its flush

    Models [src/sdf_core/db.py]: one Record per mapped class (a field per
    column), one finite map per table, keyed by the primary key. *)

From S2P Require Import Prelude Json.
From coqutil Require Export Datatypes.RecordSetters.
Export DoubleBraceUpdate.

(** [key] when the two values differ. *)
Definition changed_if {A} `{EqDecision A} (key : string) (a b : A) : list string :=
  if bool_decide (a = b) then [] else [key].

(** ** Rows *)

Record GraphNodeRow : Type := {
  gn_id : string; gn_kind : string; gn_title : string; gn_source : string; gn_owner : string;
  gn_confidence : float; gn_created_at : datetime; gn_metadata_json : option json
}.

#[export] Instance GraphNodeRow_eq_dec : EqDecision GraphNodeRow.
Proof. solve_decision. Defined.

Record DecisionEdgeRow : Type := {
  de_id : Z; de_source_kind : string; de_source_id : string; de_target_kind : string;
  de_target_id : string; de_relation : string; de_source : string; de_owner : string;
  de_confidence : float; de_created_at : datetime; de_evidence_ref : option string
}.

#[export] Instance DecisionEdgeRow_eq_dec : EqDecision DecisionEdgeRow.
Proof. solve_decision. Defined.

Record TaskRow : Type := {
  tk_id : string; tk_title : string; tk_status : string; tk_idempotency_key : string;
  tk_acceptance_criteria : list string; tk_created_at : datetime
}.

#[export] Instance TaskRow_eq_dec : EqDecision TaskRow.
Proof. solve_decision. Defined.

Record AttemptRow : Type := {
  at_id : string; at_task_id : string; at_status : string; at_dispatch_key : string;
  at_agent : string; at_parent_attempt_id : option string; at_model_tier : string;
  at_cost_usd : float; at_provider : option string; at_latency_ms : option float;
  at_input_tokens : option Z; at_output_tokens : option Z; at_escalation_reason : option string;
  at_created_at : datetime; at_model_profile : option string; at_outcome : option string;
  at_evidence_mode : string; at_error_class : option string; at_trace_id : option string;
  at_principal : option string; at_revision_required : option bool;
  at_executor_id : option string; at_executor_heartbeat_at : option datetime;
  at_remote_effect : option string
}.

#[export] Instance AttemptRow_eq_dec : EqDecision AttemptRow.
Proof. solve_decision. Defined.

Record AttemptRemoteSandboxRow : Type := {
  rs_id : string; rs_attempt_id : string; rs_provider : string; rs_sandbox_id : option string;
  rs_phase : string; rs_created_at : datetime
}.

#[export] Instance AttemptRemoteSandboxRow_eq_dec : EqDecision AttemptRemoteSandboxRow.
Proof. solve_decision. Defined.

Record ObjectiveMetricRow : Type := {
  om_objective_id : string; om_metric_name : string; om_baseline : float; om_target : float;
  om_unit : string; om_source : string; om_owner : string; om_measurement_window_days : Z;
  om_declared_at : datetime
}.

#[export] Instance ObjectiveMetricRow_eq_dec : EqDecision ObjectiveMetricRow.
Proof. solve_decision. Defined.

Record OutcomeObservationRow : Type := {
  oo_id : string; oo_objective_id : string; oo_metric_name : string; oo_value : float;
  oo_observed_at : datetime; oo_source : string; oo_mode : string; oo_created_at : datetime
}.

#[export] Instance OutcomeObservationRow_eq_dec : EqDecision OutcomeObservationRow.
Proof. solve_decision. Defined.

Record ArtifactRow : Type := {
  ar_id : string; ar_attempt_id : string; ar_kind : string; ar_uri : string; ar_sha256 : string;
  ar_size_bytes : Z; ar_created_at : datetime; ar_revision_id : option string;
  ar_tree_sha256 : option string
}.

#[export] Instance ArtifactRow_eq_dec : EqDecision ArtifactRow.
Proof. solve_decision. Defined.

Record AttemptRevisionRow : Type := {
  rv_id : string; rv_attempt_id : string; rv_repository : string; rv_tree_format : string;
  rv_base_tree_sha256 : string; rv_base_commit : option string;
  rv_base_commit_source : option string; rv_result_tree_sha256 : option string;
  rv_created_at : datetime; rv_finished_at : option datetime
}.

#[export] Instance AttemptRevisionRow_eq_dec : EqDecision AttemptRevisionRow.
Proof. solve_decision. Defined.

(** The columns whose value changed. *)
Definition AttemptRevisionRow_changed (a b : AttemptRevisionRow) : list string :=
  changed_if "id" a.(rv_id) b.(rv_id) ++
  changed_if "attempt_id" a.(rv_attempt_id) b.(rv_attempt_id) ++
  changed_if "repository" a.(rv_repository) b.(rv_repository) ++
  changed_if "tree_format" a.(rv_tree_format) b.(rv_tree_format) ++
  changed_if "base_tree_sha256" a.(rv_base_tree_sha256) b.(rv_base_tree_sha256) ++
  changed_if "base_commit" a.(rv_base_commit) b.(rv_base_commit) ++
  changed_if "base_commit_source" a.(rv_base_commit_source) b.(rv_base_commit_source) ++
  changed_if "result_tree_sha256" a.(rv_result_tree_sha256) b.(rv_result_tree_sha256) ++
  changed_if "created_at" a.(rv_created_at) b.(rv_created_at) ++
  changed_if "finished_at" a.(rv_finished_at) b.(rv_finished_at).

Record EvidenceRow : Type := {
  ev_id : string; ev_attempt_id : option string; ev_kind : string; ev_status : string;
  ev_command : string; ev_exit_code : option Z; ev_artifact_ref : option string;
  ev_confidence : float; ev_criterion : option string; ev_measured_at : option datetime;
  ev_evidence_mode : string; ev_created_at : datetime; ev_revision_id : option string;
  ev_tree_sha256 : option string; ev_evidence_class : option string;
  ev_producer_identity : option string; ev_producer_role : option string;
  ev_verifier_identity : option string; ev_verifier_role : option string;
  ev_subject_artifact_sha256 : option string; ev_oracle_digest : option string;
  ev_environment_digest : option string; ev_collected_at : option datetime;
  ev_expires_at : option datetime; ev_oracle_visibility : option string;
  ev_input_seed : option string; ev_objective_id : option string;
  ev_content_mac : option string; ev_content_mac_version : option Z
}.

#[export] Instance EvidenceRow_eq_dec : EqDecision EvidenceRow.
Proof. solve_decision. Defined.

Record RuntimeEventRow : Type := {
  re_id : Z; re_source : string; re_attempt_id : string; re_session_id : string;
  re_sequence : Z; re_kind : string; re_status : string; re_payload : json;
  re_created_at : datetime
}.

#[export] Instance RuntimeEventRow_eq_dec : EqDecision RuntimeEventRow.
Proof. solve_decision. Defined.

Record RoutingDecisionRow : Type := {
  rd_id : string; rd_attempt_id : string; rd_selected_agent : string; rd_mode : string;
  rd_reason : string; rd_request : option json; rd_candidates : list json;
  rd_created_at : datetime
}.

#[export] Instance RoutingDecisionRow_eq_dec : EqDecision RoutingDecisionRow.
Proof. solve_decision. Defined.

Record UsageLedgerRow : Type := {
  ul_id : Z; ul_attempt_id : string; ul_run_id : option string; ul_kind : string;
  ul_agent : option string; ul_turn : option Z; ul_session_id : option string;
  ul_sandbox_id : option string; ul_sandbox_provider : option string; ul_model : option string;
  ul_input_tokens : option Z; ul_output_tokens : option Z; ul_cache_read_tokens : option Z;
  ul_seconds : option float; ul_cost_usd : option float; ul_source : string;
  ul_cost_source : string; ul_status : string; ul_error_class : option string;
  ul_detail : option json; ul_created_at : datetime
}.

#[export] Instance UsageLedgerRow_eq_dec : EqDecision UsageLedgerRow.
Proof. solve_decision. Defined.

Record ToolAuditRow : Type := {
  ta_audit_id : string; ta_attempt_id : string; ta_action_id : string; ta_actor : string;
  ta_tool : string; ta_action : string; ta_resource : string; ta_context : json;
  ta_event : string; ta_decision : string; ta_executed : bool; ta_outcome : string;
  ta_detail : string; ta_created_at : datetime; ta_evidence_mode : string;
  ta_principal : option string
}.

#[export] Instance ToolAuditRow_eq_dec : EqDecision ToolAuditRow.
Proof. solve_decision. Defined.

Record PlanRow : Type := {
  pl_id : string; pl_title : string; pl_objective_id : option string; pl_status : string;
  pl_content : json; pl_content_sha256 : string; pl_proposed_by : string;
  pl_proposed_by_casefold : option string; pl_created_at : datetime;
  pl_decision_request_id : string; pl_decided_at : option datetime
}.

#[export] Instance PlanRow_eq_dec : EqDecision PlanRow.
Proof. solve_decision. Defined.

(** The columns whose value changed. *)
Definition PlanRow_changed (a b : PlanRow) : list string :=
  changed_if "id" a.(pl_id) b.(pl_id) ++
  changed_if "title" a.(pl_title) b.(pl_title) ++
  changed_if "objective_id" a.(pl_objective_id) b.(pl_objective_id) ++
  changed_if "status" a.(pl_status) b.(pl_status) ++
  changed_if "content" a.(pl_content) b.(pl_content) ++
  changed_if "content_sha256" a.(pl_content_sha256) b.(pl_content_sha256) ++
  changed_if "proposed_by" a.(pl_proposed_by) b.(pl_proposed_by) ++
  changed_if "proposed_by_casefold" a.(pl_proposed_by_casefold) b.(pl_proposed_by_casefold) ++
  changed_if "created_at" a.(pl_created_at) b.(pl_created_at) ++
  changed_if "decision_request_id" a.(pl_decision_request_id) b.(pl_decision_request_id) ++
  changed_if "decided_at" a.(pl_decided_at) b.(pl_decided_at).

Record PlanTaskRow : Type := {
  pt_task_id : string; pt_plan_id : string; pt_subtask_key : string
}.

#[export] Instance PlanTaskRow_eq_dec : EqDecision PlanTaskRow.
Proof. solve_decision. Defined.

Record DecisionRequestRow : Type := {
  dr_id : string; dr_subject_kind : string; dr_subject_id : string; dr_run_id : option string;
  dr_question : string; dr_options : list string; dr_status : string; dr_requested_by : string;
  dr_message_id : option string; dr_resolved_by : option string;
  dr_resolver_kind : option string; dr_resolution : option string;
  dr_decision_node_id : option string; dr_created_at : datetime;
  dr_resolved_at : option datetime
}.

#[export] Instance DecisionRequestRow_eq_dec : EqDecision DecisionRequestRow.
Proof. solve_decision. Defined.

(** The columns whose value changed. *)
Definition DecisionRequestRow_changed (a b : DecisionRequestRow) : list string :=
  changed_if "id" a.(dr_id) b.(dr_id) ++
  changed_if "subject_kind" a.(dr_subject_kind) b.(dr_subject_kind) ++
  changed_if "subject_id" a.(dr_subject_id) b.(dr_subject_id) ++
  changed_if "run_id" a.(dr_run_id) b.(dr_run_id) ++
  changed_if "question" a.(dr_question) b.(dr_question) ++
  changed_if "options" a.(dr_options) b.(dr_options) ++
  changed_if "status" a.(dr_status) b.(dr_status) ++
  changed_if "requested_by" a.(dr_requested_by) b.(dr_requested_by) ++
  changed_if "message_id" a.(dr_message_id) b.(dr_message_id) ++
  changed_if "resolved_by" a.(dr_resolved_by) b.(dr_resolved_by) ++
  changed_if "resolver_kind" a.(dr_resolver_kind) b.(dr_resolver_kind) ++
  changed_if "resolution" a.(dr_resolution) b.(dr_resolution) ++
  changed_if "decision_node_id" a.(dr_decision_node_id) b.(dr_decision_node_id) ++
  changed_if "created_at" a.(dr_created_at) b.(dr_created_at) ++
  changed_if "resolved_at" a.(dr_resolved_at) b.(dr_resolved_at).

Record AgentRunRow : Type := {
  rn_id : string; rn_plan_id : string; rn_status : string; rn_config : json;
  rn_started_at : datetime; rn_finished_at : option datetime;
  rn_cancel_requested_at : option datetime; rn_cost_usd : float; rn_started_by : option string;
  rn_cancel_requested_by : option string; rn_summary : option json; rn_error : option string;
  rn_trace_id : option string
}.

#[export] Instance AgentRunRow_eq_dec : EqDecision AgentRunRow.
Proof. solve_decision. Defined.

Record AgentRunMemberRow : Type := {
  mb_id : Z; mb_run_id : string; mb_agent_id : string; mb_role : string; mb_agent_kind : string;
  mb_subtask_key : option string; mb_sandbox_id : option string; mb_status : string;
  mb_turns : Z; mb_input_tokens : Z; mb_output_tokens : Z
}.

#[export] Instance AgentRunMemberRow_eq_dec : EqDecision AgentRunMemberRow.
Proof. solve_decision. Defined.

Record AgentMessageRow : Type := {
  mg_id : string; mg_run_id : string; mg_seq : Z; mg_envelope_id : string;
  mg_from_agent : string; mg_from_role : string; mg_to_agent : option string;
  mg_to_role : option string; mg_kind : string; mg_body : string; mg_body_sha256 : string;
  mg_truncated : bool; mg_attempt_id : option string; mg_source_sandbox_id : option string;
  mg_meta : option json; mg_created_at : datetime
}.

#[export] Instance AgentMessageRow_eq_dec : EqDecision AgentMessageRow.
Proof. solve_decision. Defined.

Record AgentClaimRow : Type := {
  cl_id : string; cl_run_id : string; cl_message_id : string; cl_agent_id : string;
  cl_attempt_id : option string; cl_subtask_key : option string; cl_claimed_status : string;
  cl_body : string; cl_created_at : datetime
}.

#[export] Instance AgentClaimRow_eq_dec : EqDecision AgentClaimRow.
Proof. solve_decision. Defined.

Record ApiTokenRow : Type := {
  tok_id : string; tok_principal : string; tok_kind : string; tok_roles : list string;
  tok_secret_hash : string; tok_description : option string; tok_created_at : datetime;
  tok_created_by : string; tok_expires_at : datetime; tok_revoked_at : option datetime;
  tok_revoked_by : option string; tok_last_used_at : option datetime
}.

#[export] Instance ApiTokenRow_eq_dec : EqDecision ApiTokenRow.
Proof. solve_decision. Defined.

(** The columns whose value changed. *)
Definition ApiTokenRow_changed (a b : ApiTokenRow) : list string :=
  changed_if "id" a.(tok_id) b.(tok_id) ++
  changed_if "principal" a.(tok_principal) b.(tok_principal) ++
  changed_if "kind" a.(tok_kind) b.(tok_kind) ++
  changed_if "roles" a.(tok_roles) b.(tok_roles) ++
  changed_if "secret_hash" a.(tok_secret_hash) b.(tok_secret_hash) ++
  changed_if "description" a.(tok_description) b.(tok_description) ++
  changed_if "created_at" a.(tok_created_at) b.(tok_created_at) ++
  changed_if "created_by" a.(tok_created_by) b.(tok_created_by) ++
  changed_if "expires_at" a.(tok_expires_at) b.(tok_expires_at) ++
  changed_if "revoked_at" a.(tok_revoked_at) b.(tok_revoked_at) ++
  changed_if "revoked_by" a.(tok_revoked_by) b.(tok_revoked_by) ++
  changed_if "last_used_at" a.(tok_last_used_at) b.(tok_last_used_at).

Record AuthAuditRow : Type := {
  aa_id : Z; aa_at : datetime; aa_event : string; aa_principal : option string;
  aa_token_id : option string; aa_method : option string; aa_path : option string;
  aa_route : option string; aa_status_code : option Z; aa_client : option string;
  aa_detail : option json
}.

#[export] Instance AuthAuditRow_eq_dec : EqDecision AuthAuditRow.
Proof. solve_decision. Defined.
(** ** The tables *)

Record Db : Type := {
  d_graph_nodes : gmap string GraphNodeRow;
  d_decision_edges : gmap Z DecisionEdgeRow;
  d_tasks : gmap string TaskRow;
  d_attempts : gmap string AttemptRow;
  d_attempt_remote_sandboxes : gmap string AttemptRemoteSandboxRow;
  d_objective_metrics : gmap string ObjectiveMetricRow;
  d_outcome_observations : gmap string OutcomeObservationRow;
  d_artifacts : gmap string ArtifactRow;
  d_attempt_revisions : gmap string AttemptRevisionRow;
  d_evidence : gmap string EvidenceRow;
  d_runtime_events : gmap Z RuntimeEventRow;
  d_routing_decisions : gmap string RoutingDecisionRow;
  d_usage_ledger : gmap Z UsageLedgerRow;
  d_tool_audits : gmap string ToolAuditRow;
  d_plans : gmap string PlanRow;
  d_plan_tasks : gmap string PlanTaskRow;
  d_decision_requests : gmap string DecisionRequestRow;
  d_agent_runs : gmap string AgentRunRow;
  d_agent_run_members : gmap Z AgentRunMemberRow;
  d_agent_messages : gmap string AgentMessageRow;
  d_agent_claims : gmap string AgentClaimRow;
  d_api_tokens : gmap string ApiTokenRow;
  d_auth_audit : gmap Z AuthAuditRow
}.

Definition empty_db : Db := {|
  d_graph_nodes := ∅;
  d_decision_edges := ∅;
  d_tasks := ∅;
  d_attempts := ∅;
  d_attempt_remote_sandboxes := ∅;
  d_objective_metrics := ∅;
  d_outcome_observations := ∅;
  d_artifacts := ∅;
  d_attempt_revisions := ∅;
  d_evidence := ∅;
  d_runtime_events := ∅;
  d_routing_decisions := ∅;
  d_usage_ledger := ∅;
  d_tool_audits := ∅;
  d_plans := ∅;
  d_plan_tasks := ∅;
  d_decision_requests := ∅;
  d_agent_runs := ∅;
  d_agent_run_members := ∅;
  d_agent_messages := ∅;
  d_agent_claims := ∅;
  d_api_tokens := ∅;
  d_auth_audit := ∅
|}.
