(* ===== verification/EvidenceMac.v ===== *)
(** * EvidenceMac: the content MAC of an Evidence row

    Models [src/sdf_core/evidence_mac.py].  The process environment is a
    finite map of variables. *)

From S2P Require Import Prelude Sha256 Json Db.

Definition environ : Type := gmap string string.

Definition DEV_KEY : string := "sdf-evidence-mac-v1-development".
Definition MIN_KEY_CHARS : Z := 32.
Definition CONTENT_MAC_V2 : Z := 2.
Definition CONTENT_MAC_CURRENT : Z := CONTENT_MAC_V2.

Definition CONTENT_MAC_V2_FIELDS : list string :=
  ["verifier_identity"; "verifier_role"; "expires_at"; "oracle_visibility";
   "subject_artifact_sha256"; "oracle_digest"; "evidence_class"; "evidence_mode";
   "producer_identity"; "producer_role"; "environment_digest"; "collected_at"; "input_seed"].

Definition key_error : exn :=
  EvidenceMacKeyError "SDF_EVIDENCE_MAC_KEY must be set to at least 32 characters.".

Definition evidence_mac_key_source (env : environ) : string :=
  let configured := or_empty (env !! "SDF_EVIDENCE_MAC_KEY") in
  if str_truthy configured then
    if MIN_KEY_CHARS <=? str_len configured then "configured" else "missing"
  else if opt_str_eq (env !! "SDF_EVIDENCE_MAC_ALLOW_INSECURE_DEV_KEY") (Some "1")
  then "insecure-development"
  else "missing".

Definition require_evidence_mac_key (env : environ) : result string :=
  let source := evidence_mac_key_source env in
  _ ← raise_if (str_eq source "missing") key_error;
  Ok source.

Definition evidence_mac_key (env : environ) : result (list Z) :=
  source ← require_evidence_mac_key env;
  if str_eq source "configured"
  then Ok (Sha256.digest (utf8 (or_empty (env !! "SDF_EVIDENCE_MAC_KEY"))))
  else Ok (Sha256.digest (utf8 DEV_KEY)).

(** A stored instant is hashed as its UTC text, a naive one read as UTC. *)
Definition canonical_mac_value (value : option datetime) : json :=
  match value with
  | Some d => JStr (isoformat (aware d))
  | None => JNull
  end.

Definition resolve_content_mac_version (row : EvidenceRow) (version : option Z) : option Z :=
  match version with
  | Some v => Some v
  | None => row.(ev_content_mac_version)
  end.

(** [getattr(row, field)] for the columns of [CONTENT_MAC_V2_FIELDS]. *)
Definition mac_field (row : EvidenceRow) (field : string) : json :=
  if str_eq field "verifier_identity" then json_str row.(ev_verifier_identity)
  else if str_eq field "verifier_role" then json_str row.(ev_verifier_role)
  else if str_eq field "expires_at" then canonical_mac_value row.(ev_expires_at)
  else if str_eq field "oracle_visibility" then json_str row.(ev_oracle_visibility)
  else if str_eq field "subject_artifact_sha256" then json_str row.(ev_subject_artifact_sha256)
  else if str_eq field "oracle_digest" then json_str row.(ev_oracle_digest)
  else if str_eq field "evidence_class" then json_str row.(ev_evidence_class)
  else if str_eq field "evidence_mode" then JStr row.(ev_evidence_mode)
  else if str_eq field "producer_identity" then json_str row.(ev_producer_identity)
  else if str_eq field "producer_role" then json_str row.(ev_producer_role)
  else if str_eq field "environment_digest" then json_str row.(ev_environment_digest)
  else if str_eq field "collected_at" then canonical_mac_value row.(ev_collected_at)
  else if str_eq field "input_seed" then json_str row.(ev_input_seed)
  else JNull.

(** The dict that is hashed. *)
Definition mac_payload (row : EvidenceRow) (artifact_sha256 : option string) (resolved : Z) : json :=
  JObj ([("id", JStr row.(ev_id));
         ("attempt_id", json_str row.(ev_attempt_id));
         ("kind", JStr row.(ev_kind));
         ("status", JStr row.(ev_status));
         ("command", JStr row.(ev_command));
         ("exit_code", json_int row.(ev_exit_code));
         ("confidence", JFloat row.(ev_confidence));
         ("criterion", json_str row.(ev_criterion));
         ("artifact_ref", json_str row.(ev_artifact_ref));
         ("artifact_sha256", json_str artifact_sha256);
         ("revision_id", json_str row.(ev_revision_id));
         ("tree_sha256", json_str row.(ev_tree_sha256));
         ("objective_id", json_str row.(ev_objective_id))] ++
        (if CONTENT_MAC_V2 <=? resolved
         then ("mac_version", JInt CONTENT_MAC_V2) ::
              map (fun f => (f, mac_field row f)) CONTENT_MAC_V2_FIELDS
         else [])).

Definition evidence_content_mac (env : environ) (row : EvidenceRow)
    (artifact_sha256 : option string) (version : option Z) : result string :=
  let resolved := default CONTENT_MAC_CURRENT (resolve_content_mac_version row version) in
  let canonical := dumps true (mac_payload row artifact_sha256 resolved) in
  key ← evidence_mac_key env;
  Ok (hmac_text key canonical).

(** [session] is [None] for a row that is attached to no session. *)
Definition artifact_sha256_for_content_mac (session : option Db) (row : EvidenceRow) : option string :=
  match row.(ev_artifact_ref) with
  | None => None
  | Some ref =>
      if negb (str_truthy ref) then None
      else match session with
           | None => Some ""
           | Some db => ar_sha256 <$> db.(d_artifacts) !! ref
           end
  end.

Definition is_hex64 (s : string) : bool :=
  (str_len s =? 64) &&
  str_forallb is_hex_char s.

Definition stored_content_mac_ok (env : environ) (session : option Db) (row : EvidenceRow) : bool :=
  str_eq (evidence_mac_key_source env) "configured" &&
  bool_decide (row.(ev_content_mac_version) = Some CONTENT_MAC_CURRENT) &&
  match row.(ev_content_mac) with
  | None => false
  | Some mac =>
      is_hex64 mac &&
      match evidence_content_mac env row (artifact_sha256_for_content_mac session row)
              (Some CONTENT_MAC_CURRENT) with
      | Ok expected => str_eq expected mac
      | Err _ => false
      end
  end.

(** [_stamp_evidence_content_mac] ([db.py]): the before-insert hook. *)
Definition stamp_evidence_content_mac (env : environ) (db : Db) (target : EvidenceRow)
    : result EvidenceRow :=
  _ ← require_evidence_mac_key env;
  let target := target {{ ev_content_mac_version := Some CONTENT_MAC_CURRENT }} in
  let artifact :=
    if opt_truthy target.(ev_artifact_ref)
    then db.(d_artifacts) !! or_empty target.(ev_artifact_ref) else None in
  mac ← evidence_content_mac env target (ar_sha256 <$> artifact) (Some CONTENT_MAC_CURRENT);
  Ok (target {{ ev_content_mac := Some mac }}).

(** ** Properties *)

Lemma hmac_text_hex64 key s : is_hex64 (hmac_text key s) = true.
Proof.
  unfold is_hex64, hmac_text, Sha256.hmac.
  destruct (digest_bytes (map (Z.lxor 92) ((if 64 <? Z.of_nat (length key) then Sha256.digest key else key) ++
     replicate (64 - length (if (64 <? Z.of_nat (length key))%Z then Sha256.digest key else key)) 0) ++
     Sha256.digest (map (Z.lxor 54) ((if 64 <? Z.of_nat (length key) then Sha256.digest key else key) ++
     replicate (64 - length (if (64 <? Z.of_nat (length key))%Z then Sha256.digest key else key)) 0) ++ utf8 s)))
    as [Hb Hl].
  destruct (hex_ok _ Hb) as [E1 E2]. rewrite E1, E2, Hl. done.
Qed.

(** Under a configured key, the MAC that the insert hook stamps on an
    Evidence row is the one that verification accepts, as long as the row and
    the digest of the artifact it points at are unchanged; the row itself is
    otherwise left as it was. *)
Theorem stamp_then_verify env db db' e e' :
  evidence_mac_key_source env = "configured" ->
  (forall ref, e.(ev_artifact_ref) = Some ref -> d_artifacts db' !! ref = d_artifacts db !! ref) ->
  stamp_evidence_content_mac env db e = Ok e' ->
  stored_content_mac_ok env (Some db') e' = true /\
  mac_payload e' None CONTENT_MAC_CURRENT = mac_payload e None CONTENT_MAC_CURRENT.
Proof.
  intros Hkey Hart H. unfold stamp_evidence_content_mac in H. crush_hyps.
  match goal with H : evidence_content_mac _ _ _ _ = Ok ?m |- _ => rename H into Hmac; rename m into mac end.
  split; [|done].
  assert (artifact_sha256_for_content_mac (Some db') e =
    ar_sha256 <$> (if opt_truthy (ev_artifact_ref e) then d_artifacts db !! or_empty (ev_artifact_ref e) else None)) as Ea.
  { unfold artifact_sha256_for_content_mac, opt_truthy. destruct (ev_artifact_ref e) as [ref|]; [|done].
    simpl. destruct (str_truthy ref); [|done]. simpl. by rewrite Hart. }
  unfold stored_content_mac_ok. rewrite Hkey. cbn [ev_content_mac ev_content_mac_version apply_update constant].
  match goal with |- context [artifact_sha256_for_content_mac ?s ?r] =>
    change (artifact_sha256_for_content_mac s r) with (artifact_sha256_for_content_mac s e) end.
  rewrite Ea. unfold evidence_content_mac in *. crush_hyps.
  match goal with H : evidence_mac_key env = Ok _ |- _ => rewrite H end.
  cbn [mbind result_bind]. rewrite hmac_text_hex64.
  apply bool_decide_eq_true_2. done.
Qed.

Lemma stamp_then_verify_witness :
  let env := {["SDF_EVIDENCE_MAC_KEY" := "0123456789abcdef0123456789abcdef"]} : environ in
  let e := {| ev_id := "E"; ev_attempt_id := Some "A"; ev_kind := "k"; ev_status := "PASS"; ev_command := "c";
     ev_exit_code := Some 0; ev_artifact_ref := None; ev_confidence := f_of_Z 1; ev_criterion := None;
     ev_measured_at := None; ev_evidence_mode := "synthetic"; ev_created_at := DateTime 0 true;
     ev_revision_id := None; ev_tree_sha256 := None; ev_evidence_class := Some "verification";
     ev_producer_identity := None; ev_producer_role := None; ev_verifier_identity := Some "sdf-evaluator";
     ev_verifier_role := None; ev_subject_artifact_sha256 := None; ev_oracle_digest := None;
     ev_environment_digest := None; ev_collected_at := None; ev_expires_at := Some (DateTime 7 true);
     ev_oracle_visibility := None; ev_input_seed := None; ev_objective_id := None; ev_content_mac := None;
     ev_content_mac_version := None |} in
  exists e', stamp_evidence_content_mac env empty_db e = Ok e' /\ stored_content_mac_ok env (Some empty_db) e' = true.
Proof.
  intros env e. assert (is_ok (stamp_evidence_content_mac env empty_db e) = true) as Hok by (vm_compute; reflexivity).
  destruct (stamp_evidence_content_mac env empty_db e) as [e'|] eqn:H; [|discriminate Hok].
  exists e'. split; [reflexivity|].
  exact (proj1 (stamp_then_verify env empty_db empty_db e e' ltac:(vm_compute; reflexivity) ltac:(reflexivity) H)).
Defined.
