(* ===== verification/Flush.v ===== *)
(** * Flush: the persistence boundary

    Models the session listeners, constraints and pinned casefold of
    [src/sdf_core/db.py] and [src/sdf_core/casefold.py].

    A [Session] is the rows the database holds ([stored]) and the rows as the
    code has left them ([current]).  A row of [current] with no stored key is
    in [session.new], one that differs from its stored row is dirty, a stored
    key that is gone is in [session.deleted]; [flush] runs every
    [before_flush] listener in registration order, the insert hooks and the
    constraints, and only then makes [current] the stored state. *)

From S2P Require Import Prelude Json Db EvidenceMac.

(** ** Pinned casefold ([casefold.py]) *)

Definition SUPPORTED_UNICODE_VERSIONS : list string := ["14.0.0"; "15.0.0"; "15.1.0"].
Definition MAX_CASEFOLD_LENGTH : Z := 360.

(** [str.casefold] of one code point below 256 (the micro sign, whose fold is
    above that range, stands for itself). *)
Definition fold_char (c : ascii) : string :=
  let n := nat_of_ascii c in
  if is_upper c then char_str (char_lower c)
  else if (192 <=? n)%nat && (n <=? 222)%nat && negb (n =? 215)%nat
  then char_str (ascii_of_nat (n + 32))
  else if (n =? 223)%nat then "ss"
  else char_str c.

Fixpoint py_casefold (s : string) : string :=
  match s with
  | EmptyString => EmptyString
  | String c s => fold_char c +:+ py_casefold s
  end.

Definition casefold (unidata_version : string) (value : string) : result string :=
  _ ← raise_if (negb (str_in unidata_version SUPPORTED_UNICODE_VERSIONS))
        (ValueError ("Unicode " +:+ unidata_version +:+ " is not a supported casefold version"));
  let folded := py_casefold value in
  _ ← raise_if (MAX_CASEFOLD_LENGTH <? str_len folded)
        (ValueError ("casefold is " +:+ pretty (str_len folded) +:+
                     " characters; the supported maximum is 360"));
  Ok folded.

(** ** Sessions *)

(** What the process runs on: its environment and its Unicode tables. *)
Record Host : Type := { h_environ : environ; h_unidata_version : string }.

Record Session : Type := { stored : Db; current : Db }.

Section changes.
Context {K R : Type} `{Countable K} `{EqDecision R}.
Implicit Types (t : Db -> gmap K R) (s : Session).

Definition rows (m : gmap K R) : list R := (map_to_list m).*2.

Definition new_rows t s : list R := rows (t (current s) ∖ t (stored s)).
Definition deleted_rows t s : list R := rows (t (stored s) ∖ t (current s)).

Definition changed_pair (old new : option R) : option (R * R) :=
  match old, new with
  | Some a, Some b => if bool_decide (a = b) then None else Some (a, b)
  | _, _ => None
  end.

(** Stored rows whose value changed, with their stored value. *)
Definition dirty_rows t s : list (R * R) :=
  (map_to_list (merge changed_pair (t (stored s)) (t (current s)))).*2.

(** [session.get] inside a listener: a row the database already holds, with
    the values the session gave it. *)
Definition pget t (k : K) s : option R :=
  match t (stored s) !! k with Some _ => t (current s) !! k | None => None end.
End changes.

Definition any_row {A} (l : list A) : bool := match l with [] => false | _ => true end.

(** Every row must pass; the first failure is raised. *)
Definition each {A} (l : list A) (f : A -> result unit) : result unit :=
  result_fold (fun _ x => f x) () l.

Lemma each_Ok {A} (l : list A) f u : each l f = Ok u <-> forall x, x ∈ l -> f x = Ok ().
Proof.
  destruct u. unfold each. induction l as [|x l IH]; simpl; [split; [by intros _ ? ?%not_elem_of_nil|done]|].
  rewrite bind_Ok, <- Forall_forall, Forall_cons, Forall_forall, <- IH.
  split; [intros ([] & ? & ?); done|]. intros [? ?]. by exists ().
Qed.

(** ** Evidence is append-only and classed *)

Definition EVIDENCE_CLASSES : list string := ["execution"; "verification"; "outcome"].
Definition ORACLE_VISIBILITIES : list string := ["visible"; "held_out"].

Definition check_new_evidence (item : EvidenceRow) : result unit :=
  let cls := or_empty item.(ev_evidence_class) in
  _ ← raise_if (negb (bool_decide (is_Some item.(ev_evidence_class)) && str_in cls EVIDENCE_CLASSES))
        (ValueError "evidence_class must be one of the classes on every new Evidence row (ADR 0042)");
  _ ← (if str_eq cls "outcome" then
         _ ← raise_if (bool_decide (is_Some item.(ev_attempt_id)) || negb (opt_truthy item.(ev_objective_id)))
               (ValueError "outcome evidence must be linked to an objective and not to an attempt (ADR 0042)");
         raise_if (bool_decide (is_Some item.(ev_revision_id)) || bool_decide (is_Some item.(ev_tree_sha256)))
               (ValueError "outcome evidence is not bound to an attempt revision (ADR 0042)")
       else
         raise_if (negb (opt_truthy item.(ev_attempt_id)) || bool_decide (is_Some item.(ev_objective_id)))
               (ValueError (cls +:+ " evidence must be linked to an attempt and not to an objective (ADR 0042)")));
  raise_if (match item.(ev_oracle_visibility) with
            | Some v => negb (str_in v ORACLE_VISIBILITIES) | None => false end)
    (ValueError "oracle_visibility must be one of ['visible', 'held_out'] (ADR 0040)").

Definition reject_evidence_mutation (s : Session) : result unit :=
  _ ← raise_if (any_row (deleted_rows d_evidence s))
        (ValueError "Evidence rows are append-only and cannot be deleted");
  _ ← each (new_rows d_evidence s) check_new_evidence;
  raise_if (any_row (dirty_rows d_evidence s))
    (ValueError "Evidence rows are append-only and cannot be updated").

(** ** Append-only tables *)

Definition append_only {K R} `{Countable K} `{EqDecision R} (t : Db -> gmap K R) (name : string)
    (s : Session) : result unit :=
  _ ← raise_if (any_row (deleted_rows t s)) (ValueError (name +:+ " rows are append-only and cannot be deleted"));
  raise_if (any_row (dirty_rows t s)) (ValueError (name +:+ " rows are append-only and cannot be updated")).

Definition reject_tool_audit_mutation (s : Session) : result unit :=
  append_only d_tool_audits "Tool audit" s.

Definition reject_agent_message_mutation (s : Session) : result unit :=
  _ ← append_only d_agent_messages "AgentMessageRow" s;
  _ ← append_only d_agent_claims "AgentClaimRow" s;
  _ ← append_only d_usage_ledger "UsageLedgerRow" s;
  _ ← append_only d_runtime_events "RuntimeEventRow" s;
  append_only d_routing_decisions "RoutingDecisionRow" s.

(** ** Decision edges end in rows that exist *)

Definition edge_endpoints (edges : list DecisionEdgeRow) : list (string * string) :=
  edges ≫= fun e => [(e.(de_source_id), e.(de_source_kind)); (e.(de_target_id), e.(de_target_kind))].

(** The endpoints of the kinds [p] accepts that are neither new nor stored. *)
Definition missing_ids {R} (p : string -> bool) (edges : list DecisionEdgeRow)
    (t : Db -> gmap string R) (s : Session) : list string :=
  (filter (fun e => p e.2 = true /\ t (current s) !! e.1 = None /\ t (stored s) !! e.1 = None)
     (edge_endpoints edges)).*1.

Definition reject_dangling_decision_edges (s : Session) : result unit :=
  let edges := new_rows d_decision_edges s in
  let missing :=
    missing_ids (fun k => negb (str_in k ["task"; "attempt"])) edges d_graph_nodes s ++
    missing_ids (fun k => str_eq k "task") edges d_tasks s ++
    missing_ids (fun k => str_eq k "attempt") edges d_attempts s in
  raise_if (any_row missing)
    (ValueError ("decision edge references missing graph node(s): " +:+ str_join ", " missing)).

(** ** Plans and decision requests *)

Definition PLAN_MUTABLE : list string := ["status"; "decided_at"].
Definition DECISION_REQUEST_IDENTITY : list string :=
  ["id"; "subject_kind"; "subject_id"; "run_id"; "requested_by"; "message_id"; "question"; "options"; "created_at"].

Definition only_in (allowed changed : list string) : bool := forallb (fun c => str_in c allowed) changed.
Definition meets (l k : list string) : bool := existsb (fun c => str_in c k) l.

Definition links_material (s : Session) (request : DecisionRequestRow) : bool :=
  if negb (str_eq request.(dr_subject_kind) "agent_request") || negb (opt_truthy request.(dr_message_id))
  then false
  else match pget d_agent_messages (or_empty request.(dr_message_id)) s with
       | Some message => is_true (jget "material" (default (JObj []) message.(mg_meta)))
       | None => false
       end.

Definition guard_decision_request (s : Session) (p : DecisionRequestRow * DecisionRequestRow) : result unit :=
  let '(before, item) := p in
  _ ← raise_if (negb (str_eq before.(dr_status) "pending"))
        (ValueError "a resolved decision request is final");
  let changed := DecisionRequestRow_changed before item in
  _ ← raise_if (meets changed DECISION_REQUEST_IDENTITY)
        (ValueError "a decision request's subject, message and question are immutable");
  raise_if (negb (str_eq item.(dr_status) "pending") &&
            negb (opt_str_eq item.(dr_resolver_kind) (Some "human")) && links_material s item)
    (ValueError "only a human resolves a material decision request (ADR 0033)").

Definition human_approved (s : Session) (item : PlanRow) : bool :=
  match pget d_decision_requests item.(pl_decision_request_id) s with
  | Some request =>
      str_eq request.(dr_subject_id) item.(pl_id) && str_eq request.(dr_status) "approved" &&
      opt_str_eq request.(dr_resolver_kind) (Some "human")
  | None => false
  end.

Definition guard_plan (s : Session) (p : PlanRow * PlanRow) : result unit :=
  let '(before, item) := p in
  let changed := PlanRow_changed before item in
  _ ← raise_if (negb (only_in PLAN_MUTABLE changed))
        (ValueError "plan content is immutable once proposed; propose a new plan");
  if str_in "status" changed then
    _ ← raise_if (negb (str_eq before.(pl_status) "proposed" &&
                        str_in item.(pl_status) ["approved"; "rejected"]))
          (ValueError "plan status may only move once from proposed to approved or rejected");
    raise_if (str_eq item.(pl_status) "approved" && negb (human_approved s item))
      (PlanGateError "plan approval requires a human-approved decision request")
  else Ok ().

Definition guard_plans_and_decisions (s : Session) : result unit :=
  _ ← raise_if (any_row (deleted_rows d_plans s) || any_row (deleted_rows d_decision_requests s)
                || any_row (deleted_rows d_plan_tasks s))
        (ValueError "plan and decision request rows cannot be deleted");
  _ ← raise_if (any_row (dirty_rows d_plan_tasks s)) (ValueError "plan task membership is immutable");
  _ ← each (dirty_rows d_decision_requests s) (guard_decision_request s);
  each (dirty_rows d_plans s) (guard_plan s).

(** ** No Attempt on a planned Task before approval *)

Definition plan_approved (s : Session) (plan_id : string) : bool :=
  match pget d_plans plan_id s with
  | Some plan => str_eq plan.(pl_status) "approved"
  | None => false
  end.

Definition unapproved_plan (s : Session) (task_id : string) : option string :=
  match (current s).(d_plan_tasks) !! task_id with
  | None => None
  | Some link => if plan_approved s link.(pt_plan_id) then None else Some link.(pt_plan_id)
  end.

Definition enforce_plan_gate (s : Session) : result unit :=
  _ ← each (new_rows d_attempts s) (fun item =>
        match unapproved_plan s item.(at_task_id) with
        | Some blocked => Err (PlanGateError ("plan " +:+ blocked +:+ " is not approved; task " +:+
                                              item.(at_task_id) +:+ " cannot start"))
        | None => Ok ()
        end);
  each (new_rows d_agent_runs s) (fun item =>
    raise_if (negb (plan_approved s item.(rn_plan_id)))
      (PlanGateError ("plan " +:+ item.(rn_plan_id) +:+ " is not approved; no agent run may start"))).

(** ** Revision bindings (ADR 0032) *)

Definition REVISION_SET_ONCE : list string :=
  ["base_commit"; "base_commit_source"; "result_tree_sha256"; "finished_at"].

Definition RevisionBindingError (msg : string) : exn := OtherError "RevisionBindingError" msg.

(** [_pending_attempt]: a new row first, then a stored one. *)
Definition pending_attempt (s : Session) (attempt_id : option string) : option AttemptRow :=
  match attempt_id with
  | None => None
  | Some i => (current s).(d_attempts) !! i
  end.

Definition revision_of_attempt (i : string) (rows : list AttemptRevisionRow) : option AttemptRevisionRow :=
  head (filter (fun r => rv_attempt_id r = i) rows).

(** [_pending_revision(session, attempt_id=...)] *)
Definition pending_revision_of (s : Session) (attempt_id : option string) : option AttemptRevisionRow :=
  match attempt_id with
  | None => None
  | Some i => revision_of_attempt i (new_rows d_attempt_revisions s ++ rows (d_attempt_revisions (current s)))
  end.

(** [_pending_revision(session, revision_id=...)] *)
Definition pending_revision_by_id (s : Session) (revision_id : string) : option AttemptRevisionRow :=
  (current s).(d_attempt_revisions) !! revision_id.

(** What an artifact and an Evidence row have in common for the binding. *)
Record Bound : Type := {
  bd_kind : string; bd_id : string; bd_attempt_id : option string;
  bd_revision_id : option string; bd_tree_sha256 : option string
}.

Definition bound_artifact (r : ArtifactRow) : Bound :=
  {| bd_kind := "artifact"; bd_id := r.(ar_id); bd_attempt_id := Some r.(ar_attempt_id);
     bd_revision_id := r.(ar_revision_id); bd_tree_sha256 := r.(ar_tree_sha256) |}.

Definition bound_evidence (r : EvidenceRow) : Bound :=
  {| bd_kind := "evidence"; bd_id := r.(ev_id); bd_attempt_id := r.(ev_attempt_id);
     bd_revision_id := r.(ev_revision_id); bd_tree_sha256 := r.(ev_tree_sha256) |}.

Definition check_bound (s : Session) (row : Bound) : result unit :=
  let own := pending_revision_of s row.(bd_attempt_id) in
  match row.(bd_revision_id) with
  | None =>
      _ ← raise_if (bool_decide (is_Some own))
            (RevisionBindingError ("missing revision binding: " +:+ row.(bd_kind) +:+ " " +:+ row.(bd_id)));
      _ ← raise_if (bool_decide (is_Some row.(bd_tree_sha256)))
            (RevisionBindingError (row.(bd_kind) +:+ " " +:+ row.(bd_id) +:+ " names a tree without a revision"));
      attempt ← require_some (pending_attempt s row.(bd_attempt_id))
            (RevisionBindingError ("missing revision binding: " +:+ row.(bd_kind) +:+ " names unknown attempt"));
      raise_if (bool_decide (is_Some attempt.(at_revision_required)))
        (RevisionBindingError ("missing revision binding: attempt " +:+ attempt.(at_id) +:+
                               " was created after migration 0023 and has no revision"))
  | Some rid =>
      own ← (if bool_decide (rv_id <$> own = Some rid)
             then require_some own AssertionError
             else match pending_revision_by_id s rid with
                  | Some other =>
                      if negb (opt_str_eq (Some other.(rv_attempt_id)) row.(bd_attempt_id))
                      then Err (RevisionBindingError ("cross-Attempt revision binding: " +:+ row.(bd_id) +:+
                             " refers to revision " +:+ other.(rv_id) +:+ " of attempt " +:+ other.(rv_attempt_id)))
                      else Err (RevisionBindingError ("refers to unknown revision " +:+ rid))
                  | None => Err (RevisionBindingError ("refers to unknown revision " +:+ rid))
                  end);
      tree ← require_some own.(rv_result_tree_sha256)
            (RevisionBindingError ("revision " +:+ own.(rv_id) +:+ " has no result tree yet"));
      raise_if (negb (opt_str_eq row.(bd_tree_sha256) (Some tree)))
        (RevisionBindingError ("mismatched revision: revision " +:+ own.(rv_id) +:+ " produced " +:+ tree))
  end.

Definition check_revision_binding_evidence (s : Session) (row : EvidenceRow) : result unit :=
  if opt_str_eq row.(ev_evidence_class) (Some "outcome") then
    raise_if (bool_decide (is_Some row.(ev_attempt_id)) || negb (opt_truthy row.(ev_objective_id))
              || bool_decide (is_Some row.(ev_revision_id)) || bool_decide (is_Some row.(ev_tree_sha256)))
      (RevisionBindingError ("outcome evidence " +:+ row.(ev_id) +:+
         " is linked to an objective and not to an attempt revision (ADR 0042)"))
  else check_bound s (bound_evidence row).

Definition guard_revision (p : AttemptRevisionRow * AttemptRevisionRow) : result unit :=
  let '(before, item) := p in
  let changed := AttemptRevisionRow_changed before item in
  _ ← raise_if (negb (only_in REVISION_SET_ONCE changed))
        (RevisionBindingError "an attempt revision's base identity is immutable");
  raise_if
    ((str_in "base_commit" changed && bool_decide (is_Some before.(rv_base_commit))) ||
     (str_in "base_commit_source" changed && bool_decide (is_Some before.(rv_base_commit_source))) ||
     (str_in "result_tree_sha256" changed && bool_decide (is_Some before.(rv_result_tree_sha256))) ||
     (str_in "finished_at" changed && bool_decide (is_Some before.(rv_finished_at))))
    (RevisionBindingError "attempt revision is set once and cannot change").

(** A new Attempt requires a revision, whatever the caller set. *)
Definition mark_new (old new : option AttemptRow) : option AttemptRow :=
  match old, new with
  | None, Some a => Some (a {{ at_revision_required := Some true }})
  | _, new => new
  end.

Definition require_revisions (s : Session) : Session :=
  {| stored := stored s;
     current := (current s) {{ d_attempts :=
       merge mark_new (d_attempts (stored s)) (d_attempts (current s)) }} |}.

Definition guard_attempt_revisions (s : Session) : result Session :=
  _ ← raise_if (any_row (deleted_rows d_attempt_revisions s))
        (ValueError "attempt revision rows cannot be deleted");
  let s := require_revisions s in
  _ ← each (dirty_rows d_artifacts s) (fun '(a, b) =>
        raise_if (negb (opt_str_eq a.(ar_revision_id) b.(ar_revision_id) &&
                        opt_str_eq a.(ar_tree_sha256) b.(ar_tree_sha256)))
          (RevisionBindingError "its revision binding is immutable after insert"));
  _ ← each (dirty_rows d_evidence s) (fun '(a, b) =>
        raise_if (negb (opt_str_eq a.(ev_revision_id) b.(ev_revision_id) &&
                        opt_str_eq a.(ev_tree_sha256) b.(ev_tree_sha256)))
          (RevisionBindingError "its revision binding is immutable after insert"));
  _ ← each (dirty_rows d_attempts s) (fun '(a, b) =>
        raise_if (negb (bool_decide (a.(at_revision_required) = b.(at_revision_required))))
          (RevisionBindingError "its revision binding is immutable after insert"));
  _ ← each (dirty_rows d_attempt_revisions s) guard_revision;
  _ ← each (new_rows d_artifacts s) (fun r => check_bound s (bound_artifact r));
  _ ← each (new_rows d_evidence s) (check_revision_binding_evidence s);
  Ok s.

(** ** Tokens and the authentication audit *)

Definition TOKEN_MUTABLE : list string := ["last_used_at"; "revoked_at"; "revoked_by"].

Definition guard_token (p : ApiTokenRow * ApiTokenRow) : result unit :=
  let '(before, item) := p in
  let changed := ApiTokenRow_changed before item in
  _ ← raise_if (negb (only_in TOKEN_MUTABLE changed))
        (ValueError "an API token's identity, roles, secret and expiry are immutable");
  raise_if (bool_decide (is_Some before.(tok_revoked_at)) && meets changed ["revoked_at"; "revoked_by"])
    (ValueError "a revoked API token stays revoked").

Definition guard_auth_rows (s : Session) : result unit :=
  _ ← raise_if (any_row (deleted_rows d_auth_audit s))
        (ValueError "auth audit rows are append-only and cannot be deleted");
  _ ← raise_if (any_row (deleted_rows d_api_tokens s)) (ValueError "API tokens are revoked, never deleted");
  _ ← raise_if (any_row (dirty_rows d_auth_audit s))
        (ValueError "auth audit rows are append-only and cannot be updated");
  each (dirty_rows d_api_tokens s) guard_token.

(** ** Constraints of the tables *)

(** [UNIQUE (columns of key)] over the rows of a table. *)
Definition unique_by {K R B} `{Countable K} `{EqDecision B} (key : R -> B) (m : gmap K R) : bool :=
  bool_decide (NoDup (map key (rows m))).

Definition all_rows {K R} `{Countable K} (p : R -> bool) (m : gmap K R) : bool := forallb p (rows m).

Definition opt_in (o : option string) (l : list string) : bool :=
  match o with None => true | Some v => str_in v l end.

Definition EVIDENCE_MODES : list string := ["synthetic"; "live"].

Definition check_attempt (r : AttemptRow) : bool :=
  str_in r.(at_evidence_mode) EVIDENCE_MODES && opt_in r.(at_remote_effect) ["uncertain"; "stopped"].

Definition check_evidence (r : EvidenceRow) : bool :=
  str_in r.(ev_evidence_mode) EVIDENCE_MODES && opt_in r.(ev_evidence_class) EVIDENCE_CLASSES &&
  match r.(ev_evidence_class) with
  | None => true
  | Some c =>
      (str_in c ["execution"; "verification"] && bool_decide (is_Some r.(ev_attempt_id)) &&
       bool_decide (r.(ev_objective_id) = None)) ||
      (str_eq c "outcome" && bool_decide (is_Some r.(ev_objective_id)) &&
       bool_decide (r.(ev_attempt_id) = None))
  end && opt_in r.(ev_oracle_visibility) ORACLE_VISIBILITIES.

(** [RUNTIME_EVENT_PROVENANCE_SQL] *)
Definition check_runtime_event (r : RuntimeEventRow) : bool :=
  Bool.eqb (str_eq (str_take 5 r.(re_kind)) "tool_") (str_eq r.(re_source) "tool-proxy").

Definition check_decision_request (r : DecisionRequestRow) : bool :=
  str_in r.(dr_status) ["pending"; "approved"; "rejected"; "answered"] &&
  str_in r.(dr_subject_kind) ["plan"; "agent_request"] && opt_in r.(dr_resolver_kind) ["human"; "policy"].

Definition RELATIONS : list string :=
  ["motivates"; "constrains"; "implements"; "depends_on"; "measures"; "validates"; "contradicts"].

(** The event that makes an execution audit row unique per action. *)
Definition execution_event (r : ToolAuditRow) : Prop := ta_event r <> "policy_decided".

Definition constraints_ok (d : Db) : bool :=
  all_rows check_attempt (d_attempts d) &&
  all_rows check_evidence (d_evidence d) &&
  all_rows check_runtime_event (d_runtime_events d) &&
  all_rows check_decision_request (d_decision_requests d) &&
  all_rows (fun r => str_in r.(de_relation) RELATIONS) (d_decision_edges d) &&
  all_rows (fun r => str_in r.(pl_status) ["proposed"; "approved"; "rejected"]) (d_plans d) &&
  all_rows (fun r => str_in r.(rn_status) ["running"; "succeeded"; "failed"; "cancelled"]) (d_agent_runs d) &&
  all_rows (fun r => str_in r.(rs_phase) ["creating"; "identified"; "absent"]) (d_attempt_remote_sandboxes d) &&
  all_rows (fun r => 0 <? r.(om_measurement_window_days)) (d_objective_metrics d) &&
  all_rows (fun r => str_in r.(oo_mode) EVIDENCE_MODES) (d_outcome_observations d) &&
  all_rows (fun r => str_in r.(rd_mode) ["explicit"; "measured"]) (d_routing_decisions d) &&
  all_rows (fun r => str_in r.(ul_kind) ["turn"; "sandbox"] &&
                     str_in r.(ul_source) ["reported"; "estimated"; "missing"]) (d_usage_ledger d) &&
  all_rows (fun r => str_in r.(ta_evidence_mode) EVIDENCE_MODES) (d_tool_audits d) &&
  all_rows (fun r => str_in r.(tok_kind) ["human"; "service"]) (d_api_tokens d) &&
  all_rows (fun r => str_in r.(mg_kind)
      ["message"; "report"; "question"; "decision_request"; "decision"; "system"]) (d_agent_messages d) &&
  unique_by tk_idempotency_key (d_tasks d) &&
  unique_by at_dispatch_key (d_attempts d) &&
  unique_by rv_attempt_id (d_attempt_revisions d) &&
  unique_by (fun r => (r.(re_source), r.(re_attempt_id), r.(re_session_id), r.(re_sequence))) (d_runtime_events d) &&
  unique_by rd_attempt_id (d_routing_decisions d) &&
  unique_by (fun r => (r.(ta_attempt_id), r.(ta_action_id), r.(ta_event)))
    (filter (fun kv => execution_event kv.2) (d_tool_audits d)) &&
  unique_by (fun r => (r.(mb_run_id), r.(mb_agent_id))) (d_agent_run_members d) &&
  unique_by (fun r => (r.(mg_run_id), r.(mg_seq))) (d_agent_messages d) &&
  unique_by (fun r => (r.(mg_run_id), r.(mg_from_agent), r.(mg_envelope_id))) (d_agent_messages d) &&
  unique_by cl_message_id (d_agent_claims d).

(** ** The flush *)

(** Run [f] over the rows of [current] that the database does not hold. *)
Definition on_new {R} (f : R -> result R) (old new : gmap string R) : result (gmap string R) :=
  result_fold (fun m kv =>
      match old !! kv.1 with
      | Some _ => Ok m
      | None => r ← f kv.2; Ok (<[kv.1 := r]> m)
      end) new (map_to_list new).

(** [_stamp_plan_casefold] *)
Definition stamp_plan_casefold (h : Host) (target : PlanRow) : result PlanRow :=
  folded ← casefold (h_unidata_version h) target.(pl_proposed_by);
  Ok (target {{ pl_proposed_by_casefold := Some folded }}).

Definition guards (s : Session) : result Session :=
  _ ← reject_evidence_mutation s;
  _ ← reject_tool_audit_mutation s;
  _ ← reject_dangling_decision_edges s;
  _ ← reject_agent_message_mutation s;
  _ ← guard_plans_and_decisions s;
  _ ← enforce_plan_gate s;
  s ← guard_attempt_revisions s;
  _ ← guard_auth_rows s;
  Ok s.

Definition flush (h : Host) (s : Session) : result Session :=
  s ← guards s;
  plans ← on_new (stamp_plan_casefold h) (d_plans (stored s)) (d_plans (current s));
  evidence ← on_new (stamp_evidence_content_mac (h_environ h) (current s))
               (d_evidence (stored s)) (d_evidence (current s));
  let d := (current s) {{ d_plans := plans; d_evidence := evidence }} in
  _ ← raise_if (negb (constraints_ok d)) (IntegrityError "constraint failed");
  Ok {| stored := d; current := d |}.

(** A unit of work: the code's statements change [current], then it flushes. *)
Definition open_session (d : Db) : Session := {| stored := d; current := d |}.

Definition flush_change (h : Host) (d : Db) (f : Db -> Db) : result Db :=
  s ← flush h {| stored := d; current := f d |};
  Ok (stored s).
