(* ===== verification/Samples.v ===== *)
(** * Samples: rows with every column blank

    Starting points for the concrete rows that the witnesses of the other
    files build by record update. *)

From S2P Require Import Prelude Json Db.

Definition blank_GraphNodeRow : GraphNodeRow := {|
  gn_id := ""; gn_kind := ""; gn_title := ""; gn_source := ""; gn_owner := "";
  gn_confidence := f_zero; gn_created_at := (DateTime 0 true); gn_metadata_json := None
|}.

Definition blank_DecisionEdgeRow : DecisionEdgeRow := {|
  de_id := 0; de_source_kind := ""; de_source_id := ""; de_target_kind := "";
  de_target_id := ""; de_relation := ""; de_source := ""; de_owner := "";
  de_confidence := f_zero; de_created_at := (DateTime 0 true); de_evidence_ref := None
|}.

Definition blank_TaskRow : TaskRow := {|
  tk_id := ""; tk_title := ""; tk_status := ""; tk_idempotency_key := "";
  tk_acceptance_criteria := []; tk_created_at := (DateTime 0 true)
|}.

Definition blank_AttemptRow : AttemptRow := {|
  at_id := ""; at_task_id := ""; at_status := ""; at_dispatch_key := ""; at_agent := "";
  at_parent_attempt_id := None; at_model_tier := ""; at_cost_usd := f_zero; at_provider := None;
  at_latency_ms := None; at_input_tokens := None; at_output_tokens := None;
  at_escalation_reason := None; at_created_at := (DateTime 0 true); at_model_profile := None;
  at_outcome := None; at_evidence_mode := ""; at_error_class := None; at_trace_id := None;
  at_principal := None; at_revision_required := None; at_executor_id := None;
  at_executor_heartbeat_at := None; at_remote_effect := None
|}.

Definition blank_AttemptRemoteSandboxRow : AttemptRemoteSandboxRow := {|
  rs_id := ""; rs_attempt_id := ""; rs_provider := ""; rs_sandbox_id := None; rs_phase := "";
  rs_created_at := (DateTime 0 true)
|}.

Definition blank_ObjectiveMetricRow : ObjectiveMetricRow := {|
  om_objective_id := ""; om_metric_name := ""; om_baseline := f_zero; om_target := f_zero;
  om_unit := ""; om_source := ""; om_owner := ""; om_measurement_window_days := 0;
  om_declared_at := (DateTime 0 true)
|}.

Definition blank_OutcomeObservationRow : OutcomeObservationRow := {|
  oo_id := ""; oo_objective_id := ""; oo_metric_name := ""; oo_value := f_zero;
  oo_observed_at := (DateTime 0 true); oo_source := ""; oo_mode := "";
  oo_created_at := (DateTime 0 true)
|}.

Definition blank_ArtifactRow : ArtifactRow := {|
  ar_id := ""; ar_attempt_id := ""; ar_kind := ""; ar_uri := ""; ar_sha256 := "";
  ar_size_bytes := 0; ar_created_at := (DateTime 0 true); ar_revision_id := None;
  ar_tree_sha256 := None
|}.

Definition blank_AttemptRevisionRow : AttemptRevisionRow := {|
  rv_id := ""; rv_attempt_id := ""; rv_repository := ""; rv_tree_format := "";
  rv_base_tree_sha256 := ""; rv_base_commit := None; rv_base_commit_source := None;
  rv_result_tree_sha256 := None; rv_created_at := (DateTime 0 true); rv_finished_at := None
|}.

Definition blank_EvidenceRow : EvidenceRow := {|
  ev_id := ""; ev_attempt_id := None; ev_kind := ""; ev_status := ""; ev_command := "";
  ev_exit_code := None; ev_artifact_ref := None; ev_confidence := f_zero; ev_criterion := None;
  ev_measured_at := None; ev_evidence_mode := ""; ev_created_at := (DateTime 0 true);
  ev_revision_id := None; ev_tree_sha256 := None; ev_evidence_class := None;
  ev_producer_identity := None; ev_producer_role := None; ev_verifier_identity := None;
  ev_verifier_role := None; ev_subject_artifact_sha256 := None; ev_oracle_digest := None;
  ev_environment_digest := None; ev_collected_at := None; ev_expires_at := None;
  ev_oracle_visibility := None; ev_input_seed := None; ev_objective_id := None;
  ev_content_mac := None; ev_content_mac_version := None
|}.

Definition blank_RuntimeEventRow : RuntimeEventRow := {|
  re_id := 0; re_source := ""; re_attempt_id := ""; re_session_id := ""; re_sequence := 0;
  re_kind := ""; re_status := ""; re_payload := JNull; re_created_at := (DateTime 0 true)
|}.

Definition blank_RoutingDecisionRow : RoutingDecisionRow := {|
  rd_id := ""; rd_attempt_id := ""; rd_selected_agent := ""; rd_mode := ""; rd_reason := "";
  rd_request := None; rd_candidates := []; rd_created_at := (DateTime 0 true)
|}.

Definition blank_UsageLedgerRow : UsageLedgerRow := {|
  ul_id := 0; ul_attempt_id := ""; ul_run_id := None; ul_kind := ""; ul_agent := None;
  ul_turn := None; ul_session_id := None; ul_sandbox_id := None; ul_sandbox_provider := None;
  ul_model := None; ul_input_tokens := None; ul_output_tokens := None;
  ul_cache_read_tokens := None; ul_seconds := None; ul_cost_usd := None; ul_source := "";
  ul_cost_source := ""; ul_status := ""; ul_error_class := None; ul_detail := None;
  ul_created_at := (DateTime 0 true)
|}.

Definition blank_ToolAuditRow : ToolAuditRow := {|
  ta_audit_id := ""; ta_attempt_id := ""; ta_action_id := ""; ta_actor := ""; ta_tool := "";
  ta_action := ""; ta_resource := ""; ta_context := JNull; ta_event := ""; ta_decision := "";
  ta_executed := false; ta_outcome := ""; ta_detail := ""; ta_created_at := (DateTime 0 true);
  ta_evidence_mode := ""; ta_principal := None
|}.

Definition blank_PlanRow : PlanRow := {|
  pl_id := ""; pl_title := ""; pl_objective_id := None; pl_status := ""; pl_content := JNull;
  pl_content_sha256 := ""; pl_proposed_by := ""; pl_proposed_by_casefold := None;
  pl_created_at := (DateTime 0 true); pl_decision_request_id := ""; pl_decided_at := None
|}.

Definition blank_PlanTaskRow : PlanTaskRow := {|
  pt_task_id := ""; pt_plan_id := ""; pt_subtask_key := ""
|}.

Definition blank_DecisionRequestRow : DecisionRequestRow := {|
  dr_id := ""; dr_subject_kind := ""; dr_subject_id := ""; dr_run_id := None; dr_question := "";
  dr_options := []; dr_status := ""; dr_requested_by := ""; dr_message_id := None;
  dr_resolved_by := None; dr_resolver_kind := None; dr_resolution := None;
  dr_decision_node_id := None; dr_created_at := (DateTime 0 true); dr_resolved_at := None
|}.

Definition blank_AgentRunRow : AgentRunRow := {|
  rn_id := ""; rn_plan_id := ""; rn_status := ""; rn_config := JNull;
  rn_started_at := (DateTime 0 true); rn_finished_at := None; rn_cancel_requested_at := None;
  rn_cost_usd := f_zero; rn_started_by := None; rn_cancel_requested_by := None;
  rn_summary := None; rn_error := None; rn_trace_id := None
|}.

Definition blank_AgentRunMemberRow : AgentRunMemberRow := {|
  mb_id := 0; mb_run_id := ""; mb_agent_id := ""; mb_role := ""; mb_agent_kind := "";
  mb_subtask_key := None; mb_sandbox_id := None; mb_status := ""; mb_turns := 0;
  mb_input_tokens := 0; mb_output_tokens := 0
|}.

Definition blank_AgentMessageRow : AgentMessageRow := {|
  mg_id := ""; mg_run_id := ""; mg_seq := 0; mg_envelope_id := ""; mg_from_agent := "";
  mg_from_role := ""; mg_to_agent := None; mg_to_role := None; mg_kind := ""; mg_body := "";
  mg_body_sha256 := ""; mg_truncated := false; mg_attempt_id := None;
  mg_source_sandbox_id := None; mg_meta := None; mg_created_at := (DateTime 0 true)
|}.

Definition blank_AgentClaimRow : AgentClaimRow := {|
  cl_id := ""; cl_run_id := ""; cl_message_id := ""; cl_agent_id := ""; cl_attempt_id := None;
  cl_subtask_key := None; cl_claimed_status := ""; cl_body := "";
  cl_created_at := (DateTime 0 true)
|}.

Definition blank_ApiTokenRow : ApiTokenRow := {|
  tok_id := ""; tok_principal := ""; tok_kind := ""; tok_roles := []; tok_secret_hash := "";
  tok_description := None; tok_created_at := (DateTime 0 true); tok_created_by := "";
  tok_expires_at := (DateTime 0 true); tok_revoked_at := None; tok_revoked_by := None;
  tok_last_used_at := None
|}.

Definition blank_AuthAuditRow : AuthAuditRow := {|
  aa_id := 0; aa_at := (DateTime 0 true); aa_event := ""; aa_principal := None;
  aa_token_id := None; aa_method := None; aa_path := None; aa_route := None;
  aa_status_code := None; aa_client := None; aa_detail := None
|}.
