(* ===== verification/FlushFacts.v ===== *)
(** * FlushFacts: what a flush guarantees

    Theorems about [Flush.flush]: append-only tables, final decisions, the
    plan gate, revision bindings, token revocation and graph integrity. *)

From S2P Require Import Prelude Json Db EvidenceMac Flush Samples.

(** ** Reading the change sets *)

Section change_lemmas.
Context {K R : Type} `{Countable K} `{EqDecision R}.
Context (t : Db -> gmap K R) (s : Session).

Lemma elem_rows (m : gmap K R) r : r ∈ rows m <-> exists k, m !! k = Some r.
Proof.
  unfold rows. rewrite list_elem_of_fmap. split.
  - intros ([k x] & -> & Hx). exists k. by apply elem_of_map_to_list.
  - intros [k Hk]. exists (k, r). by rewrite elem_of_map_to_list.
Qed.

Lemma elem_new_rows r :
  r ∈ new_rows t s <-> exists k, t (stored s) !! k = None /\ t (current s) !! k = Some r.
Proof.
  unfold new_rows. rewrite elem_rows. setoid_rewrite lookup_difference_Some.
  split; intros [k Hk]; exists k; tauto.
Qed.

Lemma elem_dirty_rows p :
  p ∈ dirty_rows t s <-> exists k, t (stored s) !! k = Some p.1 /\ t (current s) !! k = Some p.2 /\ p.1 <> p.2.
Proof.
  unfold dirty_rows. rewrite list_elem_of_fmap. split.
  - intros ([k x] & -> & Hx). exists k. apply elem_of_map_to_list in Hx.
    rewrite (lookup_merge changed_pair) in Hx. unfold diag_None, changed_pair in Hx. simpl.
    destruct (t (stored s) !! k), (t (current s) !! k); try done.
    case_bool_decide; [done|]. by injection Hx as <-.
  - intros (k & Ha & Hb & Hne). exists (k, p). split; [done|]. apply elem_of_map_to_list.
    rewrite (lookup_merge changed_pair), Ha, Hb. simpl.
    rewrite bool_decide_eq_false_2 by done. by destruct p.
Qed.

Lemma no_deleted : any_row (deleted_rows t s) = false ->
  forall k r, t (stored s) !! k = Some r -> is_Some (t (current s) !! k).
Proof.
  intros Hd k r Hk. destruct (t (current s) !! k) as [x|] eqn:E; [by eexists|].
  assert (r ∈ deleted_rows t s) as Hin.
  { unfold deleted_rows. rewrite elem_rows. exists k. by rewrite lookup_difference_Some. }
  by destruct (deleted_rows t s); [apply not_elem_of_nil in Hin|].
Qed.

(** No deletion and no update: the stored table is a subset of the new one. *)
Lemma append_only_subseteq :
  any_row (deleted_rows t s) = false -> any_row (dirty_rows t s) = false ->
  t (stored s) ⊆ t (current s).
Proof.
  intros Hdel Hdirty. apply map_subseteq_spec. intros k r Hk.
  destruct (no_deleted Hdel k r Hk) as [x Hx]. destruct (decide (r = x)) as [->|Hne]; [done|].
  assert ((r, x) ∈ dirty_rows t s) as Hin by (apply elem_dirty_rows; by exists k).
  by destruct (dirty_rows t s); [apply not_elem_of_nil in Hin|].
Qed.
End change_lemmas.

Lemma append_only_Ok {K R} `{Countable K} `{EqDecision R} (t : Db -> gmap K R) name s u :
  append_only t name s = Ok u -> t (stored s) ⊆ t (current s).
Proof. unfold append_only. intros ?. crush_hyps. by apply append_only_subseteq. Qed.

Section on_new_lemmas.
Context {R : Type} (f : R -> result R) (old : gmap string R).

Lemma on_new_fold (l : list (string * R)) (m0 m : gmap string R) :
  NoDup l.*1 ->
  result_fold (fun (m : gmap string R) kv => match old !! kv.1 with
      | Some _ => Ok m | None => r ← f kv.2; Ok (<[kv.1 := r]> m) end) m0 l = Ok m ->
  (forall k, k ∉ l.*1 \/ is_Some (old !! k) -> m !! k = m0 !! k) /\
  (forall k r, (k, r) ∈ l -> old !! k = None -> exists r', f r = Ok r' /\ m !! k = Some r').
Proof.
  revert m0. induction l as [|[k r] l IH]; intros m0 Hnd; cbn [result_fold].
  { intros [= ->]. split; [done|]. intros ? ? ?%not_elem_of_nil. done. }
  apply NoDup_cons in Hnd as [Hk Hnd]. intros (m1 & H1 & H2)%bind_Ok.
  destruct (IH _ Hnd H2) as [Ha Hb]. simpl in H1. split.
  - intros k' Hk'. rewrite Ha by set_solver. destruct (old !! k) eqn:E; [by injection H1 as [= ->]|].
    apply bind_Ok in H1 as (r' & _ & [= <-]). rewrite lookup_insert_ne; [done|].
    intros ->. destruct Hk' as [Hk'|[? ?]]; [set_solver|congruence].
  - intros k' r0 [[= -> ->]|Hin]%elem_of_cons Hold; [|by apply Hb].
    rewrite Hold in H1. apply bind_Ok in H1 as (r' & Hr & [= <-]).
    exists r'. split; [done|]. rewrite Ha by by left. apply lookup_insert_eq.
Qed.

Lemma on_new_spec new m :
  on_new f old new = Ok m ->
  (forall k, is_Some (old !! k) -> m !! k = new !! k) /\
  (forall k, new !! k = None -> m !! k = None) /\
  (forall k r, old !! k = None -> new !! k = Some r -> exists r', f r = Ok r' /\ m !! k = Some r').
Proof.
  intros Hon. destruct (on_new_fold _ _ _ (NoDup_fst_map_to_list _) Hon) as [Ha Hb]. split_and!.
  - intros k Hk. apply Ha. by right.
  - intros k Hk. rewrite <- Hk. apply Ha. left. intros ([? ?] & -> & Hin)%list_elem_of_fmap.
    apply elem_of_map_to_list in Hin. simpl in *. congruence.
  - intros k r Hold Hk. apply (Hb k r); [by apply elem_of_map_to_list|done].
Qed.
End on_new_lemmas.

(** ** The parts of a successful flush *)

(** What the listeners have established about the session they accept. *)
Record guarded (s : Session) : Prop := {
  g_evidence : reject_evidence_mutation s = Ok ();
  g_audit : reject_tool_audit_mutation s = Ok ();
  g_edges : reject_dangling_decision_edges s = Ok ();
  g_messages : reject_agent_message_mutation s = Ok ();
  g_plans : guard_plans_and_decisions s = Ok ();
  g_gate : enforce_plan_gate s = Ok ();
  g_auth : guard_auth_rows (require_revisions s) = Ok ()
}.

(** The tables a flush writes as the session left them. *)
Definition same_tables (a b : Db) : Prop :=
  d_tasks a = d_tasks b /\ d_decision_requests a = d_decision_requests b /\
  d_plan_tasks a = d_plan_tasks b /\ d_tool_audits a = d_tool_audits b /\
  d_agent_messages a = d_agent_messages b /\ d_agent_claims a = d_agent_claims b /\
  d_usage_ledger a = d_usage_ledger b /\ d_runtime_events a = d_runtime_events b /\
  d_routing_decisions a = d_routing_decisions b /\ d_auth_audit a = d_auth_audit b /\
  d_api_tokens a = d_api_tokens b /\ d_graph_nodes a = d_graph_nodes b /\
  d_decision_edges a = d_decision_edges b /\ d_artifacts a = d_artifacts b /\
  d_attempt_revisions a = d_attempt_revisions b /\ d_agent_runs a = d_agent_runs b.

Lemma guard_attempt_revisions_eq s s' :
  guard_attempt_revisions s = Ok s' -> s' = require_revisions s.
Proof. unfold guard_attempt_revisions. intros ?. crush_hyps. done. Qed.

Lemma guards_Ok s s' : guards s = Ok s' ->
  s' = require_revisions s /\ guard_attempt_revisions s = Ok s' /\ guarded s.
Proof.
  unfold guards. intros ?. crush_hyps.
  repeat match goal with x : unit |- _ => destruct x end.
  match goal with H : guard_attempt_revisions s = Ok s' |- _ =>
    pose proof (guard_attempt_revisions_eq _ _ H) as -> end.
  by split_and!.
Qed.

Lemma flush_Ok h s s' : flush h s = Ok s' ->
  let r := current (require_revisions s) in
  guarded s /\ guard_attempt_revisions s = Ok (require_revisions s) /\
  stored s' = current s' /\ constraints_ok (stored s') = true /\
  same_tables (stored s') (current s) /\ d_attempts (stored s') = d_attempts r /\
  on_new (stamp_plan_casefold h) (d_plans (stored s)) (d_plans (current s)) = Ok (d_plans (stored s')) /\
  on_new (stamp_evidence_content_mac (h_environ h) r) (d_evidence (stored s)) (d_evidence (current s))
    = Ok (d_evidence (stored s')).
Proof.
  unfold flush. intros ?. crush_hyps.
  match goal with H : guards s = Ok _ |- _ => apply guards_Ok in H as (-> & ? & ?) end.
  boolify. split_and!; try done.
Qed.

Lemma require_revisions_lookup s k a :
  d_attempts (current (require_revisions s)) !! k = Some a ->
  exists a0, d_attempts (current s) !! k = Some a0 /\
    ((is_Some (d_attempts (stored s) !! k) /\ a = a0) \/
     (d_attempts (stored s) !! k = None /\ a = a0 {{ at_revision_required := Some true }})).
Proof.
  change (d_attempts (current (require_revisions s)))
    with (merge mark_new (d_attempts (stored s)) (d_attempts (current s))).
  rewrite (lookup_merge mark_new).
  destruct (d_attempts (stored s) !! k) eqn:?, (d_attempts (current s) !! k); intros [= <-]; eauto 10.
Qed.

(** ** Consequences, one listener at a time *)

(** Stored rows of a table that only grows by stamped insertions are kept. *)
Lemma on_new_subseteq {R} (f : R -> result R) (old new m : gmap string R) :
  on_new f old new = Ok m -> old ⊆ new -> old ⊆ m.
Proof.
  intros [Ha _]%on_new_spec Hs. apply map_subseteq_spec. intros k r Hk.
  rewrite Ha by (by exists r). by eapply map_subseteq_spec in Hk.
Qed.

Lemma guarded_evidence s : guarded s -> d_evidence (stored s) ⊆ d_evidence (current s).
Proof.
  intros G. pose proof (g_evidence _ G) as H. unfold reject_evidence_mutation in H. crush_hyps.
  by apply append_only_subseteq.
Qed.

Lemma guarded_auth s : guarded s ->
  d_auth_audit (stored s) ⊆ d_auth_audit (current s) /\
  (forall k r, d_api_tokens (stored s) !! k = Some r -> is_Some (d_api_tokens (current s) !! k)) /\
  (forall p, p ∈ dirty_rows d_api_tokens s -> guard_token p = Ok ()).
Proof.
  intros G. pose proof (g_auth _ G) as H. unfold guard_auth_rows in H. crush_hyps.
  split_and!.
  - exact (append_only_subseteq d_auth_audit (require_revisions s) ltac:(done) ltac:(done)).
  - exact (no_deleted d_api_tokens (require_revisions s) ltac:(done)).
  - by eapply (proj1 (each_Ok _ _ _)).
Qed.

Lemma guarded_messages s : guarded s ->
  d_agent_messages (stored s) ⊆ d_agent_messages (current s) /\
  d_agent_claims (stored s) ⊆ d_agent_claims (current s) /\
  d_usage_ledger (stored s) ⊆ d_usage_ledger (current s) /\
  d_runtime_events (stored s) ⊆ d_runtime_events (current s) /\
  d_routing_decisions (stored s) ⊆ d_routing_decisions (current s).
Proof.
  intros G. pose proof (g_messages _ G) as H. unfold reject_agent_message_mutation in H. crush_hyps.
  split_and!; by eapply append_only_Ok.
Qed.

Lemma guarded_plans s : guarded s ->
  (forall k r, d_plans (stored s) !! k = Some r -> is_Some (d_plans (current s) !! k)) /\
  (forall k r, d_decision_requests (stored s) !! k = Some r -> is_Some (d_decision_requests (current s) !! k)) /\
  d_plan_tasks (stored s) ⊆ d_plan_tasks (current s) /\
  (forall p, p ∈ dirty_rows d_decision_requests s -> guard_decision_request s p = Ok ()) /\
  (forall p, p ∈ dirty_rows d_plans s -> guard_plan s p = Ok ()).
Proof.
  intros G. pose proof (g_plans _ G) as H. unfold guard_plans_and_decisions in H. crush_hyps. boolify.
  split_and!.
  - by apply no_deleted.
  - by apply no_deleted.
  - by apply append_only_subseteq.
  - by eapply (proj1 (each_Ok _ _ _)).
  - by eapply (proj1 (each_Ok _ _ _)).
Qed.

(** A dirty row or an untouched one. *)
Lemma kept_or_dirty {K R} `{Countable K} `{EqDecision R} (t : Db -> gmap K R) s k a b :
  t (stored s) !! k = Some a -> t (current s) !! k = Some b -> a = b \/ (a, b) ∈ dirty_rows t s.
Proof.
  intros Ha Hb. destruct (decide (a = b)) as [->|Hne]; [by left|right].
  apply elem_dirty_rows. by exists k.
Qed.

Lemma changed_if_nil {A} `{EqDecision A} key (a b : A) l :
  only_in l (changed_if key a b) = true -> str_in key l = true \/ a = b.
Proof.
  unfold changed_if. case_bool_decide; [by right|]. simpl. rewrite andb_true_r. by left.
Qed.

Lemma only_in_app l a b : only_in l (a ++ b) = only_in l a && only_in l b.
Proof. apply forallb_app. Qed.

Lemma meets_app a b l : meets (a ++ b) l = meets a l || meets b l.
Proof. apply existsb_app. Qed.

Lemma meets_changed {A} `{EqDecision A} key (a b : A) l :
  meets (changed_if key a b) l = false -> str_in key l = true -> a = b.
Proof.
  unfold changed_if. case_bool_decide; [done|]. simpl. rewrite orb_false_r. congruence.
Qed.

Lemma str_in_changed {A} `{EqDecision A} key (a b : A) l : a <> b -> changed_if key a b ⊆ l -> str_in key l = true.
Proof.
  unfold changed_if, str_in. intros Hne. rewrite bool_decide_eq_false_2 by done.
  intros Hin. apply bool_decide_eq_true_2. set_solver.
Qed.

(** The columns a plan keeps for ever. *)
Definition same_plan (a b : PlanRow) : Prop :=
  a.(pl_id) = b.(pl_id) /\ a.(pl_title) = b.(pl_title) /\ a.(pl_objective_id) = b.(pl_objective_id) /\
  a.(pl_content) = b.(pl_content) /\ a.(pl_content_sha256) = b.(pl_content_sha256) /\
  a.(pl_proposed_by) = b.(pl_proposed_by) /\ a.(pl_proposed_by_casefold) = b.(pl_proposed_by_casefold) /\
  a.(pl_created_at) = b.(pl_created_at) /\ a.(pl_decision_request_id) = b.(pl_decision_request_id).

(** How a plan's status may move, given the decision requests. *)
Definition plan_step (requests : gmap string DecisionRequestRow) (a b : PlanRow) : Prop :=
  a.(pl_status) = b.(pl_status) \/
  (a.(pl_status) = "proposed" /\ b.(pl_status) = "rejected") \/
  (a.(pl_status) = "proposed" /\ b.(pl_status) = "approved" /\
   exists r, requests !! b.(pl_decision_request_id) = Some r /\ r.(dr_subject_id) = b.(pl_id) /\
     r.(dr_status) = "approved" /\ r.(dr_resolver_kind) = Some "human").

Ltac split_changed H :=
  repeat rewrite only_in_app in H; repeat rewrite andb_true_iff in H; destruct_and? H.

(** From "only these columns changed": the other columns are equal. *)
Ltac unchanged_columns :=
  repeat match goal with
  | H : only_in _ (changed_if _ _ _) = true |- _ =>
      apply changed_if_nil in H; try (destruct H as [H|H]; [discriminate H|])
  end.

Lemma guard_plan_step s a b : guard_plan s (a, b) = Ok () -> a <> b ->
  same_plan a b /\ plan_step (d_decision_requests (current s)) a b.
Proof.
  intros H Hne. unfold guard_plan in H. apply bind_Ok in H as ([] & H1 & H2). crush_hyps. boolify.
  split.
  - unfold PlanRow_changed in *. split_changed H1.
    unchanged_columns. by unfold same_plan.
  - unfold plan_step. destruct (decide (a.(pl_status) = b.(pl_status))) as [|Hs]; [by left|right].
    assert (str_in "status" (PlanRow_changed a b) = true) as Hin.
    { apply (str_in_changed _ _ _ _ Hs). unfold PlanRow_changed. set_solver. }
    rewrite Hin in H2. crush_hyps. boolify. unfold str_eq, str_in in *. boolify.
    match goal with H : pl_status b ∈ _ |- _ => apply elem_of_cons in H as [Hb|Hb%list_elem_of_singleton] end;
      [right|by left].
    split_and!; [done|done|]. rewrite Hb in *. rewrite bool_decide_eq_true_2 in * by done. simpl in *.
    match goal with H : negb _ = false |- _ => apply negb_false_iff in H; rename H into Hh end.
    unfold human_approved, pget in Hh.
    destruct (d_decision_requests (stored s) !! pl_decision_request_id b); [|done].
    destruct (d_decision_requests (current s) !! pl_decision_request_id b) as [r|]; [|done].
    exists r. unfold str_eq, opt_str_eq in Hh. boolify. done.
Qed.

(** The columns a decision request keeps for ever. *)
Definition same_question (a b : DecisionRequestRow) : Prop :=
  a.(dr_id) = b.(dr_id) /\ a.(dr_subject_kind) = b.(dr_subject_kind) /\ a.(dr_subject_id) = b.(dr_subject_id) /\
  a.(dr_run_id) = b.(dr_run_id) /\ a.(dr_requested_by) = b.(dr_requested_by) /\
  a.(dr_message_id) = b.(dr_message_id) /\ a.(dr_question) = b.(dr_question) /\
  a.(dr_options) = b.(dr_options) /\ a.(dr_created_at) = b.(dr_created_at).

Lemma guard_decision_request_step s a b : guard_decision_request s (a, b) = Ok () ->
  a.(dr_status) = "pending" /\ same_question a b /\
  (b.(dr_status) <> "pending" -> links_material s b = true -> b.(dr_resolver_kind) = Some "human").
Proof.
  intros H. unfold guard_decision_request in H. crush_hyps. boolify. unfold str_eq in *. boolify.
  split_and!; [done| |].
  - unfold DecisionRequestRow_changed in *.
    repeat match goal with H : meets (_ ++ _) _ = false |- _ =>
      rewrite meets_app in H; apply orb_false_iff in H; destruct H end.
    repeat match goal with H : meets (changed_if _ _ _) _ = false |- _ =>
      let E := fresh "E" in pose proof (meets_changed _ _ _ _ H) as E; clear H end.
    unfold same_question. split_and!; eauto.
  - intros Hp Hm. match goal with H : _ && _ = false |- _ => rename H into Hc end.
    rewrite Hm, andb_true_r, bool_decide_eq_false_2 in Hc by done. simpl in Hc.
    unfold opt_str_eq in Hc. by boolify.
Qed.

(** What stays of an API token, and that a revocation stays. *)
Definition same_token (a b : ApiTokenRow) : Prop :=
  a.(tok_id) = b.(tok_id) /\ a.(tok_principal) = b.(tok_principal) /\ a.(tok_kind) = b.(tok_kind) /\
  a.(tok_roles) = b.(tok_roles) /\ a.(tok_secret_hash) = b.(tok_secret_hash) /\
  a.(tok_expires_at) = b.(tok_expires_at) /\ a.(tok_created_by) = b.(tok_created_by) /\
  (is_Some a.(tok_revoked_at) ->
     a.(tok_revoked_at) = b.(tok_revoked_at) /\ a.(tok_revoked_by) = b.(tok_revoked_by)).

Lemma guard_token_step a b : guard_token (a, b) = Ok () -> same_token a b.
Proof.
  intros H. unfold guard_token in H. crush_hyps. boolify. unfold ApiTokenRow_changed in *.
  match goal with H : only_in _ _ = true |- _ => rename H into Ho; split_changed Ho end.
  unchanged_columns. unfold same_token. split_and!; try done.
  intros Hr. match goal with H : _ && _ = false |- _ => rename H into Hc end.
  rewrite bool_decide_eq_true_2 in Hc by done. rewrite !meets_app in Hc. cbn [andb] in Hc.
  repeat match goal with H : _ || _ = false |- _ => apply orb_false_iff in H; destruct H end.
  split; by eapply meets_changed.
Qed.

(** What stays of an Attempt revision: its base, and every result once set. *)
Definition same_revision (a b : AttemptRevisionRow) : Prop :=
  a.(rv_id) = b.(rv_id) /\ a.(rv_attempt_id) = b.(rv_attempt_id) /\ a.(rv_repository) = b.(rv_repository) /\
  a.(rv_tree_format) = b.(rv_tree_format) /\ a.(rv_base_tree_sha256) = b.(rv_base_tree_sha256) /\
  a.(rv_created_at) = b.(rv_created_at) /\
  (is_Some a.(rv_base_commit) -> a.(rv_base_commit) = b.(rv_base_commit)) /\
  (is_Some a.(rv_result_tree_sha256) -> a.(rv_result_tree_sha256) = b.(rv_result_tree_sha256)) /\
  (is_Some a.(rv_finished_at) -> a.(rv_finished_at) = b.(rv_finished_at)).

Lemma set_once {A} `{EqDecision A} key (a b : option A) l P :
  str_in key l && bool_decide (is_Some a) = false -> l = P -> changed_if key a b ⊆ P ->
  is_Some a -> a = b.
Proof.
  intros H -> Hsub Ha. destruct (decide (a = b)) as [|Hne]; [done|].
  rewrite (str_in_changed key a b P Hne Hsub), bool_decide_eq_true_2 in H by done. done.
Qed.

Lemma guard_revision_step a b : guard_revision (a, b) = Ok () -> same_revision a b.
Proof.
  intros H. unfold guard_revision in H. crush_hyps. boolify.
  match goal with H : only_in _ _ = true |- _ => rename H into Ho end.
  unfold same_revision. split_and!; try (
    unfold AttemptRevisionRow_changed in Ho; split_changed Ho; unchanged_columns; done);
  intros Ha; (eapply set_once; [eassumption|reflexivity|unfold AttemptRevisionRow_changed; set_solver|done]).
Qed.

Lemma same_revision_refl a : same_revision a a.
Proof. by unfold same_revision. Qed.

Lemma guarded_revisions s : guard_attempt_revisions s = Ok (require_revisions s) ->
  (forall k a, d_attempt_revisions (stored s) !! k = Some a ->
     exists b, d_attempt_revisions (current s) !! k = Some b /\ same_revision a b) /\
  (forall r, r ∈ new_rows d_artifacts s -> check_bound (require_revisions s) (bound_artifact r) = Ok ()) /\
  (forall r, r ∈ new_rows d_evidence s -> check_revision_binding_evidence (require_revisions s) r = Ok ()) /\
  (forall p, p ∈ dirty_rows d_attempts (require_revisions s) ->
     p.1.(at_revision_required) = p.2.(at_revision_required)).
Proof.
  intros H. unfold guard_attempt_revisions in H. crush_hyps.
  repeat match goal with H : each _ _ = Ok ?u |- _ => rewrite each_Ok in H end.
  match goal with H : any_row _ = false |- _ => rename H into Hdel end.
  match goal with H : forall x, x ∈ dirty_rows d_attempt_revisions _ -> _ |- _ => rename H into Hrev end.
  match goal with H : forall x, x ∈ dirty_rows d_attempts _ -> _ |- _ => rename H into Hatt end.
  split_and!; try done.
  - intros k a Ha. destruct (no_deleted d_attempt_revisions s Hdel k a Ha) as [b Hb].
    exists b. split; [done|]. destruct (kept_or_dirty d_attempt_revisions s k a b Ha Hb) as [->|Hin].
    + apply same_revision_refl.
    + by apply guard_revision_step, Hrev.
  - intros [a b] Hin. apply Hatt in Hin. crush_hyps. boolify. done.
Qed.

(** ** Reachable databases *)

(** Any sequence of successful flushes of sessions that [ok] admits. *)
Section reachability.
Context (h : Host) (ok : Session -> bool).

Inductive reachable : Db -> Prop :=
  | reach_empty : reachable empty_db
  | reach_flush s s' :
      reachable (stored s) -> ok s = true -> flush h s = Ok s' -> reachable (stored s').

(** What flushes can make of a database. *)
Inductive later : Db -> Db -> Prop :=
  | later_refl d : later d d
  | later_flush d s s' : later d (stored s) -> flush h s = Ok s' -> later d (stored s').

(** Units of work one after the other. *)
Definition run_units (units : list (Db -> Db)) (d : Db) : result Db :=
  result_fold (fun d f =>
      let s := {| stored := d; current := f d |} in
      _ ← raise_if (negb (ok s)) AssertionError;
      s' ← flush h s;
      Ok (stored s')) d units.

Lemma run_units_reachable units d d' :
  reachable d -> run_units units d = Ok d' -> reachable d'.
Proof.
  revert d. induction units as [|f units IH]; intros d Hd; [by intros [= <-]|].
  unfold run_units. cbn [result_fold]. rewrite bind_Ok. intros (d1 & H1 & H2).
  crush_hyps. boolify. refine (IH _ _ H2).
  match goal with H : flush _ _ = Ok _ |- _ => refine (reach_flush _ _ _ _ H); assumption end.
Qed.
End reachability.

Lemma flush_stored_plan h s s' k a : flush h s = Ok s' -> d_plans (stored s) !! k = Some a ->
  exists b, d_plans (stored s') !! k = Some b /\ d_plans (current s) !! k = Some b /\
    same_plan a b /\ plan_step (d_decision_requests (stored s')) a b.
Proof.
  intros (G & _ & _ & _ & T & _ & Hon & _)%flush_Ok Ha.
  destruct (guarded_plans _ G) as (Hkeep & _ & _ & _ & Hstep).
  destruct (Hkeep k a Ha) as [b Hb]. exists b.
  apply on_new_spec in Hon as (Hold & _ & _). rewrite Hold by (by exists a).
  split; [done|]. split; [done|].
  destruct T as (_ & -> & _). destruct (decide (a = b)) as [->|Hne]; [by split; [|left]|].
  apply guard_plan_step with (s := s); [|done]. apply Hstep, elem_dirty_rows. by exists k.
Qed.

Lemma flush_stored_request h s s' k a : flush h s = Ok s' -> d_decision_requests (stored s) !! k = Some a ->
  exists b, d_decision_requests (stored s') !! k = Some b /\ same_question a b /\
    (a.(dr_status) <> "pending" -> b = a) /\
    (a <> b -> b.(dr_status) <> "pending" -> links_material s b = true -> b.(dr_resolver_kind) = Some "human").
Proof.
  intros (G & _ & _ & _ & T & _)%flush_Ok Ha.
  destruct (guarded_plans _ G) as (_ & Hkeep & _ & Hstep & _).
  destruct (Hkeep k a Ha) as [b Hb]. exists b. destruct T as (_ & -> & _). split; [done|].
  destruct (kept_or_dirty d_decision_requests s k a b Ha Hb) as [->|Hd].
  - by unfold same_question.
  - apply Hstep, guard_decision_request_step in Hd as (Hp & ? & ?). by split_and!.
Qed.

(** A row of [attempts] after a flush: one that was stored, or a new one. *)
Lemma flush_attempt h s s' k a : flush h s = Ok s' -> d_attempts (stored s') !! k = Some a ->
  (exists a0, d_attempts (stored s) !! k = Some a0 /\ d_attempts (current s) !! k = Some a) \/
  (exists a0, a0 ∈ new_rows d_attempts s /\ a = a0 {{ at_revision_required := Some true }}).
Proof.
  intros (_ & _ & _ & _ & _ & -> & _)%flush_Ok Ha.
  apply require_revisions_lookup in Ha as (a0 & Hc & [[[x Hx] ->]|[Hn ->]]).
  - left. by exists x.
  - right. exists a0. split; [|done]. apply elem_new_rows. by exists k.
Qed.

(** The plan is there and approved. *)
Definition approved_in (d : Db) (plan_id : string) : Prop := exists p, d_plans d !! plan_id = Some p /\ p.(pl_status) = "approved".

Lemma flush_plan_approved h s s' plan_id : flush h s = Ok s' -> plan_approved s plan_id = true -> approved_in (stored s') plan_id.
Proof.
  unfold plan_approved, pget. intros Hf E. destruct (d_plans (stored s) !! plan_id) as [p0|] eqn:E0; [|done].
  destruct (flush_stored_plan _ _ _ _ _ Hf E0) as (b & Hb1 & Hb2 & _).
  rewrite Hb2 in E. exists b. split; [done|]. unfold str_eq in E. by boolify.
Qed.

Lemma flush_new_attempt_gate h s s' a0 link : flush h s = Ok s' -> a0 ∈ new_rows d_attempts s ->
  d_plan_tasks (stored s') !! a0.(at_task_id) = Some link -> approved_in (stored s') link.(pt_plan_id).
Proof.
  intros Hf Ha Hlink. pose proof Hf as (G & _ & _ & _ & T & _)%flush_Ok.
  destruct T as (_ & _ & Epl & _). rewrite Epl in Hlink.
  pose proof (g_gate _ G) as Hg. unfold enforce_plan_gate in Hg. crush_hyps.
  match goal with H : each (new_rows d_attempts s) _ = Ok _ |- _ =>
    apply (proj1 (each_Ok _ _ _)) with (x := a0) in H; [|done]; rename H into Hb end.
  unfold unapproved_plan in Hb. rewrite Hlink in Hb.
  destruct (plan_approved s (pt_plan_id link)) eqn:E; [|done]. by eapply flush_plan_approved.
Qed.

Lemma flush_new_run_gate h s s' run : flush h s = Ok s' -> run ∈ new_rows d_agent_runs s -> approved_in (stored s') run.(rn_plan_id).
Proof.
  intros Hf Hr. pose proof Hf as (G & _)%flush_Ok. pose proof (g_gate _ G) as Hg. unfold enforce_plan_gate in Hg. crush_hyps.
  match goal with H : each (new_rows d_agent_runs s) _ = Ok _ |- _ =>
    apply (proj1 (each_Ok _ _ _)) with (x := run) in H; [|done]; apply raise_if_Ok in H; boolify end.
  by eapply flush_plan_approved.
Qed.

(** A human decision stands behind an approved plan. *)
Definition approval_backed (d : Db) (p : PlanRow) : Prop :=
  p.(pl_status) = "approved" ->
  exists r, d_decision_requests d !! p.(pl_decision_request_id) = Some r /\
    r.(dr_subject_id) = p.(pl_id) /\ r.(dr_status) = "approved" /\ r.(dr_resolver_kind) = Some "human".

Lemma flush_keeps_backed h s s' k p : flush h s = Ok s' -> d_plans (stored s) !! k = Some p -> approval_backed (stored s) p ->
  exists p', d_plans (stored s') !! k = Some p' /\ approval_backed (stored s') p'.
Proof.
  intros Hf Hp Hback. destruct (flush_stored_plan _ _ _ _ _ Hf Hp) as (b & Hb & _ & Hsame & Hstep). exists b. split; [done|].
  intros Happ. destruct Hstep as [Hst|[[_ Hst]|(_ & _ & r & Hr)]]; [|congruence|by exists r].
  rewrite Happ in Hst. destruct (Hback Hst) as (r & Hr & Hsub & Hrs & Hrk).
  destruct (flush_stored_request _ _ _ _ _ Hf Hr) as (r' & Hr' & _ & Hfin & _). rewrite Hfin in Hr' by (rewrite Hrs; discriminate).
  destruct Hsame as (<- & _ & _ & _ & _ & _ & _ & _ & <-). by exists r.
Qed.

Lemma flush_keeps_approved h s s' plan_id : flush h s = Ok s' -> approved_in (stored s) plan_id -> approved_in (stored s') plan_id.
Proof.
  intros Hf (p & Hp & Happ). destruct (flush_stored_plan _ _ _ _ _ Hf Hp) as (b & Hb & _ & _ & [Hs'|[[Hs' _]|[Hs' _]]]); [|congruence..].
  exists b. split; [done|congruence].
Qed.

Lemma flush_keeps_link h s s' : flush h s = Ok s' -> d_plan_tasks (stored s) ⊆ d_plan_tasks (stored s').
Proof.
  intros (G & _ & _ & _ & T & _)%flush_Ok. destruct T as (_ & _ & -> & _). by destruct (guarded_plans _ G) as (_ & _ & Hsub & _).
Qed.

Section later.
Context (h : Host).

Lemma later_approved d d' plan_id : later h d d' -> approved_in d plan_id -> approved_in d' plan_id.
Proof. induction 1 as [|d s s' _ IH Hf]; [done|]. intros Ha. eapply flush_keeps_approved; [exact Hf|auto]. Qed.

Lemma later_link d d' : later h d d' -> d_plan_tasks d ⊆ d_plan_tasks d'.
Proof. induction 1 as [|d s s' _ IH Hf]; [done|]. etrans; [exact IH|by eapply flush_keeps_link]. Qed.

Lemma later_backed d d' k p : later h d d' -> d_plans d !! k = Some p -> approval_backed d p ->
  exists p', d_plans d' !! k = Some p' /\ approval_backed d' p'.
Proof.
  induction 1 as [|d s s' _ IH Hf]; [by exists p|]. intros Hp Hb. destruct (IH Hp Hb) as (p' & Hp' & Hb'). by eapply flush_keeps_backed.
Qed.
End later.

(** Evidence and the revision it is bound to. *)
Definition evidence_bound (d : Db) (e : EvidenceRow) : Prop :=
  (e.(ev_evidence_class) = Some "outcome" /\ e.(ev_attempt_id) = None /\
   opt_truthy e.(ev_objective_id) = true /\ e.(ev_revision_id) = None) \/
  ((e.(ev_evidence_class) = Some "execution" \/ e.(ev_evidence_class) = Some "verification") /\
   exists k r, d_attempt_revisions d !! k = Some r /\ e.(ev_attempt_id) = Some r.(rv_attempt_id) /\
     e.(ev_revision_id) = Some r.(rv_id) /\ is_Some e.(ev_tree_sha256) /\
     e.(ev_tree_sha256) = r.(rv_result_tree_sha256)).

Lemma check_bound_new s e :
  (forall k a, d_attempts (current s) !! k = Some a -> a.(at_revision_required) = Some true) ->
  check_bound s (bound_evidence e) = Ok () ->
  exists k r, d_attempt_revisions (current s) !! k = Some r /\ e.(ev_attempt_id) = Some r.(rv_attempt_id) /\
    e.(ev_revision_id) = Some r.(rv_id) /\ is_Some e.(ev_tree_sha256) /\
    e.(ev_tree_sha256) = r.(rv_result_tree_sha256).
Proof.
  intros Hreq H. unfold check_bound, bound_evidence in H. simpl in H.
  destruct (ev_revision_id e) as [rid|] eqn:Erid.
  - apply bind_Ok in H as (own & H1 & H). case_bool_decide as Hown;
      [|repeat case_match; discriminate].
    crush_hyps. rewrite H1 in Hown. injection Hown as <-.
    assert (exists k, d_attempt_revisions (current s) !! k = Some own /\ ev_attempt_id e = Some (rv_attempt_id own))
      as (k & Hk & Hat).
    { unfold pending_revision_of in H1. destruct (ev_attempt_id e) as [i|]; [|done].
      unfold revision_of_attempt in H1. apply head_Some_elem_of in H1.
      apply list_elem_of_filter in H1 as [<- [Hn|Hr]%elem_of_app].
      - apply elem_new_rows in Hn as (k & _ & Hk). by exists k.
      - apply elem_rows in Hr as [k Hk]. by exists k. }
    boolify. unfold opt_str_eq in *. boolify.
    exists k, own. split_and!; try done; congruence || (eexists; eassumption).
  - exfalso. crush_hyps. boolify.
    match goal with H : pending_attempt _ _ = Some ?a |- _ => unfold pending_attempt in H;
      destruct (ev_attempt_id e); [|done]; apply Hreq in H end.
    match goal with H : ~ is_Some (at_revision_required _) |- _ => apply H; by eexists end.
Qed.

Lemma reachable_revision_required h ok d : reachable h ok d ->
  forall k a, d_attempts d !! k = Some a -> a.(at_revision_required) = Some true.
Proof.
  induction 1 as [|s s' Hs IH Hok Hf]; [intros k a Ha; done|].
  intros k a Ha. pose proof Hf as (_ & Hr & _)%flush_Ok.
  destruct (guarded_revisions _ Hr) as (_ & _ & _ & Hdirty).
  destruct (flush_attempt _ _ _ _ _ Hf Ha) as [(a0 & Hst & Hcur)|(a0 & Hnew & ->)]; [|done].
  apply flush_Ok in Hf as (_ & _ & _ & _ & _ & Eat & _). rewrite Eat in Ha.
  destruct (kept_or_dirty d_attempts (require_revisions s) k a0 a Hst Ha) as [->|Hd]; [by eapply IH|].
  apply Hdirty in Hd. simpl in Hd. rewrite <- Hd. by eapply IH.
Qed.

Lemma stamp_keeps env d e e' : stamp_evidence_content_mac env d e = Ok e' ->
  e'.(ev_evidence_class) = e.(ev_evidence_class) /\ e'.(ev_attempt_id) = e.(ev_attempt_id) /\
  e'.(ev_objective_id) = e.(ev_objective_id) /\ e'.(ev_revision_id) = e.(ev_revision_id) /\
  e'.(ev_tree_sha256) = e.(ev_tree_sha256).
Proof. unfold stamp_evidence_content_mac. intros ?. crush_hyps. by split_and!. Qed.

Lemma reachable_evidence_bound h ok d : reachable h ok d ->
  forall k e, d_evidence d !! k = Some e -> evidence_bound d e.
Proof.
  induction 1 as [|s s' Hs IH Hok Hf]; [intros k e He; done|].
  intros k e He. pose proof Hf as (G & Hr & _ & _ & T & _ & _ & Hon)%flush_Ok.
  destruct (guarded_revisions _ Hr) as (Hrev & _ & Hnew & _).
  pose proof (guarded_evidence _ G) as Hsub.
  assert (d_attempt_revisions (stored s') = d_attempt_revisions (current s)) as Erev by (unfold same_tables in T; tauto).
  apply on_new_spec in Hon as (Hold & Hnone & Hins).
  destruct (d_evidence (stored s) !! k) as [e0|] eqn:E0.
  - eapply map_subseteq_spec in Hsub; [|exact E0]. rewrite Hold in He by by exists e0.
    rewrite Hsub in He. injection He as <-.
    destruct (IH k e0 E0) as [Hout|(Hcls & kr & r & Hk & Ha & Hi & Hs' & Ht)]; [by left|right].
    split; [done|]. destruct (Hrev kr r Hk) as (b & Hb & Hsame).
    destruct Hsame as (Eid & Eat & _ & _ & _ & _ & _ & Eres & _).
    exists kr, b. rewrite Erev. split_and!; try done; try congruence.
    rewrite Ht, Eres; [done|]. by rewrite <- Ht.
  - destruct (d_evidence (current s) !! k) as [e0|] eqn:Ec; [|rewrite Hnone in He; done].
    destruct (Hins k e0 E0 Ec) as (e1 & Hst & He1). rewrite He1 in He. injection He as ->.
    apply stamp_keeps in Hst as (Ecls & Eatt & Eobj & Eri & Etr).
    assert (e0 ∈ new_rows d_evidence s) as Hin by (apply elem_new_rows; by exists k).
    pose proof (g_evidence _ G) as Hg. unfold reject_evidence_mutation in Hg. crush_hyps.
    match goal with H : each _ check_new_evidence = Ok _ |- _ =>
      apply (proj1 (each_Ok _ _ _)) with (x := e0) in H; [|done]; rename H into Hc end.
    apply Hnew in Hin. unfold evidence_bound. rewrite Ecls, Eatt, Eobj, Eri, Etr, Erev.
    unfold check_new_evidence in Hc. unfold check_revision_binding_evidence in Hin.
    destruct (ev_evidence_class e0) as [c|]; [|done]. crush_hyps. boolify. simpl in *.
    unfold str_in in *. boolify. unfold opt_str_eq in Hin.
    destruct (decide (c = "outcome")) as [->|Hne].
    + left. rewrite bool_decide_eq_true_2 in Hin by done. crush_hyps. boolify.
      destruct (ev_attempt_id e0), (ev_revision_id e0); try naive_solver.
    + right. rewrite bool_decide_eq_false_2 in Hin by congruence.
      split; [set_solver|].
      apply (check_bound_new (require_revisions s)) in Hin; [done|].
      intros k' a Ha. destruct (require_revisions_lookup _ _ _ Ha) as (a0 & Hc0 & [[[aold Hx] ->]|[_ ->]]); [|done].
      destruct (guarded_revisions _ Hr) as (_ & _ & _ & Hd).
      pose proof (reachable_revision_required _ _ _ Hs _ _ Hx) as Hreq.
      destruct (kept_or_dirty d_attempts (require_revisions s) k' aold a0 Hx Ha) as [<-|Hdd]; [done|].
      apply Hd in Hdd. simpl in Hdd. congruence.
Qed.

(** ** A run of the boundary: a plan is proposed, approved and worked on *)

Module Demo.

Definition host : Host := {|
  h_environ := {["SDF_EVIDENCE_MAC_KEY" := "0123456789abcdef0123456789abcdef"]};
  h_unidata_version := "15.0.0" |}.

Definition plan : PlanRow := blank_PlanRow {{ pl_id := "P"; pl_status := "proposed";
  pl_proposed_by := "alice"; pl_decision_request_id := "D" }}.
Definition request : DecisionRequestRow := blank_DecisionRequestRow {{ dr_id := "D"; dr_subject_kind := "plan";
  dr_subject_id := "P"; dr_status := "pending"; dr_requested_by := "alice" }}.
Definition attempt : AttemptRow := blank_AttemptRow {{ at_id := "A"; at_task_id := "P--t";
  at_dispatch_key := "k"; at_evidence_mode := "synthetic" }}.
Definition revision : AttemptRevisionRow := blank_AttemptRevisionRow {{ rv_id := "R"; rv_attempt_id := "A" }}.
Definition evidence : EvidenceRow := blank_EvidenceRow {{ ev_id := "E"; ev_attempt_id := Some "A";
  ev_status := "PASS"; ev_evidence_class := Some "verification"; ev_evidence_mode := "synthetic";
  ev_revision_id := Some "R"; ev_tree_sha256 := Some "tree" }}.

Definition units : list (Db -> Db) :=
  [(fun d => d {{ d_plans ::= insert "P" plan; d_decision_requests ::= insert "D" request;
                  d_plan_tasks ::= insert "P--t" {| pt_task_id := "P--t"; pt_plan_id := "P"; pt_subtask_key := "t" |} }});
   (fun d => d {{ d_decision_requests ::= insert "D" (request {{ dr_status := "approved";
                    dr_resolver_kind := Some "human"; dr_resolved_by := Some "bob" }});
                  d_plans ::= alter (fun p => p {{ pl_status := "approved" }}) "P" }});
   (fun d => d {{ d_attempts ::= insert "A" attempt; d_attempt_revisions ::= insert "R" revision }});
   (fun d => d {{ d_attempt_revisions ::= insert "R" (revision {{ rv_result_tree_sha256 := Some "tree" }});
                  d_evidence ::= insert "E" evidence }})].

Definition any_change (s : Session) : bool := true.
Definition after (n : nat) : Db :=
  match run_units host any_change (take n units) empty_db with Ok d => d | Err _ => empty_db end.

(** The [n]-th unit of work and its session. *)
Definition session (n : nat) : Session :=
  {| stored := after n; current := default id (units !! n) (after n) |}.

Definition plan_after (n : nat) : PlanRow := default blank_PlanRow (d_plans (after n) !! "P").
Definition attempt_after (n : nat) : AttemptRow := default blank_AttemptRow (d_attempts (after n) !! "A").
Definition evidence_after (n : nat) : EvidenceRow := default blank_EvidenceRow (d_evidence (after n) !! "E").

Lemma after_reachable n :
  is_ok (run_units host any_change (take n units) empty_db) = true -> reachable host any_change (after n).
Proof.
  intros H. unfold after. destruct (run_units host any_change (take n units) empty_db) as [d|] eqn:E; [|done].
  eapply run_units_reachable; [constructor|exact E].
Qed.

End Demo.

(** Apply a theorem about a successful flush to a computed one. *)
Ltac computed r := let E := fresh "E" in
  assert (is_ok r = true) as E by (vm_compute; reflexivity);
  let x := fresh "x" in let H := fresh "Hx" in destruct r as [x|] eqn:H; [clear E|discriminate E].

(** ** Properties *)

(** C38: a flush that succeeds never loses or rewrites a recorded observation:
    every Evidence row, tool audit, agent message, claim, usage row, runtime
    event, routing decision and authentication audit row that was stored is
    still stored, unchanged. *)
Theorem flush_append_only h s s' : flush h s = Ok s' ->
  d_evidence (stored s) ⊆ d_evidence (stored s') /\
  d_tool_audits (stored s) ⊆ d_tool_audits (stored s') /\
  d_agent_messages (stored s) ⊆ d_agent_messages (stored s') /\
  d_agent_claims (stored s) ⊆ d_agent_claims (stored s') /\
  d_usage_ledger (stored s) ⊆ d_usage_ledger (stored s') /\
  d_runtime_events (stored s) ⊆ d_runtime_events (stored s') /\
  d_routing_decisions (stored s) ⊆ d_routing_decisions (stored s') /\
  d_auth_audit (stored s) ⊆ d_auth_audit (stored s').
Proof.
  intros (G & _ & _ & _ & T & _ & _ & Hon)%flush_Ok. unfold same_tables in T. destruct_and! T.
  destruct (guarded_messages _ G) as (? & ? & ? & ? & ?). destruct (guarded_auth _ G) as (? & _).
  pose proof (append_only_Ok _ _ _ _ (g_audit _ G)).
  split_and!; [eapply on_new_subseteq; [exact Hon|by apply guarded_evidence]|..].
  all: match goal with E : ?t ?d = _ |- _ ⊆ ?t ?d => by rewrite E end.
Qed.

Lemma flush_append_only_witness : exists s', flush Demo.host (Demo.session 3) = Ok s' /\
  d_evidence (Demo.after 3) ⊆ d_evidence (stored s').
Proof.
  computed (flush Demo.host (Demo.session 3)). exists x. split; [reflexivity|].
  exact (proj1 (flush_append_only _ _ _ Hx)).
Defined.

(** C39: a stored plan keeps its identity, content, hash and proposer for ever;
    its status moves at most once, from proposed to approved or rejected, and
    to approved only with a decision request about this plan that a human
    approved.  A resolved decision request never changes again, an unresolved
    one keeps its question, subject and asking message, and a material one is
    only ever resolved by a human. *)
Theorem flush_decisions_final h s s' : flush h s = Ok s' ->
  (forall k a, d_plans (stored s) !! k = Some a ->
     exists b, d_plans (stored s') !! k = Some b /\ same_plan a b /\
       plan_step (d_decision_requests (stored s')) a b) /\
  (forall k a, d_decision_requests (stored s) !! k = Some a ->
     exists b, d_decision_requests (stored s') !! k = Some b /\ same_question a b /\
       (a.(dr_status) <> "pending" -> b = a) /\
       (a <> b -> b.(dr_status) <> "pending" -> links_material s b = true ->
          b.(dr_resolver_kind) = Some "human")).
Proof.
  intros Hf. split; intros k a Ha.
  - destruct (flush_stored_plan _ _ _ _ _ Hf Ha) as (b & ? & _ & ? & ?). by exists b.
  - exact (flush_stored_request _ _ _ _ _ Hf Ha).
Qed.

Lemma flush_decisions_final_witness : exists s', flush Demo.host (Demo.session 1) = Ok s' /\
  exists b, d_plans (stored s') !! "P" = Some b /\ plan_step (d_decision_requests (stored s'))
     (Demo.plan_after 1) b.
Proof.
  computed (flush Demo.host (Demo.session 1)). exists x. split; [reflexivity|].
  destruct (proj1 (flush_decisions_final _ _ _ Hx) "P" (Demo.plan_after 1) ltac:(vm_compute; reflexivity)) as (b & Hb & _ & Hs).
  exact (ex_intro _ b (conj Hb Hs)).
Defined.

(** C21: the plan gate, over any number of flushes.  When a flush stores a new
    Attempt of a Task that belongs to a plan, or a new agent run, the plan is
    approved; and in every database that later flushes make, whatever they
    change, the Task still belongs to that plan and the plan is still approved.
    A plan that was once stored without approval is approved later only with a
    decision request about that plan, still stored, that a human approved. *)
Theorem plan_gate_final h s s' d : flush h s = Ok s' -> later h (stored s') d ->
  (forall a link, a ∈ new_rows d_attempts s -> d_plan_tasks (stored s') !! a.(at_task_id) = Some link ->
     d_plan_tasks d !! a.(at_task_id) = Some link /\ approved_in d link.(pt_plan_id)) /\
  (forall run, run ∈ new_rows d_agent_runs s -> approved_in d run.(rn_plan_id)) /\
  (forall k p, d_plans (stored s) !! k = Some p -> p.(pl_status) <> "approved" ->
     exists p', d_plans d !! k = Some p' /\ approval_backed d p').
Proof.
  intros Hf Hl. split_and!.
  - intros a link Ha Hlink. split; [exact (lookup_weaken _ _ _ _ Hlink (later_link _ _ _ Hl))|].
    eapply later_approved; [exact Hl|]. by eapply flush_new_attempt_gate.
  - intros run Hr. eapply later_approved; [exact Hl|]. by eapply flush_new_run_gate.
  - intros k p Hp Hn. destruct (flush_keeps_backed _ _ _ _ _ Hf Hp) as (p' & Hp' & Hb); [by intros ?|]. by eapply later_backed.
Qed.

(** The plan is approved, its Attempt begins, and Evidence is recorded. *)
Lemma plan_gate_final_witness : exists s', flush Demo.host (Demo.session 2) = Ok s' /\ later Demo.host (stored s') (Demo.after 4) /\
  approved_in (Demo.after 4) "P".
Proof.
  computed (flush Demo.host (Demo.session 2)). computed (flush Demo.host (Demo.session 3)). exists x. split; [reflexivity|].
  assert (stored x = stored (Demo.session 3)) as E by (apply (f_equal (fun r => match r with Ok y => stored y | Err _ => empty_db end)) in Hx; rewrite <- Hx; vm_compute; reflexivity).
  assert (stored x0 = Demo.after 4) as E0 by (apply (f_equal (fun r => match r with Ok y => stored y | Err _ => empty_db end)) in Hx0; rewrite <- Hx0; vm_compute; reflexivity).
  assert (later Demo.host (stored x) (Demo.after 4)) as Hl.
  { rewrite <- E0. apply (later_flush _ _ (Demo.session 3)); [rewrite E; constructor|exact Hx0]. }
  split; [exact Hl|]. destruct (plan_gate_final _ _ _ _ Hx Hl) as (Ha & _).
  destruct (Ha Demo.attempt {| pt_task_id := "P--t"; pt_plan_id := "P"; pt_subtask_key := "t" |}) as [_ H]; [| |exact H].
  - apply elem_new_rows. exists "A". vm_compute. split; reflexivity.
  - rewrite E. vm_compute. reflexivity.
Defined.

(** C22: in every reachable database each Evidence row has a class; outcome
    Evidence names an Objective and no Attempt, and execution or verification
    Evidence is bound to the revision of its own Attempt and to exactly the
    result tree which that revision recorded. *)
Theorem reachable_evidence_binding h ok d : reachable h ok d ->
  forall k e, d_evidence d !! k = Some e -> evidence_bound d e.
Proof. intros H k e. by apply (reachable_evidence_bound h ok d). Qed.

Lemma reachable_evidence_binding_witness : reachable Demo.host Demo.any_change (Demo.after 4) /\
  evidence_bound (Demo.after 4) (Demo.evidence_after 4).
Proof.
  assert (reachable Demo.host Demo.any_change (Demo.after 4)) as H
    by (apply Demo.after_reachable; vm_compute; reflexivity).
  split; [exact H|].
  exact (reachable_evidence_binding _ _ _ H "E" (Demo.evidence_after 4) ltac:(vm_compute; reflexivity)).
Defined.

(** An Attempt revision keeps its identity and base for ever and each of
    its results once set; an API token is never deleted, keeps its principal,
    roles, secret hash and expiry, and stays revoked once revoked. *)
Theorem flush_set_once h s s' : flush h s = Ok s' ->
  (forall k a, d_attempt_revisions (stored s) !! k = Some a ->
     exists b, d_attempt_revisions (stored s') !! k = Some b /\ same_revision a b) /\
  (forall k a, d_api_tokens (stored s) !! k = Some a ->
     exists b, d_api_tokens (stored s') !! k = Some b /\ same_token a b).
Proof.
  intros (G & Hr & _ & _ & T & _)%flush_Ok. unfold same_tables in T. destruct_and! T.
  split; intros k a Ha.
  - destruct (guarded_revisions _ Hr) as (Hrev & _). destruct (Hrev k a Ha) as (b & ? & ?). exists b. split; congruence.
  - destruct (guarded_auth _ G) as (_ & Hkeep & Hd). destruct (Hkeep k a Ha) as [b Hb].
    exists b. split; [congruence|]. destruct (kept_or_dirty d_api_tokens s k a b Ha Hb) as [->|Hin].
    + by unfold same_token.
    + by apply guard_token_step, Hd.
Qed.

Lemma flush_set_once_witness : exists s', flush Demo.host (Demo.session 3) = Ok s' /\
  exists b, d_attempt_revisions (stored s') !! "R" = Some b /\ same_revision Demo.revision b.
Proof.
  computed (flush Demo.host (Demo.session 3)). exists x. split; [reflexivity|].
  exact (proj1 (flush_set_once _ _ _ Hx) "R" Demo.revision ltac:(vm_compute; reflexivity)).
Defined.

(** What an edge endpoint names, in a database. *)
Definition grounded (before after : Db) (endpoint kind : string) : Prop :=
  if str_eq kind "task" then is_Some (d_tasks after !! endpoint) \/ is_Some (d_tasks before !! endpoint)
  else if str_eq kind "attempt"
  then is_Some (d_attempts after !! endpoint) \/ is_Some (d_attempts before !! endpoint)
  else is_Some (d_graph_nodes after !! endpoint) \/ is_Some (d_graph_nodes before !! endpoint).

Lemma missing_ids_nil {R} p edges (t : Db -> gmap string R) s e i k :
  missing_ids p edges t s = [] -> e ∈ edges ->
  (i, k) = (e.(de_source_id), e.(de_source_kind)) \/ (i, k) = (e.(de_target_id), e.(de_target_kind)) ->
  p k = true -> is_Some (t (current s) !! i) \/ is_Some (t (stored s) !! i).
Proof.
  intros Hnil He Hik Hp. unfold missing_ids in Hnil. apply fmap_nil_inv in Hnil.
  destruct (t (current s) !! i) eqn:Ec; [by left; eexists|].
  destruct (t (stored s) !! i) eqn:Es; [by right; eexists|].
  exfalso. eapply (not_elem_of_nil (i, k)). rewrite <- Hnil.
  apply list_elem_of_filter. split; [done|].
  unfold edge_endpoints. apply list_elem_of_bind. exists e. split; [|done]. set_solver.
Qed.

(** Every decision edge a successful flush adds ends, at both ends, in a
    graph node, Task or Attempt (as the kind it names says) that the flush
    stores or that was stored before it; its relation is one of the seven
    relations of the Decision Graph. *)
Theorem flush_edges_grounded h s s' e : flush h s = Ok s' -> e ∈ new_rows d_decision_edges s ->
  grounded (stored s) (stored s') e.(de_source_id) e.(de_source_kind) /\
  grounded (stored s) (stored s') e.(de_target_id) e.(de_target_kind) /\
  e.(de_relation) ∈ RELATIONS.
Proof.
  intros (G & _ & _ & Hc & T & Eat & _)%flush_Ok He. unfold same_tables in T. destruct_and! T.
  pose proof (g_edges _ G) as Hg. unfold reject_dangling_decision_edges in Hg. crush_hyps.
  match goal with H : any_row ?l = false |- _ => assert (l = []) as Hnil by (by destruct l) end.
  apply app_nil in Hnil as [Hn [Ht Ha]%app_nil].
  assert (forall i, is_Some (d_attempts (current s) !! i) -> is_Some (d_attempts (stored s') !! i)) as Hatt.
  { intros i [x Hx]. rewrite Eat.
    change (is_Some (merge mark_new (d_attempts (stored s)) (d_attempts (current s)) !! i)).
    rewrite (lookup_merge mark_new), Hx. by destruct (d_attempts (stored s) !! i). }
  assert (forall i k, (i, k) = (e.(de_source_id), e.(de_source_kind)) \/
                      (i, k) = (e.(de_target_id), e.(de_target_kind)) -> grounded (stored s) (stored s') i k) as Hk.
  { intros i k Hik. unfold grounded, str_eq. repeat case_bool_decide.
    - eapply missing_ids_nil in Ht; [|done..|by apply bool_decide_eq_true_2]. by replace (d_tasks (stored s')) with (d_tasks (current s)).
    - eapply missing_ids_nil in Ha; [|done..|by apply bool_decide_eq_true_2]. naive_solver.
    - eapply missing_ids_nil in Hn; [by replace (d_graph_nodes (stored s')) with (d_graph_nodes (current s))|done..|].
      unfold str_in. apply negb_true_iff, bool_decide_eq_false_2. set_solver. }
  split_and!; [by apply Hk; left|by apply Hk; right|].
  unfold constraints_ok in Hc. repeat rewrite andb_true_iff in Hc. destruct_and! Hc.
  match goal with H : all_rows (fun r => str_in (de_relation r) _) _ = true |- _ => rename H into Hrel end.
  apply elem_new_rows in He as (k & _ & He).
  eapply List.forallb_forall in Hrel; [|apply list_elem_of_In, elem_rows; exists k; by replace (d_decision_edges (stored s')) with (d_decision_edges (current s))].
  unfold str_in in Hrel. by boolify.
Qed.

Definition demo_edge : DecisionEdgeRow := blank_DecisionEdgeRow {{ de_id := 1; de_source_kind := "attempt";
  de_source_id := "A"; de_target_kind := "attempt"; de_target_id := "A"; de_relation := "depends_on" }}.
Definition edge_session : Session :=
  {| stored := Demo.after 4; current := (Demo.after 4) {{ d_decision_edges ::= insert 1 demo_edge }} |}.

Lemma flush_edges_grounded_witness : exists s', flush Demo.host edge_session = Ok s' /\
  grounded (Demo.after 4) (stored s') "A" "attempt".
Proof.
  computed (flush Demo.host edge_session). exists x. split; [reflexivity|].
  refine (proj1 (flush_edges_grounded _ _ _ demo_edge Hx _)).
  assert (new_rows d_decision_edges edge_session = [demo_edge]) as -> by (vm_compute; reflexivity).
  by left.
Defined.
