(* ===== verification/Store.v ===== *)
(** * Store: the row operations the services share

    Adding graph nodes and edges, generated integer keys, queries over a
    table, and the two steps of a unit of work: change [current], flush. *)

From S2P Require Import Prelude Json Db EvidenceMac Flush FlushFacts.

(** The key an autoincrement table gives to the next row. *)
Definition next_id {R} (m : gmap Z R) : Z := 1 + map_fold (fun k _ acc => Z.max k acc) 0 m.

Lemma next_id_fresh {R} (m : gmap Z R) : m !! next_id m = None.
Proof.
  assert (forall k r, m !! k = Some r -> k < next_id m) as H.
  { unfold next_id. induction m as [|i x m Hi Hm IH] using map_first_key_ind; [done|].
    intros k r Hk. rewrite map_fold_insert_first_key by done.
    apply lookup_insert_Some in Hk as [[-> _]|[_ Hk]]; [lia|]. apply IH in Hk. lia. }
  destruct (m !! next_id m) as [r|] eqn:E; [|done]. apply H in E. lia.
Qed.

(** [db.query(...).filter(p).one_or_none()] / [db.scalar(select(...).where(p))] *)
Definition find_row {K R} `{Countable K} (p : R -> bool) (m : gmap K R) : option R :=
  head (List.filter p (rows m)).

Definition select_rows {K R} `{Countable K} (p : R -> bool) (m : gmap K R) : list R :=
  List.filter p (rows m).

Lemma find_row_Some {K R} `{Countable K} (p : R -> bool) (m : gmap K R) r :
  find_row p m = Some r -> p r = true /\ exists k, m !! k = Some r.
Proof.
  unfold find_row. intros Hh%head_Some_elem_of%list_elem_of_In%List.filter_In.
  destruct Hh as [Hin Hp]. split; [done|]. by apply elem_rows, list_elem_of_In.
Qed.

Lemma find_row_None {K R} `{Countable K} (p : R -> bool) (m : gmap K R) k r :
  find_row p m = None -> m !! k = Some r -> p r = false.
Proof.
  unfold find_row. intros Hh Hk. apply head_None in Hh. destruct (p r) eqn:E; [|done].
  exfalso. eapply (@List.in_nil _ r). rewrite <- Hh. apply List.filter_In. split; [|done].
  apply list_elem_of_In, elem_rows. by exists k.
Qed.

Lemma elem_select {K R} `{Countable K} (p : R -> bool) (m : gmap K R) r :
  r ∈ select_rows p m <-> p r = true /\ exists k, m !! k = Some r.
Proof.
  unfold select_rows. rewrite list_elem_of_In, List.filter_In, <- list_elem_of_In, elem_rows. tauto.
Qed.

Definition mk_node (id kind title source owner : string) (now : datetime) (meta : option json) : GraphNodeRow :=
  {| gn_id := id; gn_kind := kind; gn_title := title; gn_source := source; gn_owner := owner;
     gn_confidence := f_of_Z 1; gn_created_at := now; gn_metadata_json := meta |}.

Definition mk_edge (id : Z) (src dst : string * string) (relation source : string) (now : datetime) : DecisionEdgeRow :=
  {| de_id := id; de_source_kind := src.1; de_source_id := src.2; de_target_kind := dst.1; de_target_id := dst.2;
     de_relation := relation; de_source := source; de_owner := "sdf"; de_confidence := f_of_Z 1;
     de_created_at := now; de_evidence_ref := None |}.

(** [db.add(GraphNodeRow(...))]; adding a second row with one key fails. *)
Definition add_node (n : GraphNodeRow) (d : Db) : result Db :=
  _ ← raise_if (bool_decide (is_Some (d_graph_nodes d !! n.(gn_id)))) (IntegrityError "graph_nodes.id");
  Ok (d {{ d_graph_nodes ::= insert n.(gn_id) n }}).

Definition add_edge (src dst : string * string) (relation source : string) (now : datetime) (d : Db) : Db :=
  let id := next_id (d_decision_edges d) in
  d {{ d_decision_edges ::= insert id (mk_edge id src dst relation source now) }}.

(** The code's statements, then [db.flush()]. *)
Definition change_and_flush (h : Host) (s : Session) (d : Db) : result Session :=
  flush h {| stored := stored s; current := d |}.

(** A UNIQUE column identifies the row. *)
Lemma unique_by_inj {K R B} `{Countable K} `{EqDecision B} (key : R -> B) (m : gmap K R) k1 k2 r1 r2 :
  unique_by key m = true -> m !! k1 = Some r1 -> m !! k2 = Some r2 -> key r1 = key r2 -> r1 = r2.
Proof.
  unfold unique_by. intros Hu%bool_decide_eq_true H1 H2.
  apply (NoDup_map_inj _ _ _ _ Hu); apply elem_rows; eauto.
Qed.

(** Finding by a unique column returns the row that carries it. *)
Lemma find_unique {K R} `{Countable K} (key : R -> string) (v : string) (m : gmap K R) k r :
  unique_by key m = true -> m !! k = Some r -> key r = v ->
  find_row (fun x => str_eq (key x) v) m = Some r.
Proof.
  intros Hu Hk Hv. destruct (find_row _ m) as [x|] eqn:E.
  - apply find_row_Some in E as [Hx [kx Hkx]]. unfold str_eq in Hx. boolify. f_equal.
    eapply unique_by_inj; [done|done|done|congruence].
  - eapply find_row_None in E; [|exact Hk]. unfold str_eq in E. boolify. done.
Qed.

Lemma constraints_dispatch_key d : constraints_ok d = true -> unique_by at_dispatch_key (d_attempts d) = true.
Proof. unfold constraints_ok. intros H. repeat rewrite andb_true_iff in H. by destruct_and! H. Qed.

(** A new Attempt is stored by a flush, requiring a revision. *)
Lemma flush_inserts_attempt h s s' k a :
  flush h s = Ok s' -> d_attempts (stored s) !! k = None -> d_attempts (current s) !! k = Some a ->
  d_attempts (stored s') !! k = Some (a {{ at_revision_required := Some true }}).
Proof.
  intros (_ & _ & _ & _ & _ & Eat & _)%flush_Ok Hs Hc. rewrite Eat.
  change (merge mark_new (d_attempts (stored s)) (d_attempts (current s)) !! k =
          Some (a {{ at_revision_required := Some true }})).
  by rewrite (lookup_merge mark_new), Hs, Hc.
Qed.

Lemma flush_stored_current h s s' : flush h s = Ok s' -> stored s' = current s'.
Proof. by intros (_ & _ & ? & _)%flush_Ok. Qed.

(** ** Lemmas: what a flush leaves of each table *)

(** No row of [t] is new. *)
Definition none_new {K R} `{Countable K} (t : Db -> gmap K R) (s : Session) : Prop :=
  forall k, is_Some (t (current s) !! k) -> is_Some (t (stored s) !! k).

Lemma flush_plans h s s' : flush h s = Ok s' -> none_new d_plans s -> d_plans (stored s') = d_plans (current s).
Proof.
  intros (_ & _ & _ & _ & _ & _ & Hon & _)%flush_Ok Hn. apply on_new_spec in Hon as (Hold & Hnone & _).
  apply map_eq. intros k. destruct (d_plans (current s) !! k) eqn:E; [|by apply Hnone].
  rewrite Hold; [done|]. apply Hn. by rewrite E.
Qed.

Lemma flush_evidence h s s' : flush h s = Ok s' -> none_new d_evidence s -> d_evidence (stored s') = d_evidence (current s).
Proof.
  intros (_ & _ & _ & _ & _ & _ & _ & Hon)%flush_Ok Hn. apply on_new_spec in Hon as (Hold & Hnone & _).
  apply map_eq. intros k. destruct (d_evidence (current s) !! k) eqn:E; [|by apply Hnone].
  rewrite Hold; [done|]. apply Hn. by rewrite E.
Qed.

Lemma flush_attempts h s s' : flush h s = Ok s' -> none_new d_attempts s -> d_attempts (stored s') = d_attempts (current s).
Proof.
  intros (_ & _ & _ & _ & _ & Hat & _)%flush_Ok Hn. rewrite Hat. apply map_eq. intros k.
  change (merge mark_new (d_attempts (stored s)) (d_attempts (current s)) !! k = d_attempts (current s) !! k).
  rewrite (lookup_merge mark_new). destruct (d_attempts (current s) !! k) eqn:E.
  - destruct (Hn k) as [b ->]; [by rewrite E|]. done.
  - by destruct (d_attempts (stored s) !! k).
Qed.

Lemma flush_same h s s' : flush h s = Ok s' -> same_tables (stored s') (current s) /\ stored s' = current s'.
Proof. by intros (_ & _ & ? & _ & ? & _)%flush_Ok. Qed.

(** A flush that inserts no plan, Attempt or Evidence stores the session. *)
Lemma flush_exact h s s' : flush h s = Ok s' ->
  none_new d_plans s -> none_new d_evidence s -> none_new d_attempts s -> s' = open_session (current s).
Proof.
  intros Hf Hp He Ha. pose proof (flush_plans _ _ _ Hf Hp) as Ep. pose proof (flush_evidence _ _ _ Hf He) as Ee.
  pose proof (flush_attempts _ _ _ Hf Ha) as Ea. clear Hp He Ha.
  unfold flush in Hf. apply bind_Ok in Hf as (r & (-> & _)%guards_Ok & Hf).
  apply bind_Ok in Hf as (plans & _ & Hf). apply bind_Ok in Hf as (evidence & _ & Hf).
  apply bind_Ok in Hf as (u & _ & [= <-]). unfold open_session, require_revisions in *. cbn [stored current] in *.
  destruct (current s). cbv [constant] in *. cbn in Ep, Ee, Ea |- *. subst. by rewrite !Ea.
Qed.

(** A session that changes only Tasks, sandbox rows and Attempts, keeping the
    Attempts there are and whether each requires a revision. *)
Record light (s : Session) : Prop := {
  light_tables : current s = (stored s) {{ d_tasks := d_tasks (current s); d_attempts := d_attempts (current s);
    d_attempt_remote_sandboxes := d_attempt_remote_sandboxes (current s) }};
  light_attempts : forall k, at_revision_required <$> d_attempts (current s) !! k = at_revision_required <$> d_attempts (stored s) !! k
}.

Lemma new_rows_same {K R} `{Countable K} (t : Db -> gmap K R) s : t (current s) = t (stored s) -> new_rows t s = [].
Proof. intros E. unfold new_rows, rows. by rewrite E, map_difference_diag, map_to_list_empty. Qed.

Lemma deleted_rows_same {K R} `{Countable K} (t : Db -> gmap K R) s : t (current s) = t (stored s) -> deleted_rows t s = [].
Proof. intros E. unfold deleted_rows, rows. by rewrite E, map_difference_diag, map_to_list_empty. Qed.

Lemma dirty_rows_same {K R} `{Countable K} `{EqDecision R} (t : Db -> gmap K R) s :
  t (current s) = t (stored s) -> dirty_rows t s = [].
Proof.
  intros E. unfold dirty_rows. rewrite E.
  assert (merge changed_pair (t (stored s)) (t (stored s)) = ∅) as ->; [|by rewrite map_to_list_empty].
  apply map_eq. intros k. rewrite (lookup_merge changed_pair), lookup_empty.
  destruct (t (stored s) !! k); [|done]. simpl. by rewrite bool_decide_eq_true_2.
Qed.

Lemma on_new_known {R} (f : R -> result R) (old new : gmap string R) :
  (forall k, is_Some (new !! k) -> is_Some (old !! k)) -> on_new f old new = Ok new.
Proof.
  intros Hk. unfold on_new. generalize new at 1 3. intros m.
  assert (forall kv, kv ∈ map_to_list new -> is_Some (old !! kv.1)) as Hl.
  { intros [k r] ?%elem_of_map_to_list. apply Hk. by exists r. }
  revert m. induction (map_to_list new) as [|kv l IH]; [done|]. intros m. simpl.
  destruct (Hl kv) as [x ->]; [left|]. apply IH. intros p ?. apply Hl. by right.
Qed.

Lemma light_known s : light s -> forall k, is_Some (d_attempts (current s) !! k) <-> is_Some (d_attempts (stored s) !! k).
Proof. intros [_ L] k. specialize (L k). destruct (_ !! k), (_ !! k); split; try done; by intros []. Qed.

(** The listeners see no change in the tables [E] says are the same. *)
Ltac same_rows E :=
  repeat match goal with
  | |- context [new_rows ?t ?s] => rewrite (new_rows_same t s) by (rewrite E; reflexivity)
  | |- context [deleted_rows ?t ?s] => rewrite (deleted_rows_same t s) by (rewrite E; reflexivity)
  | |- context [dirty_rows ?t ?s] => rewrite (dirty_rows_same t s) by (rewrite E; reflexivity)
  end.

(** Such a session is stored whole, when the constraints of the tables hold. *)
Lemma flush_light h s : light s -> constraints_ok (current s) = true -> flush h s = Ok (open_session (current s)).
Proof.
  intros L Hc. pose proof (light_tables _ L) as E.
  assert (require_revisions s = s) as Hr.
  { unfold require_revisions. destruct s as [st cu]. f_equal. cbn [stored current] in *.
    assert (merge mark_new (d_attempts st) (d_attempts cu) = d_attempts cu) as ->; [|by destruct cu].
    apply map_eq. intros k. rewrite (lookup_merge mark_new). pose proof (light_known _ L k) as Hk. cbn in Hk.
    destruct (d_attempts st !! k) eqn:Es, (d_attempts cu !! k) eqn:Ec; try done. by destruct (proj1 Hk ltac:(done)). }
  assert (forall l, (forall p, p ∈ l -> p ∈ dirty_rows d_attempts s) -> each l (fun '(a, b) =>
            raise_if (negb (bool_decide (a.(at_revision_required) = b.(at_revision_required))))
              (RevisionBindingError "its revision binding is immutable after insert")) = Ok ()) as Hd.
  { unfold each. induction l as [|[a b] l IH]; intros Hl; [done|]. simpl.
    assert ((a, b) ∈ dirty_rows d_attempts s) as (k & Ha & Hb & _)%elem_dirty_rows by (apply Hl; left).
    pose proof (light_attempts _ L k) as Hk. cbn in *. rewrite Ha, Hb in Hk. injection Hk as Hk.
    rewrite bool_decide_eq_true_2 by done. apply IH. intros p ?. apply Hl. by right. }
  assert (guards s = Ok s) as Hg.
  { unfold guards, reject_evidence_mutation, reject_tool_audit_mutation, reject_dangling_decision_edges,
      reject_agent_message_mutation, append_only, guard_plans_and_decisions, enforce_plan_gate, guard_auth_rows,
      guard_attempt_revisions.
    assert (new_rows d_attempts s = []) as ->.
    { destruct (new_rows d_attempts s) as [|a l] eqn:En; [done|].
      assert (a ∈ new_rows d_attempts s) as (k & Hs & Hk)%elem_new_rows by (rewrite En; left).
      destruct (proj1 (light_known _ L k)) as [x Hx]; [by rewrite Hk|congruence]. }
    rewrite Hr. same_rows E. rewrite Hd by done. cbn. by same_rows E. }
  unfold flush. rewrite Hg. cbn [mbind result_bind].
  rewrite (on_new_known _ (d_plans (stored s)) (d_plans (current s))) by (rewrite E; done).
  cbn [mbind result_bind].
  rewrite (on_new_known _ (d_evidence (stored s)) (d_evidence (current s))) by (rewrite E; done).
  cbn [mbind result_bind].
  assert (forall d : Db, d {{ d_plans := d_plans d; d_evidence := d_evidence d }} = d) as -> by (by intros []).
  by rewrite Hc.
Qed.

Lemma unique_by_fmap {K R B} `{Countable K} `{EqDecision B} (key : R -> B) (m m' : gmap K R) :
  key <$> m = key <$> m' -> unique_by key m = unique_by key m'.
Proof.
  intros E. assert (forall n : gmap K R, map key (rows n) = (map_to_list (key <$> n)).*2) as Hr.
  { intros n. unfold rows. rewrite map_to_list_fmap, <- !list_fmap_compose. reflexivity. }
  unfold unique_by. by rewrite !Hr, E.
Qed.

Lemma all_rows_iff {K R} `{Countable K} (p : R -> bool) (m : gmap K R) :
  all_rows p m = true <-> forall k r, m !! k = Some r -> p r = true.
Proof.
  unfold all_rows. rewrite List.forallb_forall. setoid_rewrite <- list_elem_of_In. setoid_rewrite elem_rows.
  naive_solver.
Qed.

Definition sandbox_phase_ok (r : AttemptRemoteSandboxRow) : bool :=
  str_in r.(rs_phase) ["creating"; "identified"; "absent"].

(** What a light session must respect for the constraints to hold again. *)
Lemma constraints_light s : light s -> constraints_ok (stored s) = true ->
  (forall k a, d_attempts (current s) !! k = Some a -> check_attempt a = true) ->
  (forall k r, d_attempt_remote_sandboxes (current s) !! k = Some r -> sandbox_phase_ok r = true) ->
  at_dispatch_key <$> d_attempts (current s) = at_dispatch_key <$> d_attempts (stored s) ->
  tk_idempotency_key <$> d_tasks (current s) = tk_idempotency_key <$> d_tasks (stored s) ->
  constraints_ok (current s) = true.
Proof.
  intros L Hc Ha Hs Hk Ht. apply all_rows_iff in Ha, Hs.
  apply (unique_by_fmap at_dispatch_key) in Hk. apply (unique_by_fmap tk_idempotency_key) in Ht.
  unfold constraints_ok in *. rewrite (light_tables _ L). cbn -[all_rows unique_by].
  repeat rewrite andb_true_iff in Hc. destruct_and! Hc. cbv [constant].
  rewrite Hk, Ht. change (fun r => str_in (rs_phase r) ["creating"; "identified"; "absent"]) with sandbox_phase_ok.
  rewrite Ha, Hs. repeat (rewrite andb_true_iff; split); done.
Qed.

Lemma flush_change_exact h d f d' : flush_change h d f = Ok d' -> d_plans (f d) = d_plans d -> d_evidence (f d) = d_evidence d ->
  (forall k, is_Some (d_attempts (f d) !! k) -> is_Some (d_attempts d !! k)) -> d' = f d.
Proof.
  unfold flush_change. intros (s & Hf & [= <-])%bind_Ok Hp He Ha.
  apply flush_exact in Hf as ->; [done|intros k|intros k|exact Ha]; cbn [stored current]; congruence.
Qed.
