(* ===== verification/RemoteEffects.v ===== *)
(** * RemoteEffects: the durable record of provider sandboxes

    Models [src/sdf_core/remote_effects.py].  Every operation starts from a
    session with nothing pending and commits its own writes, so it is a
    function of the database; the new row's [uuid4().hex], the clock and the
    provider's [kill] and lookup calls are arguments. *)

From S2P Require Import Prelude Json Db EvidenceMac Flush Samples FlushFacts Store.

Definition PHASE_CREATING : string := "creating".
Definition PHASE_IDENTIFIED : string := "identified".
Definition PHASE_ABSENT : string := "absent".
Definition REMOTE_UNCERTAIN : string := "uncertain".
Definition REMOTE_STOPPED : string := "stopped".

(** [ReconcileResult]; a sandbox is its id, provider, sandbox id and phase. *)
Record ReconcileResult : Type := {
  rr_resolved : bool; rr_blocked : option string; rr_sandboxes : list (string * string * option string * string)
}.

Definition set_effect (effect : string) (a : AttemptRow) : AttemptRow := a {{ at_remote_effect := Some effect }}.

(** A new row, and its Attempt marked uncertain. *)
Definition add_sandbox (r : AttemptRemoteSandboxRow) (d : Db) : Db :=
  d {{ d_attempt_remote_sandboxes ::= insert (rs_id r) r; d_attempts ::= alter (set_effect REMOTE_UNCERTAIN) (rs_attempt_id r) }}.

(** ** Opening and identifying *)

Definition open_remote_sandbox (h : Host) (hex : string) (now : datetime) (d : Db) (attempt_id provider : string) : result (Db * string) :=
  _ ← require_some (d_attempts d !! attempt_id)
        (RuntimeError ("cannot record a remote effect for missing attempt " +:+ attempt_id));
  _ ← raise_if (negb (str_truthy (str_strip provider))) (RuntimeError "remote sandbox provider must be non-empty");
  let effect_id := "RS-" +:+ str_take 16 hex in
  _ ← raise_if (bool_decide (is_Some (d_attempt_remote_sandboxes d !! effect_id))) (IntegrityError "attempt_remote_sandboxes.id");
  d ← flush_change h d (add_sandbox
        {| rs_id := effect_id; rs_attempt_id := attempt_id; rs_provider := str_take 32 (str_strip provider);
           rs_sandbox_id := None; rs_phase := PHASE_CREATING; rs_created_at := now |});
  Ok (d, effect_id).

Definition identify_remote_sandbox (h : Host) (d : Db) (effect_id sandbox_id : string) : result Db :=
  _ ← raise_if (negb (str_truthy (str_strip sandbox_id))) (RuntimeError "sandbox id must be non-empty");
  row ← require_some (d_attempt_remote_sandboxes d !! effect_id)
          (RuntimeError ("remote sandbox row not found: " +:+ effect_id));
  if str_eq row.(rs_phase) PHASE_ABSENT then Ok d
  else flush_change h d (fun d => d {{ d_attempt_remote_sandboxes ::= insert effect_id
         (row {{ rs_sandbox_id := Some (str_take 120 (str_strip sandbox_id)); rs_phase := PHASE_IDENTIFIED }}) }}).

Definition observe_remote_sandbox (h : Host) (hex : string) (now : datetime) (d : Db)
    (attempt_id provider sandbox_id : string) : result (Db * string) :=
  _ ← require_some (d_attempts d !! attempt_id) (RuntimeError ("attempt not found: " +:+ attempt_id));
  _ ← raise_if (negb (str_truthy (str_strip sandbox_id)) || negb (str_truthy (str_strip provider)))
        (RuntimeError "observed sandbox requires a provider and an id");
  let effect_id := "RS-" +:+ str_take 16 hex in
  _ ← raise_if (bool_decide (is_Some (d_attempt_remote_sandboxes d !! effect_id))) (IntegrityError "attempt_remote_sandboxes.id");
  d ← flush_change h d (add_sandbox
        {| rs_id := effect_id; rs_attempt_id := attempt_id; rs_provider := str_take 32 (str_strip provider);
           rs_sandbox_id := Some (str_take 120 (str_strip sandbox_id)); rs_phase := PHASE_IDENTIFIED; rs_created_at := now |});
  Ok (d, effect_id).

(** ** Queries *)

Definition row_le (a b : AttemptRemoteSandboxRow) : bool :=
  if (dt_us (rs_created_at a) =? dt_us (rs_created_at b))%Z then str_le (rs_id a) (rs_id b)
  else dt_us (rs_created_at a) <=? dt_us (rs_created_at b).

Definition sandbox_rows (d : Db) (attempt_id : string) : list AttemptRemoteSandboxRow :=
  sort_by row_le (select_rows (fun r => str_eq (rs_attempt_id r) attempt_id) (d_attempt_remote_sandboxes d)).

Definition is_absent (r : AttemptRemoteSandboxRow) : bool := str_eq (rs_phase r) PHASE_ABSENT.

Definition unresolved_effect_id (d : Db) (task_id : string) : option string :=
  rs_id <$> find_row (fun r =>
      match d_attempts d !! rs_attempt_id r with
      | Some a => str_eq (at_task_id a) task_id
      | None => false
      end && negb (is_absent r)) (d_attempt_remote_sandboxes d).

(** ** Settling what the provider shows *)

Definition refresh_remote_effect (h : Host) (d : Db) (attempt_id : string) : result (Db * bool) :=
  _ ← require_some (d_attempts d !! attempt_id) (RuntimeError ("attempt not found: " +:+ attempt_id));
  let found := select_rows (fun r => str_eq (rs_attempt_id r) attempt_id) (d_attempt_remote_sandboxes d) in
  if negb (any_row found) || negb (forallb is_absent found) then Ok (d, false)
  else d ← flush_change h d (fun d => d {{ d_attempts ::= alter (set_effect REMOTE_STOPPED) attempt_id }});
       Ok (d, true).

Definition gone (row : AttemptRemoteSandboxRow) : AttemptRemoteSandboxRow := row {{ rs_phase := PHASE_ABSENT }}.

Definition verify_remote_sandbox_absent (h : Host) (d : Db) (effect_id : string) (absent : bool) : result (Db * bool) :=
  if negb absent then Ok (d, false) else
  match d_attempt_remote_sandboxes d !! effect_id with
  | None => Ok (d, false)
  | Some row =>
      if negb (opt_truthy row.(rs_sandbox_id)) || str_eq row.(rs_phase) PHASE_CREATING then Ok (d, false) else
      d ← flush_change h d (fun d => d {{ d_attempt_remote_sandboxes ::= insert effect_id (gone row) }});
      r ← refresh_remote_effect h d row.(rs_attempt_id);
      Ok (r.1, true)
  end.

(** What a reconciliation asks of the provider, in order. *)
Inductive Call : Type :=
  | Kill (provider sandbox_id : string)
  | Lookup (provider sandbox_id : string).

Section provider.
Context (h : Host) (killable : bool) (absent : option (string -> string -> result bool)).

(** One row of the loop: the kill's answer and its failure are ignored, the
    lookup's failure counts as still there. *)
Definition reconcile_row (absent : string -> string -> result bool) (st : Db * list Call) (row : AttemptRemoteSandboxRow) : result (Db * list Call) :=
  let '(d, calls) := st in
  match rs_sandbox_id row with
  | Some (String _ _ as sandbox_id) =>
      if negb (str_eq row.(rs_phase) PHASE_IDENTIFIED) then Ok st else
      let calls := calls ++ (if killable then [Kill row.(rs_provider) sandbox_id] else []) ++ [Lookup row.(rs_provider) sandbox_id] in
      let shown := match absent row.(rs_provider) sandbox_id with Ok b => b | Err _ => false end in
      r ← verify_remote_sandbox_absent h d row.(rs_id) shown;
      Ok (r.1, calls)
  | _ => Ok st
  end.

Definition reconcile_result (d : Db) (attempt_id : string) (rows : list AttemptRemoteSandboxRow) (blocked : option string) : ReconcileResult :=
  {| rr_resolved := match d_attempts d !! attempt_id with
                    | Some a => opt_str_eq a.(at_remote_effect) (Some REMOTE_STOPPED) | None => false end &&
                    bool_decide (blocked = None);
     rr_blocked := blocked;
     rr_sandboxes := map (fun r => (rs_id r, rs_provider r, rs_sandbox_id r, rs_phase r)) rows |}.

Definition reconcile_blocked (rows : list AttemptRemoteSandboxRow) : option string :=
  if existsb (fun r => str_eq (rs_phase r) PHASE_CREATING || negb (opt_truthy (rs_sandbox_id r))) rows then Some "unknown_create"
  else if existsb (fun r => negb (is_absent r)) rows then Some "still_present" else None.

Definition reconcile_attempt (d : Db) (attempt_id : string) : result (Db * list Call * ReconcileResult) :=
  let rows := sandbox_rows d attempt_id in
  match absent with
  | None => Ok (d, [], reconcile_result d attempt_id rows (Some "probe_unavailable"))
  | Some absent =>
      st ← result_fold (reconcile_row absent) (d, []) rows;
      let rows := sandbox_rows st.1 attempt_id in
      Ok (st.1, st.2, reconcile_result st.1 attempt_id rows (reconcile_blocked rows))
  end.
End provider.

(** What [Daytona.get] answered: a sandbox with its state, or an exception with
    its class and status code. *)
Inductive DaytonaReply : Type :=
  | Found (state : string)
  | Raised (cls : string) (status_code : option Z).

Definition daytona_get_is_absent (reply : DaytonaReply) : bool :=
  match reply with
  | Raised cls code => bool_decide (code = Some 404) || str_eq cls "DaytonaNotFoundError"
  | Found state => str_eq state "destroyed"
  end.

(** ** The record of an Attempt's sandboxes *)

(** The rows are keyed by their id, belong to Attempts that exist, and an
    Attempt with a row that is not absent is marked uncertain. *)
Record effect_ok (d : Db) : Prop := {
  eo_key : forall k r, d_attempt_remote_sandboxes d !! k = Some r -> rs_id r = k;
  eo_open : forall k r, d_attempt_remote_sandboxes d !! k = Some r -> is_absent r = false ->
    exists a, d_attempts d !! rs_attempt_id r = Some a /\ at_remote_effect a = Some REMOTE_UNCERTAIN
}.

(** The commits of this module. *)
Inductive remote_step (h : Host) (d : Db) : Db -> Prop :=
  | Open hex now attempt_id provider d' effect_id :
      open_remote_sandbox h hex now d attempt_id provider = Ok (d', effect_id) -> remote_step h d d'
  | Identify effect_id sandbox_id d' :
      identify_remote_sandbox h d effect_id sandbox_id = Ok d' -> remote_step h d d'
  | Observe hex now attempt_id provider sandbox_id d' effect_id :
      observe_remote_sandbox h hex now d attempt_id provider sandbox_id = Ok (d', effect_id) -> remote_step h d d'
  | Verify effect_id absent d' b :
      verify_remote_sandbox_absent h d effect_id absent = Ok (d', b) -> remote_step h d d'
  | Refresh attempt_id d' b :
      refresh_remote_effect h d attempt_id = Ok (d', b) -> remote_step h d d'.

(** What any commit keeps: rows stay with their Attempt, an absent row is
    final, a row without an id is not absent; Attempts change in nothing but
    the mark. *)
Definition rows_kept (d d' : Db) : Prop :=
  (forall k r, d_attempt_remote_sandboxes d !! k = Some r -> exists r', d_attempt_remote_sandboxes d' !! k = Some r' /\
     rs_attempt_id r' = rs_attempt_id r /\ rs_provider r' = rs_provider r /\ rs_created_at r' = rs_created_at r /\
     (is_absent r = true -> r' = r) /\
     (is_absent r = false -> is_absent r' = true -> opt_truthy (rs_sandbox_id r) = true /\ rs_phase r <> PHASE_CREATING)) /\
  (forall k, (fun a => set_effect "" a) <$> d_attempts d' !! k = (fun a => set_effect "" a) <$> d_attempts d !! k) /\
  d_tasks d' = d_tasks d.

Lemma rows_kept_refl d : rows_kept d d.
Proof. split_and!; [|done|done]. intros k r Hr. exists r. split_and!; try done. intros H1 H2. congruence. Qed.

Lemma alter_effect_kept e i k (m : gmap string AttemptRow) :
  (fun a => set_effect "" a) <$> alter (set_effect e) i m !! k = (fun a => set_effect "" a) <$> m !! k.
Proof. destruct (decide (i = k)) as [->|]; [rewrite lookup_alter_eq|by rewrite lookup_alter_ne]. by destruct (m !! k). Qed.

Lemma alter_is_Some {A} (f : A -> A) i k (m : gmap string A) : is_Some (alter f i m !! k) -> is_Some (m !! k).
Proof. by rewrite lookup_alter_is_Some. Qed.

(** A commit that changes one row or one mark. *)
Lemma put_row_only h d d' k r : flush_change h d (fun d => d {{ d_attempt_remote_sandboxes ::= insert k r }}) = Ok d' ->
  d_attempt_remote_sandboxes d' = <[k := r]> (d_attempt_remote_sandboxes d) /\ d_attempts d' = d_attempts d /\ d_tasks d' = d_tasks d.
Proof. intros Hf. apply flush_change_exact in Hf as ->; done. Qed.

Lemma put_mark h d d' e i : flush_change h d (fun d => d {{ d_attempts ::= alter (set_effect e) i }}) = Ok d' ->
  d_attempt_remote_sandboxes d' = d_attempt_remote_sandboxes d /\ d_attempts d' = alter (set_effect e) i (d_attempts d) /\ d_tasks d' = d_tasks d.
Proof. intros Hf. apply flush_change_exact in Hf as ->; [done..|]. intros k. apply alter_is_Some. Qed.

(** Marking an Attempt stopped is right when its rows are all absent. *)
Lemma refresh_Ok h d d' i b : effect_ok d -> refresh_remote_effect h d i = Ok (d', b) ->
  effect_ok d' /\ rows_kept d d' /\ d_attempt_remote_sandboxes d' = d_attempt_remote_sandboxes d /\
  (b = true -> forall k r, d_attempt_remote_sandboxes d !! k = Some r -> rs_attempt_id r = i -> is_absent r = true).
Proof.
  unfold refresh_remote_effect. intros He H. crush_hyps. destruct (_ || _) eqn:Hb.
  { crush_hyps. simplify_eq. split_and!; [done|apply rows_kept_refl|done|done]. }
  crush_hyps. simplify_eq. boolify.
  match goal with H : flush_change _ _ _ = Ok _ |- _ => apply put_mark in H as (Er & Ea & Et) end.
  match goal with H : forallb _ _ = true |- _ => rename H into Hall end.
  rewrite List.forallb_forall in Hall. setoid_rewrite <- list_elem_of_In in Hall. setoid_rewrite elem_select in Hall.
  assert (forall k r, d_attempt_remote_sandboxes d !! k = Some r -> rs_attempt_id r = i -> is_absent r = true) as Habs.
  { intros k r Hr <-. apply Hall. unfold str_eq. split; [by apply bool_decide_eq_true_2|by exists k]. }
  split_and!; [|split_and!|done|done].
  - destruct He as [Hk Ho]. split; rewrite Er; [done|]. intros k r Hr Ho'.
    destruct (Ho k r Hr Ho') as (a & Ha & Hu). rewrite Ea. destruct (decide (i = rs_attempt_id r)) as [->|Hne].
    + by rewrite (Habs k r Hr) in Ho'.
    + rewrite lookup_alter_ne by done. by exists a.
  - rewrite Er. apply (rows_kept_refl d).
  - intros k. rewrite Ea. apply alter_effect_kept.
  - done.
Qed.

(** A row put under a key keeps the rest of the record. *)
Lemma put_kept d d' k r : d_attempt_remote_sandboxes d' = <[k := r]> (d_attempt_remote_sandboxes d) ->
  (forall i, (fun a => set_effect "" a) <$> d_attempts d' !! i = (fun a => set_effect "" a) <$> d_attempts d !! i) ->
  d_tasks d' = d_tasks d ->
  (forall x, d_attempt_remote_sandboxes d !! k = Some x -> rs_attempt_id r = rs_attempt_id x /\ rs_provider r = rs_provider x /\
     rs_created_at r = rs_created_at x /\ (is_absent x = true -> r = x) /\
     (is_absent x = false -> is_absent r = true -> opt_truthy (rs_sandbox_id x) = true /\ rs_phase x <> PHASE_CREATING)) ->
  rows_kept d d'.
Proof.
  intros Er Ha Ht Hx. split_and!; [|done|done]. intros j x Hj. rewrite Er. destruct (decide (k = j)) as [->|Hne].
  - exists r. rewrite lookup_insert_eq. split; [done|]. by apply Hx.
  - exists x. rewrite lookup_insert_ne by done. split_and!; try done. intros H1 H2. congruence.
Qed.

(** [effect_ok] survives a row for an Attempt marked uncertain, and an update
    of a row that does not reopen it. *)
Lemma put_ok d d' k r : effect_ok d -> rs_id r = k -> d_attempt_remote_sandboxes d' = <[k := r]> (d_attempt_remote_sandboxes d) ->
  (forall i a, d_attempts d !! i = Some a -> at_remote_effect a = Some REMOTE_UNCERTAIN ->
     exists a', d_attempts d' !! i = Some a' /\ at_remote_effect a' = Some REMOTE_UNCERTAIN) ->
  (is_absent r = false -> exists a, d_attempts d' !! rs_attempt_id r = Some a /\ at_remote_effect a = Some REMOTE_UNCERTAIN) ->
  effect_ok d'.
Proof.
  intros [Hk Ho] Hr Er Ha Hn. split; rewrite Er; intros j x Hj; apply lookup_insert_Some in Hj as [[<- <-]|[_ Hj]]; try done.
  - by apply Hk.
  - intros Hx. destruct (Ho j x Hj Hx) as (a & Hat & Hu). by apply (Ha _ a).
Qed.

Lemma alter_uncertain (m : gmap string AttemptRow) i k a : m !! k = Some a -> at_remote_effect a = Some REMOTE_UNCERTAIN ->
  exists a', alter (set_effect REMOTE_UNCERTAIN) i m !! k = Some a' /\ at_remote_effect a' = Some REMOTE_UNCERTAIN.
Proof.
  intros Hk Hu. destruct (decide (i = k)) as [->|Hne].
  - rewrite lookup_alter_eq, Hk. by eexists.
  - rewrite lookup_alter_ne by done. by exists a.
Qed.

Lemma new_row_Ok h d d' r : effect_ok d -> d_attempt_remote_sandboxes d !! rs_id r = None ->
  is_Some (d_attempts d !! rs_attempt_id r) -> flush_change h d (add_sandbox r) = Ok d' ->
  effect_ok d' /\ rows_kept d d'.
Proof.
  intros He Hn [a Ha] Hf. apply flush_change_exact in Hf as ->; [|done..|intros i; apply alter_is_Some]. split.
  - apply (put_ok d _ (rs_id r) r); [done|done|done| |]; [intros i x; apply alter_uncertain|].
    intros _. exists (set_effect REMOTE_UNCERTAIN a). split; [|done].
    change (alter (set_effect REMOTE_UNCERTAIN) (rs_attempt_id r) (d_attempts d) !! rs_attempt_id r = Some (set_effect REMOTE_UNCERTAIN a)).
    by rewrite lookup_alter_eq, Ha.
  - apply (put_kept d _ (rs_id r) r); [done| |done|intros x; by rewrite Hn]. intros i. apply alter_effect_kept.
Qed.

Lemma verify_Ok h d d' k absent b : effect_ok d -> verify_remote_sandbox_absent h d k absent = Ok (d', b) ->
  effect_ok d' /\ rows_kept d d' /\
  (forall j, j <> k \/ absent = false -> d_attempt_remote_sandboxes d' !! j = d_attempt_remote_sandboxes d !! j) /\
  (forall r, d_attempt_remote_sandboxes d !! k = Some r -> d_attempt_remote_sandboxes d' !! k = Some r \/
     (absent = true /\ d_attempt_remote_sandboxes d' !! k = Some (gone r))).
Proof.
  unfold verify_remote_sandbox_absent. intros He H.
  assert (forall x y : Db, Ok (x, false) = Ok (y, b) -> x = y) as Hinv by (intros; congruence).
  destruct absent; [|simpl in H; apply Hinv in H as <-; split_and!; [done|apply rows_kept_refl|done|by left]].
  simpl in H. destruct (d_attempt_remote_sandboxes d !! k) as [r|] eqn:Hr;
    [|apply Hinv in H as <-; split_and!; [done|apply rows_kept_refl|done|done]].
  destruct (_ || _) eqn:Hc; [apply Hinv in H as <-; split_and!; [done|apply rows_kept_refl|done|rewrite Hr; by left]|].
  unfold str_eq in Hc. boolify. apply bind_Ok in H as (d1 & Hf & H). apply bind_Ok in H as ([d2 b2] & Href & [= <- <-]).
  apply put_row_only in Hf as (Er & Ea & Et).
  assert (effect_ok d1) as He1.
  { eapply (put_ok d d1 k); [exact He| |exact Er| |]; [exact (eo_key _ He k r Hr)|rewrite Ea; eauto|intros; done]. }
  assert (rows_kept d d1) as Hk1.
  { eapply (put_kept d d1 k); [exact Er|by rewrite Ea|done|]. intros x Hx. rewrite Hr in Hx. injection Hx as <-.
    split_and!; try done. intros Habs. unfold is_absent, str_eq in Habs. boolify. unfold gone. destruct r. cbn in Habs. by subst. }
  destruct (refresh_Ok _ _ _ _ _ He1 Href) as (He2 & Hk2 & Er2 & _). split_and!; [done| |rewrite Er2, Er|].
  - destruct Hk1 as (R1 & A1 & T1), Hk2 as (_ & A2 & T2). split_and!; [rewrite Er2; exact R1| |by rewrite T2].
    intros i. by rewrite A2.
  - intros j [Hj|Hj]; [|done]. by rewrite lookup_insert_ne.
  - intros y [= <-]. right. split; [done|]. rewrite Er2, Er. apply lookup_insert_eq.
Qed.

(** Every commit on the record of provider sandboxes keeps it true: an
    Attempt with a sandbox not known absent stays marked uncertain, a row
    verified absent never changes again, a row becomes absent only if its
    creation returned an id, and nothing but the mark of an Attempt moves. *)
Theorem remote_effects_recorded h d d' : effect_ok d -> remote_step h d d' -> effect_ok d' /\ rows_kept d d'.
Proof.
  intros He [hex now i provider d1 k H|k sandbox_id d1 H|hex now i provider sandbox_id d1 k H|k absent d1 b H|i d1 b H].
  - unfold open_remote_sandbox in H. crush_hyps. boolify. simplify_eq.
    match goal with H : flush_change _ _ _ = Ok _ |- _ => apply (new_row_Ok h d _ _ He) in H end;
      [done|by apply eq_None_not_Some|by eexists].
  - unfold identify_remote_sandbox in H. crush_hyps. destruct (str_eq _ _) eqn:Hp; crush_hyps; [split; [done|apply rows_kept_refl]|].
    unfold str_eq in Hp. boolify. match goal with H : flush_change _ _ _ = Ok _ |- _ => apply put_row_only in H as (Er & Ea & Et) end.
    match goal with H : d_attempt_remote_sandboxes d !! k = Some ?y |- _ => set (r := y) in *; clearbody r; rename H into Hr end.
    assert (is_absent r = false) as Hab by (unfold is_absent, str_eq; by boolify). split.
    + eapply (put_ok d d1 k); [exact He| |exact Er| |]; [exact (eo_key _ He k r Hr)|rewrite Ea; eauto|rewrite Ea]. intros _. exact (eo_open _ He k r Hr Hab).
    + eapply (put_kept d d1 k); [exact Er|by rewrite Ea|done|]. intros y Hy. rewrite Hr in Hy. injection Hy as <-.
      split_and!; try done. intros. congruence.
  - unfold observe_remote_sandbox in H. crush_hyps. boolify. simplify_eq.
    match goal with H : flush_change _ _ _ = Ok _ |- _ => apply (new_row_Ok h d _ _ He) in H end;
      [done|by apply eq_None_not_Some|by eexists].
  - by apply verify_Ok in H as (? & ? & _).
  - by apply refresh_Ok in H as (? & ? & _).
Qed.

(** ** Reconciliation *)

(** Why a reconciliation may have marked a row absent: its own Attempt, an id
    the provider returned, and a lookup that said so. *)
Definition shown_absent (absent : option (string -> string -> result bool)) (attempt_id : string) (x : AttemptRemoteSandboxRow) : Prop :=
  rs_attempt_id x = attempt_id /\ rs_phase x = PHASE_IDENTIFIED /\
  exists f sandbox_id, absent = Some f /\ rs_sandbox_id x = Some sandbox_id /\ f (rs_provider x) sandbox_id = Ok true.

(** Each row is as it was, or absent for that reason. *)
Definition reconciled absent attempt_id (d d' : Db) : Prop :=
  forall k, match d_attempt_remote_sandboxes d !! k with
            | None => d_attempt_remote_sandboxes d' !! k = None
            | Some x => d_attempt_remote_sandboxes d' !! k = Some x \/
                        (d_attempt_remote_sandboxes d' !! k = Some (gone x) /\ shown_absent absent attempt_id x)
            end.

Definition asked (d : Db) (attempt_id : string) (calls : list Call) : Prop :=
  forall c, c ∈ calls -> exists k x sandbox_id, d_attempt_remote_sandboxes d !! k = Some x /\ rs_attempt_id x = attempt_id /\
    rs_phase x = PHASE_IDENTIFIED /\ rs_sandbox_id x = Some sandbox_id /\ str_truthy sandbox_id = true /\
    (c = Kill (rs_provider x) sandbox_id \/ c = Lookup (rs_provider x) sandbox_id).

Lemma elem_sandbox_rows d i x : x ∈ sandbox_rows d i <-> rs_attempt_id x = i /\ exists k, d_attempt_remote_sandboxes d !! k = Some x.
Proof.
  unfold sandbox_rows. rewrite sort_by_perm, elem_select. unfold str_eq. by rewrite bool_decide_eq_true.
Qed.

Lemma reconcile_row_Ok h killable f d i row d1 calls d2 calls2 : effect_ok d -> row ∈ sandbox_rows d i ->
  effect_ok d1 -> reconciled (Some f) i d d1 -> asked d i calls ->
  reconcile_row h killable f (d1, calls) row = Ok (d2, calls2) ->
  effect_ok d2 /\ reconciled (Some f) i d d2 /\ asked d i calls2.
Proof.
  intros He [Hi [k Hk]]%elem_sandbox_rows He1 Hrec Hask. pose proof (eo_key _ He _ _ Hk) as <-. unfold reconcile_row.
  assert (forall A (a b c d : A), Ok (a, b) = Ok (c, d) -> a = c /\ b = d) as Hinv by (intros; split; congruence).
  destruct (rs_sandbox_id row) as [[|c s]|] eqn:Hid; [by intros [= <- <-]| |by intros [= <- <-]].
  destruct (str_eq (rs_phase row) PHASE_IDENTIFIED) eqn:Hp; unfold str_eq in Hp; boolify; cbn [negb]; [|by intros [= <- <-]].
  intros ([d3 b] & Hv & [= <- <-])%bind_Ok. apply verify_Ok in Hv as (He3 & _ & Hother & Hrow); [|done].
  split_and!; [done| |].
  - intros j. specialize (Hrec j). destruct (decide (j = rs_id row)) as [->|Hj]; [|by rewrite Hother by auto].
    rewrite Hk in *. assert (forall x, gone (gone x) = gone x) as Hgg by (by intros []).
    destruct Hrec as [H1|[H1 Hs]]; destruct (Hrow _ H1) as [H2|[Hsh H2]]; rewrite ?Hgg in H2;
      [by left| |by right|by right].
    right. split; [done|]. split_and!; [done|done|]. exists f, (String c s). split_and!; [done..|].
    destruct (f _ _) as [[]|]; done.
  - intros a [Ha|Ha]%elem_of_app; [by apply Hask|].
    exists (rs_id row), row, (String c s). split_and!; try done.
    destruct killable; rewrite ?elem_of_app, ?list_elem_of_singleton, ?elem_of_nil in Ha; tauto.
Qed.

Lemma reconcile_rows_Ok h killable f d i l : effect_ok d -> (forall row, row ∈ l -> row ∈ sandbox_rows d i) ->
  forall d1 calls d2 calls2, effect_ok d1 -> reconciled (Some f) i d d1 -> asked d i calls ->
  result_fold (reconcile_row h killable f) (d1, calls) l = Ok (d2, calls2) ->
  effect_ok d2 /\ reconciled (Some f) i d d2 /\ asked d i calls2.
Proof.
  intros He. induction l as [|row l IH]; intros Hl d1 calls d2 calls2 He1 Hr Ha; [by intros [= <- <-]|].
  intros ([d3 calls3] & Hrow & Hf)%bind_Ok.
  eapply reconcile_row_Ok in Hrow as (? & ? & ?); [|exact He|apply Hl; left|done..].
  eapply (IH ltac:(intros; apply Hl; by right)); [| | |exact Hf]; done.
Qed.

(** Reconciling an Attempt's sandboxes trusts only the lookup.  A row is
    marked absent only for an id the provider returned and a lookup that
    answered true for it, whatever kill did; every other row is left as it
    was; the provider is asked about the identified rows of that Attempt and
    no other; without a lookup nothing changes; and the Attempt is reported
    resolved only when it is marked stopped and no row of it is left that is
    not absent. *)
Theorem reconcile_sound h killable absent d d' attempt_id calls r : effect_ok d ->
  reconcile_attempt h killable absent d attempt_id = Ok (d', calls, r) ->
  effect_ok d' /\ reconciled absent attempt_id d d' /\ asked d attempt_id calls /\
  (absent = None -> d' = d /\ rr_blocked r = Some "probe_unavailable") /\
  (rr_resolved r = true ->
     (exists a, d_attempts d' !! attempt_id = Some a /\ at_remote_effect a = Some REMOTE_STOPPED) /\
     forall k x, d_attempt_remote_sandboxes d' !! k = Some x -> rs_attempt_id x = attempt_id -> is_absent x = true).
Proof.
  unfold reconcile_attempt. intros He H. assert (reconciled absent attempt_id d d) as Hrefl.
  { intros k. destruct (d_attempt_remote_sandboxes d !! k); [by left|done]. }
  assert (asked d attempt_id []) as Hnil by (intros c []%elem_of_nil).
  destruct absent as [f|].
  - apply bind_Ok in H as ([d1 calls1] & Hf & [= <- <- <-]).
    eapply reconcile_rows_Ok in Hf as (? & ? & ?); [|done|done|done|done|done]. split_and!; [done..|].
    unfold reconcile_result. cbn [rr_resolved]. intros Hres. boolify. split.
    + destruct (d_attempts d1 !! attempt_id) as [a|]; [|done]. exists a. split; [done|]. unfold opt_str_eq in *. by boolify.
    + intros k x Hx Hi.
      match goal with H : reconcile_blocked _ = None |- _ => unfold reconcile_blocked in H; rename H into Hb end.
      destruct (existsb _ _); [done|]. destruct (existsb _ _) eqn:Hex; [done|].
      apply not_true_iff_false in Hex. rewrite List.existsb_exists in Hex. setoid_rewrite <- list_elem_of_In in Hex.
      apply not_false_iff_true. intros Hn. apply Hex. exists x. rewrite elem_sandbox_rows, Hn. split; [|done]. split; [done|by exists k].
  - injection H as <- <- <-. split_and!; [done..|]. unfold reconcile_result. cbn [rr_resolved]. intros Hres. boolify. done.
Qed.

(** ** Examples *)

Module EffectDemo.
Definition host : Host := {| h_environ := ∅; h_unidata_version := "15.0.0" |}.
Definition row (id phase : string) (sandbox_id : option string) : AttemptRemoteSandboxRow :=
  blank_AttemptRemoteSandboxRow {{ rs_id := id; rs_attempt_id := "A"; rs_provider := "e2b"; rs_phase := phase;
                                   rs_sandbox_id := sandbox_id }}.
Definition attempt : AttemptRow :=
  blank_AttemptRow {{ at_id := "A"; at_task_id := "T"; at_status := "running"; at_evidence_mode := "live";
                      at_remote_effect := Some REMOTE_UNCERTAIN }}.
Definition db : Db := empty_db {{ d_attempts := {["A" := attempt]};
  d_attempt_remote_sandboxes := {["RS-1" := row "RS-1" "identified" (Some "i-1")]} }}.

Lemma db_ok : effect_ok db.
Proof.
  split; intros k r Hr; change (({["RS-1" := row "RS-1" "identified" (Some "i-1")]} : gmap string _) !! k = Some r) in Hr;
    apply lookup_singleton_Some in Hr as [<- <-]; [done|]. intros _. by exists attempt.
Qed.

Definition lookup_says (answer : result bool) (provider sandbox_id : string) : result bool :=
  if str_eq sandbox_id "i-1" then answer else Ok false.
End EffectDemo.

Lemma remote_effects_recorded_witness : exists x, verify_remote_sandbox_absent EffectDemo.host EffectDemo.db "RS-1" true = Ok x /\
  (at_remote_effect <$> d_attempts x.1 !! "A", x.2) = (Some (Some REMOTE_STOPPED), true) /\ effect_ok x.1.
Proof.
  assert ((fun x => (at_remote_effect <$> d_attempts x.1 !! "A", x.2)) <$> verify_remote_sandbox_absent EffectDemo.host EffectDemo.db "RS-1" true
          = Ok (Some (Some REMOTE_STOPPED), true)) as Hv by (vm_compute; reflexivity).
  destruct (verify_remote_sandbox_absent _ _ _ _) as [[d' b]|] eqn:Hx; [|discriminate Hv]. injection Hv as Hv ->.
  exists (d', true). split; [done|]. split; [by cbn; rewrite Hv|].
  exact (proj1 (remote_effects_recorded EffectDemo.host _ _ EffectDemo.db_ok (Verify _ _ _ _ _ _ Hx))).
Defined.

Lemma reconcile_sound_witness : exists x,
  reconcile_attempt EffectDemo.host true (Some (EffectDemo.lookup_says (Ok true))) EffectDemo.db "A" = Ok x /\
  rr_resolved x.2 = true /\ reconciled (Some (EffectDemo.lookup_says (Ok true))) "A" EffectDemo.db x.1.1.
Proof.
  assert ((fun x => rr_resolved x.2) <$> reconcile_attempt EffectDemo.host true (Some (EffectDemo.lookup_says (Ok true))) EffectDemo.db "A"
          = Ok true) as Hv by (vm_compute; reflexivity).
  destruct (reconcile_attempt _ _ _ _ _) as [[[d' calls] r]|] eqn:Hx; [|discriminate Hv]. injection Hv as Hv.
  exists (d', calls, r). split; [done|]. split; [exact Hv|].
  exact (proj1 (proj2 (reconcile_sound _ _ _ _ _ _ _ _ EffectDemo.db_ok Hx))).
Defined.
