(* ===== verification/Recovery.v ===== *)
(** * Recovery: leases, fencing and orphaned Attempts

    Models [src/sdf_core/recovery.py].  The module's globals are a [Process];
    each SQL statement is a function of the database.  A provider callback
    registered for an Attempt is represented by what calling it would answer
    now.  The heartbeat threads are not modelled, what one round of theirs
    does is [refresh_round]. *)

From S2P Require Import Prelude Json Db EvidenceMac Flush Samples FlushFacts Store Lifecycle RemoteEffects.

Definition LEASE_TTL : Z := 30 * seconds.
Definition REMOTE_EFFECT_UNCERTAIN : string := "uncertain".
Definition REMOTE_EFFECT_STOPPED : string := "stopped".

(** The state of one OS process: its executor id, the Attempts whose
    [ExecutionService] is alive here, the provider callbacks, and the Attempts
    whose termination failed. *)
Record Process : Type := {
  EXECUTOR_ID : string;
  owners : gset string;
  remote_effects : gmap string (result bool);
  stop_blocked : gset string
}.

(** ** Executor ids *)

Definition mint_executor_id (pid : Z) (hex : string) : string := pretty pid +:+ "-" +:+ hex.

Definition remint_executor_id (pid : Z) (hex : string) (p : Process) : Process :=
  p {{ owners := ∅; EXECUTOR_ID := mint_executor_id pid hex }}.

Definition ensure_process_executor (pid : Z) (hex : string) (p : Process) : Process :=
  if negb (str_startswith (pretty pid +:+ "-") (EXECUTOR_ID p)) then remint_executor_id pid hex p else p.

Definition reset_recovery_state (pid : Z) (hex : string) (p : Process) : Process := remint_executor_id pid hex p.

(** ** Claims and fenced writes *)

Definition claim_executor (p : Process) (clock : datetime) (attempt : AttemptRow) : Process * AttemptRow :=
  (p {{ owners ::= union {[at_id attempt]} }},
   attempt {{ at_executor_id := Some (EXECUTOR_ID p); at_executor_heartbeat_at := Some clock }}).

Definition opt_repr (o : option string) : string := match o with Some s => str_repr s | None => "None" end.

Definition AttemptFenceError (attempt_id : string) (status executor_id : option string) : exn :=
  OtherError "AttemptFenceError" ("attempt " +:+ attempt_id +:+ " is not running (status=" +:+ opt_repr status +:+
    ", executor_id=" +:+ opt_repr executor_id +:+ ")").

(** [UPDATE attempts SET set WHERE id = attempt_id AND clause]: the database
    after it, and whether it matched a row. *)
Definition update_attempt (attempt_id : string) (clause : AttemptRow -> bool) (set : AttemptRow -> AttemptRow) (d : Db) : Db * bool :=
  match d_attempts d !! attempt_id with
  | Some a => if clause a then (d {{ d_attempts ::= insert attempt_id (set a) }}, true) else (d, false)
  | None => (d, false)
  end.

Definition has_status (s : AttemptState) (a : AttemptRow) : bool := str_eq a.(at_status) (AttemptState_value s).
Definition owned_by (e : string) (a : AttemptRow) : bool := opt_str_eq a.(at_executor_id) (Some e).

Definition fence_error (attempt_id : string) (d : Db) : exn :=
  let attempt := d_attempts d !! attempt_id in
  AttemptFenceError attempt_id (at_status <$> attempt) (attempt ≫= at_executor_id).

Definition settle_owned_attempt (p : Process) (attempt_id target : string) (columns : AttemptRow -> AttemptRow) (d : Db) : result Db :=
  let '(d', matched) :=
    update_attempt attempt_id (fun a => has_status ARUNNING a && owned_by (EXECUTOR_ID p) a)
      (fun a => columns (a {{ at_status := target }})) d in
  if negb matched then Err (fence_error attempt_id d) else Ok d'.

Definition require_owned_running (p : Process) (attempt_id : string) (d : Db) : result AttemptRow :=
  match d_attempts d !! attempt_id with
  | Some a => if negb (has_status ARUNNING a) || negb (owned_by (EXECUTOR_ID p) a) then Err (fence_error attempt_id d) else Ok a
  | None => Err (fence_error attempt_id d)
  end.

(** [SET status, and the extra columns]; the optional snapshot is the lease the
    row must still carry. *)
Definition compare_and_swap_attempt (d : Db) (attempt_id : string) (from_status to_status : AttemptState)
    (extra : AttemptRow -> AttemptRow) (observed_lease : option (option string * option datetime)) : result (Db * bool) :=
  _ ← transition_attempt from_status to_status;
  Ok (update_attempt attempt_id
        (fun a => has_status from_status a &&
           match observed_lease with
           | Some (executor_id, heartbeat) => bool_decide (at_executor_id a = executor_id) && bool_decide (at_executor_heartbeat_at a = heartbeat)
           | None => true
           end)
        (fun a => extra (a {{ at_status := AttemptState_value to_status }})) d).

Definition compare_and_swap_task (d : Db) (task_id : string) (from_status to_status : TaskState) : result (Db * bool) :=
  _ ← transition_task from_status to_status;
  Ok (match d_tasks d !! task_id with
      | Some t => if str_eq t.(tk_status) (TaskState_value from_status)
                  then (d {{ d_tasks ::= insert task_id (t {{ tk_status := TaskState_value to_status }}) }}, true)
                  else (d, false)
      | None => (d, false)
      end).

(** ** Liveness *)

(** [_as_utc]: a naive value is taken as UTC. *)
Definition as_utc : datetime -> datetime := aware.

(** The value the database clock returned, if it is a time. *)
Definition lease_clock (value : option datetime) : result datetime :=
  now ← require_some value (RuntimeError "database clock was not a time");
  Ok (as_utc now).

(** [a - b] on instants. *)
Definition dt_sub (a b : datetime) : result Z :=
  if Bool.eqb a.(dt_aware) b.(dt_aware) then Ok (a.(dt_us) - b.(dt_us))
  else Err (TypeError "can't subtract offset-naive and offset-aware datetimes").

Definition executor_is_live (p : Process) (now : datetime) (a : AttemptRow) : result bool :=
  if bool_decide (at_id a ∈ owners p) && owned_by (EXECUTOR_ID p) a then Ok true
  else if negb (opt_truthy (at_executor_id a)) then Ok false
  else match at_executor_heartbeat_at a with
       | None => Ok false
       | Some heartbeat =>
           age ← dt_sub now (as_utc heartbeat);
           if LEASE_TTL <? age then Ok false
           else Ok (negb (owned_by (EXECUTOR_ID p) a))
       end.

(** ** Provider effects *)

Definition register_remote_effect (attempt_id : string) (confirm_stopped : result bool) (p : Process) : Process :=
  p {{ remote_effects ::= insert attempt_id confirm_stopped }}.

Definition clear_remote_effect (attempt_id : string) (p : Process) : Process :=
  p {{ remote_effects ::= delete attempt_id }}.

Definition note_remote_effect_uncertain (h : Host) (hex : string) (now : datetime) (d : Db) (attempt_id provider : string) : result (Db * string) :=
  open_remote_sandbox h hex now d attempt_id provider.

Definition note_remote_effect_stop_failed (attempt_id : string) (p : Process) : Process :=
  p {{ stop_blocked ::= union {[attempt_id]} }}.

Definition note_remote_effect_stopped (h : Host) (p : Process) (d : Db) (attempt_id : string) : result (Db * bool) :=
  if bool_decide (attempt_id ∈ stop_blocked p) then Ok (d, false) else refresh_remote_effect h d attempt_id.

(** [release_verified_sandboxes] of [remote_effects.py], with what
    [probe_from_environ] returned. *)
Definition release_verified_sandboxes (h : Host) (p : Process) (killable : bool) (absent : option (string -> string -> result bool))
    (d : Db) (attempt_id : string) : result Db :=
  match absent with
  | None => r ← note_remote_effect_stopped h p d attempt_id; Ok r.1
  | Some _ => r ← reconcile_attempt h killable absent d attempt_id; Ok r.1.1
  end.

Definition remote_effect_blocks_settle (p : Process) (d : Db) (a : AttemptRow) : Process * bool :=
  if existsb (fun row => negb (is_absent row)) (sandbox_rows d (at_id a)) then (p, true)
  else if negb (bool_decide (at_remote_effect a = None \/ at_remote_effect a = Some REMOTE_EFFECT_STOPPED)) then (p, true)
  else match remote_effects p !! at_id a with
       | Some (Err _) => (p, true)
       | Some (Ok false) => (p, true)
       | Some (Ok true) => (clear_remote_effect (at_id a) p, false)
       | None => if opt_str_eq (at_remote_effect a) (Some REMOTE_EFFECT_STOPPED) then (p, false)
                 else (p, str_eq (at_evidence_mode a) "live")
       end.

(** ** The sweep *)

(** [live_tasks] and [settled]. *)
Record Sweep : Type := { live_tasks : gset string; settled : list string }.

(** [executor_is_live(...) or _remote_effect_blocks_settle(...)] *)
Definition spared (p : Process) (d : Db) (a : AttemptRow) (live : bool) : Process * bool :=
  if live then (p, true) else remote_effect_blocks_settle p d a.

(** [{"error_class": "killed"}] when the selected row had none. *)
Definition killed (a row : AttemptRow) : AttemptRow :=
  match at_error_class a with None => row {{ at_error_class := Some "killed" }} | Some _ => row end.

(** One turn of the loop over the selected rows, on the database as it is by then. *)
Definition sweep_attempt (now : datetime) (st : Process * Db * Sweep) (a : AttemptRow) : result (Process * Db * Sweep) :=
  let '(p, d, sw) := st in
  live ← executor_is_live p now a;
  let '(p, blocked) := spared p d a live in
  if blocked then Ok (p, d, sw {{ live_tasks ::= union {[at_task_id a]} }})
  else
    r ← compare_and_swap_attempt d (at_id a) ARUNNING AFAILED (killed a)
          (Some (at_executor_id a, at_executor_heartbeat_at a));
    if negb r.2 then
      match d_attempts r.1 !! at_id a with
      | Some fresh => if has_status ARUNNING fresh then Ok (p, r.1, sw {{ live_tasks ::= union {[at_task_id a]} }}) else Ok (p, r.1, sw)
      | None => Ok (p, r.1, sw)
      end
    else Ok (p, r.1, sw {{ settled ::= fun l => l ++ [at_id a] }}).

Definition select_running (d : Db) : list AttemptRow := select_rows (has_status ARUNNING) (d_attempts d).

(** [dict.fromkeys]: the first occurrence of each. *)
Definition fromkeys (l : list string) : list string := reverse (remove_dups (reverse l)).

Definition settle_task (live : gset string) (d : Db) (task_id : string) : result Db :=
  if bool_decide (task_id ∈ live) then Ok d else
  match d_tasks d !! task_id with
  | None => Ok d
  | Some _ =>
      r ← compare_and_swap_task d task_id TRUNNING TEVALUATING;
      if negb r.2 then Ok r.1 else
      r ← compare_and_swap_task r.1 task_id TEVALUATING TFAILED;
      Ok r.1
  end.

Definition settle_tasks (running : list AttemptRow) (sw : Sweep) (d : Db) : result Db :=
  result_fold (settle_task (live_tasks sw)) d
    (fromkeys (map at_task_id (List.filter (fun a => str_in (at_id a) (settled sw)) running))).

Definition no_sweep : Sweep := {| live_tasks := ∅; settled := [] |}.

Definition recover_orphaned_attempts (p : Process) (now : datetime) (d : Db) : result (Process * Db * list string) :=
  let running := select_running d in
  '(p, d', sw) ← result_fold (sweep_attempt now) (p, d, no_sweep) running;
  match settled sw with
  | [] => Ok (p, d', [])
  | _ => d' ← settle_tasks running sw d'; Ok (p, d', settled sw)
  end.

Definition settle_local_attempts (p : Process) (now : datetime) (d : Db) : result (Process * Db * list string) :=
  recover_orphaned_attempts p now d.

(** ** Heartbeats *)

Definition beat (p : Process) (now : datetime) (d : Db) (attempt_id : string) : Db :=
  (update_attempt attempt_id (fun a => has_status ARUNNING a && owned_by (EXECUTOR_ID p) a)
     (fun a => a {{ at_executor_heartbeat_at := Some now }}) d).1.

Definition write_heartbeats (p : Process) (now : datetime) (d : Db) : Db :=
  fold_left (beat p now) (elements (owners p)) d.

(** One round of [_refresh_loop]: the heartbeats commit by themselves, a failed
    sweep is rolled back. *)
Definition refresh_round (p : Process) (beat_at swept_at : datetime) (d : Db) : Process * Db :=
  let d := write_heartbeats p beat_at d in
  match recover_orphaned_attempts p swept_at d with
  | Ok (p, d, _) => (p, d)
  | Err _ => (p, d)
  end.

(** ** What keeps a running Attempt from being failed *)

Definition holds (p : Process) (a : AttemptRow) : Prop :=
  at_id a ∈ owners p /\ at_executor_id a = Some (EXECUTOR_ID p).

(** Another executor's heartbeat is inside the lease. *)
Definition leased (p : Process) (now : datetime) (a : AttemptRow) : Prop :=
  exists e t, at_executor_id a = Some e /\ e <> "" /\ e <> EXECUTOR_ID p /\
    at_executor_heartbeat_at a = Some t /\ dt_us now - dt_us t <= LEASE_TTL.

(** Every sandbox recorded for it is absent, and neither the mark, nor the
    callback, nor the evidence mode says an effect may be left. *)
Definition quiet (p : Process) (d : Db) (a : AttemptRow) : Prop :=
  (forall k r, d_attempt_remote_sandboxes d !! k = Some r -> rs_attempt_id r = at_id a -> is_absent r = true) /\
  (at_remote_effect a = None \/ at_remote_effect a = Some REMOTE_EFFECT_STOPPED) /\
  match remote_effects p !! at_id a with
  | Some answer => answer = Ok true
  | None => at_remote_effect a = Some REMOTE_EFFECT_STOPPED \/ at_evidence_mode a <> "live"
  end.

Definition orphaned (p : Process) (now : datetime) (d : Db) (a : AttemptRow) : Prop :=
  at_status a = "running" /\ ~ holds p a /\ ~ leased p now a /\ quiet p d a.

Definition reaped (a : AttemptRow) : AttemptRow :=
  a {{ at_status := "failed"; at_error_class := Some (default "killed" (at_error_class a)) }}.

Lemma owned_by_iff e a : owned_by e a = true <-> at_executor_id a = Some e.
Proof. unfold owned_by, opt_str_eq. apply bool_decide_eq_true. Qed.

Lemma has_status_iff s a : has_status s a = true <-> at_status a = AttemptState_value s.
Proof. unfold has_status, str_eq. apply bool_decide_eq_true. Qed.

Lemma executor_is_live_iff p now a : dt_aware now = true ->
  exists b, executor_is_live p now a = Ok b /\ (b = true <-> holds p a \/ leased p now a).
Proof.
  intros Hn. unfold executor_is_live, holds, leased. destruct (_ && _) eqn:Hh.
  { exists true. boolify. rewrite owned_by_iff in *. split; [done|]. split; [by left|done]. }
  assert (~ (at_id a ∈ owners p /\ at_executor_id a = Some (EXECUTOR_ID p))) as Hnh.
  { intros [H1 H2]. apply owned_by_iff in H2. rewrite H2, bool_decide_eq_true_2 in Hh; done. }
  assert (forall b (P : Prop), (b = true <-> P) -> exists b', (Ok b : result bool) = Ok b' /\
            (b' = true <-> (at_id a ∈ owners p /\ at_executor_id a = Some (EXECUTOR_ID p)) \/ P)) as Hret.
  { intros b P HP. exists b. split; [done|]. rewrite HP. tauto. }
  destruct (at_executor_id a) as [e|] eqn:He; [|apply (Hret false); split; [done|by intros (? & ? & ? & _)]].
  unfold opt_truthy, or_empty. cbn [default from_option]. destruct e as [|c e]; [apply (Hret false); split; [done|naive_solver]|].
  cbn [str_truthy negb id]. destruct (at_executor_heartbeat_at a) as [t|]; [|apply (Hret false); split; [done|naive_solver]].
  unfold dt_sub, as_utc, aware. rewrite Hn. cbn [dt_aware dt_us Bool.eqb mbind result_bind].
  destruct (LEASE_TTL <? dt_us now - dt_us t) eqn:Ht; apply Hret; boolify; [split; [done|intros (? & ? & ? & ? & ? & [= <-] & ?); lia]|].
  rewrite negb_true_iff, <- not_true_iff_false, owned_by_iff, He. split; [|naive_solver].
  intros Hne. exists (String c e), t. split_and!; try done; congruence.
Qed.

Lemma blocks_iff p d a : (remote_effect_blocks_settle p d a).2 = false <-> quiet p d a.
Proof.
  unfold remote_effect_blocks_settle, quiet. destruct (existsb _ _) eqn:Hx.
  { split; [done|]. intros (Hall & _). exfalso. apply List.existsb_exists in Hx as (r & Hr & Hn).
    apply list_elem_of_In, elem_sandbox_rows in Hr as [Hi [k Hk]]. rewrite (Hall k r Hk Hi) in Hn. done. }
  assert (forall k r, d_attempt_remote_sandboxes d !! k = Some r -> rs_attempt_id r = at_id a -> is_absent r = true) as Hall.
  { intros k r Hk Hi. apply not_false_iff_true. intros Hn. apply not_true_iff_false in Hx. apply Hx, List.existsb_exists.
    exists r. rewrite Hn. split; [|done]. apply list_elem_of_In, elem_sandbox_rows. split; [done|by exists k]. }
  destruct (bool_decide (at_remote_effect a = None \/ _)) eqn:Hm; boolify; cbn [negb snd]; [|split; [done|tauto]].
  destruct (remote_effects p !! at_id a) as [[[]|]|] eqn:He; cbn [snd]; try (split; [done|naive_solver]).
  unfold opt_str_eq, str_eq. case_bool_decide; cbn [snd]; [split; [tauto|done]|]. rewrite bool_decide_eq_false. tauto.
Qed.

#[export] Instance holds_dec p a : Decision (holds p a).
Proof. unfold holds. apply _. Defined.

#[export] Instance leased_dec p now a : Decision (leased p now a).
Proof.
  refine (match at_executor_id a as e, at_executor_heartbeat_at a as t return Decision (exists e' t', e = Some e' /\ e' <> "" /\ e' <> EXECUTOR_ID p /\
            t = Some t' /\ dt_us now - dt_us t' <= LEASE_TTL) with
          | Some e, Some t => cast_if (decide (e <> "" /\ e <> EXECUTOR_ID p /\ dt_us now - dt_us t <= LEASE_TTL))
          | _, _ => right _ end); naive_solver.
Defined.

#[export] Instance quiet_dec p d a : Decision (quiet p d a).
Proof. refine (cast_if (decide ((remote_effect_blocks_settle p d a).2 = false))); by rewrite <- blocks_iff. Defined.

#[export] Instance orphaned_dec p now d a : Decision (orphaned p now d a).
Proof. unfold orphaned. apply _. Defined.

(** Asking about one Attempt forgets at most that Attempt's callback, and only
    when it is confirmed. *)
Lemma blocks_process p d a : let p' := (remote_effect_blocks_settle p d a).1 in
  EXECUTOR_ID p' = EXECUTOR_ID p /\ owners p' = owners p /\
  forall j, remote_effects p' !! j = remote_effects p !! j \/ (j = at_id a /\ quiet p d a).
Proof.
  cbn zeta. assert (forall q, q = p -> EXECUTOR_ID q = EXECUTOR_ID p /\ owners q = owners p /\
    forall j, remote_effects q !! j = remote_effects p !! j \/ (j = at_id a /\ quiet p d a)) as Hsame by (intros q ->; auto).
  destruct (remote_effect_blocks_settle p d a) as [q b] eqn:E. pose proof (blocks_iff p d a) as Hb. rewrite E in Hb.
  unfold remote_effect_blocks_settle in E. cbn [fst snd] in *.
  destruct (existsb _ _); [apply Hsame; congruence|]. destruct (negb _); [apply Hsame; congruence|].
  destruct (remote_effects p !! at_id a) as [[[]|]|] eqn:He; try (apply Hsame; congruence).
  - injection E as <- <-. split_and!; [done..|]. intros j. destruct (decide (j = at_id a)) as [->|Hj]; [right; split; [done|by apply Hb]|].
    left. apply lookup_delete_ne. done.
  - apply Hsame. destruct (opt_str_eq _ _); congruence.
Qed.

(** ** The loop of the sweep *)

Record swept (p : Process) (now : datetime) (d : Db) (done : list AttemptRow) (p1 : Process) (d1 : Db) (sw : Sweep) : Prop := {
  sp_executor : EXECUTOR_ID p1 = EXECUTOR_ID p;
  sp_owners : owners p1 = owners p;
  sp_effects : forall j, remote_effects p1 !! j = remote_effects p !! j \/ exists a, a ∈ done /\ at_id a = j /\ orphaned p now d a;
  sp_tables : d1 = d {{ d_attempts := d_attempts d1 }};
  sp_attempts : forall k, d_attempts d1 !! k = (if bool_decide (k ∈ settled sw) then reaped <$> d_attempts d !! k else d_attempts d !! k);
  sp_settled : forall i, i ∈ settled sw <-> exists a, a ∈ done /\ at_id a = i /\ orphaned p now d a;
  sp_live : forall t, t ∈ live_tasks sw <-> exists a, a ∈ done /\ at_task_id a = t /\ ~ orphaned p now d a
}.

Lemma swept_start p now d : swept p now d [] p d no_sweep.
Proof.
  assert (forall A (P : A -> Prop), (exists a, a ∈ [] /\ P a) <-> False) as He.
  { intros A P. split; [|done]. intros (a & Ha & _). by apply not_elem_of_nil in Ha. }
  split; [done|done|by left|by destruct d|done| |].
  - intros i. rewrite He. apply elem_of_nil.
  - intros t. rewrite He. cbn. set_solver.
Qed.

(** The rows the loop has not reached read the same. *)
Lemma swept_orphaned p now d done p1 d1 sw a : swept p now d done p1 d1 sw -> (forall b, b ∈ done -> at_id b <> at_id a) ->
  orphaned p1 now d1 a <-> orphaned p now d a.
Proof.
  intros S Hn. unfold orphaned, holds, leased, quiet. rewrite (sp_executor _ _ _ _ _ _ _ S), (sp_owners _ _ _ _ _ _ _ S).
  replace (d_attempt_remote_sandboxes d1) with (d_attempt_remote_sandboxes d) by (rewrite (sp_tables _ _ _ _ _ _ _ S); done).
  destruct (sp_effects _ _ _ _ _ _ _ S (at_id a)) as [->|(b & Hb & Hid & _)]; [done|]. by destruct (Hn b Hb).
Qed.

(** What one turn of the loop does to a row still as it was selected. *)
Lemma sweep_attempt_Ok p1 now d1 sw a : dt_aware now = true -> at_status a = "running" -> d_attempts d1 !! at_id a = Some a ->
  (~ orphaned p1 now d1 a /\ exists p2, sweep_attempt now (p1, d1, sw) a = Ok (p2, d1, sw {{ live_tasks ::= union {[at_task_id a]} }}) /\ p2 = p1) \/
  (orphaned p1 now d1 a /\ exists p2, sweep_attempt now (p1, d1, sw) a =
     Ok (p2, d1 {{ d_attempts ::= insert (at_id a) (reaped a) }}, sw {{ settled ::= fun l => l ++ [at_id a] }}) /\
     p2 = (remote_effect_blocks_settle p1 d1 a).1).
Proof.
  intros Hn Hs Ha. unfold sweep_attempt, spared. destruct (executor_is_live_iff p1 now a Hn) as (b & -> & Hb).
  cbn [mbind result_bind]. pose proof (blocks_iff p1 d1 a) as Hq. pose proof (blocks_process p1 d1 a) as Hp.
  destruct b.
  { left. split; [intros (_ & Hh & Hl & _); destruct (proj1 Hb eq_refl); done|]. by eexists. }
  assert (~ holds p1 a /\ ~ leased p1 now a) as [Hh Hl] by (split; intros H; [discriminate (proj2 Hb (or_introl H))|discriminate (proj2 Hb (or_intror H))]).
  destruct (remote_effect_blocks_settle p1 d1 a) as [p2 blocked] eqn:E. cbn [snd fst] in *. destruct blocked.
  - left. split; [intros (_ & _ & _ & Hqu); by apply Hq in Hqu|]. exists p2. split; [done|].
    unfold remote_effect_blocks_settle in E.
    repeat match goal with E : context [if ?c then _ else _] |- _ => destruct c | E : context [match ?c with _ => _ end] |- _ => destruct c end;
      congruence.
  - right. split; [split_and!; try done; by apply Hq|]. exists p2. split; [|done].
    unfold compare_and_swap_attempt, update_attempt. rewrite Ha. cbn [mbind result_bind].
    assert (has_status ARUNNING a = true) as -> by by apply has_status_iff. rewrite !bool_decide_eq_true_2 by done. cbn -[killed].
    unfold killed, reaped. destruct a as [? ? ? ? ? ? ? ? ? ? ? ? ? ? ? ? ? er ? ? ? ? ? ?]. cbn. by destruct er.
Qed.

Lemma elem_snoc {A} (l : list A) x y : y ∈ l ++ [x] <-> y ∈ l \/ y = x.
Proof. by rewrite elem_of_app, list_elem_of_singleton. Qed.

Lemma swept_step p now d done p1 d1 sw a : dt_aware now = true -> swept p now d done p1 d1 sw ->
  (forall b, b ∈ done -> at_id b <> at_id a) -> d_attempts d !! at_id a = Some a -> at_status a = "running" ->
  exists p2 d2 sw2, sweep_attempt now (p1, d1, sw) a = Ok (p2, d2, sw2) /\ swept p now d (done ++ [a]) p2 d2 sw2.
Proof.
  intros Hn S Hne Ha Hs. pose proof (swept_orphaned _ _ _ _ _ _ _ _ S Hne) as Ho.
  assert (at_id a ∉ settled sw) as Hout.
  { rewrite (sp_settled _ _ _ _ _ _ _ S). intros (b & Hb & Hid & _). by destruct (Hne b Hb). }
  assert (d_attempts d1 !! at_id a = Some a) as Ha1.
  { by rewrite (sp_attempts _ _ _ _ _ _ _ S), bool_decide_eq_false_2. }
  pose proof (blocks_process p1 d1 a) as (Ee & Eo & Ef).
  destruct (sweep_attempt_Ok p1 now d1 sw a Hn Hs Ha1) as [(Hno & p2 & -> & ->)|(Hor & p2 & -> & ->)]; do 3 eexists; (split; [reflexivity|]);
    rewrite Ho in *; destruct S as [Se So Sf St Sa Ss Sl]; split; try done.
  - intros j. destruct (Sf j) as [?|(b & Hb & ?)]; [by left|]. right. exists b. rewrite elem_snoc. tauto.
  - intros i. cbn. rewrite Ss. setoid_rewrite elem_snoc. naive_solver.
  - intros t. cbn. rewrite elem_of_union, elem_of_singleton, Sl. setoid_rewrite elem_snoc. naive_solver.
  - by rewrite Ee.
  - by rewrite Eo.
  - intros j. setoid_rewrite elem_snoc. destruct (Ef j) as [->|[-> _]]; [|right; exists a; auto].
    destruct (Sf j) as [?|(b & Hb & ?)]; [by left|]. right. exists b. tauto.
  - rewrite St. done.
  - intros k. cbn [settled]. destruct (decide (k = at_id a)) as [->|Hk].
    + rewrite bool_decide_eq_true_2 by (apply elem_snoc; by right). rewrite Ha. apply lookup_insert_eq.
    + transitivity (d_attempts d1 !! k); [by apply lookup_insert_ne|]. rewrite Sa.
      assert (k ∈ settled sw <-> k ∈ settled sw ++ [at_id a]) as Hiff by (rewrite elem_snoc; tauto).
      by rewrite (bool_decide_ext _ _ Hiff).
  - intros i. cbn. rewrite elem_snoc, Ss. setoid_rewrite elem_snoc. naive_solver.
  - intros t. cbn. rewrite Sl. setoid_rewrite elem_snoc. naive_solver.
Qed.

Lemma swept_loop p now d l : dt_aware now = true -> forall done p1 d1 sw, swept p now d done p1 d1 sw ->
  (forall a, a ∈ l -> d_attempts d !! at_id a = Some a /\ at_status a = "running") -> NoDup (map at_id (done ++ l)) ->
  exists p2 d2 sw2, result_fold (sweep_attempt now) (p1, d1, sw) l = Ok (p2, d2, sw2) /\ swept p now d (done ++ l) p2 d2 sw2.
Proof.
  intros Hn. induction l as [|a l IH]; intros done p1 d1 sw S Hl Hnd.
  { rewrite app_nil_r. by do 3 eexists. }
  destruct (Hl a) as [Ha Hs]; [left|].
  destruct (swept_step p now d done p1 d1 sw a Hn S) as (p2 & d2 & sw2 & Hstep & S2); [|done|done|].
  { intros b Hb Heq. rewrite map_app in Hnd. apply NoDup_app in Hnd as (_ & Hnd & _). apply (Hnd (at_id b)).
    - apply elem_map. eauto.
    - rewrite Heq. left. }
  cbn [result_fold]. rewrite Hstep. cbn [mbind result_bind].
  destruct (IH (done ++ [a]) p2 d2 sw2 S2) as (p3 & d3 & sw3 & Hf & S3); [intros b Hb; apply Hl; by right|by rewrite <- app_assoc|].
  exists p3, d3, sw3. rewrite <- app_assoc in S3. done.
Qed.

(** ** The Tasks of the settled Attempts *)

Definition failed_task (row : TaskRow) : TaskRow := row {{ tk_status := "failed" }}.

Lemma cas_task_hit d t from to row : transition_task from to = Ok to -> d_tasks d !! t = Some row -> tk_status row = TaskState_value from ->
  compare_and_swap_task d t from to = Ok (d {{ d_tasks ::= insert t (row {{ tk_status := TaskState_value to }}) }}, true).
Proof.
  intros Ht Hr Hs. unfold compare_and_swap_task, str_eq. rewrite Ht. cbn [mbind result_bind]. by rewrite Hr, bool_decide_eq_true_2.
Qed.

Lemma cas_task_miss d t from to : transition_task from to = Ok to ->
  (forall row, d_tasks d !! t = Some row -> tk_status row <> TaskState_value from) -> compare_and_swap_task d t from to = Ok (d, false).
Proof.
  intros Ht Hs. unfold compare_and_swap_task, str_eq. rewrite Ht. cbn [mbind result_bind].
  destruct (d_tasks d !! t) as [row|] eqn:Hr; [|done]. rewrite bool_decide_eq_false_2; [done|]. by apply Hs.
Qed.

Lemma tasks_twice d t a b : (d {{ d_tasks ::= insert t a }}) {{ d_tasks ::= insert t b }} = d {{ d_tasks ::= insert t b }}.
Proof. destruct d. cbn. by rewrite insert_insert_eq. Qed.

Lemma settle_task_Ok live d t : exists d', settle_task live d t = Ok d' /\ d' = d {{ d_tasks := d_tasks d' }} /\
  forall k, d_tasks d' !! k = (fun row => if bool_decide (k = t /\ t ∉ live /\ tk_status row = "running") then failed_task row else row) <$> d_tasks d !! k.
Proof.
  assert (forall k, t ∈ live -> d_tasks d !! k = (fun row => if bool_decide (k = t /\ t ∉ live /\ tk_status row = "running") then failed_task row else row) <$> d_tasks d !! k) as Hin.
  { intros k Hl. destruct (d_tasks d !! k); [|done]. simpl. by rewrite bool_decide_eq_false_2 by tauto. }
  assert (d = d {{ d_tasks := d_tasks d }}) as Heta by (by destruct d).
  unfold settle_task. case_bool_decide as Hl; [exists d; by auto|].
  destruct (d_tasks d !! t) as [row|] eqn:Ht.
  2: { exists d. split_and!; [done|done|]. intros k. destruct (decide (k = t)) as [->|Hk]; [by rewrite Ht|].
       destruct (d_tasks d !! k); [|done]. simpl. by rewrite bool_decide_eq_false_2 by tauto. }
  destruct (decide (tk_status row = "running")) as [Hr|Hr].
  - rewrite (cas_task_hit d t TRUNNING TEVALUATING row) by done. cbn [mbind result_bind snd fst negb].
    rewrite (cas_task_hit _ t TEVALUATING TFAILED (row {{ tk_status := "evaluating" }})); [|done|apply lookup_insert_eq|done].
    cbn [mbind result_bind fst]. exists (d {{ d_tasks ::= insert t (failed_task row) }}). split_and!; [|done|].
    { f_equal. apply tasks_twice. }
    intros k. change (insert t (failed_task row) (d_tasks d) !! k =
      (fun row => if bool_decide (k = t /\ t ∉ live /\ tk_status row = "running") then failed_task row else row) <$> d_tasks d !! k).
    destruct (decide (k = t)) as [->|Hk].
    + rewrite lookup_insert_eq, Ht. simpl. by rewrite bool_decide_eq_true_2.
    + rewrite lookup_insert_ne by done. destruct (d_tasks d !! k); [|done]. simpl. by rewrite bool_decide_eq_false_2 by tauto.
  - rewrite (cas_task_miss d t TRUNNING TEVALUATING) by (done || (intros x Hx; rewrite Ht in Hx; by injection Hx as <-)). cbn [mbind result_bind snd fst negb].
    exists d. split_and!; [done|done|]. intros k. destruct (d_tasks d !! k) as [row'|] eqn:Hk; [|done]. simpl.
    rewrite bool_decide_eq_false_2; [done|]. intros (-> & _ & ?). congruence.
Qed.

Lemma settle_task_fold live ts : forall d, exists d', result_fold (settle_task live) d ts = Ok d' /\ d' = d {{ d_tasks := d_tasks d' }} /\
  forall k, d_tasks d' !! k = (fun row => if bool_decide (k ∈ ts /\ k ∉ live /\ tk_status row = "running") then failed_task row else row) <$> d_tasks d !! k.
Proof.
  induction ts as [|t ts IH]; intros d.
  { exists d. split_and!; [done|by destruct d|]. intros k. destruct (d_tasks d !! k); [|done].
    cbn [fmap option_fmap option_map]. rewrite bool_decide_eq_false_2; [done|]. by intros (?%not_elem_of_nil & _). }
  destruct (settle_task_Ok live d t) as (d1 & Hd1 & E1 & H1). destruct (IH d1) as (d2 & Hd2 & E2 & H2).
  exists d2. cbn [result_fold]. rewrite Hd1. split_and!; [done|rewrite E2, E1; done|].
  intros k. rewrite H2, H1. destruct (d_tasks d !! k) as [row|]; [|done]. simpl. f_equal.
  destruct (decide (k = t /\ t ∉ live /\ tk_status row = "running")) as [(-> & Hl & Hr)|Hx].
  - rewrite (bool_decide_eq_true_2 (t = t /\ _)) by done. rewrite bool_decide_eq_false_2 by (cbn; intros (_ & _ & [=])).
    rewrite bool_decide_eq_true_2; [done|]. split_and!; [left|done|done].
  - rewrite (bool_decide_eq_false_2 (k = t /\ _)) by done.
    by rewrite (bool_decide_ext (k ∈ ts /\ k ∉ live /\ tk_status row = "running") (k ∈ t :: ts /\ k ∉ live /\ tk_status row = "running"))
      by (rewrite elem_of_cons; naive_solver).
Qed.

Lemma elem_fromkeys l x : x ∈ fromkeys l <-> x ∈ l.
Proof. unfold fromkeys. by rewrite elem_of_reverse, elem_of_remove_dups, elem_of_reverse. Qed.

(** ** Properties *)

Definition keyed (d : Db) : Prop := forall k a, d_attempts d !! k = Some a -> at_id a = k.

(** A Task is given up when a sweep settled an Attempt of it and left none running. *)
Definition given_up (p : Process) (now : datetime) (d : Db) (task_id : string) : Prop :=
  (exists k a, d_attempts d !! k = Some a /\ at_task_id a = task_id /\ orphaned p now d a) /\
  (forall k a, d_attempts d !! k = Some a -> at_task_id a = task_id -> at_status a = "running" -> orphaned p now d a).

Lemma elem_select_running d a : keyed d -> a ∈ select_running d <-> d_attempts d !! at_id a = Some a /\ at_status a = "running".
Proof.
  intros Hk. unfold select_running. rewrite elem_select, has_status_iff. split.
  - intros [Hs [k Ha]]. pose proof (Hk k a Ha) as Hid. by rewrite Hid.
  - intros [Ha Hs]. split; [done|]. by exists (at_id a).
Qed.

Lemma select_running_NoDup d : keyed d -> NoDup (map at_id (select_running d)).
Proof.
  intros Hk. apply NoDup_ListNoDup. unfold select_running, select_rows, rows.
  assert (forall l : list (string * AttemptRow), (forall k a, (k, a) ∈ l -> at_id a = k) -> NoDup l.*1 ->
            List.NoDup (map at_id (List.filter (has_status ARUNNING) l.*2))) as Hl.
  { induction l as [|[k a] l IH]; cbn; intros Hkey Hnd; [constructor|]. apply NoDup_cons in Hnd as [Hout Hnd].
    assert (List.NoDup (map at_id (List.filter (has_status ARUNNING) l.*2))) as Hrec by (apply IH; [intros; apply Hkey; by right|done]).
    destruct (has_status ARUNNING a); [|done]. cbn. constructor; [|done]. intros Hin. apply Hout.
    apply list_elem_of_In, elem_map in Hin as (b & Hb & Hid). apply elem_filterb in Hb as [Hb _].
    apply list_elem_of_fmap in Hb as ([j b'] & -> & Hj). cbn in *.
    rewrite <- (Hkey k a) by left. rewrite Hid, (Hkey j b') by (by right). apply list_elem_of_fmap. by exists (j, b'). }
  apply Hl; [intros k a Hka; apply elem_of_map_to_list in Hka; by apply Hk|apply NoDup_fst_map_to_list].
Qed.

Lemma given_up_iff p now d p1 d1 sw t : keyed d -> swept p now d (select_running d) p1 d1 sw ->
  (t ∈ fromkeys (map at_task_id (List.filter (fun a => str_in (at_id a) (settled sw)) (select_running d))) /\ t ∉ live_tasks sw)
  <-> given_up p now d t.
Proof.
  intros Hk S. unfold given_up. rewrite elem_fromkeys, elem_map, (sp_live _ _ _ _ _ _ _ S). split.
  - intros [(a & Ha & ->) Hlive]. apply elem_filterb in Ha as [Ha Hin]. unfold str_in in Hin. apply bool_decide_eq_true in Hin.
    apply (sp_settled _ _ _ _ _ _ _ S) in Hin as (b & Hb & Hid & Ho).
    apply elem_select_running in Ha as [Ha Hs], Hb as [Hb _]; [|done..]. rewrite Hid in Hb. assert (a = b) as -> by congruence.
    split; [by eauto|]. intros k c Hc Ht Hr. destruct (decide (orphaned p now d c)) as [|Hno]; [done|].
    exfalso. apply Hlive. exists c. split_and!; [|done|done]. apply elem_select_running; [done|]. by rewrite (Hk k c Hc).
  - intros [(k & a & Ha & <- & Ho) Hall]. rewrite <- (Hk k a Ha) in Ha. split.
    + exists a. split; [|done]. assert (a ∈ select_running d) as Hin by (apply elem_select_running; [done|split; [done|apply Ho]]).
      apply elem_filterb. split; [done|]. unfold str_in. apply bool_decide_eq_true, (sp_settled _ _ _ _ _ _ _ S). eauto.
    + intros (b & Hb & Ht & Hno). apply elem_select_running in Hb as [Hb Hs]; [|done]. apply Hno. by apply (Hall (at_id b)).
Qed.

Lemma recover_swept p now d : dt_aware now = true -> keyed d -> exists p1 d1 sw d2,
  recover_orphaned_attempts p now d = Ok (p1, d2, settled sw) /\ swept p now d (select_running d) p1 d1 sw /\
  d2 = d1 {{ d_tasks := d_tasks d2 }} /\
  forall t, d_tasks d2 !! t = (fun row => if bool_decide (t ∈ fromkeys (map at_task_id (List.filter (fun a => str_in (at_id a) (settled sw)) (select_running d)))
     /\ t ∉ live_tasks sw /\ tk_status row = "running") then failed_task row else row) <$> d_tasks d1 !! t.
Proof.
  intros Hn Hk. destruct (swept_loop p now d (select_running d) Hn [] p d no_sweep (swept_start p now d)) as (p1 & d1 & sw & Hf & S).
  { intros a Ha. apply elem_select_running in Ha; done. }
  { by apply select_running_NoDup. }
  cbn [app] in S. exists p1, d1, sw. unfold recover_orphaned_attempts, settle_tasks.
  destruct (settle_task_fold (live_tasks sw) (fromkeys (map at_task_id (List.filter (fun a => str_in (at_id a) (settled sw)) (select_running d)))) d1)
    as (d2 & Hd2 & E2 & Ht2).
  exists d2. rewrite Hf. cbn [mbind result_bind]. split; [|done].
  destruct (settled sw) as [|i l] eqn:Hs; [|by rewrite Hd2].
  assert (List.filter (fun a => str_in (at_id a) []) (select_running d) = []) as Hnil.
  { clear. induction (select_running d) as [|a l IH]; [done|]. cbn [List.filter]. unfold str_in at 1.
    rewrite bool_decide_eq_false_2 by apply not_elem_of_nil. exact IH. }
  rewrite Hnil in Hd2. by injection Hd2 as ->.
Qed.

(** C9: a sweep always completes, and it fails exactly the orphans: the
    running Attempts that no service of this process holds, that no other
    executor has under an unexpired lease, and none of whose recorded effects
    may be left.  Every other Attempt is untouched.  A Task is failed exactly
    when it was running, lost an Attempt to the sweep, and has no Attempt left
    running; no other Task and no other table changes, and after the sweep
    there is no orphan left, so a second one would do nothing. *)
Theorem recover_spec p now d : dt_aware now = true -> keyed d ->
  exists p' d' ids, recover_orphaned_attempts p now d = Ok (p', d', ids) /\
    (forall i, i ∈ ids <-> exists a, d_attempts d !! i = Some a /\ orphaned p now d a) /\
    (forall i, (d_attempts d !! i = None -> d_attempts d' !! i = None) /\
       forall a, d_attempts d !! i = Some a ->
         (orphaned p now d a -> d_attempts d' !! i = Some (reaped a)) /\ (~ orphaned p now d a -> d_attempts d' !! i = Some a)) /\
    (forall t, (d_tasks d !! t = None -> d_tasks d' !! t = None) /\
       forall row, d_tasks d !! t = Some row ->
         (tk_status row = "running" /\ given_up p now d t -> d_tasks d' !! t = Some (failed_task row)) /\
         (~ (tk_status row = "running" /\ given_up p now d t) -> d_tasks d' !! t = Some row)) /\
    d' = d {{ d_attempts := d_attempts d'; d_tasks := d_tasks d' }} /\
    (forall i a, d_attempts d' !! i = Some a -> ~ orphaned p' now d' a).
Proof.
  intros Hn Hk. destruct (recover_swept p now d Hn Hk) as (p1 & d1 & sw & d2 & Hrec & S & E2 & Ht2).
  exists p1, d2, (settled sw). assert (d_attempts d2 = d_attempts d1) as Ea by by rewrite E2.
  assert (forall i a, d_attempts d !! i = Some a -> i ∈ settled sw <-> orphaned p now d a) as Hset.
  { intros i a Ha. rewrite (sp_settled _ _ _ _ _ _ _ S). setoid_rewrite elem_select_running; [|done]. split.
    - intros (b & [Hb _] & <- & Ho). by assert (a = b) as -> by congruence.
    - intros Ho. exists a. rewrite (Hk i a Ha). split_and!; [done|apply Ho|done|done]. }
  split_and!; [done| | | | |].
  - intros i. rewrite (sp_settled _ _ _ _ _ _ _ S). setoid_rewrite elem_select_running; [|done]. split.
    + intros (a & [Ha _] & <- & Ho). eauto.
    + intros (a & Ha & Ho). exists a. rewrite (Hk i a Ha). split_and!; [done|apply Ho|done|done].
  - intros i. rewrite Ea, (sp_attempts _ _ _ _ _ _ _ S). split.
    + intros ->. by case_bool_decide.
    + intros a Ha. rewrite Ha. split; intros Ho; [rewrite bool_decide_eq_true_2|rewrite bool_decide_eq_false_2]; try done; by rewrite (Hset i a Ha).
  - intros t. rewrite Ht2. replace (d_tasks d1) with (d_tasks d) by (rewrite (sp_tables _ _ _ _ _ _ _ S); done).
    split; [by intros ->|]. intros row Hrow. rewrite Hrow. cbn [fmap option_fmap option_map].
    split; intros Hg; [rewrite bool_decide_eq_true_2|rewrite bool_decide_eq_false_2]; try done; rewrite <- (given_up_iff _ _ _ _ _ _ _ Hk S) in Hg; tauto.
  - rewrite Ea. pose proof E2 as E3. rewrite (sp_tables _ _ _ _ _ _ _ S) in E3. exact E3.
  - intros i a Ha Ho. rewrite Ea, (sp_attempts _ _ _ _ _ _ _ S) in Ha. case_bool_decide as Hin.
    + destruct (d_attempts d !! i); [|done]. injection Ha as <-. by destruct Ho as [[=] _].
    + apply Hin, (Hset i a Ha). destruct Ho as (Hs & Hh & Hl & Hq). unfold orphaned, holds, leased in *.
      rewrite (sp_executor _ _ _ _ _ _ _ S) in *. rewrite (sp_owners _ _ _ _ _ _ _ S) in Hh. split_and!; try done.
      unfold quiet in *. replace (d_attempt_remote_sandboxes d2) with (d_attempt_remote_sandboxes d) in Hq
        by (rewrite E2, (sp_tables _ _ _ _ _ _ _ S); done).
      destruct (sp_effects _ _ _ _ _ _ _ S (at_id a)) as [<-|(b & Hb & Hid & Hob)]; [done|]. exfalso. apply Hin.
      rewrite (sp_settled _ _ _ _ _ _ _ S). exists b. split_and!; [done| |done]. by rewrite Hid, (Hk i a Ha).
Qed.

(** ** Example: one orphan, one Attempt under a fresh foreign lease *)

Module RecoveryDemo.
Definition process : Process := {| EXECUTOR_ID := "9-z"; owners := ∅; remote_effects := ∅; stop_blocked := ∅ |}.
Definition row (id task executor : string) (beat : Z) : AttemptRow :=
  blank_AttemptRow {{ at_id := id; at_task_id := task; at_status := "running"; at_dispatch_key := id; at_evidence_mode := "synthetic";
                      at_executor_id := Some executor; at_executor_heartbeat_at := Some (DateTime beat true) }}.
Definition task (id : string) : TaskRow := blank_TaskRow {{ tk_id := id; tk_status := "running"; tk_idempotency_key := id }}.
Definition db : Db := empty_db {{ d_attempts := {["A" := row "A" "T" "1-a" 0; "B" := row "B" "U" "2-b" (20 * seconds)]};
                                  d_tasks := {["T" := task "T"; "U" := task "U"]} }}.
Definition now : datetime := DateTime (40 * seconds) true.

Lemma db_keyed : keyed db.
Proof.
  intros k a Ha. change (({["A" := row "A" "T" "1-a" 0; "B" := row "B" "U" "2-b" (20 * seconds)]} : gmap string AttemptRow) !! k = Some a) in Ha.
  apply lookup_insert_Some in Ha as [[<- <-]|[_ Ha]]; [done|]. by apply lookup_singleton_Some in Ha as [<- <-].
Qed.
End RecoveryDemo.

Lemma recover_spec_witness : exists p' d' ids,
  recover_orphaned_attempts RecoveryDemo.process RecoveryDemo.now RecoveryDemo.db = Ok (p', d', ids) /\
  "A" ∈ ids /\ d_attempts d' !! "B" = Some (RecoveryDemo.row "B" "U" "2-b" (20 * seconds)).
Proof.
  destruct (recover_spec RecoveryDemo.process RecoveryDemo.now RecoveryDemo.db eq_refl RecoveryDemo.db_keyed)
    as (p' & d' & ids & Hrec & Hids & Hrows & _).
  exists p', d', ids. split; [exact Hrec|]. split.
  - apply Hids. exists (RecoveryDemo.row "A" "T" "1-a" 0). split; [vm_compute; reflexivity|].
    apply (proj1 (bool_decide_eq_true _)); vm_compute; reflexivity.
  - apply (proj2 (Hrows "B")); [vm_compute; reflexivity|].
    apply (proj1 (bool_decide_eq_false _)); vm_compute; reflexivity.
Defined.
