(* ===== verification/Fleet.v ===== *)
(** * Fleet: several executors, one database

    The operations of [src/sdf_core/recovery.py] as several OS processes run
    them against one database.  A transaction sees committed rows under its
    own writes; an UPDATE whose condition holds takes the row's lock until the
    transaction ends, so a second writer waits for the commit and then finds
    the condition false (READ COMMITTED).  Only Attempt rows are followed. *)

From S2P Require Import Prelude Json Db EvidenceMac Flush Samples FlushFacts Store Lifecycle RemoteEffects Recovery.

(** A sweep under way: its clock, the selected rows still to visit, its findings. *)
Record SweepRun : Type := { sr_now : datetime; sr_rest : list AttemptRow; sr_acc : Sweep }.

Record Tx : Type := { tx_proc : nat; tx_writes : gmap string AttemptRow; tx_sweep : option SweepRun }.

(** The committed database and its clock, the processes, the open
    transactions, every executor id ever minted, and the settlements that were
    committed, as Attempt and status. *)
Record World : Type := {
  w_db : Db; w_clock : Z; w_procs : gmap nat Process; w_txs : gmap nat Tx;
  w_minted : gset string; w_log : list (string * string)
}.

Definition clock (w : World) : datetime := DateTime (w_clock w) true.

(** What a transaction reads. *)
Definition view (w : World) (tx : Tx) : Db := (w_db w) {{ d_attempts ::= union (tx_writes tx) }}.

(** No other transaction holds the lock of row [i]. *)
Definition unlocked (w : World) (t : nat) (i : string) : Prop :=
  forall t' tx', t' <> t -> w_txs w !! t' = Some tx' -> tx_writes tx' !! i = None.

(** The transaction after a statement that may have written row [i]. *)
Definition wrote (tx : Tx) (i : string) (before after : Db) : Tx :=
  match d_attempts after !! i with
  | Some a => if bool_decide (d_attempts before !! i = Some a) then tx else tx {{ tx_writes ::= insert i a }}
  | None => tx
  end.

Definition is_terminal (status : string) : bool := str_in status ["completed"; "failed"; "cancelled"].

(** The settlements a commit publishes. *)
Definition settlements (writes : gmap string AttemptRow) : list (string * string) :=
  List.filter (fun p => is_terminal p.2) (map (fun kv => (kv.1, at_status kv.2)) (map_to_list writes)).

(** What leases and settlements are about: only the code of [recovery.py] writes
    these columns of a stored Attempt.  The others (its mode, what it used, its
    remote mark) are anybody's. *)
Definition leased (a : AttemptRow) : string * string * option string * option datetime :=
  (at_id a, at_status a, at_executor_id a, at_executor_heartbeat_at a).

Inductive wstep (w : World) : World -> Prop :=
  | Tick us : 0 <= us -> wstep w (w {{ w_clock ::= Z.add us }})
  | Spawn k p : w_procs w !! k = None -> EXECUTOR_ID p ∉ w_minted w -> owners p = ∅ ->
      wstep w (w {{ w_procs ::= insert k p; w_minted ::= union {[EXECUTOR_ID p]} }})
  | Crash k : wstep w (w {{ w_procs ::= delete k; w_txs ::= filter (fun kv => tx_proc kv.2 <> k) }})
  (* an owner is dropped, a callback is registered or answers otherwise, a stop fails *)
  | Locally k p p' : w_procs w !! k = Some p -> EXECUTOR_ID p' = EXECUTOR_ID p -> owners p' ⊆ owners p ->
      wstep w (w {{ w_procs ::= insert k p' }})
  | Start t k p : w_txs w !! t = None -> w_procs w !! k = Some p ->
      wstep w (w {{ w_txs ::= insert t {| tx_proc := k; tx_writes := ∅; tx_sweep := None |} }})
  | Claim t tx p a p' a' : w_txs w !! t = Some tx -> w_procs w !! tx_proc tx = Some p ->
      d_attempts (w_db w) !! at_id a = None ->
      (forall t' tx', w_txs w !! t' = Some tx' -> tx_writes tx' !! at_id a = None) ->
      claim_executor p (clock w) a = (p', a') ->
      wstep w (w {{ w_procs ::= insert (tx_proc tx) p';
                    w_txs ::= insert t (tx {{ tx_writes ::= insert (at_id a) (a' {{ at_status := "running" }}) }}) }})
  | Settle t tx p i s d' : w_txs w !! t = Some tx -> w_procs w !! tx_proc tx = Some p -> unlocked w t i ->
      terminal_attempt s = true ->
      settle_owned_attempt p i (AttemptState_value s) (fun a => a) (view w tx) = Ok d' ->
      wstep w (w {{ w_txs ::= insert t (wrote tx i (view w tx) d') }})
  | Beat t tx p i : w_txs w !! t = Some tx -> w_procs w !! tx_proc tx = Some p -> unlocked w t i ->
      wstep w (w {{ w_txs ::= insert t (wrote tx i (view w tx) (beat p (clock w) (view w tx) i)) }})
  | Select t tx : w_txs w !! t = Some tx ->
      wstep w (w {{ w_txs ::= insert t (tx {{ tx_sweep :=
        Some {| sr_now := clock w; sr_rest := select_running (view w tx); sr_acc := no_sweep |} }}) }})
  | Visit t tx p run a l p' d' acc' : w_txs w !! t = Some tx -> w_procs w !! tx_proc tx = Some p ->
      tx_sweep tx = Some run -> sr_rest run = a :: l -> unlocked w t (at_id a) ->
      sweep_attempt (sr_now run) (p, view w tx, sr_acc run) a = Ok (p', d', acc') ->
      wstep w (w {{ w_procs ::= insert (tx_proc tx) p';
                    w_txs ::= insert t ((wrote tx (at_id a) (view w tx) d') {{ tx_sweep :=
                      Some {| sr_now := sr_now run; sr_rest := l; sr_acc := acc' |} }}) }})
  | Commit t tx : w_txs w !! t = Some tx ->
      wstep w (w {{ w_db ::= fun d => d {{ d_attempts ::= union (tx_writes tx) }}; w_txs ::= delete t;
                    w_log ::= fun l => l ++ settlements (tx_writes tx) }})
  | Rollback t : wstep w (w {{ w_txs ::= delete t }})
  (* the other writers: any table, but of an Attempt only the other columns *)
  | Other d' : (forall k, leased <$> d_attempts d' !! k = leased <$> d_attempts (w_db w) !! k) ->
      (forall k t tx, d_attempts d' !! k <> d_attempts (w_db w) !! k -> w_txs w !! t = Some tx -> tx_writes tx !! k = None) ->
      wstep w (w {{ w_db := d' }}).

Definition wsteps : World -> World -> Prop := rtc wstep.

(** Where a fleet starts: no process, and the database a former one left. *)
Record start (w : World) : Prop := {
  st_procs : w_procs w = ∅;
  st_txs : w_txs w = ∅;
  st_log : w_log w = [];
  st_keyed : keyed (w_db w);
  st_minted : forall i a e, d_attempts (w_db w) !! i = Some a -> at_executor_id a = Some e -> e ∈ w_minted w;
  st_past : forall i a t, d_attempts (w_db w) !! i = Some a -> at_executor_heartbeat_at a = Some t -> dt_us t <= w_clock w
}.

(** ** The invariant *)

Definition row_ok (w : World) (a : AttemptRow) : Prop :=
  (forall e, at_executor_id a = Some e -> e ∈ w_minted w) /\
  (forall t, at_executor_heartbeat_at a = Some t -> dt_us t <= w_clock w).

(** A pending write of an executor replaces a running row under the same
    lease holder, by a settled row or by a row still running for itself. *)
Definition write_ok (w : World) (e : string) (i : string) (b : AttemptRow) : Prop :=
  at_id b = i /\ row_ok w b /\
  (forall a, d_attempts (w_db w) !! i = Some a -> at_status a = "running" /\ at_executor_id b = at_executor_id a) /\
  (is_terminal (at_status b) = true \/ (at_status b = "running" /\ at_executor_id b = Some e)).

Record fleet_ok (w : World) : Prop := {
  fo_locks : forall t t' tx tx' i, t' <> t -> w_txs w !! t = Some tx -> w_txs w !! t' = Some tx' ->
    is_Some (tx_writes tx !! i) -> tx_writes tx' !! i = None;
  fo_proc : forall t tx, w_txs w !! t = Some tx -> is_Some (w_procs w !! tx_proc tx);
  fo_minted : forall k p, w_procs w !! k = Some p -> EXECUTOR_ID p ∈ w_minted w;
  fo_keyed : keyed (w_db w);
  fo_rows : forall i a, d_attempts (w_db w) !! i = Some a -> row_ok w a;
  fo_writes : forall t tx p i b, w_txs w !! t = Some tx -> w_procs w !! tx_proc tx = Some p -> tx_writes tx !! i = Some b ->
    write_ok w (EXECUTOR_ID p) i b;
  fo_once : NoDup (w_log w).*1;
  fo_log : forall i s, (i, s) ∈ w_log w -> is_terminal s = true /\ at_status <$> d_attempts (w_db w) !! i = Some s
}.

(** What a statement of executor [e] at time [c] does to a row. *)
Definition stated (c : datetime) (e : string) (a b : AttemptRow) : Prop :=
  at_status a = "running" /\ at_id b = at_id a /\ at_executor_id b = at_executor_id a /\
  ((is_terminal (at_status b) = true /\ at_executor_heartbeat_at b = at_executor_heartbeat_at a) \/
   (at_status b = "running" /\ at_executor_id a = Some e /\ at_executor_heartbeat_at b = Some c)).

Lemma owned_running p a : has_status ARUNNING a && owned_by (EXECUTOR_ID p) a = true ->
  at_status a = "running" /\ at_executor_id a = Some (EXECUTOR_ID p).
Proof. intros H. boolify. by rewrite has_status_iff, owned_by_iff in *. Qed.

(** ** What each statement writes *)

(** The transaction is as it was, or holds one more row, stated from the row it saw. *)
Definition tx_stated (c : datetime) (e : string) (v : Db) (i : string) (tx tx' : Tx) : Prop :=
  tx_proc tx' = tx_proc tx /\ (tx_writes tx' = tx_writes tx \/
    exists a b, d_attempts v !! i = Some a /\ stated c e a b /\ tx_writes tx' = <[i := b]> (tx_writes tx)).

Lemma tx_stated_same c e v i tx : tx_stated c e v i tx (wrote tx i v v).
Proof. unfold wrote. destruct (d_attempts v !! i) as [a|] eqn:E; [|split; auto]. rewrite bool_decide_eq_true_2 by done. split; auto. Qed.

Lemma put_stated c e v i tx a b : d_attempts v !! i = Some a -> stated c e a b ->
  tx_stated c e v i tx (wrote tx i v (v {{ d_attempts ::= insert i b }})).
Proof.
  intros Ha Hb. unfold wrote. change (d_attempts (v {{ d_attempts ::= insert i b }}) !! i) with (<[i := b]> (d_attempts v) !! i).
  rewrite lookup_insert_eq. case_bool_decide; (split; [done|]); [by left|]. right. exists a, b. split_and!; done.
Qed.

Lemma update_stated tx v i clause f c e d' r : (forall a, d_attempts v !! i = Some a -> clause a = true -> stated c e a (f a)) ->
  update_attempt i clause f v = (d', r) -> tx_stated c e v i tx (wrote tx i v d').
Proof.
  intros Hs. unfold update_attempt. destruct (d_attempts v !! i) as [a|] eqn:Ha; [|intros [= <- _]; apply tx_stated_same].
  destruct (clause a) eqn:Hc; intros [= <- _]; [|apply tx_stated_same]. by apply (put_stated _ _ _ _ _ a); [|apply Hs].
Qed.

Lemma settle_stated c p i s v d' tx : terminal_attempt s = true ->
  settle_owned_attempt p i (AttemptState_value s) (fun a => a) v = Ok d' -> tx_stated c (EXECUTOR_ID p) v i tx (wrote tx i v d').
Proof.
  unfold settle_owned_attempt. intros Hs. destruct (update_attempt _ _ _ _) as [d1 r] eqn:E. destruct r; cbn [negb]; [|done]. intros [= ->].
  eapply update_stated; [|exact E]. intros a _ Hc. apply owned_running in Hc as [Hr Ho]. split_and!; try done.
  left. split; [by destruct s|done].
Qed.

Lemma beat_stated c p i v tx : tx_stated c (EXECUTOR_ID p) v i tx (wrote tx i v (beat p c v i)).
Proof.
  unfold beat. destruct (update_attempt _ _ _ _) as [d1 r] eqn:E. eapply update_stated; [|exact E].
  intros a _ Hc. apply owned_running in Hc as [Hr Ho]. split_and!; try done. right. done.
Qed.

(** A visit of the sweep settles the row it saw, or writes nothing. *)
Lemma visit_stated c p now v acc a p' d' acc' tx : sweep_attempt now (p, v, acc) a = Ok (p', d', acc') ->
  EXECUTOR_ID p' = EXECUTOR_ID p /\ tx_stated c (EXECUTOR_ID p) v (at_id a) tx (wrote tx (at_id a) v d').
Proof.
  unfold sweep_attempt. intros (live & _ & H)%bind_Ok. unfold spared in H. destruct (blocks_process p v a) as (He & _ & _).
  destruct live; [injection H as <- <- <-; split; [done|apply tx_stated_same]|].
  destruct (remote_effect_blocks_settle p v a) as [q blocked]. cbn [fst] in He.
  destruct blocked; [injection H as <- <- <-; split; [done|apply tx_stated_same]|].
  apply bind_Ok in H as ([d1 won] & Hcas & H). unfold compare_and_swap_attempt in Hcas.
  apply bind_Ok in Hcas as (s & _ & [= E]). cbn [fst snd] in H.
  assert (p' = q /\ d' = d1) as [-> ->].
  { destruct won; cbn [negb] in H; [by injection H as <- <- <-|]. destruct (d_attempts d1 !! at_id a) as [fresh|]; [|by injection H as <- <- <-].
    destruct (has_status ARUNNING fresh); by injection H as <- <- <-. }
  split; [done|]. eapply update_stated; [|exact E]. intros b _ [Hc _]%andb_true_iff. apply has_status_iff in Hc.
  split_and!; [done| | |left]; unfold killed; destruct (at_error_class a); done.
Qed.

(** ** Preservation *)

Lemma view_lookup w tx i : d_attempts (view w tx) !! i = match tx_writes tx !! i with Some b => Some b | None => d_attempts (w_db w) !! i end.
Proof. unfold view. change (d_attempts ((w_db w) {{ d_attempts ::= union (tx_writes tx) }})) with (tx_writes tx ∪ d_attempts (w_db w)).
  rewrite lookup_union. destruct (tx_writes tx !! i), (d_attempts (w_db w) !! i); done. Qed.

Lemma running_not_terminal s : is_terminal s = true -> s = "running" -> False.
Proof. intros H ->. done. Qed.

(** A row stated from the view of a transaction is a right write. *)
Lemma stated_ok w tx e i a b : (forall b0, tx_writes tx !! i = Some b0 -> write_ok w e i b0) -> fleet_ok w ->
  d_attempts (view w tx) !! i = Some a -> stated (clock w) e a b -> write_ok w e i b.
Proof.
  intros Hold [_ _ _ Hk Hr _ _ _] Ha (Hs & Hid & Hex & Hcase). rewrite view_lookup in Ha.
  assert (at_id a = i /\ row_ok w a /\ forall x, d_attempts (w_db w) !! i = Some x -> at_status x = "running" /\ at_executor_id a = at_executor_id x) as (Hi & Hrow & Hx).
  { destruct (tx_writes tx !! i) as [b0|] eqn:Hb0.
    - injection Ha as ->. destruct (Hold a eq_refl) as (? & ? & ? & _). done.
    - split_and!; [by apply Hk|by eapply Hr|]. intros x Hx'. rewrite Hx' in Ha. injection Ha as ->. done. }
  split_and!; [congruence| | |].
  - destruct Hrow as [He Ht]. split; [by rewrite Hex|]. destruct Hcase as [[_ ->]|(_ & _ & ->)]; [done|]. intros t [= <-]. cbn. lia.
  - intros x Hx'. destruct (Hx x Hx') as [? ?]. split; [done|congruence].
  - destruct Hcase as [[? _]|(? & ? & _)]; [by left|right; split; [done|congruence]].
Qed.

(** Replacing one transaction, and a process by one with the same id. *)
Lemma fleet_put w w' t tx tx' : fleet_ok w -> w_txs w !! t = Some tx -> is_Some (w_procs w !! tx_proc tx) ->
  w_db w' = w_db w -> w_clock w' = w_clock w -> w_minted w' = w_minted w -> w_log w' = w_log w -> w_txs w' = <[t := tx']> (w_txs w) ->
  (forall k, EXECUTOR_ID <$> w_procs w' !! k = EXECUTOR_ID <$> w_procs w !! k) -> tx_proc tx' = tx_proc tx ->
  (forall i b, tx_writes tx' !! i = Some b -> tx_writes tx !! i = Some b \/
     (unlocked w t i /\ forall p, w_procs w !! tx_proc tx = Some p -> write_ok w (EXECUTOR_ID p) i b)) ->
  fleet_ok w'.
Proof.
  intros F Ht Hp Ed Ec Em El Et Epr Etp Hw. destruct F as [Fl Fp Fm Fk Fr Fw Fo Flog].
  assert (forall k p', w_procs w' !! k = Some p' -> exists p, w_procs w !! k = Some p /\ EXECUTOR_ID p = EXECUTOR_ID p') as Hproc.
  { intros k p' Hk. specialize (Epr k). rewrite Hk in Epr. destruct (w_procs w !! k) as [p|]; [|done]. exists p. split; [done|]. by injection Epr. }
  assert (forall e i b, write_ok w e i b -> write_ok w' e i b) as Hwok.
  { unfold write_ok, row_ok. by rewrite Ed, Ec, Em. }
  split; rewrite ?Et, ?Ed, ?Em, ?El; try done.
  - intros t1 t2 tx1 tx2 i Hne H1 H2 [b Hb]. apply lookup_insert_Some in H1 as [[<- <-]|[Hn1 H1]], H2 as [[<- <-]|[Hn2 H2]]; [done| | |apply (Fl t1 t2 tx1 tx2); [done|done|done|by eexists]].
    + destruct (Hw i b Hb) as [Hold|[Hu _]]; [|by apply (Hu t2 tx2)].
      apply (Fl t t2 tx tx2); [done|done|done|by eexists].
    + destruct (tx_writes tx' !! i) as [b'|] eqn:Hb'; [|done]. exfalso. destruct (Hw i b' Hb') as [Hold|[Hu _]].
      * rewrite (Fl t1 t tx1 tx i) in Hold; [done|done|done|done|by eexists].
      * rewrite (Hu t1 tx1) in Hb; done.
  - intros t1 tx1 H1. assert (forall k, is_Some (w_procs w !! k) -> is_Some (w_procs w' !! k)) as Hs.
    { intros k [p Hk]. specialize (Epr k). rewrite Hk in Epr. destruct (w_procs w' !! k); [by eexists|done]. }
    apply Hs. apply lookup_insert_Some in H1 as [[<- <-]|[_ H1]]; [by rewrite Etp|by eapply Fp].
  - intros k p' Hk. apply Hproc in Hk as (p & Hk & <-). by eapply Fm.
  - unfold row_ok. rewrite Ec, Em. exact Fr.
  - intros t1 tx1 p' i b H1 Hk Hb. apply Hproc in Hk as (p & Hk & <-). apply Hwok.
    apply lookup_insert_Some in H1 as [[<- <-]|[_ H1]]; [|by eapply Fw]. rewrite Etp in Hk.
    destruct (Hw i b Hb) as [Hold|[_ Hok]]; [by eapply (Fw t tx)|by apply Hok].
Qed.

(** A statement keeps the invariant. *)
Lemma fleet_statement w w' t tx tx' p i : fleet_ok w -> w_txs w !! t = Some tx -> w_procs w !! tx_proc tx = Some p -> unlocked w t i ->
  tx_stated (clock w) (EXECUTOR_ID p) (view w tx) i tx tx' ->
  w_db w' = w_db w -> w_clock w' = w_clock w -> w_minted w' = w_minted w -> w_log w' = w_log w -> w_txs w' = <[t := tx']> (w_txs w) ->
  (forall k, EXECUTOR_ID <$> w_procs w' !! k = EXECUTOR_ID <$> w_procs w !! k) -> fleet_ok w'.
Proof.
  intros F Ht Hp Hu [Etp Hs] Ed Ec Em El Et Epr. eapply (fleet_put w w' t tx tx'); try done.
  intros j b Hb. destruct Hs as [Hwr|(a & b' & Ha & Hst & Hwr)]; rewrite Hwr in Hb; [by left|].
  apply lookup_insert_Some in Hb as [[<- <-]|[_ Hb]]; [|by left]. right. split; [done|]. intros q Hq. assert (q = p) as -> by congruence.
  eapply stated_ok; [|exact F|exact Ha|exact Hst]. intros b0 Hb0. by eapply (fo_writes w F t tx).
Qed.

(** A commit publishes rows no other transaction holds, and each settlement
    once. *)
Lemma elem_settlements writes i s : (i, s) ∈ settlements writes <-> is_terminal s = true /\ at_status <$> writes !! i = Some s.
Proof.
  unfold settlements. rewrite elem_filterb, elem_map. cbn [snd]. split.
  - intros [([j b] & Hj & [= -> ->]) Ht]. apply elem_of_map_to_list in Hj. cbn in *. split; [done|]. by rewrite Hj.
  - intros [Ht Hs]. split; [|done]. destruct (writes !! i) as [b|] eqn:Hb; [|done]. injection Hs as <-. exists (i, b).
    by rewrite elem_of_map_to_list.
Qed.

Lemma settlements_NoDup writes : NoDup (settlements writes).*1.
Proof.
  unfold settlements. assert (forall l : list (string * AttemptRow), NoDup l.*1 ->
    NoDup (List.filter (fun p : string * string => is_terminal p.2) (map (fun kv => (kv.1, at_status kv.2)) l)).*1) as H.
  { induction l as [|[k b] l IH]; cbn; [done|]. intros [Hout Hnd]%NoDup_cons. destruct (is_terminal _); [|by apply IH].
    cbn. apply NoDup_cons. split; [|by apply IH]. intros Hin. apply Hout. apply list_elem_of_fmap in Hin as ([j s] & Hj & Hin).
    apply elem_filterb in Hin as [Hin _]. apply elem_map in Hin as ([j' b'] & Hin & [= -> ->]). cbn in *. subst.
    apply list_elem_of_fmap. by exists (j', b'). }
  apply H, NoDup_fst_map_to_list.
Qed.

Lemma fleet_commit w t tx : fleet_ok w -> w_txs w !! t = Some tx ->
  fleet_ok (w {{ w_db ::= fun d => d {{ d_attempts ::= union (tx_writes tx) }}; w_txs ::= delete t;
                 w_log ::= fun l => l ++ settlements (tx_writes tx) }}).
Proof.
  intros F Ht. pose proof F as [Fl Fp Fm Fk Fr Fw Fo Flog]. destruct (Fp t tx Ht) as [p Hp].
  assert (forall i, d_attempts (view w tx) !! i = match tx_writes tx !! i with Some b => Some b | None => d_attempts (w_db w) !! i end) as Hv
    by (intros; apply view_lookup).
  assert (forall t1 tx1, delete t (w_txs w) !! t1 = Some tx1 -> t1 <> t /\ w_txs w !! t1 = Some tx1) as Hdel.
  { intros t1 tx1 H1. by apply lookup_delete_Some in H1 as [? ?]. }
  split; cbn [w_db w_clock w_procs w_txs w_minted w_log].
  - intros t1 t2 tx1 tx2 i Hne [Hn1 H1]%Hdel [Hn2 H2]%Hdel. by apply (Fl t1 t2).
  - intros t1 tx1 [_ H1]%Hdel. by apply (Fp t1).
  - exact Fm.
  - intros i a Ha. change (d_attempts (view w tx) !! i = Some a) in Ha. rewrite Hv in Ha.
    destruct (tx_writes tx !! i) as [b|] eqn:Hb; [|by apply Fk]. injection Ha as <-. by apply (Fw t tx p i b).
  - intros i a Ha. change (d_attempts (view w tx) !! i = Some a) in Ha. rewrite Hv in Ha.
    destruct (tx_writes tx !! i) as [b|] eqn:Hb; [|by eapply Fr]. injection Ha as <-. by apply (Fw t tx p i b).
  - intros t1 tx1 q i b [Hn H1]%Hdel Hq Hb. destruct (Fw t1 tx1 q i b H1 Hq Hb) as (Hid & Hrow & Ha & Hcase). split_and!; try done.
    intros a Hva. change (d_attempts (view w tx) !! i = Some a) in Hva. rewrite Hv in Hva.
    rewrite (Fl t1 t tx1 tx i) in Hva; [by apply Ha|congruence|done|done|by eexists].
  - change (NoDup (w_log w ++ settlements (tx_writes tx)).*1). rewrite fmap_app. apply NoDup_app. split_and!; [done| |apply settlements_NoDup].
    intros i Hin Hin'. apply list_elem_of_fmap in Hin as ([j s] & -> & Hin), Hin' as ([j' s'] & Hj & Hin'). cbn in Hj. subst j'.
    apply Flog in Hin as [Hts Hs]. apply elem_settlements in Hin' as [_ Hs']. cbn [fst] in *.
    destruct (tx_writes tx !! j) as [b|] eqn:Hb; [|done]. destruct (d_attempts (w_db w) !! j) as [a|] eqn:Ha; [|done].
    destruct (Fw t tx p j b Ht Hp Hb) as (_ & _ & Hrun & _). destruct (Hrun a Ha) as [Hr _]. injection Hs as <-.
    by eapply running_not_terminal.
  - intros i s Hin. change (is_terminal s = true /\ at_status <$> d_attempts (view w tx) !! i = Some s). rewrite Hv.
    apply elem_of_app in Hin as [Hin|Hin].
    + destruct (Flog i s Hin) as [Hts Hs]. split; [done|]. destruct (tx_writes tx !! i) as [b|] eqn:Hb; [|done].
      destruct (d_attempts (w_db w) !! i) as [a|] eqn:Ha; [|done]. destruct (Fw t tx p i b Ht Hp Hb) as (_ & _ & Hrun & _).
      destruct (Hrun a Ha) as [Hr _]. injection Hs as <-. exfalso. by eapply running_not_terminal.
    + apply elem_settlements in Hin as [Hts Hs]. split; [done|]. by destruct (tx_writes tx !! i).
Qed.

(** Time passes, ids are minted, transactions and processes disappear. *)
Lemma fleet_less w w' : fleet_ok w -> w_db w' = w_db w -> w_log w' = w_log w -> w_clock w <= w_clock w' -> w_minted w ⊆ w_minted w' ->
  (forall t tx, w_txs w' !! t = Some tx -> w_txs w !! t = Some tx \/ tx_writes tx = ∅) ->
  (forall t tx, w_txs w' !! t = Some tx -> is_Some (w_procs w' !! tx_proc tx)) ->
  (forall k p, w_procs w' !! k = Some p -> EXECUTOR_ID p ∈ w_minted w') ->
  (forall t tx p', w_txs w !! t = Some tx -> w_procs w' !! tx_proc tx = Some p' -> exists p, w_procs w !! tx_proc tx = Some p /\ EXECUTOR_ID p = EXECUTOR_ID p') ->
  fleet_ok w'.
Proof.
  intros [Fl Fp Fm Fk Fr Fw Fo Flog] Ed El Hc Hm Htx Hp Hmi Hpr.
  assert (forall a, row_ok w a -> row_ok w' a) as Hrow.
  { intros a [He Ht]. split; [intros e ?; by apply Hm, He|]. intros t ?. pose proof (Ht t ltac:(done)). lia. }
  split; rewrite ?Ed, ?El; try done.
  - intros t t' tx tx' i Hne H1 H2 Hb. destruct (Htx _ _ H1) as [H1'|E1]; [|rewrite E1, lookup_empty in Hb; by destruct Hb].
    destruct (Htx _ _ H2) as [H2'|E2]; [|by rewrite E2, lookup_empty]. by apply (Fl t t' tx tx').
  - intros i a Ha. apply Hrow. by eapply Fr.
  - intros t tx p' i b H1 Hk Hb. destruct (Htx _ _ H1) as [H1'|E1]; [|by rewrite E1, lookup_empty in Hb].
    destruct (Hpr t tx p' H1' Hk) as (p & Hp' & <-). destruct (Fw t tx p i b H1' Hp' Hb) as (? & ? & ? & ?).
    unfold write_ok. rewrite Ed. split_and!; auto.
Qed.

Lemma fleet_other w d' : fleet_ok w ->
  (forall k, leased <$> d_attempts d' !! k = leased <$> d_attempts (w_db w) !! k) ->
  fleet_ok (w {{ w_db := d' }}).
Proof.
  intros [Fl Fp Fm Fk Fr Fw Fo Flog] Hd.
  assert (forall k a, d_attempts d' !! k = Some a -> exists b, d_attempts (w_db w) !! k = Some b /\ leased a = leased b) as Hb.
  { intros k a Ha. specialize (Hd k). rewrite Ha in Hd. destruct (d_attempts (w_db w) !! k) as [b|]; [|done]. exists b. split; [done|]. exact (inj Some _ _ Hd). }
  assert (forall a b, leased a = leased b -> at_id a = at_id b /\ at_status a = at_status b /\
            at_executor_id a = at_executor_id b /\ at_executor_heartbeat_at a = at_executor_heartbeat_at b) as Hf.
  { by intros a b [= -> -> -> ->]. }
  split; cbn [w_db w_clock w_procs w_txs w_minted w_log]; try done.
  - intros k a Ha. destruct (Hb k a Ha) as (b & Hk & E). apply Hf in E as (-> & _). by apply Fk.
  - intros i a Ha. destruct (Hb i a Ha) as (b & Hk & E). apply Hf in E as (_ & _ & Ee & Et). unfold row_ok. rewrite Ee, Et. exact (Fr i b Hk).
  - intros t tx p i x H1 Hk Hx. destruct (Fw t tx p i x H1 Hk Hx) as (? & ? & Hrun & ?). split_and!; try done.
    intros a Ha. destruct (Hb i a Ha) as (b & Hk' & E). apply Hf in E as (_ & -> & -> & _). by apply Hrun.
  - intros i s Hin. destruct (Flog i s Hin) as [? Hs]. split; [done|]. specialize (Hd i).
    change (at_status <$> d_attempts d' !! i = Some s). destruct (d_attempts d' !! i) as [a|] eqn:Ha, (d_attempts (w_db w) !! i) as [b|] eqn:Hb'; try done.
    pose proof (inj Some _ _ Hd) as E. apply Hf in E as (_ & E & _). rewrite <- Hs. cbn. by rewrite E.
Qed.

Lemma same_ids (m : gmap nat Process) k p p' : m !! k = Some p -> EXECUTOR_ID p' = EXECUTOR_ID p ->
  forall j, EXECUTOR_ID <$> <[k := p']> m !! j = EXECUTOR_ID <$> m !! j.
Proof.
  intros Hk He j. destruct (decide (k = j)) as [<-|]; [|by rewrite lookup_insert_ne]. rewrite lookup_insert_eq, Hk. simpl. by rewrite He.
Qed.

(** Read a hypothesis about an updated world as one about its maps. *)
Ltac in_world H :=
  cbn in H;
  repeat match type of H with
  | context [match ?w with {| w_procs := x |} => x end] => change (match w with {| w_procs := x |} => x end) with (w_procs w) in H
  | context [match ?w with {| w_txs := x |} => x end] => change (match w with {| w_txs := x |} => x end) with (w_txs w) in H
  end.

Lemma fleet_step w w' : fleet_ok w -> wstep w w' -> fleet_ok w'.
Proof.
  intros F Hst. pose proof F as [Fl Fp Fm Fk Fr Fw Fo Flog].
  destruct Hst as [us Hus|k p Hk Hnew Ho|k|k p p' Hk He Ho|t k p Ht Hk|t tx p a p' a' Ht Hk Hfr Hun Hc
    |t tx p i s d' Ht Hk Hu Hs Hset|t tx p i Ht Hk Hu|t tx Ht|t tx p run a l p' d' acc' Ht Hk Hrun Hrest Hu Hsw|t tx Ht|t|d' Hd Hun].
  - apply (fleet_less w); try done; [change (w_clock w <= us + w_clock w); lia|by left|eauto].
  - apply (fleet_less w); try done; [change (w_minted w ⊆ {[EXECUTOR_ID p]} ∪ w_minted w); set_solver|by left| | |].
    + intros t tx H1. destruct (Fp t tx H1) as [q Hq]. exists q. apply lookup_insert_Some. right. split; [congruence|done].
    + intros j q Hj. in_world Hj; apply lookup_insert_Some in Hj as [[<- <-]|[_ Hj]];
        change (w_minted (w {{ w_procs ::= insert k p; w_minted ::= union {[EXECUTOR_ID p]} }})) with ({[EXECUTOR_ID p]} ∪ w_minted w); [set_solver|].
      apply Fm in Hj. set_solver.
    + intros t tx q H1 Hq. in_world Hq; apply lookup_insert_Some in Hq as [[Ek <-]|[_ Hq]]; [|eauto]. destruct (Fp t tx H1) as [x Hx].
      rewrite <- Ek in Hx. congruence.
  - apply (fleet_less w); try done.
    + intros t tx H1. in_world H1; apply map_lookup_filter_Some in H1 as [H1 _]. by left.
    + intros t tx H1. in_world H1; apply map_lookup_filter_Some in H1 as [H1 Hne]. destruct (Fp t tx H1) as [q Hq]. exists q.
      apply lookup_delete_Some. done.
    + intros j q Hj. in_world Hj; apply lookup_delete_Some in Hj as [_ Hj]. by eapply Fm.
    + intros t tx q _ Hq. in_world Hq; apply lookup_delete_Some in Hq as [_ Hq]. eauto.
  - apply (fleet_less w); try done.
    + by left.
    + intros t tx H1. destruct (Fp t tx H1) as [q Hq]. destruct (decide (k = tx_proc tx)) as [->|]; [exists p'; apply lookup_insert_eq|].
      exists q. by apply lookup_insert_Some; right.
    + intros j q Hj. in_world Hj; apply lookup_insert_Some in Hj as [[<- <-]|[_ Hj]]; [rewrite He|]; by eapply Fm.
    + intros t tx q _ Hq. in_world Hq; apply lookup_insert_Some in Hq as [[<- <-]|[_ Hq]]; eauto.
  - apply (fleet_less w); try done; [| |eauto].
    + intros t1 tx1 H1. in_world H1; apply lookup_insert_Some in H1 as [[<- <-]|[_ H1]]; [by right|by left].
    + intros t1 tx1 H1. in_world H1; apply lookup_insert_Some in H1 as [[<- <-]|[_ H1]]; [by exists p|by eapply Fp].
  - assert (EXECUTOR_ID p' = EXECUTOR_ID p /\ at_id a' = at_id a /\ at_executor_id a' = Some (EXECUTOR_ID p) /\
            at_executor_heartbeat_at a' = Some (clock w)) as (He & Hi & Hx & Hh) by (by injection Hc as <- <-).
    apply (fleet_put w) with (t := t) (tx := tx) (tx' := tx {{ tx_writes ::= insert (at_id a) (a' {{ at_status := "running" }}) }});
      [exact F|exact Ht|by exists p|reflexivity..|exact (same_ids _ _ p p' Hk He)|reflexivity|].
    intros i b Hb. in_world Hb. apply lookup_insert_Some in Hb as [[<- <-]|[_ Hb]]; [right|by left]. split; [intros t1 tx1 _ H1; by eapply Hun|].
    intros q Hq. assert (q = p) as -> by congruence. split_and!; [exact Hi| |intros x Hx'; congruence|by right].
    split; [intros e E; rewrite <- (inj Some _ _ (eq_trans (eq_sym Hx) E)); by eapply Fm|].
    intros x E. rewrite <- (inj Some _ _ (eq_trans (eq_sym Hh) E)). cbn. lia.
  - eapply (fleet_statement w _ t tx _ p i); try done. by eapply settle_stated.
  - eapply (fleet_statement w _ t tx _ p i); try done. apply beat_stated.
  - eapply (fleet_put w) with (t := t) (tx := tx);
      [exact F|exact Ht|by eapply Fp|reflexivity..|intros; reflexivity|reflexivity|by left].
  - eapply visit_stated in Hsw as [He Hst]. 
    eapply (fleet_statement w) with (t := t) (tx := tx) (p := p) (i := at_id a)
      (tx' := (wrote tx (at_id a) (view w tx) d') {{ tx_sweep := Some {| sr_now := sr_now run; sr_rest := l; sr_acc := acc' |} }});
      [exact F|exact Ht|exact Hk|exact Hu|exact Hst|reflexivity..|exact (same_ids _ _ _ _ Hk He)].
  - by apply fleet_commit.
  - apply (fleet_less w); try done; [| |eauto].
    + intros t1 tx1 H1. in_world H1; apply lookup_delete_Some in H1 as [_ H1]. by left.
    + intros t1 tx1 H1. in_world H1; apply lookup_delete_Some in H1 as [_ H1]. by eapply Fp.
  - by apply fleet_other.
Qed.

Lemma start_ok w : start w -> fleet_ok w.
Proof.
  intros [Ep Et El Hk Hm Hp]. split; rewrite ?Ep, ?Et, ?El; try done.
  - intros i a Ha. split; [intros e; by eapply Hm|intros t; by eapply Hp].
  - constructor.
  - by intros i s ?%not_elem_of_nil.
Qed.

Lemma reachable_ok w0 w : start w0 -> wsteps w0 w -> fleet_ok w.
Proof. intros Hs Hr. apply start_ok in Hs. induction Hr as [|x y z Hxy _ IH]; [done|]. apply IH. by eapply fleet_step. Qed.

Lemma fenced p i target cols d a : d_attempts d !! i = Some a -> is_terminal (at_status a) = true ->
  settle_owned_attempt p i target cols d = Err (fence_error i d).
Proof.
  intros Ha Ht. unfold settle_owned_attempt, update_attempt. rewrite Ha.
  assert (has_status ARUNNING a = false) as ->; [|done].
  apply not_true_iff_false. rewrite has_status_iff. intros E. by eapply running_not_terminal.
Qed.

(** C10: however executors, sweeps, heartbeats, crashes and other writers are
    interleaved, an Attempt is settled at most once: the settlements that were
    committed name each Attempt at most once, its row keeps for ever the
    status that was committed, and from then on any executor that tries to
    settle it, the one that ran it included, is refused by the fence and
    writes nothing. *)
Theorem settled_once w0 w : start w0 -> wsteps w0 w ->
  NoDup (w_log w).*1 /\
  forall i s, (i, s) ∈ w_log w ->
    is_terminal s = true /\ at_status <$> d_attempts (w_db w) !! i = Some s /\
    forall p target cols, settle_owned_attempt p i target cols (w_db w) = Err (fence_error i (w_db w)).
Proof.
  intros Hs Hr. pose proof (reachable_ok _ _ Hs Hr) as F. split; [apply (fo_once _ F)|].
  intros i s Hin. destruct (fo_log _ F i s Hin) as [Ht Ha]. split_and!; [done|done|]. intros p target cols.
  destruct (d_attempts (w_db w) !! i) as [a|] eqn:E; [|done]. injection Ha as <-. by eapply fenced.
Qed.

(** ** After a crash *)

(** No process carries the id. *)
Definition dead (e : string) (w : World) : Prop := forall k p, w_procs w !! k = Some p -> EXECUTOR_ID p <> e.

(** Attempt [i] was last kept alive by [e], no later than [c]. *)
Record abandoned (i e : string) (c : Z) (w : World) : Prop := {
  ab_fleet : fleet_ok w;
  ab_minted : e ∈ w_minted w;
  ab_dead : dead e w;
  ab_row : exists a, d_attempts (w_db w) !! i = Some a /\
    (is_terminal (at_status a) = true \/
     (at_status a = "running" /\ at_executor_id a = Some e /\ forall t, at_executor_heartbeat_at a = Some t -> dt_us t <= c))
}.

Lemma dead_step e w w' : fleet_ok w -> e ∈ w_minted w -> dead e w -> wstep w w' -> e ∈ w_minted w' /\ dead e w'.
Proof.
  intros F Hm Hd Hst.
  assert (forall (m : gmap nat Process) k p, (forall j q, m !! j = Some q -> EXECUTOR_ID q <> e) -> EXECUTOR_ID p <> e ->
            forall j q, <[k := p]> m !! j = Some q -> EXECUTOR_ID q <> e) as Hput.
  { intros m k p Hm' Hp j q Hj. apply lookup_insert_Some in Hj as [[_ <-]|[_ Hj]]; [done|by eapply Hm']. }
  destruct Hst as [us Hus|k p Hk Hnew Ho|k|k p p' Hk He Ho|t k p Ht Hk|t tx p a p' a' Ht Hk Hfr Hun Hc
    |t tx p i s d' Ht Hk Hu Hs Hset|t tx p i Ht Hk Hu|t tx Ht|t tx p run a l p' d' acc' Ht Hk Hrun Hrest Hu Hsw|t tx Ht|t|d' Ho Hun];
    try (split; [exact Hm|exact Hd]); (split; [try exact Hm|]).
  - change (e ∈ {[EXECUTOR_ID p]} ∪ w_minted w). set_solver.
  - refine (Hput (w_procs w) k p Hd _). intros <-. done.
  - intros j q Hj. in_world Hj. apply lookup_delete_Some in Hj as [_ Hj]. by eapply Hd.
  - refine (Hput (w_procs w) k p' Hd _). rewrite He. by eapply Hd.
  - refine (Hput (w_procs w) (tx_proc tx) p' Hd _). injection Hc as <- _. by apply (Hd (tx_proc tx) p).
  - refine (Hput (w_procs w) (tx_proc tx) p' Hd _). destruct (visit_stated (clock w) _ _ _ _ _ _ _ _ tx Hsw) as [-> _]. by eapply Hd.
Qed.

Lemma abandoned_step i e c w w' : abandoned i e c w -> wstep w w' -> abandoned i e c w'.
Proof.
  intros [F Hm Hd (a & Ha & Hcase)] Hst. destruct (dead_step _ _ _ F Hm Hd Hst) as [Hm' Hd'].
  split; [by eapply fleet_step|done|done|].
  assert (d_attempts (w_db w') = d_attempts (w_db w) -> exists a, d_attempts (w_db w') !! i = Some a /\
    (is_terminal (at_status a) = true \/ (at_status a = "running" /\ at_executor_id a = Some e /\
     forall t, at_executor_heartbeat_at a = Some t -> dt_us t <= c))) as Hsame by (intros ->; eauto).
  destruct Hst as [| | | | | | | | | |t tx Ht| |d' Ho Hun]; try (apply Hsame; reflexivity).
  - change (exists x, d_attempts (view w tx) !! i = Some x /\ (is_terminal (at_status x) = true \/ (at_status x = "running" /\
      at_executor_id x = Some e /\ forall t, at_executor_heartbeat_at x = Some t -> dt_us t <= c))).
    rewrite view_lookup. destruct (tx_writes tx !! i) as [b|] eqn:Hb; [|by eauto]. exists b. split; [done|].
    destruct (fo_proc _ F t tx Ht) as [p Hp]. destruct (fo_writes _ F t tx p i b Ht Hp Hb) as (_ & _ & Hrun & [Hte|[Hr Hex]]); [by left|].
    destruct (Hrun a Ha) as [Hra Hexa]. destruct Hcase as [Hte|(_ & Hea & _)]; [by destruct (running_not_terminal _ Hte)|].
    destruct (Hd (tx_proc tx) p Hp). congruence.
  - specialize (Ho i). rewrite Ha in Ho. change (exists x, d_attempts d' !! i = Some x /\ (is_terminal (at_status x) = true \/ (at_status x = "running" /\
      at_executor_id x = Some e /\ forall t, at_executor_heartbeat_at x = Some t -> dt_us t <= c))).
    destruct (d_attempts d' !! i) as [x|]; [|done]. pose proof (inj Some _ _ Ho) as E. exists x. split; [done|].
    injection E as _ Es Ee Et. by rewrite Es, Ee, Et.
Qed.

(** C11: an Attempt whose executor has crashed is settled within a lease.
    Whatever happens next, once more than the lease has passed on the database
    clock, the Attempt either has been settled already, or any process that
    sweeps then fails it, provided nothing says its provider effects may still
    run; a dead executor's heartbeat can never be renewed. *)
Theorem crash_recovered w0 w w' i a e k p : start w0 -> wsteps w0 w ->
  d_attempts (w_db w) !! i = Some a -> at_status a = "running" -> at_executor_id a = Some e -> dead e w ->
  wsteps w w' -> w_clock w + LEASE_TTL < w_clock w' -> w_procs w' !! k = Some p ->
  exists a', d_attempts (w_db w') !! i = Some a' /\
    (is_terminal (at_status a') = true \/
     (quiet p (w_db w') a' -> exists p2 d2 ids, recover_orphaned_attempts p (clock w') (w_db w') = Ok (p2, d2, ids) /\
        i ∈ ids /\ d_attempts d2 !! i = Some (reaped a'))).
Proof.
  intros Hs Hr Ha Hrun He Hd Hr' Hc Hk. pose proof (reachable_ok _ _ Hs Hr) as F.
  assert (abandoned i e (w_clock w) w) as Hab.
  { destruct (fo_rows _ F i a Ha) as [Hm Ht]. split; [done|by apply Hm|done|]. exists a. split; [done|]. right. done. }
  assert (abandoned i e (w_clock w) w') as [F' _ Hd' (a' & Ha' & Hcase)].
  { revert Hab. generalize (w_clock w). clear -Hr'. intros c Hab. induction Hr' as [|x y z Hxy _ IH]; [done|]. apply IH. by eapply abandoned_step. }
  exists a'. split; [done|]. destruct Hcase as [|(Hr2 & He2 & Ht2)]; [by left|]. right. intros Hq.
  assert (orphaned p (clock w') (w_db w') a') as Ho.
  { split_and!; [done| | |done].
    - intros [_ Hx]. apply (Hd' k p Hk). congruence.
    - intros (x & t & _ & _ & _ & Ht & Hle). apply Ht2 in Ht. cbn in Hle. lia. }
  destruct (recover_spec p (clock w') (w_db w') eq_refl (fo_keyed _ F')) as (p2 & d2 & ids & Hrec & Hids & Hrows & _).
  exists p2, d2, ids. split_and!; [done| |].
  - apply Hids. by exists a'.
  - exact (proj1 (proj2 (Hrows i) a' Ha') Ho).
Qed.

(** ** Examples: a claim, a crash, a sweep by another process *)

Module FleetDemo.
Definition proc (id : string) : Process := {| EXECUTOR_ID := id; owners := ∅; remote_effects := ∅; stop_blocked := ∅ |}.
Definition row : AttemptRow := blank_AttemptRow {{ at_id := "A"; at_task_id := "T"; at_status := "dispatched"; at_evidence_mode := "synthetic" }}.
Definition w0 : World := {| w_db := empty_db; w_clock := 0; w_procs := ∅; w_txs := ∅; w_minted := ∅; w_log := [] |}.
Definition w1 : World := w0 {{ w_procs ::= insert 0%nat (proc "1-a"); w_minted ::= union {["1-a"]} }}.
Definition w2 : World := w1 {{ w_txs ::= insert 0%nat {| tx_proc := 0; tx_writes := ∅; tx_sweep := None |} }}.
Definition claimed : Process * AttemptRow := claim_executor (proc "1-a") (clock w2) row.
Definition tx0 : Tx := {| tx_proc := 0; tx_writes := {["A" := claimed.2 {{ at_status := "running" }}]}; tx_sweep := None |}.
Definition w3 : World := w2 {{ w_procs ::= insert 0%nat claimed.1; w_txs ::= insert 0%nat tx0 }}.
Definition w4 : World := w3 {{ w_db ::= fun d => d {{ d_attempts ::= union (tx_writes tx0) }}; w_txs ::= delete 0%nat;
                               w_log ::= fun l => l ++ settlements (tx_writes tx0) }}.
Definition w5 : World := w4 {{ w_procs ::= delete 0%nat; w_txs ::= filter (fun kv => tx_proc kv.2 <> 0%nat) }}.
Definition w6 : World := w5 {{ w_clock ::= Z.add (31 * seconds) }}.
Definition w7 : World := w6 {{ w_procs ::= insert 1%nat (proc "2-b"); w_minted ::= union {["2-b"]} }}.

Lemma start_w0 : start w0.
Proof. split; done. Qed.

Lemma claim_steps : wsteps w0 w4.
Proof.
  eapply rtc_l; [exact (Spawn w0 0%nat (proc "1-a") eq_refl ltac:(apply not_elem_of_empty) eq_refl)|].
  eapply rtc_l; [exact (Start w1 0%nat 0%nat (proc "1-a") eq_refl eq_refl)|].
  assert (forall t' tx', w_txs w2 !! t' = Some tx' -> tx_writes tx' !! "A" = None) as Hfree.
  { intros t' tx' H. in_world H. apply lookup_insert_Some in H as [[_ <-]|[_ H]]; [done|by rewrite lookup_empty in H]. }
  eapply rtc_l; [exact (Claim w2 0%nat {| tx_proc := 0; tx_writes := ∅; tx_sweep := None |} (proc "1-a") row _ _ eq_refl eq_refl eq_refl Hfree eq_refl)|].
  eapply rtc_l; [exact (Commit w3 0%nat tx0 eq_refl)|]. apply rtc_refl.
Qed.

Lemma crash_steps : wsteps w0 w5.
Proof. eapply rtc_r; [exact claim_steps|exact (Crash w4 0%nat)]. Qed.

Lemma wait_steps : wsteps w5 w7.
Proof.
  eapply rtc_l; [exact (Tick w5 (31 * seconds) ltac:(vm_compute; discriminate))|].
  eapply rtc_l; [exact (Spawn w6 1%nat (proc "2-b") eq_refl ltac:(apply (proj1 (bool_decide_eq_true _)); vm_compute; reflexivity) eq_refl)|].
  apply rtc_refl.
Qed.

Definition tx1 : Tx := {| tx_proc := 1; tx_writes := ∅; tx_sweep := None |}.
Definition w8 : World := w7 {{ w_txs ::= insert 5%nat tx1 }}.
Definition running : AttemptRow := claimed.2 {{ at_status := "running" }}.
Definition run : SweepRun := {| sr_now := clock w8; sr_rest := [running]; sr_acc := no_sweep |}.
Definition tx2 : Tx := tx1 {{ tx_sweep := Some run }}.
Definition w9 : World := w8 {{ w_txs ::= insert 5%nat tx2 }}.
Definition found : Sweep := {| live_tasks := ∅; settled := ["A"] |}.
Definition tx3 : Tx := tx2 {{ tx_writes := {["A" := reaped running]}; tx_sweep := Some {| sr_now := sr_now run; sr_rest := []; sr_acc := found |} }}.
Definition w10 : World := w9 {{ w_procs ::= insert 1%nat (proc "2-b"); w_txs ::= insert 5%nat tx3 }}.
Definition w11 : World := w10 {{ w_db ::= fun d => d {{ d_attempts ::= union (tx_writes tx3) }}; w_txs ::= delete 5%nat;
                                 w_log ::= fun l => l ++ settlements (tx_writes tx3) }}.

Lemma sweep_steps : wsteps w7 w11.
Proof.
  eapply rtc_l; [exact (Start w7 5%nat 1%nat (proc "2-b") eq_refl eq_refl)|].
  eapply rtc_l; [exact (Select w8 5%nat tx1 eq_refl)|].
  assert (unlocked w9 5%nat "A") as Hu.
  { assert (w_txs w9 = {[5%nat := tx2]}) as E by (vm_compute; reflexivity).
    intros t' tx' Hne H. rewrite E in H. by apply lookup_singleton_Some in H as [<- _]. }
  eapply rtc_l; [exact (Visit w9 5%nat tx2 (proc "2-b") run running [] (proc "2-b")
    ((view w9 tx2) {{ d_attempts ::= insert "A" (reaped running) }}) found eq_refl eq_refl eq_refl eq_refl Hu eq_refl)|].
  eapply rtc_l; [exact (Commit w10 5%nat tx3 eq_refl)|]. apply rtc_refl.
Qed.
End FleetDemo.

Lemma settled_once_witness : w_log FleetDemo.w11 = [("A", "failed")] /\
  at_status <$> d_attempts (w_db FleetDemo.w11) !! "A" = Some "failed" /\
  settle_owned_attempt (FleetDemo.proc "1-a") "A" "completed" (fun a => a) (w_db FleetDemo.w11) =
    Err (fence_error "A" (w_db FleetDemo.w11)).
Proof.
  split; [vm_compute; reflexivity|].
  assert (wsteps FleetDemo.w0 FleetDemo.w11) as Hr.
  { etransitivity; [exact FleetDemo.crash_steps|]. etransitivity; [exact FleetDemo.wait_steps|exact FleetDemo.sweep_steps]. }
  assert (("A", "failed") ∈ w_log FleetDemo.w11) as Hin by (vm_compute; left).
  destruct (proj2 (settled_once FleetDemo.w0 FleetDemo.w11 FleetDemo.start_w0 Hr) _ _ Hin) as (_ & Ha & Hf).
  split; [exact Ha|apply Hf].
Defined.

Lemma crash_recovered_witness : exists p2 d2 ids,
  recover_orphaned_attempts (FleetDemo.proc "2-b") (clock FleetDemo.w7) (w_db FleetDemo.w7) = Ok (p2, d2, ids) /\ "A" ∈ ids.
Proof.
  destruct (crash_recovered FleetDemo.w0 FleetDemo.w5 FleetDemo.w7 "A" FleetDemo.running "1-a" 1%nat (FleetDemo.proc "2-b")
    FleetDemo.start_w0 FleetDemo.crash_steps) as (a & Ha & Hcase).
  - vm_compute; reflexivity.
  - vm_compute; reflexivity.
  - vm_compute; reflexivity.
  - intros k p Hk. exfalso. assert (w_procs FleetDemo.w5 = ∅) as E by (vm_compute; reflexivity).
    by rewrite E, lookup_empty in Hk.
  - exact FleetDemo.wait_steps.
  - vm_compute; reflexivity.
  - vm_compute; reflexivity.
  - assert (d_attempts (w_db FleetDemo.w7) !! "A" = Some FleetDemo.running) as Hrow by (vm_compute; reflexivity).
    assert (a = FleetDemo.running) as -> by congruence. destruct Hcase as [Ht|Hq]; [discriminate Ht|].
    destruct Hq as (p2 & d2 & ids & ? & ? & _); [|by exists p2, d2, ids].
    apply (proj1 (bool_decide_eq_true _)); vm_compute; reflexivity.
Defined.
