(* ===== verification/Escalation.v ===== *)
(** * Escalation: the model-tier escalation policy

    Models [src/sdf_core/escalation.py]. *)

From S2P Require Import Prelude Lifecycle Json Db EvidenceMac Flush Samples FlushFacts Store.

Inductive ModelTier : Type := BASIC | MEDIUM | HIGH.

#[export] Instance ModelTier_eq_dec : EqDecision ModelTier.
Proof. solve_decision. Defined.

Definition ModelTier_value (t : ModelTier) : string :=
  match t with BASIC => "basic" | MEDIUM => "medium" | HIGH => "high" end.

Definition ordered : list ModelTier := [BASIC; MEDIUM; HIGH].

(** [ModelTier.next]: the element after [self] in [ordered]. *)
Definition next (t : ModelTier) : option ModelTier :=
  match list_find (fun x => x = t) ordered with
  | Some (index, _) => ordered !! S index
  | None => None
  end.

Definition TIER_ORDER (t : ModelTier) : Z :=
  match t with BASIC => 0 | MEDIUM => 1 | HIGH => 2 end.

Record EscalationDecision : Type := {
  should_escalate : bool; next_tier : option ModelTier; exhausted : bool; reason : string
}.

Definition ESCALATABLE_STATUSES : list string :=
  ["FAIL"; "INCONCLUSIVE"; "TIMEOUT"; "POLICY_FAILURE"; "TOOL_FAILURE"].

Record EscalationPolicy : Type := { max_attempts : Z; max_tier : ModelTier; max_cost : float }.

(** [EscalationPolicy.__init__] *)
Definition new_policy (attempts : Z) (tier : ModelTier) (cost : float) : result EscalationPolicy :=
  _ ← raise_if (attempts <=? 0) (ValueError "max_attempts must be positive");
  _ ← raise_if (f_lt cost f_zero) (ValueError "max_cost must not be negative");
  Ok {| max_attempts := attempts; max_tier := tier; max_cost := cost |}.

Definition decide_escalation (p : EscalationPolicy) (status : string) (attempt_number : Z)
    (tier : ModelTier) (spent_cost next_attempt_cost : float) : result EscalationDecision :=
  _ ← raise_if (attempt_number <=? 0) (ValueError "attempt_number must be positive");
  _ ← raise_if (f_lt spent_cost f_zero || f_lt next_attempt_cost f_zero)
        (ValueError "costs must not be negative");
  let normalized := str_upper status in
  if str_eq normalized "PASS" then
    Ok {| should_escalate := false; next_tier := None; exhausted := false;
          reason := "verified pass does not escalate" |}
  else if negb (str_in normalized ESCALATABLE_STATUSES) then
    Err (ValueError ("unverified escalation status: " +:+ status))
  else if max_attempts p <=? attempt_number then
    Ok {| should_escalate := false; next_tier := None; exhausted := true; reason := "maximum attempts reached" |}
  else
    match next tier with
    | None =>
        Ok {| should_escalate := false; next_tier := None; exhausted := true; reason := "maximum model tier reached" |}
    | Some t =>
        if TIER_ORDER (max_tier p) <? TIER_ORDER t then
          Ok {| should_escalate := false; next_tier := None; exhausted := true;
                reason := "maximum model tier reached" |}
        else if f_lt (max_cost p) (f_add spent_cost next_attempt_cost) then
          Ok {| should_escalate := false; next_tier := None; exhausted := true;
                reason := "hard cost ceiling reached" |}
        else
          Ok {| should_escalate := true; next_tier := Some t; exhausted := false;
                reason := "verified " +:+ str_lower normalized +:+ " requires escalation" |}
    end.

Definition terminal_status (status : string) : bool :=
  str_in status [AttemptState_value ACOMPLETED; AttemptState_value AFAILED; AttemptState_value ACANCELLED].

(** The row a fresh escalation adds. *)
Definition escalated_row (prior : AttemptRow) (dispatch_key : string) (tier : ModelTier) (agent : string)
    (cost_usd : float) (now : datetime) : AttemptRow :=
  {| at_id := "ATTEMPT-ESC-" +:+ prior.(at_id) +:+ "-" +:+ ModelTier_value tier;
     at_task_id := prior.(at_task_id); at_status := AttemptState_value ACREATED;
     at_dispatch_key := dispatch_key; at_agent := agent; at_parent_attempt_id := Some prior.(at_id);
     at_model_tier := ModelTier_value tier; at_cost_usd := cost_usd; at_provider := None;
     at_latency_ms := None; at_input_tokens := None; at_output_tokens := None;
     at_escalation_reason := None; at_created_at := now; at_model_profile := None; at_outcome := None;
     at_evidence_mode := "synthetic"; at_error_class := None; at_trace_id := None; at_principal := None;
     at_revision_required := Some true; at_executor_id := None; at_executor_heartbeat_at := None;
     at_remote_effect := None |}.

Definition create_escalated_attempt (h : Host) (s : Session) (prior : AttemptRow) (dispatch_key : string)
    (tier : ModelTier) (agent : string) (cost_usd : float) (now : datetime) : result (Session * AttemptRow) :=
  _ ← raise_if (negb (terminal_status prior.(at_status)))
        (ValueError "only a terminal attempt can be escalated");
  _ ← raise_if (f_lt cost_usd f_zero) (ValueError "cost_usd must not be negative");
  match find_row (fun a => str_eq a.(at_dispatch_key) dispatch_key) (d_attempts (current s)) with
  | Some existing =>
      if negb (opt_str_eq existing.(at_parent_attempt_id) (Some prior.(at_id))) ||
         negb (str_eq existing.(at_model_tier) (ModelTier_value tier))
      then Err (ValueError "dispatch key already belongs to another escalation")
      else Ok (s, existing)
  | None =>
      let child := escalated_row prior dispatch_key tier agent cost_usd now in
      let d := current s in
      _ ← raise_if (bool_decide (is_Some (d_attempts d !! child.(at_id)))) (IntegrityError "attempts.id");
      let d := d {{ d_attempts ::= insert child.(at_id) child }} in
      d ← add_node (mk_node child.(at_id) "attempt" "Escalated execution attempt" "escalation" "sdf" now None) d;
      let d := add_edge ("attempt", child.(at_id)) ("attempt", prior.(at_id)) "depends_on" "escalation" now d in
      s' ← change_and_flush h s d;
      Ok (s', child)
  end.

(** The escalations that follow a first Attempt: after each verified verdict
    the policy decides, and a positive decision starts the next Attempt at the
    next tier.  The result is the tiers of the Attempts, the first included. *)
Fixpoint escalate (p : EscalationPolicy) (attempt_number : Z) (tier : ModelTier) (spent : float)
    (verdicts : list (string * float)) : result (list ModelTier) :=
  match verdicts with
  | [] => Ok [tier]
  | (status, cost) :: verdicts =>
      d ← decide_escalation p status attempt_number tier spent cost;
      match d.(next_tier) with
      | Some t => rest ← escalate p (attempt_number + 1) t (f_add spent cost) verdicts; Ok (tier :: rest)
      | None => Ok [tier]
      end
  end.

(** ** Lemmas *)

Lemma next_order t t' : next t = Some t' -> TIER_ORDER t' = TIER_ORDER t + 1.
Proof. destruct t; simpl; by intros [= <-]. Qed.

Lemma tier_order_bounds t : 0 <= TIER_ORDER t <= 2.
Proof. by destruct t. Qed.

(** What a verdict must satisfy for the policy to be able to decide. *)
Definition decidable_call (status : string) (attempt_number : Z) (spent cost : float) : Prop :=
  0 < attempt_number /\ f_lt spent f_zero = false /\ f_lt cost f_zero = false /\
  (str_upper status = "PASS" \/ str_upper status ∈ ESCALATABLE_STATUSES).

Lemma decide_escalates p status n tier spent cost d t :
  decide_escalation p status n tier spent cost = Ok d -> d.(next_tier) = Some t ->
  next tier = Some t /\ TIER_ORDER t <= TIER_ORDER (max_tier p) /\ n < max_attempts p.
Proof.
  unfold decide_escalation. intros H Ht. ok_split; simpl in *; try done.
  boolify. simplify_eq. split_and!; [done|lia|lia].
Qed.

Lemma escalate_bounds p n tier spent vs ts : escalate p n tier spent vs = Ok ts ->
  (n <= max_attempts p -> n + Z.of_nat (length ts) - 1 <= max_attempts p) /\
  (TIER_ORDER tier <= TIER_ORDER (max_tier p) -> TIER_ORDER tier + Z.of_nat (length ts) - 1 <= TIER_ORDER (max_tier p)) /\
  (forall i t, ts !! i = Some t -> TIER_ORDER t = TIER_ORDER tier + Z.of_nat i).
Proof.
  revert n tier spent ts. induction vs as [|[status cost] vs IH]; intros n tier spent ts; simpl.
  { intros [= <-]. simpl. split_and!; [lia|lia|]. intros [|i] t; simpl; [intros [= <-]; lia|done]. }
  intros (d & Hd & H)%bind_Ok. destruct (next_tier d) as [t|] eqn:Ht.
  - apply bind_Ok in H as (rest & Hr & [= <-]). apply IH in Hr as (Hn & Htier & Hi).
    destruct (decide_escalates _ _ _ _ _ _ _ _ Hd Ht) as (Hnext & Hle & Hlt).
    apply next_order in Hnext. simpl. split_and!; [lia|lia|].
    intros [|i] t'; simpl; [intros [= <-]; lia|]. intros E%Hi. lia.
  - injection H as [= <-]. simpl. split_and!; [lia|lia|].
    intros [|i] t'; simpl; [intros [= <-]; lia|done].
Qed.

(** ** Properties *)

(** When the policy can decide, exactly one of three things happens: a
    verified pass ends escalation; a further Attempt at the next tier is
    allowed, exactly when Attempts, tier and cost all leave room; otherwise
    escalation is exhausted.  It raises exactly on a non-positive Attempt
    number, a negative cost or a status that is no verified outcome. *)
Theorem decide_complete p status n tier spent cost :
  (is_ok (decide_escalation p status n tier spent cost) = true <-> decidable_call status n spent cost) /\
  forall d, decide_escalation p status n tier spent cost = Ok d ->
    (d.(should_escalate) = true <->
       str_upper status <> "PASS" /\ n < max_attempts p /\
       (exists t, next tier = Some t /\ d.(next_tier) = Some t /\ TIER_ORDER t <= TIER_ORDER (max_tier p)) /\
       f_lt (max_cost p) (f_add spent cost) = false) /\
    (d.(exhausted) = true <-> d.(should_escalate) = false /\ str_upper status <> "PASS") /\
    (d.(should_escalate) = false -> d.(next_tier) = None).
Proof.
  unfold decidable_call, decide_escalation, raise_if, str_eq, str_in.
  destruct (n <=? 0) eqn:En; boolify; simpl; [split; [|done]; split; [done|]; lia|].
  destruct (f_lt spent f_zero), (f_lt cost f_zero); simpl;
    try (split; [|done]; split; [done|]; by intros (_ & ? & ? & _)).
  destruct (bool_decide_reflect (str_upper status = "PASS")) as [Ep|Ep]; simpl.
  { split; [split; [|done]; intros _; split_and!; [lia|done|done|by left]|].
    intros d [= <-]; simpl. split_and!; [|split; [done|]|done]; [split; [done|]|]; tauto. }
  destruct (bool_decide_reflect (str_upper status ∈ ESCALATABLE_STATUSES)) as [Es|Es]; simpl;
    [|split; [|done]; split; [done|]; by intros (_ & _ & _ & [?|?])].
  assert (forall A, A <-> A /\ (0 < n /\ false = false /\ false = false /\
     (str_upper status = "PASS" \/ str_upper status ∈ ESCALATABLE_STATUSES))) as Hok.
  { intros A. split; [|tauto]. intros ?. split_and!; auto; lia. }
  destruct (max_attempts p <=? n) eqn:Em; boolify.
  { split; [split; [intros _|done]; split_and!; auto; lia|]. intros d [= <-]; simpl.
    split_and!; [split; [done|]|tauto|done]. intros (_ & ? & _). lia. }
  destruct (next tier) as [t|] eqn:Et.
  2: { split; [split; [intros _|done]; split_and!; auto; lia|]. intros d [= <-]; simpl.
       split_and!; [split; [done|]|tauto|done]. by intros (_ & _ & (? & ? & _) & _). }
  destruct (TIER_ORDER (max_tier p) <? TIER_ORDER t) eqn:Ett; boolify.
  { split; [split; [intros _|done]; split_and!; auto; lia|]. intros d [= <-]; simpl.
    split_and!; [split; [done|]|tauto|done]. intros (_ & _ & (? & [= <-] & [=] & _) & _). }
  destruct (f_lt (max_cost p) (f_add spent cost)) eqn:Ec;
    (split; [split; [intros _|done]; split_and!; auto; lia|]); intros d [= <-]; simpl.
  - split_and!; [split; [done|]|tauto|done]. by intros (_ & _ & _ & ?).
  - split_and!; [split; [intros _|done]|split; [done|]|done]; [|by intros [? _]].
    split_and!; [done|lia|exists t; split_and!; [done|done|lia]|done].
Qed.

Definition demo_policy : EscalationPolicy := {| max_attempts := 3; max_tier := MEDIUM; max_cost := f_of_Z 10 |}.

(** Whatever the verdicts, escalation stops: the Attempts of one chain
    never outnumber the policy's maximum, their tiers climb one step at a
    time and never pass the policy's maximum tier. *)
Theorem escalation_bounded p tier vs ts : 0 < max_attempts p ->
  TIER_ORDER tier <= TIER_ORDER (max_tier p) ->
  escalate p 1 tier f_zero vs = Ok ts ->
  Z.of_nat (length ts) <= max_attempts p /\
  Z.of_nat (length ts) <= TIER_ORDER (max_tier p) - TIER_ORDER tier + 1 /\
  forall i t, ts !! i = Some t ->
    TIER_ORDER t = TIER_ORDER tier + Z.of_nat i /\ TIER_ORDER t <= TIER_ORDER (max_tier p).
Proof.
  intros Hpos Htier H. apply escalate_bounds in H as (Hn & Ht & Hi).
  specialize (Hn ltac:(lia)). specialize (Ht Htier). split_and!; [lia|lia|].
  intros i t Hit. pose proof (lookup_lt_Some _ _ _ Hit). apply Hi in Hit. split; lia.
Qed.

Lemma escalation_bounded_witness :
  exists ts, escalate demo_policy 1 BASIC f_zero
    [("FAIL", f_of_Z 1); ("timeout", f_of_Z 2); ("FAIL", f_of_Z 1)] = Ok ts /\ ts = [BASIC; MEDIUM] /\
    Z.of_nat (length ts) <= max_attempts demo_policy.
Proof.
  exists [BASIC; MEDIUM]. split; [vm_compute; reflexivity|]. split; [reflexivity|].
  exact (proj1 (escalation_bounded demo_policy BASIC
    [("FAIL", f_of_Z 1); ("timeout", f_of_Z 2); ("FAIL", f_of_Z 1)] [BASIC; MEDIUM]
    ltac:(vm_compute; reflexivity) ltac:(vm_compute; discriminate) ltac:(vm_compute; reflexivity))).
Defined.

(** Creating an escalated Attempt links it to a terminal prior Attempt of
    the same Task and is idempotent in its dispatch key: repeating the call
    answers with the same Attempt and changes nothing, and a key that belongs
    to another escalation is refused. *)
Theorem escalation_idempotent h s s' prior key tier agent cost now a :
  stored s = current s -> constraints_ok (stored s) = true ->
  create_escalated_attempt h s prior key tier agent cost now = Ok (s', a) ->
  a.(at_dispatch_key) = key /\ a.(at_parent_attempt_id) = Some prior.(at_id) /\
  a.(at_model_tier) = ModelTier_value tier /\ terminal_status prior.(at_status) = true /\
  (forall agent' now', create_escalated_attempt h s' prior key tier agent' cost now' = Ok (s', a)) /\
  (forall other tier' agent' now', terminal_status other.(at_status) = true ->
     other.(at_id) <> prior.(at_id) \/ tier' <> tier ->
     create_escalated_attempt h s' other key tier' agent' cost now' =
       Err (ValueError "dispatch key already belongs to another escalation")).
Proof.
  intros Hs Hc H. unfold create_escalated_attempt in H.
  apply bind_Ok in H as ([] & Hterm & H). apply bind_Ok in H as ([] & Hcost & H).
  assert (find_row (fun x => str_eq (at_dispatch_key x) key) (d_attempts (current s')) = Some a /\
          a.(at_dispatch_key) = key /\ a.(at_parent_attempt_id) = Some prior.(at_id) /\
          a.(at_model_tier) = ModelTier_value tier) as (Hfind & Hkey & Hpar & Htier).
  { destruct (find_row (fun x => str_eq (at_dispatch_key x) key) (d_attempts (current s))) as [x|] eqn:Ef.
    - destruct (negb _ || negb _) eqn:Eb; [done|]. injection H as <- <-. split; [done|].
      apply find_row_Some in Ef as [Ek _]. unfold str_eq, opt_str_eq in *. boolify. done.
    - crush_hyps. boolify. split; [|done].
      match goal with H : change_and_flush _ _ _ = Ok _ |- _ => rename H into Hf end.
      unfold change_and_flush in Hf. rewrite <- (flush_stored_current _ _ _ Hf).
      apply (find_unique at_dispatch_key key _ (at_id (escalated_row prior key tier agent cost now))).
      + apply constraints_dispatch_key. by apply flush_Ok in Hf as (_ & _ & _ & ? & _).
      + refine (flush_inserts_attempt _ _ _ _ (escalated_row prior key tier agent cost now) Hf _ _).
        * simpl. rewrite Hs. destruct (d_attempts (current s) !! _) eqn:E; [|done].
          exfalso. match goal with H : ~ is_Some _ |- _ => apply H; by eexists end.
        * match goal with H : add_node _ _ = Ok _ |- _ => unfold add_node in H end. crush_hyps.
          unfold add_edge. simpl. apply lookup_insert_eq.
      + done. }
  apply raise_if_Ok, negb_false_iff in Hterm.
  split_and!; try done; intros; unfold create_escalated_attempt; rewrite Hcost.
  - rewrite Hterm. simpl. rewrite Hfind. unfold str_eq, opt_str_eq.
    rewrite Hpar, Htier, !bool_decide_eq_true_2 by done. done.
  - match goal with H : terminal_status (at_status other) = true |- _ => rewrite H end.
    simpl. rewrite Hfind. unfold str_eq, opt_str_eq. rewrite Hpar, Htier.
    match goal with H : _ \/ _ |- _ => destruct H as [Hne|Hne] end.
    + rewrite bool_decide_eq_false_2 by congruence. done.
    + rewrite (bool_decide_eq_false_2 (ModelTier_value tier = _)) by (destruct tier, tier'; simpl; congruence).
      by rewrite orb_true_r.
Qed.

Definition demo_prior : AttemptRow := (Demo.attempt_after 3) {{ at_status := "failed" }}.
Definition demo_escalation : result (Session * AttemptRow) :=
  create_escalated_attempt Demo.host (open_session (Demo.after 3)) demo_prior "retry" MEDIUM "agent" f_zero (DateTime 0 true).

Lemma escalation_idempotent_witness : exists s' a, demo_escalation = Ok (s', a) /\
  create_escalated_attempt Demo.host s' demo_prior "retry" MEDIUM "another" f_zero (DateTime 5 true) = Ok (s', a).
Proof.
  assert (is_ok demo_escalation = true) as E by (vm_compute; reflexivity).
  destruct demo_escalation as [[s' a]|] eqn:H; [|discriminate E]. exists s', a. split; [reflexivity|].
  exact (proj1 (proj2 (proj2 (proj2 (proj2 (escalation_idempotent Demo.host (open_session (Demo.after 3)) s' demo_prior
    "retry" MEDIUM "agent" f_zero (DateTime 0 true) a ltac:(reflexivity) ltac:(vm_compute; reflexivity) H)))))
    "another" (DateTime 5 true)).
Defined.
