(* ===== verification/Routing.v ===== *)
(** * Routing: choosing a model profile from measured signals

    Models [src/sdf_core/routing.py]. *)

From S2P Require Import Prelude Floats Json Escalation.

(** A Python number: latencies are integers on profiles and floats on
    measurements. *)
Inductive num : Type := NInt (z : Z) | NFloat (f : float).

(** Both [float(x)] and an operand of mixed arithmetic. *)
Definition num_float (x : num) : float :=
  match x with NInt z => f_of_Z z | NFloat f => f end.

Definition num_compare (x y : num) : option comparison :=
  match x, y with
  | NInt a, NInt b => Some (a ?= b)
  | NFloat a, NFloat b => SFcompare a b
  | NFloat a, NInt b => f_cmp_Z a b
  | NInt a, NFloat b => CompOpp <$> f_cmp_Z b a
  end.
Definition num_lt (x y : num) : bool := bool_decide (num_compare x y = Some Lt).
Definition num_eq (x y : num) : bool := bool_decide (num_compare x y = Some Eq).
Definition num_le (x y : num) : bool := num_lt x y || num_eq x y.
Definition num_neg (x : num) : num :=
  match x with NInt z => NInt (- z) | NFloat f => NFloat (f_neg f) end.
(** [x / 1000] *)
Definition num_milli (x : num) : float :=
  match x with NInt z => f_ratio z 1000 | NFloat f => f_div f (f_of_Z 1000) end.

Record ModelProfile : Type := {
  mp_name : string; mp_tier : ModelTier; mp_capabilities : gset string; mp_cost_usd : float;
  mp_latency_ms : Z; mp_load : float; mp_available : bool
}.

(** [0 <= x <= 1] *)
Definition in_unit (x : float) : bool := f_le f_zero x && f_le x (f_of_Z 1).

Definition profile_post_init (p : ModelProfile) : result unit :=
  _ ← raise_if (negb (str_truthy (str_strip (mp_name p)))) (ValueError "profile name must be non-empty");
  _ ← raise_if (f_lt (mp_cost_usd p) f_zero || (mp_latency_ms p <? 0))
        (ValueError "profile cost and latency must not be negative");
  raise_if (negb (in_unit (mp_load p))) (ValueError "profile load must be between 0 and 1").

Record RoutingMeasurement : Type := {
  ms_capabilities : gset string; ms_available : bool; ms_latency_ms : float; ms_cost_usd : float;
  ms_success_rate : float; ms_sample_count : Z; ms_load : float
}.

Definition measurement_post_init (m : RoutingMeasurement) : result unit :=
  _ ← raise_if (f_lt (ms_latency_ms m) f_zero || f_lt (ms_cost_usd m) f_zero)
        (ValueError "measured cost and latency must not be negative");
  _ ← raise_if (negb (in_unit (ms_success_rate m)))
        (ValueError "measured success rate must be between 0 and 1");
  _ ← raise_if (ms_sample_count m <=? 0) (ValueError "measured signals require at least one sample");
  raise_if (negb (in_unit (ms_load m))) (ValueError "measured load must be between 0 and 1").

Record RoutingRequest : Type := {
  required_capabilities : gset string; max_cost_usd : float; max_latency_ms : Z; min_success_rate : float
}.

(** [rejected] is a dict from profile name to reason, in insertion order. *)
Record RouteDecision : Type := {
  profile : option ModelProfile; route_reason : string; rejected : list (string * string)
}.

(** A profile with its measurement, [None] on the static path. *)
Definition candidate : Type := ModelProfile * option RoutingMeasurement.

Section route.
Context (request : RoutingRequest) (rates : gmap string float).

Definition c_available (c : candidate) : bool :=
  match c.2 with Some m => ms_available m | None => mp_available c.1 end.
Definition c_capabilities (c : candidate) : gset string :=
  match c.2 with Some m => ms_capabilities m | None => mp_capabilities c.1 end.
Definition c_cost (c : candidate) : float :=
  match c.2 with Some m => ms_cost_usd m | None => mp_cost_usd c.1 end.
Definition c_latency (c : candidate) : num :=
  match c.2 with Some m => NFloat (ms_latency_ms m) | None => NInt (mp_latency_ms c.1) end.
Definition c_rate (c : candidate) : float :=
  match c.2 with
  | Some m => ms_success_rate m
  | None => default (f_ratio 1 2) (rates !! mp_name c.1)
  end.
Definition c_load (c : candidate) : float :=
  match c.2 with Some m => ms_load m | None => mp_load c.1 end.
Definition c_samples (c : candidate) : Z :=
  match c.2 with Some m => ms_sample_count m | None => 0 end.

(** Why a measured profile is left out. *)
Definition rejection (m : RoutingMeasurement) : option string :=
  let missing := required_capabilities request ∖ ms_capabilities m in
  if negb (ms_available m) then Some "unavailable"
  else if negb (bool_decide (missing = ∅)) then
    Some ("capabilities not demonstrated: " +:+ str_join ", " (sort_by str_le (elements missing)))
  else if f_lt (max_cost_usd request) (ms_cost_usd m) then
    Some ("measured cost " +:+ float_repr (ms_cost_usd m) +:+ " above " +:+ float_repr (max_cost_usd request))
  else if f_gt_Z (ms_latency_ms m) (max_latency_ms request) then
    Some ("measured latency " +:+ float_repr (ms_latency_ms m) +:+ " ms above " +:+ pretty (max_latency_ms request))
  else if f_lt (ms_success_rate m) (min_success_rate request) then
    Some ("measured success " +:+ float_repr (ms_success_rate m) +:+ " below " +:+
          float_repr (min_success_rate request))
  else None.

Definition eligible (c : candidate) : bool :=
  c_available c &&
  bool_decide (required_capabilities request ⊆ c_capabilities c) &&
  f_le (c_cost c) (max_cost_usd request) &&
  num_le (c_latency c) (NInt (max_latency_ms request)) &&
  f_le (min_success_rate request) (c_rate c).

(** [rate * 100 - cost * 10 - latency / 1000 - load * 10] *)
Definition score_value (c : candidate) : float :=
  f_sub (f_sub (f_sub (f_mul (c_rate c) (f_of_Z 100)) (f_mul (c_cost c) (f_of_Z 10)))
               (num_milli (c_latency c)))
        (f_mul (c_load c) (f_of_Z 10)).

Definition score : Type := float * Z * float * num * string.

Definition score_of (c : candidate) : result score :=
  _ ← raise_if (negb (in_unit (c_rate c)))
        (ValueError ("success rate must be between 0 and 1: " +:+ mp_name c.1));
  Ok (score_value c, c_samples c, f_neg (c_cost c), num_neg (c_latency c), mp_name c.1).
End route.

(** Python's [a > b] on the score tuples: the first unequal position decides. *)
Definition score_gt (a b : score) : bool :=
  let '(v1, s1, c1, l1, n1) := a in
  let '(v2, s2, c2, l2, n2) := b in
  if negb (f_eq v1 v2) then f_lt v2 v1
  else if negb (s1 =? s2) then s2 <? s1
  else if negb (f_eq c1 c2) then f_lt c2 c1
  else if negb (num_eq l1 l2) then num_lt l2 l1
  else negb (str_le n1 n2).

(** [max(eligible, key=score)]: every key is computed first. *)
Definition best (l : list (candidate * score)) : option candidate :=
  match l with
  | [] => None
  | x :: l => Some (max_by (fun a b => score_gt a.2 b.2) x l).1
  end.

Definition route (request : RoutingRequest) (profiles : list ModelProfile)
    (success_rates : option (gmap string float)) (measurements : option (gmap string RoutingMeasurement))
    : result RouteDecision :=
  _ ← raise_if (f_lt (max_cost_usd request) f_zero || (max_latency_ms request <? 0))
        (ValueError "routing limits must not be negative");
  _ ← raise_if (negb (in_unit (min_success_rate request)))
        (ValueError "minimum success rate must be between 0 and 1");
  _ ← raise_if (bool_decide (is_Some success_rates) && bool_decide (is_Some measurements))
        (ValueError "provide measured signals or legacy success rates, not both");
  _ ← raise_if (negb (bool_decide (NoDup (map mp_name profiles)))) (ValueError "profile names must be unique");
  let rates := default ∅ success_rates in
  let measured p := measurements ≫= fun ms => ms !! mp_name p in
  let unmeasured p := bool_decide (is_Some measurements) && bool_decide (measured p = None) in
  let candidates := map (fun p => (p, measured p)) (List.filter (fun p => negb (unmeasured p)) profiles) in
  let rejected :=
    map (fun p => (mp_name p, "no trusted measurement")) (List.filter unmeasured profiles) ++
    omap (fun c : candidate => m ← c.2; r ← rejection request m; Some (mp_name c.1, r)) candidates in
  let eligible := List.filter (eligible request rates) candidates in
  match eligible with
  | [] => Ok {| profile := None; route_reason := "no eligible profile"; rejected := rejected |}
  | _ =>
      scored ← result_map (fun c => k ← score_of rates c; Ok (c, k)) eligible;
      Ok {| profile := fst <$> best scored; route_reason := "selected highest-scoring eligible profile";
            rejected := rejected |}
  end.

Definition route_measured (request : RoutingRequest) (profiles : list ModelProfile)
    (measurements : gmap string RoutingMeasurement) : result RouteDecision :=
  route request profiles None (Some measurements).

(** ** What the router promises *)

(** No NaN among the numbers the limits are compared with. *)
Definition comparable (request : RoutingRequest) (m : RoutingMeasurement) : Prop :=
  f_is_nan (ms_cost_usd m) = false /\ f_is_nan (ms_latency_ms m) = false /\
  f_is_nan (ms_success_rate m) = false /\ f_is_nan (max_cost_usd request) = false /\
  f_is_nan (min_success_rate request) = false.

Lemma f_gt_Z_le x z : f_is_nan x = false -> num_le (NFloat x) (NInt z) = negb (f_gt_Z x z).
Proof.
  intros Hx. unfold num_le, num_lt, num_eq, f_gt_Z. cbn [num_compare].
  assert (is_Some (f_cmp_Z x z)) as [c ->] by (destruct x; try discriminate Hx; eauto).
  by destruct c.
Qed.

(** On comparable numbers the rejection reasons are exactly the complement of
    eligibility. *)
Lemma rejection_eligible request p m : comparable request m ->
  rejection request m = None <-> eligible request ∅ (p, Some m) = true.
Proof.
  intros (H1 & H2 & H3 & H4 & H5). unfold rejection, eligible.
  cbn [c_available c_capabilities c_cost c_latency c_rate snd fst].
  rewrite (f_le_not_lt (ms_cost_usd m)), (f_gt_Z_le _ _ H2), (f_le_not_lt (min_success_rate request)) by done.
  assert (required_capabilities request ∖ ms_capabilities m = ∅ <->
          required_capabilities request ⊆ ms_capabilities m) as Hsub
    by (split; [apply empty_difference_subseteq_L|apply subseteq_empty_difference_L]).
  rewrite (bool_decide_ext _ _ Hsub).
  destruct (ms_available m), (bool_decide _), (f_lt (max_cost_usd request) _), (f_gt_Z _ _), (f_lt (ms_success_rate m) _);
    simpl; split; try done; by intros.
Qed.

Definition measured_candidates (profiles : list ModelProfile) (ms : gmap string RoutingMeasurement) : list candidate :=
  map (fun p => (p, ms !! mp_name p))
      (List.filter (fun p => negb (bool_decide (ms !! mp_name p = None))) profiles).

Lemma elem_measured_candidates profiles ms c :
  c ∈ measured_candidates profiles ms <->
  c.1 ∈ profiles /\ c.2 = ms !! mp_name c.1 /\ is_Some c.2.
Proof.
  unfold measured_candidates. rewrite elem_map. setoid_rewrite elem_filterb. split.
  - intros (p & [Hp Hb] & ->). simpl. boolify. split_and!; [done|done|]. by apply not_eq_None_Some.
  - intros (Hp & Hc & Hs). destruct c as [p o]; simpl in *. subst o. exists p. split_and!; [done| |done].
    boolify. by apply not_eq_None_Some.
Qed.

Definition measured_rejections (request : RoutingRequest) (profiles : list ModelProfile)
    (ms : gmap string RoutingMeasurement) : list (string * string) :=
  map (fun p => (mp_name p, "no trusted measurement"))
      (List.filter (fun p => bool_decide (ms !! mp_name p = None)) profiles) ++
  omap (fun c : candidate => m ← c.2; r ← rejection request m; Some (mp_name c.1, r))
       (measured_candidates profiles ms).

Lemma route_measured_inv request profiles ms d :
  route_measured request profiles ms = Ok d ->
  NoDup (map mp_name profiles) /\ rejected d = measured_rejections request profiles ms /\
  exists scored,
    result_map (fun c => k ← score_of ∅ c; Ok (c, k))
      (List.filter (eligible request ∅) (measured_candidates profiles ms)) = Ok scored /\
    profile d = fst <$> best scored.
Proof.
  unfold route_measured, route. intros H.
  apply bind_Ok in H as (? & _ & H). apply bind_Ok in H as (? & _ & H).
  apply bind_Ok in H as (? & _ & H). apply bind_Ok in H as (? & Hnd%raise_if_Ok & H). boolify.
  split; [done|]. cbn [option_bind mbind] in H.
  rewrite bool_decide_eq_true_2 in H by eauto. simpl in H.
  change (omap _ ?l) with (omap (fun c : candidate => m ← c.2; r ← rejection request m; Some (mp_name c.1, r)) l) in H.
  fold (measured_candidates profiles ms) in H.
  destruct (List.filter (eligible request ∅) (measured_candidates profiles ms)) as [|c l] eqn:E.
  - injection H as <-. split; [done|]. by exists [].
  - apply bind_Ok in H as (scored & Hs & H). injection H as <-. split; [done|]. by exists scored.
Qed.

Lemma elem_measured_rejections request profiles ms name r :
  (name, r) ∈ measured_rejections request profiles ms <->
  exists p, p ∈ profiles /\ name = mp_name p /\
    match ms !! mp_name p with
    | None => r = "no trusted measurement"
    | Some m => rejection request m = Some r
    end.
Proof.
  unfold measured_rejections. rewrite elem_of_app, elem_map, list_elem_of_omap.
  setoid_rewrite elem_filterb. setoid_rewrite elem_measured_candidates. split.
  - intros [(p & [Hp Hb] & [= -> ->])|((p & o) & (Hp & Ho & [m Hm]) & Heq)]; simpl in *.
    + boolify. exists p. by rewrite Hb.
    + subst o. rewrite Hm in Heq. simpl in Heq. destruct (rejection request m) eqn:E; [|done].
      injection Heq as <- <-. exists p. by rewrite Hm.
  - intros (p & Hp & -> & Hr). destruct (ms !! mp_name p) as [m|] eqn:E; [right|left].
    + exists (p, Some m). simpl. rewrite E, Hr. eauto.
    + subst r. exists p. split_and!; [done| |done]. by boolify.
Qed.

Lemma name_inj (profiles : list ModelProfile) p q :
  NoDup (map mp_name profiles) -> p ∈ profiles -> q ∈ profiles -> mp_name p = mp_name q -> p = q.
Proof. apply NoDup_map_inj. Qed.

(** Measured routing accounts for every profile: a profile without a
    measurement is left out as "no trusted measurement" (its static claims are
    never consulted), a measured profile is either eligible or carries exactly
    one reason, and a route with no selection has refused them all. *)
Theorem route_accounts_for_all request profiles ms d :
  route_measured request profiles ms = Ok d ->
  (forall name m, ms !! name = Some m -> comparable request m) ->
  (forall p, p ∈ profiles ->
     match ms !! mp_name p with
     | None => forall r, (mp_name p, r) ∈ rejected d <-> r = "no trusted measurement"
     | Some m =>
         (eligible request ∅ (p, Some m) = true /\ forall r, (mp_name p, r) ∉ rejected d) \/
         (eligible request ∅ (p, Some m) = false /\ exists r, forall r', (mp_name p, r') ∈ rejected d <-> r' = r)
     end) /\
  (profile d = None -> forall p, p ∈ profiles -> exists r, (mp_name p, r) ∈ rejected d).
Proof.
  intros (Hnd & Hr & scored & Hs & Hp)%route_measured_inv Hcmp. rewrite Hr, Hp. clear Hr Hp.
  assert (forall p r, p ∈ profiles -> (mp_name p, r) ∈ measured_rejections request profiles ms <->
    match ms !! mp_name p with None => r = "no trusted measurement" | Some m => rejection request m = Some r end) as Hel.
  { intros p r Hp. rewrite elem_measured_rejections. split; [|eauto].
    intros (q & Hq & Hn & Hm). by rewrite (name_inj _ _ _ Hnd Hp Hq Hn). }
  assert (forall p, p ∈ profiles ->
     match ms !! mp_name p with
     | None => forall r, (mp_name p, r) ∈ measured_rejections request profiles ms <-> r = "no trusted measurement"
     | Some m =>
         (eligible request ∅ (p, Some m) = true /\ forall r, (mp_name p, r) ∉ measured_rejections request profiles ms) \/
         (eligible request ∅ (p, Some m) = false /\
          exists r, forall r', (mp_name p, r') ∈ measured_rejections request profiles ms <-> r' = r)
     end) as Hall.
  { intros p Hp. pose proof (Hel p) as Hpr. destruct (ms !! mp_name p) as [m|] eqn:E; [|auto].
    pose proof (rejection_eligible request p m (Hcmp _ _ E)) as Hre.
    destruct (rejection request m) as [r|]; [right|left].
    - split; [destruct (eligible _ _ _); [discriminate (proj2 Hre eq_refl)|done]|]. exists r. intros r'. rewrite Hpr by done. naive_solver.
    - split; [by apply Hre|]. intros r. by rewrite Hpr. }
  split; [done|]. intros Hnone p Hp. specialize (Hall p Hp).
  assert (scored = []) as ->. { destruct scored as [|x l]; [done|discriminate Hnone]. }
  destruct (ms !! mp_name p) as [m|] eqn:E; [|exists "no trusted measurement"; by apply Hall].
  destruct Hall as [[He _]|[_ [r Hr]]]; [exfalso|exists r; by apply Hr].
  apply result_map_nil in Hs. eapply elem_of_nil. rewrite <- Hs. apply elem_filterb.
  split; [|exact He]. apply elem_measured_candidates. simpl. by rewrite E.
Qed.

Definition demo_measurement (cost : Z) (caps : gset string) : RoutingMeasurement :=
  {| ms_capabilities := caps; ms_available := true; ms_latency_ms := f_of_Z 250; ms_cost_usd := f_ratio cost 100;
     ms_success_rate := f_ratio 9 10; ms_sample_count := 12; ms_load := f_zero |}.
Definition demo_profile (name : string) : ModelProfile :=
  {| mp_name := name; mp_tier := BASIC; mp_capabilities := {["code"]}; mp_cost_usd := f_zero; mp_latency_ms := 100;
     mp_load := f_zero; mp_available := true |}.
Definition demo_request : RoutingRequest :=
  {| required_capabilities := {["code"]}; max_cost_usd := f_ratio 1 10; max_latency_ms := 1000;
     min_success_rate := f_ratio 1 2 |}.
Definition demo_profiles : list ModelProfile := map demo_profile ["a"; "b"; "c"; "d"].
Definition demo_measurements : gmap string RoutingMeasurement :=
  <["a" := demo_measurement 5 {["code"]}]> (<["b" := demo_measurement 3 {["code"]}]> {["c" := demo_measurement 1 ∅]}).
Definition demo_decision : RouteDecision :=
  {| profile := Some (demo_profile "b"); route_reason := "selected highest-scoring eligible profile";
     rejected := [("d", "no trusted measurement"); ("c", "capabilities not demonstrated: code")] |}.

Lemma demo_routed : route_measured demo_request demo_profiles demo_measurements = Ok demo_decision.
Proof. vm_compute. reflexivity. Qed.

Lemma demo_comparable name m : demo_measurements !! name = Some m -> comparable demo_request m.
Proof.
  unfold demo_measurements. rewrite !lookup_insert_Some, lookup_singleton_Some.
  intros H; repeat (destruct H as [H|H] || destruct H as [? H]); subst; by vm_compute.
Qed.

Lemma route_accounts_for_all_witness :
  route_measured demo_request demo_profiles demo_measurements = Ok demo_decision /\
  forall r, (mp_name (demo_profile "d"), r) ∈ rejected demo_decision <-> r = "no trusted measurement".
Proof.
  split; [exact demo_routed|].
  exact (proj1 (route_accounts_for_all _ _ _ _ demo_routed demo_comparable) (demo_profile "d")
           ltac:(unfold demo_profiles; simpl; do 3 right; left)).
Defined.

(** The score of a candidate, for the comparison of two of them. *)
Definition key (c : candidate) : score :=
  (score_value ∅ c, c_samples c, f_neg (c_cost c), num_neg (c_latency c), mp_name c.1).

(** Every position of the key is a number. *)
Definition proper_key (k : score) : Prop :=
  let '(v, _, c, l, _) := k in
  f_is_nan v = false /\ f_is_nan c = false /\ match l with NFloat f => f_is_nan f = false | NInt _ => False end.

Definition key_value (k : score) : float := k.1.1.1.1.
Definition key_samples (k : score) : Z := k.1.1.1.2.
Definition key_cost (k : score) : float := k.1.1.2.
Definition key_latency (k : score) : float := num_float k.1.2.

Lemma score_gt_lex a b : proper_key a -> proper_key b ->
  score_gt a b =
  (if negb (f_eq (key_value b) (key_value a)) then f_lt (key_value b) (key_value a)
   else if negb (key_samples b =? key_samples a) then key_samples b <? key_samples a
   else if negb (f_eq (key_cost b) (key_cost a)) then f_lt (key_cost b) (key_cost a)
   else if negb (f_eq (key_latency b) (key_latency a)) then f_lt (key_latency b) (key_latency a)
   else negb (str_le a.2 b.2)).
Proof.
  destruct a as [[[[v1 s1] c1] l1] n1], b as [[[[v2 s2] c2] l2] n2]. simpl.
  intros (Hv1 & Hc1 & Hl1) (Hv2 & Hc2 & Hl2).
  destruct l1 as [|l1], l2 as [|l2]; try done. unfold key_value, key_samples, key_cost, key_latency; simpl.
  assert (forall x y, f_is_nan x = false -> f_is_nan y = false -> f_eq x y = f_eq y x) as Hsym.
  { intros x y Hx Hy. rewrite (f_eq_lt x), (f_eq_lt y) by done. apply andb_comm. }
  rewrite (Hsym v2), (Hsym c2), (Hsym l2), (Z.eqb_sym s2) by done.
  assert (num_eq (NFloat l1) (NFloat l2) = f_eq l1 l2) as ->.
  { unfold num_eq, num_compare, f_eq, SFeqb. by destruct (SFcompare l1 l2) as [[]|]. }
  assert (num_lt (NFloat l2) (NFloat l1) = f_lt l2 l1) as ->; [|done].
  unfold num_lt, num_compare, f_lt, SFltb. by destruct (SFcompare l2 l1) as [[]|].
Qed.

Lemma score_gt_swo : swo proper_key score_gt.
Proof.
  assert (swo proper_key (fun b a =>
    if negb (f_eq (key_value b) (key_value a)) then f_lt (key_value b) (key_value a)
    else if negb (key_samples b =? key_samples a) then key_samples b <? key_samples a
    else if negb (f_eq (key_cost b) (key_cost a)) then f_lt (key_cost b) (key_cost a)
    else if negb (f_eq (key_latency b) (key_latency a)) then f_lt (key_latency b) (key_latency a)
    else negb (str_le a.2 b.2))) as H.
  { apply (swo_lex_float _ key_value). { intros [[[[? ?] ?] []] ?]; simpl; tauto. }
    apply (swo_lex_Z _ key_samples).
    apply (swo_lex_float _ key_cost). { intros [[[[? ?] ?] []] ?]; simpl; tauto. }
    apply (swo_lex_float _ key_latency). { intros [[[[? ?] ?] []] ?]; simpl; tauto. }
    apply (swo_str _ snd). }
  apply (swo_ext _ _ _ score_gt_lex), (swo_flip _ _ H).
Qed.

Lemma eligible_fields request rates p m : eligible request rates (p, Some m) = true ->
  ms_available m = true /\ required_capabilities request ⊆ ms_capabilities m /\
  f_le (ms_cost_usd m) (max_cost_usd request) = true /\ f_le_Z (ms_latency_ms m) (max_latency_ms request) = true /\
  f_le (min_success_rate request) (ms_success_rate m) = true.
Proof.
  unfold eligible. intros H. boolify. split_and!; try done. unfold f_le_Z.
  match goal with H : num_le _ _ = true |- _ => unfold num_le, num_lt, num_eq in H; simpl in H end.
  by destruct (f_cmp_Z _ _) as [[]|].
Qed.

(** The keyed candidates [max] ranges over. *)
Section scored.
Context (request : RoutingRequest) (profiles : list ModelProfile) (ms : gmap string RoutingMeasurement).
Context (scored : list (candidate * score)).
Context (Hs : result_map (fun c => k ← score_of ∅ c; Ok (c, k))
                (List.filter (eligible request ∅) (measured_candidates profiles ms)) = Ok scored).
Context (Hnum : forall p m, p ∈ profiles -> ms !! mp_name p = Some m -> eligible request ∅ (p, Some m) = true ->
                  f_is_nan (score_value ∅ (p, Some m)) = false).

Lemma elem_scored c k : (c, k) ∈ scored -> k = key c /\ proper_key k /\ exists p m, c = (p, Some m) /\
  p ∈ profiles /\ ms !! mp_name p = Some m /\ eligible request ∅ c = true.
Proof using Hs Hnum.
  intros H. apply (result_map_elem _ _ _ Hs) in H as (x & [Hx He]%elem_filterb & H).
  apply bind_Ok in H as (k' & Hk & [= -> ->]). apply bind_Ok in Hk as ([] & _ & [= <-]).
  apply elem_measured_candidates in Hx as (Hc1 & Hc2 & [m Hm]). destruct c as [p o]; cbn [fst snd] in *. rewrite Hm in Hc2.
  subst o. symmetry in Hc2. split; [done|]. pose proof (eligible_fields _ _ _ _ He) as (_ & _ & Hcost & Hlat & _).
  split; [|exists p, m; split_and!; auto]. cbn [proper_key key]. split_and!; [apply (Hnum p m); auto|rewrite f_neg_nan; exact (proj1 (f_le_num _ _ Hcost))|].
  change (f_is_nan (f_neg (ms_latency_ms m)) = false). rewrite f_neg_nan. unfold f_le_Z in Hlat. by destruct (ms_latency_ms m).
Qed.

Lemma scored_elem p m : p ∈ profiles -> ms !! mp_name p = Some m -> eligible request ∅ (p, Some m) = true ->
  exists k, ((p, Some m), k) ∈ scored.
Proof using Hs.
  intros Hp Hm He.
  assert ((p, Some m) ∈ List.filter (eligible request ∅) (measured_candidates profiles ms)) as Hin.
  { apply elem_filterb. split; [|done]. apply elem_measured_candidates. simpl. rewrite Hm. eauto. }
  destruct (result_map_all _ _ _ _ Hs Hin) as [y Hy]. pose proof Hy as (k & _ & [= <-])%bind_Ok.
  exists k. apply (result_map_elem _ _ _ Hs). eauto.
Qed.
End scored.

(** Measured routing selects an eligible profile (measured as available,
    with every required capability demonstrated, within the cost and latency
    limits, at or above the success floor), and no eligible profile scores
    higher; it selects none only when none is eligible. *)
Theorem route_selects_best request profiles ms d :
  route_measured request profiles ms = Ok d ->
  (forall p m, p ∈ profiles -> ms !! mp_name p = Some m -> eligible request ∅ (p, Some m) = true ->
     f_is_nan (score_value ∅ (p, Some m)) = false) ->
  match profile d with
  | None => forall p m, p ∈ profiles -> ms !! mp_name p = Some m -> eligible request ∅ (p, Some m) = false
  | Some p => exists m, p ∈ profiles /\ ms !! mp_name p = Some m /\
      ms_available m = true /\ required_capabilities request ⊆ ms_capabilities m /\
      f_le (ms_cost_usd m) (max_cost_usd request) = true /\ f_le_Z (ms_latency_ms m) (max_latency_ms request) = true /\
      f_le (min_success_rate request) (ms_success_rate m) = true /\
      forall q mq, q ∈ profiles -> ms !! mp_name q = Some mq -> eligible request ∅ (q, Some mq) = true ->
        score_gt (key (q, Some mq)) (key (p, Some m)) = false
  end.
Proof.
  intros (Hnd & _ & scored & Hs & Hp)%route_measured_inv Hnum. rewrite Hp. clear Hp.
  pose proof (elem_scored _ _ _ _ Hs Hnum) as Hkey.
  destruct scored as [|x l]; simpl.
  - intros p m Hp Hm. apply not_true_iff_false. intros He.
    by destruct (scored_elem _ _ _ _ Hs p m Hp Hm He) as [k Hk%not_elem_of_nil].
  - set (gt := fun a b : candidate * score => score_gt a.2 b.2).
    destruct (max_by gt x l) as [c k] eqn:E.
    assert ((c, k) ∈ x :: l) as Hin by (rewrite <- E; apply max_by_elem_cons).
    destruct (Hkey _ _ Hin) as (-> & Hpk & p & m & -> & Hp & Hm & He). simpl.
    exists m. pose proof (eligible_fields _ _ _ _ He). split_and!; try tauto.
    intros q mq Hq Hmq Heq. destruct (scored_elem _ _ _ _ Hs q mq Hq Hmq Heq) as [kq Hkq].
    destruct (Hkey _ _ Hkq) as (-> & _).
    enough (gt ((q, Some mq), key (q, Some mq)) (max_by gt x l) = false) as Hgt by (rewrite E in Hgt; exact Hgt).
    apply (max_by_maximal (fun a => proper_key a.2)); [|apply Forall_forall|done].
    + exact (swo_map snd _ (fun a : candidate * score => proper_key a.2) score_gt (fun _ H => H) score_gt_swo).
    + intros [c k] Hc. apply (Hkey c k Hc).
Qed.

Lemma route_selects_best_witness :
  route_measured demo_request demo_profiles demo_measurements = Ok demo_decision /\
  exists m, demo_measurements !! "b" = Some m /\
    score_gt (key (demo_profile "a", Some (demo_measurement 5 {["code"]}))) (key (demo_profile "b", Some m)) = false.
Proof.
  split; [exact demo_routed|].
  destruct (route_selects_best _ _ _ _ demo_routed) as (m & _ & Hm & _ & _ & _ & _ & _ & Hbest).
  - intros p m Hp Hm _. unfold demo_profiles in Hp. simpl in Hp.
    repeat (apply elem_of_cons in Hp as [->|Hp]; [vm_compute in Hm; first [discriminate Hm|injection Hm as <-; vm_compute; reflexivity]|]).
    by apply not_elem_of_nil in Hp.
  - exists m. split; [exact Hm|]. apply Hbest; [unfold demo_profiles; simpl; left|reflexivity|vm_compute; reflexivity].
Defined.
