(* ===== verification/Events.v ===== *)
(** * Events: the normalized event contract

    Models [src/sdf_core/events.py]: provenance of an event kind, the
    deterministic merge of the streams, and the summary of each stream. *)

From S2P Require Import Prelude Json Db EvidenceMac Flush Samples.

Definition ACTION_BOUNDARY_PREFIX : string := "tool_".
Definition TOOL_PROXY_SOURCE : string := "tool-proxy".
Definition TRUSTED_ACTION_SOURCES : list string := [TOOL_PROXY_SOURCE].

Inductive EventCategory : Type := RUNTIME_OBSERVATION | ACTION_BOUNDARY.

#[export] Instance EventCategory_eq_dec : EqDecision EventCategory.
Proof. solve_decision. Defined.

Definition EventCategory_value (c : EventCategory) : string :=
  match c with RUNTIME_OBSERVATION => "runtime_observation" | ACTION_BOUNDARY => "action_boundary" end.

(** A kind given as its text ([_kind_value]). *)
Definition category_of (kind : string) : EventCategory :=
  if str_startswith ACTION_BOUNDARY_PREFIX kind then ACTION_BOUNDARY else RUNTIME_OBSERVATION.

Definition trusted_source (source : string) : bool := str_in source TRUSTED_ACTION_SOURCES.

Definition validate_provenance (source kind : string) : result EventCategory :=
  let category := category_of kind in
  let trusted := trusted_source source in
  _ ← raise_if (bool_decide (category = ACTION_BOUNDARY) && negb trusted)
        (UntrustedEventError (str_repr kind +:+ " is an action-boundary event; only ['tool-proxy'] may emit it, not " +:+
                              str_repr source));
  _ ← raise_if (trusted && negb (bool_decide (category = ACTION_BOUNDARY)))
        (UntrustedEventError ("source " +:+ str_repr source +:+ " is reserved for action-boundary (tool_*) events, not " +:+
                              str_repr kind));
  Ok category.

Definition validate_runtime_source (source : string) : result unit :=
  raise_if (trusted_source source) (UntrustedEventError ("source " +:+ str_repr source +:+ " is reserved for the Tool Proxy")).

Record StreamSummary : Type := {
  ss_source : string; ss_attempt_id : string; ss_session_id : string; ss_category : EventCategory;
  ss_count : Z; ss_first_sequence : Z; ss_last_sequence : Z; ss_gaps : list Z;
  ss_last_kind : string; ss_last_status : string
}.

Definition as_dict (s : StreamSummary) : json :=
  JObj [("source", JStr (ss_source s)); ("attempt_id", JStr (ss_attempt_id s)); ("session_id", JStr (ss_session_id s));
        ("category", JStr (EventCategory_value (ss_category s))); ("count", JInt (ss_count s));
        ("first_sequence", JInt (ss_first_sequence s)); ("last_sequence", JInt (ss_last_sequence s));
        ("gaps", JArr (map JInt (ss_gaps s))); ("last_kind", JStr (ss_last_kind s));
        ("last_status", JStr (ss_last_status s))].

(** [_at]: a stored row always has a time; a naive one is read as UTC. *)
Definition event_at (row : RuntimeEventRow) : datetime := aware (re_created_at row).

Definition stream : Type := string * string * string.

Definition stream_key (row : RuntimeEventRow) : stream := (re_source row, re_attempt_id row, re_session_id row).

(** Tuple comparison of the keys: [<=] and [<]. *)
Definition stream_le (a b : stream) : bool :=
  if negb (str_eq a.1.1 b.1.1) then str_le a.1.1 b.1.1
  else if negb (str_eq a.1.2 b.1.2) then str_le a.1.2 b.1.2
  else str_le a.2 b.2.
Definition stream_lt (a b : stream) : bool := negb (stream_le b a).

(** The sort key [(r.sequence, r.id or 0)]. *)
Definition event_le (a b : RuntimeEventRow) : bool :=
  if negb (re_sequence a =? re_sequence b) then re_sequence a <? re_sequence b else re_id a <=? re_id b.

(** A stream with the events that are left of it; its first is the head. *)
Definition pending : Type := stream * list RuntimeEventRow.

(** Comparison of two heads by [(_at(head), key, head.sequence)]. *)
Definition head_lt (a b : pending) : bool :=
  match a.2, b.2 with
  | r :: _, s :: _ =>
      if negb (dt_us (event_at r) =? dt_us (event_at s)) then dt_us (event_at r) <? dt_us (event_at s)
      else if negb (bool_decide (a.1 = b.1)) then stream_lt a.1 b.1
      else re_sequence r <? re_sequence s
  | _, _ => false
  end.

(** [heads[key] += 1], and [del heads[key]] at the end of the stream. *)
Definition advance (key : stream) (heads : list pending) : list pending :=
  omap (fun p : pending =>
    if bool_decide (p.1 = key) then
      match p.2 with _ :: _ :: _ => Some (key, tail p.2) | _ => None end
    else Some p) heads.

(** The [while heads] loop; each round emits one event. *)
Fixpoint merge_heads (fuel : nat) (heads : list pending) : list RuntimeEventRow :=
  match fuel with
  | O => []
  | S fuel =>
      match heads with
      | [] => []
      | h :: t =>
          let best := max_by head_lt h t in
          match best.2 with
          | [] => []
          | r :: _ => r :: merge_heads fuel (advance best.1 heads)
          end
      end
  end.

Definition streams (rows : list RuntimeEventRow) : list pending :=
  map (fun p => (p.1, sort_by event_le p.2)) (group stream_key rows).

Definition order_events (rows : list RuntimeEventRow) : list RuntimeEventRow :=
  merge_heads (length rows) (streams rows).

(** The public shape of one stored event; the constant [acceptance_evidence]
    entry is a field of its own. *)
Record NormalizedEvent : Type := {
  ne_source : string; ne_attempt_id : string; ne_session_id : string; ne_sequence : Z; ne_kind : string;
  ne_status : string; ne_payload : json; ne_created_at : datetime; ne_category : string;
  ne_trusted_boundary : bool; ne_acceptance_evidence : bool
}.

Definition normalized (row : RuntimeEventRow) : NormalizedEvent :=
  let category := category_of (re_kind row) in
  {| ne_source := re_source row; ne_attempt_id := re_attempt_id row; ne_session_id := re_session_id row;
     ne_sequence := re_sequence row; ne_kind := re_kind row; ne_status := re_status row;
     ne_payload := re_payload row; ne_created_at := re_created_at row;
     ne_category := EventCategory_value category;
     ne_trusted_boundary := trusted_source (re_source row) && bool_decide (category = ACTION_BOUNDARY);
     ne_acceptance_evidence := false |}.

Definition events_for_attempts (d : Db) (attempt_ids : list string) : list RuntimeEventRow :=
  match attempt_ids with
  | [] => []
  | _ => order_events (List.filter (fun r => str_in (re_attempt_id r) attempt_ids) (rows (d_runtime_events d)))
  end.

Definition summary (key : stream) (items : list RuntimeEventRow) : option StreamSummary :=
  let items := sort_by (fun a b => re_sequence a <=? re_sequence b) items in
  let sequences := map re_sequence items in
  first ← head items;
  final ← last items;
  let gaps := List.filter (fun n => negb (bool_decide (n ∈ sequences))) (range1 (re_sequence final)) in
  Some {| ss_source := key.1.1; ss_attempt_id := key.1.2; ss_session_id := key.2;
          ss_category := category_of (re_kind final); ss_count := Z.of_nat (length items);
          ss_first_sequence := re_sequence first; ss_last_sequence := re_sequence final; ss_gaps := gaps;
          ss_last_kind := re_kind final; ss_last_status := re_status final |}.

(** [for key in sorted(streams)]; a stream is never empty. *)
Definition summarize (rows : list RuntimeEventRow) : list StreamSummary :=
  omap (fun p : pending => summary p.1 p.2)
       (sort_by (fun a b : pending => stream_le a.1 b.1) (group stream_key rows)).

Definition kind_counts (rows : list RuntimeEventRow) : list (string * Z) :=
  sort_by (fun a b : string * Z => str_le a.1 b.1)
          (map (fun p : string * list RuntimeEventRow => (p.1, Z.of_nat (length p.2))) (group re_kind rows)).

(** ** Provenance *)

Lemma startswith_take p s : str_startswith p s = str_eq (str_take (String.length p) s) p.
Proof.
  apply eq_true_iff_eq. unfold str_startswith, str_eq, str_take.
  rewrite bool_decide_eq_true. apply String.prefix_correct.
Qed.

Lemma trusted_source_eq source : trusted_source source = str_eq source TOOL_PROXY_SOURCE.
Proof.
  unfold trusted_source, TRUSTED_ACTION_SOURCES, str_in, str_eq. apply bool_decide_ext, list_elem_of_singleton.
Qed.

Lemma validate_provenance_check row :
  is_ok (validate_provenance (re_source row) (re_kind row)) = check_runtime_event row.
Proof.
  unfold validate_provenance, check_runtime_event, category_of. rewrite trusted_source_eq.
  unfold ACTION_BOUNDARY_PREFIX, TOOL_PROXY_SOURCE.
  rewrite (startswith_take "tool_"). change (String.length "tool_") with 5%nat.
  by destruct (str_eq (str_take 5 (re_kind row)) "tool_"), (str_eq (re_source row) "tool-proxy").
Qed.

(** The provenance rule checked when an event is built is the database's
    CHECK constraint on the stored row; it lets exactly the Tool Proxy emit
    exactly the [tool_*] kinds, so a row that passes it is a trusted boundary
    event just when the Tool Proxy wrote it, no source a runtime controller
    may use can emit a [tool_*] kind, and no event counts as acceptance
    evidence. *)
Theorem provenance_agrees row :
  is_ok (validate_provenance (re_source row) (re_kind row)) = check_runtime_event row /\
  (forall c, validate_provenance (re_source row) (re_kind row) = Ok c ->
     ne_trusted_boundary (normalized row) = str_eq (re_source row) TOOL_PROXY_SOURCE /\
     ne_category (normalized row) = EventCategory_value c) /\
  (forall u, validate_runtime_source (re_source row) = Ok u ->
     ne_trusted_boundary (normalized row) = false /\
     (str_startswith ACTION_BOUNDARY_PREFIX (re_kind row) = true ->
      is_ok (validate_provenance (re_source row) (re_kind row)) = false)) /\
  ne_acceptance_evidence (normalized row) = false.
Proof.
  rewrite (validate_provenance_check row). split; [done|].
  unfold validate_runtime_source, validate_provenance, check_runtime_event, normalized, category_of.
  cbn [ne_trusted_boundary ne_category ne_acceptance_evidence].
  rewrite trusted_source_eq. unfold ACTION_BOUNDARY_PREFIX, TOOL_PROXY_SOURCE.
  rewrite (startswith_take "tool_"). change (String.length "tool_") with 5%nat.
  destruct (str_eq (str_take 5 (re_kind row)) "tool_"), (str_eq (re_source row) "tool-proxy");
    simpl; split_and!; try done; by intros ? [= <-].
Qed.

Definition forged_event : RuntimeEventRow :=
  {| re_id := 1; re_source := "pi"; re_attempt_id := "A"; re_session_id := "S"; re_sequence := 1;
     re_kind := "tool_policy_decided"; re_status := "ok"; re_payload := JNull; re_created_at := DateTime 0 true |}.

Lemma provenance_agrees_witness :
  validate_runtime_source (re_source forged_event) = Ok () /\
  is_ok (validate_provenance (re_source forged_event) (re_kind forged_event)) = false.
Proof.
  split; [vm_compute; reflexivity|].
  exact (proj2 (proj1 (proj2 (proj2 (provenance_agrees forged_event))) () ltac:(vm_compute; reflexivity))
    ltac:(vm_compute; reflexivity)).
Defined.

(** ** The merge *)

Definition event_leP (a b : RuntimeEventRow) : Prop := event_le a b = true.

Lemma event_le_total a b : event_le a b = true \/ event_le b a = true.
Proof. unfold event_le. destruct (Z.eqb_spec (re_sequence a) (re_sequence b)), (Z.eqb_spec (re_sequence b) (re_sequence a)); simpl; lia. Qed.

Lemma event_le_trans a b c : event_le a b = true -> event_le b c = true -> event_le a c = true.
Proof.
  unfold event_le.
  destruct (Z.eqb_spec (re_sequence a) (re_sequence b)), (Z.eqb_spec (re_sequence b) (re_sequence c)),
    (Z.eqb_spec (re_sequence a) (re_sequence c)); simpl; lia.
Qed.

Lemma event_le_antisym a b : event_le a b = true -> event_le b a = true -> re_id a = re_id b.
Proof.
  unfold event_le.
  destruct (Z.eqb_spec (re_sequence a) (re_sequence b)), (Z.eqb_spec (re_sequence b) (re_sequence a)); simpl; lia.
Qed.

Lemma stream_le_total a b : stream_le a b = true \/ stream_le b a = true.
Proof.
  unfold stream_le, str_eq. destruct a as [[a1 a2] a3], b as [[b1 b2] b3]; simpl.
  repeat case_bool_decide; subst; simpl; try done; auto using str_le_total.
Qed.

Lemma stream_le_antisym a b : stream_le a b = true -> stream_le b a = true -> a = b.
Proof.
  unfold stream_le, str_eq. destruct a as [[a1 a2] a3], b as [[b1 b2] b3]; simpl.
  repeat case_bool_decide; subst; simpl; try done; intros; try (by f_equal; apply str_le_antisym);
    exfalso; eauto using str_le_antisym.
Qed.

Lemma stream_le_trans a b c : stream_le a b = true -> stream_le b c = true -> stream_le a c = true.
Proof.
  unfold stream_le, str_eq. destruct a as [[a1 a2] a3], b as [[b1 b2] b3], c as [[c1 c2] c3]; simpl.
  repeat case_bool_decide; subst; simpl; try done; eauto using str_le_trans; intros;
    exfalso; eauto using str_le_antisym.
Qed.

(** Heads of distinct streams are totally ordered. *)
Definition proper_pending (p : pending) : Prop := p.2 <> [].

Lemma stream_lt_swo {A} (P : A -> Prop) (k : A -> stream) : swo P (fun a b => stream_lt (k a) (k b)).
Proof.
  unfold stream_lt. split.
  - intros a b _ _ H%negb_true_iff. apply negb_false_iff. by destruct (stream_le_total (k a) (k b)); [|congruence].
  - intros a b c _ _ _ H%negb_false_iff K%negb_false_iff. apply negb_false_iff. eauto using stream_le_trans.
Qed.

Definition head_us (p : pending) : Z := match p.2 with r :: _ => dt_us (event_at r) | [] => 0 end.
Definition head_seq (p : pending) : Z := match p.2 with r :: _ => re_sequence r | [] => 0 end.

Lemma head_lt_swo : swo proper_pending head_lt.
Proof.
  apply (swo_ext _ _ (fun a b => if negb (head_us a =? head_us b) then head_us a <? head_us b
    else if negb (bool_decide (a.1 = b.1)) then stream_lt a.1 b.1 else head_seq a <? head_seq b)).
  { intros [a [|r ?]] [b [|s ?]]; unfold proper_pending; done. }
  apply (swo_lex_Z _ head_us).
  apply (swo_lex _ (fun a b : pending => bool_decide (a.1 = b.1)) (fun a b => stream_lt a.1 b.1)).
  - intros a b _ _. apply eq_true_iff_eq. unfold stream_lt.
    rewrite !negb_involutive, andb_true_iff, bool_decide_eq_true. split.
    + intros ->. by destruct (stream_le_total b.1 b.1).
    + intros []. by apply stream_le_antisym.
  - apply stream_lt_swo.
  - apply swo_Z.
Qed.

Lemma head_lt_separates a b : proper_pending a -> proper_pending b ->
  head_lt a b = false -> head_lt b a = false -> a.1 = b.1.
Proof.
  destruct a as [a [|r ?]], b as [b [|s ?]]; try done. unfold head_lt; cbn [fst snd]. intros _ _.
  rewrite (Z.eqb_sym (dt_us (event_at s))).
  destruct (Z.eqb_spec (dt_us (event_at r)) (dt_us (event_at s))) as [E|E]; cbn [negb]; [|lia].
  unfold stream_lt. destruct (decide (a = b)) as [|Hne]; [done|].
  rewrite !bool_decide_eq_false_2 by congruence. simpl. intros ?%negb_false_iff ?%negb_false_iff.
  by apply stream_le_antisym.
Qed.

(** The well-formed states of the merge. *)
Definition heads_ok (heads : list pending) : Prop := NoDup (map fst heads) /\ Forall proper_pending heads.

Lemma elem_advance key heads p :
  p ∈ advance key heads <->
  (p.1 <> key /\ p ∈ heads) \/ (p.1 = key /\ p.2 <> [] /\ exists r, (key, r :: p.2) ∈ heads).
Proof.
  unfold advance. rewrite list_elem_of_omap. destruct p as [k xs]; simpl. split.
  - intros ([k' ys] & Hin & H). simpl in H. case_bool_decide; [subst|].
    + destruct ys as [|y [|z ys]]; try done. injection H as <- <-. right. eauto.
    + injection H as <- <-. by left.
  - intros [[Hne Hin]|(-> & Hxs & r & Hin)]; eexists; (split; [exact Hin|]); simpl.
    + by rewrite bool_decide_eq_false_2.
    + rewrite bool_decide_eq_true_2 by done. by destruct xs.
Qed.

Lemma advance_ok key heads : heads_ok heads -> heads_ok (advance key heads).
Proof.
  intros [Hnd Hp]. split.
  - clear Hp. induction heads as [|[k xs] heads IH]; [done|]. apply NoDup_cons in Hnd as [Hk Hnd].
    specialize (IH Hnd).
    assert (forall p : pending, p ∈ advance key heads -> p.1 ∈ map fst heads) as Hsub.
    { intros [k' ys] [[_ H]|(-> & _ & r & H)]%elem_advance; apply elem_map; eauto. }
    assert (forall ys, NoDup (map fst ((k, ys) :: advance key heads))) as Hcons.
    { intros ys. apply NoDup_cons. split; [|done]. intros (p & Hin & E)%elem_map. simpl in E. subst k. apply Hk. exact (Hsub p Hin). }
    unfold advance in *. simpl. case_bool_decide; [subst|apply Hcons].
    destruct xs as [|? [|? ?]]; [done|done|apply Hcons].
  - apply Forall_forall. intros p [[_ H]|(_ & H & _)]%elem_advance; [|done].
    rewrite Forall_forall in Hp. by apply Hp.
Qed.

Lemma heads_ok_perm l k : l ≡ₚ k -> heads_ok l -> heads_ok k.
Proof. intros H [Hn Hp]. split; [by rewrite <- (Permutation_map fst H)|by rewrite <- H]. Qed.

Lemma advance_perm key l k : l ≡ₚ k -> advance key l ≡ₚ advance key k.
Proof. intros H. unfold advance. by rewrite H. Qed.

Lemma pending_inj heads a b : heads_ok heads -> a ∈ heads -> b ∈ heads -> a.1 = b.1 -> a = b.
Proof. intros [Hn _]. by apply NoDup_map_inj. Qed.

Lemma merge_heads_perm fuel l k : heads_ok l -> l ≡ₚ k -> merge_heads fuel l = merge_heads fuel k.
Proof.
  revert l k. induction fuel as [|fuel IH]; intros l k Hl Hp; [done|]. simpl.
  destruct l as [|x l], k as [|y k]; try done; try (by apply Permutation_length in Hp).
  assert (max_by head_lt x l = max_by head_lt y k) as ->.
  { apply (max_by_perm proper_pending); [apply head_lt_swo|apply Hl|done|].
    intros a b Ha Hb Hab Hba. apply (pending_inj _ _ _ Hl Ha Hb). destruct Hl as [_ Hall]. rewrite Forall_forall in Hall.
    apply head_lt_separates; auto. }
  destruct (max_by head_lt y k).2; [done|]. f_equal. apply IH; [by apply advance_ok|by apply advance_perm].
Qed.

Lemma advance_cons key k xs heads :
  advance key ((k, xs) :: heads) =
  if bool_decide (k = key) then
    match xs with _ :: _ :: _ => (key, tail xs) :: advance key heads | _ => advance key heads end
  else (k, xs) :: advance key heads.
Proof. unfold advance. simpl. case_bool_decide; [|done]. by destruct xs as [|? [|? ?]]. Qed.

Lemma advance_absent key heads : key ∉ map fst heads -> advance key heads = heads.
Proof.
  induction heads as [|[k xs] heads IH]; [done|]. intros H. rewrite advance_cons, bool_decide_eq_false_2.
  - f_equal. apply IH. intros Hin. apply H. simpl. apply elem_of_cons. by right.
  - intros ->. apply H. simpl. apply elem_of_cons. by left.
Qed.

Lemma advance_concat key r xs heads : NoDup (map fst heads) -> (key, r :: xs) ∈ heads ->
  concat (map snd heads) ≡ₚ r :: concat (map snd (advance key heads)).
Proof.
  induction heads as [|[k ys] heads IH]; [by intros _ ?%not_elem_of_nil|].
  intros [Hk Hnd]%NoDup_cons [[= <- <-]|Hin]%elem_of_cons; rewrite advance_cons.
  - rewrite bool_decide_eq_true_2, advance_absent by done. by destruct xs.
  - assert (k <> key) as Hne.
    { intros ->. apply Hk, elem_map. by exists (key, r :: xs). }
    rewrite bool_decide_eq_false_2 by done. simpl. rewrite (IH Hnd Hin). by rewrite Permutation_middle.
Qed.

Lemma merge_heads_concat fuel heads : heads_ok heads -> (length (concat (map snd heads)) <= fuel)%nat ->
  merge_heads fuel heads ≡ₚ concat (map snd heads).
Proof.
  revert heads. induction fuel as [|fuel IH]; intros heads Hok Hlen.
  - by apply Nat.le_0_r, nil_length_inv in Hlen as ->.
  - destruct heads as [|x l]; [done|]. cbn [merge_heads].
    destruct (max_by head_lt x l) as [k xs] eqn:E.
    assert ((k, xs) ∈ x :: l) as Hin by (rewrite <- E; apply max_by_elem_cons).
    destruct xs as [|r xs]. { destruct Hok as [_ Hp]. rewrite Forall_forall in Hp. by destruct (Hp _ Hin). }
    pose proof (advance_concat _ _ _ _ (proj1 Hok) Hin) as Hc. cbn [fst snd].
    rewrite Hc. constructor. apply IH; [by apply advance_ok|].
    apply Permutation_length in Hc. rewrite Hc in Hlen. cbn [length] in Hlen. lia.
Qed.

(** Every stream still to be merged holds events of its own key only. *)
Definition keyed (heads : list pending) : Prop :=
  forall k xs r, (k, xs) ∈ heads -> r ∈ xs -> stream_key r = k.

Lemma keyed_advance key heads : keyed heads -> keyed (advance key heads).
Proof.
  intros H k xs r [[_ Hin]|(Hk & _ & r' & Hin)]%elem_advance Hr; simpl in *; [by eapply H|].
  subst k. eapply H; [exact Hin|]. apply elem_of_cons. by right.
Qed.

(** The merge emits each stream in its own order. *)
Lemma merge_heads_stream fuel heads k : heads_ok heads -> keyed heads ->
  (length (concat (map snd heads)) <= fuel)%nat ->
  (forall xs, (k, xs) ∈ heads -> members stream_key k (merge_heads fuel heads) = xs) /\
  (k ∉ map fst heads -> members stream_key k (merge_heads fuel heads) = []).
Proof.
  revert heads. induction fuel as [|fuel IH]; intros heads Hok Hkey Hlen.
  - apply Nat.le_0_r, nil_length_inv in Hlen. split; [|done]. intros xs Hin.
    destruct Hok as [_ Hp]. rewrite Forall_forall in Hp. specialize (Hp _ Hin).
    destruct xs as [|r xs]; [done|]. exfalso. eapply (not_elem_of_nil r). rewrite <- Hlen.
    apply list_elem_of_In, List.in_concat. exists (r :: xs). split; [|by left].
    apply list_elem_of_In, elem_map. by exists (k, r :: xs).
  - destruct heads as [|x l].
    { split; [by intros xs ?%not_elem_of_nil|done]. }
    cbn [merge_heads]. destruct (max_by head_lt x l) as [kb ys] eqn:E.
    assert ((kb, ys) ∈ x :: l) as Hin by (rewrite <- E; apply max_by_elem_cons).
    destruct ys as [|r ys]. { destruct Hok as [_ Hp]. rewrite Forall_forall in Hp. by destruct (Hp _ Hin). }
    pose proof (advance_concat _ _ _ _ (proj1 Hok) Hin) as Hc%Permutation_length.
    pose proof (advance_ok kb _ Hok) as Hok'.
    destruct (IH (advance kb (x :: l)) Hok' (keyed_advance _ _ Hkey)) as [IH1 IH2].
    { rewrite Hc in Hlen. cbn [length] in Hlen. lia. }
    pose proof (Hkey _ _ r Hin ltac:(apply elem_of_cons; by left)) as Hr.
    cbn [fst snd]. unfold members at 1 2. cbn [List.filter]. rewrite Hr. clear Hr. fold (members stream_key k).
    split.
    + intros xs Hxs. case_bool_decide as Hk.
      * subst kb. assert ((k, xs) = (k, r :: ys)) as [= ->] by by apply (pending_inj _ _ _ Hok).
        f_equal. destruct ys as [|r' ys]; [apply IH2|apply IH1].
        -- intros ([k' zs] & [[Hne _]|(_ & Hne & r' & Hin')]%elem_advance & Hk)%elem_map; simpl in *; [done|].
           assert ((k, r' :: zs) = (k, [r])) as [= _ ->] by by apply (pending_inj _ _ _ Hok). done.
        -- apply elem_advance. right. split_and!; [done|done|]. by exists r.
      * apply IH1, elem_advance. left. split; [simpl; congruence|done].
    + intros Hk. rewrite bool_decide_eq_false_2.
      * apply IH2. intros ([k' zs] & [[_ H]|(Hk2 & _ & r' & H)]%elem_advance & ->)%elem_map;
          apply Hk, elem_map; simpl in *; [by exists (k', zs)|].
        eexists; split; [exact H|exact Hk2].
      * intros <-. apply Hk, elem_map. eexists. split; [exact Hin|done].
Qed.

Lemma streams_ok rows : heads_ok (streams rows) /\ keyed (streams rows) /\
  concat (map snd (streams rows)) ≡ₚ rows /\
  forall k xs, (k, xs) ∈ streams rows <-> xs = sort_by event_le (members stream_key k rows) /\ xs <> [].
Proof.
  destruct (group_spec stream_key rows) as [Hnd Hsp].
  assert (forall k xs, (k, xs) ∈ streams rows <-> xs = sort_by event_le (members stream_key k rows) /\ xs <> []) as Hel.
  { intros k xs. unfold streams. rewrite elem_map. split.
    - intros ([k' ys] & [-> Hne]%Hsp & [= -> ->]). split; [done|]. intros H.
      apply Hne, nil_length_inv. by rewrite <- (sort_by_length event_le), H.
    - intros [-> Hne]. exists (k, members stream_key k rows). split; [|done]. apply Hsp. split; [done|].
      intros H. apply Hne. by rewrite H. }
  split; [split|split; [|split; [|exact Hel]]].
  - unfold streams. by rewrite map_map.
  - apply Forall_forall. intros [k xs] [_ ?]%Hel. done.
  - intros k xs r [-> _]%Hel. rewrite sort_by_perm, elem_members. by intros [_ ?].
  - rewrite <- (group_concat_perm stream_key rows) at 2. unfold streams. rewrite map_map. simpl.
    generalize (group stream_key rows). intros g. induction g as [|[k xs] g IH]; simpl; [done|].
    by rewrite sort_by_perm, IH.
Qed.

Lemma sort_by_perm_eq {A} (le : A -> A -> bool) l k :
  (forall a b, le a b = true \/ le b a = true) -> (forall a b c, le a b = true -> le b c = true -> le a c = true) ->
  (forall a b, a ∈ l -> b ∈ l -> le a b = true -> le b a = true -> a = b) ->
  l ≡ₚ k -> sort_by le l = sort_by le k.
Proof.
  intros Ht Htr Ha Hp.
  apply (StronglySorted_unique_strong (fun a b => le a b = true)).
  - intros a b. rewrite sort_by_perm, sort_by_perm, <- Hp. auto.
  - by apply sort_by_sorted.
  - by apply sort_by_sorted.
  - by rewrite !sort_by_perm.
Qed.

Lemma members_perm k l l' : l ≡ₚ l' -> members stream_key k l ≡ₚ members stream_key k l'.
Proof.
  unfold members. induction 1 as [|x l l' H IH|x y l|l1 l2 l3 H1 IH1 H2 IH2]; simpl; [done| | |by etrans].
  - case_bool_decide; [by constructor|done].
  - repeat case_bool_decide; try done. by apply Permutation_swap.
Qed.

(** Merging the streams of a set of events neither loses nor invents an
    event, never breaks a stream's own order (its events come out by sequence,
    then row id), and is deterministic: the same rows, in whatever order they
    were read, give the same list. *)
Theorem order_events_merge rows :
  order_events rows ≡ₚ rows /\
  (forall k, members stream_key k (order_events rows) = sort_by event_le (members stream_key k rows) /\
             StronglySorted event_leP (members stream_key k (order_events rows))) /\
  (NoDup (map re_id rows) -> forall rows', rows' ≡ₚ rows -> order_events rows' = order_events rows).
Proof.
  destruct (streams_ok rows) as (Hok & Hkey & Hperm & Hel).
  assert (length (concat (map snd (streams rows))) <= length rows)%nat as Hlen by by rewrite Hperm.
  assert (forall k, members stream_key k (order_events rows) = sort_by event_le (members stream_key k rows)) as Hst.
  { intros k. destruct (merge_heads_stream _ _ k Hok Hkey Hlen) as [H1 H2].
    destruct (members stream_key k rows) as [|r xs] eqn:E.
    - apply H2. intros ([k' ys] & [-> Hne]%Hel & ->)%elem_map. simpl in *. by rewrite E in Hne.
    - apply H1, Hel. rewrite E. split; [done|]. intros H%(f_equal length). by rewrite sort_by_length in H. }
  split_and!.
  - unfold order_events. by rewrite merge_heads_concat.
  - intros k. rewrite Hst. split; [done|]. apply sort_by_sorted; [apply event_le_total|apply event_le_trans].
  - intros Hnd rows' Hp. destruct (streams_ok rows') as (Hok' & _ & _ & Hel').
    unfold order_events. rewrite (Permutation_length Hp).
    apply merge_heads_perm; [done|]. apply NoDup_Permutation.
    + destruct Hok' as [H _]. by apply NoDup_fmap_1 in H.
    + destruct Hok as [H _]. by apply NoDup_fmap_1 in H.
    + intros [k xs]. rewrite Hel, Hel'.
      assert (sort_by event_le (members stream_key k rows') = sort_by event_le (members stream_key k rows)) as ->; [|done].
      apply sort_by_perm_eq; [apply event_le_total|apply event_le_trans| |by apply members_perm].
      intros a b [Ha _]%elem_members [Hb _]%elem_members Hab Hba. rewrite Hp in Ha, Hb.
      apply (NoDup_map_inj re_id rows); auto using event_le_antisym.
Qed.

Definition demo_event (id : Z) (source : string) (seq at_us : Z) : RuntimeEventRow :=
  {| re_id := id; re_source := source; re_attempt_id := "A"; re_session_id := "S"; re_sequence := seq;
     re_kind := "runtime_output_observed"; re_status := "ok"; re_payload := JNull; re_created_at := DateTime at_us true |}.

(** Sequence 3 of the stream "pi" was delivered, and stored, before 2. *)
Definition demo_events : list RuntimeEventRow :=
  [demo_event 1 "pi" 3 10; demo_event 2 "pi" 1 20; demo_event 3 "qwen" 1 15; demo_event 4 "pi" 2 40].

Example demo_order : map re_id (order_events demo_events) = [3; 2; 4; 1].
Proof. vm_compute. reflexivity. Qed.

Lemma order_events_merge_witness :
  NoDup (map re_id demo_events) /\ order_events (rev demo_events) = order_events demo_events.
Proof.
  assert (NoDup (map re_id demo_events)) as H by (apply (bool_decide_unpack _); vm_compute; exact I).
  split; [exact H|].
  exact (proj2 (proj2 (order_events_merge demo_events)) H (rev demo_events) (symmetry (Permutation_rev demo_events))).
Defined.

(** ** Summaries *)

Lemma sorted_head {A} (le : A -> A -> bool) x l y :
  StronglySorted (fun a b => le a b = true) (x :: l) -> y ∈ l -> le x y = true.
Proof. intros [_ H]%StronglySorted_inv Hy. rewrite Forall_forall in H. auto. Qed.

Lemma sorted_last {A} (le : A -> A -> bool) l x y : le x x = true ->
  StronglySorted (fun a b => le a b = true) l -> last l = Some x -> y ∈ l -> le y x = true.
Proof.
  intros Hr Hs Hl Hy. apply last_Some in Hl as [l' ->]. apply elem_of_app in Hy as [Hy|Hy%list_elem_of_singleton]; [|by subst].
  induction l' as [|z l' IH]; [by apply not_elem_of_nil in Hy|]. apply StronglySorted_inv in Hs as [Hs Hz].
  apply elem_of_cons in Hy as [->|Hy]; [|auto]. rewrite Forall_forall in Hz. apply Hz, elem_of_app. right.
  by apply list_elem_of_singleton.
Qed.

Definition summary_key (s : StreamSummary) : stream := (ss_source s, ss_attempt_id s, ss_session_id s).

Lemma elem_range1 n k : k ∈ range1 n <-> 1 <= k < n.
Proof. unfold range1. rewrite elem_of_seqZ. lia. Qed.

Lemma summary_spec k items s : summary k items = Some s ->
  summary_key s = k /\ ss_count s = Z.of_nat (length items) /\
  ss_first_sequence s ∈ map re_sequence items /\ ss_last_sequence s ∈ map re_sequence items /\
  (forall n, n ∈ map re_sequence items -> ss_first_sequence s <= n <= ss_last_sequence s) /\
  (forall n, n ∈ ss_gaps s <-> 1 <= n < ss_last_sequence s /\ n ∉ map re_sequence items).
Proof.
  unfold summary. set (l := sort_by _ items). intros H.
  destruct (head l) as [first|] eqn:Eh; [|done]. destruct (last l) as [final|] eqn:El; [|done].
  injection H as <-. cbn [ss_count ss_first_sequence ss_last_sequence ss_gaps summary_key ss_source ss_attempt_id ss_session_id].
  assert (l ≡ₚ items) as Hp by apply sort_by_perm.
  assert (StronglySorted (fun a b => (re_sequence a <=? re_sequence b) = true) l) as Hs
    by (apply sort_by_sorted; intros; lia).
  assert (forall n, n ∈ map re_sequence l <-> n ∈ map re_sequence items) as Hm.
  { intros n. by rewrite (Permutation_map re_sequence Hp). }
  assert (first ∈ l) as Hf by by apply head_Some_elem_of.
  assert (final ∈ l) as Hl by by apply last_Some_elem_of.
  split_and!.
  - by destruct k as [[? ?] ?].
  - by rewrite (Permutation_length Hp).
  - apply Hm, elem_map. eauto.
  - apply Hm, elem_map. eauto.
  - intros n. rewrite <- Hm, elem_map. intros (r & Hr & ->). split.
    + destruct l as [|x l']; [done|]. injection Eh as ->. apply elem_of_cons in Hr as [->|Hr]; [lia|].
      pose proof (sorted_head _ _ _ _ Hs Hr) as Hle. cbv beta in Hle. lia.
    + pose proof (sorted_last (fun a b => re_sequence a <=? re_sequence b) _ _ _ (Z.leb_refl _) Hs El Hr) as Hle. cbv beta in Hle. lia.
  - intros n. rewrite elem_filterb, elem_range1, negb_true_iff, bool_decide_eq_false, Hm. tauto.
Qed.

Lemma summary_some k items : items <> [] -> is_Some (summary k items).
Proof.
  intros Hne. unfold summary. set (l := sort_by _ items).
  assert (l <> []) as Hl by (intros H; apply Hne, nil_length_inv; by rewrite <- (sort_by_length (fun a b => re_sequence a <=? re_sequence b) items); fold l; rewrite H).
  destruct l as [|x l'] eqn:E; [done|]. simpl. destruct (last (x :: l')) eqn:E2; [eauto|by apply last_None in E2].
Qed.

(** The summary has one entry per stream, in key order; each counts its
    stream's events, spans from the least to the greatest delivered sequence,
    and reports as gaps exactly the numbers from 1 up to the last that were
    never delivered; [kind_counts] counts every kind that occurs. *)
Theorem summarize_spec rows :
  (forall s, s ∈ summarize rows ->
     let mine := members stream_key (summary_key s) rows in
     ss_count s = Z.of_nat (length mine) /\
     ss_first_sequence s ∈ map re_sequence mine /\ ss_last_sequence s ∈ map re_sequence mine /\
     (forall n, n ∈ map re_sequence mine -> ss_first_sequence s <= n <= ss_last_sequence s) /\
     (forall n, n ∈ ss_gaps s <-> 1 <= n < ss_last_sequence s /\ n ∉ map re_sequence mine)) /\
  (forall k, k ∈ map summary_key (summarize rows) <-> k ∈ map stream_key rows) /\
  NoDup (map summary_key (summarize rows)) /\
  StronglySorted (fun a b => stream_le a b = true) (map summary_key (summarize rows)) /\
  (forall k n, (k, n) ∈ kind_counts rows <->
     n = Z.of_nat (length (List.filter (fun r => bool_decide (re_kind r = k)) rows)) /\ k ∈ map re_kind rows).
Proof.
  destruct (group_spec stream_key rows) as [Hnd Hsp].
  set (g := sort_by (fun a b : pending => stream_le a.1 b.1) (group stream_key rows)).
  assert (g ≡ₚ group stream_key rows) as Hg by apply sort_by_perm.
  assert (map summary_key (summarize rows) = map fst g) as Hkeys.
  { unfold summarize. fold g. assert (forall p, p ∈ g -> p.2 <> []) as Hne.
    { intros [k xs]. rewrite Hg, Hsp. by intros [_ ?]. }
    clearbody g. clear Hg. induction g as [|[k xs] g IH]; [done|].
    destruct (summary_some k xs) as [s Hs]. { apply (Hne (k, xs)), elem_of_cons. by left. }
    simpl. rewrite Hs. simpl. f_equal; [exact (proj1 (summary_spec _ _ _ Hs))|]. apply IH. intros p Hp. apply Hne, elem_of_cons. by right. }
  split_and!.
  - intros s ([k xs] & Hin & Hs)%list_elem_of_omap. fold g in Hin. rewrite Hg, Hsp in Hin. destruct Hin as [-> _].
    apply summary_spec in Hs as (-> & Hs). exact Hs.
  - intros k. rewrite Hkeys, (Permutation_map fst Hg), !elem_map. split.
    + intros ([k' xs] & [-> Hne]%Hsp & ->). destruct (members stream_key k' rows) as [|r l] eqn:E; [done|].
      assert (r ∈ members stream_key k' rows) as [Hr <-]%elem_members by (rewrite E, elem_of_cons; by left). eauto.
    + intros (r & Hr & ->). exists (stream_key r, members stream_key (stream_key r) rows). split; [|done].
      apply Hsp. split; [done|]. intros E. eapply (not_elem_of_nil r). rewrite <- E. by apply elem_members.
  - rewrite Hkeys. by rewrite (Permutation_map fst Hg).
  - rewrite Hkeys. assert (StronglySorted (fun a b : pending => stream_le a.1 b.1 = true) g) as Hs.
    { apply sort_by_sorted; intros; eauto using stream_le_total, stream_le_trans. }
    clearbody g. clear Hg Hkeys. induction Hs as [|p g Hs IH Hp]; simpl; constructor; [done|].
    apply Forall_forall. intros k (q & Hq & ->)%elem_map. rewrite Forall_forall in Hp. auto.
  - intros k n. destruct (group_spec re_kind rows) as [_ Hk]. unfold kind_counts.
    rewrite sort_by_perm, elem_map. split.
    + intros ([k' xs] & [-> Hne]%Hk & [= -> ->]). split; [done|].
      destruct (members re_kind k' rows) as [|r l] eqn:E; [done|].
      assert (r ∈ members re_kind k' rows) as [Hr <-]%elem_members by (rewrite E, elem_of_cons; by left).
      apply elem_map. eauto.
    + intros (-> & (r & Hr & ->)%elem_map). exists (re_kind r, members re_kind (re_kind r) rows).
      split; [|done]. apply Hk. split; [done|]. intros E. eapply (not_elem_of_nil r). rewrite <- E. by apply elem_members.
Qed.

Lemma summarize_spec_witness : exists s, s ∈ summarize demo_events /\ ss_gaps s = [] /\
  ss_count s = Z.of_nat (length (members stream_key (summary_key s) demo_events)).
Proof.
  destruct (summarize demo_events) as [|s l] eqn:E; [vm_compute in E; discriminate E|].
  assert (s ∈ summarize demo_events) as Hs by (rewrite E; left).
  rewrite <- E. exists s. split; [exact Hs|]. split; [vm_compute in E; injection E as <- _; reflexivity|].
  exact (proj1 (proj1 (summarize_spec demo_events) s Hs)).
Defined.
