(* ===== verification/Runtime.v ===== *)
(** * Runtime: the agent-runtime seam

    Models [src/sdf_core/runtime.py]: runtime events and their durable sink,
    the [AgentRuntime] interface with the deterministic [FakeRuntime], and the
    [RuntimeController] that binds runtime sessions to Attempts and records one
    ordered, replayable stream of events per session. *)

From S2P Require Import Prelude StateError Json Db EvidenceMac Flush Samples Store Events.

Inductive RuntimeStatus : Type := SCREATED | SRUNNING | SCOMPLETED | SCANCELLED | STERMINATED.

#[export] Instance RuntimeStatus_eq_dec : EqDecision RuntimeStatus.
Proof. solve_decision. Defined.

Definition RuntimeStatus_value (s : RuntimeStatus) : string :=
  match s with
  | SCREATED => "created" | SRUNNING => "running" | SCOMPLETED => "completed"
  | SCANCELLED => "cancelled" | STERMINATED => "terminated"
  end.

Inductive RuntimeEventKind : Type :=
  | STARTED | INPUT_SENT | OUTPUT_OBSERVED | CANCELLED | TERMINATED | RECONNECTED
  | TOOL_REQUESTED | TOOL_POLICY_DECIDED | TOOL_ACTION_EXECUTED | TOOL_ACTION_FAILED.

Definition RuntimeEventKind_value (k : RuntimeEventKind) : string :=
  match k with
  | STARTED => "runtime_started" | INPUT_SENT => "runtime_input_sent"
  | OUTPUT_OBSERVED => "runtime_output_observed" | CANCELLED => "runtime_cancelled"
  | TERMINATED => "runtime_terminated" | RECONNECTED => "runtime_reconnected"
  | TOOL_REQUESTED => "tool_requested" | TOOL_POLICY_DECIDED => "tool_policy_decided"
  | TOOL_ACTION_EXECUTED => "tool_action_executed" | TOOL_ACTION_FAILED => "tool_action_failed"
  end.

(** A dict with string keys whose values are already JSON (tuples as arrays,
    enum members as their text). *)
Definition dict : Type := list (string * json).

(** A kind or status is held as its text, as [StrEnum] members compare; an
    unknown one read back from the database is kept as the text it is. *)
Record RuntimeEvent : Type := {
  ev_kind : string; ev_session_id : string; ev_attempt_id : string; ev_sequence : Z;
  ev_status : string; ev_payload : dict; ev_source : string
}.

#[export] Instance RuntimeEvent_eq_dec : EqDecision RuntimeEvent.
Proof. solve_decision. Defined.

Definition blank (s : string) : bool := negb (str_truthy (str_strip s)).

(** [RuntimeEvent(...)] with its [__post_init__]. *)
Definition event_post_init (e : RuntimeEvent) : result unit :=
  _ ← raise_if (blank (ev_source e)) (ValueError "runtime event source must be a non-empty string");
  _ ← raise_if (120 <? str_len (ev_source e)) (ValueError "runtime event source exceeds 120 characters");
  _ ← raise_if (blank (ev_attempt_id e)) (ValueError "runtime event attempt_id must be a non-empty string");
  _ ← raise_if (blank (ev_session_id e)) (ValueError "runtime event session_id must be a non-empty string");
  _ ← raise_if (ev_sequence e <? 1) (ValueError "runtime event sequence must be a positive integer");
  _ ← validate_provenance (ev_source e) (ev_kind e);
  Ok ().

Definition new_event (e : RuntimeEvent) : result RuntimeEvent := _ ← event_post_init e; Ok e.

Definition event_identity : Type := string * string * string * Z.

Definition identity (e : RuntimeEvent) : event_identity :=
  (ev_source e, ev_attempt_id e, ev_session_id e, ev_sequence e).

Record CredentialMetadata : Type := { credential_mode : string; connection_id : option string }.

Definition credential_as_dict (c : CredentialMetadata) : dict :=
  [("credential_mode", JStr (credential_mode c)); ("connection_id", json_str (connection_id c))].

Definition credential_post_init (c : CredentialMetadata) : result unit :=
  _ ← raise_if (negb (str_in (credential_mode c) ["subscription"; "api-key"]))
        (ValueError "credential_mode is not a known Credential Mode");
  raise_if (match connection_id c with Some s => blank s | None => false end)
    (ValueError "connection_id must be a non-empty string or None").

Record RuntimeSession : Type := {
  sn_session_id : string; sn_attempt_id : string; sn_agent : string; sn_status : RuntimeStatus;
  sn_output : list string; sn_credential : option CredentialMetadata
}.

(** The provider's seam: every call may change the provider's world and may
    raise; an unknown session is a [KeyError]. *)
Class AgentRuntime (W : Type) : Type := {
  rt_start : string -> string -> ST W RuntimeSession;
  rt_send : string -> string -> ST W RuntimeSession;
  rt_stream : string -> ST W (list string);
  rt_status : string -> ST W RuntimeSession;
  rt_cancel : string -> ST W RuntimeSession;
  rt_terminate : string -> ST W RuntimeSession;
  rt_reconnect : string -> ST W RuntimeSession
}.

(** ** The durable sink ([SqlAlchemyRuntimeEventSink]) *)

Definition row_identity (r : RuntimeEventRow) : event_identity :=
  (re_source r, re_attempt_id r, re_session_id r, re_sequence r).

Definition event_where (e : RuntimeEvent) (r : RuntimeEventRow) : bool := bool_decide (row_identity r = identity e).

Definition compatible (r : RuntimeEventRow) (e : RuntimeEvent) : bool :=
  str_eq (re_kind r) (ev_kind e) && str_eq (re_status r) (ev_status e) && py_eq (re_payload r) (JObj (ev_payload e)).

Definition event_row (id : Z) (now : datetime) (e : RuntimeEvent) : RuntimeEventRow :=
  {| re_id := id; re_source := ev_source e; re_attempt_id := ev_attempt_id e; re_session_id := ev_session_id e;
     re_sequence := ev_sequence e; re_kind := ev_kind e; re_status := ev_status e;
     re_payload := JObj (ev_payload e); re_created_at := now |}.

Definition conflict (e : RuntimeEvent) : exn :=
  OtherError "RuntimeEventConflictError"
    ("runtime event replay identity already exists with different event data: (" +:+
     str_join ", " [str_repr (ev_source e); str_repr (ev_attempt_id e); str_repr (ev_session_id e); pretty (ev_sequence e)]
     +:+ ")").

(** INSERT ... ON CONFLICT (source, attempt_id, session_id, sequence) DO
    NOTHING, under the provenance CHECK. *)
Definition insert_event (now : datetime) (e : RuntimeEvent) : ST Db unit :=
  d ← gets (fun d => d);
  let row := event_row (next_id (d_runtime_events d)) now e in
  _ ← guard (negb (check_runtime_event row)) (IntegrityError "ck_runtime_events_provenance");
  when (bool_decide (find_row (event_where e) (d_runtime_events d) = None))
    (modify (fun d => d {{ d_runtime_events ::= insert (re_id row) row }})).

Definition event_append (now : datetime) (e : RuntimeEvent) : ST Db RuntimeEventRow :=
  _ ← insert_event now e;
  found ← gets (fun d => find_row (event_where e) (d_runtime_events d));
  row ← lift (require_some found (RuntimeError "runtime event insert did not produce a durable row"));
  _ ← guard (negb (compatible row e)) (conflict e);
  mret row.

Definition stream_rows (source attempt_id session_id : string) (d : Db) : list RuntimeEventRow :=
  select_rows (fun r => bool_decide (stream_key r = (source, attempt_id, session_id))) (d_runtime_events d).

Definition last_sequence (source attempt_id session_id : string) (d : Db) : Z :=
  match map re_sequence (stream_rows source attempt_id session_id d) with
  | [] => 0
  | n :: ns => foldr Z.max n ns
  end.

Definition row_payload (j : json) : dict := match j with JObj kvs => kvs | _ => [] end.

Definition row_event (r : RuntimeEventRow) : RuntimeEvent :=
  {| ev_kind := re_kind r; ev_session_id := re_session_id r; ev_attempt_id := re_attempt_id r;
     ev_sequence := re_sequence r; ev_status := re_status r; ev_payload := row_payload (re_payload r);
     ev_source := re_source r |}.

(** [events_for(attempt_id, source=..., session_id=...)]: ORDER BY sequence, id. *)
Definition events_for (attempt_id : string) (source session_id : option string) (d : Db) : result (list RuntimeEvent) :=
  result_map (fun r => new_event (row_event r))
    (sort_by event_le (select_rows (fun r => str_eq (re_attempt_id r) attempt_id &&
       match source with Some s => str_eq (re_source r) s | None => true end &&
       match session_id with Some s => str_eq (re_session_id r) s | None => true end) (d_runtime_events d))).

(** [replay(events)]: the batch form. *)
Definition sink_replay (now : datetime) (events : list RuntimeEvent) : ST Db (list RuntimeEventRow) :=
  for_each (event_append now) events.

(** ** [FakeRuntime] *)

Record FakeRuntime : Type := {
  fk_sessions : gmap string RuntimeSession; fk_attempts : gmap string string; fk_counter : Z
}.

Definition pad4 (n : Z) : string :=
  let s := pretty n in FloatRepr.zeros (4 - String.length s) +:+ s.

Definition fake_get (session_id : string) : ST FakeRuntime RuntimeSession :=
  found ← gets (fun f => fk_sessions f !! session_id);
  lift (require_some found (KeyError ("unknown runtime session: " +:+ session_id))).

Definition fake_put (s : RuntimeSession) : ST FakeRuntime unit :=
  modify (fun f => f {{ fk_sessions ::= insert (sn_session_id s) s }}).

Definition fake_start (attempt_id agent : string) : ST FakeRuntime RuntimeSession :=
  known ← gets (fun f => fk_attempts f !! attempt_id);
  match known with
  | Some session_id => fake_get session_id
  | None =>
      _ ← modify (fun f => f {{ fk_counter ::= Z.add 1 }});
      n ← gets fk_counter;
      let session := {| sn_session_id := "SESSION-" +:+ pad4 n; sn_attempt_id := attempt_id; sn_agent := agent;
                        sn_status := SRUNNING; sn_output := []; sn_credential := None |} in
      _ ← fake_put session;
      _ ← modify (fun f => f {{ fk_attempts ::= insert attempt_id (sn_session_id session) }});
      mret session
  end.

(** A fresh [RuntimeSession] is built without the credential. *)
Definition fake_update (current : RuntimeSession) (status : RuntimeStatus) (output : list string) : RuntimeSession :=
  {| sn_session_id := sn_session_id current; sn_attempt_id := sn_attempt_id current; sn_agent := sn_agent current;
     sn_status := status; sn_output := output; sn_credential := None |}.

Definition fake_send (session_id text : string) : ST FakeRuntime RuntimeSession :=
  current ← fake_get session_id;
  if bool_decide (sn_status current = SRUNNING) then
    let updated := fake_update current (sn_status current) (sn_output current ++ [text]) in
    _ ← fake_put updated; mret updated
  else mret current.

Definition fake_set_status (status : RuntimeStatus) (session_id : string) : ST FakeRuntime RuntimeSession :=
  current ← fake_get session_id;
  let updated := fake_update current status (sn_output current) in
  _ ← fake_put updated; mret updated.

#[export] Instance fake_runtime : AgentRuntime FakeRuntime := {|
  rt_start := fake_start;
  rt_send := fake_send;
  rt_stream := fun session_id => s ← fake_get session_id; mret (sn_output s);
  rt_status := fake_get;
  rt_cancel := fake_set_status SCANCELLED;
  rt_terminate := fake_set_status STERMINATED;
  rt_reconnect := fake_get
|}.

Definition new_fake : FakeRuntime := {| fk_sessions := ∅; fk_attempts := ∅; fk_counter := 0 |}.

(** ** [RuntimeController] *)

Record Ctl : Type := {
  c_attempts : gmap string string;              (* session -> Attempt *)
  c_attempt_sessions : gmap string string;      (* Attempt -> current session *)
  c_sequences : gmap (string * string) Z;       (* (Attempt, session) -> highest sequence *)
  c_unconfirmed : gset string;
  c_superseded : gmap string string;            (* retired session -> its successor *)
  c_events : list RuntimeEvent;
  c_event_keys : gset event_identity
}.

(** [RuntimeController.__init__] *)
Definition new_controller (source : string) : result Ctl :=
  _ ← raise_if (blank source) (ValueError "runtime event source must be a non-empty string");
  _ ← raise_if (120 <? str_len source) (ValueError "runtime event source exceeds 120 characters");
  _ ← validate_runtime_source source;
  Ok {| c_attempts := ∅; c_attempt_sessions := ∅; c_sequences := ∅; c_unconfirmed := ∅; c_superseded := ∅;
        c_events := []; c_event_keys := ∅ |}.

(** The controller, the database its sink writes, and the provider. *)
Record CState (W : Type) : Type := CS { cs_ctl : Ctl; cs_db : Db; cs_world : W }.
Arguments CS {W} _ _ _.
Arguments cs_ctl {W} _.
Arguments cs_db {W} _.
Arguments cs_world {W} _.

Section controller.
Context {W : Type} `{AgentRuntime W} (sink : bool) (source : string) (now : datetime).

Definition on_ctl (f : Ctl -> Ctl) : ST (CState W) unit := modify (fun s => CS (f (cs_ctl s)) (cs_db s) (cs_world s)).
Definition on_db {A} (m : ST Db A) : ST (CState W) A := fun s =>
  let '(d, r) := m (cs_db s) in (CS (cs_ctl s) d (cs_world s), r).
Definition on_world {A} (m : ST W A) : ST (CState W) A := fun s =>
  let '(w, r) := m (cs_world s) in (CS (cs_ctl s) (cs_db s) w, r).

Definition durable_last (attempt_id session_id : string) : ST (CState W) Z :=
  gets (fun s => if sink then last_sequence source attempt_id session_id (cs_db s) else 0).

(** [_session]: only a registered session that was not superseded. *)
Definition ctl_session (session_id : string) : ST (CState W) RuntimeSession :=
  c ← gets cs_ctl;
  _ ← guard (bool_decide (c_attempts c !! session_id = None)) (ValueError ("session is not registered: " +:+ session_id));
  match c_superseded c !! session_id with
  | Some successor =>
      fail (ValueError ("session " +:+ session_id +:+ " was superseded by " +:+ successor +:+ " after recovery"))
  | None => on_world (rt_status session_id)
  end.

Definition record_in_memory (key : string * string) (e : RuntimeEvent) (c : Ctl) : Ctl :=
  c {{ c_sequences ::= insert key (ev_sequence e); c_event_keys ::= union {[identity e]};
       c_events ::= fun l => l ++ [e] }}.

Definition record (kind : RuntimeEventKind) (session : RuntimeSession) (payload : dict) : ST (CState W) unit :=
  let key := (sn_attempt_id session, sn_session_id session) in
  known ← gets (fun s => c_sequences (cs_ctl s) !! key);
  last ← match known with
         | Some n => mret n
         | None =>
             n ← durable_last key.1 key.2;
             _ ← on_ctl (fun c => c {{ c_sequences ::= insert key n }});
             mret n
         end;
  event ← lift (new_event {|
    ev_kind := RuntimeEventKind_value kind; ev_session_id := sn_session_id session;
    ev_attempt_id := sn_attempt_id session; ev_sequence := last + 1;
    ev_status := RuntimeStatus_value (sn_status session); ev_payload := payload; ev_source := source |});
  _ ← when sink (_ ← on_db (event_append now event); mret ());
  on_ctl (record_in_memory key event).

(** The maps [start] updates before it records anything. *)
Definition bind_session (session_id attempt_id : string) (c : Ctl) : Ctl :=
  c {{ c_attempts ::= insert session_id attempt_id; c_attempt_sessions ::= insert attempt_id session_id;
       c_unconfirmed ::= fun u => u ∖ {[attempt_id]} }}.

Definition is_key_error (e : exn) : bool := match e with KeyError _ => true | _ => false end.

(** Whether the runtime lost the recovered session. *)
Definition probe_lost (recovered : option string) : ST (CState W) bool :=
  match recovered with
  | None => mret false
  | Some session_id =>
      catch (_ ← on_world (rt_status session_id); mret false)
            (fun e => if is_key_error e then Some (mret true) else None)
  end.

Definition start (attempt_id agent : string) : ST (CState W) RuntimeSession :=
  c ← gets cs_ctl;
  let recovered := if bool_decide (attempt_id ∈ c_unconfirmed c) then c_attempt_sessions c !! attempt_id else None in
  lost ← probe_lost recovered;
  session ← on_world (rt_start attempt_id agent);
  _ ← guard (negb (str_eq (sn_attempt_id session) attempt_id))
        (ValueError "runtime session is not bound to the requested attempt");
  c ← gets cs_ctl;
  let sid := sn_session_id session in
  let previous := c_attempt_sessions c !! attempt_id in
  _ ← guard (bool_decide (is_Some (c_superseded c !! sid)))
        (ValueError ("runtime returned superseded session " +:+ sid));
  let different := match previous with Some p => negb (str_eq p sid) | None => false end in
  _ ← guard (different && negb (lost && bool_decide (previous = recovered)))
        (ValueError "attempt is already bound to a different runtime session");
  _ ← guard (match c_attempts c !! sid with Some bound => negb (str_eq bound attempt_id) | None => false end)
        (ValueError "runtime session is already bound to a different attempt");
  _ ← on_ctl (bind_session sid attempt_id);
  _ ← when (bool_decide (previous = None) || lost)
        (let base := match sn_credential session with Some m => credential_as_dict m | None => [] end in
         match previous with
         | Some old =>
             if different then
               _ ← on_ctl (fun c => c {{ c_superseded ::= insert old sid }});
               record STARTED session (base ++ [("supersedes_session_id", JStr old)])
             else if lost then record STARTED session (base ++ [("replaces_lost_session", JBool true)])
             else record STARTED session base
         | None => if lost then record STARTED session (base ++ [("replaces_lost_session", JBool true)])
                   else record STARTED session base
         end);
  mret session.

Definition send (session_id text : string) : ST (CState W) RuntimeSession :=
  _ ← ctl_session session_id;
  updated ← on_world (rt_send session_id text);
  _ ← record INPUT_SENT updated [("input", JStr text)];
  mret updated.

Definition stream_output (session_id : string) : ST (CState W) (list string) :=
  current ← ctl_session session_id;
  output ← on_world (rt_stream session_id);
  _ ← record OUTPUT_OBSERVED current [("output", JArr (map JStr output))];
  mret output.

Definition status (session_id : string) : ST (CState W) RuntimeSession := ctl_session session_id.

Definition cancel (session_id : string) : ST (CState W) RuntimeSession :=
  _ ← ctl_session session_id;
  updated ← on_world (rt_cancel session_id);
  _ ← record CANCELLED updated [];
  mret updated.

Definition terminate (session_id : string) : ST (CState W) RuntimeSession :=
  _ ← ctl_session session_id;
  updated ← on_world (rt_terminate session_id);
  _ ← record TERMINATED updated [];
  mret updated.

Definition reconnect (session_id : string) : ST (CState W) RuntimeSession :=
  _ ← ctl_session session_id;
  updated ← on_world (rt_reconnect session_id);
  attempt_id ← gets (fun s => default "" (c_attempts (cs_ctl s) !! session_id));
  _ ← on_ctl (fun c => c {{ c_unconfirmed ::= fun u => u ∖ {[attempt_id]} }});
  _ ← record RECONNECTED updated [];
  mret updated.
End controller.

(** ** Replay and recovery *)

(** The dict comprehension over the STARTED events that name the session they
    supersede; a later event of the batch overrides an earlier one. *)
Definition supersession (e : RuntimeEvent) : option string :=
  if str_eq (ev_kind e) (RuntimeEventKind_value STARTED)
  then match kv_find "supersedes_session_id" (ev_payload e) with Some (JStr s) => Some s | _ => None end
  else None.

Definition supersedes_of (batch : list RuntimeEvent) : gmap string string :=
  fold_left (fun m e => match supersession e with Some old => <[ev_session_id e := old]> m | None => m end) batch ∅.

(** [generation]: the length of the chain of superseded sessions; [seen]
    holds the sessions already met, so [S (size supersedes)] rounds decide. *)
Fixpoint generation_from (fuel : nat) (supersedes : gmap string string) (session_id : string) (seen : list string)
    (depth : Z) : result Z :=
  match supersedes !! session_id with
  | None => Ok depth
  | Some older =>
      if bool_decide (older ∈ seen) then Err (ValueError "runtime replay has a cyclic session supersession")
      else match fuel with
           | O => Err (RuntimeError "out of fuel")
           | S fuel => generation_from fuel supersedes older (older :: seen) (depth + 1)
           end
  end.

Definition generation (supersedes : gmap string string) (session_id : string) : result Z :=
  generation_from (size supersedes) supersedes session_id [session_id] 0.

(** The sort key [(attempt_id, generation, session_id, sequence)]. *)
Definition replay_le (a b : Z * RuntimeEvent) : bool :=
  let '(ga, ea) := a in
  let '(gb, eb) := b in
  if negb (str_eq (ev_attempt_id ea) (ev_attempt_id eb)) then str_le (ev_attempt_id ea) (ev_attempt_id eb)
  else if negb (ga =? gb) then ga <? gb
  else if negb (str_eq (ev_session_id ea) (ev_session_id eb)) then str_le (ev_session_id ea) (ev_session_id eb)
  else ev_sequence ea <=? ev_sequence eb.

(** [_retired_in_chain]: follows [superseded]; [seen] bounds the walk. *)
Fixpoint retired_from (fuel : nat) (superseded : gmap string string) (current : string) (seen : list string)
    (head : string) : bool :=
  match superseded !! current with
  | Some next =>
      if bool_decide (current ∈ seen) then false
      else if str_eq next head then true
      else match fuel with
           | O => false
           | S fuel => retired_from fuel superseded next (current :: seen) head
           end
  | None => false
  end.

Definition retired_in_chain (superseded : gmap string string) (session_id head : string) : bool :=
  retired_from (size superseded) superseded session_id [] head.

(** What replaying one event does to the controller's maps. *)
Definition replay_in_memory (e : RuntimeEvent) (bound_session : option string) (rebind : bool) (c : Ctl) : Ctl :=
  let key := (ev_attempt_id e, ev_session_id e) in
  let c := c {{ c_event_keys ::= union {[identity e]}; c_events ::= fun l => l ++ [e];
                c_sequences ::= fun m => <[key := Z.max (default 0 (m !! key)) (ev_sequence e)]> m;
                c_attempts ::= insert (ev_session_id e) (ev_attempt_id e) }} in
  match bound_session with
  | None => c {{ c_attempt_sessions ::= insert (ev_attempt_id e) (ev_session_id e);
                 c_unconfirmed ::= union {[ev_attempt_id e]} }}
  | Some bound =>
      if rebind then c {{ c_superseded ::= insert bound (ev_session_id e);
                          c_attempt_sessions ::= insert (ev_attempt_id e) (ev_session_id e) }}
      else c
  end.

Section replay.
Context {W : Type} `{AgentRuntime W} (sink : bool) (source : string) (now : datetime).

(** One round of the loop; [None] when the event was already known. *)
Definition replay_one (supersedes : gmap string string) (e : RuntimeEvent) : ST (CState W) (option RuntimeEvent) :=
  c ← gets cs_ctl;
  if bool_decide (identity e ∈ c_event_keys c) then mret None
  else
    _ ← guard (match c_attempts c !! ev_session_id e with Some a => negb (str_eq a (ev_attempt_id e)) | None => false end)
          (ValueError "runtime session is already bound to a different attempt");
    let bound_session := c_attempt_sessions c !! ev_attempt_id e in
    let other := match bound_session with Some b => negb (str_eq b (ev_session_id e)) | None => false end in
    let rebind := other && opt_str_eq (supersedes !! ev_session_id e) bound_session in
    _ ← guard (other && negb rebind &&
               negb (match bound_session with
                     | Some b => retired_in_chain (c_superseded c) (ev_session_id e) b
                     | None => false end))
          (ValueError "attempt is already bound to a different runtime session");
    _ ← when sink (_ ← on_db (event_append now e); mret ());
    _ ← on_ctl (replay_in_memory e bound_session rebind);
    mret (Some e).

Definition replay (events : list RuntimeEvent) : ST (CState W) (list RuntimeEvent) :=
  _ ← for_each (fun e => guard (negb (str_eq (ev_source e) source))
        (ValueError ("controller for source " +:+ str_repr source +:+ " cannot replay " +:+ str_repr (ev_source e) +:+ " events")))
        events;
  let supersedes := supersedes_of events in
  keyed ← lift (result_map (fun e => g ← generation supersedes (ev_session_id e); Ok (g, e)) events);
  accepted ← for_each (replay_one supersedes) (map snd (sort_by replay_le keyed));
  mret (omap id accepted).

Definition recover (attempt_id : string) : ST (CState W) (list RuntimeEvent) :=
  if sink then
    events ← gets (fun s => events_for attempt_id (Some source) None (cs_db s));
    events ← lift events;
    replay events
  else mret [].

(** ** The controller's interface as one step *)

Inductive op : Type :=
  | OStart (attempt_id agent : string) | OSend (session_id text : string) | OStream (session_id : string)
  | OStatus (session_id : string) | OCancel (session_id : string) | OTerminate (session_id : string)
  | OReconnect (session_id : string) | OReplay (events : list RuntimeEvent) | ORecover (attempt_id : string).

Definition run_op (o : op) : ST (CState W) unit :=
  match o with
  | OStart a g => _ ← start sink source now a g; mret ()
  | OSend sid text => _ ← send sink source now sid text; mret ()
  | OStream sid => _ ← stream_output sink source now sid; mret ()
  | OStatus sid => _ ← status sid; mret ()
  | OCancel sid => _ ← cancel sink source now sid; mret ()
  | OTerminate sid => _ ← terminate sink source now sid; mret ()
  | OReconnect sid => _ ← reconnect sink source now sid; mret ()
  | OReplay events => _ ← replay events; mret ()
  | ORecover a => _ ← recover a; mret ()
  end.

End replay.

(** A caller that keeps using the controller after a call raised; each call
    has its own clock reading. *)
Definition run_ops {W} `{AgentRuntime W} (sink : bool) (source : string) (ops : list (datetime * op)) (s : CState W) : CState W :=
  fold_left (fun s o => (run_op sink source o.1 o.2 s).1) ops s.
