(* ===== verification/RuntimeFacts.v ===== *)
(** * RuntimeFacts: what the runtime seam guarantees *)

From S2P Require Import Prelude StateError Json Db EvidenceMac Flush Samples Store Events Runtime.

(** The UNIQUE key of [runtime_events]. *)
Definition rows_unique (d : Db) : Prop :=
  forall i j r r', d_runtime_events d !! i = Some r -> d_runtime_events d !! j = Some r' ->
    row_identity r = row_identity r' -> i = j.

Definition find_event (e : RuntimeEvent) (d : Db) : option RuntimeEventRow :=
  find_row (event_where e) (d_runtime_events d).

Definition has_row (e : RuntimeEvent) (d : Db) : Prop :=
  exists id r, d_runtime_events d !! id = Some r /\ row_identity r = identity e /\ compatible r e = true.

Lemma event_where_row id now e : event_where e (event_row id now e) = true.
Proof. unfold event_where. by apply bool_decide_eq_true. Qed.

Lemma find_event_Some e d r : find_event e d = Some r ->
  row_identity r = identity e /\ exists id, d_runtime_events d !! id = Some r.
Proof. unfold find_event, event_where. intros [Hr Hk]%find_row_Some. by boolify. Qed.

Lemma find_event_None e d id r : find_event e d = None -> d_runtime_events d !! id = Some r -> row_identity r <> identity e.
Proof. intros Hf Hr. eapply find_row_None in Hf; [|exact Hr]. unfold event_where in Hf. by boolify. Qed.

Lemma find_event_unique e d id r : rows_unique d -> d_runtime_events d !! id = Some r ->
  row_identity r = identity e -> find_event e d = Some r.
Proof.
  intros Hu Hr Hi. destruct (find_event e d) as [x|] eqn:E.
  - apply find_event_Some in E as [Hx [k Hk]]. assert (k = id) as -> by (eapply Hu; [done|done|congruence]). congruence.
  - by destruct (find_event_None _ _ _ _ E Hr).
Qed.

Definition with_event (now : datetime) (e : RuntimeEvent) (d : Db) : Db :=
  let row := event_row (next_id (d_runtime_events d)) now e in
  d {{ d_runtime_events ::= insert (re_id row) row }}.

Lemma with_event_rows now e d :
  d_runtime_events (with_event now e d) =
  <[next_id (d_runtime_events d) := event_row (next_id (d_runtime_events d)) now e]> (d_runtime_events d).
Proof. reflexivity. Qed.

Lemma with_event_unique now e d : rows_unique d -> find_event e d = None -> rows_unique (with_event now e d).
Proof.
  intros Hu Hf i j r r'. rewrite with_event_rows, !lookup_insert_Some.
  intros [[<- <-]|[Hi Hr]] [[<- <-]|[Hj Hr']] Heq; [done| | |by eapply Hu].
  - by destruct (find_event_None _ _ _ _ Hf Hr').
  - by destruct (find_event_None _ _ _ _ Hf Hr).
Qed.

Lemma with_event_mono now e d : d_runtime_events d ⊆ d_runtime_events (with_event now e d).
Proof. rewrite with_event_rows. apply insert_subseteq, next_id_fresh. Qed.

Lemma with_event_find now e d : rows_unique d -> find_event e d = None ->
  find_event e (with_event now e d) = Some (event_row (next_id (d_runtime_events d)) now e).
Proof.
  intros Hu Hf. eapply find_event_unique; [by apply with_event_unique| |reflexivity].
  rewrite with_event_rows. apply lookup_insert_eq.
Qed.

Lemma compatible_row id now e : json_wf (JObj (ev_payload e)) = true -> compatible (event_row id now e) e = true.
Proof.
  intros Hwf. unfold compatible, event_row, str_eq. cbn [re_kind re_status re_payload].
  rewrite !bool_decide_eq_true_2 by done. by apply py_eq_refl.
Qed.

Lemma event_check e id now : event_post_init e = Ok () -> check_runtime_event (event_row id now e) = true.
Proof.
  unfold event_post_init. intros H. do 5 (apply bind_Ok in H as (? & _ & H)).
  apply bind_Ok in H as (c & Hv & _). rewrite <- validate_provenance_check.
  change (is_ok (validate_provenance (ev_source e) (ev_kind e)) = true). by rewrite Hv.
Qed.

(** Every branch of the sink's [append]. *)
Lemma event_append_eq now e d : rows_unique d -> event_post_init e = Ok () ->
  event_append now e d =
  match find_event e d with
  | Some row => (d, if compatible row e then Ok row else Err (conflict e))
  | None =>
      let row := event_row (next_id (d_runtime_events d)) now e in
      (with_event now e d, if compatible row e then Ok row else Err (conflict e))
  end.
Proof.
  intros Hu Hpost. unfold event_append, insert_event, gets, guard, lift, modify, when, mbind, st_bind.
  rewrite (event_check _ _ _ Hpost). cbn [negb raise_if]. fold (find_event e d).
  destruct (find_event e d) as [row|] eqn:E.
  - rewrite bool_decide_eq_false_2 by done. cbn [mret st_ret]. fold (find_event e d). rewrite E.
    cbn [require_some]. by destruct (compatible row e).
  - rewrite bool_decide_eq_true_2 by done. fold (with_event now e d). fold (find_event e (with_event now e d)).
    rewrite with_event_find by done. cbn [require_some]. by destruct (compatible _ e).
Qed.

Lemma event_append_spec now e d : rows_unique d -> event_post_init e = Ok () ->
  let '(d', r) := event_append now e d in
  rows_unique d' /\ d_runtime_events d ⊆ d_runtime_events d' /\ (forall row, r = Ok row -> has_row e d').
Proof.
  intros Hu Hpost. rewrite event_append_eq by done. destruct (find_event e d) as [row|] eqn:E.
  - split_and!; [done|done|]. intros r Hr. destruct (compatible row e) eqn:Ec; [|done].
    apply find_event_Some in E as [Hi [id Hid]]. by exists id, row.
  - split_and!; [by apply with_event_unique|apply with_event_mono|]. intros r Hr.
    destruct (compatible _ e) eqn:Ec; [|done]. exists (next_id (d_runtime_events d)), (event_row (next_id (d_runtime_events d)) now e).
    split_and!; [|done|exact Ec]. rewrite with_event_rows. apply lookup_insert_eq.
Qed.

Lemma has_row_mono e d d' : d_runtime_events d ⊆ d_runtime_events d' -> has_row e d -> has_row e d'.
Proof. intros Hm (id & r & Hr & Hi). exists id, r. split; [|done]. by eapply lookup_weaken. Qed.

(** ** The controller's invariant *)

Section invariant.
Context {W : Type} `{AgentRuntime W} (sink : bool) (source : string) (now : datetime).

Record ctl_ok (c : Ctl) : Prop := {
  ok_keys : forall i, i ∈ c_event_keys c <-> i ∈ map identity (c_events c);
  ok_nodup : NoDup (map identity (c_events c));
  ok_source : forall e, e ∈ c_events c -> ev_source e = source;
  ok_sequence : forall e, e ∈ c_events c ->
    exists n, c_sequences c !! (ev_attempt_id e, ev_session_id e) = Some n /\ ev_sequence e <= n;
  ok_session : forall a s, c_attempt_sessions c !! a = Some s -> c_attempts c !! s = Some a;
  ok_superseded : forall s t, c_superseded c !! s = Some t ->
    exists a, c_attempts c !! s = Some a /\ c_attempts c !! t = Some a
}.

Record state_ok (s : CState W) : Prop := {
  ok_ctl : ctl_ok (cs_ctl s);
  ok_unique : rows_unique (cs_db s);
  ok_durable : sink = true -> forall e, e ∈ c_events (cs_ctl s) -> has_row e (cs_db s)
}.

(** What never goes back: a session keeps its Attempt, a stored event stays as
    it was written, the in-memory history only grows. *)
Record grows (s s' : CState W) : Prop := {
  grow_attempts : c_attempts (cs_ctl s) ⊆ c_attempts (cs_ctl s');
  grow_rows : d_runtime_events (cs_db s) ⊆ d_runtime_events (cs_db s');
  grow_events : c_events (cs_ctl s) `prefix_of` c_events (cs_ctl s')
}.

#[export] Instance grows_refl : Reflexive grows.
Proof. intros s. by split. Qed.

#[export] Instance grows_trans : Transitive grows.
Proof. intros s t u [A1 R1 E1] [A2 R2 E2]. split; by etrans. Qed.

Definition good (s0 s : CState W) : Prop := state_ok s /\ grows s0 s.

(** A method that keeps the invariant whether it returns or raises. *)
Definition keeps {A} (m : ST (CState W) A) : Prop :=
  forall s0, hoare (good s0) m (fun _ => good s0) (fun _ => good s0).

(** A call that only touches the provider. *)
Lemma keeps_on_world {A} (m : ST W A) : keeps (on_world m).
Proof.
  intros s0 s [[Hc Hu Hd] [Ga Gr Ge]]. unfold on_world. destruct (m (cs_world s)) as [w [a|e]];
    (split; constructor; assumption).
Qed.

Lemma keeps_ret {A} (a : A) : keeps (mret a).
Proof. intros s0. by apply hoare_ret. Qed.
Lemma keeps_lift {A} (r : result A) : keeps (lift r).
Proof. intros s0. by apply hoare_lift. Qed.
Lemma keeps_gets {A} (f : CState W -> A) : keeps (gets f).
Proof. intros s0. by apply hoare_gets. Qed.
Lemma keeps_fail {A} e : keeps (@fail (CState W) A e).
Proof. intros s0. by apply hoare_fail. Qed.
Lemma keeps_guard b e : keeps (guard b e).
Proof. apply keeps_lift. Qed.
Lemma keeps_bind {A B} (m : ST (CState W) A) (f : A -> ST (CState W) B) :
  keeps m -> (forall a, keeps (f a)) -> keeps (m ≫= f).
Proof. intros Hm Hf s0. eapply hoare_bind; [apply Hm|]. intros a. apply Hf. Qed.
Lemma keeps_when b m : keeps m -> keeps (when b m).
Proof. intros Hm s0. apply hoare_when; [intros _; apply Hm|done]. Qed.

(** A change of the controller's maps that preserves its own invariant. *)
Lemma keeps_on_ctl (P : CState W -> Prop) f s0 :
  (forall s, good s0 s -> P s -> ctl_ok (f (cs_ctl s)) /\ c_attempts (cs_ctl s) ⊆ c_attempts (f (cs_ctl s)) /\
     c_events (f (cs_ctl s)) = c_events (cs_ctl s)) ->
  hoare (fun s => good s0 s /\ P s) (on_ctl f) (fun _ => good s0) (fun _ => good s0).
Proof.
  intros Hf. apply hoare_modify. intros s [Hg HP]. destruct (Hf s Hg HP) as (Hc & Ha & He).
  destruct Hg as [[_ Hu Hd] [Ga Gr Ge]]. split; split; simpl; [done|done| | |done|by rewrite He].
  - rewrite He. done.
  - by etrans.
Qed.

Lemma ctl_session_keeps sid : keeps (ctl_session sid).
Proof.
  unfold ctl_session. apply keeps_bind; [apply keeps_gets|intros c]. apply keeps_bind; [apply keeps_guard|intros _].
  destruct (c_superseded c !! sid); [apply keeps_fail|apply keeps_on_world].
Qed.

(** No event of the stream [key] is numbered above [n]. *)
Definition bounded (key : string * string) (n : Z) (s : CState W) : Prop :=
  forall e, e ∈ c_events (cs_ctl s) -> (ev_attempt_id e, ev_session_id e) = key -> ev_sequence e <= n.

Lemma append_hoare s0 e (P : CState W -> Prop) :
  (forall s d w, P s -> P (CS (cs_ctl s) d w)) -> event_post_init e = Ok () ->
  hoare (fun s => good s0 s /\ P s) (when sink (_ ← on_db (event_append now e); mret ()))
    (fun _ s => good s0 s /\ P s /\ (sink = true -> has_row e (cs_db s))) (fun _ => good s0).
Proof.
  intros HP Hpost. apply hoare_when; [intros Hsink|intros Hsink s [Hg Hs]; rewrite Hsink; by split_and!].
  eapply (hoare_bind _ _ _ (fun _ s => good s0 s /\ P s /\ has_row e (cs_db s))); [|intros _; apply hoare_ret; tauto].
  intros s [[[Hc Hu Hd] [Ga Gr Ge]] Hs]. unfold on_db.
  pose proof (event_append_spec now e (cs_db s) Hu Hpost) as Hspec.
  destruct (event_append now e (cs_db s)) as [d' r]. destruct Hspec as (Hu' & Hm & Hrow).
  assert (good s0 (CS (cs_ctl s) d' (cs_world s))) as Hgood.
  { split; constructor; simpl; try done; [|by etrans].
    intros Hs' x Hx. eapply has_row_mono; [exact Hm|by apply Hd]. }
  destruct r as [row|x]; [|done]. split_and!; [done|by apply HP|by eapply Hrow].
Qed.

(** Adding an event above every number of its stream keeps the invariant. *)
(** Forgetting confirmations touches no other map. *)
Lemma confirm_keeps a : keeps (on_ctl (fun c => c {{ c_unconfirmed ::= fun u => u ∖ {[a]} }})).
Proof.
  intros s0. apply hoare_modify. intros s [[Hc Hu Hd] [Ga Gr Ge]].
  split; constructor; try done. destruct Hc. by constructor.
Qed.

Lemma record_in_memory_ok c e : ctl_ok c -> ev_source e = source ->
  (forall x, x ∈ c_events c -> (ev_attempt_id x, ev_session_id x) = (ev_attempt_id e, ev_session_id e) -> ev_sequence x < ev_sequence e) ->
  ctl_ok (record_in_memory (ev_attempt_id e, ev_session_id e) e c).
Proof.
  intros [Hk Hn Hs Hq Hse Hsu] Hsrc Hlt. unfold record_in_memory. constructor; simpl.
  - intros i. rewrite elem_of_union, elem_of_singleton, Hk, map_app, elem_of_app. simpl. rewrite list_elem_of_singleton. tauto.
  - rewrite map_app. apply NoDup_app. split_and!; [done| |apply NoDup_singleton].
    intros i (x & Hx & ->)%elem_map Hi%list_elem_of_singleton. unfold identity in Hi.
    injection Hi as _ Ha Hsid Hseq. specialize (Hlt x Hx ltac:(congruence)). lia.
  - intros x [Hx| ->%list_elem_of_singleton]%elem_of_app; auto.
  - intros x [Hx| ->%list_elem_of_singleton]%elem_of_app.
    + destruct (decide ((ev_attempt_id e, ev_session_id e) = (ev_attempt_id x, ev_session_id x))) as [E|E].
      * exists (ev_sequence e). rewrite E, lookup_insert_eq. split; [done|]. specialize (Hlt x Hx (eq_sym E)). lia.
      * rewrite lookup_insert_ne by done. auto.
    + exists (ev_sequence e). rewrite lookup_insert_eq. split; [done|lia].
  - done.
  - done.
Qed.

Lemma record_keeps kind session payload : keeps (record sink source now kind session payload).
Proof.
  intros s0. unfold record. set (key := (sn_attempt_id session, sn_session_id session)).
  eapply (hoare_bind _ _ _ (fun known s => good s0 s /\ known = c_sequences (cs_ctl s) !! key)).
  { apply hoare_gets. intros s Hs. by split. }
  intros known. eapply (hoare_bind _ _ _ (fun last s => good s0 s /\ bounded key last s)).
  { destruct known as [n|].
    - apply hoare_ret. intros s [Hg Hn]. split; [done|]. intros e He Hkey.
      destruct (ok_sequence _ (ok_ctl _ (proj1 Hg)) e He) as (m & Hm & Hle). rewrite Hkey in Hm. congruence.
    - unfold durable_last.
      eapply (hoare_bind _ _ _ (fun n s => good s0 s /\ c_sequences (cs_ctl s) !! key = None)).
      { apply hoare_gets. intros s [Hs Hn]. by split. }
      intros n. eapply (hoare_bind _ _ _ (fun _ s => good s0 s /\ bounded key n s)); [|intros _; by apply hoare_ret].
      apply hoare_modify. intros s [[[Hc Hu Hd] Hgr] Hnone].
      assert (forall e, e ∈ c_events (cs_ctl s) -> (ev_attempt_id e, ev_session_id e) <> key) as Hno.
      { intros e He Hkey. destruct (ok_sequence _ Hc e He) as (m & Hm & _). congruence. }
      split; [|intros e He Hkey; by destruct (Hno e He)].
      split; [constructor|destruct Hgr; by constructor]; [|done|done].
      destruct Hc as [Hk Hn Hs Hq Hse Hsu]. constructor; simpl; try done.
      intros e He. rewrite lookup_insert_ne; [by apply Hq|]. intros E. by apply (Hno e He). }
  intros last. eapply (hoare_bind _ _ _ (fun e s => good s0 s /\ bounded key last s /\ event_post_init e = Ok () /\
    ev_source e = source /\ (ev_attempt_id e, ev_session_id e) = key /\ ev_sequence e = last + 1)).
  { apply hoare_lift; [|by intros s e []]. intros s e [Hg Hb] Hnew. unfold new_event in Hnew.
    apply bind_Ok in Hnew as ([] & Hpost & [= <-]). split_and!; done. }
  intros e. eapply (hoare_bind _ _ _ (fun _ s => good s0 s /\ (bounded key last s /\ event_post_init e = Ok () /\
    ev_source e = source /\ (ev_attempt_id e, ev_session_id e) = key /\ ev_sequence e = last + 1) /\
    (sink = true -> has_row e (cs_db s)))).
  { intros s (Hg & Hb & Hpost & Hrest).
    refine (append_hoare s0 e (fun s => bounded key last s /\ event_post_init e = Ok () /\
      ev_source e = source /\ (ev_attempt_id e, ev_session_id e) = key /\ ev_sequence e = last + 1) _ Hpost s _); [done|].
    exact (conj Hg (conj Hb (conj Hpost Hrest))). }
  intros _. apply hoare_modify. intros s ([[Hc Hu Hd] [Ga Gr Ge]] & (Hb & Hpost & Hsrc & Hkey & Hseq) & Hrow).
  rewrite <- Hkey. split; constructor; simpl.
  - apply record_in_memory_ok; [done|done|]. intros x Hx Hxe. rewrite Hkey in Hxe. specialize (Hb x Hx Hxe). lia.
  - done.
  - intros Hs x [Hx| ->%list_elem_of_singleton]%elem_of_app; auto.
  - done.
  - done.
  - by apply prefix_app_r.
Qed.

Lemma guard_good s0 (P : CState W -> Prop) b e : (forall s, P s -> good s0 s) ->
  hoare P (guard b e) (fun _ s => P s /\ b = false) (fun _ => good s0).
Proof. intros HP. apply hoare_guard; auto. Qed.

Lemma bind_session_ok c sid a : ctl_ok c ->
  match c_attempts c !! sid with Some bound => negb (str_eq bound a) | None => false end = false ->
  ctl_ok (bind_session sid a c) /\ c_attempts c ⊆ c_attempts (bind_session sid a c).
Proof.
  intros [Hk Hn Hs Hq Hse Hsu] Hb.
  assert (c_attempts c ⊆ <[sid := a]> (c_attempts c)) as Hsub.
  { destruct (c_attempts c !! sid) as [b|] eqn:E; [|by apply insert_subseteq].
    unfold str_eq in Hb. boolify. subst b. by rewrite insert_id. }
  split; [|done]. constructor; simpl; try done.
  - intros a' s' Hl. apply lookup_insert_Some in Hl as [[<- <-]|[Hne Hl]]; [apply lookup_insert_eq|].
    eapply lookup_weaken; [by apply Hse|done].
  - intros x y (b & Hx & Hy)%Hsu. exists b. split; by eapply lookup_weaken.
Qed.

Lemma supersede_ok c old sid a : ctl_ok c -> c_attempts c !! old = Some a -> c_attempts c !! sid = Some a ->
  ctl_ok (c {{ c_superseded ::= insert old sid }}).
Proof.
  intros [Hk Hn Hs Hq Hse Hsu] Ho Hsid. constructor; simpl; try done.
  intros x y Hxy. apply lookup_insert_Some in Hxy as [[<- <-]|[_ Hxy]]; eauto.
Qed.

Lemma probe_lost_keeps recovered : keeps (probe_lost recovered).
Proof.
  intros s0. unfold probe_lost. destruct recovered as [sid|]; [|apply keeps_ret].
  intros s Hs. assert (keeps (_ ← on_world (rt_status sid); mret false)) as Hk.
  { apply keeps_bind; [apply keeps_on_world|intros; apply keeps_ret]. }
  specialize (Hk s0 s Hs). unfold catch. destruct ((_ ← on_world (rt_status sid); mret false) s) as [s' [b|e]]; [done|].
  by destruct (is_key_error e).
Qed.

(** The part of [start] after the session is bound. *)
Lemma record_start_keeps s0 sid a previous lost session (different : bool) base :
  hoare (fun s => good s0 s /\ c_attempts (cs_ctl s) !! sid = Some a /\
           forall old, previous = Some old -> c_attempts (cs_ctl s) !! old = Some a)
    (when (bool_decide (previous = None) || lost)
      match previous with
      | Some old =>
          if different then
            _ ← on_ctl (fun c => c {{ c_superseded ::= insert old sid }});
            record sink source now STARTED session (base ++ [("supersedes_session_id", JStr old)])
          else if lost then record sink source now STARTED session (base ++ [("replaces_lost_session", JBool true)])
          else record sink source now STARTED session base
      | None => if lost then record sink source now STARTED session (base ++ [("replaces_lost_session", JBool true)])
                else record sink source now STARTED session base
      end)
    (fun _ => good s0) (fun _ => good s0).
Proof.
  assert (forall p, hoare (fun s => good s0 s /\ c_attempts (cs_ctl s) !! sid = Some a /\
           forall old, previous = Some old -> c_attempts (cs_ctl s) !! old = Some a)
    (record sink source now STARTED session p) (fun _ => good s0) (fun _ => good s0)) as Hr.
  { intros p. eapply hoare_weaken; [| | |apply record_keeps]; [by intros s [? _]|done|done]. }
  apply hoare_when; [intros _|by intros _ s [? _]].
  destruct previous as [old|]; [|destruct lost; apply Hr].
  destruct different; [|destruct lost; apply Hr].
  eapply hoare_bind; [|intros ?; apply record_keeps].
  intros s (Hg & Hsid & Hold).
  refine (keeps_on_ctl (fun s => c_attempts (cs_ctl s) !! sid = Some a /\ c_attempts (cs_ctl s) !! old = Some a) _ s0 _ s _).
  - intros s' Hg' [Hs' Ho']. split_and!; [|done|done]. by apply (supersede_ok _ _ _ a); [apply Hg'| |].
  - split; [done|]. split; [done|by apply Hold].
Qed.

Lemma start_keeps a agent : keeps (start sink source now a agent).
Proof.
  intros s0. unfold start. eapply hoare_bind; [apply keeps_gets|]. intros c0.
  eapply hoare_bind; [apply probe_lost_keeps|]. intros lost.
  eapply hoare_bind; [apply keeps_on_world|]. intros session.
  eapply hoare_bind; [apply keeps_guard|]. intros ?.
  eapply (hoare_bind _ _ _ (fun c s => good s0 s /\ c = cs_ctl s)).
  { apply hoare_gets. intros s Hs. by split. }
  intros c. cbv zeta.
  eapply hoare_bind; [apply guard_good; by intros s [? _]|]. intros ?.
  eapply hoare_bind; [apply guard_good; by intros s [[? _] _]|]. intros ?.
  eapply hoare_bind; [apply guard_good; by intros s [[[? _] _] _]|]. intros ?.
  eapply (hoare_bind _ _ _ (fun _ s => good s0 s /\ c_attempts (cs_ctl s) !! sn_session_id session = Some a /\
    forall old, c_attempt_sessions c !! a = Some old -> c_attempts (cs_ctl s) !! old = Some a)).
  - apply hoare_modify. intros s [[[[Hg ->] _] _] Hb]. destruct Hg as [[Hc Hu Hd] [Ga Gr Ge]].
    destruct (bind_session_ok _ _ _ Hc Hb) as [Hc' Hsub].
    split; [split; constructor; simpl; try done; by etrans|]. split; [apply lookup_insert_eq|].
    intros old Hold. eapply lookup_weaken; [by apply (ok_session _ Hc)|done].
  - intros ?. eapply hoare_bind; [apply record_start_keeps|]. intros ?. apply keeps_ret.
Qed.

Lemma replay_in_memory_ok c e rebind : ctl_ok c -> ev_source e = source -> identity e ∉ c_event_keys c ->
  match c_attempts c !! ev_session_id e with Some b => negb (str_eq b (ev_attempt_id e)) | None => false end = false ->
  let c' := replay_in_memory e (c_attempt_sessions c !! ev_attempt_id e) rebind c in
  ctl_ok c' /\ c_attempts c ⊆ c_attempts c' /\ c_events c' = c_events c ++ [e].
Proof.
  intros [Hk Hn Hs Hq Hse Hsu] Hsrc Hnew Hb.
  assert (c_attempts c ⊆ <[ev_session_id e := ev_attempt_id e]> (c_attempts c)) as Hsub.
  { destruct (c_attempts c !! ev_session_id e) as [b|] eqn:E; [|by apply insert_subseteq].
    unfold str_eq in Hb. boolify. subst b. by rewrite insert_id. }
  set (m := <[ev_session_id e := ev_attempt_id e]> (c_attempts c)) in *.
  assert (m !! ev_session_id e = Some (ev_attempt_id e)) as Hm by apply lookup_insert_eq.
  set (base := c {{ c_event_keys ::= union {[identity e]}; c_events ::= fun l => l ++ [e];
      c_sequences ::= fun q => <[(ev_attempt_id e, ev_session_id e) :=
        Z.max (default 0 (q !! (ev_attempt_id e, ev_session_id e))) (ev_sequence e)]> q;
      c_attempts ::= insert (ev_session_id e) (ev_attempt_id e) }}).
  assert (ctl_ok base) as Hbase.
  { constructor; simpl.
    - intros i. rewrite elem_of_union, elem_of_singleton, Hk, map_app, elem_of_app. simpl. rewrite list_elem_of_singleton. tauto.
    - rewrite map_app. apply NoDup_app. split_and!; [done| |apply NoDup_singleton].
      intros i Hi ->%list_elem_of_singleton. by apply Hnew, Hk.
    - intros x [Hx| ->%list_elem_of_singleton]%elem_of_app; auto.
    - intros x Hx. set (key := (ev_attempt_id e, ev_session_id e)).
      assert (x ∈ c_events c \/ x = e) as [Hx'| ->].
      { apply elem_of_app in Hx as [?|?%list_elem_of_singleton]; auto. }
      + destruct (Hq x Hx') as (n & Hn' & Hle).
        destruct (decide (key = (ev_attempt_id x, ev_session_id x))) as [E|E].
        * rewrite <- E, lookup_insert_eq. rewrite <- E in Hn'. eexists. split; [done|].
          change (ev_sequence x <= Z.max (default 0 (c_sequences c !! key)) (ev_sequence e)). rewrite Hn'. simpl. lia.
        * rewrite lookup_insert_ne by done. eauto.
      + subst key. rewrite lookup_insert_eq. eexists. split; [done|]. lia.
    - intros a s Has. eapply lookup_weaken; [by apply Hse|done].
    - intros x y (a & Hx & Hy)%Hsu. exists a. split; by eapply lookup_weaken. }
  unfold replay_in_memory. fold base. cbv zeta.
  assert (forall u, ctl_ok (base {{ c_attempt_sessions ::= insert (ev_attempt_id e) (ev_session_id e); c_unconfirmed ::= u }})) as Hset.
  { intros u. destruct Hbase as [Bk Bn Bs Bq Bse Bsu]. constructor; try done.
    intros a s Has. simpl in Has. apply lookup_insert_Some in Has as [[<- <-]|[_ Has]]; [done|by apply Bse]. }
  destruct (c_attempt_sessions c !! ev_attempt_id e) as [b|] eqn:E; [destruct rebind|]; (split; [|done]); [|done|apply Hset].
  specialize (Hset id). destruct Hset as [Bk Bn Bs Bq Bse Bsu]. constructor; try done.
  intros x y Hxy. simpl in Hxy. apply lookup_insert_Some in Hxy as [[<- <-]|[_ Hxy]]; [|by apply Bsu].
  exists (ev_attempt_id e). split; [|done]. eapply lookup_weaken; [by apply Hse|done].
Qed.

Lemma replay_one_keeps supersedes e : event_post_init e = Ok () -> ev_source e = source ->
  keeps (replay_one sink now supersedes e).
Proof.
  intros Hpost Hsrc s0. unfold replay_one.
  eapply (hoare_bind _ _ _ (fun c s => good s0 s /\ c = cs_ctl s)).
  { apply hoare_gets. intros s Hs. by split. }
  intros c. case_bool_decide as Hknown; [apply hoare_ret; by intros s [? _]|].
  eapply hoare_bind; [apply guard_good; by intros s [? _]|]. intros ?.
  eapply hoare_bind; [apply guard_good; by intros s [[? _] _]|]. intros ?.
  eapply (hoare_bind _ _ _ (fun _ s => good s0 s /\ (c = cs_ctl s /\
    match c_attempts c !! ev_session_id e with Some a => negb (str_eq a (ev_attempt_id e)) | None => false end = false) /\
    (sink = true -> has_row e (cs_db s)))).
  { intros s [[[Hg Hc] Hb] _].
    refine (append_hoare s0 e (fun s => c = cs_ctl s /\ match c_attempts c !! ev_session_id e with
      Some a => negb (str_eq a (ev_attempt_id e)) | None => false end = false) _ Hpost s _); [done|].
    exact (conj Hg (conj Hc Hb)). }
  intros ?. eapply (hoare_bind _ _ _ (fun _ => good s0)); [|intros ?; by apply hoare_ret].
  apply hoare_modify. intros s ([[Hc Hu Hd] [Ga Gr Ge]] & [-> Hb] & Hrow).
  match goal with |- context [replay_in_memory e _ ?r _] =>
    destruct (replay_in_memory_ok (cs_ctl s) e r Hc Hsrc Hknown Hb) as (Hc' & Hsub & Hev) end.
  split; constructor; cbn [cs_ctl cs_db]; [done|done| | |done|].
  - intros Hs x. rewrite Hev. intros [Hx| ->%list_elem_of_singleton]%elem_of_app; auto.
  - by etrans.
  - rewrite Hev. by apply prefix_app_r.
Qed.

Lemma for_each_keeps {A B} (f : A -> ST (CState W) B) l : (forall x, x ∈ l -> keeps (f x)) -> keeps (for_each f l).
Proof.
  induction l as [|x l IH]; intros Hf; [apply keeps_ret|]. simpl. apply keeps_bind.
  - apply Hf, elem_of_cons. by left.
  - intros y. apply keeps_bind; [|intros; apply keeps_ret]. apply IH. intros z Hz. apply Hf, elem_of_cons. by right.
Qed.

Lemma replay_keeps events : Forall (fun e => event_post_init e = Ok ()) events ->
  keeps (replay sink source now events).
Proof.
  intros Hpost s0 s Hs. unfold replay. rewrite st_bind_run.
  destruct (for_each_guard_run (fun e => negb (str_eq (ev_source e) source))
    (fun e => ValueError ("controller for source " +:+ str_repr source +:+ " cannot replay " +:+ str_repr (ev_source e) +:+ " events"))
    events s) as [(us & -> & Hsrc)|(y & ->)]; [|done].
  revert s Hs. change (hoare (good s0) (keyed ← lift (result_map (fun e => g ← generation (supersedes_of events) (ev_session_id e); Ok (g, e)) events);
    accepted ← for_each (replay_one sink now (supersedes_of events)) (map snd (sort_by replay_le keyed));
    mret (omap id accepted)) (fun _ => good s0) (fun _ => good s0)).
  eapply (hoare_bind _ _ _ (fun keyed s => good s0 s /\ forall p, p ∈ keyed -> p.2 ∈ events)).
  { apply hoare_lift; [|done]. intros s keyed Hs Hk. split; [done|]. intros p Hp.
    apply (result_map_elem _ _ _ Hk) in Hp as (e & He & Hg). by apply bind_Ok in Hg as (g & _ & [= <-]). }
  intros keyed s [Hs Hin]. revert s Hs. change (hoare (good s0) (accepted ← for_each (replay_one sink now (supersedes_of events)) (map snd (sort_by replay_le keyed));
    mret (omap id accepted)) (fun _ => good s0) (fun _ => good s0)).
  rewrite Forall_forall in Hpost, Hsrc.
  eapply hoare_bind; [|intros ?; apply keeps_ret]. apply for_each_keeps.
  intros e (p & Hp & ->)%elem_map. rewrite sort_by_perm in Hp. specialize (Hin p Hp).
  apply replay_one_keeps; [by apply Hpost|]. specialize (Hsrc _ Hin). unfold str_eq in Hsrc. simpl in Hsrc. by boolify.
Qed.

Lemma events_for_post a src sid d events : events_for a src sid d = Ok events ->
  Forall (fun e => event_post_init e = Ok ()) events.
Proof.
  intros Hev. apply Forall_forall. intros e He. apply (result_map_elem _ _ _ Hev) in He as (r & _ & Hr).
  unfold new_event in Hr. by apply bind_Ok in Hr as ([] & Hp & [= <-]).
Qed.

Lemma recover_keeps a : keeps (recover sink source now a).
Proof.
  unfold recover.
  match goal with |- keeps (if sink then ?m else ?k) => enough (forall b : bool, keeps (if b then m else k)) by done end.
  intros []; [|apply keeps_ret]. intros s0.
  eapply (hoare_bind _ _ _ (fun events s => good s0 s /\ forall evs, events = Ok evs -> Forall (fun e => event_post_init e = Ok ()) evs)).
  { apply hoare_gets. intros s Hs. split; [done|]. intros evs. apply events_for_post. }
  intros events.
  eapply (hoare_bind _ _ _ (fun evs s => good s0 s /\ Forall (fun e => event_post_init e = Ok ()) evs)).
  { apply hoare_lift; [|by intros s e []]. intros s evs [Hs He] ->. split; [done|]. by apply He. }
  intros evs s [Hs Hpost]. by apply replay_keeps.
Qed.

(** Every value of the class [RuntimeEvent] passed its [__post_init__]. *)
Definition op_wf (o : op) : Prop :=
  match o with OReplay events => Forall (fun e => event_post_init e = Ok ()) events | _ => True end.

Ltac keeps_tac := repeat first
  [apply ctl_session_keeps | apply keeps_on_world | apply record_keeps | apply keeps_ret | apply keeps_gets
  |apply confirm_keeps | apply keeps_bind; [|intros ?]].

Lemma run_op_keeps o : op_wf o -> keeps (run_op sink source now o).
Proof.
  intros Hwf. destruct o; simpl; (apply keeps_bind; [|intros; apply keeps_ret]).
  - apply start_keeps.
  - unfold send. keeps_tac.
  - unfold stream_output. keeps_tac.
  - apply ctl_session_keeps.
  - unfold cancel. keeps_tac.
  - unfold terminate. keeps_tac.
  - unfold reconnect. keeps_tac.
  - by apply replay_keeps.
  - apply recover_keeps.
Qed.
End invariant.

Lemma run_ops_good {W} `{AgentRuntime W} sink source ops (s : CState W) :
  Forall (fun o => op_wf o.2) ops -> state_ok sink source s -> good sink source s (run_ops sink source ops s).
Proof.
  unfold run_ops. intros Hwf Hs. revert s Hs. induction Hwf as [|[now o] ops Ho Hops IH]; intros s Hs; [by split|]. simpl.
  assert (good sink source s (run_op sink source now o s).1) as [Hok Hgr].
  { pose proof (run_op_keeps sink source now o Ho s s (conj Hs (reflexivity s))) as Hk.
    by destruct (run_op sink source now o s) as [s' [a|e]]. }
  destruct (IH _ Hok) as [Hok' Hgr']. split; [done|]. by etrans.
Qed.

Lemma new_controller_ok {W} sink source c d (w : W) : new_controller source = Ok c -> rows_unique d ->
  state_ok sink source (CS c d w).
Proof.
  unfold new_controller. intros H Hu. do 3 (apply bind_Ok in H as (? & _ & H)). injection H as <-.
  constructor; [|done|by intros _ e ?%not_elem_of_nil]. constructor; simpl; try done.
  - intros i. split; [by intros ?%elem_of_empty|by intros ?%not_elem_of_nil].
  - constructor.
  - by intros e ?%not_elem_of_nil.
  - by intros e ?%not_elem_of_nil.
Qed.

(** Whatever the provider answers and whichever calls raise, a runtime
    controller keeps one history: its events have distinct identities, all of
    its own source, none numbered above its stream's counter; an Attempt's
    current session, and every superseded session with its successor, belong
    to that Attempt; every event it holds is stored in the database; and from
    any point on, a session is never moved to another Attempt, a stored event
    never changes, and the history only grows. *)
Theorem controller_history {W} `{AgentRuntime W} sink source c d (w : W) ops1 ops2 :
  new_controller source = Ok c -> rows_unique d -> Forall (fun o => op_wf o.2) (ops1 ++ ops2) ->
  let before := run_ops sink source ops1 (CS c d w) in
  let after := run_ops sink source ops2 before in
  state_ok sink source after /\ grows before after.
Proof.
  intros Hc Hu [Hwf1 Hwf2]%Forall_app before after.
  pose proof (run_ops_good sink source ops1 _ Hwf1 (new_controller_ok sink source c d w Hc Hu)) as [Hok _].
  exact (run_ops_good sink source ops2 _ Hwf2 Hok).
Qed.

Definition demo_now : datetime := DateTime 1000 true.
Definition demo_ctl : result Ctl := new_controller "fake".
Definition demo_ops1 : list (datetime * op) := [(demo_now, OStart "A" "agent"); (demo_now, OSend "SESSION-0001" "hello")].
Definition demo_ops2 : list (datetime * op) :=
  [(demo_now, OSend "SESSION-0002" "lost"); (demo_now, OStream "SESSION-0001"); (demo_now, OCancel "SESSION-0001")].

Lemma empty_rows_unique : rows_unique empty_db.
Proof. intros i j r r' Hr. exfalso. change (d_runtime_events empty_db) with (∅ : gmap Z RuntimeEventRow) in Hr. by rewrite lookup_empty in Hr. Qed.

Lemma controller_history_witness : exists c, demo_ctl = Ok c /\
  let before := run_ops true "fake" demo_ops1 (CS c empty_db new_fake) in
  let after := run_ops true "fake" demo_ops2 before in
  length (c_events (cs_ctl after)) = 4%nat /\ grows before after.
Proof.
  destruct demo_ctl as [c|] eqn:E; [|discriminate E]. exists c. split; [reflexivity|].
  assert (c = {| c_attempts := ∅; c_attempt_sessions := ∅; c_sequences := ∅; c_unconfirmed := ∅; c_superseded := ∅;
                 c_events := []; c_event_keys := ∅ |}) as Hc by (vm_compute in E; injection E as <-; reflexivity).
  split; [subst c; vm_compute; reflexivity|].
  exact (proj2 (controller_history true "fake" c empty_db new_fake demo_ops1 demo_ops2 E empty_rows_unique
    ltac:(repeat constructor))).
Defined.

(** The durable sink is idempotent.  Appending an event of a new identity
    stores exactly that event, and appending it again answers with the same
    row and changes nothing; an identity that is already stored is answered
    with its row when the event says the same, and refused as a conflict, with
    the database untouched, when it does not. *)
Theorem sink_append_spec now e d :
  rows_unique d -> event_post_init e = Ok () -> json_wf (JObj (ev_payload e)) = true ->
  match find_event e d with
  | Some row => row_identity row = identity e /\
      event_append now e d = (d, if compatible row e then Ok row else Err (conflict e))
  | None => exists row d', event_append now e d = (d', Ok row) /\ row_event row = e /\ re_created_at row = now /\
      d_runtime_events d !! re_id row = None /\ d_runtime_events d' = <[re_id row := row]> (d_runtime_events d) /\
      rows_unique d' /\ forall now', event_append now' e d' = (d', Ok row)
  end.
Proof.
  intros Hu Hpost Hwf. rewrite event_append_eq by done. destruct (find_event e d) as [row|] eqn:E.
  - split; [|done]. by apply find_event_Some in E as [? _].
  - pose proof (with_event_find now e d Hu E) as Hf. pose proof (with_event_unique now e d Hu E) as Hu'.
    exists (event_row (next_id (d_runtime_events d)) now e), (with_event now e d).
    cbv zeta. rewrite compatible_row by done. split_and!; [done|by destruct e|done|apply next_id_fresh|done|done|].
    intros now'. rewrite event_append_eq, Hf, compatible_row by done. done.
Qed.

Definition demo_start_event : RuntimeEvent :=
  {| ev_kind := "runtime_started"; ev_session_id := "S"; ev_attempt_id := "A"; ev_sequence := 1; ev_status := "running";
     ev_payload := [("credential_mode", JStr "api-key")]; ev_source := "pi" |}.

Lemma sink_append_spec_witness : exists d, (event_append demo_now demo_start_event empty_db).1 = d /\
  exists row, row_event row = demo_start_event /\ event_append (DateTime 2000 true) demo_start_event d = (d, Ok row).
Proof.
  pose proof (sink_append_spec demo_now demo_start_event empty_db empty_rows_unique
    ltac:(vm_compute; reflexivity) ltac:(vm_compute; reflexivity)) as H.
  assert (find_event demo_start_event empty_db = None) as Hf by (vm_compute; reflexivity).
  rewrite Hf in H. destruct H as (row & d & Ha & Hr & _ & _ & _ & _ & Hagain).
  exists d. split; [rewrite Ha; reflexivity|]. exists row. split; [exact Hr|apply Hagain].
Defined.

(** ** Recovery after a restart *)

Definition is_max (n : Z) (l : list Z) : Prop := n ∈ l /\ forall x, x ∈ l -> x <= n.

Lemma is_max_unique n m l : is_max n l -> is_max m l -> n = m.
Proof. intros [Hn Hn'] [Hm Hm']. apply Hn' in Hm. apply Hm' in Hn. lia. Qed.

Lemma is_max_perm n l k : l ≡ₚ k -> is_max n l -> is_max n k.
Proof. intros Hp [Hn Hx]. split; [by rewrite <- Hp|]. intros x. rewrite <- Hp. apply Hx. Qed.

Lemma foldr_max_is_max n ns : is_max (foldr Z.max n ns) (n :: ns).
Proof.
  induction ns as [|m ns [Hin Hx]]; simpl; [by split; [left|intros x ->%list_elem_of_singleton]|]. split.
  - destruct (Z.max_spec m (foldr Z.max n ns)) as [[_ ->]|[_ ->]]; [|right; left].
    apply elem_of_cons in Hin as [->|Hin]; [left|right; by right].
  - intros x [->|[->|Hi]%elem_of_cons]%elem_of_cons; [|lia|].
    + specialize (Hx n ltac:(left)). lia.
    + specialize (Hx x ltac:(by right)). lia.
Qed.

Definition key_of (e : RuntimeEvent) : string * string := (ev_attempt_id e, ev_session_id e).
Definition numbers (key : string * string) (l : list RuntimeEvent) : list Z :=
  map ev_sequence (List.filter (fun e => bool_decide (key_of e = key)) l).

(** The controller after it replayed exactly [done]. *)
Record replayed (done : list RuntimeEvent) (c : Ctl) : Prop := {
  rp_events : c_events c = done;
  rp_keys : forall i, i ∈ c_event_keys c <-> i ∈ map identity done;
  rp_sequences : forall key, match c_sequences c !! key with
    | None => numbers key done = []
    | Some n => is_max n (numbers key done)
    end
}.

Lemma numbers_snoc key l e : numbers key (l ++ [e]) = numbers key l ++ (if bool_decide (key_of e = key) then [ev_sequence e] else []).
Proof. unfold numbers. rewrite List.filter_app, map_app. simpl. by case_bool_decide. Qed.

Lemma replayed_snoc seen c e bound rebind : replayed seen c -> 1 <= ev_sequence e ->
  replayed (seen ++ [e]) (replay_in_memory e bound rebind c).
Proof.
  intros [He Hk Hs] Hpos.
  assert (replayed (seen ++ [e]) (c {{ c_event_keys ::= union {[identity e]}; c_events ::= fun l => l ++ [e];
      c_sequences ::= fun m => <[key_of e := Z.max (default 0 (m !! key_of e)) (ev_sequence e)]> m;
      c_attempts ::= insert (ev_session_id e) (ev_attempt_id e) }})) as Hbase.
  { constructor.
    - change (c_events c ++ [e] = seen ++ [e]). by rewrite He.
    - intros i. change (i ∈ {[identity e]} ∪ c_event_keys c <-> i ∈ map identity (seen ++ [e])).
      rewrite elem_of_union, elem_of_singleton, Hk, map_app, elem_of_app. simpl. rewrite list_elem_of_singleton. tauto.
    - intros key. rewrite numbers_snoc. specialize (Hs key).
      change (match <[key_of e := Z.max (default 0 (c_sequences c !! key_of e)) (ev_sequence e)]> (c_sequences c) !! key with
              | Some n => is_max n (numbers key seen ++ (if bool_decide (key_of e = key) then [ev_sequence e] else []))
              | None => numbers key seen ++ (if bool_decide (key_of e = key) then [ev_sequence e] else []) = []
              end).
      case_bool_decide as Hkey; [|by rewrite lookup_insert_ne, app_nil_r by done].
      subst key. rewrite lookup_insert_eq. destruct (c_sequences c !! key_of e) as [n|].
      + simpl. destruct Hs as [Hn Hx]. split.
        * apply elem_of_app. destruct (Z.max_spec n (ev_sequence e)) as [[_ ->]|[_ ->]]; [right; by left|by left].
        * intros x [Hi%Hx| ->%list_elem_of_singleton]%elem_of_app; lia.
      + rewrite Hs. simpl. rewrite Z.max_r by lia. split; [by left|]. by intros x ->%list_elem_of_singleton. }
  destruct Hbase as [Be Bk Bs]. unfold replay_in_memory. destruct bound as [b|]; [destruct rebind|]; by constructor.
Qed.

Section recovery.
Context {W : Type} `{AgentRuntime W} (source : string) (now : datetime).

Lemma replay_one_stored supersedes e row (s : CState W) :
  identity e ∉ c_event_keys (cs_ctl s) -> event_append now e (cs_db s) = (cs_db s, Ok row) ->
  (exists x, replay_one true now supersedes e s = (s, Err x)) \/
  (exists bound rebind, replay_one true now supersedes e s =
     (CS (replay_in_memory e bound rebind (cs_ctl s)) (cs_db s) (cs_world s), Ok (Some e))).
Proof.
  intros Hnew Happ. unfold replay_one. rewrite gets_bind, bool_decide_eq_false_2, guard_bind by done.
  match goal with |- context [if ?b then _ else _] => destruct b; [left; eauto|] end.
  rewrite guard_bind.
  match goal with |- context [if ?b then _ else _] => destruct b; [left; eauto|] end.
  right. rewrite st_bind_run. unfold when. rewrite st_bind_run. unfold on_db at 1. rewrite Happ.
  eexists _, _. reflexivity.
Qed.

Lemma replay_one_known supersedes e (s : CState W) :
  identity e ∈ c_event_keys (cs_ctl s) -> replay_one true now supersedes e s = (s, Ok None).
Proof. intros Hk. unfold replay_one. by rewrite gets_bind, bool_decide_eq_true_2. Qed.

Lemma replay_loop supersedes l seen (s s' : CState W) accepted :
  replayed seen (cs_ctl s) -> NoDup (map identity (seen ++ l)) ->
  (forall e, e ∈ l -> 1 <= ev_sequence e /\ exists row, event_append now e (cs_db s) = (cs_db s, Ok row)) ->
  for_each (replay_one true now supersedes) l s = (s', Ok accepted) ->
  replayed (seen ++ l) (cs_ctl s') /\ accepted = map Some l /\ cs_db s' = cs_db s /\ cs_world s' = cs_world s.
Proof.
  revert seen s accepted. induction l as [|e l IH]; intros seen s accepted Hr Hnd Hl Hrun.
  - injection Hrun as <- <-. by rewrite app_nil_r.
  - cbn [for_each] in Hrun. rewrite st_bind_run in Hrun.
    destruct (Hl e ltac:(left)) as [Hpos [row Happ]].
    assert (identity e ∉ c_event_keys (cs_ctl s)) as Hnew.
    { rewrite (rp_keys _ _ Hr). rewrite map_app in Hnd. apply NoDup_app in Hnd as (_ & Hdisj & _).
      intros Hin. apply (Hdisj _ Hin). by left. }
    destruct (replay_one_stored supersedes e row s Hnew Happ) as [(x & Hx)|(bound & rebind & Hx)]; rewrite Hx in Hrun; [done|].
    rewrite st_bind_run in Hrun.
    destruct (for_each _ l _) as [s1 [acc|x]] eqn:Hrest; [|done]. injection Hrun as <- <-.
    destruct (IH (seen ++ [e]) (CS (replay_in_memory e bound rebind (cs_ctl s)) (cs_db s) (cs_world s)) acc) as (Hr' & -> & Hdb & Hw);
      [by apply replayed_snoc|by rewrite <- app_assoc|intros x Hx'; apply Hl; by right|exact Hrest|].
    rewrite <- app_assoc in Hr'. by split_and!.
Qed.

Lemma replay_loop_known supersedes l (s : CState W) :
  (forall e, e ∈ l -> identity e ∈ c_event_keys (cs_ctl s)) ->
  for_each (replay_one true now supersedes) l s = (s, Ok (map (fun _ => None) l)).
Proof.
  induction l as [|e l IH]; intros Hl; [done|]. cbn [for_each]. rewrite st_bind_run, replay_one_known by (apply Hl; left).
  rewrite st_bind_run, IH by (intros x Hx; apply Hl; by right). done.
Qed.

(** A stored event row that SDF wrote: its payload is a dict. *)
Definition row_ok (r : RuntimeEventRow) : Prop :=
  exists kvs, re_payload r = JObj kvs /\ json_wf (JObj kvs) = true.

Lemma row_event_append r d id : rows_unique d -> d_runtime_events d !! id = Some r -> row_ok r ->
  event_post_init (row_event r) = Ok () -> event_append now (row_event r) d = (d, Ok r).
Proof.
  intros Hu Hr (kvs & Hp & Hwf) Hpost. rewrite event_append_eq by done.
  rewrite (find_event_unique (row_event r) d id r Hu Hr) by done.
  assert (compatible r (row_event r) = true) as ->; [|done].
  unfold compatible, row_event, str_eq. cbn [ev_kind ev_status ev_payload]. rewrite Hp. cbn [row_payload].
  rewrite !bool_decide_eq_true_2 by done. by apply py_eq_refl.
Qed.
Lemma omap_id_Some {A} (l : list A) : omap id (map Some l) = l.
Proof. induction l as [|x l IH]; [done|].
  change (x :: omap id (map Some l) = x :: l). by rewrite IH.
Qed.

Lemma omap_id_None {A B} (l : list A) : omap id (map (fun _ => @None B) l) = [].
Proof. by induction l. Qed.

(** The replay order is a permutation of the batch. *)
Lemma keyed_perm (supersedes : gmap string string) events keyed :
  result_map (fun e => g ← generation supersedes (ev_session_id e); Ok (g, e)) events = Ok keyed ->
  map snd (sort_by replay_le keyed) ≡ₚ events.
Proof.
  intros Hk. rewrite sort_by_perm. revert keyed Hk. induction events as [|e l IH]; intros keyed Hk; [by injection Hk as <-|].
  simpl in Hk. apply bind_Ok in Hk as (p & Hp & Hk). apply bind_Ok in Hk as (ps & Hps & [= <-]).
  apply bind_Ok in Hp as (g & _ & [= <-]). simpl. by rewrite (IH _ Hps).
Qed.

(** The batch a controller replays, in order. *)
Lemma replay_run events (s s' : CState W) accepted :
  Forall (fun e => ev_source e = source) events ->
  replay true source now events s = (s', Ok accepted) ->
  exists l acc, l ≡ₚ events /\ accepted = omap id acc /\
    for_each (replay_one true now (supersedes_of events)) l s = (s', Ok acc) /\
    (forall (x y : CState W) known, for_each (replay_one true now (supersedes_of events)) l x = (y, Ok known) ->
       replay true source now events x = (y, Ok (omap (M := list) id known))).
Proof.
  intros Hsrc. unfold replay. rewrite st_bind_run.
  assert (forall s : CState W, exists us, for_each (fun e => guard (negb (str_eq (ev_source e) source))
      (ValueError ("controller for source " +:+ str_repr source +:+ " cannot replay " +:+ str_repr (ev_source e) +:+ " events")))
      events s = (s, Ok us)) as Hguard.
  { intros x. induction Hsrc as [|e l He Hl IH]; [by exists []|]. cbn [for_each].
    rewrite guard_bind. unfold str_eq at 1. rewrite bool_decide_eq_true_2 by done. simpl.
    destruct IH as [us Hus]. rewrite st_bind_run, Hus. by eexists. }
  destruct (Hguard s) as [us ->]. rewrite lift_bind.
  destruct (result_map _ events) as [keyed|x] eqn:Hk; [|done]. rewrite st_bind_run. intros Hrun.
  destruct (for_each _ _ s) as [s1 [acc|x]] eqn:Hloop; [|done]. injection Hrun as <- <-.
  exists (map snd (sort_by replay_le keyed)), acc. split_and!; [by eapply keyed_perm|done|done|].
  intros x y known Hx. rewrite st_bind_run. destruct (Hguard x) as [us' ->]. rewrite lift_bind, st_bind_run, Hx. done.
Qed.
End recovery.

(** The rows [recover] reads, as a list. *)
Definition attempt_rows (source a : string) (d : Db) : list RuntimeEventRow :=
  select_rows (fun r => str_eq (re_attempt_id r) a && str_eq (re_source r) source && true) (d_runtime_events d).

Lemma events_for_rows a source d events : events_for a (Some source) None d = Ok events ->
  events = map row_event (sort_by event_le (attempt_rows source a d)) /\
  Forall (fun e => event_post_init e = Ok ()) events.
Proof.
  intros H. split; [|by eapply events_for_post]. unfold events_for in H. fold (attempt_rows source a d) in H.
  revert H. generalize (sort_by event_le (attempt_rows source a d)). intros l. revert events.
  induction l as [|r l IH]; intros events H; [by injection H as <-|]. simpl in H.
  apply bind_Ok in H as (e & He & H). apply bind_Ok in H as (es & Hes & [= <-]).
  apply bind_Ok in He as ([] & _ & [= <-]). simpl. by rewrite <- (IH _ Hes).
Qed.

Lemma rows_NoDup d (p : RuntimeEventRow -> bool) : rows_unique d -> NoDup (map row_identity (select_rows p (d_runtime_events d))).
Proof.
  intros Hu. unfold select_rows.
  assert (NoDup (map row_identity (rows (d_runtime_events d)))) as Hnd.
  { unfold rows. rewrite map_map. apply NoDup_fmap_2_strong; [|apply NoDup_map_to_list].
    intros [i r] [j r'] Hi%elem_of_map_to_list Hj%elem_of_map_to_list Heq. simpl in Heq.
    assert (i = j) as -> by (eapply Hu; eauto). congruence. }
  induction (rows (d_runtime_events d)) as [|r l IH]; simpl in *; [constructor|].
  apply NoDup_cons in Hnd as [Hr Hnd]. destruct (p r); [|auto]. simpl. apply NoDup_cons. split; [|auto].
  intros (x & [Hx _]%elem_filterb & Heq)%elem_map. apply Hr, elem_map. eauto.
Qed.

Lemma filterb_perm {A} (p : A -> bool) l k : l ≡ₚ k -> List.filter p l ≡ₚ List.filter p k.
Proof.
  induction 1 as [|x l k H IH|x y l|l1 l2 l3 H1 IH1 H2 IH2]; simpl; [done| | |by etrans].
  - destruct (p x); [by constructor|done].
  - destruct (p x), (p y); try done. apply Permutation_swap.
Qed.

Lemma filterb_filterb {A} (p q : A -> bool) l : List.filter p (List.filter q l) = List.filter (fun x => q x && p x) l.
Proof. induction l as [|x l IH]; [done|]. simpl. destruct (q x); simpl; by rewrite IH. Qed.

Lemma filterb_map {A B} (f : A -> B) (p : B -> bool) l : List.filter p (map f l) = map f (List.filter (fun x => p (f x)) l).
Proof. induction l as [|x l IH]; [done|]. simpl. destruct (p (f x)); simpl; by rewrite IH. Qed.

Lemma numbers_rows source a sid d l : l ≡ₚ map row_event (attempt_rows source a d) ->
  numbers (a, sid) l ≡ₚ map re_sequence (stream_rows source a sid d).
Proof.
  intros Hl. unfold numbers. rewrite (filterb_perm _ _ _ Hl), filterb_map, map_map.
  match goal with |- ?x ≡ₚ ?y => enough (x = y) as -> by done end. unfold attempt_rows, stream_rows, select_rows. rewrite filterb_filterb. f_equal.
  apply List.filter_ext. intros r. unfold key_of, row_event, stream_key, str_eq. cbn [ev_attempt_id ev_session_id].
  apply eq_true_iff_eq. rewrite !andb_true_iff, !bool_decide_eq_true. naive_solver.
Qed.

(** Recovery restores exactly the durable stream.  A new controller that
    recovers an Attempt writes nothing and calls no provider, ends up holding
    every stored event of its source and Attempt once and nothing else, and
    knows the last durable sequence of each of the Attempt's sessions, so that
    its next event continues the stream; recovering again changes nothing. *)
Theorem recover_restores {W} `{AgentRuntime W} source now a c d (w : W) s' evs :
  new_controller source = Ok c -> rows_unique d ->
  (forall id r, d_runtime_events d !! id = Some r -> row_ok r) ->
  recover true source now a (CS c d w) = (s', Ok evs) ->
  cs_db s' = d /\ cs_world s' = w /\
  evs ≡ₚ map row_event (attempt_rows source a d) /\ c_events (cs_ctl s') = evs /\
  (forall sid, stream_rows source a sid d <> [] ->
     c_sequences (cs_ctl s') !! (a, sid) = Some (last_sequence source a sid d)) /\
  recover true source now a s' = (s', Ok []).
Proof.
  intros Hc Hu Hok. unfold recover. rewrite gets_bind, lift_bind. cbn [cs_db].
  destruct (events_for a (Some source) None d) as [events|x] eqn:Hev; [|done].
  destruct (events_for_rows _ _ _ _ Hev) as [Heq Hpost]. rewrite Forall_forall in Hpost.
  set (read := sort_by event_le (attempt_rows source a d)) in *.
  assert (read ≡ₚ attempt_rows source a d) as Hread by apply sort_by_perm.
  assert (forall r, r ∈ read -> str_eq (re_attempt_id r) a && str_eq (re_source r) source && true = true /\
            exists id, d_runtime_events d !! id = Some r) as Hrows.
  { intros r Hr. rewrite Hread in Hr. by apply elem_select in Hr. }
  assert (Forall (fun e => ev_source e = source) events) as Hsrc.
  { apply Forall_forall. intros e He. rewrite Heq in He. apply elem_map in He as (r & Hr & ->).
    apply Hrows in Hr as [Hb _]. unfold str_eq in Hb. by boolify. }
  intros Hrun. destruct (replay_run source now events _ _ _ Hsrc Hrun) as (l & acc & Hl & -> & Hloop & Hagain).
  assert (NoDup (map identity l)) as Hnd.
  { rewrite (Permutation_map identity Hl), Heq, map_map.
    rewrite (Permutation_map (fun r => identity (row_event r)) Hread). by apply (rows_NoDup d). }
  assert (forall e, e ∈ l -> 1 <= ev_sequence e /\ exists row, event_append now e d = (d, Ok row)) as Happ.
  { intros e He. rewrite Hl in He. pose proof (Hpost _ He) as Hp. split.
    - unfold event_post_init in Hp. do 4 (apply bind_Ok in Hp as (? & _ & Hp)).
      apply bind_Ok in Hp as (? & Hp & _). apply raise_if_Ok in Hp. boolify. lia.
    - rewrite Heq in He. apply elem_map in He as (r & Hr & ->). apply Hrows in Hr as [_ [id Hid]].
      exists r. eapply row_event_append; [done|done|by eapply Hok|done]. }
  assert (replayed [] c) as Hstart.
  { unfold new_controller in Hc. do 3 (apply bind_Ok in Hc as (? & _ & Hc)). injection Hc as <-.
    constructor; [done| |done]. intros i. split; [by intros ?%elem_of_empty|by intros ?%not_elem_of_nil]. }
  destruct (replay_loop now (supersedes_of events) l [] (CS c d w) s' acc Hstart Hnd Happ Hloop) as (Hr & -> & Hdb & Hw).
  destruct Hr as [Hre Hrk Hrs]. rewrite omap_id_Some. simpl in Hre, Hdb, Hw.
  assert (l ≡ₚ map row_event (attempt_rows source a d)) as Hlr by by rewrite Hl, Heq, Hread.
  split_and!; [done|done|done|done| |].
  - intros sid Hne. specialize (Hrs (a, sid)).
    assert (numbers (a, sid) ([] ++ l) ≡ₚ map re_sequence (stream_rows source a sid d)) as Hnum by (by apply numbers_rows).
    unfold last_sequence. destruct (map re_sequence (stream_rows source a sid d)) as [|n ns] eqn:E.
    { by apply map_eq_nil in E. }
    destruct (c_sequences (cs_ctl s') !! (a, sid)) as [m|].
    + f_equal. eapply is_max_unique; [eapply is_max_perm; [exact Hnum|done]|apply foldr_max_is_max].
    + rewrite Hrs in Hnum. by apply Permutation_nil_cons in Hnum.
  - rewrite gets_bind, lift_bind, Hdb, Hev. rewrite <- (omap_id_None (B := RuntimeEvent) l).
    apply Hagain, replay_loop_known. intros e He. rewrite Hrk. apply elem_map. eauto.
Qed.

Definition demo_stored : Db := with_event demo_now demo_start_event empty_db.

Lemma demo_stored_rows id r : d_runtime_events demo_stored !! id = Some r -> row_ok r.
Proof.
  unfold demo_stored. rewrite with_event_rows, lookup_insert_Some. intros [[_ <-]|[_ Hr]].
  - exists (ev_payload demo_start_event). split; [reflexivity|vm_compute; reflexivity].
  - change (d_runtime_events empty_db) with (∅ : gmap Z RuntimeEventRow) in Hr. by rewrite lookup_empty in Hr.
Qed.

Lemma recover_restores_witness : exists c s', new_controller "pi" = Ok c /\
  recover true "pi" demo_now "A" (CS c demo_stored new_fake) = (s', Ok [demo_start_event]) /\
  c_sequences (cs_ctl s') !! ("A", "S") = Some 1.
Proof.
  destruct (new_controller "pi") as [c|] eqn:E; [|discriminate E].
  destruct (recover true "pi" demo_now "A" (CS c demo_stored new_fake)) as [s' r] eqn:Er.
  assert (r = Ok [demo_start_event]) as Hr by
    (vm_compute in E; injection E as E; subst c; vm_compute in Er; injection Er as _ <-; reflexivity).
  subst r. exists c, s'. split; [reflexivity|]. split; [exact Er|].
  pose proof (recover_restores "pi" demo_now "A" c demo_stored new_fake s' [demo_start_event] E
    (with_event_unique _ _ _ empty_rows_unique eq_refl) demo_stored_rows Er) as (_ & _ & _ & _ & Hseq & _).
  exact (Hseq "S" ltac:(vm_compute; discriminate)).
Defined.

(** The supersession chain always resolves: the fuel never runs out. *)
Lemma generation_fuel fuel (m : gmap string string) sid seen depth :
  (size m + 1 <= fuel + length seen)%nat -> NoDup seen -> head seen = Some sid ->
  (forall s, s ∈ tail seen -> is_Some (m !! s)) ->
  generation_from fuel m sid seen depth <> Err (RuntimeError "out of fuel").
Proof.
  revert sid seen depth. induction fuel as [|fuel IH]; intros sid seen depth Hlen Hnd Hhd Hin; simpl;
    destruct (m !! sid) as [older|] eqn:E; try done; case_bool_decide as Hseen; try done.
  - exfalso. assert (list_to_set seen ⊆ dom m) as Hsub.
    { intros s Hs. apply elem_of_list_to_set in Hs. apply elem_of_dom. destruct seen as [|x l]; [done|].
      injection Hhd as ->. apply elem_of_cons in Hs as [->|Hs]; [eauto|by apply Hin]. }
    apply subseteq_size in Hsub. rewrite size_list_to_set, size_dom in Hsub by done. lia.
  - apply IH; [simpl; lia|by constructor|done|]. intros s Hs. simpl in Hs. destruct seen as [|x l]; [done|].
    injection Hhd as ->. apply elem_of_cons in Hs as [->|Hs]; [eauto|by apply Hin].
Qed.

Lemma generation_total m sid : generation m sid <> Err (RuntimeError "out of fuel").
Proof.
  unfold generation. apply generation_fuel; [simpl; lia|apply NoDup_singleton|done|]. by intros s ?%not_elem_of_nil.
Qed.
