(* ===== verification/Policy.v ===== *)
(** * Policy: authorising one structured tool action

    Models [src/sdf_core/policy.py]: the request with its content-addressed
    identity, the decision, the audit record and the allowlist policy. *)

From S2P Require Import Prelude Floats Json.

Inductive PolicyEffect : Type := ALLOW | DENY.

#[export] Instance PolicyEffect_eq_dec : EqDecision PolicyEffect.
Proof. solve_decision. Defined.

Definition PolicyEffect_value (e : PolicyEffect) : string := match e with ALLOW => "allow" | DENY => "deny" end.

Inductive AuditEvent : Type := POLICY_DECIDED | ACTION_EXECUTED | ACTION_FAILED.

#[export] Instance AuditEvent_eq_dec : EqDecision AuditEvent.
Proof. solve_decision. Defined.

Definition AuditEvent_value (e : AuditEvent) : string :=
  match e with
  | POLICY_DECIDED => "policy_decided" | ACTION_EXECUTED => "action_executed" | ACTION_FAILED => "action_failed"
  end.

(** A context value: JSON, or the [bytes] body of a network request (a string
    of the characters 0 to 255). *)
Inductive ctxval : Type := CJson (j : json) | CBytes (b : string).

#[export] Instance ctxval_eq_dec : EqDecision ctxval.
Proof. solve_decision. Defined.

Definition context : Type := list (string * ctxval).

Record ActionRequest : Type := {
  rq_attempt_id : string; rq_actor : string; rq_tool : string; rq_action : string; rq_resource : string;
  rq_context : context
}.

#[export] Instance ActionRequest_eq_dec : EqDecision ActionRequest.
Proof. solve_decision. Defined.

Definition non_empty (field value : string) : result unit :=
  raise_if (negb (str_truthy (str_strip value))) (ValueError (field +:+ " must be a non-empty string")).

Definition request_post_init (r : ActionRequest) : result unit :=
  _ ← non_empty "attempt_id" (rq_attempt_id r);
  _ ← non_empty "actor" (rq_actor r);
  _ ← non_empty "tool" (rq_tool r);
  _ ← non_empty "action" (rq_action r);
  non_empty "resource" (rq_resource r).

(** [str(value)] of a bytes value, what [default=str] stores. *)
Definition bytes_repr (b : string) : string :=
  let single := ascii_of_nat 39 in
  let double := ascii_of_nat 34 in
  let quote := if str_has_char single b && negb (str_has_char double b) then double else single in
  let hexd (d : nat) := String (ascii_of_nat (if (d <? 10)%nat then 48 + d else 87 + d)) "" in
  let char (c : ascii) :=
    let n := nat_of_ascii c in
    if (127 <=? n)%nat then String (ascii_of_nat 92) ("x" +:+ hexd (n / 16)%nat +:+ hexd (n mod 16)%nat)
    else repr_char quote c in
  "b" +:+ String quote (str_concat_map char b) +:+ String quote "".

Definition ctx_json (v : ctxval) : json := match v with CJson j => j | CBytes b => JStr (bytes_repr b) end.

Definition action_payload (r : ActionRequest) : json :=
  JObj [("attempt_id", JStr (rq_attempt_id r)); ("actor", JStr (rq_actor r)); ("tool", JStr (rq_tool r));
        ("action", JStr (rq_action r)); ("resource", JStr (rq_resource r));
        ("context", JObj (map (fun kv => (kv.1, ctx_json kv.2)) (rq_context r)))].

Definition action_id (r : ActionRequest) : string := "ACTION-" +:+ sha256_text (dumps true (action_payload r)).

Record PolicyDecision : Type := {
  dc_attempt_id : string; dc_action_id : string; dc_effect : PolicyEffect; dc_reason : string;
  dc_policy : string; dc_created_at : datetime
}.

Definition decision_post_init (d : PolicyDecision) : result PolicyDecision :=
  _ ← raise_if (negb (str_truthy (dc_attempt_id d))) (ValueError "attempt_id must be non-empty");
  _ ← raise_if (negb (str_truthy (dc_action_id d))) (ValueError "action_id must be non-empty");
  _ ← raise_if (negb (str_truthy (str_strip (dc_reason d)))) (ValueError "reason must be non-empty");
  _ ← raise_if (negb (str_truthy (str_strip (dc_policy d)))) (ValueError "policy must be non-empty");
  Ok d.

Definition allowed (d : PolicyDecision) : bool := bool_decide (dc_effect d = ALLOW).

Definition decision_for (effect : PolicyEffect) (now : datetime) (r : ActionRequest) (reason policy : string)
    : result PolicyDecision :=
  decision_post_init {| dc_attempt_id := rq_attempt_id r; dc_action_id := action_id r; dc_effect := effect;
                        dc_reason := reason; dc_policy := policy; dc_created_at := now |}.

(** [PolicyDecision.allow], [PolicyDecision.deny] *)
Definition allow := decision_for ALLOW.
Definition deny := decision_for DENY.

Record AuditRecord : Type := {
  au_audit_id : string; au_attempt_id : string; au_action_id : string; au_actor : string; au_tool : string;
  au_action : string; au_resource : string; au_context : context; au_event : AuditEvent;
  au_decision : PolicyEffect; au_executed : bool; au_outcome : string; au_detail : string; au_created_at : datetime
}.

(** [AuditRecord.for_request]; [uuid] is the 16 hex digits of a fresh uuid4. *)
Definition for_request (uuid : string) (now : datetime) (r : ActionRequest) (event : AuditEvent) (d : PolicyDecision)
    (executed : bool) (outcome detail : string) : AuditRecord :=
  {| au_audit_id := "AUDIT-" +:+ uuid; au_attempt_id := rq_attempt_id r; au_action_id := action_id r;
     au_actor := rq_actor r; au_tool := rq_tool r; au_action := rq_action r; au_resource := rq_resource r;
     au_context := rq_context r; au_event := event; au_decision := dc_effect d; au_executed := executed;
     au_outcome := outcome; au_detail := detail; au_created_at := now |}.

(** What a policy promises the proxy: an explicit decision, or an exception,
    without executing the action. *)
Class Policy (P : Type) : Type := decide : P -> datetime -> ActionRequest -> result PolicyDecision.

(** ** [AllowlistPolicy] *)

Record AllowlistPolicy : Type := {
  al_actions : gset (string * string); al_actors : option (gset string); al_resources : option (gset string);
  al_context : context; al_name : string
}.

(** [request.context.get(k)] *)
Definition ctx_get (k : string) (c : context) : ctxval :=
  match List.find (fun kv => str_eq kv.1 k) c with Some kv => kv.2 | None => CJson JNull end.

Definition ctx_eq (a b : ctxval) : bool :=
  match a, b with
  | CJson x, CJson y => py_eq x y
  | CBytes x, CBytes y => str_eq x y
  | _, _ => false
  end.

Definition in_optional_set (x : string) (s : option (gset string)) : bool :=
  match s with Some s => bool_decide (x ∈ s) | None => true end.

Definition is_allowlisted (p : AllowlistPolicy) (r : ActionRequest) : bool :=
  bool_decide ((rq_tool r, rq_action r) ∈ al_actions p) &&
  in_optional_set (rq_actor r) (al_actors p) &&
  in_optional_set (rq_resource r) (al_resources p) &&
  forallb (fun kv => ctx_eq (ctx_get kv.1 (rq_context r)) kv.2) (al_context p).

Definition allowlist_decide (p : AllowlistPolicy) (now : datetime) (r : ActionRequest) : result PolicyDecision :=
  if is_allowlisted p r
  then allow now r (rq_tool r +:+ "." +:+ rq_action r +:+ " is allowlisted") (al_name p)
  else deny now r (rq_tool r +:+ "." +:+ rq_action r +:+ " is not allowlisted") (al_name p).

#[export] Instance allowlist_policy : Policy AllowlistPolicy := allowlist_decide.

Lemma is_allowlisted_iff p r : is_allowlisted p r = true <->
  (rq_tool r, rq_action r) ∈ al_actions p /\
  (forall s, al_actors p = Some s -> rq_actor r ∈ s) /\
  (forall s, al_resources p = Some s -> rq_resource r ∈ s) /\
  (forall k v, (k, v) ∈ al_context p -> ctx_eq (ctx_get k (rq_context r)) v = true).
Proof.
  unfold is_allowlisted, in_optional_set. rewrite !andb_true_iff, bool_decide_eq_true, forallb_forall.
  setoid_rewrite <- list_elem_of_In.
  destruct (al_actors p) as [sa|], (al_resources p) as [sr|]; rewrite ?bool_decide_eq_true; split.
  all: try (intros [[[H1 H2] H3] H4]; split_and!; [done|by intros ? [= <-]|by intros ? [= <-]|];
            intros k v Hkv; exact (H4 (k, v) Hkv)).
  all: intros (H1 & H2 & H3 & H4); split_and!; auto; intros [k v] Hkv; by apply H4.
Qed.

(** The allowlist policy always answers a valid request, for this request
    and no other, unless its own name is blank: allow exactly when the
    (tool, action) pair, the actor, the resource and every required context
    entry are allowed; whatever is not listed is denied. *)
Theorem allowlist_decides p now r :
  request_post_init r = Ok () ->
  (str_truthy (str_strip (al_name p)) = false -> allowlist_decide p now r = Err (ValueError "policy must be non-empty")) /\
  (str_truthy (str_strip (al_name p)) = true ->
   exists d, allowlist_decide p now r = Ok d /\ dc_attempt_id d = rq_attempt_id r /\ dc_action_id d = action_id r /\
     (allowed d = true <->
      (rq_tool r, rq_action r) ∈ al_actions p /\
      (forall s, al_actors p = Some s -> rq_actor r ∈ s) /\
      (forall s, al_resources p = Some s -> rq_resource r ∈ s) /\
      (forall k v, (k, v) ∈ al_context p -> ctx_eq (ctx_get k (rq_context r)) v = true))).
Proof.
  intros Hr. assert (str_truthy (rq_attempt_id r) = true) as Ha.
  { unfold request_post_init, non_empty in Hr. apply bind_Ok in Hr as (? & Ha%raise_if_Ok & _).
    apply negb_false_iff in Ha. by destruct (rq_attempt_id r). }
  assert (forall e reason, str_truthy (str_strip reason) = true ->
    decision_for e now r reason (al_name p) =
    if str_truthy (str_strip (al_name p)) then
      Ok {| dc_attempt_id := rq_attempt_id r; dc_action_id := action_id r; dc_effect := e; dc_reason := reason;
            dc_policy := al_name p; dc_created_at := now |}
    else Err (ValueError "policy must be non-empty")) as Hd.
  { intros e reason Hreason. unfold decision_for, decision_post_init. cbn [dc_attempt_id dc_action_id dc_reason dc_policy].
    change (str_truthy (action_id r)) with true. rewrite Ha, Hreason. by destruct (str_truthy (str_strip (al_name p))). }
  assert (forall suffix, str_forallb is_space suffix = false ->
    str_truthy (str_strip (rq_tool r +:+ "." +:+ rq_action r +:+ suffix)) = true) as Hreason.
  { intros suffix Hs. rewrite str_strip_truthy, !str_forallb_app, Hs. by rewrite !andb_false_r. }
  unfold allowlist_decide, allow, deny. rewrite !Hd by (by apply Hreason).
  split; intros Hn; rewrite Hn; [by destruct (is_allowlisted p r)|].
  pose proof (is_allowlisted_iff p r) as Hiff.
  destruct (is_allowlisted p r); eexists; (split_and!; [done|done|done|]); exact Hiff.
Qed.

Definition demo_allowlist : AllowlistPolicy :=
  {| al_actions := {[("filesystem", "read")]}; al_actors := None; al_resources := None; al_context := []; al_name := "allowlist" |}.
Definition demo_read : ActionRequest :=
  {| rq_attempt_id := "A"; rq_actor := "agent:pi"; rq_tool := "filesystem"; rq_action := "read"; rq_resource := "a.txt"; rq_context := [] |}.

Lemma allowlist_decides_witness : request_post_init demo_read = Ok () /\
  exists d, allowlist_decide demo_allowlist (DateTime 0 true) demo_read = Ok d /\ dc_action_id d = action_id demo_read.
Proof.
  split; [vm_compute; reflexivity|].
  destruct (proj2 (allowlist_decides demo_allowlist (DateTime 0 true) demo_read ltac:(vm_compute; reflexivity))
    ltac:(vm_compute; reflexivity)) as (d & Hd & _ & Hid & _).
  exists d. split; [exact Hd|exact Hid].
Defined.
