(* ===== verification/ToolProxy.v ===== *)
(** * ToolProxy: the trusted action boundary

    Models [src/sdf_core/tools.py]: the durable audit and event sinks, the
    Attempt binding and guard, and [ToolProxy.execute], which authorises one
    structured action, fences it against redelivery and records what happened;
    and [ExecutionService.execute_tool] of [src/sdf_core/execution.py], which
    commits what was recorded once it has returned. *)

From S2P Require Import Prelude StateError Floats Sha256 Json Db EvidenceMac Flush Samples Store Lifecycle Events Runtime Policy.

(** [_durable_context]: a bytes value is kept as its length and digest. *)
Definition sha256_bytes (b : string) : string := Sha256.hex (Sha256.digest (map (fun c => Z.of_nat (nat_of_ascii c)) (String.list_ascii_of_string b))).

Definition durable_value (v : ctxval) : json :=
  match v with
  | CJson j => j
  | CBytes b => JStr ("<bytes len=" +:+ pretty (str_len b) +:+ " sha256=" +:+ sha256_bytes b +:+ ">")
  end.

Definition durable_context (c : context) : dict := map (fun kv => (kv.1, durable_value kv.2)) c.

(** ** [SqlAlchemyAttemptGuard] *)

Definition ACTIVE : list string :=
  [AttemptState_value ACREATED; AttemptState_value ADISPATCHED; AttemptState_value ARUNNING].

Definition is_active (attempt_id : string) (d : Db) : bool :=
  match d_attempts d !! attempt_id with Some a => str_in (at_status a) ACTIVE | None => false end.

Inductive ToolExecutionStatus : Type := EXECUTED | DENIED | FAILED.

#[export] Instance ToolExecutionStatus_eq_dec : EqDecision ToolExecutionStatus.
Proof. solve_decision. Defined.

Definition ToolExecutionStatus_value (s : ToolExecutionStatus) : string :=
  match s with EXECUTED => "executed" | DENIED => "denied" | FAILED => "failed" end.

Record ToolExecution : Type := {
  tx_action : ActionRequest; tx_decision : PolicyDecision; tx_status : ToolExecutionStatus;
  tx_value : option json; tx_error : option string; tx_audit_records : list AuditRecord
}.

(** ** [SqlAlchemyAuditSink] *)

(** The Attempt's mode when the row is written; an unknown Attempt is synthetic. *)
Definition evidence_mode (attempt_id : string) (d : Db) : string :=
  match d_attempts d !! attempt_id with
  | Some a => if str_eq (at_evidence_mode a) "live" then "live" else "synthetic"
  | None => "synthetic"
  end.

Definition has_audit (attempt_id action_id event : string) (d : Db) : option ToolAuditRow :=
  find_row (fun r => str_eq (ta_attempt_id r) attempt_id && str_eq (ta_action_id r) action_id && str_eq (ta_event r) event)
           (d_tool_audits d).

Definition has_event (attempt_id action_id : string) (event : AuditEvent) (d : Db) : bool :=
  bool_decide (is_Some (has_audit attempt_id action_id (AuditEvent_value event) d)).

(** INSERT ... ON CONFLICT (attempt_id, action_id, event) WHERE event <>
    'policy_decided' DO NOTHING; a duplicate primary key is an error. *)
Definition insert_execution (row : ToolAuditRow) : ST Db unit :=
  d ← gets (fun d => d);
  match has_audit (ta_attempt_id row) (ta_action_id row) (ta_event row) d with
  | Some _ => mret ()
  | None =>
      _ ← guard (bool_decide (is_Some (d_tool_audits d !! ta_audit_id row))) (IntegrityError "tool_audits.audit_id");
      modify (fun d => d {{ d_tool_audits ::= insert (ta_audit_id row) row }})
  end.

(** INSERT ... ON CONFLICT (audit_id) DO NOTHING. *)
Definition insert_decision (row : ToolAuditRow) : ST Db unit :=
  modify (fun d => match d_tool_audits d !! ta_audit_id row with
                   | Some _ => d
                   | None => d {{ d_tool_audits ::= insert (ta_audit_id row) row }}
                   end).

Definition claim_row (uuid : string) (principal : option string) (r : ActionRequest) (c : PolicyDecision) (d : Db) : ToolAuditRow :=
  {| ta_audit_id := "AUDIT-CLAIM-" +:+ uuid; ta_attempt_id := rq_attempt_id r; ta_action_id := action_id r;
     ta_actor := rq_actor r; ta_tool := rq_tool r; ta_action := rq_action r; ta_resource := rq_resource r;
     ta_context := JObj (durable_context (rq_context r)); ta_event := "action_claimed";
     ta_decision := PolicyEffect_value (dc_effect c); ta_executed := false; ta_outcome := "claimed";
     ta_detail := "executor claim acquired"; ta_created_at := dc_created_at c;
     ta_evidence_mode := evidence_mode (rq_attempt_id r) d; ta_principal := principal |}.

(** [claim_action]: whether this delivery owns the claim. *)
Definition claim_action (uuid : string) (principal : option string) (r : ActionRequest) (c : PolicyDecision) : ST Db bool :=
  d ← gets (fun d => d);
  let row := claim_row uuid principal r c d in
  _ ← insert_execution row;
  owner ← gets (has_audit (rq_attempt_id r) (action_id r) "action_claimed");
  mret (match owner with Some o => str_eq (ta_audit_id o) (ta_audit_id row) | None => false end).

Definition audit_row (principal : option string) (a : AuditRecord) (d : Db) : ToolAuditRow :=
  {| ta_audit_id := au_audit_id a; ta_attempt_id := au_attempt_id a; ta_action_id := au_action_id a;
     ta_actor := au_actor a; ta_tool := au_tool a; ta_action := au_action a; ta_resource := au_resource a;
     ta_context := JObj (durable_context (au_context a)); ta_event := AuditEvent_value (au_event a);
     ta_decision := PolicyEffect_value (au_decision a); ta_executed := au_executed a; ta_outcome := au_outcome a;
     ta_detail := au_detail a; ta_created_at := au_created_at a;
     ta_evidence_mode := evidence_mode (au_attempt_id a) d; ta_principal := principal |}.

Definition audit_append (principal : option string) (a : AuditRecord) : ST Db unit :=
  d ← gets (fun d => d);
  let row := audit_row principal a d in
  if bool_decide (au_event a = POLICY_DECIDED) then insert_decision row else insert_execution row.

(** ** [SqlAlchemyToolEventSink] *)

Definition KINDS (e : AuditEvent) : RuntimeEventKind :=
  match e with
  | POLICY_DECIDED => TOOL_POLICY_DECIDED | ACTION_EXECUTED => TOOL_ACTION_EXECUTED | ACTION_FAILED => TOOL_ACTION_FAILED
  end.

Definition tool_session (attempt_id : string) : string := "tool:" +:+ attempt_id.

Definition emit (now : datetime) (kind : RuntimeEventKind) (attempt_id : string) (payload : dict) (field value : string)
    : ST Db unit :=
  existing ← gets (stream_rows TOOL_PROXY_SOURCE attempt_id (tool_session attempt_id));
  if existsb (fun row => str_eq (re_kind row) (RuntimeEventKind_value kind) &&
       match re_payload row with JObj kvs => match kv_find field kvs with Some v => py_eq v (JStr value) | None => false end
       | _ => false end) existing
  then mret ()
  else
    current ← gets (last_sequence TOOL_PROXY_SOURCE attempt_id (tool_session attempt_id));
    event ← lift (new_event {| ev_kind := RuntimeEventKind_value kind; ev_session_id := tool_session attempt_id;
      ev_attempt_id := attempt_id; ev_sequence := current + 1; ev_status := RuntimeStatus_value SRUNNING;
      ev_payload := payload; ev_source := TOOL_PROXY_SOURCE |});
    _ ← event_append now event;
    mret ().

Definition principal_entry (principal : option string) : dict :=
  match principal with Some p => [("principal", JStr p)] | None => [] end.

(** [requested(request)] *)
Definition emit_requested (now : datetime) (principal : option string) (r : ActionRequest) : ST Db unit :=
  emit now TOOL_REQUESTED (rq_attempt_id r)
    ([("action_id", JStr (action_id r)); ("actor", JStr (rq_actor r)); ("tool", JStr (rq_tool r));
      ("action", JStr (rq_action r)); ("resource", JStr (rq_resource r));
      ("context", JObj (durable_context (rq_context r)))] ++ principal_entry principal)
    "action_id" (action_id r).

(** [append(record)]: decisions are kept per delivery, outcomes per action. *)
Definition emit_audit (now : datetime) (principal : option string) (a : AuditRecord) : ST Db unit :=
  let dedupe := if bool_decide (au_event a = POLICY_DECIDED) then ("audit_id", au_audit_id a) else ("action_id", au_action_id a) in
  emit now (KINDS (au_event a)) (au_attempt_id a)
    ([("audit_id", JStr (au_audit_id a)); ("action_id", JStr (au_action_id a)); ("actor", JStr (au_actor a));
      ("tool", JStr (au_tool a)); ("action", JStr (au_action a)); ("resource", JStr (au_resource a));
      ("context", JObj (durable_context (au_context a))); ("decision", JStr (PolicyEffect_value (au_decision a)));
      ("executed", JBool (au_executed a)); ("outcome", JStr (au_outcome a)); ("detail", JStr (au_detail a))]
     ++ principal_entry principal)
    dedupe.1 dedupe.2.

(** ** [AttemptBinding] *)

Record AttemptBinding : Type := {
  bd_claimed_actor : option string; bd_principal : string; bd_owner : option string; bd_is_admin : bool
}.

Definition binding_check (b : AttemptBinding) (now : datetime) (r : ActionRequest) : result (option PolicyDecision) :=
  let mismatch := match bd_claimed_actor b with Some a => negb (str_eq a (rq_actor r)) | None => false end in
  if mismatch then
    d ← deny now r ("claimed actor " +:+ str_repr (str_take 120 (or_empty (bd_claimed_actor b))) +:+
                    " does not match the attempt's agent " +:+ str_repr (rq_actor r)) "actor-binding";
    Ok (Some d)
  else if negb (bd_is_admin b) && negb (opt_str_eq (bd_owner b) (Some (bd_principal b))) then
    d ← deny now r ("principal " +:+ str_repr (bd_principal b) +:+ " did not start this attempt" +:+
                    match bd_owner b with Some _ => "" | None => " (attempt has no owner; admin only)" end) "attempt-binding";
    Ok (Some d)
  else Ok None.

(** ** [ToolProxy] *)

(** One proxy: its policy, the optional collaborators, the principal its sinks
    record, and the executor behind it. *)
Record Proxy (P W : Type) : Type := {
  px_policy : P; px_binding : option AttemptBinding; px_guard : bool; px_events : bool;
  px_principal : option string; px_execute : ActionRequest -> ST W json
}.
Arguments px_policy {P W} _.
Arguments px_binding {P W} _.
Arguments px_guard {P W} _.
Arguments px_events {P W} _.
Arguments px_principal {P W} _.
Arguments px_execute {P W} _ _.

(** The database, the outside world the executor acts on, and how many uuids
    were drawn. *)
Record PState (W : Type) : Type := PS { ps_db : Db; ps_world : W; ps_drawn : nat }.
Arguments PS {W} _ _ _.
Arguments ps_db {W} _.
Arguments ps_world {W} _.
Arguments ps_drawn {W} _.

Section proxy.
Context {P W : Type} `{Policy P} (uuid : nat -> string) (now : datetime) (p : Proxy P W).

Definition in_db {A} (m : ST Db A) : ST (PState W) A := fun s =>
  let '(d, r) := m (ps_db s) in (PS d (ps_world s) (ps_drawn s), r).
Definition in_world {A} (m : ST W A) : ST (PState W) A := fun s =>
  let '(w, r) := m (ps_world s) in (PS (ps_db s) w (ps_drawn s), r).
Definition draw : ST (PState W) string := fun s => (PS (ps_db s) (ps_world s) (S (ps_drawn s)), Ok (uuid (ps_drawn s))).

(** [_record] *)
Definition record_audit (a : AuditRecord) : ST (PState W) unit :=
  _ ← in_db (audit_append (px_principal p) a);
  when (px_events p) (in_db (emit_audit now (px_principal p) a)).

Definition authorise (r : ActionRequest) : ST (PState W) PolicyDecision :=
  denial ← lift (match px_binding p with Some b => binding_check b now r | None => Ok None end);
  active ← gets (fun s => is_active (rq_attempt_id r) (ps_db s));
  match denial with
  | Some d => mret d
  | None =>
      if px_guard p && negb active
      then lift (deny now r "Attempt does not exist or is not active" "attempt-guard")
      else lift (decide (px_policy p) now r)
  end.

(** [try: value = self.executor.execute(request)]: never raises itself. *)
Definition run_executor (r : ActionRequest) : ST (PState W) (result json) := fun s =>
  let '(w, v) := px_execute p r (ps_world s) in (PS (ps_db s) w (ps_drawn s), Ok v).

Definition execution (r : ActionRequest) (d : PolicyDecision) (s : ToolExecutionStatus) (v : option json)
    (e : option string) (l : list AuditRecord) : ToolExecution :=
  {| tx_action := r; tx_decision := d; tx_status := s; tx_value := v; tx_error := e; tx_audit_records := l |}.

(** After the claim: run the action and record its outcome. *)
Definition perform (r : ActionRequest) (d : PolicyDecision) (decision_audit : AuditRecord) : ST (PState W) ToolExecution :=
  v ← run_executor r;
  u ← draw;
  match v with
  | Err e =>
      let failed := for_request u now r ACTION_FAILED d true (ToolExecutionStatus_value FAILED)
                      (exn_class e +:+ ": " +:+ exn_text e) in
      _ ← record_audit failed;
      mret (execution r d FAILED None (Some (exn_text e)) [decision_audit; failed])
  | Ok value =>
      let executed := for_request u now r ACTION_EXECUTED d true (ToolExecutionStatus_value EXECUTED) "executor completed" in
      _ ← record_audit executed;
      mret (execution r d EXECUTED (Some value) None [decision_audit; executed])
  end.

Definition execute (r : ActionRequest) : ST (PState W) ToolExecution :=
  _ ← when (px_events p) (in_db (emit_requested now (px_principal p) r));
  d ← authorise r;
  _ ← guard (negb (str_eq (dc_attempt_id d) (rq_attempt_id r)) || negb (str_eq (dc_action_id d) (action_id r)))
        (ValueError "policy decision is not attempt-bound to the requested action");
  u ← draw;
  let decision_audit := for_request u now r POLICY_DECIDED d false (PolicyEffect_value (dc_effect d)) (dc_reason d) in
  _ ← record_audit decision_audit;
  if bool_decide (dc_effect d = DENY) then mret (execution r d DENIED None None [decision_audit])
  else
    done_before ← gets (fun s : PState W => has_event (rq_attempt_id r) (action_id r) ACTION_EXECUTED (ps_db s));
    failed_before ← gets (fun s : PState W => has_event (rq_attempt_id r) (action_id r) ACTION_FAILED (ps_db s));
    if (done_before : bool) then mret (execution r d EXECUTED None None [decision_audit])
    else if (failed_before : bool) then
      mret (execution r d FAILED None
              (Some "durable action outcome is already failed; issue a new action identity to retry") [decision_audit])
    else
      u ← draw;
      claimed ← in_db (claim_action u (px_principal p) r d);
      if negb claimed then
        mret (execution r d FAILED None
                (Some "action is already claimed by another delivery; issue a new action identity to retry") [decision_audit])
      else perform r d decision_audit.
End proxy.

(** ** [ExecutionService.execute_tool] and the request around it *)

(** What one delivery brings: its time, the Attempt and the action it names, the
    policy, binding and principal of the server, whether the workspace is
    there, whether a containment backend can be bound to the Attempt, the
    executor, and what the database answers to the commit. *)
Record Delivery (P W : Type) : Type := {
  dl_now : datetime; dl_attempt_id : string; dl_request : ActionRequest;
  dl_policy : P; dl_binding : option AttemptBinding; dl_principal : option string;
  dl_workspace : bool; dl_fence : result unit; dl_execute : ActionRequest -> ST W json; dl_commit : result unit
}.
Arguments dl_now {P W} _.
Arguments dl_attempt_id {P W} _.
Arguments dl_request {P W} _.
Arguments dl_policy {P W} _.
Arguments dl_binding {P W} _.
Arguments dl_principal {P W} _.
Arguments dl_workspace {P W} _.
Arguments dl_fence {P W} _.
Arguments dl_execute {P W} _ _.
Arguments dl_commit {P W} _.

Section service.
Context {P W : Type} `{Policy P} (uuid : nat -> string).

(** The proxy of a delivery: guarded, with the durable sinks. *)
Definition tool_proxy (c : Delivery P W) : Proxy P W := {|
  px_policy := dl_policy c; px_binding := dl_binding c; px_guard := true; px_events := true;
  px_principal := dl_principal c; px_execute := dl_execute c
|}.

Definition execute_tool (c : Delivery P W) : ST (PState W) ToolExecution :=
  _ ← guard (negb (str_eq (rq_attempt_id (dl_request c)) (dl_attempt_id c))) (ValueError "tool request is not bound to the requested attempt");
  attempt ← gets (fun s : PState W => d_attempts (ps_db s) !! dl_attempt_id c);
  _ ← guard (bool_decide (attempt = None)) (ValueError ("attempt not found: " +:+ dl_attempt_id c));
  _ ← guard (negb (dl_workspace c)) (ValueError ("attempt workspace not found: " +:+ dl_attempt_id c));
  _ ← lift (dl_fence c);
  result ← execute uuid (dl_now c) (tool_proxy c) (dl_request c);
  _ ← lift (dl_commit c);
  mret result.

(** [get_db] of [src/sdf_core/api.py] closes the session when the request ends:
    what was not committed is gone.  What the executor did is not. *)
Definition in_session {A} (m : ST (PState W) A) : ST (PState W) A := fun s =>
  match m s with
  | (s', Ok a) => (s', Ok a)
  | (s', Err e) => (PS (ps_db s) (ps_world s') (ps_drawn s'), Err e)
  end.

Definition deliver (c : Delivery P W) : ST (PState W) ToolExecution := in_session (execute_tool c).

(** Deliveries one after the other, each a request of its own. *)
Definition deliveries (l : list (Delivery P W)) (s : PState W) : PState W := fold_left (fun s c => (deliver c s).1) l s.
End service.
