(* ===== verification/ToolProxyFacts.v ===== *)
(** * ToolProxyFacts: what the action boundary guarantees *)

From S2P Require Import Prelude StateError Floats Json Db EvidenceMac Flush.
From S2P Require Import Samples Store Lifecycle Events Runtime RuntimeFacts Policy ToolProxy.

(** A claim row fences one action. *)
Definition claimed (r : ActionRequest) (d : Db) : Prop :=
  is_Some (has_audit (rq_attempt_id r) (action_id r) "action_claimed" d).

Lemma has_audit_elem a i ev d row : has_audit a i ev d = Some row ->
  ta_attempt_id row = a /\ ta_action_id row = i /\ ta_event row = ev /\ exists k, d_tool_audits d !! k = Some row.
Proof.
  unfold has_audit. intros [Hb [k Hk]]%find_row_Some. unfold str_eq in Hb. boolify. eauto 10.
Qed.

Lemma has_audit_is_Some d k row : d_tool_audits d !! k = Some row ->
  is_Some (has_audit (ta_attempt_id row) (ta_action_id row) (ta_event row) d).
Proof.
  intros Hk. unfold has_audit. destruct (find_row _ _) as [x|] eqn:E; [eauto|].
  eapply find_row_None in E; [|exact Hk]. unfold str_eq in E. by rewrite !bool_decide_eq_true_2 in E by done.
Qed.

Lemma has_audit_mono a i ev d d' : d_tool_audits d ⊆ d_tool_audits d' ->
  is_Some (has_audit a i ev d) -> is_Some (has_audit a i ev d').
Proof.
  intros Hsub [row (<- & <- & <- & k & Hk)%has_audit_elem]. eapply has_audit_is_Some, lookup_weaken; eauto.
Qed.

Section proxy.
Context {P W : Type} `{Policy P} (uuid : nat -> string) (now : datetime) (p : Proxy P W).
(** uuid4 gives distinct lower-case hexadecimal digits. *)
Context (uuid_inj : forall i j, uuid i = uuid j -> i = j).
Context (uuid_hex : forall i, str_forallb (fun c => is_digit c || is_lower c) (uuid i) = true).

Definition audit_ids (u : string) : list string := ["AUDIT-" +:+ u; "AUDIT-CLAIM-" +:+ u].

(** Rows are stored under their id, and no uuid still to be drawn was used. *)
Record proxy_ok (s : PState W) : Prop := {
  po_keyed : forall k row, d_tool_audits (ps_db s) !! k = Some row -> ta_audit_id row = k;
  po_fresh : forall n id, (ps_drawn s <= n)%nat -> id ∈ audit_ids (uuid n) -> d_tool_audits (ps_db s) !! id = None
}.

Lemma append_inj (a b c : string) : a +:+ b = a +:+ c -> b = c.
Proof. induction a as [|x a IH]; simpl; [done|]. intros [= H']. auto. Qed.

Lemma audit_ids_inj u v id : str_forallb (fun c => is_digit c || is_lower c) u = true ->
  str_forallb (fun c => is_digit c || is_lower c) v = true -> id ∈ audit_ids u -> id ∈ audit_ids v -> u = v.
Proof.
  unfold audit_ids. intros Hu Hv [->|[->|[]%not_elem_of_nil]%elem_of_cons]%elem_of_cons
    [He|[He|[]%not_elem_of_nil]%elem_of_cons]%elem_of_cons.
  - by apply append_inj in He.
  - exfalso. change ("AUDIT-CLAIM-" +:+ v) with ("AUDIT-" +:+ ("CLAIM-" +:+ v)) in He. apply append_inj in He as ->. done.
  - exfalso. change ("AUDIT-CLAIM-" +:+ u) with ("AUDIT-" +:+ ("CLAIM-" +:+ u)) in He. apply append_inj in He. subst v. done.
  - by apply append_inj in He.
Qed.

(** What the sinks may change: they add audit rows with ids already drawn, and
    runtime events. *)
Record silent (s s' : PState W) : Prop := {
  si_ok : proxy_ok s -> proxy_ok s';
  si_audits : d_tool_audits (ps_db s) ⊆ d_tool_audits (ps_db s');
  si_attempts : d_attempts (ps_db s') = d_attempts (ps_db s);
  si_world : ps_world s' = ps_world s;
  si_drawn : ps_drawn s' = ps_drawn s
}.

#[local] Instance silent_refl : Reflexive silent.
Proof. intros s. by split. Qed.

#[local] Instance silent_trans : Transitive silent.
Proof. intros s t u [A1 A2 A3 A4 A5] [B1 B2 B3 B4 B5]. split; [auto|by etrans|congruence..]. Qed.

Lemma event_append_tables t e d : (event_append t e d).1 = d \/ (event_append t e d).1 = with_event t e d.
Proof.
  unfold event_append. rewrite st_bind_run.
  assert ((insert_event t e d).1 = d \/ (insert_event t e d).1 = with_event t e d) as Hins.
  { unfold insert_event. rewrite gets_bind, guard_bind. destruct (negb _); [by left|]. unfold when.
    case_bool_decide; [by right|by left]. }
  destruct (insert_event t e d) as [d1 [u|x]]; [|exact Hins]. simpl in Hins.
  rewrite gets_bind, lift_bind. destruct (require_some _ _) as [row|x]; [|exact Hins].
  rewrite guard_bind. by destruct (negb _).
Qed.

Lemma emit_silent kind a payload f v : steps silent (in_db (emit now kind a payload f v) : ST (PState W) unit).
Proof.
  intros s. assert (forall d, d_tool_audits (emit now kind a payload f v d).1 = d_tool_audits d /\
    d_attempts (emit now kind a payload f v d).1 = d_attempts d) as Hframe.
  { intros d. unfold emit. rewrite gets_bind. destruct (existsb _ _); [done|].
    rewrite gets_bind, lift_bind. destruct (new_event _) as [e|]; [|done]. rewrite st_bind_run.
    destruct (event_append_tables now e d) as [He|He]; destruct (event_append now e d) as [d' [row|x]]; simpl in *; by subst. }
  unfold in_db. destruct (Hframe (ps_db s)) as [Ha Hb]. destruct (emit now kind a payload f v (ps_db s)) as [d r]. simpl in *.
  split; simpl; try done; [|by rewrite Ha]. intros [Hk Hf]. split; simpl; by rewrite Ha.
Qed.

Lemma emit_audit_silent a : steps silent (when (px_events p) (in_db (emit_audit now (px_principal p) a)) : ST (PState W) unit).
Proof. apply steps_when; [exact silent_refl|exact silent_trans|apply emit_silent]. Qed.

Lemma emit_requested_silent r :
  steps silent (when (px_events p) (in_db (emit_requested now (px_principal p) r)) : ST (PState W) unit).
Proof. apply steps_when; [exact silent_refl|exact silent_trans|apply emit_silent]. Qed.

(** Adding a row whose id was drawn. *)
Lemma insert_ok n row (s : PState W) : (n < ps_drawn s)%nat -> ta_audit_id row ∈ audit_ids (uuid n) ->
  proxy_ok s -> proxy_ok (PS ((ps_db s) {{ d_tool_audits ::= insert (ta_audit_id row) row }}) (ps_world s) (ps_drawn s)).
Proof.
  intros Hn Hid [Hk Hf]. split; simpl.
  - intros k r Hr. apply lookup_insert_Some in Hr as [[<- <-]|[_ Hr]]; auto.
  - intros m id Hm Hin. rewrite lookup_insert_ne; [by eapply Hf|]. intros <-.
    pose proof (audit_ids_inj _ _ _ (uuid_hex n) (uuid_hex m) Hid Hin) as E%uuid_inj. lia.
Qed.
Lemma record_audit_silent n a : au_audit_id a = "AUDIT-" +:+ uuid n ->
  forall s, (n < ps_drawn s)%nat -> silent s (record_audit now p a s).1.
Proof.
  intros Hid s Hn. unfold record_audit. rewrite st_bind_run.
  assert (silent s (in_db (audit_append (px_principal p) a) s).1) as Happ.
  { unfold in_db, audit_append. rewrite gets_bind. set (row := audit_row (px_principal p) a (ps_db s)).
    assert (ta_audit_id row ∈ audit_ids (uuid n)) as Hin by (unfold audit_ids; apply elem_of_cons; left; exact Hid).
    assert (d_tool_audits (ps_db s) !! ta_audit_id row = None ->
      silent s (PS ((ps_db s) {{ d_tool_audits ::= insert (ta_audit_id row) row }}) (ps_world s) (ps_drawn s))) as Hins.
    { intros Hnone. split; simpl; try done; [by apply (insert_ok n)|by apply insert_subseteq]. }
    case_bool_decide.
    - unfold insert_decision, modify. destruct (d_tool_audits (ps_db s) !! ta_audit_id row) eqn:E; [by destruct s|].
      simpl. by apply Hins.
    - unfold insert_execution. rewrite gets_bind. destruct (has_audit _ _ _ _); [by destruct s|].
      rewrite guard_bind. case_bool_decide as Hs; [by destruct s|]. apply Hins.
      destruct (d_tool_audits (ps_db s) !! ta_audit_id row) eqn:E; [|done]. exfalso. apply Hs. by eexists. }
  destruct (in_db _ s) as [s1 [u|x]]; [|exact Happ]. simpl in Happ. etrans; [exact Happ|]. apply emit_audit_silent.
Qed.

(** A delivery that began over [d0] has a decision row of its own: the one under
    the id of [a], which no row had before. *)
Definition decided (d0 : Db) (r : ActionRequest) (d : PolicyDecision) (a : AuditRecord) (s : PState W) : Prop :=
  d_tool_audits d0 !! au_audit_id a = None /\
  exists row, d_tool_audits (ps_db s) !! au_audit_id a = Some row /\ ta_event row = "policy_decided" /\
    ta_decision row = PolicyEffect_value (dc_effect d) /\ ta_attempt_id row = rq_attempt_id r /\
    ta_action_id row = action_id r /\ ta_principal row = px_principal p.

Lemma decided_mono d0 r d a s s' : d_tool_audits (ps_db s) ⊆ d_tool_audits (ps_db s') -> decided d0 r d a s -> decided d0 r d a s'.
Proof. intros Hsub [Hnew (row & Hrow & Hrest)]. split; [done|]. exists row. split; [by eapply lookup_weaken|done]. Qed.

(** The record of a decision. *)
Definition decision_record (u : string) (r : ActionRequest) (d : PolicyDecision) : AuditRecord :=
  for_request u now r POLICY_DECIDED d false (PolicyEffect_value (dc_effect d)) (dc_reason d).

Lemma record_decision d0 n r d : forall s, proxy_ok s -> d_tool_audits d0 ⊆ d_tool_audits (ps_db s) ->
  d_tool_audits (ps_db s) !! ("AUDIT-" +:+ uuid n) = None ->
  decided d0 r d (decision_record (uuid n) r d) (record_audit now p (decision_record (uuid n) r d) s).1.
Proof.
  intros s Hok Hsub Hnone. unfold record_audit. rewrite st_bind_run.
  set (a := decision_record _ _ _).
  unfold in_db at 1, audit_append. rewrite gets_bind. cbn [au_event for_request decision_record a]. rewrite bool_decide_eq_true_2 by done.
  set (row := audit_row (px_principal p) a (ps_db s)). unfold insert_decision, modify.
  change (ta_audit_id row) with ("AUDIT-" +:+ uuid n). rewrite Hnone.
  eapply decided_mono; [apply (si_audits _ _ (emit_audit_silent a _))|].
  split; [eapply lookup_weaken_None; [exact Hnone|exact Hsub]|]. exists row. split; [apply lookup_insert_eq|done].
Qed.

(** The delivery's own claim attempt. *)
Lemma claim_counts n r d (s : PState W) : proxy_ok s -> ps_drawn s = S n ->
  d_tool_audits (ps_db s) !! ("AUDIT-CLAIM-" +:+ uuid n) = None ->
  let '(s', res) := in_db (claim_action (uuid n) (px_principal p) r d) s in
  silent s s' /\ (res = Ok true -> ~ claimed r (ps_db s) /\ claimed r (ps_db s')).
Proof.
  intros Hok Hn Hnone. unfold in_db, claim_action. rewrite gets_bind. set (row := claim_row _ _ _ _ _).
  rewrite st_bind_run. unfold insert_execution. rewrite gets_bind.
  change (ta_attempt_id row) with (rq_attempt_id r). change (ta_action_id row) with (action_id r).
  change (ta_event row) with "action_claimed".
  destruct (has_audit (rq_attempt_id r) (action_id r) "action_claimed" (ps_db s)) as [o|] eqn:E.
  - cbn [mret st_ret]. rewrite gets_bind, E. split; [by destruct s|]. cbn. intros [= Hown].
    unfold str_eq in Hown. boolify. apply has_audit_elem in E as (_ & _ & _ & k & Hk).
    pose proof (po_keyed _ Hok _ _ Hk) as <-. rewrite Hown in Hk. change (ta_audit_id row) with ("AUDIT-CLAIM-" +:+ uuid n) in Hk.
    congruence.
  - rewrite guard_bind. change (ta_audit_id row) with ("AUDIT-CLAIM-" +:+ uuid n). rewrite Hnone.
    rewrite bool_decide_eq_false_2 by (by intros [? ?]). cbn. split.
    + split; cbn; try done; [|by apply insert_subseteq]. apply (insert_ok n); [lia|]. unfold audit_ids. right. by left.
    + intros _. unfold claimed. rewrite E. split; [by intros [? ?]|].
      apply (has_audit_is_Some _ ("AUDIT-CLAIM-" +:+ uuid n) row). apply lookup_insert_eq.
Qed.
(** The executor keeps a log of the requests it was handed. *)
Context (calls : W -> list ActionRequest).
Context (exec_logs : forall r w, calls (px_execute p r w).1 = calls w ++ [r]).

(** Everything that must hold before an action may run. *)
Definition authorised (s0 : PState W) (r : ActionRequest) (d : PolicyDecision) : Prop :=
  match px_binding p with Some b => binding_check b now r = Ok None | None => True end /\
  (px_guard p = true -> is_active (rq_attempt_id r) (ps_db s0) = true) /\
  decide (px_policy p) now r = Ok d /\ dc_effect d = ALLOW.

Record quiet (s0 s : PState W) : Prop := {
  qu_ok : proxy_ok s;
  qu_audits : d_tool_audits (ps_db s0) ⊆ d_tool_audits (ps_db s);
  qu_attempts : d_attempts (ps_db s) = d_attempts (ps_db s0);
  qu_calls : calls (ps_world s) = calls (ps_world s0)
}.

Lemma quiet_silent s0 s s' : quiet s0 s -> silent s s' -> quiet s0 s'.
Proof. intros [A1 A2 A3 A4] [B1 B2 B3 B4 B5]. split; [auto|by etrans|congruence|congruence]. Qed.

Lemma quiet_claimed s0 s r : quiet s0 s -> ~ claimed r (ps_db s) -> ~ claimed r (ps_db s0).
Proof. intros Hq Hn Hc. apply Hn. eapply has_audit_mono; [apply (qu_audits _ _ Hq)|exact Hc]. Qed.

Lemma deny_effect r reason policy d : deny now r reason policy = Ok d -> dc_effect d = DENY.
Proof. unfold deny, decision_for, decision_post_init. intros H'. repeat (apply bind_Ok in H' as (? & _ & H')). by injection H' as <-. Qed.

Lemma binding_effect b r d : binding_check b now r = Ok (Some d) -> dc_effect d = DENY.
Proof.
  unfold binding_check. intros Hb. repeat (case_match; try done); apply bind_Ok in Hb as (x & Hx & [= <-]);
    by apply deny_effect in Hx.
Qed.

Lemma authorise_spec s0 r :
  hoare (quiet s0) (authorise now p r) (fun d s => quiet s0 s /\ (dc_effect d = ALLOW -> authorised s0 r d)) (fun _ => quiet s0).
Proof.
  intros s Hs. unfold authorise. rewrite lift_bind.
  destruct (match px_binding p with Some b => binding_check b now r | None => Ok None end) as [denial|e] eqn:Eb; [|done].
  rewrite gets_bind.
  assert (is_active (rq_attempt_id r) (ps_db s) = is_active (rq_attempt_id r) (ps_db s0)) as ->.
  { unfold is_active. by rewrite (qu_attempts _ _ Hs). }
  destruct denial as [d|].
  { split; [done|]. revert Eb. destruct (px_binding p); [|done]. intros Eb%binding_effect. congruence. }
  destruct (px_guard p && negb (is_active (rq_attempt_id r) (ps_db s0))) eqn:Eg; unfold lift.
  { destruct (deny _ _ _ _) as [d|] eqn:Ed; [|done]. split; [done|]. apply deny_effect in Ed. congruence. }
  destruct (decide (px_policy p) now r) as [d|] eqn:Ed; [|done]. split; [done|]. intros Ha. split_and!; [|intros Hg|done|done].
  - revert Eb. by destruct (px_binding p).
  - rewrite Hg in Eg. simpl in Eg. by boolify.
Qed.

Lemma draw_spec s0 (F : PState W -> Prop) :
  (forall s, F s -> quiet s0 s) -> (forall s, F s -> F (PS (ps_db s) (ps_world s) (S (ps_drawn s)))) ->
  hoare F (draw uuid) (fun u s => F s /\ exists n, u = uuid n /\ ps_drawn s = S n /\
    forall id, id ∈ audit_ids (uuid n) -> d_tool_audits (ps_db s) !! id = None) (fun _ => F).
Proof.
  intros HF HS s Hs. unfold draw. split; [by apply HS|]. exists (ps_drawn s). split_and!; [done|done|].
  intros id Hid. simpl. eapply po_fresh; [apply HF, Hs|done|exact Hid].
Qed.

Lemma quiet_drawn s0 s : quiet s0 s -> quiet s0 (PS (ps_db s) (ps_world s) (S (ps_drawn s))).
Proof. intros [[Hk Hf] A2 A3 A4]. split; try done. split; simpl; [done|]. intros n id Hn. apply Hf. lia. Qed.

(** How one delivery ends, whether it returns or raises. *)
Definition outcome (s0 : PState W) (r : ActionRequest) (s : PState W) : Prop :=
  proxy_ok s /\ d_tool_audits (ps_db s0) ⊆ d_tool_audits (ps_db s) /\
  (calls (ps_world s) = calls (ps_world s0) \/
   (calls (ps_world s) = calls (ps_world s0) ++ [r] /\ ~ claimed r (ps_db s0) /\ claimed r (ps_db s) /\
    exists d a, authorised s0 r d /\ decided (ps_db s0) r d a s)).

(** What a returned result says. *)
Definition reported (s0 : PState W) (r : ActionRequest) (x : ToolExecution) (s : PState W) : Prop :=
  outcome s0 r s /\ tx_action x = r /\ (exists a l, tx_audit_records x = a :: l /\ decided (ps_db s0) r (tx_decision x) a s) /\
  (tx_status x = DENIED <-> dc_effect (tx_decision x) = DENY) /\
  (dc_effect (tx_decision x) = DENY -> calls (ps_world s) = calls (ps_world s0)) /\
  (forall v, tx_value x = Some v -> tx_status x = EXECUTED /\ calls (ps_world s) = calls (ps_world s0) ++ [r]).

Lemma quiet_outcome s0 r s : quiet s0 s -> outcome s0 r s.
Proof. intros []. split_and!; [done|done|by left]. Qed.
Lemma perform_spec s0 r d a :
  hoare (fun s => quiet s0 s /\ authorised s0 r d /\ decided (ps_db s0) r d a s /\ ~ claimed r (ps_db s0) /\ claimed r (ps_db s))
    (perform uuid now p r d a) (fun x s => reported s0 r x s) (fun _ => outcome s0 r).
Proof.
  intros s (Hq & Hauth & Hdec & Hno & Hcl). unfold perform. rewrite st_bind_run. unfold run_executor at 1.
  pose proof (exec_logs r (ps_world s)) as Hlog. destruct (px_execute p r (ps_world s)) as [w v]. simpl in Hlog.
  rewrite st_bind_run. unfold draw. cbn [ps_db ps_world ps_drawn].
  set (s1 := PS (ps_db s) w (S (ps_drawn s))).
  assert (proxy_ok s1) as Hok1.
  { destruct (quiet_drawn _ _ Hq) as [[Hk Hf] _ _ _]. split; done. }
  assert (forall s', silent s1 s' -> outcome s0 r s' /\ decided (ps_db s0) r d a s' /\ calls (ps_world s') = calls (ps_world s0) ++ [r]) as Hend.
  { intros s' Hs. destruct Hs as [Hs1 Hs2 Hs3 Hs4 Hs5].
    assert (calls (ps_world s') = calls (ps_world s0) ++ [r]) as Hcalls.
    { rewrite Hs4. simpl. rewrite Hlog. by rewrite (qu_calls _ _ Hq). }
    assert (decided (ps_db s0) r d a s') as Hdec' by (eapply decided_mono; [|exact Hdec]; exact Hs2).
    split; [|done]. split_and!; [auto|etrans; [apply Hq|exact Hs2]|]. right. split_and!; [done|done| |eauto].
    eapply has_audit_mono; [|exact Hcl]. exact Hs2. }
  assert (forall ev out det, let rec := for_request (uuid (ps_drawn s)) now r ev d true out det in
    silent s1 (record_audit now p rec s1).1) as Hrec.
  { intros ev out det. apply (record_audit_silent (ps_drawn s)); [done|simpl; lia]. }
  destruct Hauth as (Hb & Hg & Hd & Hallow). assert (dc_effect d <> DENY) as Hnd by congruence.
  destruct v as [value|e]; rewrite st_bind_run;
    match goal with |- context [record_audit now p (for_request ?u now r ?ev d true ?out ?det) s1] =>
      specialize (Hrec ev out det); cbv zeta in Hrec; destruct (record_audit now p (for_request u now r ev d true out det) s1) as [s2 [u2|x]] end;
    cbn in Hrec; destruct (Hend _ Hrec) as (Ho & Hdec' & Hcalls); try done;
    (split_and!; [done|done|by eexists _, _|by split|done|]); simpl; by intros ? [= <-].
Qed.

Lemma execute_spec s0 r : proxy_ok s0 ->
  match execute uuid now p r s0 with
  | (s, Ok x) => reported s0 r x s
  | (s, Err _) => outcome s0 r s
  end.
Proof.
  intros Hok. assert (quiet s0 s0) as Hq by by split.
  cut (hoare (quiet s0) (execute uuid now p r) (fun x s => reported s0 r x s) (fun _ => outcome s0 r)).
  { intros Hh. exact (Hh s0 Hq). }
  clear Hq. unfold execute.
  eapply (hoare_bind _ _ _ (fun _ => quiet s0)).
  { eapply hoare_of_steps; [apply emit_requested_silent|apply quiet_silent|intros s s' Hs Hst; by eapply quiet_outcome, quiet_silent]. }
  intros ?. eapply hoare_bind.
  { eapply hoare_weaken; [done|intros d s Hs; exact Hs| |apply authorise_spec]. intros e s. apply quiet_outcome. }
  intros d. eapply (hoare_bind _ _ _ (fun _ s => quiet s0 s /\ (dc_effect d = ALLOW -> authorised s0 r d))).
  { apply hoare_guard; [done|]. intros s [Hs _] _. by apply quiet_outcome. }
  intros ?. eapply hoare_bind.
  { eapply hoare_weaken; [| | |apply (draw_spec s0 (fun s => quiet s0 s /\ (dc_effect d = ALLOW -> authorised s0 r d)))];
      [done|intros u s Hs; exact Hs|intros e s [Hs _]; by apply quiet_outcome|by intros s []|].
    intros s [Hs Ha]. split; [by apply quiet_drawn|done]. }
  intros u. cbv zeta. change (for_request u now r POLICY_DECIDED d false (PolicyEffect_value (dc_effect d)) (dc_reason d)) with (decision_record u r d).
  eapply (hoare_bind _ _ _ (fun _ s => quiet s0 s /\ (dc_effect d = ALLOW -> authorised s0 r d) /\ decided (ps_db s0) r d (decision_record u r d) s)).
  { intros s [[Hs Ha] (n & -> & Hn & Hids)].
    pose proof (record_audit_silent n (decision_record (uuid n) r d) eq_refl s ltac:(lia)) as Hsil.
    pose proof (record_decision (ps_db s0) n r d s (qu_ok _ _ Hs) (qu_audits _ _ Hs) (Hids _ ltac:(unfold audit_ids; by left))) as Hdec.
    destruct (record_audit _ _ _ s) as [s1 [x|e]]; simpl in *.
    - split_and!; [by eapply quiet_silent|done|done].
    - by eapply quiet_outcome, quiet_silent. }
  intros ?. case_bool_decide as Hdeny.
  { apply hoare_ret. intros s (Hs & _ & Hdec). split_and!; [by apply quiet_outcome|done|by eexists _, _|done|by intros _; apply Hs|done]. }
  assert (dc_effect d = ALLOW) as Hallow by (by destruct (dc_effect d)).
  assert (forall s st er, st <> DENIED -> quiet s0 s -> decided (ps_db s0) r d (decision_record u r d) s ->
    reported s0 r (execution r d st None er [decision_record u r d]) s) as Hquiet.
  { intros s st er Hst Hs Hdec. split_and!; [by apply quiet_outcome|done|by eexists _, _|by split; simpl|done|done]. }
  eapply (hoare_bind _ _ _ (fun _ s => quiet s0 s /\ (dc_effect d = ALLOW -> authorised s0 r d) /\ decided (ps_db s0) r d (decision_record u r d) s));
    [apply hoare_gets; intros s Hs; exact Hs|]. intros done_before.
  eapply (hoare_bind _ _ _ (fun _ s => quiet s0 s /\ (dc_effect d = ALLOW -> authorised s0 r d) /\ decided (ps_db s0) r d (decision_record u r d) s));
    [apply hoare_gets; intros s Hs; exact Hs|]. intros failed_before.
  destruct done_before; [apply hoare_ret; intros s (Hs & _ & Hdec); by apply Hquiet|].
  destruct failed_before; [apply hoare_ret; intros s (Hs & _ & Hdec); by apply Hquiet|].
  eapply hoare_bind.
  { eapply hoare_weaken; [| | |apply (draw_spec s0 (fun s => quiet s0 s /\ (dc_effect d = ALLOW -> authorised s0 r d) /\ decided (ps_db s0) r d (decision_record u r d) s))];
      [done|intros v s Hs; exact Hs|intros e s [Hs _]; by apply quiet_outcome|by intros s []|].
    intros s (Hs & Ha & Hd). split_and!; [by apply quiet_drawn|done|done]. }
  intros v. eapply (hoare_bind _ _ _ (fun b s => quiet s0 s /\ authorised s0 r d /\ decided (ps_db s0) r d (decision_record u r d) s /\
    (b = true -> ~ claimed r (ps_db s0) /\ claimed r (ps_db s)))).
  { intros s ((Hs & Ha & Hd) & n & -> & Hn & Hids).
    pose proof (claim_counts n r d s (qu_ok _ _ Hs) Hn (Hids _ ltac:(unfold audit_ids; right; by left))) as Hc.
    destruct (in_db _ s) as [s1 [b|e]]; destruct Hc as [Hsil Hc].
    - split_and!; [by eapply quiet_silent|by apply Ha|eapply decided_mono; [apply Hsil|done]|].
      intros ->. destruct (Hc eq_refl) as [Hn1 Hn2]. split; [by eapply quiet_claimed|done].
    - by eapply quiet_outcome, quiet_silent. }
  intros b. destruct b; simpl.
  - eapply hoare_weaken; [| | |apply perform_spec]; [|done|done]. intros s (Hs & Ha & Hd & Hc). destruct (Hc eq_refl). by split_and!.
  - apply hoare_ret. intros s (Hs & _ & Hdec & _). by apply Hquiet.
Qed.
End proxy.

Definition action_key (r : ActionRequest) : string * string := (rq_attempt_id r, action_id r).

Lemma claimed_key r r' d : action_key r = action_key r' -> claimed r d -> claimed r' d.
Proof.
  unfold claimed. intros Hk.
  change (is_Some (has_audit (action_key r).1 (action_key r).2 "action_claimed" d) ->
          is_Some (has_audit (action_key r').1 (action_key r').2 "action_claimed" d)). by rewrite Hk.
Qed.

Section deliveries.
Context {P W : Type} `{Policy P} (uuid : nat -> string) (calls : W -> list ActionRequest).
Context (uuid_inj : forall i j, uuid i = uuid j -> i = j).
Context (uuid_hex : forall i, str_forallb (fun c => is_digit c || is_lower c) (uuid i) = true).

(** The executor of a delivery keeps a log of the requests it was handed. *)
Definition logged (c : Delivery P W) : Prop := forall r w, calls (dl_execute c r w).1 = calls w ++ [r].

(** Before the proxy a delivery is refused without a change; after it only the
    commit is left. *)
Lemma execute_tool_cases (c : Delivery P W) (s : PState W) :
  (exists e, execute_tool uuid c s = (s, Err e)) \/
  execute_tool uuid c s = ((execute uuid (dl_now c) (tool_proxy c) (dl_request c) s).1,
                           x ← (execute uuid (dl_now c) (tool_proxy c) (dl_request c) s).2; _ ← dl_commit c; Ok x).
Proof.
  unfold execute_tool. rewrite guard_bind. destruct (negb _); [left; by eexists|]. rewrite gets_bind, guard_bind. case_bool_decide; [left; by eexists|].
  rewrite guard_bind. destruct (negb _); [left; by eexists|]. rewrite lift_bind. destruct (dl_fence c); [|left; by eexists]. right.
  rewrite st_bind_run. destruct (execute _ _ _ _ s) as [s1 [x|e]]; [|done]. rewrite lift_bind. by destruct (dl_commit c).
Qed.

(** A rollback keeps the rows stored under their ids, and drawn uuids are not
    drawn again. *)
Lemma rolled_back_ok (s s' : PState W) : proxy_ok uuid s -> proxy_ok uuid s' -> d_tool_audits (ps_db s) ⊆ d_tool_audits (ps_db s') ->
  proxy_ok uuid (PS (ps_db s) (ps_world s') (ps_drawn s')).
Proof. intros [Hk _] [_ Hf] Hsub. split; [exact Hk|]. intros n id Hn Hid. eapply lookup_weaken_None; [by eapply Hf|exact Hsub]. Qed.

(** How one delivery ends. *)
Record delivered (c : Delivery P W) (s s' : PState W) (res : result ToolExecution) : Prop := {
  de_ok : proxy_ok uuid s';
  de_audits : d_tool_audits (ps_db s) ⊆ d_tool_audits (ps_db s');
  de_calls : calls (ps_world s') = calls (ps_world s) \/
    calls (ps_world s') = calls (ps_world s) ++ [dl_request c] /\ ~ claimed (dl_request c) (ps_db s) /\
    exists d, authorised (dl_now c) (tool_proxy c) s (dl_request c) d;
  de_result : match res with
              | Ok x => reported uuid (dl_now c) (tool_proxy c) calls s (dl_request c) x s'
              | Err _ => ps_db s' = ps_db s
              end
}.

Lemma deliver_spec (c : Delivery P W) (s : PState W) : logged c -> proxy_ok uuid s -> delivered c s (deliver uuid c s).1 (deliver uuid c s).2.
Proof using uuid_inj uuid_hex.
  intros Hlog Hok. unfold deliver, in_session. destruct (execute_tool_cases c s) as [[e ->]| ->].
  { split; cbn; [by destruct s|done|by left|done]. }
  pose proof (execute_spec uuid (dl_now c) (tool_proxy c) uuid_inj uuid_hex calls Hlog s (dl_request c) Hok) as Hx.
  destruct (execute _ _ _ _ s) as [s1 [x|e]]; cbn [fst snd].
  - pose proof (proj1 Hx) as (Hok1 & Hsub & Hcalls). cbn [mbind result_bind]. destruct (dl_commit c) as [u|e]; cbn [fst snd mbind result_bind].
    + split; [done|done|destruct Hcalls as [?|(? & ? & ? & d & a & ? & ?)]; eauto|done].
    + split; cbn; [by apply rolled_back_ok|done|destruct Hcalls as [?|(? & ? & ? & d & a & ? & ?)]; eauto|done].
  - destruct Hx as (Hok1 & Hsub & Hcalls). split; cbn; [by apply rolled_back_ok|done|destruct Hcalls as [?|(? & ? & ? & d & a & ? & ?)]; eauto|done].
Qed.

(** The actions the executors ran, in order, and whether the delivery that ran
    each of them returned. *)
Fixpoint runs (l : list (Delivery P W)) (s : PState W) : list (ActionRequest * bool) :=
  match l with
  | [] => []
  | c :: l =>
      let '(s', res) := deliver uuid c s in
      (if (length (calls (ps_world s)) <? length (calls (ps_world s')))%nat then [(dl_request c, is_ok res)] else []) ++ runs l s'
  end.

(** C37: however often, by whomever and under whatever policies structured
    requests are delivered, an action (one Attempt, one action identity) that
    was claimed does not run, and an action whose delivery ran it and returned
    is claimed from then on and is never run again.  An action runs a second
    time only after every delivery that ran it before raised, as when its
    outcome cannot be recorded or the commit fails: [execute_tool] commits the
    claim with the outcome, so the claim is lost with it.  The executors run
    nothing but the actions listed, and no committed audit row is ever changed
    or removed.  Random ids are assumed not to repeat. *)
Theorem proxy_at_most_once (l : list (Delivery P W)) (s : PState W) :
  (forall c, c ∈ l -> logged c) -> proxy_ok uuid s ->
  let s' := deliveries uuid l s in
  calls (ps_world s') = calls (ps_world s) ++ map fst (runs l s) /\
  ForallOrdPairs (fun x y => x.2 = true -> action_key y.1 <> action_key x.1) (runs l s) /\
  (forall x, x ∈ runs l s -> ~ claimed x.1 (ps_db s) /\ (x.2 = true -> claimed x.1 (ps_db s'))) /\
  d_tool_audits (ps_db s) ⊆ d_tool_audits (ps_db s').
Proof using uuid_inj uuid_hex.
  cbv zeta. intros Hlog. revert s. induction l as [|c l IH]; intros s Hok.
  { cbn. rewrite app_nil_r. split_and!; [done|constructor|by intros x ?%not_elem_of_nil|done]. }
  pose proof (deliver_spec c s (Hlog c ltac:(left)) Hok) as [Hok1 Hsub1 Hcalls Hres].
  change (deliveries uuid (c :: l) s) with (deliveries uuid l (deliver uuid c s).1). cbn [runs].
  destruct (deliver uuid c s) as [s1 res]. cbn [fst snd] in *.
  destruct (IH ltac:(intros x Hx; apply Hlog; by right) s1 Hok1) as (Hran & Hpairs & Hcl & Hsub).
  assert (forall r, claimed r (ps_db s) -> claimed r (ps_db s1)) as Hmono by (intros r; by apply has_audit_mono).
  destruct Hcalls as [Hc|(Hc & Hno & _)]; rewrite Hran, Hc.
  - rewrite Nat.ltb_irrefl. cbn [app]. split_and!; [done|done| |by etrans]. intros x Hx. destruct (Hcl x Hx) as [H1 H2]. split; [|exact H2]. intros H3. by apply H1, Hmono.
  - rewrite length_app. cbn [length]. destruct (Nat.ltb_spec (length (calls (ps_world s))) (length (calls (ps_world s)) + 1)); [|lia].
    cbn [app map fst]. rewrite <- app_assoc. split; [done|].
    assert (is_ok res = true -> claimed (dl_request c) (ps_db s1)) as Hyes.
    { destruct res as [x|e]; [|done]. intros _. destruct Hres as ((_ & _ & [Hsame|(_ & _ & Hy & _)]) & _); [|exact Hy].
      exfalso. apply (f_equal length) in Hsame. rewrite Hc, length_app in Hsame. cbn in Hsame. lia. }
    split; [|split; [|by etrans]].
    + constructor; [|done]. apply List.Forall_forall. intros y Hy%list_elem_of_In. cbn [fst snd]. intros Hret Hkey.
      destruct (Hcl y Hy) as [Hn _]. apply Hn, (claimed_key (dl_request c)); [by symmetry|by apply Hyes].
    + intros x [->|Hx]%elem_of_cons; cbn [fst snd].
      * split; [done|]. intros Hret. eapply has_audit_mono; [exact Hsub|by apply Hyes].
      * destruct (Hcl x Hx) as [H1 H2]. split; [|exact H2]. intros H3. by apply H1, Hmono.
Qed.
End deliveries.

(** C36: a delivery is completely mediated and audited.  The executor runs at
    most once, and only when the binding does not object, the Attempt is active
    and the policy allows this very request.  A delivery that raises, also at
    the commit, leaves the database as it was.  One that returns has committed
    a decision row of its own, under the new id of the record it reports, with
    the decision, the request's identity and the principal; a denied one never
    reached the executor, one that ran the action has committed the claim, and
    a value is only ever reported for an action this delivery ran.  Random ids
    are assumed not to repeat. *)
Theorem proxy_mediates {P W} `{Policy P} (uuid : nat -> string) (calls : W -> list ActionRequest) (c : Delivery P W) (s : PState W) :
  (forall i j, uuid i = uuid j -> i = j) ->
  (forall i, str_forallb (fun c => is_digit c || is_lower c) (uuid i) = true) ->
  logged calls c -> proxy_ok uuid s ->
  let '(s', res) := deliver uuid c s in let r := dl_request c in
  (calls (ps_world s') = calls (ps_world s) \/
   calls (ps_world s') = calls (ps_world s) ++ [r] /\
   match dl_binding c with Some b => binding_check b (dl_now c) r = Ok None | None => True end /\
   is_active (rq_attempt_id r) (ps_db s) = true /\ exists d, decide (dl_policy c) (dl_now c) r = Ok d /\ dc_effect d = ALLOW) /\
  match res with
  | Err _ => ps_db s' = ps_db s
  | Ok x =>
      (exists a l, tx_audit_records x = a :: l /\ decided (tool_proxy c) (ps_db s) r (tx_decision x) a s') /\
      (tx_status x = DENIED <-> dc_effect (tx_decision x) = DENY) /\
      (tx_status x = DENIED -> calls (ps_world s') = calls (ps_world s)) /\
      (calls (ps_world s') <> calls (ps_world s) -> claimed r (ps_db s')) /\
      (forall v, tx_value x = Some v -> tx_status x = EXECUTED /\ calls (ps_world s') = calls (ps_world s) ++ [r])
  end.
Proof.
  intros Hinj Hhex Hlog Hok. pose proof (deliver_spec uuid calls Hinj Hhex c s Hlog Hok) as [_ _ Hc Hr].
  destruct (deliver uuid c s) as [s' res]. cbn [fst snd] in *. split.
  { destruct Hc as [Hc|(Hc & _ & d & Hb & Hg & Hd & Ha)]; [by left|right]. split_and!; [done|done|by apply Hg|eauto]. }
  destruct res as [x|e]; [|exact Hr]. destruct Hr as ((_ & _ & Ho) & _ & Hdec & Hst & Hden & Hval). split_and!; [done|done| | |done].
  - intros Hs. by apply Hden, Hst.
  - intros Hne. destruct Ho as [?|(_ & _ & Hy & _)]; [done|exact Hy].
Qed.

(** ** A concrete boundary *)

Fixpoint demo_uuid (n : nat) : string := match n with O => "" | S n => String (ascii_of_nat 97) (demo_uuid n) end.

Lemma demo_uuid_inj i j : demo_uuid i = demo_uuid j -> i = j.
Proof. revert j. induction i as [|i IH]; intros [|j]; simpl; [done|done|done|]. intros [= ?]. f_equal. auto. Qed.

Lemma demo_uuid_hex i : str_forallb (fun c => is_digit c || is_lower c) (demo_uuid i) = true.
Proof. induction i; [done|]. simpl. done. Qed.

Definition demo_log (r : ActionRequest) : ST (list ActionRequest) json := fun w => (w ++ [r], Ok JNull).

Definition demo_policy : AllowlistPolicy :=
  {| al_actions := {[("filesystem", "read")]}; al_actors := None; al_resources := None; al_context := []; al_name := "allowlist" |}.

Definition demo_request (action : string) : ActionRequest :=
  {| rq_attempt_id := "A"; rq_actor := "agent:pi"; rq_tool := "filesystem"; rq_action := action; rq_resource := "a.txt";
     rq_context := [] |}.

Definition demo_delivery (t : Z) (action : string) (commit : result unit) : Delivery AllowlistPolicy (list ActionRequest) := {|
  dl_now := DateTime t true; dl_attempt_id := "A"; dl_request := demo_request action; dl_policy := demo_policy; dl_binding := None;
  dl_principal := Some "alice"; dl_workspace := true; dl_fence := Ok (); dl_execute := demo_log; dl_commit := commit
|}.

Definition demo_pstate : PState (list ActionRequest) :=
  PS (empty_db {{ d_attempts := {["A" := blank_AttemptRow {{ at_id := "A"; at_status := "running" }}]} }}) [] 0.

Lemma demo_proxy_ok : proxy_ok demo_uuid demo_pstate.
Proof.
  assert (forall k, d_tool_audits (ps_db demo_pstate) !! k = None) as He.
  { intros k. change (d_tool_audits (ps_db demo_pstate)) with (∅ : gmap string ToolAuditRow). apply lookup_empty. }
  split; [|intros n id _ _; apply He]. intros k row. by rewrite He.
Qed.

Definition demo_deliveries : list (Delivery AllowlistPolicy (list ActionRequest)) :=
  [demo_delivery 0 "read" (Err (OtherError "OperationalError" "database is locked")); demo_delivery 1 "read" (Ok ());
   demo_delivery 2 "write" (Ok ()); demo_delivery 3 "read" (Ok ())].

Lemma demo_logged c : c ∈ demo_deliveries -> logged (fun w => w) c.
Proof. unfold demo_deliveries. intros Hc r w. repeat (apply elem_of_cons in Hc as [->|Hc]; [reflexivity|]). by apply not_elem_of_nil in Hc. Qed.

(** The commit of the first delivery fails after its executor ran, and the claim
    is gone with it: the second delivery runs the action again. *)
Example run_twice : runs demo_uuid (fun w => w) demo_deliveries demo_pstate = [(demo_request "read", false); (demo_request "read", true)].
Proof. vm_compute. reflexivity. Qed.

Lemma proxy_at_most_once_witness :
  let s' := deliveries demo_uuid demo_deliveries demo_pstate in
  ps_world s' = [demo_request "read"; demo_request "read"] /\ claimed (demo_request "read") (ps_db s').
Proof.
  assert (runs demo_uuid (fun w => w) demo_deliveries demo_pstate = [(demo_request "read", false); (demo_request "read", true)]) as Hr by (vm_compute; reflexivity).
  destruct (proxy_at_most_once demo_uuid (fun w => w) demo_uuid_inj demo_uuid_hex demo_deliveries demo_pstate demo_logged demo_proxy_ok) as (Hc & _ & Hcl & _).
  cbv zeta. rewrite Hr in Hc. split; [exact Hc|]. refine (proj2 (Hcl (demo_request "read", true) _) eq_refl). rewrite Hr. right. left.
Defined.

Lemma proxy_mediates_witness :
  let '(s', res) := deliver demo_uuid (demo_delivery 0 "write" (Ok ())) demo_pstate in ps_world s' = ps_world demo_pstate.
Proof.
  pose proof (proxy_mediates demo_uuid (fun w => w) (demo_delivery 0 "write" (Ok ())) demo_pstate demo_uuid_inj demo_uuid_hex (fun r w => eq_refl) demo_proxy_ok) as H.
  assert (match (deliver demo_uuid (demo_delivery 0 "write" (Ok ())) demo_pstate).2 with Ok x => tx_status x | Err _ => EXECUTED end = DENIED) as Hd
    by (vm_compute; reflexivity).
  destruct (deliver demo_uuid (demo_delivery 0 "write" (Ok ())) demo_pstate) as [s' [x|e]]; [|discriminate Hd].
  exact (proj1 (proj2 (proj2 (proj2 H))) Hd).
Defined.
