(* ===== verification/DecisionGate.v ===== *)
(** * DecisionGate: material decisions block the work they are about

    Models [src/sdf_core/decision_gate.py]. *)

From S2P Require Import Prelude Json Db EvidenceMac Flush Samples FlushFacts Store.

Definition RUN_SCOPE : string := "run".

(** [str(value)] of a JSON value. *)
Fixpoint py_repr (j : json) : string :=
  match j with
  | JNull => "None"
  | JBool b => if b then "True" else "False"
  | JInt z => pretty z
  | JFloat f => float_repr f
  | JStr s => str_repr s
  | JArr l => "[" +:+ str_join ", " (map py_repr l) +:+ "]"
  | JObj kvs => "{" +:+ str_join ", " (map (fun kv => str_repr kv.1 +:+ ": " +:+ py_repr kv.2) kvs) +:+ "}"
  end.
Definition py_str (j : json) : string := match j with JStr s => s | _ => py_repr j end.

(** [tuple(value or ())] *)
Definition json_tuple (j : json) : result (list json) :=
  if negb (json_truthy j) then Ok []
  else match j with
       | JArr l => Ok l
       | JStr s => Ok (map (fun c => JStr (String c "")) (String.list_ascii_of_string s))
       | JObj kvs => Ok (map (fun kv => JStr kv.1) kvs)
       | _ => Err (TypeError "object is not iterable")
       end.

(** [value or default] *)
Definition json_or (j d : json) : json := if json_truthy j then j else d.

Record MaterialRequest : Type := {
  mr_request_id : string; mr_run_id : string; mr_requested_by : string; mr_scope : string; mr_consequence : string;
  mr_options : list json; mr_source : string; mr_matched_rules : list json
}.

Definition material_meta (d : Db) (request : DecisionRequestRow) : option json :=
  if negb (str_eq (dr_subject_kind request) "agent_request") || negb (opt_truthy (dr_message_id request)) then None
  else
    let meta := match d_agent_messages d !! or_empty (dr_message_id request) with
                | Some message => json_or (default JNull (mg_meta message)) (JObj [])
                | None => JObj []
                end in
    if is_true (jget "material" meta) then Some meta else None.

Definition is_material (d : Db) (request : DecisionRequestRow) : bool :=
  bool_decide (is_Some (material_meta d request)).

(** [_scope]: the lead, or an unknown sender, blocks the whole run. *)
Definition scope (d : Db) (request : DecisionRequestRow) : string :=
  match find_row (fun m => opt_str_eq (dr_run_id request) (Some (mb_run_id m)) &&
                           str_eq (mb_agent_id m) (dr_requested_by request)) (d_agent_run_members d) with
  | Some member =>
      if negb (str_eq (mb_role member) "worker") || negb (opt_truthy (mb_subtask_key member)) then RUN_SCOPE
      else or_empty (mb_subtask_key member)
  | None => RUN_SCOPE
  end.

(** The SELECT of pending agent requests, oldest first; [run_id] wins over
    [run_ids], and neither means every run. *)
Definition pending_requests (d : Db) (run_id : option string) (run_ids : option (list string)) : list DecisionRequestRow :=
  sort_by (fun a b => dt_us (dr_created_at a) <=? dt_us (dr_created_at b))
    (select_rows (fun r => str_eq (dr_status r) "pending" && str_eq (dr_subject_kind r) "agent_request" &&
       match run_id, run_ids with
       | Some i, _ => opt_str_eq (dr_run_id r) (Some i)
       | None, Some l => match dr_run_id r with Some i => str_in i l | None => false end
       | None, None => true
       end) (d_decision_requests d)).

Definition material_request (d : Db) (request : DecisionRequestRow) (meta : json) : result MaterialRequest :=
  options ← json_tuple (jget "options" meta);
  matched ← json_tuple (jget "matched_rules" meta);
  Ok {| mr_request_id := dr_id request; mr_run_id := or_empty (dr_run_id request);
        mr_requested_by := dr_requested_by request; mr_scope := scope d request;
        mr_consequence := py_str (json_or (jget "consequence" meta) (JStr "")); mr_options := options;
        mr_source := py_str (json_or (jget "materiality_source" meta) (JStr "agent")); mr_matched_rules := matched |}.

Definition pending_material (d : Db) (run_id : option string) (run_ids : option (list string)) : result (list MaterialRequest) :=
  match run_id, run_ids with
  | None, Some [] => Ok []
  | _, _ =>
      result_map (fun rm : DecisionRequestRow * json => material_request d rm.1 rm.2)
        (omap (fun r => meta ← material_meta d r; Some (r, meta)) (pending_requests d run_id run_ids))
  end.

Definition blocks (subtask_key : string) (m : MaterialRequest) : bool :=
  str_in (mr_scope m) [RUN_SCOPE; subtask_key].

Definition runs_of_plan (d : Db) (plan_id : string) : list string :=
  map rn_id (select_rows (fun r => str_eq (rn_plan_id r) plan_id) (d_agent_runs d)).

Definition check_decision_gate (d : Db) (task_id : string) : result unit :=
  match d_plan_tasks d !! task_id with
  | None => Ok ()
  | Some link =>
      pending ← pending_material d None (Some (runs_of_plan d (pt_plan_id link)));
      match List.find (blocks (pt_subtask_key link)) pending with
      | Some m => Err (DecisionGateError ("material decision " +:+ mr_request_id m +:+ " from " +:+ mr_requested_by m +:+
                    " is pending; task " +:+ task_id +:+ " is blocked until a human resolves it"))
      | None => Ok ()
      end
  end.

Definition material_payload (d : Db) (request : DecisionRequestRow) : result json :=
  match material_meta d request with
  | None => Ok (JObj [("material", JBool false); ("materiality_source", JNull); ("matched_rules", JArr [])])
  | Some meta =>
      matched ← json_tuple (jget "matched_rules" meta);
      Ok (JObj [("material", JBool true); ("materiality_source", json_or (jget "materiality_source" meta) (JStr "agent"));
                ("matched_rules", JArr matched); ("consequence", jget "consequence" meta); ("authority", JStr "human");
                ("blocks", if str_eq (dr_status request) "pending" then JStr (scope d request) else JNull)])
  end.

(** ** What the gate guarantees *)

(** A pending material request of one of the plan's runs, about this subtask
    or the whole run. *)
Definition blocking (d : Db) (link : PlanTaskRow) (r : DecisionRequestRow) : Prop :=
  (exists k, d_decision_requests d !! k = Some r) /\ dr_status r = "pending" /\ dr_subject_kind r = "agent_request" /\
  is_material d r = true /\
  (exists k run, d_agent_runs d !! k = Some run /\ rn_plan_id run = pt_plan_id link /\ dr_run_id r = Some (rn_id run)) /\
  (scope d r = RUN_SCOPE \/ scope d r = pt_subtask_key link).

Lemma elem_runs_of_plan d plan_id i :
  i ∈ runs_of_plan d plan_id <-> exists k run, d_agent_runs d !! k = Some run /\ rn_plan_id run = plan_id /\ i = rn_id run.
Proof.
  unfold runs_of_plan. rewrite elem_map. setoid_rewrite elem_select. unfold str_eq.
  setoid_rewrite bool_decide_eq_true. naive_solver.
Qed.

Lemma elem_pending_requests d l r :
  r ∈ pending_requests d None (Some l) <->
  (exists k, d_decision_requests d !! k = Some r) /\ dr_status r = "pending" /\ dr_subject_kind r = "agent_request" /\
  exists i, dr_run_id r = Some i /\ i ∈ l.
Proof.
  unfold pending_requests. rewrite sort_by_perm, elem_select, !andb_true_iff. unfold str_eq, str_in.
  rewrite !bool_decide_eq_true. destruct (dr_run_id r) as [i|].
  - rewrite bool_decide_eq_true. naive_solver.
  - naive_solver.
Qed.

Lemma material_request_scope d r meta m : material_request d r meta = Ok m -> mr_scope m = scope d r.
Proof. unfold material_request. intros H. crush_hyps. done. Qed.

(** The requests [pending_material] reports for a set of runs. *)
Lemma elem_pending_material d l ms : pending_material d None (Some l) = Ok ms ->
  forall m, m ∈ ms <-> exists r meta, r ∈ pending_requests d None (Some l) /\ material_meta d r = Some meta /\
    material_request d r meta = Ok m.
Proof.
  intros H m. assert (result_map (fun rm : DecisionRequestRow * json => material_request d rm.1 rm.2)
        (omap (fun r => meta ← material_meta d r; Some (r, meta)) (pending_requests d None (Some l))) = Ok ms) as Hm.
  { unfold pending_material in H. destruct l as [|i l]; [|exact H]. injection H as <-.
    assert (pending_requests d None (Some []) = []) as ->; [|done].
    destruct (pending_requests d None (Some [])) as [|r rs] eqn:E; [done|]. exfalso.
    assert (r ∈ pending_requests d None (Some [])) as Hr by (rewrite E; left).
    apply elem_pending_requests in Hr as (_ & _ & _ & i & _ & Hi). by apply not_elem_of_nil in Hi. }
  rewrite (result_map_elem _ _ _ Hm). setoid_rewrite list_elem_of_omap. split.
  - intros ((r, meta) & (r' & Hr & Hmeta) & Hreq). simpl in *.
    destruct (material_meta d r') as [meta'|] eqn:E; [|done]. injection Hmeta as <- <-. eauto 10.
  - intros (r & meta & Hr & Hmeta & Hreq). exists (r, meta). split; [|done]. exists r. by rewrite Hmeta.
Qed.

Lemma pending_material_error d l msg : pending_material d None (Some l) <> Err (DecisionGateError msg).
Proof.
  unfold pending_material. destruct l as [|i l]; [done|]. intros (x & _ & Hx)%result_map_Err.
  unfold material_request, json_tuple in Hx. repeat case_match; by simpl in Hx.
Qed.

(** The material decision gate lets work on a Task through only when no
    material request of its plan's runs is pending for that subtask or the
    whole run; it refuses, naming the request, exactly because one is.  A Task
    outside every plan is never blocked. *)
Theorem decision_gate_blocks d task_id :
  match d_plan_tasks d !! task_id with
  | None => check_decision_gate d task_id = Ok ()
  | Some link =>
      (check_decision_gate d task_id = Ok () -> forall r, ~ blocking d link r) /\
      (forall msg, check_decision_gate d task_id = Err (DecisionGateError msg) ->
         exists r, blocking d link r /\
           msg = "material decision " +:+ dr_id r +:+ " from " +:+ dr_requested_by r +:+ " is pending; task " +:+
                 task_id +:+ " is blocked until a human resolves it")
  end.
Proof.
  unfold check_decision_gate. destruct (d_plan_tasks d !! task_id) as [link|]; [|done].
  destruct (pending_material d None (Some (runs_of_plan d (pt_plan_id link)))) as [ms|e] eqn:Hp.
  2: { split; [done|]. intros msg [= ->]. by apply pending_material_error in Hp. }
  pose proof (elem_pending_material _ _ _ Hp) as Hel. cbn [mbind result_bind].
  destruct (List.find (blocks (pt_subtask_key link)) ms) as [m|] eqn:Hf; split; try done.
  - intros msg [= <-]. apply List.find_some in Hf as [Hm%list_elem_of_In Hb].
    apply Hel in Hm as (r & meta & Hr & Hmeta & Hreq). exists r.
    pose proof (material_request_scope _ _ _ _ Hreq) as Hs.
    apply elem_pending_requests in Hr as (Hk & Hst & Hsk & i & Hi & (k & run & Hrun & Hplan & ->)%elem_runs_of_plan).
    unfold blocks, str_in in Hb. boolify. rewrite Hs in Hb. split.
    + unfold blocking, is_material. split_and!; [done|done|done|by rewrite bool_decide_eq_true, Hmeta|eauto|].
      apply elem_of_cons in Hb as [?|?%list_elem_of_singleton]; auto.
    + unfold material_request in Hreq. crush_hyps. done.
  - intros _ r (Hk & Hst & Hsk & Hmat & (k & run & Hrun & Hplan & Hi) & Hsc).
    unfold is_material in Hmat. boolify. destruct Hmat as [meta Hmeta].
    assert (r ∈ pending_requests d None (Some (runs_of_plan d (pt_plan_id link)))) as Hr.
    { apply elem_pending_requests. split_and!; [done|done|done|]. exists (rn_id run). split; [done|].
      apply elem_runs_of_plan. eauto. }
    assert (exists m, material_request d r meta = Ok m) as [m Hreq].
    { unfold pending_material in Hp. destruct (runs_of_plan d (pt_plan_id link)) as [|i l] eqn:El.
      - exfalso. apply elem_pending_requests in Hr as (_ & _ & _ & j & _ & Hj). by apply not_elem_of_nil in Hj.
      - refine (result_map_all _ _ _ (r, meta) Hp _). apply list_elem_of_omap. exists r. by rewrite Hmeta. }
    pose proof (proj2 (Hel m) (ex_intro _ r (ex_intro _ meta (conj Hr (conj Hmeta Hreq))))) as Hm.
    pose proof (List.find_none _ _ Hf m (proj1 (list_elem_of_In _ _) Hm)) as Hno.
    unfold blocks, str_in in Hno. boolify. apply Hno. rewrite (material_request_scope _ _ _ _ Hreq), elem_of_cons, list_elem_of_singleton.
    done.
Qed.

(** A lead's declared material request blocks the plan's Task. *)
Module GateDemo.

Definition message : AgentMessageRow := blank_AgentMessageRow {{ mg_id := "M"; mg_run_id := "RUN";
  mg_meta := Some (JObj [("material", JBool true)]) }}.
Definition question : DecisionRequestRow := blank_DecisionRequestRow {{ dr_id := "Q"; dr_subject_kind := "agent_request";
  dr_run_id := Some "RUN"; dr_status := "pending"; dr_requested_by := "lead"; dr_message_id := Some "M" }}.
Definition run : AgentRunRow := blank_AgentRunRow {{ rn_id := "RUN"; rn_plan_id := "P" }}.
Definition link : PlanTaskRow := {| pt_task_id := "P--t"; pt_plan_id := "P"; pt_subtask_key := "t" |}.
Definition member : AgentRunMemberRow := blank_AgentRunMemberRow {{ mb_id := 1; mb_run_id := "RUN"; mb_agent_id := "lead"; mb_role := "lead" }}.
Definition db : Db := empty_db {{ d_plan_tasks := {["P--t" := link]}; d_agent_runs := {["RUN" := run]};
  d_agent_run_members := {[1 := member]}; d_agent_messages := {["M" := message]}; d_decision_requests := {["Q" := question]} }}.

End GateDemo.

Lemma decision_gate_blocks_witness : exists msg r,
  check_decision_gate GateDemo.db "P--t" = Err (DecisionGateError msg) /\ blocking GateDemo.db GateDemo.link r.
Proof.
  pose proof (decision_gate_blocks GateDemo.db "P--t") as H.
  change (d_plan_tasks GateDemo.db !! "P--t") with (Some GateDemo.link) in H. destruct H as [_ H].
  destruct (check_decision_gate GateDemo.db "P--t") as [u|e] eqn:E; [vm_compute in E; discriminate E|].
  assert (exists msg, e = DecisionGateError msg) as [msg ->].
  { assert (Err e = check_decision_gate GateDemo.db "P--t") as E' by (symmetry; exact E). vm_compute in E'.
    injection E' as ->. eexists. reflexivity. }
  destruct (H msg eq_refl) as (r & Hr & _). exists msg, r. split; [reflexivity|exact Hr].
Defined.
