(* ===== verification/Checks.v ===== *)
(** * Checks: server-registered evaluator checks

    Models [src/sdf_core/checks.py] and [is_held_out_path] of
    [src/sdf_core/oracle.py]: what an argv may be, how a registry is parsed,
    and how criteria resolve to argvs, timeouts and oracle policies.  Reading
    the registry files is a parameter of [load]. *)

From S2P Require Import Prelude Json Floats EvidenceMac.

(** ** Paths *)

Definition slash : ascii := ascii_of_nat 47.

(** [PurePosixPath(s).parts] *)
Definition path_root (s : string) : list string :=
  match s with
  | String a (String b (String c _)) =>
      if bool_decide (a = slash) then
        if bool_decide (b = slash) && negb (bool_decide (c = slash)) then ["//"] else ["/"]
      else []
  | String a (String b "") => if bool_decide (a = slash) then if bool_decide (b = slash) then ["//"] else ["/"] else []
  | String a "" => if bool_decide (a = slash) then ["/"] else []
  | "" => []
  end.

Definition path_parts (s : string) : list string :=
  path_root s ++ List.filter (fun p => negb (str_in p [""; "."])) (str_split slash s).

Definition is_absolute (s : string) : bool := bool_decide (path_root s <> []).

(** [os.path.basename(s)] *)
Definition basename (s : string) : string := List.last (str_split slash s) "".

(** [s.endswith(suffix)] *)
Fixpoint str_endswith (suffix s : string) : bool :=
  str_eq s suffix || match s with EmptyString => false | String _ t => str_endswith suffix t end.

(** [s.split("::", 1)[0]] *)
Fixpoint before_node (s : string) : string :=
  match s with
  | EmptyString => ""
  | String c t => if String.prefix "::" s then "" else String c (before_node t)
  end.

Definition HELD_OUT_DIR : string := ".sdf-held-out".
Definition is_held_out_path (relative : string) : bool := str_in HELD_OUT_DIR (path_parts relative).

(** The repr of a list of strings. *)
Definition list_repr (l : list string) : string := "[" +:+ str_join ", " (map str_repr l) +:+ "]".
Definition str_sorted (l : list string) : list string := sort_by str_le l.

(** ** Constants *)

Definition FIXTURE_MANIFEST : string := "sdf-checks.json".
Definition HELD_OUT_MANIFEST : string := HELD_OUT_DIR +:+ "/" +:+ FIXTURE_MANIFEST.
Definition ORACLE_VISIBILITIES : list string := ["visible"; "held_out"].
Definition CHECKS_FILE_ENV : string := "SDF_EVALUATOR_CHECKS_FILE".
Definition ALLOWED_EXECUTABLES : list string := ["python"; "python3"; "pytest"; "ruff"].
Definition DEFAULT_TIMEOUT_SECONDS : float := f_of_Z 30.
Definition MIN_TIMEOUT_SECONDS : Z := 1.
Definition MAX_TIMEOUT_SECONDS : Z := 600.
Definition PYTHON_FLAGS : list string := ["-B"; "-u"; "-O"; "-OO"; "-b"; "-bb"; "-q"].
Definition PYTHON_FLAGS_WITH_VALUE : list string := ["-W"].
Definition MAX_ARGS : Z := 64.
Definition MAX_ARG_LEN : Z := 4096.

(** [CHECK_ID.fullmatch(s)] *)
Definition is_check_id (s : string) : bool :=
  match s with
  | EmptyString => false
  | String c t => is_alnum c && str_forallb (fun c => is_alnum c || str_has_char c "._:-") t && (str_len t <=? 119)
  end.

Definition CheckConfigError (msg : string) : exn := OtherError "CheckConfigError" msg.
Definition UnknownCheckError (msg : string) : exn := OtherError "UnknownCheckError" msg.

Record OraclePolicy : Type := { op_visibility : string; op_randomized : bool }.

Record RegisteredCheck : Type := {
  ck_id : string; ck_argv : list string; ck_timeout_seconds : float; ck_source : string;
  ck_visibility : string; ck_randomized : bool
}.

(** ** Python and pytest invocations *)

(** The loop of [python_invocation] over the arguments after the interpreter. *)
Fixpoint invocation (flags l : list string) : result (list string * string * string * list string) :=
  match l with
  | [] => Err (ValueError "python check needs -c CODE, -m MODULE or a script path")
  | part :: rest =>
      if str_in part PYTHON_FLAGS then invocation (flags ++ [part]) rest
      else if str_in part PYTHON_FLAGS_WITH_VALUE then
        match rest with
        | [] => Err (ValueError ("python flag " +:+ part +:+ " needs a value"))
        | v :: rest => invocation (flags ++ [part; v]) rest
        end
      else if str_in part ["-c"; "-m"] then
        match rest with
        | v :: rest => if str_truthy v then Ok (flags, part, v, rest)
                       else Err (ValueError ("python " +:+ part +:+ " needs a value"))
        | [] => Err (ValueError ("python " +:+ part +:+ " needs a value"))
        end
      else if str_startswith "-" part then
        Err (ValueError ("python flag " +:+ str_repr part +:+ " is not allowed in a check (allowed: " +:+
          list_repr (str_sorted (PYTHON_FLAGS ++ PYTHON_FLAGS_WITH_VALUE)) +:+ ", then -c, -m or a script)"))
      else Ok (flags, "path", part, rest)
  end.

Definition python_invocation (argv : list string) : result (list string * string * string * list string) :=
  invocation [] (tail argv).

Definition PYTEST_FLAGS_ALLOWED : list string :=
  ["-q"; "--quiet"; "-v"; "--verbose"; "-vv"; "-x"; "--exitfirst"; "-s"; "-l"; "--showlocals";
   "--no-header"; "--strict-markers"; "--strict-config"; "--disable-warnings"; "--color=no"; "--color=yes"].
Definition PYTEST_FLAGS_WITH_VALUE_ALLOWED : list string := ["-k"; "-m"; "-W"].

(** What follows [prefix] in [s]. *)
Definition str_after (prefix s : string) : option string :=
  if String.prefix prefix s then Some (String.substring (String.length prefix) (String.length s) s) else None.

Definition nonempty_of (p : ascii -> bool) (o : option string) : bool :=
  match o with Some s => str_truthy s && str_forallb p s | None => false end.

(** [PYTEST_FLAG_PATTERN.fullmatch(s)] *)
Definition pytest_flag_pattern (s : string) : bool :=
  nonempty_of (fun c => is_upper c || is_lower c) (str_after "-r" s) ||
  match str_after "--tb=" s with
  | Some v => str_in v ["auto"; "long"; "short"; "line"; "native"; "no"] | None => false end ||
  nonempty_of is_digit (str_after "--maxfail=" s) || nonempty_of is_digit (str_after "--durations=" s).

(** [_GLOB.search(s)] *)
Definition has_glob (s : string) : bool := negb (str_forallb (fun c => negb (str_has_char c "*?[]")) s).

Definition quiet_of (part : string) : Z :=
  if str_in part ["-q"; "--quiet"] then 1
  else if str_in part ["-v"; "--verbose"] then -1 else if str_eq part "-vv" then -2 else 0.

(** A part that names a test file or one of its nodes. *)
Definition bad_target (part : string) : bool :=
  let path := before_node part in
  negb (str_endswith ".py" path) || has_glob path || str_in ".." (path_parts path) ||
  str_forallb (fun c => bool_decide (c = slash)) path.

Fixpoint scan_pytest (targets : list string) (quiet : Z) (args : list string) : result (list string * Z) :=
  match args with
  | [] => Ok (targets, quiet)
  | part :: rest =>
      if str_in part PYTEST_FLAGS_WITH_VALUE_ALLOWED then
        match rest with
        | [] => Err (ValueError ("pytest option " +:+ part +:+ " needs a value"))
        | _ :: rest => scan_pytest targets quiet rest
        end
      else if str_startswith "-" part then
        _ ← raise_if (negb (str_in part PYTEST_FLAGS_ALLOWED) && negb (pytest_flag_pattern part))
              (ValueError ("pytest option " +:+ str_repr part +:+ " is not allowed in a check (allowed: " +:+
                 list_repr (str_sorted (PYTEST_FLAGS_ALLOWED ++ PYTEST_FLAGS_WITH_VALUE_ALLOWED)) +:+
                 ", -r<chars>, --tb=, --maxfail=, --durations=)"));
        scan_pytest targets (quiet + quiet_of part) rest
      else
        _ ← raise_if (bad_target part)
              (ValueError ("pytest target " +:+ str_repr part +:+ " must be a test file or node id " +:+
                 "(path/to/test_x.py[::name]), not a directory, glob or parent path"));
        scan_pytest (targets ++ [part]) quiet rest
  end.

Definition pytest_targets (args : list string) : result (list string) :=
  '(targets, quiet) ← scan_pytest [] 0 args;
  _ ← raise_if (2 <=? quiet) (ValueError "pytest -qq hides the result summary the evaluator checks");
  _ ← raise_if (bool_decide (targets = []))
        (ValueError ("a pytest check must name its test files (e.g. pytest -q tests/test_calc.py); " +:+
                     "without them pytest collects files the agent added"));
  Ok targets.

Definition is_pytest (argv : list string) : bool :=
  match argv with
  | [] => false
  | exe :: _ =>
      if str_eq (basename exe) "pytest" then true
      else if str_in (basename exe) ["python"; "python3"] then
        match python_invocation argv with
        | Ok (_, mode, target, _) => str_eq mode "-m" && str_eq target "pytest"
        | Err _ => false
        end
      else false
  end.

Definition check_targets (argv : list string) : result (list string) :=
  let name := match argv with exe :: _ => basename exe | [] => "" end in
  if str_eq name "pytest" then targets ← pytest_targets (tail argv); Ok (map before_node targets)
  else if str_in name ["python"; "python3"] then
    '(_, mode, target, rest) ← python_invocation argv;
    if str_eq mode "-m" && str_eq target "pytest" then
      targets ← pytest_targets rest; Ok (map before_node targets)
    else if str_eq mode "path" then
      _ ← raise_if (str_in ".." (path_parts target))
            (ValueError ("python script " +:+ str_repr target +:+ " must not use a parent path"));
      Ok [target]
    else Ok []
  else Ok [].

(** [except ValueError as exc: raise CheckConfigError(f"{where}: {exc}")] *)
Definition as_config_error {A} (where_ : string) (m : result A) : result A :=
  match m with
  | Err (ValueError msg) => Err (CheckConfigError (where_ +:+ ": " +:+ msg))
  | _ => m
  end.

Definition check_part (where_ : string) (part : json) : result string :=
  match part with
  | JStr s => if str_has_char (ascii_of_nat 0) s || (MAX_ARG_LEN <? str_len s)
              then Err (CheckConfigError (where_ +:+ ": every argument must be a string without NUL bytes"))
              else Ok s
  | _ => Err (CheckConfigError (where_ +:+ ": every argument must be a string without NUL bytes"))
  end.

Definition validate_argv (argv : json) (where_ : string) : result (list string) :=
  match argv with
  | JArr ((_ :: _) as l) =>
      _ ← raise_if (MAX_ARGS <? Z.of_nat (length l))
            (CheckConfigError (where_ +:+ ": argv has more than 64 arguments"));
      out ← result_map (check_part where_) l;
      let executable := default "" (head out) in
      _ ← raise_if (str_has_char slash executable || str_has_char (ascii_of_nat 92) executable ||
                    negb (str_in executable ALLOWED_EXECUTABLES))
            (CheckConfigError (where_ +:+ ": executable must be a bare name from " +:+
               list_repr (str_sorted ALLOWED_EXECUTABLES) +:+ ", not a path"));
      _ ← as_config_error where_
            (_ ← (if str_in executable ["python"; "python3"] then fmap (fun _ => ()) (python_invocation out) else Ok ());
             check_targets out);
      Ok out
  | _ => Err (CheckConfigError (where_ +:+ ": argv must be a non-empty list of strings"))
  end.

(** ** Registries *)

(** [_check_visibility_targets] *)
Definition check_visibility_targets (argv : list string) (visibility where_ : string) : result unit :=
  targets ← check_targets argv;
  if str_eq visibility "held_out" then
    let name := match argv with exe :: _ => basename exe | [] => "" end in
    _ ← (if str_in name ["python"; "python3"] then
           '(_, mode, _, _) ← python_invocation argv;
           raise_if (str_eq mode "-c")
             (CheckConfigError (where_ +:+ ": a held-out python check must be a script under " +:+ HELD_OUT_DIR +:+
                "/, not -c (the subject can read the oracle command line)"))
         else Ok ());
    _ ← raise_if (bool_decide (targets = []))
          (CheckConfigError (where_ +:+ ": a held-out check must name a file under " +:+ HELD_OUT_DIR +:+ "/"));
    match List.find (fun t => negb (is_held_out_path t)) targets with
    | Some t => Err (CheckConfigError (where_ +:+ ": held-out target " +:+ t +:+ " must live under " +:+ HELD_OUT_DIR +:+ "/"))
    | None => Ok ()
    end
  else
    match List.find is_held_out_path targets with
    | Some t => Err (CheckConfigError (where_ +:+ ": visible check target " +:+ t +:+ " is under " +:+ HELD_OUT_DIR +:+
                       "/; define it in " +:+ HELD_OUT_MANIFEST))
    | None => Ok ()
    end.

(** [not isinstance(t, bool) and isinstance(t, (int, float)) and MIN <= t <= MAX], as a float. *)
Definition timeout_value (t : json) : option float :=
  match t with
  | JInt z => if (MIN_TIMEOUT_SECONDS <=? z) && (z <=? MAX_TIMEOUT_SECONDS) then Some (f_of_Z z) else None
  | JFloat f => if f_le (f_of_Z MIN_TIMEOUT_SECONDS) f && f_le f (f_of_Z MAX_TIMEOUT_SECONDS) then Some f else None
  | _ => None
  end.

(** [spec.get(key, default)] on a mapping, the default on any other value. *)
Definition spec_get (spec : json) (key : string) (dflt : json) : json :=
  match spec with JObj kvs => default dflt (kv_find key kvs) | _ => dflt end.

Definition SPEC_KEYS : list string := ["argv"; "timeout_seconds"; "visibility"; "randomized"].

Definition parse_check (source : string) (force_visibility : option string) (check_id : string) (spec : json)
    : result RegisteredCheck :=
  let bad msg := CheckConfigError (source +:+ ": " +:+ msg) in
  if negb (is_check_id check_id) then Err (bad ("invalid check id " +:+ str_repr check_id))
  else
    let name := "check " +:+ str_repr check_id in
    let unknown := match spec with
                   | JObj kvs => List.filter (fun k => negb (str_in k SPEC_KEYS)) (map fst kvs) | _ => [] end in
    if negb (bool_decide (unknown = [])) then Err (bad (name +:+ " has unknown keys " +:+ list_repr (str_sorted unknown)))
    else
    match timeout_value (spec_get spec "timeout_seconds" (JFloat DEFAULT_TIMEOUT_SECONDS)) with
    | None => Err (bad (name +:+ " timeout_seconds must be in [1, 600]"))
    | Some timeout =>
    match spec_get spec "visibility" (JStr "visible") with
    | JStr visibility =>
        if negb (str_in visibility ORACLE_VISIBILITIES) then Err (bad (name +:+ " visibility must be one of ['visible', 'held_out']"))
        else
        match spec_get spec "randomized" (JBool false) with
        | JBool randomized =>
            visibility ← match force_visibility return result string with
              | Some forced =>
                  if match spec with JObj kvs => kv_has "visibility" kvs | _ => false end && negb (str_eq visibility forced)
                  then Err (bad (name +:+ " visibility must be " +:+ forced)) else Ok forced
              | None =>
                  if str_eq source FIXTURE_MANIFEST && str_eq visibility "held_out"
                  then Err (bad (name +:+ " is held-out; define it in " +:+ HELD_OUT_MANIFEST +:+
                            " (the public manifest is copied into the agent workspace)"))
                  else Ok visibility
              end;
            let where_ := source +:+ ": " +:+ name in
            parsed ← validate_argv (match spec with JObj kvs => kv_get "argv" kvs | _ => spec end) where_;
            _ ← check_visibility_targets parsed visibility where_;
            Ok {| ck_id := check_id; ck_argv := parsed; ck_timeout_seconds := timeout; ck_source := source;
                  ck_visibility := visibility; ck_randomized := randomized |}
        | _ => Err (bad (name +:+ " randomized must be true or false"))
        end
    | _ => Err (bad (name +:+ " visibility must be one of ['visible', 'held_out']"))
    end
    end.

(** [_parse] *)
Definition parse (data : json) (source : string) (force_visibility : option string) : result (list RegisteredCheck) :=
  match data, jget "checks" data with
  | JObj _, JObj specs => result_map (fun kv : string * json => parse_check source force_visibility kv.1 kv.2) specs
  | _, _ => Err (CheckConfigError (source +:+ ": expected an object with a 'checks' mapping"))
  end.

Record CheckRegistry : Type := {
  cr_checks : gmap string RegisteredCheck;
  cr_slots : gmap (string * Z) string
}.

Section load.
(** The file system: refusing a path under an agent-writable root, whether a
    path is a symbolic link or exists, and reading a regular JSON file. *)
Context (refuse_under : string -> string -> result unit) (is_symlink lexists : string -> bool)
  (load_json : string -> string -> result json).

(** [_load_file] *)
Definition load_file (path source : string) (force_visibility : option string) : result (list RegisteredCheck) :=
  data ← load_json path source; parse data source force_visibility.

(** The loop [for check_id, check in loaded: refuse a duplicate, add]. *)
Definition add_checks (clash : string -> exn) (checks : gmap string RegisteredCheck) (l : list RegisteredCheck)
    : result (gmap string RegisteredCheck) :=
  result_fold (fun m c => _ ← raise_if (bool_decide (is_Some (m !! ck_id c))) (clash (ck_id c)); Ok (<[ck_id c := c]> m)) checks l.

Definition both_defined (a b check_id : string) : exn :=
  CheckConfigError ("check id " +:+ str_repr check_id +:+ " is defined by both " +:+ a +:+ " and " +:+ b).

(** One manifest of the fixture. *)
Definition load_manifest (path name other : string) (force_visibility : option string) (checks : gmap string RegisteredCheck)
    : result (gmap string RegisteredCheck) :=
  _ ← raise_if (is_symlink path) (CheckConfigError (name +:+ ": must be a regular file, not a symlink"));
  if lexists path then l ← load_file path name force_visibility; add_checks (both_defined other name) checks l
  else Ok checks.

Definition load (fixture : option string) (env : environ) : result CheckRegistry :=
  let server_file := str_strip (or_empty (env !! CHECKS_FILE_ENV)) in
  checks ← (if str_truthy server_file then
              _ ← refuse_under server_file CHECKS_FILE_ENV;
              l ← load_file server_file CHECKS_FILE_ENV None;
              Ok (foldl (fun m c => <[ck_id c := c]> m) ∅ l)
            else Ok ∅);
  checks ← match fixture with
           | None => Ok checks
           | Some dir =>
               _ ← refuse_under dir "fixture_dir";
               checks ← load_manifest (dir +:+ "/" +:+ FIXTURE_MANIFEST) FIXTURE_MANIFEST CHECKS_FILE_ENV None checks;
               load_manifest (dir +:+ "/" +:+ HELD_OUT_MANIFEST) HELD_OUT_MANIFEST "a public manifest" (Some "held_out") checks
           end;
  Ok {| cr_checks := checks; cr_slots := ∅ |}.
End load.

Definition get (r : CheckRegistry) (check_id : string) : result RegisteredCheck :=
  require_some (cr_checks r !! check_id) (UnknownCheckError ("unknown check id: " +:+ check_id)).

(** The slots of one criterion. *)
Definition slots_of (criterion : string) (ids : list string) : list (string * Z * string) :=
  imap (fun position cid => ((criterion, Z.of_nat position), cid)) ids.

Definition resolve (r : CheckRegistry) (criterion_checks : gmap string (list string))
    : result (CheckRegistry * gmap string (list (list string))) :=
  let unknown := List.filter (fun cid => negb (bool_decide (is_Some (cr_checks r !! cid))))
                   (concat (map snd (map_to_list criterion_checks))) in
  _ ← raise_if (negb (bool_decide (unknown = [])))
        (UnknownCheckError ("unknown check ids: " +:+ list_repr (str_sorted (remove_dups unknown))));
  Ok ({| cr_checks := cr_checks r;
         cr_slots := list_to_map (concat (map (fun kv => slots_of kv.1 kv.2) (map_to_list criterion_checks))) |},
      (fun ids : list string => omap (fun cid => ck_argv <$> cr_checks r !! cid) ids) <$> criterion_checks).

Definition policy_of (c : RegisteredCheck) : OraclePolicy :=
  {| op_visibility := ck_visibility c; op_randomized := ck_randomized c |}.

Definition oracle_policies (r : CheckRegistry) : gmap (string * Z) OraclePolicy :=
  omap (fun cid => policy_of <$> cr_checks r !! cid) (cr_slots r).

Definition declares_hidden_oracle (r : CheckRegistry) : bool :=
  existsb (fun p : OraclePolicy => str_eq (op_visibility p) "held_out" || op_randomized p)
    (map snd (map_to_list (oracle_policies r))).

Definition timeout_for (r : CheckRegistry) (check_id : string) : option float :=
  ck_timeout_seconds <$> cr_checks r !! check_id.

Definition slot_timeout (r : CheckRegistry) (criterion : option string) (position : Z) : option float :=
  match criterion with
  | None => None
  | Some c => cr_slots r !! (c, position) ≫= timeout_for r
  end.

(** ** What an accepted argv is *)

(** Interpreter flags that cannot undo the evaluator's isolation. *)
Inductive harmless : list string -> Prop :=
  | harmless_nil : harmless []
  | harmless_flag f l : f ∈ PYTHON_FLAGS -> harmless l -> harmless (f :: l)
  | harmless_value f v l : f ∈ PYTHON_FLAGS_WITH_VALUE -> harmless l -> harmless (f :: v :: l).

(** The three shapes of a python command after its interpreter. *)
Definition python_shape (l flags : list string) (mode target : string) (rest : list string) : Prop :=
  harmless flags /\
  ((mode = "path" /\ str_startswith "-" target = false /\ l = flags ++ target :: rest) \/
   (mode ∈ ["-c"; "-m"] /\ target <> "" /\ l = flags ++ mode :: target :: rest)).

Lemma str_in_iff s l : str_in s l = true <-> s ∈ l.
Proof. unfold str_in. apply bool_decide_eq_true. Qed.

Lemma str_truthy_iff s : str_truthy s = true <-> s <> "".
Proof. by destruct s. Qed.

(** Decide a membership test on a known list. *)
Ltac known_in := repeat match goal with
  | H : ?s ∈ [_] |- _ => apply list_elem_of_singleton in H; subst
  | H : ?s ∈ _ :: _ |- _ => apply elem_of_cons in H as [->|H]
  | H : ?s ∈ [] |- _ => by apply not_elem_of_nil in H
  end.

Lemma flag_not_path f : f ∈ PYTHON_FLAGS -> str_in f PYTHON_FLAGS = true.
Proof. apply str_in_iff. Qed.

Lemma value_flag f : f ∈ PYTHON_FLAGS_WITH_VALUE ->
  str_in f PYTHON_FLAGS = false /\ str_in f PYTHON_FLAGS_WITH_VALUE = true.
Proof. unfold PYTHON_FLAGS_WITH_VALUE. intros H. known_in; by vm_compute. Qed.

Lemma mode_flag f : f ∈ ["-c"; "-m"] ->
  str_in f PYTHON_FLAGS = false /\ str_in f PYTHON_FLAGS_WITH_VALUE = false /\ str_in f ["-c"; "-m"] = true.
Proof. intros H. known_in; by vm_compute. Qed.

Lemma dash_flags f : f ∈ PYTHON_FLAGS ++ PYTHON_FLAGS_WITH_VALUE ++ ["-c"; "-m"] -> str_startswith "-" f = true.
Proof. unfold PYTHON_FLAGS, PYTHON_FLAGS_WITH_VALUE. cbn [app]. intros H. known_in; by vm_compute. Qed.

Lemma path_target t : str_startswith "-" t = false ->
  str_in t PYTHON_FLAGS = false /\ str_in t PYTHON_FLAGS_WITH_VALUE = false /\ str_in t ["-c"; "-m"] = false.
Proof.
  intros H. split_and!; apply not_true_iff_false; intros Hin%str_in_iff;
    (rewrite dash_flags in H; [done|rewrite !elem_of_app; auto]).
Qed.

Lemma invocation_sound n l f0 flags mode target rest : (length l <= n)%nat ->
  invocation f0 l = Ok (flags, mode, target, rest) ->
  exists fl, flags = f0 ++ fl /\ python_shape l fl mode target rest.
Proof.
  revert l f0. induction n as [|n IH]; intros [|part l] f0 Hn H; simpl in Hn; try done; try lia.
  cbn [invocation] in H. destruct (str_in part PYTHON_FLAGS) eqn:E1.
  { apply IH in H as (fl & -> & Hs); [|lia]. exists (part :: fl). rewrite <- app_assoc. split; [done|].
    destruct Hs as [Hh Hs]. split; [constructor; [by apply str_in_iff|done]|]. naive_solver. }
  destruct (str_in part PYTHON_FLAGS_WITH_VALUE) eqn:E2.
  { destruct l as [|v l]; [done|]. simpl in Hn. apply IH in H as (fl & -> & Hs); [|lia].
    exists (part :: v :: fl). rewrite <- app_assoc. split; [done|].
    destruct Hs as [Hh Hs]. split; [constructor; [by apply str_in_iff|done]|]. naive_solver. }
  exists []. rewrite app_nil_r. destruct (str_in part ["-c"; "-m"]) eqn:E3.
  { destruct l as [|v l]; [done|]. destruct (str_truthy v) eqn:Ev; [|done]. injection H as <- <- <- <-.
    split; [done|]. split; [constructor|right]. split_and!; [by apply str_in_iff|by apply str_truthy_iff|done]. }
  destruct (str_startswith "-" part) eqn:E4; [done|]. injection H as <- <- <- <-.
  split; [done|]. split; [constructor|by left].
Qed.

Lemma invocation_complete l f0 flags mode target rest :
  python_shape l flags mode target rest -> invocation f0 l = Ok (f0 ++ flags, mode, target, rest).
Proof.
  intros [Hh Hs]. revert l f0 Hs. induction Hh as [|f fl Hf Hh IH|f v fl Hf Hh IH]; intros l f0 Hs.
  - rewrite app_nil_r. destruct Hs as [(-> & Ht & ->)|(Hm & Ht & ->)]; cbn [app invocation].
    + destruct (path_target _ Ht) as (-> & -> & ->). by rewrite Ht.
    + destruct (mode_flag _ Hm) as (-> & -> & ->). by apply str_truthy_iff in Ht as ->.
  - assert (exists l', l = f :: l' /\ python_shape l' fl mode target rest) as (l' & -> & _ & Hs') by
      (destruct Hs as [(? & ? & ->)|(? & ? & ->)]; eexists; (split; [reflexivity|split; [done|]]; auto)).
    cbn [invocation]. rewrite flag_not_path by done. rewrite (IH l') by done. by rewrite <- app_assoc.
  - assert (exists l', l = f :: v :: l' /\ python_shape l' fl mode target rest) as (l' & -> & _ & Hs') by
      (destruct Hs as [(? & ? & ->)|(? & ? & ->)]; eexists; (split; [reflexivity|split; [done|]]; auto)).
    cbn [invocation]. destruct (value_flag _ Hf) as (-> & ->). rewrite (IH l') by done. by rewrite <- app_assoc.
Qed.

(** The python splitter accepts exactly the three hardenable shapes: any
    harmless flags, then [-c CODE], [-m MODULE] with a non-empty value, or a
    script path that is not an option; and it returns the parts in place, so
    the command is their concatenation.  Every other command is refused. *)
Theorem python_invocation_iff exe l flags mode target rest :
  python_invocation (exe :: l) = Ok (flags, mode, target, rest) <-> python_shape l flags mode target rest.
Proof.
  unfold python_invocation. cbn [tail]. split.
  - intros H. apply (invocation_sound (length l)) in H as (fl & -> & ?); [done|lia].
  - intros H. by rewrite (invocation_complete _ [] _ _ _ _ H).
Qed.

(** A file a check may name as its test code. *)
Definition test_file (t : string) : Prop := str_endswith ".py" t = true /\ has_glob t = false /\ ".." ∉ path_parts t.

(** What every accepted argv satisfies. *)
Definition safe_argv (out : list string) : Prop :=
  1 <= Z.of_nat (length out) <= MAX_ARGS /\
  Forall (fun a => str_has_char (ascii_of_nat 0) a = false /\ str_len a <= MAX_ARG_LEN) out /\
  (exists exe l, out = exe :: l /\ exe ∈ ALLOWED_EXECUTABLES) /\
  exists targets, check_targets out = Ok targets /\ Forall (fun t => ".." ∉ path_parts t) targets /\
    (is_pytest out = true -> targets <> [] /\ Forall test_file targets).

Lemma scan_pytest_good n args t0 q0 t q : (length args <= n)%nat ->
  scan_pytest t0 q0 args = Ok (t, q) -> Forall (fun p => bad_target p = false) t0 ->
  Forall (fun p => bad_target p = false) t.
Proof.
  revert args t0 q0. induction n as [|n IH]; intros [|part args] t0 q0 Hn H Ht; simpl in Hn; try lia;
    try (by injection H as <- <-).
  cbn [scan_pytest] in H. destruct (str_in part PYTEST_FLAGS_WITH_VALUE_ALLOWED).
  { destruct args as [|v args]; [done|]. simpl in Hn. by apply (IH args t0 q0); [lia|..]. }
  destruct (str_startswith "-" part).
  { crush_hyps. eapply (IH args); [lia|eassumption|done]. }
  crush_hyps. eapply (IH args); [lia|eassumption|]. apply Forall_app. by repeat constructor.
Qed.

Lemma pytest_targets_good args targets : pytest_targets args = Ok targets ->
  targets <> [] /\ Forall test_file (map before_node targets).
Proof.
  unfold pytest_targets. intros ((t & q) & Hs & H)%bind_Ok. crush_hyps. boolify. split; [done|].
  eapply scan_pytest_good in Hs; [|reflexivity|constructor]. apply Forall_map.
  eapply Forall_impl; [exact Hs|]. intros p Hp. unfold bad_target in Hp. boolify. unfold test_file, str_in in *. by boolify.
Qed.

Lemma check_targets_good out targets : check_targets out = Ok targets ->
  Forall (fun t => ".." ∉ path_parts t) targets /\
  (is_pytest out = true -> targets <> [] /\ Forall test_file targets).
Proof.
  assert (forall args ts, pytest_targets args = Ok ts ->
    Forall (fun t => ".." ∉ path_parts t) (map before_node ts) /\ map before_node ts <> [] /\ Forall test_file (map before_node ts)) as Hp.
  { intros args ts [Hne Hg]%pytest_targets_good. split_and!; [|by destruct ts|done].
    eapply Forall_impl; [exact Hg|]. intros t Ht. apply Ht. }
  destruct out as [|exe l]; unfold check_targets, is_pytest.
  { cbn -[pytest_targets]. intros [= <-]. split; [constructor|done]. }
  destruct (str_eq (basename exe) "pytest").
  { intros (ts & Hts & [= <-])%bind_Ok. by apply Hp in Hts as (? & ?). }
  destruct (str_in (basename exe) ["python"; "python3"]); [|intros [= <-]; split; [constructor|done]].
  intros ([[[fl mode] target] rest] & -> & H)%bind_Ok.
  destruct (str_eq mode "-m" && str_eq target "pytest").
  { apply bind_Ok in H as (ts & Hts & [= <-]). by apply Hp in Hts as (? & ?). }
  split; [|done]. destruct (str_eq mode "path"); [|injection H as <-; constructor].
  crush_hyps. unfold str_in in *. boolify. by repeat constructor.
Qed.

Lemma check_part_Ok w j s : check_part w j = Ok s ->
  j = JStr s /\ str_has_char (ascii_of_nat 0) s = false /\ str_len s <= MAX_ARG_LEN.
Proof.
  destruct j; try done. unfold check_part.
  destruct (str_has_char (ascii_of_nat 0) s0 || (MAX_ARG_LEN <? str_len s0)) eqn:E; intros [= ->]. by boolify.
Qed.

Lemma check_parts_Ok w l out : result_map (check_part w) l = Ok out ->
  l = map JStr out /\ Forall (fun a => str_has_char (ascii_of_nat 0) a = false /\ str_len a <= MAX_ARG_LEN) out.
Proof.
  revert out. induction l as [|j l IH]; simpl; intros out H; crush_hyps; [done|].
  match goal with H : check_part _ _ = Ok _ |- _ => apply check_part_Ok in H as (-> & ?) end.
  match goal with H : result_map _ _ = Ok _ |- _ => apply IH in H as (-> & ?) end. split; [done|by constructor].
Qed.

Lemma validate_argv_safe argv w out : validate_argv argv w = Ok out -> argv = JArr (map JStr out) /\ safe_argv out.
Proof.
  destruct argv as [| | | | |[|j l]|]; try done. unfold validate_argv. intros H. crush_hyps. boolify.
  match goal with H : result_map _ _ = Ok _ |- _ => apply check_parts_Ok in H as (Hl & Hf) end.
  match goal with H : as_config_error _ _ = Ok ?x |- _ => rename H into Hc end.
  assert (exists ts, check_targets out = Ok ts) as [ts Hts].
  { destruct (str_in _ ["python"; "python3"]) in Hc; [destruct (python_invocation out) as [|[]]; try done; simpl in Hc|simpl in Hc];
      destruct (check_targets out) as [|[]]; by eauto. }
  split; [by f_equal|]. unfold safe_argv. rewrite Hl, length_map in *.
  destruct out as [|exe out]; [done|]. split_and!; [simpl; lia|done|done| |by exists ts; split; [|apply check_targets_good]].
  exists exe, out. split; [done|]. apply str_in_iff. by match goal with H : str_in _ ALLOWED_EXECUTABLES = true |- _ => exact H end.
Qed.

(** ** What a registered check is *)

(** A held-out check lives wholly in the server-only directory and outside the
    public manifest; a visible one touches nothing of that directory. *)
Definition isolated (c : RegisteredCheck) : Prop :=
  is_check_id (ck_id c) = true /\ safe_argv (ck_argv c) /\
  f_le (f_of_Z MIN_TIMEOUT_SECONDS) (ck_timeout_seconds c) && f_le (ck_timeout_seconds c) (f_of_Z MAX_TIMEOUT_SECONDS) = true /\
  exists targets, check_targets (ck_argv c) = Ok targets /\
    ((ck_visibility c = "held_out" /\ ck_source c <> FIXTURE_MANIFEST /\ targets <> [] /\
      Forall (fun t => is_held_out_path t = true) targets) \/
     (ck_visibility c = "visible" /\ ck_source c <> HELD_OUT_MANIFEST /\
      Forall (fun t => is_held_out_path t = false) targets)).

Lemma timeout_table : forallb (fun z => f_le (f_of_Z 1) (f_of_Z z) && f_le (f_of_Z z) (f_of_Z 600)) (seqZ 1 600) = true.
Proof. vm_compute. reflexivity. Qed.

Lemma timeout_value_bounds j t : timeout_value j = Some t ->
  f_le (f_of_Z MIN_TIMEOUT_SECONDS) t && f_le t (f_of_Z MAX_TIMEOUT_SECONDS) = true.
Proof.
  unfold timeout_value, MIN_TIMEOUT_SECONDS, MAX_TIMEOUT_SECONDS.
  destruct j as [| |z|f| | |]; try done; intros H.
  2: { destruct (_ && _) eqn:E in H; [|done]. by injection H as <-. }
  destruct (_ && _) eqn:E in H; [|done]. injection H as <-. apply andb_true_iff in E as [?%Z.leb_le ?%Z.leb_le].
  refine (proj1 (List.forallb_forall _ _) timeout_table z _). apply list_elem_of_In, elem_of_seqZ. lia.
Qed.

Lemma find_none_Forall {A} (p : A -> bool) l : List.find p l = None -> Forall (fun x => p x = false) l.
Proof. intros H. apply Forall_forall. intros x Hx. by apply (List.find_none _ _ H), list_elem_of_In. Qed.

Lemma check_visibility_Ok argv visibility w u : check_visibility_targets argv visibility w = Ok u ->
  exists targets, check_targets argv = Ok targets /\
    if str_eq visibility "held_out" then targets <> [] /\ Forall (fun t => is_held_out_path t = true) targets
    else Forall (fun t => is_held_out_path t = false) targets.
Proof.
  unfold check_visibility_targets. intros (targets & Ht & H)%bind_Ok. exists targets. split; [done|].
  destruct (str_eq visibility "held_out").
  - crush_hyps. boolify. split; [done|]. destruct (List.find _ targets) eqn:E; [done|]. apply find_none_Forall in E.
    eapply Forall_impl; [exact E|]. intros y Hy. by apply negb_false_iff in Hy.
  - destruct (List.find _ targets) eqn:E; [done|]. by apply find_none_Forall.
Qed.

Lemma visibility_cases v : str_in v ORACLE_VISIBILITIES = true -> v = "held_out" \/ v = "visible".
Proof. intros [->| ->%list_elem_of_singleton]%str_in_iff%elem_of_cons; auto. Qed.

Lemma parse_check_isolated source force id spec c : parse_check source force id spec = Ok c ->
  (source = HELD_OUT_MANIFEST -> force = Some "held_out") -> (force = Some "held_out" -> source <> FIXTURE_MANIFEST) ->
  force = None \/ force = Some "held_out" ->
  ck_id c = id /\ isolated c.
Proof.
  unfold parse_check. intros H Hs Hf Hforce.
  destruct (is_check_id id) eqn:Hid; [|done]. cbn [negb] in H.
  set (unknown := match spec with JObj kvs => _ | _ => [] end) in H. destruct (bool_decide (unknown = [])); [|done]. cbn [negb] in H.
  destruct (timeout_value _) as [timeout|] eqn:Ht; [|done].
  destruct (spec_get spec "visibility" _) as [| | | |v| |]; try done.
  destruct (str_in v ORACLE_VISIBILITIES) eqn:Hv; [|done]. cbn [negb] in H.
  destruct (spec_get spec "randomized" _) as [|randomized| | | | |]; try done.
  apply bind_Ok in H as (vis & Hvis & H). apply bind_Ok in H as (argv & Hargv & H).
  apply bind_Ok in H as (u & Hu & [= <-]). split; [done|].
  apply validate_argv_safe in Hargv as (_ & Hsafe). apply check_visibility_Ok in Hu as (targets & Htg & Hu).
  unfold isolated. cbn [ck_id ck_argv ck_timeout_seconds ck_visibility ck_source].
  split_and!; [done|done|by apply timeout_value_bounds in Ht|]. exists targets. split; [done|].
  destruct Hforce as [->| ->].
  - destruct (str_eq source FIXTURE_MANIFEST && str_eq v "held_out") eqn:Ec; [done|]. injection Hvis as <-.
    assert (source <> HELD_OUT_MANIFEST) as Hno by (intros E; apply Hs in E; done).
    apply visibility_cases in Hv as [->| ->]; cbn in Hu; [left|by right].
    destruct Hu. split_and!; try done. unfold str_eq in Ec. rewrite andb_false_iff in Ec. destruct Ec as [Ec|Ec]; [by boolify|done].
  - destruct (_ && _) in Hvis; [done|]. injection Hvis as <-. left. destruct Hu. split_and!; auto.
Qed.

(** The checks of a registry: keyed by their id, each of them isolated. *)
Definition checks_ok (m : gmap string RegisteredCheck) : Prop := forall k c, m !! k = Some c -> k = ck_id c /\ isolated c.

Lemma checks_ok_empty : checks_ok ∅.
Proof. intros k c Hk. by rewrite lookup_empty in Hk. Qed.

Lemma checks_ok_insert m c : checks_ok m -> isolated c -> checks_ok (<[ck_id c := c]> m).
Proof. intros Hm Hc k x [[<- <-]|[_ Hk]]%lookup_insert_Some; [done|by apply Hm]. Qed.

Lemma add_checks_ok clash l m m' : checks_ok m -> Forall isolated l -> add_checks clash m l = Ok m' -> checks_ok m'.
Proof.
  unfold add_checks. intros Hm Hl. revert m Hm. induction Hl as [|c l Hc Hl IH]; simpl; intros m Hm H; [by injection H as <-|].
  crush_hyps. eapply IH; [|eassumption]. by apply checks_ok_insert.
Qed.

Section load_ok.
Context (refuse_under : string -> string -> result unit) (is_symlink lexists : string -> bool)
  (load_json : string -> string -> result json).

Lemma load_file_isolated path source force l : load_file load_json path source force = Ok l ->
  (source = HELD_OUT_MANIFEST -> force = Some "held_out") -> (force = Some "held_out" -> source <> FIXTURE_MANIFEST) ->
  force = None \/ force = Some "held_out" -> Forall isolated l.
Proof.
  unfold load_file, parse. intros (data & _ & H)%bind_Ok Hs Hf Hforce. destruct data; try done.
  destruct (jget "checks" _); try done. apply Forall_forall. intros c Hc.
  apply (result_map_elem _ _ _ H) in Hc as (kv & _ & Hc). by apply parse_check_isolated in Hc as [_ ?].
Qed.

Lemma load_manifest_ok path name other force m m' : checks_ok m ->
  (name = HELD_OUT_MANIFEST -> force = Some "held_out") -> (force = Some "held_out" -> name <> FIXTURE_MANIFEST) ->
  force = None \/ force = Some "held_out" ->
  load_manifest is_symlink lexists load_json path name other force m = Ok m' -> checks_ok m'.
Proof.
  unfold load_manifest. intros Hm Hs Hf Hforce H. crush_hyps. destruct (lexists path); crush_hyps; [|done].
  eapply add_checks_ok; [exact Hm| |eassumption]. by eapply load_file_isolated.
Qed.

(** A registry that loads holds only isolated checks, each under its own
    well-formed id: the argv is bounded, starts with an allowlisted bare
    executable, names its test files when it runs pytest and never leaves the
    tree through a parent path; the timeout is within bounds; held-out checks
    come from outside the public manifest and touch only the held-out
    directory, visible ones never touch it.  Nothing is mapped yet. *)
Theorem registry_isolated fixture env r :
  load refuse_under is_symlink lexists load_json fixture env = Ok r ->
  checks_ok (cr_checks r) /\ cr_slots r = ∅.
Proof.
  unfold load. intros (m & Hm & H)%bind_Ok. apply bind_Ok in H as (m' & Hm' & [= <-]). split; [|done].
  cbn [cr_checks]. assert (checks_ok m) as Hok.
  { destruct (str_truthy _); [|injection Hm as <-; exact checks_ok_empty].
    crush_hyps. match goal with H : load_file _ _ _ _ = Ok ?l |- _ => apply load_file_isolated in H; [|done..|by left]; rename H into Hl end.
    clear -Hl. pose proof checks_ok_empty as He. revert He. generalize (∅ : gmap string RegisteredCheck). induction Hl as [|c l Hc Hl IH]; intros m Hm; [done|].
    apply IH. by apply checks_ok_insert. }
  destruct fixture as [dir|]; [|by injection Hm' as <-]. crush_hyps.
  eapply load_manifest_ok; [| | | |eassumption]; [|done|done|by right].
  eapply load_manifest_ok; [| | | |eassumption]; [exact Hok|done|done|by left].
Qed.
End load_ok.

(** ** Criteria and their slots *)

Lemma elem_slots_of criterion ids k cid :
  (k, cid) ∈ slots_of criterion ids <-> exists i, ids !! i = Some cid /\ k = (criterion, Z.of_nat i).
Proof.
  unfold slots_of. rewrite list_elem_of_lookup. setoid_rewrite list_lookup_imap. split.
  - intros [i H]. destruct (ids !! i) eqn:E; [|done]. injection H as <- <-. eauto.
  - intros (i & Hi & ->). exists i. by rewrite Hi.
Qed.

Definition slots (criterion_checks : gmap string (list string)) : gmap (string * Z) string :=
  list_to_map (concat (map (fun kv => slots_of kv.1 kv.2) (map_to_list criterion_checks))).

Lemma elem_slots cc k cid :
  (k, cid) ∈ concat (map (fun kv => slots_of kv.1 kv.2) (map_to_list cc)) <->
  exists ids i, cc !! k.1 = Some ids /\ ids !! i = Some cid /\ k.2 = Z.of_nat i.
Proof.
  rewrite list_elem_of_In, in_concat. setoid_rewrite <- list_elem_of_In. split.
  - intros (l & ((c & ids) & Hc%elem_of_map_to_list & ->)%elem_map & (i & Hi & ->)%elem_slots_of). simpl. eauto.
  - intros (ids & i & Hc & Hi & Hk). exists (slots_of k.1 ids). split; [|apply elem_slots_of; exists i; by destruct k; simplify_eq/=].
    apply elem_map. exists (k.1, ids). by rewrite elem_of_map_to_list.
Qed.

Lemma slots_lookup cc criterion z cid :
  slots cc !! (criterion, z) = Some cid <-> exists ids i, cc !! criterion = Some ids /\ ids !! i = Some cid /\ z = Z.of_nat i.
Proof.
  unfold slots. split.
  - intros H%elem_of_list_to_map_2. by apply elem_slots in H.
  - intros (ids & i & Hc & Hi & ->). apply elem_of_list_to_map_1'; [|apply elem_slots; eauto].
    intros y (ids' & i' & Hc' & Hi' & Hz)%elem_slots. simpl in *. assert (i' = i) as -> by lia. congruence.
Qed.

Lemma resolve_known r cc r' m : resolve r cc = Ok (r', m) ->
  r' = {| cr_checks := cr_checks r; cr_slots := slots cc |} /\
  m = (fun ids : list string => omap (fun cid => ck_argv <$> cr_checks r !! cid) ids) <$> cc /\
  forall criterion ids cid, cc !! criterion = Some ids -> cid ∈ ids -> is_Some (cr_checks r !! cid).
Proof.
  unfold resolve. intros H. crush_hyps. boolify.
  split_and!; [done|done|]. intros criterion ids cid Hc Hin.
  match goal with H : List.filter _ _ = [] |- _ => rename H into Hf end.
  destruct (cr_checks r !! cid) eqn:E; [done|]. exfalso. apply (@not_elem_of_nil _ cid). rewrite <- Hf.
  apply elem_filterb. rewrite E. split; [|done].
  apply list_elem_of_In, in_concat. exists ids. split; [|by apply list_elem_of_In].
  apply list_elem_of_In, elem_map. exists (criterion, ids). by rewrite elem_of_map_to_list.
Qed.

Lemma omap_total {A B} (f : A -> option B) l : (forall x, x ∈ l -> is_Some (f x)) -> Forall2 (fun x y => f x = Some y) l (omap f l).
Proof.
  induction l as [|x l IH]; intros H; [constructor|]. destruct (H x) as [y Hy]; [left|].
  cbn. rewrite Hy. constructor; [done|]. apply IH. intros z Hz. apply H. by right.
Qed.

(** Resolving the checks a caller names maps every criterion to the
    registered argvs of its ids, in order, and fails when an id is unknown;
    afterwards the timeout and the oracle policy of a criterion's position are
    those of the check id named there, other positions have none, and the run
    declares a hidden oracle exactly when some named check is held-out or
    randomized. *)
Theorem resolve_slots r cc r' m : resolve r cc = Ok (r', m) ->
  cr_checks r' = cr_checks r /\
  (forall criterion ids, cc !! criterion = Some ids -> exists argvs, m !! criterion = Some argvs /\
     Forall2 (fun cid argv => ck_argv <$> cr_checks r !! cid = Some argv) ids argvs) /\
  (forall criterion, cc !! criterion = None -> m !! criterion = None) /\
  (forall criterion position,
     let cid := ids ← cc !! criterion; if decide (0 <= position) then ids !! Z.to_nat position else None in
     slot_timeout r' (Some criterion) position = cid ≫= timeout_for r /\
     oracle_policies r' !! (criterion, position) = (c ← cid; policy_of <$> cr_checks r !! c)) /\
  (declares_hidden_oracle r' = true <-> exists criterion ids cid c, cc !! criterion = Some ids /\ cid ∈ ids /\
     cr_checks r !! cid = Some c /\ (ck_visibility c = "held_out" \/ ck_randomized c = true)).
Proof.
  intros (-> & -> & Hk)%resolve_known. cbn [cr_checks cr_slots].
  assert (forall criterion position, slots cc !! (criterion, position) =
    (ids ← cc !! criterion; if decide (0 <= position) then ids !! Z.to_nat position else None)) as Hslot.
  { intros criterion z. apply option_eq. intros cid. rewrite slots_lookup. split.
    - intros (ids & i & -> & Hi & ->). cbn [mbind option_bind]. rewrite decide_True by lia. by rewrite Nat2Z.id.
    - destruct (cc !! criterion) as [ids|]; [|done]. cbn [mbind option_bind]. destruct (decide (0 <= z)); [|done].
      intros Hi. exists ids, (Z.to_nat z). split_and!; [done|done|lia]. }
  split; [done|]. split; [|split; [|split]].
  - intros criterion ids Hc. rewrite lookup_fmap, Hc. eexists. split; [done|].
    apply omap_total. intros cid Hin. apply fmap_is_Some. by eapply Hk.
  - intros criterion Hc. by rewrite lookup_fmap, Hc.
  - intros criterion position. unfold slot_timeout, oracle_policies. cbn [cr_slots cr_checks].
    rewrite lookup_omap, Hslot. done.
  - unfold declares_hidden_oracle. rewrite existsb_exists. setoid_rewrite <- list_elem_of_In. split.
    + intros (p & (((criterion & z) & p') & Hp%elem_of_map_to_list & ->)%elem_map & Hhid). simpl in *.
      unfold oracle_policies in Hp. rewrite lookup_omap in Hp. cbn [cr_slots cr_checks] in Hp.
      destruct (slots cc !! (criterion, z)) as [cid|] eqn:Es; [|done]. apply slots_lookup in Es as (ids & i & Hc & Hi & _).
      cbn in Hp. destruct (cr_checks r !! cid) as [c|] eqn:E; [|done]. injection Hp as <-.
      exists criterion, ids, cid, c. split_and!; [done|by eapply list_elem_of_lookup_2|done|].
      apply orb_true_iff in Hhid as [?%bool_decide_eq_true|?]; auto.
    + intros (criterion & ids & cid & c & Hc & (i & Hi)%list_elem_of_lookup & E & Hhid). exists (policy_of c). split.
      * apply elem_map. exists ((criterion, Z.of_nat i), policy_of c). split; [|done]. apply elem_of_map_to_list.
        unfold oracle_policies. rewrite lookup_omap. cbn [cr_slots cr_checks].
        assert (slots cc !! (criterion, Z.of_nat i) = Some cid) as -> by (apply slots_lookup; eauto). cbn. by rewrite E.
      * apply orb_true_iff. destruct Hhid as [Hv|?]; [left|by right]. unfold str_eq. by apply bool_decide_eq_true.
Qed.

Module CheckDemo.

(** A fixture with a public and a held-out manifest. *)
Definition public : json := JObj [("checks", JObj [("unit", JObj [("argv", JArr (map JStr ["pytest"; "-q"; "tests/test_calc.py"]));
  ("timeout_seconds", JInt 60)])])].
Definition hidden : json := JObj [("checks", JObj [("deep", JArr (map JStr ["python3"; ".sdf-held-out/deep.py"]))])].
Definition read (path source : string) : result json :=
  if str_eq source FIXTURE_MANIFEST then Ok public else Ok hidden.
Definition loaded : result CheckRegistry :=
  load (fun _ _ => Ok ()) (fun _ => false) (fun _ => true) read (Some "fixture") ∅.
Definition registry : CheckRegistry :=
  match loaded with Ok r => r | Err _ => {| cr_checks := ∅; cr_slots := ∅ |} end.
Definition criteria : gmap string (list string) := {["adds" := ["unit"; "deep"]]}.

End CheckDemo.

Lemma registry_isolated_witness : exists r, CheckDemo.loaded = Ok r /\ is_Some (cr_checks r !! "deep") /\ checks_ok (cr_checks r).
Proof.
  assert (CheckDemo.loaded = Ok CheckDemo.registry) as H by (vm_compute; reflexivity).
  exists CheckDemo.registry. split; [exact H|]. split; [vm_compute; eexists; reflexivity|].
  exact (proj1 (registry_isolated (fun _ _ => Ok ()) (fun _ => false) (fun _ => true) CheckDemo.read (Some "fixture") ∅ _ H)).
Defined.

Lemma resolve_slots_witness : exists r' m, resolve CheckDemo.registry CheckDemo.criteria = Ok (r', m) /\
  declares_hidden_oracle r' = true /\ cr_checks r' = cr_checks CheckDemo.registry.
Proof.
  assert (is_ok (resolve CheckDemo.registry CheckDemo.criteria) = true) as Hok by (vm_compute; reflexivity).
  destruct (resolve CheckDemo.registry CheckDemo.criteria) as [[r' m]|] eqn:E; [|discriminate Hok].
  exists r', m. split; [reflexivity|].
  assert (match resolve CheckDemo.registry CheckDemo.criteria with Ok (r, _) => declares_hidden_oracle r | Err _ => false end = true) as Hd
    by (vm_compute; reflexivity).
  rewrite E in Hd. split; [exact Hd|]. exact (proj1 (resolve_slots _ _ _ _ E)).
Defined.
