(* ===== verification/Plans.v ===== *)
(** * Plans: proposing, deciding and the requests of agents

    Models [src/sdf_core/plans.py].  A request body that pydantic accepts is a
    [PlanSpec] that passes [check_plan]; the service functions work on a
    [Session], with the successive readings of the clock and of [uuid4] as
    arguments. *)

From S2P Require Import Prelude Json Db EvidenceMac Flush Samples FlushFacts Store DecisionGate Checks.

(** ** Identities *)

(** [_KEY.fullmatch(s)] *)
Definition is_key (s : string) : bool :=
  match s with
  | EmptyString => false
  | String c t => (is_lower c || is_digit c) &&
                  str_forallb (fun c => is_lower c || is_digit c || str_has_char c "-") t && (str_len t <=? 47)
  end.

(** [_ACTOR.fullmatch(s)] *)
Definition is_actor (s : string) : bool :=
  str_forallb (fun c => is_alnum c || str_has_char c "._@:+-") s && (1 <=? str_len s) && (str_len s <=? 120).

(** [base(-\d+)?] *)
Definition numbered (base s : string) : bool := str_eq s base || nonempty_of is_digit (str_after (base +:+ "-") s).

(** [_RESERVED_ACTORS.fullmatch(s)], for the names [is_actor] accepts. *)
Definition is_reserved (s : string) : bool :=
  let s := str_lower s in
  str_in s ["sdf"; "host"; "manager"] || numbered "lead" s || numbered "worker" s || numbered "workers" s ||
  str_startswith "agent:" s || str_startswith "policy:" s.

Definition validate_human (actor : string) : result string :=
  let actor := str_strip actor in
  if negb (is_actor actor) || is_reserved actor
  then Err (PlanGateError "a decision must name the human who made it (agent and host identities are refused)")
  else Ok actor.

(** ** Plan specifications *)

Record SubtaskSpec : Type := {
  sub_key : string; sub_title : string; sub_instructions : string; sub_acceptance_criteria : list string;
  sub_criterion_checks : list (string * list (list string)); sub_allowed_paths : list string;
  sub_protected_paths : list string
}.

Record PlanSpec : Type := {
  ps_id : option string; ps_title : string; ps_objective_id : option string; ps_proposed_by : string;
  ps_fixture_dir : string; ps_subtasks : list SubtaskSpec
}.

(** [Field(min_length=lo, max_length=hi)] *)
Definition length_in (lo hi n : Z) (name : string) : result unit :=
  raise_if (negb ((lo <=? n) && (n <=? hi))) (ValueError (name +:+ " has the wrong length")).

(** [SubtaskSpec._paths] for one value. *)
Definition check_path (value : string) : result unit :=
  raise_if (negb (str_truthy value) || is_absolute value || str_in ".." (path_parts value) ||
            str_has_char (ascii_of_nat 92) value)
    (ValueError ("path must be relative inside the workspace: " +:+ str_repr value)).

(** [self.criterion_checks.get(c)] *)
Fixpoint checks_for (c : string) (l : list (string * list (list string))) : list (list string) :=
  match l with [] => [] | (k, v) :: l => if str_eq k c then v else checks_for c l end.

(** [SubtaskSpec._coverage] *)
Definition coverage (s : SubtaskSpec) : result unit :=
  let missing := List.filter (fun c => bool_decide (checks_for c (sub_criterion_checks s) = [])) (sub_acceptance_criteria s) in
  _ ← raise_if (negb (bool_decide (missing = [])))
        (ValueError ("every acceptance criterion needs a host check; missing: " +:+ list_repr missing));
  let extra := List.filter (fun c => negb (str_in c (sub_acceptance_criteria s))) (map fst (sub_criterion_checks s)) in
  _ ← raise_if (negb (bool_decide (extra = []))) (ValueError ("checks for unknown criteria: " +:+ list_repr (str_sorted extra)));
  _ ← result_map (fun kv : string * list (list string) =>
        result_map (fun argv => validate_argv (JArr (map JStr argv)) ("check for " +:+ str_repr kv.1)) kv.2)
        (sub_criterion_checks s);
  raise_if (existsb (fun p => str_in p (sub_protected_paths s)) (sub_allowed_paths s))
    (ValueError "a path cannot be both allowed and protected").

Definition check_subtask (s : SubtaskSpec) : result unit :=
  _ ← raise_if (negb (is_key (sub_key s)))
        (ValueError "subtask key must be lowercase letters, digits or '-', at most 48 chars");
  _ ← length_in 1 500 (str_len (sub_title s)) "title";
  _ ← length_in 1 8000 (str_len (sub_instructions s)) "instructions";
  _ ← length_in 1 20 (Z.of_nat (length (sub_acceptance_criteria s))) "acceptance_criteria";
  _ ← length_in 0 50 (Z.of_nat (length (sub_allowed_paths s))) "allowed_paths";
  _ ← each (sub_allowed_paths s) check_path;
  _ ← length_in 0 50 (Z.of_nat (length (sub_protected_paths s))) "protected_paths";
  _ ← each (sub_protected_paths s) check_path;
  coverage s.

(** The pattern of [PlanSpec.id]. *)
Definition is_plan_id (s : string) : bool :=
  str_forallb (fun c => is_alnum c || str_has_char c "_-") s && (1 <=? str_len s) && (str_len s <=? 64).

Definition check_plan (p : PlanSpec) : result unit :=
  _ ← raise_if (match ps_id p with Some i => negb (is_plan_id i) | None => false end) (ValueError "id does not match the pattern");
  _ ← length_in 1 500 (str_len (ps_title p)) "title";
  _ ← length_in 0 120 (str_len (ps_proposed_by p)) "proposed_by";
  _ ← length_in 1 1000 (str_len (ps_fixture_dir p)) "fixture_dir";
  _ ← length_in 1 8 (Z.of_nat (length (ps_subtasks p))) "subtasks";
  _ ← each (ps_subtasks p) check_subtask;
  raise_if (negb (bool_decide (NoDup (map sub_key (ps_subtasks p))))) (ValueError "subtask keys must be unique").

Definition json_strs (l : list string) : json := JArr (map JStr l).

(** [spec.model_dump(exclude={"id"})] *)
Definition subtask_dump (s : SubtaskSpec) : json :=
  JObj [("key", JStr (sub_key s)); ("title", JStr (sub_title s)); ("instructions", JStr (sub_instructions s));
        ("acceptance_criteria", json_strs (sub_acceptance_criteria s));
        ("criterion_checks", JObj (map (fun kv : string * list (list string) => (kv.1, JArr (map json_strs kv.2))) (sub_criterion_checks s)));
        ("allowed_paths", json_strs (sub_allowed_paths s)); ("protected_paths", json_strs (sub_protected_paths s))].

Definition model_dump (p : PlanSpec) : json :=
  JObj [("title", JStr (ps_title p)); ("objective_id", json_str (ps_objective_id p)); ("proposed_by", JStr (ps_proposed_by p));
        ("fixture_dir", JStr (ps_fixture_dir p)); ("subtasks", JArr (map subtask_dump (ps_subtasks p)))].

Definition content_hash (content : json) : string := sha256_text (dumps true content).

Definition task_id_for (plan_id key : string) : string := plan_id +:+ "--" +:+ key.

(** ** Proposing *)

(** [uuid4().hex[:12]] *)
Definition short (hex : string) : string := str_take 12 hex.

Definition taken (s : Session) (task_id : string) : bool :=
  bool_decide (is_Some (pget d_tasks task_id s)) || bool_decide (is_Some (pget d_graph_nodes task_id s)).

Definition plan_row (plan_id request_id folded : string) (spec : PlanSpec) (now : datetime) : PlanRow :=
  {| pl_id := plan_id; pl_title := ps_title spec; pl_objective_id := ps_objective_id spec; pl_status := "proposed";
     pl_content := model_dump spec; pl_content_sha256 := content_hash (model_dump spec);
     pl_proposed_by := ps_proposed_by spec; pl_proposed_by_casefold := Some folded; pl_created_at := now;
     pl_decision_request_id := request_id; pl_decided_at := None |}.

Definition plan_request (plan_id request_id : string) (spec : PlanSpec) (now : datetime) : DecisionRequestRow :=
  {| dr_id := request_id; dr_subject_kind := "plan"; dr_subject_id := plan_id; dr_run_id := None;
     dr_question := "Approve plan " +:+ plan_id +:+ ": " +:+ ps_title spec +:+ "?"; dr_options := ["approve"; "reject"];
     dr_status := "pending"; dr_requested_by := ps_proposed_by spec; dr_message_id := None; dr_resolved_by := None;
     dr_resolver_kind := None; dr_resolution := None; dr_decision_node_id := None; dr_created_at := now; dr_resolved_at := None |}.

Definition task_row (plan_id : string) (now : datetime) (sub : SubtaskSpec) : TaskRow :=
  {| tk_id := task_id_for plan_id (sub_key sub); tk_title := sub_title sub; tk_status := "created";
     tk_idempotency_key := "plan:" +:+ plan_id +:+ ":" +:+ sub_key sub;
     tk_acceptance_criteria := sub_acceptance_criteria sub; tk_created_at := now |}.

(** The Task, node and membership rows of one subtask. *)
Definition add_subtask (plan_id : string) (now : datetime) (d : Db) (sub : SubtaskSpec) : result Db :=
  let task_id := task_id_for plan_id (sub_key sub) in
  _ ← raise_if (bool_decide (is_Some (d_tasks d !! task_id)) || bool_decide (is_Some (d_plan_tasks d !! task_id)))
        (IntegrityError "tasks.id");
  d ← add_node (mk_node task_id "task" (sub_title sub) "plans" "sdf" now None) d;
  Ok (d {{ d_tasks ::= insert task_id (task_row plan_id now sub);
           d_plan_tasks ::= insert task_id {| pt_task_id := task_id; pt_plan_id := plan_id; pt_subtask_key := sub_key sub |} }}).

(** The [depends_on] edges of the Tasks and the [implements] edge to the
    objective; the clock is read once per edge. *)
Definition plan_edges (clock : nat -> datetime) (plan_id : string) (spec : PlanSpec) (d : Db) : Db :=
  let n := length (ps_subtasks spec) in
  let d := foldl (fun d (x : nat * SubtaskSpec) =>
             add_edge ("task", task_id_for plan_id (sub_key x.2)) ("plan", plan_id) "depends_on" "plans" (clock (S x.1)) d)
             d (zip (seq 0 n) (ps_subtasks spec)) in
  if opt_truthy (ps_objective_id spec)
  then add_edge ("plan", plan_id) ("objective", or_empty (ps_objective_id spec)) "implements" "plans" (clock (S n)) d
  else d.

Definition propose_plan (h : Host) (clock : nat -> datetime) (uuid : nat -> string) (s : Session) (spec : PlanSpec)
    : result (Session * PlanRow) :=
  _ ← raise_if (negb (is_actor (ps_proposed_by spec))) (ValueError "a plan needs a proposer (proposed_by)");
  let plan_id := if opt_truthy (ps_id spec) then or_empty (ps_id spec) else "PLAN-" +:+ short (uuid 0%nat) in
  _ ← raise_if (bool_decide (is_Some (pget d_plans plan_id s)) || bool_decide (is_Some (pget d_graph_nodes plan_id s)))
        (ValueError ("plan already exists: " +:+ plan_id));
  _ ← (if opt_truthy (ps_objective_id spec) then
         match pget d_graph_nodes (or_empty (ps_objective_id spec)) s with
         | Some objective => raise_if (negb (str_eq (gn_kind objective) "objective")) (LookupError "objective not found")
         | None => Err (LookupError "objective not found")
         end
       else Ok ());
  _ ← each (ps_subtasks spec) (fun sub =>
        let task_id := task_id_for plan_id (sub_key sub) in
        raise_if (taken s task_id) (ValueError ("task already exists: " +:+ task_id)));
  let now := clock 0%nat in
  let request_id := "DREQ-" +:+ short (uuid 1%nat) in
  folded ← casefold (h_unidata_version h) (ps_proposed_by spec);
  let plan := plan_row plan_id request_id folded spec now in
  let d := current s in
  _ ← raise_if (bool_decide (is_Some (d_decision_requests d !! request_id))) (IntegrityError "decision_requests.id");
  let d := d {{ d_plans ::= insert plan_id plan;
                d_decision_requests ::= insert request_id (plan_request plan_id request_id spec now) }} in
  d ← add_node (mk_node plan_id "plan" (ps_title spec) "plans" (ps_proposed_by spec) now
        (Some (JObj [("content_sha256", JStr (pl_content_sha256 plan)); ("status", JStr "proposed")]))) d;
  d ← result_fold (add_subtask plan_id now) d (ps_subtasks spec);
  s ← change_and_flush h s d;
  s ← change_and_flush h s (plan_edges clock plan_id spec (current s));
  Ok (s, plan).

(** ** Deciding *)

(** [_decision_node]: bind the node on the request of that primary key, add it,
    flush. *)
Definition decision_node (h : Host) (now : datetime) (hex : string) (key : string) (request : DecisionRequestRow)
    (title : string) (meta : json) (s : Session) : result (Session * string) :=
  let node_id := "DECISION-" +:+ short hex in
  let d := (current s) {{ d_decision_requests ::= insert key (request {{ dr_decision_node_id := Some node_id }}) }} in
  d ← add_node (mk_node node_id "decision" (str_take 500 title) ("decision_request:" +:+ dr_id request)
        (if opt_truthy (dr_resolved_by request) then or_empty (dr_resolved_by request) else "sdf") now (Some meta)) d;
  s ← change_and_flush h s d;
  Ok (s, node_id).

(** [text[:limit] or None] *)
Definition clipped (limit : nat) (text : string) : option string :=
  let t := str_take limit text in if str_truthy t then Some t else None.

(** [principal or {"name": actor, "method": method}] *)
Definition principal_or (principal : option json) (actor method : string) : json :=
  json_or (default JNull principal) (JObj [("name", JStr actor); ("method", JStr method)]).

Definition resolved (request : DecisionRequestRow) (status kind actor resolution : string) (now : datetime) : DecisionRequestRow :=
  request {{ dr_status := status; dr_resolver_kind := Some kind; dr_resolved_by := Some actor;
             dr_resolution := clipped 4000 resolution; dr_resolved_at := Some now }}.

Definition plan_decision_meta (plan_id : string) (plan : PlanRow) (request : DecisionRequestRow) (outcome rationale actor : string)
    (principal : option json) (self_approval : bool) : json :=
  JObj [("decision_request_id", JStr (dr_id request)); ("plan_id", JStr plan_id);
        ("content_sha256", JStr (pl_content_sha256 plan)); ("outcome", JStr outcome);
        ("rationale", JStr (str_take 2000 rationale)); ("proposed_by", JStr (pl_proposed_by plan));
        ("decided_by", JStr actor); ("principal", principal_or principal actor "in_process");
        ("self_approval", JBool self_approval)].

(** The checks of [decide_plan] that come before any change. *)
Definition may_decide (h : Host) (s : Session) (plan_id : string) (approve : bool) (decided_by : string)
    (expected_sha256 : option string) (allow_self_approval : bool) : result (string * PlanRow * DecisionRequestRow * bool) :=
  actor ← validate_human decided_by;
  plan ← require_some (pget d_plans plan_id s) (LookupError "plan not found");
  _ ← raise_if (negb (str_eq (pl_status plan) "proposed"))
        (PlanGateError ("plan " +:+ plan_id +:+ " is already " +:+ pl_status plan));
  folded_actor ← casefold (h_unidata_version h) actor;
  folded_proposer ← casefold (h_unidata_version h) (pl_proposed_by plan);
  let self_decision := str_eq folded_actor folded_proposer in
  _ ← raise_if (approve && self_decision && negb allow_self_approval)
        (SeparationOfDutiesError ("separation of duties: " +:+ actor +:+ " proposed plan " +:+ plan_id +:+
           " and cannot approve it (another approver must, or enable SDF_AUTH_SINGLE_USER for a solo deployment)"));
  _ ← raise_if (match expected_sha256 with Some e => negb (str_eq e (pl_content_sha256 plan)) | None => false end)
        (PlanGateError "plan content changed since it was reviewed (content_sha256 mismatch)");
  _ ← raise_if (negb (str_eq (content_hash (pl_content plan)) (pl_content_sha256 plan)))
        (PlanGateError "plan content does not match its recorded hash");
  request ← require_some (pget d_decision_requests (pl_decision_request_id plan) s)
              (PlanGateError "plan approval request is not pending");
  _ ← raise_if (negb (str_eq (dr_status request) "pending")) (PlanGateError "plan approval request is not pending");
  Ok (actor, plan, request, self_decision).

Definition decide_plan (h : Host) (clock : nat -> datetime) (uuid : nat -> string) (s : Session) (plan_id : string)
    (approve : bool) (decided_by rationale : string) (expected_sha256 : option string) (allow_self_approval : bool)
    (principal : option json) : result Session :=
  '(actor, plan, request, self_decision) ← may_decide h s plan_id approve decided_by expected_sha256 allow_self_approval;
  let now := clock 0%nat in
  let status := if approve then "approved" else "rejected" in
  let request := resolved request status "human" actor rationale now in
  '(s, node_id) ← decision_node h (clock 1%nat) (uuid 0%nat) (pl_decision_request_id plan) request
      ((if approve then "Approve" else "Reject") +:+ " plan " +:+ plan_id)
      (plan_decision_meta plan_id plan request status rationale actor principal (approve && self_decision)) s;
  let d := add_edge ("decision", node_id) ("plan", plan_id) (if approve then "constrains" else "contradicts") "plans"
             (clock 2%nat) (current s) in
  change_and_flush h s (d {{ d_plans ::= alter (fun p => p {{ pl_status := status; pl_decided_at := Some now }}) plan_id }}).

(** ** Requests of agents *)

Definition agent_request (now : datetime) (hex run_id requested_by question : string) (options : list string) (message_id : string) : DecisionRequestRow :=
  {| dr_id := "DREQ-" +:+ short hex; dr_subject_kind := "agent_request"; dr_subject_id := message_id;
     dr_run_id := Some run_id; dr_question := question; dr_options := options; dr_status := "pending";
     dr_requested_by := requested_by; dr_message_id := Some message_id; dr_resolved_by := None; dr_resolver_kind := None;
     dr_resolution := None; dr_decision_node_id := None; dr_created_at := now; dr_resolved_at := None |}.

Definition add_request (request : DecisionRequestRow) (d : Db) : result Db :=
  _ ← raise_if (bool_decide (is_Some (d_decision_requests d !! dr_id request))) (IntegrityError "decision_requests.id");
  Ok (d {{ d_decision_requests ::= insert (dr_id request) request }}).

Definition open_agent_request (h : Host) (now : datetime) (hex : string) (s : Session)
    (run_id requested_by question : string) (options : list string) (message_id : string) : result (Session * DecisionRequestRow) :=
  let request := agent_request now hex run_id requested_by question options message_id in
  d ← add_request request (current s);
  s ← change_and_flush h s d;
  Ok (s, request).

Record PolicyDecision : Type := { pd_outcome : string; pd_resolution : string; pd_policy_name : string }.

(** [DecisionPolicy]: what a policy answers to a request. *)
Class DecisionPolicy (P : Type) : Type := decide_request : P -> DecisionRequestRow -> option PolicyDecision.

Inductive NoAutoResolvePolicy : Type := no_auto_resolve.
#[export] Instance no_auto_resolve_policy : DecisionPolicy NoAutoResolvePolicy := fun _ _ => None.

(** A rule's regular expression is the predicate it decides. *)
Record RuleDecisionPolicy : Type := { rp_rules : list ((string -> bool) * string * string); rp_name : string }.

Definition new_rule_policy (rules : list ((string -> bool) * string * string)) (name : string) : result RuleDecisionPolicy :=
  _ ← raise_if (existsb (fun r : (string -> bool) * string * string => str_eq r.1.2 "approved") rules)
        (ValueError "a decision policy cannot approve; only a human can");
  Ok {| rp_rules := rules; rp_name := name |}.

#[export] Instance rule_policy : DecisionPolicy RuleDecisionPolicy := fun p request =>
  match List.find (fun r : (string -> bool) * string * string => r.1.1 (dr_question request)) (rp_rules p) with
  | Some (_, outcome, resolution) => Some {| pd_outcome := outcome; pd_resolution := resolution; pd_policy_name := rp_name p |}
  | None => None
  end.

(** Who resolves: the stored name of the resolver. *)
Definition resolver (d : Db) (request : DecisionRequestRow) (outcome resolved_by resolver_kind : string) : result string :=
  if str_eq resolver_kind "human" then validate_human resolved_by
  else if str_eq resolver_kind "policy" then
    _ ← raise_if (str_eq outcome "approved") (PlanGateError "a policy cannot approve a decision request; only a human can");
    _ ← raise_if (is_material d request)
          (PlanGateError "a material decision request is resolved only by a human (ADR 0033)");
    Ok ("policy:" +:+ resolved_by)
  else Err (ValueError "resolver_kind must be human or policy").

Definition request_decision_meta (request : DecisionRequestRow) (outcome resolver_kind actor : string) (principal : option json) : json :=
  JObj [("decision_request_id", JStr (dr_id request)); ("run_id", json_str (dr_run_id request));
        ("requested_by", JStr (dr_requested_by request)); ("outcome", JStr outcome); ("resolver_kind", JStr resolver_kind);
        ("resolved_by", JStr actor);
        ("principal", principal_or principal actor (if str_eq resolver_kind "human" then "in_process" else "policy"))].

Definition resolve_request (h : Host) (clock : nat -> datetime) (uuid : nat -> string) (s : Session)
    (request_id outcome resolved_by resolver_kind resolution : string) (allow_self_approval : bool) (principal : option json)
    : result Session :=
  request ← require_some (pget d_decision_requests request_id s) (LookupError "decision request not found");
  if str_eq (dr_subject_kind request) "plan" then
    _ ← raise_if (negb (str_eq resolver_kind "human") || str_eq outcome "answered")
          (PlanGateError "only a human approves or rejects a plan");
    decide_plan h clock uuid s (dr_subject_id request) (str_eq outcome "approved") resolved_by resolution None
      allow_self_approval principal
  else
    _ ← raise_if (negb (str_eq (dr_status request) "pending")) (PlanGateError "decision request is already resolved");
    _ ← raise_if (negb (str_in outcome ["approved"; "rejected"; "answered"]))
          (ValueError "outcome must be approved, rejected or answered");
    actor ← resolver (current s) request outcome resolved_by resolver_kind;
    _ ← raise_if (str_eq outcome "answered" && negb (str_truthy (str_strip resolution)))
          (ValueError "an answer needs a resolution text");
    let request := resolved request outcome resolver_kind actor resolution (clock 0%nat) in
    '(s, _) ← decision_node h (clock 1%nat) (uuid 0%nat) request_id request
        (outcome +:+ ": " +:+ str_take 400 (dr_question request))
        (request_decision_meta request outcome resolver_kind actor principal) s;
    change_and_flush h s (current s).

(** ** Payloads *)

Definition decision_request_payload (request : DecisionRequestRow) : json :=
  JObj [("id", JStr (dr_id request)); ("subject_kind", JStr (dr_subject_kind request)); ("subject_id", JStr (dr_subject_id request));
        ("run_id", json_str (dr_run_id request)); ("question", JStr (dr_question request)); ("options", json_strs (dr_options request));
        ("status", JStr (dr_status request)); ("requested_by", JStr (dr_requested_by request));
        ("resolved_by", json_str (dr_resolved_by request)); ("resolver_kind", json_str (dr_resolver_kind request));
        ("resolution", json_str (dr_resolution request)); ("decision_node_id", json_str (dr_decision_node_id request));
        ("created_at", JStr (isoformat (dr_created_at request)));
        ("resolved_at", json_str (isoformat <$> dr_resolved_at request))].

Definition plan_payload (plan : PlanRow) (d : Db) : json :=
  JObj [("id", JStr (pl_id plan)); ("title", JStr (pl_title plan)); ("status", JStr (pl_status plan));
        ("objective_id", json_str (pl_objective_id plan)); ("content_sha256", JStr (pl_content_sha256 plan));
        ("proposed_by", JStr (pl_proposed_by plan));
        ("decision_request", match d_decision_requests d !! pl_decision_request_id plan with
                             | Some r => decision_request_payload r | None => JNull end);
        ("tasks", JArr (map (fun t => JObj [("task_id", JStr (pt_task_id t)); ("subtask_key", JStr (pt_subtask_key t));
                                             ("status", json_str (tk_status <$> d_tasks d !! pt_task_id t))])
                    (select_rows (fun t => str_eq (pt_plan_id t) (pl_id plan)) (d_plan_tasks d))));
        ("subtasks", match pl_content plan with JObj kvs => default (JArr []) (kv_find "subtasks" kvs) | _ => JArr [] end)].

(** ** Lemmas *)

Lemma add_node_Ok n d d' : add_node n d = Ok d' ->
  d_graph_nodes d !! gn_id n = None /\ d' = d {{ d_graph_nodes ::= insert (gn_id n) n }}.
Proof. unfold add_node. intros H. crush_hyps. boolify. split; [by apply eq_None_not_Some|done]. Qed.

Lemma pget_clean {K R} `{Countable K} (t : Db -> gmap K R) k s : stored s = current s -> pget t k s = t (stored s) !! k.
Proof. unfold pget. intros <-. by destruct (t (stored s) !! k). Qed.

Ltac pgets Hs := repeat match goal with H : context [pget _ _ _] |- _ => rewrite (pget_clean _ _ _ Hs) in H end.

Lemma casefold_Ok v x f : casefold v x = Ok f -> f = py_casefold x.
Proof. unfold casefold. intros H. crush_hyps. done. Qed.

(** Work that neither decides nor records it: the tables a decision leaves alone. *)
Definition work_untouched (a b : Db) : Prop :=
  d_tasks a = d_tasks b /\ d_plan_tasks a = d_plan_tasks b /\ d_attempts a = d_attempts b /\ d_evidence a = d_evidence b /\
  d_agent_messages a = d_agent_messages b /\ d_agent_runs a = d_agent_runs b.

(** A flush that inserts no plan, Attempt or Evidence writes what the session says. *)
Lemma flush_quiet h s s' : flush h s = Ok s' -> d_attempts (current s) = d_attempts (stored s) ->
  d_evidence (current s) = d_evidence (stored s) -> none_new d_plans s ->
  stored s' = current s' /\ work_untouched (stored s') (current s) /\ d_plans (stored s') = d_plans (current s) /\
  d_decision_requests (stored s') = d_decision_requests (current s) /\
  d_graph_nodes (stored s') = d_graph_nodes (current s) /\ d_decision_edges (stored s') = d_decision_edges (current s).
Proof.
  intros Hf Ha He Hp. pose proof (flush_same _ _ _ Hf) as [T ?]. unfold same_tables in T. destruct_and! T.
  assert (none_new d_attempts s) as Hna by (intros k; by rewrite Ha).
  assert (none_new d_evidence s) as Hne by (intros k; by rewrite He).
  unfold work_untouched. split_and!; try done;
    [by apply (flush_attempts h)|by apply (flush_evidence h)|by apply (flush_plans h)].
Qed.

Definition decided_node (node_id : string) (now : datetime) (request : DecisionRequestRow) (title : string) (meta : json) : GraphNodeRow :=
  mk_node node_id "decision" (str_take 500 title) ("decision_request:" +:+ dr_id request)
    (if opt_truthy (dr_resolved_by request) then or_empty (dr_resolved_by request) else "sdf") now (Some meta).

Lemma decision_node_Ok h now hex key request title meta s s' node_id : stored s = current s ->
  decision_node h now hex key request title meta s = Ok (s', node_id) ->
  stored s' = current s' /\ work_untouched (stored s') (stored s) /\ d_plans (stored s') = d_plans (stored s) /\
  node_id = "DECISION-" +:+ short hex /\ d_graph_nodes (stored s) !! node_id = None /\
  d_decision_requests (stored s') = <[key := request {{ dr_decision_node_id := Some node_id }}]> (d_decision_requests (stored s)) /\
  d_graph_nodes (stored s') = <[node_id := decided_node node_id now request title meta]> (d_graph_nodes (stored s)) /\
  d_decision_edges (stored s') = d_decision_edges (stored s).
Proof.
  unfold decision_node, change_and_flush. intros Hs H. rewrite <- Hs in H.
  apply bind_Ok in H as (d & (Hfresh & ->)%add_node_Ok & H). apply bind_Ok in H as (s1 & Hf & [= -> <-]).
  apply flush_quiet in Hf as (? & Hw & Hp & Hr & Hn & He); [|done|done|by intros k].
  split_and!; [done|exact Hw|exact Hp|done|exact Hfresh|exact Hr|exact Hn|exact He].
Qed.

(** ** Deciding a plan *)

Lemma may_decide_Ok h s plan_id approve decided_by expected allow actor plan request self : stored s = current s ->
  may_decide h s plan_id approve decided_by expected allow = Ok (actor, plan, request, self) ->
  validate_human decided_by = Ok actor /\ d_plans (stored s) !! plan_id = Some plan /\ pl_status plan = "proposed" /\
  content_hash (pl_content plan) = pl_content_sha256 plan /\ (forall e, expected = Some e -> e = pl_content_sha256 plan) /\
  d_decision_requests (stored s) !! pl_decision_request_id plan = Some request /\ dr_status request = "pending" /\
  self = str_eq (py_casefold actor) (py_casefold (pl_proposed_by plan)) /\
  (approve = true -> allow = false -> py_casefold actor <> py_casefold (pl_proposed_by plan)).
Proof.
  unfold may_decide. intros Hs H.
  repeat (apply bind_Ok in H as (? & ? & H)). crush_hyps. pgets Hs.
  repeat match goal with H : casefold _ _ = Ok _ |- _ => apply casefold_Ok in H; subst end.
  unfold str_eq in *. boolify. split_and!; try done.
  - intros e ->. by boolify.
  - intros -> -> E. rewrite bool_decide_eq_true_2 in * by done. done.
Qed.

(** What a decision leaves: the request resolved by that human, a Decision node
    owned by him and an edge from it to the plan, the plan's new status; work
    tables and every other row are as they were. *)
Definition plan_decided (before after : Db) (plan_id : string) (plan : PlanRow) (request : DecisionRequestRow)
    (approve : bool) (actor node_id : string) : Prop :=
  let status := if approve then "approved" else "rejected" in
  (exists now, d_plans after = <[plan_id := plan {{ pl_status := status; pl_decided_at := Some now }}]> (d_plans before)) /\
  (exists r, d_decision_requests after = <[pl_decision_request_id plan := r]> (d_decision_requests before) /\
     same_question request r /\ dr_status r = status /\ dr_resolver_kind r = Some "human" /\ dr_resolved_by r = Some actor /\
     dr_decision_node_id r = Some node_id) /\
  (exists n, d_graph_nodes after = <[node_id := n]> (d_graph_nodes before) /\ d_graph_nodes before !! node_id = None /\
     gn_kind n = "decision" /\ gn_owner n = actor) /\
  (exists e, d_decision_edges after = <[next_id (d_decision_edges before) := e]> (d_decision_edges before) /\
     (de_source_kind e, de_source_id e) = ("decision", node_id) /\ (de_target_kind e, de_target_id e) = ("plan", plan_id) /\
     de_relation e = if approve then "constrains" else "contradicts") /\
  work_untouched after before.

Lemma work_untouched_trans a b c : work_untouched a b -> work_untouched b c -> work_untouched a c.
Proof. unfold work_untouched. intuition congruence. Qed.

Lemma validate_human_Ok d actor : validate_human d = Ok actor -> is_actor actor = true /\ is_reserved actor = false.
Proof. unfold validate_human. destruct (_ || _) eqn:E; [done|]. intros [= <-]. by boolify. Qed.

Lemma actor_truthy a : is_actor a = true -> opt_truthy (Some a) = true.
Proof. by destruct a. Qed.

(** The second flush of a decision: the edge and the plan's status. *)
Lemma plan_move_Ok h s s' src dst relation now plan_id f :
  flush h {| stored := stored s;
             current := (add_edge src dst relation "plans" now (stored s)) {{ d_plans ::= alter f plan_id }} |} = Ok s' ->
  d_plans (stored s') = alter f plan_id (d_plans (stored s)) /\
  d_decision_requests (stored s') = d_decision_requests (stored s) /\
  d_graph_nodes (stored s') = d_graph_nodes (stored s) /\
  d_decision_edges (stored s') = <[next_id (d_decision_edges (stored s)) :=
     mk_edge (next_id (d_decision_edges (stored s))) src dst relation "plans" now]> (d_decision_edges (stored s)) /\
  work_untouched (stored s') (stored s).
Proof.
  intros Hf. apply flush_quiet in Hf as (_ & Hw & Hp & Hr & Hn & He); [|done|done|].
  2: { intros k Hk. change (is_Some (alter f plan_id (d_plans (stored s)) !! k)) in Hk. cbn [stored].
       by rewrite lookup_alter_is_Some in Hk. }
  split_and!; [exact Hp|exact Hr|exact Hn|exact He|exact Hw].
Qed.

Lemma alter_known {A} (f : A -> A) k (m : gmap string A) x : m !! k = Some x -> alter f k m = <[k := f x]> m.
Proof. intros H. apply map_eq. intros j. destruct (decide (j = k)) as [->|]; [by rewrite lookup_alter_eq, lookup_insert_eq, H|].
  by rewrite lookup_alter_ne, lookup_insert_ne. Qed.

(** A plan decision goes through only for a named human, on a plan still
    proposed whose content matches its recorded hash and the hash the reviewer
    saw, while its approval request is pending; approving one's own plan
    (up to case folding) needs the single-user switch.  It then resolves the
    request and the plan together, records the Decision, and touches no work. *)
Theorem decide_plan_spec h clock uuid s s' plan_id approve decided_by rationale expected allow principal :
  stored s = current s ->
  decide_plan h clock uuid s plan_id approve decided_by rationale expected allow principal = Ok s' ->
  exists actor plan request,
    (str_strip decided_by = actor /\ is_actor actor = true /\ is_reserved actor = false) /\
    (d_plans (stored s) !! plan_id = Some plan /\ pl_status plan = "proposed") /\
    (content_hash (pl_content plan) = pl_content_sha256 plan /\ forall e, expected = Some e -> e = pl_content_sha256 plan) /\
    (d_decision_requests (stored s) !! pl_decision_request_id plan = Some request /\ dr_status request = "pending") /\
    (approve = true -> allow = false -> py_casefold actor <> py_casefold (pl_proposed_by plan)) /\
    plan_decided (stored s) (stored s') plan_id plan request approve actor ("DECISION-" +:+ short (uuid 0%nat)).
Proof.
  unfold decide_plan. intros Hs H. apply bind_Ok in H as ([[[actor plan] request] self] & Hmay & H).
  apply may_decide_Ok in Hmay as (Hact & Hp & Hst & Hh & He & Hr & Hrs & _ & Hself); [|done].
  apply bind_Ok in H as ([s1 node_id] & Hnode & Hf).
  apply decision_node_Ok in Hnode as (Hs1 & Hw & Hpl & -> & Hfresh & Hreq & Hn & Hed); [|done].
  unfold change_and_flush in Hf. rewrite <- Hs1 in Hf.
  apply plan_move_Ok in Hf as (Hpl2 & Hreq2 & Hn2 & Hed2 & Hw2).
  pose proof (validate_human_Ok _ _ Hact) as [Ha1 Ha2]. exists actor, plan, request. split_and!; try done.
  { unfold validate_human in Hact. destruct (_ || _) in Hact; [done|]. by injection Hact. }
  unfold plan_decided. rewrite Hpl2, Hpl, Hreq2, Hn2, Hed2, Hed, (alter_known _ _ _ _ Hp). split_and!.
  - by exists (clock 0%nat).
  - eexists. split; [exact Hreq|]. unfold same_question. by destruct approve.
  - eexists. split; [exact Hn|]. split_and!; [done|done|]. by destruct actor.
  - eexists. split_and!; reflexivity.
  - by eapply work_untouched_trans.
Qed.

(** ** Proposing a plan *)

(** A later flush starts an Attempt on a Task of a proposed plan only together
    with a human's approval of that plan. *)
Lemma proposed_gate h s s' a k p link : flush h s = Ok s' -> a ∈ new_rows d_attempts s ->
  d_plan_tasks (stored s) !! at_task_id a = Some link -> pt_plan_id link = k ->
  d_plans (stored s) !! k = Some p -> pl_status p = "proposed" ->
  exists r, d_decision_requests (stored s') !! pl_decision_request_id p = Some r /\ dr_subject_id r = pl_id p /\
    dr_status r = "approved" /\ dr_resolver_kind r = Some "human".
Proof.
  intros Hf Ha Hlink <- Hp Hst. pose proof Hf as (G & _ & _ & _ & T & _)%flush_Ok.
  unfold same_tables in T. destruct_and! T. destruct (guarded_plans _ G) as (_ & _ & Hsub & _).
  assert (d_plan_tasks (stored s') !! at_task_id a = Some link) as Hlink'.
  { match goal with E : d_plan_tasks _ = d_plan_tasks _ |- _ => rewrite E end. by eapply map_subseteq_spec in Hsub. }
  destruct (flush_new_attempt_gate _ _ _ _ _ Hf Ha Hlink') as (b & Hb & Happ).
  destruct (flush_stored_plan _ _ _ _ _ Hf Hp) as (b' & Hb' & _ & Hsame & Hstep).
  rewrite Hb in Hb'. injection Hb' as <-. unfold same_plan in Hsame. destruct_and! Hsame.
  destruct Hstep as [?|[[_ ?]|(_ & _ & r & Hr)]]; [congruence|congruence|]. exists r.
  repeat match goal with E : _ p = _ b |- _ => rewrite E end. done.
Qed.

Lemma add_subtask_Ok plan_id now d sub d' : add_subtask plan_id now d sub = Ok d' ->
  d_tasks d !! task_id_for plan_id (sub_key sub) = None /\ d_plan_tasks d !! task_id_for plan_id (sub_key sub) = None /\
  d_tasks d' = <[task_id_for plan_id (sub_key sub) := task_row plan_id now sub]> (d_tasks d) /\
  d_plan_tasks d' = <[task_id_for plan_id (sub_key sub) := {| pt_task_id := task_id_for plan_id (sub_key sub);
     pt_plan_id := plan_id; pt_subtask_key := sub_key sub |}]> (d_plan_tasks d) /\
  d_plans d' = d_plans d /\ d_decision_requests d' = d_decision_requests d /\ d_attempts d' = d_attempts d /\
  d_evidence d' = d_evidence d.
Proof.
  unfold add_subtask. intros H. crush_hyps. boolify.
  match goal with H : add_node _ _ = Ok _ |- _ => apply add_node_Ok in H as (_ & ->) end.
  split_and!; try done; by apply eq_None_not_Some.
Qed.

(** The rows of the subtasks that have been added. *)
Definition subtasks_stored (plan_id : string) (now : datetime) (subs : list SubtaskSpec) (d : Db) : Prop :=
  forall sub, sub ∈ subs -> let task_id := task_id_for plan_id (sub_key sub) in
    d_tasks d !! task_id = Some (task_row plan_id now sub) /\
    d_plan_tasks d !! task_id = Some {| pt_task_id := task_id; pt_plan_id := plan_id; pt_subtask_key := sub_key sub |}.

Lemma add_subtasks_Ok plan_id now subs d d' : result_fold (add_subtask plan_id now) d subs = Ok d' ->
  subtasks_stored plan_id now subs d' /\ d_tasks d ⊆ d_tasks d' /\ d_plan_tasks d ⊆ d_plan_tasks d' /\
  (forall sub, sub ∈ subs -> d_tasks d !! task_id_for plan_id (sub_key sub) = None) /\
  d_plans d' = d_plans d /\ d_decision_requests d' = d_decision_requests d /\ d_attempts d' = d_attempts d /\
  d_evidence d' = d_evidence d.
Proof.
  revert d. induction subs as [|sub subs IH]; cbn [result_fold]; intros d H.
  { injection H as <-. split_and!; try done; intros ? ?%not_elem_of_nil; done. }
  apply bind_Ok in H as (d1 & (Hn1 & Hn2 & Ht & Hl & Hp & Hr & Ha & He)%add_subtask_Ok & H).
  apply IH in H as (Hs & Hst & Hsl & Hf & Hp' & Hr' & Ha' & He').
  rewrite Ht in Hst, Hf. rewrite Hl in Hsl.
  split_and!; try congruence.
  - intros x [->|Hx]%elem_of_cons; [|by apply Hs]. split.
    + eapply map_subseteq_spec in Hst; [exact Hst|apply lookup_insert_eq].
    + eapply map_subseteq_spec in Hsl; [exact Hsl|apply lookup_insert_eq].
  - etrans; [by apply insert_subseteq|exact Hst].
  - etrans; [by apply insert_subseteq|exact Hsl].
  - intros x [->|Hx]%elem_of_cons; [done|]. specialize (Hf x Hx).
    apply lookup_insert_None in Hf. by destruct Hf.
Qed.

(** Edges leave the other tables alone. *)
Definition edges_only (a b : Db) : Prop :=
  work_untouched a b /\ d_plans a = d_plans b /\ d_decision_requests a = d_decision_requests b.

Lemma edges_only_trans a b c : edges_only a b -> edges_only b c -> edges_only a c.
Proof. intros (? & ? & ?) (? & ? & ?). split; [by eapply work_untouched_trans|]. split; congruence. Qed.

Lemma add_edge_only src dst rel source now d : edges_only (add_edge src dst rel source now d) d.
Proof. done. Qed.

Lemma foldl_edges {A} (f : Db -> A -> Db) l d : (forall d x, edges_only (f d x) d) -> edges_only (foldl f d l) d.
Proof.
  intros Hf. revert d. induction l as [|x l IH]; intros d; [done|]. simpl. by eapply edges_only_trans.
Qed.

Lemma plan_edges_only clock plan_id spec d : edges_only (plan_edges clock plan_id spec d) d.
Proof.
  unfold plan_edges. destruct (opt_truthy _).
  - eapply edges_only_trans; [apply add_edge_only|]. by apply foldl_edges.
  - by apply foldl_edges.
Qed.

(** The first flush of a proposal stores the plan, its request and its Tasks. *)
Lemma plan_flush_Ok h s s' d plan : flush h {| stored := stored s; current := d |} = Ok s' ->
  d_plans d = <[pl_id plan := plan]> (d_plans (stored s)) -> d_plans (stored s) !! pl_id plan = None ->
  casefold (h_unidata_version h) (pl_proposed_by plan) = Ok (or_empty (pl_proposed_by_casefold plan)) ->
  is_Some (pl_proposed_by_casefold plan) ->
  d_attempts d = d_attempts (stored s) -> d_evidence d = d_evidence (stored s) ->
  stored s' = current s' /\ d_plans (stored s') = <[pl_id plan := plan]> (d_plans (stored s)) /\
  d_decision_requests (stored s') = d_decision_requests d /\ d_tasks (stored s') = d_tasks d /\
  d_plan_tasks (stored s') = d_plan_tasks d /\ d_attempts (stored s') = d_attempts (stored s).
Proof.
  intros Hf Hd Hfresh Hc [folded Hfold] Ha He. pose proof (flush_same _ _ _ Hf) as [T ?]. unfold same_tables in T. destruct_and! T.
  pose proof Hf as (_ & _ & _ & _ & _ & _ & Hon & _)%flush_Ok. cbn [stored current] in *. rewrite Hd in Hon.
  split_and!; try done.
  - apply on_new_spec in Hon as (Hold & Hnone & Hnew). apply map_eq. intros k.
    destruct (decide (k = pl_id plan)) as [->|Hk].
    + destruct (Hnew (pl_id plan) plan) as (r & Hr & ->); [done|apply lookup_insert_eq|].
      unfold stamp_plan_casefold in Hr. rewrite Hc in Hr. injection Hr as <-. rewrite lookup_insert_eq, Hfold.
      destruct plan; simpl in *. by subst.
    + rewrite lookup_insert_ne by done. destruct (d_plans (stored s) !! k) eqn:E.
      * rewrite Hold by (by rewrite E). by rewrite lookup_insert_ne.
      * apply Hnone. by rewrite lookup_insert_ne.
  - rewrite <- Ha. apply (flush_attempts h _ _ Hf). intros k. cbn [stored current]. by rewrite Ha.
Qed.

(** Proposing a plan stores it as proposed, with its content and that
    content's hash, a pending approval request, and for every subtask a new
    Task in state created that belongs to the plan; no Attempt starts.  From
    then on a flush that starts an Attempt on one of those Tasks stores a
    decision request about the plan that a human has approved. *)
Theorem propose_plan_gates h clock uuid s s' spec plan :
  stored s = current s -> propose_plan h clock uuid s spec = Ok (s', plan) ->
  (d_plans (stored s) !! pl_id plan = None /\ d_plans (stored s') = <[pl_id plan := plan]> (d_plans (stored s)) /\
   pl_status plan = "proposed" /\ pl_content plan = model_dump spec /\ pl_content_sha256 plan = content_hash (pl_content plan)) /\
  (exists r, d_decision_requests (stored s') = <[pl_decision_request_id plan := r]> (d_decision_requests (stored s)) /\
     dr_status r = "pending" /\ dr_subject_kind r = "plan" /\ dr_subject_id r = pl_id plan) /\
  (exists now, subtasks_stored (pl_id plan) now (ps_subtasks spec) (stored s')) /\
  d_attempts (stored s') = d_attempts (stored s) /\
  (forall h2 s2 s3 a sub, stored s2 = stored s' -> flush h2 s2 = Ok s3 -> sub ∈ ps_subtasks spec ->
     a ∈ new_rows d_attempts s2 -> at_task_id a = task_id_for (pl_id plan) (sub_key sub) ->
     exists r, d_decision_requests (stored s3) !! pl_decision_request_id plan = Some r /\ dr_subject_id r = pl_id plan /\
       dr_status r = "approved" /\ dr_resolver_kind r = Some "human").
Proof.
  unfold propose_plan. intros Hs H. rewrite <- Hs in H.
  set (plan_id := if opt_truthy (ps_id spec) then _ else _) in H.
  repeat (apply bind_Ok in H as (? & ? & H)). injection H as -> <-. crush_hyps. boolify. pgets Hs.
  match goal with H : add_node _ _ = Ok _ |- _ => apply add_node_Ok in H as (_ & ->) end.
  match goal with H : casefold _ _ = Ok ?f |- _ => rename H into Hcase, f into folded end.
  match goal with H : result_fold _ _ _ = Ok _ |- _ => apply add_subtasks_Ok in H as (Hsub & _ & _ & _ & Hp & Hr & Ha & He) end.
  match goal with H : change_and_flush _ s _ = Ok ?x |- _ => rename H into Hf1, x into s1 end.
  match goal with H : change_and_flush _ s1 _ = Ok _ |- _ => rename H into Hf2 end.
  set (request_id := "DREQ-" +:+ short (uuid 1%nat)) in *.
  set (plan := plan_row plan_id request_id folded spec (clock 0%nat)) in *.
  apply (plan_flush_Ok h s s1 _ plan) in Hf1 as (Hs1 & Hp1 & Hr1 & Ht1 & Hl1 & Ha1);
    [|exact Hp|by apply eq_None_not_Some|exact Hcase|done|exact Ha|exact He].
  destruct (plan_edges_only clock plan_id spec (current s1)) as ((Et & El & Ea & Ee & _ & _) & Ep & Er).
  unfold change_and_flush in Hf2. apply flush_quiet in Hf2 as (_ & (Ht2 & Hl2 & Ha2 & _) & Hp2 & Hr2 & _);
    cbn [stored current] in *; [|by rewrite Ea, Hs1|by rewrite Ee, Hs1|intros k; cbn [stored current]; by rewrite Ep, Hs1].
  assert (subtasks_stored plan_id (clock 0%nat) (ps_subtasks spec) (stored s')) as Hst.
  { intros sub Hin. rewrite Ht2, Et, <- Hs1, Ht1, Hl2, El, <- Hs1, Hl1. by apply Hsub. }
  split_and!; try done.
  - by apply eq_None_not_Some.
  - by rewrite Hp2, Ep, <- Hs1.
  - exists (plan_request plan_id request_id spec (clock 0%nat)).
    rewrite Hr2, Er, <- Hs1, Hr1, Hr. split; [reflexivity|done].
  - by exists (clock 0%nat).
  - by rewrite Ha2, Ea, <- Hs1.
  - intros h2 s2 s3 a sub Es Hf Hsubs Hnew Htask. destruct (Hst sub Hsubs) as [_ Hlink].
    eapply (proposed_gate h2 s2 s3 a plan_id plan); [exact Hf|exact Hnew|rewrite Es, Htask; exact Hlink|done| |done].
    rewrite Es, Hp2, Ep, <- Hs1, Hp1. apply lookup_insert_eq.
Qed.

(** ** Resolving the request of an agent *)

(** Who may resolve a request, and as what. *)
Definition may_resolve (d : Db) (request : DecisionRequestRow) (outcome kind resolved_by actor : string) : Prop :=
  (kind = "human" /\ actor = str_strip resolved_by /\ is_actor actor = true /\ is_reserved actor = false) \/
  (kind = "policy" /\ actor = "policy:" +:+ resolved_by /\ outcome <> "approved" /\ is_material d request = false).

Lemma resolver_Ok d request outcome resolved_by kind actor :
  resolver d request outcome resolved_by kind = Ok actor -> may_resolve d request outcome kind resolved_by actor.
Proof.
  unfold resolver, may_resolve, str_eq. intros H. destruct (bool_decide (kind = "human")) eqn:Eh; boolify.
  - left. unfold validate_human in H. destruct (_ || _) eqn:E in H; [done|]. injection H as <-. by boolify.
  - destruct (bool_decide (kind = "policy")) eqn:Ep; [|done]. boolify. right. crush_hyps. by boolify.
Qed.

(** An agent's pending request is resolved once, by a named human with
    any outcome, or by a policy that does not approve and only if the request
    is not material; an answer needs text; the resolution is stored with its
    Decision node and changes no plan and no work.  A plan's request goes to
    [decide_plan] and needs a human.  A rule policy that could be built never
    answers with an approval. *)
Theorem resolve_request_spec h clock uuid s s' request_id outcome resolved_by kind resolution allow principal :
  stored s = current s ->
  resolve_request h clock uuid s request_id outcome resolved_by kind resolution allow principal = Ok s' ->
  (exists request, d_decision_requests (stored s) !! request_id = Some request /\
    if str_eq (dr_subject_kind request) "plan" then kind = "human" /\ outcome <> "answered" /\
      decide_plan h clock uuid s (dr_subject_id request) (str_eq outcome "approved") resolved_by resolution None allow principal = Ok s'
    else dr_status request = "pending" /\ outcome ∈ ["approved"; "rejected"; "answered"] /\
      (outcome = "answered" -> str_strip resolution <> "") /\
      d_plans (stored s') = d_plans (stored s) /\ work_untouched (stored s') (stored s) /\
      exists actor r n, may_resolve (stored s) request outcome kind resolved_by actor /\
        d_decision_requests (stored s') = <[request_id := r]> (d_decision_requests (stored s)) /\ same_question request r /\
        dr_status r = outcome /\ dr_resolver_kind r = Some kind /\ dr_resolved_by r = Some actor /\
        dr_decision_node_id r = Some (gn_id n) /\ d_graph_nodes (stored s') = <[gn_id n := n]> (d_graph_nodes (stored s))) /\
  (forall rules name p r d, new_rule_policy rules name = Ok p -> decide_request p r = Some d -> pd_outcome d <> "approved").
Proof.
  unfold resolve_request. intros Hs H. split.
  2: { intros rules name p r d (u & Hr%raise_if_Ok & [= <-])%bind_Ok Hd.
       unfold decide_request, rule_policy in Hd. cbn [rp_rules rp_name] in Hd.
       destruct (List.find _ rules) as [[[f o] t]|] eqn:E; [|done]. injection Hd as <-. cbn. intros ->.
       apply List.find_some in E as [Hin _]. apply not_true_iff_false in Hr. apply Hr, existsb_exists.
       eexists. split; [exact Hin|]. cbn. by vm_compute. }
  apply bind_Ok in H as (request & Hreq%require_some_Ok & H). rewrite pget_clean in Hreq by done.
  exists request. split; [done|]. destruct (str_eq (dr_subject_kind request) "plan").
  { apply bind_Ok in H as (u & Hu%raise_if_Ok & H). boolify. unfold str_eq in *. boolify. done. }
  apply bind_Ok in H as (? & Hp%raise_if_Ok & H). apply bind_Ok in H as (? & Ho%raise_if_Ok & H).
  apply bind_Ok in H as (actor & Hact%resolver_Ok & H). apply bind_Ok in H as (? & Ha%raise_if_Ok & H).
  apply bind_Ok in H as ([s1 node_id] & Hnode & Hf). unfold str_eq, str_in in *. boolify.
  apply decision_node_Ok in Hnode as (Hs1 & Hw & Hpl & -> & Hfresh & Hr1 & Hn & _); [|done].
  unfold change_and_flush in Hf. apply flush_quiet in Hf as (_ & Hw2 & Hpl2 & Hr2 & Hn2 & _); cbn [stored current] in *;
    [|by rewrite Hs1..|intros k; cbn [stored current]; by rewrite Hs1].
  rewrite <- Hs1 in *. split_and!; try done.
  - intros -> E. rewrite bool_decide_eq_true_2, E in Ha by done. done.
  - congruence.
  - by eapply work_untouched_trans.
  - exists actor. eexists. eexists (decided_node _ _ _ _ _). split_and!; [by rewrite Hs|rewrite Hr2; exact Hr1|done|done|done|done|done|].
    rewrite Hn2. exact Hn.
Qed.

(** ** Accepted specifications *)

(** A path that stays inside the workspace. *)
Definition inside (p : string) : Prop :=
  p <> "" /\ is_absolute p = false /\ (".." ∉ path_parts p) /\ str_has_char (ascii_of_nat 92) p = false.

Lemma check_path_Ok p u : check_path p = Ok u -> inside p.
Proof. unfold check_path. intros H%raise_if_Ok. boolify. unfold inside, str_in in *. boolify. by destruct p. Qed.

(** What a subtask promises to the evaluator. *)
Definition well_specified (s : SubtaskSpec) : Prop :=
  is_key (sub_key s) = true /\ sub_acceptance_criteria s <> [] /\
  (forall c, c ∈ sub_acceptance_criteria s -> checks_for c (sub_criterion_checks s) <> []) /\
  (forall c argvs, (c, argvs) ∈ sub_criterion_checks s -> c ∈ sub_acceptance_criteria s /\ Forall safe_argv argvs) /\
  Forall inside (sub_allowed_paths s) /\ Forall inside (sub_protected_paths s) /\
  (forall p, p ∈ sub_allowed_paths s -> p ∉ sub_protected_paths s).

Lemma filter_nil_not {A} (p : A -> bool) l x : List.filter p l = [] -> x ∈ l -> p x = false.
Proof.
  intros H Hx. destruct (p x) eqn:E; [|done]. exfalso. apply (@not_elem_of_nil _ x). rewrite <- H. by apply elem_filterb.
Qed.

Lemma JStr_map_inj l k : map JStr l = map JStr k -> l = k.
Proof. revert k. induction l as [|x l IH]; intros [|y k]; simpl; [done|done|done|]. intros [= -> ?]. f_equal. auto. Qed.

Lemma coverage_Ok s u : coverage s = Ok u ->
  (forall c, c ∈ sub_acceptance_criteria s -> checks_for c (sub_criterion_checks s) <> []) /\
  (forall c argvs, (c, argvs) ∈ sub_criterion_checks s -> c ∈ sub_acceptance_criteria s /\ Forall safe_argv argvs) /\
  (forall p, p ∈ sub_allowed_paths s -> p ∉ sub_protected_paths s).
Proof.
  unfold coverage. intros H. crush_hyps. boolify. split_and!.
  - intros c Hc. match goal with H : List.filter _ (sub_acceptance_criteria s) = [] |- _ => eapply filter_nil_not in H; [|exact Hc] end.
    by boolify.
  - intros c argvs Hin. split.
    + match goal with H : List.filter _ (map fst _) = [] |- _ => eapply (filter_nil_not _ _ c) in H; [|apply elem_map; by eexists];
        apply negb_false_iff in H; by apply str_in_iff end.
    + match goal with H : result_map _ (sub_criterion_checks s) = Ok _ |- _ => eapply result_map_all in H as [l Hl]; [|exact Hin] end.
      cbn [fst snd] in Hl. apply Forall_forall. intros argv Ha. eapply result_map_all in Hl as [out Hout]; [|exact Ha].
      apply validate_argv_safe in Hout as [[= E] Hsafe]. apply JStr_map_inj in E as ->. done.
  - intros p Hp Hq. match goal with H : existsb _ _ = false |- _ => apply not_true_iff_false in H; apply H end.
    apply existsb_exists. exists p. by rewrite <- list_elem_of_In, str_in_iff.
Qed.

Lemma check_subtask_Ok s u : check_subtask s = Ok u -> well_specified s.
Proof.
  unfold check_subtask, length_in. intros H. crush_hyps. boolify.
  match goal with H : coverage s = Ok _ |- _ => apply coverage_Ok in H as (? & ? & ?) end.
  assert (forall l u, each l check_path = Ok u -> Forall inside l) as Hi.
  { intros l u0 Hl. apply Forall_forall. intros p Hp. eapply check_path_Ok. by eapply each_Ok in Hl. }
  unfold well_specified. split_and!; eauto. by destruct (sub_acceptance_criteria s).
Qed.

(** An accepted plan has at most eight well-specified subtasks with
    distinct Task ids: every acceptance criterion has at least one host-owned
    check, every check is a safe argv for a declared criterion, every path
    stays inside the workspace, and no path is both allowed and protected. *)
Theorem check_plan_sound p u : check_plan p = Ok u ->
  1 <= Z.of_nat (length (ps_subtasks p)) <= 8 /\ Forall well_specified (ps_subtasks p) /\
  forall plan_id, NoDup (map (fun s => task_id_for plan_id (sub_key s)) (ps_subtasks p)).
Proof.
  unfold check_plan, length_in. intros H. crush_hyps. boolify. split_and!; [lia|lia| |].
  - apply Forall_forall. intros s Hs. eapply check_subtask_Ok.
    match goal with H : each (ps_subtasks p) _ = Ok _ |- _ => by eapply each_Ok in H end.
  - intros plan_id. rewrite <- (map_map sub_key (task_id_for plan_id)).
    apply NoDup_fmap_2; [|done]. intros a b E. unfold task_id_for in E. apply (inj (String.append _)) in E. by apply (inj (String.append _)) in E.
Qed.

(** ** A plan proposed by alice and approved by bob *)

Module PlanDemo.

Definition subtask : SubtaskSpec := {| sub_key := "calc"; sub_title := "Fix add"; sub_instructions := "make it add";
  sub_acceptance_criteria := ["adds"]; sub_criterion_checks := [("adds", [["pytest"; "-q"; "tests/test_calc.py"]])];
  sub_allowed_paths := ["calc.py"]; sub_protected_paths := ["tests/test_calc.py"] |}.
Definition spec : PlanSpec := {| ps_id := Some "P"; ps_title := "Calculator"; ps_objective_id := None; ps_proposed_by := "alice";
  ps_fixture_dir := "fixtures/calc"; ps_subtasks := [subtask] |}.
Definition clock (n : nat) : datetime := DateTime (Z.of_nat n) true.
Definition uuid (n : nat) : string := "0123456789ab" +:+ pretty n.

Abbreviation proposed := (propose_plan Demo.host clock uuid (open_session empty_db) spec).
Definition after_proposal : Session := match proposed with Ok (s, _) => s | Err _ => open_session empty_db end.
Definition the_plan : PlanRow := match proposed with Ok (_, p) => p | Err _ => blank_PlanRow end.
Abbreviation approved := (decide_plan Demo.host clock uuid after_proposal "P" true " bob" "looks right" None false None).

(** A worker's question, answered by a rule. *)
Definition question : Db := empty_db {{ d_decision_requests := {["Q" := blank_DecisionRequestRow {{ dr_id := "Q";
  dr_subject_kind := "agent_request"; dr_status := "pending"; dr_question := "which name?" }}]} }}.
Abbreviation answered :=
  (resolve_request Demo.host clock uuid (open_session question) "Q" "answered" "rules" "policy" "any" false None).

Lemma proposed_Ok : proposed = Ok (after_proposal, the_plan).
Proof.
  assert (is_ok proposed = true) as H by (vm_compute; reflexivity).
  unfold after_proposal, the_plan. destruct proposed as [[s p]|]; [reflexivity|discriminate H].
Qed.

Lemma after_clean : stored after_proposal = current after_proposal.
Proof. vm_compute. reflexivity. Qed.

End PlanDemo.

Lemma decide_plan_spec_witness : exists s' actor plan request, PlanDemo.approved = Ok s' /\
  plan_decided (stored PlanDemo.after_proposal) (stored s') "P" plan request true actor
    ("DECISION-" +:+ short (PlanDemo.uuid 0%nat)).
Proof.
  computed (decide_plan Demo.host PlanDemo.clock PlanDemo.uuid PlanDemo.after_proposal "P" true " bob" "looks right" None false None). exists x.
  destruct (decide_plan_spec _ _ _ _ _ _ _ _ _ _ _ _ PlanDemo.after_clean Hx) as (actor & plan & request & _ & _ & _ & _ & _ & H).
  exists actor, plan, request. split; [reflexivity|exact H].
Defined.

Lemma propose_plan_gates_witness : d_plans (stored PlanDemo.after_proposal) =
  <[pl_id PlanDemo.the_plan := PlanDemo.the_plan]> (d_plans empty_db) /\ ps_subtasks PlanDemo.spec <> [].
Proof.
  split; [|discriminate].
  exact (proj1 (proj2 (proj1 (propose_plan_gates Demo.host PlanDemo.clock PlanDemo.uuid (open_session empty_db) _
    PlanDemo.spec _ eq_refl PlanDemo.proposed_Ok)))).
Defined.

Lemma resolve_request_spec_witness : exists s' request, PlanDemo.answered = Ok s' /\
  d_decision_requests PlanDemo.question !! "Q" = Some request.
Proof.
  computed (resolve_request Demo.host PlanDemo.clock PlanDemo.uuid (open_session PlanDemo.question) "Q" "answered" "rules" "policy" "any"
    false None). exists x.
  destruct (proj1 (resolve_request_spec Demo.host PlanDemo.clock PlanDemo.uuid (open_session PlanDemo.question) _ _ _ _ _ _ _ _ eq_refl Hx))
    as (request & H & _).
  exists request. split; [reflexivity|exact H].
Defined.

Lemma check_plan_sound_witness : check_plan PlanDemo.spec = Ok () /\ Forall well_specified (ps_subtasks PlanDemo.spec).
Proof.
  assert (check_plan PlanDemo.spec = Ok ()) as H by (vm_compute; reflexivity).
  split; [exact H|]. exact (proj1 (proj2 (check_plan_sound _ _ H))).
Defined.
