(* ===== verification/JsonText.v ===== *)
(** * JsonText: canonical JSON text determines the value

    [json.dumps(value, sort_keys=True, separators=(",", ":"))] is what the
    code hashes; for values without floats, two values have the same text
    exactly when they differ only in the order of dict keys. *)

From S2P Require Import Prelude Json.

(** A value without floats. *)
Fixpoint plain (j : json) : bool :=
  match j with
  | JFloat _ => false
  | JArr l => forallb plain l
  | JObj kvs => forallb (fun kv => plain kv.2) kvs
  | _ => true
  end.

(** The value with every dict in key order. *)
Fixpoint norm (j : json) : json :=
  match j with
  | JArr l => JArr (map norm l)
  | JObj kvs => JObj (sort_by key_le (map (fun kv => (kv.1, norm kv.2)) kvs))
  | _ => j
  end.

(** The text of a value in the order its dicts are in. *)
Fixpoint text (ea : bool) (j : json) : string :=
  match j with
  | JNull => "null"
  | JBool b => if b then "true" else "false"
  | JInt z => pretty z
  | JFloat f => json_float f
  | JStr s => quote ea s
  | JArr l => "[" +:+ str_join "," (map (text ea) l) +:+ "]"
  | JObj kvs => "{" +:+ str_join "," (map (fun kv => quote ea kv.1 +:+ ":" +:+ text ea kv.2) kvs) +:+ "}"
  end.

(** ** Sorting by key *)

Lemma insert_by_map {A B} (g : string * A -> string * B) x l : (forall y, (g y).1 = y.1) ->
  insert_by key_le (g x) (map g l) = map g (insert_by key_le x l).
Proof.
  intros Hg. induction l as [|y l IH]; [done|]. simpl. unfold key_le. rewrite !Hg.
  destruct (str_le x.1 y.1); [done|]. simpl. f_equal. exact IH.
Qed.

Lemma sort_by_map {A B} (g : string * A -> string * B) l : (forall y, (g y).1 = y.1) ->
  sort_by key_le (map g l) = map g (sort_by key_le l).
Proof. intros Hg. induction l as [|x l IH]; [done|]. simpl. rewrite IH. by apply insert_by_map. Qed.

Lemma dumps_text ea j : dumps ea j = text ea (norm j).
Proof.
  induction j as [| | | | |l IH|l IH] using json_nested_ind; try done.
  - cbn [dumps norm text]. rewrite map_map. do 3 f_equal. induction IH; [done|]. simpl. by f_equal.
  - cbn [dumps norm text]. set (N := fun kv : string * json => (kv.1, norm kv.2)).
    set (G := fun kv : string * json => (kv.1, quote ea kv.1 +:+ ":" +:+ text ea kv.2)).
    assert (map (fun kv => (kv.1, quote ea kv.1 +:+ ":" +:+ dumps ea kv.2)) l = map G (map N l)) as ->.
    { induction IH as [|kv l Hkv Hl IHl]; [done|]. cbn [map]. rewrite IHl. unfold G, N. cbn [fst snd]. by rewrite Hkv. }
    rewrite (sort_by_map G) by done. by rewrite map_map.
Qed.

Lemma norm_plain j : plain j = true -> plain (norm j) = true.
Proof.
  induction j as [| | | | |l IH|l IH] using json_nested_ind; try done; cbn [plain norm]; rewrite !forallb_forall.
  - intros Hl x (y & <- & Hy)%in_map_iff. rewrite Forall_forall in IH. apply IH; [by apply list_elem_of_In|auto].
  - intros Hl x Hx%list_elem_of_In. rewrite sort_by_perm in Hx. apply elem_map in Hx as (y & Hy & ->).
    rewrite Forall_forall in IH. apply IH; [done|]. by apply Hl, list_elem_of_In.
Qed.

(** ** Escaped strings decode uniquely *)

(** The words a string literal is made of: an escaped character, or the
    closing quote. *)
Definition word (ea : bool) (n : nat) : string :=
  if (n <? 256)%nat then escape_char ea (ascii_of_nat n) else char_str dquote.

Definition words (ea : bool) : list (nat * string) := map (fun n => (n, word ea n)) (seq 0 257).

Definition prefix_free (l : list (nat * string)) : bool :=
  forallb (fun p => forallb (fun q => if String.prefix p.2 q.2 then (p.1 =? q.1)%nat else true) l) l.

Lemma words_prefix_free ea : prefix_free (words ea) = true.
Proof. destruct ea; vm_compute; reflexivity. Qed.

Lemma prefix_total a b x y : a +:+ x = b +:+ y -> String.prefix a b = true \/ String.prefix b a = true.
Proof.
  revert b. induction a as [|c a IH]; intros [|d b]; auto. rewrite !str_app_cons. intros [= -> H].
  cbn [String.prefix]. destruct (Ascii.ascii_dec d d); [by apply IH|done].
Qed.

Lemma words_cut ea m n x y : (m < 257)%nat -> (n < 257)%nat -> word ea m +:+ x = word ea n +:+ y -> m = n /\ x = y.
Proof.
  intros Hm Hn H. assert (m = n) as ->; [|split; [done|by apply (inj (String.append _)) in H]].
  assert (forall a b, (a < 257)%nat -> (b < 257)%nat -> String.prefix (word ea a) (word ea b) = true -> a = b) as Hf.
  { intros a b Ha Hb Hp. pose proof (words_prefix_free ea) as T. unfold prefix_free in T.
    assert (forall n, (n < 257)%nat -> In (n, word ea n) (words ea)) as Hin.
    { intros k Hk. apply in_map_iff. exists k. split; [done|]. apply in_seq. lia. }
    rewrite forallb_forall in T. specialize (T _ (Hin a Ha)). rewrite forallb_forall in T. specialize (T _ (Hin b Hb)).
    cbn [fst snd] in T. rewrite Hp in T. by apply Nat.eqb_eq. }
  destruct (prefix_total _ _ _ _ H) as [Hp|Hp]; [by apply Hf|symmetry; by apply Hf].
Qed.

Lemma word_char ea c : word ea (nat_of_ascii c) = escape_char ea c.
Proof.
  unfold word. pose proof (Ascii.nat_ascii_bounded c) as Hb. apply Nat.ltb_lt in Hb as ->.
  by rewrite Ascii.ascii_nat_embedding.
Qed.

Lemma escape_cut ea s t x y :
  escape ea s +:+ char_str dquote +:+ x = escape ea t +:+ char_str dquote +:+ y -> s = t /\ x = y.
Proof.
  change (char_str dquote) with (word ea 256).
  revert t. induction s as [|c s IH]; intros [|d t]; cbn [escape]; rewrite ?str_app_nil, ?str_app_assoc, <- ?word_char.
  - intros [_ ->]%words_cut; [done|lia..].
  - intros [E _]%words_cut; [|lia|pose proof (Ascii.nat_ascii_bounded d); lia].
    pose proof (Ascii.nat_ascii_bounded d). lia.
  - intros [E _]%words_cut; [|pose proof (Ascii.nat_ascii_bounded c); lia|lia].
    pose proof (Ascii.nat_ascii_bounded c). lia.
  - intros [E H]%words_cut; [|pose proof (Ascii.nat_ascii_bounded c); lia|pose proof (Ascii.nat_ascii_bounded d); lia].
    destruct (IH t H) as [-> ->]. split; [|done]. f_equal.
    rewrite <- (Ascii.ascii_nat_embedding c), <- (Ascii.ascii_nat_embedding d). by rewrite E.
Qed.

Lemma quote_cut ea s t x y : quote ea s +:+ x = quote ea t +:+ y -> s = t /\ x = y.
Proof.
  unfold quote. rewrite !str_app_assoc. intros H%(inj (String.append _)). by apply escape_cut in H.
Qed.

(** ** Values decode uniquely *)

(** What can follow a value inside a text: nothing, or a character no value
    continues with. *)
Definition stops (r : string) : bool :=
  match r with EmptyString => true | String c _ => str_has_char c ",]}" end.

Definition digit_or_dash (c : ascii) : bool := is_digit c || bool_decide (c = ascii_of_nat 45).

Lemma pretty_N_digits (n : N) : str_forallb is_digit (pretty n) = true.
Proof.
  assert (forall s, str_forallb is_digit s = true -> str_forallb is_digit (pretty_N_go n s) = true) as H.
  { induction (N.lt_wf_0 n) as [n _ IH]. intros s Hs. destruct (decide (0 < n)%N) as [Hn|Hn].
    - rewrite pretty_N_go_step by done. apply IH; [apply N.div_lt; lia|]. cbn [str_forallb]. rewrite Hs, andb_true_r.
      unfold pretty_N_char. by repeat case_match.
    - assert (n = 0%N) as -> by lia. by rewrite pretty_N_go_0. }
  change (pretty n) with (if decide (n = 0%N) then "0" else pretty_N_go n ""). case_decide; [done|]. by apply H.
Qed.

Lemma pretty_N_go_nonempty (n : N) s : s <> "" -> pretty_N_go n s <> "".
Proof.
  revert s. induction (N.lt_wf_0 n) as [n _ IH]. intros s Hs. destruct (decide (0 < n)%N) as [Hn|Hn].
  - rewrite pretty_N_go_step by done. apply IH; [apply N.div_lt; lia|done].
  - assert (n = 0%N) as -> by lia. by rewrite pretty_N_go_0.
Qed.

Lemma pretty_N_nonempty (n : N) : pretty n <> "".
Proof.
  change (pretty n) with (if decide (n = 0%N) then "0" else pretty_N_go n ""). case_decide; [done|].
  rewrite pretty_N_go_step by lia. by apply pretty_N_go_nonempty.
Qed.

Lemma str_forallb_impl (p q : ascii -> bool) s : (forall c, p c = true -> q c = true) ->
  str_forallb p s = true -> str_forallb q s = true.
Proof. intros Hpq. induction s as [|c s IH]; [done|]. cbn [str_forallb]. rewrite !andb_true_iff. intros []. auto. Qed.

Lemma pretty_Z_chars (z : Z) : str_forallb digit_or_dash (pretty z) = true /\ pretty z <> "".
Proof.
  assert (forall n : N, str_forallb digit_or_dash (pretty n) = true) as Hd.
  { intros n. eapply str_forallb_impl; [|apply pretty_N_digits]. intros c. unfold digit_or_dash. by intros ->. }
  assert (forall p, pretty (Npos p) <> "") as Hn by (intros p; apply pretty_N_nonempty).
  destruct z as [|p|p]; [done|split; [apply (Hd (Npos p))|apply Hn]|split; [|done]].
  change (str_forallb digit_or_dash ("-" +:+ pretty (Npos p)) = true). rewrite str_forallb_app. by rewrite Hd.
Qed.

(** Two runs of [p]-characters that something else follows. *)
Lemma run_cut (p : ascii -> bool) a b x y : str_forallb p a = true -> str_forallb p b = true ->
  (forall c s, x = String c s -> p c = false) -> (forall c s, y = String c s -> p c = false) ->
  a +:+ x = b +:+ y -> a = b /\ x = y.
Proof.
  revert b. induction a as [|c a IH]; intros [|d b]; rewrite ?str_app_cons, ?str_app_nil; cbn [str_forallb];
    rewrite ?andb_true_iff.
  - done.
  - intros _ [Hd _] Hx _ ->. by rewrite (Hx d _ eq_refl) in Hd.
  - intros [Hc _] _ _ Hy <-. by rewrite (Hy c _ eq_refl) in Hc.
  - intros [_ Ha] [_ Hb] Hx Hy [= -> H]. by destruct (IH b Ha Hb Hx Hy H) as [-> ->].
Qed.

Lemma stops_not_digit r c s : stops r = true -> r = String c s -> digit_or_dash c = false.
Proof.
  intros H ->. unfold stops, str_has_char in H. rewrite !orb_true_iff, !bool_decide_eq_true in H.
  destruct H as [->|[->|[->|H]]]; done.
Qed.

Lemma pretty_cut (z z' : Z) x y : stops x = true -> stops y = true -> pretty z +:+ x = pretty z' +:+ y -> z = z' /\ x = y.
Proof.
  intros Hx Hy H. apply (run_cut digit_or_dash) in H as [E ->]; [|apply pretty_Z_chars..| |].
  - by apply (inj pretty) in E.
  - intros c s. by apply stops_not_digit.
  - intros c s. by apply stops_not_digit.
Qed.

(** The first character tells the kind of a value. *)
Definition kind_char (j : json) (c : ascii) : bool :=
  match j with
  | JNull => str_has_char c "n"
  | JBool true => str_has_char c "t"
  | JBool false => str_has_char c "f"
  | JInt _ => digit_or_dash c
  | JFloat _ => false
  | JStr _ => bool_decide (c = dquote)
  | JArr _ => str_has_char c "["
  | JObj _ => str_has_char c "{"
  end.

Lemma text_kind ea j : plain j = true -> exists c s, text ea j = String c s /\ kind_char j c = true.
Proof.
  destruct j as [|[]|z|f|s|l|l]; cbn [plain text]; try done; intros _; try (by eexists _, _; split; [reflexivity|]).
  destruct (pretty_Z_chars z) as [Hd Hne]. destruct (pretty z) as [|c s] eqn:E; [done|].
  exists c, s. split; [done|]. cbn [str_forallb] in Hd. by apply andb_true_iff in Hd as [? _].
Qed.

(** The part of a text that starts after a list's first element. *)
Definition more (close : string) (r : string) (l : list string) : string :=
  match l with [] => close +:+ r | _ => "," +:+ str_join "," l +:+ close +:+ r end.

Lemma join_more close r x l : str_join "," (x :: l) +:+ close +:+ r = x +:+ more close r l.
Proof. destruct l as [|y l]; [done|]. unfold more. cbn [str_join]. by rewrite !str_app_assoc. Qed.

Lemma more_stops close r l : stops (close +:+ r) = true -> stops (more close r l) = true.
Proof. by destruct l. Qed.

Section items.
(** Items of a list, each decodable before a stop. *)
Context {A : Type} (item : A -> string) (ok : A -> bool) (close : string).
Definition cuts (a : A) : Prop := forall b x y, ok b = true -> stops x = true -> stops y = true ->
  item a +:+ x = item b +:+ y -> a = b /\ x = y.
Context (item_open : forall a x y, ok a = true -> item a +:+ x <> close +:+ y).
Context (close_stops : forall r, stops (close +:+ r) = true) (close_comma : forall x y, close +:+ x <> "," +:+ y).

Lemma items_cut l k x y : Forall (fun a => ok a = true /\ cuts a) l -> Forall (fun a => ok a = true) k ->
  str_join "," (map item l) +:+ close +:+ x = str_join "," (map item k) +:+ close +:+ y -> l = k /\ x = y.
Proof.
  intros Hl. revert k. induction Hl as [|a l [Ha Hcut] Hl IH]; intros k Hk; destruct Hk as [|b k Hb Hk].
  - cbn [map str_join]. rewrite !str_app_nil. intros H%(inj (String.append _)). done.
  - cbn [map]. rewrite join_more. intros H. symmetry in H. by apply item_open in H.
  - cbn [map]. rewrite join_more. intros H. by apply item_open in H.
  - cbn [map]. rewrite !join_more. intros [-> H]%Hcut; [|done|by apply more_stops..].
    assert (l = k /\ x = y) as [-> ->]; [|done]. apply IH; [done|].
    destruct l as [|a2 l], k as [|b2 k]; cbn [map more] in H.
    + done.
    + by apply close_comma in H.
    + symmetry in H. by apply close_comma in H.
    + by apply (inj (String.append ",")) in H.
Qed.
End items.

Lemma text_open ea a c x y : plain a = true -> str_has_char c "]}" = true -> text ea a +:+ x <> String c y.
Proof.
  intros Ha Hc. destruct (text_kind ea a Ha) as (d & s & -> & Hd). rewrite str_app_cons. intros [= -> _].
  unfold str_has_char in Hc. rewrite !orb_true_iff, !bool_decide_eq_true in Hc. destruct Hc as [->|[->|Hc]]; [| |done].
  all: by destruct a as [|[]| | | | |].
Qed.

(** A member of an object. *)
Definition member (ea : bool) (kv : string * json) : string := quote ea kv.1 +:+ ":" +:+ text ea kv.2.

Lemma kind_char_excl a b c : kind_char a c = true -> kind_char b c = true ->
  match a, b with
  | JNull, JNull | JInt _, JInt _ | JStr _, JStr _ | JArr _, JArr _ | JObj _, JObj _ => True
  | JBool x, JBool y => x = y
  | _, _ => False
  end.
Proof.
  assert (forallb (fun n => let c := ascii_of_nat n in
    let ks := [str_has_char c "n"; str_has_char c "t"; str_has_char c "f"; digit_or_dash c; bool_decide (c = dquote);
               str_has_char c "["; str_has_char c "{"] in
    (length (List.filter id ks) <=? 1)%nat) (seq 0 256) = true) as T by (vm_compute; reflexivity).
  rewrite forallb_forall in T. specialize (T (nat_of_ascii c)).
  rewrite Ascii.ascii_nat_embedding in T. specialize (T ltac:(apply in_seq; pose proof (Ascii.nat_ascii_bounded c); lia)).
  cbv zeta in T. unfold kind_char. intros Ha Hb.
  destruct a as [|[]| | | | |], b as [|[]| | | | |]; try done; cbn [List.filter] in T; rewrite ?Ha, ?Hb in T; cbn [id] in T;
    repeat match type of T with context [if ?b then _ else _] => destruct b end; done.
Qed.

Lemma text_cut ea a b x y : plain a = true -> plain b = true -> stops x = true -> stops y = true ->
  text ea a +:+ x = text ea b +:+ y -> a = b /\ x = y.
Proof.
  revert b x y. induction a as [|p|z|f|s|l IH|l IH] using json_nested_ind; intros b x y Ha Hb Hx Hy H.
  all: destruct (text_kind ea _ Ha) as (c & u & Eu & Hc), (text_kind ea _ Hb) as (d & v & Ev & Hd).
  all: assert (c = d) as <- by (rewrite Eu, Ev, !str_app_cons in H; by injection H).
  all: pose proof (kind_char_excl _ _ _ Hc Hd) as Hk; destruct b as [|q|z'|f'|s'|k|k]; try done; clear Eu Ev Hc Hd c u v.
  - by apply (inj (String.append _)) in H.
  - subst q. by apply (inj (String.append _)) in H.
  - cbn [text] in H. by apply pretty_cut in H as [-> ->].
  - cbn [text] in H. by apply quote_cut in H as [-> ->].
  - cbn [text plain] in *. rewrite !str_app_assoc in H. apply (inj (String.append "[")) in H.
    apply (items_cut (text ea) plain) in H as [-> ->]; [done| | | | |].
    + intros a0 x0 y0 Ha0. by apply text_open.
    + done.
    + done.
    + rewrite forallb_forall in Ha. rewrite Forall_forall in *. intros a Hin. split; [by apply Ha, list_elem_of_In|].
      intros b x0 y0. apply IH; [done|]. by apply Ha, list_elem_of_In.
    + rewrite forallb_forall in Hb. apply Forall_forall. intros b Hin. by apply Hb, list_elem_of_In.
  - cbn [text plain] in *. rewrite !str_app_assoc in H. apply (inj (String.append "{")) in H.
    apply (items_cut (member ea) (fun kv => plain kv.2)) in H as [-> ->]; [done| | | | |].
    + intros [i a0] x0 y0 Ha0. unfold member, quote, char_str. rewrite !str_app_assoc, !str_app_cons. done.
    + done.
    + done.
    + rewrite forallb_forall in Ha. rewrite Forall_forall in *. intros [i a] Hin.
      pose proof (Ha _ (proj1 (list_elem_of_In _ _) Hin)) as Hpl. split; [done|].
      intros [j b] x0 y0 Hpb Hx0 Hy0. unfold member. cbn [fst snd]. rewrite !str_app_assoc.
      intros [-> E]%quote_cut. apply (inj (String.append ":")) in E.
      apply (IH _ Hin) in E as [Ev ->]; [|done..]. cbn [snd] in Ev. by subst.
    + rewrite forallb_forall in Hb. apply Forall_forall. intros b Hin. by apply Hb, list_elem_of_In.
Qed.

(** Two values without floats have one canonical text exactly when they agree
    up to the order of dict keys. *)
Lemma dumps_norm_iff ea a b : plain a = true -> plain b = true -> dumps ea a = dumps ea b <-> norm a = norm b.
Proof.
  intros Ha Hb. rewrite !dumps_text. split; [|by intros ->]. intros H.
  refine (proj1 (text_cut ea (norm a) (norm b) "" "" (norm_plain _ Ha) (norm_plain _ Hb) eq_refl eq_refl _)).
  by rewrite !str_app_empty.
Qed.

(** The order of distinct keys does not matter. *)
Lemma norm_perm l k : NoDup (map fst l) -> l ≡ₚ k -> norm (JObj l) = norm (JObj k).
Proof.
  intros Hnd Hp. cbn [norm]. f_equal. set (N := fun kv : string * json => (kv.1, norm kv.2)).
  apply (StronglySorted_unique_strong (fun a b => key_le a b = true)).
  - intros x1 x2 H1 H2 L1 L2. rewrite sort_by_perm in H1, H2. rewrite <- Hp in H2.
    apply elem_map in H1 as (kv1 & H1 & ->), H2 as (kv2 & H2 & ->).
    assert (kv1 = kv2) as ->; [|done]. apply (NoDup_map_inj _ _ _ _ Hnd H1 H2). by apply str_le_antisym.
  - apply sort_by_sorted; unfold key_le; [intros; apply str_le_total|intros ? ? ?; apply str_le_trans].
  - apply sort_by_sorted; unfold key_le; [intros; apply str_le_total|intros ? ? ?; apply str_le_trans].
  - rewrite !sort_by_perm. by apply Permutation_map.
Qed.
