(* ===== verification/DispatchKey.v ===== *)
(** * DispatchKey: the key of a keyless run request

    Models [src/sdf_core/dispatch_key.py]: a request without a dispatch key
    gets one derived from the fields that identify the logical execution. *)

From S2P Require Import Prelude Json JsonText.

Definition CANONICAL_VERSION : Z := 1.

(** The keyword arguments of [derived_dispatch_key]; a dict is its items. *)
Record DispatchRequest : Type := {
  dk_task_id : string; dk_fixture_dir : string; dk_instructions : string;
  dk_criterion_checks : option (list (string * list string));
  dk_validation_target_kind : option string; dk_validation_target_id : option string;
  dk_parent_attempt_id : option string; dk_model_tier : option string
}.

Definition dispatch_tier (r : DispatchRequest) : option string :=
  match dk_parent_attempt_id r, dk_model_tier r with
  | None, None => Some "basic"
  | _, tier => tier
  end.

Definition dispatch_target (r : DispatchRequest) : option string * option string :=
  if opt_truthy (dk_validation_target_kind r) && opt_truthy (dk_validation_target_id r)
  then (dk_validation_target_kind r, dk_validation_target_id r) else (None, None).

Definition check_ids (kv : string * list string) : string * json := (kv.1, JArr (map JStr kv.2)).
Definition checks_json (o : option (list (string * list string))) : json :=
  match o with None => JNull | Some l => JObj (map check_ids l) end.

Definition dispatch_fields (r : DispatchRequest) : list (string * json) :=
  [("v", JInt CANONICAL_VERSION); ("task_id", JStr (dk_task_id r)); ("fixture_dir", JStr (dk_fixture_dir r));
   ("instructions", JStr (dk_instructions r)); ("criterion_checks", checks_json (dk_criterion_checks r));
   ("validation_target_kind", json_str (dispatch_target r).1); ("validation_target_id", json_str (dispatch_target r).2);
   ("parent_attempt_id", json_str (dk_parent_attempt_id r)); ("model_tier", json_str (dispatch_tier r))].

(** The text that is hashed. *)
Definition dispatch_text (r : DispatchRequest) : string := dumps false (JObj (dispatch_fields r)).
Definition derived_dispatch_key (r : DispatchRequest) : string := "keyless-" +:+ sha256_text (dispatch_text r).

(** ** One key per logical execution *)

(** The same execution: the same fields, an omitted first tier is [basic], half
    a validation target is none, and the order of criteria is free. *)
Definition same_checks (a b : option (list (string * list string))) : Prop :=
  match a, b with None, None => True | Some l, Some k => l ≡ₚ k | _, _ => False end.

Definition same_execution (a b : DispatchRequest) : Prop :=
  dk_task_id a = dk_task_id b /\ dk_fixture_dir a = dk_fixture_dir b /\ dk_instructions a = dk_instructions b /\
  same_checks (dk_criterion_checks a) (dk_criterion_checks b) /\ dispatch_target a = dispatch_target b /\
  dk_parent_attempt_id a = dk_parent_attempt_id b /\ dispatch_tier a = dispatch_tier b.

(** A Python dict has each key once. *)
Definition dict_ok (r : DispatchRequest) : Prop := NoDup (map fst (default [] (dk_criterion_checks r))).

Lemma norm_get l k key : NoDup (map fst l) -> NoDup (map fst k) -> norm (JObj l) = norm (JObj k) ->
  norm <$> kv_find key l = norm <$> kv_find key k.
Proof.
  assert (forall l k, NoDup (map fst k) -> norm (JObj l) = norm (JObj k) -> forall v, kv_find key l = Some v ->
    exists v', kv_find key k = Some v' /\ norm v = norm v') as H.
  { intros l0 k0 Hk [= E] v Hv.
    assert ((key, norm v) ∈ map (fun kv : string * json => (kv.1, norm kv.2)) k0) as Hin.
    { rewrite <- (sort_by_perm key_le), <- E, sort_by_perm. apply elem_map. exists (key, v). split; [|done]. clear -Hv.
      induction l0 as [|[i x] l0 IH]; [done|]. cbn [kv_find] in Hv. unfold str_eq in Hv.
      destruct (bool_decide (i = key)) eqn:Ei; boolify; [injection Hv as ->; subst; left|right; auto]. }
    apply elem_map in Hin as ([i v'] & Hin & [= -> ->]). exists v'. split; [by apply kv_find_elem|done]. }
  intros Hl Hk E. destruct (kv_find key l) as [v|] eqn:El; [destruct (H l k Hk E v El) as (v' & -> & E'); cbn; by rewrite E'|].
  destruct (kv_find key k) as [v|] eqn:Ek; [|done]. destruct (H k l Hl (eq_sym E) v Ek) as (v' & ? & _). congruence.
Qed.

Lemma json_str_inj a b : norm (json_str a) = norm (json_str b) -> a = b.
Proof. destruct a, b; cbn; congruence. Qed.

Lemma norm_strs l : norm (JArr (map JStr l)) = JArr (map JStr l).
Proof. cbn [norm]. f_equal. induction l; [done|]. cbn. by f_equal. Qed.

Lemma checks_norm_iff a b : NoDup (map fst (default [] a)) -> norm (checks_json a) = norm (checks_json b) <-> same_checks a b.
Proof.
  destruct a as [l|], b as [k|]; cbn [checks_json same_checks default from_option]; try done. intros Hnd. split.
  - intros [= E]. rewrite !map_map in E.
    assert (forall l, map (fun kv => ((check_ids kv).1, norm (check_ids kv).2)) l = map check_ids l) as Hn.
    { intros l0. apply map_ext. intros kv. unfold check_ids. cbn [fst snd]. by rewrite norm_strs. }
    rewrite !Hn, !sort_by_map in E by done.
    rewrite <- (sort_by_perm key_le l), <- (sort_by_perm key_le k). enough (sort_by key_le l = sort_by key_le k) as -> by done. revert E.
    generalize (sort_by key_le l), (sort_by key_le k). intros u. induction u as [|[i x] u IH]; intros [|[j y] v]; try done.
    cbn [map]. unfold check_ids at 1 3. cbn [fst snd]. intros [= -> Hx Hu]. f_equal; [|by apply IH]. f_equal.
    revert y Hx. clear. induction x as [|s x IH]; intros [|t y]; try done. intros [= -> ?]. f_equal. auto.
  - intros Hp. apply norm_perm; [|by apply Permutation_map]. by rewrite map_map.
Qed.

Lemma fields_NoDup r : NoDup (map fst (dispatch_fields r)).
Proof. cbn. apply (proj1 (bool_decide_eq_true _)). vm_compute. reflexivity. Qed.

Lemma fields_plain r : plain (JObj (dispatch_fields r)) = true.
Proof.
  assert (forall o, plain (json_str o) = true) as Hs by by intros [].
  cbn -[json_str checks_json]. rewrite !Hs, !andb_true_r. destruct (dk_criterion_checks r) as [l|]; [|done].
  cbn. apply forallb_forall. intros x (kv & <- & _)%in_map_iff. cbn. apply forallb_forall. by intros y (s & <- & _)%in_map_iff.
Qed.

(** Two keyless requests hash the same text exactly when they mean the
    same execution, whatever the order of their criteria, and then they get
    the same key; distinct executions share a key only through a SHA-256
    collision. *)
Theorem dispatch_key_spec a b : dict_ok a -> dict_ok b ->
  (dispatch_text a = dispatch_text b <-> same_execution a b) /\
  (same_execution a b -> derived_dispatch_key a = derived_dispatch_key b).
Proof.
  intros Ha Hb. assert (dispatch_text a = dispatch_text b <-> same_execution a b) as H.
  2: { split; [done|]. intros Hs%H. unfold derived_dispatch_key. by rewrite Hs. }
  unfold dispatch_text. rewrite dumps_norm_iff by apply fields_plain. split.
  - intros E. pose proof (fun key => norm_get _ _ key (fields_NoDup a) (fields_NoDup b) E) as G.
    unfold same_execution. split_and!.
    + pose proof (G "task_id") as H. by injection H.
    + pose proof (G "fixture_dir") as H. by injection H.
    + pose proof (G "instructions") as H. by injection H.
    + apply checks_norm_iff; [done|]. pose proof (G "criterion_checks") as H. cbn in H. by injection H.
    + pose proof (G "validation_target_kind") as H1. pose proof (G "validation_target_id") as H2. cbn in H1, H2.
      apply (inj Some) in H1, H2. apply json_str_inj in H1, H2. by apply injective_projections.
    + pose proof (G "parent_attempt_id") as H. cbn in H. apply (inj Some) in H. by apply json_str_inj.
    + pose proof (G "model_tier") as H. cbn in H. apply (inj Some) in H. by apply json_str_inj.
  - intros (E1 & E2 & E3 & Hc & Et & Ep & Em). apply checks_norm_iff in Hc; [|done].
    unfold dispatch_fields. rewrite E1, E2, E3, Et, Ep, Em. cbn [norm map fst snd]. by rewrite Hc.
Qed.

Definition demo_dispatch (tier : option string) (checks : list (string * list string)) : DispatchRequest :=
  {| dk_task_id := "T"; dk_fixture_dir := "/srv/calc"; dk_instructions := "fix"; dk_criterion_checks := Some checks;
     dk_validation_target_kind := Some "objective"; dk_validation_target_id := None; dk_parent_attempt_id := None;
     dk_model_tier := tier |}.

Lemma dispatch_key_spec_witness :
  let a := demo_dispatch None [("adds", ["unit"]); ("subtracts", [])] in
  let b := demo_dispatch (Some "basic") [("subtracts", []); ("adds", ["unit"])] in
  same_execution a b /\ derived_dispatch_key a = derived_dispatch_key b.
Proof.
  intros a b. assert (same_execution a b) as H by (repeat split; apply Permutation_swap).
  split; [exact H|].
  refine (proj2 (dispatch_key_spec a b _ _) H); unfold dict_ok; apply (proj1 (bool_decide_eq_true _)); vm_compute; reflexivity.
Defined.
