(* ===== verification/Oracle.v ===== *)
(** * Oracle: what the sealed evaluator oracle reports and hashes

    Models the pure core of [src/sdf_core/oracle.py]: the digest of a sealed
    check, the result frames the notary leaves, the verdicts drawn from them,
    and the pytest command line of a sealed run.  Building the sealed tree and
    running it are not modelled; [parse_script_result] and
    [parse_result_frame] start from the JSON value read from the result file. *)

From S2P Require Import Prelude Json Checks.

Definition SUBJECT_DIR : string := ".sdf-subject".
Definition EMPTY_ORACLE_DIGEST : string := sha256_text "".
Definition PLUGIN_MODULE : string := "sdf_oracle_plugin".

(** ** The digest of a sealed check *)

Definition newline : string := char_str (ascii_of_nat 10).
Definition nul : string := char_str (ascii_of_nat 0).

(** [sorted(files)]: pairs of strings, lexicographically. *)
Definition file_le (a b : string * string) : bool :=
  if str_eq a.1 b.1 then str_le a.2 b.2 else str_le a.1 b.1.

Definition file_line (f : string * string) : string := "file" +:+ nul +:+ f.1 +:+ nul +:+ f.2 +:+ newline.

Definition utf8_len (s : string) : Z := Z.of_nat (length (utf8 s)).

(** A text framed by its byte length: [<name> N\n<text>\n]. *)
Definition framed (name text : string) : string :=
  name +:+ " " +:+ pretty (utf8_len text) +:+ newline +:+ text +:+ newline.

(** The text that [seal_oracle_digest] hashes. *)
Definition seal_body (command : list string) (files : list (string * string)) (visibility seed : string) : string :=
  "sdf-oracle-v2" +:+ newline +:+ "visibility " +:+ visibility +:+ newline +:+
  framed "seed" seed +:+ framed "argv" (str_join nul command) +:+
  foldr (fun f acc => file_line f +:+ acc) "" (sort_by file_le files).

Definition seal_oracle_digest (command : list string) (files : list (string * string)) (visibility : string)
    (input_seed : option string) : result string :=
  _ ← raise_if (negb (str_in visibility ["visible"; "held_out"]))
        (ValueError ("oracle visibility must be visible or held_out, not " +:+ str_repr visibility));
  Ok (sha256_text (seal_body command files visibility (or_empty input_seed))).

(** ** Result frames *)

(** [not isinstance(v, bool) and isinstance(v, int)] *)
Definition as_int (j : json) : option Z := match j with JInt z => Some z | _ => None end.

(** [set(payload) == keys] *)
Definition same_keys (kvs : list (string * json)) (keys : list string) : bool :=
  forallb (fun k => str_in k keys) (map fst kvs) && forallb (fun k => str_in k (map fst kvs)) keys.

Record ScriptFrame : Type := { sf_completed : Z; sf_exitstatus : Z }.

(** [load_script_result], from the JSON value of the file. *)
Definition parse_script_result (payload : json) : option ScriptFrame :=
  match payload with
  | JObj kvs =>
      if same_keys kvs ["completed"; "exitstatus"] then
        match as_int (kv_get "completed" kvs), as_int (kv_get "exitstatus" kvs) with
        | Some completed, Some exitstatus =>
            if (completed =? 0) || (completed =? 1)
            then Some {| sf_completed := completed; sf_exitstatus := exitstatus |} else None
        | _, _ => None
        end
      else None
  | _ => None
  end.

Record PytestFrame : Type := {
  pf_collected : Z; pf_testscollected : Z; pf_passed : Z; pf_failed : Z; pf_skipped : Z; pf_errors : Z; pf_exitstatus : Z
}.

(** A count of the frame: a non-negative integer. *)
Definition frame_count (key : string) (payload : json) : option Z :=
  z ← as_int (jget key payload); if z <? 0 then None else Some z.

(** [load_result_frame], from the JSON value of the file. *)
Definition parse_result_frame (payload : json) : option PytestFrame :=
  match payload with
  | JObj _ =>
      collected ← frame_count "collected" payload; testscollected ← frame_count "testscollected" payload;
      passed ← frame_count "passed" payload; failed ← frame_count "failed" payload;
      skipped ← frame_count "skipped" payload; errors ← frame_count "errors" payload;
      exitstatus ← frame_count "exitstatus" payload;
      if negb (passed + failed + skipped + errors =? collected) then None
      else Some {| pf_collected := collected; pf_testscollected := testscollected; pf_passed := passed;
                   pf_failed := failed; pf_skipped := skipped; pf_errors := errors; pf_exitstatus := exitstatus |}
  | _ => None
  end.

(** ** Verdicts *)

Definition opt_text (z : option Z) : string := match z with Some z => pretty z | None => "None" end.

Definition pytest_oracle_verdict (exit_code : option Z) (frame : option PytestFrame) (declared : Z) (oracle_changed : bool)
    : string * string :=
  if oracle_changed then ("INCONCLUSIVE", "oracle files changed while the check ran")
  else
  match frame with
  | None => if bool_decide (exit_code = Some 0)
            then ("FAIL", "pytest exited 0 without an evaluator result (unexpected early exit)")
            else ("FAIL", "pytest ended without an evaluator result")
  | Some f =>
      if negb (pf_failed f =? 0) || negb (pf_errors f =? 0) then ("FAIL", "pytest reported failing tests")
      else if (pf_testscollected f =? 0) || (pf_collected f =? 0) then ("FAIL", "pytest collected zero tests")
      else if negb (pf_collected f =? pf_testscollected f) then ("INCONCLUSIVE", "evaluator result counts do not agree")
      else if negb (declared =? 0) && (pf_collected f <? declared)
      then ("FAIL", "pytest reported " +:+ pretty (pf_collected f) +:+ " tests but the oracle declares " +:+ pretty declared)
      else if pf_passed f =? 0
      then ("FAIL", "pytest exited with no test passed (skipped=" +:+ pretty (pf_skipped f) +:+ "); skipped tests are not a run")
      else if negb (bool_decide (exit_code = Some 0)) || negb (pf_exitstatus f =? 0)
      then ("INCONCLUSIVE", "pytest exit code " +:+ opt_text exit_code +:+ " disagrees with a passing result (frame exit " +:+
                            pretty (pf_exitstatus f) +:+ ")")
      else ("PASS", "")
  end.

Definition script_oracle_verdict (exit_code : option Z) (frame : option ScriptFrame) (oracle_changed : bool) : string * string :=
  if oracle_changed then ("INCONCLUSIVE", "oracle files changed while the check ran")
  else if match exit_code with Some z => z <? 0 | None => false end
  then ("FAIL", "check ended on signal " +:+ pretty (- default 0 exit_code) +:+ " before the oracle completed")
  else
  match frame with
  | None => if bool_decide (exit_code = Some 0)
            then ("FAIL", "check exited 0 without an evaluator result (unexpected early exit)")
            else ("FAIL", "check ended without an evaluator result")
  | Some f =>
      if negb (sf_completed f =? 1) || negb (sf_exitstatus f =? 0) then ("FAIL", "oracle did not complete its assertions")
      else if negb (bool_decide (exit_code = Some 0))
      then ("INCONCLUSIVE", "check exit code " +:+ opt_text exit_code +:+ " disagrees with a completed oracle")
      else ("PASS", "")
  end.

(** ** The command line of a sealed pytest run *)

(** The loop that drops [--noconftest] and a [--rootdir] with its value. *)
Fixpoint drop_discovery (argv : list string) : list string :=
  match argv with
  | [] => []
  | part :: rest =>
      if str_eq part "--noconftest" then drop_discovery rest
      else match rest with
           | _ :: rest' => if str_eq part "--rootdir" then drop_discovery rest' else part :: drop_discovery rest
           | [] => [part]
           end
  end.

Definition SEALED_OPTIONS : list string := ["--rootdir"; "."; "--confcutdir"; "."; "-p"; PLUGIN_MODULE].

(** The options go right after the first part that names pytest. *)
Fixpoint insert_options (out : list string) : option (list string) :=
  match out with
  | [] => None
  | part :: rest =>
      if str_eq part "pytest" || str_eq (basename part) "pytest" then Some (part :: SEALED_OPTIONS ++ rest)
      else cons part <$> insert_options rest
  end.

Definition retarget_pytest (argv : list string) (sealed : bool) : list string :=
  if negb sealed then argv ++ ["-p"; PLUGIN_MODULE]
  else let out := drop_discovery argv in default (SEALED_OPTIONS ++ out) (insert_options out).

(** ** A pass *)

Lemma frame_count_Some key payload z : frame_count key payload = Some z -> 0 <= z.
Proof. unfold frame_count. intros (x & _ & H)%bind_Some. destruct (x <? 0) eqn:E; [done|]. injection H as <-. by apply Z.ltb_ge in E. Qed.

Lemma parse_result_frame_Some payload f : parse_result_frame payload = Some f ->
  pf_passed f + pf_failed f + pf_skipped f + pf_errors f = pf_collected f /\
  0 <= pf_passed f /\ 0 <= pf_failed f /\ 0 <= pf_skipped f /\ 0 <= pf_errors f /\ 0 <= pf_testscollected f.
Proof.
  destruct payload; try done. unfold parse_result_frame. intros H.
  repeat (apply bind_Some in H as (? & ?%frame_count_Some & H)).
  destruct (negb _) eqn:E; [done|]. boolify. by injection H as <-.
Qed.

Definition STATUSES : list string := ["PASS"; "FAIL"; "INCONCLUSIVE"].

(** A pytest check passes only on the notary's frame, never on the exit
    code alone: the oracle is unchanged, the process and the frame both report
    0, nothing failed or errored, the counts agree, at least one test passed
    and the rest were skipped, and no declared test is missing.  A script
    check passes exactly when the process reports 0 and the frame says that
    the oracle completed.  Every verdict is one of three statuses. *)
Theorem oracle_pass_iff exit_code payload declared changed :
  let pytest := pytest_oracle_verdict exit_code (parse_result_frame payload) declared changed in
  let script := script_oracle_verdict exit_code (parse_script_result payload) changed in
  (fst pytest = "PASS" <-> changed = false /\ exit_code = Some 0 /\ exists f, parse_result_frame payload = Some f /\
     pf_exitstatus f = 0 /\ pf_failed f = 0 /\ pf_errors f = 0 /\ pf_collected f = pf_testscollected f /\
     pf_collected f = pf_passed f + pf_skipped f /\ 0 < pf_passed f /\ (declared = 0 \/ declared <= pf_collected f)) /\
  (fst script = "PASS" <-> changed = false /\ exit_code = Some 0 /\
     parse_script_result payload = Some {| sf_completed := 1; sf_exitstatus := 0 |}) /\
  fst pytest ∈ STATUSES /\ fst script ∈ STATUSES.
Proof.
  cbv zeta. split; [|split; [|split]].
  - pose proof (parse_result_frame_Some payload) as Hp. unfold pytest_oracle_verdict.
    destruct changed; [by split; [|intros [? _]]|].
    destruct (parse_result_frame payload) as [f|]; [specialize (Hp f eq_refl)|].
    2: { destruct (bool_decide _); split; try done; by intros (_ & _ & ? & ? & _). }
    repeat match goal with |- context [if ?b then _ else _] => destruct b eqn:? end;
      cbn [fst]; (split; [|intros (_ & -> & f' & [= <-] & ? & ? & ? & ? & ? & ? & ?)]); try done.
    all: rewrite ?andb_true_iff, ?orb_true_iff, ?orb_false_iff, ?andb_false_iff, ?negb_true_iff, ?negb_false_iff,
      ?bool_decide_eq_true, ?bool_decide_eq_false, ?Z.eqb_eq, ?Z.eqb_neq, ?Z.ltb_lt, ?Z.ltb_ge in *; try lia.
    all: try naive_solver lia.
  - unfold script_oracle_verdict. destruct changed; [by split; [|intros [? _]]|].
    destruct (parse_script_result payload) as [[c e]|]; cbn [sf_completed sf_exitstatus];
    repeat match goal with |- context [if ?b then _ else _] => destruct b eqn:? end;
      cbn [fst]; (split; [|intros (_ & -> & H); try injection H as -> ->]); try done.
    intros _. boolify. naive_solver.
  - unfold pytest_oracle_verdict. repeat case_match; cbn; unfold STATUSES; set_solver.
  - unfold script_oracle_verdict. repeat case_match; cbn; unfold STATUSES; set_solver.
Qed.

(** ** The digest covers the whole check *)

(** The UTF-8 length of a prefix determines it. *)
Lemma utf8_len_cons c s : utf8_len (String c s) = (if Z.of_nat (nat_of_ascii c) <? 128 then 1 else 2) + utf8_len s.
Proof. unfold utf8_len. cbn [utf8]. destruct (_ <? 128); simpl; lia. Qed.

Lemma utf8_len_nonneg s : 0 <= utf8_len s.
Proof. unfold utf8_len. lia. Qed.

Lemma utf8_cut a b x y : utf8_len a = utf8_len b -> a +:+ x = b +:+ y -> a = b /\ x = y.
Proof.
  revert b. induction a as [|c a IH]; intros [|d b] Hl H; [done| | |].
  - rewrite utf8_len_cons in Hl. pose proof (utf8_len_nonneg b). change (utf8_len "") with 0 in Hl. destruct (_ <? 128); lia.
  - rewrite utf8_len_cons in Hl. pose proof (utf8_len_nonneg a). change (utf8_len "") with 0 in Hl. destruct (_ <? 128); lia.
  - rewrite !str_app_cons in H. injection H as -> H. rewrite !utf8_len_cons in Hl. destruct (IH b) as [-> ->]; [lia|done|done].
Qed.

Lemma pretty_N_no_newline (n : N) : str_has_char (ascii_of_nat 10) (pretty n) = false.
Proof.
  assert (forall s, str_has_char (ascii_of_nat 10) s = false -> str_has_char (ascii_of_nat 10) (pretty_N_go n s) = false) as H.
  { induction (N.lt_wf_0 n) as [n _ IH]. intros s Hs. destruct (decide (0 < n)%N) as [Hn|Hn].
    - rewrite pretty_N_go_step by done. apply IH; [apply N.div_lt; lia|]. simpl. rewrite Hs, orb_false_r.
      apply bool_decide_eq_false. unfold pretty_N_char. by repeat case_match.
    - assert (n = 0%N) as -> by lia. by rewrite pretty_N_go_0. }
  change (pretty n) with (if decide (n = 0%N) then "0" else pretty_N_go n ""). case_decide; [done|]. by apply H.
Qed.

Lemma pretty_Z_no_newline (z : Z) : str_has_char (ascii_of_nat 10) (pretty z) = false.
Proof. destruct z; [done|apply (pretty_N_no_newline (Npos p))|simpl; apply (pretty_N_no_newline (Npos p))]. Qed.

Lemma framed_inj name a b x y : framed name a +:+ x = framed name b +:+ y -> a = b /\ x = y.
Proof.
  unfold framed, newline, char_str. rewrite !str_app_assoc. intros H. apply (inj (String.append name)), (inj (String.append " ")) in H.
  rewrite ?str_app_cons, ?str_app_nil in H. apply str_cut in H as [Hl H]; [|apply pretty_Z_no_newline..].
  apply (inj pretty) in Hl. apply utf8_cut in H as [-> H]; [|done]. by injection H as ->.
Qed.

Definition no_nul (s : string) : Prop := str_has_char (ascii_of_nat 0) s = false.

Lemma join_nul_inj l k : l <> [] -> k <> [] -> Forall no_nul l -> Forall no_nul k ->
  str_join nul l = str_join nul k -> l = k.
Proof.
  assert (forall s, no_nul s -> forall t, s <> t +:+ nul +:+ "" /\ forall u, s <> t +:+ nul +:+ u) as Hno.
  { intros s Hs t. split; [|intros u]; intros ->; unfold no_nul in Hs; by rewrite !has_char_app, orb_true_r in Hs. }
  intros Hl Hk Fl. revert k Hk. induction Fl as [|s l Hs Fl IH]; [done|]. intros [|t k] Hk Fk H; [done|].
  apply Forall_cons in Fk as [Ht Fk]. destruct l as [|s2 l], k as [|t2 k].
  - cbn in H. by subst.
  - change (s = t +:+ nul +:+ str_join nul (t2 :: k)) in H. by destruct (proj2 (Hno s Hs t) _ H).
  - change (s +:+ nul +:+ str_join nul (s2 :: l) = t) in H. by destruct (proj2 (Hno t Ht s) _ (eq_sym H)).
  - change (s +:+ String (ascii_of_nat 0) (str_join nul (s2 :: l)) = t +:+ String (ascii_of_nat 0) (str_join nul (t2 :: k))) in H.
    apply str_cut in H as [-> H]; [|done..]. f_equal. by apply IH.
Qed.

(** A sealed file as the code records it: no NUL in its path, a hex digest. *)
Definition sealed_file (f : string * string) : Prop := no_nul f.1 /\ str_has_char (ascii_of_nat 10) f.2 = false.

Lemma file_lines_inj l k : Forall sealed_file l -> Forall sealed_file k ->
  foldr (fun f acc => file_line f +:+ acc) "" l = foldr (fun f acc => file_line f +:+ acc) "" k -> l = k.
Proof.
  intros Fl. revert k. induction Fl as [|[p h] l [Hp Hh] Fl IH]; intros [|[q g] k] Fk H; [done|done|done|].
  apply Forall_cons in Fk as [[Hq Hg] Fk]. cbn [foldr fst snd] in *. unfold file_line, nul, newline, char_str in H.
  cbn [fst snd] in H. rewrite !str_app_assoc in H. apply (inj (String.append "file")) in H.
  rewrite ?str_app_cons, ?str_app_nil in H. injection H as H. apply str_cut in H as [-> H]; [|done..].
  apply str_cut in H as [-> H]; [|done..]. f_equal. by apply IH.
Qed.

(** The text behind an oracle digest determines the whole check: two
    checks with the same text have the same visibility, seed and argv (argument
    boundaries included) and the same sealed files with the same digests.  The
    digest is therefore as collision-free as SHA-256 itself. *)
Theorem seal_body_injective c1 c2 f1 f2 v1 v2 s1 s2 :
  c1 <> [] -> c2 <> [] -> Forall no_nul c1 -> Forall no_nul c2 -> Forall sealed_file f1 -> Forall sealed_file f2 ->
  v1 ∈ ["visible"; "held_out"] -> v2 ∈ ["visible"; "held_out"] ->
  seal_body c1 f1 v1 s1 = seal_body c2 f2 v2 s2 ->
  c1 = c2 /\ f1 ≡ₚ f2 /\ v1 = v2 /\ s1 = s2.
Proof.
  intros N1 N2 A1 A2 F1 F2 V1 V2 H. unfold seal_body in H.
  apply (inj (String.append "sdf-oracle-v2")), (inj (String.append newline)), (inj (String.append "visibility ")) in H.
  unfold newline, char_str in H. rewrite ?str_app_cons, ?str_app_nil in H.
  apply str_cut in H as [-> H]; [|known_in; done..].
  apply framed_inj in H as [-> H]. apply framed_inj in H as [Hc H]. apply join_nul_inj in Hc as ->; [|done..].
  apply file_lines_inj in H; [|by rewrite sort_by_perm..]. split_and!; [done| |done|done].
  by rewrite <- (sort_by_perm file_le f1), H, sort_by_perm.
Qed.

Lemma seal_body_injective_witness : let files := [("tests/test_a.py", "00"); ("conftest.py", "ff")] in
  seal_body ["pytest"; "-q"] files "visible" "" = seal_body ["pytest"; "-q"] (rev files) "visible" "" /\ files ≡ₚ rev files.
Proof.
  intros files. assert (seal_body ["pytest"; "-q"] files "visible" "" = seal_body ["pytest"; "-q"] (rev files) "visible" "") as H
    by (vm_compute; reflexivity).
  split; [exact H|].
  refine (proj1 (proj2 (seal_body_injective _ _ _ _ _ _ _ _ _ _ _ _ _ _ _ _ H))); try discriminate.
  all: try (left; fail). all: repeat constructor.
Defined.
