(* ===== verification/Acceptance.v ===== *)
(** * Acceptance: when Verification Evidence accepts an artifact

    Models [src/sdf_core/acceptance.py] on the rows of the evidence table. *)

From S2P Require Import Prelude Json Db EvidenceMac Samples Oracle.

Definition EVIDENCE_CLASS_VERIFICATION : string := "verification".
Definition EVALUATOR_IDENTITY : string := "sdf-evaluator".
Definition EVALUATOR_ROLE : string := "evaluator".
Definition AGENT_ROLE : string := "agent".
Definition VERIFICATION_TTL : Z := 24 * hours.

(** [{value!r}] and [{value}] of an optional string. *)
Definition opt_repr (o : option string) : string := match o with Some s => str_repr s | None => "None" end.
Definition opt_str (o : option string) : string := match o with Some s => s | None => "None" end.

Definition independent (e : EvidenceRow) (attempt_agent : string) : bool :=
  opt_truthy (ev_verifier_identity e) && negb (opt_str_eq (ev_verifier_role e) (Some AGENT_ROLE)) &&
  negb (opt_str_eq (ev_verifier_identity e) (Some attempt_agent)).

Definition check_verification_acceptance (e : EvidenceRow) (attempt_agent artifact_sha256 : string) (now : datetime)
    : result unit :=
  let evidence_id := if str_truthy (ev_id e) then ev_id e else "?" in
  let refuse text := AcceptanceError ("verification evidence " +:+ evidence_id +:+ " " +:+ text) in
  _ ← raise_if (negb (opt_str_eq (ev_evidence_class e) (Some EVIDENCE_CLASS_VERIFICATION)))
        (AcceptanceError ("evidence " +:+ evidence_id +:+ " is not verification evidence and cannot accept an artifact"));
  _ ← raise_if (negb (independent e attempt_agent))
        (refuse ("verifier " +:+ opt_repr (ev_verifier_identity e) +:+ " (" +:+ opt_str (ev_verifier_role e) +:+
                 ") is the attempt's agent " +:+ str_repr attempt_agent +:+
                 "; the attempt's agent cannot verify its own result"));
  _ ← raise_if (negb (opt_str_eq (ev_subject_artifact_sha256 e) (Some artifact_sha256)))
        (refuse ("subject_artifact_sha256 " +:+ opt_str (ev_subject_artifact_sha256 e) +:+
                 " does not match the artifact being accepted (" +:+ artifact_sha256 +:+ ")"));
  _ ← raise_if (str_eq (str_strip (or_empty (ev_oracle_digest e))) "")
        (refuse "oracle_digest is missing and cannot accept an artifact");
  _ ← raise_if (opt_str_eq (ev_oracle_digest e) (Some EMPTY_ORACLE_DIGEST))
        (refuse ("oracle_digest is the empty digest (" +:+ EMPTY_ORACLE_DIGEST +:+ ") and does not cover a registered check"));
  expires_at ← require_some (ev_expires_at e) (refuse "has no expires_at and requires re-validation");
  raise_if (dt_us (aware expires_at) <=? dt_us (aware now))
    (refuse ("expired at " +:+ isoformat (aware expires_at) +:+ " and requires re-validation")).

(** [except AcceptanceError]: was the row accepted? *)
Definition accepts (e : EvidenceRow) (attempt_agent artifact_sha256 : string) (now : datetime) : result bool :=
  match check_verification_acceptance e attempt_agent artifact_sha256 now with
  | Ok _ => Ok true
  | Err (AcceptanceError _) => Ok false
  | Err x => Err x
  end.

Definition is_verified_pass (env : environ) (session : option Db) (e : EvidenceRow) (attempt_agent : string)
    (artifact_sha256 : option string) (now : datetime) : result bool :=
  if negb (str_eq (ev_status e) "PASS") || negb (opt_truthy artifact_sha256) then Ok false
  else
    ok ← accepts e attempt_agent (or_empty artifact_sha256) now;
    if (ok : bool) then Ok (stored_content_mac_ok env session e) else Ok false.

Definition is_hidden_oracle (e : EvidenceRow) : bool :=
  opt_str_eq (ev_oracle_visibility e) (Some "held_out") || opt_truthy (ev_input_seed e).

(** The loop over the rows: was a qualifying one found? *)
Fixpoint find_hidden (rows : list EvidenceRow) (attempt_agent artifact_sha256 : string) (now : datetime) : result bool :=
  match rows with
  | [] => Ok false
  | row :: rows =>
      if negb (str_eq (ev_status row) "PASS") || negb (is_hidden_oracle row)
      then find_hidden rows attempt_agent artifact_sha256 now
      else
        ok ← accepts row attempt_agent artifact_sha256 now;
        if (ok : bool) then Ok true else find_hidden rows attempt_agent artifact_sha256 now
  end.

Definition check_hidden_oracle_acceptance (rows : list EvidenceRow) (required : bool) (attempt_agent artifact_sha256 : string)
    (now : datetime) : result unit :=
  if negb required then Ok ()
  else
    found ← find_hidden rows attempt_agent artifact_sha256 now;
    raise_if (negb found)
      (AcceptanceError "task declares a held-out or randomized oracle; a visible-only pass cannot accept the artifact").

(** [platform.platform()] and [platform.python_version()] are arguments. *)
Definition environment_payload (platform python command : string) (runner oracle_digest : option string) : json :=
  JObj [("command", JStr command); ("oracle_digest", json_str oracle_digest); ("platform", JStr platform);
        ("python", JStr python); ("runner", json_str runner)].
Definition environment_digest (platform python command : string) (runner oracle_digest : option string) : string :=
  sha256_text (dumps true (environment_payload platform python command runner oracle_digest)).

(** ** What acceptance means *)

(** Independent, bound to the artifact's bytes, from a real oracle, fresh. *)
Definition acceptable (e : EvidenceRow) (attempt_agent artifact_sha256 : string) (now : datetime) : Prop :=
  ev_evidence_class e = Some "verification" /\
  (exists v, ev_verifier_identity e = Some v /\ v <> "" /\ v <> attempt_agent) /\ ev_verifier_role e <> Some "agent" /\
  ev_subject_artifact_sha256 e = Some artifact_sha256 /\
  (exists o, ev_oracle_digest e = Some o /\ str_strip o <> "" /\ o <> EMPTY_ORACLE_DIGEST) /\
  (exists t, ev_expires_at e = Some t /\ dt_us now < dt_us t).

Lemma independent_iff e agent : independent e agent = true <->
  (exists v, ev_verifier_identity e = Some v /\ v <> "" /\ v <> agent) /\ ev_verifier_role e <> Some "agent".
Proof.
  unfold independent, opt_str_eq, opt_truthy. rewrite !andb_true_iff, !negb_true_iff, !bool_decide_eq_false.
  destruct (ev_verifier_identity e) as [v|]; cbn [or_empty default from_option].
  - split.
    + intros [[Hv Hr] Ha]. split; [|done]. exists v. split_and!; [done|by destruct v|congruence].
    + intros [(v' & [= <-] & Hv & Ha) Hr]. split_and!; [by destruct v|done|congruence].
  - split; [intros [[[=] _] _]|intros [(v & [=] & _) _]].
Qed.

Lemma acceptance_cases e agent sha now :
  (check_verification_acceptance e agent sha now = Ok () /\ acceptable e agent sha now) \/
  (exists msg, check_verification_acceptance e agent sha now = Err (AcceptanceError msg) /\ ~ acceptable e agent sha now).
Proof.
  unfold check_verification_acceptance, acceptable, opt_str_eq, str_eq, raise_if, EVIDENCE_CLASS_VERIFICATION.
  destruct (bool_decide (ev_evidence_class e = _)) eqn:E1; cbn [negb mbind result_bind]; boolify;
    [|right; eexists; split; [done|tauto]].
  destruct (independent e agent) eqn:E2; cbn [negb mbind result_bind];
    [|right; eexists; split; [done|]; apply not_true_iff_false in E2; rewrite independent_iff in E2; tauto].
  apply independent_iff in E2 as [E2 E3].
  destruct (bool_decide (ev_subject_artifact_sha256 e = _)) eqn:E4; cbn [negb mbind result_bind]; boolify;
    [|right; eexists; split; [done|tauto]].
  destruct (ev_oracle_digest e) as [o|] eqn:Eo.
  2: { right. eexists. split; [done|]. intros (_ & _ & _ & _ & (o & [=] & _) & _). }
  change (or_empty (Some o)) with o. destruct (bool_decide (str_strip o = "")) eqn:E5; cbn [negb mbind result_bind]; boolify.
  { right. eexists. split; [done|]. intros (_ & _ & _ & _ & (o' & [= <-] & ? & _) & _). done. }
  destruct (bool_decide (Some o = Some EMPTY_ORACLE_DIGEST)) eqn:E6; cbn [negb mbind result_bind]; boolify.
  { right. eexists. split; [done|]. intros (_ & _ & _ & _ & (o' & [= <-] & _ & ?) & _). congruence. }
  destruct (ev_expires_at e) as [t|]; cbn [require_some mbind result_bind].
  2: { right. eexists. split; [done|]. intros (_ & _ & _ & _ & _ & (t & [=] & _)). }
  destruct (dt_us (aware t) <=? dt_us (aware now)) eqn:E7; cbn in E7.
  - right. eexists. split; [done|]. intros (_ & _ & _ & _ & _ & (t' & [= <-] & ?)). lia.
  - left. split; [done|]. split_and!; try done; [by exists o; split_and!; [|done|congruence]|by exists t; split; [|lia]].
Qed.

Lemma accepts_iff e agent sha now : exists b, accepts e agent sha now = Ok b /\ (b = true <-> acceptable e agent sha now).
Proof.
  unfold accepts. destruct (acceptance_cases e agent sha now) as [[-> H]|(msg & -> & H)]; [by exists true|].
  by exists false.
Qed.

Lemma find_hidden_iff rows agent sha now : exists b, find_hidden rows agent sha now = Ok b /\
  (b = true <-> exists e, e ∈ rows /\ ev_status e = "PASS" /\ is_hidden_oracle e = true /\ acceptable e agent sha now).
Proof.
  induction rows as [|e rows (b & IH & Hb)]; cbn [find_hidden].
  { exists false. split; [done|]. split; [done|]. by intros (e & ?%not_elem_of_nil & _). }
  setoid_rewrite elem_of_cons. unfold str_eq. destruct (negb _ || _) eqn:E.
  - exists b. split; [done|]. rewrite Hb. split; [naive_solver|].
    intros (x & [->|Hx] & Hs & Hh & Ha); [|by exists x; auto]. rewrite Hs, Hh in E. done.
  - boolify. destruct (accepts_iff e agent sha now) as (a & -> & Ha). cbn [mbind result_bind]. destruct a.
    + exists true. split; [done|]. split; [|done]. intros _. exists e. split_and!; auto. by apply Ha.
    + exists b. split; [done|]. rewrite Hb. split; [naive_solver|].
      intros (x & [->|Hx] & Hs & Hh & Hx'); [|by exists x; auto]. by apply Ha in Hx'.
Qed.

(** C40: a row accepts an artifact exactly when it is verification evidence by
    someone other than the Attempt's agent, about these bytes, from a
    non-empty oracle, and unexpired; every refusal is an acceptance error.  A
    verified pass is moreover a PASS whose stored MAC is authentic.  A Task
    with a hidden oracle is accepted only if some PASS of a held-out or seeded
    oracle is acceptable; without one the rule adds nothing. *)
Theorem acceptance_spec env session e rows agent sha artifact required now :
  (check_verification_acceptance e agent sha now = Ok () <-> acceptable e agent sha now) /\
  (forall x, check_verification_acceptance e agent sha now = Err x -> exists msg, x = AcceptanceError msg) /\
  (is_verified_pass env session e agent artifact now = Ok true <->
     ev_status e = "PASS" /\ stored_content_mac_ok env session e = true /\
     exists digest, artifact = Some digest /\ digest <> "" /\ acceptable e agent digest now) /\
  (check_hidden_oracle_acceptance rows required agent sha now = Ok () <->
     (required = true -> exists r, r ∈ rows /\ ev_status r = "PASS" /\ is_hidden_oracle r = true /\ acceptable r agent sha now)).
Proof.
  split; [|split; [|split]].
  - destruct (acceptance_cases e agent sha now) as [[-> H]|(msg & -> & H)]; [done|]. by split.
  - intros x Hx. destruct (acceptance_cases e agent sha now) as [[Hc _]|(msg & Hc & _)]; rewrite Hc in Hx; [done|].
    injection Hx as <-. by exists msg.
  - unfold is_verified_pass, str_eq. destruct (negb _ || _) eqn:E.
    + split; [done|]. intros (Hs & _ & d & -> & Hd & _). rewrite Hs in E. destruct d; [done|]. done.
    + boolify. destruct artifact as [d|]; [|done]. change (or_empty (Some d)) with d.
      destruct (accepts_iff e agent d now) as (a & -> & Ha). cbn [mbind result_bind]. destruct a.
      * split; [intros [= Hm]; split_and!; [done|done|]; exists d; split_and!; [done|by destruct d|by apply Ha]|].
        by intros (_ & -> & _).
      * split; [done|]. intros (_ & _ & d' & [= <-] & _ & Hx). by apply Ha in Hx.
  - unfold check_hidden_oracle_acceptance. destruct required; [|by split].
    destruct (find_hidden_iff rows agent sha now) as (b & -> & Hb). cbn [negb mbind result_bind].
    destruct b; cbn; split; try done; [intros _ _; by apply Hb|]. intros H. by apply Hb in H.
Qed.
