(* ===== verification/Evaluate.v ===== *)
(** * Evaluate: the deterministic evaluator

    Models [src/sdf_core/evaluator.py]: the hardened command line, the run of
    one check and the evaluation of a Task's criteria.  The machine the check
    runs on (file system, sandboxed process, sealed copy of the fixture, random
    source) is a [Machine]: what each call of the evaluator would return. *)

From S2P Require Import Prelude Floats Json Db EvidenceMac Checks Oracle Acceptance.

(** ** Hardening the command line *)

Definition PYTEST_FLAGS : list string :=
  ["--noconftest"; "-c"; "/dev/null"; "--rootdir"; "/"; "-p"; "no:cacheprovider"; "--import-mode=append"].
Definition RUFF_FLAGS : list string := ["--isolated"; "--no-cache"].
Definition CLEARED_ENV : list string :=
  ["PYTHONPATH"; "PYTHONHOME"; "PYTHONSTARTUP"; "PYTHONINSPECT"; "PYTHONUSERBASE"; "PYTEST_ADDOPTS"; "PYTEST_PLUGINS"; "RUFF_CACHE_DIR"].
Definition CHECK_ENV : gmap string string :=
  {["PYTHONSAFEPATH" := "1"; "PYTHONNOUSERSITE" := "1"; "PYTHONDONTWRITEBYTECODE" := "1"; "PYTEST_DISABLE_PLUGIN_AUTOLOAD" := "1"]}.

(** The text of the bootstrap program and of the seal are arguments: the
    evaluator passes them on unread. *)
Record Texts : Type := { PYTHON_BOOTSTRAP : string; PYTEST_SEAL : string }.

Definition is_python (exe : string) : bool := str_in (basename exe) ["python"; "python3"].

Definition harden_argv (texts : Texts) (argv : list string) (pytest_python : option string) : result (list string) :=
  let exe := default "" (head argv) in
  let rest := tail argv in
  _ ← check_targets argv;
  if is_python exe then
    '(flags, mode, target, tl) ← python_invocation argv;
    let tl := if str_eq mode "-m" && str_eq target "pytest" then PYTEST_FLAGS ++ tl else tl in
    Ok ([exe; "-I"; "-B"] ++ flags ++ ["-c"; PYTHON_BOOTSTRAP texts; mode; target] ++ tl)
  else if str_eq (basename exe) "pytest" then
    match pytest_python with
    | Some python => Ok ([python; "-I"; "-B"; "-c"; PYTHON_BOOTSTRAP texts; "-m"; "pytest"] ++ PYTEST_FLAGS ++ rest)
    | None => Ok (exe :: PYTEST_FLAGS ++ rest)
    end
  else if str_eq (basename exe) "ruff" then
    match rest with
    | sub :: rest' => if negb (str_startswith "-" sub) then Ok (exe :: sub :: RUFF_FLAGS ++ rest') else Ok (exe :: RUFF_FLAGS ++ rest)
    | [] => Ok (exe :: RUFF_FLAGS)
    end
  else Ok argv.

Definition check_env (safe_path : string) : gmap string string := CHECK_ENV ∪ {["PATH" := safe_path]}.

(** ** Evidence *)

Record Evidence : Type := {
  evidence_id : string; e_attempt_id : string; e_kind : string; e_status : string; e_command : string;
  e_exit_code : option Z; e_stdout : string; e_stderr : string; e_confidence : float; e_criterion : option string;
  e_runner : option string; e_cleanup_error : option string; tree_after_sha256 : option string;
  e_evidence_class : option string; e_producer_identity : option string; e_producer_role : option string;
  e_verifier_identity : option string; e_verifier_role : option string; e_subject_artifact_sha256 : option string;
  e_oracle_digest : option string; e_environment_digest : option string; e_collected_at : option datetime;
  e_expires_at : option datetime; e_oracle_visibility : option string; e_input_seed : option string
}.

#[export] Instance Evidence_eq_dec : EqDecision Evidence.
Proof. solve_decision. Defined.

Record EvaluationResult : Type := { er_status : string; er_evidence : list Evidence }.

(** [_coverage_gap] *)
Definition coverage_gap (now : datetime) (attempt_id : string) (criterion : option string) (command detail : string) : Evidence := {|
  evidence_id := ""; e_attempt_id := attempt_id; e_kind := "evaluation"; e_status := "INCONCLUSIVE"; e_command := command;
  e_exit_code := None; e_stdout := ""; e_stderr := "coverage_gap: " +:+ detail; e_confidence := f_ratio 1 5; e_criterion := criterion;
  e_runner := None; e_cleanup_error := None; tree_after_sha256 := None;
  e_evidence_class := Some EVIDENCE_CLASS_VERIFICATION; e_producer_identity := Some EVALUATOR_IDENTITY;
  e_producer_role := Some EVALUATOR_ROLE; e_verifier_identity := Some EVALUATOR_IDENTITY; e_verifier_role := Some EVALUATOR_ROLE;
  e_subject_artifact_sha256 := None; e_oracle_digest := None; e_environment_digest := None;
  e_collected_at := Some now; e_expires_at := Some (dt_add now VERIFICATION_TTL); e_oracle_visibility := None; e_input_seed := None
|}.

Definition coverage_evidence (now : datetime) (attempt_id criterion : string) : Evidence :=
  coverage_gap now attempt_id (Some criterion) "<missing check>" ("no deterministic check mapped to criterion: " +:+ criterion).

Definition unmapped_evidence (now : datetime) (attempt_id criterion : string) : Evidence :=
  coverage_gap now attempt_id (Some criterion) "<unmapped criterion>" ("criterion is not declared by the task: " +:+ criterion).

(** ** Held-out output *)

Definition HELD_OUT_OUTPUT : string := "[held-out] evaluator output withheld (ADR 0040)".

(** [str.splitlines] on ASCII text. *)
Definition line_break (c : ascii) : bool :=
  let n := nat_of_ascii c in ((10 <=? n)%nat && (n <=? 13)%nat) || ((28 <=? n)%nat && (n <=? 30)%nat).

Fixpoint splitlines_from (line : string) (s : string) : list string :=
  match s with
  | EmptyString => if str_truthy line then [line] else []
  | String c t =>
      if negb (line_break c) then splitlines_from (line +:+ String c "") t
      else match t with
           | String d t' => if (nat_of_ascii c =? 13)%nat && (nat_of_ascii d =? 10)%nat then line :: splitlines_from "" t'
                            else line :: splitlines_from "" t
           | EmptyString => [line]
           end
  end.
Definition str_splitlines (s : string) : list string := splitlines_from "" s.

(** [_withhold_output] *)
Definition withhold_output (stdout stderr visibility : string) : string * string :=
  if negb (str_eq visibility "held_out") then (stdout, stderr)
  else
    let kept := map (str_take 300)
      (List.filter (fun line => str_startswith "[evaluator] " line || str_startswith "[acceptance] " line) (str_splitlines stderr)) in
    let body := match kept with [] => HELD_OUT_OUTPUT | _ => HELD_OUT_OUTPUT +:+ newline +:+ str_join newline kept end in
    (body, body).

(** [_public_command] *)
Fixpoint hide_inline (skip : bool) (argv : list string) : list string :=
  match argv with
  | [] => []
  | part :: rest => if skip then "<held-out>" :: hide_inline false rest else part :: hide_inline (str_eq part "-c") rest
  end.

Definition public_command (argv : list string) (visibility : string) : string :=
  if negb (str_eq visibility "held_out") then str_join " " argv else str_join " " (hide_inline false argv).

(** ** The machine a check runs on *)

(** [materialize] of [oracle.py]: the digest and root of the sealed copy,
    whether the check reads held-out files, and whether the sealed files had
    changed when the check ended. *)
Record Sealed : Type := { sd_oracle_digest : string; sd_root : string; sd_hide_oracle : bool; sd_changed : bool }.

(** [ProcessResult] *)
Record Completed : Type := {
  c_returncode : option Z; c_stdout : string; c_stderr : string; c_timed_out : bool; c_cleanup_error : option string
}.

Record Machine : Type := {
  m_now : datetime; m_platform : string; m_python : string; m_token_hex : string; m_texts : Texts;
  m_safe_path : string;
  m_resolve_executable : string -> option string;
  m_pytest_interpreter : string -> option string;
  (* is the resolved path inside the workspace; [None] when it does not resolve *)
  m_inside_workspace : string -> option bool;
  (* [_read_plain] of the server fixture, when there is one, and of the workspace *)
  m_fixture : option (string -> option string);
  m_workspace : string -> option string;
  m_materialize : list string -> list string -> string -> option string -> result Sealed;
  m_report_path : string; m_subject_base : string; m_subject_root : option Sealed -> string; m_subjects : option Sealed -> string;
  m_declared : list string -> Z;
  (* the sandbox is built and the process run in it, under a time limit *)
  m_run : float -> list string -> gmap string string -> result Completed;
  (* the JSON value of the result file after the run, if it can be read *)
  m_result_file : option json
}.

(** The evaluator's configuration; the backend is its name. *)
Record Evaluator : Type := {
  ev_timeout_seconds : float; ev_allowed_executables : list string; ev_containment_backend : option string;
  ev_require_containment : bool; ev_timeout_for : option (option string -> Z -> option float)
}.

(** [set(allowed_executables or ALLOWED_EXECUTABLES) & set(ALLOWED_EXECUTABLES)] *)
Definition narrowed (allowed : option (list string)) : list string :=
  List.filter (fun x => str_in x ALLOWED_EXECUTABLES) (match allowed with Some ((_ :: _) as l) => l | _ => ALLOWED_EXECUTABLES end).

Definition ev_runner (ev : Evaluator) : string := default "host" (ev_containment_backend ev).

(** [_verify_targets] *)
Fixpoint verify_targets (m : Machine) (targets : list string) : option string :=
  match targets with
  | [] => None
  | target :: rest =>
      if is_absolute target then
        match m_inside_workspace m target with
        | None => Some ("cannot resolve check file " +:+ target)
        | Some true => Some ("check file " +:+ target +:+ " is inside the workspace; name it relative to the fixture")
        | Some false => verify_targets m rest
        end
      else
        match m_fixture m with
        | None => Some ("check file " +:+ target +:+ " cannot be verified: no server fixture to compare it with")
        | Some fixture =>
            match fixture target with
            | None => Some ("check file " +:+ target +:+ " is not a regular file in the server fixture")
            | Some expected =>
                if is_held_out_path target then verify_targets m rest
                else if negb (opt_str_eq (m_workspace m target) (Some expected))
                then Some ("check file " +:+ target +:+ " differs from the server fixture (the agent changed or replaced it)")
                else verify_targets m rest
            end
        end
  end.

(** [_is_python_check] *)
Definition is_python_check (argv : list string) : bool := match argv with exe :: _ => is_python exe | [] => false end.

(** [_pytest_node_ids] *)
Definition pytest_node_ids (argv : list string) : result (list string) :=
  let name := match argv with exe :: _ => basename exe | [] => "" end in
  if str_eq name "pytest" then pytest_targets (tail argv)
  else if str_in name ["python"; "python3"] then
    '(_, mode, target, rest) ← python_invocation argv;
    if str_eq mode "-m" && str_eq target "pytest" then pytest_targets rest else Ok []
  else Ok [].

(** The exceptions of the sandbox that are a verdict, not a crash. *)
Definition run_error (e : exn) : bool :=
  match e with
  | ValueError _ | PermissionError _ | TimeoutError _ => true
  | OtherError cls _ => str_in cls ["ContainmentUnavailable"; "SandboxViolation"; "NetworkAccessDenied"; "OSError"; "FileNotFoundError";
      "FileExistsError"; "NotADirectoryError"; "IsADirectoryError"; "BlockingIOError"; "ChildProcessError"; "InterruptedError";
      "ProcessLookupError"; "ConnectionError"; "BrokenPipeError"; "ConnectionResetError"; "ConnectionRefusedError";
      "ConnectionAbortedError"; "UnicodeDecodeError"; "UnicodeEncodeError"]
  | _ => false
  end.

(** [except OracleTamper as exc], and its reason. *)
Definition tamper_reason (e : exn) : option string :=
  match e with OtherError cls reason => if str_eq cls "OracleTamper" then Some reason else None | _ => None end.

(** [s.lstrip("\n")] *)
Fixpoint lstrip_newlines (s : string) : string :=
  match s with
  | String c t => if (nat_of_ascii c =? 10)%nat then lstrip_newlines t else s
  | EmptyString => ""
  end.

Definition add_line (stderr line : string) : string := lstrip_newlines (stderr +:+ newline +:+ line).

(** [f"{x:g}"] of the time limit is text of a message only. *)
Definition timeout_note (timeout : string) : string := newline +:+ "timeout after " +:+ timeout +:+ "s".

Section run_one.
(** [format(x, "g")], which only words a message. *)
Context (format_g : float -> string) (ev : Evaluator) (m : Machine).

Definition env_digest (command : string) (runner oracle_digest : option string) : string :=
  environment_digest (m_platform m) (m_python m) command runner oracle_digest.

(** [_inconclusive] *)
Definition inconclusive (attempt_id : string) (index : Z) (rendered : string) (criterion : option string) (reason stdout : string)
    (runner subject oracle_digest visibility seed : option string) : Evidence := {|
  evidence_id := "EVIDENCE-" +:+ attempt_id +:+ "-" +:+ pretty index; e_attempt_id := attempt_id; e_kind := "evaluation";
  e_status := "INCONCLUSIVE"; e_command := rendered; e_exit_code := None; e_stdout := stdout; e_stderr := reason;
  e_confidence := f_ratio 1 5; e_criterion := criterion; e_runner := runner; e_cleanup_error := None; tree_after_sha256 := None;
  e_evidence_class := Some EVIDENCE_CLASS_VERIFICATION; e_producer_identity := Some EVALUATOR_IDENTITY;
  e_producer_role := Some EVALUATOR_ROLE; e_verifier_identity := Some EVALUATOR_IDENTITY; e_verifier_role := Some EVALUATOR_ROLE;
  e_subject_artifact_sha256 := subject; e_oracle_digest := oracle_digest;
  e_environment_digest := Some (env_digest rendered runner oracle_digest);
  e_collected_at := Some (m_now m); e_expires_at := Some (dt_add (m_now m) VERIFICATION_TTL);
  e_oracle_visibility := visibility; e_input_seed := seed
|}.

(** [_checked] *)
Definition checked (attempt_id : string) (index : Z) (rendered : string) (argv : list string) (criterion : option string)
    (status : string) (exit_code : option Z) (stdout stderr oracle_digest : string) (subject cleanup_error : option string)
    (visibility : string) (seed : option string) : Evidence :=
  let out := withhold_output stdout stderr visibility in {|
  evidence_id := "EVIDENCE-" +:+ attempt_id +:+ "-" +:+ pretty index; e_attempt_id := attempt_id; e_kind := "evaluation";
  e_status := status; e_command := public_command argv visibility; e_exit_code := exit_code; e_stdout := out.1; e_stderr := out.2;
  e_confidence := if str_eq status "PASS" then f_of_Z 1 else if str_eq status "INCONCLUSIVE" then f_ratio 1 5 else f_ratio 95 100;
  e_criterion := criterion; e_runner := Some (ev_runner ev); e_cleanup_error := cleanup_error; tree_after_sha256 := None;
  e_evidence_class := Some EVIDENCE_CLASS_VERIFICATION; e_producer_identity := Some EVALUATOR_IDENTITY;
  e_producer_role := Some EVALUATOR_ROLE; e_verifier_identity := Some EVALUATOR_IDENTITY; e_verifier_role := Some EVALUATOR_ROLE;
  e_subject_artifact_sha256 := subject; e_oracle_digest := Some oracle_digest;
  e_environment_digest := Some (env_digest rendered (Some (ev_runner ev)) (Some oracle_digest));
  e_collected_at := Some (m_now m); e_expires_at := Some (dt_add (m_now m) VERIFICATION_TTL);
  e_oracle_visibility := Some visibility; e_input_seed := seed
|}.

Record Ask : Type := {
  q_attempt_id : string; q_argv : list string; q_criterion : option string; q_index : Z; q_position : Z;
  q_subject : option string; q_policy : option OraclePolicy
}.

(** [stop], with the visibility and the seed as they are when it is called. *)
Definition stop (q : Ask) (visibility : string) (seed : option string) (reason stdout : string) (runner oracle_digest : option string) : Evidence :=
  let note := if str_eq visibility "held_out" && negb (str_startswith "[evaluator] " reason || str_startswith "[acceptance] " reason)
              then "[evaluator] " +:+ reason else reason in
  let out := withhold_output stdout (if str_eq visibility "held_out" then note else reason) visibility in
  inconclusive (q_attempt_id q) (q_index q) (public_command (q_argv q) visibility) (q_criterion q) out.2 out.1 runner
    (q_subject q) oracle_digest (Some visibility) seed.

(** May the command run at all? *)
Definition argv_problem (argv : list string) : option string :=
  match argv with
  | [] => Some "executable is not allowlisted (bare name required)"
  | exe :: _ =>
      if str_has_char slash exe || str_has_char (ascii_of_nat 92) exe || negb (str_in exe (ev_allowed_executables ev))
      then Some "executable is not allowlisted (bare name required)"
      else if existsb (str_has_char (ascii_of_nat 0)) argv then Some "argument contains a NUL byte" else None
  end.

(** The process line with its executable resolved; [inl] is why it cannot run. *)
Definition resolve_argv (argv process_argv : list string) : result (string + list string) :=
  match ev_containment_backend ev with
  | Some _ => Ok (inr process_argv)
  | None =>
      if ev_require_containment ev then Ok (inl "evaluator containment is required but no backend is configured") else
      let exe := default "" (head argv) in
      match m_resolve_executable m exe with
      | None => Ok (inl "executable not found outside the workspace")
      | Some executable =>
          if str_eq (basename exe) "pytest" then
            match m_pytest_interpreter m executable with
            | None => Ok (inl "cannot find the python interpreter of the pytest executable")
            | Some interpreter => l ← harden_argv (m_texts m) argv (Some interpreter); Ok (inr l)
            end
          else Ok (inr (executable :: tail process_argv))
      end
  end.

(** The verdict of a process that ended. *)
Definition verdict (argv : list string) (sealed : option Sealed) (report : bool) (completed : Completed) : result (string * string) :=
  let status := if bool_decide (c_returncode completed = Some 0) then "PASS" else "FAIL" in
  let changed := match sealed with Some s => sd_changed s | None => false end in
  let noted (v : string * string) := (v.1, if str_truthy v.2 then add_line (c_stderr completed) ("[evaluator] " +:+ v.2) else c_stderr completed) in
  if is_pytest argv && report then
    ids ← pytest_node_ids argv;
    Ok (noted (pytest_oracle_verdict (c_returncode completed) (m_result_file m ≫= parse_result_frame) (m_declared m ids) changed))
  else if bool_decide (ev_containment_backend ev = None) && report && is_python_check argv && negb (is_pytest argv) then
    Ok (noted (script_oracle_verdict (c_returncode completed) (m_result_file m ≫= parse_script_result) changed))
  else if changed then Ok ("INCONCLUSIVE", add_line (c_stderr completed) "oracle files changed while the check ran")
  else Ok (status, c_stderr completed).

(** The variables a check with a result file gets. *)
Definition seal_env (argv : list string) (sealed : option Sealed) (env : gmap string string) : gmap string string :=
  <["SDF_ORACLE_SEAL" := PYTEST_SEAL (m_texts m)]> (<["SDF_ORACLE_REPORT" := m_report_path m]>
  (<["SDF_ORACLE_KIND" := if is_pytest argv then "pytest" else "script"]> (<["SDF_ORACLE_HIDE" := "1"]>
  (<["SDF_ORACLE_SUBJECT_ROOT" := m_subject_root m sealed]> (<["SDF_ORACLE_SUBJECTS" := m_subjects m sealed]> env))))).

Definition seed_env (seed : option string) (env : gmap string string) : gmap string string :=
  match seed with Some s => if str_truthy s then <["SDF_ORACLE_SEED" := s]> env else env | None => env end.

(** The body of the [try]: the sealed copy is made, the process run and judged. *)
Definition run_sealed (q : Ask) (visibility : string) (randomized : bool) (timeout : float) (targets process_argv : list string) : result Evidence :=
  let argv := q_argv q in
  let report := is_python_check argv || is_pytest argv in
  let seed := if randomized then Some (m_token_hex m) else None in
  let sealable := bool_decide (is_Some (m_fixture m)) && negb (existsb is_absolute targets) in
  match (if sealable then Some <$> m_materialize m targets argv visibility seed else Ok None) with
  | Err e => match tamper_reason e with Some reason => Ok (stop q visibility seed reason "" None None) | None => Err e end
  | Ok sealed =>
      let visibility := match sealed with Some s => if sd_hide_oracle s then "held_out" else visibility | None => visibility end in
      let process_argv := if report && is_pytest argv then retarget_pytest process_argv (bool_decide (is_Some sealed)) else process_argv in
      if report && str_eq (basename (default "" (head process_argv))) "pytest"
      then Ok (stop q visibility seed "oracle result channel is not sealed for a bare pytest executable" "" None (sd_oracle_digest <$> sealed))
      else
        oracle_digest ← match sealed with Some s => Ok (sd_oracle_digest s) | None => seal_oracle_digest argv [] visibility seed end;
        let env := check_env (m_safe_path m) in
        let env := if report then seal_env argv sealed env else env in
        let env := <["SDF_SUBJECT_BASE" := m_subject_base m]> (seed_env seed env) in
        match m_run m timeout process_argv env with
        | Err e =>
            if run_error e
            then Ok (stop q visibility seed (str_take 500 ("check could not run: " +:+ exn_class e +:+ ": " +:+ exn_text e)) ""
                       (Some (ev_runner ev)) (Some oracle_digest))
            else Err e
        | Ok completed =>
            if c_timed_out completed
            then Ok (stop q visibility seed (c_stderr completed +:+ timeout_note (format_g timeout)) (c_stdout completed)
                       (Some (ev_runner ev)) (Some oracle_digest))
            else
              v ← verdict argv sealed report completed;
              let stderr := match c_cleanup_error completed with
                            | Some e => if str_truthy e then add_line v.2 ("[evaluator] cleanup failed: " +:+ e) else v.2
                            | None => v.2
                            end in
              Ok (checked (q_attempt_id q) (q_index q) (str_join " " argv) argv (q_criterion q) v.1 (c_returncode completed)
                    (c_stdout completed) stderr oracle_digest (q_subject q) (c_cleanup_error completed) visibility seed)
        end
  end.

(** [timeout_for(criterion, position) or timeout] *)
Definition check_timeout (criterion : option string) (position : Z) : float :=
  match ev_timeout_for ev with
  | Some f => match f criterion position with Some t => if f_truthy t then t else ev_timeout_seconds ev | None => ev_timeout_seconds ev end
  | None => ev_timeout_seconds ev
  end.

(** [_run_one] *)
Definition run_one (q : Ask) : result Evidence :=
  let argv := q_argv q in
  let visibility := match q_policy q with Some p => op_visibility p | None => "visible" end in
  let randomized := match q_policy q with Some p => op_randomized p | None => false end in
  let stop := fun visibility reason => Ok (stop q visibility None reason "" None None) in
  match argv_problem argv with
  | Some reason => stop visibility reason
  | None =>
      match (process_argv ← harden_argv (m_texts m) argv None; targets ← check_targets argv; Ok (process_argv, targets)) with
      | Err (ValueError msg) => stop visibility ("unsupported check form: " +:+ msg)
      | Err e => Err e
      | Ok (process_argv, targets) =>
          let visibility := if existsb is_held_out_path targets then "held_out" else visibility in
          match verify_targets m targets with
          | Some problem => stop visibility problem
          | None =>
              resolved ← resolve_argv argv process_argv;
              match resolved with
              | inl reason => stop visibility reason
              | inr process_argv => run_sealed q visibility randomized (check_timeout (q_criterion q) (q_position q)) targets process_argv
              end
          end
      end
  end.
End run_one.

(** ** The evaluation of a Task *)

Section evaluate.
(** The machine, the clock and the caller's [after_check] at the time of the
    n-th item of Evidence. *)
Context (format_g : float -> string) (ev : Evaluator) (mach : Z -> Machine) (after_check : Z -> Evidence -> Evidence).

(** The arguments of [evaluate]; a mapping is the list of its items. *)
Record Request : Type := {
  r_attempt_id : string; r_commands : option (list (list string)); r_criteria : option (list string);
  r_criterion_checks : option (list (string * list (list string))); r_subject : option string;
  r_policies : gmap (string * Z) OraclePolicy
}.

(** [index] and [evidence]. *)
Definition Acc : Type := Z * list Evidence.

Definition add (attempt_id : string) (acc : Acc) (item : Evidence) : Acc :=
  let index := acc.1 + 1 in
  (index, acc.2 ++ [item {{ evidence_id := "EVIDENCE-" +:+ attempt_id +:+ "-" +:+ pretty index }}]).

Definition run_and_add (rq : Request) (criterion : option string) (acc : Acc) (pc : Z * list string) : result Acc :=
  let index := acc.1 + 1 in
  e ← run_one format_g ev (mach index)
        {| q_attempt_id := r_attempt_id rq; q_argv := pc.2; q_criterion := criterion; q_index := index; q_position := pc.1;
           q_subject := r_subject rq; q_policy := r_policies rq !! (or_empty criterion, pc.1) |};
  Ok (add (r_attempt_id rq) acc (after_check index e)).

(** [enumerate(l)] *)
Definition enumerate {A} (l : list A) : list (Z * A) := imap (fun i x => (Z.of_nat i, x)) l.

Definition legacy_commands (rq : Request) : list (list string) :=
  match r_criterion_checks rq with None => default [] (r_commands rq) | Some _ => [] end.
Definition request_checks (rq : Request) : list (string * list (list string)) := default [] (r_criterion_checks rq).
Definition mapped (rq : Request) (criterion : string) : list (list string) :=
  default [] (snd <$> List.find (fun kv => str_eq kv.1 criterion) (request_checks rq)).
Definition strict_coverage (rq : Request) : bool := bool_decide (is_Some (r_criteria rq)) || bool_decide (is_Some (r_criterion_checks rq)).
Definition expected_criteria (rq : Request) : list string :=
  match r_criteria rq with Some l => l | None => map fst (request_checks rq) end.

Definition eval_criterion (rq : Request) (st : Acc * list string) (criterion : string) : result (Acc * list string) :=
  let '(acc, covered) := st in
  match mapped rq criterion with
  | [] => Ok (add (r_attempt_id rq) acc (coverage_evidence (m_now (mach (acc.1 + 1))) (r_attempt_id rq) criterion), covered)
  | commands => acc ← result_fold (run_and_add rq (Some criterion)) acc (enumerate commands); Ok (acc, criterion :: covered)
  end.

Definition eval_unmapped (rq : Request) (covered : list string) (acc : Acc) (criterion : string) : Acc :=
  if negb (str_in criterion covered) && negb (str_in criterion (expected_criteria rq))
  then add (r_attempt_id rq) acc (unmapped_evidence (m_now (mach (acc.1 + 1))) (r_attempt_id rq) criterion) else acc.

Definition overall_status (rq : Request) (covered : list string) (evidence : list Evidence) : string :=
  let statuses := map e_status evidence in
  if str_in "FAIL" statuses then "FAIL"
  else if str_in "INCONCLUSIVE" statuses then "INCONCLUSIVE"
  else if strict_coverage rq && (bool_decide (expected_criteria rq = []) ||
            negb (bool_decide ((list_to_set covered : gset string) = list_to_set (expected_criteria rq)))) then "INCONCLUSIVE"
  else "PASS".

Definition evaluate (rq : Request) : result EvaluationResult :=
  '(acc, covered) ← result_fold (eval_criterion rq) ((0, []), []) (expected_criteria rq);
  let acc := fold_left (eval_unmapped rq covered) (map fst (request_checks rq)) acc in
  acc ← result_fold (fun acc command => run_and_add rq None acc (0, command)) acc (legacy_commands rq);
  let acc := match acc.2 with
             | [] => add (r_attempt_id rq) acc (coverage_gap (m_now (mach (acc.1 + 1))) (r_attempt_id rq) None
                       "<no evaluator commands>" "no evaluator commands supplied")
             | _ => acc
             end in
  Ok {| er_status := overall_status rq covered acc.2; er_evidence := acc.2 |}.
End evaluate.

(** ** What a passing check proves *)

(** The check's file is the server's: outside the workspace, or the workspace
    copy is byte for byte the fixture's (a held-out file has no copy). *)
Definition trusted_target (m : Machine) (t : string) : Prop :=
  if is_absolute t then m_inside_workspace m t = Some false
  else exists fixture bytes, m_fixture m = Some fixture /\ fixture t = Some bytes /\
         (is_held_out_path t = true \/ m_workspace m t = Some bytes).

Lemma verify_targets_None m targets : verify_targets m targets = None <-> Forall (trusted_target m) targets.
Proof.
  induction targets as [|t l IH]; [by split|]. rewrite Forall_cons. cbn [verify_targets]. unfold trusted_target at 1.
  destruct (is_absolute t).
  - destruct (m_inside_workspace m t) as [[]|]; [split; [done|by intros [? _]]|rewrite IH; tauto|split; [done|by intros [? _]]].
  - destruct (m_fixture m) as [f|]; [|split; [done|by intros [(? & ? & [=] & _) _]]].
    destruct (f t) as [b|] eqn:Hb; [|split; [done|intros [(f' & b & [= <-] & Hx & _) _]; congruence]].
    destruct (is_held_out_path t) eqn:Hh.
    + rewrite IH. split; [|tauto]. intros ?. split; [|done]. exists f, b. split_and!; auto.
    + unfold opt_str_eq. case_bool_decide as Hw; cbn [negb].
      * rewrite IH. split; [|tauto]. intros ?. split; [|done]. exists f, b. split_and!; auto.
      * split; [done|]. intros [(f' & b' & [= <-] & Hx & [?|?]) _]; [done|]. rewrite Hb in Hx. injection Hx as <-. done.
Qed.

(** A bare, allowlisted executable and no NUL byte. *)
Definition plain_command (ev : Evaluator) (argv : list string) : Prop :=
  exists exe rest, argv = exe :: rest /\ str_in exe (ev_allowed_executables ev) = true /\
    str_has_char slash exe = false /\ str_has_char (ascii_of_nat 92) exe = false /\
    forall part, part ∈ argv -> str_has_char (ascii_of_nat 0) part = false.

Lemma argv_problem_None ev argv : argv_problem ev argv = None -> plain_command ev argv.
Proof.
  unfold argv_problem. destruct argv as [|exe rest]; [done|]. destruct (_ || _) eqn:E; [done|]. boolify.
  destruct (existsb _ _) eqn:Hx; [done|]. intros _. exists exe, rest. split_and!; try done. intros part Hp.
  apply not_true_iff_false. intros Hn. apply not_true_iff_false in Hx. apply Hx, List.existsb_exists. exists part.
  split; [by apply list_elem_of_In|done].
Qed.

(** The line the process runs: the hardened argv, its executable resolved when
    it runs on the host, and the report plugin added to a pytest line. *)
Definition hardened_line (ev : Evaluator) (m : Machine) (argv line : list string) : Prop :=
  exists l, (exists python, harden_argv (m_texts m) argv python = Ok l) /\
    (line = l \/ (ev_containment_backend ev = None /\ exists exe, line = exe :: tail l)).

Lemma resolve_argv_inr ev m argv process_argv line : harden_argv (m_texts m) argv None = Ok process_argv ->
  resolve_argv ev m argv process_argv = Ok (inr line) -> hardened_line ev m argv line.
Proof.
  unfold resolve_argv. intros Hh H. destruct (ev_containment_backend ev) eqn:Hb; [injection H as <-; exists process_argv; eauto|].
  destruct (ev_require_containment ev); [done|]. destruct (m_resolve_executable m _) as [exe|]; [|done].
  destruct (str_eq _ _).
  - destruct (m_pytest_interpreter m exe) as [python|]; [|done]. apply bind_Ok in H as (l & Hl & [= <-]). exists l. eauto.
  - injection H as <-. exists process_argv. split; [by eexists|]. right. split; [done|by eexists].
Qed.

(** The report of a run the evaluator believes. *)
Definition believed (ev : Evaluator) (m : Machine) (argv : list string) : Prop :=
  (is_pytest argv = true -> exists f, m_result_file m ≫= parse_result_frame = Some f /\ pf_failed f = 0 /\ pf_errors f = 0 /\
     0 < pf_passed f /\ pf_exitstatus f = 0 /\ pf_collected f = pf_testscollected f /\
     exists ids, pytest_node_ids argv = Ok ids /\ (m_declared m ids <= pf_collected f \/ m_declared m ids = 0)) /\
  (is_pytest argv = false -> is_python_check argv = true -> ev_containment_backend ev = None ->
     exists f, m_result_file m ≫= parse_script_result = Some f /\ sf_completed f = 1 /\ sf_exitstatus f = 0).

Lemma pytest_verdict_pass code frame declared changed : (pytest_oracle_verdict code frame declared changed).1 = "PASS" ->
  changed = false /\ code = Some 0 /\ exists f, frame = Some f /\ pf_failed f = 0 /\ pf_errors f = 0 /\ pf_passed f <> 0 /\
    pf_exitstatus f = 0 /\ pf_collected f = pf_testscollected f /\ (declared <= pf_collected f \/ declared = 0).
Proof.
  unfold pytest_oracle_verdict. destruct changed; [done|]. destruct frame as [f|]; [|by destruct (bool_decide _)].
  intros H. repeat match type of H with (if ?c then _ else _).1 = _ => destruct c eqn:?; [discriminate H|] end.
  boolify. split_and!; try done. exists f. split_and!; try done.
  match goal with H : negb (declared =? 0) && _ = false |- _ => apply andb_false_iff in H as [H|H] end; boolify; [by right|left; lia].
Qed.

Lemma script_verdict_pass code frame changed : (script_oracle_verdict code frame changed).1 = "PASS" ->
  changed = false /\ code = Some 0 /\ exists f, frame = Some f /\ sf_completed f = 1 /\ sf_exitstatus f = 0.
Proof.
  unfold script_oracle_verdict. destruct changed; [done|]. destruct frame as [f|].
  - intros H. repeat match type of H with (if ?c then _ else _).1 = _ => destruct c eqn:?; [discriminate H|] end.
    boolify. split_and!; try done. by exists f.
  - intros H. repeat match type of H with (if ?c then _ else _).1 = _ => destruct c eqn:?; try discriminate H end.
Qed.

Lemma verdict_pass ev m argv sealed completed v : verdict ev m argv sealed (is_python_check argv || is_pytest argv) completed = Ok v ->
  v.1 = "PASS" -> c_returncode completed = Some 0 /\ (forall s, sealed = Some s -> sd_changed s = false) /\ believed ev m argv.
Proof.
  unfold verdict, believed. intros H Hp.
  destruct (is_pytest argv) eqn:Epy; rewrite ?orb_true_r, ?orb_false_r in H; cbn [andb] in H.
  - apply bind_Ok in H as (ids & Hids & [= <-]). cbn [fst] in Hp. apply pytest_verdict_pass in Hp as (Hc & Hz & f & Hf & H1 & H2 & H3 & H4 & H5 & H6).
    split_and!; [done|by intros s ->| |done]. intros _. exists f. split_and!; try done; [|by exists ids].
    destruct (m_result_file m); [|done]. apply parse_result_frame_Some in Hf. lia.
  - destruct (bool_decide (ev_containment_backend ev = None) && is_python_check argv && is_python_check argv && negb false) eqn:Es.
    + injection H as <-. apply script_verdict_pass in Hp as (Hc & Hz & f & Hf & H1 & H2). split_and!; [done|by intros s ->|done|eauto].
    + assert ((match sealed with Some s => sd_changed s | None => false end) = false /\ c_returncode completed = Some 0) as [Hc Hz].
      { destruct (match sealed with Some s => sd_changed s | None => false end); [injection H as <-; done|]. injection H as <-.
        cbn [fst] in Hp. case_bool_decide; done. }
      split_and!; [done|intros s ->; done|done|]. intros _ Hpy Hb. rewrite Hpy, bool_decide_eq_true_2 in Es; done.
Qed.

Lemma stop_status m q visibility seed reason stdout runner digest : e_status (stop m q visibility seed reason stdout runner digest) <> "PASS".
Proof. done. Qed.

(** The environment of a check carries none of the variables that could steer
    its interpreter. *)
Definition cleared (env : gmap string string) : Prop := forall k, k ∈ CLEARED_ENV -> env !! k = None.

Lemma cleared_insert k v env : k ∉ CLEARED_ENV -> cleared env -> cleared (<[k := v]> env).
Proof. intros Hk He j Hj. rewrite lookup_insert_ne; [by apply He|congruence]. Qed.

Lemma check_env_cleared path : cleared (check_env path).
Proof.
  intros k Hk. unfold check_env. apply lookup_union_None. unfold CLEARED_ENV in Hk.
  repeat (apply elem_of_cons in Hk as [->|Hk]; [split; [reflexivity|by rewrite lookup_singleton_ne]|]). by apply not_elem_of_nil in Hk.
Qed.

Ltac not_cleared := match goal with |- ?k ∉ CLEARED_ENV => apply (proj1 (bool_decide_eq_true (k ∉ CLEARED_ENV))); vm_compute; reflexivity end.

Lemma seal_env_cleared m argv sealed env : cleared env -> cleared (seal_env m argv sealed env).
Proof. intros He. unfold seal_env. repeat (apply cleared_insert; [not_cleared|]). done. Qed.

Lemma seed_env_cleared seed env : cleared env -> cleared (seed_env seed env).
Proof. intros He. unfold seed_env. destruct seed as [s|]; [|done]. destruct (str_truthy s); [|done]. apply cleared_insert; [not_cleared|done]. Qed.

(** A process of this line ended by itself, with exit code 0, in a cleared environment. *)
Definition ran (m : Machine) (line : list string) (completed : Completed) : Prop :=
  exists timeout env, m_run m timeout line env = Ok completed /\ cleared env /\
    c_timed_out completed = false /\ c_returncode completed = Some 0.

(** The evaluator vouches for the row: who verified, which artifact, which oracle. *)
Definition vouched (q : Ask) (e : Evidence) : Prop :=
  e_evidence_class e = Some "verification" /\ e_verifier_identity e = Some "sdf-evaluator" /\ e_verifier_role e = Some "evaluator" /\
  e_subject_artifact_sha256 e = q_subject q /\ is_Some (e_oracle_digest e) /\ e_criterion e = q_criterion q /\ e_exit_code e = Some 0.

Lemma run_sealed_pass fmt ev m q visibility randomized timeout targets line e :
  run_sealed fmt ev m q visibility randomized timeout targets line = Ok e -> e_status e = "PASS" ->
  exists sealed completed, ran m (if is_pytest (q_argv q) then retarget_pytest line sealed else line) completed /\
    believed ev m (q_argv q) /\ vouched q e.
Proof.
  unfold run_sealed. intros H Hp.
  match type of H with context [match ?r with Ok _ => _ | Err _ => _ end] => destruct r as [sealed|x] end.
  2: { destruct (tamper_reason x); [injection H as <-; by destruct (stop_status _ _ _ _ _ _ _ _ Hp)|done]. }
  cbv zeta in H. destruct (_ && str_eq _ "pytest"); [injection H as <-; by destruct (stop_status _ _ _ _ _ _ _ _ Hp)|].
  apply bind_Ok in H as (digest & _ & H).
  match type of H with context [m_run m timeout ?l ?v] => set (argv' := l) in *; set (env := v) in * end.
  destruct (m_run m timeout argv' env) as [completed|x] eqn:Hrun.
  2: { destruct (run_error x); [injection H as <-; by destruct (stop_status _ _ _ _ _ _ _ _ Hp)|done]. }
  destruct (c_timed_out completed) eqn:Ht; [injection H as <-; by destruct (stop_status _ _ _ _ _ _ _ _ Hp)|].
  apply bind_Ok in H as (v & Hv & [= <-]). cbn [checked e_status] in Hp. apply verdict_pass in Hv as (Hz & _ & Hb); [|done].
  exists (bool_decide (is_Some sealed)), completed. split_and!; [|done|].
  - exists timeout, env. split_and!; try done.
    + rewrite <- Hrun. f_equal. unfold argv'. by destruct (is_pytest (q_argv q)); rewrite ?orb_true_r, ?andb_false_r.
    + unfold env. apply cleared_insert; [not_cleared|]. apply seed_env_cleared.
      destruct (_ || _); [apply seal_env_cleared|]; apply check_env_cleared.
  - by split_and!.
Qed.

(** C7: a check is recorded as PASS only if a bare, allowlisted command of a
    supported form, all of whose files are the server's, ran in its hardened
    form, under an environment cleared of everything that steers an
    interpreter, ended by itself with exit code 0, and left the report the
    notary writes for a complete run: for pytest, every test counted and none
    failed; for any other Python command that no containment backend runs, the
    oracle reached its end (a contained one is believed on its exit code, and
    so is a command that is not Python).  The row names the evaluator as verifier,
    the artifact it was asked about and an oracle. *)
Theorem run_one_pass fmt ev m q e : run_one fmt ev m q = Ok e -> e_status e = "PASS" ->
  plain_command ev (q_argv q) /\
  (exists targets, check_targets (q_argv q) = Ok targets /\ Forall (trusted_target m) targets) /\
  (exists line sealed completed, hardened_line ev m (q_argv q) line /\
     ran m (if is_pytest (q_argv q) then retarget_pytest line sealed else line) completed) /\
  believed ev m (q_argv q) /\ vouched q e.
Proof.
  unfold run_one. intros H Hp. cbv zeta in H.
  destruct (argv_problem ev (q_argv q)) eqn:Ha; [injection H as <-; by destruct (stop_status _ _ _ _ _ _ _ _ Hp)|].
  apply argv_problem_None in Ha.
  destruct (harden_argv _ _ None) as [process_argv|x] eqn:Hh; cbn [mbind result_bind] in H.
  2: { destruct x; try discriminate H. injection H as <-. by destruct (stop_status _ _ _ _ _ _ _ _ Hp). }
  destruct (check_targets (q_argv q)) as [targets|x] eqn:Ht; cbn [mbind result_bind] in H.
  2: { destruct x; try discriminate H. injection H as <-. by destruct (stop_status _ _ _ _ _ _ _ _ Hp). }
  destruct (verify_targets m targets) eqn:Hv; [injection H as <-; by destruct (stop_status _ _ _ _ _ _ _ _ Hp)|].
  apply verify_targets_None in Hv. apply bind_Ok in H as ([reason|line] & Hr & H); [injection H as <-; by destruct (stop_status _ _ _ _ _ _ _ _ Hp)|].
  apply run_sealed_pass in H as (sealed & completed & Hran & Hb & Hvo); [|done].
  split_and!; [done|by exists targets| |done|done]. exists line, sealed, completed. split; [|done].
  by eapply resolve_argv_inr.
Qed.

(** Whatever its outcome, the row of a check has one of the three statuses, is
    verification evidence and names the criterion asked about. *)
Definition row_of (q : Ask) (e : Evidence) : Prop :=
  e_status e ∈ STATUSES /\ e_evidence_class e = Some "verification" /\ tree_after_sha256 e = None /\ e_criterion e = q_criterion q.

Lemma stop_row m q visibility seed reason stdout runner digest : row_of q (stop m q visibility seed reason stdout runner digest).
Proof. split_and!; try done. unfold STATUSES. set_solver. Qed.

Lemma verdict_status ev m argv sealed report completed v : verdict ev m argv sealed report completed = Ok v -> v.1 ∈ STATUSES.
Proof.
  unfold verdict. destruct (_ && report).
  - intros (ids & _ & [= <-])%bind_Ok. cbn [fst]. unfold pytest_oracle_verdict, STATUSES. repeat case_match; cbn; set_solver.
  - destruct (_ && _); [intros [= <-]; cbn [fst]; unfold script_oracle_verdict, STATUSES; repeat case_match; cbn; set_solver|].
    destruct (match sealed with Some _ => _ | None => _ end); intros [= <-]; unfold STATUSES; cbn; repeat case_match; set_solver.
Qed.

Lemma run_sealed_row fmt ev m q visibility randomized timeout targets line e :
  run_sealed fmt ev m q visibility randomized timeout targets line = Ok e -> row_of q e.
Proof.
  unfold run_sealed. intros H.
  match type of H with context [match ?r with Ok _ => _ | Err _ => _ end] => destruct r as [sealed|x] end.
  2: { destruct (tamper_reason x); [injection H as <-; apply stop_row|done]. }
  cbv zeta in H. destruct (_ && str_eq _ "pytest"); [injection H as <-; apply stop_row|]. apply bind_Ok in H as (digest & _ & H).
  destruct (m_run _ _ _ _) as [completed|x]; [|destruct (run_error x); [injection H as <-; apply stop_row|done]].
  destruct (c_timed_out completed); [injection H as <-; apply stop_row|]. apply bind_Ok in H as (v & Hv & [= <-]).
  split_and!; try done. by apply verdict_status in Hv.
Qed.

Lemma run_one_row fmt ev m q e : run_one fmt ev m q = Ok e -> row_of q e.
Proof.
  unfold run_one. intros H. cbv zeta in H. destruct (argv_problem ev (q_argv q)); [injection H as <-; apply stop_row|].
  match type of H with context [match ?r with Ok _ => _ | Err _ => _ end] => destruct r as [[line targets]|x] end.
  2: { destruct x; try discriminate H. injection H as <-. apply stop_row. }
  destruct (verify_targets m targets); [injection H as <-; apply stop_row|].
  apply bind_Ok in H as ([reason|line'] & _ & H); [injection H as <-; apply stop_row|]. by eapply run_sealed_row.
Qed.

(** ** What an evaluation is *)

(** The criterion has a check. *)
Definition has_checks (rq : Request) (c : string) : bool := match mapped rq c with [] => false | _ => true end.

(** One row of Evidence to come. *)
Inductive Item : Type :=
  | Gap (criterion : string)
  | Run (criterion : option string) (position : Z) (command : list string)
  | Unmapped (criterion : string)
  | Nothing.

Definition plan_criterion (rq : Request) (c : string) : list Item :=
  match mapped rq c with [] => [Gap c] | commands => map (fun pc => Run (Some c) pc.1 pc.2) (enumerate commands) end.

Definition plan_rows (rq : Request) : list Item :=
  (expected_criteria rq ≫= plan_criterion rq) ++
  map Unmapped (List.filter (fun c => negb (str_in c (expected_criteria rq))) (map fst (request_checks rq))) ++
  map (Run None 0) (legacy_commands rq).

Definition plan (rq : Request) : list Item := match plan_rows rq with [] => [Nothing] | rows => rows end.

(** [f] at 1, 2, 3, ... *)
Definition numbered {A} (l : list A) : list (Z * A) := imap (fun i x => (1 + Z.of_nat i, x)) l.

Section reference.
Context (format_g : float -> string) (ev : Evaluator) (mach : Z -> Machine) (after_check : Z -> Evidence -> Evidence).

Definition produce (rq : Request) (n : Z) (item : Item) : result Evidence :=
  match item with
  | Gap c => Ok (coverage_evidence (m_now (mach n)) (r_attempt_id rq) c)
  | Unmapped c => Ok (unmapped_evidence (m_now (mach n)) (r_attempt_id rq) c)
  | Nothing => Ok (coverage_gap (m_now (mach n)) (r_attempt_id rq) None "<no evaluator commands>" "no evaluator commands supplied")
  | Run criterion position command =>
      e ← run_one format_g ev (mach n)
            {| q_attempt_id := r_attempt_id rq; q_argv := command; q_criterion := criterion; q_index := n; q_position := position;
               q_subject := r_subject rq; q_policy := r_policies rq !! (or_empty criterion, position) |};
      Ok (after_check n e)
  end.

Definition with_number (rq : Request) (n : Z) (e : Evidence) : Evidence :=
  e {{ evidence_id := "EVIDENCE-" +:+ r_attempt_id rq +:+ "-" +:+ pretty n }}.

Definition numbered_row (rq : Request) (p : Z * Item) : result Evidence := e ← produce rq p.1 p.2; Ok (with_number rq p.1 e).

(** The worst status; an empty list of criteria is not a pass. *)
Definition statuses_overall (rq : Request) (evidence : list Evidence) : string :=
  if str_in "FAIL" (map e_status evidence) then "FAIL"
  else if str_in "INCONCLUSIVE" (map e_status evidence) || (strict_coverage rq && bool_decide (expected_criteria rq = []))
  then "INCONCLUSIVE" else "PASS".

(** The rows of the plan, in order, and the worst status among them. *)
Definition reference_evaluate (rq : Request) : result EvaluationResult :=
  evidence ← result_map (numbered_row rq) (numbered (plan rq));
  Ok {| er_status := statuses_overall rq evidence; er_evidence := evidence |}.

(** ** The loops follow the plan *)

Definition step (rq : Request) (acc : Acc) (item : Item) : result Acc :=
  e ← produce rq (acc.1 + 1) item; Ok (add (r_attempt_id rq) acc e).

Lemma result_fold_app {A S} (f : S -> A -> result S) s l k : result_fold f s (l ++ k) = (s ← result_fold f s l; result_fold f s k).
Proof. revert s. induction l as [|x l IH]; intros s; [done|]. cbn [app result_fold]. destruct (f s x); [apply IH|done]. Qed.

Lemma result_fold_map {A B S} (f : S -> B -> result S) (g : A -> B) s l :
  result_fold f s (map g l) = result_fold (fun s x => f s (g x)) s l.
Proof. revert s. induction l as [|x l IH]; intros s; [done|]. cbn. destruct (f s (g x)); [apply IH|done]. Qed.

Lemma step_check rq criterion acc pc : step rq acc (Run criterion pc.1 pc.2) = run_and_add format_g ev mach after_check rq criterion acc pc.
Proof. unfold step, run_and_add, produce. by destruct (run_one _ _ _ _). Qed.

Lemma loop_run rq criterion l : forall acc,
  result_fold (fun s x => step rq s (Run criterion x.1 x.2)) acc l = result_fold (run_and_add format_g ev mach after_check rq criterion) acc l.
Proof.
  induction l as [|x l IH]; intros acc; [done|]. cbn [result_fold]. rewrite step_check.
  destruct (run_and_add _ _ _ _ _ _ _ _); [apply IH|done].
Qed.

Lemma loop_criteria rq l : forall acc covered,
  result_fold (eval_criterion format_g ev mach after_check rq) (acc, covered) l =
  (acc ← result_fold (step rq) acc (l ≫= plan_criterion rq);
   Ok (acc, reverse (List.filter (fun c => has_checks rq c) l) ++ covered)).
Proof.
  induction l as [|c l IH]; intros acc covered; [done|].
  change ((c :: l) ≫= plan_criterion rq) with (plan_criterion rq c ++ (l ≫= plan_criterion rq)). rewrite result_fold_app.
  cbn [List.filter]. destruct (mapped rq c) as [|cmd cmds] eqn:Hm.
  - assert (plan_criterion rq c = [Gap c]) as -> by (unfold plan_criterion; by rewrite Hm).
    assert (has_checks rq c = false) as -> by (unfold has_checks; by rewrite Hm).
    cbn [result_fold eval_criterion]. rewrite Hm. exact (IH _ _).
  - assert (plan_criterion rq c = map (fun pc => Run (Some c) pc.1 pc.2) (enumerate (cmd :: cmds))) as -> by (unfold plan_criterion; by rewrite Hm).
    assert (has_checks rq c = true) as -> by (unfold has_checks; by rewrite Hm).
    rewrite result_fold_map. cbn [result_fold eval_criterion]. rewrite Hm, (loop_run rq (Some c)).
    destruct (result_fold (run_and_add _ _ _ _ _ _) acc _) as [acc'|]; [|done]. cbn [mbind result_bind].
    rewrite IH. rewrite reverse_cons, <- app_assoc. done.
Qed.

Lemma covered_In rq c : str_in c (reverse (List.filter (fun c => has_checks rq c) (expected_criteria rq)) ++ []) = true <->
  c ∈ expected_criteria rq /\ has_checks rq c = true.
Proof.
  unfold str_in. rewrite bool_decide_eq_true, app_nil_r, elem_of_reverse, list_elem_of_In, List.filter_In, list_elem_of_In. done.
Qed.

Lemma loop_unmapped rq covered names : (forall c, str_in c covered = true -> c ∈ expected_criteria rq) -> forall acc,
  result_fold (step rq) acc (map Unmapped (List.filter (fun c => negb (str_in c (expected_criteria rq))) names)) =
  Ok (fold_left (eval_unmapped mach rq covered) names acc).
Proof.
  intros Hc. induction names as [|c names IH]; intros acc; [done|]. cbn [List.filter fold_left]. unfold eval_unmapped at 2.
  destruct (str_in c (expected_criteria rq)) eqn:He; cbn [negb].
  - rewrite andb_false_r. apply IH.
  - destruct (str_in c covered) eqn:Hi; [exfalso; apply Hc, (bool_decide_eq_true_2 _) in Hi; unfold str_in in He; congruence|]. cbn [negb andb map result_fold].
    unfold step at 1. cbn [produce mbind result_bind]. apply IH.
Qed.

Lemma fold_numbered rq items : forall n acc,
  result_fold (step rq) (Z.of_nat n, acc) items =
  (rows ← result_map (numbered_row rq) (imap (fun i x => (1 + Z.of_nat (n + i), x)) items);
   Ok (Z.of_nat (n + length items), acc ++ rows)).
Proof.
  induction items as [|x items IH]; intros n acc; [cbn; by rewrite app_nil_r, Nat.add_0_r|].
  cbn [result_fold imap result_map fst snd].
  change (step rq (Z.of_nat n, acc) x) with (e ← produce rq (Z.of_nat n + 1) x; Ok (add (r_attempt_id rq) (Z.of_nat n, acc) e)).
  rewrite Nat.add_0_r, (Z.add_comm _ 1).
  change (numbered_row rq (1 + Z.of_nat n, x)) with (e ← produce rq (1 + Z.of_nat n) x; Ok (with_number rq (1 + Z.of_nat n) e)).
  destruct (produce rq (1 + Z.of_nat n) x) as [e|]; [|done]. cbn [mbind result_bind]. unfold add. cbn [fst snd].
  rewrite (Z.add_comm (Z.of_nat n) 1). replace (1 + Z.of_nat n) with (Z.of_nat (S n)) by lia. rewrite IH.
  rewrite (imap_ext ((fun i x => (1 + Z.of_nat (n + i), x)) ∘ S) (fun i x => (1 + Z.of_nat (S n + i), x)));
    [|intros i y _; cbn; do 2 f_equal; lia].
  match goal with |- context [result_map ?f ?l] => destruct (result_map f l) as [rows|] end; [|done]. cbn [mbind result_bind length].
  replace (S n + length items)%nat with (n + S (length items))%nat by lia. by rewrite <- app_assoc.
Qed.

(** The rows, then the status: [evaluate] carries out its plan. *)
Lemma evaluate_rows rq : evaluate format_g ev mach after_check rq =
  (acc ← result_fold (step rq) (0, []) (plan rq);
   Ok {| er_status := overall_status rq (reverse (List.filter (fun c => has_checks rq c) (expected_criteria rq)) ++ []) acc.2; er_evidence := acc.2 |}).
Proof.
  unfold evaluate, plan. rewrite loop_criteria.
  assert (result_fold (step rq) (0, []) (plan_rows rq) =
    (acc ← result_fold (step rq) (0, []) (expected_criteria rq ≫= plan_criterion rq);
     result_fold (fun acc command => run_and_add format_g ev mach after_check rq None acc (0, command))
       (fold_left (eval_unmapped mach rq (reverse (List.filter (fun c => has_checks rq c) (expected_criteria rq)) ++ []))
          (map fst (request_checks rq)) acc) (legacy_commands rq))) as E.
  { unfold plan_rows. rewrite result_fold_app. destruct (result_fold _ _ _) as [acc|]; [|done]. cbn [mbind result_bind].
    rewrite result_fold_app, (loop_unmapped rq (reverse (List.filter (fun c => has_checks rq c) (expected_criteria rq)) ++ [])).
    - cbn [mbind result_bind]. rewrite (result_fold_map (step rq) (Run None 0)).
      generalize (fold_left (eval_unmapped mach rq (reverse (List.filter (fun c => has_checks rq c) (expected_criteria rq)) ++ []))
          (map fst (request_checks rq)) acc).
      induction (legacy_commands rq) as [|x l IH]; intros s; [done|]. cbn [result_fold].
      change (step rq s (Run None 0 x)) with (step rq s (Run None (0, x).1 (0, x).2)). rewrite step_check. destruct (run_and_add _ _ _ _ _ _ _ _); [apply IH|done].
    - intros c Hc. by apply covered_In in Hc as [? _]. }
  destruct (plan_rows rq) as [|x l] eqn:Hp.
  - cbn [result_fold] in E. destruct (result_fold (step rq) (0, []) (expected_criteria rq ≫= plan_criterion rq)) as [acc|]; [|done].
    cbn [mbind result_bind] in E |- *. rewrite <- E. cbn [mbind result_bind snd]. done.
  - rewrite E. destruct (result_fold (step rq) (0, []) (expected_criteria rq ≫= plan_criterion rq)) as [acc|]; [|done].
    cbn [mbind result_bind] in E |- *. destruct (result_fold _ _ (legacy_commands rq)) as [[n rows]|]; [|done]. cbn [mbind result_bind].
    destruct rows; [|done]. exfalso. rewrite (fold_numbered rq (x :: l) 0 [] : result_fold (step rq) (0, []) (x :: l) = _) in E.
    apply bind_Ok in E as (rows & Hrows & [= _ ->]). by apply result_map_nil in Hrows.
Qed.

Lemma gap_in_plan rq c : c ∈ expected_criteria rq -> has_checks rq c = false -> Gap c ∈ plan rq.
Proof.
  intros Hc Hh. assert (Gap c ∈ plan_rows rq) as H.
  { unfold plan_rows. apply elem_of_app. left. apply list_elem_of_bind. exists c. split; [|done].
    unfold has_checks in Hh. unfold plan_criterion. destruct (mapped rq c); [set_solver|done]. }
  unfold plan. by destruct (plan_rows rq); [apply not_elem_of_nil in H|].
Qed.

Lemma numbered_elem {A} (l : list A) x : x ∈ l -> exists n, (n, x) ∈ numbered l.
Proof. intros (i & Hi)%list_elem_of_lookup. exists (1 + Z.of_nat i). apply elem_of_lookup_imap. by exists i, x. Qed.

(** Without an INCONCLUSIVE row every criterion is covered, so the comparison
    of the covered with the expected criteria cannot fail. *)
Lemma rows_cover rq rows : result_map (numbered_row rq) (numbered (plan rq)) = Ok rows ->
  str_in "INCONCLUSIVE" (map e_status rows) = false -> forall c, c ∈ expected_criteria rq -> has_checks rq c = true.
Proof.
  intros Hr Hn c Hc. destruct (has_checks rq c) eqn:Hh; [done|]. exfalso. apply (bool_decide_eq_false_1 _) in Hn. apply Hn.
  destruct (numbered_elem _ _ (gap_in_plan _ _ Hc Hh)) as [n Hg]. apply list_elem_of_In, List.in_map_iff.
  exists (with_number rq n (coverage_evidence (m_now (mach n)) (r_attempt_id rq) c)). split; [done|].
  apply list_elem_of_In. apply (result_map_elem _ _ _ Hr). by exists (n, Gap c).
Qed.

Lemma overall_status_rows rq rows : result_map (numbered_row rq) (numbered (plan rq)) = Ok rows ->
  overall_status rq (reverse (List.filter (fun c => has_checks rq c) (expected_criteria rq)) ++ []) rows = statuses_overall rq rows.
Proof.
  intros Hr. unfold overall_status, statuses_overall. destruct (str_in "FAIL" _); [done|].
  destruct (str_in "INCONCLUSIVE" _) eqn:Hn; [done|]. cbn [orb]. destruct (strict_coverage rq); [|done]. cbn [andb].
  rewrite (bool_decide_eq_true_2 (list_to_set _ = _)), orb_false_r; [done|]. apply set_eq. intros c. rewrite !elem_of_list_to_set.
  pose proof (covered_In rq c) as Hi. unfold str_in in Hi. rewrite bool_decide_eq_true in Hi. rewrite Hi.
  pose proof (rows_cover _ _ Hr Hn c). tauto.
Qed.

Lemma ids_numbered rq l : forall k rows, result_map (numbered_row rq) (imap (fun i x => (1 + Z.of_nat (k + i), x)) l) = Ok rows ->
  map evidence_id rows = map (fun n => "EVIDENCE-" +:+ r_attempt_id rq +:+ "-" +:+ pretty n) (seqZ (1 + Z.of_nat k) (Z.of_nat (length l))).
Proof.
  induction l as [|x l IH]; intros k rows; [intros [= <-]; done|]. cbn [imap result_map length]. rewrite (seqZ_cons _ (Z.of_nat (S _))), <- Nat2Z.inj_pred by lia. cbn [Nat.pred].
  rewrite Nat.add_0_r.
  intros (e & He & H)%bind_Ok. apply bind_Ok in H as (rows' & Hr & [= <-]). cbn [map]. f_equal.
  - apply bind_Ok in He as (e' & _ & [= <-]). done.
  - replace (Z.succ (1 + Z.of_nat k)) with (1 + Z.of_nat (S k)) by lia. apply IH. rewrite <- Hr. f_equal.
    apply imap_ext. intros i y _. cbn. do 2 f_equal. lia.
Qed.

Lemma evaluate_reference rq : evaluate format_g ev mach after_check rq = reference_evaluate rq.
Proof.
  rewrite evaluate_rows, (fold_numbered rq (plan rq) 0 [] : result_fold (step rq) (0, []) (plan rq) = _).
  unfold reference_evaluate, numbered. destruct (result_map _ _) as [rows|] eqn:Hr; [|done]. cbn [mbind result_bind snd app].
  by rewrite (overall_status_rows _ _ Hr).
Qed.

(** C8: the three loops of an evaluation, with their running index and their
    set of covered criteria, carry out one plan: the checks of each criterion
    in the Task's order (or a coverage gap for a criterion without one), the
    criteria the Task does not name, the unscoped commands, and a gap when
    there is nothing at all.  The rows are the plan's, numbered from one; the
    status is FAIL when a row failed, else INCONCLUSIVE when a row is or the
    strict list of criteria is empty, else PASS.  A PASS under strict coverage
    therefore has a check for every expected criterion and no row that failed
    or was inconclusive. *)
Theorem evaluate_spec rq : evaluate format_g ev mach after_check rq = reference_evaluate rq /\
  forall r, evaluate format_g ev mach after_check rq = Ok r ->
    map evidence_id (er_evidence r) =
      map (fun n => "EVIDENCE-" +:+ r_attempt_id rq +:+ "-" +:+ pretty n) (seqZ 1 (Z.of_nat (length (plan rq)))) /\
    (er_status r = "PASS" -> strict_coverage rq = true ->
       expected_criteria rq <> [] /\ (forall c, c ∈ expected_criteria rq -> has_checks rq c = true) /\
       (forall e, e ∈ er_evidence r -> e_status e <> "FAIL" /\ e_status e <> "INCONCLUSIVE")).
Proof.
  split; [apply evaluate_reference|]. rewrite evaluate_reference. intros r (rows & Hr & [= <-])%bind_Ok. cbn [er_evidence er_status]. split; [exact (ids_numbered rq (plan rq) 0 rows Hr)|].
  unfold statuses_overall. destruct (str_in "FAIL" _) eqn:Hf; [done|]. destruct (str_in "INCONCLUSIVE" _) eqn:Hn; [done|]. cbn [orb].
  intros Hp Hs. rewrite Hs in Hp. cbn [andb] in Hp. case_bool_decide as He; [done|]. split_and!; [done|exact (rows_cover _ _ Hr Hn)|].
  intros e Hi. unfold str_in in Hf, Hn. apply bool_decide_eq_false in Hf, Hn. rewrite list_elem_of_In in Hf, Hn.
  split; intros Hx; [apply Hf|apply Hn]; rewrite <- Hx; by apply List.in_map, list_elem_of_In.
Qed.
End reference.

(** ** A concrete run *)

Module EvaluateDemo.
Definition bytes : string := "def test_one(): assert True".
Definition read (path : string) : option string := if str_eq path "tests/test_a.py" then Some bytes else None.
Definition frame : json :=
  JObj [("collected", JInt 2); ("testscollected", JInt 2); ("passed", JInt 2); ("failed", JInt 0); ("skipped", JInt 0); ("errors", JInt 0);
        ("exitstatus", JInt 0)].

Definition mach : Machine := {|
  m_now := DateTime 1000 true; m_platform := "Linux"; m_python := "3.12.0"; m_token_hex := "00"; m_texts := {| PYTHON_BOOTSTRAP := "boot"; PYTEST_SEAL := "seal" |};
  m_safe_path := "/usr/bin"; m_resolve_executable := fun exe => Some ("/usr/bin/" +:+ exe); m_pytest_interpreter := fun _ => Some "/usr/bin/python3";
  m_inside_workspace := fun _ => Some false; m_fixture := Some read; m_workspace := read;
  m_materialize := fun _ _ _ _ => Ok {| sd_oracle_digest := "d1"; sd_root := "/sealed"; sd_hide_oracle := false; sd_changed := false |};
  m_report_path := "/report"; m_subject_base := "/base"; m_subject_root := fun _ => "/sealed"; m_subjects := fun _ => ""; m_declared := fun _ => 2;
  m_run := fun _ _ _ => Ok {| c_returncode := Some 0; c_stdout := ""; c_stderr := ""; c_timed_out := false; c_cleanup_error := None |};
  m_result_file := Some frame
|}.

Definition ev : Evaluator := {|
  ev_timeout_seconds := f_of_Z 30; ev_allowed_executables := ["pytest"]; ev_containment_backend := None; ev_require_containment := false; ev_timeout_for := None
|}.

Definition ask : Ask := {|
  q_attempt_id := "A-1"; q_argv := ["pytest"; "tests/test_a.py"]; q_criterion := Some "works"; q_index := 1; q_position := 0; q_subject := Some "s1"; q_policy := None
|}.

Definition request (checks : list (string * list (list string))) : Request := {|
  r_attempt_id := "A-1"; r_commands := None; r_criteria := Some ["works"]; r_criterion_checks := Some checks; r_subject := Some "s1"; r_policies := ∅
|}.

Definition evaluated (checks : list (string * list (list string))) : result EvaluationResult :=
  evaluate (fun _ => "30") ev (fun _ => mach) (fun _ e => e) (request checks).

(** A covered criterion passes; without its check the same request does not. *)
Example passes : er_status <$> evaluated [("works", [["pytest"; "tests/test_a.py"]])] = Ok "PASS".
Proof. vm_compute. reflexivity. Qed.
Example gaps : er_status <$> evaluated [("other", [["pytest"; "tests/test_a.py"]])] = Ok "INCONCLUSIVE".
Proof. vm_compute. reflexivity. Qed.
Example held_out_fails : er_status <$> evaluated [("works", [["pytest"; "tests/test_missing.py"]])] = Ok "INCONCLUSIVE".
Proof. vm_compute. reflexivity. Qed.
End EvaluateDemo.

Lemma run_one_pass_witness : exists e, run_one (fun _ => "30") EvaluateDemo.ev EvaluateDemo.mach EvaluateDemo.ask = Ok e /\
  plain_command EvaluateDemo.ev (q_argv EvaluateDemo.ask) /\ vouched EvaluateDemo.ask e.
Proof.
  assert (e_status <$> run_one (fun _ => "30") EvaluateDemo.ev EvaluateDemo.mach EvaluateDemo.ask = Ok "PASS") as Hs by (vm_compute; reflexivity).
  destruct (run_one (fun _ => "30") EvaluateDemo.ev EvaluateDemo.mach EvaluateDemo.ask) as [e|] eqn:Hr; [|discriminate Hs].
  exists e. destruct (run_one_pass _ _ _ _ e Hr ltac:(by injection Hs)) as (Hp & _ & _ & _ & Hv). split_and!; [reflexivity|exact Hp|exact Hv].
Defined.

Lemma evaluate_spec_witness : exists r, EvaluateDemo.evaluated [("works", [["pytest"; "tests/test_a.py"]])] = Ok r /\
  map evidence_id (er_evidence r) = ["EVIDENCE-A-1-1"] /\ forall e, e ∈ er_evidence r -> e_status e <> "FAIL".
Proof.
  set (rq := EvaluateDemo.request [("works", [["pytest"; "tests/test_a.py"]])]).
  pose proof (evaluate_spec (fun _ => "30") EvaluateDemo.ev (fun _ => EvaluateDemo.mach) (fun _ e => e) rq) as [_ H].
  assert (er_status <$> EvaluateDemo.evaluated [("works", [["pytest"; "tests/test_a.py"]])] = Ok "PASS") as Hs by (vm_compute; reflexivity).
  unfold EvaluateDemo.evaluated in Hs |- *. fold rq in Hs |- *.
  destruct (evaluate _ _ _ _ rq) as [r|]; [|discriminate Hs]. exists r. destruct (H r eq_refl) as [Hids Hp].
  split; [reflexivity|]. split; [rewrite Hids; vm_compute; reflexivity|]. intros e He.
  destruct Hp as (_ & _ & Hall); [by injection Hs|reflexivity|]. by apply Hall.
Defined.
