(* ===== verification/Verdict.v ===== *)
(** * Verdict: what an evaluation is worth

    Models the pure part of [finish] of [src/sdf_core/execution.py]: rows whose
    check changed the workspace are downgraded, a PASS must be acceptable for
    the Attempt's diff, a declared hidden oracle must have passed, and the
    status that is left decides the Task. *)

From S2P Require Import Prelude Floats Json Db EvidenceMac Lifecycle Checks Oracle Acceptance Evaluate.

(** [min(a, b)] of Python: [a] unless [b] is smaller. *)
Definition py_min (a b : float) : float := if f_lt b a then b else a.

(** ** Drift of the workspace *)

Definition drifted (e : Evidence) (result_tree : option string) : bool :=
  bool_decide (is_Some (tree_after_sha256 e)) && negb (bool_decide (tree_after_sha256 e = result_tree)).

Definition DRIFT_NOTE (after result : string) : string :=
  "[sdf] the workspace tree changed while this check ran (" +:+ after +:+ " != result tree " +:+ result +:+
  "); a PASS is recorded as INCONCLUSIVE because it no longer describes the revision (ADR 0032)".

(** [(stderr + "\n" if stderr else "") + note] *)
Definition with_note (stderr note : string) : string := (if str_truthy stderr then stderr +:+ newline else "") +:+ note.

Definition drift_checked (e : Evidence) (after : string) (result_tree : option string) : Evidence :=
  if bool_decide (Some after = result_tree) then e {{ tree_after_sha256 := Some after }}
  else
    let note := DRIFT_NOTE (str_take 20 after) (str_take 20 (opt_str result_tree)) in
    let passed := str_eq (e_status e) "PASS" in
    e {{ tree_after_sha256 := Some after;
         e_status := if passed then "INCONCLUSIVE" else e_status e;
         e_confidence := if passed then py_min (e_confidence e) (f_ratio 1 5) else e_confidence e;
         e_stderr := with_note (e_stderr e) note }}.

Definition overall (previous : string) (evidence : list Evidence) : string :=
  if str_in "FAIL" (map e_status evidence) then "FAIL"
  else if str_in "INCONCLUSIVE" (map e_status evidence) then "INCONCLUSIVE" else previous.

(** The rows of the evaluation, an unobserved one with the final tree. *)
Definition check_final_tree (evaluation : EvaluationResult) (final_tree : string) (result_tree : option string) : EvaluationResult :=
  let checked := map (fun item => if bool_decide (is_Some (tree_after_sha256 item)) then item
                                  else drift_checked item final_tree result_tree) (er_evidence evaluation) in
  if bool_decide (checked = er_evidence evaluation) then evaluation
  else {| er_status := overall (er_status evaluation) checked; er_evidence := checked |}.

(** ** Acceptance *)

(** The attributes of an [Evidence] that the acceptance rules read by name;
    the row that is stored is built by [evidence_row] of Finish. *)
Definition as_row (e : Evidence) : EvidenceRow := {|
  ev_id := evidence_id e; ev_attempt_id := Some (e_attempt_id e); ev_kind := e_kind e; ev_status := e_status e;
  ev_command := e_command e; ev_exit_code := e_exit_code e; ev_artifact_ref := None; ev_confidence := e_confidence e;
  ev_criterion := e_criterion e; ev_measured_at := None; ev_evidence_mode := "synthetic"; ev_created_at := DateTime 0 true;
  ev_revision_id := None; ev_tree_sha256 := None; ev_evidence_class := e_evidence_class e;
  ev_producer_identity := e_producer_identity e; ev_producer_role := e_producer_role e;
  ev_verifier_identity := e_verifier_identity e; ev_verifier_role := e_verifier_role e;
  ev_subject_artifact_sha256 := e_subject_artifact_sha256 e; ev_oracle_digest := e_oracle_digest e;
  ev_environment_digest := e_environment_digest e; ev_collected_at := e_collected_at e; ev_expires_at := e_expires_at e;
  ev_oracle_visibility := e_oracle_visibility e; ev_input_seed := e_input_seed e; ev_objective_id := None;
  ev_content_mac := None; ev_content_mac_version := None
|}.

(** Does a policy of the request ask for a held-out or randomized oracle? *)
Definition requires_hidden (policies : gmap (string * Z) OraclePolicy) : bool :=
  existsb (fun kv => str_eq (op_visibility kv.2) "held_out" || op_randomized kv.2) (map_to_list policies).

(** One turn of the first loop: the row to keep, and whether it was refused. *)
Definition enforce_row (attempt_agent artifact_sha256 : string) (now : datetime) (item : Evidence) : result (Evidence * bool) :=
  if opt_str_eq (e_evidence_class item) (Some "verification") && str_eq (e_status item) "PASS" then
    match check_verification_acceptance (as_row item) attempt_agent artifact_sha256 now with
    | Ok _ => Ok (item, false)
    | Err (AcceptanceError msg) =>
        Ok (item {{ e_status := "INCONCLUSIVE"; e_confidence := py_min (e_confidence item) (f_ratio 1 5);
                    e_stderr := with_note (e_stderr item) ("[acceptance] " +:+ msg) }}, true)
    | Err x => Err x
    end
  else Ok (item, false).

(** [clock i] is the time at the check of the i-th row, [hidden_at] at the
    check of the hidden oracle. *)
Definition enforce_acceptance (clock : nat -> datetime) (hidden_at : datetime) (evaluation : EvaluationResult)
    (attempt_agent artifact_sha256 : string) (requires_hidden : bool) : result EvaluationResult :=
  checked ← result_map (fun p => enforce_row attempt_agent artifact_sha256 (clock p.1) p.2) (imap pair (er_evidence evaluation));
  let evidence := map fst checked in
  let changed := existsb snd checked in
  match check_hidden_oracle_acceptance (map as_row evidence) requires_hidden attempt_agent artifact_sha256 hidden_at with
  | Ok _ => if negb changed then Ok evaluation
            else Ok {| er_status := overall (er_status evaluation) evidence; er_evidence := evidence |}
  | Err (AcceptanceError msg) =>
      let evidence := map (fun item => if str_eq (e_status item) "PASS" && negb (is_hidden_oracle (as_row item))
                                       then item {{ e_stderr := with_note (e_stderr item) ("[acceptance] " +:+ msg) }} else item) evidence in
      let status := overall (er_status evaluation) evidence in
      Ok {| er_status := if str_eq status "PASS" then "INCONCLUSIVE" else status; er_evidence := evidence |}
  | Err x => Err x
  end.

(** The Task state of a status. *)
Definition task_state (status : string) : result TaskState :=
  if str_eq status "PASS" then Ok TSUCCEEDED
  else if str_eq status "FAIL" then Ok TFAILED
  else if str_eq status "INCONCLUSIVE" then Ok TINCONCLUSIVE
  else Err (KeyError status).

Section assess.
Context (format_g : float -> string) (ev : Evaluator) (mach : Z -> Machine) (tree : Z -> string).

(** The evaluation of [finish]: the tree is hashed after each check and once
    more at the end. *)
Definition assess (final_tree : string) (clock : nat -> datetime) (hidden_at : datetime) (rq : Request)
    (result_tree : option string) (attempt_agent artifact_sha256 : string) : result EvaluationResult :=
  evaluation ← evaluate format_g ev mach (fun n e => drift_checked e (tree n) result_tree) rq;
  enforce_acceptance clock hidden_at (check_final_tree evaluation final_tree result_tree) attempt_agent artifact_sha256
    (requires_hidden (r_policies rq)).
End assess.

(** ** Rows only ever get weaker *)

(** The status stays, or a PASS becomes INCONCLUSIVE. *)
Definition lower (s s' : string) : Prop := s' = s \/ (s = "PASS" /\ s' = "INCONCLUSIVE").

(** The downgrades touch the status, the confidence, the tree and the text. *)
Definition same_claim (e e' : Evidence) : Prop :=
  e' = e {{ e_status := e_status e'; e_confidence := e_confidence e'; e_stderr := e_stderr e'; tree_after_sha256 := tree_after_sha256 e' }}.

Definition weaker (e e' : Evidence) : Prop := lower (e_status e) (e_status e') /\ same_claim e e'.

#[export] Instance weaker_refl : Reflexive weaker.
Proof. intros e. split; [by left|by destruct e]. Qed.

#[export] Instance weaker_trans : Transitive weaker.
Proof.
  intros a b c [L1 S1] [L2 S2]. split.
  - destruct L1 as [E1|[E1 E1']], L2 as [E2|[E2 E2']]; first [left; congruence|right; split; congruence].
  - unfold same_claim in *. rewrite S1 in S2. destruct a, b, c. cbn in *. by inversion S2.
Qed.

Lemma lower_fail l l' : Forall2 lower l l' -> ("FAIL" ∈ l' <-> "FAIL" ∈ l).
Proof.
  induction 1 as [|s s' l l' H _ IH]; [done|]. rewrite !elem_of_cons, IH. destruct H as [->|[-> ->]]; [done|]. naive_solver.
Qed.

Lemma lower_inconclusive l l' : Forall2 lower l l' -> "INCONCLUSIVE" ∈ l -> "INCONCLUSIVE" ∈ l'.
Proof.
  induction 1 as [|s s' l l' H _ IH]; [done|]. rewrite !elem_of_cons. destruct H as [->|[-> ->]]; [tauto|]. naive_solver.
Qed.

Lemma weaker_statuses l l' : Forall2 weaker l l' -> Forall2 lower (map e_status l) (map e_status l').
Proof. induction 1 as [|e e' l l' [H _] _ IH]; [constructor|]. by constructor. Qed.

(** The status after a downgrade of rows is the status of the rows that are left. *)
Lemma overall_weaker rq l l' : Forall2 weaker l l' -> overall (statuses_overall rq l) l' = statuses_overall rq l'.
Proof.
  intros H%weaker_statuses. unfold overall, statuses_overall, str_in. pose proof (lower_fail _ _ H) as Hf. pose proof (lower_inconclusive _ _ H) as Hi.
  case_bool_decide as Hf'; [done|]. case_bool_decide as Hi'; [done|].
  rewrite (bool_decide_eq_false_2 ("FAIL" ∈ map e_status l)) by tauto.
  rewrite (bool_decide_eq_false_2 ("INCONCLUSIVE" ∈ map e_status l)) by tauto. done.
Qed.

Lemma drift_weaker e after rt : weaker e (drift_checked e after rt).
Proof.
  unfold drift_checked. case_bool_decide; (split; [|by destruct e]); [by left|]. cbn [e_status]. unfold lower, str_eq.
  case_bool_decide; cbn; auto.
Qed.

Lemma drift_pass e after rt : e_status (drift_checked e after rt) = "PASS" -> tree_after_sha256 (drift_checked e after rt) = rt /\ is_Some rt.
Proof.
  unfold drift_checked. case_bool_decide as H; [rewrite <- H; cbn; by eauto|]. cbn. unfold str_eq. case_bool_decide; done.
Qed.

Lemma enforce_row_Ok agent sha now e e' b : enforce_row agent sha now e = Ok (e', b) ->
  weaker e e' /\ (b = false -> e' = e) /\ tree_after_sha256 e' = tree_after_sha256 e /\
  (e_status e' = "PASS" -> e_evidence_class e = Some "verification" -> acceptable (as_row e') agent sha now).
Proof.
  unfold enforce_row, opt_str_eq, str_eq. case_bool_decide as Hc; cbn [andb]; [|intros [= <- <-]; split_and!; try done].
  case_bool_decide as Hs; [|intros [= <- <-]; split_and!; try done].
  destruct (acceptance_cases (as_row e) agent sha now) as [[-> Ha]|(msg & -> & _)]; intros [= <- <-]; [by split_and!|].
  split_and!; try done. split; [right; done|by destruct e].
Qed.

(** The rows of [l], each with its position, after the first loop. *)
Lemma enforce_rows_Ok clock agent sha l : forall k checked,
  result_map (fun p : nat * Evidence => enforce_row agent sha (clock p.1) p.2) (imap (fun i e => ((k + i)%nat, e)) l) = Ok checked ->
  Forall2 weaker l (map fst checked) /\ (existsb snd checked = false -> map fst checked = l) /\
  (forall i e', map fst checked !! i = Some e' -> exists e, l !! i = Some e /\ tree_after_sha256 e' = tree_after_sha256 e /\
     (e_status e' = "PASS" -> e_evidence_class e = Some "verification" -> acceptable (as_row e') agent sha (clock (k + i)%nat))).
Proof.
  induction l as [|e l IH]; intros k checked; cbn [imap result_map].
  { intros [= <-]. split_and!; [constructor|done|done]. }
  intros ([e' b] & He & H)%bind_Ok. apply bind_Ok in H as (rest & Hr & [= <-]). rewrite Nat.add_0_r in He.
  apply enforce_row_Ok in He as (Hw & Hb & Ht & Ha).
  rewrite (imap_ext _ (fun i e => ((S k + i)%nat, e))) in Hr by (intros i x _; cbn; f_equal; lia).
  apply IH in Hr as (Hw' & Hb' & Hi). split_and!.
  - by constructor.
  - cbn [existsb snd map fst]. intros [-> Hx]%orb_false_iff. rewrite Hb, Hb' by done. done.
  - intros [|i] x; cbn [map fst lookup list_lookup].
    + intros [= <-]. exists e. rewrite Nat.add_0_r. auto.
    + intros Hx. destruct (Hi i x Hx) as (e0 & ? & ? & ?). exists e0. rewrite Nat.add_succ_r. auto.
Qed.

(** ** From the evaluation to the verdict *)

Definition item_criterion (item : Item) : option string :=
  match item with Gap c | Unmapped c => Some c | Run c _ _ => c | Nothing => None end.

(** What the evaluator, observing the tree after each check, produces. *)
Record evaluated_row (rt : option string) (item : Item) (e : Evidence) : Prop := {
  er_known : e_status e ∈ STATUSES;
  er_class : e_evidence_class e = Some "verification";
  er_tree : e_status e = "PASS" -> tree_after_sha256 e = rt /\ is_Some rt;
  er_criterion : e_criterion e = item_criterion item
}.

Section verdict.
Context (format_g : float -> string) (ev : Evaluator) (mach : Z -> Machine) (tree : Z -> string) (rt : option string).
Let after_check (n : Z) (e : Evidence) : Evidence := drift_checked e (tree n) rt.

Lemma produce_row rq n item e : produce format_g ev mach after_check rq n item = Ok e -> evaluated_row rt item (with_number rq n e).
Proof.
  destruct item as [c|c position command|c|]; cbn [produce].
  - intros [= <-]. split; try done. unfold STATUSES. cbn. set_solver.
  - intros (e0 & (Hs & Hc & Ht & Hq)%run_one_row & [= <-])%bind_Ok. unfold after_check.
    destruct (drift_weaker e0 (tree n) rt) as [Hl Hsame]. split.
    + change (e_status (drift_checked e0 (tree n) rt) ∈ STATUSES). destruct Hl as [->|[_ ->]]; [done|]. unfold STATUSES. set_solver.
    + change (e_evidence_class (drift_checked e0 (tree n) rt) = Some "verification"). by rewrite Hsame.
    + exact (drift_pass e0 (tree n) rt).
    + change (e_criterion (drift_checked e0 (tree n) rt) = c). by rewrite Hsame.
  - intros [= <-]. split; try done. unfold STATUSES. cbn. set_solver.
  - intros [= <-]. split; try done. unfold STATUSES. cbn. set_solver.
Qed.

Lemma evaluated_rows rq l : forall k rows, result_map (numbered_row format_g ev mach after_check rq) (imap (fun i x => (1 + Z.of_nat (k + i), x)) l) = Ok rows ->
  Forall2 (evaluated_row rt) l rows.
Proof.
  induction l as [|item l IH]; intros k rows; cbn [imap result_map]; [intros [= <-]; constructor|].
  intros (e & (e0 & He & [= <-])%bind_Ok & (rest & Hr & [= <-])%bind_Ok)%bind_Ok. constructor; [by apply produce_row|].
  apply (IH (S k)). rewrite <- Hr. f_equal. apply imap_ext. intros i x _. cbn. do 2 f_equal. lia.
Qed.

Lemma evaluate_rows_ok rq r : evaluate format_g ev mach after_check rq = Ok r ->
  er_status r = statuses_overall rq (er_evidence r) /\ Forall2 (evaluated_row rt) (plan rq) (er_evidence r).
Proof.
  rewrite evaluate_reference. intros (rows & Hr & [= <-])%bind_Ok. split; [done|]. exact (evaluated_rows rq (plan rq) 0 rows Hr).
Qed.

Lemma final_tree_row item e final : evaluated_row rt item e ->
  let e' := if bool_decide (is_Some (tree_after_sha256 e)) then e else drift_checked e final rt in weaker e e' /\ evaluated_row rt item e'.
Proof.
  intros H. cbv zeta. case_bool_decide; [done|]. destruct (drift_weaker e final rt) as [Hl Hs]. split; [by split|].
  destruct H as [Hk Hc Ht Hq]. split.
  - destruct Hl as [->|[_ ->]]; [done|]. unfold STATUSES. set_solver.
  - by rewrite Hs.
  - apply drift_pass.
  - by rewrite Hs.
Qed.

Lemma final_tree_rows rq r final : er_status r = statuses_overall rq (er_evidence r) -> Forall2 (evaluated_row rt) (plan rq) (er_evidence r) ->
  let r' := check_final_tree r final rt in Forall2 weaker (er_evidence r) (er_evidence r') /\
    er_status r' = statuses_overall rq (er_evidence r') /\ Forall2 (evaluated_row rt) (plan rq) (er_evidence r').
Proof.
  intros Hs Hrows. cbv zeta. unfold check_final_tree.
  set (checked := map _ (er_evidence r)).
  assert (Forall2 weaker (er_evidence r) checked /\ Forall2 (evaluated_row rt) (plan rq) checked) as [Hw Hr].
  { unfold checked. clear Hs. induction Hrows as [|item e items es He _ [IH1 IH2]]; [split; constructor|].
    destruct (final_tree_row item e final He) as [? ?]. split; by constructor. }
  case_bool_decide as Hc; [rewrite <- Hc at 2; by split_and!|]. split_and!; [done| |done].
  cbn [er_status]. rewrite Hs. by apply overall_weaker.
Qed.
End verdict.

(** ** The verdict *)

(** A PASS of a held-out or seeded oracle accepts the artifact. *)
Definition hidden_seen (agent sha : string) (now : datetime) (rows : list Evidence) : Prop :=
  exists e, e ∈ rows /\ e_status e = "PASS" /\ is_hidden_oracle (as_row e) = true /\ acceptable (as_row e) agent sha now.

Definition accepted_row (clock : nat -> datetime) (agent sha : string) (rt : option string) (i : nat) (e : Evidence) : Prop :=
  e_status e = "PASS" -> tree_after_sha256 e = rt /\ is_Some rt /\ acceptable (as_row e) agent sha (clock i).

Definition hidden_note (msg : string) (e : Evidence) : Evidence :=
  if str_eq (e_status e) "PASS" && negb (is_hidden_oracle (as_row e))
  then e {{ e_stderr := with_note (e_stderr e) ("[acceptance] " +:+ msg) }} else e.

Lemma hidden_note_weaker msg e : weaker e (hidden_note msg e) /\ e_status (hidden_note msg e) = e_status e /\
  tree_after_sha256 (hidden_note msg e) = tree_after_sha256 e /\
  (forall agent sha now, acceptable (as_row (hidden_note msg e)) agent sha now = acceptable (as_row e) agent sha now) /\
  is_hidden_oracle (as_row (hidden_note msg e)) = is_hidden_oracle (as_row e).
Proof. unfold hidden_note. destruct (_ && _); split_and!; try done. split; [by left|by destruct e]. Qed.

Lemma check_hidden_cases rows required agent sha now :
  (check_hidden_oracle_acceptance (map as_row rows) required agent sha now = Ok () /\ (required = true -> hidden_seen agent sha now rows)) \/
  (exists msg, check_hidden_oracle_acceptance (map as_row rows) required agent sha now = Err (AcceptanceError msg) /\
     required = true /\ ~ hidden_seen agent sha now rows).
Proof.
  unfold check_hidden_oracle_acceptance. destruct required; [|by left]. cbn [negb].
  destruct (find_hidden_iff (map as_row rows) agent sha now) as (b & -> & Hb). cbn [mbind result_bind].
  assert (b = true <-> hidden_seen agent sha now rows) as Hh.
  { rewrite Hb. unfold hidden_seen. split.
    - intros (x & Hx & Hs & Hi & Ha). apply list_elem_of_In, List.in_map_iff in Hx as (e & <- & He). exists e.
      split_and!; [by apply list_elem_of_In|done..].
    - intros (e & He & Hs & Hi & Ha). exists (as_row e). split_and!; try done. apply list_elem_of_In, List.in_map. by apply list_elem_of_In. }
  destruct b; [left; split; [done|tauto]|right]. eexists. split; [done|]. split; [done|]. intros H. by apply Hh in H.
Qed.

Lemma enforce_spec clock hidden_at rq rt r agent sha required r' :
  er_status r = statuses_overall rq (er_evidence r) -> Forall2 (evaluated_row rt) (plan rq) (er_evidence r) ->
  enforce_acceptance clock hidden_at r agent sha required = Ok r' ->
  Forall2 weaker (er_evidence r) (er_evidence r') /\
  (forall i e, er_evidence r' !! i = Some e -> accepted_row clock agent sha rt i e) /\
  ((er_status r' = statuses_overall rq (er_evidence r') /\ (required = true -> hidden_seen agent sha hidden_at (er_evidence r'))) \/
   (required = true /\ ~ hidden_seen agent sha hidden_at (er_evidence r') /\
    er_status r' = let s := statuses_overall rq (er_evidence r') in if str_eq s "PASS" then "INCONCLUSIVE" else s)).
Proof.
  intros Hs Hrows (checked & Hc & H)%bind_Ok. cbv zeta in H.
  destruct (enforce_rows_Ok clock agent sha (er_evidence r) 0 checked Hc) as (Hw & Hsame & Hi).
  assert (forall i e, map fst checked !! i = Some e -> accepted_row clock agent sha rt i e) as Hacc.
  { intros i e He Hp. destruct (Hi i e He) as (e0 & He0 & Ht & Ha). destruct (Forall2_lookup_r _ _ _ _ _ Hrows He0) as (item & _ & Hok).
    destruct (Forall2_lookup_l _ _ _ _ _ Hw He0) as (e1 & He1 & [Hl _]). rewrite He in He1. injection He1 as <-.
    assert (e_status e0 = "PASS") as Hp0 by (destruct Hl as [<-|[? ?]]; congruence).
    destruct (er_tree _ _ _ Hok Hp0). rewrite Ht. split_and!; [done|done|]. apply Ha; [done|]. apply (er_class _ _ _ Hok). }
  destruct (check_hidden_cases (map fst checked) required agent sha hidden_at) as [[Hh Hr]|(msg & Hh & -> & Hn)]; rewrite Hh in H.
  - destruct (existsb snd checked) eqn:Hx; cbn [negb] in H; injection H as <-; cbn [er_status er_evidence].
    + split_and!; [done|done|]. left. split; [|done]. rewrite Hs. by apply overall_weaker.
    + rewrite Hsame in Hacc, Hr by done. split_and!; [|done|by left]. clear. induction (er_evidence r); by constructor.
  - set (rows := map fst checked) in *. change (Ok {| er_status := if str_eq (overall (er_status r) (map (hidden_note msg) rows)) "PASS" then "INCONCLUSIVE"
       else overall (er_status r) (map (hidden_note msg) rows); er_evidence := map (hidden_note msg) rows |} = Ok r') in H.
    injection H as <-. cbn [er_status er_evidence].
    assert (Forall2 weaker rows (map (hidden_note msg) rows)) as Hnote.
    { clear. induction rows as [|e l IH]; [constructor|]. constructor; [apply hidden_note_weaker|done]. }
    assert (Forall2 weaker (er_evidence r) (map (hidden_note msg) rows)) as Hall by (by etrans).
    split_and!; [done| |right].
    + intros i e He. rewrite list_lookup_fmap in He. apply fmap_Some in He as (e0 & He0 & ->). specialize (Hacc i e0 He0).
      destruct (hidden_note_weaker msg e0) as (_ & E1 & E2 & E3 & _). unfold accepted_row. by rewrite E1, E2, E3.
    + split_and!; [done| |by rewrite Hs, (overall_weaker rq _ _ Hall)].
      intros (e & He & Hp & Hi' & Ha). apply Hn. apply list_elem_of_fmap in He as (e0 & -> & He0).
      destruct (hidden_note_weaker msg e0) as (_ & E1 & _ & E3 & E4). exists e0. rewrite <- E1, <- E4. split_and!; [done|done|done|by rewrite <- E3].
Qed.

Lemma plan_covers rq c : c ∈ expected_criteria rq -> exists item, item ∈ plan rq /\ item_criterion item = Some c.
Proof.
  intros Hc. assert (exists item, item ∈ plan_criterion rq c /\ item_criterion item = Some c) as (item & Hi & He).
  { unfold plan_criterion. destruct (mapped rq c) as [|cmd l]; [exists (Gap c); set_solver|].
    exists (Run (Some c) 0 cmd). split; [|done]. by left. }
  exists item. split; [|done]. assert (item ∈ plan_rows rq) as H.
  { unfold plan_rows. apply elem_of_app. left. apply list_elem_of_bind. by exists c. }
  unfold plan. by destruct (plan_rows rq); [apply not_elem_of_nil in H|].
Qed.

Lemma statuses_overall_cases rq criteria rows : r_criteria rq = Some criteria -> (forall e, e ∈ rows -> e_status e ∈ STATUSES) ->
  statuses_overall rq rows ∈ STATUSES /\
  (statuses_overall rq rows = "PASS" <-> criteria <> [] /\ forall e, e ∈ rows -> e_status e = "PASS") /\
  (statuses_overall rq rows = "FAIL" <-> exists e, e ∈ rows /\ e_status e = "FAIL").
Proof.
  intros Hc Hk. unfold statuses_overall, strict_coverage, expected_criteria, str_in. rewrite Hc.
  rewrite (bool_decide_eq_true_2 (is_Some (Some criteria))) by eauto. cbn [orb andb].
  assert (forall s, s ∈ map e_status rows <-> exists e, e ∈ rows /\ e_status e = s) as Hm.
  { intros s. rewrite list_elem_of_In, List.in_map_iff. setoid_rewrite list_elem_of_In. naive_solver. }
  split; [unfold STATUSES; repeat case_match; set_solver|]. rewrite <- Hm. case_bool_decide as Hf.
  { split; [split; [done|]|done]. intros [_ Hp]. apply Hm in Hf as (e & He & Hs). rewrite Hp in Hs; done. }
  case_bool_decide as Hi; cbn [orb].
  { split; [split; [done|]|done]. intros [_ Hp]. apply Hm in Hi as (e & He & Hs). rewrite Hp in Hs; done. }
  case_bool_decide; (split; [split; [try done|try done]|done]); [tauto|]. intros _. split; [done|]. intros e He.
  specialize (Hk e He). unfold STATUSES in Hk. rewrite !elem_of_cons, elem_of_nil in Hk.
  destruct Hk as [?|[E|[E|[]]]]; [done|destruct Hf|destruct Hi]; apply Hm; eauto.
Qed.

Lemma task_state_cases s : s ∈ STATUSES -> exists state, task_state s = Ok state /\
  (state = TSUCCEEDED <-> s = "PASS") /\ (state = TFAILED <-> s = "FAIL").
Proof.
  unfold STATUSES. rewrite !elem_of_cons, elem_of_nil. intros [->|[->|[->|[]]]]; eexists; (split; [reflexivity|]); split; split; done.
Qed.

(** C6: the verdict on an Attempt.  Every status the evaluator and the later
    downgrades leave is one of the three the Task state table knows.  The Task
    succeeds exactly when it has criteria, every row is still a PASS after the
    workspace was compared with the result tree and the acceptance rule was
    applied, and, when the request declares a held-out or randomized oracle,
    one such PASS accepts the diff; it fails exactly when some row failed.
    A row that is still a PASS saw the result tree and accepts this diff for
    someone other than the Attempt's agent.  Rows are only ever weakened: a
    FAIL is never lifted, nothing becomes a PASS, and every criterion of the
    Task has a row. *)
Theorem verdict_spec format_g ev mach tree final_tree clock hidden_at rq criteria rt agent sha r :
  r_criteria rq = Some criteria ->
  assess format_g ev mach tree final_tree clock hidden_at rq rt agent sha = Ok r ->
  (exists state, task_state (er_status r) = Ok state /\
     (state = TSUCCEEDED <-> criteria <> [] /\ (forall e, e ∈ er_evidence r -> e_status e = "PASS") /\
        (requires_hidden (r_policies rq) = true -> hidden_seen agent sha hidden_at (er_evidence r))) /\
     (state = TFAILED <-> exists e, e ∈ er_evidence r /\ e_status e = "FAIL")) /\
  (forall i e, er_evidence r !! i = Some e -> accepted_row clock agent sha rt i e) /\
  (exists evaluation, evaluate format_g ev mach (fun n e => drift_checked e (tree n) rt) rq = Ok evaluation /\
     Forall2 weaker (er_evidence evaluation) (er_evidence r)) /\
  (forall c, c ∈ criteria -> exists e, e ∈ er_evidence r /\ e_criterion e = Some c).
Proof.
  intros Hc (r0 & He & H)%bind_Ok. destruct (evaluate_rows_ok _ _ _ _ _ _ _ He) as [Hs0 Hrows0].
  destruct (final_tree_rows tree rt rq r0 final_tree Hs0 Hrows0) as (Hw1 & Hs1 & Hrows1).
  destruct (enforce_spec _ _ _ _ _ _ _ _ _ Hs1 Hrows1 H) as (Hw2 & Hacc & Hst).
  assert (forall e, e ∈ er_evidence r -> exists e1 item, item ∈ plan rq /\ weaker e1 e /\ evaluated_row rt item e1) as Hback.
  { intros e [i Hi]%list_elem_of_lookup. destruct (Forall2_lookup_r _ _ _ _ _ Hw2 Hi) as (e1 & He1 & Hw).
    destruct (Forall2_lookup_r _ _ _ _ _ Hrows1 He1) as (item & Hitem & Hok). exists e1, item. split_and!; [|done|done].
    by eapply list_elem_of_lookup_2. }
  assert (forall e, e ∈ er_evidence r -> e_status e ∈ STATUSES) as Hk.
  { intros e (e1 & item & _ & [Hl _] & Hok)%Hback. destruct Hl as [->|[_ ->]]; [apply (er_known _ _ _ Hok)|unfold STATUSES; set_solver]. }
  destruct (statuses_overall_cases rq criteria (er_evidence r) Hc Hk) as (Hin & Hpass & Hfail).
  split_and!; [|done| |].
  - destruct Hst as [[-> Hh]|(Hreq & Hn & ->)].
    + destruct (task_state_cases _ Hin) as (state & -> & Hp & Hf). exists state. rewrite Hp, Hf, Hpass, Hfail. split_and!; [done| |done]. naive_solver.
    + cbv zeta. unfold str_eq. case_bool_decide as Hp.
      * exists TINCONCLUSIVE. split; [done|]. split; (split; [done|]); [tauto|]. intros Hx%Hfail. congruence.
      * destruct (task_state_cases _ Hin) as (state & -> & Hp' & Hf). exists state. rewrite Hp', Hf, Hfail. split_and!; [done| |done]. tauto.
  - exists r0. split; [exact He|]. by etrans.
  - intros c Hcc. destruct (plan_covers rq c) as (item & Hi & Hic); [unfold expected_criteria; by rewrite Hc|].
    apply list_elem_of_lookup in Hi as [i Hi]. destruct (Forall2_lookup_l _ _ _ _ _ Hrows1 Hi) as (e1 & He1 & Hok).
    destruct (Forall2_lookup_l _ _ _ _ _ Hw2 He1) as (e & He' & [_ Hsame]). exists e. split; [by eapply list_elem_of_lookup_2|].
    transitivity (e_criterion e1); [exact (f_equal e_criterion Hsame)|]. by rewrite (er_criterion _ _ _ Hok).
Qed.

Lemma verdict_spec_witness : exists r,
  assess (fun _ => "30") EvaluateDemo.ev (fun _ => EvaluateDemo.mach) (fun _ => "t1") "t1" (fun _ => DateTime 2000 true) (DateTime 2000 true)
    (EvaluateDemo.request [("works", [["pytest"; "tests/test_a.py"]])]) (Some "t1") "native" "s1" = Ok r /\
  er_status r = "PASS" /\ forall e, er_evidence r !! 0%nat = Some e -> acceptable (as_row e) "native" "s1" (DateTime 2000 true).
Proof.
  set (rq := EvaluateDemo.request [("works", [["pytest"; "tests/test_a.py"]])]).
  assert ((fun r => (er_status r, map e_status (er_evidence r))) <$>
    assess (fun _ => "30") EvaluateDemo.ev (fun _ => EvaluateDemo.mach) (fun _ => "t1") "t1" (fun _ => DateTime 2000 true) (DateTime 2000 true)
      rq (Some "t1") "native" "s1" = Ok ("PASS", ["PASS"])) as Hv by (vm_compute; reflexivity).
  destruct (assess _ _ _ _ _ _ _ rq _ _ _) as [r|] eqn:Ha; [|discriminate Hv]. exists r. split; [reflexivity|].
  destruct (verdict_spec _ _ _ _ _ _ _ rq ["works"] _ _ _ r eq_refl Ha) as (_ & Hrow & _).
  injection Hv as Hs Hr. split; [exact Hs|]. intros e He. apply (Hrow 0%nat e He).
  destruct (er_evidence r) as [|e0 l]; [discriminate He|]. injection He as <-. by injection Hr.
Defined.

(** The same check whose run changed the workspace is inconclusive. *)
Example drift_is_inconclusive :
  er_status <$> assess (fun _ => "30") EvaluateDemo.ev (fun _ => EvaluateDemo.mach) (fun _ => "t2") "t2" (fun _ => DateTime 2000 true) (DateTime 2000 true)
    (EvaluateDemo.request [("works", [["pytest"; "tests/test_a.py"]])]) (Some "t1") "native" "s1" = Ok "INCONCLUSIVE".
Proof. vm_compute. reflexivity. Qed.
