(* ===== verification/Trees.v ===== *)
(** * Trees: the identity of a directory

    Models [tree_digest] of [src/sdf_core/revisions.py] and its helpers on an
    abstract directory: the Git tree object id, in the SHA-256 object format,
    of its regular files and symbolic links.  File names, link targets and
    file contents are byte strings. *)

From S2P Require Import Prelude Sha256 Json JsonText Checks Oracle.

(** What [os.scandir] and [lstat] show of a directory, in listing order. *)
Inductive Node : Type :=
  | Link (target : string)
  | Dir (entries : list (string * Node))
  | Regular (executable : bool) (bytes : string)
  | SpecialFile.

(** The 32 bytes of [digest()], as a byte string. *)
Fixpoint raw (l : list Z) : string :=
  match l with [] => EmptyString | z :: l => String (ascii_of_nat (Z.to_nat z)) (raw l) end.

Definition sha (s : string) : string := raw (Sha256.digest (Sha256.bytes_of s)).

(** [_object_id(kind, size, chunks).digest()] of chunks of that size. *)
Definition object_text (kind data : string) : string := kind +:+ " " +:+ pretty (str_len data) +:+ nul +:+ data.
Definition object_id (kind data : string) : string := sha (object_text kind data).

Definition skipped (skip_names : list string) (name : string) : bool := str_eq name ".git" || str_in name skip_names.
Definition file_mode (executable : bool) : string := if executable then "100755" else "100644".

(** The pair [entries] gets: the sort key and the line of the tree object. *)
Definition tree_item (mode name oid : string) : string := mode +:+ " " +:+ name +:+ nul +:+ oid.

Definition tree_body (items : list (string * string)) : string := foldr (fun e acc => e.2 +:+ acc) "" (sort_by file_le items).

(** [_tree], on the items of the entries. *)
Definition tree_id (items : list (string * string)) : option string :=
  match items with [] => None | _ => Some (object_id "tree" (tree_body items)) end.

Fixpoint entry_item (skip_names : list string) (name : string) (n : Node) : option (string * string) :=
  if skipped skip_names name then None else
  match n with
  | Link target => Some (name, tree_item "120000" name (object_id "blob" target))
  | Dir entries =>
      match tree_id ((fix go l := match l with
                                  | [] => []
                                  | (k, c) :: l => match entry_item skip_names k c with Some e => e :: go l | None => go l end
                                  end) entries) with
      | Some oid => Some (name +:+ "/", tree_item "40000" name oid)
      | None => None
      end
  | Regular executable bytes => Some (name, tree_item (file_mode executable) name (object_id "blob" bytes))
  | SpecialFile => None
  end.

Definition items (skip_names : list string) (entries : list (string * Node)) : list (string * string) :=
  omap (fun kn => entry_item skip_names kn.1 kn.2) entries.

Definition tree (skip_names : list string) (entries : list (string * Node)) : option string := tree_id (items skip_names entries).

(** [tree_digest]: [root] is what the path names, if anything. *)
Definition tree_digest (skip_names : list string) (root : option Node) (path : string) : result string :=
  match root with
  | Some (Dir entries) =>
      Ok (match tree skip_names entries with
          | Some oid => Sha256.hex (Sha256.bytes_of oid)
          | None => Sha256.hex (Sha256.bytes_of (object_id "tree" ""))
          end)
  | _ => Err (OtherError "RevisionBindingError" ("revision root must be a real directory: " +:+ path))
  end.

Lemma entry_item_dir skip_names name entries : entry_item skip_names name (Dir entries) =
  if skipped skip_names name then None else
  match tree skip_names entries with Some oid => Some (name +:+ "/", tree_item "40000" name oid) | None => None end.
Proof.
  assert ((fix go l := match l with
                       | [] => []
                       | (k, c) :: l => match entry_item skip_names k c with Some e => e :: go l | None => go l end
                       end) entries = items skip_names entries) as E.
  { induction entries as [|[k c] l IH]; [done|]. rewrite IH. unfold items. cbn [omap list_omap fst snd].
    by destruct (entry_item skip_names k c). }
  cbn [entry_item]. rewrite E. done.
Qed.

(** Two concrete identities: the empty tree, and a directory with an
    executable in a subdirectory and a symbolic link, as [git write-tree]
    prints them in a SHA-256 repository. *)
Example tree_digest_empty : tree_digest [] (Some (Dir [(".git", Dir [("HEAD", Regular false "x")])])) "/w" =
  Ok "6ef19b41225c5369f1c104d45d8d85efa9b057b53b14b4b9b939dd74decc5321".
Proof. vm_compute. reflexivity. Qed.

Example tree_digest_git :
  tree_digest [] (Some (Dir [("l", Link "a"); ("a", Regular false ("hello" +:+ newline)); ("b", Dir [("c", Dir [("d", Regular true "x")])])])) "/w" =
  Ok "a3ea0bbe42e69e6c7be8012b2d66e90b70575e54d24b2f1f927564012488bc42".
Proof. vm_compute. reflexivity. Qed.

(** ** The files of a directory *)

(** A path, and the mode and content found there. *)
Definition File : Type := list string * (string * string).

Definition under (name : string) (f : File) : File := (name :: f.1, f.2).

Fixpoint entry_files (skip_names : list string) (name : string) (n : Node) : list File :=
  if skipped skip_names name then [] else
  match n with
  | Link target => [([name], ("120000", target))]
  | Dir entries =>
      map (under name) ((fix go l := match l with [] => [] | (k, c) :: l => entry_files skip_names k c ++ go l end) entries)
  | Regular executable bytes => [([name], (file_mode executable, bytes))]
  | SpecialFile => []
  end.

Definition files (skip_names : list string) (entries : list (string * Node)) : list File :=
  entries ≫= fun kn => entry_files skip_names kn.1 kn.2.

Lemma entry_files_dir skip_names name entries : entry_files skip_names name (Dir entries) =
  if skipped skip_names name then [] else map (under name) (files skip_names entries).
Proof.
  assert ((fix go l := match l with [] => [] | (k, c) :: l => entry_files skip_names k c ++ go l end) entries = files skip_names entries) as E.
  { induction entries as [|[k c] l IH]; [done|]. rewrite IH. done. }
  cbn [entry_files]. rewrite E. done.
Qed.

(** The objects hashed for an entry: their texts. *)
Fixpoint entry_objects (skip_names : list string) (name : string) (n : Node) : list string :=
  if skipped skip_names name then [] else
  match n with
  | Link target => [object_text "blob" target]
  | Dir entries =>
      object_text "tree" (tree_body (items skip_names entries)) ::
      (fix go l := match l with [] => [] | (k, c) :: l => entry_objects skip_names k c ++ go l end) entries
  | Regular _ bytes => [object_text "blob" bytes]
  | SpecialFile => []
  end.

Definition objects (skip_names : list string) (entries : list (string * Node)) : list string :=
  object_text "tree" (tree_body (items skip_names entries)) :: entries ≫= fun kn => entry_objects skip_names kn.1 kn.2.

Lemma entry_objects_dir skip_names name entries : entry_objects skip_names name (Dir entries) =
  if skipped skip_names name then [] else objects skip_names entries.
Proof.
  assert ((fix go l := match l with [] => [] | (k, c) :: l => entry_objects skip_names k c ++ go l end) entries =
          entries ≫= fun kn => entry_objects skip_names kn.1 kn.2) as E.
  { induction entries as [|[k c] l IH]; [done|]. rewrite IH. done. }
  cbn [entry_objects]. rewrite E. done.
Qed.

(** A directory as a file system shows it: distinct, plain names. *)
Definition plain_name (s : string) : Prop := s <> "" /\ str_has_char slash s = false /\ no_nul s.

Fixpoint well_formed (n : Node) : Prop :=
  match n with
  | Dir entries =>
      NoDup (map fst entries) /\
      (fix go l := match l with [] => True | (k, c) :: l => plain_name k /\ well_formed c /\ go l end) entries
  | _ => True
  end.

Lemma well_formed_dir entries : well_formed (Dir entries) <->
  NoDup (map fst entries) /\ Forall (fun kn => plain_name kn.1 /\ well_formed kn.2) entries.
Proof.
  cbn [well_formed]. apply Morphisms_Prop.and_iff_morphism; [done|].
  induction entries as [|[k c] l IH]; [by split|]. rewrite Forall_cons, IH. cbn. tauto.
Qed.

(** How deep the directory goes. *)
Fixpoint depth (n : Node) : nat :=
  match n with
  | Dir entries => S ((fix go l := match l with [] => O | (_, c) :: l => Nat.max (depth c) (go l) end) entries)
  | _ => O
  end.

Lemma depth_entry entries k c : (k, c) ∈ entries -> (depth c < depth (Dir entries))%nat.
Proof.
  cbn [depth]. induction entries as [|[j x] l IH]; [by intros ?%not_elem_of_nil|]. intros [[= <- <-]|H]%elem_of_cons; [lia|].
  specialize (IH H). lia.
Qed.

(** ** The files determine the identity *)

Section tree_facts.
Context (skip_names : list string).

Lemma elem_items e entries : e ∈ items skip_names entries <-> exists k c, (k, c) ∈ entries /\ entry_item skip_names k c = Some e.
Proof.
  unfold items. rewrite list_elem_of_omap. split; [intros ([k c] & ? & ?); by exists k, c|intros (k & c & ? & ?); by exists (k, c)].
Qed.

Lemma elem_files f entries : f ∈ files skip_names entries <-> exists k c, (k, c) ∈ entries /\ f ∈ entry_files skip_names k c.
Proof.
  unfold files. rewrite list_elem_of_bind. split; [intros ([k c] & ? & ?); by exists k, c|intros (k & c & ? & ?); by exists (k, c)].
Qed.

(** An entry's files are below its name. *)
Lemma entry_files_head k c f : f ∈ entry_files skip_names k c -> exists p x, f = (k :: p, x) /\
  match c with Dir entries => (p, x) ∈ files skip_names entries | _ => p = [] end.
Proof.
  destruct c as [t|entries|b x|].
  - cbn [entry_files]. destruct (skipped _ _); [by intros ?%not_elem_of_nil|]. intros ->%list_elem_of_singleton. by eexists _, _.
  - rewrite entry_files_dir. destruct (skipped _ _); [by intros ?%not_elem_of_nil|]. intros ([p x] & -> & Hf)%list_elem_of_fmap. by exists p, x.
  - cbn [entry_files]. destruct (skipped _ _); [by intros ?%not_elem_of_nil|]. intros ->%list_elem_of_singleton. by eexists _, _.
  - cbn [entry_files]. destruct (skipped _ _); by intros ?%not_elem_of_nil.
Qed.

Lemma files_path_nonempty entries p x : (p, x) ∈ files skip_names entries -> p <> [].
Proof. intros (k & c & _ & (p' & x' & [= -> ->] & _)%entry_files_head)%elem_files. done. Qed.

(** An entry has a line in the tree object exactly when it has a file. *)
Lemma entry_item_files d : forall k c, (depth c < d)%nat -> entry_item skip_names k c = None <-> entry_files skip_names k c = [].
Proof.
  induction d as [|d IH]; intros k c Hd; [lia|]. destruct c as [t|entries|b x|]; try (cbn; by destruct (skipped _ _)).
  rewrite entry_item_dir, entry_files_dir. destruct (skipped _ _); [done|].
  assert (tree skip_names entries = None <-> files skip_names entries = []) as E.
  { unfold tree, tree_id. transitivity (items skip_names entries = []); [by destruct (items _ _)|].
    assert (forall k c, (k, c) ∈ entries -> entry_item skip_names k c = None <-> entry_files skip_names k c = []) as Hc.
    { intros j c Hj. apply IH. pose proof (depth_entry _ _ _ Hj). lia. }
    clear -Hc. unfold items, files. induction entries as [|[j c] l IHl]; [done|]. cbn [omap list_omap mbind list_bind fst snd].
    rewrite app_nil, <- (Hc j c) by left. rewrite <- IHl by (intros; apply Hc; by right). destruct (entry_item _ j c); naive_solver. }
  split.
  - destruct (tree _ _) eqn:Ht; [done|]. intros _. by rewrite (proj1 E eq_refl).
  - intros Hm%fmap_nil_inv. apply E in Hm as ->. done.
Qed.

(** What an entry's line is determined by, apart from its name. *)
Lemma entry_item_key k c e : entry_item skip_names k c = Some e ->
  exists mode oid, e = (k +:+ (if str_eq mode "40000" then "/" else ""), tree_item mode k oid) /\
    str_has_char (ascii_of_nat 32) mode = false.
Proof.
  assert (k +:+ "" = k) as Hk by (clear; induction k as [|c k IH]; [done|]; by rewrite str_app_cons, IH).
  destruct c as [t|entries|b x|].
  - cbn [entry_item]. destruct (skipped _ _); [done|]. intros [= <-]. exists "120000", (object_id "blob" t).
    split; [|done]. f_equal. symmetry. exact Hk.
  - rewrite entry_item_dir. destruct (skipped _ _); [done|]. destruct (tree _ _) as [oid|]; [|done]. intros [= <-]. by exists "40000", oid.
  - cbn [entry_item]. destruct (skipped _ _); [done|]. intros [= <-]. exists (file_mode b), (object_id "blob" x).
    split; [|by destruct b]. f_equal. symmetry. destruct b; exact Hk.
  - cbn [entry_item]. by destruct (skipped _ _).
Qed.

Lemma tree_item_inj m1 m2 k1 k2 o1 o2 : str_has_char (ascii_of_nat 32) m1 = false -> str_has_char (ascii_of_nat 32) m2 = false ->
  no_nul k1 -> no_nul k2 -> tree_item m1 k1 o1 = tree_item m2 k2 o2 -> m1 = m2 /\ k1 = k2 /\ o1 = o2.
Proof.
  unfold tree_item, nul, char_str. intros Hm1 Hm2 Hk1 Hk2 H. apply str_cut in H as [-> H]; [|done..].
  change (k1 +:+ String (ascii_of_nat 0) o1 = k2 +:+ String (ascii_of_nat 0) o2) in H. by apply str_cut in H as [-> ->].
Qed.

Lemma entry_unique (k : string) (c c' : Node) entries : NoDup (map fst entries) -> (k, c) ∈ entries -> (k, c') ∈ entries -> c = c'.
Proof. intros Hn H H'. assert ((k, c) = (k, c')) as [= ->]; [|done]. by apply (NoDup_map_inj fst entries). Qed.

Lemma items_NoDup entries : well_formed (Dir entries) -> NoDup (items skip_names entries).
Proof.
  intros [Hn Hw]%well_formed_dir. unfold items. induction Hw as [|[k c] l [Hp _] Hl IH]; [constructor|]. cbn [omap list_omap fst snd].
  apply NoDup_cons in Hn as [Hk Hn]. cbn [fst] in Hk. destruct (entry_item skip_names k c) as [e|] eqn:He; [|by apply IH]. constructor; [|by apply IH].
  intros (j & c' & Hj & He')%elem_items. apply Hk. cbn [fst].
  apply entry_item_key in He as (m & o & -> & Hm). apply entry_item_key in He' as (m' & o' & [= _ E] & Hm').
  rewrite Forall_forall in Hl. destruct (Hl _ Hj) as [[_ [_ Hz']] _]. destruct Hp as (_ & _ & Hz).
  apply tree_item_inj in E as (_ & <- & _); [|done..]. apply list_elem_of_In, List.in_map_iff. exists (k, c'). split; [done|by apply list_elem_of_In].
Qed.

Lemma file_le_total a b : file_le a b = true \/ file_le b a = true.
Proof.
  unfold file_le, str_eq. destruct (decide (a.1 = b.1)) as [E|E].
  - rewrite !bool_decide_eq_true_2 by done. apply str_le_total.
  - rewrite !bool_decide_eq_false_2 by congruence. apply str_le_total.
Qed.

Lemma file_le_antisym a b : file_le a b = true -> file_le b a = true -> a = b.
Proof.
  unfold file_le, str_eq. destruct a as [a1 a2], b as [b1 b2]. cbn [fst snd]. destruct (decide (a1 = b1)) as [E|E].
  - rewrite !bool_decide_eq_true_2 by done. intros. f_equal; [done|]. by apply str_le_antisym.
  - rewrite !bool_decide_eq_false_2 by congruence. intros. destruct E. by apply str_le_antisym.
Qed.

Lemma file_le_trans a b c : file_le a b = true -> file_le b c = true -> file_le a c = true.
Proof.
  unfold file_le, str_eq. destruct a as [a1 a2], b as [b1 b2], c as [c1 c2]. cbn [fst snd].
  destruct (decide (a1 = b1)) as [->|E].
  - rewrite (bool_decide_eq_true_2 (b1 = b1)) by done. case_bool_decide; [|done]. apply str_le_trans.
  - rewrite (bool_decide_eq_false_2 (a1 = b1)) by done. destruct (decide (b1 = c1)) as [->|E'].
    + rewrite (bool_decide_eq_true_2 (c1 = c1)), (bool_decide_eq_false_2 (a1 = c1)) by done. done.
    + rewrite (bool_decide_eq_false_2 (b1 = c1)) by done. intros H1 H2. case_bool_decide as Hx; [|by eapply str_le_trans].
      subst. destruct E. by apply str_le_antisym.
Qed.

Lemma tree_id_perm l l' : l ≡ₚ l' -> tree_id l = tree_id l'.
Proof.
  intros H. assert (sort_by file_le l = sort_by file_le l') as E.
  { eapply (StronglySorted_unique_strong (fun a b => file_le a b = true)); [| | |by rewrite !sort_by_perm].
    - intros a b _ _. apply file_le_antisym.
    - apply sort_by_sorted; [apply file_le_total|apply file_le_trans].
    - apply sort_by_sorted; [apply file_le_total|apply file_le_trans]. }
  unfold tree_id, tree_body. rewrite E. destruct l as [|x l], l' as [|y l']; try done; [by apply Permutation_nil_l in H|by apply Permutation_nil_r in H].
Qed.

(** Entries of one name with the same files have the same line. *)
Lemma files_entry entries entries' k c c' : NoDup (map fst entries') -> (k, c) ∈ entries -> (k, c') ∈ entries' ->
  (forall f, f ∈ files skip_names entries -> f ∈ files skip_names entries') ->
  forall f, f ∈ entry_files skip_names k c -> f ∈ entry_files skip_names k c'.
Proof.
  intros Hn Hc Hc' Hf f Hin. assert (f ∈ files skip_names entries') as (j & c'' & Hj & Hin')%elem_files by (apply Hf, elem_files; eauto).
  pose proof (entry_files_head _ _ _ Hin) as (p & x & E & _). pose proof (entry_files_head _ _ _ Hin') as (p' & x' & E' & _).
  assert (j = k) as -> by congruence. by rewrite (entry_unique k c' c'' entries').
Qed.

Lemma same_files_item k c c' : (forall l l', c = Dir l -> c' = Dir l' -> (forall f, f ∈ files skip_names l <-> f ∈ files skip_names l') ->
    tree skip_names l = tree skip_names l') ->
  (forall f, f ∈ entry_files skip_names k c <-> f ∈ entry_files skip_names k c') -> entry_item skip_names k c = entry_item skip_names k c'.
Proof.
  intros Hdir Hf. destruct (entry_files skip_names k c) as [|f0 l0] eqn:E0.
  { assert (entry_files skip_names k c' = []) as E1.
    { destruct (entry_files skip_names k c') as [|f l]; [done|]. exfalso. apply (not_elem_of_nil f), Hf. by left. }
    rewrite (proj2 (entry_item_files (S (depth c)) k c ltac:(lia)) E0). symmetry.
    by apply (entry_item_files (S (depth c'))); [lia|]. }
  rewrite <- E0 in Hf. assert (f0 ∈ entry_files skip_names k c) as H0 by (rewrite E0; left). clear E0 l0.
  pose proof (proj1 (Hf f0) H0) as H1.
  destruct c as [t|l|b x|], c' as [t'|l'|b' x'|]; try (cbn [entry_files entry_item] in *; destruct (skipped _ _); by apply not_elem_of_nil in H0);
    try (cbn [entry_files entry_item] in *; destruct (skipped _ _); by apply not_elem_of_nil in H1).
  - cbn [entry_files entry_item] in *. destruct (skipped _ _); [done|]. apply list_elem_of_singleton in H0, H1. congruence.
  - apply entry_files_head in H0 as (p & x & -> & ->), H1 as (p' & x' & [= <- <-] & H). by apply files_path_nonempty in H.
  - cbn [entry_files entry_item] in *. destruct (skipped _ _); [done|]. apply list_elem_of_singleton in H0, H1. destruct b'; congruence.
  - apply entry_files_head in H1 as (p & x & -> & ->), H0 as (p' & x' & [= <- <-] & H). by apply files_path_nonempty in H.
  - rewrite !entry_item_dir. rewrite !entry_files_dir in Hf. destruct (skipped _ _); [done|].
    rewrite (Hdir l l'); [done..|]. intros [p y]. specialize (Hf (under k (p, y))).
    assert (forall m, under k (p, y) ∈ map (under k) m <-> (p, y) ∈ m) as Hm.
    { intros m. rewrite list_elem_of_fmap. split; [intros ([q z] & [= <- <-] & ?); done|eauto]. }
    by rewrite !Hm in Hf.
  - apply entry_files_head in H1 as (p & y & -> & ->), H0 as (p' & y' & [= <- <-] & H). by apply files_path_nonempty in H.
  - cbn [entry_files entry_item] in *. destruct (skipped _ _); [done|]. apply list_elem_of_singleton in H0, H1. destruct b; congruence.
  - apply entry_files_head in H0 as (p & y & -> & ->), H1 as (p' & y' & [= <- <-] & H). by apply files_path_nonempty in H.
  - cbn [entry_files entry_item] in *. destruct (skipped _ _); [done|]. apply list_elem_of_singleton in H0, H1. destruct b, b'; congruence.
Qed.

(** The order of the listing, [.git] and empty directories do not matter. *)
Lemma same_files_tree d : forall entries entries', (depth (Dir entries) < d)%nat -> well_formed (Dir entries) -> well_formed (Dir entries') ->
  (forall f, f ∈ files skip_names entries <-> f ∈ files skip_names entries') -> tree skip_names entries = tree skip_names entries'.
Proof.
  induction d as [|d IH]; intros entries entries' Hd Hw Hw' Hf; [lia|]. unfold tree. apply tree_id_perm, NoDup_Permutation; [by apply items_NoDup..|].
  pose proof (proj1 (well_formed_dir _) Hw) as [Hn Hws]. pose proof (proj1 (well_formed_dir _) Hw') as [Hn' Hws']. rewrite Forall_forall in Hws, Hws'.
  assert (forall k c c', (k, c) ∈ entries -> (k, c') ∈ entries' -> entry_item skip_names k c = entry_item skip_names k c') as Hent.
  { intros k c c' Hc Hc'. apply same_files_item.
    - intros l l' -> -> Hl. pose proof (depth_entry _ _ _ Hc). apply IH; [lia|by apply (Hws _ Hc)|by apply (Hws' _ Hc')|done].
    - intros f. split; [apply (files_entry entries entries')|apply (files_entry entries' entries)]; try done; intros g; apply Hf. }
  assert (forall es es', (forall f, f ∈ files skip_names es -> f ∈ files skip_names es') -> (forall k c c', (k, c) ∈ es -> (k, c') ∈ es' -> entry_item skip_names k c = entry_item skip_names k c') ->
            forall e, e ∈ items skip_names es -> e ∈ items skip_names es') as Hsub.
  { intros es es' Hfs He e (k & c & Hc & Hi)%elem_items. destruct (entry_files skip_names k c) as [|f l] eqn:Ef.
    { apply (entry_item_files (S (depth c))) in Ef; [congruence|lia]. }
    assert (f ∈ entry_files skip_names k c) as Hin by (rewrite Ef; left).
    assert (f ∈ files skip_names es') as (j & c' & Hj & Hin')%elem_files by (apply Hfs, elem_files; eauto).
    pose proof (entry_files_head _ _ _ Hin) as (p & x & E & _). pose proof (entry_files_head _ _ _ Hin') as (p' & x' & E' & _).
    assert (j = k) as -> by congruence. apply elem_items. exists k, c'. split; [done|]. rewrite <- Hi. symmetry. by apply He. }
  intros e. split; (apply Hsub; [intros f; apply Hf|]); [done|]. intros k c c' H1 H2. symmetry. by apply Hent.
Qed.
End tree_facts.

(** ** The identity determines the files, up to a collision *)

(** Two different objects of the trees with one SHA-256 digest. *)
Definition clash (a b : list string) : Prop := exists x y, x ∈ a /\ y ∈ b /\ x <> y /\ sha x = sha y.

#[export] Instance clash_dec a b : Decision (clash a b).
Proof.
  refine (cast_if (decide (Exists (fun x => Exists (fun y => x <> y /\ sha x = sha y) b) a))).
  - abstract (match goal with H : Exists _ _ |- _ => apply Exists_exists in H as (x & Hx & (y & Hy & Hn & He)%Exists_exists) end; by exists x, y).
  - abstract (intros (x & y & Hx & Hy & Hn & He);
      match goal with H : ~ Exists _ _ |- _ => apply H end; apply Exists_exists; exists x; split; [done|]; apply Exists_exists; by exists y).
Defined.

Lemma no_clash a b x y : ~ clash a b -> x ∈ a -> y ∈ b -> sha x = sha y -> x = y.
Proof. intros Hn Hx Hy He. destruct (decide (x = y)); [done|]. destruct Hn. by exists x, y. Qed.

Lemma raw_length l : String.length (raw l) = length l.
Proof. induction l as [|z l IH]; [done|]. cbn [raw String.length length]. by rewrite IH. Qed.

Lemma sha_length s : String.length (sha s) = 32%nat.
Proof. unfold sha. rewrite raw_length. apply digest_bytes. Qed.

Lemma str_cut_length a b x y : String.length a = String.length b -> a +:+ x = b +:+ y -> a = b /\ x = y.
Proof.
  revert b. induction a as [|c a IH]; intros [|d b] Hl H; try done. rewrite !str_app_cons in H. injection H as -> H. injection Hl as Hl.
  by destruct (IH b Hl H) as [-> ->].
Qed.

Lemma pretty_Z_no_nul (z : Z) : no_nul (pretty z).
Proof.
  destruct (pretty_Z_chars z) as [H _]. unfold no_nul. revert H. generalize (pretty z). intros s. induction s as [|c s IH]; [done|].
  cbn [str_forallb str_has_char]. intros [Hc Hs]%andb_true_iff. rewrite IH by done. rewrite bool_decide_eq_false_2; [done|]. by intros <-.
Qed.

Lemma object_text_inj kind d d' : object_text kind d = object_text kind d' -> d = d'.
Proof.
  unfold object_text. intros H. apply (inj (String.append kind)), (inj (String.append " ")) in H.
  change (pretty (str_len d) +:+ String (ascii_of_nat 0) d = pretty (str_len d') +:+ String (ascii_of_nat 0) d') in H.
  apply str_cut in H as [_ ->]; [done|apply pretty_Z_no_nul..].
Qed.

(** The line of an entry: a mode, a name and an identity of 32 bytes. *)
Definition item_shape (e : string * string) : Prop := exists mode k oid, e.2 = tree_item mode k oid /\
  str_has_char (ascii_of_nat 32) mode = false /\ no_nul k /\ String.length oid = 32%nat.

Lemma bodies_inj l : forall l', Forall item_shape l -> Forall item_shape l' ->
  foldr (fun e acc => e.2 +:+ acc) "" l = foldr (fun e acc => e.2 +:+ acc) "" l' -> map snd l = map snd l'.
Proof.
  assert (forall mode k oid rest, tree_item mode k oid +:+ rest = mode +:+ String (ascii_of_nat 32) (k +:+ String (ascii_of_nat 0) (oid +:+ rest))) as Hassoc.
  { intros. unfold tree_item, nul, char_str. rewrite !str_app_assoc. done. }
  assert (forall e acc, item_shape e -> e.2 +:+ acc <> "") as Hne.
  { intros [? it] acc (m & k & o & Hit & _). cbn [snd] in *. rewrite Hit, Hassoc. by destruct m. }
  induction l as [|e l IH]; intros [|e' l'] Fl Fl' H; [done| | |].
  - cbn [foldr] in H. apply Forall_cons in Fl' as [He _]. by destruct (Hne _ _ He (eq_sym H)).
  - cbn [foldr] in H. apply Forall_cons in Fl as [He _]. by destruct (Hne _ _ He H).
  - apply Forall_cons in Fl as [(m & k & o & Ee & Hm & Hk & Ho) Fl]. apply Forall_cons in Fl' as [(m' & k' & o' & Ee' & Hm' & Hk' & Ho') Fl'].
    cbn [foldr map] in *. rewrite Ee, Ee', !Hassoc in H. apply str_cut in H as [-> H]; [|done..]. apply str_cut in H as [-> H]; [|done..].
    apply str_cut_length in H as [-> H]; [|by rewrite Ho, Ho']. rewrite (IH l') by done. by rewrite Ee, Ee'.
Qed.

Section collision.
Context (skip_names : list string).

Lemma item_parts k c e : entry_item skip_names k c = Some e -> exists mode oid, e.2 = tree_item mode k oid /\ str_has_char (ascii_of_nat 32) mode = false /\
  match c with
  | Link t => mode = "120000" /\ oid = sha (object_text "blob" t)
  | Dir l => mode = "40000" /\ tree skip_names l = Some oid
  | Regular b x => mode = file_mode b /\ oid = sha (object_text "blob" x)
  | SpecialFile => False
  end.
Proof.
  destruct c as [t|l|b x|].
  - cbn [entry_item]. destruct (skipped _ _); [done|]. intros [= <-]. by eexists _, _.
  - rewrite entry_item_dir. destruct (skipped _ _); [done|]. destruct (tree _ _) as [oid|] eqn:Ht; [|done]. intros [= <-]. by eexists _, oid.
  - cbn [entry_item]. destruct (skipped _ _); [done|]. intros [= <-]. eexists _, _. split_and!; try done. by destruct b.
  - cbn [entry_item]. by destruct (skipped _ _).
Qed.

Lemma tree_oid_length l oid : tree skip_names l = Some oid -> oid = sha (object_text "tree" (tree_body (items skip_names l))) /\ items skip_names l <> [].
Proof. unfold tree, tree_id. destruct (items skip_names l); [done|]. by intros [= <-]. Qed.

Lemma item_oid_length k c e : plain_name k -> entry_item skip_names k c = Some e -> item_shape e.
Proof.
  intros (_ & _ & Hk) (mode & oid & He & Hm & H)%item_parts. exists mode, k, oid. split_and!; try done. destruct c as [t|l|b x|]; [| | |done].
  - destruct H as [_ ->]. apply sha_length.
  - destruct H as [_ (-> & _)%tree_oid_length]. apply sha_length.
  - destruct H as [_ ->]. apply sha_length.
Qed.

Lemma items_shape entries : well_formed (Dir entries) -> Forall item_shape (sort_by file_le (items skip_names entries)).
Proof.
  intros [_ Hw]%well_formed_dir. rewrite sort_by_perm. apply Forall_forall. intros e (k & c & Hc & He)%elem_items.
  rewrite Forall_forall in Hw. eapply item_oid_length; [|done]. by apply (Hw _ Hc).
Qed.

Lemma same_id_items entries entries' oid : well_formed (Dir entries) -> well_formed (Dir entries') ->
  ~ clash (objects skip_names entries) (objects skip_names entries') ->
  tree skip_names entries = Some oid -> tree skip_names entries' = Some oid ->
  forall e, e ∈ items skip_names entries -> exists e', e' ∈ items skip_names entries' /\ e'.2 = e.2.
Proof.
  intros Hw Hw' Hn [H1 _]%tree_oid_length [H2 _]%tree_oid_length e He. rewrite H1 in H2. apply (no_clash _ _ _ _ Hn) in H2; [|by left..].
  apply object_text_inj, bodies_inj in H2; [|by apply items_shape..].
  assert (e.2 ∈ map snd (sort_by file_le (items skip_names entries))) as Hi.
  { apply list_elem_of_In, List.in_map, list_elem_of_In. by rewrite sort_by_perm. }
  rewrite H2 in Hi. apply list_elem_of_In, List.in_map_iff in Hi as (e' & Ee & Hi). exists e'. split; [|done].
  apply list_elem_of_In in Hi. by rewrite sort_by_perm in Hi.
Qed.

Lemma elem_objects k c x entries : (k, c) ∈ entries -> x ∈ entry_objects skip_names k c -> x ∈ objects skip_names entries.
Proof. intros Hc Hx. right. apply list_elem_of_bind. by exists (k, c). Qed.

Lemma clash_sub a b a' b' : (forall x, x ∈ a' -> x ∈ a) -> (forall x, x ∈ b' -> x ∈ b) -> ~ clash a b -> ~ clash a' b'.
Proof. intros Ha Hb Hn (x & y & Hx & Hy & H). apply Hn. exists x, y. auto. Qed.

Lemma blob_objects k x entries c : (k, c) ∈ entries -> skipped skip_names k = false ->
  match c with Link t => x = t | Regular _ b => x = b | _ => False end -> object_text "blob" x ∈ objects skip_names entries.
Proof. intros Hc Hk Hx. eapply elem_objects; [exact Hc|]. destruct c; try done; subst; cbn [entry_objects]; rewrite Hk; by left. Qed.

Lemma same_id_files d : forall entries entries' oid, (depth (Dir entries) < d)%nat -> well_formed (Dir entries) -> well_formed (Dir entries') ->
  ~ clash (objects skip_names entries) (objects skip_names entries') ->
  tree skip_names entries = Some oid -> tree skip_names entries' = Some oid ->
  forall f, f ∈ files skip_names entries -> f ∈ files skip_names entries'.
Proof.
  induction d as [|d IH]; intros entries entries' oid Hd Hw Hw' Hn Ht Ht' f (k & c & Hc & Hf)%elem_files; [lia|].
  pose proof (proj1 (well_formed_dir _) Hw) as [_ Hws]. pose proof (proj1 (well_formed_dir _) Hw') as [_ Hws']. rewrite Forall_forall in Hws, Hws'.
  assert (skipped skip_names k = false) as Hk.
  { apply not_true_iff_false. intros E. destruct c; cbn [entry_files] in Hf; rewrite E in Hf; by apply not_elem_of_nil in Hf. }
  destruct (entry_item skip_names k c) as [e|] eqn:He.
  2: { apply (entry_item_files skip_names (S (depth c))) in He; [|lia]. rewrite He in Hf. by apply not_elem_of_nil in Hf. }
  destruct (same_id_items entries entries' oid Hw Hw' Hn Ht Ht' e) as (e' & (k' & c' & Hc' & He')%elem_items & Eq); [apply elem_items; eauto|].
  pose proof (Hws _ Hc) as [(_ & _ & Hz) Hwc]. pose proof (Hws' _ Hc') as [(_ & _ & Hz') Hwc']. cbn [fst snd] in *.
  apply item_parts in He as (m & o & Ei & Hs & Hm), He' as (m' & o' & Ei' & Hs' & Hm'). rewrite Ei, Ei' in Eq.
  apply tree_item_inj in Eq as (-> & -> & ->); [|done..].
  apply elem_files. exists k, c'. split; [done|].
  destruct c as [t|l|b x|], c' as [t'|l'|b' x'|]; try done; destruct Hm as [E1 E2], Hm' as [E1' E2']; rewrite E1 in E1';
    try discriminate E1'; try (by destruct b); try (by destruct b'); try rewrite E2 in E2'.
  - apply (no_clash _ _ _ _ Hn) in E2' as ->%object_text_inj; [done|by eapply blob_objects..].
  - rewrite entry_files_dir, Hk in Hf |- *. apply list_elem_of_fmap in Hf as (g & -> & Hg). apply list_elem_of_fmap. exists g. split; [done|].
    revert Hg. apply (IH l l' o); [pose proof (depth_entry _ _ _ Hc); lia|done|done| |done|congruence].
    eapply clash_sub; [| |exact Hn]; intros x Hx; (eapply elem_objects; [eassumption|]); by rewrite entry_objects_dir, Hk.
  - apply (no_clash _ _ _ _ Hn) in E2' as ->%object_text_inj; [|by eapply blob_objects..]. destruct b, b'; done.
Qed.
End collision.

Lemma hex_digit_inj a b : 0 <= a < 16 -> 0 <= b < 16 -> Sha256.hex_digit a = Sha256.hex_digit b -> a = b.
Proof.
  intros Ha Hb H. assert (forall n, 0 <= n < 16 -> n ∈ seqZ 0 16) as Hin by (intros n Hn; apply elem_of_seqZ; lia).
  pose proof (NoDup_map_inj Sha256.hex_digit (seqZ 0 16) a b) as Hi. apply Hi; [|by apply Hin..|done].
  apply (proj1 (bool_decide_eq_true (NoDup (map Sha256.hex_digit (seqZ 0 16))))). vm_compute. reflexivity.
Qed.

Lemma hex_inj l : forall l', Forall is_byte l -> Forall is_byte l' -> Sha256.hex l = Sha256.hex l' -> l = l'.
Proof.
  induction l as [|b l IH]; intros [|b' l'] Fl Fl' H; try done.
  apply Forall_cons in Fl as [Hb Fl], Fl' as [Hb' Fl']. cbn [Sha256.hex] in H. injection H as H1 H2 H3. unfold is_byte in *.
  assert (forall z, 0 <= z < 256 -> 0 <= Z.shiftr z 4 < 16 /\ 0 <= Z.land z 15 < 16 /\ z = 16 * Z.shiftr z 4 + Z.land z 15) as Hz.
  { intros z Hz. change 15 with (Z.ones 4). rewrite Z.land_ones, Z.shiftr_div_pow2 by lia. change (2 ^ 4) with 16.
    pose proof (Z.div_mod z 16 ltac:(lia)). pose proof (Z.mod_pos_bound z 16 ltac:(lia)). lia. }
  destruct (Hz b Hb) as (? & ? & ?), (Hz b' Hb') as (? & ? & ?). apply hex_digit_inj in H1, H2; try done. f_equal; [congruence|]. by apply IH.
Qed.

Lemma bytes_of_raw l : Forall is_byte l -> Sha256.bytes_of (raw l) = l.
Proof.
  induction 1 as [|z l Hz _ IH]; [done|]. cbn [raw Sha256.bytes_of]. rewrite IH. f_equal. unfold is_byte in Hz.
  rewrite Ascii.nat_ascii_embedding by lia. lia.
Qed.

(** The hexadecimal form of [sha s]. *)
Lemma sha_hex s : Sha256.hex (Sha256.bytes_of (sha s)) = Sha256.hex (Sha256.digest (Sha256.bytes_of s)).
Proof. unfold sha. by rewrite bytes_of_raw by apply digest_bytes. Qed.

Lemma tree_digest_dir skip_names entries path : tree_digest skip_names (Some (Dir entries)) path =
  Ok (Sha256.hex (Sha256.bytes_of (sha (object_text "tree" (tree_body (items skip_names entries)))))).
Proof. unfold tree_digest, tree, tree_id. by destruct (items skip_names entries). Qed.

Lemma sha_hex_inj a b : Sha256.hex (Sha256.bytes_of (sha a)) = Sha256.hex (Sha256.bytes_of (sha b)) -> sha a = sha b.
Proof.
  rewrite !sha_hex. intros H. apply hex_inj in H; [|apply digest_bytes..]. unfold sha. by rewrite H.
Qed.

Lemma items_nil_files skip_names entries : items skip_names entries = [] <-> files skip_names entries = [].
Proof.
  split; intros H.
  - destruct (files skip_names entries) as [|f l] eqn:E; [done|]. assert (f ∈ files skip_names entries) as (k & c & Hc & Hf)%elem_files by (rewrite E; left).
    destruct (entry_item skip_names k c) as [e|] eqn:He.
    + assert (e ∈ items skip_names entries) as Hi by (apply elem_items; eauto). rewrite H in Hi. by apply not_elem_of_nil in Hi.
    + apply (entry_item_files skip_names (S (depth c))) in He; [|lia]. rewrite He in Hf. by apply not_elem_of_nil in Hf.
  - destruct (items skip_names entries) as [|e l] eqn:E; [done|]. assert (e ∈ items skip_names entries) as (k & c & Hc & He)%elem_items by (rewrite E; left).
    destruct (entry_files skip_names k c) as [|f m] eqn:Ef; [apply (entry_item_files skip_names (S (depth c))) in Ef; [congruence|lia]|].
    assert (f ∈ files skip_names entries) as Hi by (apply elem_files; exists k, c; split; [done|rewrite Ef; left]). rewrite H in Hi. by apply not_elem_of_nil in Hi.
Qed.

(** The revision identity of a directory is the identity of its files.  It
    is defined exactly for a real directory, and is 64 lower-case hexadecimal
    digits.  Two directories with the same regular files and links (same
    paths, modes, contents and targets, [.git], skipped names and empty
    directories apart) have the same identity, in whatever order they are
    listed.  Conversely two directories with one identity have the same files,
    unless two different objects hashed for them share a SHA-256 digest. *)
Theorem tree_digest_identity skip_names entries entries' path path' :
  well_formed (Dir entries) -> well_formed (Dir entries') ->
  (exists h, tree_digest skip_names (Some (Dir entries)) path = Ok h /\ str_len h = 64 /\ str_forallb is_hex_char h = true) /\
  ((forall f, f ∈ files skip_names entries <-> f ∈ files skip_names entries') ->
     tree_digest skip_names (Some (Dir entries)) path = tree_digest skip_names (Some (Dir entries')) path') /\
  (tree_digest skip_names (Some (Dir entries)) path = tree_digest skip_names (Some (Dir entries')) path' ->
     (forall f, f ∈ files skip_names entries <-> f ∈ files skip_names entries') \/
     clash (objects skip_names entries) (objects skip_names entries')).
Proof.
  intros Hw Hw'. split_and!.
  - rewrite tree_digest_dir. eexists. split; [done|]. rewrite sha_hex. destruct (digest_bytes (Sha256.bytes_of (object_text "tree" (tree_body (items skip_names entries))))) as [Hb Hl].
    destruct (hex_ok _ Hb) as [-> ->]. by rewrite Hl.
  - intros Hf. unfold tree_digest. by rewrite (same_files_tree skip_names (S (depth (Dir entries))) entries entries') by (done || lia).
  - rewrite !tree_digest_dir. intros [= H%sha_hex_inj]. destruct (decide (clash (objects skip_names entries) (objects skip_names entries'))) as [|Hn]; [by right|left].
    pose proof (no_clash _ _ _ _ Hn ltac:(by left) ltac:(by left) H) as Hb. apply object_text_inj, bodies_inj in Hb; [|by apply items_shape..].
    destruct (decide (items skip_names entries = [])) as [E|E].
    + assert (items skip_names entries' = []) as E'.
      { rewrite E in Hb. cbn in Hb. symmetry in Hb. apply fmap_nil_inv in Hb. apply Permutation_nil_r. by rewrite <- Hb, sort_by_perm. }
      apply items_nil_files in E, E'. by rewrite E, E'.
    + assert (items skip_names entries' <> []) as E'.
      { intros E'. apply E. rewrite E' in Hb. cbn in Hb. apply fmap_nil_inv in Hb. apply Permutation_nil_r. by rewrite <- Hb, sort_by_perm. }
      assert (forall es, items skip_names es <> [] -> tree skip_names es = Some (sha (object_text "tree" (tree_body (items skip_names es))))) as Ht.
      { intros es He. unfold tree, tree_id. by destruct (items skip_names es). }
      intros f. split.
      * eapply (same_id_files skip_names (S (depth (Dir entries)))); [lia|done|done|done|by apply Ht|]. rewrite Ht by done. by rewrite H.
      * eapply (same_id_files skip_names (S (depth (Dir entries')))); [lia|done|done| |by apply Ht|].
        -- intros (x & y & Hx & Hy & Hxy & Hs). apply Hn. exists y, x. split_and!; [done|done|congruence|done].
        -- rewrite Ht by done. by rewrite H.
Qed.

Definition demo_tree : list (string * Node) :=
  [(".git", Dir [("HEAD", Regular false "ref")]); ("a", Regular false "one"); ("empty", Dir []); ("bin", Dir [("run", Regular true "two"); ("l", Link "run")])].
Definition demo_tree' : list (string * Node) :=
  [("bin", Dir [("l", Link "run"); ("run", Regular true "two")]); ("a", Regular false "one")].

Lemma demo_well_formed : well_formed (Dir demo_tree) /\ well_formed (Dir demo_tree').
Proof.
  split; cbn; unfold plain_name, no_nul; (split_and!; try done); apply (proj1 (bool_decide_eq_true (NoDup _))); vm_compute; reflexivity.
Qed.

Lemma tree_digest_identity_witness : well_formed (Dir demo_tree) /\ well_formed (Dir demo_tree') /\
  tree_digest [] (Some (Dir demo_tree)) "/w" = tree_digest [] (Some (Dir demo_tree')) "/x".
Proof.
  split; [apply demo_well_formed|]. split; [apply demo_well_formed|].
  apply (tree_digest_identity [] demo_tree demo_tree' "/w" "/x" (proj1 demo_well_formed) (proj2 demo_well_formed)).
  intros f. assert (files [] demo_tree ≡ₚ files [] demo_tree') as ->; [|done]. vm_compute.
  apply (proj1 (bool_decide_eq_true _)). vm_compute. reflexivity.
Defined.
