(* ===== verification/Revisions.v ===== *)
(** * Revisions: what an Attempt started from and what it produced

    Models [src/sdf_core/revisions.py] apart from the tree identity, which is
    in [Trees]: the base revision, closing a revision, the payload of the API
    and the offline check of everything bound to a revision.  The identities of
    the directories are arguments: what [tree_digest] returned. *)

From S2P Require Import Prelude Sha256 Json Db EvidenceMac Flush Samples FlushFacts Store Trees.

Definition TREE_FORMAT : string := "git-sha256-tree-v1".

(** ** Identity of the repository *)

(** An absolute, resolved path is the list of its parts. *)
Definition posix (parts : list string) : string := str_join "/" parts.
Definition parts_prefix (a b : list string) : bool := bool_decide (take (length a) b = a).

Definition repository_identity (resolved root : list string) : string :=
  if negb (bool_decide (resolved = root)) && parts_prefix root resolved
  then "fixture:" +:+ posix (drop (length root) resolved)
  else "path-sha256:" +:+ str_take 16 (sha256_text ("/" +:+ posix resolved)).

Definition revision_for_attempt (d : Db) (attempt_id : string) : option AttemptRevisionRow :=
  find_row (fun r => str_eq (rv_attempt_id r) attempt_id) (d_attempt_revisions d).

(** ** Recording a revision *)

Definition base_revision (hex : string) (now : datetime) (attempt_id repository base_tree : string) : AttemptRevisionRow := {|
  rv_id := "REV-" +:+ str_take 12 hex; rv_attempt_id := attempt_id; rv_repository := str_take 500 repository;
  rv_tree_format := TREE_FORMAT; rv_base_tree_sha256 := base_tree; rv_base_commit := None; rv_base_commit_source := None;
  rv_result_tree_sha256 := None; rv_created_at := now; rv_finished_at := None
|}.

(** [tree] is the identity of the freshly copied workspace. *)
Definition record_base_revision (h : Host) (hex : string) (now : datetime) (s : Session) (attempt_id repository : string)
    (tree : result string) : result (Session * AttemptRevisionRow) :=
  _ ← raise_if (bool_decide (is_Some (revision_for_attempt (current s) attempt_id)))
        (RevisionBindingError ("attempt " +:+ attempt_id +:+ " already has a base revision"));
  base_tree ← tree;
  let row := base_revision hex now attempt_id repository base_tree in
  _ ← raise_if (bool_decide (is_Some (d_attempt_revisions (current s) !! rv_id row))) (IntegrityError "attempt_revisions.id");
  s ← change_and_flush h s ((current s) {{ d_attempt_revisions ::= insert (rv_id row) row }});
  Ok (s, row).

(** [_GIT_OID.fullmatch] *)
Definition is_git_oid (s : string) : bool := ((str_len s =? 40) || (str_len s =? 64)) && str_forallb is_hex_char s.

(** The columns that closing writes. *)
Definition closed (base_commit base_commit_source : option string) (result_tree : string) (now : datetime)
    (revision : AttemptRevisionRow) : AttemptRevisionRow :=
  let revision := match base_commit with
                  | Some _ => revision {{ rv_base_commit := base_commit;
                      rv_base_commit_source := Some (str_take 32 (if opt_truthy base_commit_source then or_empty base_commit_source else "adapter")) }}
                  | None => revision
                  end in
  revision {{ rv_result_tree_sha256 := Some result_tree; rv_finished_at := Some now }}.

Definition close_revision (h : Host) (now : datetime) (s : Session) (attempt_id : string) (fixture_tree workspace_tree : result string)
    (reported_result_tree base_commit base_commit_source : option string) : result (Session * AttemptRevisionRow) :=
  revision ← require_some (revision_for_attempt (current s) attempt_id)
        (RevisionBindingError ("attempt " +:+ attempt_id +:+ " has no base revision; refusing unbound artifacts"));
  _ ← raise_if (bool_decide (is_Some (rv_result_tree_sha256 revision)))
        (RevisionBindingError ("attempt " +:+ attempt_id +:+ " already has a result revision"));
  fixture_tree ← fixture_tree;
  _ ← raise_if (negb (str_eq fixture_tree (rv_base_tree_sha256 revision)))
        (RevisionBindingError ("fixture changed since attempt " +:+ attempt_id +:+ " began (base " +:+
           str_take 12 (rv_base_tree_sha256 revision) +:+ ", now " +:+ str_take 12 fixture_tree +:+
           "); its diff would not describe the evaluated change"));
  result_tree ← workspace_tree;
  _ ← match reported_result_tree with
      | Some reported => raise_if (negb (str_eq reported result_tree))
          (RevisionBindingError ("attempt " +:+ attempt_id +:+ " workspace changed after the adapter finished (reported " +:+
             str_take 12 reported +:+ ", now " +:+ str_take 12 result_tree +:+ ")"))
      | None => Ok ()
      end;
  _ ← match base_commit with
      | Some c => raise_if (negb (is_git_oid c))
          (RevisionBindingError "base_commit must be a 40 or 64 character lowercase hex Git object id")
      | None => Ok ()
      end;
  let revision := closed base_commit base_commit_source result_tree now revision in
  s ← change_and_flush h s ((current s) {{ d_attempt_revisions ::= insert (rv_id revision) revision }});
  Ok (s, revision).

(** [x.isoformat() if x else None] *)
Definition opt_time (t : option datetime) : json := match t with Some t => JStr (isoformat t) | None => JNull end.

Definition revision_payload (revision : option AttemptRevisionRow) (attempt : option AttemptRow) : option json :=
  match revision with
  | None => None
  | Some r => Some (JObj ([("id", JStr (rv_id r)); ("attempt_id", JStr (rv_attempt_id r)); ("repository", JStr (rv_repository r));
      ("tree_format", JStr (rv_tree_format r)); ("base_tree_sha256", JStr (rv_base_tree_sha256 r));
      ("result_tree_sha256", json_str (rv_result_tree_sha256 r)); ("base_commit", json_str (rv_base_commit r));
      ("base_commit_source", json_str (rv_base_commit_source r)); ("created_at", opt_time (Some (rv_created_at r)));
      ("finished_at", opt_time (rv_finished_at r))] ++
      match attempt with Some a => [("evidence_mode", JStr (at_evidence_mode a))] | None => [] end))
  end.

(** ** Checking a revision *)

Definition CONTENT_MAC_V1 : Z := 1.

Record Verification : Type := { vf_status : string; vf_problems : list string; vf_artifacts : Z; vf_evidence : Z }.

(** [f"{names}"] of a list of names. *)
Definition names_repr (l : list string) : string := "[" +:+ str_join ", " (map str_repr l) +:+ "]".

Definition by_id {R} (key : R -> string) (rows : list R) : list R := sort_by (fun a b => str_le (key a) (key b)) rows.

Definition hex_problem (name : string) (value : option string) : list string :=
  match value with
  | Some v => if is_hex64 v then [] else ["revision " +:+ name +:+ " is not a sha256 hex digest"]
  | None => []
  end.

Definition bound_problem (revision : AttemptRevisionRow) (row : Bound) : list string :=
  if negb (bool_decide (bd_revision_id row = Some (rv_id revision)))
  then [bd_kind row +:+ " " +:+ bd_id row +:+ " is not bound to revision " +:+ rv_id revision]
  else if negb (bool_decide (bd_tree_sha256 row = rv_result_tree_sha256 revision))
  then [bd_kind row +:+ " " +:+ bd_id row +:+ " names tree " +:+ default "None" (bd_tree_sha256 row) +:+
        " but the revision result is " +:+ default "None" (rv_result_tree_sha256 revision)]
  else [].

(** [file_sha uri]: the digest of the stored file now, if it can be read. *)
Definition file_problem (file_sha : string -> option string) (row : ArtifactRow) : list string :=
  match file_sha (ar_uri row) with
  | None => ["artifact " +:+ ar_id row +:+ " file is missing"]
  | Some actual => if str_eq actual (ar_sha256 row) then [] else ["artifact " +:+ ar_id row +:+ " file digest does not match its recorded sha256"]
  end.

(** The artifact digest that belongs under the MAC of a row. *)
Definition bound_sha (d : Db) (artifacts : list ArtifactRow) (row : EvidenceRow) : option string :=
  let ref := or_empty (ev_artifact_ref row) in
  if negb (str_truthy ref) then None
  else match List.find (fun a => str_eq (ar_id a) ref) artifacts with
       | Some a => Some (ar_sha256 a)
       | None => ar_sha256 <$> d_artifacts d !! ref
       end.

(** [hmac.compare_digest(a, b)] of a hexadecimal digest and a text. *)
Definition is_ascii (s : string) : bool := str_forallb (fun c => Z.of_nat (nat_of_ascii c) <? 128) s.
Definition NonAsciiError : exn := TypeError "comparing strings with non-ASCII characters is not supported".
Definition compare_digest (expected mac : string) : result bool :=
  _ ← raise_if (negb (is_ascii mac)) NonAsciiError; Ok (str_eq expected mac).

(** One turn of the loop over the Evidence; [None] is the [break]. *)
Definition mac_problem (env : environ) (d : Db) (artifacts : list ArtifactRow) (key_source : string) (row : EvidenceRow)
    : result (option (list string)) :=
  let mac := or_empty (ev_content_mac row) in
  if bool_decide (ev_content_mac_version row = Some CONTENT_MAC_V1) && str_truthy mac
  then Ok (Some ["evidence " +:+ ev_id row +:+ " content mac is format 1 and was not re-signed"])
  else if negb (bool_decide (ev_content_mac_version row = Some CONTENT_MAC_CURRENT)) || negb (str_len mac =? 64)
  then Ok (Some ["evidence " +:+ ev_id row +:+ " has no current content mac and is not authentic"])
  else
    match evidence_content_mac env row (bound_sha d artifacts row) (Some CONTENT_MAC_CURRENT) with
    | Err _ => Ok None
    | Ok expected =>
        same ← compare_digest expected mac;
        Ok (Some (if negb same
                  then ["evidence " +:+ ev_id row +:+ " content mac does not match its stored fields (content_mac_version " +:+
                        pretty CONTENT_MAC_CURRENT +:+ ")"]
                  else if str_eq key_source "insecure-development"
                  then ["evidence " +:+ ev_id row +:+ " content mac used the public development key and is not authentic"]
                  else []))
    end.

Fixpoint mac_problems (env : environ) (d : Db) (artifacts : list ArtifactRow) (key_source : string) (rows : list EvidenceRow) : result (list string) :=
  match rows with
  | [] => Ok []
  | row :: rows =>
      problem ← mac_problem env d artifacts key_source row;
      match problem with
      | Some l => rest ← mac_problems env d artifacts key_source rows; Ok (l ++ rest)
      | None => Ok ["evidence MAC key is not configured"]
      end
  end.

Definition evidence_problems (env : environ) (d : Db) (artifacts : list ArtifactRow) (evidence : list EvidenceRow) : result (list string) :=
  let key_source := evidence_mac_key_source env in
  match evidence with
  | _ :: _ => if str_eq key_source "missing"
              then Ok ["evidence MAC key is not configured; set SDF_EVIDENCE_MAC_KEY to at least 32 characters"]
              else mac_problems env d artifacts key_source evidence
  | [] => Ok []
  end.

Definition attempt_artifacts (d : Db) (attempt_id : string) : list ArtifactRow :=
  by_id ar_id (select_rows (fun r => str_eq (ar_attempt_id r) attempt_id) (d_artifacts d)).
Definition attempt_evidence (d : Db) (attempt_id : string) : list EvidenceRow :=
  by_id ev_id (select_rows (fun r => opt_str_eq (ev_attempt_id r) (Some attempt_id)) (d_evidence d)).

Definition verify_attempt_revision (env : environ) (file_sha : string -> option string) (d : Db) (attempt_id : string) (check_files : bool) : result Verification :=
  let artifacts := attempt_artifacts d attempt_id in
  let evidence := attempt_evidence d attempt_id in
  let counted status problems := {| vf_status := status; vf_problems := problems; vf_artifacts := Z.of_nat (length artifacts);
                                    vf_evidence := Z.of_nat (length evidence) |} in
  match revision_for_attempt d attempt_id with
  | None =>
      let bound := map ar_id (List.filter (fun r => bool_decide (is_Some (ar_revision_id r))) artifacts) ++
                   map ev_id (List.filter (fun r => bool_decide (is_Some (ev_revision_id r))) evidence) in
      match bound with
      | [] => Ok (counted "unbound" [])
      | _ => Ok (counted "failed" ["rows reference a revision but the attempt has none: " +:+ names_repr bound])
      end
  | Some revision =>
      authenticity ← evidence_problems env d artifacts evidence;
      let problems :=
        hex_problem "base_tree_sha256" (Some (rv_base_tree_sha256 revision)) ++ hex_problem "result_tree_sha256" (rv_result_tree_sha256 revision) ++
        ((map bound_artifact artifacts ++ map bound_evidence evidence) ≫= bound_problem revision) ++
        (if check_files then (artifacts ≫= file_problem file_sha) else []) ++ authenticity in
      Ok (match problems with
          | _ :: _ => counted "failed" problems
          | [] => if bool_decide (rv_result_tree_sha256 revision = None) then counted "incomplete" [] else counted "verified" []
          end)
  end.

(** ** What a verified revision is *)

Definition bound_to (revision : AttemptRevisionRow) (row : Bound) : Prop :=
  bd_revision_id row = Some (rv_id revision) /\ bd_tree_sha256 row = rv_result_tree_sha256 revision.

(** The row's MAC is authentic under the configured key. *)
Definition authentic (env : environ) (d : Db) (artifacts : list ArtifactRow) (row : EvidenceRow) : Prop :=
  evidence_mac_key_source env = "configured" /\ ev_content_mac_version row = Some CONTENT_MAC_CURRENT /\
  exists mac, ev_content_mac row = Some mac /\ str_len mac = 64 /\
    evidence_content_mac env row (bound_sha d artifacts row) (Some CONTENT_MAC_CURRENT) = Ok mac.

Lemma bound_problem_nil revision row : bound_problem revision row = [] <-> bound_to revision row.
Proof. unfold bound_problem, bound_to. repeat case_bool_decide; cbn [negb]; split; try done; tauto. Qed.

Lemma file_problem_nil file_sha row : file_problem file_sha row = [] <-> file_sha (ar_uri row) = Some (ar_sha256 row).
Proof. unfold file_problem, str_eq. destruct (file_sha (ar_uri row)); [case_bool_decide|]; split; congruence. Qed.

Lemma bind_nil {A B} (f : A -> list B) l : l ≫= f = [] <-> forall x, x ∈ l -> f x = [].
Proof.
  induction l as [|a l IH]; [split; [by intros _ x ?%not_elem_of_nil|done]|]. cbn [mbind list_bind]. rewrite app_nil. setoid_rewrite elem_of_cons.
  rewrite IH. naive_solver.
Qed.

Lemma key_source_cases env : evidence_mac_key_source env ∈ ["configured"; "insecure-development"; "missing"].
Proof. unfold evidence_mac_key_source. repeat case_match; set_solver. Qed.

Lemma content_mac_total env row sha version : evidence_mac_key_source env <> "missing" ->
  exists mac, evidence_content_mac env row sha version = Ok mac.
Proof.
  intros Hs. unfold evidence_content_mac, evidence_mac_key, require_evidence_mac_key, str_eq. rewrite bool_decide_eq_false_2 by done.
  cbn [raise_if mbind result_bind]. case_bool_decide; cbn [mbind result_bind]; eauto.
Qed.

(** A row whose MAC cannot be compared. *)
Definition incomparable (row : EvidenceRow) : Prop :=
  ev_content_mac_version row = Some CONTENT_MAC_CURRENT /\ exists mac, ev_content_mac row = Some mac /\ str_len mac = 64 /\ is_ascii mac = false.

Lemma hex_ascii s : is_hex64 s = true -> is_ascii s = true.
Proof.
  unfold is_hex64, is_ascii. intros [_ H]%andb_true_iff. revert H. induction s as [|c s IH]; [done|]. cbn [str_forallb].
  intros [Hc Hs]%andb_true_iff. rewrite (IH Hs), andb_true_r. revert Hc. destruct c as [[] [] [] [] [] [] [] []]; done.
Qed.

Lemma authentic_comparable env d artifacts row : authentic env d artifacts row -> ~ incomparable row.
Proof.
  intros (_ & _ & mac & Hm & _ & He) (_ & mac' & Hm' & _ & Hn). assert (mac' = mac) as -> by congruence.
  unfold evidence_content_mac in He. crush_hyps. rewrite hex_ascii in Hn; [done|]. apply hmac_text_hex64.
Qed.

Lemma mac_problem_nil env d artifacts row : evidence_mac_key_source env <> "missing" ->
  match mac_problem env d artifacts (evidence_mac_key_source env) row with
  | Ok (Some l) => ~ incomparable row /\ (l = [] <-> authentic env d artifacts row)
  | Ok None => False
  | Err e => e = NonAsciiError /\ incomparable row
  end.
Proof.
  intros Hs. unfold mac_problem. destruct (_ && str_truthy _) eqn:E1.
  { assert (ev_content_mac_version row <> Some CONTENT_MAC_CURRENT) as Hv by (intros Hv; rewrite Hv in E1; discriminate E1).
    split; [intros (? & _); done|]. split; [done|]. by intros (_ & ? & _). }
  destruct (negb _ || negb _) eqn:E2.
  { assert (forall mac, ev_content_mac_version row = Some CONTENT_MAC_CURRENT -> ev_content_mac row = Some mac -> str_len mac = 64 -> False) as Hno.
    { intros mac Hv Hm Hl. rewrite Hm, Hv in E2. change (or_empty (Some mac)) with mac in E2. by rewrite Hl in E2. }
    split; [intros (Hv & mac & Hm & Hl & _); eauto|]. split; [done|]. intros (_ & Hv & mac & Hm & Hl & _). exfalso. eauto. }
  boolify. destruct (content_mac_total env row (bound_sha d artifacts row) (Some CONTENT_MAC_CURRENT) Hs) as [x Hx]. rewrite Hx. unfold compare_digest, str_eq.
  destruct (ev_content_mac row) as [mac|] eqn:Hm; [|match goal with H : str_len _ = 64 |- _ => discriminate H end]. change (or_empty (Some mac)) with mac in *.
  destruct (is_ascii mac) eqn:Ha; cbn [negb raise_if mbind result_bind]; [|split; [done|]; split; [done|eauto]].
  split; [intros (_ & mac' & E & _ & Hn); congruence|].
  destruct (decide (x = mac)) as [Hxm|Hxm]; [rewrite (bool_decide_eq_true_2 _ Hxm)|rewrite (bool_decide_eq_false_2 _ Hxm)]; cbn [negb]; [|split; [done|]; intros (_ & _ & mac' & E3 & _ & E4); congruence].
  pose proof (key_source_cases env) as Hk.
  destruct (decide (evidence_mac_key_source env = "insecure-development")) as [Hi|Hi]; [rewrite (bool_decide_eq_true_2 _ Hi)|rewrite (bool_decide_eq_false_2 _ Hi)].
  { split; [done|]. intros (Hc & _). congruence. }
  split; [|done]. intros _. rewrite !elem_of_cons, elem_of_nil in Hk. split_and!; [by destruct Hk as [?|[?|[?|[]]]]|done|].
  exists mac. split_and!; [done|done|congruence].
Qed.

Lemma evidence_problems_nil env d artifacts evidence :
  match evidence_problems env d artifacts evidence with
  | Ok l => l = [] <-> forall row, row ∈ evidence -> authentic env d artifacts row
  | Err e => e = NonAsciiError /\ exists row, row ∈ evidence /\ incomparable row
  end.
Proof.
  unfold evidence_problems. destruct evidence as [|e l]; [split; [by intros _ row ?%not_elem_of_nil|done]|]. unfold str_eq.
  destruct (decide (evidence_mac_key_source env = "missing")) as [Hs|Hs]; [rewrite (bool_decide_eq_true_2 _ Hs)|rewrite (bool_decide_eq_false_2 _ Hs)].
  { split; [done|]. intros H. destruct (H e ltac:(by left)) as (Hc & _). rewrite Hc in Hs. discriminate Hs. }
  generalize (e :: l). clear e l. induction l as [|row l IH]; [split; [by intros _ row ?%not_elem_of_nil|done]|]. cbn [mac_problems].
  pose proof (mac_problem_nil env d artifacts row Hs) as Hm. destruct (mac_problem _ _ _ _ row) as [[p|]|x]; cbn [mbind result_bind]; [|done|].
  - destruct Hm as [_ Hp]. destruct (mac_problems _ _ _ _ l) as [rest|x]; cbn [mbind result_bind].
    + rewrite app_nil, Hp, IH. setoid_rewrite elem_of_cons. split; [intros [? ?] y [->|?]; auto|auto].
    + destruct IH as [-> (y & Hy & Hi)]. split; [done|]. exists y. split; [by right|done].
  - destruct Hm as [-> Hi]. split; [done|]. exists row. split; [by left|done].
Qed.

Lemma hex_problem_nil name value : hex_problem name value = [] <-> (forall v, value = Some v -> is_hex64 v = true).
Proof.
  unfold hex_problem. destruct value as [v|]; [|by split]. destruct (is_hex64 v) eqn:E; (split; [|try done]).
  - intros _ v' [= <-]. done.
  - done.
  - intros H. rewrite H in E; done.
Qed.

Lemma by_id_elem {R} (key : R -> string) rows x : x ∈ by_id key rows <-> x ∈ rows.
Proof. unfold by_id. by rewrite sort_by_perm. Qed.

Lemma elem_attempt_artifacts d attempt_id a :
  a ∈ attempt_artifacts d attempt_id <-> ar_attempt_id a = attempt_id /\ exists k, d_artifacts d !! k = Some a.
Proof. unfold attempt_artifacts, str_eq. by rewrite by_id_elem, elem_select, bool_decide_eq_true. Qed.

Lemma elem_attempt_evidence d attempt_id e :
  e ∈ attempt_evidence d attempt_id <-> ev_attempt_id e = Some attempt_id /\ exists k, d_evidence d !! k = Some e.
Proof. unfold attempt_evidence, opt_str_eq. by rewrite by_id_elem, elem_select, bool_decide_eq_true. Qed.

(** Everything recorded for the Attempt is about its revision. *)
Record verified_revision (env : environ) (file_sha : string -> option string) (d : Db) (attempt_id : string) (check_files : bool)
    (revision : AttemptRevisionRow) (tree : string) : Prop := {
  vr_revision : revision_for_attempt d attempt_id = Some revision;
  vr_tree : rv_result_tree_sha256 revision = Some tree;
  vr_hex : is_hex64 (rv_base_tree_sha256 revision) = true /\ is_hex64 tree = true;
  vr_artifacts : forall k a, d_artifacts d !! k = Some a -> ar_attempt_id a = attempt_id ->
    bound_to revision (bound_artifact a) /\ (check_files = true -> file_sha (ar_uri a) = Some (ar_sha256 a));
  vr_evidence : forall k e, d_evidence d !! k = Some e -> ev_attempt_id e = Some attempt_id ->
    bound_to revision (bound_evidence e) /\ authentic env d (attempt_artifacts d attempt_id) e
}.

(** C35: the offline check of an Attempt's revision reports [verified] exactly
    when there is a closed revision whose two tree identities are digests, all
    artifacts and Evidence of the Attempt are bound to it and to the tree it
    produced, every artifact file still has its recorded digest (when files
    are checked), and every Evidence row carries a current MAC that the
    configured key reproduces; an Attempt without Evidence needs no key for
    that.  It reports [failed] exactly when it names a problem.  The check
    raises only on an Evidence row of the Attempt whose stored MAC is not ASCII
    text, and never on a revision that is verified. *)
Theorem verify_revision_spec env file_sha d attempt_id check_files :
  match verify_attempt_revision env file_sha d attempt_id check_files with
  | Ok v =>
      (vf_status v = "verified" <-> exists revision tree, verified_revision env file_sha d attempt_id check_files revision tree) /\
      (vf_status v = "failed" <-> vf_problems v <> []) /\
      (vf_status v = "unbound" -> revision_for_attempt d attempt_id = None)
  | Err e =>
      e = NonAsciiError /\
      (exists k row, d_evidence d !! k = Some row /\ ev_attempt_id row = Some attempt_id /\ incomparable row) /\
      ~ exists revision tree, verified_revision env file_sha d attempt_id check_files revision tree
  end.
Proof.
  unfold verify_attempt_revision. destruct (revision_for_attempt d attempt_id) as [r|] eqn:Hr.
  2: { destruct (_ ++ _); cbn [vf_status vf_problems]; (split; [split; [done|intros (? & ? & [H _ _ _ _]); congruence]|done]). }
  pose proof (evidence_problems_nil env d (attempt_artifacts d attempt_id) (attempt_evidence d attempt_id)) as Hev.
  destruct (evidence_problems _ _ _ _) as [mac|x]; cbn [mbind result_bind].
  2: { destruct Hev as (-> & row & Hrow & Hi). apply elem_attempt_evidence in Hrow as [Ha [k Hk]]. split; [done|]. split; [by exists k, row|].
       intros (r' & t & [_ _ _ _ He]). by eapply authentic_comparable; [apply (He k row)|]. }
  set (problems := hex_problem _ _ ++ _).
  assert (problems = [] <-> is_hex64 (rv_base_tree_sha256 r) = true /\ (forall t, rv_result_tree_sha256 r = Some t -> is_hex64 t = true) /\
    (forall k a, d_artifacts d !! k = Some a -> ar_attempt_id a = attempt_id -> bound_to r (bound_artifact a) /\ (check_files = true -> file_sha (ar_uri a) = Some (ar_sha256 a))) /\
    (forall k e, d_evidence d !! k = Some e -> ev_attempt_id e = Some attempt_id -> bound_to r (bound_evidence e) /\ authentic env d (attempt_artifacts d attempt_id) e)) as Hp.
  { unfold problems. rewrite !app_nil, !hex_problem_nil, bind_nil, Hev.
    assert ((if check_files then attempt_artifacts d attempt_id ≫= file_problem file_sha else []) = [] <->
            (check_files = true -> forall a, a ∈ attempt_artifacts d attempt_id -> file_sha (ar_uri a) = Some (ar_sha256 a))) as ->.
    { destruct check_files; [|by split]. rewrite bind_nil. setoid_rewrite file_problem_nil. split; [auto|intros H; by apply H]. }
    setoid_rewrite elem_of_app. setoid_rewrite list_elem_of_fmap. setoid_rewrite bound_problem_nil.
    setoid_rewrite elem_attempt_artifacts. setoid_rewrite elem_attempt_evidence. naive_solver. }
  clearbody problems. destruct problems as [|p l].
  - destruct (proj1 Hp eq_refl) as (H1 & H2 & H3 & H4). case_bool_decide as Ht; cbn [vf_status vf_problems]; (split; [|by split]).
    + split; [done|]. intros (? & ? & [Hx Hy _ _ _]). congruence.
    + split; [|done]. intros _. destruct (rv_result_tree_sha256 r) as [t|] eqn:Et; [|done]. exists r, t. split; auto.
  - cbn [vf_status vf_problems]. split; [|by split]. split; [done|]. intros (r' & t & [Hx Hy [Hb Ht] Ha He]).
    rewrite Hr in Hx. injection Hx as <-. assert (p :: l = []) as [=]. apply Hp. split_and!; [done| |done|done].
    intros t' E. rewrite Hy in E. by injection E as <-.
Qed.

(** ** A revision is closed once *)

Lemma constraints_revision d : constraints_ok d = true -> unique_by rv_attempt_id (d_attempt_revisions d) = true.
Proof. unfold constraints_ok. intros H. repeat rewrite andb_true_iff in H. by destruct_and! H. Qed.

Lemma flush_revisions h s s' : flush h s = Ok s' ->
  d_attempt_revisions (current s') = d_attempt_revisions (current s) /\ unique_by rv_attempt_id (d_attempt_revisions (current s')) = true.
Proof.
  intros Hf. pose proof (flush_Ok _ _ _ Hf) as (_ & _ & E & Hc & T & _). rewrite <- E. unfold same_tables in T. destruct_and! T.
  split; [done|]. by apply constraints_revision.
Qed.

(** The revision the base of which is [r0]. *)
Definition closes (r0 r : AttemptRevisionRow) (tree : string) : Prop :=
  rv_id r = rv_id r0 /\ rv_attempt_id r = rv_attempt_id r0 /\ rv_repository r = rv_repository r0 /\ rv_tree_format r = rv_tree_format r0 /\
  rv_base_tree_sha256 r = rv_base_tree_sha256 r0 /\ rv_result_tree_sha256 r = Some tree.

Lemma closed_closes bc bcs tree now r : closes r (closed bc bcs tree now r) tree.
Proof. unfold closed, closes. by destruct bc. Qed.

(** Closing the revision of an Attempt fixes what it produced, once.  It
    succeeds only when the Attempt has a base revision that is not closed yet,
    the fixture still is the base tree, and a result tree that the adapter
    reported is the one of the workspace; the stored revision then keeps its
    base and names the workspace's tree, no other revision changes, and every
    later attempt to close it is refused, whatever it reports. *)
Theorem close_revision_spec h now s s' attempt_id fixture_tree workspace_tree reported base_commit source r :
  close_revision h now s attempt_id fixture_tree workspace_tree reported base_commit source = Ok (s', r) ->
  (exists r0 tree, revision_for_attempt (current s) attempt_id = Some r0 /\ rv_result_tree_sha256 r0 = None /\
     fixture_tree = Ok (rv_base_tree_sha256 r0) /\ workspace_tree = Ok tree /\ (forall t, reported = Some t -> t = tree) /\
     (forall c, base_commit = Some c -> is_git_oid c = true) /\ closes r0 r tree) /\
  d_attempt_revisions (current s') = <[rv_id r := r]> (d_attempt_revisions (current s)) /\
  revision_for_attempt (current s') attempt_id = Some r /\
  (forall now ft wt rep bc bcs, close_revision h now s' attempt_id ft wt rep bc bcs =
     Err (RevisionBindingError ("attempt " +:+ attempt_id +:+ " already has a result revision"))).
Proof.
  intros H. unfold close_revision in H. apply bind_Ok in H as (r0 & Hr0 & H). unfold require_some in Hr0.
  destruct (revision_for_attempt (current s) attempt_id) as [r1|] eqn:Hr; [|discriminate Hr0]. injection Hr0 as ->.
  apply bind_Ok in H as (u1 & Hopen & H). apply bind_Ok in H as (fixture & -> & H). apply bind_Ok in H as (u2 & Hbase & H).
  apply bind_Ok in H as (tree & -> & H). apply bind_Ok in H as (u3 & Hrep & H). apply bind_Ok in H as (u4 & Hoid & H).
  apply bind_Ok in H as (s1 & Hf & [= <- <-]). unfold raise_if, str_eq in *.
  destruct (bool_decide (is_Some _)) eqn:Ho; [done|]. boolify. apply eq_None_not_Some in Ho.
  destruct (negb _) eqn:Hb in Hbase; [done|]. boolify.
  set (r := closed base_commit source tree now r0) in *. pose proof (closed_closes base_commit source tree now r0) as Hcl. fold r in Hcl.
  apply flush_revisions in Hf as [Erev Hu]. cbn [current] in Erev.
  change (d_attempt_revisions (current s1) = <[rv_id r := r]> (d_attempt_revisions (current s))) in Erev.
  apply find_row_Some in Hr as [Hid _]. unfold str_eq in Hid. boolify.
  assert (revision_for_attempt (current s1) attempt_id = Some r) as Hnow.
  { unfold revision_for_attempt. eapply (find_unique rv_attempt_id); [exact Hu|rewrite Erev; apply lookup_insert_eq|].
    destruct Hcl as (_ & -> & _). done. }
  split_and!; [|done|done|].
  - exists r0, tree. split_and!; try done.
    + congruence.
    + intros t ->. destruct (negb (bool_decide (t = tree))) eqn:E in Hrep; [done|]. by boolify.
    + intros c ->. destruct (is_git_oid c); done.
  - intros now' ft wt rep bc bcs. unfold close_revision. rewrite Hnow. cbn [require_some mbind result_bind].
    rewrite bool_decide_eq_true_2; [done|]. destruct Hcl as (_ & _ & _ & _ & _ & ->). eauto.
Qed.

Module RevisionDemo.
Definition host : Host := {| h_environ := ∅; h_unidata_version := "15.0.0" |}.
Definition attempt : AttemptRow := blank_AttemptRow {{ at_id := "A-1"; at_task_id := "T-1"; at_status := "running"; at_dispatch_key := "k1";
  at_model_tier := "basic"; at_evidence_mode := "synthetic"; at_revision_required := Some true }}.
Definition t1 : string := str_join "" (replicate 32 "0a").
Definition t2 : string := str_join "" (replicate 32 "0b").
Definition base : AttemptRevisionRow := base_revision "0123456789abcdef" (DateTime 5 true) "A-1" "fixture:demo" t1.
Definition db : Db := empty_db {{ d_attempts := {["A-1" := attempt]}; d_attempt_revisions := {[rv_id base := base]} }}.
Definition closing (reported : option string) : result (Session * AttemptRevisionRow) :=
  close_revision host (DateTime 9 true) (open_session db) "A-1" (Ok t1) (Ok t2) reported None None.
Definition env : environ := {["SDF_EVIDENCE_MAC_KEY" := "a configured key of thirty-two characters"]}.
End RevisionDemo.

(** An adapter that reports another tree is refused. *)
Example wrong_report_refused : match RevisionDemo.closing (Some "other") with Ok _ => false | Err _ => true end = true.
Proof. vm_compute. reflexivity. Qed.

Lemma close_revision_spec_witness : exists s' r, RevisionDemo.closing (Some RevisionDemo.t2) = Ok (s', r) /\
  rv_result_tree_sha256 r = Some RevisionDemo.t2 /\ revision_for_attempt (current s') "A-1" = Some r.
Proof.
  assert ((fun p => rv_result_tree_sha256 p.2) <$> RevisionDemo.closing (Some RevisionDemo.t2) = Ok (Some RevisionDemo.t2)) as Hv by (vm_compute; reflexivity).
  destruct (RevisionDemo.closing (Some RevisionDemo.t2)) as [[s' r]|] eqn:H; [|discriminate Hv]. exists s', r. split; [reflexivity|].
  split; [by injection Hv|].
  unfold RevisionDemo.closing in H. destruct (close_revision_spec _ _ _ _ _ _ _ _ _ _ _ H) as (_ & _ & Hnow & _). exact Hnow.
Defined.

(** A closed revision with nothing bound to it is verified, an open one is incomplete. *)
Example verified_demo :
  (p ← RevisionDemo.closing None; vf_status <$> verify_attempt_revision RevisionDemo.env (fun _ => None) (stored p.1) "A-1" true) = Ok "verified" /\
  vf_status <$> verify_attempt_revision RevisionDemo.env (fun _ => None) RevisionDemo.db "A-1" true = Ok "incomplete".
Proof. split; vm_compute; reflexivity. Qed.

(** A stored MAC that is not ASCII text makes the check raise. *)
Definition scrambled : EvidenceRow := blank_EvidenceRow {{ ev_id := "E"; ev_attempt_id := Some "A-1"; ev_evidence_class := Some "verification";
  ev_content_mac_version := Some CONTENT_MAC_CURRENT; ev_content_mac := Some (str_join "" (replicate 64 (char_str (ascii_of_nat 233)))) }}.
Example non_ascii_raises :
  (p ← RevisionDemo.closing None;
   vf_status <$> verify_attempt_revision RevisionDemo.env (fun _ => None) ((stored p.1) {{ d_evidence := {["E" := scrambled]} }}) "A-1" true) = Err NonAsciiError.
Proof. vm_compute. reflexivity. Qed.
