(* ===== verification/UnitOfWork.v ===== *)
(** * UnitOfWork: the database session of one request

    A SQLAlchemy session as the services use it: pending changes over what the
    transaction sees, the committed database, the statements that flush first,
    commit and rollback, and the clock and random ids the code draws.  A flush
    that the database refuses leaves the session unusable until a rollback; a
    change that a listener refuses stays pending. *)

From S2P Require Import Prelude StateError Json Db EvidenceMac Flush Samples FlushFacts Store Recovery.

Record Work : Type := {
  wk_host : Host; wk_process : Process;
  wk_clock : nat -> datetime; wk_uuid : nat -> string; wk_ticks : nat;
  committed : Db; session : Session; inactive : bool
}.

Definition PendingRollbackError : exn :=
  OtherError "PendingRollbackError" "This Session's transaction has been rolled back due to a previous exception during flush".

(** [utcnow()] and the clock of the database. *)
Definition utcnow : ST Work datetime := fun w => (w {{ wk_ticks ::= S }}, Ok (wk_clock w (wk_ticks w))).
(** [uuid4().hex] *)
Definition uuid4_hex : ST Work string := fun w => (w {{ wk_ticks ::= S }}, Ok (wk_uuid w (wk_ticks w))).

Definition pending (w : Work) : Db := current (session w).

Definition rollback : ST Work unit := modify (fun w => w {{ session := open_session (committed w); inactive := false }}).

(** [db.flush()] *)
Definition flush_work : ST Work unit := fun w =>
  if inactive w then (w, Err PendingRollbackError)
  else match flush (wk_host w) (session w) with
       | Ok s => (w {{ session := s }}, Ok ())
       | Err e => match guards (session w) with
                  | Err _ => (w, Err e)
                  | Ok _ => (w {{ session := open_session (committed w); inactive := true }}, Err e)
                  end
       end.

Definition commit : ST Work unit :=
  _ ← flush_work; modify (fun w => w {{ committed := stored (session w) }}).

(** [db.execute(update(...))]: pending changes first, then the statement. *)
Definition statement (f : Db -> result (Db * bool)) : ST Work bool := fun w =>
  match f (stored (session w)) with
  | Ok (d, matched) => (w {{ session := open_session d }}, Ok matched)
  | Err e => (w, Err e)
  end.

Definition execute (f : Db -> result (Db * bool)) : ST Work bool := _ ← flush_work; statement f.

(** [db.add(...)] and assignments to attributes: pending. *)
Definition pend (f : Db -> Db) : ST Work unit := modify (fun w => w {{ session ::= fun s => {| stored := stored s; current := f (current s) |} }}).
Definition pend_checked (f : Db -> result Db) : ST Work unit := fun w =>
  match f (pending w) with
  | Ok d => (w {{ session ::= fun s => {| stored := stored s; current := d |} }}, Ok ())
  | Err e => (w, Err e)
  end.

(** What other transactions committed since. *)
Definition interfere (f : Db -> Db) : ST Work unit :=
  modify (fun w => w {{ committed ::= f; session ::= fun s => {| stored := f (stored s); current := f (current s) |} }}).

(** A fresh session of a request. *)
Definition fresh (w : Work) : Prop := session w = open_session (committed w) /\ inactive w = false.

(** ** Tables a block leaves alone *)

(** The Tasks and Attempts as the transaction sees them, nothing pending about
    them, over one committed database and process. *)
Record steady (c : Db) (p : Process) (tasks : gmap string TaskRow) (attempts : gmap string AttemptRow) (w : Work) : Prop := {
  st_committed : committed w = c;
  st_process : wk_process w = p;
  st_tasks : d_tasks (stored (session w)) = tasks /\ d_tasks (pending w) = tasks;
  st_attempts : d_attempts (stored (session w)) = attempts /\ d_attempts (pending w) = attempts;
  st_active : inactive w = false
}.

(** After an exception the transaction may be lost, but nothing was committed. *)
Definition lost (c : Db) (p : Process) (w : Work) : Prop := committed w = c /\ wk_process w = p /\ inactive w = true.
Definition steady_or_lost c p tasks attempts (w : Work) : Prop := steady c p tasks attempts w \/ lost c p w.

Lemma flush_tasks h s s' : flush h s = Ok s' -> d_tasks (stored s') = d_tasks (current s) /\ d_tasks (current s') = d_tasks (current s).
Proof. intros (_ & _ & E & _ & T & _)%flush_Ok. unfold same_tables in T. destruct_and! T. rewrite <- E. done. Qed.

Lemma flush_attempts_same h s s' : flush h s = Ok s' -> d_attempts (current s) = d_attempts (stored s) ->
  d_attempts (stored s') = d_attempts (current s) /\ d_attempts (current s') = d_attempts (current s).
Proof.
  intros Hf E. pose proof (flush_stored_current _ _ _ Hf) as Es. apply flush_attempts in Hf; [rewrite <- Es; done|].
  intros k. by rewrite E.
Qed.

(** Replacing the session by one with the same Tasks and Attempts. *)
Lemma steady_session c p tasks attempts w s :
  steady c p tasks attempts w ->
  (d_tasks (stored s) = tasks /\ d_tasks (current s) = tasks) /\ (d_attempts (stored s) = attempts /\ d_attempts (current s) = attempts) ->
  steady c p tasks attempts (w {{ session := s }}).
Proof. intros [] [? ?]. split; done. Qed.

Lemma steady_open c p w d : committed w = c -> wk_process w = p -> inactive w = false ->
  steady c p (d_tasks d) (d_attempts d) (w {{ session := open_session d }}).
Proof. intros. split; done. Qed.

Lemma steady_change_and_flush h s d s' tasks attempts : change_and_flush h s d = Ok s' ->
  d_tasks d = tasks -> d_attempts (stored s) = attempts -> d_attempts d = attempts ->
  (d_tasks (stored s') = tasks /\ d_tasks (current s') = tasks) /\ (d_attempts (stored s') = attempts /\ d_attempts (current s') = attempts).
Proof.
  intros Hf <- <- E'. pose proof (flush_tasks _ _ _ Hf) as [E1 E2]. cbn [current] in *.
  pose proof (flush_attempts_same _ _ _ Hf E') as [E3 E4]. cbn [current] in *. split_and!; congruence.
Qed.

Section triples.
Context (c : Db) (p : Process) (tasks : gmap string TaskRow) (attempts : gmap string AttemptRow).
Let P : Work -> Prop := steady c p tasks attempts.
Let PL : Work -> Prop := steady_or_lost c p tasks attempts.
Let E : exn -> Work -> Prop := fun _ => steady_or_lost c p tasks attempts.

(** From a lost transaction a flush only raises. *)
Lemma steady_flush : hoare PL flush_work (fun _ => P) E.
Proof.
  intros w [[Hc Hp [Ht1 Ht2] [Ha1 Ha2] Hi]|[Hc [Hp Hi]]]; unfold flush_work; rewrite Hi; [|by right].
  destruct (flush (wk_host w) (session w)) as [s|e] eqn:Hf.
  - apply steady_session; [by split|]. eapply steady_change_and_flush; [|exact Ht2|exact Ha1|exact Ha2].
    unfold change_and_flush, pending. by destruct (session w).
  - destruct (guards (session w)); [right; by split|left; by split].
Qed.

Lemma steady_pend f : (forall d, d_tasks (f d) = d_tasks d /\ d_attempts (f d) = d_attempts d) -> hoare P (pend f) (fun _ => P) E.
Proof.
  intros Hf w Hw. apply steady_session; [exact Hw|]. destruct Hw as [_ _ [Ht1 Ht2] [Ha1 Ha2] _]. destruct (Hf (pending w)) as [E1 E2].
  split_and!; [exact Ht1|exact (eq_trans E1 Ht2)|exact Ha1|exact (eq_trans E2 Ha2)].
Qed.

Lemma steady_pend_checked f : (forall d d', f d = Ok d' -> d_tasks d' = d_tasks d /\ d_attempts d' = d_attempts d) ->
  hoare P (pend_checked f) (fun _ => P) E.
Proof.
  intros Hf w Hw. unfold pend_checked. destruct (f (pending w)) as [d|e] eqn:Hd; [|by left].
  apply steady_session; [exact Hw|]. destruct Hw as [_ _ [Ht1 Ht2] [Ha1 Ha2] _]. apply Hf in Hd as [E1 E2].
  split_and!; [exact Ht1|exact (eq_trans E1 Ht2)|exact Ha1|exact (eq_trans E2 Ha2)].
Qed.

Lemma steady_utcnow : hoare P utcnow (fun _ => P) E.
Proof. intros w []. split; done. Qed.

Lemma steady_uuid : hoare P uuid4_hex (fun _ => P) E.
Proof. intros w []. split; done. Qed.

Lemma steady_lift {A} (r : result A) : hoare P (lift r) (fun a w => P w /\ r = Ok a) E.
Proof. intros w Hw. unfold lift. destruct r; [done|by left]. Qed.

(** A statement over a flushed session. *)
Lemma steady_execute f (Q : bool -> Work -> Prop) :
  (forall w d, P w -> stored (session w) = d -> match f d with Ok (d', b) => Q b (w {{ session := open_session d' }}) | Err e => True end) ->
  hoare PL (execute f) Q E.
Proof.
  intros Hf. unfold execute. eapply hoare_bind; [apply steady_flush|intros _ w Hw]. unfold statement.
  specialize (Hf w _ Hw eq_refl). destruct (f (stored (session w))) as [[d' b]|e]; [done|by left].
Qed.

Lemma steady_commit : hoare PL commit (fun _ w => exists c', d_tasks c' = tasks /\ d_attempts c' = attempts /\ steady c' p tasks attempts w) E.
Proof.
  unfold commit. eapply hoare_bind; [apply steady_flush|intros []]. apply hoare_modify. intros w [Hc Hp Ht Ha Hi].
  exists (stored (session w)). split_and!; [apply Ht|apply Ha|]. split; done.
Qed.

(** A rollback shows the committed rows again. *)
Lemma steady_rollback : hoare PL rollback (fun _ => steady c p (d_tasks c) (d_attempts c)) E.
Proof.
  intros w H. assert (committed w = c /\ wk_process w = p) as [Hc Hp] by (destruct H as [[]|(? & ? & _)]; done).
  split; [exact Hc|exact Hp| | |reflexivity]; (split; [exact (f_equal _ Hc)|exact (f_equal _ Hc)]).
Qed.
End triples.
