(* ===== verification/Execution.v ===== *)
(** * Execution: running one Attempt

    Models [src/sdf_core/execution.py]: the gates and the creation of an
    Attempt ([begin]) and the ways it is failed; [finish] is in Finish.  What
    the file system answers (copying the fixture, hashing a tree) is an
    argument. *)

From S2P Require Import Prelude StateError Floats Json Db EvidenceMac Flush Samples FlushFacts Store Lifecycle RemoteEffects Recovery.
From S2P Require Import Escalation DecisionGate Checks Oracle Acceptance Evaluate Verdict Revisions UnitOfWork.

(** ** Gates *)

Definition check_plan_gate (d : Db) (task_id : string) (require_plan : bool) : result unit :=
  match d_plan_tasks d !! task_id with
  | None => raise_if require_plan (PlanGateError ("task " +:+ task_id +:+ " has no approved plan (SDF_REQUIRE_PLAN_APPROVAL)"))
  | Some link =>
      let refused := Err (PlanGateError ("plan " +:+ pt_plan_id link +:+ " is not approved; task " +:+ task_id +:+ " cannot start")) in
      match d_plans d !! pt_plan_id link with
      | None => refused
      | Some plan => if negb (str_eq (pl_status plan) "approved") then refused else Ok ()
      end
  end.

Definition TERMINAL_ATTEMPT_STATES : list string := map AttemptState_value [ACOMPLETED; AFAILED; ACANCELLED].

Definition ModelTier_of (v : string) : result ModelTier :=
  if str_eq v "basic" then Ok BASIC else if str_eq v "medium" then Ok MEDIUM else if str_eq v "high" then Ok HIGH
  else Err (ValueError (str_repr v +:+ " is not a valid ModelTier")).

Definition TIER_RANK (t : ModelTier) : Z := match t with BASIC => 0 | MEDIUM => 1 | HIGH => 2 end.

Definition check_retry_parent (env : environ) (d : Db) (parent : AttemptRow) : result unit :=
  _ ← raise_if (negb (str_in (at_status parent) TERMINAL_ATTEMPT_STATES))
        (ValueError ("parent attempt " +:+ at_id parent +:+ " is " +:+ at_status parent +:+ "; only a finished attempt can be retried"));
  let verdicts := List.filter (fun r => opt_in (ev_evidence_class r) ["verification"])
                    (select_rows (fun r => opt_str_eq (ev_attempt_id r) (Some (at_id parent))) (d_evidence d)) in
  raise_if (has_status ACOMPLETED parent && bool_decide (verdicts <> []) &&
            forallb (fun r => str_eq (ev_status r) "PASS" && stored_content_mac_ok env (Some d) r) verdicts)
    (ValueError ("parent attempt " +:+ at_id parent +:+ " passed every check; there is nothing to retry")).

(** [parent.model_tier or "basic"] *)
Definition parent_tier (parent : AttemptRow) : result ModelTier :=
  ModelTier_of (if str_truthy (at_model_tier parent) then at_model_tier parent else "basic").

Definition retry_tier (parent : option AttemptRow) (declared : option ModelTier) : result ModelTier :=
  match parent, declared with
  | None, Some t => Ok t
  | None, None => Ok BASIC
  | Some p, None => parent_tier p
  | Some p, Some tier =>
      lower_bound ← parent_tier p;
      if TIER_RANK tier <? TIER_RANK lower_bound
      then Err (ValueError ("model_tier " +:+ ModelTier_value tier +:+ " is below the parent attempt's tier " +:+ ModelTier_value lower_bound))
      else Ok tier
  end.

Definition derived_escalation_reason (parent : AttemptRow) : string :=
  let state := if opt_truthy (at_outcome parent) then at_status parent +:+ "/" +:+ or_empty (at_outcome parent) else at_status parent in
  let reason := "escalated from " +:+ at_id parent +:+ " (tier " +:+ at_model_tier parent +:+ ", " +:+ state in
  let reason := if opt_truthy (at_error_class parent) then reason +:+ ", error " +:+ or_empty (at_error_class parent) else reason in
  str_take 500 (reason +:+ ")").

(** ** Failing an Attempt *)

(** [settle_owned_attempt(db, id, target)] as a statement of the session. *)
Definition settle_attempt (attempt_id target : string) : ST Work unit :=
  p ← gets wk_process;
  _ ← execute (fun d => d' ← settle_owned_attempt p attempt_id target id d; Ok (d', true));
  mret ().

Definition cas_task (task_id : string) (from_status to_status : TaskState) : ST Work bool :=
  execute (fun d => compare_and_swap_task d task_id from_status to_status).

Definition is_fence_error (e : exn) : bool := match e with OtherError cls _ => str_eq cls "AttemptFenceError" | _ => false end.

(** Another Attempt of the Task is running. *)
Definition other_running (d : Db) (task_id attempt_id : string) : option string :=
  at_id <$> find_row (fun a => str_eq (at_task_id a) task_id && has_status ARUNNING a && negb (str_eq (at_id a) attempt_id)) (d_attempts d).

Definition task_status (d : Db) (task_id : string) : option string := tk_status <$> d_tasks d !! task_id.

Definition fail_task_if_exclusive (task_id attempt_id : string) : ST Work unit :=
  _ ← flush_work;
  other ← gets (fun w => other_running (pending w) task_id attempt_id);
  match other with
  | Some _ => mret ()
  | None =>
      moved ← cas_task task_id TRUNNING TEVALUATING;
      evaluating ← gets (fun w => opt_str_eq (task_status (pending w) task_id) (Some (TaskState_value TEVALUATING)));
      when (moved || evaluating) (_ ← cas_task task_id TEVALUATING TFAILED; mret ())
  end.

(** [_fail_attempt(task, attempt)] *)
Definition fail_attempt (task_id attempt_id : string) : ST Work unit :=
  prior ← gets (fun w => d_attempts (pending w) !! attempt_id);
  p ← gets wk_process;
  settled ← catch (_ ← settle_attempt attempt_id (AttemptState_value AFAILED); mret true)
                  (fun e => if is_fence_error e then Some (mret false) else None);
  if (settled : bool) then _ ← fail_task_if_exclusive task_id attempt_id; commit
  else
    let finished := match prior with Some a => owned_by (EXECUTOR_ID p) a && has_status ACOMPLETED a | None => false end in
    when finished (_ ← fail_task_if_exclusive task_id attempt_id; commit).

(** [except Exception: ...; raise] with a clean-up that may itself raise. *)
Definition on_error {A} (m : ST Work A) (cleanup : ST Work unit) : ST Work A :=
  catch m (fun e => Some (_ ← cleanup; fail e)).

(** ** begin *)

Record BeginRequest : Type := {
  b_task_id : string; b_dispatch_key : string; b_validation_target : option (string * string);
  b_parent_attempt_id : option string; b_model_tier : option ModelTier; b_cost_usd : float; b_provider : option string;
  b_latency_ms : option float; b_input_tokens : option Z; b_output_tokens : option Z; b_escalation_reason : option string;
  b_agent : string; b_require_plan_approval : bool; b_principal : option string; b_evidence_mode : string;
  b_trace_id : option string
}.

Record BegunAttempt : Type := { bg_attempt : string; bg_existing : bool }.

(** What the disk answers: the copy of the fixture, its tree, and the
    identity of the repository. *)
Record Prepared : Type := { pr_workspace : result unit; pr_tree : result string; pr_repository : string }.

Definition same_key (key : string) (a : AttemptRow) : bool := str_eq (at_dispatch_key a) key.

(** The Attempt the request already has, if any. *)
Definition existing_attempt (r : BeginRequest) (d : Db) : result (option BegunAttempt) :=
  match find_row (same_key (b_dispatch_key r)) (d_attempts d) with
  | None => Ok None
  | Some existing =>
      _ ← raise_if (negb (str_eq (at_task_id existing) (b_task_id r)))
            (ValueError ("dispatch key already belongs to task: " +:+ at_task_id existing));
      Ok (Some {| bg_attempt := at_id existing; bg_existing := true |})
  end.

(** [SELECT id FROM attempts WHERE task_id = ... AND status = 'running'] *)
Definition running_blocker (d : Db) (task_id : string) : option string :=
  at_id <$> find_row (fun a => str_eq (at_task_id a) task_id && has_status ARUNNING a) (d_attempts d).

Definition check_numbers (r : BeginRequest) : result unit :=
  _ ← raise_if (f_lt (b_cost_usd r) f_zero) (ValueError "cost_usd must not be negative");
  _ ← raise_if (match b_latency_ms r with Some x => f_lt x f_zero | None => false end) (ValueError "latency_ms must not be negative");
  _ ← raise_if (match b_input_tokens r with Some x => x <? 0 | None => false end) (ValueError "input_tokens must not be negative");
  raise_if (match b_output_tokens r with Some x => x <? 0 | None => false end) (ValueError "output_tokens must not be negative").

(** The parent, once it may be retried. *)
Definition retry_parent (env : environ) (r : BeginRequest) (d : Db) : result (option AttemptRow) :=
  if negb (opt_truthy (b_parent_attempt_id r)) then Ok None
  else match d_attempts d !! or_empty (b_parent_attempt_id r) with
       | Some p =>
           _ ← raise_if (negb (str_eq (at_task_id p) (b_task_id r))) (ValueError "parent attempt not found for task");
           _ ← check_retry_parent env d p;
           Ok (Some p)
       | None => Err (ValueError "parent attempt not found for task")
       end.

(** The checks between the key lookup and the first row: the tier and the
    reason of the new Attempt, and its parent. *)
Definition begin_checks (env : environ) (r : BeginRequest) (d : Db) : result (TaskRow * option AttemptRow * ModelTier * option string) :=
  task ← require_some (d_tasks d !! b_task_id r) (ValueError ("task not found: " +:+ b_task_id r));
  _ ← match running_blocker d (b_task_id r) with
      | Some blocker => raise_if (str_eq (tk_status task) (TaskState_value TRUNNING))
          (ValueError ("attempt " +:+ blocker +:+ " is still running; lease expiry does not confirm its work has stopped"))
      | None => Ok ()
      end;
  _ ← match unresolved_effect_id d (b_task_id r) with
      | Some effect => Err (ValueError ("remote sandbox " +:+ effect +:+ " is not verified absent; a new dispatch is refused"))
      | None => Ok ()
      end;
  _ ← check_numbers r;
  parent ← retry_parent env r d;
  tier ← retry_tier parent (b_model_tier r);
  let reason := match parent, b_escalation_reason r with Some p, None => Some (derived_escalation_reason p) | _, given => given end in
  _ ← match b_validation_target r with
      | Some (kind, target_id) =>
          let missing := ValueError ("validation target not found: " +:+ kind +:+ ":" +:+ target_id) in
          match d_graph_nodes d !! target_id with
          | Some target => raise_if (negb (str_eq (gn_kind target) kind)) missing
          | None => Err missing
          end
      | None => Ok ()
      end;
  Ok (task, parent, tier, reason).

Definition new_attempt (r : BeginRequest) (attempt_id : string) (tier : ModelTier) (reason : option string) (now : datetime) : AttemptRow := {|
  at_id := attempt_id; at_task_id := b_task_id r; at_status := AttemptState_value ACREATED; at_dispatch_key := b_dispatch_key r;
  at_agent := b_agent r; at_parent_attempt_id := b_parent_attempt_id r; at_model_tier := ModelTier_value tier;
  at_cost_usd := b_cost_usd r; at_provider := b_provider r; at_latency_ms := b_latency_ms r; at_input_tokens := b_input_tokens r;
  at_output_tokens := b_output_tokens r; at_escalation_reason := reason; at_created_at := now; at_model_profile := None;
  at_outcome := None; at_evidence_mode := b_evidence_mode r; at_error_class := None; at_trace_id := b_trace_id r;
  at_principal := b_principal r; at_revision_required := None; at_executor_id := None; at_executor_heartbeat_at := None;
  at_remote_effect := None
|}.

(** The Attempt, its graph node and its edges; two rows of one key cannot be
    inserted. *)
Definition add_attempt (r : BeginRequest) (a : AttemptRow) (parent : option AttemptRow) (now : datetime) (d : Db) : result Db :=
  _ ← raise_if (bool_decide (is_Some (d_attempts d !! at_id a))) (IntegrityError "attempts.id");
  let d := d {{ d_attempts ::= insert (at_id a) a }} in
  d ← add_node (mk_node (at_id a) "attempt" "Native execution attempt" "execution" "sdf" now None) d;
  let d := add_edge ("attempt", at_id a) ("task", b_task_id r) "implements" "execution" now d in
  Ok (match parent with
      | Some p => add_edge ("attempt", at_id a) ("attempt", at_id p) "depends_on" "escalation" now d
      | None => d
      end).

Definition set_task_status (task_id status : string) (d : Db) : Db := d {{ d_tasks ::= alter (fun t => t {{ tk_status := status }}) task_id }}.
Definition set_attempt (f : AttemptRow -> AttemptRow) (attempt_id : string) (d : Db) : Db := d {{ d_attempts ::= alter f attempt_id }}.

(** [claim_executor(self, attempt)], with the time of the database. *)
Definition claim (now : datetime) (attempt_id : string) : ST Work unit := fun w =>
  match d_attempts (pending w) !! attempt_id with
  | Some a =>
      let '(p, a) := claim_executor (wk_process w) now a in
      ((w {{ wk_process := p; session ::= fun s => {| stored := stored s; current := (current s) {{ d_attempts ::= insert attempt_id a }} |} }}), Ok ())
  | None => (w, Ok ())
  end.

(** The lease and the four transitions, committed together.  The Task's status
    is the one that was read before the Attempt was inserted. *)
Definition dispatch (task : TaskRow) (attempt_id : string) : ST Work unit :=
  now ← utcnow;
  _ ← claim now attempt_id;
  status ← lift (TaskState_of (tk_status task));
  status ← lift (transition_task status TREADY);
  status ← lift (transition_task status TRUNNING);
  _ ← pend (set_task_status (tk_id task) (TaskState_value status));
  status ← lift (transition_attempt ACREATED ADISPATCHED);
  status ← lift (transition_attempt status ARUNNING);
  _ ← pend (set_attempt (fun a => a {{ at_status := AttemptState_value status }}) attempt_id);
  commit.

(** [_recover_orphans_independently]: a session of its own. *)
Definition recover_independently : ST Work unit :=
  now ← utcnow;
  w ← gets (fun w => w);
  match recover_orphaned_attempts (wk_process w) now (committed w) with
  | Ok (p, d, _) => modify (fun w => w {{ wk_process := p; committed := d; session := open_session d }})
  | Err e => fail e
  end.

(** The rows of a new Attempt; when another request inserted the key first, that
    request's Attempt. *)
Definition insert_attempt (r : BeginRequest) (a : AttemptRow) (parent : option AttemptRow) (now : datetime) : ST Work (option BegunAttempt) :=
  catch (_ ← pend_checked (add_attempt r a parent now); _ ← flush_work; mret None)
    (fun e => match e with
              | IntegrityError _ => Some (_ ← rollback; d ← gets pending; winner ← lift (existing_attempt r d);
                                          match winner with Some begun => mret (Some begun) | None => fail e end)
              | _ => None
              end).

(** The copy of the fixture and the base revision; a failure fails the Attempt. *)
Definition prepare_attempt (prepared : Prepared) (r : BeginRequest) (attempt_id : string) : ST Work unit :=
  on_error
    (_ ← lift (pr_workspace prepared);
     hex ← uuid4_hex; now ← utcnow;
     w ← gets (fun w => w);
     match record_base_revision (wk_host w) hex now (session w) attempt_id (pr_repository prepared) (pr_tree prepared) with
     | Ok (s, _) => _ ← modify (fun w => w {{ session := s }}); commit
     | Err e => fail e
     end)
    (_ ← rollback; fail_attempt (b_task_id r) attempt_id).

(** [others] is what other requests commit between the lookup of the key and
    the INSERT. *)
Definition begin (others : Db -> Db) (prepared : Prepared) (r : BeginRequest) : ST Work BegunAttempt :=
  env ← gets (fun w => h_environ (wk_host w));
  _ ← guard (negb (str_in (b_evidence_mode r) EVIDENCE_MODES)) (ValueError "evidence_mode must be one of ['synthetic', 'live']");
  d ← gets pending;
  _ ← lift (check_plan_gate d (b_task_id r) (b_require_plan_approval r));
  _ ← lift (check_decision_gate d (b_task_id r));
  _ ← recover_independently;
  d ← gets pending;
  existing ← lift (existing_attempt r d);
  match existing with
  | Some begun => mret begun
  | None =>
      '(task, parent, tier, reason) ← lift (begin_checks env r d);
      hex ← uuid4_hex;
      let attempt_id := "ATTEMPT-" +:+ str_take 12 hex in
      now ← utcnow;
      _ ← interfere others;
      raced ← insert_attempt r (new_attempt r attempt_id tier reason now) parent now;
      match raced with
      | Some begun => mret begun
      | None =>
          _ ← dispatch task attempt_id;
          _ ← prepare_attempt prepared r attempt_id;
          mret {| bg_attempt := attempt_id; bg_existing := false |}
      end
  end.
