(* ===== verification/BeginFacts.v ===== *)
(** * BeginFacts: how an Attempt is created

    What [begin] guarantees when it returns: the gates held, a repeated
    request gets the Attempt it already has, and a new Attempt is stored
    running, leased to this process and with its base revision. *)

From S2P Require Import Prelude StateError Floats Json Db EvidenceMac Flush Samples FlushFacts Store Lifecycle RemoteEffects Recovery.
From S2P Require Import Escalation DecisionGate Checks Oracle Acceptance Evaluate Verdict Revisions UnitOfWork Execution.

(** The Tasks and Attempts as the request has left them, no Attempt new. *)
Record holding (c : Db) (e : string) (tasks : gmap string TaskRow) (attempts : gmap string AttemptRow) (w : Work) : Prop := {
  ho_committed : committed w = c;
  ho_executor : EXECUTOR_ID (wk_process w) = e;
  ho_tasks : d_tasks (pending w) = tasks;
  ho_attempts : d_attempts (pending w) = attempts;
  ho_known : none_new d_attempts (session w);
  ho_active : inactive w = false
}.

Definition anything {A} : A -> Work -> Prop := fun _ _ => True.

Lemma anything_lift {A} (P : Work -> Prop) (r : result A) : hoare P (lift r) (fun a w => P w /\ r = Ok a) anything.
Proof. by apply hoare_lift. Qed.

Section holding.
Context (c : Db) (e : string) (tasks : gmap string TaskRow) (attempts : gmap string AttemptRow).
Let H : Work -> Prop := holding c e tasks attempts.

Lemma holding_utcnow : hoare H utcnow (fun _ => H) anything.
Proof. intros w []. by split. Qed.

Lemma holding_uuid : hoare H uuid4_hex (fun _ => H) anything.
Proof. intros w []. by split. Qed.

Lemma holding_set_task task_id status :
  hoare H (pend (set_task_status task_id status)) (fun _ => holding c e (alter (fun t => t {{ tk_status := status }}) task_id tasks) attempts) anything.
Proof. intros w [Hc Hp Ht Ha Hn Hi]. split; [exact Hc|exact Hp|exact (f_equal _ Ht)|exact Ha|exact Hn|exact Hi]. Qed.

Lemma holding_set_attempt f id : hoare H (pend (set_attempt f id)) (fun _ => holding c e tasks (alter f id attempts)) anything.
Proof.
  intros w [Hc Hp Ht Ha Hn Hi]. split; [exact Hc|exact Hp|exact Ht|exact (f_equal _ Ha)| |exact Hi].
  intros k Hk. apply Hn. exact (proj1 (lookup_alter_is_Some f (d_attempts (pending w)) id k) Hk).
Qed.

Lemma holding_claim now id a : attempts !! id = Some a ->
  hoare H (claim now id) (fun _ => holding c e tasks (<[id := a {{ at_executor_id := Some e; at_executor_heartbeat_at := Some now }}]> attempts)) anything.
Proof.
  intros Hid w [Hc Hp Ht Ha Hn Hi]. unfold claim. rewrite Ha, Hid. unfold claim_executor.
  split; [exact Hc|exact Hp|exact Ht| | |exact Hi].
  - change (<[id := a {{ at_executor_id := Some (EXECUTOR_ID (wk_process w)); at_executor_heartbeat_at := Some now }}]> (d_attempts (pending w)) =
      <[id := a {{ at_executor_id := Some e; at_executor_heartbeat_at := Some now }}]> attempts). by rewrite Ha, Hp.
  - intros k. change (is_Some (<[id := a {{ at_executor_id := Some (EXECUTOR_ID (wk_process w)); at_executor_heartbeat_at := Some now }}]> (d_attempts (pending w)) !! k) ->
      is_Some (d_attempts (stored (session w)) !! k)). rewrite lookup_insert_is_Some. intros [<-|[_ Hk]]; apply Hn; [|done].
    unfold pending in Ha. by rewrite Ha, Hid.
Qed.

(** Committing stores them. *)
Lemma holding_commit : hoare H commit (fun _ w => exists c', d_tasks c' = tasks /\ d_attempts c' = attempts /\
  session w = open_session c' /\ holding c' e tasks attempts w) anything.
Proof.
  intros w [Hc Hp Ht Ha Hn Hi]. unfold commit. rewrite st_bind_run. unfold flush_work. rewrite Hi.
  destruct (flush (wk_host w) (session w)) as [s|x] eqn:Hf; [|by destruct (guards _)].
  pose proof (flush_tasks _ _ _ Hf) as [E1 E2]. pose proof (flush_attempts _ _ _ Hf Hn) as E3. pose proof (flush_stored_current _ _ _ Hf) as Es.
  exists (stored s). unfold pending in *. split_and!; [congruence|congruence|by destruct s; cbn in *; rewrite Es|].
  split; [done|exact Hp|..|exact Hi].
  - change (d_tasks (current s) = tasks). congruence.
  - change (d_attempts (current s) = attempts). congruence.
  - intros k. change (is_Some (d_attempts (current s) !! k) -> is_Some (d_attempts (stored s) !! k)). by rewrite Es.
Qed.
End holding.

(** ** Dispatching *)

(** The Attempt's row once it runs. *)
Definition running_row (e : string) (clock : datetime) (a : AttemptRow) : AttemptRow :=
  a {{ at_executor_id := Some e; at_executor_heartbeat_at := Some clock; at_status := "running" }}.

Definition set_running (t : TaskRow) : TaskRow := t {{ tk_status := "running" }}.

Lemma dispatch_triple c e tasks attempts task id a : attempts !! id = Some a ->
  hoare (holding c e tasks attempts) (dispatch task id)
    (fun _ w => (exists s, TaskState_of (tk_status task) = Ok s /\ startable s = true) /\
       exists clock c', d_tasks c' = alter set_running (tk_id task) tasks /\ d_attempts c' = <[id := running_row e clock a]> attempts /\
         session w = open_session c' /\ holding c' e (d_tasks c') (d_attempts c') w) anything.
Proof.
  intros Ha. unfold dispatch. eapply hoare_bind; [apply holding_utcnow|intros clock].
  eapply hoare_bind; [by apply holding_claim|intros u1]. eapply hoare_bind; [apply anything_lift|intros s0].
  eapply hoare_bind; [apply anything_lift|intros s1]. eapply hoare_bind; [apply anything_lift|intros s2].
  intros w (((Hw & Hs0) & Hs1) & Hs2).
  assert (startable s0 = true /\ s2 = TRUNNING) as [Hst ->].
  { unfold transition_task in Hs1, Hs2. destruct s0; cbn in Hs1; try discriminate Hs1; injection Hs1 as <-; cbn in Hs2; injection Hs2 as <-; done. }
  revert w Hw. eapply hoare_bind; [apply holding_set_task|intros u2]. eapply hoare_bind; [apply anything_lift|intros s3].
  eapply hoare_bind; [apply anything_lift|intros s4]. intros w ((Hw & [= <-]) & Hs4).
  assert (s4 = ARUNNING) as -> by (by injection Hs4). revert w Hw. eapply hoare_bind; [apply holding_set_attempt|intros u4].
  eapply hoare_weaken; [intros w Hw; exact Hw| |done|apply holding_commit]. intros [] w (c' & Et & Ea & Hses & Hw).
  split; [by exists s0|]. exists clock, c'. rewrite Et, Ea. rewrite alter_insert_eq in *. split_and!; done.
Qed.

(** ** The base revision *)

(** The clean-up of a block that raised never returns. *)
Lemma anything_on_error {A} P (m : ST Work A) cleanup Q : hoare P m Q anything -> hoare P (on_error m cleanup) Q anything.
Proof.
  intros H w Hw. specialize (H w Hw). unfold on_error, catch. destruct (m w) as [w1 [a|x]]; [done|].
  rewrite st_bind_run. by destruct (cleanup w1) as [w2 [u|y]].
Qed.

(** Rows of two tables and the revisions survive a commit. *)
Lemma commit_revisions w w' : inactive w = false -> none_new d_attempts (session w) -> commit w = (w', Ok ()) ->
  d_tasks (committed w') = d_tasks (pending w) /\ d_attempts (committed w') = d_attempts (pending w) /\
  d_attempt_revisions (committed w') = d_attempt_revisions (pending w) /\ unique_by rv_attempt_id (d_attempt_revisions (committed w')) = true.
Proof.
  intros Hi Hn. unfold commit. rewrite st_bind_run. unfold flush_work. rewrite Hi.
  destruct (flush (wk_host w) (session w)) as [s|x] eqn:Hf; [|by destruct (guards _)]. intros [= <-].
  pose proof (flush_tasks _ _ _ Hf) as [E1 _]. pose proof (flush_attempts _ _ _ Hf Hn) as E2.
  pose proof (flush_revisions _ _ _ Hf) as [E3 Hu]. pose proof (flush_stored_current _ _ _ Hf) as Es. rewrite <- Es in E3, Hu. done.
Qed.

Lemma prepare_triple c e prepared r id :
  hoare (fun w => session w = open_session c /\ holding c e (d_tasks c) (d_attempts c) w) (prepare_attempt prepared r id)
    (fun _ w => d_tasks (committed w) = d_tasks c /\ d_attempts (committed w) = d_attempts c /\
       exists base row, pr_tree prepared = Ok base /\ revision_for_attempt (committed w) id = Some row /\
         rv_base_tree_sha256 row = base /\ rv_result_tree_sha256 row = None) anything.
Proof.
  set (P := fun w => session w = open_session c /\ holding c e (d_tasks c) (d_attempts c) w). apply anything_on_error.
  eapply hoare_bind with (R := fun _ => P); [by apply hoare_lift|intros u].
  eapply hoare_bind with (R := fun _ => P); [intros w [? []]; by split|intros hex].
  eapply hoare_bind with (R := fun _ => P); [intros w [? []]; by split|intros now].
  apply hoare_gets_bind. intros w0 w [[Hses [_ _ _ _ _ Hi]] <-]. rewrite Hses.
  destruct (record_base_revision _ _ _ _ _ _ _) as [[s row]|x] eqn:Hb; [|done]. rewrite modify_bind.
  unfold record_base_revision in Hb. apply bind_Ok in Hb as (u1 & _ & Hb). apply bind_Ok in Hb as (base & Hbase & Hb).
  apply bind_Ok in Hb as (u2 & _ & Hb). apply bind_Ok in Hb as (s1 & Hf & [= <- <-]).
  pose proof (steady_change_and_flush _ _ _ _ _ _ Hf eq_refl eq_refl eq_refl) as [[Et _] [Ea _]].
  pose proof (flush_revisions _ _ _ Hf) as [Er _]. pose proof (flush_stored_current _ _ _ Hf) as Es.
  set (w1 := w {{ session := s1 }}). destruct (commit w1) as [w2 [[]|x]] eqn:Hc; [|done].
  apply commit_revisions in Hc as (E1 & E2 & E3 & Hu); [|exact Hi|intros k; change (is_Some (d_attempts (current s1) !! k) -> is_Some (d_attempts (stored s1) !! k)); by rewrite Es].
  change (pending w1) with (current s1) in *. rewrite <- Es in E1, E2, E3. rewrite E1, E2. split; [exact Et|]. split; [exact Ea|].
  exists base, (base_revision hex now id (pr_repository prepared) base). split_and!; [done| |done|done].
  unfold revision_for_attempt. eapply (find_unique rv_attempt_id); [exact Hu|rewrite E3, Es, Er; apply lookup_insert_eq|done].
Qed.

(** ** The request *)

Lemma existing_Some r d begun : existing_attempt r d = Ok (Some begun) ->
  bg_existing begun = true /\ exists k a, d_attempts d !! k = Some a /\ at_dispatch_key a = b_dispatch_key r /\ at_task_id a = b_task_id r /\
    bg_attempt begun = at_id a.
Proof.
  unfold existing_attempt. destruct (find_row (same_key (b_dispatch_key r)) (d_attempts d)) as [a|] eqn:Hf; [|done].
  apply find_row_Some in Hf as [Hk [k Hl]]. intros (u & Ht & [= <-])%bind_Ok. split; [done|]. exists k, a.
  unfold raise_if, same_key, str_eq in *. destruct (negb _) eqn:Hn in Ht; [done|]. boolify. done.
Qed.

(** The row of a new Attempt as the database keeps it. *)
Definition kept (a : AttemptRow) : AttemptRow := a {{ at_revision_required := Some true }}.

Lemma add_attempt_Ok r a parent now d d' : add_attempt r a parent now d = Ok d' ->
  d_attempts d !! at_id a = None /\ d_tasks d' = d_tasks d /\ d_attempts d' = <[at_id a := a]> (d_attempts d).
Proof.
  unfold add_attempt. intros (u & Hr & H)%bind_Ok. unfold raise_if in Hr. destruct (bool_decide _) eqn:Hb; [done|].
  apply bool_decide_eq_false in Hb. rewrite <- eq_None_not_Some in Hb. apply bind_Ok in H as (d1 & Hn & H).
  unfold add_node in Hn. apply bind_Ok in Hn as (u1 & _ & [= <-]). split; [exact Hb|]. by destruct parent; injection H as <-.
Qed.

Lemma insert_triple r a parent now d e :
  hoare (fun w => committed w = d /\ EXECUTOR_ID (wk_process w) = e /\ session w = open_session d /\ inactive w = false)
    (insert_attempt r a parent now)
    (fun o w => committed w = d /\
       match o with
       | None => d_attempts d !! at_id a = None /\ holding d e (d_tasks d) (<[at_id a := kept a]> (d_attempts d)) w
       | Some begun => existing_attempt r d = Ok (Some begun)
       end) anything.
Proof.
  assert (forall x, hoare (fun w => committed w = d)
    (_ ← rollback; d ← gets pending; winner ← lift (existing_attempt r d); match winner with Some begun => mret (Some begun) | None => fail x end)
    (fun o w => committed w = d /\ exists begun, o = Some begun /\ existing_attempt r d = Ok (Some begun)) anything) as Hjoin.
  { intros x w <-. unfold rollback. rewrite modify_bind, gets_bind, lift_bind.
    change (pending (w {{ session := open_session (committed w); inactive := false }})) with (committed w).
    destruct (existing_attempt r (committed w)) as [[begun|]|]; try done. by split; [|exists begun]. }
  eapply (hoare_catch _ _ _ _ (fun _ w => committed w = d)); [|intros [] k [= <-]; eapply hoare_weaken; [..|apply Hjoin]; naive_solver|done].
  intros w (Hc & He & Hs & Hi). rewrite st_bind_run. unfold pend_checked, pending. rewrite Hs. cbn [current open_session].
  destruct (add_attempt r a parent now d) as [d1|x] eqn:Ha; [|done]. apply add_attempt_Ok in Ha as (Hnew & Et & Ea).
  rewrite st_bind_run. unfold flush_work. change (inactive (w {{ session ::= fun s => {| stored := stored s; current := d1 |} }})) with (inactive w).
  rewrite Hi. match goal with |- context [flush ?h ?s] => destruct (flush h s) as [s1|x] eqn:Hf end; [|by destruct (guards _)].
  pose proof (flush_tasks _ _ _ Hf) as [E1 _]. pose proof (flush_Ok _ _ _ Hf) as (_ & _ & Es & _ & _ & E2 & _).
  split; [exact Hc|]. split; [exact Hnew|]. split; [exact Hc|exact He| | | |exact Hi].
  - change (d_tasks (current s1) = d_tasks d). rewrite <- Es, E1. exact Et.
  - change (d_attempts (current s1) = <[at_id a := kept a]> (d_attempts d)). rewrite <- Es, E2.
    change (merge mark_new (d_attempts (stored (session w))) (d_attempts d1) = <[at_id a := kept a]> (d_attempts d)). rewrite Ea, Hs. cbn [stored open_session].
    apply map_eq. intros k. rewrite (lookup_merge mark_new). destruct (decide (k = at_id a)) as [->|Hk].
    + by rewrite !lookup_insert_eq, Hnew.
    + rewrite !lookup_insert_ne by done. by destruct (d_attempts d !! k).
  - intros k. change (is_Some (d_attempts (current s1) !! k) -> is_Some (d_attempts (stored s1) !! k)). by rewrite Es.
Qed.

(** What a new Attempt leaves committed, over the rows [d] that were committed
    when its own were inserted. *)
Record started (r : BeginRequest) (prepared : Prepared) (e : string) (d : Db) (task : TaskRow) (tier : ModelTier) (reason : option string)
    (id : string) (c : Db) : Prop := {
  sd_new : d_attempts d !! id = None;
  sd_startable : exists s, TaskState_of (tk_status task) = Ok s /\ startable s = true;
  sd_attempts : exists now clock, d_attempts c = <[id := running_row e clock (kept (new_attempt r id tier reason now))]> (d_attempts d);
  sd_tasks : d_tasks c = alter set_running (tk_id task) (d_tasks d);
  sd_revision : exists base row, pr_tree prepared = Ok base /\ revision_for_attempt c id = Some row /\
    rv_base_tree_sha256 row = base /\ rv_result_tree_sha256 row = None
}.

(** From the rows of a new Attempt to its base revision. *)
Lemma start_triple r prepared task parent tier reason id now d e :
  hoare (fun w => committed w = d /\ EXECUTOR_ID (wk_process w) = e /\ session w = open_session d /\ inactive w = false)
    (raced ← insert_attempt r (new_attempt r id tier reason now) parent now;
     match raced with
     | Some begun => mret begun
     | None => _ ← dispatch task id; _ ← prepare_attempt prepared r id; mret {| bg_attempt := id; bg_existing := false |}
     end)
    (fun b w => if bg_existing b then committed w = d /\ existing_attempt r d = Ok (Some b)
                else bg_attempt b = id /\ started r prepared e d task tier reason id (committed w)) anything.
Proof.
  eapply hoare_bind; [apply insert_triple|]. intros [begun|].
  { apply hoare_ret. intros w [Hc Hb]. destruct (existing_Some _ _ _ Hb) as [-> _]. done. }
  intros w (_ & Hnew & Hw). change (at_id (new_attempt r id tier reason now)) with id in *. revert w Hw.
  eapply hoare_bind; [eapply dispatch_triple, lookup_insert_eq|]. intros u w (Hst & clock & c' & Et & Ea & Hses & Hw).
  pose proof (prepare_triple c' e prepared r id w (conj Hses Hw)) as Hp. rewrite st_bind_run.
  destruct (prepare_attempt prepared r id w) as [w1 [v|x]]; [|done]. destruct Hp as (E1 & E2 & Hrev). split; [done|].
  split; [done|done| |congruence|done]. exists now, clock. by rewrite E2, Ea, insert_insert_eq.
Qed.

Lemma recover_run w w1 u : recover_independently w = (w1, Ok u) ->
  exists now p d settled, recover_orphaned_attempts (wk_process w) now (committed w) = Ok (p, d, settled) /\
    committed w1 = d /\ EXECUTOR_ID (wk_process w1) = EXECUTOR_ID p /\ session w1 = open_session d /\ inactive w1 = inactive w.
Proof.
  unfold recover_independently, utcnow. rewrite st_bind_run, gets_bind. cbn beta iota.
  match goal with |- context [recover_orphaned_attempts ?p ?now ?d] => change p with (wk_process w); change d with (committed w); set (t := now) end.
  destruct (recover_orphaned_attempts _ t _) as [[[p d] settled]|x] eqn:Hr; [|done]. intros [= <- <-]. by exists t, p, d, settled.
Qed.

(** C5: [begin] answers one Attempt per dispatch key, and starts a new one only
    behind its gates.  The mode is known, the Task's plan is approved and no
    material decision blocks it; orphaned Attempts were settled first.  Either
    the answer is the stored Attempt that already carries the key, for the same
    Task, and nothing was written; or the checks of [begin_checks] held (no
    running Attempt of a running Task, no remote sandbox left, a parent that
    may be retried and a tier not below its), the Task was in a state an
    Attempt may start from, and what is committed is exactly that: over what
    other requests had committed by then, one new Attempt row, running and
    leased to this process, requiring a revision, the Task running, and an
    open base revision with the tree of the copied fixture. *)
Theorem begin_spec others prepared r w w' b :
  fresh w -> begin others prepared r w = (w', Ok b) ->
  str_in (b_evidence_mode r) EVIDENCE_MODES = true /\ check_plan_gate (committed w) (b_task_id r) (b_require_plan_approval r) = Ok () /\
  check_decision_gate (committed w) (b_task_id r) = Ok () /\
  exists now p d settled, recover_orphaned_attempts (wk_process w) now (committed w) = Ok (p, d, settled) /\
    if bg_existing b then
      (committed w' = d \/ committed w' = others d) /\
      exists k a, d_attempts (committed w') !! k = Some a /\ at_id a = bg_attempt b /\ at_dispatch_key a = b_dispatch_key r /\ at_task_id a = b_task_id r
    else exists task parent tier reason, existing_attempt r d = Ok None /\
      begin_checks (h_environ (wk_host w)) r d = Ok (task, parent, tier, reason) /\
      started r prepared (EXECUTOR_ID p) (others d) task tier reason (bg_attempt b) (committed w').
Proof.
  intros [Hs Hi] H. unfold begin in H. rewrite gets_bind, guard_bind in H. destruct (str_in _ _) eqn:Hmode; [|done]. cbn [negb] in H.
  rewrite gets_bind in H. assert (pending w = committed w) as Hp by (unfold pending; by rewrite Hs). rewrite Hp in H.
  rewrite lift_bind in H. destruct (check_plan_gate _ _ _) as [[]|] eqn:Hplan; [|done]. rewrite lift_bind in H.
  destruct (check_decision_gate _ _) as [[]|] eqn:Hdec; [|done]. split_and!; try done. rewrite st_bind_run in H.
  destruct (recover_independently w) as [w1 [u|x]] eqn:Hrec; [|done].
  apply recover_run in Hrec as (now & p & d & settled & Hr & Hc1 & He1 & Hs1 & Hi1). exists now, p, d, settled. split; [done|].
  rewrite gets_bind, lift_bind in H. assert (pending w1 = d) as Hp1 by (unfold pending; by rewrite Hs1). rewrite Hp1 in H.
  destruct (existing_attempt r d) as [[begun|]|] eqn:Hex; [| |done].
  { injection H as <- <-. destruct (existing_Some _ _ _ Hex) as (-> & k & a & ? & ? & ? & ?). split; [by left|]. exists k, a. by rewrite Hc1. }
  rewrite lift_bind in H. destruct (begin_checks _ r d) as [[[[task parent] tier] reason]|] eqn:Hchk; [|done].
  set (P := fun w2 => committed w2 = d /\ EXECUTOR_ID (wk_process w2) = EXECUTOR_ID p /\ session w2 = open_session d /\ inactive w2 = false).
  match type of H with ?m w1 = _ => assert (hoare P m
    (fun b w' => if bg_existing b then committed w' = others d /\ existing_attempt r (others d) = Ok (Some b)
       else started r prepared (EXECUTOR_ID p) (others d) task tier reason (bg_attempt b) (committed w')) anything) as Hrun end.
  { eapply hoare_bind with (R := fun _ => P); [by intros ? (? & ? & ? & ?)|intros hex].
    eapply hoare_bind with (R := fun _ => P); [by intros ? (? & ? & ? & ?)|intros now']. eapply hoare_bind.
    - intros w2 (Hc2 & He2 & Hs2 & Hi2). unfold interfere, modify. cbn beta iota.
      instantiate (1 := fun _ w2 => committed w2 = others d /\ EXECUTOR_ID (wk_process w2) = EXECUTOR_ID p /\ session w2 = open_session (others d) /\ inactive w2 = false).
      split; [exact (f_equal others Hc2)|]. split; [exact He2|]. split; [|exact Hi2].
      change ({| stored := others (stored (session w2)); current := others (current (session w2)) |} = open_session (others d)). by rewrite Hs2.
    - intros u2. eapply hoare_weaken; [..|apply (start_triple r prepared task parent tier reason _ _ (others d) (EXECUTOR_ID p))]; [intros w2 Hw2; exact Hw2| |done]. intros b2 w2. cbn beta.
      destruct (bg_existing b2); [done|]. by intros [<- ?]. }
  specialize (Hrun w1 (conj Hc1 (conj He1 (conj Hs1 (eq_trans Hi1 Hi))))). rewrite H in Hrun. destruct (bg_existing b).
  - destruct Hrun as [Hc2 Hb]. destruct (existing_Some _ _ _ Hb) as (_ & k & a & ? & ? & ? & ?). split; [by right|]. exists k, a. by rewrite Hc2.
  - by exists task, parent, tier, reason.
Qed.

Module BeginDemo.
Definition task : TaskRow := blank_TaskRow {{ tk_id := "T-1"; tk_status := "created"; tk_idempotency_key := "i" }}.
Definition db : Db := empty_db {{ d_tasks := {["T-1" := task]};
  d_graph_nodes := {["T-1" := mk_node "T-1" "task" "" "" "" (DateTime 0 true) None]} }}.
Definition work : Work := {|
  wk_host := {| h_environ := ∅; h_unidata_version := "15.0.0" |};
  wk_process := {| EXECUTOR_ID := "9-z"; owners := ∅; remote_effects := ∅; stop_blocked := ∅ |};
  wk_clock := fun n => DateTime (1000 + Z.of_nat n) true; wk_uuid := fun _ => "0123456789abcdef"; wk_ticks := 0;
  committed := db; session := open_session db; inactive := false
|}.
Definition request : BeginRequest := {|
  b_task_id := "T-1"; b_dispatch_key := "k1"; b_validation_target := None; b_parent_attempt_id := None; b_model_tier := None; b_cost_usd := f_zero;
  b_provider := None; b_latency_ms := None; b_input_tokens := None; b_output_tokens := None; b_escalation_reason := None; b_agent := "native";
  b_require_plan_approval := false; b_principal := None; b_evidence_mode := "synthetic"; b_trace_id := None
|}.
Definition prepared : Prepared := {| pr_workspace := Ok (); pr_tree := Ok "tree"; pr_repository := "fixture:demo" |}.
Definition other (key : string) : AttemptRow := blank_AttemptRow {{ at_id := "ATTEMPT-other"; at_task_id := "T-1"; at_dispatch_key := key;
  at_status := "running"; at_model_tier := "basic"; at_evidence_mode := "synthetic"; at_executor_id := Some "8-y"; at_revision_required := Some true }}.
(** Another process commits an Attempt of this Task in the meantime. *)
Definition meanwhile (key : string) (d : Db) : Db := d {{ d_attempts ::= insert "ATTEMPT-other" (other key);
  d_tasks ::= alter set_running "T-1" }}.
Definition run (others : Db -> Db) : Work * result BegunAttempt := begin others prepared request work.
Definition seen (o : Work * result BegunAttempt) : result (string * bool) * option string * list string :=
  ((fun b => (bg_attempt b, bg_existing b)) <$> o.2, task_status (committed o.1) "T-1", map at_status (rows (d_attempts (committed o.1)))).
End BeginDemo.

(** A key that another request inserted first is joined. *)
Example begin_joins : BeginDemo.seen (BeginDemo.run (BeginDemo.meanwhile "k1")) =
  (Ok ("ATTEMPT-other", true), Some "running", ["running"]).
Proof. vm_compute. reflexivity. Qed.

(** Two requests with different keys both get past the check for a running
    Attempt when one commits between the other's check and its INSERT. *)
Example begin_races : BeginDemo.seen (BeginDemo.run (BeginDemo.meanwhile "k2")) =
  (Ok ("ATTEMPT-0123456789ab", false), Some "running", ["running"; "running"]).
Proof. vm_compute. reflexivity. Qed.

Lemma begin_spec_witness : exists w', BeginDemo.run (fun d => d) = (w', Ok {| bg_attempt := "ATTEMPT-0123456789ab"; bg_existing := false |}) /\
  check_plan_gate BeginDemo.db "T-1" false = Ok () /\
  exists row, revision_for_attempt (committed w') "ATTEMPT-0123456789ab" = Some row /\ rv_base_tree_sha256 row = "tree".
Proof.
  assert ((BeginDemo.run (fun d => d)).2 = Ok {| bg_attempt := "ATTEMPT-0123456789ab"; bg_existing := false |}) as Hv by (vm_compute; reflexivity).
  destruct (BeginDemo.run (fun d => d)) as [w' b] eqn:Hx. cbn [snd] in Hv. subst b. exists w'. split; [reflexivity|].
  unfold BeginDemo.run in Hx. destruct (begin_spec _ _ _ BeginDemo.work w' _ (conj eq_refl eq_refl) Hx)
    as (_ & Hplan & _ & now & p & d & settled & _ & task & parent & tier & reason & _ & _ & [_ _ _ _ Hrev]).
  destruct Hrev as (base & row & [= <-] & Hrow & Hbase & _). split; [exact Hplan|]. exists row. split; [exact Hrow|exact Hbase].
Defined.
