(* ===== verification/Finish.v ===== *)
(** * Finish: recording what an Attempt produced and the verdict

    Models [ExecutionService.finish] of [src/sdf_core/execution.py]: the
    revision is closed, the artifacts and the Evidence become rows, and the
    Attempt and its Task are settled by compare-and-swap in one transaction.
    What the disk answers and what the adapter reported are arguments. *)

From S2P Require Import Prelude StateError Floats Json Db EvidenceMac Flush Samples FlushFacts Store Lifecycle RemoteEffects Recovery.
From S2P Require Import Escalation DecisionGate Checks Oracle Acceptance Evaluate Verdict Revisions UnitOfWork Execution.

(** [AdapterResult] *)
Record AdapterResult : Type := {
  ad_status : string; ad_changed_files : list string; ad_stdout : string; ad_stderr : string; ad_exit_code : Z;
  ad_result_tree_sha256 : option string; ad_base_commit : option string; ad_base_commit_source : option string
}.

(** [Artifact] of [artifacts.py]. *)
Record Artifact : Type := { artifact_id : string; af_kind : string; af_path : string; af_sha256 : string; af_size_bytes : Z }.

(** [revision_id] and [tree_sha256]. *)
Record Binding : Type := { bn_revision_id : string; bn_tree_sha256 : option string }.
Definition binding_json (b : Binding) : list (string * json) :=
  [("revision_id", JStr (bn_revision_id b)); ("tree_sha256", json_str (bn_tree_sha256 b))].

Definition adapter_succeeded (result : AdapterResult) : bool :=
  str_in (str_lower (ad_status result)) ["completed"; "succeeded"; "success"] && (ad_exit_code result =? 0).

(** ** Rows *)

Definition artifact_row (attempt_id : string) (b : Binding) (now : datetime) (a : Artifact) : ArtifactRow := {|
  ar_id := artifact_id a; ar_attempt_id := attempt_id; ar_kind := af_kind a; ar_uri := af_path a; ar_sha256 := af_sha256 a;
  ar_size_bytes := af_size_bytes a; ar_created_at := now; ar_revision_id := Some (bn_revision_id b); ar_tree_sha256 := bn_tree_sha256 b
|}.

Definition graph_node (id kind title source owner : string) (confidence : float) (now : datetime) (meta : list (string * json)) : GraphNodeRow :=
  {| gn_id := id; gn_kind := kind; gn_title := title; gn_source := source; gn_owner := owner; gn_confidence := confidence;
     gn_created_at := now; gn_metadata_json := Some (JObj meta) |}.

(** [db.add] of a row; a second row of one key cannot be inserted. *)
Definition add_artifact (r : ArtifactRow) (d : Db) : result Db :=
  _ ← raise_if (bool_decide (is_Some (d_artifacts d !! ar_id r))) (IntegrityError "artifacts.id");
  Ok (d {{ d_artifacts ::= insert (ar_id r) r }}).
Definition add_evidence (r : EvidenceRow) (d : Db) : result Db :=
  _ ← raise_if (bool_decide (is_Some (d_evidence d !! ev_id r))) (IntegrityError "evidence.id");
  Ok (d {{ d_evidence ::= insert (ev_id r) r }}).

(** An edge with its owner, confidence and evidence. *)
Definition edge_row (src dst : string * string) (relation source owner : string) (confidence : float) (now : datetime) (ref : string) (d : Db) : Db :=
  let id := next_id (d_decision_edges d) in
  let edge := (mk_edge id src dst relation source now) {{ de_owner := owner; de_confidence := confidence; de_evidence_ref := Some ref }} in
  d {{ d_decision_edges ::= insert id edge }}.

Definition execution_evidence_id (attempt_id : string) : string :=
  let candidate := "EVIDENCE-" +:+ attempt_id +:+ "-EXEC" in
  if str_len candidate <=? 120 then candidate else "EVIDENCE-EXEC-" +:+ sha256_text attempt_id.

(** [json.dumps(j, sort_keys=True, ensure_ascii=True)]: the separators are
    [", "] and [": "]. *)
Fixpoint dumps_spaced (j : json) : string :=
  match j with
  | JArr l => "[" +:+ str_join ", " (map dumps_spaced l) +:+ "]"
  | JObj kvs =>
      "{" +:+ str_join ", " (map snd (sort_by key_le (map (fun kv =>
          (kv.1, quote true kv.1 +:+ ": " +:+ dumps_spaced kv.2)) kvs))) +:+ "}"
  | j => dumps true j
  end.

Definition execution_summary (result : AdapterResult) (diff process : Artifact) : string :=
  dumps_spaced (JObj [("reason", JStr "execution"); ("adapter_status", JStr (ad_status result)); ("exit_code", JInt (ad_exit_code result));
    ("changed_files", JArr (map (fun name => JStr (str_take 200 name)) (take 40 (ad_changed_files result))));
    ("diff_sha256", JStr (af_sha256 diff)); ("process_log_sha256", JStr (af_sha256 process))]).

Example dumps_spaced_demo : dumps_spaced (JObj [("b", JArr [JInt 1; JInt 2]); ("a", JNull)]) =
  "{" +:+ char_str dquote +:+ "a" +:+ char_str dquote +:+ ": null, " +:+ char_str dquote +:+ "b" +:+ char_str dquote +:+ ": [1, 2]}".
Proof. reflexivity. Qed.

Definition EVIDENCE_CLASS_EXECUTION : string := "execution".
Definition AGENT_ROLE : string := "agent".

(** The columns both kinds of Evidence have: the mode is the column's default
    when the caller gives none (or the empty string). *)
Definition mode_or_default (evidence_mode : option string) : string :=
  if opt_truthy evidence_mode then or_empty evidence_mode else "synthetic".

Definition execution_row (attempt : AttemptRow) (diff process : Artifact) (result : AdapterResult) (b : Binding)
    (evidence_mode : option string) (now : datetime) : EvidenceRow := {|
  ev_id := execution_evidence_id (at_id attempt); ev_attempt_id := Some (at_id attempt); ev_kind := "execution";
  ev_status := if adapter_succeeded result then "PASS" else "FAIL"; ev_command := execution_summary result diff process;
  ev_exit_code := Some (ad_exit_code result); ev_artifact_ref := Some (artifact_id process); ev_confidence := f_of_Z 1;
  ev_criterion := None; ev_measured_at := Some now; ev_evidence_mode := mode_or_default evidence_mode; ev_created_at := now;
  ev_revision_id := Some (bn_revision_id b); ev_tree_sha256 := bn_tree_sha256 b; ev_evidence_class := Some EVIDENCE_CLASS_EXECUTION;
  ev_producer_identity := Some (at_agent attempt); ev_producer_role := Some AGENT_ROLE; ev_verifier_identity := None;
  ev_verifier_role := None; ev_subject_artifact_sha256 := Some (af_sha256 diff); ev_oracle_digest := None;
  ev_environment_digest := None; ev_collected_at := Some now; ev_expires_at := None; ev_oracle_visibility := None;
  ev_input_seed := None; ev_objective_id := None; ev_content_mac := None; ev_content_mac_version := None
|}.

Definition execution_node (attempt : AttemptRow) (diff : Artifact) (result : AdapterResult) (b : Binding) (now : datetime) : GraphNodeRow :=
  graph_node (execution_evidence_id (at_id attempt)) "evidence" (if adapter_succeeded result then "PASS" else "FAIL")
    (str_take 500 ("execution:" +:+ at_id attempt)) (str_take 120 (if str_truthy (at_agent attempt) then at_agent attempt else "agent"))
    (f_of_Z 1) now
    ([("evidence_class", JStr EVIDENCE_CLASS_EXECUTION); ("producer_identity", JStr (at_agent attempt)); ("producer_role", JStr AGENT_ROLE);
      ("subject_artifact_sha256", JStr (af_sha256 diff)); ("exit_code", JInt (ad_exit_code result))] ++ binding_json b).

(** The row of one item of Evidence of the evaluator. *)
Definition evidence_row (attempt_id : string) (b : Binding) (evidence_mode : option string) (output : Artifact)
    (measured_at created_at : datetime) (e : Evidence) : EvidenceRow :=
  (as_row e) {{ ev_attempt_id := Some attempt_id; ev_artifact_ref := Some (artifact_id output); ev_measured_at := Some measured_at;
    ev_created_at := created_at; ev_evidence_mode := mode_or_default evidence_mode; ev_revision_id := Some (bn_revision_id b);
    ev_tree_sha256 := bn_tree_sha256 b }}.

Definition output_node (b : Binding) (output : Artifact) (e : Evidence) (now : datetime) : GraphNodeRow :=
  graph_node (artifact_id output) "artifact" (af_kind output) (af_path output) "evaluator" (e_confidence e) now
    ([("evidence_id", JStr (evidence_id e)); ("criterion", json_str (e_criterion e)); ("runner", json_str (e_runner e));
      ("cleanup_error", json_str (e_cleanup_error e))] ++ binding_json b).

Definition evidence_node (b : Binding) (output : Artifact) (result_tree : option string) (e : Evidence) (now : datetime) : GraphNodeRow :=
  graph_node (evidence_id e) "evidence" (e_status e) (e_command e) "evaluator" (e_confidence e) now
    ([("criterion", json_str (e_criterion e)); ("artifact_ref", JStr (artifact_id output))] ++ binding_json b ++
     [("tree_drift", JBool (drifted e result_tree)); ("evidence_class", json_str (e_evidence_class e));
      ("verifier_identity", json_str (e_verifier_identity e)); ("verifier_role", json_str (e_verifier_role e));
      ("subject_artifact_sha256", json_str (e_subject_artifact_sha256 e)); ("oracle_digest", json_str (e_oracle_digest e));
      ("oracle_visibility", json_str (e_oracle_visibility e)); ("input_seed", json_str (e_input_seed e))]).

(** The relation of an item to the validated business node. *)
Definition validation_relation (e : Evidence) (status : string) (requires_hidden : bool) : string :=
  if str_eq (e_status e) "FAIL" then "contradicts"
  else if str_eq (e_status e) "PASS" && str_eq status "PASS" && (negb requires_hidden || is_hidden_oracle (as_row e)) then "validates"
  else "measures".

(** ** finish *)

(** What the disk, the evaluator's machine and other sessions answer during
    [finish]: the trees, the stored artifacts, and what other requests commit
    to Tasks and Attempts before the Attempt is settled. *)
Record FinishEnv : Type := {
  fe_fixture_tree : result string; fe_workspace_tree : result string;
  fe_diff : result Artifact; fe_process : result Artifact; fe_output : Evidence -> result Artifact;
  fe_fence : result unit; fe_final_tree : string; fe_clock : nat -> datetime; fe_hidden_at : datetime;
  fe_tasks : gmap string TaskRow -> gmap string TaskRow; fe_attempts : gmap string AttemptRow -> gmap string AttemptRow
}.

Record FinishRequest : Type := {
  f_attempt_id : string; f_result : AdapterResult; f_commands : list (list string);
  f_criterion_checks : option (list (string * list (list string))); f_policies : gmap (string * Z) OraclePolicy;
  f_validation_target : option (string * string); f_evidence_mode : option string
}.

Definition others (fe : FinishEnv) (d : Db) : Db := d {{ d_tasks ::= fe_tasks fe; d_attempts ::= fe_attempts fe }}.

(** The row of an artifact and its node. *)
Definition record_artifact (attempt_id : string) (b : Binding) (node : datetime -> GraphNodeRow) (a : Artifact) : ST Work unit :=
  now ← utcnow;
  _ ← pend_checked (add_artifact (artifact_row attempt_id b now a));
  now ← utcnow;
  pend_checked (add_node (node now)).

Definition record_edge (src dst : string * string) (relation source owner : string) (confidence : float) (ref : string) : ST Work unit :=
  now ← utcnow; pend (edge_row src dst relation source owner confidence now ref).

(** [_record_execution_evidence] *)
Definition record_execution_evidence (attempt : AttemptRow) (diff process : Artifact) (result : AdapterResult) (b : Binding)
    (evidence_mode : option string) : ST Work unit :=
  now ← utcnow;
  _ ← pend_checked (add_evidence (execution_row attempt diff process result b evidence_mode now));
  _ ← pend_checked (add_node (execution_node attempt diff result b now));
  _ ← flush_work;
  pend (edge_row ("evidence", execution_evidence_id (at_id attempt)) ("attempt", at_id attempt) "measures" "execution" "sdf" (f_of_Z 1) now
          (artifact_id process)).

(** The loop body over the rows of the evaluation. *)
Definition record_item (fe : FinishEnv) (rq : FinishRequest) (task_id : string) (b : Binding) (status : string)
    (requires_hidden : bool) (e : Evidence) : ST Work unit :=
  let attempt_id := f_attempt_id rq in
  output ← on_error (lift (fe_output fe e)) (fail_attempt task_id attempt_id);
  _ ← record_artifact attempt_id b (output_node b output e) output;
  _ ← flush_work;
  _ ← record_edge ("artifact", artifact_id output) ("attempt", attempt_id) "measures" "evaluator" "evaluator" (e_confidence e) (artifact_id output);
  measured_at ← utcnow;
  created_at ← utcnow;
  _ ← pend_checked (add_evidence (evidence_row attempt_id b (f_evidence_mode rq) output measured_at created_at e));
  now ← utcnow;
  _ ← pend_checked (add_node (evidence_node b output (bn_tree_sha256 b) e now));
  _ ← flush_work;
  _ ← record_edge ("evidence", evidence_id e) ("attempt", attempt_id) "measures" "evaluator" "evaluator" (e_confidence e) (artifact_id output);
  match f_validation_target rq with
  | Some target => when (bool_decide (is_Some (e_criterion e)))
      (record_edge ("evidence", evidence_id e) target (validation_relation e status requires_hidden) "evaluator" "evaluator"
         (e_confidence e) (artifact_id output))
  | None => mret ()
  end.

(** The result snapshot is fixed before anything refers to it; a failure
    rolls back and fails the Attempt. *)
Definition close_attempt (fe : FinishEnv) (rq : FinishRequest) (task_id : string) : ST Work AttemptRevisionRow :=
  let result := f_result rq in
  now ← utcnow;
  w ← gets (fun w => w);
  on_error
    (match close_revision (wk_host w) now (session w) (f_attempt_id rq) (fe_fixture_tree fe) (fe_workspace_tree fe)
             (ad_result_tree_sha256 result) (ad_base_commit result) (ad_base_commit_source result) with
     | Ok (s, revision) => _ ← modify (fun w => w {{ session := s }}); mret revision
     | Err e => fail e
     end)
    (_ ← rollback; fail_attempt task_id (f_attempt_id rq)).

(** The artifacts of a run: their rows and nodes, then their edges. *)
Definition record_run (attempt_id : string) (b : Binding) (artifacts : list Artifact) : ST Work unit :=
  _ ← for_each (fun a => record_artifact attempt_id b
        (fun now => graph_node (artifact_id a) "artifact" (af_kind a) (af_path a) "execution" (f_of_Z 1) now (binding_json b)) a) artifacts;
  _ ← flush_work;
  _ ← for_each (fun a => record_edge ("artifact", artifact_id a) ("attempt", attempt_id) "measures" "execution" "sdf" (f_of_Z 1) (artifact_id a))
        artifacts;
  mret ().

(** The first part of [finish]: the revision, the artifacts and the Evidence
    that the Attempt ran. *)
Definition capture (fe : FinishEnv) (rq : FinishRequest) (attempt : AttemptRow) : ST Work (Binding * Artifact) :=
  let attempt_id := f_attempt_id rq in
  let task_id := at_task_id attempt in
  revision ← close_attempt fe rq task_id;
  let b := {| bn_revision_id := rv_id revision; bn_tree_sha256 := rv_result_tree_sha256 revision |} in
  '(diff, process) ← on_error (lift (diff ← fe_diff fe; process ← fe_process fe; Ok (diff, process))) (fail_attempt task_id attempt_id);
  _ ← record_run attempt_id b [diff; process];
  _ ← on_error (record_execution_evidence attempt diff process (f_result rq) b (f_evidence_mode rq)) (fail_attempt task_id attempt_id);
  mret (b, diff).

(** [settle_owned_attempt] in [finish]: a lost fence rolls back. *)
Definition settle_or_rollback (attempt_id target : string) : ST Work unit :=
  catch (settle_attempt attempt_id target) (fun e => if is_fence_error e then Some (_ ← rollback; fail e) else None).

Definition request_of (rq : FinishRequest) (task : option TaskRow) (diff : Artifact) : Request := {|
  r_attempt_id := f_attempt_id rq; r_commands := Some (f_commands rq);
  r_criteria := Some (default [] (tk_acceptance_criteria <$> task)); r_criterion_checks := f_criterion_checks rq;
  r_subject := Some (af_sha256 diff); r_policies := f_policies rq
|}.

Section finish.
Context (format_g : float -> string) (ev : Evaluator) (mach : Z -> Machine) (tree : Z -> string).

(** The second part: the Evaluator decides. *)
Definition judge (fe : FinishEnv) (rq : FinishRequest) (attempt : AttemptRow) (b : Binding) (diff : Artifact) : ST Work unit :=
  let attempt_id := f_attempt_id rq in
  let task_id := at_task_id attempt in
  let result_tree := bn_tree_sha256 b in
  task ← gets (fun w => d_tasks (pending w) !! task_id);
  let request := request_of rq task diff in
  evaluation ← on_error (_ ← lift (fe_fence fe); lift (evaluate format_g ev mach (fun n e => drift_checked e (tree n) result_tree) request))
                        (fail_attempt task_id attempt_id);
  evaluation ← lift (enforce_acceptance (fe_clock fe) (fe_hidden_at fe) (check_final_tree evaluation (fe_final_tree fe) result_tree)
                       (at_agent attempt) (af_sha256 diff) (requires_hidden (f_policies rq)));
  _ ← for_each (record_item fe rq task_id b (er_status evaluation) (requires_hidden (f_policies rq))) (er_evidence evaluation);
  state ← lift (task_state (er_status evaluation));
  moved ← cas_task task_id TEVALUATING state;
  _ ← guard (negb moved) (ValueError ("task " +:+ task_id +:+ " is not evaluating"));
  commit.

(** A Task row of the Attempt is there: [attempts.task_id] is a foreign key. *)
Definition finish (fe : FinishEnv) (rq : FinishRequest) : ST Work string :=
  let attempt_id := f_attempt_id rq in
  d ← gets pending;
  p ← gets wk_process;
  _ ← lift (require_some (d_attempts d !! attempt_id) (ValueError ("attempt not found: " +:+ attempt_id)));
  attempt ← lift (require_owned_running p attempt_id d);
  _ ← lift (check_decision_gate d (at_task_id attempt));
  let task_id := at_task_id attempt in
  let succeeded := adapter_succeeded (f_result rq) in
  '(b, diff) ← capture fe rq attempt;
  _ ← interfere (others fe);
  _ ← settle_or_rollback attempt_id (AttemptState_value (if succeeded then ACOMPLETED else AFAILED));
  moved ← cas_task task_id TRUNNING TEVALUATING;
  _ ← guard (negb moved) (ValueError ("task " +:+ task_id +:+ " is not running"));
  _ ← (if succeeded then judge fe rq attempt b diff else (_ ← cas_task task_id TEVALUATING TFAILED; commit));
  mret attempt_id.
End finish.
