(* ===== verification/FinishFacts.v ===== *)
(** * FinishFacts: how an Attempt is settled

    Every way out of [finish]: the rows a normal return commits, and the most
    an exception can leave behind. *)

From S2P Require Import Prelude StateError Floats Json Db EvidenceMac Flush Samples FlushFacts Store Lifecycle RemoteEffects Recovery.
From S2P Require Import Escalation DecisionGate Checks Oracle Acceptance Evaluate Verdict Revisions UnitOfWork Execution Finish.

Definition with_task_status (status : string) (row : TaskRow) : TaskRow := row {{ tk_status := status }}.
Definition with_attempt_status (status : string) (a : AttemptRow) : AttemptRow := a {{ at_status := status }}.

(** The row of a Task in one state, and the Task table after it moved. *)
Definition moved_task (task_id : string) (from to : TaskState) (tasks tasks' : gmap string TaskRow) : Prop :=
  exists row, tasks !! task_id = Some row /\ tk_status row = TaskState_value from /\
    tasks' = <[task_id := with_task_status (TaskState_value to) row]> tasks.

(** The Attempt this process runs. *)
Definition runs (p : Process) (a : AttemptRow) : Prop := at_status a = "running" /\ at_executor_id a = Some (EXECUTOR_ID p).

Lemma runs_iff p a : has_status ARUNNING a && owned_by (EXECUTOR_ID p) a = true <-> runs p a.
Proof. unfold has_status, owned_by, runs, opt_str_eq, str_eq. by rewrite andb_true_iff, !bool_decide_eq_true. Qed.

Definition settled_attempt (p : Process) (attempt_id target : string) (attempts attempts' : gmap string AttemptRow) : Prop :=
  exists a, attempts !! attempt_id = Some a /\ runs p a /\ attempts' = <[attempt_id := with_attempt_status target a]> attempts.

Section statements.
Context (c : Db) (p : Process) (tasks : gmap string TaskRow) (attempts : gmap string AttemptRow).
Let S1 : Work -> Prop := steady c p tasks attempts.
Let SL : Work -> Prop := steady_or_lost c p tasks attempts.

(** The compare-and-swap takes effect exactly on a Task in the [from] state. *)
Lemma cas_task_triple task_id from to : transition_task from to = Ok to ->
  hoare SL (cas_task task_id from to)
    (fun b w => if b then exists tasks', moved_task task_id from to tasks tasks' /\ steady c p tasks' attempts w
                else (forall row, tasks !! task_id = Some row -> tk_status row <> TaskState_value from) /\ S1 w)
    (fun _ => SL).
Proof.
  intros Ht. unfold cas_task. apply steady_execute. intros w d Hw Hd. unfold compare_and_swap_task. rewrite Ht. cbn [mbind result_bind].
  destruct Hw as [Hc Hp [Ht1 Ht2] [Ha1 Ha2] Hi]. rewrite Hd in Ht1, Ha1.
  destruct (d_tasks d !! task_id) as [row|] eqn:Hrow; [unfold str_eq; case_bool_decide as Hs|].
  - exists (<[task_id := with_task_status (TaskState_value to) row]> tasks). rewrite <- Ht1 in *. split; [by exists row|].
    rewrite <- Ha1. exact (steady_open _ _ w (d {{ d_tasks ::= insert task_id (row {{ tk_status := TaskState_value to }}) }}) Hc Hp Hi).
  - split; [intros r; rewrite <- Ht1, Hrow; by intros [= <-]|]. unfold S1. rewrite <- Ht1, <- Ha1. by apply steady_open.
  - split; [intros r; rewrite <- Ht1, Hrow; done|]. unfold S1. rewrite <- Ht1, <- Ha1. by apply steady_open.
Qed.

(** Settling writes the row this process runs, and raises otherwise. *)
Lemma settle_triple attempt_id target :
  hoare SL (settle_attempt attempt_id target)
    (fun _ w => exists attempts', settled_attempt p attempt_id target attempts attempts' /\ steady c p tasks attempts' w)
    (fun _ => SL).
Proof.
  intros w Hw. unfold settle_attempt. rewrite gets_bind.
  assert (wk_process w = p) as -> by (destruct Hw as [[]|(? & ? & _)]; done). revert w Hw.
  eapply hoare_bind; [|intros b; apply hoare_ret; intros w Hw; exact Hw]. apply steady_execute. intros w d Hw Hd.
  destruct Hw as [Hc Hp [Ht1 Ht2] [Ha1 Ha2] Hi]. rewrite Hd in Ht1, Ha1. unfold settle_owned_attempt, update_attempt.
  destruct (d_attempts d !! attempt_id) as [a|] eqn:Ha; [|done]. destruct (has_status ARUNNING a && _) eqn:Hr; [|done].
  apply runs_iff in Hr. exists (<[attempt_id := with_attempt_status target a]> attempts). rewrite <- Ha1 in *. split; [by exists a|].
  rewrite <- Ht1. exact (steady_open _ _ w (d {{ d_attempts ::= insert attempt_id (a {{ at_status := target }}) }}) Hc Hp Hi).
Qed.
End statements.

(** ** Failing an Attempt *)

(** What a failure may have written: the Task was moved to [evaluating] or
    [failed], the Attempt this process ran to [completed] or [failed]. *)
Record tame (p : Process) (task_id attempt_id : string) (tasks0 tasks : gmap string TaskRow) (attempts0 attempts : gmap string AttemptRow) : Prop := {
  tame_tasks : tasks = tasks0 \/ exists row s, tasks0 !! task_id = Some row /\ s ∈ ["evaluating"; "failed"] /\
    tasks = <[task_id := with_task_status s row]> tasks0;
  tame_attempts : attempts = attempts0 \/ exists a s, attempts0 !! attempt_id = Some a /\ runs p a /\ s ∈ ["completed"; "failed"] /\
    attempts = <[attempt_id := with_attempt_status s a]> attempts0
}.

Lemma tame_refl p task_id attempt_id tasks attempts : tame p task_id attempt_id tasks tasks attempts attempts.
Proof. split; by left. Qed.

Lemma tame_moved p task_id attempt_id tasks0 tasks tasks' attempts0 attempts from to :
  tame p task_id attempt_id tasks0 tasks attempts0 attempts -> moved_task task_id from to tasks tasks' ->
  TaskState_value to ∈ ["evaluating"; "failed"] -> tame p task_id attempt_id tasks0 tasks' attempts0 attempts.
Proof.
  intros [Ht Ha] (row & Hrow & _ & ->) Hto. split; [|done]. right. destruct Ht as [->|(r0 & s & H0 & _ & ->)].
  - by exists row, (TaskState_value to).
  - rewrite lookup_insert_eq in Hrow. injection Hrow as <-. exists r0, (TaskState_value to). by rewrite insert_insert_eq.
Qed.

Lemma tame_settled p task_id attempt_id tasks0 tasks attempts0 attempts attempts' target :
  tame p task_id attempt_id tasks0 tasks attempts0 attempts -> settled_attempt p attempt_id target attempts attempts' ->
  target ∈ ["completed"; "failed"] -> tame p task_id attempt_id tasks0 tasks attempts0 attempts'.
Proof.
  intros [Ht Ha] (a & Hrow & Hr & ->) Hto. split; [done|]. right. destruct Ha as [->|(a0 & s & H0 & Hr0 & Hs & ->)].
  - by exists a, target.
  - rewrite lookup_insert_eq in Hrow. injection Hrow as <-. destruct Hr as [Hr _]. change (s = "running") in Hr. subst s. exfalso. revert Hs. clear. set_solver.
Qed.

(** Within those bounds of one of the databases [bases]. *)
Definition near (p : Process) (task_id attempt_id : string) (bases : Db -> Prop) (tasks : gmap string TaskRow) (attempts : gmap string AttemptRow) : Prop :=
  exists d, bases d /\ tame p task_id attempt_id (d_tasks d) tasks (d_attempts d) attempts.

Lemma near_base p task_id attempt_id (bases : Db -> Prop) d : bases d -> near p task_id attempt_id bases (d_tasks d) (d_attempts d).
Proof. exists d. split; [done|apply tame_refl]. Qed.

(** The transaction, lost or not, and the committed rows are within them. *)
Definition bounded (p : Process) (task_id attempt_id : string) (bases : Db -> Prop) (w : Work) : Prop :=
  exists c tasks attempts, steady_or_lost c p tasks attempts w /\
    near p task_id attempt_id bases tasks attempts /\ near p task_id attempt_id bases (d_tasks c) (d_attempts c).

Section failing.
Context (p : Process) (task_id attempt_id : string) (bases : Db -> Prop).
Let N : gmap string TaskRow -> gmap string AttemptRow -> Prop := near p task_id attempt_id bases.
Let B : Work -> Prop := bounded p task_id attempt_id bases.

(** A step with a triple over every transaction within the bounds. *)
Lemma bounded_step {A} (m : ST Work A) (Q : A -> Work -> Prop) :
  (forall c tasks attempts, N tasks attempts -> N (d_tasks c) (d_attempts c) ->
     hoare (steady_or_lost c p tasks attempts) m Q (fun _ => steady_or_lost c p tasks attempts)) ->
  hoare B m Q (fun _ => B).
Proof.
  intros H w (c & tasks & attempts & Hw & Ht & Hc). specialize (H c tasks attempts Ht Hc w Hw).
  destruct (m w) as [w' [a|e]]; [done|]. by exists c, tasks, attempts.
Qed.

Lemma bounded_flush : hoare B flush_work (fun _ => B) (fun _ => B).
Proof.
  apply bounded_step. intros c tasks attempts Ht Hc. eapply hoare_weaken; [..|apply (steady_flush c p tasks attempts)]; cbn; try done.
  intros [] w Hw. exists c, tasks, attempts. split_and!; [by left|done|done].
Qed.

Lemma bounded_commit : hoare B commit (fun _ => B) (fun _ => B).
Proof.
  apply bounded_step. intros c tasks attempts Ht Hc. eapply hoare_weaken; [..|apply (steady_commit c p tasks attempts)]; cbn; try done.
  intros [] w (c' & E1 & E2 & Hw). exists c', tasks, attempts. rewrite E1, E2. split_and!; [by left|done|done].
Qed.

Lemma bounded_rollback : hoare B rollback (fun _ => B) (fun _ => B).
Proof.
  apply bounded_step. intros c tasks attempts Ht Hc. eapply hoare_weaken; [..|apply (steady_rollback c p tasks attempts)]; cbn; try done.
  intros [] w Hw. exists c, (d_tasks c), (d_attempts c). split_and!; [by left|done|done].
Qed.

Lemma bounded_cas from to : transition_task from to = Ok to -> TaskState_value to ∈ ["evaluating"; "failed"] ->
  hoare B (cas_task task_id from to) (fun _ => B) (fun _ => B).
Proof.
  intros Hft Hto. apply bounded_step. intros c tasks attempts Ht Hc. eapply hoare_weaken; [..|apply (cas_task_triple c p tasks attempts _ _ _ Hft)]; cbn; try done.
  intros [] w H.
  - destruct H as (tasks' & Hm & Hw), Ht as (d & Hd & Ht). exists c, tasks', attempts. split_and!; [by left| |done]. exists d. split; [done|by eapply tame_moved].
  - destruct H as [_ Hw]. exists c, tasks, attempts. split_and!; [by left|done|done].
Qed.

Lemma bounded_settle target : target ∈ ["completed"; "failed"] -> hoare B (settle_attempt attempt_id target) (fun _ => B) (fun _ => B).
Proof.
  intros Hto. apply bounded_step. intros c tasks attempts Ht Hc. eapply hoare_weaken; [..|apply (settle_triple c p tasks attempts)]; cbn; try done.
  intros [] w (attempts' & Hs & Hw). destruct Ht as (d & Hd & Ht). exists c, tasks, attempts'. split_and!; [by left| |done]. exists d. split; [done|by eapply tame_settled].
Qed.

Lemma bounded_fail_task : hoare B (fail_task_if_exclusive task_id attempt_id) (fun _ => B) (fun _ => B).
Proof.
  eapply hoare_bind; [apply bounded_flush|intros []]. apply hoare_gets_skip. intros other.
  destruct other; [apply hoare_ret; done|]. eapply hoare_bind; [apply bounded_cas; [done|set_solver]|intros moved].
  apply hoare_gets_skip. intros evaluating. apply hoare_when; [intros _|done].
  eapply hoare_bind; [apply bounded_cas; [done|set_solver]|intros b]. by apply hoare_ret.
Qed.

(** [_fail_attempt] never leaves the bounds. *)
Lemma bounded_fail_attempt : hoare B (fail_attempt task_id attempt_id) (fun _ => B) (fun _ => B).
Proof.
  apply hoare_gets_skip. intros prior.
  apply hoare_gets_skip. intros q.
  eapply hoare_bind.
  { eapply (hoare_catch _ _ _ (fun _ => B) (fun _ => B)).
    - eapply hoare_bind; [apply bounded_settle; set_solver|intros b]. by apply hoare_ret.
    - intros e k. destruct (is_fence_error e); [|done]. intros [= <-]. by apply hoare_ret.
    - done. }
  intros settled. cbn beta. destruct settled; [|apply hoare_when; [intros _|done]].
  - eapply hoare_bind; [apply bounded_fail_task|intros b]. apply bounded_commit.
  - eapply hoare_bind; [apply bounded_fail_task|intros b]. apply bounded_commit.
Qed.
End failing.

(** ** What [finish] adds leaves Tasks and Attempts alone *)

Lemma add_node_same n d d' : add_node n d = Ok d' -> d_tasks d' = d_tasks d /\ d_attempts d' = d_attempts d.
Proof. unfold add_node. by intros (u & _ & [= <-])%bind_Ok. Qed.
Lemma add_artifact_same r d d' : add_artifact r d = Ok d' -> d_tasks d' = d_tasks d /\ d_attempts d' = d_attempts d.
Proof. unfold add_artifact. by intros (u & _ & [= <-])%bind_Ok. Qed.
Lemma add_evidence_same r d d' : add_evidence r d = Ok d' -> d_tasks d' = d_tasks d /\ d_attempts d' = d_attempts d.
Proof. unfold add_evidence. by intros (u & _ & [= <-])%bind_Ok. Qed.

Lemma hoare_on_error {A} P (m : ST Work A) cleanup (Q : A -> Work -> Prop) (E1 E : exn -> Work -> Prop) (E' : Work -> Prop) :
  hoare P m Q E1 -> (forall e w, E1 e w -> E' w) -> hoare E' cleanup (fun _ w => forall e, E e w) E -> hoare P (on_error m cleanup) Q E.
Proof.
  intros Hm HE Hc. eapply hoare_catch; [exact Hm| |done]. intros e k [= <-]. eapply hoare_bind.
  - eapply hoare_pre; [apply HE|exact Hc].
  - intros []. apply hoare_fail. eauto.
Qed.

Section recording.
Context (c : Db) (p : Process) (tasks : gmap string TaskRow) (attempts : gmap string AttemptRow).
Let S1 : Work -> Prop := steady c p tasks attempts.
Let E : exn -> Work -> Prop := fun _ => steady_or_lost c p tasks attempts.

Lemma record_artifact_triple attempt_id b node a : hoare S1 (record_artifact attempt_id b node a) (fun _ => S1) E.
Proof.
  unfold record_artifact. eapply hoare_bind; [apply steady_utcnow|intros now]. eapply hoare_bind; [apply steady_pend_checked|intros []].
  { intros d d'. apply add_artifact_same. }
  eapply hoare_bind; [apply steady_utcnow|intros now']. apply steady_pend_checked. intros d d'. apply add_node_same.
Qed.

Lemma record_edge_triple src dst relation source owner confidence ref :
  hoare S1 (record_edge src dst relation source owner confidence ref) (fun _ => S1) E.
Proof. unfold record_edge. eapply hoare_bind; [apply steady_utcnow|intros now]. by apply steady_pend. Qed.

Lemma flush_triple : hoare S1 flush_work (fun _ => S1) E.
Proof. eapply hoare_pre; [|apply steady_flush]. intros w Hw. by left. Qed.

Lemma record_execution_triple attempt diff process result b mode :
  hoare S1 (record_execution_evidence attempt diff process result b mode) (fun _ => S1) E.
Proof.
  unfold record_execution_evidence. eapply hoare_bind; [apply steady_utcnow|intros now].
  eapply hoare_bind; [apply steady_pend_checked; intros d d'; apply add_evidence_same|intros []].
  eapply hoare_bind; [apply steady_pend_checked; intros d d'; apply add_node_same|intros []].
  eapply hoare_bind; [apply flush_triple|intros []]. by apply steady_pend.
Qed.
End recording.

(** A session in use whose pending changes insert no Attempt: [begin] has
    committed every Attempt, and what is pending about one afterwards is what it
    used. *)
Record usable (w : Work) : Prop := { us_active : inactive w = false; us_known : none_new d_attempts (session w) }.

Lemma fresh_usable w : fresh w -> usable w.
Proof. intros [Hs Hi]. split; [done|]. rewrite Hs. by intros k. Qed.

(** Assigning columns of an Attempt keeps it so. *)
Lemma usable_set_attempt f attempt_id w : usable w -> usable (pend (set_attempt f attempt_id) w).1.
Proof.
  intros [Hi Hn]. split; [exact Hi|]. intros k Hk. change (is_Some (alter f attempt_id (d_attempts (pending w)) !! k)) in Hk.
  apply (Hn k). by apply lookup_alter_is_Some in Hk.
Qed.

Lemma close_revision_same h now s s' attempt_id fixture workspace reported base source r tasks attempts :
  close_revision h now s attempt_id fixture workspace reported base source = Ok (s', r) -> none_new d_attempts s ->
  d_tasks (current s) = tasks -> d_attempts (current s) = attempts ->
  ((d_tasks (stored s') = tasks /\ d_tasks (current s') = tasks) /\ (d_attempts (stored s') = attempts /\ d_attempts (current s') = attempts)) /\
  exists tree, workspace = Ok tree /\ rv_result_tree_sha256 r = Some tree.
Proof.
  intros H Hn <- <-. unfold close_revision in H. apply bind_Ok in H as (r0 & _ & H). apply bind_Ok in H as (u1 & _ & H).
  apply bind_Ok in H as (ft & _ & H). apply bind_Ok in H as (u2 & _ & H). apply bind_Ok in H as (tree & -> & H).
  apply bind_Ok in H as (u3 & _ & H). apply bind_Ok in H as (u4 & _ & H). apply bind_Ok in H as (s1 & Hf & [= <- <-]).
  pose proof (flush_stored_current _ _ _ Hf) as Es. pose proof (flush_tasks _ _ _ Hf) as [E1 E2]. pose proof (flush_attempts _ _ _ Hf Hn) as E3.
  split; [rewrite <- Es in *; by split_and!|]. exists tree. split; [done|].
  by destruct (closed_closes base source tree now r0) as (_ & _ & _ & _ & _ & ->).
Qed.

(** A transaction whose own changes, and what is committed, are within the
    bounds. *)
Section within.
Context (c : Db) (p : Process) (task_id attempt_id : string) (bases : Db -> Prop) (Hc : bases c) (tasks : gmap string TaskRow)
  (attempts : gmap string AttemptRow) (Hnear : near p task_id attempt_id bases tasks attempts).
Let B : Work -> Prop := bounded p task_id attempt_id bases.

Lemma bounded_start w : steady_or_lost c p tasks attempts w -> B w.
Proof using Hc Hnear. intros H. exists c, tasks, attempts. split_and!; [done|done|by apply near_base]. Qed.

Lemma within_fails {A} P (m : ST Work A) Q : hoare P m Q (fun _ => steady_or_lost c p tasks attempts) -> hoare P m Q (fun _ => B).
Proof using Hc Hnear. apply hoare_weaken; [done|done|]. intros _ w. apply bounded_start. Qed.

(** A block that may fail is followed by [_fail_attempt]. *)
Lemma guarded_triple {A} P (m : ST Work A) Q :
  hoare P m Q (fun _ => steady_or_lost c p tasks attempts) -> hoare P (on_error m (fail_attempt task_id attempt_id)) Q (fun _ => B).
Proof using Hc Hnear.
  intros H. eapply (hoare_on_error _ _ _ _ (fun _ => steady_or_lost c p tasks attempts) _ B); [exact H|intros e w; apply bounded_start|].
  eapply hoare_weaken; [..|apply bounded_fail_attempt]; [|intros u w Hw e; exact Hw|]; done.
Qed.
End within.

(** What [capture] found out. *)
Definition captured (fe : FinishEnv) (r : Binding * Artifact) : Prop :=
  fe_diff fe = Ok r.2 /\ exists tree, fe_workspace_tree fe = Ok tree /\ bn_tree_sha256 r.1 = Some tree.

(** The session when [finish] begins: [q] is what it sees. *)
Definition opening (c q : Db) (p : Process) (w : Work) : Prop := usable w /\ committed w = c /\ pending w = q /\ wk_process w = p.

Section capture.
Context (c q : Db) (p : Process) (fe : FinishEnv) (rq : FinishRequest) (attempt : AttemptRow) (bases : Db -> Prop) (Hc : bases c) (Hq : bases q).
Let S1 : Work -> Prop := steady c p (d_tasks q) (d_attempts q).
Let B : Work -> Prop := bounded p (at_task_id attempt) (f_attempt_id rq) bases.

Let near_q : near p (at_task_id attempt) (f_attempt_id rq) bases (d_tasks q) (d_attempts q) := near_base _ _ _ _ _ Hq.

(** Rolling back shows the committed rows. *)
Lemma opening_rollback w : opening c q p w -> B (rollback w).1.
Proof using Hc.
  intros (_ & Hw & _ & Hp). exists c, (d_tasks c), (d_attempts c). split_and!; [left|by apply near_base|by apply near_base].
  split; cbn; [done|done|by rewrite Hw|by rewrite Hw|done].
Qed.

Lemma close_triple :
  hoare (opening c q p) (close_attempt fe rq (at_task_id attempt))
    (fun r w => S1 w /\ exists tree, fe_workspace_tree fe = Ok tree /\ rv_result_tree_sha256 r = Some tree) (fun _ => B).
Proof using Hc.
  eapply (hoare_bind _ _ _ (fun _ => opening c q p)); [intros w ([Hi Hn] & ? & ? & ?); by split|intros now]. apply hoare_gets_bind. intros w0.
  eapply (hoare_on_error _ _ _ _ (fun _ => opening c q p) _ (opening c q p)).
  - intros w [Hw <-]. destruct (close_revision _ _ _ _ _ _ _ _ _) as [[s r]|e] eqn:Hcl; [|done]. rewrite modify_bind.
    destruct Hw as ([Hi Hn] & Hcc & Hqq & Hp). apply (close_revision_same _ _ _ _ _ _ _ _ _ _ _ (d_tasks q) (d_attempts q)) in Hcl as [[[? ?] [? ?]] Htree];
      [|exact Hn|exact (f_equal d_tasks Hqq)|exact (f_equal d_attempts Hqq)]. by split.
  - done.
  - eapply (hoare_bind _ _ _ (fun _ => B)); [intros w; apply opening_rollback|intros []].
    eapply hoare_weaken; [..|apply bounded_fail_attempt]; [|intros u w Hw e; exact Hw|]; done.
Qed.

Lemma record_run_triple b artifacts : hoare S1 (record_run (f_attempt_id rq) b artifacts) (fun _ => S1) (fun _ => steady_or_lost c p (d_tasks q) (d_attempts q)).
Proof.
  unfold record_run. eapply hoare_bind; [apply hoare_for_each; intros a _; apply record_artifact_triple|intros us].
  eapply hoare_bind; [apply flush_triple|intros []]. eapply hoare_bind; [apply hoare_for_each; intros a _; apply record_edge_triple|intros vs].
  by apply hoare_ret.
Qed.

Lemma capture_triple : hoare (opening c q p) (capture fe rq attempt) (fun r w => S1 w /\ captured fe r) (fun _ => B).
Proof using Hc Hq.
  unfold capture. eapply hoare_bind; [apply close_triple|intros revision]. cbn beta.
  eapply hoare_bind with (R := fun '(diff, process) w => S1 w /\ fe_diff fe = Ok diff /\
    exists tree, fe_workspace_tree fe = Ok tree /\ rv_result_tree_sha256 revision = Some tree).
  { apply (guarded_triple c _ _ _ _ Hc _ _ near_q). intros w [Hw Ht]. unfold lift.
    destruct (fe_diff fe) as [diff|]; [destruct (fe_process fe) as [process|]|]; cbn; [done|by left|by left]. }
  intros [diff process]. eapply hoare_bind; [apply hoare_frame, (within_fails c _ _ _ _ Hc _ _ near_q), record_run_triple|intros u].
  eapply hoare_bind; [apply hoare_frame, (guarded_triple c _ _ _ _ Hc _ _ near_q), record_execution_triple|intros x].
  apply hoare_ret. by intros w (Hw & Hd & Ht).
Qed.
End capture.

(** ** The verdict *)

Lemma record_item_triple (bases : Db -> Prop) c p tasks attempts fe rq task_id b status hidden e :
  bases c -> near p task_id (f_attempt_id rq) bases tasks attempts ->
  hoare (steady c p tasks attempts) (record_item fe rq task_id b status hidden e) (fun _ => steady c p tasks attempts)
    (fun _ => bounded p task_id (f_attempt_id rq) bases).
Proof.
  intros Hc Ht. unfold record_item. eapply hoare_bind with (R := fun _ => steady c p tasks attempts).
  { apply (guarded_triple c _ _ _ _ Hc _ _ Ht). intros w Hw. unfold lift. destruct (fe_output fe e); [done|by left]. }
  intros output. apply (within_fails c _ _ _ _ Hc _ _ Ht). eapply hoare_bind; [apply record_artifact_triple|intros []].
  eapply hoare_bind; [apply flush_triple|intros []]. eapply hoare_bind; [apply record_edge_triple|intros []].
  eapply hoare_bind; [apply steady_utcnow|intros measured]. eapply hoare_bind; [apply steady_utcnow|intros created].
  eapply hoare_bind; [apply steady_pend_checked; intros d d'; apply add_evidence_same|intros []].
  eapply hoare_bind; [apply steady_utcnow|intros now].
  eapply hoare_bind; [apply steady_pend_checked; intros d d'; apply add_node_same|intros []].
  eapply hoare_bind; [apply flush_triple|intros []]. eapply hoare_bind; [apply record_edge_triple|intros []].
  destruct (f_validation_target rq) as [target|]; [|by apply hoare_ret].
  apply hoare_when; [intros _; apply record_edge_triple|done].
Qed.

(** What is committed is within the bounds. *)
Definition harmless (p : Process) (task_id attempt_id : string) (bases : Db -> Prop) (w : Work) : Prop :=
  near p task_id attempt_id bases (d_tasks (committed w)) (d_attempts (committed w)).

Lemma bounded_harmless p task_id attempt_id bases w : bounded p task_id attempt_id bases w -> harmless p task_id attempt_id bases w.
Proof. intros (c & tasks & attempts & [[<-]|[<- _]] & _ & Hc); exact Hc. Qed.

Lemma uncommitted_harmless p task_id attempt_id (bases : Db -> Prop) c tasks attempts w :
  bases c -> steady_or_lost c p tasks attempts w -> harmless p task_id attempt_id bases w.
Proof. unfold harmless. intros Hc [[-> _ _ _ _]|[-> _]]; by apply near_base. Qed.

Section judge.
Context (format_g : float -> string) (ev : Evaluator) (mach : Z -> Machine) (tree : Z -> string) (fe : FinishEnv) (rq : FinishRequest)
  (p : Process) (attempt : AttemptRow) (b : Binding) (diff : Artifact).

(** The verdict on the rows of the Attempt's Task. *)
Definition verdict_of (task : option TaskRow) : result EvaluationResult :=
  assess format_g ev mach tree (fe_final_tree fe) (fe_clock fe) (fe_hidden_at fe) (request_of rq task diff) (bn_tree_sha256 b)
    (at_agent attempt) (af_sha256 diff).

Lemma state_reachable status state : task_state status = Ok state -> transition_task TEVALUATING state = Ok state.
Proof.
  unfold task_state, str_eq. case_bool_decide; [by intros [= <-]|]. case_bool_decide; [by intros [= <-]|].
  case_bool_decide; [by intros [= <-]|done].
Qed.

Lemma judge_triple (bases : Db -> Prop) c tasks attempts : bases c -> near p (at_task_id attempt) (f_attempt_id rq) bases tasks attempts ->
  hoare (steady c p tasks attempts) (judge format_g ev mach tree fe rq attempt b diff)
    (fun _ w => exists verdict state tasks', verdict_of (tasks !! at_task_id attempt) = Ok verdict /\ task_state (er_status verdict) = Ok state /\
       moved_task (at_task_id attempt) TEVALUATING state tasks tasks' /\ d_tasks (committed w) = tasks' /\ d_attempts (committed w) = attempts)
    (fun _ => harmless p (at_task_id attempt) (f_attempt_id rq) bases).
Proof.
  intros Hcb Ht. unfold judge. apply hoare_gets_bind. intros task.
  apply (hoare_pre (fun w => steady c p tasks attempts w /\ tasks !! at_task_id attempt = task)).
  { intros w [Hw <-]. split; [done|]. destruct Hw as [_ _ [_ ->] _ _]. done. }
  eapply hoare_bind with (R := fun evaluation w => steady c p tasks attempts w /\
    evaluate format_g ev mach (fun n e => drift_checked e (tree n) (bn_tree_sha256 b)) (request_of rq (tasks !! at_task_id attempt) diff) = Ok evaluation).
  { eapply hoare_weaken; [intros w Hw; exact Hw|intros x w Hw; exact Hw|intros e w; apply bounded_harmless|].
    apply (guarded_triple c _ _ _ _ Hcb _ _ Ht). intros w [Hw <-]. unfold lift. destruct (fe_fence fe); [|by left].
    cbn [mbind st_bind]. unfold mbind, st_bind. by destruct (evaluate _ _ _ _ _); [|left]. }
  intros evaluation. eapply hoare_bind with (R := fun verdict w => steady c p tasks attempts w /\ verdict_of (tasks !! at_task_id attempt) = Ok verdict).
  { apply hoare_lift; intros w x [Hw He] Hx; [|by eapply (uncommitted_harmless _ _ _ _ c); [done|left]].
    split; [done|]. unfold verdict_of, assess. rewrite He. exact Hx. }
  intros verdict. eapply hoare_bind; [apply hoare_frame, hoare_for_each; intros e _; eapply hoare_weaken; [..|apply (record_item_triple _ _ _ _ _ _ _ _ _ _ _ _ Hcb Ht)]; [done|done|intros x w; apply bounded_harmless]|intros us].
  eapply hoare_bind with (R := fun state w => steady c p tasks attempts w /\ verdict_of (tasks !! at_task_id attempt) = Ok verdict /\
    task_state (er_status verdict) = Ok state).
  { apply hoare_lift; intros w x [Hw He] Hx; [done|by eapply (uncommitted_harmless _ _ _ _ c); [done|left]]. }
  intros state w (Hw & Hv & Hs). pose proof (cas_task_triple c p tasks attempts (at_task_id attempt) _ _ (state_reachable _ _ Hs) w (or_introl Hw)) as Hm.
  rewrite st_bind_run. destruct (cas_task _ _ _ w) as [w1 [moved|e]]; [|by eapply (uncommitted_harmless _ _ _ _ c)].
  rewrite guard_bind. destruct moved; cbn [negb]; [|eapply (uncommitted_harmless _ _ _ _ c); [done|left; apply Hm]].
  destruct Hm as (tasks' & Hm & Hw1). pose proof (steady_commit _ _ _ _ w1 (or_introl Hw1)) as Hc.
  destruct (commit w1) as [w2 [u|e]]; [|by eapply (uncommitted_harmless _ _ _ _ c)]. destruct Hc as (c' & Et & Ea & [Ec _ _ _ _]).
  exists verdict, state, tasks'. rewrite Ec. by split_and!.
Qed.
End judge.

(** ** finish *)

Section finish.
Context (format_g : float -> string) (ev : Evaluator) (mach : Z -> Machine) (tree : Z -> string) (fe : FinishEnv) (rq : FinishRequest)
  (p : Process) (c q : Db).
Let id : string := f_attempt_id rq.
Let succeeded : bool := adapter_succeeded (f_result rq).
Let c' : Db := others fe c.
Let q' : Db := others fe q.
Let before : Db -> Prop := fun d => d = c \/ d = q.
Let after : Db -> Prop := fun d => d = c' \/ d = q'.

(** What a normal return has committed, over what [finish] saw and what other
    requests committed meanwhile. *)
Record finished (attempt : AttemptRow) (w : Work) (a : AttemptRow) (task : TaskRow) (status : string) : Prop := {
  fi_gate : check_decision_gate q (at_task_id attempt) = Ok ();
  fi_attempt : d_attempts q' !! id = Some a /\ runs p a;
  fi_task : d_tasks q' !! at_task_id attempt = Some task /\ tk_status task = "running";
  fi_attempts : d_attempts (committed w) = <[id := with_attempt_status (if succeeded then "completed" else "failed") a]> (d_attempts q');
  fi_tasks : d_tasks (committed w) = <[at_task_id attempt := with_task_status status task]> (d_tasks q');
  fi_verdict : if succeeded then exists result_tree diff verdict state,
      fe_workspace_tree fe = Ok result_tree /\ fe_diff fe = Ok diff /\
      assess format_g ev mach tree (fe_final_tree fe) (fe_clock fe) (fe_hidden_at fe) (request_of rq (Some task) diff) (Some result_tree)
        (at_agent attempt) (af_sha256 diff) = Ok verdict /\
      task_state (er_status verdict) = Ok state /\ status = TaskState_value state
    else status = "failed"
}.

Lemma interfere_triple : hoare (steady c p (d_tasks q) (d_attempts q)) (interfere (others fe))
  (fun _ => steady c' p (d_tasks q') (d_attempts q')) (fun _ _ => False).
Proof.
  intros w [Hc Hp [Ht1 Ht2] [Ha1 Ha2] Hi]. split; [exact (f_equal (others fe) Hc)|exact Hp|split|split|exact Hi].
  - exact (f_equal (fe_tasks fe) Ht1).
  - exact (f_equal (fe_tasks fe) Ht2).
  - exact (f_equal (fe_attempts fe) Ha1).
  - exact (f_equal (fe_attempts fe) Ha2).
Qed.

Lemma after_start : after c'. Proof. by left. Qed.

(** A lost fence rolls back; both ways nothing was committed. *)
Lemma settle_or_rollback_triple target : hoare (steady c' p (d_tasks q') (d_attempts q')) (settle_or_rollback id target)
  (fun _ w => exists attempts', settled_attempt p id target (d_attempts q') attempts' /\ steady c' p (d_tasks q') attempts' w)
  (fun _ w => committed w = c').
Proof.
  assert (forall tasks attempts w, steady_or_lost c' p tasks attempts w -> committed w = c') as Hl by (by intros tasks attempts w [[]|[]]).
  eapply (hoare_catch _ _ _ _ (fun _ => steady_or_lost c' p (d_tasks q') (d_attempts q')));
    [eapply hoare_pre; [|apply settle_triple]; intros w Hw; by left| |intros e w _; apply Hl].
  intros e k. destruct (is_fence_error e); [|done]. intros [= <-].
  eapply (hoare_bind _ _ _ (fun _ w => committed w = c')); [intros w Hw; exact (Hl _ _ _ Hw)|intros []; by apply hoare_fail].
Qed.

Lemma two_moves task_id s1 s2 s3 tasks tasks' tasks'' :
  moved_task task_id s1 s2 tasks tasks' -> moved_task task_id s2 s3 tasks' tasks'' ->
  exists row, tasks !! task_id = Some row /\ tk_status row = TaskState_value s1 /\
    tasks'' = <[task_id := with_task_status (TaskState_value s3) row]> tasks /\
    tasks' !! task_id = Some (with_task_status (TaskState_value s2) row).
Proof.
  intros (row & Hr & Hs & ->) (row' & Hr' & _ & ->). rewrite lookup_insert_eq in Hr'. injection Hr' as <-. exists row.
  rewrite insert_insert_eq, lookup_insert_eq. done.
Qed.

(** Settling the Attempt and its Task, then deciding. *)
Lemma settling_triple attempt b diff : captured fe (b, diff) -> check_decision_gate q (at_task_id attempt) = Ok () ->
  hoare (steady c' p (d_tasks q') (d_attempts q'))
    (_ ← settle_or_rollback id (AttemptState_value (if succeeded then ACOMPLETED else AFAILED));
     moved ← cas_task (at_task_id attempt) TRUNNING TEVALUATING;
     _ ← guard (negb moved) (ValueError ("task " +:+ at_task_id attempt +:+ " is not running"));
     _ ← (if succeeded then judge format_g ev mach tree fe rq attempt b diff else (_ ← cas_task (at_task_id attempt) TEVALUATING TFAILED; commit));
     mret id)
    (fun r w => r = id /\ exists a task status, finished attempt w a task status)
    (fun _ => harmless p (at_task_id attempt) id after).
Proof.
  intros [Hdiff (rt & Hrt & Hb)] Hgate. cbn [fst snd] in *.
  intros w Hw. pose proof (settle_or_rollback_triple (AttemptState_value (if succeeded then ACOMPLETED else AFAILED)) w Hw) as Hset.
  rewrite st_bind_run. destruct (settle_or_rollback _ _ w) as [w0 [u|e]]; [|unfold harmless; rewrite Hset; by apply near_base, after_start].
  destruct Hset as (attempts' & Hsettled & Hw0).
  pose proof (cas_task_triple c' p (d_tasks q') attempts' (at_task_id attempt) TRUNNING TEVALUATING eq_refl w0 (or_introl Hw0)) as Hm.
  rewrite st_bind_run. destruct (cas_task _ _ _ w0) as [w1 [moved|e]]; [|by eapply (uncommitted_harmless _ _ _ _ c'); [apply after_start|]].
  rewrite guard_bind. destruct moved; cbn [negb]; [|eapply (uncommitted_harmless _ _ _ _ c'); [apply after_start|left; apply Hm]].
  destruct Hm as (tasks' & Hm & Hw1). destruct Hsettled as (a & Ha & Hr & ->).
  rewrite st_bind_run. assert (near p (at_task_id attempt) id after tasks'
      (<[id := with_attempt_status (AttemptState_value (if succeeded then ACOMPLETED else AFAILED)) a]> (d_attempts q'))) as Htame.
  { exists q'. split; [by right|]. eapply (tame_settled _ _ _ _ _ _ (d_attempts q')); [eapply tame_moved; [apply tame_refl|exact Hm|set_solver]|by exists a|].
    destruct succeeded; set_solver. }
  destruct succeeded eqn:Hs.
  - pose proof (judge_triple format_g ev mach tree fe rq p attempt b diff after c' _ _ after_start Htame w1 Hw1) as Hj.
    destruct (judge _ _ _ _ _ _ _ _ _ w1) as [w2 [v|e]]; [|exact Hj]. split; [done|].
    destruct Hj as (verdict & state & tasks'' & Hv & Hst & Hm2 & Et & Ea). destruct (two_moves _ _ _ _ _ _ _ Hm Hm2) as (task & Htask & Hrun & -> & Hl).
    exists a, task, (TaskState_value state). rewrite Hl in Hv. unfold verdict_of in Hv. rewrite Hb in Hv. split; try done; [by rewrite Hs|].
    rewrite Hs. by exists rt, diff, verdict, state.
  - pose proof (cas_task_triple c' p tasks' _ (at_task_id attempt) TEVALUATING TFAILED eq_refl w1 (or_introl Hw1)) as Hm2.
    rewrite st_bind_run. destruct (cas_task _ _ _ w1) as [w2 [moved|e]]; [|eapply bounded_harmless, (bounded_start c'); [apply after_start|exact Htame|done]].
    destruct moved; [|exfalso; destruct Hm2 as [Hn _], Hm as (row & _ & _ & ->); by apply (Hn _ (lookup_insert_eq _ _ _))].
    destruct Hm2 as (tasks'' & Hm2 & Hw2). pose proof (steady_commit _ _ _ _ w2 (or_introl Hw2)) as Hc.
    destruct (commit w2) as [w3 [x|e]]; [|by eapply (uncommitted_harmless _ _ _ _ c'); [apply after_start|]]. destruct Hc as (c2 & Et & Ea & [Ec _ _ _ _]). split; [done|].
    destruct (two_moves _ _ _ _ _ _ _ Hm Hm2) as (task & Htask & Hrun & -> & _). exists a, task, "failed".
    split; try done; rewrite ?Hs, ?Ec; done.
Qed.

(** Every way out of [finish], once the Attempt is known to be this process's. *)
Lemma finish_run w : opening c q p w ->
  match finish format_g ev mach tree fe rq w with
  | (w', Ok r) => r = id /\ exists attempt a task status, d_attempts q !! id = Some attempt /\ runs p attempt /\ finished attempt w' a task status
  | (w', Err _) => match d_attempts q !! id with
                   | Some attempt => harmless p (at_task_id attempt) id before w' \/ harmless p (at_task_id attempt) id after w'
                   | None => committed w' = c
                   end
  end.
Proof.
  intros Hw. pose proof Hw as (_ & Hc & Hq & Hp). unfold finish. rewrite !gets_bind, Hq, Hp. fold id. rewrite !lift_bind. unfold require_some, require_owned_running.
  destruct (d_attempts q !! id) as [attempt|] eqn:Ha; [|exact Hc].
  assert (harmless p (at_task_id attempt) id before w) as Hh by (unfold harmless; rewrite Hc; apply near_base; by left).
  destruct (negb _ || _) eqn:Hr; [by left|]. rewrite <- negb_andb in Hr. apply negb_false_iff, runs_iff in Hr.
  rewrite lift_bind. destruct (check_decision_gate q (at_task_id attempt)) as [[]|] eqn:Hg; [|by left].
  pose proof (capture_triple c q p fe rq attempt before (or_introl eq_refl) (or_intror eq_refl) w Hw) as Hcap. rewrite st_bind_run.
  destruct (capture fe rq attempt w) as [w1 [[b diff]|e]]; [|left; by apply bounded_harmless]. destruct Hcap as [Hw1 Hcap].
  pose proof (interfere_triple w1 Hw1) as Hi. rewrite st_bind_run. destruct (interfere (others fe) w1) as [w2 [u|e]]; [|done].
  pose proof (settling_triple attempt b diff Hcap Hg w2 Hi) as H. unfold succeeded in H.
  match goal with |- match ?x with _ => _ end => match type of H with match ?y with _ => _ end => change x with y end end.
  match type of H with match ?y with _ => _ end => destruct y as [w3 [r|e]] end; [|by right].
  destruct H as (-> & a & task & status & Hf). split; [done|]. by exists attempt, a, task, status.
Qed.
End finish.

(** C3: [finish] settles an Attempt by fencing.  The session may hold pending
    changes, such as the tokens and the cost the coordinator or [run] put on
    the Attempt just before, but inserts no Attempt.  A normal return means that
    the Attempt, as the session sees it, was running for this process when
    [finish] began, with no material decision blocking its Task, and still was,
    with its Task running, when the rows were written (other requests may have
    committed in between).  What is committed then is what was pending about
    Tasks and Attempts and two changes: the Attempt is completed or failed as
    the adapter's result says, and its Task moved, to failed when the adapter
    failed, and otherwise to the state of the Evaluator's verdict on the
    captured diff and the closed result tree.  An adapter's claim alone never
    makes a Task succeed. *)
Theorem finish_spec format_g ev mach tree fe rq w w' r :
  usable w -> finish format_g ev mach tree fe rq w = (w', Ok r) ->
  r = f_attempt_id rq /\ exists attempt a task status,
    d_attempts (pending w) !! r = Some attempt /\ runs (wk_process w) attempt /\
    finished format_g ev mach tree fe rq (wk_process w) (pending w) attempt w' a task status.
Proof.
  intros Hu H. pose proof (finish_run format_g ev mach tree fe rq _ (committed w) (pending w) w (conj Hu (conj eq_refl (conj eq_refl eq_refl)))) as Hr.
  rewrite H in Hr. destruct Hr as (-> & attempt & a & task & status & Ha & Hrun & Hfin). split; [done|]. by exists attempt, a, task, status.
Qed.

(** C4: an exception out of [finish] never records a success, whatever the
    session had pending, as long as it inserts no Attempt.  There is a database
    [d], what was committed or what the session saw when [finish] began, or
    either after what other requests committed meanwhile, such that the Tasks
    and Attempts committed at the end are those of [d] but for two rows: the
    Attempt, which changed at most from running, owned by this process, to
    completed or failed, and its Task, which moved at most to evaluating or
    failed.  So the pending columns are committed or lost as a whole, and no
    other Attempt or Task changes.  An unknown Attempt leaves the database as
    it was. *)
Theorem finish_error format_g ev mach tree fe rq w w' e :
  usable w -> finish format_g ev mach tree fe rq w = (w', Err e) ->
  match d_attempts (pending w) !! f_attempt_id rq with
  | Some attempt =>
      exists d, d ∈ [committed w; pending w; others fe (committed w); others fe (pending w)] /\
        tame (wk_process w) (at_task_id attempt) (f_attempt_id rq) (d_tasks d) (d_tasks (committed w')) (d_attempts d) (d_attempts (committed w'))
  | None => committed w' = committed w
  end.
Proof.
  intros Hu H. pose proof (finish_run format_g ev mach tree fe rq _ (committed w) (pending w) w (conj Hu (conj eq_refl (conj eq_refl eq_refl)))) as Hr.
  rewrite H in Hr. destruct (d_attempts (pending w) !! f_attempt_id rq); [|done].
  destruct Hr as [(d & [-> | ->] & Hd)|(d & [-> | ->] & Hd)]; (eexists; split; [|exact Hd]); rewrite !elem_of_cons; auto.
Qed.

Module FinishDemo.
Definition process : Process := {| EXECUTOR_ID := "9-z"; owners := {["A-1"]}; remote_effects := ∅; stop_blocked := ∅ |}.
Definition attempt : AttemptRow := RevisionDemo.attempt {{ at_agent := "native"; at_executor_id := Some "9-z" }}.
Definition task : TaskRow := blank_TaskRow {{ tk_id := "T-1"; tk_status := "running"; tk_idempotency_key := "i"; tk_acceptance_criteria := ["works"] }}.
Definition db : Db := RevisionDemo.db {{ d_attempts := {["A-1" := attempt]}; d_tasks := {["T-1" := task]};
  d_graph_nodes := {["A-1" := mk_node "A-1" "attempt" "" "" "" (DateTime 0 true) None]} }}.
Definition work : Work := {|
  wk_host := {| h_environ := RevisionDemo.env; h_unidata_version := "15.0.0" |}; wk_process := process; wk_clock := fun n => DateTime (1000 + Z.of_nat n) true; wk_uuid := fun _ => "0"; wk_ticks := 0;
  committed := db; session := open_session db; inactive := false
|}.
(** What the Attempt used is pending when [finish] begins. *)
Definition used (a : AttemptRow) : AttemptRow := a {{ at_input_tokens := Some 7 }}.
Definition reported : Work := (pend (set_attempt used "A-1") work).1.
Lemma reported_usable : usable reported.
Proof. apply usable_set_attempt, fresh_usable. done. Qed.
Definition artifact (id : string) : Artifact := {| artifact_id := id; af_kind := "log"; af_path := "/a"; af_sha256 := RevisionDemo.t2; af_size_bytes := 1 |}.
Definition fe (attempts : gmap string AttemptRow -> gmap string AttemptRow) : FinishEnv := {|
  fe_fixture_tree := Ok RevisionDemo.t1; fe_workspace_tree := Ok RevisionDemo.t2; fe_diff := Ok (artifact "A-1-DIFF");
  fe_process := Ok (artifact "A-1-LOG"); fe_output := fun e => Ok (artifact (evidence_id e +:+ "-OUTPUT")); fe_fence := Ok ();
  fe_final_tree := RevisionDemo.t2; fe_clock := fun _ => DateTime 2000 true; fe_hidden_at := DateTime 2000 true;
  fe_tasks := fun m => m; fe_attempts := attempts
|}.
Definition result (exit_code : Z) : AdapterResult := {|
  ad_status := "completed"; ad_changed_files := ["a.py"]; ad_stdout := ""; ad_stderr := ""; ad_exit_code := exit_code;
  ad_result_tree_sha256 := None; ad_base_commit := None; ad_base_commit_source := None
|}.
Definition rq (exit_code : Z) : FinishRequest := {|
  f_attempt_id := "A-1"; f_result := result exit_code; f_commands := []; f_criterion_checks := Some [("works", [["pytest"; "tests/test_a.py"]])];
  f_policies := ∅; f_validation_target := None; f_evidence_mode := None
|}.
Definition mach : Machine := EvaluateDemo.mach.
Definition run (attempts : gmap string AttemptRow -> gmap string AttemptRow) (exit_code : Z) : Work * Prelude.result string :=
  finish (fun _ => "30") EvaluateDemo.ev (fun _ => mach) (fun _ => RevisionDemo.t2) (fe attempts) (rq exit_code) reported.
(** Recovery fails the Attempt while its artifacts are captured. *)
Definition reaped (m : gmap string AttemptRow) : gmap string AttemptRow := alter (fun a => a {{ at_status := "failed" }}) "A-1" m.
Definition seen (o : Work * Prelude.result string) : Prelude.result string * option string * option string * list string :=
  (o.2, task_status (committed o.1) "T-1", at_status <$> d_attempts (committed o.1) !! "A-1", map ev_status (rows (d_evidence (committed o.1)))).
End FinishDemo.

Lemma finish_spec_witness : exists w', FinishDemo.run (fun m => m) 0 = (w', Ok "A-1") /\
  d_attempts (committed w') = {["A-1" := with_attempt_status "completed" (FinishDemo.used FinishDemo.attempt)]} /\
  d_tasks (committed w') = {["T-1" := with_task_status "succeeded" FinishDemo.task]}.
Proof.
  assert (FinishDemo.seen (FinishDemo.run (fun m => m) 0) = (Ok "A-1", Some "succeeded", Some "completed", ["PASS"; "PASS"])) as Hv by (vm_compute; reflexivity).
  destruct (FinishDemo.run (fun m => m) 0) as [w' r] eqn:Hx. exists w'. injection Hv as -> Ht _ _. split; [reflexivity|].
  unfold FinishDemo.run in Hx. destruct (finish_spec _ _ _ _ _ _ FinishDemo.reported w' "A-1" FinishDemo.reported_usable Hx)
    as (_ & attempt & a & task & status & Ha & _ & [_ [Hc _] [Ht' _] Hat Hts _]).
  injection Ha as <-. injection Hc as <-. injection Ht' as <-. rewrite Hat, Hts. split; [reflexivity|].
  change (task_status (committed w') "T-1" = Some "succeeded") in Ht. unfold task_status in Ht. rewrite Hts in Ht.
  assert (Some status = Some "succeeded") as [= ->] by exact Ht. reflexivity.
Defined.

(** A fence lost to recovery writes nothing. *)
Lemma finish_error_witness : exists w' e, FinishDemo.run FinishDemo.reaped 0 = (w', Err e) /\
  exists d, d ∈ [FinishDemo.db; pending FinishDemo.reported; others (FinishDemo.fe FinishDemo.reaped) FinishDemo.db;
      others (FinishDemo.fe FinishDemo.reaped) (pending FinishDemo.reported)] /\
    tame FinishDemo.process "T-1" "A-1" (d_tasks d) (d_tasks (committed w')) (d_attempts d) (d_attempts (committed w')).
Proof.
  assert ((FinishDemo.seen (FinishDemo.run FinishDemo.reaped 0)).1.1.2 = Some "running") as Hv by (vm_compute; reflexivity).
  destruct (FinishDemo.run FinishDemo.reaped 0) as [w' [r|e]] eqn:Hx; [exfalso; revert Hx; vm_compute; discriminate|].
  exists w', e. split; [reflexivity|]. unfold FinishDemo.run in Hx. exact (finish_error _ _ _ _ _ _ FinishDemo.reported w' e FinishDemo.reported_usable Hx).
Defined.

Example finish_demo_failed : FinishDemo.seen (FinishDemo.run (fun m => m) 1) = (Ok "A-1", Some "failed", Some "failed", ["FAIL"]).
Proof. vm_compute. reflexivity. Qed.
