(* ===== verification/Auth.v ===== *)
(** * Auth: API tokens, roles and the lockout of failing clients

    Models [src/sdf_core/auth.py]: what a bearer token proves, which roles it
    carries, who may approve, and the limiter of failed authentications.  The
    random parts of a token and the clock are arguments; [ipaddress] and the
    repository's [.env] file are what they answer. *)

From S2P Require Import Prelude Sha256 Floats Json Db EvidenceMac Flush Samples FlushFacts Store.

(** ** Roles and names *)

Definition ROLES : list string := ["viewer"; "operator"; "approver"; "admin"].

Definition IMPLIES (role : string) : list string :=
  if str_eq role "viewer" then ["viewer"]
  else if str_eq role "operator" then ["operator"; "viewer"]
  else if str_eq role "approver" then ["approver"; "viewer"]
  else if str_eq role "admin" then ROLES else [].

Definition TOKEN_KINDS : list string := ["human"; "service"].
Definition PRIVILEGED : list string := ["approver"; "admin"].
Definition AGENT_KINDS : list string := ["claude"; "codex"; "opencode"; "pi"; "qwen"; "goose"].

Definition is_name_char (c : ascii) : bool := is_alnum c || str_in (char_str c) ["."; "_"; "@"; "+"; "-"].
(** [_NAME.fullmatch] *)
Definition is_name (s : string) : bool := (1 <=? str_len s) && (str_len s <=? 120) && str_forallb is_name_char s.

Definition not_newline (c : ascii) : bool := negb (bool_decide (nat_of_ascii c = 10%nat)).
Definition is_separator (c : ascii) : bool := str_in (char_str c) [":"; "."; "_"; "-"].

(** A name followed by one of [:._-] and the rest of a line. *)
Definition qualified (name s : string) : bool :=
  match strip_prefix name s with
  | Some (String c rest) => is_separator c && str_forallb not_newline rest
  | _ => false
  end.

(** [name(-\d+)?] *)
Definition numbered (name s : string) : bool :=
  match strip_prefix name s with
  | Some EmptyString => true
  | Some (String c rest) => str_eq (char_str c) "-" && str_truthy rest && str_forallb is_digit rest
  | None => false
  end.

(** [_RESERVED.fullmatch], ignoring case. *)
Definition is_reserved_name (name : string) : bool :=
  let s := str_lower name in
  str_in s ["sdf"; "host"; "manager"; "dev"; "system"; "root"; "anonymous"] ||
  numbered "lead" s || numbered "worker" s || numbered "workers" s ||
  existsb (fun p => qualified p s) ["agent"; "policy"; "sandbox"; "sbx"; "e2b"] ||
  existsb (fun k => str_eq k s || qualified k s) AGENT_KINDS.

Record Principal : Type := { pc_name : string; pc_roles : list string; pc_kind : string; pc_token_id : option string; pc_method : string }.

(** [effective_roles], [has] and [can_approve] *)
Definition effective_roles (p : Principal) : list string := concat (map IMPLIES (pc_roles p)).
Definition has (role : string) (p : Principal) : bool := str_in role (effective_roles p).
Definition can_approve (p : Principal) : bool :=
  has "approver" p && str_eq (pc_kind p) "human" && negb (is_reserved_name (pc_name p)).

Definition as_record (p : Principal) : json :=
  JObj [("name", JStr (pc_name p)); ("kind", JStr (pc_kind p)); ("token_id", json_str (pc_token_id p)); ("method", JStr (pc_method p));
        ("roles", JArr (map JStr (sort_by str_le (remove_dups (pc_roles p)))))].

(** ** Settings *)

Definition PEPPER_MIN_LENGTH : Z := 32.
Definition DEFAULT_EXPIRY_DAYS : Z := 90.
Definition MAX_EXPIRY_DAYS : Z := 365.
Definition LAST_USED_RESOLUTION : Z := 60 * seconds.

Definition AuthError (reason : string) : exn := OtherError "AuthError" reason.
Definition AuthConfigError (msg : string) : exn := OtherError "AuthConfigError" msg.

Definition truthy (value : string) : bool := str_in (str_lower (str_strip value)) ["1"; "true"; "yes"; "on"].

Section settings.
Context (env dotenv : environ).

Definition setting (name : string) : string :=
  match env !! name with Some v => v | None => or_empty (dotenv !! name) end.
Definition pepper : option string :=
  let value := setting "SDF_AUTH_PEPPER" in if PEPPER_MIN_LENGTH <=? str_len value then Some value else None.
Definition dev_insecure : bool := truthy (setting "SDF_AUTH_DEV_INSECURE").
Definition single_user_mode : bool := truthy (setting "SDF_AUTH_SINGLE_USER").
End settings.

(** ** Tokens *)

(** [_hash(secret, key)] *)
Definition hash (secret key : string) : string := hmac_text (utf8 key) secret.

(** [sorted({...})] of strings. *)
Definition sorted_set (l : list string) : list string := sort_by str_le (remove_dups l).
Definition list_repr (l : list string) : string := "[" +:+ str_join ", " (map str_repr l) +:+ "]".
Definition tuple_repr (l : list string) : string := "(" +:+ str_join ", " (map str_repr l) +:+ ")".

Definition normalize_roles (roles : list string) : result (list string) :=
  let out := sorted_set (map (fun r => str_lower (str_strip r)) (List.filter (fun r => str_truthy (str_strip r)) roles)) in
  _ ← raise_if (bool_decide (out = [])) (ValueError "a token needs at least one role");
  let unknown := List.filter (fun r => negb (str_in r ROLES)) out in
  _ ← raise_if (negb (bool_decide (unknown = [])))
        (ValueError ("unknown role(s) " +:+ list_repr unknown +:+ "; choose from " +:+ list_repr ROLES));
  Ok out.

Definition audit (now : datetime) (event principal token_id : string) (detail : list (string * json)) (d : Db) : Db :=
  let id := next_id (d_auth_audit d) in
  d {{ d_auth_audit ::= insert id {| aa_id := id; aa_at := now; aa_event := event; aa_principal := Some principal; aa_token_id := Some token_id;
    aa_method := None; aa_path := None; aa_route := None; aa_status_code := None; aa_client := None; aa_detail := Some (JObj detail) |} }}.

Record TokenRequest : Type := {
  tr_principal : string; tr_roles : list string; tr_created_by : string; tr_kind : string; tr_expires_in_days : Z;
  tr_description : option string; tr_key : option string
}.

(** The row of a new token; [token_id] and [secret] are [secrets.token_hex(8)]
    and [secrets.token_urlsafe(32)]. *)
Definition token_row (r : TokenRequest) (principal : string) (role_list : list string) (key token_id secret : string) (now : datetime) : ApiTokenRow := {|
  tok_id := token_id; tok_principal := principal; tok_kind := tr_kind r; tok_roles := role_list; tok_secret_hash := hash secret key;
  tok_description := (if opt_truthy (tr_description r) then str_take 500 <$> tr_description r else None); tok_created_at := now;
  tok_created_by := str_take 120 (tr_created_by r); tok_expires_at := dt_add now (tr_expires_in_days r * 86400 * seconds);
  tok_revoked_at := None; tok_revoked_by := None; tok_last_used_at := None
|}.

Definition plaintext (token_id secret : string) : string := "sdf_" +:+ token_id +:+ "." +:+ secret.

Definition create_token (h : Host) (default_key : option string) (s : Session) (r : TokenRequest) (token_id secret : string) (now : datetime)
    : result (Session * ApiTokenRow * string) :=
  let key := if opt_truthy (tr_key r) then tr_key r else default_key in
  _ ← raise_if (negb (opt_truthy key)) (AuthConfigError ("SDF_AUTH_PEPPER must be set (at least " +:+ pretty PEPPER_MIN_LENGTH +:+ " characters)"));
  let principal := str_strip (tr_principal r) in
  _ ← raise_if (negb (is_name principal)) (ValueError "principal must be 1-120 characters of letters, digits and . _ @ + -");
  _ ← raise_if (is_reserved_name principal)
        (ValueError (str_repr principal +:+ " is reserved for agents, sandboxes or the host and cannot hold a token"));
  role_list ← normalize_roles (tr_roles r);
  _ ← raise_if (negb (str_in (tr_kind r) TOKEN_KINDS)) (ValueError ("kind must be one of " +:+ tuple_repr TOKEN_KINDS));
  _ ← raise_if (negb (str_eq (tr_kind r) "human") && existsb (fun x => str_in x PRIVILEGED) role_list)
        (ValueError "only human tokens may hold approver or admin");
  _ ← raise_if (negb ((1 <=? tr_expires_in_days r) && (tr_expires_in_days r <=? MAX_EXPIRY_DAYS)))
        (ValueError ("expiry must be between 1 and " +:+ pretty MAX_EXPIRY_DAYS +:+ " days"));
  let row := token_row r principal role_list (or_empty key) token_id secret now in
  _ ← raise_if (bool_decide (is_Some (d_api_tokens (current s) !! token_id))) (IntegrityError "api_tokens.id");
  let who := str_take 120 (tr_created_by r) in
  let d := (current s) {{ d_api_tokens ::= insert token_id row }} in
  let d := audit now "token_created" who token_id
             [("for", JStr principal); ("roles", JArr (map JStr role_list)); ("kind", JStr (tr_kind r));
              ("expires_at", JStr (isoformat (tok_expires_at row)))] d in
  s ← change_and_flush h s d;
  Ok (s, row, plaintext token_id secret).

Definition revoke_token (h : Host) (s : Session) (token_id revoked_by : string) (now : datetime) : result (Session * ApiTokenRow) :=
  row ← require_some (d_api_tokens (current s) !! token_id) (LookupError "token not found");
  if bool_decide (is_Some (tok_revoked_at row)) then Ok (s, row)
  else
    let who := str_take 120 revoked_by in
    let row := row {{ tok_revoked_at := Some now; tok_revoked_by := Some who }} in
    let d := audit now "token_revoked" who token_id [("for", JStr (tok_principal row))] ((current s) {{ d_api_tokens ::= insert token_id row }}) in
    s ← change_and_flush h s d;
    Ok (s, row).

(** Token metadata, oldest first. *)
Definition token_item (r : ApiTokenRow) : json :=
  let iso v := match v with Some t => JStr (isoformat t) | None => JNull end in
  JObj [("id", JStr (tok_id r)); ("principal", JStr (tok_principal r)); ("kind", JStr (tok_kind r)); ("roles", JArr (map JStr (tok_roles r)));
        ("description", json_str (tok_description r)); ("created_by", JStr (tok_created_by r)); ("created_at", iso (Some (tok_created_at r)));
        ("expires_at", iso (Some (tok_expires_at r))); ("last_used_at", iso (tok_last_used_at r)); ("revoked_at", iso (tok_revoked_at r));
        ("revoked_by", json_str (tok_revoked_by r))].
Definition list_tokens (d : Db) : list json :=
  map token_item (sort_by (fun a b => dt_us (tok_created_at a) <=? dt_us (tok_created_at b)) (rows (d_api_tokens d))).

(** *** Presenting a token *)

Fixpoint split_at (n : nat) (s : string) : string * string :=
  match n, s with
  | S n, String c s => let '(a, b) := split_at n s in (String c a, b)
  | _, _ => (EmptyString, s)
  end.

Definition is_secret_char (c : ascii) : bool := is_alnum c || str_in (char_str c) ["_"; "-"].
Definition is_token_id (s : string) : bool := (str_len s =? 16) && str_forallb is_hex_char s.
Definition is_secret (s : string) : bool := (str_len s =? 43) && str_forallb is_secret_char s.

(** [_TOKEN.fullmatch]: the two groups. *)
Definition token_match (s : string) : option (string * string) :=
  match strip_prefix "sdf_" s with
  | None => None
  | Some rest =>
      let '(id, rest) := split_at 16 rest in
      match rest with
      | String c secret => if str_eq (char_str c) "." && is_token_id id && is_secret secret then Some (id, secret) else None
      | EmptyString => None
      end
  end.

Definition last_used_due (row : ApiTokenRow) (now : datetime) : bool :=
  match tok_last_used_at row with
  | None => true
  | Some t => LAST_USED_RESOLUTION <=? dt_us now - dt_us (aware t)
  end.

Definition dummy_secret : string := str_join "" (replicate 43 "x").

Definition verify_token (s : Session) (presented key : string) (now : datetime) : result (Session * Principal) :=
  let found := token_match presented in
  let secret := match found with Some (_, secret) => secret | None => dummy_secret end in
  let computed := hash secret key in
  let row := match found with Some (id, _) => d_api_tokens (current s) !! id | None => None end in
  let expected := match row with Some row => tok_secret_hash row | None => hash ("dummy-" +:+ secret) key end in
  match found, row with
  | Some (id, _), Some row =>
      _ ← raise_if (negb (str_eq computed expected)) (AuthError "bad_secret");
      _ ← raise_if (bool_decide (is_Some (tok_revoked_at row))) (AuthError "revoked");
      _ ← raise_if (dt_us (aware (tok_expires_at row)) <=? dt_us now) (AuthError "expired");
      let s := if last_used_due row now
               then {| stored := stored s; current := (current s) {{ d_api_tokens ::= insert id (row {{ tok_last_used_at := Some now }}) }} |}
               else s in
      Ok (s, {| pc_name := tok_principal row; pc_roles := tok_roles row; pc_kind := tok_kind row; pc_token_id := Some (tok_id row);
                pc_method := "api_token" |})
  | None, _ => Err (AuthError "malformed")
  | _, None => Err (AuthError "unknown")
  end.

(** ** The lockout of failing clients *)

(** The dict of failures keeps its order of insertion: the oldest client goes
    first.  Times are [time.monotonic()]. *)
Record FailureLimiter : Type := {
  max_failures : Z; window_s : float; lockout_s : float;
  failures : list (string * list float); locked_until : gmap string float
}.

Definition new_limiter (max_failures : Z) (window_s lockout_s : float) : FailureLimiter :=
  {| max_failures := max_failures; window_s := window_s; lockout_s := lockout_s; failures := []; locked_until := ∅ |}.

(** [int(x)] *)
Definition f_int (x : float) : result Z :=
  match x with
  | S754_finite s m e => let v := if 0 <=? e then Zpos m * 2 ^ e else Zpos m / 2 ^ (- e) in Ok (if s then - v else v)
  | S754_zero _ => Ok 0
  | S754_infinity _ => Err (OtherError "OverflowError" "cannot convert float infinity to integer")
  | S754_nan => Err (ValueError "cannot convert float NaN to integer")
  end.

Definition retry_after (client : string) (now : float) (l : FailureLimiter) : FailureLimiter * result Z :=
  let until := default f_zero (locked_until l !! client) in
  if f_lt now until then (l, n ← f_int (f_sub until now); Ok (Z.max 1 n))
  else (l {{ locked_until ::= delete client }}, Ok 0).

(** [while hits and hits[0] < limit: hits.popleft()] *)
Fixpoint drop_before (limit : float) (hits : list float) : list float :=
  match hits with
  | [] => []
  | x :: rest => if f_lt x limit then drop_before limit rest else hits
  end.

(** The hits of the client, through [setdefault]: at the end when new. *)
Fixpoint set_hits (client : string) (f : list float -> list float) (m : list (string * list float)) : list (string * list float) :=
  match m with
  | [] => [(client, f [])]
  | (c, hits) :: m => if str_eq c client then (c, f hits) :: m else (c, hits) :: set_hits client f m
  end.

Definition hits_of (client : string) (m : list (string * list float)) : list float :=
  default [] (snd <$> List.find (fun kv => str_eq kv.1 client) m).

Definition MAX_CLIENTS : Z := 10000.

Definition failure (client : string) (now : float) (l : FailureLimiter) : FailureLimiter :=
  let hits := drop_before (f_sub now (window_s l)) (hits_of client (failures l) ++ [now]) in
  let full := max_failures l <=? Z.of_nat (length hits) in
  let m := set_hits client (fun _ => if full then [] else hits) (failures l) in
  l {{ locked_until ::= fun u => if full then <[client := f_add now (lockout_s l)]> u else u;
       failures := if MAX_CLIENTS <? Z.of_nat (length m) then tail m else m }}.

Definition reset (l : FailureLimiter) : FailureLimiter := l {{ failures := []; locked_until := ∅ }}.

(** ** Routes *)

Definition SAFE_METHODS : list string := ["GET"; "HEAD"; "OPTIONS"].

Definition ROUTE_ROLES : list (string * string * string) := [
  ("POST", "/business-contexts", "operator"); ("POST", "/objectives", "operator"); ("POST", "/assumptions", "operator");
  ("POST", "/constraints", "operator"); ("POST", "/requirements", "operator"); ("POST", "/tasks", "operator");
  ("POST", "/tasks/{task_id}/run", "operator"); ("POST", "/attempts/{attempt_id}/actions", "operator");
  ("GET", "/attempts/{attempt_id}/remote-effects", "operator"); ("POST", "/attempts/{attempt_id}/remote-effects/reconcile", "admin");
  ("POST", "/objectives/{objective_id}/metric", "operator"); ("POST", "/objectives/{objective_id}/observations", "operator");
  ("POST", "/plans", "operator"); ("POST", "/plans/{plan_id}/runs", "operator"); ("POST", "/runs/{run_id}/cancel", "operator");
  ("POST", "/decisions", "approver"); ("POST", "/objectives/{objective_id}/evidence", "approver"); ("POST", "/adrs", "approver");
  ("POST", "/plans/{plan_id}/approve", "approver"); ("POST", "/plans/{plan_id}/reject", "approver");
  ("POST", "/decision-requests/{request_id}/resolve", "approver")].

Definition required_role (method path : string) : string :=
  match List.find (fun r => str_eq r.1.1 (str_upper method) && str_eq r.1.2 path) ROUTE_ROLES with
  | Some r => r.2
  | None => if str_in (str_upper method) SAFE_METHODS then "viewer" else "admin"
  end.

(** [address] is [ipaddress.ip_address(s).is_loopback], [None] when the text is
    not an address. *)
Definition is_loopback (address : string -> option bool) (host : option string) : bool :=
  match host with
  | None => false
  | Some h => if negb (str_truthy h) then false
              else str_eq h "localhost" || default false (address (default "" (head (str_split (ascii_of_nat 37) h))))
  end.

Definition DEV_PRINCIPAL : Principal := {| pc_name := "local-dev"; pc_roles := ["admin"]; pc_kind := "human"; pc_token_id := None; pc_method := "dev_insecure" |}.

Example reserved_names : forallb is_reserved_name ["Lead-2"; "worker"; "claude:w1"; "agent_x"; "SDF"; "pi"] = true /\
  existsb is_reserved_name ["alice"; "leader"; "pilot"; "agent"; "worker-"; "system.admin"] = false.
Proof. split; vm_compute; reflexivity. Qed.

(** ** Facts about texts *)

Lemma strip_prefix_Some p s r : strip_prefix p s = Some r <-> s = p +:+ r.
Proof.
  revert s. induction p as [|a p IH]; intros s; [by split; [intros [= ->]|intros ->]|]. destruct s as [|b s]; [done|].
  cbn [strip_prefix]. case_bool_decide as E; [subst b|].
  - rewrite IH. split; [by intros ->|]. by intros [= ->].
  - split; [done|]. by intros [= -> _].
Qed.

Lemma split_at_app n s : split_at n s = ((split_at n s).1, (split_at n s).2) /\ s = (split_at n s).1 +:+ (split_at n s).2.
Proof.
  split; [by destruct (split_at n s)|]. revert s. induction n as [|n IH]; intros s; [done|]. destruct s as [|c s]; [done|].
  cbn [split_at]. specialize (IH s). destruct (split_at n s) as [a b]. cbn [fst snd] in *. by rewrite IH.
Qed.

Lemma split_at_exact a b : split_at (String.length a) (a +:+ b) = (a, b).
Proof. induction a as [|c a IH]; [done|]. rewrite str_app_cons. cbn [String.length split_at]. by rewrite IH. Qed.

(** A presented text is a token exactly when it is the text of its parts. *)
Lemma token_match_Some s id secret :
  token_match s = Some (id, secret) <-> s = plaintext id secret /\ is_token_id id = true /\ is_secret secret = true.
Proof.
  unfold token_match, plaintext. split.
  - destruct (strip_prefix "sdf_" s) as [rest|] eqn:Hp; [|done]. apply strip_prefix_Some in Hp as ->.
    destruct (split_at_app 16 rest) as [E1 E2]. rewrite E1. destruct (split_at 16 rest) as [i r]. cbn [fst snd] in *. subst rest.
    destruct r as [|c x]; [done|]. destruct (str_eq _ _ && _ && _) eqn:Hc; [|done]. intros [= -> ->].
    apply andb_true_iff in Hc as [[Hc Hi]%andb_true_iff Hx]. unfold str_eq in Hc. apply bool_decide_eq_true in Hc. injection Hc as ->. done.
  - intros (-> & Hi & Hx). rewrite (proj2 (strip_prefix_Some "sdf_" _ (id +:+ "." +:+ secret))) by done.
    assert (split_at 16 (id +:+ "." +:+ secret) = (id, "." +:+ secret)) as ->.
    { assert (String.length id = 16%nat) as <-; [|apply split_at_exact]. unfold is_token_id, str_len in Hi. boolify. lia. }
    change ("." +:+ secret) with (String (ascii_of_nat 46) secret). cbn beta iota.
    replace (str_eq (char_str (ascii_of_nat 46)) ".") with true by reflexivity. by rewrite Hi, Hx.
Qed.

(** ** What a presented token proves *)

(** The identity a token row gives. *)
Definition principal_of (row : ApiTokenRow) : Principal := {|
  pc_name := tok_principal row; pc_roles := tok_roles row; pc_kind := tok_kind row; pc_token_id := Some (tok_id row); pc_method := "api_token" |}.

(** The text is that of a stored token, with a secret that has its hash. *)
Definition presents (d : Db) (key presented : string) (id : string) (row : ApiTokenRow) : Prop :=
  exists secret, presented = plaintext id secret /\ is_token_id id = true /\ is_secret secret = true /\
    d_api_tokens d !! id = Some row /\ hash secret key = tok_secret_hash row.

Definition unexpired (row : ApiTokenRow) (now : datetime) : Prop := dt_us now < dt_us (aware (tok_expires_at row)).

Lemma presents_match d key presented id row : presents d key presented id row <->
  exists secret, token_match presented = Some (id, secret) /\ d_api_tokens d !! id = Some row /\ hash secret key = tok_secret_hash row.
Proof. unfold presents. setoid_rewrite token_match_Some. naive_solver. Qed.

(** A token authenticates exactly while it is the one that was issued.  The
    answer is the principal, roles and kind of the stored row when the text
    names its id, the keyed hash of its secret is the stored one, and the token
    is neither revoked nor expired; nothing but the time of its last use
    changes, and only when a minute has passed.  Otherwise the request is
    refused, and the recorded reason is the one that applies. *)
Theorem verify_token_spec s presented key now :
  match verify_token s presented key now with
  | Ok (s', p) => exists id row, presents (current s) key presented id row /\ tok_revoked_at row = None /\ unexpired row now /\
      p = principal_of row /\ stored s' = stored s /\
      current s' = (if last_used_due row now
                    then (current s) {{ d_api_tokens ::= insert id (row {{ tok_last_used_at := Some now }}) }} else current s)
  | Err e => exists reason, e = AuthError reason /\
      ((reason ∈ ["malformed"; "unknown"; "bad_secret"] /\ forall id row, ~ presents (current s) key presented id row) \/
       (reason = "revoked" /\ exists id row, presents (current s) key presented id row /\ is_Some (tok_revoked_at row)) \/
       (reason = "expired" /\ exists id row, presents (current s) key presented id row /\ tok_revoked_at row = None /\ ~ unexpired row now))
  end.
Proof.
  unfold verify_token. destruct (token_match presented) as [[id secret]|] eqn:Hm; cbn beta iota zeta.
  2: { exists "malformed". split; [done|]. left. split; [set_solver|]. intros id row (x & Hx & _)%presents_match. congruence. }
  destruct (d_api_tokens (current s) !! id) as [row|] eqn:Hrow; cbn beta iota zeta.
  2: { exists "unknown". split; [done|]. left. split; [set_solver|]. intros i r (x & Hx & Hr & _)%presents_match. congruence. }
  unfold raise_if, str_eq. destruct (bool_decide (hash secret key = tok_secret_hash row)) eqn:Hh; boolify; cbn [negb mbind result_bind].
  2: { exists "bad_secret". split; [done|]. left. split; [set_solver|]. intros i r (x & Hx & Hr & E)%presents_match. congruence. }
  assert (presents (current s) key presented id row) as Hp by (apply presents_match; by exists secret).
  destruct (bool_decide (is_Some (tok_revoked_at row))) eqn:Hrev; boolify; cbn [mbind result_bind].
  { exists "revoked". split; [done|]. right. left. split; [done|]. by exists id, row. }
  rewrite <- eq_None_not_Some in Hrev. unfold unexpired.
  destruct (Z.leb_spec (dt_us (aware (tok_expires_at row))) (dt_us now)); cbn [mbind result_bind].
  { exists "expired". split; [done|]. right. right. split; [done|]. exists id, row. split_and!; [done|done|lia]. }
  exists id, row. split_and!; try done; by destruct (last_used_due row now).
Qed.

(** ** Issuing tokens *)

Lemma flush_tokens h s s' : flush h s = Ok s' -> d_api_tokens (stored s') = d_api_tokens (current s).
Proof. intros (_ & _ & _ & _ & T & _)%flush_Ok. unfold same_tables in T. by destruct_and! T. Qed.

Lemma same_token_refl row : same_token row row.
Proof. by unfold same_token. Qed.

Definition request_key (default_key : option string) (r : TokenRequest) : string :=
  or_empty (if opt_truthy (tr_key r) then tr_key r else default_key).

(** What a row that [create_token] stores satisfies. *)
Record issued (r : TokenRequest) (key id secret : string) (now : datetime) (row : ApiTokenRow) : Prop := {
  is_name_ok : is_name (tok_principal row) = true /\ is_reserved_name (tok_principal row) = false;
  is_roles : normalize_roles (tr_roles r) = Ok (tok_roles row);
  is_kind : tok_kind row = tr_kind r /\ str_in (tr_kind r) TOKEN_KINDS = true;
  is_privileged : tok_kind row <> "human" -> forall x, x ∈ tok_roles row -> x ∉ PRIVILEGED;
  is_expiry : 1 <= tr_expires_in_days r <= MAX_EXPIRY_DAYS;
  is_row : row = token_row r (str_strip (tr_principal r)) (tok_roles row) key id secret now
}.

Lemma create_token_Ok h dk s r id secret now s' row plain : create_token h dk s r id secret now = Ok (s', row, plain) ->
  issued r (request_key dk r) id secret now row /\ plain = plaintext id secret /\ d_api_tokens (current s) !! id = None /\
  d_api_tokens (stored s') = <[id := row]> (d_api_tokens (current s)) /\ stored s' = current s'.
Proof.
  unfold create_token, raise_if. set (key := if opt_truthy (tr_key r) then tr_key r else dk).
  destruct (negb (opt_truthy key)); [done|]. cbn [mbind result_bind]. destruct (is_name _) eqn:Hn; [|done]. cbn [negb mbind result_bind].
  destruct (is_reserved_name _) eqn:Hres; [done|]. cbn [mbind result_bind]. intros (roles & Hroles & H)%bind_Ok.
  destruct (str_in (tr_kind r) TOKEN_KINDS) eqn:Hk; [|done]. cbn [negb mbind result_bind] in H.
  destruct (_ && existsb _ _) eqn:Hp; [done|]. cbn [mbind result_bind] in H.
  destruct (_ <=? _) eqn:H1 in H; [|done]. destruct (_ <=? _) eqn:H2 in H; [|done]. cbn [andb negb mbind result_bind] in H.
  destruct (bool_decide (is_Some _)) eqn:Hnew in H; [done|]. cbn [mbind result_bind] in H.
  apply bind_Ok in H as (s1 & Hf & [= <- <- <-]). pose proof (flush_stored_current _ _ _ Hf) as Es. apply flush_tokens in Hf. boolify. rewrite <- eq_None_not_Some in Hnew. split_and!; try done.
  split; cbn [token_row tok_principal tok_kind tok_roles]; try done.
  intros Hkind x Hx Hpx. apply andb_false_iff in Hp as [Hp|Hp].
  - unfold str_eq in Hp. boolify. done.
  - assert (existsb (fun x => str_in x PRIVILEGED) roles = true) as E; [|congruence]. apply List.existsb_exists. exists x.
    unfold str_in. rewrite bool_decide_eq_true_2 by done. split; [by apply list_elem_of_In|done].
Qed.

(** C26: an issued token works until it expires or is revoked, for the identity
    it was issued to.  Whatever has happened to the database since, as long as
    the stored row is still that token (which every flush preserves), its
    plaintext authenticates the stripped principal with the normalised roles
    until the day it expires, and never after a revocation; and any text that
    authenticates as this token carries its id and a secret with the same HMAC. *)
Theorem token_roundtrip h dk s r id secret now s' row plain :
  create_token h dk s r id secret now = Ok (s', row, plain) -> is_token_id id = true -> is_secret secret = true ->
  d_api_tokens (stored s') !! id = Some row /\
  forall s2 row2 now2, d_api_tokens (current s2) !! id = Some row2 -> same_token row row2 ->
    snd <$> verify_token s2 plain (request_key dk r) now2 =
      (if bool_decide (is_Some (tok_revoked_at row2)) then Err (AuthError "revoked")
       else if dt_us now + tr_expires_in_days r * 86400 * seconds <=? dt_us now2 then Err (AuthError "expired")
       else Ok {| pc_name := str_strip (tr_principal r); pc_roles := tok_roles row; pc_kind := tr_kind r; pc_token_id := Some id; pc_method := "api_token" |}) /\
    (forall presented s3 p, verify_token s2 presented (request_key dk r) now2 = Ok (s3, p) -> pc_token_id p = Some id ->
       (forall k t, d_api_tokens (current s2) !! k = Some t -> tok_id t = k) ->
       exists secret', presented = plaintext id secret' /\ hash secret' (request_key dk r) = hash secret (request_key dk r)).
Proof.
  intros (Hi & -> & _ & Hs & _)%create_token_Ok Hid Hsec. split; [by rewrite Hs, lookup_insert_eq|].
  pose proof (is_row _ _ _ _ _ _ Hi) as Hrow. intros s2 row2 now2 H2 Hsame. destruct Hsame as (E1 & E2 & E3 & E4 & E5 & E6 & _).
  rewrite Hrow in E1, E2, E3, E5, E6. cbn [token_row tok_id tok_principal tok_kind tok_secret_hash tok_expires_at] in *. split.
  - assert (token_match (plaintext id secret) = Some (id, secret)) as Hm by (by apply token_match_Some).
    unfold verify_token. rewrite Hm, H2. cbn beta iota zeta. unfold str_eq. rewrite (bool_decide_eq_true_2 (hash _ _ = _)) by done. cbn [negb raise_if mbind result_bind].
    destruct (bool_decide (is_Some (tok_revoked_at row2))); [done|]. cbn [raise_if mbind result_bind]. rewrite <- E6.
    change (dt_us (aware (dt_add now (tr_expires_in_days r * 86400 * seconds)))) with (dt_us now + tr_expires_in_days r * 86400 * seconds).
    destruct (_ <=? dt_us now2); [done|].
    cbn. by rewrite <- E1, <- E2, <- E3, <- E4.
  - intros presented s3 p Hv Hp Hkeyed. unfold verify_token in Hv. destruct (token_match presented) as [[i x]|] eqn:Hm; cbn beta iota zeta in Hv; [|done].
    destruct (d_api_tokens (current s2) !! i) as [t|] eqn:Ht; cbn beta iota zeta in Hv; [|done]. apply bind_Ok in Hv as (u & Hh & Hv).
    apply bind_Ok in Hv as (u1 & _ & Hv). apply bind_Ok in Hv as (u2 & _ & [= _ <-]). cbn in Hp. injection Hp as Hp. rewrite (Hkeyed _ _ Ht) in Hp. subst i.
    exists x. apply token_match_Some in Hm as (-> & _ & _). split; [done|]. rewrite H2 in Ht. injection Ht as <-.
    unfold raise_if, str_eq in Hh. destruct (bool_decide (hash x _ = _)) eqn:E in Hh; [|done]. boolify. congruence.
Qed.

Module AuthDemo.
Definition now : datetime := DateTime 0 true.
Definition pepper : string := "0123456789abcdef0123456789abcdef".
Definition id : string := "0123456789abcdef".
Definition secret : string := "AbCdEfGhIjKlMnOpQrStUvWxYz0123456789-_abcde".
Definition request : TokenRequest := {| tr_principal := " alice "; tr_roles := ["Approver"; "operator"]; tr_created_by := "root-cli";
  tr_kind := "human"; tr_expires_in_days := 90; tr_description := None; tr_key := None |}.
Definition created : result (Session * ApiTokenRow * string) := create_token Demo.host (Some pepper) (open_session empty_db) request id secret now.
End AuthDemo.

Lemma token_roundtrip_witness : exists s' row plain, AuthDemo.created = Ok (s', row, plain) /\
  d_api_tokens (stored s') !! AuthDemo.id = Some row /\
  snd <$> verify_token s' plain AuthDemo.pepper (dt_add AuthDemo.now (89 * 86400 * seconds)) =
    Ok {| pc_name := "alice"; pc_roles := ["approver"; "operator"]; pc_kind := "human"; pc_token_id := Some AuthDemo.id; pc_method := "api_token" |}.
Proof.
  assert ((fun x => (tok_roles x.1.2, tok_revoked_at x.1.2)) <$> AuthDemo.created = Ok (["approver"; "operator"], None)) as H by (vm_compute; reflexivity).
  destruct AuthDemo.created as [[[s' row] plain]|] eqn:E; [|done]. exists s', row, plain. split; [done|].
  destruct (token_roundtrip _ _ _ _ _ _ _ _ _ _ E eq_refl eq_refl) as [Hs Hv]. split; [exact Hs|].
  destruct (create_token_Ok _ _ _ _ _ _ _ _ _ _ E) as (Hi & _ & _ & _ & Hcur). rewrite Hcur in Hs.
  destruct (Hv s' row (dt_add AuthDemo.now (89 * 86400 * seconds)) Hs (same_token_refl row)) as [Ev _].
  cbn in H. injection H as Er En. change (request_key (Some AuthDemo.pepper) AuthDemo.request) with AuthDemo.pepper in Ev.
  rewrite Ev, Er, En. vm_compute. reflexivity.
Defined.

(** ** What the limiter guarantees *)

Inductive LimiterOp : Type :=
  | RetryAfter (client : string) (now : float)
  | Failure (client : string) (now : float)
  | Reset.

Definition limiter_step (l : FailureLimiter) (op : LimiterOp) : FailureLimiter :=
  match op with
  | RetryAfter client now => (retry_after client now l).1
  | Failure client now => failure client now l
  | Reset => reset l
  end.

(** The memory the limiter uses is bounded, and every lockout empties a deque. *)
Record bounded (l : FailureLimiter) : Prop := {
  bd_clients : Z.of_nat (length (failures l)) <= MAX_CLIENTS;
  bd_distinct : NoDup (map fst (failures l));
  bd_hits : forall kv, kv ∈ failures l -> Z.of_nat (length kv.2) < Z.max 1 (max_failures l)
}.

Lemma set_hits_new c f m : c ∉ map fst m -> set_hits c f m = m ++ [(c, f [])].
Proof.
  induction m as [|[c' hits] m IH]; intros H; [done|]. cbn [map fst] in H. apply not_elem_of_cons in H as [H1 H2].
  cbn [set_hits]. unfold str_eq. rewrite bool_decide_eq_false_2 by done. cbn [app]. by rewrite IH.
Qed.

Lemma set_hits_old c f m : c ∈ map fst m -> map fst (set_hits c f m) = map fst m.
Proof.
  induction m as [|[c' hits] m IH]; intros H; [by apply not_elem_of_nil in H|]. cbn [set_hits]. unfold str_eq. case_bool_decide as E; [done|].
  cbn [map fst] in *. apply elem_of_cons in H as [->|H]; [done|]. by rewrite IH.
Qed.

Lemma set_hits_elem c f m kv : kv ∈ set_hits c f m -> kv ∈ m \/ kv.1 = c /\ exists hits, kv.2 = f hits.
Proof.
  induction m as [|[c' hits] m IH]; cbn [set_hits].
  - intros ->%list_elem_of_singleton. right. split; [done|by exists []].
  - unfold str_eq. case_bool_decide as E; intros [->|H]%elem_of_cons; [right; split; [done|by exists hits]|left; by right|left; by left|].
    destruct (IH H) as [?|?]; [left; by right|by right].
Qed.

Lemma hits_of_set c f m : hits_of c (set_hits c f m) = f (hits_of c m).
Proof.
  unfold hits_of. induction m as [|[c' hits] m IH]; cbn [set_hits]; [by cbn; unfold str_eq; rewrite bool_decide_eq_true_2|].
  unfold str_eq in *. case_bool_decide as E; cbn; [rewrite bool_decide_eq_true_2 by done; done|]. rewrite bool_decide_eq_false_2 by done. exact IH.
Qed.

Lemma hits_of_set_ne c c' f m : c' <> c -> hits_of c' (set_hits c f m) = hits_of c' m.
Proof.
  intros Hne. unfold hits_of. induction m as [|[k hits] m IH]; cbn; unfold str_eq in *; [by rewrite bool_decide_eq_false_2|].
  destruct (bool_decide (k = c)) eqn:E; cbn; [boolify; subst k; by rewrite bool_decide_eq_false_2 by done|].
  destruct (bool_decide (k = c')); [done|]. exact IH.
Qed.

Lemma set_hits_length c f m : length (set_hits c f m) = if bool_decide (c ∈ map fst m) then length m else S (length m).
Proof.
  case_bool_decide as H.
  - rewrite <- (length_map fst), set_hits_old by done. by rewrite length_map.
  - rewrite set_hits_new, length_app by done. cbn. lia.
Qed.

Lemma drop_before_length limit hits : (length (drop_before limit hits) <= length hits)%nat.
Proof. induction hits as [|x hits IH]; [done|]. cbn [drop_before]. destruct (f_lt x limit); cbn; lia. Qed.

(** The deque of the client after a failure, before it is stored. *)
Definition pruned (c : string) (now : float) (l : FailureLimiter) : list float :=
  drop_before (f_sub now (window_s l)) (hits_of c (failures l) ++ [now]).
Definition is_full (c : string) (now : float) (l : FailureLimiter) : bool := max_failures l <=? Z.of_nat (length (pruned c now l)).

Lemma NoDup_set_hits c f m : NoDup (map fst m) -> NoDup (map fst (set_hits c f m)).
Proof.
  intros H. destruct (decide (c ∈ map fst m)) as [Hc|Hc]; [by rewrite set_hits_old|].
  rewrite set_hits_new, map_app by done. apply NoDup_app. split_and!; [done| |apply NoDup_singleton].
  intros x Hx ->%list_elem_of_singleton. done.
Qed.

Lemma failure_bounded c now l : bounded l -> bounded (failure c now l).
Proof.
  intros [Hn Hd Hh]. unfold failure. fold (pruned c now l). fold (is_full c now l).
  set (f := fun _ : list float => if is_full c now l then [] else pruned c now l).
  assert (forall kv, kv ∈ set_hits c f (failures l) -> Z.of_nat (length kv.2) < Z.max 1 (max_failures l)) as Hs.
  { intros kv [Hkv|(_ & hits & ->)]%set_hits_elem; [by apply Hh|]. unfold f. unfold is_full. destruct (Z.leb_spec (max_failures l) (Z.of_nat (length (pruned c now l)))); cbn; lia. }
  pose proof (NoDup_set_hits c f _ Hd) as Hs'. pose proof (set_hits_length c f (failures l)) as Hl.
  unfold MAX_CLIENTS in *. destruct (Z.ltb_spec 10000 (Z.of_nat (length (set_hits c f (failures l))))) as [Hbig|Hsmall].
  - destruct (set_hits c f (failures l)) as [|kv m] eqn:Em; [done|]. cbn [tail]. split; cbn [failures max_failures].
    + change (Z.of_nat (length m) <= 10000). cbn [length] in Hl. destruct (bool_decide _); lia.
    + change (NoDup (map fst m)). cbn [map] in Hs'. by apply NoDup_cons in Hs' as [_ ?].
    + intros kv' Hin. apply Hs. by right.
  - split; done.
Qed.

Lemma step_bounded l op : bounded l -> bounded (limiter_step l op).
Proof.
  destruct op as [c now|c now|]; intros H; cbn [limiter_step].
  - unfold retry_after. destruct (f_lt _ _); [done|]. by destruct H.
  - by apply failure_bounded.
  - split; cbn; [done|constructor|by intros ? ?%not_elem_of_nil].
Qed.

Lemma steps_bounded ops l : bounded l -> bounded (foldl limiter_step l ops).
Proof. revert l. induction ops as [|op ops IH]; intros l H; [done|]. cbn [foldl]. by apply IH, step_bounded. Qed.

Lemma new_bounded m w k : bounded (new_limiter m w k).
Proof. split; cbn; [done|constructor|by intros ? ?%not_elem_of_nil]. Qed.

(** Taking the oldest client out never takes the one that just failed. *)
Lemma evict_other c f (m : list (string * list float)) : Z.of_nat (length m) <= MAX_CLIENTS ->
  let m' := set_hits c f m in
  hits_of c (if MAX_CLIENTS <? Z.of_nat (length m') then tail m' else m') = f (hits_of c m).
Proof.
  intros Hn. cbv zeta. destruct (Z.ltb_spec MAX_CLIENTS (Z.of_nat (length (set_hits c f m)))) as [Hbig|_]; [|apply hits_of_set].
  rewrite set_hits_length in Hbig. case_bool_decide as Hc; [lia|]. rewrite set_hits_new by done.
  destruct m as [|kv m]; [by cbn in Hbig|]. cbn [app tail]. rewrite <- (set_hits_new c f m); [|cbn in Hc; set_solver]. rewrite hits_of_set.
  unfold hits_of at 2. cbn [List.find]. unfold str_eq at 1. rewrite bool_decide_eq_false_2; [done|]. cbn in Hc. set_solver.
Qed.

Lemma drop_before_keep limit hits : (forall x, x ∈ hits -> f_lt x limit = false) -> drop_before limit hits = hits.
Proof. destruct hits as [|x hits]; [done|]. intros H. cbn [drop_before]. rewrite H by left. done. Qed.

Lemma failure_fields c now l : bounded l ->
  (max_failures (failure c now l) = max_failures l /\ window_s (failure c now l) = window_s l /\ lockout_s (failure c now l) = lockout_s l) /\
  hits_of c (failures (failure c now l)) = (if is_full c now l then [] else pruned c now l) /\
  locked_until (failure c now l) = if is_full c now l then <[c := f_add now (lockout_s l)]> (locked_until l) else locked_until l.
Proof.
  intros [Hn _ _]. split; [done|]. split; [|done]. exact (evict_other c (fun _ => if is_full c now l then [] else pruned c now l) _ Hn).
Qed.

(** One failure, with every earlier one of the client still in the window. *)
Lemma failure_step c now l : bounded l ->
  (forall x, x ∈ hits_of c (failures l) ++ [now] -> f_lt x (f_sub now (window_s l)) = false) ->
  let n := Z.of_nat (length (hits_of c (failures l))) + 1 in
  let l' := failure c now l in
  (max_failures l' = max_failures l /\ window_s l' = window_s l /\ lockout_s l' = lockout_s l) /\
  (n < max_failures l -> hits_of c (failures l') = hits_of c (failures l) ++ [now] /\ locked_until l' = locked_until l) /\
  (max_failures l <= n -> hits_of c (failures l') = [] /\ locked_until l' = <[c := f_add now (lockout_s l)]> (locked_until l)).
Proof.
  intros Hb Hw. cbv zeta. destruct (failure_fields c now l Hb) as (H1 & H2 & H3). rewrite H2, H3.
  assert (pruned c now l = hits_of c (failures l) ++ [now]) as E by (by apply drop_before_keep).
  unfold is_full. rewrite !E, length_app. cbn [length]. split; [done|].
  split; intros Hlt; destruct (Z.leb_spec (max_failures l) (Z.of_nat (length (hits_of c (failures l)) + 1))); (lia || done).
Qed.

Definition fail_all (c : string) (ts : list float) (l : FailureLimiter) : FailureLimiter := foldl (fun l t => failure c t l) l ts.

(** No time of [ts] has left the window of another. *)
Definition within (w : float) (ts : list float) : Prop := forall t t', t ∈ ts -> t' ∈ ts -> f_lt t (f_sub t' w) = false.

Lemma fail_all_counts c ts l : bounded l -> within (window_s l) (hits_of c (failures l) ++ ts) ->
  Z.of_nat (length (hits_of c (failures l))) + Z.of_nat (length ts) < max_failures l ->
  let l' := fail_all c ts l in
  bounded l' /\ (max_failures l' = max_failures l /\ window_s l' = window_s l /\ lockout_s l' = lockout_s l) /\
  hits_of c (failures l') = hits_of c (failures l) ++ ts /\ locked_until l' = locked_until l.
Proof.
  revert l. induction ts as [|t ts IH]; intros l Hb Hw Hn; cbv zeta; [by rewrite app_nil_r|]. cbn [length] in Hn.
  destruct (failure_step c t l Hb) as ((E1 & E2 & E3) & Hin & _); [intros x Hx; apply Hw; [set_solver|set_solver]|].
  destruct Hin as [Eh El]; [lia|]. cbn [fail_all foldl]. fold (fail_all c ts (failure c t l)).
  destruct (IH (failure c t l)) as (Hb' & (F1 & F2 & F3) & Fh & Fl).
  - by apply failure_bounded.
  - rewrite Eh, E2, <- app_assoc. exact Hw.
  - rewrite Eh, E1, length_app. cbn. lia.
  - split_and!; [done|congruence..| |congruence]. by rewrite Fh, Eh, <- app_assoc.
Qed.

Lemma steps_settings ops l : let l' := foldl limiter_step l ops in
  max_failures l' = max_failures l /\ window_s l' = window_s l /\ lockout_s l' = lockout_s l.
Proof.
  revert l. induction ops as [|op ops IH]; intros l; [done|]. cbn [foldl]. destruct (IH (limiter_step l op)) as (E1 & E2 & E3).
  rewrite E1, E2, E3. destruct op as [c now| |]; [|done..]. cbn [limiter_step]. unfold retry_after. by destruct (f_lt _ _).
Qed.

(** A client locked until [until]. *)
Lemma retry_locked c now until l : locked_until l !! c = Some until -> f_lt now until = true ->
  (retry_after c now l).1 = l /\ forall n, (retry_after c now l).2 = Ok n -> 1 <= n.
Proof.
  intros Hl Hlt. unfold retry_after. rewrite Hl. change (default f_zero (Some until)) with until. rewrite Hlt. split; [done|].
  intros n (x & _ & [= <-])%bind_Ok. lia.
Qed.

(** Repeated failures lock a client out, and only that client.  Whatever the
    limiter has seen, it remembers at most ten thousand clients, each with fewer
    failures than the limit.  A client with no failure on record that fails
    [max_failures] times within the window is locked from the last failure on,
    not before; until the lockout has passed it is told to wait at least a
    second, and what any other client is told does not change. *)
Theorem lockout_spec ops m w k c ts last :
  let l := foldl limiter_step (new_limiter m w k) ops in
  let l' := fail_all c (ts ++ [last]) l in
  hits_of c (failures l) = [] -> within w (ts ++ [last]) -> Z.of_nat (length ts) + 1 = m ->
  bounded l' /\ hits_of c (failures l') = [] /\
  (forall n, (n <= length ts)%nat -> locked_until (fail_all c (take n ts) l) = locked_until l) /\
  locked_until l' = <[c := f_add last k]> (locked_until l) /\
  (forall now, f_lt now (f_add last k) = true -> (retry_after c now l').1 = l' /\ forall n, (retry_after c now l').2 = Ok n -> 1 <= n) /\
  (forall other now, other <> c -> (retry_after other now l').2 = (retry_after other now l).2).
Proof.
  intros l l' Hh Hw Hm. pose proof (steps_bounded ops _ (new_bounded m w k)) as Hb. fold l in Hb.
  destruct (steps_settings ops (new_limiter m w k)) as (E1 & E2 & E3). fold l in E1, E2, E3. cbn [new_limiter max_failures window_s lockout_s] in E1, E2, E3.
  assert (forall n, (n <= length ts)%nat -> let x := fail_all c (take n ts) l in
    bounded x /\ (max_failures x = m /\ window_s x = w /\ lockout_s x = k) /\ hits_of c (failures x) = take n ts /\ locked_until x = locked_until l) as Hpre.
  { intros n Hn. destruct (fail_all_counts c (take n ts) l Hb) as (B & (F1 & F2 & F3) & F4 & F5).
    - rewrite Hh, E2. intros t t' Ht Ht'. apply Hw; apply elem_of_app; left; by eapply (subseteq_take n).
    - rewrite Hh, length_take, E1. cbn [length]. lia.
    - rewrite Hh in F4. cbv zeta. split_and!; congruence || done. }
  specialize (Hpre (length ts)) as Hall. destruct (Hall ltac:(lia)) as (B & (F1 & F2 & F3) & F4 & F5). rewrite firstn_all in *.
  assert (l' = failure c last (fail_all c ts l)) as El by (unfold l', fail_all; by rewrite foldl_app).
  destruct (failure_step c last (fail_all c ts l) B) as (_ & _ & Hfull); [rewrite F2, F4; intros; apply Hw; [done|set_solver]|].
  rewrite <- El, F1, F3, F4, F5 in Hfull. destruct Hfull as [Hemp Hlock]; [lia|]. split_and!; [|done| |done| |].
  - rewrite El. by apply failure_bounded.
  - intros n Hn. by apply Hpre.
  - intros now Hlt. apply (retry_locked _ _ (f_add last k)); [|done]. by rewrite Hlock, lookup_insert_eq.
  - intros other now Hne. unfold retry_after. rewrite Hlock, lookup_insert_ne by done. by destruct (f_lt _ _).
Qed.

Lemma lockout_spec_witness :
  let l := fail_all "1.2.3.4" [f_of_Z 10; f_of_Z 20; f_of_Z 30] (new_limiter 3 (f_of_Z 300) (f_of_Z 300)) in
  locked_until l = <["1.2.3.4" := f_of_Z 330]> ∅ /\ (retry_after "1.2.3.4" (f_of_Z 100) l).2 = Ok 230 /\ (retry_after "5.6.7.8" (f_of_Z 100) l).2 = Ok 0.
Proof.
  destruct (lockout_spec [] 3 (f_of_Z 300) (f_of_Z 300) "1.2.3.4" [f_of_Z 10; f_of_Z 20] (f_of_Z 30)) as (_ & _ & _ & Hl & _ & Ho).
  - reflexivity.
  - intros t t' Ht Ht'. cbn [app] in Ht, Ht'. repeat setoid_rewrite elem_of_cons in Ht. repeat setoid_rewrite elem_of_cons in Ht'.
    destruct_or! Ht; destruct_or! Ht'; try (by apply not_elem_of_nil in Ht); try (by apply not_elem_of_nil in Ht'); subst; vm_compute; reflexivity.
  - reflexivity.
  - split; [exact Hl|]. split; [vm_compute; reflexivity|]. exact (Ho "5.6.7.8" (f_of_Z 100) ltac:(discriminate)).
Defined.
