(* ===== verification/Gate.v ===== *)
(** * Gate: who may reach a route of the HTTP API

    Models the authentication and authorization dependency of
    [src/sdf_core/api.py]: [_authenticate], [authorize], the denials and the
    audit rows they leave.  The handler of the route is an argument, run with
    the principal; the repository's [.env], [ipaddress] and the two clocks are
    arguments too. *)

From S2P Require Import Prelude StateError Floats Json Db EvidenceMac Flush Samples FlushFacts Store Recovery UnitOfWork Auth.

(** ** Requests and the state of the server *)

Record Request : Type := {
  rq_method : string; rq_path : string; rq_route : option string;
  rq_client : option string; rq_server : option string;
  rq_headers : gmap string string; rq_path_params : list (string * json)
}.

(** The session of the request, and the limiter the process keeps. *)
Record Api : Type := { ap_work : Work; ap_limiter : FailureLimiter; ap_monotonic : nat -> float; ap_ticks : nat }.

Definition on_db {A} (m : ST Work A) : ST Api A := fun a =>
  let '(w, r) := m (ap_work a) in (a {{ ap_work := w }}, r).
Definition on_limiter {A} (f : float -> FailureLimiter -> FailureLimiter * result A) : ST Api A := fun a =>
  let '(l, r) := f (ap_monotonic a (ap_ticks a)) (ap_limiter a) in (a {{ ap_limiter := l; ap_ticks ::= S }}, r).

Definition PUBLIC_ROUTES : list (string * string) := [("GET", "/healthz")].

Definition client_host (r : Request) : string := let c := or_empty (rq_client r) in if str_truthy c then c else "unknown".
Definition route_of (r : Request) : string := default (rq_path r) (rq_route r).
Definition method_of (r : Request) : string := str_upper (rq_method r).

(** [header.partition(" ")], without the separator. *)
Fixpoint str_partition (c : ascii) (s : string) : string * string :=
  match s with
  | EmptyString => ("", "")
  | String d t => if bool_decide (c = d) then ("", t) else let '(a, b) := str_partition c t in (String d a, b)
  end.

Definition or_none (s : string) : option string := if str_truthy s then Some s else None.

Section gate.
Context (dotenv : environ) (address : string -> option bool).

(** ** Audit rows and denials *)

Definition audit_row (r : Request) (event : string) (p : option Principal) (status : option Z) (route : string)
    (detail : list (string * json)) (now : datetime) (id : Z) : AuthAuditRow := {|
  aa_id := id; aa_at := now; aa_event := event; aa_principal := pc_name <$> p; aa_token_id := p ≫= pc_token_id;
  aa_method := Some (rq_method r); aa_path := Some (str_take 500 (rq_path r)); aa_route := or_none (str_take 200 route);
  aa_status_code := status; aa_client := Some (str_take 64 (client_host r)); aa_detail := Some (JObj detail)
|}.

Definition add_audit (row : Z -> AuthAuditRow) (d : Db) : Db :=
  let id := next_id (d_auth_audit d) in d {{ d_auth_audit ::= insert id (row id) }}.

(** [_audit] *)
Definition record_audit (r : Request) (event : string) (p : option Principal) (status : option Z) (route : string)
    (detail : list (string * json)) : ST Work unit :=
  now ← utcnow;
  _ ← pend (add_audit (audit_row r event p status route detail now));
  commit.

(** [try: m  except Exception: db.rollback()] *)
Definition or_rollback (m : ST Work unit) : ST Work unit := catch m (fun _ => Some rollback).

(** [raise _deny(...)] *)
Definition deny {A} (r : Request) (route : string) (status : Z) (reason detail : string) (p : option Principal) (headers : list (string * string)) : ST Api A :=
  _ ← on_db (or_rollback (_ ← rollback; record_audit r (if status =? 401 then "auth_failed" else "denied") p (Some status) route [("reason", JStr reason)]));
  fail (HTTPException status detail headers).

(** ** Authentication *)

Definition on_session {A} (f : Session -> result (Session * A)) : ST Work A := fun w =>
  match f (session w) with
  | Ok (s, x) => (w {{ session := s }}, Ok x)
  | Err e => (w, Err e)
  end.

Definition verify_presented (presented key : string) : ST Work Principal :=
  now ← utcnow;
  on_session (fun s => verify_token s presented key now).

Definition count_failure (client : string) : ST Api unit := on_limiter (fun now l => (failure client now l, Ok ())).

Definition NOT_CONFIGURED : string := "authentication is not configured: set SDF_AUTH_PEPPER and create a token (python -m sdf_core.auth_cli create), or SDF_AUTH_DEV_INSECURE=1 on 127.0.0.1".

Definition challenge : list (string * string) := [("WWW-Authenticate", "Bearer")].

Definition is_auth_error (e : exn) : option string := match e with OtherError cls reason => if str_eq cls "AuthError" then Some reason else None | _ => None end.

(** A request that needs no token: a direct one from this machine. *)
Definition direct_local (r : Request) : bool :=
  is_loopback address (Some (client_host r)) && is_loopback address (Some (or_empty (rq_server r))) &&
  negb (existsb (fun h => bool_decide (is_Some (rq_headers r !! h))) ["x-forwarded-for"; "forwarded"; "x-real-ip"]).

Definition authenticate (r : Request) (route : string) : ST Api Principal :=
  let client := client_host r in
  retry ← on_limiter (retry_after client);
  _ ← when (negb (retry =? 0))
        (deny r route 429 "locked_out" "too many failed authentication attempts" None [("Retry-After", pretty retry)]);
  env ← gets (fun a => h_environ (wk_host (ap_work a)));
  let header := or_empty (rq_headers r !! "authorization") in
  let '(scheme, presented) := str_partition (ascii_of_nat 32) header in
  if negb (str_truthy header) && dev_insecure env dotenv then
    if direct_local r then mret DEV_PRINCIPAL
    else deny r route 403 "dev_not_loopback" "SDF_AUTH_DEV_INSECURE only serves direct requests to 127.0.0.1" None []
  else match pepper env dotenv with
  | None => fail (HTTPException 503 NOT_CONFIGURED [])
  | Some key =>
      if negb (str_eq (str_lower scheme) "bearer") || negb (str_truthy (str_strip presented)) then
        _ ← count_failure client;
        deny r route 401 "missing" "a bearer token is required" None challenge
      else
        p ← catch (on_db (verify_presented (str_strip presented) key))
              (fun e => reason ← is_auth_error e;
                        Some (_ ← count_failure client;
                              deny r route 401 reason "invalid, expired or revoked token" None challenge));
        _ ← on_db commit;
        mret p
  end.

(** ** Authorization *)

(** [authorize] up to its [yield]: the principal, or nobody on a public route. *)
Definition check_access (r : Request) : ST Api (option Principal) :=
  let route := route_of r in
  let method := method_of r in
  if bool_decide ((method, route) ∈ PUBLIC_ROUTES) then mret None
  else
    p ← authenticate r route;
    let needed := required_role method route in
    _ ← when (negb (has needed p))
          (deny r route 403 ("needs_" +:+ needed) ("this action needs the " +:+ needed +:+ " role") (Some p) []);
    _ ← when (str_eq needed "approver" && negb (can_approve p))
          (deny r route 403 "not_human_approver" "only a human, non-agent identity may approve or decide" (Some p) []);
    mret (Some p).

(** The status an outcome of the handler is recorded with; [success] is the
    route's own. *)
Definition recorded_status {A} (success : option Z) (x : result A) : Z :=
  match x with
  | Ok _ => match success with Some s => if s =? 0 then 200 else s | None => 200 end
  | Err (HTTPException status _ _) => status
  | Err _ => 500
  end.

Definition record_mutation {A} (r : Request) (p : Principal) (success : option Z) (x : result A) : ST Work unit :=
  or_rollback (_ ← rollback;
    record_audit r "mutation" (Some p) (Some (recorded_status success x)) (route_of r)
      [("roles", JArr (map JStr (sorted_set (pc_roles p)))); ("method", JStr (pc_method p)); ("path_params", JObj (rq_path_params r))]).

(** A request: [authorize], with the handler of the route at its [yield]. *)
Definition authorize {A} (r : Request) (success : option Z) (handler : option Principal -> ST Work A) : ST Api A :=
  who ← check_access r;
  match who with
  | None => on_db (handler None)
  | Some p =>
      if str_in (method_of r) SAFE_METHODS then on_db (handler (Some p))
      else fun a =>
        let '(w, x) := handler (Some p) (ap_work a) in
        let '(w, _) := record_mutation r p success x w in
        (a {{ ap_work := w }}, x)
  end.
End gate.
