(* ===== verification/GateFacts.v ===== *)
(** * GateFacts: what the gate of the HTTP API guarantees

    Theorems about [Gate]: who is let through, what a request leaves in the
    database, and that every mutation is on record. *)

From S2P Require Import Prelude StateError Floats Json Db EvidenceMac Flush Samples FlushFacts Store Recovery UnitOfWork Auth Gate.

(** ** Flushing audit rows and token times *)

Lemma subseteq_quiet {K R} `{Countable K} `{EqDecision R} (t : Db -> gmap K R) s :
  t (stored s) ⊆ t (current s) -> deleted_rows t s = [] /\ dirty_rows t s = [].
Proof.
  intros Hsub. split.
  - unfold deleted_rows, rows. assert (t (stored s) ∖ t (current s) = ∅) as ->; [|by rewrite map_to_list_empty].
    apply map_eq. intros k. rewrite lookup_empty. apply lookup_difference_None. destruct (t (stored s) !! k) eqn:E; [right|by left].
    exists r. by eapply lookup_weaken.
  - destruct (dirty_rows t s) as [|[a b] l] eqn:E; [done|]. assert ((a, b) ∈ dirty_rows t s) as (k & Ha & Hb & Hne)%elem_dirty_rows by (rewrite E; left).
    cbn in *. eapply lookup_weaken in Ha; [|exact Hsub]. congruence.
Qed.

(** A session that adds audit rows and changes tokens in a way the listener
    allows is stored whole. *)
Record logged (s : Session) : Prop := {
  lg_tables : current s = (stored s) {{ d_api_tokens := d_api_tokens (current s); d_auth_audit := d_auth_audit (current s) }};
  lg_audit : d_auth_audit (stored s) ⊆ d_auth_audit (current s);
  lg_tokens : forall k t, d_api_tokens (stored s) !! k = Some t -> exists t', d_api_tokens (current s) !! k = Some t' /\ (t = t' \/ guard_token (t, t') = Ok ())
}.

Lemma flush_logged h s : logged s -> constraints_ok (current s) = true -> flush h s = Ok (open_session (current s)).
Proof.
  intros [E Ha Ht] Hc. destruct (subseteq_quiet d_auth_audit s Ha) as [Ha1 Ha2].
  assert (d_attempts (current s) = d_attempts (stored s)) as Eat by (rewrite E; done).
  assert (require_revisions s = s) as Hr.
  { unfold require_revisions. destruct s as [st cu]. f_equal. cbn [stored current] in *.
    assert (merge mark_new (d_attempts st) (d_attempts cu) = d_attempts cu) as ->; [|by destruct cu].
    apply map_eq. intros k. rewrite (lookup_merge mark_new), Eat. by destruct (d_attempts st !! k). }
  assert (deleted_rows d_api_tokens s = []) as Ht1.
  { unfold deleted_rows, rows. assert (d_api_tokens (stored s) ∖ d_api_tokens (current s) = ∅) as ->; [|by rewrite map_to_list_empty].
    apply map_eq. intros k. rewrite lookup_empty. apply lookup_difference_None.
    destruct (d_api_tokens (stored s) !! k) as [t|] eqn:Ek; [right|by left]. destruct (Ht k t Ek) as (t' & -> & _). by eexists. }
  assert (each (dirty_rows d_api_tokens s) guard_token = Ok ()) as Ht2.
  { apply each_Ok. intros [a b] (k & Hk & Hk' & Hne)%elem_dirty_rows. cbn in *. destruct (Ht k a Hk) as (t' & E' & [->|Hg]); [congruence|].
    rewrite Hk' in E'. by injection E' as ->. }
  assert (guards s = Ok s) as Hg.
  { unfold guards, reject_evidence_mutation, reject_tool_audit_mutation, reject_dangling_decision_edges,
      reject_agent_message_mutation, append_only, guard_plans_and_decisions, enforce_plan_gate, guard_auth_rows,
      guard_attempt_revisions.
    rewrite Hr. same_rows E. cbn. rewrite Ha1, Ha2, Ht1, Ht2. cbn. by same_rows E. }
  unfold flush. rewrite Hg. cbn [mbind result_bind].
  rewrite (on_new_known _ (d_plans (stored s)) (d_plans (current s))) by (rewrite E; done).
  cbn [mbind result_bind].
  rewrite (on_new_known _ (d_evidence (stored s)) (d_evidence (current s))) by (rewrite E; done).
  cbn [mbind result_bind].
  assert (forall d : Db, d {{ d_plans := d_plans d; d_evidence := d_evidence d }} = d) as -> by (by intros []).
  by rewrite Hc.
Qed.

Lemma constraints_audit d aud : constraints_ok (d {{ d_auth_audit := aud }}) = constraints_ok d.
Proof. reflexivity. Qed.

Lemma constraints_tokens d toks : constraints_ok d = true ->
  (forall k t, toks !! k = Some t -> exists k' t', d_api_tokens d !! k' = Some t' /\ tok_kind t = tok_kind t') ->
  constraints_ok (d {{ d_api_tokens := toks }}) = true.
Proof.
  intros Hc Ht. unfold constraints_ok in *. cbn -[all_rows unique_by] in *. cbv [constant].
  assert (all_rows (fun r => str_in (tok_kind r) ["human"; "service"]) toks = true) as ->.
  { apply all_rows_iff. intros k t Hk. destruct (Ht k t Hk) as (k' & t' & Hk' & ->).
    repeat rewrite andb_true_iff in Hc. destruct_and! Hc.
    match goal with H : all_rows (fun r => str_in (tok_kind r) _) _ = true |- _ => exact (proj1 (all_rows_iff _ _) H k' t' Hk') end. }
  repeat rewrite andb_true_iff in Hc. destruct_and! Hc. repeat (rewrite andb_true_iff; split); done.
Qed.

(** ** What a request leaves behind *)

(** The same database, up to audit rows added and the times tokens were used. *)
Record access_log (c c' : Db) : Prop := {
  al_tables : c' = c {{ d_api_tokens := d_api_tokens c'; d_auth_audit := d_auth_audit c' }};
  al_audit : d_auth_audit c ⊆ d_auth_audit c';
  al_tokens : forall k, (fun t => t {{ tok_last_used_at := None }}) <$> d_api_tokens c' !! k = (fun t => t {{ tok_last_used_at := None }}) <$> d_api_tokens c !! k
}.

#[export] Instance access_log_refl : Reflexive access_log.
Proof. intros c. split; [by destruct c|done|done]. Qed.

#[export] Instance access_log_trans : Transitive access_log.
Proof.
  intros a b c [E1 S1 T1] [E2 S2 T2]. split; [|by etrans|intros k; by rewrite T2]. rewrite E2. clear -E1. rewrite E1. reflexivity.
Qed.

(** A fresh session over a consistent database. *)
Definition ready (w : Work) : Prop := fresh w /\ constraints_ok (committed w) = true.

Definition audited (row : Z -> AuthAuditRow) (w : Work) : Work :=
  let c := add_audit row (committed w) in
  w {{ wk_ticks ::= S; session := open_session c; inactive := false; committed := c }}.

Lemma audit_fresh (c : Db) row : d_auth_audit c ⊆ d_auth_audit (add_audit row c).
Proof. unfold add_audit. cbn. apply insert_subseteq, next_id_fresh. Qed.

Lemma access_log_audit c row : access_log c (add_audit row c).
Proof. split; [by destruct c|apply audit_fresh|done]. Qed.

Lemma commit_run w s : inactive w = false -> flush (wk_host w) (session w) = Ok s -> commit w = (w {{ session := s; committed := stored s }}, Ok ()).
Proof. intros Hi Hf. unfold commit. rewrite st_bind_run. unfold flush_work. rewrite Hi, Hf. reflexivity. Qed.

(** An audit row is always written, and it is all that is. *)
Lemma recorded_run r event p status route detail w : constraints_ok (committed w) = true ->
  or_rollback (_ ← rollback; record_audit r event p status route detail) w =
  (audited (audit_row r event p status route detail (wk_clock w (wk_ticks w))) w, Ok ()).
Proof.
  intros Hc. set (row := audit_row r event p status route detail (wk_clock w (wk_ticks w))).
  assert (flush (wk_host w) {| stored := committed w; current := add_audit row (committed w) |} = Ok (open_session (add_audit row (committed w)))) as Hf.
  { apply flush_logged; [|exact Hc]. split; [by destruct (committed w)|apply audit_fresh|]. intros k t Hk. exists t. split; [done|by left]. }
  unfold or_rollback, catch, rollback, record_audit. rewrite modify_bind, st_bind_run. unfold utcnow at 1. cbv beta iota.
  unfold pend. rewrite modify_bind. erewrite commit_run; [|done|exact Hf]. by destruct w.
Qed.

Lemma audited_ready row w : constraints_ok (committed w) = true -> ready (audited row w) /\ access_log (committed w) (committed (audited row w)).
Proof. intros Hc. split; [by repeat split|apply access_log_audit]. Qed.

(** ** Authentication *)

Definition used (s : Session) (id : string) (row : ApiTokenRow) (now : datetime) : Session :=
  if last_used_due row now then {| stored := stored s; current := (current s) {{ d_api_tokens ::= insert id (row {{ tok_last_used_at := Some now }}) }} |} else s.

Lemma verify_token_Ok s presented key now s' p : verify_token s presented key now = Ok (s', p) <->
  exists id row, presents (current s) key presented id row /\ tok_revoked_at row = None /\ unexpired row now /\ p = principal_of row /\ s' = used s id row now.
Proof.
  setoid_rewrite presents_match. unfold verify_token, unexpired, used. split.
  - destruct (token_match presented) as [[id secret]|]; cbn beta iota zeta; [|done].
    destruct (d_api_tokens (current s) !! id) as [row|] eqn:Hrow; cbn beta iota zeta; [|done].
    intros (u1 & H1%raise_if_Ok & (u2 & H2%raise_if_Ok & (u3 & H3%raise_if_Ok & [= <- <-])%bind_Ok)%bind_Ok)%bind_Ok.
    unfold str_eq in H1. boolify. rewrite <- eq_None_not_Some in H2. exists id, row. split; [by exists secret|]. split_and!; done || lia.
  - intros (id & row & (secret & -> & Hrow & Hh) & Hr & He & -> & ->). cbn beta iota zeta. rewrite Hrow. cbn beta iota zeta.
    unfold str_eq. rewrite (bool_decide_eq_true_2 (hash _ _ = _)) by done. rewrite Hr. cbn [negb raise_if mbind result_bind].
    rewrite (bool_decide_eq_false_2 (is_Some (@None datetime))) by (apply is_Some_None). cbn [raise_if mbind result_bind].
    destruct (Z.leb_spec (dt_us (aware (tok_expires_at row))) (dt_us now)); [lia|]. reflexivity.
Qed.

Lemma verify_token_Err s presented key now e : verify_token s presented key now = Err e -> exists reason, e = AuthError reason.
Proof.
  unfold verify_token. destruct (token_match presented) as [[id secret]|]; cbn beta iota zeta; [|intros [= <-]; by eexists].
  destruct (d_api_tokens (current s) !! id) as [row|]; cbn beta iota zeta; [|intros [= <-]; by eexists].
  unfold raise_if. destruct (negb _); cbn [mbind result_bind]; [intros [= <-]; by eexists|].
  destruct (bool_decide _); cbn [mbind result_bind]; [intros [= <-]; by eexists|].
  destruct (_ <=? _); cbn [mbind result_bind]; [intros [= <-]; by eexists|done].
Qed.

Lemma changed_if_same {A} `{EqDecision A} key (a : A) : changed_if key a a = [].
Proof. unfold changed_if. by rewrite bool_decide_eq_true_2. Qed.

Lemma guard_last_used row now : tok_revoked_at row = None -> guard_token (row, row {{ tok_last_used_at := Some now }}) = Ok ().
Proof.
  intros Hr. unfold guard_token. rewrite Hr. rewrite (bool_decide_eq_false_2 (is_Some (@None datetime))) by (apply is_Some_None). cbn [andb].
  assert (only_in TOKEN_MUTABLE (ApiTokenRow_changed row (row {{ tok_last_used_at := Some now }})) = true) as ->; [|done].
  unfold ApiTokenRow_changed. destruct row. cbn -[changed_if only_in]. cbv [constant]. rewrite !changed_if_same. cbn [app].
  unfold changed_if. by case_bool_decide.
Qed.

Lemma used_logged c id row now : d_api_tokens c !! id = Some row -> tok_revoked_at row = None -> constraints_ok c = true ->
  let s := used (open_session c) id row now in
  logged s /\ constraints_ok (current s) = true /\ access_log c (current s).
Proof.
  intros Hrow Hr Hc. unfold used. destruct (last_used_due row now); cbn [open_session stored current]; cbv zeta.
  2: { split_and!; [|done|reflexivity]. split; [by destruct c|done|]. intros k t Hk. exists t. split; [done|by left]. }
  split_and!.
  - split; cbn [stored current]; [by destruct c|done|]. intros k t Hk. cbn. destruct (decide (k = id)) as [->|Hne].
    + rewrite lookup_insert_eq. eexists. split; [done|right]. rewrite Hrow in Hk. injection Hk as <-. by apply guard_last_used.
    + rewrite lookup_insert_ne by done. exists t. split; [done|by left].
  - apply (constraints_tokens c (<[id := row {{ tok_last_used_at := Some now }}]> (d_api_tokens c)) Hc).
    intros k t [[<- <-]|[_ Hk]]%lookup_insert_Some; [by exists id, row|by exists k, t].
  - split; [by destruct c|done|]. intros k. cbn. destruct (decide (k = id)) as [->|Hne]; [|by rewrite lookup_insert_ne by done].
    rewrite lookup_insert_eq, Hrow. reflexivity.
Qed.

(** A token verified and its use committed. *)
Lemma verify_commit w presented key s p : ready w -> let now := wk_clock w (wk_ticks w) in
  verify_token (session w) presented key now = Ok (s, p) ->
  exists w1 w2, verify_presented presented key w = (w1, Ok p) /\ commit w1 = (w2, Ok ()) /\ ready w2 /\ access_log (committed w) (committed w2).
Proof.
  intros [[Hs Hi] Hc] now Hv. unfold verify_presented. rewrite st_bind_run. unfold utcnow at 1. cbv beta iota.
  pose proof Hv as Hv'. apply verify_token_Ok in Hv' as (id & row & Hp & Hr & _ & _ & ->). rewrite Hs in *. cbn [open_session current] in Hp.
  destruct Hp as (secret & _ & _ & _ & Hrow & _). destruct (used_logged (committed w) id row now Hrow Hr Hc) as (Hl & Hok & Hal).
  unfold on_session. cbn [session]. replace (session (w {{ wk_ticks ::= S }})) with (open_session (committed w)) by (by rewrite <- Hs).
  fold now. rewrite Hv. eexists _, _. split; [reflexivity|]. split; [apply commit_run; [exact Hi|by apply flush_logged]|]. done.
Qed.

(** ** Who is established, and who may go on *)

Section facts.
Context (dotenv : environ) (address : string -> option bool).

Definition header_of (r : Request) : string := or_empty (rq_headers r !! "authorization").

(** The request carries a live token, or comes from the machine itself in the
    insecure development mode. *)
Inductive established (c : Db) (env : environ) (now : datetime) (r : Request) : Principal -> Prop :=
  | by_token key scheme presented id row :
      pepper env dotenv = Some key -> str_partition (ascii_of_nat 32) (header_of r) = (scheme, presented) -> str_lower scheme = "bearer" ->
      presents c key (str_strip presented) id row -> tok_revoked_at row = None -> unexpired row now ->
      established c env now r (principal_of row)
  | by_machine : header_of r = "" -> dev_insecure env dotenv = true -> direct_local address r = true ->
      established c env now r DEV_PRINCIPAL.

(** The limiter lets the client try. *)
Definition may_try (r : Request) (a : Api) : Prop := (retry_after (client_host r) (ap_monotonic a (ap_ticks a)) (ap_limiter a)).2 = Ok 0.

Definition kept (c : Db) (a : Api) : Prop := ready (ap_work a) /\ access_log c (committed (ap_work a)).

(** The state and the answer of a step: what [Q] says of the answer. *)
Definition answers {A} (c : Db) (m : ST Api A) (a : Api) (Q : A -> Prop) : Prop :=
  kept c (m a).1 /\ forall x, (m a).2 = Ok x <-> Q x.

Lemma deny_answers {A} c r route status reason detail p headers a :
  kept c a -> answers c (@deny A r route status reason detail p headers) a (fun _ => False).
Proof.
  intros [[Hf Hc] Hal]. unfold answers, deny. rewrite st_bind_run. unfold on_db.
  rewrite (recorded_run r (if status =? 401 then "auth_failed" else "denied") p (Some status) route [("reason", JStr reason)] (ap_work a) Hc).
  cbn [fst snd fail]. split; [|done].
  destruct (audited_ready (audit_row r (if status =? 401 then "auth_failed" else "denied") p (Some status) route [("reason", JStr reason)] (wk_clock (ap_work a) (wk_ticks (ap_work a)))) (ap_work a) Hc) as [Hr Hal'].
  split; [exact Hr|]. by etrans.
Qed.

Lemma fail_answers {A} c e a : kept c a -> answers c (@fail Api A e) a (fun _ => False).
Proof. by split. Qed.

(** A step that never succeeds ends the block. *)
Lemma answers_bind_stop {A B} c (m : ST Api A) (f : A -> ST Api B) a : answers c m a (fun _ => False) -> answers c (m ≫= f) a (fun _ => False).
Proof.
  intros [Hk Hq]. unfold answers. rewrite st_bind_run. destruct (m a) as [a' [x|e]]; cbn [fst snd] in *; [by destruct (proj1 (Hq x))|].
  split; [done|]. intros x. by split.
Qed.

Lemma answers_ext {A} c (m : ST Api A) a (Q Q' : A -> Prop) : (forall x, Q x <-> Q' x) -> answers c m a Q -> answers c m a Q'.
Proof. intros HQ [Hk Hq]. split; [done|]. intros x. by rewrite Hq. Qed.

Lemma answers_step {A B} c (m : ST Api A) (f : A -> ST Api B) a a1 x Q :
  m a = (a1, Ok x) -> answers c (f x) a1 Q -> answers c (m ≫= f) a Q.
Proof. intros E H. unfold answers. rewrite st_bind_run, E. exact H. Qed.

Lemma answers_error {A B} c (m : ST Api A) (f : A -> ST Api B) a a1 e :
  m a = (a1, Err e) -> kept c a1 -> answers c (m ≫= f) a (fun _ => False).
Proof. intros E H. unfold answers. rewrite st_bind_run, E. by split. Qed.

Lemma answers_when_stop {B} c b (m : ST Api unit) (f : unit -> ST Api B) a Q :
  (b = true -> answers c m a (fun _ => False) /\ forall x, ~ Q x) -> (b = false -> answers c (f ()) a Q) -> answers c (when b m ≫= f) a Q.
Proof.
  intros H1 H2. destruct b; [|by apply H2]. destruct (H1 eq_refl) as [Hm HQ].
  eapply answers_ext; [|by apply answers_bind_stop]. intros x. split; [done|]. by intros []%HQ.
Qed.

Lemma count_failure_run client a : exists l, count_failure client a = (a {{ ap_limiter := l; ap_ticks ::= S }}, Ok ()).
Proof. by eexists. Qed.

(** The only ways a principal is established from the header. *)
Lemma established_token c env now r p key scheme presented :
  pepper env dotenv = Some key -> str_partition (ascii_of_nat 32) (header_of r) = (scheme, presented) ->
  negb (str_truthy (header_of r)) && dev_insecure env dotenv = false ->
  established c env now r p <->
  str_lower scheme = "bearer" /\ exists id row, presents c key (str_strip presented) id row /\ tok_revoked_at row = None /\ unexpired row now /\ p = principal_of row.
Proof.
  intros Hk Hp Hd. split.
  - intros [key' s' p' id row Hk' Hp' ? ? ? ?|Hh Hdev _].
    + rewrite Hk in Hk'. injection Hk' as <-. rewrite Hp in Hp'. injection Hp' as <- <-. split; [done|]. by exists id, row.
    + rewrite Hh, Hdev in Hd. done.
  - intros (Hs & id & row & ? & ? & ? & ->). by eapply by_token.
Qed.

Lemma presents_truthy c key presented id row : presents c key presented id row -> str_truthy presented = true.
Proof. by intros (secret & -> & _). Qed.

Lemma kept_limiter c a l : kept c a -> kept c (a {{ ap_limiter := l; ap_ticks ::= S }}).
Proof. done. Qed.

Lemma catch_Err {S A} (m : ST S A) h s s' e k : m s = (s', Err e) -> h e = Some k -> catch m h s = k s'.
Proof. intros E Hk. unfold catch. by rewrite E, Hk. Qed.

Lemma is_auth_error_reason reason : is_auth_error (AuthError reason) = Some reason.
Proof. reflexivity. Qed.

(** The branch that checks a token. *)
Lemma token_answers c r route key presented a : kept c a ->
  answers c
    (p ← catch (on_db (verify_presented presented key))
           (fun e => reason ← is_auth_error e;
                     Some (_ ← count_failure (client_host r); deny r route 401 reason "invalid, expired or revoked token" None challenge));
     _ ← on_db commit; mret p) a
    (fun p => exists id row, presents (committed (ap_work a)) key presented id row /\ tok_revoked_at row = None /\
       unexpired row (wk_clock (ap_work a) (wk_ticks (ap_work a))) /\ p = principal_of row).
Proof.
  intros [Hw Hal]. set (w := ap_work a) in *. set (now := wk_clock w (wk_ticks w)).
  assert (session w = open_session (committed w)) as Hs by apply Hw.
  destruct (verify_token (session w) presented key now) as [[s p]|e] eqn:Hv.
  - destruct (verify_commit w presented key s p Hw Hv) as (w1 & w2 & E1 & E2 & Hr & Hl).
    apply (answers_step _ _ _ _ (a {{ ap_work := w1 }}) p).
    { unfold catch, on_db. fold w. by rewrite E1. }
    apply (answers_step _ _ _ _ (a {{ ap_work := w2 }}) ()).
    { unfold on_db. change (ap_work (a {{ ap_work := w1 }})) with w1. rewrite E2. reflexivity. }
    split; [split; [exact Hr|by etrans]|]. intros x. cbn. rewrite Hs in Hv. apply verify_token_Ok in Hv as (id & row & Hp & H1 & H2 & -> & _).
    cbn [open_session current] in Hp. split; [intros [= <-]; by exists id, row|]. intros (id' & row' & Hp' & _ & _ & ->).
    apply presents_match in Hp as (x1 & E & R & _), Hp' as (x2 & E' & R' & _). congruence.
  - pose proof (verify_token_Err _ _ _ _ _ Hv) as [reason ->].
    eapply (answers_ext _ _ _ (fun _ => False)).
    { intros x. split; [done|]. intros (id & row & ? & ? & ? & ->).
      assert (verify_token (session w) presented key now = Ok (used (session w) id row now, principal_of row)) as E; [|congruence].
      apply verify_token_Ok. exists id, row. rewrite Hs. done. }
    apply answers_bind_stop. unfold answers.
    assert (verify_presented presented key w = (w {{ wk_ticks ::= S }}, Err (AuthError reason))) as E.
    { unfold verify_presented, on_session. rewrite st_bind_run. unfold utcnow at 1. cbv beta iota. fold now.
      change (session (w {{ wk_ticks ::= S }})) with (session w). by rewrite Hv. }
    erewrite (catch_Err _ _ a (a {{ ap_work := w {{ wk_ticks ::= S }} }}) (AuthError reason)); [|unfold on_db; fold w; by rewrite E|by rewrite is_auth_error_reason].
    rewrite st_bind_run. destruct (count_failure_run (client_host r) (a {{ ap_work := w {{ wk_ticks ::= S }} }})) as [l ->].
    apply deny_answers, kept_limiter. by split.
Qed.

Definition env_of (a : Api) : environ := h_environ (wk_host (ap_work a)).
Definition now_of (a : Api) : datetime := wk_clock (ap_work a) (wk_ticks (ap_work a)).
Definition db_of (a : Api) : Db := committed (ap_work a).

Lemma authenticate_answers c r route a : kept c a ->
  answers c (authenticate dotenv address r route) a (fun p => may_try r a /\ established (db_of a) (env_of a) (now_of a) r p).
Proof.
  intros Hk. unfold authenticate, may_try. destruct (retry_after (client_host r) (ap_monotonic a (ap_ticks a)) (ap_limiter a)) as [l [n|e]] eqn:Hr.
  2: { eapply answers_ext; [|eapply answers_error; [unfold on_limiter; rewrite Hr; reflexivity|exact Hk]]. intros p. split; [done|]. by intros [? _]. }
  eapply answers_step; [unfold on_limiter; rewrite Hr; reflexivity|]. apply answers_when_stop.
  { intros Hn. split; [by apply deny_answers|]. intros p [[= ->] _]. done. }
  intros Hn%negb_false_iff%Z.eqb_eq. subst n.
  eapply (answers_ext _ _ _ (fun p => established (db_of a) (env_of a) (now_of a) r p)); [by intros p; split; [|intros [_ ?]]|].
  eapply answers_step; [reflexivity|]. cbv zeta. fold (header_of r).
  change (h_environ (wk_host (ap_work (a {{ ap_limiter := l; ap_ticks ::= S }})))) with (env_of a).
  destruct (str_partition (ascii_of_nat 32) (header_of r)) as [scheme presented] eqn:Hpart.
  destruct (negb (str_truthy (header_of r)) && dev_insecure (env_of a) dotenv) eqn:Hdev; cbv iota.
  - apply andb_true_iff in Hdev as [Hh Hdev]. assert (header_of r = "") as Hempty by (by destruct (header_of r)).
    assert (forall p, established (db_of a) (env_of a) (now_of a) r p <-> direct_local address r = true /\ p = DEV_PRINCIPAL) as Hest.
    { intros p. split; [|by intros [? ->]; apply by_machine]. intros [key s' p' id row _ Hp' Hb _ _ _|_ _ Hd]; [|done].
      rewrite Hempty in Hp'. injection Hp' as <- <-. done. }
    destruct (direct_local address r).
    + split; [exact Hk|]. intros p. rewrite Hest. cbn. split; [by intros [= <-]|by intros [_ ->]].
    + eapply answers_ext; [|by apply deny_answers]. intros p. rewrite Hest. by split; [|intros [? _]].
  - destruct (pepper (env_of a) dotenv) as [key|] eqn:Hkey.
    2: { eapply answers_ext; [|by apply fail_answers]. intros p. split; [done|]. intros [key s' p' id row Hk' _ _ _ _ _|Hh Hd _]; [congruence|].
         by rewrite Hh, Hd in Hdev. }
    eapply answers_ext; [intros p; symmetry; exact (established_token _ _ _ _ p _ _ _ Hkey Hpart Hdev)|].
    unfold str_eq. destruct (bool_decide (str_lower scheme = "bearer")) eqn:Hb; boolify; cbn [negb orb].
    + destruct (str_truthy (str_strip presented)) eqn:Ht; cbn [negb].
      * eapply answers_ext; [|by apply token_answers]. intros p. split; [by intros H; split|by intros [_ H]].
      * eapply answers_ext; [|eapply answers_step; [reflexivity|by apply deny_answers]]. intros p. split; [done|].
        intros (_ & id & row & Hp%presents_truthy & _). congruence.
    + eapply answers_ext; [|eapply answers_step; [reflexivity|by apply deny_answers]]. intros p. split; [done|]. by intros [? _].
Qed.

(** The role of the route, and for an approval a human. *)
Definition permitted (r : Request) (p : Principal) : Prop :=
  let needed := required_role (method_of r) (route_of r) in
  has needed p = true /\ (needed = "approver" -> can_approve p = true).

Definition public (r : Request) : Prop := (method_of r, route_of r) ∈ PUBLIC_ROUTES.
End facts.

Lemma check_access_answers dotenv address c r a : kept c a -> ~ public r ->
  answers c (check_access dotenv address r) a (fun who => exists p, who = Some p /\
    may_try r a /\ established dotenv address (db_of a) (env_of a) (now_of a) r p /\ permitted r p).
Proof.
  intros Hk Hpub. unfold check_access. rewrite bool_decide_eq_false_2 by exact Hpub.
  pose proof (authenticate_answers dotenv address c r (route_of r) a Hk) as [Hk' Hq]. unfold permitted.
  destruct (authenticate dotenv address r (route_of r) a) as [a1 [p|e]] eqn:E; cbn [fst snd] in *.
  2: { eapply answers_ext; [|by eapply answers_error]. intros who. split; [done|]. intros (p & -> & H1 & H2 & _). discriminate (proj2 (Hq p) (conj H1 H2)). }
  assert (forall q, may_try r a -> established dotenv address (db_of a) (env_of a) (now_of a) r q -> q = p) as Huniq.
  { intros q H1 H2. pose proof (proj2 (Hq q) (conj H1 H2)) as E'. by injection E'. }
  pose proof (proj1 (Hq p) eq_refl) as [Hmay Hest].
  eapply answers_step; [exact E|]. apply answers_when_stop.
  { intros Hn%negb_true_iff. split; [by apply deny_answers|]. intros who (q & -> & H1 & H2 & H3 & _). rewrite (Huniq q H1 H2) in H3. congruence. }
  intros Hhas%negb_false_iff. apply answers_when_stop.
  { intros [Ha Hc]%andb_true_iff. unfold str_eq in Ha. boolify. split; [by apply deny_answers|].
    intros who (q & -> & H1 & H2 & _ & H3). rewrite (Huniq q H1 H2), Ha in H3. specialize (H3 eq_refl). congruence. }
  intros Happ. split; [exact Hk'|]. intros who. cbn. split.
  - intros [= <-]. exists p. split_and!; try done. intros Hn. unfold str_eq in Happ. rewrite bool_decide_eq_true_2 in Happ by done.
    by apply negb_false_iff in Happ.
  - intros (q & -> & H1 & H2 & _). by rewrite (Huniq q H1 H2).
Qed.

(** C24: a request passes the gate exactly when it may.  A route needs no
    principal only if it is public.  On any other, the principal is let through
    if and only if the limiter lets the client try, the request carries a token
    that is stored, live and of that principal (or, in the development mode,
    comes from the machine itself with no token), the principal has the role of
    the route, and an approval is asked by a human who is no agent.  Whatever
    the answer, the request has changed nothing but audit rows added and the
    times tokens were last used, and no change is left pending. *)
Theorem access_decision dotenv address r a : ready (ap_work a) ->
  let '(a', x) := check_access dotenv address r a in
  ready (ap_work a') /\ access_log (db_of a) (db_of a') /\
  (x = Ok None <-> public r) /\
  (forall p, x = Ok (Some p) <->
     ~ public r /\ may_try r a /\ established dotenv address (db_of a) (env_of a) (now_of a) r p /\ permitted r p).
Proof.
  intros Hw. assert (kept (db_of a) a) as Hk by (split; [exact Hw|reflexivity]). destruct (decide (public r)) as [Hpub|Hpub].
  - unfold check_access. rewrite bool_decide_eq_true_2 by exact Hpub. split_and!; [exact Hw|reflexivity|done|]. intros p. split; [done|]. by intros [? _].
  - destruct (check_access_answers dotenv address (db_of a) r a Hk Hpub) as [[Hr Hal] Hq].
    destruct (check_access dotenv address r a) as [a' x]. cbn [fst snd] in *. split_and!; [exact Hr|exact Hal| |].
    + split; [|done]. intros ->. by destruct (proj1 (Hq None) eq_refl) as (p & ? & _).
    + intros p. rewrite Hq. split; [intros (q & [= <-] & H); done|]. intros (_ & H). by exists p.
Qed.

(** C25: a mutation is on record.  Once a principal is let through to a route
    that may change something, the handler runs, the caller gets its answer or
    its exception unchanged, what the handler left uncommitted is dropped, and
    an audit row with the principal, the token, the route and the status is
    committed on top of what the handler committed, whether it returned, refused
    the request or crashed. *)
Theorem mutation_recorded {A} dotenv address r success (handler : option Principal -> ST Work A) a a1 p w1 x :
  check_access dotenv address r a = (a1, Ok (Some p)) -> str_in (method_of r) SAFE_METHODS = false ->
  handler (Some p) (ap_work a1) = (w1, x) -> constraints_ok (committed w1) = true ->
  exists a2 row, authorize dotenv address r success handler a = (a2, x) /\ ready (ap_work a2) /\
    d_auth_audit (committed w1) !! aa_id row = None /\ db_of a2 = (committed w1) {{ d_auth_audit ::= insert (aa_id row) row }} /\
    aa_event row = "mutation" /\ aa_principal row = Some (pc_name p) /\ aa_token_id row = pc_token_id p /\ aa_method row = Some (rq_method r) /\
    aa_route row = or_none (str_take 200 (route_of r)) /\
    aa_status_code row = Some (match x with Ok _ => (match success with Some s => if s =? 0 then 200 else s | None => 200 end)
                                          | Err (HTTPException status _ _) => status | Err _ => 500 end).
Proof.
  intros Hacc Hsafe Hh Hc. unfold authorize. setoid_rewrite st_bind_run. rewrite Hacc, Hsafe, Hh. unfold record_mutation.
  set (row := audit_row r "mutation" (Some p) (Some (recorded_status success x)) (route_of r)
    [("roles", JArr (map JStr (sorted_set (pc_roles p)))); ("method", JStr (pc_method p)); ("path_params", JObj (rq_path_params r))] (wk_clock w1 (wk_ticks w1))).
  rewrite (recorded_run _ _ _ _ _ _ _ Hc). fold row. exists (a1 {{ ap_work := audited row w1 }}), (row (next_id (d_auth_audit (committed w1)))).
  destruct (audited_ready row w1 Hc) as [Hr _]. split_and!; try done. apply next_id_fresh.
Qed.

Module GateDemo.
Definition db : Db := match AuthDemo.created with Ok (s, _, _) => stored s | Err _ => empty_db end.
Definition dotenv : environ := {["SDF_AUTH_PEPPER" := AuthDemo.pepper]}.
Definition address (s : string) : option bool := if str_eq s "127.0.0.1" then Some true else None.
Definition work : Work := {| wk_host := Demo.host; wk_process := {| EXECUTOR_ID := "9-z"; owners := ∅; remote_effects := ∅; stop_blocked := ∅ |};
  wk_clock := fun n => dt_add AuthDemo.now (86400 * seconds + Z.of_nat n); wk_uuid := fun _ => "0"; wk_ticks := 0%nat;
  committed := db; session := open_session db; inactive := false |}.
Definition api : Api := {| ap_work := work; ap_limiter := new_limiter 10 (f_of_Z 300) (f_of_Z 300); ap_monotonic := fun n => f_of_Z (Z.of_nat n); ap_ticks := 0%nat |}.
Definition approve : Request := {| rq_method := "POST"; rq_path := "/plans/P/approve"; rq_route := Some "/plans/{plan_id}/approve";
  rq_client := Some "10.0.0.7"; rq_server := Some "10.0.0.1"; rq_path_params := [("plan_id", JStr "P")];
  rq_headers := {["authorization" := "Bearer " +:+ plaintext AuthDemo.id AuthDemo.secret]} |}.
Definition alice : Principal := {| pc_name := "alice"; pc_roles := ["approver"; "operator"]; pc_kind := "human"; pc_token_id := Some AuthDemo.id; pc_method := "api_token" |}.
Definition handler (who : option Principal) : ST Work unit := fail (HTTPException 409 "plan is not proposed" []).

Lemma work_ready : ready work.
Proof. split; [done|]. vm_compute. reflexivity. Qed.

Lemma alice_passes : (check_access dotenv address approve api).2 = Ok (Some alice).
Proof. vm_compute. reflexivity. Qed.
End GateDemo.

Lemma access_decision_witness : ready (ap_work GateDemo.api) /\
  established GateDemo.dotenv GateDemo.address (db_of GateDemo.api) (env_of GateDemo.api) (now_of GateDemo.api) GateDemo.approve GateDemo.alice /\
  permitted GateDemo.approve GateDemo.alice /\ ~ public GateDemo.approve.
Proof.
  pose proof GateDemo.work_ready as Hw. pose proof (access_decision GateDemo.dotenv GateDemo.address GateDemo.approve GateDemo.api Hw) as H.
  pose proof GateDemo.alice_passes as Hp. destruct (check_access GateDemo.dotenv GateDemo.address GateDemo.approve GateDemo.api) as [a x].
  cbn [snd] in Hp. destruct H as (_ & _ & _ & H). destruct (proj1 (H GateDemo.alice) Hp) as (H1 & _ & H2 & H3).
  split; [exact Hw|]. split; [exact H2|]. split; [exact H3|exact H1].
Defined.

Lemma mutation_recorded_witness : exists a2 row,
  authorize GateDemo.dotenv GateDemo.address GateDemo.approve None GateDemo.handler GateDemo.api = (a2, Err (HTTPException 409 "plan is not proposed" [])) /\
  ready (ap_work a2) /\ aa_event row = "mutation" /\ aa_principal row = Some "alice" /\ aa_status_code row = Some 409.
Proof.
  assert (constraints_ok (committed (ap_work (check_access GateDemo.dotenv GateDemo.address GateDemo.approve GateDemo.api).1)) = true) as Hc by (vm_compute; reflexivity).
  pose proof GateDemo.alice_passes as Hp. destruct (check_access GateDemo.dotenv GateDemo.address GateDemo.approve GateDemo.api) as [a1 y] eqn:E.
  cbn [fst snd] in Hc, Hp. subst y.
  destruct (mutation_recorded GateDemo.dotenv GateDemo.address GateDemo.approve None GateDemo.handler GateDemo.api a1 GateDemo.alice (ap_work a1)
    (Err (HTTPException 409 "plan is not proposed" [])) E eq_refl eq_refl Hc) as (a2 & row & H1 & H2 & _ & _ & H3 & H4 & _ & _ & _ & H5).
  exists a2, row. split; [exact H1|]. split; [exact H2|]. split; [exact H3|]. split; [exact H4|exact H5].
Defined.
