(* ===== verification/Messaging.v ===== *)
(** * Messaging: the host-side hub of lead and worker agents

    Models [src/sdf_core/agent_messaging.py] and the rule matching of
    [src/sdf_core/materiality.py]: the envelope an agent drops in its outbox,
    with the sandbox it came from, becomes a stored message, a claim or a
    decision request, or is refused.  What [json.loads] makes of the bytes is an
    argument, and so are the Unicode folding and the regular expressions of the
    materiality rules. *)

From S2P Require Import Prelude StateError Sha256 Json Db EvidenceMac Flush Samples FlushFacts Store Recovery UnitOfWork Plans DecisionGate.

(** ** Limits *)

Definition MAX_BODY_CHARS : Z := 8000.
Definition MAX_ENVELOPE_BYTES : Z := 32 * 1024.
Definition MAX_MESSAGES_PER_AGENT : Z := 200.
Definition MAX_OPTIONS : nat := 10.
Definition MAX_OPTION_CHARS : Z := 200.
Definition MAX_CONSEQUENCE_CHARS : Z := 1000.
Definition MAX_ACTION_CHARS : Z := 200.
Definition AGENT_KINDS : list string := ["message"; "question"; "report"; "decision_request"].
Definition HOST : string := "sdf".
Definition MANAGER : string := "manager".

Definition EnvelopeError (msg : string) : exn := OtherError "EnvelopeError" msg.

(** ** Sanitizing *)

(** [_CONTROL], on code points below 256. *)
Definition is_control (c : ascii) : bool :=
  let n := nat_of_ascii c in
  (n <=? 8)%nat || ((11 <=? n) && (n <=? 31))%nat || ((127 <=? n) && (n <=? 159))%nat.

Fixpoint str_filter (f : ascii -> bool) (s : string) : string :=
  match s with
  | EmptyString => EmptyString
  | String c s => if f c then String c (str_filter f s) else str_filter f s
  end.

(** [text.replace("\r\n", "\n")] *)
Fixpoint unix_lines (s : string) : string :=
  match s with
  | String c (String d t as s') =>
      if bool_decide (nat_of_ascii c = 13%nat) && bool_decide (nat_of_ascii d = 10%nat) then String d (unix_lines t) else String c (unix_lines s')
  | _ => s
  end.

(** NFC leaves text of code points below 256 as it is. *)
Definition clean_text (s : string) : string := str_strip (str_filter (fun c => negb (is_control c)) (unix_lines s)).

Definition TRUNCATED : string := String (ascii_of_nat 10) "[truncated by SDF]".

Definition sanitize_body (text : json) (limit : Z) : result (string * bool) :=
  match text with
  | JStr s =>
      let clean := clean_text s in
      _ ← raise_if (negb (str_truthy clean)) (EnvelopeError "body is empty after sanitizing");
      if limit <? str_len clean then Ok (str_take (Z.to_nat limit) clean +:+ TRUNCATED, true) else Ok (clean, false)
  | _ => Err (EnvelopeError "body must be text")
  end.

(** ** Materiality *)

(** A rule's patterns are the predicate they decide. *)
Record MaterialityRule : Type := { mr_id : string; mr_category : string; mr_description : string; mr_matches : string -> bool }.

Definition check_unique (rules : list MaterialityRule) : result unit :=
  raise_if (negb (bool_decide (NoDup (map mr_id rules)))) (ValueError "materiality rule ids must be unique").

Definition matched_rules (fold : string -> string) (texts : list (option string)) (rules : list MaterialityRule) : result (list string) :=
  _ ← check_unique rules;
  let items := map fold (List.filter str_truthy (map or_empty texts)) in
  Ok (map mr_id (List.filter (fun rule => existsb (mr_matches rule) items) rules)).

(** ** The hub *)

Record Member : Type := { me_agent : string; me_role : string; me_subtask : option string; me_sandbox : option string }.

(** [members] is a dict: in order of insertion. *)
Record MessageHub : Type := {
  run_id : string; members : list (string * Member); max_body_chars : Z; max_messages_per_agent : Z;
  materiality_rules : list MaterialityRule; counts : gmap string Z; attempt_for : gmap string string
}.

Record HubState : Type := { hs_hub : MessageHub; hs_work : Work }.

Definition on_work {A} (m : ST Work A) : ST HubState A := fun st =>
  let '(w, r) := m (hs_work st) in (st {{ hs_work := w }}, r).

Definition member_of (h : MessageHub) (agent_id : string) : option Member :=
  snd <$> List.find (fun kv => str_eq kv.1 agent_id) (members h).

(** [_ID.fullmatch] *)
Definition is_agent_id (s : string) : bool :=
  match s with
  | String c rest => is_lower c && (str_len rest <=? 63) && str_forallb (fun c => is_lower c || is_digit c || str_eq (char_str c) "-") rest
  | EmptyString => false
  end.

Definition new_hub (run_id : string) (ms : list (string * Member)) (max_body max_messages : Z) (rules : list MaterialityRule) : result MessageHub :=
  _ ← each ms (fun m => raise_if (negb (is_agent_id m.1) || str_in m.1 [HOST; MANAGER; "lead"; "worker"])
                          (ValueError ("invalid member id " +:+ str_repr m.1)));
  Ok {| run_id := run_id; members := ms; max_body_chars := max_body; max_messages_per_agent := max_messages;
        materiality_rules := rules; counts := ∅; attempt_for := ∅ |}.

(** *** Persistence *)

(** A query: pending changes go first. *)
Definition query {A} (f : Db -> A) : ST Work A := _ ← flush_work; gets (fun w => f (pending w)).

Definition run_messages (run : string) (d : Db) : list AgentMessageRow := select_rows (fun m => str_eq (mg_run_id m) run) (d_agent_messages d).

(** [_next_seq] *)
Definition next_seq (run : string) (d : Db) : Z :=
  match map mg_seq (run_messages run d) with
  | [] => 1
  | x :: l => 1 + foldr Z.max x l
  end.

(** The fields of a message the caller gives. *)
Record Draft : Type := {
  df_envelope_id : string; df_from_agent : string; df_from_role : string; df_to_agent : option string; df_to_role : option string;
  df_kind : string; df_body : string; df_truncated : bool; df_attempt_id : option string; df_source_sandbox_id : option string; df_meta : option json
}.

Definition message_row (run : string) (hex : string) (seq : Z) (now : datetime) (f : Draft) : AgentMessageRow := {|
  mg_id := "MSG-" +:+ str_take 16 hex; mg_run_id := run; mg_seq := seq; mg_envelope_id := df_envelope_id f;
  mg_from_agent := df_from_agent f; mg_from_role := df_from_role f; mg_to_agent := df_to_agent f; mg_to_role := df_to_role f;
  mg_kind := df_kind f; mg_body := df_body f; mg_body_sha256 := sha256_text (df_body f); mg_truncated := df_truncated f;
  mg_attempt_id := df_attempt_id f; mg_source_sandbox_id := df_source_sandbox_id f; mg_meta := df_meta f; mg_created_at := now |}.

Definition add_message (m : AgentMessageRow) (d : Db) : result Db :=
  _ ← raise_if (bool_decide (is_Some (d_agent_messages d !! mg_id m))) (IntegrityError "agent_messages.id");
  Ok (d {{ d_agent_messages ::= insert (mg_id m) m }}).

(** [_persist] *)
Definition persist (run : string) (f : Draft) : ST Work AgentMessageRow :=
  hex ← uuid4_hex;
  seq ← query (next_seq run);
  now ← utcnow;
  let row := message_row run hex seq now f in
  _ ← pend_checked (add_message row);
  _ ← flush_work;
  mret row.

(** *** Routing *)

Definition agents_where (p : Member -> bool) (h : MessageHub) : list string := map me_agent (List.filter p (map snd (members h))).

(** [_route]: the agent, the role and the recipients. *)
Definition route (h : MessageHub) (member : Member) (kind : string) (to : json) : result (option string * option string * list string) :=
  if str_in kind ["report"; "decision_request"] then Ok (None, Some MANAGER, [])
  else match to with
  | JStr to =>
      _ ← raise_if (negb (str_truthy (str_strip to))) (EnvelopeError "message needs a recipient");
      let to := str_lower (str_strip to) in
      if str_in to [MANAGER; HOST] then Ok (None, Some MANAGER, [])
      else if str_eq to "lead" then
        let leads := agents_where (fun m => str_eq (me_role m) "lead" && negb (str_eq (me_agent m) (me_agent member))) h in
        _ ← raise_if (bool_decide (leads = [])) (EnvelopeError "no lead to receive this message");
        Ok (match leads with [x] => Some x | _ => None end, Some "lead", leads)
      else if str_in to ["worker"; "workers"] then
        _ ← raise_if (negb (str_eq (me_role member) "lead")) (EnvelopeError "only the lead may broadcast to all workers");
        Ok (None, Some "worker", agents_where (fun m => str_eq (me_role m) "worker") h)
      else
        target ← require_some (member_of h to) (EnvelopeError ("unknown recipient " +:+ str_repr to));
        _ ← raise_if (str_eq (me_agent target) (me_agent member)) (EnvelopeError "an agent cannot message itself");
        Ok (Some (me_agent target), Some (me_role target), [me_agent target])
  | _ => Err (EnvelopeError "message needs a recipient")
  end.

(** *** Inbound from a sandbox *)

Record IngestResult : Type := {
  ir_message : AgentMessageRow; ir_recipients : list string; ir_claim : option AgentClaimRow; ir_decision_request_id : option string
}.

Definition hash_kind (kind : json) : result string :=
  match kind with
  | JArr _ => Err (TypeError "unhashable type: 'list'")
  | JObj _ => Err (TypeError "unhashable type: 'dict'")
  | JStr k => if str_in k AGENT_KINDS then Ok k else Err (EnvelopeError ("agents may not send kind " +:+ str_repr k))
  | _ => Err (EnvelopeError ("agents may not send kind " +:+ py_repr kind))
  end.

Definition is_envelope_id (s : string) : bool := (str_len s =? 32) && str_forallb is_hex_char s.

Definition text_or_none (j : json) (msg : string) : result (option string) :=
  match j with
  | JNull => Ok None
  | JStr s => Ok (Some s)
  | _ => Err (EnvelopeError msg)
  end.

Definition options_of (raw : list json) : result (list string) :=
  result_map (fun o => p ← sanitize_body (JStr (py_str o)) MAX_OPTION_CHARS; Ok p.1)
    (List.filter (fun o => str_truthy (str_strip (py_str o))) (take MAX_OPTIONS raw)).

Definition nonblank (o : option string) : bool := opt_truthy o && str_truthy (str_strip (or_empty o)).

(** What a decision request declares, and what the rules say: the options and
    the entries of [meta]. *)
Definition request_meta (fold : string -> string) (rules : list MaterialityRule) (envelope : json) : result (list string * list (string * json)) :=
  raw_options ← match json_or (jget "options" envelope) (JArr []) with JArr l => Ok l | _ => Err (EnvelopeError "options must be a list") end;
  options ← options_of raw_options;
  declared ← match (if kv_has "material" (match envelope with JObj kvs => kvs | _ => [] end) then jget "material" envelope else JBool false) with
             | JBool b => Ok b | _ => Err (EnvelopeError "material must be true or false") end;
  consequence ← text_or_none (jget "consequence" envelope) "consequence must be a string";
  action ← text_or_none (jget "action" envelope) "action must be a string";
  _ ← raise_if (declared && negb (nonblank consequence)) (EnvelopeError "a material decision request needs a consequence");
  _ ← raise_if (declared && (Z.of_nat (length (remove_dups options)) <? 2)) (EnvelopeError "a material decision request needs at least two distinct options");
  matched ← matched_rules fold (Some (py_str (json_or (jget "body" envelope) (JStr ""))) :: map (fun o => Some (py_str o)) raw_options ++ [consequence; action]) rules;
  action_meta ← (if opt_truthy action then p ← sanitize_body (JStr (or_empty action)) MAX_ACTION_CHARS; Ok [("action", JStr p.1)] else Ok []);
  if declared || negb (bool_decide (matched = [])) then
    consequence ← (if nonblank consequence then p ← sanitize_body (JStr (or_empty consequence)) MAX_CONSEQUENCE_CHARS; Ok p.1
                   else Ok ("matched materiality rules: " +:+ str_join ", " matched));
    Ok (options, ("options", JArr (map JStr options)) :: action_meta ++ [("matched_rules", JArr (map JStr matched)); ("material", JBool true);
          ("materiality_source", JStr (if declared then "agent" else "rule")); ("consequence", JStr consequence); ("authority", JStr "human")])
  else Ok (options, ("options", JArr (map JStr options)) :: action_meta ++ [("matched_rules", JArr (map JStr matched)); ("material", JBool false)]).

Definition report_status (envelope : json) : result string :=
  match json_or (jget "status" envelope) (JStr "done") with
  | JStr s => if str_in s ["done"; "failed"; "progress"] then Ok s else Err (EnvelopeError "report status must be done, failed or progress")
  | _ => Err (EnvelopeError "report status must be done, failed or progress")
  end.

(** The sender the envelope names is never trusted: recorded when it is not the
    one the host knows. *)
Definition spoof_meta (sender : string) (from : json) : list (string * json) :=
  match from with
  | JNull => []
  | JStr s => if str_eq s sender then [] else [("claimed_from_ignored", JStr (str_take 64 s))]
  | j => [("claimed_from_ignored", JStr (str_take 64 (py_str j)))]
  end.

(** What the hub makes of an envelope before it stores anything. *)
Record Parsed : Type := { pa_draft : Draft; pa_recipients : list string; pa_status : option string; pa_options : list string }.

Definition parse_envelope (fold : string -> string) (h : MessageHub) (sender : string) (member : Member) (sandbox_id : option string)
    (envelope_id : string) (envelope : json) : result Parsed :=
  kind ← hash_kind (jget "kind" envelope);
  body ← sanitize_body (jget "body" envelope) (max_body_chars h);
  to ← route h member kind (jget "to" envelope);
  status ← (if str_eq kind "report" then s ← report_status envelope; Ok (Some s) else Ok None);
  req ← (if str_eq kind "decision_request" then request_meta fold (materiality_rules h) envelope else Ok ([], []));
  let meta := spoof_meta sender (jget "from" envelope) ++ (match status with Some s => [("status", JStr s)] | None => [] end) ++ req.2 in
  Ok {| pa_draft := {| df_envelope_id := envelope_id; df_from_agent := sender; df_from_role := me_role member;
           df_to_agent := to.1.1; df_to_role := to.1.2; df_kind := kind; df_body := body.1; df_truncated := body.2;
           df_attempt_id := attempt_for h !! sender; df_source_sandbox_id := sandbox_id;
           df_meta := (match meta with [] => None | _ => Some (JObj meta) end) |};
        pa_recipients := to.2; pa_status := status; pa_options := req.1 |}.

Definition claim_row (run hex : string) (now : datetime) (member : Member) (sender : string) (m : AgentMessageRow) (status : string) : AgentClaimRow := {|
  cl_id := "CLAIM-" +:+ short hex; cl_run_id := run; cl_message_id := mg_id m; cl_agent_id := sender; cl_attempt_id := mg_attempt_id m;
  cl_subtask_key := me_subtask member; cl_claimed_status := status; cl_body := mg_body m; cl_created_at := now |}.

Definition add_claim (c : AgentClaimRow) (d : Db) : result Db :=
  _ ← raise_if (bool_decide (is_Some (d_agent_claims d !! cl_id c))) (IntegrityError "agent_claims.id");
  Ok (d {{ d_agent_claims ::= insert (cl_id c) c }}).

Definition set_count (sender : string) (n : Z) : ST HubState unit :=
  modify (fun st => st {{ hs_hub ::= fun h => h {{ counts ::= insert sender n }} }}).

Definition sent_by (run sender : string) (d : Db) : list AgentMessageRow :=
  List.filter (fun m => str_eq (mg_from_agent m) sender) (run_messages run d).

Definition bound_elsewhere (sandbox_id : option string) (member : Member) : bool :=
  match sandbox_id, me_sandbox member with Some a, Some b => negb (str_eq a b) | _, _ => false end.

(** [ingest], up to the message it stores: how many the sender has sent, and
    the message already stored for a redelivered envelope, or the new one. *)
Definition examine (fold : string -> string) (sender : string) (member : Member) (raw_len : Z) (decoded : option json) (sandbox_id : option string)
    : ST HubState (Z * (AgentMessageRow + Parsed)) :=
  h ← gets hs_hub;
  _ ← guard (bound_elsewhere sandbox_id member) (EnvelopeError "envelope came from a sandbox not bound to this member");
  _ ← guard (MAX_ENVELOPE_BYTES <? raw_len)
        (EnvelopeError ("envelope is " +:+ pretty raw_len +:+ " bytes; the limit is " +:+ pretty MAX_ENVELOPE_BYTES));
  count ← match counts h !! sender with
          | Some n => mret n
          | None => on_work (query (fun d => Z.of_nat (length (sent_by (run_id h) sender d))))
          end;
  _ ← guard (max_messages_per_agent h <=? count)
        (EnvelopeError (sender +:+ " reached the per-run message cap (" +:+ pretty (max_messages_per_agent h) +:+ ")"));
  envelope ← lift (require_some decoded (EnvelopeError "envelope is not UTF-8 JSON"));
  _ ← guard (match envelope with JObj _ => false | _ => true end) (EnvelopeError "envelope must be a JSON object");
  envelope_id ← lift (match jget "id" envelope with
                      | JStr s => if is_envelope_id s then Ok s else Err (EnvelopeError "envelope id must be 32 hex chars")
                      | _ => Err (EnvelopeError "envelope id must be 32 hex chars") end);
  existing ← on_work (query (fun d => head (List.filter (fun m => str_eq (mg_envelope_id m) envelope_id) (sent_by (run_id h) sender d))));
  match existing with
  | Some m => mret (count, inl m)
  | None => p ← lift (parse_envelope fold h sender member sandbox_id envelope_id envelope); mret (count, inr p)
  end.

(** The agent's claim and its decision request. *)
Definition store_claim (run : string) (member : Member) (sender : string) (m : AgentMessageRow) (status : string) : ST Work AgentClaimRow :=
  hex ← uuid4_hex;
  now ← utcnow;
  let c := claim_row run hex now member sender m status in
  _ ← pend_checked (add_claim c);
  _ ← flush_work;
  mret c.

Definition store_request (run sender : string) (m : AgentMessageRow) (options : list string) : ST Work DecisionRequestRow :=
  hex ← uuid4_hex;
  now ← utcnow;
  let q := agent_request now hex run sender (mg_body m) options (mg_id m) in
  _ ← pend_checked (add_request q);
  _ ← flush_work;
  mret q.

(** The message of an accepted envelope, and what it asks for. *)
Definition store (h : MessageHub) (sender : string) (member : Member) (count : Z) (p : Parsed) : ST HubState IngestResult :=
  message ← on_work (persist (run_id h) (pa_draft p));
  _ ← set_count sender (count + 1);
  claim ← match pa_status p with
          | Some status => c ← on_work (store_claim (run_id h) member sender message status); mret (Some c)
          | None => mret None
          end;
  request ← (if str_eq (df_kind (pa_draft p)) "decision_request"
             then q ← on_work (store_request (run_id h) sender message (pa_options p)); mret (Some (dr_id q))
             else mret None);
  mret {| ir_message := message; ir_recipients := pa_recipients p; ir_claim := claim; ir_decision_request_id := request |}.

Definition ingest (fold : string -> string) (sender : string) (raw_len : Z) (decoded : option json) (sandbox_id : option string) : ST HubState IngestResult :=
  h ← gets hs_hub;
  member ← lift (require_some (member_of h sender) (EnvelopeError ("unknown sender binding " +:+ str_repr sender)));
  seen ← examine fold sender member raw_len decoded sandbox_id;
  match seen.2 with
  | inl m => mret {| ir_message := m; ir_recipients := []; ir_claim := None; ir_decision_request_id := None |}
  | inr p => store h sender member seen.1 p
  end.

(** *** Outbound from the host *)

Definition post_from_host (to_agent body kind : string) (meta : option json) : ST HubState AgentMessageRow :=
  h ← gets hs_hub;
  member ← lift (require_some (member_of h to_agent) (ValueError ("unknown member " +:+ to_agent)));
  _ ← guard (negb (str_in kind ["system"; "decision"])) (ValueError "host messages are system or decision");
  clean ← lift (sanitize_body (JStr body) (4 * max_body_chars h));
  hex ← on_work uuid4_hex;
  on_work (persist (run_id h) {| df_envelope_id := hex; df_from_agent := HOST; df_from_role := HOST; df_to_agent := Some to_agent;
    df_to_role := Some (me_role member); df_kind := kind; df_body := clean.1; df_truncated := clean.2;
    df_attempt_id := attempt_for h !! to_agent; df_source_sandbox_id := None; df_meta := meta |}).

(** [delivery_payload], before its encoding. *)
Definition delivery_payload (m : AgentMessageRow) : json :=
  JObj [("id", JStr (mg_id m)); ("seq", JInt (mg_seq m)); ("from", JStr (mg_from_agent m)); ("from_role", JStr (mg_from_role m));
        ("kind", JStr (mg_kind m)); ("body", JStr (mg_body m)); ("truncated", JBool (mg_truncated m));
        ("meta", match mg_meta m with Some j => json_or j (JObj []) | None => JObj [] end); ("created_at", JStr (isoformat (mg_created_at m)))].
