(* ===== verification/MessagingFacts.v ===== *)
(** * MessagingFacts: what the hub guarantees

    Theorems about [Messaging]: an envelope speaks only for the sandbox it came
    from, is stored once, and never as more than a claim or a question. *)

From S2P Require Import Prelude StateError Sha256 Json Db EvidenceMac Flush Samples FlushFacts Store Recovery UnitOfWork Auth Gate GateFacts Plans DecisionGate Messaging.

(** ** A session with nothing pending *)

Record settled (d : Db) (w : Work) : Prop := {
  se_session : session w = open_session d;
  se_active : inactive w = false;
  se_constraints : constraints_ok d = true
}.

Lemma flush_settled h d : constraints_ok d = true -> flush h (open_session d) = Ok (open_session d).
Proof.
  intros Hc. apply (flush_logged h (open_session d)); [|exact Hc]. split; cbn [open_session stored current]; [by destruct d|done|].
  intros k t Hk. exists t. split; [done|by left].
Qed.

Lemma query_run {A} (f : Db -> A) d w : settled d w -> query f w = (w, Ok (f d)).
Proof.
  intros [Hs Hi Hc]. unfold query. rewrite st_bind_run. unfold flush_work. rewrite Hi, Hs, flush_settled by done.
  unfold gets, pending. replace (w {{ session := open_session d }}) with w by (destruct w; cbn in Hs |- *; cbv [constant]; by rewrite Hs). by rewrite Hs.
Qed.

(** Rows added to tables whose listeners only forbid changing old rows. *)
Lemma flush_adds h d s s' : flush h {| stored := d; current := s |} = Ok s' ->
  d_plans s = d_plans d -> d_evidence s = d_evidence d -> d_attempts s = d_attempts d -> s' = open_session s /\ constraints_ok s = true.
Proof.
  intros Hf Hp He Ha. pose proof Hf as Hf'. apply flush_Ok in Hf' as (_ & _ & _ & Hc & _).
  apply flush_exact in Hf; cbn [stored current] in *; try (by intros k; cbn [stored current]; rewrite ?Hp, ?He, ?Ha). subst s'. split; [done|]. exact Hc.
Qed.

(** ** Storing rows *)

(** What a pending insert and its flush leave, when they succeed. *)
Lemma insert_run {A} (f : Db -> result Db) (x y : A) d w w' : settled d w ->
  (_ ← pend_checked f; _ ← flush_work; mret x) w = (w', Ok y) ->
  (forall d', f d = Ok d' -> d_plans d' = d_plans d /\ d_evidence d' = d_evidence d /\ d_attempts d' = d_attempts d) ->
  y = x /\ exists d', f d = Ok d' /\ settled d' w' /\ committed w' = committed w.
Proof.
  intros [Hs Hi Hc] H Hf. rewrite st_bind_run in H. unfold pend_checked in H. unfold pending in H. rewrite Hs in H. cbn [open_session current] in H.
  destruct (f d) as [d'|e] eqn:E; [|done]. rewrite st_bind_run in H. unfold flush_work in H.
  change (inactive (w {{ session ::= fun s => {| stored := stored s; current := d' |} }})) with (inactive w) in H. rewrite Hi in H.
  change (session (w {{ session ::= fun s => {| stored := stored s; current := d' |} }})) with {| stored := stored (session w); current := d' |} in H.
  change (wk_host (w {{ session ::= fun s => {| stored := stored s; current := d' |} }})) with (wk_host w) in H.
  rewrite Hs in H. cbn [open_session stored] in H. destruct (flush (wk_host w) _) as [s|e] eqn:Ef.
  - injection H as <- <-. split; [done|]. destruct (Hf d' eq_refl) as (E1 & E2 & E3). destruct (flush_adds _ _ _ _ Ef E1 E2 E3) as [-> Hc'].
    exists d'. split; [done|]. by split.
  - destruct (guards _); done.
Qed.

Lemma uuid_settled d w : settled d w -> exists hex w', uuid4_hex w = (w', Ok hex) /\ settled d w' /\ committed w' = committed w.
Proof. intros [? ? ?]. eexists _, _. split; [reflexivity|]. by split. Qed.

Lemma utcnow_settled d w : settled d w -> exists now w', utcnow w = (w', Ok now) /\ settled d w' /\ committed w' = committed w.
Proof. intros [? ? ?]. eexists _, _. split; [reflexivity|]. by split. Qed.

(** Adding rows to the three tables of the conversation. *)
Definition with_message (m : AgentMessageRow) (d : Db) : Db := d {{ d_agent_messages ::= insert (mg_id m) m }}.
Definition with_claim (c : AgentClaimRow) (d : Db) : Db := d {{ d_agent_claims ::= insert (cl_id c) c }}.
Definition with_request (q : DecisionRequestRow) (d : Db) : Db := d {{ d_decision_requests ::= insert (dr_id q) q }}.

Lemma persist_run run f d w w' row : settled d w -> persist run f w = (w', Ok row) ->
  exists hex now, row = message_row run hex (next_seq run d) now f /\ d_agent_messages d !! mg_id row = None /\
    settled (with_message row d) w' /\ committed w' = committed w.
Proof.
  intros Hw H. unfold persist in H. destruct (uuid_settled d w Hw) as (hex & w1 & E1 & H1 & C1). rewrite st_bind_run, E1 in H.
  rewrite st_bind_run, (query_run _ d) in H by done. destruct (utcnow_settled d w1 H1) as (now & w2 & E2 & H2 & C2). rewrite st_bind_run, E2 in H.
  cbv zeta in H. apply (insert_run _ _ _ d) in H as [-> (d' & Hd & Hs & Hc)]; [|done|].
  - exists hex, now. split; [done|]. unfold add_message in Hd. apply bind_Ok in Hd as (u & Hn%raise_if_Ok & [= <-]).
    boolify. split; [by apply eq_None_not_Some|]. split; [exact Hs|congruence].
  - intros d' Hd. unfold add_message in Hd. by apply bind_Ok in Hd as (u & _ & [= <-]).
Qed.

Lemma store_claim_run run member sender m status d w w' c : settled d w -> store_claim run member sender m status w = (w', Ok c) ->
  exists hex now, c = claim_row run hex now member sender m status /\ d_agent_claims d !! cl_id c = None /\ settled (with_claim c d) w' /\ committed w' = committed w.
Proof.
  intros Hw H. unfold store_claim in H. destruct (uuid_settled d w Hw) as (hex & w1 & E1 & H1 & C1). rewrite st_bind_run, E1 in H.
  destruct (utcnow_settled d w1 H1) as (now & w2 & E2 & H2 & C2). rewrite st_bind_run, E2 in H.
  cbv zeta in H. apply (insert_run _ _ _ d) in H as [-> (d' & Hd & Hs & Hc)]; [|done|].
  - exists hex, now. split; [done|]. unfold add_claim in Hd. apply bind_Ok in Hd as (u & Hn%raise_if_Ok & [= <-]).
    boolify. split; [by apply eq_None_not_Some|]. split; [exact Hs|congruence].
  - intros d' Hd. unfold add_claim in Hd. by apply bind_Ok in Hd as (u & _ & [= <-]).
Qed.

Lemma store_request_run run sender m options d w w' q : settled d w -> store_request run sender m options w = (w', Ok q) ->
  exists hex now, q = agent_request now hex run sender (mg_body m) options (mg_id m) /\ d_decision_requests d !! dr_id q = None /\
    settled (with_request q d) w' /\ committed w' = committed w.
Proof.
  intros Hw H. unfold store_request in H. destruct (uuid_settled d w Hw) as (hex & w1 & E1 & H1 & C1). rewrite st_bind_run, E1 in H.
  destruct (utcnow_settled d w1 H1) as (now & w2 & E2 & H2 & C2). rewrite st_bind_run, E2 in H.
  cbv zeta in H. apply (insert_run _ _ _ d) in H as [-> (d' & Hd & Hs & Hc)]; [|done|].
  - exists hex, now. split; [done|]. unfold add_request in Hd. apply bind_Ok in Hd as (u & Hn%raise_if_Ok & [= <-]).
    boolify. split; [by apply eq_None_not_Some|]. split; [exact Hs|congruence].
  - intros d' Hd. unfold add_request in Hd. by apply bind_Ok in Hd as (u & _ & [= <-]).
Qed.

(** ** What an accepted envelope is *)

Lemma elem_agents_where p h x : x ∈ agents_where p h <-> exists k m, (k, m) ∈ members h /\ p m = true /\ me_agent m = x.
Proof.
  unfold agents_where. rewrite elem_map. split.
  - intros (m & [Hm Hp]%elem_filterb & ->). apply elem_map in Hm as ([k m'] & Hin & ->). by exists k, m'.
  - intros (k & m & Hin & Hp & <-). exists m. split; [|done]. apply elem_filterb. split; [|done]. apply elem_map. by exists (k, m).
Qed.

(** Where a message may go: members of the run other than its sender (but a
    broadcast of the lead goes to every worker), and to all the workers only
    from the lead. *)
Record routed (h : MessageHub) (member : Member) (to : option string * option string * list string) : Prop := {
  ro_members : forall x, x ∈ to.2 -> exists k r, (k, r) ∈ members h /\ me_agent r = x /\ (x <> me_agent member \/ me_role r = "worker" /\ me_role member = "lead");
  ro_single : forall x, to.1.1 = Some x -> to.2 = [x] /\ x <> me_agent member;
  ro_broadcast : to.1 = (None, Some "worker") -> me_role member = "lead"
}.

Lemma route_routed h member kind to out : route h member kind to = Ok out -> routed h member out.
Proof.
  unfold route. destruct (str_in kind ["report"; "decision_request"]).
  { intros [= <-]. split; cbn; [by intros x ?%not_elem_of_nil|done|done]. }
  destruct to as [| | | |to| |]; try done. intros (u & _ & H)%bind_Ok. cbv zeta in H. set (to' := str_lower (str_strip to)) in *.
  destruct (str_in to' [MANAGER; HOST]); [injection H as <-; split; cbn; [by intros x ?%not_elem_of_nil|done|done]|].
  destruct (str_eq to' "lead"); [|destruct (str_in to' ["worker"; "workers"])].
  - apply bind_Ok in H as (u1 & _ & [= <-]). split; cbn -[agents_where].
    + intros x (k & m & Hin & [_ Hne]%andb_true_iff & <-)%elem_agents_where. exists k, m. split_and!; [done|done|]. left.
      unfold str_eq in Hne. by boolify.
    + intros x Hx. destruct (agents_where _ h) as [|y [|]] eqn:E; try done. injection Hx as ->. split; [done|].
      assert (x ∈ agents_where (fun m => str_eq (me_role m) "lead" && negb (str_eq (me_agent m) (me_agent member))) h) as Hin by (rewrite E; left).
      apply elem_agents_where in Hin as (k & m & _ & [_ Hne]%andb_true_iff & <-). unfold str_eq in Hne. by boolify.
    + done.
  - apply bind_Ok in H as (u1 & Hl%raise_if_Ok & [= <-]). unfold str_eq in Hl. boolify. split; cbn -[agents_where]; [|done|done].
    intros x (k & m & Hin & Hw & <-)%elem_agents_where. unfold str_eq in Hw. boolify. exists k, m. split_and!; [done|done|by right].
  - apply bind_Ok in H as (target & Ht%require_some_Ok & H). apply bind_Ok in H as (u1 & Hne%raise_if_Ok & [= <-]). unfold str_eq in Hne. boolify.
    unfold member_of in Ht. apply fmap_Some in Ht as ([k r] & Hf & ->). apply List.find_some in Hf as [Hin _]. apply list_elem_of_In in Hin.
    split; cbn; [|by intros x [= <-]|done]. intros x ->%list_elem_of_singleton. exists k, r. split_and!; [done|done|by left].
Qed.

Lemma length_str_app a b : String.length (a +:+ b) = (String.length a + String.length b)%nat.
Proof. induction a as [|c a IH]; [done|]. rewrite str_app_cons. cbn [String.length]. by rewrite IH. Qed.

Lemma length_str_take n s : (String.length (str_take n s) <= n)%nat.
Proof.
  unfold str_take. revert n. induction s as [|c s IH]; intros [|n]; cbn [String.substring String.length]; [lia..|]. specialize (IH n). lia.
Qed.

Lemma forallb_filter f s : str_forallb f (str_filter f s) = true.
Proof. induction s as [|c s IH]; [done|]. cbn [str_filter]. destruct (f c) eqn:E; [|done]. cbn [str_forallb]. by rewrite E. Qed.

Lemma forallb_lstrip f s : str_forallb f s = true -> str_forallb f (str_lstrip s) = true.
Proof.
  induction s as [|c s IH]; [done|]. intros H. cbn [str_lstrip]. destruct (is_space c); [|done]. cbn [str_forallb] in H. apply IH.
  by apply andb_true_iff in H as [_ H].
Qed.

Lemma forallb_rstrip f s : str_forallb f s = true -> str_forallb f (str_rstrip s) = true.
Proof.
  induction s as [|c s IH]; [done|]. cbn [str_forallb]. intros [Hc H]%andb_true_iff. specialize (IH H). cbn [str_rstrip].
  destruct (str_rstrip s) as [|d t]; [destruct (is_space c)|]; cbn [str_forallb] in *; rewrite ?Hc; done.
Qed.

Lemma forallb_take f n s : str_forallb f s = true -> str_forallb f (str_take n s) = true.
Proof.
  unfold str_take. revert n. induction s as [|c s IH]; intros [|n] H; try done. cbn [String.substring str_forallb] in *.
  apply andb_true_iff in H as [-> H]. by apply IH.
Qed.

Definition printable (s : string) : bool := str_forallb (fun c => negb (is_control c)) s.

Lemma clean_printable s : printable (clean_text s) = true.
Proof. apply forallb_rstrip, forallb_lstrip, forallb_filter. Qed.

(** What is stored of a text: something, no longer than the limit and its mark,
    without control characters. *)
Lemma sanitize_Ok text limit body truncated : sanitize_body text limit = Ok (body, truncated) -> 0 <= limit ->
  str_truthy body = true /\ str_len body <= limit + str_len TRUNCATED /\ printable body = true.
Proof.
  destruct text as [| | | |s| |]; try done. cbn [sanitize_body]. intros (u & Ht%raise_if_Ok & H)%bind_Ok Hl. apply negb_false_iff in Ht.
  pose proof (clean_printable s) as Hp. destruct (Z.ltb_spec limit (str_len (clean_text s))); injection H as <- <-.
  - split; [by destruct (str_take _ _)|]. split.
    + unfold str_len in *. rewrite length_str_app. pose proof (length_str_take (Z.to_nat limit) (clean_text s)). lia.
    + unfold printable in *. rewrite str_forallb_app, forallb_take by done. reflexivity.
  - split; [done|]. split; [|done]. unfold str_len at 2. unfold TRUNCATED. cbn [String.length]. lia.
Qed.

(** An envelope that passes: every field that names its sender is the host's,
    and it asks for a claim or a decision exactly when its kind does. *)
Record parsed (fold : string -> string) (h : MessageHub) (sender : string) (member : Member) (sandbox_id : option string) (envelope_id : string)
    (envelope : json) (p : Parsed) : Prop := {
  pd_identity : df_from_agent (pa_draft p) = sender /\ df_from_role (pa_draft p) = me_role member /\ df_envelope_id (pa_draft p) = envelope_id /\
    df_source_sandbox_id (pa_draft p) = sandbox_id /\ df_attempt_id (pa_draft p) = attempt_for h !! sender;
  pd_object : exists kvs, envelope = JObj kvs;
  pd_kind : df_kind (pa_draft p) ∈ AGENT_KINDS;
  pd_body : str_truthy (df_body (pa_draft p)) = true /\ printable (df_body (pa_draft p)) = true /\
    (0 <= max_body_chars h -> str_len (df_body (pa_draft p)) <= max_body_chars h + str_len TRUNCATED);
  pd_routed : routed h member (df_to_agent (pa_draft p), df_to_role (pa_draft p), pa_recipients p);
  pd_status : forall s, pa_status p = Some s -> df_kind (pa_draft p) = "report" /\ s ∈ ["done"; "failed"; "progress"];
  pd_report : df_kind (pa_draft p) = "report" -> is_Some (pa_status p);
  pd_request : df_kind (pa_draft p) = "decision_request" -> exists req, request_meta fold (materiality_rules h) envelope = Ok (pa_options p, req) /\
    df_meta (pa_draft p) = let meta := spoof_meta sender (jget "from" envelope) ++ req in match meta with [] => None | _ => Some (JObj meta) end
}.

Lemma hash_kind_Ok j k : hash_kind j = Ok k -> k ∈ AGENT_KINDS.
Proof.
  destruct j as [|b|z|f|s|l|l]; try done. cbn [hash_kind]. unfold str_in. case_bool_decide; [|done]. by intros [= <-].
Qed.

Lemma sanitize_any text limit body truncated : sanitize_body text limit = Ok (body, truncated) ->
  str_truthy body = true /\ printable body = true.
Proof.
  destruct (Z.le_gt_cases 0 limit) as [Hl|Hl]; [intros (?&?&?)%sanitize_Ok; done|].
  destruct text as [| | | |s| |]; try done. cbn [sanitize_body]. intros (u & Ht & H)%bind_Ok.
  destruct (Z.ltb_spec limit (str_len (clean_text s))) as [_|H']; [|unfold str_len in H'; lia]. injection H as <- <-.
  assert (Z.to_nat limit = 0%nat) as -> by lia. unfold str_take. by destruct (clean_text s).
Qed.

Lemma report_status_Ok j s : report_status j = Ok s -> s ∈ ["done"; "failed"; "progress"].
Proof.
  unfold report_status. destruct (json_or _ _); try done. unfold str_in. case_bool_decide; [|done]. by intros [= <-].
Qed.

Lemma parse_envelope_Ok fold h sender member sandbox_id envelope_id envelope p :
  parse_envelope fold h sender member sandbox_id envelope_id envelope = Ok p -> parsed fold h sender member sandbox_id envelope_id envelope p.
Proof.
  unfold parse_envelope. intros (kind & Hk &  ([body truncated] & Hb & ([[to_agent to_role] recipients] & Hr%route_routed & (status & Hs & (req & Hq & [= <-])%bind_Ok)%bind_Ok)%bind_Ok)%bind_Ok)%bind_Ok.
  pose proof (sanitize_any _ _ _ _ Hb) as [Hb1 Hb2]. unfold str_eq in Hs. assert (exists kvs, envelope = JObj kvs) as Hobj by (destruct envelope; by eauto).
  apply hash_kind_Ok in Hk. split; cbn; try done.
  - split_and!; [done..|]. intros Hl. by apply sanitize_Ok in Hb as (? & ? & ?).
  - intros s Hst. subst status. destruct (bool_decide (kind = "report")) eqn:E; [|done]. boolify. split; [done|].
    apply bind_Ok in Hs as (s' & Hs%report_status_Ok & [= <-]). done.
  - intros ->. rewrite bool_decide_eq_true_2 in Hs by done. apply bind_Ok in Hs as (s' & _ & [= <-]). by eexists.
  - intros ->. rewrite bool_decide_eq_false_2 in Hs by done. injection Hs as <-. unfold str_eq in Hq. rewrite bool_decide_eq_true_2 in Hq by done. destruct req as [options req]. by exists req.
Qed.

(** ** One envelope *)

Lemma on_work_query {A} (f : Db -> A) d st : settled d (hs_work st) -> on_work (query f) st = (st, Ok (f d)).
Proof. intros H. unfold on_work. rewrite (query_run _ d) by done. by destruct st. Qed.

Definition sent_count (h : MessageHub) (sender : string) (d : Db) : Z :=
  default (Z.of_nat (length (sent_by (run_id h) sender d))) (counts h !! sender).

(** Looking at an envelope changes nothing. *)
Lemma examine_run fold sender member raw_len decoded sandbox_id d st : settled d (hs_work st) ->
  let h := hs_hub st in
  let '(st', x) := examine fold sender member raw_len decoded sandbox_id st in
  st' = st /\ forall n y, x = Ok (n, y) ->
    n = sent_count h sender d /\ n < max_messages_per_agent h /\ bound_elsewhere sandbox_id member = false /\ raw_len <= MAX_ENVELOPE_BYTES /\
    exists envelope id, decoded = Some envelope /\ jget "id" envelope = JStr id /\
      match y with
      | inl m => m ∈ sent_by (run_id h) sender d /\ mg_envelope_id m = id
      | inr p => parse_envelope fold h sender member sandbox_id id envelope = Ok p /\ forall m, m ∈ sent_by (run_id h) sender d -> mg_envelope_id m <> id
      end.
Proof.
  intros Hw h. unfold examine. rewrite gets_bind. fold h. rewrite guard_bind. destruct (bound_elsewhere sandbox_id member); [done|].
  rewrite guard_bind. destruct (Z.ltb_spec MAX_ENVELOPE_BYTES raw_len); [done|]. rewrite st_bind_run.
  assert ((match counts h !! sender with Some n => mret n | None => on_work (query (fun d => Z.of_nat (length (sent_by (run_id h) sender d)))) end) st = (st, Ok (sent_count h sender d))) as ->.
  { unfold sent_count. destruct (counts h !! sender); [done|]. by rewrite (on_work_query _ d). }
  rewrite guard_bind. destruct (Z.leb_spec (max_messages_per_agent h) (sent_count h sender d)); [done|]. rewrite lift_bind.
  destruct decoded as [envelope|]; [|done]. cbn [require_some]. rewrite guard_bind. destruct (match envelope with JObj _ => false | _ => true end); [done|].
  rewrite lift_bind. destruct (jget "id" envelope) as [| | | |id| |] eqn:Hid; try done. destruct (is_envelope_id id); [|done].
  rewrite st_bind_run, (on_work_query _ d) by done.
  destruct (head (List.filter _ (sent_by (run_id h) sender d))) as [m|] eqn:Hh.
  - split; [done|]. intros n y [= <- <-]. split_and!; try done. exists envelope, id. split; [done|]. split; [exact Hid|].
    apply head_Some_elem_of, elem_filterb in Hh as [Hm Hid']. unfold str_eq in Hid'. by boolify.
  - rewrite lift_bind. destruct (parse_envelope _ _ _ _ _ _ _) as [p|e] eqn:Hp; [|done]. split; [done|]. intros n y [= <- <-].
    split_and!; try done. exists envelope, id. split; [done|]. split; [done|]. split; [done|]. intros m Hm Hmid. apply head_None in Hh.
    assert (m ∈ List.filter (fun m => str_eq (mg_envelope_id m) id) (sent_by (run_id h) sender d)) as Hin.
    { apply elem_filterb. unfold str_eq. rewrite bool_decide_eq_true_2 by done. done. }
    rewrite Hh in Hin. by apply not_elem_of_nil in Hin.
Qed.

(** What an accepted envelope leaves: one message, in the name of the member
    the host knows, and with it at most a claim or a pending question. *)
Record stored_as (fold : string -> string) (h : MessageHub) (sender : string) (member : Member) (sandbox_id : option string) (envelope : json) (d d' : Db) (res : IngestResult) : Prop := {
  sa_parsed : exists p, parsed fold h sender member sandbox_id (mg_envelope_id (ir_message res)) envelope p /\
    ir_recipients res = pa_recipients p /\ (exists hex now, ir_message res = message_row (run_id h) hex (next_seq (run_id h) d) now (pa_draft p)) /\
    (forall c, ir_claim res = Some c -> pa_status p = Some (cl_claimed_status c));
  sa_new : d_agent_messages d !! mg_id (ir_message res) = None /\
    forall m, m ∈ sent_by (run_id h) sender d -> mg_envelope_id m <> mg_envelope_id (ir_message res);
  sa_rows : exists q, ir_decision_request_id res = dr_id <$> q /\
    d' = from_option with_request id q (from_option with_claim id (ir_claim res) (with_message (ir_message res) d)) /\
    (forall r, q = Some r -> d_decision_requests d !! dr_id r = None /\ dr_status r = "pending" /\ dr_requested_by r = sender /\
       dr_message_id r = Some (mg_id (ir_message res)) /\ dr_run_id r = Some (run_id h) /\ dr_resolved_by r = None /\ dr_subject_kind r = "agent_request") /\
    (is_Some q <-> mg_kind (ir_message res) = "decision_request");
  sa_claim : (is_Some (ir_claim res) <-> mg_kind (ir_message res) = "report") /\
    forall c, ir_claim res = Some c -> d_agent_claims d !! cl_id c = None /\ cl_message_id c = mg_id (ir_message res) /\ cl_agent_id c = sender /\
      cl_attempt_id c = attempt_for h !! sender /\ cl_subtask_key c = me_subtask member
}.

Lemma on_work_Ok {A} (m : ST Work A) st st' x : on_work m st = (st', Ok x) -> exists w, m (hs_work st) = (w, Ok x) /\ st' = st {{ hs_work := w }}.
Proof. unfold on_work. destruct (m (hs_work st)) as [w r] eqn:E. intros [= <- ->]. by exists w. Qed.

Lemma bind_run_Ok {S A B} (m : ST S A) (f : A -> ST S B) s s' y : (m ≫= f) s = (s', Ok y) -> exists s1 x, m s = (s1, Ok x) /\ f x s1 = (s', Ok y).
Proof. rewrite st_bind_run. destruct (m s) as [s1 [x|e]] eqn:E; [|done]. intros H. by exists s1, x. Qed.

(** The claim of a report. *)
Lemma claim_step run member sender m status d st st' claim : settled d (hs_work st) ->
  (match status with Some s => c ← on_work (store_claim run member sender m s); mret (Some c) | None => mret None end : ST HubState (option AgentClaimRow)) st = (st', Ok claim) ->
  hs_hub st' = hs_hub st /\ committed (hs_work st') = committed (hs_work st) /\ settled (from_option with_claim id claim d) (hs_work st') /\
  (is_Some claim <-> is_Some status) /\
  forall c, claim = Some c -> d_agent_claims d !! cl_id c = None /\ cl_message_id c = mg_id m /\ cl_agent_id c = sender /\
    cl_attempt_id c = mg_attempt_id m /\ cl_subtask_key c = me_subtask member /\ status = Some (cl_claimed_status c).
Proof.
  intros Hw. destruct status as [s|].
  - intros (s1 & c & H & [= <- <-])%bind_run_Ok. apply on_work_Ok in H as (w & H & ->). apply (store_claim_run _ _ _ _ _ d) in H as (hex & now & Hc & Hn & Hs & C); [|done].
    split; [done|]. split; [exact C|]. split; [exact Hs|]. split; [done|]. intros c' [= <-]. by rewrite Hc in *.
  - intros [= <- <-]. split_and!; try done.
Qed.

(** The question of a decision request. *)
Lemma request_step (b : bool) run sender m options d st st' request : settled d (hs_work st) ->
  (if b then q ← on_work (store_request run sender m options); mret (Some (dr_id q)) else mret None : ST HubState (option string)) st = (st', Ok request) ->
  hs_hub st' = hs_hub st /\ committed (hs_work st') = committed (hs_work st) /\
  exists q, request = dr_id <$> q /\ settled (from_option with_request id q d) (hs_work st') /\ (is_Some q <-> b = true) /\
    forall r, q = Some r -> d_decision_requests d !! dr_id r = None /\ dr_status r = "pending" /\ dr_requested_by r = sender /\
       dr_message_id r = Some (mg_id m) /\ dr_run_id r = Some run /\ dr_resolved_by r = None /\ dr_subject_kind r = "agent_request".
Proof.
  intros Hw. destruct b.
  - intros (s1 & q & H & [= <- <-])%bind_run_Ok. apply on_work_Ok in H as (w & H & ->). apply (store_request_run _ _ _ _ d) in H as (hex & now & Hq & Hn & Hs & C); [|done].
    split; [done|]. split; [exact C|]. exists (Some q). split; [done|]. split; [exact Hs|]. split; [done|]. intros r [= <-]. by rewrite Hq in *.
  - intros [= <- <-]. split; [done|]. split; [done|]. exists None. split; [done|]. split; [done|]. split; [|done]. split; [by intros []|done].
Qed.

Lemma store_run fold h sender member sandbox_id envelope envelope_id count p d st st' res :
  settled d (hs_work st) -> hs_hub st = h -> parsed fold h sender member sandbox_id envelope_id envelope p ->
  (forall m, m ∈ sent_by (run_id h) sender d -> mg_envelope_id m <> envelope_id) ->
  store h sender member count p st = (st', Ok res) ->
  hs_hub st' = h {{ counts ::= insert sender (count + 1) }} /\ committed (hs_work st') = committed (hs_work st) /\
  mg_envelope_id (ir_message res) = envelope_id /\
  exists d', stored_as fold h sender member sandbox_id envelope d d' res /\ settled d' (hs_work st').
Proof.
  intros Hw Hh Hp Hnew H. unfold store in H. apply bind_run_Ok in H as (s1 & message & H1 & H).
  apply on_work_Ok in H1 as (w1 & H1 & ->). apply (persist_run _ _ d) in H1 as (hex & now & Em & Hid & Hs1 & C1); [|done].
  pose proof (pd_identity _ _ _ _ _ _ _ _ Hp) as (I1 & I2 & I3 & I4 & I5).
  apply bind_run_Ok in H as (s2 & u & [= <- _] & H). apply bind_run_Ok in H as (s3 & claim & Hc & H).
  apply (claim_step _ _ _ _ _ (with_message message d)) in Hc as (E1 & E2 & Hs3 & Hcl & Hcl'); [|exact Hs1].
  apply bind_run_Ok in H as (s4 & request & Hq & [= <- <-]).
  apply (request_step _ _ _ _ _ _ _ _ _ Hs3) in Hq as (F1 & F2 & q & Eq & Hs4 & Hb & Hq).
  split; [rewrite F1, E1, <- Hh; reflexivity|]. split; [rewrite F2, E2; exact C1|].
  assert (mg_envelope_id message = envelope_id) as Eid by (by rewrite Em). split; [exact Eid|]. eexists. split; [|exact Hs4].
  assert (mg_kind message = df_kind (pa_draft p)) as Ek by (by rewrite Em).
  assert (mg_attempt_id message = attempt_for h !! sender) as Ea by (by rewrite Em).
  split; cbn [ir_message ir_recipients ir_claim ir_decision_request_id].
  - exists p. rewrite Eid. split; [done|]. split; [done|]. split; [by exists hex, now|]. intros c Hc. by destruct (Hcl' c Hc) as (_&_&_&_&_&?).
  - split; [done|]. intros m Hm. rewrite Eid. by apply Hnew.
  - exists q. split; [exact Eq|]. split; [reflexivity|]. split.
    + intros r Hr. specialize (Hq r Hr). by destruct claim.
    + rewrite Ek, Hb. unfold str_eq. apply bool_decide_eq_true.
  - split; [|intros c Hc; rewrite <- Ea; by destruct (Hcl' c Hc) as (?&?&?&?&?&_)]. rewrite Ek, Hcl. split.
    + intros [s Hs]. by apply (pd_status _ _ _ _ _ _ _ _ Hp) in Hs as [? _].
    + apply (pd_report _ _ _ _ _ _ _ _ Hp).
Qed.

Lemma ingest_Ok fold sender raw_len decoded sandbox_id d st st' res : settled d (hs_work st) -> let h := hs_hub st in
  ingest fold sender raw_len decoded sandbox_id st = (st', Ok res) ->
  exists member envelope, member_of h sender = Some member /\ bound_elsewhere sandbox_id member = false /\ raw_len <= MAX_ENVELOPE_BYTES /\
    sent_count h sender d < max_messages_per_agent h /\
    decoded = Some envelope /\ jget "id" envelope = JStr (mg_envelope_id (ir_message res)) /\
    ((st' = st /\ ir_message res ∈ sent_by (run_id h) sender d /\ ir_recipients res = [] /\ ir_claim res = None /\ ir_decision_request_id res = None) \/
     (hs_hub st' = h {{ counts ::= insert sender (sent_count h sender d + 1) }} /\ committed (hs_work st') = committed (hs_work st) /\
      exists d', stored_as fold h sender member sandbox_id envelope d d' res /\ settled d' (hs_work st'))).
Proof.
  intros Hw h H. unfold ingest in H. rewrite gets_bind in H. fold h in H. rewrite lift_bind in H. destruct (member_of h sender) as [member|] eqn:Hm; [|done].
  cbn [require_some] in H. rewrite st_bind_run in H. pose proof (examine_run fold sender member raw_len decoded sandbox_id d st Hw) as He.
  destruct (examine fold sender member raw_len decoded sandbox_id st) as [s1 [[n y]|e]]; destruct He as [-> He]; [|done].
  destruct (He n y eq_refl) as (-> & Hlt & Hb & Hl & envelope & id & Hd & Hid & Hy). exists member, envelope. cbn [fst snd] in H. destruct y as [m|p].
  - injection H as <- <-. destruct Hy as [Hin Hm']. cbn [ir_message]. rewrite Hm'. split_and!; try done. by left.
  - destruct Hy as [Hp Hnew]. apply parse_envelope_Ok in Hp. fold h in Hp, Hnew, Hlt, H |- *.
    destruct (store_run fold h sender member sandbox_id envelope id _ p d st st' res Hw eq_refl Hp Hnew H) as (E1 & E2 & -> & d' & E3 & E4).
    split_and!; try done. right. split_and!; [done|done|]. by exists d'.
Qed.

Lemma ingest_Err fold sender raw_len decoded sandbox_id d st st' e : settled d (hs_work st) -> let h := hs_hub st in
  ingest fold sender raw_len decoded sandbox_id st = (st', Err e) ->
  st' = st \/ exists member p, member_of h sender = Some member /\
    examine fold sender member raw_len decoded sandbox_id st = (st, Ok (sent_count h sender d, inr p)) /\
    st' = (store h sender member (sent_count h sender d) p st).1.
Proof.
  intros Hw h H. unfold ingest in H. rewrite gets_bind in H. fold h in H. rewrite lift_bind in H.
  destruct (member_of h sender) as [member|] eqn:Hm; cbn [require_some] in H; [|injection H as <- _; by left].
  rewrite st_bind_run in H. pose proof (examine_run fold sender member raw_len decoded sandbox_id d st Hw) as He.
  destruct (examine fold sender member raw_len decoded sandbox_id st) as [s1 [[n y]|e']] eqn:E; destruct He as [-> He]; [|injection H as <- _; by left].
  destruct (He n y eq_refl) as (-> & _). cbn [fst snd] in H. destruct y as [m|p]; [done|].
  right. exists member, p. split_and!; [done|done|]. fold h in H. by rewrite H.
Qed.

(** ** The cap on the messages of an agent *)

Lemma rows_insert {K R} `{Countable K} (m : gmap K R) k r : m !! k = None -> rows (<[k := r]> m) ≡ₚ r :: rows m.
Proof. intros Hk. unfold rows. by rewrite map_to_list_insert. Qed.

#[export] Instance filterb_perm {A} (p : A -> bool) : Proper (Permutation ==> Permutation) (List.filter p).
Proof.
  intros l k Hp. induction Hp as [|x l k _ IH|x y l|l k j _ IH1 _ IH2]; cbn; [done| | |by etrans].
  - destruct (p x); [by constructor|done].
  - destruct (p x), (p y); try done. by constructor.
Qed.

Lemma sent_insert run sender m d : d_agent_messages d !! mg_id m = None ->
  length (sent_by run sender (with_message m d)) =
  ((if str_eq (mg_run_id m) run && str_eq (mg_from_agent m) sender then 1 else 0) + length (sent_by run sender d))%nat.
Proof.
  intros Hn. unfold sent_by, run_messages, select_rows, with_message.
  change (d_agent_messages (d {{ d_agent_messages ::= insert (mg_id m) m }})) with (<[mg_id m := m]> (d_agent_messages d)).
  rewrite (rows_insert _ _ _ Hn). cbn [List.filter]. destruct (str_eq (mg_run_id m) run); cbn [List.filter andb]; [|done].
  by destruct (str_eq (mg_from_agent m) sender).
Qed.

Lemma sent_other run sender d (c : option AgentClaimRow) (q : option DecisionRequestRow) :
  sent_by run sender (from_option with_request id q (from_option with_claim id c d)) = sent_by run sender d.
Proof. by destruct c, q. Qed.

(** How many messages of a sender the database holds. *)
Definition sent (h : MessageHub) (sender : string) (d : Db) : Z := Z.of_nat (length (sent_by (run_id h) sender d)).

(** The hub never counts fewer messages of an agent than it stored, and stored
    no more than the cap. *)
Record capped (st : HubState) : Prop := {
  ca_settled : settled (committed (hs_work st)) (hs_work st);
  ca_counts : forall sender n, is_Some (member_of (hs_hub st) sender) -> counts (hs_hub st) !! sender = Some n -> sent (hs_hub st) sender (committed (hs_work st)) <= n;
  ca_cap : forall sender, is_Some (member_of (hs_hub st) sender) -> sent (hs_hub st) sender (committed (hs_work st)) <= max_messages_per_agent (hs_hub st);
  ca_host : member_of (hs_hub st) HOST = None
}.

(** What the relay of the coordinator does with a hub: an accepted envelope and
    a notice of the host are committed, a refused envelope is rolled back, and a
    worker gets a new Attempt. *)
Inductive relay (fold : string -> string) : HubState -> HubState -> Prop :=
  | relay_accepted st sender raw_len decoded sandbox_id st1 res w :
      ingest fold sender raw_len decoded sandbox_id st = (st1, Ok res) -> commit (hs_work st1) = (w, Ok ()) -> relay fold st (st1 {{ hs_work := w }})
  | relay_refused st sender raw_len decoded sandbox_id st1 e w :
      ingest fold sender raw_len decoded sandbox_id st = (st1, Err e) -> rollback (hs_work st1) = (w, Ok ()) -> relay fold st (st1 {{ hs_work := w }})
  | relay_notice st to_agent body kind meta st1 m w :
      post_from_host to_agent body kind meta st = (st1, Ok m) -> commit (hs_work st1) = (w, Ok ()) -> relay fold st (st1 {{ hs_work := w }})
  | relay_attempt st agent attempt : relay fold st (st {{ hs_hub ::= fun h => h {{ attempt_for ::= insert agent attempt }} }}).

Lemma commit_settled d w w' u : settled d w -> commit w = (w', Ok u) -> settled d w' /\ committed w' = d.
Proof.
  intros [Hs Hi Hc]. unfold commit. rewrite st_bind_run. unfold flush_work. rewrite Hi, Hs, flush_settled by done. intros [= <-]. by split.
Qed.

(** Storing commits nothing, whatever comes of it. *)
Definition uncommitting {A} (m : ST Work A) : Prop := forall c, hoare (fun w => committed w = c) m (fun _ w => committed w = c) (fun _ w => committed w = c).

Create HintDb uncommitting.

Lemma unc_bind {A B} (m : ST Work A) (f : A -> ST Work B) : uncommitting m -> (forall x, uncommitting (f x)) -> uncommitting (m ≫= f).
Proof. intros Hm Hf c. by eapply hoare_bind; [apply Hm|intros x; apply Hf]. Qed.
Lemma unc_ret {A} (x : A) : uncommitting (mret x).
Proof. by intros c w. Qed.
Lemma unc_flush : uncommitting flush_work.
Proof. intros c w Hw. unfold flush_work. destruct (inactive w); [done|]. destruct (flush _ _); [done|]. by destruct (guards _). Qed.
Lemma unc_uuid : uncommitting uuid4_hex.
Proof. by intros c w. Qed.
Lemma unc_utcnow : uncommitting utcnow.
Proof. by intros c w. Qed.
Lemma unc_gets {A} (f : Work -> A) : uncommitting (gets f).
Proof. by intros c w. Qed.
Lemma unc_pend f : uncommitting (pend_checked f).
Proof. intros c w Hw. unfold pend_checked. by destruct (f (pending w)). Qed.
#[export] Hint Resolve unc_bind unc_ret unc_flush unc_uuid unc_utcnow unc_gets unc_pend : uncommitting.

Lemma unc_persist run f : uncommitting (persist run f).
Proof. unfold persist, query. eauto 20 with uncommitting. Qed.
Lemma unc_claim run member sender m status : uncommitting (store_claim run member sender m status).
Proof. unfold store_claim. eauto 20 with uncommitting. Qed.
Lemma unc_request run sender m options : uncommitting (store_request run sender m options).
Proof. unfold store_request. eauto 20 with uncommitting. Qed.

(** The hub as it was, or with one more message of the sender counted. *)
Definition counting (c : Db) (h : MessageHub) (sender : string) (n : Z) (st : HubState) : Prop :=
  committed (hs_work st) = c /\ (hs_hub st = h \/ hs_hub st = h {{ counts ::= insert sender n }}).

Lemma on_work_counting {A} (m : ST Work A) c h sender n : uncommitting m ->
  hoare (counting c h sender n) (on_work m) (fun _ => counting c h sender n) (fun _ => counting c h sender n).
Proof.
  intros Hm st [Hc Hh]. unfold on_work. specialize (Hm c (hs_work st) Hc). destruct (m (hs_work st)) as [w [x|e]]; by split.
Qed.

Lemma store_counting h sender member count p st c : hs_hub st = h -> committed (hs_work st) = c ->
  counting c h sender (count + 1) (store h sender member count p st).1.
Proof.
  intros Hh Hc. assert (hoare (fun st => committed (hs_work st) = c /\ hs_hub st = h) (store h sender member count p)
    (fun _ => counting c h sender (count + 1)) (fun _ => counting c h sender (count + 1))) as H.
  2: { specialize (H st (conj Hc Hh)). by destruct (store h sender member count p st) as [st' [x|e]]. }
  unfold store. eapply (hoare_bind _ _ _ (fun _ st => committed (hs_work st) = c /\ hs_hub st = h)).
  { intros s [H1 H2]. unfold on_work. pose proof (unc_persist (run_id h) (pa_draft p) c (hs_work s) H1) as H.
    destruct (persist _ _ _) as [w [x|e]]; [done|]. split; [done|by left]. }
  intros m. eapply (hoare_bind _ _ _ (fun _ => counting c h sender (count + 1))).
  { intros s [H1 H2]. split; [done|right]. by rewrite <- H2. }
  intros u. eapply (hoare_bind _ _ _ (fun _ => counting c h sender (count + 1))).
  { destruct (pa_status p); [|by apply hoare_ret]. eapply hoare_bind; [by apply on_work_counting, unc_claim|intros x; by apply hoare_ret]. }
  intros claim. eapply (hoare_bind _ _ _ (fun _ => counting c h sender (count + 1))).
  { destruct (str_eq _ _); [|by apply hoare_ret]. eapply hoare_bind; [by apply on_work_counting, unc_request|intros x; by apply hoare_ret]. }
  intros request. by apply hoare_ret.
Qed.

Lemma sent_le_count h sender d st : hs_hub st = h -> committed (hs_work st) = d -> capped st -> is_Some (member_of h sender) ->
  sent h sender d <= sent_count h sender d.
Proof.
  intros <- <- Hc Hm. unfold sent_count. destruct (counts (hs_hub st) !! sender) as [n|] eqn:E; [by apply (ca_counts _ Hc)|reflexivity].
Qed.

Lemma rollback_settled w w' u : constraints_ok (committed w) = true -> rollback w = (w', Ok u) -> settled (committed w) w' /\ committed w' = committed w.
Proof. intros Hc. intros [= <-]. by split. Qed.

Lemma persist_committed run f w w' x : persist run f w = (w', Ok x) -> committed w' = committed w.
Proof. intros H. pose proof (unc_persist run f (committed w) w eq_refl) as Hu. by rewrite H in Hu. Qed.

(** A hub with the same members and limits, whose counts cover what is stored. *)
(** The run, the members and the cap of a hub never change. *)
Definition same_hub (a b : MessageHub) : Prop := run_id a = run_id b /\ members a = members b /\ max_messages_per_agent a = max_messages_per_agent b.

Lemma capped_step st d' w st' sender n :
  capped st -> settled d' w -> committed w = d' ->
  (hs_hub st' = hs_hub st /\ (forall s, is_Some (member_of (hs_hub st) s) -> sent (hs_hub st) s d' <= sent (hs_hub st) s (committed (hs_work st)))) \/
  (hs_hub st' = (hs_hub st) {{ counts ::= insert sender n }} /\
   forall s, is_Some (member_of (hs_hub st) s) -> sent (hs_hub st) s d' <= (if bool_decide (s = sender) then n else sent (hs_hub st) s (committed (hs_work st)))) ->
  (forall s, is_Some (member_of (hs_hub st) s) -> sent (hs_hub st) s d' <= max_messages_per_agent (hs_hub st)) ->
  capped (st' {{ hs_work := w }}) /\ same_hub (hs_hub st) (hs_hub (st' {{ hs_work := w }})).
Proof.
  intros Hc Hs Hw Hh Hcap. subst d'.
  assert (run_id (hs_hub st') = run_id (hs_hub st) /\ members (hs_hub st') = members (hs_hub st) /\ max_messages_per_agent (hs_hub st') = max_messages_per_agent (hs_hub st)) as (E1 & E2 & E3).
  { destruct Hh as [[-> _]|[-> _]]; done. }
  assert (forall s, sent (hs_hub st') s (committed w) = sent (hs_hub st) s (committed w)) as Es by (intros s; unfold sent; by rewrite E1).
  split; [|by split]. split; try change (hs_work (st' {{ hs_work := w }})) with w; try change (hs_hub (st' {{ hs_work := w }})) with (hs_hub st').
  - exact Hs.
  - intros s k Hm Hk. assert (is_Some (member_of (hs_hub st) s)) as Hm' by (unfold member_of in *; by rewrite E2 in Hm).
    rewrite Es. destruct Hh as [[E Hle]|[E Hle]]; rewrite E in Hk; specialize (Hle s Hm').
    + pose proof (ca_counts _ Hc s k Hm' Hk). lia.
    + change (counts ((hs_hub st) {{ counts ::= insert sender n }})) with (<[sender := n]> (counts (hs_hub st))) in Hk.
      apply lookup_insert_Some in Hk as [[<- <-]|[Hne Hk]]; [by rewrite bool_decide_eq_true_2 in Hle|].
      rewrite bool_decide_eq_false_2 in Hle by done. pose proof (ca_counts _ Hc s k Hm' Hk). lia.
  - intros s Hm. rewrite Es, E3. apply Hcap. unfold member_of in *. by rewrite E2 in Hm.
  - unfold member_of. rewrite E2. apply (ca_host _ Hc).
Qed.

(** C32: an envelope speaks only for the sandbox it came from.  Whatever it says
    of its sender, an accepted envelope is stored once, under the identity, role
    and Attempt the host bound to that sandbox, as the next message of the run,
    with a printable body of bounded length, for members of the run the sender
    may address; a report adds one claim and a decision request one pending
    question, and no other row changes (so nothing an agent writes is ever
    Evidence, a verdict or an approval).  The message answered is the one of
    this envelope's id: an envelope of that id which the sender already sent is
    answered with its message and stored no second time, any other is stored
    under its own id.  An envelope that is refused leaves the hub and the
    database as they were (a new one that the database cannot store commits
    nothing). *)
Theorem ingest_spec fold sender raw_len decoded sandbox_id d st : settled d (hs_work st) ->
  let h := hs_hub st in
  match ingest fold sender raw_len decoded sandbox_id st with
  | (st', Ok res) => exists member envelope, member_of h sender = Some member /\ bound_elsewhere sandbox_id member = false /\ raw_len <= MAX_ENVELOPE_BYTES /\
      sent_count h sender d < max_messages_per_agent h /\
      decoded = Some envelope /\ jget "id" envelope = JStr (mg_envelope_id (ir_message res)) /\
      ((st' = st /\ ir_message res ∈ sent_by (run_id h) sender d /\ ir_recipients res = [] /\ ir_claim res = None /\ ir_decision_request_id res = None) \/
       (hs_hub st' = h {{ counts ::= insert sender (sent_count h sender d + 1) }} /\ committed (hs_work st') = committed (hs_work st) /\
        exists d', stored_as fold h sender member sandbox_id envelope d d' res /\ settled d' (hs_work st')))
  | (st', Err e) => st' = st \/
      exists member n p, member_of h sender = Some member /\ examine fold sender member raw_len decoded sandbox_id st = (st, Ok (n, inr p)) /\
        (forall m, m ∈ sent_by (run_id h) sender d -> (jget "id" <$> decoded) <> Some (JStr (mg_envelope_id m))) /\
        committed (hs_work st') = committed (hs_work st)
  end.
Proof.
  intros Hw h. destruct (ingest fold sender raw_len decoded sandbox_id st) as [st' [res|e]] eqn:H.
  - by apply (ingest_Ok _ _ _ _ _ d) in H.
  - apply (ingest_Err _ _ _ _ _ d) in H as [->|(member & p & Hm & He & ->)]; [by left|right|done].
    exists member, (sent_count h sender d), p. split; [done|]. split; [done|]. split.
    { pose proof (examine_run fold sender member raw_len decoded sandbox_id d st Hw) as Hx. cbv zeta in Hx. rewrite He in Hx.
      destruct Hx as [_ Hx]. destruct (Hx _ _ eq_refl) as (_ & _ & _ & _ & envelope & id & -> & Hid & _ & Hnew). intros m Hm' E. cbn in E. rewrite Hid in E.
      injection E as E. by apply (Hnew m Hm'). }
    by destruct (store_counting h sender member (sent_count h sender d) p st _ eq_refl eq_refl).
Qed.

(** ** The relay keeps the cap *)

Lemma sent_stored fold h sender member sandbox_id envelope d d' res s : stored_as fold h sender member sandbox_id envelope d d' res ->
  sent h s d' = (if bool_decide (s = sender) then 1 else 0) + sent h s d.
Proof.
  intros [(p & Hp & _ & (hex & now & Em) & _) [Hn _] (q & _ & -> & _) _]. unfold sent. rewrite sent_other, (sent_insert _ _ _ _ Hn).
  pose proof (pd_identity _ _ _ _ _ _ _ _ Hp) as (I1 & _).
  assert (mg_run_id (ir_message res) = run_id h /\ mg_from_agent (ir_message res) = sender) as [-> ->] by (by rewrite Em).
  unfold str_eq. rewrite (bool_decide_eq_true_2 (run_id h = run_id h)) by done. cbn [andb]. repeat case_bool_decide; subst; try done; lia.
Qed.

Lemma sent_notice run hex seq now f s d : df_from_agent f = HOST -> s <> HOST ->
  d_agent_messages d !! mg_id (message_row run hex seq now f) = None ->
  forall h, sent h s (with_message (message_row run hex seq now f) d) = sent h s d.
Proof.
  intros Hf Hs Hn h. unfold sent. rewrite (sent_insert _ _ _ _ Hn). cbn [message_row mg_from_agent mg_run_id]. rewrite Hf.
  unfold str_eq. rewrite (bool_decide_eq_false_2 (HOST = s)) by congruence. by rewrite andb_false_r.
Qed.

Lemma relay_capped fold st st' : capped st -> relay fold st st' -> capped st' /\ same_hub (hs_hub st) (hs_hub st').
Proof.
  intros Hc Hr. pose proof (ca_settled _ Hc) as Hs. destruct Hr as
    [st sender raw_len decoded sandbox_id st1 res w Hi Hw|st sender raw_len decoded sandbox_id st1 e w Hi Hw|st to_agent body kind meta st1 m w Hp Hw|st agent attempt].
  - apply (ingest_Ok _ _ _ _ _ _ _ _ _ Hs) in Hi as (member & envelope & Hm & _ & _ & Hlt & _ & _ & [(-> & _)|(Hh & _ & d' & Hst & Hs')]).
    + apply (commit_settled _ _ _ _ Hs) in Hw as [Hw Ew]. apply (capped_step st (committed (hs_work st)) w st "" 0 Hc Hw Ew); [left; by split|apply (ca_cap _ Hc)].
    + apply (commit_settled _ _ _ _ Hs') in Hw as [Hw Ew].
      pose proof (sent_le_count _ sender _ st eq_refl eq_refl Hc (mk_is_Some _ _ Hm)) as Hle.
      eapply (capped_step st d' w st1 sender _ Hc Hw Ew); [right; split; [exact Hh|]|]; intros s Hsm; rewrite (sent_stored _ _ _ _ _ _ _ _ _ s Hst).
      * case_bool_decide as Es; [subst s; lia|lia].
      * pose proof (ca_cap _ Hc s Hsm). case_bool_decide as Es; [subst s; lia|lia].
  - assert (counting (committed (hs_work st)) (hs_hub st) sender (sent_count (hs_hub st) sender (committed (hs_work st)) + 1) st1) as [Hcm Hh].
    { apply (ingest_Err _ _ _ _ _ _ _ _ _ Hs) in Hi as [->|(member & p & _ & _ & ->)]; [split; [done|by left]|by apply store_counting]. }
    apply rollback_settled in Hw as [Hw Ew]; [|rewrite Hcm; apply Hs]. rewrite Hcm in Hw, Ew.
    eapply (capped_step st _ w st1 sender (sent_count (hs_hub st) sender (committed (hs_work st)) + 1) Hc Hw Ew); [|apply (ca_cap _ Hc)].
    destruct Hh as [Hh|Hh]; [left; by split|right; split; [exact Hh|]]. intros s Hsm. case_bool_decide as Es; [|done]. subst s.
    pose proof (sent_le_count _ sender _ st eq_refl eq_refl Hc Hsm). lia.
  - unfold post_from_host in Hp. rewrite gets_bind, lift_bind in Hp. destruct (member_of (hs_hub st) to_agent) as [member|] eqn:Hm; [|done].
    cbn [require_some] in Hp. rewrite guard_bind in Hp. destruct (negb _); [done|]. rewrite lift_bind in Hp. destruct (sanitize_body _ _) as [clean|]; [|done].
    apply bind_run_Ok in Hp as (s1 & hex & H1 & Hp). apply on_work_Ok in H1 as (w1 & H1 & ->). injection H1 as <- _.
    apply on_work_Ok in Hp as (w2 & Hp & ->). apply (persist_run _ _ (committed (hs_work st))) in Hp as (hex' & now & Em & Hn & Hs2 & _); [|by destruct Hs].
    apply (commit_settled _ _ _ _ Hs2) in Hw as [Hw Ew]. rewrite Em in Hn, Hw, Ew.
    assert (forall s, is_Some (member_of (hs_hub st) s) -> s <> HOST) as Hhost by (intros s [x Hx] ->; rewrite (ca_host _ Hc) in Hx; done).
    eapply (capped_step st _ w st "" 0 Hc Hw Ew); [left; split; [done|]|]; intros s Hsm; rewrite sent_notice by (done || by apply Hhost).
    + done.
    + by apply (ca_cap _ Hc).
  - split; [by destruct Hc|done].
Qed.

(** No agent can flood a run.  However the relay goes on from a new hub (any
    interleaving of accepted envelopes, refused ones, envelopes the database
    does not take, notices of the host and new Attempts), the run never holds more messages
    of an agent than the cap. *)
Theorem message_cap fold run ms max_body cap rules h w st' :
  new_hub run ms max_body cap rules = Ok h -> settled (committed w) w ->
  (forall agent, agent ∈ map fst ms -> sent h agent (committed w) <= cap) ->
  rtc (relay fold) {| hs_hub := h; hs_work := w |} st' ->
  forall agent, agent ∈ map fst ms -> sent h agent (committed (hs_work st')) <= cap.
Proof.
  unfold new_hub. intros ([] & He & [= <-])%bind_Ok Hw Hcap Hr agent Ha. rewrite each_Ok in He.
  set (h := {| run_id := run; members := ms; max_body_chars := max_body; max_messages_per_agent := cap; materiality_rules := rules; counts := ∅; attempt_for := ∅ |}) in *.
  assert (forall s, is_Some (member_of h s) <-> s ∈ map fst ms) as Hmem.
  { intros s. unfold member_of. rewrite fmap_is_Some, elem_map. split.
    - intros [[k m] Hf]. apply List.find_some in Hf as [Hin Hk]. apply list_elem_of_In in Hin. unfold str_eq in Hk. boolify. exists (k, m). by split.
    - intros ([k m] & Hin & ->). destruct (List.find _ _) as [x|] eqn:Hf; [by eexists|]. apply List.find_none with (x := (k, m)) in Hf; [|by apply list_elem_of_In].
      unfold str_eq in Hf. by rewrite bool_decide_eq_true_2 in Hf. }
  assert (capped {| hs_hub := h; hs_work := w |}) as Hc.
  { split; [exact Hw|done| |].
    - intros s Hs. by apply Hcap, Hmem.
    - apply eq_None_not_Some. intros ([k m] & Hin & E)%Hmem%elem_map. specialize (He (k, m) Hin). apply raise_if_Ok in He. cbn [fst] in He, E. subst k.
      by rewrite orb_true_r in He. }
  assert (forall x y, rtc (relay fold) x y -> capped x -> same_hub h (hs_hub x) -> capped y /\ same_hub h (hs_hub y)) as Hall.
  { induction 1 as [|x y z Hxy _ IH]; [done|]. intros Hx (S1 & S2 & S3). destruct (relay_capped fold x y Hx Hxy) as [Hy (T1 & T2 & T3)].
    apply IH; [exact Hy|]. split_and!; congruence. }
  destruct (Hall _ _ Hr Hc ltac:(done)) as [Hc' (S1 & S2 & S3)]. unfold sent. change cap with (max_messages_per_agent h). rewrite S1, S3.
  apply (ca_cap _ Hc'). unfold member_of. rewrite <- S2. by apply Hmem.
Qed.

(** ** Material requests *)

(** The texts the rules read: all the agent sent, options past the limit too. *)
Definition request_texts (envelope : json) : list string :=
  py_str (json_or (jget "body" envelope) (JStr "")) ::
  match json_or (jget "options" envelope) (JArr []) with JArr raw => map py_str raw | _ => [] end ++
  match jget "consequence" envelope with JStr s => [s] | _ => [] end ++ match jget "action" envelope with JStr s => [s] | _ => [] end.

(** The agent says so, or a rule does. *)
Definition says_material (fold : string -> string) (rules : list MaterialityRule) (envelope : json) : Prop :=
  jget "material" envelope = JBool true \/
  exists rule text, rule ∈ rules /\ text ∈ request_texts envelope /\ text <> "" /\ mr_matches rule (fold text) = true.

Lemma matched_rules_Ok fold texts rules matched : matched_rules fold texts rules = Ok matched ->
  (matched <> [] <-> exists rule text, rule ∈ rules /\ Some text ∈ texts /\ text <> "" /\ mr_matches rule (fold text) = true).
Proof.
  unfold matched_rules. intros (u & _ & [= <-])%bind_Ok. split.
  - intros Hne. destruct (List.filter _ rules) as [|rule l] eqn:E; [done|].
    assert (rule ∈ List.filter (fun rule => existsb (mr_matches rule) (map fold (List.filter str_truthy (map or_empty texts)))) rules) as Hin by (rewrite E; left).
    apply elem_filterb in Hin as [Hr Hm]. apply List.existsb_exists in Hm as (x & Hx & Hm). apply list_elem_of_In, elem_map in Hx as (t & Ht & ->).
    apply elem_filterb in Ht as [Ht Htr]. apply elem_map in Ht as (o & Ho & ->). exists rule, (or_empty o). split; [done|].
    destruct o as [t|]; [|done]. split; [done|]. split; [|done]. by intros E'; cbn in E', Htr; subst t.
  - intros (rule & text & Hr & Ht & Hne & Hm) E.
    assert (rule ∈ List.filter (fun rule => existsb (mr_matches rule) (map fold (List.filter str_truthy (map or_empty texts)))) rules) as Hin.
    { apply elem_filterb. split; [done|]. apply List.existsb_exists. exists (fold text). split; [|done]. apply list_elem_of_In, elem_map. exists text. split; [|done].
      apply elem_filterb. split; [|by destruct text]. apply elem_map. by exists (Some text). }
    apply map_eq_nil in E. rewrite E in Hin. by apply not_elem_of_nil in Hin.
Qed.

Lemma text_or_none_Ok j msg o : text_or_none j msg = Ok o -> match j with JStr s => [s] | _ => [] end = match o with Some s => [s] | None => [] end.
Proof. by destruct j; try done; intros [= <-]. Qed.

Lemma request_meta_Ok fold rules envelope options meta : (exists kvs, envelope = JObj kvs) -> request_meta fold rules envelope = Ok (options, meta) ->
  exists b, kv_get "material" meta = JBool b /\ (b = true <-> says_material fold rules envelope) /\
    (b = true -> kv_get "authority" meta = JStr "human" /\ exists s, kv_get "consequence" meta = JStr s /\ str_truthy s = true) /\
    (jget "material" envelope = JBool true -> (2 <= length (remove_dups options))%nat).
Proof.
  intros [kvs Henv] H. unfold request_meta in H. apply bind_Ok in H as (raw & Hraw & H). apply bind_Ok in H as (opts & _ & H).
  apply bind_Ok in H as (declared & Hd & H). apply bind_Ok in H as (consequence & Hc & H). apply bind_Ok in H as (action & Ha & H).
  apply bind_Ok in H as (u1 & _ & H). apply bind_Ok in H as (u2 & H2%raise_if_Ok & H). apply bind_Ok in H as (matched & Hm & H).
  apply bind_Ok in H as (am & Ham & H).
  assert (am = [] \/ exists a, am = [("action", JStr a)]) as Ham'.
  { destruct (opt_truthy action); [|injection Ham as <-; by left]. apply bind_Ok in Ham as (p & _ & [= <-]). right. by eexists. }
  assert (declared = true <-> jget "material" envelope = JBool true) as Hdec.
  { destruct (kv_has "material" _) eqn:Hh in Hd.
    - destruct (jget "material" envelope); try done. injection Hd as ->. split; [by intros ->|by intros [= ->]].
    - injection Hd as <-. subst envelope. split; [done|]. cbn [jget]. clear -Hh. intros Hg. exfalso. unfold kv_has in Hh.
      induction kvs as [|[k v] kvs IH]; [done|]. cbn in Hh, Hg. apply orb_false_iff in Hh as [E Hh]. rewrite E in Hg. by apply IH. }
  assert (matched <> [] <-> exists rule text, rule ∈ rules /\ text ∈ request_texts envelope /\ text <> "" /\ mr_matches rule (fold text) = true) as Hmat.
  { rewrite (matched_rules_Ok _ _ _ _ Hm). unfold request_texts. destruct (json_or (jget "options" envelope) (JArr [])) as [| | | | |l|]; try done. injection Hraw as ->.
    rewrite (text_or_none_Ok _ _ _ Hc), (text_or_none_Ok _ _ _ Ha).
    assert (forall t, Some t ∈ Some (py_str (json_or (jget "body" envelope) (JStr ""))) :: map (fun o => Some (py_str o)) raw ++ [consequence; action] <->
                      t ∈ py_str (json_or (jget "body" envelope) (JStr "")) :: map py_str raw ++ match consequence with Some s => [s] | None => [] end ++ match action with Some s => [s] | None => [] end) as Ht.
    { intros t. rewrite !elem_of_cons, !elem_of_app, !elem_map. destruct consequence, action; set_solver. }
    setoid_rewrite Ht. done. }
  exists (declared || negb (bool_decide (matched = []))).
  assert ((declared || negb (bool_decide (matched = [])) = true) <-> says_material fold rules envelope) as Hiff.
  { unfold says_material. rewrite orb_true_iff, Hdec, negb_true_iff, bool_decide_eq_false, <- Hmat. done. }
  split_and!; [|exact Hiff| |].
  - destruct (declared || _); [apply bind_Ok in H as (s & _ & [= <- <-])|injection H as <- <-]; by destruct Ham' as [-> | [a ->]].
  - intros Hb. rewrite Hb in H. apply bind_Ok in H as (s & Hs & [= <- <-]). split; [by destruct Ham' as [-> | [a ->]]|].
    exists s. split; [by destruct Ham' as [-> | [a ->]]|]. destruct (nonblank consequence); [|by injection Hs as <-].
    apply bind_Ok in Hs as ([body tr] & Hs & [= <-]). by apply sanitize_any in Hs as [? _].
  - intros Hj%Hdec. assert (opts = options) as <-; [|rewrite Hj in H2; cbn [andb] in H2; apply Z.ltb_ge in H2; lia].
    destruct (declared || _); [by apply bind_Ok in H as (s & _ & [= <- <-])|by injection H as <- <-].
Qed.

Lemma spoof_material sender from req : kv_get "material" (spoof_meta sender from ++ req) = kv_get "material" req.
Proof. destruct from; try done. cbn [spoof_meta]. by destruct (str_eq _ _). Qed.

(** C33: a consequential question waits for a human.  The request an accepted
    envelope opens is stored pending and unresolved, and it is material exactly
    when the agent declared it so or a materiality rule matches any text it
    sent: its question, any of its options (those past the limit included), its
    consequence or its action.  An agent can raise its request to material but
    cannot keep a matching one from being held: a material request then blocks
    the work of its plan it is about. *)
Theorem material_held fold sender raw_len decoded sandbox_id d st st' res qid : settled d (hs_work st) ->
  ingest fold sender raw_len decoded sandbox_id st = (st', Ok res) -> ir_decision_request_id res = Some qid ->
  exists envelope d' r, decoded = Some envelope /\ settled d' (hs_work st') /\ d_decision_requests d' !! qid = Some r /\
    dr_status r = "pending" /\ dr_resolved_by r = None /\ dr_requested_by r = sender /\
    (is_material d' r = true <-> says_material fold (materiality_rules (hs_hub st)) envelope) /\
    (says_material fold (materiality_rules (hs_hub st)) envelope -> forall link k run, d_agent_runs d' !! k = Some run -> rn_id run = run_id (hs_hub st) ->
       rn_plan_id run = pt_plan_id link -> scope d' r = RUN_SCOPE \/ scope d' r = pt_subtask_key link -> blocking d' link r).
Proof.
  intros Hw Hi Hq. apply (ingest_Ok _ _ _ _ _ _ _ _ _ Hw) in Hi as (member & envelope & Hm & _ & _ & _ & Hd & _ & [(_ & _ & _ & _ & E)|(_ & _ & d' & Hst & Hs')]); [congruence|].
  destruct (sa_rows _ _ _ _ _ _ _ _ _ Hst) as (q & Eq & Ed & Hr & Hk). destruct q as [r|]; [|by rewrite Hq in Eq]. rewrite Hq in Eq. injection Eq as ->.
  destruct (Hr r eq_refl) as (_ & H1 & H2 & H3 & H4 & H5 & H6). destruct (sa_parsed _ _ _ _ _ _ _ _ _ Hst) as (p & Hp & _ & (hex & now & Em) & _).
  assert (df_kind (pa_draft p) = "decision_request") as Ek by (rewrite <- (proj1 Hk ltac:(done)); by rewrite Em).
  destruct (pd_request _ _ _ _ _ _ _ _ Hp Ek) as (req & Hreq & Emeta).
  destruct (request_meta_Ok _ _ _ _ _ (pd_object _ _ _ _ _ _ _ _ Hp) Hreq) as (b & Hb & Hiff & _ & _).
  assert (d_decision_requests d' !! dr_id r = Some r) as Hrow by (rewrite Ed; cbn [from_option]; apply lookup_insert_eq).
  assert (d_agent_messages d' !! mg_id (ir_message res) = Some (ir_message res)) as Hmsg.
  { rewrite Ed. cbn [from_option]. by destruct (ir_claim res); apply lookup_insert_eq. }
  assert (mg_meta (ir_message res) = Some (JObj (spoof_meta sender (jget "from" envelope) ++ req))) as Hmeta.
  { rewrite Em. cbn [message_row mg_meta]. rewrite Emeta. cbv zeta. destruct (spoof_meta sender (jget "from" envelope) ++ req) eqn:E; [|done].
    apply app_eq_nil in E as [_ ->]. done. }
  assert (is_material d' r = b) as Hmat.
  { unfold is_material, material_meta. rewrite H6, H3. unfold str_eq. rewrite (bool_decide_eq_true_2 ("agent_request" = "agent_request")) by done. cbn [negb orb].
    replace (opt_truthy (Some (mg_id (ir_message res)))) with true by (by rewrite Em). cbn [negb or_empty default from_option id]. rewrite Hmsg, Hmeta.
    cbn [default from_option id]. assert (json_or (JObj (spoof_meta sender (jget "from" envelope) ++ req)) (JObj []) = JObj (spoof_meta sender (jget "from" envelope) ++ req)) as ->.
    { unfold json_or. cbn [json_truthy]. by destruct (spoof_meta _ _ ++ req). }
    cbn [jget]. rewrite spoof_material, Hb. destruct b; [by apply bool_decide_eq_true_2|by apply bool_decide_eq_false_2, is_Some_None]. }
  exists envelope, d', r. split_and!; try done; [by rewrite Hmat|]. intros Hsay link k run Hrun Hid Hplan Hscope.
  split_and!; try done; [by eexists|by rewrite Hmat, Hiff|by exists k, run; rewrite Hid].
Qed.

Module HubDemo.
Definition lead : Member := {| me_agent := "lead-1"; me_role := "lead"; me_subtask := None; me_sandbox := Some "sbx-1" |}.
Definition worker : Member := {| me_agent := "worker-1"; me_role := "worker"; me_subtask := Some "api"; me_sandbox := Some "sbx-2" |}.
Definition deletes : MaterialityRule := {| mr_id := "data.delete"; mr_category := "deleting data"; mr_description := "deletes data";
  mr_matches := str_contains "delete" |}.
Definition roster : list (string * Member) := [("lead-1", lead); ("worker-1", worker)].
Definition hub : MessageHub := {| run_id := "RUN-1"; members := roster; max_body_chars := 8000; max_messages_per_agent := 200;
  materiality_rules := [deletes]; counts := ∅; attempt_for := {["worker-1" := "ATT-1"]} |}.
Definition db : Db := empty_db {{ d_agent_runs := {["RUN-1" := blank_AgentRunRow {{ rn_id := "RUN-1"; rn_plan_id := "P"; rn_status := "running" }}]} }}.
Definition work : Work := {| wk_host := Demo.host; wk_process := {| EXECUTOR_ID := "9-z"; owners := ∅; remote_effects := ∅; stop_blocked := ∅ |};
  wk_clock := fun n => DateTime (Z.of_nat n) true; wk_uuid := fun n => "00000000000" +:+ pretty (Z.of_nat n); wk_ticks := 0%nat;
  committed := db; session := open_session db; inactive := false |}.
Definition st : HubState := {| hs_hub := hub; hs_work := work |}.
Definition envelope : json := JObj [("id", JStr "0123456789abcdef0123456789abcdef"); ("kind", JStr "decision_request"); ("from", JStr "lead-1");
  ("body", JStr "Which way?"); ("options", JArr [JStr "keep it"; JStr "DELETE the users table"])].
Definition run : HubState * result IngestResult := ingest str_lower "worker-1" 200 (Some envelope) (Some "sbx-2") st.

Lemma work_settled : settled (committed work) work.
Proof. split; [done|done|vm_compute; reflexivity]. Qed.
End HubDemo.

Lemma ingest_spec_witness : settled HubDemo.db HubDemo.work /\ exists st' res, HubDemo.run = (st', Ok res) /\
  mg_from_agent (ir_message res) = "worker-1" /\ mg_attempt_id (ir_message res) = Some "ATT-1" /\ ir_claim res = None /\ is_Some (ir_decision_request_id res).
Proof.
  split; [exact HubDemo.work_settled|].
  assert ((fun r => (mg_kind (ir_message r), ir_claim r)) <$> HubDemo.run.2 = Ok ("decision_request", None)) as Hrun by (vm_compute; reflexivity).
  pose proof (ingest_spec str_lower "worker-1" 200 (Some HubDemo.envelope) (Some "sbx-2") HubDemo.db HubDemo.st HubDemo.work_settled) as H.
  unfold HubDemo.run in *. destruct (ingest _ _ _ _ _ _) as [st' [res|e]]; [|discriminate Hrun]. cbn in Hrun. injection Hrun as Hk Hc.
  exists st', res. split; [reflexivity|]. destruct H as (member & envelope & _ & _ & _ & _ & _ & _ & [(_ & Hin & _)|(_ & _ & d' & Hst & _)]).
  { vm_compute in Hin. by apply not_elem_of_nil in Hin. }
  destruct (sa_parsed _ _ _ _ _ _ _ _ _ Hst) as (p & Hp & _ & (hex & now & Em) & _).
  pose proof (pd_identity _ _ _ _ _ _ _ _ Hp) as (I1 & _ & _ & _ & I5).
  split; [rewrite Em; exact I1|]. split; [rewrite Em; exact I5|]. split; [exact Hc|].
  destruct (sa_rows _ _ _ _ _ _ _ _ _ Hst) as (q & Eq & _ & _ & Hiff). apply Hiff in Hk as [r ->]. rewrite Eq. by eexists.
Defined.

Lemma material_held_witness : exists st' res qid d' r, HubDemo.run = (st', Ok res) /\ ir_decision_request_id res = Some qid /\
  d_decision_requests d' !! qid = Some r /\ dr_status r = "pending" /\ is_material d' r = true.
Proof.
  assert ((fun r => bool_decide (is_Some (ir_decision_request_id r))) <$> HubDemo.run.2 = Ok true) as Hrun by (vm_compute; reflexivity).
  destruct HubDemo.run as [st' [res|e]] eqn:E; [|discriminate Hrun].
  destruct (ir_decision_request_id res) as [qid|] eqn:Hq; [|exfalso; cbn in Hrun; rewrite Hq in Hrun; discriminate Hrun].
  destruct (material_held str_lower "worker-1" 200 (Some HubDemo.envelope) (Some "sbx-2") HubDemo.db HubDemo.st st' res qid HubDemo.work_settled E Hq)
    as (envelope & d' & r & Hd & _ & Hr & Hs & _ & _ & Hiff & _).
  exists st', res, qid, d', r. split; [reflexivity|]. split; [exact Hq|]. split; [exact Hr|]. split; [exact Hs|]. apply Hiff. injection Hd as <-.
  right. exists HubDemo.deletes, "DELETE the users table". split; [left|]. split; [|split; [discriminate|vm_compute; reflexivity]].
  assert (request_texts HubDemo.envelope = ["Which way?"; "keep it"; "DELETE the users table"]) as -> by (vm_compute; reflexivity). right. right. left.
Defined.

Lemma message_cap_witness : exists st', rtc (relay str_lower) {| hs_hub := HubDemo.hub {{ attempt_for := ∅ }}; hs_work := HubDemo.work |} st' /\
  counts (hs_hub st') !! "worker-1" = Some 1 /\ sent HubDemo.hub "worker-1" (committed (hs_work st')) <= 200.
Proof.
  assert (forall w, snd (commit w) = Ok () -> exists w', commit w = (w', Ok ())) as Hsnd by (intros w; destruct (commit w) as [w' r]; intros E; cbn in E; subst r; by exists w').
  assert (snd (commit (hs_work (fst HubDemo.run))) = Ok ()) as Hcm by (vm_compute; reflexivity).
  assert (is_ok HubDemo.run.2 = true) as Hok by (vm_compute; reflexivity).
  assert (counts (hs_hub (fst HubDemo.run)) !! "worker-1" = Some 1) as Hct by (vm_compute; reflexivity).
  apply Hsnd in Hcm as [w Hw]. destruct HubDemo.run as [st' [res|e]] eqn:E; [|discriminate Hok]. cbn [fst] in *.
  assert (rtc (relay str_lower) {| hs_hub := HubDemo.hub {{ attempt_for := ∅ }}; hs_work := HubDemo.work |} (st' {{ hs_work := w }})) as Hr.
  { eapply rtc_l; [exact (relay_attempt _ _ "worker-1" "ATT-1")|]. eapply rtc_once, relay_accepted; [exact E|exact Hw]. }
  exists (st' {{ hs_work := w }}). split; [exact Hr|]. split; [exact Hct|].
  exact (message_cap str_lower "RUN-1" HubDemo.roster 8000 200 [HubDemo.deletes] (HubDemo.hub {{ attempt_for := ∅ }}) HubDemo.work _ eq_refl
    HubDemo.work_settled ltac:(intros agent _; vm_compute; discriminate) Hr "worker-1" ltac:(right; left)).
Defined.
