(* ===== verification/Scoped.v ===== *)
(** * Scoped: which of a worker's changes reach the workspace

    Models the end of [src/sdf_core/coordinator.py]: the workspace of a subtask
    is reset to the fixture of the plan, and of what the host collected from the
    worker's sandbox only the changes inside the subtask's paths are taken.  A
    tree of files is its regular files by path relative to the root, with its
    directories; a fixture has no symbolic links. *)

From S2P Require Import Prelude Checks.

Record Disk : Type := { files : gmap string string; dirs : gset string }.

(** [HELD_OUT_DIR in relative.split("/")] *)
Definition held_out (relative : string) : bool := str_in HELD_OUT_DIR (str_split slash relative).

(** [_files(root)] *)
Definition _files (root : Disk) : gmap string string := filter (fun kv => held_out kv.1 = false) (files root).

(** [shutil.copytree(fixture, workspace, ignore=...)] into an empty place. *)
Definition copytree (fixture : Disk) : Disk :=
  {| files := _files fixture; dirs := filter (fun rel => held_out rel = false) (dirs fixture) |}.

(** [p.rstrip("/")] *)
Fixpoint rstrip_slash (s : string) : string :=
  match s with
  | EmptyString => EmptyString
  | String c t => match rstrip_slash t with
                  | EmptyString => if bool_decide (c = slash) then EmptyString else String c EmptyString
                  | t' => String c t'
                  end
  end.

Definition _within (rel : string) (prefixes : list string) : bool :=
  existsb (fun p => str_eq rel (rstrip_slash p) || str_startswith (rstrip_slash p +:+ "/") rel) prefixes.

(** The directories above a path: [path.parents], without the root. *)
Definition parents (rel : string) : list string :=
  let parts := str_split slash rel in
  map (fun n => str_join "/" (take n parts)) (seq 1 (length parts - 1)).

Definition IsADirectoryError (rel : string) : exn := OtherError "IsADirectoryError" rel.
Definition FileExistsError (rel : string) : exn := OtherError "FileExistsError" rel.

(** [target.parent.mkdir(parents=True, exist_ok=True); target.write_bytes(after)] *)
Definition write_file (rel after : string) (ws : Disk) : result Disk :=
  _ ← raise_if (existsb (fun p => bool_decide (is_Some (files ws !! p))) (parents rel)) (FileExistsError rel);
  let dirs' := list_to_set (parents rel) ∪ dirs ws in
  _ ← raise_if (bool_decide (rel ∈ dirs')) (IsADirectoryError rel);
  Ok {| files := <[rel := after]> (files ws); dirs := dirs' |}.

(** [target.unlink(missing_ok=True)] *)
Definition unlink (rel : string) (ws : Disk) : result Disk :=
  _ ← raise_if (bool_decide (rel ∈ dirs ws)) (IsADirectoryError rel);
  Ok {| files := delete rel (files ws); dirs := dirs ws |}.

Record Applied : Type := { ap_workspace : Disk; ap_changed : list string; ap_ignored : list string }.

(** A change nobody keeps: compiled Python. *)
Definition is_cache (rel : string) : bool := str_in "__pycache__" (str_split slash rel) || str_endswith ".pyc" rel.

Definition out_of_scope (allowed protected : list string) (rel : string) : bool :=
  _within rel protected || (negb (bool_decide (allowed = [])) && negb (_within rel allowed)).

(** The body of the loop over the paths. *)
Definition apply_path (base theirs : gmap string string) (allowed protected : list string) (st : Applied) (rel : string) : result Applied :=
  let before := base !! rel in
  let after := theirs !! rel in
  if bool_decide (before = after) || is_cache rel then Ok st
  else if out_of_scope allowed protected rel then Ok {| ap_workspace := ap_workspace st; ap_changed := ap_changed st; ap_ignored := ap_ignored st ++ [rel] |}
  else
    ws ← match after with None => unlink rel (ap_workspace st) | Some after => write_file rel after (ap_workspace st) end;
    Ok {| ap_workspace := ws; ap_changed := ap_changed st ++ [rel]; ap_ignored := ap_ignored st |}.

(** [sorted(set(base) | set(theirs))] *)
Definition all_paths (base theirs : gmap string string) : list string := str_sorted (elements (dom base ∪ dom theirs)).

Definition _apply_scoped (fixture : Disk) (theirs : gmap string string) (allowed protected : list string) : result Applied :=
  let base := _files fixture in
  result_fold (apply_path base theirs allowed protected) {| ap_workspace := copytree fixture; ap_changed := []; ap_ignored := [] |}
    (all_paths base theirs).

(** ** What is taken *)

Section scoped.
Context (base theirs : gmap string string) (allowed protected : list string).

Definition differs (rel : string) : bool := negb (bool_decide (base !! rel = theirs !! rel)) && negb (is_cache rel).
Definition taken_path (rel : string) : bool := differs rel && negb (out_of_scope allowed protected rel).
Definition left_out (rel : string) : bool := differs rel && out_of_scope allowed protected rel.

Lemma apply_path_left st rel : taken_path rel = false ->
  apply_path base theirs allowed protected st rel =
    Ok {| ap_workspace := ap_workspace st; ap_changed := ap_changed st; ap_ignored := ap_ignored st ++ (if left_out rel then [rel] else []) |}.
Proof.
  unfold taken_path, left_out, differs, apply_path. destruct (bool_decide _); cbn -[out_of_scope].
  { intros _. rewrite app_nil_r. by destruct st. }
  destruct (is_cache rel); cbn -[out_of_scope].
  { intros _. rewrite app_nil_r. by destruct st. }
  by destruct (out_of_scope allowed protected rel).
Qed.

Lemma apply_path_taken st rel st' : taken_path rel = true -> apply_path base theirs allowed protected st rel = Ok st' ->
  files (ap_workspace st') = partial_alter (fun _ => theirs !! rel) rel (files (ap_workspace st)) /\
  ap_changed st' = ap_changed st ++ [rel] /\ ap_ignored st' = ap_ignored st.
Proof.
  unfold taken_path, differs, apply_path. destruct (bool_decide _); [done|]. destruct (is_cache rel); [done|]. cbn -[out_of_scope].
  intros ->%negb_true_iff (ws & Hw & [= <-])%bind_Ok. cbn. split; [|done]. destruct (theirs !! rel) as [after|].
  - unfold write_file in Hw. apply bind_Ok in Hw as (u & _ & Hw). apply bind_Ok in Hw as (u' & _ & [= <-]). done.
  - unfold unlink in Hw. by apply bind_Ok in Hw as (u & _ & [= <-]).
Qed.

(** One path after the other, each settled by its own turn. *)
Lemma fold_paths l : NoDup l -> forall st st', result_fold (apply_path base theirs allowed protected) st l = Ok st' ->
  (forall rel, files (ap_workspace st') !! rel = if taken_path rel && str_in rel l then theirs !! rel else files (ap_workspace st) !! rel) /\
  ap_changed st' = ap_changed st ++ List.filter taken_path l /\ ap_ignored st' = ap_ignored st ++ List.filter left_out l.
Proof.
  induction 1 as [|x l Hx Hl IH]; intros st st' H.
  { injection H as <-. cbn. rewrite !app_nil_r. split; [|done]. intros rel. by rewrite andb_false_r. }
  cbn [result_fold] in H. apply bind_Ok in H as (st1 & H1 & H). destruct (IH _ _ H) as (IHf & -> & ->). clear IH H. cbn [List.filter].
  assert (forall rel, str_in rel (x :: l) = str_eq rel x || str_in rel l) as Hin.
  { intros rel. unfold str_in, str_eq. rewrite <- bool_decide_or. apply bool_decide_ext. apply elem_of_cons. }
  destruct (taken_path x) eqn:Ht.
  - destruct (apply_path_taken _ _ _ Ht H1) as (Ef & -> & ->).
    assert (left_out x = false) as -> by (unfold taken_path, left_out in *; by destruct (differs x), (out_of_scope _ _ x)).
    rewrite <- app_assoc. split; [|done]. intros rel. rewrite IHf, Hin, Ef. unfold str_eq. case_bool_decide as E; [subst rel|].
    + rewrite Ht. cbn [andb orb]. destruct (str_in x l); [done|]. by rewrite lookup_partial_alter_eq.
    + cbn [orb]. by rewrite lookup_partial_alter_ne by done.
  - rewrite (apply_path_left _ _ Ht) in H1. injection H1 as <-. cbn -[List.filter]. split; [|destruct (left_out x); by rewrite <- ?app_assoc, ?app_nil_r].
    intros rel. rewrite IHf, Hin. unfold str_eq. cbn. case_bool_decide as E; [subst rel; by rewrite Ht|done].
Qed.

(** Writing only fails on a file where a directory is needed, or the other way
    round. *)
Definition no_clash (fixture_dirs : gset string) : Prop :=
  forall p q, p ∈ dom base ∪ dom theirs -> q ∈ dom base ∪ dom theirs -> p ∉ parents q /\ p ∉ fixture_dirs.

Record within_trees (d : gset string) (ws : Disk) : Prop := {
  wt_files : dom (files ws) ⊆ dom base ∪ dom theirs;
  wt_dirs : forall p, p ∈ dirs ws -> p ∈ d \/ exists q, q ∈ dom base ∪ dom theirs /\ p ∈ parents q
}.

Lemma apply_path_total d st rel : no_clash d -> rel ∈ dom base ∪ dom theirs -> within_trees d (ap_workspace st) ->
  exists st', apply_path base theirs allowed protected st rel = Ok st' /\ within_trees d (ap_workspace st').
Proof.
  intros Hc Hrel [Hf Hd]. destruct (taken_path rel) eqn:Ht.
  2: { rewrite (apply_path_left _ _ Ht). eexists. split; [done|]. by split. }
  assert (forall p, p ∈ dirs (ap_workspace st) -> p <> rel) as Hdir.
  { intros p [Hp|(q & Hq & Hp)]%Hd E; [subst p|subst p]; [by destruct (Hc rel rel Hrel Hrel)|by destruct (Hc rel q Hrel Hq)]. }
  unfold taken_path, differs, apply_path in *. destruct (bool_decide (base !! rel = theirs !! rel)); [done|]. destruct (is_cache rel); [done|].
  cbn -[out_of_scope] in Ht. apply negb_true_iff in Ht. rewrite Ht. cbn. destruct (theirs !! rel) as [after|] eqn:E.
  - unfold write_file. match goal with |- context [existsb ?f ?l] => destruct (existsb f l) eqn:Ee end.
    { apply List.existsb_exists in Ee as (p & Hp%list_elem_of_In & [x Hx]%bool_decide_eq_true). exfalso.
      destruct (Hc p rel); [|done|done]. apply Hf, elem_of_dom. by eexists. }
    cbn. rewrite bool_decide_eq_false_2.
    2: { intros [Hp%elem_of_list_to_set|Hp]%elem_of_union; [by destruct (Hc rel rel Hrel Hrel)|by apply (Hdir rel)]. }
    cbn. eexists. split; [done|]. split; cbn.
    + rewrite dom_insert_L. set_solver.
    + intros p [Hp%elem_of_list_to_set|Hp]%elem_of_union; [right; by exists rel|by apply Hd].
  - unfold unlink. rewrite bool_decide_eq_false_2 by (intros Hp; by apply (Hdir rel)). cbn. eexists. split; [done|]. split; cbn; [|done].
    rewrite dom_delete_L. set_solver.
Qed.

Lemma fold_paths_total d l : no_clash d -> (forall p, p ∈ l -> p ∈ dom base ∪ dom theirs) -> forall st, within_trees d (ap_workspace st) ->
  exists st', result_fold (apply_path base theirs allowed protected) st l = Ok st'.
Proof.
  intros Hc. induction l as [|x l IH]; intros Hl st Hst; [by eexists|].
  destruct (apply_path_total d st x Hc) as (st1 & E & H1); [apply Hl; left|done|]. cbn [result_fold]. rewrite E. apply IH; [|done].
  intros p Hp. apply Hl. by right.
Qed.

Lemma elem_all_paths rel : rel ∈ all_paths base theirs <-> rel ∈ dom base ∪ dom theirs.
Proof. unfold all_paths, str_sorted. rewrite sort_by_perm. apply elem_of_elements. Qed.

Lemma NoDup_all_paths : NoDup (all_paths base theirs).
Proof. unfold all_paths, str_sorted. rewrite sort_by_perm. apply NoDup_elements. Qed.
End scoped.

(** C23: after the host applied what it collected, the workspace is the fixture
    (without its held-out tree) with exactly the in-scope changes: a file is the
    worker's when it differs from the fixture's, is not compiled Python, is
    under no protected path and, where the subtask lists paths, under one of
    them; every other file, in particular every protected one, is the
    fixture's.  The reported changes and the ignored ones are those paths, each
    once, in order.  It can only fail where one tree has a file and the other a
    directory. *)
Theorem apply_scoped_spec fixture theirs allowed protected :
  let base := _files fixture in
  (no_clash base theirs (dirs (copytree fixture)) -> is_ok (_apply_scoped fixture theirs allowed protected) = true) /\
  forall a, _apply_scoped fixture theirs allowed protected = Ok a ->
    (forall rel, files (ap_workspace a) !! rel = if taken_path base theirs allowed protected rel then theirs !! rel else base !! rel) /\
    (forall rel, _within rel protected = true -> files (ap_workspace a) !! rel = base !! rel) /\
    ap_changed a = List.filter (taken_path base theirs allowed protected) (all_paths base theirs) /\
    ap_ignored a = List.filter (left_out base theirs allowed protected) (all_paths base theirs) /\ NoDup (ap_changed a ++ ap_ignored a).
Proof.
  intros base. split.
  { intros Hc. unfold _apply_scoped. destruct (fold_paths_total base theirs allowed protected _ (all_paths base theirs) Hc) with (st := {| ap_workspace := copytree fixture; ap_changed := []; ap_ignored := [] |}) as (st & E).
    - intros p. apply elem_all_paths.
    - split; cbn; [apply union_subseteq_l|intros p Hp; by left].
    - fold base. by rewrite E. }
  intros a H. apply (fold_paths _ _ _ _ _ (NoDup_all_paths base theirs)) in H as (Hf & Hc & Hi).
  cbn [ap_workspace ap_changed ap_ignored copytree files app] in Hf, Hc, Hi. change (_files fixture) with base in Hf, Hc, Hi. clearbody base.
  assert (forall rel, files (ap_workspace a) !! rel = if taken_path base theirs allowed protected rel then theirs !! rel else base !! rel) as Hfile.
  { intros rel. rewrite Hf. destruct (taken_path base theirs allowed protected rel) eqn:Ht; [|done]. cbn [andb]. unfold str_in. case_bool_decide as Hin; [done|].
    rewrite elem_all_paths, elem_of_union, !elem_of_dom in Hin. destruct (base !! rel), (theirs !! rel); try done; exfalso; apply Hin; eauto. }
  split; [exact Hfile|]. split.
  { intros rel Hp. rewrite Hfile. unfold taken_path, out_of_scope. rewrite Hp. cbn. by rewrite andb_false_r. }
  split; [exact Hc|]. split; [exact Hi|]. rewrite Hc, Hi. apply NoDup_app. split_and!.
  - apply NoDup_ListNoDup, List.NoDup_filter, NoDup_ListNoDup, NoDup_all_paths.
  - intros x [_ H1]%elem_filterb [_ H2]%elem_filterb. unfold taken_path, left_out in *. by destruct (differs _ _ x), (out_of_scope _ _ x).
  - apply NoDup_ListNoDup, List.NoDup_filter, NoDup_ListNoDup, NoDup_all_paths.
Qed.

Module ScopedDemo.
Definition fixture : Disk := {|
  files := {["src/a.py" := "a"; "src/b.py" := "b"; "tests/t.py" := "t"; ".sdf-held-out/h.py" := "h"; "lib.py" := "l"]};
  dirs := {["src"; "tests"; ".sdf-held-out"]} |}.
Definition theirs : gmap string string :=
  {["src/a.py" := "A"; "src/new/c.py" := "c"; "tests/t.py" := "pass"; "src/__pycache__/a.pyc" := "0"; "lib.py" := "L"; "srcx/d.py" := "d"]}.
Definition applied : result Applied := _apply_scoped fixture theirs ["src/"; "tests"] ["tests"].
End ScopedDemo.

Lemma apply_scoped_spec_witness : exists a, ScopedDemo.applied = Ok a /\
  ap_changed a = ["src/a.py"; "src/b.py"; "src/new/c.py"] /\ ap_ignored a = ["lib.py"; "srcx/d.py"; "tests/t.py"] /\
  files (ap_workspace a) !! "tests/t.py" = Some "t" /\ files (ap_workspace a) !! "lib.py" = Some "l" /\
  files (ap_workspace a) !! "src/b.py" = None /\ files (ap_workspace a) !! "src/new/c.py" = Some "c".
Proof.
  assert (is_ok ScopedDemo.applied = true) as Hok by (vm_compute; reflexivity).
  destruct ScopedDemo.applied as [a|] eqn:E; [|done]. exists a. split; [done|]. unfold ScopedDemo.applied in E.
  destruct (proj2 (apply_scoped_spec ScopedDemo.fixture ScopedDemo.theirs ["src/"; "tests"] ["tests"]) a E) as (Hf & Hp & -> & -> & _).
  rewrite Hp by reflexivity. rewrite !Hf. split_and!; vm_compute; reflexivity.
Defined.

(** A worker that puts a file where the fixture has a directory makes the host
    raise. *)
Example scoped_clash : _apply_scoped ScopedDemo.fixture {["src" := "file"]} ["src"] [] = Err (IsADirectoryError "src").
Proof. vm_compute. reflexivity. Qed.
