(* ===== verification/RunConfig.v ===== *)
(** * RunConfig: what a run may cost

    Models the configuration of a run in [src/sdf_core/coordinator.py]: the
    dataclass, its validation, what a caller may choose and what only the
    server sets. *)

From S2P Require Import Prelude Floats Json Db EvidenceMac Flush DecisionGate Checks.

(** ** Python numbers *)

Definition type_name (j : json) : string :=
  match j with
  | JNull => "NoneType" | JBool _ => "bool" | JInt _ => "int" | JFloat _ => "float" | JStr _ => "str" | JArr _ => "list" | JObj _ => "dict"
  end.

(** [z <= j], [z < j] and [j <= z] for an [int] constant [z]. *)
Definition Z_le (z : Z) (j : json) : result bool :=
  match as_num j with
  | Some (inl n) => Ok (z <=? n)
  | Some (inr f) => Ok (match f_cmp_Z f z with Some Gt | Some Eq => true | _ => false end)
  | None => Err (TypeError ("'<=' not supported between instances of 'int' and '" +:+ type_name j +:+ "'"))
  end.
Definition Z_lt (z : Z) (j : json) : result bool :=
  match as_num j with
  | Some (inl n) => Ok (z <? n)
  | Some (inr f) => Ok (f_gt_Z f z)
  | None => Err (TypeError ("'<' not supported between instances of 'int' and '" +:+ type_name j +:+ "'"))
  end.
Definition le_Z (j : json) (z : Z) : result bool :=
  match as_num j with
  | Some (inl n) => Ok (n <=? z)
  | Some (inr f) => Ok (f_le_Z f z)
  | None => Err (TypeError ("'<=' not supported between instances of '" +:+ type_name j +:+ "' and 'int'"))
  end.

(** [a and b] on tests that may raise. *)
Definition and_then (a b : result bool) : result bool := match a with Ok true => b | _ => a end.
Definition between (lo : Z) (j : json) (hi : Z) : result bool := and_then (Z_le lo j) (le_Z j hi).
Definition above (lo : Z) (j : json) (hi : Z) : result bool := and_then (Z_lt lo j) (le_Z j hi).

(** *** [float(text)] *)

(** The value of [mantissa * 10 ^ exponent]. *)
Definition decimal (mantissa exponent : Z) : float :=
  if 0 <=? exponent then f_ratio (mantissa * 10 ^ exponent) 1 else f_ratio mantissa (Z.to_pos (10 ^ (- exponent))).

Definition digit_value (c : ascii) : Z := Z.of_nat (nat_of_ascii c) - 48.

(** Digits with single underscores between them: the number, how many digits,
    and the rest. *)
Fixpoint digits (acc n : Z) (s : string) : Z * Z * string :=
  match s with
  | String c t =>
      if is_digit c then digits (10 * acc + digit_value c) (n + 1) t
      else match t with
           | String d _ => if str_eq (char_str c) "_" && is_digit d && (0 <? n) then digits acc n t else (acc, n, s)
           | EmptyString => (acc, n, s)
           end
  | EmptyString => (acc, n, s)
  end.

Definition sign_of (s : string) : bool * string :=
  match s with
  | String c t => if str_eq (char_str c) "-" then (true, t) else if str_eq (char_str c) "+" then (false, t) else (false, s)
  | EmptyString => (false, s)
  end.

(** The exponent, when the rest of the text is one. *)
Definition exponent_of (s : string) : option Z :=
  match s with
  | EmptyString => Some 0
  | String c t =>
      if str_eq (str_lower (char_str c)) "e" then
        let '(neg, t) := sign_of t in
        let '(e, n, rest) := digits 0 0 t in
        if (0 <? n) && str_eq rest "" then Some (if neg then - e else e) else None
      else None
  end.

Definition unsigned_float (s : string) : option float :=
  let low := str_lower s in
  if str_in low ["inf"; "infinity"] then Some (S754_infinity false)
  else if str_eq low "nan" then Some S754_nan
  else
    let '(whole, n, rest) := digits 0 0 s in
    let '(m, k, n, rest) := match rest with
      | String c t => if str_eq (char_str c) "." then let '(m, k, rest) := digits whole 0 t in (m, k, n + k, rest) else (whole, 0, n, rest)
      | EmptyString => (whole, 0, n, rest)
      end in
    if 0 <? n then e ← exponent_of rest; Some (decimal m (e - k)) else None.

(** [None] where Python raises [ValueError]. *)
Definition py_float (text : string) : option float :=
  let '(neg, s) := sign_of (str_strip text) in
  x ← unsigned_float s; Some (if neg then f_neg x else x).

(** ** The configuration *)

(** The value of [lead] and [worker]: a [RoleConfig], or whatever else a caller
    put there. *)
Inductive RoleValue : Type :=
  | RoleConfig (kind model : json)
  | NotARole (value : json).

Record RunConfig : Type := {
  lead : RoleValue; worker : RoleValue; max_concurrent_turns : json; max_cost_usd : json; max_wall_s : json;
  max_turns_per_agent : json; max_verify_rounds : json; stall_s : json; poll_interval_s : json;
  price_in_per_m : json; price_out_per_m : json; sandbox_usd_per_s : json; evidence_mode : json; max_material_hold_s : json
}.

Definition dec (num : Z) (den : positive) : json := JFloat (f_ratio num den).

Definition default_config : RunConfig := {|
  lead := RoleConfig (JStr "opencode") JNull; worker := RoleConfig (JStr "pi") JNull;
  max_concurrent_turns := JInt 3; max_cost_usd := dec 75 100; max_wall_s := dec 1500 1; max_turns_per_agent := JInt 6;
  max_verify_rounds := JInt 2; stall_s := dec 45 1; poll_interval_s := dec 5 10; price_in_per_m := dec 75 100;
  price_out_per_m := dec 3 1; sandbox_usd_per_s := dec 56 1000000; evidence_mode := JStr "live"; max_material_hold_s := dec 3600 1
|}.

Definition role_dict (r : RoleValue) : json :=
  match r with RoleConfig kind model => JObj [("kind", kind); ("model", model)] | NotARole v => v end.

Definition as_dict (c : RunConfig) : list (string * json) := [
  ("lead", role_dict (lead c)); ("worker", role_dict (worker c)); ("max_concurrent_turns", max_concurrent_turns c);
  ("max_cost_usd", max_cost_usd c); ("max_wall_s", max_wall_s c); ("max_turns_per_agent", max_turns_per_agent c);
  ("max_verify_rounds", max_verify_rounds c); ("stall_s", stall_s c); ("poll_interval_s", poll_interval_s c);
  ("price_in_per_m", price_in_per_m c); ("price_out_per_m", price_out_per_m c); ("sandbox_usd_per_s", sandbox_usd_per_s c);
  ("evidence_mode", evidence_mode c); ("max_material_hold_s", max_material_hold_s c)].

Definition FIELDS : list string := map fst (as_dict default_config).

Definition SUPPORTED_KINDS : list string := ["opencode"; "pi"].
Definition SERVER_FIELDS : list string := ["price_in_per_m"; "price_out_per_m"; "sandbox_usd_per_s"; "evidence_mode"].
Definition PRICE_LIMITS : list (string * float) := [("price_in_per_m", f_of_Z 1000); ("price_out_per_m", f_of_Z 1000); ("sandbox_usd_per_s", f_of_Z 1)].
Definition PRICE_ENV : list (string * string) :=
  [("price_in_per_m", "SDF_RUN_PRICE_IN_PER_M"); ("price_out_per_m", "SDF_RUN_PRICE_OUT_PER_M"); ("sandbox_usd_per_s", "SDF_RUN_SANDBOX_USD_PER_S")].

(** [RoleConfig] with the entries of a dict as keyword arguments. *)
Definition role_of (kvs : list (string * json)) : result RoleValue :=
  _ ← match List.find (fun kv => negb (str_in kv.1 ["kind"; "model"])) kvs with
      | Some kv => Err (TypeError ("RoleConfig.__init__() got an unexpected keyword argument " +:+ str_repr kv.1))
      | None => Ok ()
      end;
  kind ← require_some (kv_find "kind" kvs) (TypeError "RoleConfig.__init__() missing 1 required positional argument: 'kind'");
  Ok (RoleConfig kind (default JNull (kv_find "model" kvs))).

Definition role_field (name : string) (dflt : RoleValue) (data : list (string * json)) : result RoleValue :=
  match kv_find name data with
  | Some (JObj kvs) => role_of kvs
  | Some j => Ok (NotARole j)
  | None => Ok dflt
  end.

Definition check_role (name : string) (r : RoleValue) : result unit :=
  let refused kind := Err (ValueError (name +:+ " kind " +:+ py_repr kind +:+ " is not supported by the coordinator (use " +:+ list_repr SUPPORTED_KINDS +:+ ")")) in
  match r with
  | RoleConfig (JStr k) _ => if str_in k SUPPORTED_KINDS then Ok () else refused (JStr k)
  | RoleConfig kind _ => refused kind
  | NotARole v => refused v
  end.

Definition f_is_finite (x : float) : bool := match x with S754_zero _ | S754_finite _ _ _ => true | _ => false end.

(** [math.isfinite(value) and 0 <= value <= upper]; an [int] too large for a
    float makes [isfinite] raise. *)
Definition price_ok (value : json) (upper : float) : result bool :=
  match value with
  | JInt z => _ ← raise_if (negb (f_is_finite (f_of_Z z))) (OtherError "OverflowError" "int too large to convert to float");
              Ok ((0 <=? z) && (match f_cmp_Z upper z with Some Gt | Some Eq => true | _ => false end))
  | JFloat f => Ok (f_is_finite f && f_le f_zero f && f_le f upper)
  | _ => Ok false
  end.

(** [_check_price]: the price as a float. *)
Definition _check_price (name : string) (value : json) (upper : float) : result float :=
  ok ← price_ok value upper;
  _ ← raise_if (negb ok) (ValueError (name +:+ " must be a number in [0, " +:+ float_repr upper +:+ "]"));
  Ok (match value with JInt z => f_of_Z z | JFloat f => f | _ => f_zero end).

Definition field (name : string) (c : RunConfig) : json := default JNull (kv_find name (as_dict c)).

(** [name, getattr(config, name), upper] for each of the prices. *)
Definition check_prices (c : RunConfig) : result unit :=
  each PRICE_LIMITS (fun nu => _ ← _check_price nu.1 (field nu.1 c) nu.2; Ok ()).

(** [if not test: raise ValueError(msg)] for a test that may raise. *)
Definition need (test : result bool) (msg : string) : result unit := ok ← test; raise_if (negb ok) (ValueError msg).

Definition hold_ok (j : json) : result bool := match j with JInt _ | JFloat _ => above 0 j 86400 | _ => Ok false end.

Definition check_config (c : RunConfig) : result unit :=
  _ ← check_role "lead" (lead c);
  _ ← check_role "worker" (worker c);
  _ ← need (between 1 (max_concurrent_turns c) 8) "max_concurrent_turns must be 1..8";
  _ ← need (above 0 (max_cost_usd c) 5) "max_cost_usd must be in (0, 5]";
  _ ← need (above 0 (max_wall_s c) 7200) "max_wall_s must be in (0, 7200]";
  _ ← need (hold_ok (max_material_hold_s c)) "max_material_hold_s must be in (0, 86400]";
  _ ← need (and_then (between 1 (max_turns_per_agent c) 30) (between 1 (max_verify_rounds c) 5)) "turn / verify caps out of range";
  _ ← raise_if (negb (match evidence_mode c with JStr m => str_in m EVIDENCE_MODES | _ => false end))
        (ValueError ("evidence_mode must be one of " +:+ list_repr EVIDENCE_MODES));
  check_prices c.

Definition from_dict (data : option (list (string * json))) : result RunConfig :=
  let data := default [] data in
  lead ← role_field "lead" (lead default_config) data;
  worker ← role_field "worker" (worker default_config) data;
  let unknown := List.filter (fun k => negb (str_in k FIELDS)) (map fst data) in
  _ ← raise_if (negb (bool_decide (unknown = []))) (ValueError ("unknown run config keys: " +:+ list_repr (str_sorted unknown)));
  let get name := default (field name default_config) (kv_find name data) in
  let config := {| lead := lead; worker := worker; max_concurrent_turns := get "max_concurrent_turns"; max_cost_usd := get "max_cost_usd";
    max_wall_s := get "max_wall_s"; max_turns_per_agent := get "max_turns_per_agent"; max_verify_rounds := get "max_verify_rounds";
    stall_s := get "stall_s"; poll_interval_s := get "poll_interval_s"; price_in_per_m := get "price_in_per_m";
    price_out_per_m := get "price_out_per_m"; sandbox_usd_per_s := get "sandbox_usd_per_s"; evidence_mode := get "evidence_mode";
    max_material_hold_s := get "max_material_hold_s" |} in
  _ ← check_config config;
  Ok config.

Definition ServerConfigError (msg : string) : exn := OtherError "ServerConfigError" msg.

(** [except ValueError as exc: raise ServerConfigError(str(exc))] *)
Definition as_server_error {A} (m : result A) : result A :=
  match m with Err (ValueError msg) => Err (ServerConfigError msg) | r => r end.

Definition price_limit (name : string) : float := default f_zero (snd <$> List.find (fun nu => str_eq nu.1 name) PRICE_LIMITS).

(** One price of the environment, or the default. *)
Definition server_price (env : environ) (name var : string) : result (string * json) :=
  let raw := str_strip (default "" (env !! var)) in
  if negb (str_truthy raw) then Ok (name, field name default_config)
  else
    value ← require_some (py_float raw) (ServerConfigError (var +:+ " must be a number"));
    value ← as_server_error (_check_price var (JFloat value) (price_limit name));
    Ok (name, JFloat value).

Definition server_pricing (env : environ) : result (list (string * json)) := result_map (fun nv => server_price env nv.1 nv.2) PRICE_ENV.

(** [d[k] = v] and [d.update(...)] on a dict. *)
Fixpoint kv_set (k : string) (v : json) (kvs : list (string * json)) : list (string * json) :=
  match kvs with
  | [] => [(k, v)]
  | (k', v') :: kvs => if str_eq k' k then (k', v) :: kvs else (k', v') :: kv_set k v kvs
  end.
Definition kv_update (kvs new : list (string * json)) : list (string * json) := foldl (fun d kv => kv_set kv.1 kv.2 d) kvs new.

Definition from_request (data : option (list (string * json))) (mode : string) (env : environ) : result RunConfig :=
  let data := default [] data in
  let server_set := str_sorted (List.filter (fun k => str_in k SERVER_FIELDS) (map fst data)) in
  _ ← raise_if (negb (bool_decide (server_set = [])))
        (ValueError ("run config keys " +:+ list_repr server_set +:+ " are set by the server, not the caller"));
  prices ← server_pricing env;
  from_dict (Some (kv_set "evidence_mode" (JStr mode) (kv_update data prices))).

(** ** What holds of an accepted configuration *)

Lemma kv_find_set k v d k' : kv_find k' (kv_set k v d) = if str_eq k k' then Some v else kv_find k' d.
Proof.
  unfold str_eq. induction d as [|[i x] d IH]; cbn [kv_set kv_find]; unfold str_eq in *; [done|].
  destruct (decide (i = k)) as [->|Hn]; [rewrite bool_decide_eq_true_2 by done|rewrite (bool_decide_eq_false_2 (i = k)) by done];
    cbn [kv_find]; unfold str_eq; rewrite ?IH; repeat case_bool_decide; congruence.
Qed.

Lemma need_Ok test msg u : need test msg = Ok u -> test = Ok true.
Proof. unfold need. intros ([] & -> & H)%bind_Ok; done. Qed.

Lemma and_then_Ok a b : and_then a b = Ok true -> a = Ok true /\ b = Ok true.
Proof. unfold and_then. destruct a as [[]|]; done. Qed.

(** A number a test [lo <= n <= hi] accepts. *)
Definition in_range (lo : Z) (j : json) (hi : Z) : Prop := between lo j hi = Ok true.
Definition in_range_open (lo : Z) (j : json) (hi : Z) : Prop := above lo j hi = Ok true.
Definition is_num (j : json) : Prop := is_Some (as_num j).

Lemma above_num lo j hi : in_range_open lo j hi -> is_num j.
Proof. intros [H _]%and_then_Ok. unfold Z_lt in H. unfold is_num. destruct (as_num j); [by eexists|done]. Qed.
Lemma between_num lo j hi : in_range lo j hi -> is_num j.
Proof. intros [H _]%and_then_Ok. unfold Z_le in H. unfold is_num. destruct (as_num j); [by eexists|done]. Qed.

Definition is_price (j : json) (upper : float) : Prop := price_ok j upper = Ok true.

Record valid_config (c : RunConfig) : Prop := {
  vc_roles : forall r, r = lead c \/ r = worker c -> exists kind model, r = RoleConfig (JStr kind) model /\ kind ∈ SUPPORTED_KINDS;
  vc_concurrent : in_range 1 (max_concurrent_turns c) 8;
  vc_cost : in_range_open 0 (max_cost_usd c) 5;
  vc_wall : in_range_open 0 (max_wall_s c) 7200;
  vc_hold : in_range_open 0 (max_material_hold_s c) 86400;
  vc_turns : in_range 1 (max_turns_per_agent c) 30;
  vc_rounds : in_range 1 (max_verify_rounds c) 5;
  vc_mode : exists m, evidence_mode c = JStr m /\ m ∈ EVIDENCE_MODES;
  vc_prices : is_price (price_in_per_m c) (f_of_Z 1000) /\ is_price (price_out_per_m c) (f_of_Z 1000) /\ is_price (sandbox_usd_per_s c) (f_of_Z 1)
}.

Lemma check_role_Ok name r : check_role name r = Ok () -> exists kind model, r = RoleConfig (JStr kind) model /\ kind ∈ SUPPORTED_KINDS.
Proof. destruct r as [[] model|v]; try done. cbn. unfold str_in. case_bool_decide; [|done]. eauto. Qed.

Lemma check_price_Ok name j upper x : _check_price name j upper = Ok x -> is_price j upper /\ (forall y, j = JFloat y -> x = y).
Proof.
  unfold _check_price. intros ([] & Hp & H)%bind_Ok; [|done]. cbn in H. split; [done|]. intros y ->. by injection H.
Qed.

Lemma check_config_Ok c u : check_config c = Ok u -> valid_config c.
Proof.
  unfold check_config. intros H. apply bind_Ok in H as ([] & Hl & H). apply bind_Ok in H as ([] & Hw & H).
  apply bind_Ok in H as (? & N1%need_Ok & H). apply bind_Ok in H as (? & N2%need_Ok & H).
  apply bind_Ok in H as (? & N3%need_Ok & H). apply bind_Ok in H as (? & N4%need_Ok & H). apply bind_Ok in H as (? & N5%need_Ok & H). apply bind_Ok in H as (? & Hm%raise_if_Ok & H).
  apply check_role_Ok in Hl, Hw. assert (in_range_open 0 (max_material_hold_s c) 86400) as Hh.
  { unfold hold_ok in *. unfold in_range_open. by destruct (max_material_hold_s c). }
  apply and_then_Ok in N5 as [Ht Hr]. split; try done.
  - by intros r [->| ->].
  - destruct (evidence_mode c); try done. unfold str_in in Hm. boolify. eauto.
  - assert (forall nu, nu ∈ PRICE_LIMITS -> is_price (field nu.1 c) nu.2) as Hp.
    { intros nu Hnu. apply (proj1 (each_Ok _ _ _) H) in Hnu. apply bind_Ok in Hnu as (pr & [Hx _]%check_price_Ok & _). done. }
    split_and!; [apply (Hp ("price_in_per_m", f_of_Z 1000))|apply (Hp ("price_out_per_m", f_of_Z 1000))|apply (Hp ("sandbox_usd_per_s", f_of_Z 1))];
      unfold PRICE_LIMITS; repeat first [left|right].
Qed.

Lemma valid_config_field c name j : name ∈ SERVER_FIELDS -> kv_find name (as_dict c) = Some j -> field name c = j.
Proof. unfold field. by intros _ ->. Qed.

Lemma from_dict_Ok data c : from_dict data = Ok c ->
  check_config c = Ok () /\ forall name, name ∈ SERVER_FIELDS -> field name c = default (field name default_config) (kv_find name (default [] data)).
Proof.
  unfold from_dict. cbv zeta. intros H. apply bind_Ok in H as (l & _ & H). apply bind_Ok in H as (w & _ & H). apply bind_Ok in H as ([] & _ & H).
  apply bind_Ok in H as ([] & Hc & [= <-]). split; [exact Hc|]. intros name Hn. unfold SERVER_FIELDS in Hn.
  repeat (apply elem_of_cons in Hn as [->|Hn]; [reflexivity|]). by apply not_elem_of_nil in Hn.
Qed.

(** A stored configuration reads back as itself. *)
Lemma from_as_dict c : check_config c = Ok () -> from_dict (Some (as_dict c)) = Ok c.
Proof.
  intros Hc. pose proof (check_config_Ok _ _ Hc) as [Hr _ _ _ _ _ _ _ _].
  destruct (Hr (lead c)) as (k1 & m1 & E1 & _); [by left|]. destruct (Hr (worker c)) as (k2 & m2 & E2 & _); [by right|].
  assert (from_dict (Some (as_dict c)) = (_ ← check_config c; Ok c)) as ->; [|by rewrite Hc].
  destruct c. cbn [lead worker] in E1, E2. subst. reflexivity.
Qed.

(** *** What the caller cannot choose *)

Lemma server_price_name env name var kv : server_price env name var = Ok kv -> kv.1 = name.
Proof.
  unfold server_price. destruct (negb _); [by intros [= <-]|]. intros (y & _ & H)%bind_Ok. by apply bind_Ok in H as (z & _ & [= <-]).
Qed.

Lemma server_pricing_shape env l : server_pricing env = Ok l ->
  exists i o b, l = [("price_in_per_m", i); ("price_out_per_m", o); ("sandbox_usd_per_s", b)].
Proof.
  unfold server_pricing, PRICE_ENV. cbn [result_map fst snd]. intros (p1 & H1 & H)%bind_Ok. apply bind_Ok in H as (l1 & H & [= <-]).
  apply bind_Ok in H as (p2 & H2 & H). apply bind_Ok in H as (l2 & H & [= <-]). apply bind_Ok in H as (p3 & H3 & [= <-]).
  apply server_price_name in H1, H2, H3. destruct p1, p2, p3. cbn in *. subst. eauto.
Qed.

(** A run's configuration from a caller's request is within every cap,
    whatever the caller sent: 1 to 8 turns at a time, at most 30 turns of an
    agent and 5 rounds of verification, at most 5 dollars, two hours, and a day
    held by people; its prices are the server's and its Evidence mode the agent
    factory's (a request that names one of them is refused, so what a run costs
    and whether its Evidence counts as live is never the caller's word); and
    the stored form of it reads back as the same configuration. *)
Theorem request_config data mode env c : from_request data mode env = Ok c ->
  valid_config c /\ evidence_mode c = JStr mode /\
  server_pricing env = Ok [("price_in_per_m", price_in_per_m c); ("price_out_per_m", price_out_per_m c); ("sandbox_usd_per_s", sandbox_usd_per_s c)] /\
  (forall k, k ∈ SERVER_FIELDS -> k ∉ map fst (default [] data)) /\ from_dict (Some (as_dict c)) = Ok c.
Proof.
  unfold from_request. cbv zeta. intros H. apply bind_Ok in H as ([] & Hs%raise_if_Ok & H). apply bind_Ok in H as (l & Hp & H).
  destruct (server_pricing_shape _ _ Hp) as (i & o & b & ->). apply from_dict_Ok in H as [Hc Hf]. cbn [default] in Hf.
  assert (forall k v, k ∈ SERVER_FIELDS -> v = default (field k default_config) (kv_find k (kv_set "evidence_mode" (JStr mode)
    (kv_update (default [] data) [("price_in_per_m", i); ("price_out_per_m", o); ("sandbox_usd_per_s", b)]))) -> field k c = v) as Hfield.
  { intros k v Hk ->. by apply Hf. }
  split; [by eapply check_config_Ok|]. split.
  { apply (Hfield "evidence_mode"); [by do 3 right; left|]. by rewrite kv_find_set. }
  split.
  { rewrite Hp. repeat f_equal; symmetry; [apply (Hfield "price_in_per_m"); [left|]|apply (Hfield "price_out_per_m"); [right; left|]|
      apply (Hfield "sandbox_usd_per_s"); [right; right; left|]]; unfold kv_update; cbn [foldl]; by rewrite !kv_find_set. }
  split; [|by apply from_as_dict]. intros k Hk Hin. boolify.
  assert (k ∈ str_sorted (List.filter (fun k => str_in k SERVER_FIELDS) (map fst (default [] data)))) as Hx.
  { unfold str_sorted. rewrite sort_by_perm. apply elem_filterb. split; [done|]. by apply bool_decide_eq_true. }
  rewrite Hs in Hx. by apply not_elem_of_nil in Hx.
Qed.

Module ConfigDemo.
Definition env : environ := {["SDF_RUN_PRICE_IN_PER_M" := " 1.25 "]}.
Definition asked : list (string * json) := [("worker", JObj [("kind", JStr "opencode")]); ("max_turns_per_agent", JInt 30); ("max_cost_usd", dec 1 2)].
Definition config : result RunConfig := from_request (Some asked) "synthetic" env.
End ConfigDemo.

Lemma request_config_witness : exists c, ConfigDemo.config = Ok c /\ price_in_per_m c = dec 125 100 /\ evidence_mode c = JStr "synthetic" /\
  in_range 1 (max_turns_per_agent c) 30.
Proof.
  assert (price_in_per_m <$> ConfigDemo.config = Ok (dec 125 100)) as Hp by (vm_compute; reflexivity).
  destruct ConfigDemo.config as [c|] eqn:E; [|done]. exists c. injection Hp as Hp. unfold ConfigDemo.config in E.
  destruct (request_config _ _ _ _ E) as ([] & Hm & _). split; [reflexivity|]. split; [exact Hp|]. by split.
Defined.

Example config_refused :
  from_request (Some [("price_in_per_m", JInt 0)]) "live" ∅ = Err (ValueError "run config keys ['price_in_per_m'] are set by the server, not the caller") /\
  from_request (Some [("max_cost_usd", JFloat S754_nan)]) "live" ∅ = Err (ValueError "max_cost_usd must be in (0, 5]") /\
  from_request (Some [("max_wall_s", JStr "1")]) "live" ∅ = Err (TypeError "'<' not supported between instances of 'int' and 'str'").
Proof. vm_compute. done. Qed.
