(* ===== verification/Coordinator.v ===== *)
(** * Coordinator: running an approved Plan

    Models [src/sdf_core/coordinator.py]: one lead and one worker per subtask,
    the loop that relays their messages, verifies their work and wakes them,
    and how a run ends.  What the sandboxes, the clock, the thread pool and
    other sessions answer during one round of the loop is a [Poll]; the rest is
    the database, through [Messaging], [Execution] and [Finish].  Prompts are
    instructions and have no effect here. *)

From S2P Require Import Prelude StateError Floats Sha256 Json Db EvidenceMac Flush Samples FlushFacts Store Lifecycle RemoteEffects Recovery.
From S2P Require Import Escalation DecisionGate Checks Oracle Acceptance Evaluate Verdict Revisions UnitOfWork Execution Finish Plans Messaging RunConfig Scoped.

(** ** Python numbers and texts *)

(** [m * 2 ^ e * 10 ^ k] to the nearest integer, ties to even. *)
Definition nearest (m : positive) (e k : Z) : Z :=
  let num := Zpos m * 2 ^ Z.max 0 e * 10 ^ k in
  let den := 2 ^ Z.max 0 (- e) in
  let q := num / den in
  match 2 * (num - q * den) ?= den with Lt => q | Gt => q + 1 | Eq => if Z.even q then q else q + 1 end.

(** [round(x, k)] of a float. *)
Definition f_round (k : Z) (x : float) : float :=
  match x with
  | S754_finite s m e => match nearest m e k with
                         | Zpos n => let r := f_ratio (Zpos n) (Z.to_pos (10 ^ k)) in if s then f_neg r else r
                         | _ => S754_zero s
                         end
  | _ => x
  end.

(** [f"{x:.kf}"] *)
Definition f_fixed (k : nat) (x : float) : string :=
  let body n := pretty (n / 10 ^ Z.of_nat k) +:+ (match k with O => "" | _ => "." +:+ Iso.padded k (n mod 10 ^ Z.of_nat k) end) in
  match x with
  | S754_nan => "nan"
  | S754_infinity s => if s then "-inf" else "inf"
  | S754_zero s => (if s then "-" else "") +:+ body 0
  | S754_finite s m e => (if s then "-" else "") +:+ body (nearest m e (Z.of_nat k))
  end.

(** [math.ceil(x)] of a finite float. *)
Definition f_ceil (x : float) : Z :=
  match x with
  | S754_finite false m e => - (- (Zpos m * 2 ^ Z.max 0 e) / 2 ^ Z.max 0 (- e))
  | S754_finite true m e => - (Zpos m * 2 ^ Z.max 0 e / 2 ^ Z.max 0 (- e))
  | _ => 0
  end.

(** Arithmetic of [int] and [float]. *)
Definition num : Type := Z + float.
Definition to_float (a : num) : float := match a with inl z => f_of_Z z | inr f => f end.
Definition num_mul (a b : num) : num := match a, b with inl x, inl y => inl (x * y) | _, _ => inr (f_mul (to_float a) (to_float b)) end.
Definition num_add (a b : num) : num := match a, b with inl x, inl y => inl (x + y) | _, _ => inr (f_add (to_float a) (to_float b)) end.
(** A number of the configuration, which was checked. *)
Definition num_of (j : json) : num := default (inl 0) (as_num j).

(** [x > j] *)
Definition gt_json (x : float) (j : json) : result bool :=
  match as_num j with
  | Some (inl z) => Ok (f_gt_Z x z)
  | Some (inr y) => Ok (f_lt y x)
  | None => Err (TypeError ("'>' not supported between instances of 'float' and '" +:+ type_name j +:+ "'"))
  end.

(** [max(0.0, x)] *)
Definition f_max0 (x : float) : float := if f_lt f_zero x then x else f_zero.

(** [time.sleep(j)] *)
Definition sleep (j : json) : result unit :=
  match as_num j with
  | Some (inl z) => raise_if (z <? 0) (ValueError "sleep length must be non-negative")
  | Some (inr x) => _ ← raise_if (f_is_nan x) (ValueError "Invalid value NaN (not a number)");
                    raise_if (f_lt x f_zero) (ValueError "sleep length must be non-negative")
  | None => Err (TypeError ("'" +:+ type_name j +:+ "' object cannot be interpreted as an integer"))
  end.

(** [s[-n:]] *)
Definition str_last (n : nat) (s : string) : string := let l := String.length s in String.substring (l - n) n s.

(** ** Subtasks of a stored Plan *)

Definition json_text (j : json) : string := match j with JStr s => s | _ => "" end.
Definition json_list (j : json) : list json := match j with JArr l => l | _ => [] end.
Definition json_strings (j : json) : list string := map json_text (json_list j).

(** The content of a Plan is the dump of a checked specification
    ([propose_plan]) and never changes. *)
Definition read_subtask (j : json) : SubtaskSpec := {|
  sub_key := json_text (jget "key" j); sub_title := json_text (jget "title" j); sub_instructions := json_text (jget "instructions" j);
  sub_acceptance_criteria := json_strings (jget "acceptance_criteria" j);
  sub_criterion_checks := match jget "criterion_checks" j with JObj kvs => map (fun kv => (kv.1, map json_strings (json_list kv.2))) kvs | _ => [] end;
  sub_allowed_paths := json_strings (jget "allowed_paths" j); sub_protected_paths := json_strings (jget "protected_paths" j) |}.

Definition plan_subtasks (plan : PlanRow) : list SubtaskSpec := map read_subtask (json_list (jget "subtasks" (pl_content plan))).

Lemma strings_dump l : json_strings (json_strs l) = l.
Proof. unfold json_strings, json_strs. cbn. rewrite map_map. cbn. apply map_id. Qed.

(** Reading back what [propose_plan] stored. *)
Lemma read_subtask_dump s : read_subtask (subtask_dump s) = s.
Proof.
  destruct s as [key title instructions criteria checks allowed protected].
  transitivity {| sub_key := key; sub_title := title; sub_instructions := instructions; sub_acceptance_criteria := json_strings (json_strs criteria);
    sub_criterion_checks := map (fun kv => (kv.1, map json_strings (json_list kv.2))) (map (fun kv => (kv.1, JArr (map json_strs kv.2))) checks);
    sub_allowed_paths := json_strings (json_strs allowed); sub_protected_paths := json_strings (json_strs protected) |}; [reflexivity|].
  rewrite !strings_dump, map_map. f_equal. erewrite map_ext; [apply map_id|]. intros [c argvs]. cbn [fst snd json_list]. f_equal.
  rewrite map_map. erewrite map_ext; [apply map_id|]. intros argv. apply strings_dump.
Qed.

(** ** Creating a run *)

Definition RUNNABLE : list string := map TaskState_value [TCREATED; TFAILED; TINCONCLUSIVE].

Definition member_id (index : nat) : string := "worker-" +:+ pretty (Z.of_nat index).

Definition member_row (run agent role kind : string) (subtask : option string) (d : Db) : AgentRunMemberRow := {|
  mb_id := next_id (d_agent_run_members d); mb_run_id := run; mb_agent_id := agent; mb_role := role; mb_agent_kind := kind; mb_subtask_key := subtask;
  mb_sandbox_id := None; mb_status := "pending"; mb_turns := 0; mb_input_tokens := 0; mb_output_tokens := 0 |}.

Definition add_member (run agent role kind : string) (subtask : option string) (d : Db) : Db :=
  let m := member_row run agent role kind subtask d in d {{ d_agent_run_members ::= insert (mb_id m) m }}.

Definition run_row (hex plan_id : string) (config : RunConfig) (started_by : option string) (now : datetime) : AgentRunRow := {|
  rn_id := "RUN-" +:+ str_take 10 hex; rn_plan_id := plan_id; rn_status := "running"; rn_config := JObj (as_dict config);
  rn_started_at := now; rn_finished_at := None; rn_cancel_requested_at := None; rn_cost_usd := f_zero; rn_started_by := started_by;
  rn_cancel_requested_by := None; rn_summary := None; rn_error := None; rn_trace_id := None |}.

Definition add_run (r : AgentRunRow) (d : Db) : result Db :=
  _ ← raise_if (bool_decide (is_Some (d_agent_runs d !! rn_id r))) (IntegrityError "agent_runs.id");
  Ok (d {{ d_agent_runs ::= insert (rn_id r) r }}).

(** The kind of a role; a configuration holds roles. *)
Definition role_kind (r : RoleValue) : json := match r with RoleConfig kind _ => kind | NotARole v => v end.
Definition role_model (r : RoleValue) : json := match r with RoleConfig _ model => model | NotARole _ => JNull end.

Definition check_runnable (plan_id : string) (d : Db) (sub : SubtaskSpec) : result unit :=
  let status := task_status d (task_id_for plan_id (sub_key sub)) in
  raise_if (match status with Some s => negb (str_in s RUNNABLE) | None => true end)
    (PlanGateError ("subtask " +:+ sub_key sub +:+ " is not runnable (status " +:+ default "None" status +:+ ")")).

(** [create_run]: the gate.  [fixture] is what [_plan_fixture] answers. *)
Definition create_run (fixture : PlanRow -> result Disk) (plan_id : string) (config : option RunConfig) (started_by : option string) : ST Work AgentRunRow :=
  let config := default default_config config in
  d ← gets pending;
  plan ← lift (require_some (d_plans d !! plan_id) (LookupError "plan not found"));
  _ ← guard (negb (str_eq (pl_status plan) "approved"))
        (PlanGateError ("plan " +:+ plan_id +:+ " is " +:+ pl_status plan +:+ "; a human must approve it before any run starts"));
  _ ← lift (fixture plan);
  let subtasks := plan_subtasks plan in
  _ ← lift (each subtasks (check_runnable plan_id d));
  hex ← uuid4_hex;
  now ← utcnow;
  let run := run_row hex plan_id config started_by now in
  _ ← pend_checked (add_run run);
  _ ← flush_work;
  _ ← pend (add_member (rn_id run) "lead-1" "lead" (json_text (role_kind (lead config))) None);
  _ ← for_each (fun x : nat * SubtaskSpec =>
        pend (add_member (rn_id run) (member_id x.1) "worker" (json_text (role_kind (worker config))) (Some (sub_key x.2))))
        (imap (fun i s => (S i, s)) subtasks);
  _ ← commit;
  mret run.
