(* ===== verification/RunLoop.v ===== *)
(** * RunLoop: one run, from its first sandbox to its last row

    Models [Coordinator._execute] and its helpers of
    [src/sdf_core/coordinator.py].  [round] is one turn of the [while True]; a
    run is [setup], rounds until one of them stops, and [_finalize]. *)

From S2P Require Import Prelude StateError Floats Sha256 Json Db EvidenceMac Flush Samples FlushFacts Store Lifecycle RemoteEffects Recovery.
From S2P Require Import Escalation DecisionGate Checks Oracle Acceptance Evaluate Verdict Revisions UnitOfWork Execution Finish Plans Messaging RunConfig Scoped Coordinator.

(** ** The state of a run *)

Record AgentSpec : Type := { sp_id : string; sp_role : string; sp_kind : string; sp_model : json }.
Record TurnResult : Type := { tr_ok : bool; tr_seconds : float; tr_error : option string }.
Record TurnLog : Type := { tl_turn : Z; tl_ok : bool; tl_seconds : float; tl_error : option string }.

(** [ag_future] is whether a turn is in flight. *)
Record _Agent : Type := {
  ag_spec : AgentSpec; ag_sandbox : option string; ag_subtask_key : option string; ag_turns : Z; ag_wake : bool; ag_future : bool;
  ag_started : bool; ag_turn_log : list TurnLog
}.

Record VerifiedAttempt : Type := {
  va_attempt : string; va_verdict : string; va_changed : list string; va_out_of_scope : list string; va_evidence : list EvidenceRow
}.

Record _Subtask : Type := {
  su_key : string; su_spec : SubtaskSpec; su_task : string; su_worker : string; su_attempt : option string; su_rounds : Z;
  su_verdict : option string; su_verify_requested : bool; su_attempts : list VerifiedAttempt
}.

Record GateEntry : Type := { ge_request : MaterialRequest; ge_held : list string; ge_pending_s : float }.

(** An extension of a sandbox's lifetime that was tried. *)
Record Extension : Type := {
  ex_agent : string; ex_at_s : float; ex_left_s : float; ex_error : option string; ex_extended_to : option Z; ex_granted : option float
}.

Record CoreLog : Type := { lg_agent : string; lg_tool : string; lg_ok : bool; lg_denied : bool; lg_error : option string }.

(** What the run asks others to do: a turn handed to the thread pool, with its
    number, and a call of [ExecutionService.begin], with the round of its
    dispatch key. *)
Inductive Call : Type :=
  | StartTurn (agent : string) (turn : Z)
  | BeginAttempt (subtask : string) (round : Z).

(** [agents] and [subtasks] are dicts, in order of insertion; [co_calls] is the
    calls of the run so far, in order: a trace the code does not keep and never
    reads. *)
Record Co : Type := {
  co_work : Work; co_hub : option MessageHub; co_agents : list (string * _Agent); co_subtasks : list (string * _Subtask);
  co_pending : list (string * AgentMessageRow); co_violations : list (string * string); co_lead_reported : bool; co_all_pass_notified : bool;
  co_delivered : gset string; co_gate_log : list (string * GateEntry); co_idle_since : option float; co_stall_verified : gset string;
  co_core_log : list CoreLog; co_held_s : float; co_held_prev : bool; co_keepalive_log : list Extension; co_keepalive_tried : gmap string float;
  co_prev_gate : list string; co_last_tick : float; co_timings : list (string * json);
  co_calls : list Call
}.

(** A database operation, and an operation of the hub once it is there. *)
Definition on_db {A} (m : ST Work A) : ST Co A := fun st => let '(w, r) := m (co_work st) in (st {{ co_work := w }}, r).
Definition on_hub {A} (m : ST HubState A) : ST Co A := fun st =>
  match co_hub st with
  | Some h => let '(hs, r) := m {| hs_hub := h; hs_work := co_work st |} in (st {{ co_work := hs_work hs; co_hub := Some (hs_hub hs) }}, r)
  | None => (st, Err (OtherError "AttributeError" "'NoneType' object has no attribute"))
  end.

(** [d[k]] and changing an entry in place. *)
Definition at_key {A} (k : string) (d : list (string * A)) : option A := snd <$> List.find (fun kv => str_eq kv.1 k) d.
Definition update_key {A} (k : string) (f : A -> A) (d : list (string * A)) : list (string * A) :=
  map (fun kv => if str_eq kv.1 k then (kv.1, f kv.2) else kv) d.

Definition the_agent (aid : string) : ST Co _Agent := st ← gets (fun st => st); lift (require_some (at_key aid (co_agents st)) (KeyError aid)).
Definition the_subtask (key : string) : ST Co _Subtask := st ← gets (fun st => st); lift (require_some (at_key key (co_subtasks st)) (KeyError key)).
Definition set_agent (aid : string) (f : _Agent -> _Agent) : ST Co unit := modify (fun st => st {{ co_agents ::= update_key aid f }}).
Definition set_subtask (key : string) (f : _Subtask -> _Subtask) : ST Co unit := modify (fun st => st {{ co_subtasks ::= update_key key f }}).

Definition queue (items : list (string * AgentMessageRow)) : ST Co unit := modify (fun st => st {{ co_pending ::= fun l => l ++ items }}).
Definition violation (aid text : string) : ST Co unit := modify (fun st => st {{ co_violations ::= fun l => l ++ [(aid, text)] }}).

Definition note_call (c : Call) : ST Co unit := modify (fun st => st {{ co_calls ::= fun l => l ++ [c] }}).

(** [for x in d.values(): ...]: every key once, in order. *)
Definition agent_ids (st : Co) : list string := map fst (co_agents st).
Definition subtask_keys (st : Co) : list string := map fst (co_subtasks st).
Definition each_agent (f : string -> ST Co unit) : ST Co unit := ids ← gets agent_ids; _ ← for_each f ids; mret ().
Definition each_subtask (f : string -> ST Co unit) : ST Co unit := keys ← gets subtask_keys; _ ← for_each f keys; mret ().

(** ** Constants *)

Definition KEEPALIVE_MARGIN_S : float := f_of_Z 120.
Definition KEEPALIVE_STEP_S : float := f_of_Z 600.
Definition KEEPALIVE_RETRY_S : float := f_of_Z 30.
Definition LIFETIME_FAIL_MARGIN_S : float := f_of_Z 60.
Definition MAX_REQUEST_BYTES : Z := 16 * 1024.

(** [ENVELOPE_NAME] and [REQUEST_NAME]: 32 hex digits and [.json]. *)
Definition hex_json_name (name : string) : bool :=
  (str_len name =? 37) && str_forallb is_hex_char (str_take 32 name) && str_eq (String.substring 32 5 name) ".json".

(** ** What the outside answers *)

Record Usage : Type := { us_input : Z; us_output : Z; us_cache_read : Z; us_reasoning : Z }.

(** A sandbox that reports a provider lifetime, and what extending it does:
    the request, and the lifetime reported afterwards. *)
Record Lifetime : Type := { lf_left : option float; lf_extend : option (Z -> result (option float)) }.

(** The read-only queries of one agent: the request files (none when the
    sandbox has no such files), their bytes, the tool they name, the service's
    answer, which may be an exception that leaves the round, and whether it could
    be written back. *)
Record CoreAnswer : Type := { ca_id : bool; ca_ok : bool; ca_denied : bool; ca_error : option string; ca_tool : string; ca_write : result unit }.
Record CoreFiles : Type := {
  cf_names : option (result (list (string * Z))); cf_read : string -> result bool; cf_remove : string -> result unit; cf_answer : string -> result CoreAnswer
}.

(** One verification: the files collected, what the worker used, and the disk
    and machines of [finish] and of the next [begin]. *)
Record VerifyEnv : Type := {
  ve_collect : result (gmap string string); ve_usage : Usage; ve_alive : float; ve_finish : FinishEnv; ve_others : Db -> Db; ve_prepared : Prepared
}.

(** One round: the monotonic clock when it starts; whether the run was
    cancelled in this process; what other sessions committed before the run row
    is refreshed and before the resolved decisions are read; the turns that are
    done; the outboxes; the lifetimes; the verifications; the mailboxes; the
    clock while the run is idle. *)
Record Poll : Type := {
  po_now : float; po_cancel : bool; po_before : Db -> Db; po_usage : string -> Usage; po_alive : string -> float;
  po_done : string -> option (result TurnResult);
  po_outbox : string -> result (list (string * Z)); po_remove : string -> string -> result unit; po_read : string -> string -> result (Z * option json);
  po_core : string -> CoreFiles; po_answers : Db -> Db;
  po_keep_now : float; po_lifetime : string -> Lifetime;
  po_verify : string -> VerifyEnv; po_deliver : string -> string -> nat -> result unit; po_inbox : string -> result Z;
  po_idle : float; po_idle_again : float
}.

(** What the outside answers before the loop: the fixture, the sandboxes'
    factory, the provider label of an agent's Attempts, the disk of each
    [begin], whether sandboxes bind Attempts, and how each one starts. *)
Record Outside : Type := {
  ou_fixture : PlanRow -> result Disk; ou_factory : AgentSpec -> result unit; ou_provider : AgentSpec -> result string;
  ou_begin : string -> (Db -> Db) * Prepared; ou_binds : string -> bool; ou_trace : option string;
  ou_start : string -> option string * option exn; ou_started : float; ou_ready_s : float; ou_rules : list MaterialityRule
}.

(** What the outside answers when the run is over: usage and cost of the
    agents, whether their sandboxes are gone, and how long it took. *)
Record Ending : Type := {
  en_usage : string -> Usage; en_usage_dict : string -> json; en_alive : string -> float; en_cleanup : option (result (list string));
  en_counted_s : float; en_wall_s : float
}.

(** ** Helpers *)

Section coordinator.
(** The case folding and the policy; the Evaluator's formatting, tests and
    machines; the redaction of secrets ([observability.redact]); the sum of
    floats, which Python 3.12 compensates and 3.11 does not. *)
Context (fold : string -> string) {P : Type} {HP : DecisionPolicy P} (policy : P).
Context (format_g : float -> string) (ev : Evaluator) (mach : Z -> Machine) (tree : Z -> string).
Context (redact : string -> string) (sum_floats : list float -> float).

Definition _safe (text : string) (limit : nat) : string := str_take limit (redact text).

Definition no_reads {A} (aid text : string) (m : result A) : ST Co (option A) :=
  match m with
  | Ok a => mret (Some a)
  | Err e => _ ← violation aid (_safe (text +:+ ": " +:+ exn_text e) 300); mret None
  end.

(** [_agent_cost] *)
Definition _agent_cost (usage : Usage) (alive : float) (config : RunConfig) : float :=
  let tokens_in := inl (us_input usage + us_cache_read usage) in
  let tokens_out := inl (us_output usage + us_reasoning usage) in
  f_add (f_div (to_float (num_add (num_mul tokens_in (num_of (price_in_per_m config))) (num_mul tokens_out (num_of (price_out_per_m config))))) (f_of_Z 1000000))
        (to_float (num_mul (inr alive) (num_of (sandbox_usd_per_s config)))).

Definition _cost (p : Poll) (config : RunConfig) (agents : list (string * _Agent)) : float :=
  sum_floats (map (fun kv => _agent_cost (po_usage p kv.1) (po_alive p kv.1) config) agents).

(** *** Waiting for people *)

Definition entry_of (g : MaterialRequest) : GateEntry := {| ge_request := g; ge_held := []; ge_pending_s := f_zero |}.

Definition hold_one (kind : string) (log : list (string * GateEntry)) (g : MaterialRequest) : list (string * GateEntry) :=
  let log := match at_key (mr_request_id g) log with Some _ => log | None => log ++ [(mr_request_id g, entry_of g)] end in
  update_key (mr_request_id g) (fun e => if str_in kind (ge_held e) then e else e {{ ge_held ::= fun l => l ++ [kind] }}) log.

(** [hold(kind, scope)] over the requests pending in this round. *)
Definition hold (gate : list MaterialRequest) (kind : string) (scope : option string) : ST Co unit :=
  modify (fun st => st {{ co_gate_log ::= fun log => foldl (hold_one kind) log
    (List.filter (fun g => match scope with Some s => str_in (mr_scope g) [RUN_SCOPE; s] | None => true end) gate) }}).

(** [blocked_scopes], [run_blocked] and [blocked_agents] of a gate. *)
Definition scope_blocked (gate : list MaterialRequest) (key : string) : bool := existsb (fun g => str_in (mr_scope g) [RUN_SCOPE; key]) gate.
Definition run_blocked (gate : list MaterialRequest) : bool := existsb (fun g => str_eq (mr_scope g) RUN_SCOPE) gate.
Definition agent_blocked (gate : list MaterialRequest) (subtasks : list (string * _Subtask)) (aid : string) : bool :=
  run_blocked gate || existsb (fun g => str_eq (mr_requested_by g) aid) gate ||
  existsb (fun kv => str_eq (su_worker kv.2) aid && (run_blocked gate || existsb (fun g => str_eq (mr_scope g) (su_key kv.2)) gate)) subtasks.

(** [_keep_alive] for one agent: why the run has to end, if it has to. *)
Definition last_problem (aid : string) (log : list Extension) : string :=
  match List.find (fun e => str_eq (ex_agent e) aid) (rev log) with
  | Some e => match ex_error e, ex_granted e with
              | Some err, _ => if str_truthy err then err else "the last extension failed"
              | None, Some granted => "the provider capped its lifetime at " +:+ f_fixed 0 granted +:+ "s"
              | None, None => "the last extension failed"
              end
  | None => "the last extension failed"
  end.

Definition log_extension (e : Extension) : ST Co unit := modify (fun st => st {{ co_keepalive_log ::= fun l => l ++ [e] }}).

(** What came of trying: [None] when the sandbox lives long enough. *)
Definition try_extend (p : Poll) (aid : string) (extend : Z -> result (option float)) (left_s needed at_s : float) : ST Co (option (string * float)) :=
  _ ← modify (fun st => st {{ co_keepalive_tried ::= insert aid (po_keep_now p) }});
  let target := f_ceil (f_add needed KEEPALIVE_STEP_S) in
  let entry := {| ex_agent := aid; ex_at_s := at_s; ex_left_s := f_round 1 left_s; ex_error := None; ex_extended_to := None; ex_granted := None |} in
  match extend target with
  | Err e => let problem := _safe (exn_class e +:+ ": " +:+ redact (exn_text e)) 300 in
             _ ← log_extension (entry {{ ex_error := Some problem }});
             mret (Some (problem, left_s))
  | Ok (Some after) =>
      if f_lt after needed then
        _ ← log_extension (entry {{ ex_extended_to := Some target; ex_granted := Some (f_round 1 after) }});
        mret (Some ("the provider capped its lifetime at " +:+ f_fixed 0 after +:+ "s", after))
      else _ ← log_extension (entry {{ ex_extended_to := Some target }}); mret None
  | Ok None => _ ← log_extension (entry {{ ex_extended_to := Some target }}); mret None
  end.

Definition expiry_message (aid problem : string) (left_s : float) : string :=
  "sandbox of " +:+ aid +:+ " would expire during a material decision hold (" +:+ f_fixed 0 left_s +:+ "s left) and its lifetime could not be extended: " +:+ problem.

Definition keep_one (p : Poll) (needed at_s : float) (aid : string) : ST Co (option string) :=
  match lf_left (po_lifetime p aid) with
  | None => mret None
  | Some left_s =>
      if f_le needed left_s then mret None
      else
        st ← gets (fun st => st);
        outcome ← match lf_extend (po_lifetime p aid) with
                  | None => mret (Some ("the sandbox does not support it", left_s))
                  | Some extend =>
                      if match co_keepalive_tried st !! aid with Some t => f_lt (f_sub (po_keep_now p) t) KEEPALIVE_RETRY_S | None => false end
                      then mret (Some (last_problem aid (co_keepalive_log st), left_s))
                      else try_extend p aid extend left_s needed at_s
                  end;
        match outcome with
        | Some (problem, left_s) => mret (if f_le left_s LIFETIME_FAIL_MARGIN_S then Some (expiry_message aid problem left_s) else None)
        | None => mret None
        end
  end.

(** [for aid, ag in agents.items(): ... return expiry] *)
Fixpoint keep_alive (p : Poll) (needed at_s : float) (aids : list string) : ST Co (option string) :=
  match aids with
  | [] => mret None
  | aid :: aids => expiry ← keep_one p needed at_s aid; match expiry with Some e => mret (Some e) | None => keep_alive p needed at_s aids end
  end.

(** *** Mail *)

Definition notice (to body kind : string) (meta : option json) : ST Co unit :=
  msg ← on_hub (post_from_host to body kind meta); queue [(to, msg)].

(** [_safe_list] *)
Definition pair_le (a b : string * Z) : bool := if str_eq a.1 b.1 then a.2 <=? b.2 else str_le a.1 b.1.

Definition _safe_list (p : Poll) (aid : string) : ST Co (list (string * Z)) :=
  ag ← the_agent aid;
  match ag_sandbox ag with
  | None => mret []
  | Some _ => l ← no_reads aid "outbox list failed" (po_outbox p aid); mret (sort_by pair_le (default [] l))
  end.

(** [_take]: the length of the envelope and what [json.loads] makes of it. *)
Definition _take (p : Poll) (aid name : string) (size : Z) : ST Co (option (Z * option json)) :=
  if str_startswith "." name then mret None
  else if negb (hex_json_name name) || (MAX_ENVELOPE_BYTES <? size) then
    removed ← no_reads aid "outbox read failed" (po_remove p aid name);
    _ ← when (bool_decide (is_Some removed)) (violation aid ("dropped outbox entry " +:+ str_repr (str_take 80 name) +:+ " (" +:+ pretty size +:+ " bytes)"));
    mret None
  else no_reads aid "outbox read failed" (data ← po_read p aid name; _ ← po_remove p aid name; Ok data).

(** [id.lower().replace("msg-", "")] of an id ["MSG-..."]. *)
Definition msg_digits (id : string) : string := default id (str_after "msg-" id).

Definition delivery_name (m : AgentMessageRow) : string := Iso.padded (max 8 (String.length (pretty (mg_seq m)))) (mg_seq m) +:+ "-" +:+ msg_digits (str_lower (mg_id m)) +:+ ".json".

(** [_deliver]: three tries. *)
Fixpoint try_deliver (p : Poll) (aid name : string) (tries : nat) : option exn :=
  match tries with
  | O => None
  | S O => match po_deliver p aid name 2 with Ok _ => None | Err e => Some e end
  | S tries => match po_deliver p aid name (2 - tries) with Ok _ => None | Err _ => try_deliver p aid name tries end
  end.

Definition _deliver (p : Poll) (aid : string) (m : AgentMessageRow) : ST Co bool :=
  match try_deliver p aid (delivery_name m) 3 with
  | None => mret true
  | Some e => _ ← violation aid (_safe ("delivery failed: " +:+ exn_text e) 300); mret false
  end.

(** ** Verification *)

(** [_fence_worker_attempt]: an open sandbox that binds Attempts is an effect
    of the new one, recorded by a session of its own. *)
Definition fence_worker_attempt (binds : bool) (sandbox : option string) (attempt_id : string) : ST Work unit :=
  match sandbox with
  | Some id =>
      when (binds && str_truthy (str_strip id))
        (hex ← uuid4_hex; now ← utcnow; w ← gets (fun w => w);
         match (x ← note_remote_effect_uncertain (wk_host w) hex now (committed w) attempt_id "e2b"; identify_remote_sandbox (wk_host w) x.1 x.2 id) with
         | Ok d => interfere (fun _ => d)
         | Err e => fail e
         end)
  | None => mret ()
  end.

Definition begin_request (run_id : string) (sub : _Subtask) (spec : AgentSpec) (provider : string) (parent : option string) (mode : string)
    (principal trace : option string) : BeginRequest := {|
  b_task_id := su_task sub; b_dispatch_key := run_id +:+ ":" +:+ su_key sub +:+ ":" +:+ pretty (su_rounds sub); b_validation_target := None;
  b_parent_attempt_id := parent; b_model_tier := None; b_cost_usd := f_zero; b_provider := Some provider; b_latency_ms := None;
  b_input_tokens := None; b_output_tokens := None;
  b_escalation_reason := (if opt_truthy parent then Some "host verification failed; worker asked to fix" else None);
  b_agent := sp_kind spec +:+ ":" +:+ sp_id spec; b_require_plan_approval := true; b_principal := principal; b_evidence_mode := mode; b_trace_id := trace |}.

(** [_begin_attempt] *)
Definition begin_attempt (out : Outside) (run_id key : string) (parent : option string) (mode : string) (others : Db -> Db) (prepared : Prepared) : ST Co unit :=
  _ ← set_subtask key (fun s => s {{ su_rounds ::= Z.add 1 }});
  sub ← the_subtask key;
  ag ← the_agent (su_worker sub);
  provider ← lift (ou_provider out (ag_spec ag));
  run ← on_db (gets (fun w => d_agent_runs (pending w) !! run_id));
  run ← lift (require_some run (OtherError "AttributeError" "'NoneType' object has no attribute 'started_by'"));
  _ ← note_call (BeginAttempt key (su_rounds sub));
  begun ← on_db (begin others prepared (begin_request run_id sub (ag_spec ag) provider parent mode (rn_started_by run) (ou_trace out)));
  set_subtask key (fun s => s {{ su_attempt := Some (bg_attempt begun) }}).

Definition _fence (out : Outside) (key : string) : ST Co unit :=
  sub ← the_subtask key;
  ag ← the_agent (su_worker sub);
  on_db (fence_worker_attempt (ou_binds out (su_worker sub)) (ag_sandbox ag) (or_empty (su_attempt sub))).

Definition bind_attempt (worker : string) (attempt : option string) : ST Co unit :=
  modify (fun st => st {{ co_hub ::= fmap (fun h => h {{ attempt_for ::= match attempt with Some a => insert worker a | None => id end }}) }}).

Definition opt_text (o : option string) : string := default "None" o.

(** The verdict of the Task's status after [finish]. *)
Definition verdict_of (status : string) : string :=
  if str_eq status "succeeded" then "PASS" else if str_eq status "failed" then "FAIL" else "INCONCLUSIVE".

Definition positive_or_none (z : Z) : option Z := if z =? 0 then None else Some z.

Definition verify_log (run_id : string) (spec : AgentSpec) (turns : Z) (a : Applied) : string :=
  "run " +:+ run_id +:+ " worker " +:+ sp_id spec +:+ " (" +:+ sp_kind spec +:+ "); turns=" +:+ pretty turns +:+ newline +:+
  "changed (in scope): " +:+ list_repr (ap_changed a) +:+ newline +:+ "ignored (out of scope): " +:+ list_repr (ap_ignored a) +:+ newline.

Definition finish_request (attempt_id : string) (sub : _Subtask) (a : Applied) (log : string) (config : RunConfig) : FinishRequest := {|
  f_attempt_id := attempt_id;
  f_result := {| ad_status := "completed"; ad_changed_files := ap_changed a; ad_stdout := log; ad_stderr := ""; ad_exit_code := 0;
                 ad_result_tree_sha256 := None; ad_base_commit := None; ad_base_commit_source := None |};
  f_commands := []; f_criterion_checks := Some (sub_criterion_checks (su_spec sub)); f_policies := ∅; f_validation_target := None;
  f_evidence_mode := Some (json_text (evidence_mode config)) |}.

Definition evidence_text (rows : list EvidenceRow) : string :=
  let items := map (fun e => opt_text (ev_criterion e) +:+ "=" +:+ ev_status e) rows in
  match items with [] => "none" | _ => str_join ", " items end.

Definition failing_text (rows : list EvidenceRow) : string :=
  "[" +:+ str_join ", " (map (fun e => match ev_criterion e with Some c => str_repr c | None => "None" end)
                          (List.filter (fun e => negb (str_eq (ev_status e) "PASS")) rows)) +:+ "]".

Definition verdict_text (key attempt_id verdict : string) (rows : list EvidenceRow) (out_of_scope : list string) : string :=
  "Host verification of subtask `" +:+ key +:+ "` (attempt " +:+ attempt_id +:+ "): " +:+ verdict +:+ ". Evidence: " +:+ evidence_text rows +:+ "." +:+
  (match out_of_scope with [] => "" | _ => " Changes outside the subtask's files were ignored: " +:+ str_join ", " (take 10 out_of_scope) +:+ "." end).

(** What the worker used so far, on its Attempt. *)
Definition note_usage (ve : VerifyEnv) (config : RunConfig) (attempt_id : string) : ST Work unit :=
  pend (set_attempt (fun a => a {{ at_input_tokens := positive_or_none (us_input (ve_usage ve));
    at_output_tokens := positive_or_none (us_output (ve_usage ve));
    at_cost_usd := f_round 6 (_agent_cost (ve_usage ve) (ve_alive ve) config) }}) attempt_id).

(** The worker's changes, what it used, and [finish]: the verdict and its
    Evidence. *)
Definition verify_attempt (ve : VerifyEnv) (fixture : Disk) (config : RunConfig) (run_id key attempt_id : string) : ST Co VerifiedAttempt :=
  sub ← the_subtask key;
  worker ← the_agent (su_worker sub);
  theirs ← lift (ve_collect ve);
  applied ← lift (_apply_scoped fixture theirs (sub_allowed_paths (su_spec sub)) (sub_protected_paths (su_spec sub)));
  _ ← on_db (note_usage ve config attempt_id);
  _ ← on_db (finish format_g ev mach tree (ve_finish ve)
              (finish_request attempt_id sub applied (verify_log run_id (ag_spec worker) (ag_turns worker) applied) config));
  status ← on_db (gets (fun w => task_status (pending w) (su_task sub)));
  status ← lift (require_some status (OtherError "AttributeError" "'NoneType' object has no attribute 'status'"));
  rows ← on_db (query (select_rows (fun e => opt_str_eq (ev_attempt_id e) (Some attempt_id)) ∘ d_evidence));
  mret {| va_attempt := attempt_id; va_verdict := verdict_of status; va_changed := ap_changed applied; va_out_of_scope := ap_ignored applied;
          va_evidence := rows |}.

(** [_verify]: a verdict that is not PASS starts the next Attempt while rounds
    are left. *)
Definition _verify (out : Outside) (ve : VerifyEnv) (fixture : Disk) (config : RunConfig) (run_id lead_id key : string) : ST Co unit :=
  sub ← the_subtask key;
  attempt_id ← lift (require_some (su_attempt sub) (TypeError "unsupported operand type(s) for /: 'PosixPath' and 'NoneType'"));
  v ← verify_attempt ve fixture config run_id key attempt_id;
  _ ← set_subtask key (fun s => s {{ su_verdict := Some (va_verdict v); su_attempts ::= fun l => l ++ [v] }});
  let text := verdict_text (su_key sub) attempt_id (va_verdict v) (va_evidence v) (va_out_of_scope v) in
  more_rounds ← lift (Z_lt (su_rounds sub) (max_verify_rounds config));
  text ← (if negb (str_eq (va_verdict v) "PASS") && more_rounds then
            _ ← begin_attempt out run_id key (Some attempt_id) (json_text (evidence_mode config)) (ve_others ve) (ve_prepared ve);
            _ ← _fence out key;
            sub ← the_subtask key;
            _ ← bind_attempt (su_worker sub) (su_attempt sub);
            _ ← set_subtask key (fun s => s {{ su_verdict := None }});
            mret (text +:+ " Failing: " +:+ failing_text (va_evidence v) +:+ ". Fix it and report done again (new attempt " +:+ opt_text (su_attempt sub) +:+ ").")
          else mret text);
  let meta := JObj [("subtask_key", JStr (su_key sub)); ("attempt_id", JStr attempt_id); ("verdict", JStr (va_verdict v));
                    ("evidence_ids", JArr (map (JStr ∘ ev_id) (va_evidence v)))] in
  _ ← notice (su_worker sub) text "system" (Some meta);
  _ ← notice lead_id text "system" (Some meta);
  on_db commit.

(** ** One round *)

(** 1. finished turns; a turn that raised fails the run. *)
Definition finish_turn (p : Poll) (aid : string) : ST Co unit :=
  ag ← the_agent aid;
  match po_done p aid with
  | Some outcome =>
      when (ag_future ag)
        (result ← lift outcome;
         set_agent aid (fun ag => ag {{ ag_future := false; ag_wake := true; ag_turn_log ::= fun l => l ++
           [{| tl_turn := ag_turns ag; tl_ok := tr_ok result; tl_seconds := f_round 1 (tr_seconds result); tl_error := tr_error result |}] }}))
  | None => mret ()
  end.

(** 2. an envelope of an outbox. *)
Definition is_envelope_error (e : exn) : bool := match e with OtherError cls _ => str_eq cls "EnvelopeError" | _ => false end.

(** [_apply_policy]: a material decision is left to a human. *)
Definition resolve_by_policy (request_id : string) (decision : PolicyDecision) : ST Work unit :=
  w ← gets (fun w => w);
  match resolve_request (wk_host w) (fun n => wk_clock w (wk_ticks w + n)%nat) (fun n => wk_uuid w (wk_ticks w + n)%nat) (session w)
          request_id (pd_outcome decision) (pd_policy_name decision) "policy" (pd_resolution decision) false None with
  | Ok s => modify (fun w => w {{ session := s; wk_ticks ::= fun n => (n + 2)%nat }})
  | Err e => fail e
  end.

Definition _apply_policy (request_id : string) : ST Work unit :=
  d ← gets pending;
  request ← lift (require_some (d_decision_requests d !! request_id) (LookupError "decision request not found"));
  if is_material d request then mret ()
  else match decide_request policy request with
       | Some decision => resolve_by_policy request_id decision
       | None => mret ()
       end.

Definition meta_of (m : AgentMessageRow) : json := match mg_meta m with Some j => json_or j (JObj []) | None => JObj [] end.

Definition note_report (ag : _Agent) (m : AgentMessageRow) : ST Co unit :=
  when (str_eq (mg_kind m) "report")
    (let status := jget "status" (meta_of m) in
     let says s := match status with JStr t => str_eq t s | _ => false end in
     _ ← when (str_eq (sp_role (ag_spec ag)) "worker" && (says "done" || says "failed"))
           (sub ← the_subtask (or_empty (ag_subtask_key ag)); set_subtask (su_key sub) (fun s => s {{ su_verify_requested := true }}));
     when (str_eq (sp_role (ag_spec ag)) "lead" && says "done") (modify (fun st => st {{ co_lead_reported := true }}))).

Definition rule_notice (ag : _Agent) (request_id : string) (matched : list string) : string :=
  "Your decision request " +:+ request_id +:+ " is material by rule (" +:+ str_join ", " matched +:+ "): your " +:+
  (if str_eq (sp_role (ag_spec ag)) "worker" then "subtask" else "run") +:+ " waits until a human resolves it.".

Definition note_request (aid : string) (ag : _Agent) (m : AgentMessageRow) (request_id : string) : ST Co unit :=
  _ ← on_db (_apply_policy request_id);
  when (match jget "materiality_source" (meta_of m) with JStr src => str_eq src "rule" | _ => false end)
    (notice aid (rule_notice ag request_id (json_strings (jget "matched_rules" (meta_of m)))) "system" None).

Definition accept (aid : string) (ag : _Agent) (res : IngestResult) : ST Co unit :=
  _ ← queue (map (fun r => (r, ir_message res)) (ir_recipients res));
  _ ← note_report ag (ir_message res);
  _ ← match ir_decision_request_id res with Some id => note_request aid ag (ir_message res) id | None => mret () end;
  on_db commit.

Definition refuse (aid : string) (e : exn) : ST Co unit :=
  _ ← violation aid (_safe (exn_text e) 300);
  _ ← on_db rollback;
  _ ← notice aid ("Your message was refused: " +:+ exn_text e) "system" None;
  on_db commit.

Definition relay_one (p : Poll) (aid : string) (entry : string * Z) : ST Co unit :=
  data ← _take p aid entry.1 entry.2;
  match data with
  | None => mret ()
  | Some (len, decoded) =>
      ag ← the_agent aid;
      res ← catch (r ← on_hub (ingest fold aid len decoded (ag_sandbox ag)); mret (Some r))
                   (fun e => if is_envelope_error e then Some (_ ← refuse aid e; mret None) else None);
      match res with Some r => accept aid ag r | None => mret () end
  end.

Definition relay (p : Poll) (aid : string) : ST Co unit := entries ← _safe_list p aid; _ ← for_each (relay_one p aid) entries; mret ().

(** 2b. the read-only queries. *)
Definition serve_one (p : Poll) (aid : string) (entry : string * Z) : ST Co unit :=
  let files := po_core p aid in
  let '(name, size) := entry in
  if str_startswith "." name then mret ()
  else
    raw ← no_reads aid "core request read failed"
            (has ← (if negb (hex_json_name name) || (MAX_REQUEST_BYTES <? size) then Ok false else cf_read files name); _ ← cf_remove files name; Ok has);
    match raw with
    | None => mret ()
    | Some false => violation aid ("core request " +:+ str_repr (str_take 40 name) +:+ " refused (name or size)")
    | Some true =>
        a ← lift (cf_answer files name);
        _ ← modify (fun st => st {{ co_core_log ::= fun l => l ++ [{| lg_agent := aid; lg_tool := str_take 40 (ca_tool a); lg_ok := ca_ok a;
              lg_denied := ca_denied a; lg_error := (if opt_truthy (ca_error a) then (fun e => _safe e 500) <$> ca_error a else ca_error a) |}] }});
        when (ca_id a) (_ ← no_reads aid "core response write failed" (ca_write a); mret ())
    end.

Definition _serve_core (p : Poll) (aid : string) : ST Co unit :=
  match cf_names (po_core p aid) with
  | None => mret ()
  | Some names => names ← no_reads aid "core request list failed" names; _ ← for_each (serve_one p aid) (sort_by pair_le (default [] names)); mret ()
  end.

(** 3. the decisions that were resolved. *)
Definition decision_body (r : DecisionRequestRow) : string :=
  "Decision on your request " +:+ dr_id r +:+ " (" +:+ str_take 200 (dr_question r) +:+ "): " +:+ str_upper (dr_status r) +:+
  (if opt_truthy (dr_resolution r) then " - " +:+ or_empty (dr_resolution r) else "") +:+ " (by " +:+ opt_text (dr_resolved_by r) +:+ ")".

Definition tell_decision (r : DecisionRequestRow) : ST Co unit :=
  st ← gets (fun st => st);
  when (negb (bool_decide (dr_id r ∈ co_delivered st)) && str_in (dr_requested_by r) (agent_ids st))
    (_ ← modify (fun st => st {{ co_delivered ::= union {[dr_id r]} }});
     _ ← notice (dr_requested_by r) (decision_body r) "decision" (Some (JObj [("decision_request_id", JStr (dr_id r)); ("outcome", JStr (dr_status r))]));
     on_db commit).

Definition tell_decisions (run_id : string) : ST Co unit :=
  rows ← on_db (query (select_rows (fun r => opt_str_eq (dr_run_id r) (Some run_id) && negb (str_eq (dr_status r) "pending")) ∘ d_decision_requests));
  _ ← for_each tell_decision rows;
  mret ().

(** 3b. the gate. *)
Definition read_gate (run_id : string) : ST Co (list MaterialRequest) :=
  gate ← on_db (query (fun d => pending_material d (Some run_id) None)); lift gate.

(** 4. verification: [host_worked] is whether one ran. *)
Definition verify_one (out : Outside) (p : Poll) (fixture : Disk) (config : RunConfig) (run_id lead_id : string) (gate : list MaterialRequest) (key : string)
    : ST Co bool :=
  sub ← the_subtask key;
  worker ← the_agent (su_worker sub);
  if su_verify_requested sub && scope_blocked gate (su_key sub) then
    _ ← hold gate ("verification:" +:+ su_key sub) (Some (su_key sub)); mret false
  else if su_verify_requested sub && negb (ag_future worker) && negb (opt_str_eq (su_verdict sub) (Some "PASS")) then
    _ ← set_subtask key (fun s => s {{ su_verify_requested := false }});
    _ ← _verify out (po_verify p key) fixture config run_id lead_id key;
    mret true
  else mret false.

Definition all_pass (subtasks : list (string * _Subtask)) : bool := forallb (fun kv => opt_str_eq (su_verdict kv.2) (Some "PASS")) subtasks.

Definition tell_all_pass (lead_id : string) : ST Co unit :=
  st ← gets (fun st => st);
  when (all_pass (co_subtasks st) && negb (co_all_pass_notified st))
    (_ ← modify (fun st => st {{ co_all_pass_notified := true }});
     _ ← notice lead_id "Host verification: every subtask is verified PASS with Evidence. Send your final report (status done) now." "system" None;
     on_db commit).

(** 5. deliveries. *)
Definition deliver_one (p : Poll) (item : string * AgentMessageRow) : ST Co bool :=
  _ ← the_agent item.1;
  ok ← _deliver p item.1 item.2;
  _ ← when ok (set_agent item.1 (fun ag => ag {{ ag_wake := true }}));
  mret ok.

Definition deliveries (p : Poll) : ST Co unit :=
  pending ← gets co_pending;
  sent ← for_each (deliver_one p) pending;
  modify (fun st => st {{ co_pending := map fst (List.filter (fun x => negb x.2) (zip pending sent)) }}).

(** 6. an idle agent with mail takes its turn: the number of turns in flight
    afterwards. *)
Definition busy_agents (agents : list (string * _Agent)) : Z := Z.of_nat (length (List.filter (fun kv => ag_future kv.2) agents)).

Definition wake_one (p : Poll) (config : RunConfig) (gate : list MaterialRequest) (blocked : string -> bool) (busy : Z) (aid : string) : ST Co Z :=
  ag ← the_agent aid;
  if negb (ag_wake ag) || ag_future ag then mret busy
  else if blocked aid then
    let scope := match ag_subtask_key ag with Some k => if str_truthy k then k else RUN_SCOPE | None => RUN_SCOPE end in
    _ ← hold gate ("turn:" +:+ aid) (Some scope); mret busy
  else
    _ ← set_agent aid (fun ag => ag {{ ag_wake := false }});
    match po_inbox p aid with
    | Err e => _ ← violation aid (_safe ("inbox check failed: " +:+ exn_text e) 300);
               _ ← set_agent aid (fun ag => ag {{ ag_wake := true }}); mret busy
    | Ok mail =>
        if negb (0 <? mail) then mret busy
        else
          capped ← lift (le_Z (max_turns_per_agent config) (ag_turns ag));
          if (capped : bool) then _ ← violation aid "turn cap reached with unread mail"; mret busy
          else _ ← set_agent aid (fun ag => ag {{ ag_turns ::= Z.add 1; ag_started := true; ag_future := true }});
               _ ← note_call (StartTurn aid (1 + ag_turns ag));
               mret (busy + 1)
    end.

Fixpoint wake_all (p : Poll) (config : RunConfig) (gate : list MaterialRequest) (blocked : string -> bool) (busy : Z) (aids : list string) : ST Co unit :=
  match aids with
  | [] => mret ()
  | aid :: aids =>
      full ← lift (le_Z (max_concurrent_turns config) busy);
      if (full : bool) then mret ()
      else busy ← wake_one p config gate blocked busy aid; wake_all p config gate blocked busy aids
  end.

Definition wake (p : Poll) (config : RunConfig) (gate : list MaterialRequest) (blocked : string -> bool) : ST Co unit :=
  agents ← gets co_agents;
  wake_all p config gate blocked (busy_agents agents) (map fst agents).

(** 7. completion and stall: why the run ends, if it does. *)
Inductive Stop : Type :=
  | Succeeded
  | Failed (error : string)
  | Cancelled.

Definition is_active (st : Co) : bool :=
  existsb (fun kv => ag_future kv.2) (co_agents st) || negb (bool_decide (co_pending st = [])) || existsb (fun kv => ag_wake kv.2) (co_agents st) ||
  existsb (fun kv => su_verify_requested kv.2) (co_subtasks st).

Definition is_exhausted (config : RunConfig) (s : _Subtask) : result bool :=
  if opt_str_eq (su_verdict s) (Some "FAIL") || opt_str_eq (su_verdict s) (Some "INCONCLUSIVE") then le_Z (max_verify_rounds config) (su_rounds s) else Ok false.

Definition waiting_human (run_id : string) (d : Db) : bool :=
  bool_decide (is_Some (find_row (fun r => opt_str_eq (dr_run_id r) (Some run_id) && str_eq (dr_status r) "pending") (d_decision_requests d))).

Definition unverified (st : Co) (s : _Subtask) : bool :=
  bool_decide (su_verdict s = None) && negb (bool_decide (or_empty (su_attempt s) ∈ co_stall_verified st)).

(** The run has gone quiet: once per Attempt the host still decides on
    Evidence. *)
Definition stall (p : Poll) (config : RunConfig) : ST Co (option Stop) :=
  st ← gets (fun st => st);
  let since := match co_idle_since st with Some t => if f_truthy t then t else po_idle p | None => po_idle p end in
  _ ← modify (fun st => st {{ co_idle_since := Some since }});
  late ← lift (gt_json (f_sub (po_idle_again p) since) (stall_s config));
  if (late : bool) then
    if existsb (fun kv => unverified st kv.2) (co_subtasks st) then
      _ ← modify (fun st' => st' {{ co_subtasks ::= map (fun kv => if unverified st kv.2 then (kv.1, kv.2 {{ su_verify_requested := true }}) else kv);
             co_stall_verified ::= union (list_to_set (map (fun kv => or_empty (su_attempt kv.2)) (List.filter (fun kv => unverified st kv.2) (co_subtasks st))));
             co_idle_since := None }});
      mret None
    else mret (Some (Failed "run stalled without Evidence for every subtask"))
  else _ ← lift (sleep (poll_interval_s config)); mret None.

Definition completion (p : Poll) (config : RunConfig) (run_id : string) (gate : list MaterialRequest) (host_worked : bool) : ST Co (option Stop) :=
  st ← gets (fun st => st);
  let active := is_active st in
  _ ← modify (fun st => st {{ co_held_prev := negb (bool_decide (gate = [])) && negb host_worked && negb (existsb (fun kv => ag_future kv.2) (co_agents st));
                               co_prev_gate := map mr_request_id gate }});
  if all_pass (co_subtasks st) && (co_lead_reported st || negb active) && bool_decide (gate = []) then mret (Some Succeeded)
  else
    _ ← when (all_pass (co_subtasks st) && (co_lead_reported st || negb active)) (hold gate "completion" None);
    exhausted ← lift (result_map (fun kv => b ← is_exhausted config kv.2; Ok (kv.2, b)) (co_subtasks st));
    let worn := map fst (List.filter snd exhausted) in
    if negb (bool_decide (worn = [])) && negb active && forallb (fun sb => opt_str_eq (su_verdict sb.1) (Some "PASS") || sb.2) exhausted
    then mret (Some (Failed ("subtasks failed host verification: " +:+ str_join ", " (map su_key worn))))
    else
      human ← on_db (query (waiting_human run_id));
      if active || (human : bool) then
        _ ← modify (fun st => st {{ co_idle_since := None }}); _ ← lift (sleep (poll_interval_s config)); mret None
      else stall p config.

(** The time of the round: what the last interval was held counts apart. *)
Definition add_pending (dt : float) (log : list (string * GateEntry)) (rid : string) : list (string * GateEntry) :=
  update_key rid (fun e => e {{ ge_pending_s := f_round 3 (f_add (ge_pending_s e) dt) }}) log.

Definition tick (p : Poll) : ST Co unit :=
  modify (fun st =>
    let dt := f_sub (po_now p) (co_last_tick st) in
    st {{ co_last_tick := po_now p; co_held_s := (if co_held_prev st then f_add (co_held_s st) dt else co_held_s st);
          co_gate_log := foldl (add_pending dt) (co_gate_log st) (co_prev_gate st) }}).

Definition counted (out : Outside) (p : Poll) (st : Co) : float := f_sub (f_sub (po_now p) (ou_started out)) (co_held_s st).

(** Cancel, then the caps. *)
Definition caps (out : Outside) (p : Poll) (config : RunConfig) (run_id : string) : ST Co (option Stop) :=
  st ← gets (fun st => st);
  let cost := _cost p config (co_agents st) in
  _ ← on_db (interfere (po_before p));
  run ← on_db (gets (fun w => d_agent_runs (pending w) !! run_id));
  run ← lift (require_some run (OtherError "InvalidRequestError" "Could not refresh instance"));
  if po_cancel p || bool_decide (is_Some (rn_cancel_requested_at run)) then mret (Some Cancelled)
  else
    over_wall ← lift (gt_json (counted out p st) (max_wall_s config));
    if (over_wall : bool) then mret (Some (Failed ("wall-time cap " +:+ py_str (max_wall_s config) +:+ "s reached")))
    else
      over_hold ← lift (gt_json (co_held_s st) (max_material_hold_s config));
      if (over_hold : bool) then mret (Some (Failed ("material decision hold cap " +:+ py_str (max_material_hold_s config) +:+ "s reached")))
      else
        over_cost ← lift (gt_json cost (max_cost_usd config));
        if (over_cost : bool) then mret (Some (Failed ("cost cap $" +:+ py_str (max_cost_usd config) +:+ " reached ($" +:+ f_fixed 4 cost +:+ ")")))
        else mret None.

(** Sandboxes stay alive while a decision is pending. *)
Definition hold_sandboxes (out : Outside) (p : Poll) (config : RunConfig) (gate : list MaterialRequest) : ST Co (option Stop) :=
  match gate with
  | [] => mret None
  | _ =>
      st ← gets (fun st => st);
      let needed := f_add (f_max0 (f_sub (to_float (num_of (max_wall_s config))) (counted out p st))) KEEPALIVE_MARGIN_S in
      expiry ← keep_alive p needed (f_round 1 (f_sub (po_now p) (ou_started out))) (agent_ids st);
      mret (Failed <$> expiry)
  end.

Definition or_stop (m : ST Co (option Stop)) (k : ST Co (option Stop)) : ST Co (option Stop) :=
  stop ← m; match stop with Some s => mret (Some s) | None => k end.

(** What the round does under the gate it read. *)
Definition act (out : Outside) (fixture : Disk) (config : RunConfig) (run_id lead_id : string) (p : Poll) (gate : list MaterialRequest) : ST Co (option Stop) :=
  or_stop (hold_sandboxes out p config gate)
    (_ ← for_each (fun g => hold gate "pending" (Some (mr_scope g))) gate;
     st ← gets (fun st => st);
     let blocked := agent_blocked gate (co_subtasks st) in
     worked ← for_each (verify_one out p fixture config run_id lead_id gate) (subtask_keys st);
     _ ← tell_all_pass lead_id;
     _ ← deliveries p;
     _ ← wake p config gate blocked;
     completion p config run_id gate (existsb id worked)).

Definition round (out : Outside) (fixture : Disk) (config : RunConfig) (run_id lead_id : string) (p : Poll) : ST Co (option Stop) :=
  _ ← tick p;
  or_stop (caps out p config run_id)
    (_ ← each_agent (finish_turn p);
     _ ← each_agent (relay p);
     _ ← each_agent (_serve_core p);
     _ ← on_db (interfere (po_answers p));
     _ ← tell_decisions run_id;
     gate ← read_gate run_id;
     act out fixture config run_id lead_id p gate).

(** The loop: [None] while it is still running after the rounds given. *)
Fixpoint rounds (out : Outside) (fixture : Disk) (config : RunConfig) (run_id lead_id : string) (polls : list Poll) : ST Co (option Stop) :=
  match polls with
  | [] => mret None
  | p :: polls => or_stop (round out fixture config run_id lead_id p) (rounds out fixture config run_id lead_id polls)
  end.

(** ** Before the loop *)

Definition role_of_member (config : RunConfig) (m : AgentRunMemberRow) : RoleValue := if str_eq (mb_role m) "lead" then lead config else worker config.

Definition spec_of (config : RunConfig) (m : AgentRunMemberRow) : AgentSpec :=
  let r := role_of_member config m in
  {| sp_id := mb_agent_id m; sp_role := mb_role m; sp_kind := json_text (role_kind r); sp_model := role_model r |}.

Definition new_agent (spec : AgentSpec) (subtask : option string) : _Agent := {|
  ag_spec := spec; ag_sandbox := None; ag_subtask_key := subtask; ag_turns := 0; ag_wake := false; ag_future := false; ag_started := false; ag_turn_log := [] |}.

Definition new_subtask (plan_id worker : string) (s : SubtaskSpec) : _Subtask := {|
  su_key := sub_key s; su_spec := s; su_task := task_id_for plan_id (sub_key s); su_worker := worker; su_attempt := None; su_rounds := 0;
  su_verdict := None; su_verify_requested := false; su_attempts := [] |}.

Definition StopIteration : exn := OtherError "StopIteration" "".

(** [d[k] = v] *)
Definition set_key {A} (k : string) (v : A) (d : list (string * A)) : list (string * A) :=
  match at_key k d with Some _ => update_key k (fun _ => v) d | None => d ++ [(k, v)] end.

Definition add_agent (out : Outside) (config : RunConfig) (plan : PlanRow) (m : AgentRunMemberRow) : ST Co unit :=
  let spec := spec_of config m in
  _ ← lift (ou_factory out spec);
  _ ← modify (fun st => st {{ co_agents ::= set_key (mb_agent_id m) (new_agent spec (mb_subtask_key m)) }});
  when (str_eq (mb_role m) "worker")
    (sub ← lift (require_some (List.find (fun s => opt_str_eq (Some (sub_key s)) (mb_subtask_key m)) (plan_subtasks plan)) StopIteration);
     modify (fun st => st {{ co_subtasks ::= set_key (sub_key sub) (new_subtask (pl_id plan) (mb_agent_id m) sub) }})).

Definition lead_of (agents : list (string * _Agent)) : option string :=
  fst <$> List.find (fun kv => str_eq (sp_role (ag_spec kv.2)) "lead") agents.

Definition first_attempt (out : Outside) (run_id key : string) : ST Co unit :=
  let b := ou_begin out key in
  _ ← begin_attempt out run_id key None "synthetic" b.1 b.2;
  _fence out key.

(** The member row of an agent once its sandbox was started. *)
Definition start_agent (out : Outside) (run_id aid : string) : ST Co unit :=
  let o := ou_start out aid in
  _ ← set_agent aid (fun ag => ag {{ ag_sandbox := o.1 }});
  on_db (pend (fun d => d {{ d_agent_run_members ::= fmap (fun m =>
    if str_eq (mb_run_id m) run_id && str_eq (mb_agent_id m) aid
    then m {{ mb_sandbox_id := o.1; mb_status := (match o.2 with Some _ => "failed" | None => "ready" end) }} else m) }})).

(** A worker's Attempt takes the run's mode once its sandbox has started. *)
Definition go_live (out : Outside) (config : RunConfig) (key : string) : ST Co unit :=
  sub ← the_subtask key;
  ag ← the_agent (su_worker sub);
  when (bool_decide ((ou_start out (su_worker sub)).2 = None) && opt_truthy (ag_sandbox ag))
    (on_db (pend (set_attempt (fun a => a {{ at_evidence_mode := json_text (evidence_mode config) }}) (or_empty (su_attempt sub))))).

Definition start_error (out : Outside) (aid : string) : list string :=
  match (ou_start out aid).2 with Some e => [aid +:+ ": " +:+ exn_class e +:+ ": " +:+ str_last 300 (exn_text e)] | None => [] end.

Definition start_all (out : Outside) (config : RunConfig) (run_id : string) : ST Co unit :=
  _ ← modify (fun st => st {{ co_timings ::= fun l => l ++ [("sandboxes_ready_s", JFloat (f_round 1 (ou_ready_s out)))] }});
  _ ← each_agent (start_agent out run_id);
  _ ← each_subtask (go_live out config);
  _ ← on_db commit;
  ids ← gets agent_ids;
  let errors := concat (map (start_error out) ids) in
  guard (negb (bool_decide (errors = []))) (RuntimeError ("sandbox start failed: " +:+ str_join "; " errors)).

(** [_plan_brief] *)
Definition brief_subtask (worker : string) (s : SubtaskSpec) : list string :=
  ["- " +:+ worker +:+ " -> subtask `" +:+ sub_key s +:+ "`: " +:+ sub_title s;
   "  instructions: " +:+ sub_instructions s;
   "  acceptance criteria (host-checked): " +:+ str_join "; " (sub_acceptance_criteria s)] ++
  (match sub_allowed_paths s with [] => [] | paths => ["  files the worker may change: " +:+ str_join ", " paths] end).

Definition _plan_brief (plan : PlanRow) (subtasks : list (string * _Subtask)) : string :=
  str_join newline (["APPROVED PLAN " +:+ pl_id plan +:+ ": " +:+ pl_title plan; ""; "Assignments (the host binds each worker to exactly one subtask):"] ++
    concat (map (fun kv => brief_subtask (su_worker kv.2) (su_spec kv.2)) subtasks) ++
    [""; "Your job:";
     "1. Send each worker its full assignment with send_message (to = the worker id). Tell it to run `sdf-msg report --status done` when finished. Then end your turn.";
     "2. You will be woken as messages arrive (workers' questions, host verification verdicts). Answer questions briefly; if a verdict is FAIL, tell that worker what to fix.";
     "3. When the host says every subtask is verified PASS, call report with status done and a short summary. Never report done before that."]).

Definition member_binding (kv : string * _Agent) : string * Member :=
  (kv.1, {| me_agent := kv.1; me_role := sp_role (ag_spec kv.2); me_subtask := ag_subtask_key kv.2; me_sandbox := ag_sandbox kv.2 |}).

Definition greet (plan_id : string) (key : string) : ST Co unit :=
  sub ← the_subtask key;
  notice (su_worker sub) ("You are " +:+ su_worker sub +:+ ", bound by the host to subtask `" +:+ su_key sub +:+ "` of plan " +:+ plan_id +:+
    ". Wait for the lead's assignment message and follow it.") "system" (Some (JObj [("subtask_key", JStr (su_key sub))])).

Definition open_hub (out : Outside) (run_id lead_id : string) (plan : PlanRow) : ST Co unit :=
  st ← gets (fun st => st);
  hub ← lift (new_hub run_id (map member_binding (co_agents st)) MAX_BODY_CHARS MAX_MESSAGES_PER_AGENT (ou_rules out));
  _ ← modify (fun st => st {{ co_hub := Some hub }});
  _ ← each_subtask (fun key => sub ← the_subtask key; bind_attempt (su_worker sub) (su_attempt sub));
  _ ← notice lead_id (_plan_brief plan (co_subtasks st)) "system" (Some (JObj [("plan_id", JStr (pl_id plan))]));
  _ ← each_subtask (greet (pl_id plan));
  on_db commit.

(** Everything before the first round: the fixture and the lead. *)
Definition setup (out : Outside) (config : RunConfig) (run_id : string) (plan : PlanRow) : ST Co (Disk * string) :=
  fixture ← lift (ou_fixture out plan);
  rows ← on_db (query (select_rows (fun m => str_eq (mb_run_id m) run_id) ∘ d_agent_run_members));
  _ ← for_each (add_agent out config plan) rows;
  agents ← gets co_agents;
  lead_id ← lift (require_some (lead_of agents) StopIteration);
  _ ← each_subtask (first_attempt out run_id);
  _ ← start_all out config run_id;
  _ ← open_hub out run_id lead_id plan;
  mret (fixture, lead_id).

(** ** The end of a run *)

(** An Attempt still running, and owned, is cancelled and its Task ends
    inconclusive; one that recovery settled is left alone. *)
Definition cancel_attempt (sub : _Subtask) : ST Work unit :=
  attempt ← gets (fun w => a ← su_attempt sub; d_attempts (pending w) !! a);
  match attempt with
  | Some a =>
      when (has_status ARUNNING a)
        (settled ← catch (_ ← settle_attempt (at_id a) (AttemptState_value ACANCELLED); mret true)
                          (fun e => if is_fence_error e then Some (mret false) else None);
         when (settled : bool)
           (task ← gets (fun w => d_tasks (pending w) !! su_task sub);
            when (bool_decide (is_Some task))
              (moved ← cas_task (su_task sub) TRUNNING TEVALUATING;
               when (moved : bool) (_ ← cas_task (su_task sub) TEVALUATING TINCONCLUSIVE; mret ()))))
  | None => mret ()
  end.

Definition close_member (e : Ending) (run_id : string) (kv : string * _Agent) : ST Work unit :=
  pend (fun d => d {{ d_agent_run_members ::= fmap (fun m =>
    if str_eq (mb_run_id m) run_id && str_eq (mb_agent_id m) kv.1
    then m {{ mb_turns := ag_turns kv.2; mb_input_tokens := us_input (en_usage e kv.1); mb_output_tokens := us_output (en_usage e kv.1); mb_status := "closed" }}
    else m) }}).

Definition opt_json {A} (f : A -> json) (o : option A) : json := match o with Some a => f a | None => JNull end.

Definition attempt_json (v : VerifiedAttempt) : json := JObj [
  ("attempt_id", JStr (va_attempt v)); ("verdict", JStr (va_verdict v)); ("changed", json_strs (va_changed v)); ("out_of_scope", json_strs (va_out_of_scope v));
  ("evidence", JArr (map (fun e => JObj [("id", JStr (ev_id e)); ("criterion", json_str (ev_criterion e)); ("status", JStr (ev_status e));
                                         ("mode", JStr (ev_evidence_mode e))]) (va_evidence v)))].

Definition subtask_json (s : _Subtask) : json := JObj [
  ("task_id", JStr (su_task s)); ("worker", JStr (su_worker s)); ("verdict", json_str (su_verdict s)); ("rounds", JInt (su_rounds s));
  ("attempts", JArr (map attempt_json (su_attempts s)))].

Definition turn_json (t : TurnLog) : json := JObj [("turn", JInt (tl_turn t)); ("ok", JBool (tl_ok t)); ("seconds", JFloat (tl_seconds t)); ("error", json_str (tl_error t))].

Definition usd (e : Ending) (config : RunConfig) (aid : string) : float := f_round 6 (_agent_cost (en_usage e aid) (en_alive e aid) config).

Definition cost_json (e : Ending) (config : RunConfig) (kv : string * _Agent) : json := JObj [
  ("usd", JFloat (usd e config kv.1)); ("sandbox_s", JFloat (f_round 1 (en_alive e kv.1))); ("usage", en_usage_dict e kv.1);
  ("turns", JArr (map turn_json (ag_turn_log kv.2)))].

Definition core_json (c : CoreLog) : json := JObj [
  ("agent", JStr (lg_agent c)); ("tool", JStr (lg_tool c)); ("ok", JBool (lg_ok c)); ("denied", JBool (lg_denied c)); ("error", json_str (lg_error c))].

Definition gate_json (d : Db) (kv : string * GateEntry) : json :=
  let g := ge_request kv.2 in JObj [
  ("request_id", JStr (mr_request_id g)); ("requested_by", JStr (mr_requested_by g)); ("scope", JStr (mr_scope g)); ("consequence", JStr (mr_consequence g));
  ("options", JArr (mr_options g)); ("materiality_source", JStr (mr_source g)); ("matched_rules", JArr (mr_matched_rules g));
  ("held", json_strs (ge_held kv.2)); ("pending_s", JFloat (ge_pending_s kv.2)); ("status", json_str (dr_status <$> d_decision_requests d !! kv.1))].

Definition extension_json (x : Extension) : json := JObj (
  [("agent", JStr (ex_agent x)); ("at_s", JFloat (ex_at_s x)); ("left_s", JFloat (ex_left_s x))] ++
  (match ex_error x with Some e => [("error", JStr e)] | None => [] end) ++
  (match ex_extended_to x with Some t => [("extended_to_s", JInt t)] | None => [] end) ++
  (match ex_granted x with Some g => [("granted_s", JFloat g); ("capped", JBool true)] | None => [] end)).

Definition pending_ids (run_id : string) (d : Db) : list string :=
  map dr_id (select_rows (fun r => opt_str_eq (dr_run_id r) (Some run_id) && str_eq (dr_status r) "pending") (d_decision_requests d)).

Definition summary (st : Co) (e : Ending) (config : RunConfig) (run_id : string) (closed still : list string) (d : Db) : json := JObj [
  ("subtasks", JObj (map (fun kv => (kv.1, subtask_json kv.2)) (co_subtasks st))); ("cost", JObj (map (fun kv => (kv.1, cost_json e config kv)) (co_agents st)));
  ("violations", JArr (map (fun v => JObj [("agent", JStr v.1); ("error", JStr v.2)]) (take 100 (co_violations st))));
  ("timings", JObj (co_timings st ++ [("material_hold_s", JFloat (f_round 1 (co_held_s st))); ("counted_wall_s", JFloat (f_round 1 (en_counted_s e)));
                                      ("wall_s", JFloat (f_round 1 (en_wall_s e)))]));
  ("core_queries", JArr (map core_json (take 200 (co_core_log st)))); ("sandboxes_closed", json_strs closed); ("sandboxes_still_running", json_strs (str_sorted still));
  ("pending_decision_requests", json_strs (pending_ids run_id d)); ("material_decisions", JArr (map (gate_json d) (co_gate_log st)));
  ("sandbox_keepalive", JArr (map extension_json (take 100 (co_keepalive_log st))))].

(** Evidence is the only success criterion. *)
Definition outcome_of (st : Co) (stop : Stop) : string * option string :=
  match stop with
  | Succeeded => if all_pass (co_subtasks st) then ("succeeded", None) else ("failed", Some "success claimed without PASS Evidence for every subtask")
  | Failed error => ("failed", Some error)
  | Cancelled => ("cancelled", Some "cancel requested")
  end.

Definition closed_run (st : Co) (e : Ending) (config : RunConfig) (stop : Stop) (closed still : list string) (now : datetime) (d : Db) (run : AgentRunRow) : AgentRunRow :=
  let o := outcome_of st stop in
  run {{ rn_status := o.1; rn_error := o.2; rn_finished_at := Some now;
         rn_cost_usd := f_round 6 (sum_floats (map (fun kv => usd e config kv.1) (co_agents st)));
         rn_summary := Some (summary st e config (rn_id run) closed still d) }}.

Definition _finalize (st : Co) (e : Ending) (config : RunConfig) (run_id : string) (stop : Stop) (closed still : list string) : ST Work AgentRunRow :=
  run ← gets (fun w => d_agent_runs (pending w) !! run_id);
  run ← lift (require_some run (OtherError "AttributeError" "'NoneType' object has no attribute 'status'"));
  _ ← for_each (fun kv => cancel_attempt kv.2) (co_subtasks st);
  _ ← for_each (close_member e run_id) (co_agents st);
  now ← utcnow;
  d ← query (fun d => d);
  let run := closed_run st e config stop closed still now d run in
  _ ← pend (fun d => d {{ d_agent_runs ::= insert run_id run }});
  _ ← commit;
  mret run.

(** [_close_all] and the cleanup check: what was open, and what is left. *)
Definition sandbox_ids (st : Co) : list string :=
  concat (map (fun kv => match ag_sandbox kv.2 with Some id => if str_truthy id then [id] else [] | None => [] end) (co_agents st)).

Definition cleanup (st : Co) (e : Ending) : Co * list string :=
  match en_cleanup e, sandbox_ids st with
  | Some (Ok l), _ :: _ => (st, l)
  | Some (Err x), _ :: _ => (st {{ co_violations ::= fun l => l ++ [("host", _safe ("cleanup check failed: " +:+ exn_text x) 300)] }}, [])
  | _, _ => (st, [])
  end.

(** ** The whole run *)

Definition start (out : Outside) (w : Work) : Co := {|
  co_work := w; co_hub := None; co_agents := []; co_subtasks := []; co_pending := []; co_violations := []; co_lead_reported := false;
  co_all_pass_notified := false; co_delivered := ∅; co_gate_log := []; co_idle_since := None; co_stall_verified := ∅; co_core_log := [];
  co_held_s := f_zero; co_held_prev := false; co_keepalive_log := []; co_keepalive_tried := ∅; co_prev_gate := []; co_last_tick := ou_started out; co_timings := [];
  co_calls := [] |}.

(** The loop with what comes before it. *)
Definition loop (out : Outside) (config : RunConfig) (run_id : string) (plan : PlanRow) (polls : list Poll) : ST Co (option Stop) :=
  fl ← setup out config run_id plan; rounds out fl.1 config run_id fl.2 polls.

(** Any exception of the loop is recorded on the run. *)
Definition error_text (e : exn) : string := exn_class e +:+ ": " +:+ str_last 800 (redact (exn_text e)).

(** The [finally] and [_finalize]; [None] when the run is still in its loop. *)
Definition conclude (e : Ending) (config : RunConfig) (run_id : string) (o : Co * result (option Stop)) : Work * result (option AgentRunRow) :=
  let '(st, still) := cleanup o.1 e in
  let close stop := (run ← _finalize st e config run_id stop (sandbox_ids st) still; mret (Some run)) : ST Work (option AgentRunRow) in
  match o.2 with
  | Ok None => (co_work o.1, Ok None)
  | Ok (Some stop) => close stop (co_work st)
  | Err x => (_ ← rollback; close (Failed (error_text x))) (co_work st)
  end.

(** The [try] of [_execute]. *)
Definition run_loop (out : Outside) (polls : list Poll) (e : Ending) (config : RunConfig) (run_id : string) (plan : PlanRow) : ST Work (option AgentRunRow) :=
  fun w => conclude e config run_id (loop out config run_id plan polls (start out w)).

(** [_execute]: refused before anything is touched, still running after the
    given rounds ([None]), or closed. *)
Definition _execute (out : Outside) (polls : list Poll) (e : Ending) (run_id : string) : ST Work (option AgentRunRow) :=
  run ← gets (fun w => d_agent_runs (pending w) !! run_id);
  run ← lift (require_some run (LookupError "run not found"));
  _ ← guard (negb (str_eq (rn_status run) "running")) (PlanGateError ("run " +:+ run_id +:+ " is " +:+ rn_status run));
  _ ← when (opt_truthy (ou_trace out) && negb (opt_str_eq (rn_trace_id run) (ou_trace out)))
        (_ ← pend (fun d => d {{ d_agent_runs ::= insert run_id (run {{ rn_trace_id := ou_trace out }}) }}); commit);
  plan ← gets (fun w => d_plans (pending w) !! rn_plan_id run);
  plan ← lift (require_some plan (PlanGateError "plan is not approved"));
  _ ← guard (negb (str_eq (pl_status plan) "approved")) (PlanGateError "plan is not approved");
  config ← lift (from_dict (match rn_config run with JObj kvs => Some kvs | _ => None end));
  run_loop out polls e config run_id plan.
End coordinator.
