(* ===== verification/RunFacts.v ===== *)
(** * RunFacts: what a run guarantees

    Theorems about [Coordinator] and [RunLoop]: how many turns and rounds a run
    takes, what a pending material decision stops, and what a success means. *)

From S2P Require Import Prelude StateError Floats Json Db EvidenceMac Flush Samples FlushFacts Store Lifecycle Recovery DecisionGate.
From S2P Require Import Evaluate Revisions UnitOfWork Execution Finish FinishFacts Plans Messaging MessagingFacts RunConfig Scoped Coordinator RunLoop.

(** ** Dicts *)

Section dicts.
Context {A : Type}.
Implicit Types (d : list (string * A)) (f : A -> A).

Lemma at_key_update k f d k' : at_key k' (update_key k f d) = if str_eq k k' then f <$> at_key k' d else at_key k' d.
Proof.
  unfold at_key, update_key. induction d as [|[i x] d IH]; cbn [map List.find fst snd]; [by destruct (str_eq k k')|].
  unfold str_eq in *. repeat case_bool_decide; cbn [map List.find fst snd] in *; subst; repeat case_bool_decide; try done.
Qed.

Lemma keys_update k f d : map fst (update_key k f d) = map fst d.
Proof. unfold update_key. rewrite map_map. apply map_ext. intros [i x]. by destruct (str_eq _ _). Qed.

Lemma at_key_elem k d a : at_key k d = Some a -> (k, a) ∈ d.
Proof.
  unfold at_key. intros ([i x] & Hf & ->)%fmap_Some. apply List.find_some in Hf as [Hin Hk]. unfold str_eq in Hk. boolify. cbn in *. subst.
  by apply list_elem_of_In.
Qed.

Lemma elem_update k f d k' a : (k', a) ∈ update_key k f d -> exists b, (k', b) ∈ d /\ a = if str_eq k' k then f b else b.
Proof. unfold update_key. intros ([i x] & E & Hin)%list_elem_of_fmap. cbn in E. destruct (str_eq i k) eqn:Ei; injection E as -> ->; rewrite ?Ei; eauto. Qed.

Lemma at_key_unique k d a b : NoDup (map fst d) -> (k, a) ∈ d -> at_key k d = Some b -> a = b.
Proof.
  intros Hn Ha Hb%at_key_elem. induction d as [|[i x] d IH]; [by apply not_elem_of_nil in Ha|]. cbn in Hn. apply NoDup_cons in Hn as [Hi Hn].
  assert (forall y, (i, y) ∈ d -> False) as Hno by (intros y Hy; apply Hi, elem_map; by exists (i, y)).
  apply elem_of_cons in Ha as [Ha|Ha], Hb as [Hb|Hb]; [congruence| | |by apply IH]; exfalso.
  - injection Ha as -> ->. by eapply Hno.
  - injection Hb as -> ->. by eapply Hno.
Qed.

(** A view that a change leaves alone. *)
Lemma map_update {B} (view : string * A -> B) k f d : (forall i a, view (i, f a) = view (i, a)) -> map view (update_key k f d) = map view d.
Proof. intros Hv. unfold update_key. rewrite map_map. apply map_ext. intros [i x]. cbn. by destruct (str_eq i k). Qed.
End dicts.

(** ** Steps that change no turn and no verdict, and call for none *)

Definition agent_view (kv : string * _Agent) : string * Z * bool := (kv.1, ag_turns kv.2, ag_future kv.2).
Definition subtask_view (kv : string * _Subtask) := (kv.1, su_key kv.2, su_worker kv.2, su_task kv.2, su_attempt kv.2, su_rounds kv.2, su_verdict kv.2,
  su_attempts kv.2, su_spec kv.2).

Definition calm (st st' : Co) : Prop :=
  map agent_view (co_agents st') = map agent_view (co_agents st) /\ map subtask_view (co_subtasks st') = map subtask_view (co_subtasks st) /\
  co_calls st' = co_calls st.

#[export] Instance calm_refl : Reflexive calm.
Proof. done. Qed.
#[export] Instance calm_trans : Transitive calm.
Proof. intros a b c (? & ? & ?) (? & ? & ?). split_and!; congruence. Qed.

Lemma calm_db {A} (m : ST Work A) : steps calm (on_db m).
Proof. intros st. unfold on_db. by destruct (m (co_work st)). Qed.

Lemma calm_hub {A} (m : ST HubState A) : steps calm (on_hub m).
Proof. intros st. unfold on_hub. destruct (co_hub st); [|done]. by destruct (m _). Qed.

Lemma calm_modify f : (forall st, calm st (f st)) -> steps calm (modify f).
Proof. intros H st. apply H. Qed.

Lemma calm_set_agent aid f : (forall a, ag_turns (f a) = ag_turns a /\ ag_future (f a) = ag_future a) -> steps calm (set_agent aid f).
Proof. intros Hf st. split; [|by split]. apply map_update. intros i a. destruct (Hf a) as [H1 H2]. unfold agent_view. cbn. by rewrite H1, H2. Qed.

Lemma calm_set_subtask key f : (forall s, subtask_view (key, f s) = subtask_view (key, s)) -> steps calm (set_subtask key f).
Proof.
  intros Hf st. split; [done|]. split; [|done]. apply map_update. intros i a. specialize (Hf a). unfold subtask_view in *. cbn in *. congruence.
Qed.

Create HintDb calm discriminated.
#[export] Hint Resolve calm_db calm_hub : calm.

(** Follow the statements of the loop. *)
Ltac calm_step :=
  first [ solve [auto with calm nocore] | apply (steps_for_each calm); intros ? ? | st_step | apply calm_modify; intros ?; split_and!; reflexivity
        | apply calm_set_agent; intros ?; split; reflexivity | apply calm_set_subtask; intros ?; reflexivity
        | apply steps_catch; [..|intros ? ? ?] ].
Ltac calm := repeat (try calm_step); try exact _.

Lemma calm_agent aid : steps calm (the_agent aid). Proof. unfold the_agent. calm. Qed.
Lemma calm_subtask key : steps calm (the_subtask key). Proof. unfold the_subtask. calm. Qed.
Lemma calm_queue l : steps calm (queue l). Proof. unfold queue. calm. Qed.
Lemma calm_violation aid t : steps calm (violation aid t). Proof. unfold violation. calm. Qed.
Lemma calm_hold gate kind scope : steps calm (hold gate kind scope). Proof. unfold hold. calm. Qed.
#[export] Hint Resolve calm_agent calm_subtask calm_queue calm_violation calm_hold : calm.
Lemma calm_notice to body kind meta : steps calm (notice to body kind meta). Proof. unfold notice. calm. Qed.
#[export] Hint Resolve calm_notice : calm.

(** Reading an entry. *)
Lemma subtask_bind {A} key (f : _Subtask -> ST Co A) st :
  (the_subtask key ≫= f) st = match at_key key (co_subtasks st) with Some s => f s st | None => (st, Err (KeyError key)) end.
Proof. unfold the_subtask. rewrite st_bind_run, gets_bind. unfold lift. by destruct (at_key _ _). Qed.

Lemma agent_bind {A} aid (f : _Agent -> ST Co A) st :
  (the_agent aid ≫= f) st = match at_key aid (co_agents st) with Some a => f a st | None => (st, Err (KeyError aid)) end.
Proof. unfold the_agent. rewrite st_bind_run, gets_bind. unfold lift. by destruct (at_key _ _). Qed.

(** ** Caps that are numbers of either kind *)

Lemma f_le_Z_mono f a b : a <= b -> f_le_Z f b = false -> f_le_Z f a = false.
Proof.
  unfold f_le_Z, f_cmp_Z. destruct f as [s|s| |s m e]; try done.
  - intros Hab H. destruct (Z.compare_spec 0 b), (Z.compare_spec 0 a); try done; lia.
  - intros Hab H. set (v := if s then Zneg m else Zpos m) in *. destruct (Z.leb_spec 0 e).
    + destruct (Z.compare_spec (v * 2 ^ e) b), (Z.compare_spec (v * 2 ^ e) a); try done; lia.
    + assert (0 < 2 ^ (- e)) as Hp by (apply Z.pow_pos_nonneg; lia).
      destruct (Z.compare_spec v (b * 2 ^ (- e))), (Z.compare_spec v (a * 2 ^ (- e))); try done; nia.
Qed.

Lemma le_Z_mono j a b : a <= b -> le_Z j b = Ok false -> le_Z j a = Ok false.
Proof.
  unfold le_Z. destruct (as_num j) as [[z|f]|]; [| |done].
  - intros Hab [= H]. boolify. f_equal. apply Z.leb_gt. lia.
  - intros Hab [= H]. by rewrite (f_le_Z_mono f a b).
Qed.

(** A count below a cap is below the bound of the cap. *)
Lemma below_cap j n lo hi : in_range lo j hi -> le_Z j n = Ok false -> n < hi.
Proof.
  intros [_ Hh]%and_then_Ok. unfold le_Z in *. destruct (as_num j) as [[z|f]|]; [| |done]; intros [= Hn]; injection Hh as Hh; boolify; [lia|].
  destruct (Z.lt_ge_cases n hi) as [|Hge]; [done|]. rewrite (f_le_Z_mono f hi n) in Hh by done. done.
Qed.

Lemma Z_lt_le j n : Z_lt n j = Ok true -> le_Z j n = Ok false.
Proof.
  unfold Z_lt, le_Z. destruct (as_num j) as [[z|f]|]; [| |done]; intros [= H]; f_equal; [boolify; apply Z.leb_gt; lia|].
  unfold f_gt_Z, f_le_Z in *. boolify. by rewrite H.
Qed.

Section run.
Context (fold : string -> string) {P : Type} {HP : DecisionPolicy P} (policy : P).
Context (format_g : float -> string) (ev : Evaluator) (mach : Z -> Machine) (tree : Z -> string).
Context (redact : string -> string) (sum_floats : list float -> float).

Lemma calm_each_agent f : (forall aid, steps calm (f aid)) -> steps calm (each_agent f).
Proof. intros Hf. unfold each_agent. calm.
Qed.

Lemma calm_no_reads {A} aid text (m : result A) : steps calm (no_reads redact aid text m).
Proof. unfold no_reads. destruct m; calm. Qed.
Hint Resolve calm_no_reads : calm.

Lemma calm_take p aid name size : steps calm (_take redact p aid name size).
Proof. unfold _take. destruct (str_startswith _ _); [calm|]. destruct (_ || _); calm. Qed.
Hint Resolve calm_take : calm.

Lemma calm_accept aid ag res : steps calm (accept policy aid ag res).
Proof. unfold accept, note_report, note_request. calm. Qed.

Lemma calm_refuse aid e : steps calm (refuse redact aid e).
Proof. unfold refuse. calm. Qed.
Hint Resolve calm_accept calm_refuse : calm.

Lemma calm_relay p aid : steps calm (relay fold policy redact p aid).
Proof.
  unfold relay, _safe_list. calm. unfold relay_one. calm. destruct (is_envelope_error _); [|done].
  match goal with H : Some _ = Some _ |- _ => injection H as <- end. calm.
Qed.

Lemma calm_serve p aid : steps calm (_serve_core redact p aid).
Proof. unfold _serve_core, serve_one. calm. Qed.

Lemma calm_tell_decisions run_id : steps calm (tell_decisions run_id).
Proof. unfold tell_decisions, tell_decision. calm. Qed.

Lemma calm_read_gate run_id : steps calm (read_gate run_id).
Proof. unfold read_gate. calm. Qed.

Lemma calm_tick p : steps calm (tick p).
Proof. unfold tick. calm. Qed.

Lemma calm_caps out p config run_id : steps calm (caps sum_floats out p config run_id).
Proof. unfold caps. calm. Qed.

Lemma calm_keep_alive p needed at_s aids : steps calm (keep_alive redact p needed at_s aids).
Proof. induction aids as [|aid aids IH]; cbn [keep_alive]; unfold keep_one, try_extend, log_extension; calm. Qed.
Hint Resolve calm_keep_alive : calm.

Lemma calm_hold_sandboxes out p config gate : steps calm (hold_sandboxes redact out p config gate).
Proof. unfold hold_sandboxes. calm. Qed.

Lemma calm_tell_all_pass lead_id : steps calm (tell_all_pass lead_id).
Proof. unfold tell_all_pass. calm. Qed.

Lemma calm_deliveries p : steps calm (deliveries redact p).
Proof. unfold deliveries, deliver_one, _deliver. calm. Qed.

Lemma calm_stall p config : steps calm (stall p config).
Proof.
  unfold stall. calm. apply calm_modify. intros st. split; [done|]. split; [|done]. cbn. rewrite map_map. apply map_ext. intros [k s]. by destruct (unverified _ _).
Qed.
Hint Resolve calm_stall : calm.

Lemma calm_completion p config run_id gate worked : steps calm (completion p config run_id gate worked).
Proof. unfold completion. calm. Qed.

(** ** A step that touches one subtask *)

Definition same_binding (key : string) (kv kv' : string * _Subtask) : Prop :=
  kv'.1 = kv.1 /\ su_key kv'.2 = su_key kv.2 /\ su_worker kv'.2 = su_worker kv.2 /\ su_task kv'.2 = su_task kv.2 /\ su_spec kv'.2 = su_spec kv.2 /\
  (kv.1 <> key -> subtask_view kv' = subtask_view kv).

Definition only (key : string) (st st' : Co) : Prop :=
  map agent_view (co_agents st') = map agent_view (co_agents st) /\ Forall2 (same_binding key) (co_subtasks st) (co_subtasks st').

#[local] Instance only_refl key : Reflexive (only key).
Proof. intros st. split; [done|]. apply Forall_Forall2_diag, Forall_true. by intros kv. Qed.
#[local] Instance only_trans key : Transitive (only key).
Proof.
  intros a b c [H1 H2] [H3 H4]. split; [congruence|]. revert H4. generalize (co_subtasks c).
  induction H2 as [|x y l k (?&?&?&?&?&Hx) Hl IH]; intros l' Hr; inversion Hr as [|y' z k' l'' (?&?&?&?&?&Hy) Hl']; subst; constructor; [|by apply IH].
  split_and!; try congruence. intros Hk. rewrite Hy, Hx; congruence.
Qed.

Lemma views_Forall2 l l' : map subtask_view l' = map subtask_view l -> Forall2 (fun kv kv' => subtask_view kv' = subtask_view kv) l l'.
Proof.
  revert l'. induction l as [|x l IH]; intros [|x' l'] H; try done. cbn [map] in H. injection H as Hx Hl. constructor; [|by apply IH].
  unfold subtask_view. congruence.
Qed.

Lemma calm_only key st st' : calm st st' -> only key st st'.
Proof.
  intros (Ha & Hs & _). split; [done|]. eapply Forall2_impl; [by apply views_Forall2|]. intros kv kv' H. cbn beta in H. pose proof H as [=].
  unfold same_binding. by split_and!.
Qed.

Lemma only_calm {A} key (m : ST Co A) : steps calm m -> steps (only key) m.
Proof. intros H st. apply calm_only, H. Qed.

Lemma only_set key f : (forall s, su_key (f s) = su_key s /\ su_worker (f s) = su_worker s /\ su_task (f s) = su_task s /\ su_spec (f s) = su_spec s) -> steps (only key) (set_subtask key f).
Proof.
  intros Hf st. split; [done|]. cbn. unfold update_key. apply Forall2_fmap_r, Forall_Forall2_diag, Forall_true. intros [i s]. cbn. unfold str_eq.
  destruct (Hf s) as (H1 & H2 & H3 & H4). case_bool_decide; split_and!; cbn; done.
Qed.

Lemma only_call key c : steps (only key) (note_call c).
Proof. intros st. split; [done|]. apply Forall_Forall2_diag, Forall_true. by intros kv. Qed.

Ltac only_step key :=
  first [ exact _ | apply only_call |  apply only_set; intros ?; split_and!; reflexivity | apply (steps_for_each (only key)); intros ? ? | st_step
        | apply only_calm; solve [calm] ].

Lemma only_begin out run_id key parent mode others prepared : steps (only key) (begin_attempt out run_id key parent mode others prepared).
Proof. unfold begin_attempt. repeat only_step key.
Qed.

Lemma calm_fence out key : steps calm (_fence out key).
Proof. unfold _fence. calm. Qed.
Hint Resolve calm_fence : calm.

Lemma calm_bind_attempt worker attempt : steps calm (bind_attempt worker attempt).
Proof. unfold bind_attempt. calm. Qed.
Hint Resolve calm_bind_attempt : calm.

Lemma calm_verify_attempt ve fixture config run_id key attempt_id :
  steps calm (verify_attempt format_g ev mach tree ve fixture config run_id key attempt_id).
Proof. unfold verify_attempt. calm. Qed.
Hint Resolve calm_verify_attempt : calm.

Lemma only_verify out ve fixture config run_id lead_id key : steps (only key) (_verify format_g ev mach tree out ve fixture config run_id lead_id key).
Proof. unfold _verify. repeat first [apply only_begin | only_step key]. Qed.

(** ** What a pending material decision holds *)

(** Between two states: no blocked agent took a turn, and no subtask in a
    blocked scope was verified or given another Attempt. *)
Record held (gate : list MaterialRequest) (blocked : string -> bool) (st st' : Co) : Prop := {
  hd_agents : Forall2 (fun v v' => v'.1.1 = v.1.1 /\ (blocked v.1.1 = true -> v' = v)) (map agent_view (co_agents st)) (map agent_view (co_agents st'));
  hd_subtasks : Forall2 (fun kv kv' => kv'.1 = kv.1 /\ su_key kv'.2 = su_key kv.2 /\ su_worker kv'.2 = su_worker kv.2 /\
    (scope_blocked gate (su_key kv.2) = true -> subtask_view kv' = subtask_view kv)) (co_subtasks st) (co_subtasks st')
}.

Section held.
Context (gate : list MaterialRequest) (blocked : string -> bool).

#[export] Instance held_refl : Reflexive (held gate blocked).
Proof. intros st. split; apply Forall_Forall2_diag, Forall_true; by intros. Qed.
#[export] Instance held_trans : Transitive (held gate blocked).
Proof.
  intros a b c [H1 H2] [H3 H4]. split.
  - revert H3. generalize (map agent_view (co_agents c)). induction H1 as [|x y l k [Ex Hx] Hl IH]; intros l' Hr; inversion Hr as [|y' z k' l'' [Ey Hy]]; subst; constructor; [|by apply IH].
    split; [congruence|]. intros Hb. rewrite Hy, Hx by congruence. done.
  - revert H4. generalize (co_subtasks c). induction H2 as [|x y l k (?&?&?&Hx) Hl IH]; intros l' Hr; inversion Hr as [|y' z k' l'' (?&?&?&Hy)]; subst; constructor; [|by apply IH].
    split_and!; try congruence. intros Hb. rewrite Hy, Hx by congruence. done.
Qed.

Lemma only_held key st st' : only key st st' -> (forall kv, kv ∈ co_subtasks st -> kv.1 = key -> scope_blocked gate (su_key kv.2) = false) -> held gate blocked st st'.
Proof.
  intros [Ha Hs] Hk. split; [rewrite Ha; apply Forall_Forall2_diag, Forall_true; by intros|].
  induction Hs as [|kv kv' l l' (?&?&?&?&?&Hv) Hl IH]; constructor; [|apply IH; intros; apply Hk; [by right|done]].
  split_and!; try done. intros Hb. apply Hv. intros E. rewrite (Hk kv) in Hb; [done|left|done].
Qed.

Lemma calm_held1 st st' : calm st st' -> held gate blocked st st'.
Proof.
  intros (Ha & Hs & _). split; [rewrite Ha; apply Forall_Forall2_diag, Forall_true; by intros|].
  eapply Forall2_impl; [by apply views_Forall2|]. intros kv kv' E. cbn beta in E. pose proof E as [=]. by split_and!.
Qed.

Lemma calm_held {A} (m : ST Co A) : steps calm m -> steps (held gate blocked) m.
Proof. intros H st. apply calm_held1, H. Qed.

Lemma held_verify_one out p fixture config run_id lead_id key st : NoDup (map fst (co_subtasks st)) ->
  held gate blocked st (verify_one format_g ev mach tree out p fixture config run_id lead_id gate key st).1.
Proof.
  intros Hn. unfold verify_one. rewrite subtask_bind. destruct (at_key key (co_subtasks st)) as [sub|] eqn:Hsub; [|reflexivity].
  rewrite agent_bind. destruct (at_key (su_worker sub) (co_agents st)) as [worker|]; [|reflexivity].
  destruct (su_verify_requested sub) eqn:Hreq; cbn [andb]; [|reflexivity].
  destruct (scope_blocked gate (su_key sub)) eqn:Hb; [apply calm_held; calm|]. destruct (_ && _); [|reflexivity].
  apply (only_held key).
  - revert st Hn Hsub. intros st _ _. revert st. change (steps (only key) (_ ← set_subtask key (fun s => s {{ su_verify_requested := false }});
      _ ← _verify format_g ev mach tree out (po_verify p key) fixture config run_id lead_id key; mret true)).
    repeat first [apply only_verify | only_step key].
  - intros [k s] Hin <-. cbn. by rewrite (at_key_unique _ _ _ _ Hn Hin Hsub).
Qed.

Lemma held_keys st st' : held gate blocked st st' -> map fst (co_subtasks st') = map fst (co_subtasks st).
Proof. intros [_ H]. induction H as [|kv kv' l l' (E & _) Hl IH]; [done|]. cbn. by rewrite E, IH. Qed.

Lemma held_verify_all out p fixture config run_id lead_id keys st : NoDup (map fst (co_subtasks st)) ->
  held gate blocked st (for_each (verify_one format_g ev mach tree out p fixture config run_id lead_id gate) keys st).1.
Proof.
  revert st. induction keys as [|key keys IH]; intros st Hn; [reflexivity|]. cbn [for_each]. rewrite st_bind_run.
  pose proof (held_verify_one out p fixture config run_id lead_id key st Hn) as H1. destruct (verify_one _ _ _ _ _ _ _ _ _ _ _ _ _) as [st1 [b|e]]; [|done].
  cbn in H1. etrans; [exact H1|]. rewrite st_bind_run. specialize (IH st1). rewrite (held_keys _ _ H1) in IH. specialize (IH Hn).
  by destruct (for_each _ keys st1) as [st2 [bs|e]].
Qed.

Lemma held_set_agent aid f : blocked aid = false -> steps (held gate blocked) (set_agent aid f).
Proof.
  intros Hb st. split; [|apply Forall_Forall2_diag, Forall_true; by intros]. cbn. unfold update_key. rewrite map_map. apply Forall2_fmap, Forall_Forall2_diag, Forall_true.
  intros [i a]. cbn. unfold str_eq. case_bool_decide; [subst|]; split; try done. cbn. by rewrite Hb.
Qed.

Lemma held_call c : steps (held gate blocked) (note_call c).
Proof. intros st. split; apply Forall_Forall2_diag, Forall_true; by intros. Qed.

Lemma held_wake_one p config busy aid : steps (held gate blocked) (wake_one redact p config gate blocked busy aid).
Proof.
  unfold wake_one. apply steps_bind; [exact _|exact _|apply calm_held; calm|intros ag]. destruct (_ || _); [apply calm_held; calm|].
  destruct (blocked aid) eqn:Hb; [apply calm_held; calm|].
  repeat first [exact _ | apply held_call | apply held_set_agent; exact Hb | st_step | apply calm_held; solve [calm]].
Qed.

Lemma held_wake_all p config aids busy : steps (held gate blocked) (wake_all redact p config gate blocked busy aids).
Proof.
  revert busy. induction aids as [|aid aids IH]; intros busy; cbn [wake_all]; [apply calm_held; calm|].
  apply steps_bind; [exact _|exact _|apply calm_held; calm|intros []]; [apply calm_held; calm|].
  apply steps_bind; [exact _|exact _|apply held_wake_one|exact IH].
Qed.

Lemma held_wake p config : steps (held gate blocked) (wake redact p config gate blocked).
Proof. unfold wake. apply steps_bind; [exact _|exact _|apply calm_held; calm|intros agents]. apply held_wake_all. Qed.
End held.

Lemma agent_blocked_view gate l l' : map subtask_view l' = map subtask_view l -> forall aid, agent_blocked gate l' aid = agent_blocked gate l aid.
Proof.
  intros H%views_Forall2 aid. unfold agent_blocked. f_equal. induction H as [|kv kv' k k' E Hk IH]; [done|]. cbn [existsb]. rewrite IH.
  cbn beta in E. injection E as _ -> -> _ _ _ _ _ _. done.
Qed.

Lemma completion_gated p config run_id gate worked st st' r : gate <> [] ->
  completion p config run_id gate worked st = (st', r) -> r <> Ok (Some Succeeded).
Proof.
  intros Hg H ->. unfold completion in H. rewrite gets_bind, modify_bind in H. rewrite (bool_decide_eq_false_2 (gate = [])), andb_false_r in H by done.
  rewrite st_bind_run in H. destruct (when _ _ _) as [st1 [u|e]]; [|done]. rewrite lift_bind in H. destruct (result_map _ _) as [ex|e]; [|done].
  destruct (_ && _); [done|]. rewrite st_bind_run in H. destruct (on_db _ _) as [st2 [h|e]]; [|done]. destruct (_ || _).
  - rewrite modify_bind, lift_bind in H. by destruct (sleep _).
  - unfold stall in H. rewrite gets_bind, modify_bind, lift_bind in H. destruct (gt_json _ _) as [[]|]; [| |done].
    + by destruct (existsb _ _).
    + rewrite lift_bind in H. by destruct (sleep _).
Qed.

Lemma or_stop_run m k st : or_stop m k st = match m st with (st', Ok None) => k st' | o => o end.
Proof. unfold or_stop. rewrite st_bind_run. by destruct (m st) as [st' [[s|]|e]]. Qed.

(** Chaining steps that respect [held]. *)
Lemma held_bind {A B} gate blocked (m : ST Co A) (k : A -> ST Co B) st :
  held gate blocked st (m st).1 -> (forall a st', m st = (st', Ok a) -> held gate blocked st' (k a st').1) -> held gate blocked st ((m ≫= k) st).1.
Proof.
  intros H1 H2. rewrite st_bind_run. destruct (m st) as [st1 [a|e]]; [|done]. by apply (held_trans _ _ _ st1); [|apply H2].
Qed.

Lemma hold_sandboxes_stop out p config gate st st' s : hold_sandboxes redact out p config gate st = (st', Ok (Some s)) -> s <> Succeeded.
Proof.
  unfold hold_sandboxes. destruct gate as [|g gate]; [done|]. rewrite gets_bind, st_bind_run. destruct (keep_alive _ _ _ _ _ _) as [st1 [[e|]|e]]; [|done|done].
  by intros [= _ <-].
Qed.

Lemma calm_keys st st' : calm st st' -> map fst (co_subtasks st') = map fst (co_subtasks st).
Proof. intros H. apply (held_keys [] (fun _ => false)), calm_held1, H. Qed.

Lemma gate_held out fixture config run_id lead_id p gate st : NoDup (map fst (co_subtasks st)) ->
  held gate (agent_blocked gate (co_subtasks st)) st (act format_g ev mach tree redact out fixture config run_id lead_id p gate st).1.
Proof.
  intros Hn. set (blocked := agent_blocked gate (co_subtasks st)). unfold act, or_stop.
  pose proof (calm_hold_sandboxes out p config gate st) as C1. apply held_bind; [by apply calm_held1|]. intros stop st1 E1. rewrite E1 in C1. cbn in C1.
  destruct stop as [s|]; [reflexivity|].
  assert (steps calm (for_each (fun g => hold gate "pending" (Some (mr_scope g))) gate)) as Hc by calm. specialize (Hc st1). apply held_bind; [by apply calm_held1|].
  intros us st2 E2. rewrite E2 in Hc. cbn in Hc. assert (calm st st2) as C2 by by etrans. rewrite gets_bind. cbv zeta.
  assert (forall aid, agent_blocked gate (co_subtasks st2) aid = blocked aid) as Hb by apply agent_blocked_view, C2.
  assert (forall st' st'', held gate (agent_blocked gate (co_subtasks st2)) st' st'' -> held gate blocked st' st'') as Hconv.
  { intros st' st'' [H1 H2]. split; [|done]. eapply Forall2_impl; [exact H1|]. intros v v' [Ev Hv]. split; [done|]. by rewrite <- Hb. }
  apply Hconv. rewrite <- (calm_keys _ _ C2) in Hn.
  apply held_bind; [by apply held_verify_all|]. intros worked st3 _.
  apply held_bind; [apply calm_held, calm_tell_all_pass|]. intros [] st4 _.
  apply held_bind; [apply calm_held, calm_deliveries|]. intros [] st5 _.
  apply held_bind; [apply held_wake|]. intros [] st6 _. apply calm_held, calm_completion.
Qed.

Lemma gate_stops out fixture config run_id lead_id p gate st st' r : gate <> [] ->
  act format_g ev mach tree redact out fixture config run_id lead_id p gate st = (st', r) -> r <> Ok (Some Succeeded).
Proof.
  intros Hg H ->. unfold act in H. rewrite or_stop_run in H. destruct (hold_sandboxes _ _ _ _ _ st) as [st1 [[s|]|e]] eqn:Eh; [| |done].
  { injection H as <- ->. by apply hold_sandboxes_stop in Eh. }
  rewrite st_bind_run in H. destruct (for_each _ gate st1) as [st2 [u|e]]; [|done]. rewrite gets_bind in H. cbv zeta in H. rewrite st_bind_run in H.
  destruct (for_each _ _ st2) as [st3 [w|e]]; [|done]. rewrite st_bind_run in H. destruct (tell_all_pass _ st3) as [st4 [u1|e]]; [|done].
  rewrite st_bind_run in H. destruct (deliveries _ _ st4) as [st5 [u2|e]]; [|done]. rewrite st_bind_run in H. destruct (wake _ _ _ _ _ st5) as [st6 [u3|e]]; [|done].
  by eapply completion_gated in H.
Qed.

(** ** Steps that leave the verdicts as they are *)

(** No entry of a key is a PASS. *)
Definition open_at (key : string) (st : Co) : Prop := forall s, (key, s) ∈ co_subtasks st -> su_verdict s <> Some "PASS".

Definition verdict_view (kv : string * _Subtask) := (kv.1, su_verdict kv.2, su_task kv.2, su_spec kv.2).
Definition same_verdicts (st st' : Co) : Prop := map verdict_view (co_subtasks st') = map verdict_view (co_subtasks st).
#[local] Instance same_verdicts_refl : Reflexive same_verdicts. Proof. done. Qed.
#[local] Instance same_verdicts_trans : Transitive same_verdicts. Proof. intros a b c H1 H2. unfold same_verdicts in *. congruence. Qed.

Lemma calm_verdicts st st' : calm st st' -> same_verdicts st st'.
Proof.
  intros (_ & H%views_Forall2 & _). unfold same_verdicts. induction H as [|kv kv' l l' E Hl IH]; [done|]. cbn [map]. rewrite IH. cbn beta in E. unfold verdict_view. injection E as -> _ _ -> _ _ -> _ ->. done.
Qed.

Lemma open_verdicts key st st' : same_verdicts st st' -> open_at key st -> open_at key st'.
Proof.
  unfold same_verdicts. intros H Ho s Hs. assert (verdict_view (key, s) ∈ map verdict_view (co_subtasks st)) as Hin.
  { rewrite <- H. apply elem_map. by exists (key, s). }
  apply elem_map in Hin as ([k s'] & Hin & E). injection E as -> -> _ _. by apply Ho.
Qed.

Lemma verdicts_begin out run_id key parent mode others prepared : steps same_verdicts (begin_attempt out run_id key parent mode others prepared).
Proof.
  assert (forall k f, (forall i s, verdict_view (i, f s) = verdict_view (i, s)) -> steps same_verdicts (set_subtask k f)) as Hset.
  { intros k f Hf st. by apply (map_update verdict_view). }
  assert (forall A (m : ST Co A), steps calm m -> steps same_verdicts m) as Hcalm by (intros A m H st; apply calm_verdicts, H).
  assert (forall c, steps same_verdicts (note_call c)) as Hnote by (by intros c st).
  unfold begin_attempt. repeat first [exact _ | apply Hset; reflexivity | apply Hnote | st_step | apply Hcalm; solve [calm]].
Qed.

(** What [_verify] puts on the Attempt leaves a session [finish] can begin in. *)
Lemma usage_usable ve config attempt_id w : usable w -> usable (note_usage ve config attempt_id w).1.
Proof. apply usable_set_attempt. Qed.

(** Steps that leave the subtasks as they are. *)
Definition idle (st st' : Co) : Prop := map subtask_view (co_subtasks st') = map subtask_view (co_subtasks st).
#[local] Instance idle_refl : Reflexive idle. Proof. done. Qed.
#[local] Instance idle_trans : Transitive idle. Proof. intros a b c H1 H2. unfold idle in *. congruence. Qed.

Lemma calm_idle {A} (m : ST Co A) : steps calm m -> steps idle m.
Proof. intros H st. apply H. Qed.
Lemma idle_set_agent aid f : steps idle (set_agent aid f).
Proof. by intros st. Qed.
Lemma idle_note_call c : steps idle (note_call c).
Proof. by intros st. Qed.
Ltac idle_step := first [ exact _ | apply idle_set_agent | apply idle_note_call | apply (steps_for_each idle); intros ? ? | st_step | apply calm_idle; solve [calm] ].

Lemma idle_finish_turns p : steps idle (each_agent (finish_turn p)).
Proof. unfold each_agent, finish_turn. repeat idle_step. Qed.

Lemma idle_wake p config gate blocked : steps idle (wake redact p config gate blocked).
Proof.
  unfold wake. repeat idle_step. generalize (busy_agents a). induction (map fst a) as [|aid aids IH]; intros busy; cbn [wake_all]; unfold wake_one; repeat first [apply IH | idle_step].
Qed.

(** ** The states of a run *)

Section trajectory.
Context (out : Outside) (fixture : Disk) (config : RunConfig) (run_id lead_id : string) (plan : PlanRow) (polls : list Poll) (first : Co).

(** One operation of a round, with what the outside answered in one of the
    rounds. *)
Inductive happens (st : Co) : Co -> Prop :=
  | happens_tick p : p ∈ polls -> happens st (tick p st).1
  | happens_caps p : p ∈ polls -> happens st (caps sum_floats out p config run_id st).1
  | happens_turns p : p ∈ polls -> happens st (each_agent (finish_turn p) st).1
  | happens_relay p : p ∈ polls -> happens st (each_agent (relay fold policy redact p) st).1
  | happens_core p : p ∈ polls -> happens st (each_agent (_serve_core redact p) st).1
  | happens_answers p : p ∈ polls -> happens st (on_db (interfere (po_answers p)) st).1
  | happens_decisions : happens st (tell_decisions run_id st).1
  | happens_gate : happens st (read_gate run_id st).1
  | happens_keep_alive p gate : p ∈ polls -> happens st (hold_sandboxes redact out p config gate st).1
  | happens_hold gate : happens st (for_each (fun g => hold gate "pending" (Some (mr_scope g))) gate st).1
  | happens_verify p gate key : p ∈ polls -> happens st (verify_one format_g ev mach tree out p fixture config run_id lead_id gate key st).1
  | happens_all_pass : happens st (tell_all_pass lead_id st).1
  | happens_deliveries p : p ∈ polls -> happens st (deliveries redact p st).1
  | happens_wake p gate blocked : p ∈ polls -> happens st (wake redact p config gate blocked st).1
  | happens_completion p gate worked : p ∈ polls -> happens st (completion p config run_id gate worked st).1.

(** The states of the run since [first]. *)
Definition reached (st : Co) : Prop := rtc happens first st.

(** ** What a PASS means *)

(** In a state of this run the host collected the worker's files, kept those in
    scope, and called [finish] on the Attempt with the Plan's own checks; it
    returned, and the Task was then succeeded. *)
Definition finished_pass (key task : string) (spec : SubtaskSpec) (attempt : string) : Prop :=
  exists p st sub worker theirs applied w' r,
    p ∈ polls /\ reached st /\ at_key key (co_subtasks st) = Some sub /\ su_task sub = task /\ su_spec sub = spec /\ su_attempt sub = Some attempt /\
    at_key (su_worker sub) (co_agents st) = Some worker /\ ve_collect (po_verify p key) = Ok theirs /\
    _apply_scoped fixture theirs (sub_allowed_paths spec) (sub_protected_paths spec) = Ok applied /\
    finish format_g ev mach tree (ve_finish (po_verify p key))
      (finish_request attempt sub applied (verify_log run_id (ag_spec worker) (ag_turns worker) applied) config)
      (note_usage (po_verify p key) config attempt (co_work st)).1 = (w', Ok r) /\
    task_status (pending w') task = Some "succeeded".

(** The subtask is one of the Plan's. *)
Definition planned (kv : string * _Subtask) : Prop :=
  su_spec kv.2 ∈ plan_subtasks plan /\ kv.1 = sub_key (su_spec kv.2) /\ su_task kv.2 = task_id_for (pl_id plan) (sub_key (su_spec kv.2)).

Definition backed (kv : string * _Subtask) : Prop :=
  su_verdict kv.2 = Some "PASS" -> exists a, su_attempt kv.2 = Some a /\ finished_pass kv.1 (su_task kv.2) (su_spec kv.2) a.

Definition proven (st : Co) : Prop := NoDup (map fst (co_subtasks st)) /\ Forall (fun kv => planned kv /\ backed kv) (co_subtasks st).

Lemma backed_view kv kv' : subtask_view kv' = subtask_view kv -> planned kv /\ backed kv -> planned kv' /\ backed kv'.
Proof. unfold backed, planned. intros [= -> _ _ -> -> _ -> _ ->] H. exact H. Qed.

Lemma only_keys key st st' : only key st st' -> map fst (co_subtasks st') = map fst (co_subtasks st).
Proof. intros [_ H]. induction H as [|kv kv' l l' (E & _) Hl IH]; [done|]. cbn. by rewrite E, IH. Qed.

Lemma proven_only key st st' : only key st st' -> (forall kv, kv ∈ co_subtasks st' -> kv.1 = key -> backed kv) -> proven st -> proven st'.
Proof.
  intros Ho Hk [Hn Hb]. split; [by rewrite (only_keys _ _ _ Ho)|]. destruct Ho as [_ H]. clear Hn. revert Hk Hb.
  induction H as [|kv kv' l l' (E & _ & _ & Et & Es & Hv) Hl IH]; intros Hk Hb; constructor; apply Forall_cons in Hb as [Hx Hb].
  - destruct (decide (kv.1 = key)) as [Ek|Ek]; [|by apply (backed_view kv), Hx; apply Hv]. split; [|apply Hk; [left|congruence]].
    destruct Hx as [(H1 & H2 & H3) _]. unfold planned. by rewrite E, Et, Es.
  - apply IH; [|done]. intros x Hx'. apply Hk. by right.
Qed.

Lemma proven_calm st st' : calm st st' -> proven st -> proven st'.
Proof.
  intros H [Hn Hb]. split; [by rewrite (calm_keys _ _ H)|]. destruct H as (_ & Hs & _). apply views_Forall2 in Hs. clear Hn. revert Hb.
  induction Hs as [|kv kv' l l' Hv Hl IH]; intros Hb; constructor; apply Forall_cons in Hb as [Hx Hb]; [by apply (backed_view kv)|by apply IH].
Qed.

Lemma proven_steps {A} (m : ST Co A) : steps calm m -> hoare proven m (fun _ => proven) (fun _ => proven).
Proof. intros H st Hst. specialize (H st). destruct (m st) as [st' [a|e]]; by eapply proven_calm. Qed.

(** The state in which the host verifies a subtask. *)
Definition unrequested (key : string) (st : Co) : Co := (set_subtask key (fun s => s {{ su_verify_requested := false }}) st).1.

Lemma verify_attempt_pass p key attempt_id st st' v : p ∈ polls -> reached st ->
  verify_attempt format_g ev mach tree (po_verify p key) fixture config run_id key attempt_id (unrequested key st) = (st', Ok v) ->
  exists sub, at_key key (co_subtasks (unrequested key st)) = Some sub /\
    (su_attempt sub = Some attempt_id -> va_verdict v = "PASS" -> finished_pass key (su_task sub) (su_spec sub) attempt_id).
Proof.
  intros Hp Hr. unfold verify_attempt. rewrite subtask_bind. change (co_subtasks (unrequested key st)) with (update_key key (fun s => s {{ su_verify_requested := false }}) (co_subtasks st)).
  rewrite at_key_update. assert (str_eq key key = true) as -> by (unfold str_eq; by apply bool_decide_eq_true_2).
  destruct (at_key key (co_subtasks st)) as [sub|] eqn:Hsub; [|done]. cbn [fmap option_fmap option_map]. rewrite agent_bind.
  change (co_agents (unrequested key st)) with (co_agents st). change (su_worker (sub {{ su_verify_requested := false }})) with (su_worker sub).
  destruct (at_key (su_worker sub) (co_agents st)) as [worker|] eqn:Hw; [|done]. rewrite lift_bind. destruct (ve_collect _) as [theirs|] eqn:Ht; [|done]. rewrite lift_bind.
  destruct (_apply_scoped _ _ _ _) as [applied|] eqn:Ha; [|done]. rewrite st_bind_run. unfold on_db at 1. change (co_work (unrequested key st)) with (co_work st).
  unfold note_usage at 1. unfold pend at 1. unfold modify. cbv beta iota. rewrite st_bind_run.
  unfold on_db at 1. destruct (finish _ _ _ _ _ _ _) as [w' [r|e]] eqn:Hfin; [|done]. rewrite st_bind_run.
  change (on_db (gets ?f) ?s) with (s {{ co_work := co_work s }}, Ok (f (co_work s))). cbv beta iota. rewrite lift_bind.
  match goal with |- context [co_work (?s {{ co_work := w' }})] => change (co_work (s {{ co_work := w' }})) with w' end.
  destruct (task_status (pending w') _) as [status|] eqn:Hs; [|done]. cbn [require_some].
  rewrite st_bind_run. destruct (on_db _ _) as [st2 [rows|e]]; [|done]. intros [= _ <-]. eexists. split; [done|]. intros Hat Hv.
  exists p, st, sub, worker, theirs, applied, w', r. do 7 (split; [done|]). split; [exact Ht|]. split; [exact Ha|]. split; [exact Hfin|].
  etrans; [exact Hs|]. f_equal. cbn [va_verdict] in Hv. unfold verdict_of, str_eq in Hv. by repeat case_bool_decide.
Qed.

Lemma proven_begin key parent mode others prepared :
  hoare (fun st => proven st /\ open_at key st) (begin_attempt out run_id key parent mode others prepared) (fun _ st => proven st /\ open_at key st) (fun _ => proven).
Proof.
  intros st [Hp Ho]. pose proof (only_begin out run_id key parent mode others prepared st) as H1.
  pose proof (verdicts_begin out run_id key parent mode others prepared st) as H2. destruct (begin_attempt _ _ _ _ _ _ _ st) as [st' r]. cbn in H1, H2.
  assert (open_at key st') as Ho' by by eapply open_verdicts.
  assert (proven st') as Hp' by (apply (proven_only key st); [done|intros [k s] Hs Hk Hv; cbn in Hk; subst k; by destruct (Ho' s)|done]). destruct r; [by split|done].
Qed.

(** Setting the verdict of a subtask, when a PASS is backed. *)
Lemma proven_set_verdict key f st : proven st ->
  (forall s, su_key (f s) = su_key s /\ su_worker (f s) = su_worker s /\ su_task (f s) = su_task s /\ su_spec (f s) = su_spec s) ->
  (forall s, at_key key (co_subtasks st) = Some s -> backed (key, f s)) -> proven (set_subtask key f st).1.
Proof.
  intros Hp Hf Hb. apply (proven_only key st); [by apply only_set| |done]. intros [k s'] Hin Hk. cbn in Hk. subst k. cbn in Hin.
  apply elem_update in Hin as (s & Hin & ->). unfold str_eq. rewrite bool_decide_eq_true_2 by done. apply Hb.
  destruct (at_key key (co_subtasks st)) as [s0|] eqn:Es; [f_equal; symmetry; by apply (at_key_unique _ _ _ _ (proj1 Hp) Hin)|].
  unfold at_key in Es. apply fmap_None in Es. apply list_elem_of_In in Hin. eapply List.find_none in Es; [|exact Hin]. cbn in Es. unfold str_eq in Es. boolify. done.
Qed.

Lemma at_key_calm key st st' s : calm st st' -> at_key key (co_subtasks st) = Some s ->
  exists s', at_key key (co_subtasks st') = Some s' /\ subtask_view (key, s') = subtask_view (key, s).
Proof.
  intros (_ & H%views_Forall2 & _). unfold at_key. induction H as [|[k x] [k' x'] l l' E Hl IH]; [done|]. cbn [List.find fst snd]. cbn beta in E.
  pose proof E as [= -> _ _ _ _ _ _ _ _]. destruct (str_eq k key) eqn:Ek; [|exact IH]. intros [= <-]. exists x'. split; [done|]. unfold subtask_view in *. cbn in *. congruence.
Qed.

Lemma proven_verify p key st0 : p ∈ polls -> reached st0 ->
  hoare (fun st => proven st /\ st = unrequested key st0) (_verify format_g ev mach tree out (po_verify p key) fixture config run_id lead_id key)
    (fun _ => proven) (fun _ => proven).
Proof.
  intros Hpoll Hreach s0 [Hp ->]. set (st := unrequested key st0) in *. unfold _verify. rewrite subtask_bind. destruct (at_key key (co_subtasks st)) as [sub|] eqn:Hsub; [|done].
  rewrite lift_bind. destruct (su_attempt sub) as [a|] eqn:Ha; [|done]. cbn [require_some]. rewrite st_bind_run.
  pose proof (calm_verify_attempt (po_verify p key) fixture config run_id key a st) as C1. destruct (verify_attempt _ _ _ _ _ _ _ _ _ _ st) as [st1 [v|e]] eqn:Hv;
    [|by eapply proven_calm]. cbn in C1. apply verify_attempt_pass in Hv as (sub' & Hsub' & Hpass); [|done|done]. fold st in Hsub'. rewrite Hsub in Hsub'. injection Hsub' as <-.
  destruct (at_key_calm _ _ _ _ C1 Hsub) as (sub1 & Hsub1 & Ev). rewrite st_bind_run.
  match goal with |- context [set_subtask key ?f st1] => set (f1 := f) end.
  assert (proven (set_subtask key f1 st1).1) as Hp2.
  { apply proven_set_verdict; [by eapply proven_calm|by intros s|]. intros s Hs. rewrite Hsub1 in Hs. injection Hs as <-.
    injection Ev as _ _ Et Ea _ _ _ Esp. intros [= Hvv]. exists a. change (su_attempt sub1 = Some a /\ finished_pass key (su_task sub1) (su_spec sub1) a). rewrite Et, Ea, Esp. split; [exact Ha|].
    exact (Hpass Ha Hvv). }
  assert (va_verdict v <> "PASS" -> open_at key (set_subtask key f1 st1).1) as Ho.
  { intros Hn s Hs. cbn in Hs. apply elem_update in Hs as (s0 & _ & ->). unfold str_eq. rewrite bool_decide_eq_true_2 by done. unfold f1. intros [= E]. done. }
  change (set_subtask key f1 st1) with ((set_subtask key f1 st1).1, Ok (A := unit) ()). set (st2 := (set_subtask key f1 st1).1) in *. clearbody st2. cbv beta iota zeta.
  rewrite lift_bind. destruct (Z_lt _ _) as [more|]; [|done].
  match goal with |- match (?m ≫= ?k) st2 with _ => _ end => apply (hoare_bind (fun st => proven st /\ (va_verdict v <> "PASS" -> open_at key st)) m k (fun _ => proven)) end;
    [|intros text; apply proven_steps; calm|by split].
  destruct (str_eq (va_verdict v) "PASS") eqn:Evv; cbn [negb andb]; [intros s [Hs _]; exact Hs|]. unfold str_eq in Evv. boolify.
  destruct more; [|intros s [Hs _]; exact Hs].
  eapply hoare_bind; [intros s [Hs Hos]; apply (proven_begin key (Some a) (json_text (evidence_mode config)) (ve_others (po_verify p key)) (ve_prepared (po_verify p key))); auto|intros []].
  eapply hoare_bind; [intros s [Hs Hos]; exact (proven_steps _ (calm_fence out key) s Hs)|intros []].
  eapply hoare_bind; [apply proven_steps, calm_subtask|intros sub2]. eapply hoare_bind; [apply proven_steps, calm_bind_attempt|intros []].
  apply (hoare_bind _ _ _ (fun _ => proven)); [|intros []; by apply hoare_ret].
  intros s Hs. apply (proven_set_verdict key (fun s => s {{ su_verdict := None }}) s Hs); by intros.
Qed.

(** *** Through the whole loop *)

Lemma proven_idle {A} (m : ST Co A) : steps idle m -> hoare proven m (fun _ => proven) (fun _ => proven).
Proof.
  intros H st Hst. specialize (H st). assert (forall st', idle st st' -> proven st') as Hi; [|by destruct (m st) as [st' [a|e]]; apply Hi].
  intros st' H'. apply (proven_calm (st {{ co_agents := co_agents st' }} {{ co_calls := co_calls st' }})); [split; [done|split; [exact H'|done]]|exact Hst].
Qed.

(** A round keeps both: its verdicts are backed, and it is made of operations
    of the run. *)
Definition during (st : Co) : Prop := proven st /\ reached st.

Lemma during_one {A} (m : ST Co A) : hoare proven m (fun _ => proven) (fun _ => proven) -> (forall st, happens st (m st).1) ->
  hoare during m (fun _ => during) (fun _ => during).
Proof.
  intros Hm Hh st [Hp Hr]. specialize (Hm st Hp). specialize (Hh st). destruct (m st) as [st' [a|e]]; (split; [done|]); by eapply rtc_r.
Qed.

Lemma during_steps {A} (m : ST Co A) : steps calm m -> (forall st, happens st (m st).1) -> hoare during m (fun _ => during) (fun _ => during).
Proof. intros H. by apply during_one, proven_steps. Qed.

Lemma during_verify_one p gate key : p ∈ polls ->
  hoare during (verify_one format_g ev mach tree out p fixture config run_id lead_id gate key) (fun _ => during) (fun _ => during).
Proof.
  intros Hpoll st [Hp Hr]. pose proof (happens_verify st p gate key Hpoll) as Hh.
  assert (proven (verify_one format_g ev mach tree out p fixture config run_id lead_id gate key st).1) as Hv;
    [|destruct (verify_one _ _ _ _ _ _ _ _ _ _ _ _ _) as [st' [a|e]]; (split; [exact Hv|]); by eapply rtc_r].
  clear Hh. unfold verify_one. rewrite subtask_bind. destruct (at_key key (co_subtasks st)) as [sub|]; [|done].
  rewrite agent_bind. destruct (at_key (su_worker sub) (co_agents st)) as [worker|]; [|done]. destruct (_ && _).
  - match goal with |- proven (?m st).1 => assert (steps calm m) as Hc by calm end. specialize (Hc st). by eapply proven_calm.
  - destruct (_ && _); [|done]. rewrite st_bind_run.
    assert (proven (unrequested key st)) as Hu by (apply (proven_calm st); [apply calm_set_subtask; reflexivity|done]).
    pose proof (proven_verify p key st Hpoll Hr _ (conj Hu eq_refl)) as H. change (set_subtask key (fun s => s {{ su_verify_requested := false }}) st) with (unrequested key st, Ok (A := unit) ()).
    cbv beta iota. rewrite st_bind_run. by destruct (_verify _ _ _ _ _ _ _ _ _ _ _ _) as [st' [u|e]].
Qed.

Lemma during_or_stop m k : hoare during m (fun _ => during) (fun _ => during) -> hoare during k (fun _ => during) (fun _ => during) ->
  hoare during (or_stop m k) (fun _ => during) (fun _ => during).
Proof. intros Hm Hk. unfold or_stop. eapply hoare_bind; [exact Hm|intros [s|]]; [by apply hoare_ret|exact Hk]. Qed.

Lemma during_act p gate : p ∈ polls ->
  hoare during (act format_g ev mach tree redact out fixture config run_id lead_id p gate) (fun _ => during) (fun _ => during).
Proof.
  intros Hp. unfold act. apply during_or_stop; [apply during_steps; [apply calm_hold_sandboxes|intros st; by constructor]|].
  eapply hoare_bind; [apply during_steps; [calm|intros st; by constructor]|intros us].
  apply hoare_gets_skip. intros st0. cbv zeta. eapply hoare_bind; [apply hoare_for_each; intros; by apply during_verify_one|intros worked].
  eapply hoare_bind; [apply during_steps; [apply calm_tell_all_pass|intros st; by constructor]|intros []].
  eapply hoare_bind; [apply during_steps; [apply calm_deliveries|intros st; by constructor]|intros []].
  eapply hoare_bind; [apply during_one; [apply proven_idle, idle_wake|intros st; by constructor]|intros []].
  apply during_steps; [apply calm_completion|intros st; by constructor].
Qed.

Lemma during_round p : p ∈ polls ->
  hoare during (round fold policy format_g ev mach tree redact sum_floats out fixture config run_id lead_id p) (fun _ => during) (fun _ => during).
Proof.
  intros Hp. unfold round. eapply hoare_bind; [apply during_steps; [apply calm_tick|intros st; by constructor]|intros []].
  apply during_or_stop; [apply during_steps; [apply calm_caps|intros st; by constructor]|].
  eapply hoare_bind; [apply during_one; [apply proven_idle, idle_finish_turns|intros st; by constructor]|intros []].
  eapply hoare_bind; [apply during_steps; [apply calm_each_agent; intros; apply calm_relay|intros st; by constructor]|intros []].
  eapply hoare_bind; [apply during_steps; [apply calm_each_agent; intros; apply calm_serve|intros st; by constructor]|intros []].
  eapply hoare_bind; [apply during_steps; [calm|intros st; by constructor]|intros []].
  eapply hoare_bind; [apply during_steps; [apply calm_tell_decisions|intros st; by constructor]|intros []].
  eapply hoare_bind; [apply during_steps; [apply calm_read_gate|intros st; by constructor]|intros gate]. by apply during_act.
Qed.

Lemma during_rounds ps : ps ⊆ polls ->
  hoare during (rounds fold policy format_g ev mach tree redact sum_floats out fixture config run_id lead_id ps) (fun _ => during) (fun _ => during).
Proof.
  induction ps as [|p ps IH]; intros Hps; [by apply hoare_ret|]. apply during_or_stop; [apply during_round, Hps; left|apply IH].
  intros x Hx. apply Hps. by right.
Qed.
End trajectory.

(** *** Before the loop: nothing is verified yet *)

Definition unproven (plan : PlanRow) (st : Co) : Prop :=
  NoDup (map fst (co_subtasks st)) /\ forall kv, kv ∈ co_subtasks st -> planned plan kv /\ su_verdict kv.2 = None.

Lemma unproven_same plan st st' : same_verdicts st st' -> unproven plan st -> unproven plan st'.
Proof.
  unfold same_verdicts. intros H [Hn Hv]. split.
  - assert (map fst (co_subtasks st') = map fst (co_subtasks st)) as ->; [|done].
    apply (f_equal (map (fun v => v.1.1.1))) in H. rewrite !map_map in H. exact H.
  - intros kv Hin. assert (verdict_view kv ∈ map verdict_view (co_subtasks st)) as Hx by (rewrite <- H; apply elem_map; by exists kv).
    apply elem_map in Hx as (kv0 & Hin0 & E). injection E as E1 E2 E3 E4. unfold planned. rewrite E1, E2, E3, E4. by apply Hv.
Qed.

Lemma unproven_proven out fixture config run_id lead_id plan polls first st : unproven plan st -> proven out fixture config run_id lead_id plan polls first st.
Proof. intros [Hn Hv]. split; [done|]. apply Forall_forall. intros kv Hin. destruct (Hv kv Hin) as [Hp He]. split; [done|]. unfold backed. by rewrite He. Qed.

Lemma at_key_None {A} k (d : list (string * A)) : at_key k d = None -> k ∉ map fst d.
Proof.
  unfold at_key. intros H%fmap_None (kv & Hin & ->)%elem_map. apply list_elem_of_In in Hin. eapply List.find_none in H; [|exact Hin].
  unfold str_eq in H. by boolify.
Qed.

Lemma set_key_keys {A} k (v : A) d k' : k' ∈ map fst (set_key k v d) <-> k' = k \/ k' ∈ map fst d.
Proof.
  unfold set_key. destruct (at_key k d) as [a|] eqn:E.
  - rewrite keys_update. split; [by right|]. intros [->|]; [|done]. apply at_key_elem in E. apply elem_map. by exists (k, a).
  - rewrite map_app, elem_of_app. cbn. rewrite list_elem_of_singleton. tauto.
Qed.

Lemma set_key_NoDup {A} k (v : A) d : NoDup (map fst d) -> NoDup (map fst (set_key k v d)).
Proof.
  intros Hn. unfold set_key. destruct (at_key k d) as [a|] eqn:E; [by rewrite keys_update|]. rewrite map_app. apply NoDup_app. split_and!; [done| |apply NoDup_singleton].
  intros x Hx Hk. cbn in Hk. apply list_elem_of_singleton in Hk as ->. by apply at_key_None in E.
Qed.

Lemma set_key_elem {A} k (v : A) d kv : kv ∈ set_key k v d -> kv = (k, v) \/ kv ∈ d.
Proof.
  unfold set_key. destruct (at_key k d) as [a|].
  - destruct kv as [k' w]. intros (b & Hin & ->)%elem_update. unfold str_eq. case_bool_decide; [subst; by left|by right].
  - intros [H|H%list_elem_of_singleton]%elem_of_app; [by right|by left].
Qed.

(** What the first statements of [setup] build: a subtask for every worker. *)
Definition covers (rows : list AgentRunMemberRow) (st : Co) : Prop :=
  forall m key, m ∈ rows -> mb_role m = "worker" -> mb_subtask_key m = Some key -> key ∈ map fst (co_subtasks st).

Lemma add_agent_run out config plan m st st' : add_agent out config plan m st = (st', Ok ()) -> unproven plan st ->
  unproven plan st' /\ covers [m] st' /\ (forall k, k ∈ map fst (co_subtasks st) -> k ∈ map fst (co_subtasks st')).
Proof.
  unfold add_agent. rewrite lift_bind. destruct (ou_factory _ _); [|done]. rewrite modify_bind. unfold when, str_eq. case_bool_decide as Hr.
  - rewrite lift_bind. destruct (List.find _ _) as [sub|] eqn:Ef; [|done]. cbn [require_some]. intros [= <-] [Hn Hv]. split; [split|split].
    + by apply set_key_NoDup.
    + apply List.find_some in Ef as [Hin _]. apply list_elem_of_In in Hin. intros kv [->|Hkv]%set_key_elem; [done|by apply Hv].
    + intros m' key ->%list_elem_of_singleton _ Hk. apply List.find_some in Ef as [_ Ef]. unfold opt_str_eq in Ef. boolify. cbn. apply set_key_keys. left. congruence.
    + intros k Hk. cbn. apply set_key_keys. by right.
  - intros [= <-] Hu. split; [exact Hu|]. split; [|done]. by intros m' key ->%list_elem_of_singleton.
Qed.

Lemma add_agents_run out config plan rows st st' us : for_each (add_agent out config plan) rows st = (st', Ok us) -> unproven plan st ->
  unproven plan st' /\ covers rows st' /\ (forall k, k ∈ map fst (co_subtasks st) -> k ∈ map fst (co_subtasks st')).
Proof.
  revert st us. induction rows as [|m rows IH]; intros st us H Hu.
  { injection H as <- _. split; [done|]. split; [by intros m' key ?%not_elem_of_nil|done]. }
  cbn [for_each] in H. rewrite st_bind_run in H. destruct (add_agent _ _ _ m st) as [st1 [[]|e]] eqn:E1; [|done]. rewrite st_bind_run in H.
  destruct (for_each _ rows st1) as [st2 [us2|e]] eqn:E2; [|done]. injection H as <- _. apply add_agent_run in E1 as (Hu1 & Hc1 & Hk1); [|done].
  destruct (IH _ _ E2 Hu1) as (Hu2 & Hc2 & Hk2). split; [done|]. split; [|auto]. intros m' key [->|Hm]%elem_of_cons Hr Hk; [|by eapply Hc2].
  apply Hk2. eapply Hc1; [by left|done|done].
Qed.

Lemma same_verdicts_calm {A} (m : ST Co A) : steps calm m -> steps same_verdicts m.
Proof. intros H st. apply calm_verdicts, H. Qed.
Lemma same_verdicts_agent aid f : steps same_verdicts (set_agent aid f).
Proof. by intros st. Qed.

Ltac verdict_step :=
  first [ exact _ | apply verdicts_begin | apply same_verdicts_agent | apply (steps_for_each same_verdicts); intros ? ? | st_step
        | apply same_verdicts_calm; solve [calm] ].

Definition member_rows (run_id : string) : ST Work (list AgentRunMemberRow) := query (select_rows (fun m => str_eq (mb_run_id m) run_id) ∘ d_agent_run_members).

Lemma setup_run out config run_id plan st st' fl : setup out config run_id plan st = (st', Ok fl) -> unproven plan st ->
  unproven plan st' /\ exists rows, (member_rows run_id (co_work st)).2 = Ok rows /\ covers rows st'.
Proof.
  unfold setup. rewrite lift_bind. destruct (ou_fixture _ _) as [fixture|]; [|done]. rewrite st_bind_run. unfold on_db at 1. fold (member_rows run_id).
  destruct (member_rows run_id (co_work st)) as [w1 [rows|e]] eqn:Er; [|done]. set (st1 := st {{ co_work := w1 }}). intros H Hu.
  change (unproven plan st1) in Hu. clearbody st1. rewrite st_bind_run in H. destruct (for_each _ rows st1) as [st2 [us|e]] eqn:E2; [|done].
  destruct (add_agents_run _ _ _ _ _ _ _ E2 Hu) as (Hu2 & Hc & _).
  match type of H with ?m st2 = _ => assert (steps same_verdicts m) as Hs end.
  { unfold each_subtask, first_attempt, start_all, open_hub, each_agent, each_subtask, start_agent, go_live, greet. repeat verdict_step. }
  specialize (Hs st2). rewrite H in Hs. cbn in Hs. split; [by eapply unproven_same|]. exists rows. split; [done|].
  intros m key Hm Hr Hk. assert (map fst (co_subtasks st') = map fst (co_subtasks st2)) as ->; [|by eapply Hc].
  unfold same_verdicts in Hs. apply (f_equal (map (fun v => v.1.1.1))) in Hs. rewrite !map_map in Hs. exact Hs.
Qed.

Definition same_keys (st st' : Co) : Prop := map fst (co_subtasks st') = map fst (co_subtasks st).
#[local] Instance same_keys_refl : Reflexive same_keys. Proof. done. Qed.
#[local] Instance same_keys_trans : Transitive same_keys. Proof. intros a b c H1 H2. unfold same_keys in *. congruence. Qed.

Lemma keys_calm {A} (m : ST Co A) : steps calm m -> steps same_keys m.
Proof. intros H st. apply calm_keys, H. Qed.
Lemma keys_idle {A} (m : ST Co A) : steps idle m -> steps same_keys m.
Proof. intros H st. specialize (H st). unfold idle, same_keys in *. apply views_Forall2 in H. induction H as [|kv kv' l l' E Hl IH]; [done|]. cbn [map]. rewrite IH. by injection E as ->. Qed.
Lemma keys_verify out ve fixture config run_id lead_id key : steps same_keys (_verify format_g ev mach tree out ve fixture config run_id lead_id key).
Proof. intros st. eapply only_keys, only_verify. Qed.

Ltac keys_step :=
  first [ exact _ | apply keys_verify | apply keys_idle; solve [apply idle_wake | apply idle_finish_turns] | apply (steps_for_each same_keys); intros ? ?
        | apply keys_calm; solve [calm | apply calm_each_agent; intros; first [apply calm_relay | apply calm_serve]] | st_step ].

Hint Resolve calm_tick calm_caps calm_hold_sandboxes calm_tell_all_pass calm_deliveries calm_completion calm_tell_decisions calm_read_gate : calm.

Lemma keys_round out fixture config run_id lead_id p :
  steps same_keys (round fold policy format_g ev mach tree redact sum_floats out fixture config run_id lead_id p).
Proof. unfold round, act, or_stop, verify_one. repeat keys_step. Qed.

Lemma keys_rounds out fixture config run_id lead_id polls :
  steps same_keys (rounds fold policy format_g ev mach tree redact sum_floats out fixture config run_id lead_id polls).
Proof. induction polls as [|p polls IH]; cbn [rounds]; unfold or_stop; repeat first [apply IH | apply keys_round | keys_step]. Qed.

(** A success is announced by a round that read an empty gate. *)
Lemma reached_step {A} out fixture config run_id lead_id polls first (m : ST Co A) st st' r : m st = (st', r) ->
  (forall st, happens out fixture config run_id lead_id polls st (m st).1) -> reached out fixture config run_id lead_id polls first st ->
  reached out fixture config run_id lead_id polls first st'.
Proof. intros E H Hr. eapply rtc_r; [exact Hr|]. specialize (H st). by rewrite E in H. Qed.

Lemma caps_not_succeeded out p config run_id st st' : caps sum_floats out p config run_id st = (st', Ok (Some Succeeded)) -> False.
Proof.
  unfold caps. rewrite gets_bind, st_bind_run. destruct (on_db _ st) as [s3 [u1|e]]; [|done].
  rewrite st_bind_run. destruct (on_db _ s3) as [s4 [run|e]]; [|done]. rewrite lift_bind. destruct (require_some _ _) as [row|]; [|done].
  destruct (_ || _); [done|]. rewrite lift_bind. destruct (gt_json _ _) as [[]|]; [done| |done]. rewrite lift_bind.
  destruct (gt_json _ _) as [[]|]; [done| |done]. rewrite lift_bind. by destruct (gt_json _ _) as [[]|].
Qed.

(** What the last round of a success did after reading its gate. *)
Definition last_round out fixture config run_id lead_id polls first st : Prop :=
  exists p st1 st2, p ∈ polls /\ reached out fixture config run_id lead_id polls first st1 /\ read_gate run_id st1 = (st2, Ok []) /\
    act format_g ev mach tree redact out fixture config run_id lead_id p [] st2 = (st, Ok (Some Succeeded)).

Ltac next_stage H Hr Hp :=
  rewrite st_bind_run in H;
  match type of H with (match ?m ?s with _ => _ end = _) =>
    let E := fresh "E" in destruct (m s) as [? [?|?]] eqn:E; [|done]; apply (reached_step _ _ _ _ _ _ _ _ _ _ _ E) in Hr; [|by intros ?; constructor] end.

Lemma round_gate out fixture config run_id lead_id polls first p st st' : p ∈ polls -> reached out fixture config run_id lead_id polls first st ->
  round fold policy format_g ev mach tree redact sum_floats out fixture config run_id lead_id p st = (st', Ok (Some Succeeded)) ->
  last_round out fixture config run_id lead_id polls first st'.
Proof.
  intros Hp Hr H. unfold round in H. next_stage H Hr Hp. rewrite or_stop_run in H. destruct (caps _ _ _ _ _ _) as [s2 [[x|]|e]] eqn:Ec; [| |done].
  { injection H as -> ->. by apply caps_not_succeeded in Ec. }
  apply (reached_step _ _ _ _ _ _ _ _ _ _ _ Ec) in Hr; [|by intros ?; constructor]. do 5 (next_stage H Hr Hp).
  rewrite st_bind_run in H. match type of H with (match read_gate run_id ?s with _ => _ end = _) => destruct (read_gate run_id s) as [s4 [gate|e]] eqn:Eg; [|done] end.
  destruct gate as [|g gate]; [|by apply gate_stops in H]. by eexists p, _, s4.
Qed.

Lemma rounds_gate out fixture config run_id lead_id plan polls first ps st st' : ps ⊆ polls ->
  during out fixture config run_id lead_id plan polls first st ->
  rounds fold policy format_g ev mach tree redact sum_floats out fixture config run_id lead_id ps st = (st', Ok (Some Succeeded)) ->
  last_round out fixture config run_id lead_id polls first st'.
Proof.
  revert st. induction ps as [|p ps IH]; intros st Hps Hd H; [done|]. cbn [rounds] in H. rewrite or_stop_run in H. assert (p ∈ polls) as Hp by (apply Hps; left).
  pose proof (during_round out fixture config run_id lead_id plan polls first p Hp st Hd) as Hd1.
  destruct (round _ _ _ _ _ _ _ _ _ _ _ _ _ p st) as [st1 [[s|]|e]] eqn:E; [| |done].
  - injection H as -> ->. by eapply round_gate; [|apply Hd|].
  - apply (IH st1); [|done|done]. intros x Hx. apply Hps. by right.
Qed.

(** *** The last row *)

Lemma finalize_status st e config run_id stop closed still w w' run :
  _finalize sum_floats st e config run_id stop closed still w = (w', Ok run) -> rn_status run = (outcome_of st stop).1 /\ rn_error run = (outcome_of st stop).2.
Proof.
  unfold _finalize. rewrite gets_bind, lift_bind. destruct (require_some _ _) as [r0|]; [|done]. rewrite st_bind_run.
  destruct (for_each _ _ w) as [w1 [u1|x]]; [|done]. rewrite st_bind_run. destruct (for_each _ _ w1) as [w2 [u2|x]]; [|done].
  rewrite st_bind_run. destruct (utcnow w2) as [w3 [now|x]]; [|done]. rewrite st_bind_run. destruct (query _ w3) as [w4 [d|x]]; [|done]. cbv zeta.
  rewrite st_bind_run. destruct (pend _ w4) as [w5 [u3|x]]; [|done]. rewrite st_bind_run. destruct (commit w5) as [w6 [u4|x]]; [|done]. by intros [= _ <-].
Qed.

Lemma outcome_succeeded st stop : (outcome_of st stop).1 = "succeeded" -> stop = Succeeded /\ all_pass (co_subtasks st) = true.
Proof. destruct stop; cbn; [|done|done]. by destruct (all_pass _). Qed.

Lemma cleanup_subtasks st e : co_subtasks (cleanup redact st e).1 = co_subtasks st.
Proof. unfold cleanup. destruct (en_cleanup e) as [[l|x]|], (sandbox_ids st); done. Qed.

Lemma conclude_succeeded e config run_id o w run :
  conclude redact sum_floats e config run_id o = (w, Ok (Some run)) -> rn_status run = "succeeded" -> o.2 = Ok (Some Succeeded) /\ all_pass (co_subtasks o.1) = true.
Proof.
  intros H Hs. unfold conclude in H. pose proof (cleanup_subtasks o.1 e) as Hc. destruct (cleanup redact o.1 e) as [st still]. cbn [fst] in Hc.
  destruct o.2 as [[stop|]|x]; [| done|].
  - rewrite st_bind_run in H. destruct (_finalize _ _ _ _ _ _ _ _ _) as [w1 [r|x]] eqn:Ef; [|done]. injection H as _ <-.
    apply finalize_status in Ef as [Ef _]. rewrite Hs in Ef. symmetry in Ef. apply outcome_succeeded in Ef as [-> Hp]. by rewrite <- Hc.
  - rewrite st_bind_run in H. destruct (rollback (co_work st)) as [w0 [u|x0]]; [|done]. rewrite st_bind_run in H.
    destruct (_finalize _ _ _ _ _ _ _ _ _) as [w1 [r|x1]] eqn:Ef; [|done]. injection H as _ <-.
    apply finalize_status in Ef as [Ef _]. rewrite Hs in Ef. by apply eq_sym, outcome_succeeded in Ef as [? _].
Qed.

(** The loop that ends in success. *)
Lemma loop_succeeded out config run_id plan polls w st :
  loop fold policy format_g ev mach tree redact sum_floats out config run_id plan polls (start out w) = (st, Ok (Some Succeeded)) ->
  exists st1 fl, setup out config run_id plan (start out w) = (st1, Ok fl) /\
    proven out fl.1 config run_id fl.2 plan polls st1 st /\ (exists rows, (member_rows run_id w).2 = Ok rows /\ covers rows st) /\
    last_round out fl.1 config run_id fl.2 polls st1 st.
Proof.
  unfold loop. rewrite st_bind_run. destruct (setup out config run_id plan (start out w)) as [st1 [fl|e]] eqn:Es; [|done]. intros H. exists st1, fl. split; [done|].
  apply setup_run in Es as (Hu & rows & Hr & Hc); [|split; [constructor|by intros kv ?%not_elem_of_nil]].
  assert (during out fl.1 config run_id fl.2 plan polls st1 st1) as Hd by (split; [by apply unproven_proven|apply rtc_refl]).
  pose proof (during_rounds out fl.1 config run_id fl.2 plan polls st1 polls (reflexivity _) st1 Hd) as Hp.
  pose proof (keys_rounds out fl.1 config run_id fl.2 polls st1) as Hk. rewrite H in Hp, Hk. cbn in Hk. split; [apply Hp|]. split; [|exact (rounds_gate _ _ _ _ _ _ _ _ _ _ _ (fun x Hx => Hx) Hd H)].
  exists rows. split; [exact Hr|]. intros m key Hm Hrole Hkey. rewrite Hk. by eapply Hc.
Qed.

Lemma execute_loop out polls e run_id w w' run :
  _execute fold policy format_g ev mach tree redact sum_floats out polls e run_id w = (w', Ok (Some run)) ->
  exists run0 plan config w1, d_agent_runs (pending w) !! run_id = Some run0 /\ rn_status run0 = "running" /\
    d_plans (pending w1) !! rn_plan_id run0 = Some plan /\ pl_status plan = "approved" /\ valid_config config /\
    conclude redact sum_floats e config run_id (loop fold policy format_g ev mach tree redact sum_floats out config run_id plan polls (start out w1)) = (w', Ok (Some run)).
Proof.
  unfold _execute. rewrite gets_bind, lift_bind. destruct (d_agent_runs (pending w) !! run_id) as [run0|]; [|done]. cbn [require_some].
  rewrite guard_bind. destruct (negb (str_eq (rn_status run0) "running")) eqn:Hst; [done|]. unfold str_eq in Hst. boolify.
  rewrite st_bind_run. destruct (when _ _ w) as [w1 [u|x]]; [|done]. rewrite gets_bind, lift_bind.
  destruct (d_plans (pending w1) !! rn_plan_id run0) as [plan|] eqn:Hpl; [|done]. cbn [require_some]. rewrite guard_bind.
  destruct (negb (str_eq (pl_status plan) "approved")) eqn:Hap; [done|]. unfold str_eq in Hap. boolify. rewrite lift_bind.
  destruct (from_dict _) as [config|] eqn:Hc; [|done]. intros H. exists run0, plan, config, w1. split_and!; try done.
  apply from_dict_Ok in Hc as [Hc _]. by eapply check_config_Ok.
Qed.
End run.

(** C1: a run ends as succeeded only on Evidence.  It was running and its plan
    approved when it started; every worker of the run has a subtask, which is
    one of the Plan's; the verdict of each is PASS, and stands for its current
    Attempt: in a state of this run, and with what the outside answered in one
    of its rounds, the host took the in-scope changes it collected itself and
    [finish] returned for that Attempt, run with the Plan's own checks and no
    command of the worker, and its Task was then succeeded (never a worker's
    report, nor the lead's); and the last round, the one that ended the run,
    read a decision gate with no material decision of the run pending. *)
Theorem run_success fold {P} {HP : DecisionPolicy P} policy format_g ev mach tree redact sum_floats out polls e run_id w w' run :
  _execute fold policy format_g ev mach tree redact sum_floats out polls e run_id w = (w', Ok (Some run)) -> rn_status run = "succeeded" ->
  exists run0 plan config w1 st1 fl st, d_agent_runs (pending w) !! run_id = Some run0 /\ rn_status run0 = "running" /\
    d_plans (pending w1) !! rn_plan_id run0 = Some plan /\ pl_status plan = "approved" /\ valid_config config /\
    setup out config run_id plan (start out w1) = (st1, Ok fl) /\
    rounds fold policy format_g ev mach tree redact sum_floats out fl.1 config run_id fl.2 polls st1 = (st, Ok (Some Succeeded)) /\
    (exists rows, (member_rows run_id w1).2 = Ok rows /\ covers rows st) /\
    (forall key s, (key, s) ∈ co_subtasks st -> planned plan (key, s) /\ su_verdict s = Some "PASS" /\
       exists a, su_attempt s = Some a /\
         finished_pass fold policy format_g ev mach tree redact sum_floats out fl.1 config run_id fl.2 polls st1 key (su_task s) (su_spec s) a) /\
    last_round fold policy format_g ev mach tree redact sum_floats out fl.1 config run_id fl.2 polls st1 st.
Proof.
  intros H Hs. apply execute_loop in H as (run0 & plan & config & w1 & Hrun & Hst & Hpl & Hap & Hc & H).
  apply conclude_succeeded in H as [Hr Hall]; [|done]. destruct (loop _ _ _ _ _ _ _ _ _ _ _ _ _ _) as [st r] eqn:El. cbn in Hr, Hall. subst r.
  pose proof (loop_succeeded _ _ _ _ _ _ _ _ _ _ _ _ _ _ _ El) as (st1 & fl & Es & [Hn Hb] & Hrows & Hg). exists run0, plan, config, w1, st1, fl, st.
  unfold loop in El. rewrite st_bind_run, Es in El. do 8 (split; [done|]). split; [|exact Hg].
  intros key s Hin. unfold all_pass in Hall. rewrite forallb_forall in Hall. pose proof (Hall (key, s) (proj1 (list_elem_of_In _ _) Hin)) as Hv.
  unfold opt_str_eq in Hv. boolify. rewrite Forall_forall in Hb. destruct (Hb (key, s) Hin) as [Hp Hbk]. split; [done|]. split; [done|]. by apply Hbk.
Qed.

(** ** A run of one worker *)

Module RunDemo.
Definition subtask : SubtaskSpec := {| sub_key := "calc"; sub_title := "Fix add"; sub_instructions := "make it add";
  sub_acceptance_criteria := ["works"]; sub_criterion_checks := [("works", [["pytest"; "tests/test_a.py"]])];
  sub_allowed_paths := ["a.py"]; sub_protected_paths := ["tests"] |}.
Definition spec : PlanSpec := {| ps_id := Some "P"; ps_title := "Calculator"; ps_objective_id := None; ps_proposed_by := "alice";
  ps_fixture_dir := "fixtures/calc"; ps_subtasks := [subtask] |}.
Definition clock (n : nat) : datetime := DateTime (1000000 * Z.of_nat n) true.
Definition uuid (n : nat) : string := Iso.padded 6 (Z.of_nat n) +:+ "0123456789abcdef0123456789".
Definition host : Host := {| h_environ := RevisionDemo.env; h_unidata_version := "15.0.0" |}.

(** The plan, proposed and approved. *)
Definition approved : result Session :=
  '(s, _) ← propose_plan host clock uuid (open_session empty_db) spec;
  decide_plan host clock (fun n => uuid (500 + n)) s "P" true "bob" "looks right" None false None.
Definition db : Db := match approved with Ok s => stored s | Err _ => empty_db end.
Definition work : Work := {|
  wk_host := host; wk_process := {| EXECUTOR_ID := "9-z"; owners := ∅; remote_effects := ∅; stop_blocked := ∅ |};
  wk_clock := fun n => clock (1000 + n); wk_uuid := fun n => uuid (1000 + n); wk_ticks := 0; committed := db; session := open_session db; inactive := false |}.

Definition fixture : Disk := {| files := {["a.py" := "def add(a, b): return a - b"; "tests/test_a.py" := "test"]}; dirs := {["tests"]} |}.
Definition created : Work * result AgentRunRow := create_run (fun _ => Ok fixture) "P" None (Some "bob") work.
Definition run_id : string := match created.2 with Ok r => rn_id r | Err _ => "" end.

Definition outside : Outside := {|
  ou_fixture := fun _ => Ok fixture; ou_factory := fun _ => Ok (); ou_provider := fun _ => Ok "openai:example";
  ou_begin := fun _ => (id, {| pr_workspace := Ok (); pr_tree := Ok RevisionDemo.t1; pr_repository := "fixture:demo" |});
  ou_binds := fun _ => false; ou_trace := None; ou_start := fun aid => (Some ("sbx-" +:+ aid), None); ou_started := f_zero; ou_ready_s := f_of_Z 2;
  ou_rules := [] |}.

Definition verify : VerifyEnv := {|
  ve_collect := Ok {["a.py" := "def add(a, b): return a + b"; "tests/test_a.py" := "pass"]}; ve_usage := {| us_input := 1000; us_output := 100; us_cache_read := 0; us_reasoning := 0 |};
  ve_alive := f_of_Z 10; ve_finish := FinishDemo.fe id; ve_others := id; ve_prepared := {| pr_workspace := Ok (); pr_tree := Ok RevisionDemo.t1; pr_repository := "fixture:demo" |} |}.

Definition envelope_name : string := "0123456789abcdef0123456789abcdef.json".
Definition report : json := JObj [("id", JStr "0123456789abcdef0123456789abcdef"); ("kind", JStr "report"); ("body", JStr "done, trust me"); ("status", JStr "done")].

Definition poll (now : Z) (mail : string -> Z) (done : string -> option (result TurnResult)) (outbox : string -> list (string * Z)) : Poll := {|
  po_now := f_of_Z now; po_cancel := false; po_before := id; po_usage := fun _ => {| us_input := 0; us_output := 0; us_cache_read := 0; us_reasoning := 0 |};
  po_alive := fun _ => f_of_Z now; po_done := done; po_outbox := fun aid => Ok (outbox aid); po_remove := fun _ _ => Ok ();
  po_read := fun _ _ => Ok (200, Some report); po_core := fun _ => {| cf_names := None; cf_read := fun _ => Ok false; cf_remove := fun _ => Ok ();
    cf_answer := fun _ => Ok {| ca_id := false; ca_ok := false; ca_denied := false; ca_error := None; ca_tool := "?"; ca_write := Ok () |} |};
  po_answers := id; po_keep_now := f_of_Z now; po_lifetime := fun _ => {| lf_left := None; lf_extend := None |}; po_verify := fun _ => verify;
  po_deliver := fun _ _ _ => Ok (); po_inbox := fun aid => Ok (mail aid); po_idle := f_of_Z now; po_idle_again := f_of_Z now |}.

Definition is_worker (aid : string) : bool := str_eq aid "worker-1".
Definition polls : list Poll := [
  poll 1 (fun aid => if is_worker aid then 2 else 0) (fun _ => None) (fun _ => []);
  poll 2 (fun _ => 0) (fun aid => if is_worker aid then Some (Ok {| tr_ok := true; tr_seconds := f_of_Z 1; tr_error := None |}) else None)
    (fun aid => if is_worker aid then [(envelope_name, 200)] else [])].

Definition ending : Ending := {| en_usage := fun _ => {| us_input := 1000; us_output := 100; us_cache_read := 0; us_reasoning := 0 |};
  en_usage_dict := fun _ => JObj []; en_alive := fun _ => f_of_Z 12; en_cleanup := Some (Ok []); en_counted_s := f_of_Z 3; en_wall_s := f_of_Z 3 |}.

Definition executed (polls : list Poll) : Work * result (option AgentRunRow) :=
  _execute str_lower no_auto_resolve (fun _ => "30") EvaluateDemo.ev (fun _ => EvaluateDemo.mach) (fun _ => RevisionDemo.t2) (fun s => s)
    (foldl f_add f_zero) outside polls ending run_id created.1.
End RunDemo.

Lemma run_success_witness : exists w' run, RunDemo.executed RunDemo.polls = (w', Ok (Some run)) /\ rn_status run = "succeeded" /\
  exists plan st, pl_status plan = "approved" /\ forall key s, (key, s) ∈ co_subtasks st -> su_verdict s = Some "PASS".
Proof.
  assert (match (RunDemo.executed RunDemo.polls).2 with Ok (Some r) => rn_status r | _ => "" end = "succeeded") as Hv by (vm_compute; reflexivity).
  destruct (RunDemo.executed RunDemo.polls) as [w' [[run|]|e]] eqn:Hx; [|discriminate Hv|discriminate Hv]. exists w', run. split; [reflexivity|]. split; [exact Hv|].
  unfold RunDemo.executed in Hx. destruct (run_success _ _ _ _ _ _ _ _ _ _ _ _ _ _ _ Hx Hv) as (run0 & plan & config & w1 & st1 & fl & st & _ & _ & _ & Hap & _ & _ & _ & _ & Hs & _).
  exists plan, st. split; [exact Hap|]. intros key s Hin. exact (proj1 (proj2 (Hs key s Hin))).
Defined.

(** With the worker's report but no verification in between, the run goes on. *)
Example run_not_done : (RunDemo.executed (take 1 RunDemo.polls)).2 = Ok None.
Proof. vm_compute. reflexivity. Qed.

(** ** The gate of a round *)

(** A material decision of the run that waits for a human. *)
Definition material_pending (d : Db) (run_id : string) (r : DecisionRequestRow) : Prop :=
  (exists k, d_decision_requests d !! k = Some r) /\ dr_status r = "pending" /\ dr_subject_kind r = "agent_request" /\
  dr_run_id r = Some run_id /\ is_material d r = true.

Lemma pending_in_gate d run_id gate r : pending_material d (Some run_id) None = Ok gate -> material_pending d run_id r ->
  exists m, m ∈ gate /\ mr_scope m = scope d r /\ mr_requested_by m = dr_requested_by r.
Proof.
  unfold pending_material. intros H (Hk & Hst & Hsk & Hrun & Hm). unfold is_material in Hm. boolify. destruct Hm as [meta Hmeta].
  assert (r ∈ pending_requests d (Some run_id) None) as Hr.
  { unfold pending_requests. rewrite sort_by_perm, elem_select, !andb_true_iff. unfold str_eq, opt_str_eq. by rewrite !bool_decide_eq_true. }
  assert ((r, meta) ∈ omap (fun r => meta ← material_meta d r; Some (r, meta)) (pending_requests d (Some run_id) None)) as Hin.
  { apply list_elem_of_omap. exists r. by rewrite Hmeta. }
  destruct (result_map_all _ _ _ _ H Hin) as [m Hreq]. exists m. split; [|split].
  - apply (result_map_elem _ _ _ H). by exists (r, meta).
  - by eapply material_request_scope.
  - unfold material_request in Hreq. cbn in Hreq. crush_hyps. done.
Qed.

(** Whom a decision stops: everybody when it is about the run, the one who asked,
    and the worker of the subtask it is about. *)
Definition stops_agent (d : Db) (r : DecisionRequestRow) (subtasks : list (string * _Subtask)) (aid : string) : Prop :=
  scope d r = RUN_SCOPE \/ dr_requested_by r = aid \/ exists kv, kv ∈ subtasks /\ su_worker kv.2 = aid /\ su_key kv.2 = scope d r.

Lemma stops_blocked d r gate m subtasks aid : m ∈ gate -> mr_scope m = scope d r -> mr_requested_by m = dr_requested_by r ->
  stops_agent d r subtasks aid -> agent_blocked gate subtasks aid = true.
Proof.
  intros Hm Hs Hr Hstop. unfold agent_blocked, run_blocked. apply list_elem_of_In in Hm. destruct Hstop as [E|[E|(kv & Hin & Hw & E)]].
  - apply orb_true_iff. left. apply orb_true_iff. left. apply existsb_exists. exists m. split; [done|]. unfold str_eq. apply bool_decide_eq_true. congruence.
  - apply orb_true_iff. left. apply orb_true_iff. right. apply existsb_exists. exists m. split; [done|]. unfold str_eq. apply bool_decide_eq_true. congruence.
  - apply orb_true_iff. right. apply existsb_exists. exists kv. apply list_elem_of_In in Hin. split; [done|]. apply andb_true_iff. unfold str_eq.
    split; [by apply bool_decide_eq_true|]. apply orb_true_iff. right. apply existsb_exists. exists m. split; [done|]. apply bool_decide_eq_true. congruence.
Qed.

Lemma Forall2_elem_r {A B} (R : A -> B -> Prop) l k y : Forall2 R l k -> y ∈ k -> exists x, x ∈ l /\ R x y.
Proof.
  induction 1 as [|x z l k Hr Hl IH]; [by intros ?%not_elem_of_nil|]. intros [->|Hy]%elem_of_cons; [exists x; split; [left|done]|].
  destruct (IH Hy) as (x' & Hx & Hr'). exists x'. split; [by right|done].
Qed.

(** C2: while a material decision of the run waits for a human, the rest of the
    round starts no turn of anybody it stops (everyone, when it is about the
    run; else who asked and the worker of its subtask), leaves the verdict, the
    Attempt and the rounds of the subtasks it is about as they were, and does
    not end the run in success. *)
Theorem gate_holds format_g ev mach tree redact out fixture config run_id lead_id p d st0 st gate st' o r :
  settled d (co_work st0) -> read_gate run_id st0 = (st, Ok gate) -> NoDup (map fst (co_subtasks st)) ->
  act format_g ev mach tree redact out fixture config run_id lead_id p gate st = (st', o) -> material_pending d run_id r ->
  o <> Ok (Some Succeeded) /\
  (forall aid ag', (aid, ag') ∈ co_agents st' -> stops_agent d r (co_subtasks st) aid ->
     exists ag, (aid, ag) ∈ co_agents st /\ ag_turns ag' = ag_turns ag /\ ag_future ag' = ag_future ag) /\
  (forall key s', (key, s') ∈ co_subtasks st' -> scope d r = RUN_SCOPE \/ scope d r = su_key s' ->
     exists s, (key, s) ∈ co_subtasks st /\ su_verdict s' = su_verdict s /\ su_attempt s' = su_attempt s /\ su_rounds s' = su_rounds s).
Proof.
  intros Hw Hg Hn Ha Hr. unfold read_gate in Hg. rewrite st_bind_run in Hg. unfold on_db in Hg. rewrite (query_run _ d) in Hg by done. unfold lift in Hg.
  injection Hg as <- Hg. destruct (pending_in_gate _ _ _ _ Hg Hr) as (m & Hm & Hs & Hq).
  pose proof (gate_held format_g ev mach tree redact out fixture config run_id lead_id p gate _ Hn) as [H1 H2]. rewrite Ha in H1, H2. cbn [fst] in H1, H2. split; [|split].
  - eapply gate_stops; [|exact Ha]. intros ->. by apply not_elem_of_nil in Hm.
  - intros aid ag' Hin Hstop. assert (agent_view (aid, ag') ∈ map agent_view (co_agents st')) as Hv by (apply elem_map; eauto).
    destruct (Forall2_elem_r _ _ _ _ H1 Hv) as (v & Hvin & Hid & Hsame). apply elem_map in Hvin as ([k ag] & Hag & ->). cbn in Hid. subst k.
    exists ag. split; [done|]. cbn [agent_view fst] in Hsame. rewrite (stops_blocked _ _ _ _ _ _ Hm Hs Hq Hstop) in Hsame. by injection (Hsame eq_refl) as -> ->.
  - intros key s' Hin Hsc. destruct (Forall2_elem_r _ _ _ _ H2 Hin) as ([k s] & Hs' & Hk & Hkey & _ & Hsame). cbn in Hk, Hkey, Hsame. subst k.
    exists s. split; [done|]. assert (scope_blocked gate (su_key s) = true) as Hb.
    { apply existsb_exists. exists m. apply list_elem_of_In in Hm. split; [done|]. unfold str_in. apply bool_decide_eq_true. rewrite Hs, elem_of_cons, list_elem_of_singleton.
      destruct Hsc; [by left|right; congruence]. }
    injection (Hsame Hb) as _ _ _ -> -> -> _ _. done.
Qed.

Module HeldDemo.
Definition agent (id role : string) (subtask : option string) : string * _Agent :=
  (id, (new_agent {| sp_id := id; sp_role := role; sp_kind := "pi"; sp_model := JNull |} subtask) {{ ag_sandbox := Some "sbx"; ag_wake := true }}).
Definition db : Db := GateDemo.db {{ d_agent_runs := {["RUN" := GateDemo.run {{ rn_status := "running" }}]};
  d_agent_messages := {["M" := GateDemo.message {{ mg_kind := "decision_request" }}]} }}.
Definition st0 : Co := (start RunDemo.outside (HubDemo.work {{ committed := db; session := open_session db }}))
  {{ co_agents := [agent "lead" "lead" None; agent "w" "worker" (Some "t")];
     co_subtasks := [("t", (new_subtask "P" "w" RunDemo.subtask) {{ su_key := "t"; su_attempt := Some "A"; su_verify_requested := true }})] }}.
Definition gated : Co * result (list MaterialRequest) := read_gate "RUN" st0.
Definition poll : Poll := RunDemo.poll 1 (fun _ => 1) (fun _ => None) (fun _ => []).
Definition acted (gate : list MaterialRequest) (st : Co) : Co * result (option Stop) :=
  act (fun _ => "30") EvaluateDemo.ev (fun _ => EvaluateDemo.mach) (fun _ => RevisionDemo.t2) (fun s => s) RunDemo.outside RunDemo.fixture default_config "RUN" "lead" poll gate st.
End HeldDemo.

Lemma gate_holds_witness : exists st gate st' o, HeldDemo.gated = (st, Ok gate) /\ HeldDemo.acted gate st = (st', o) /\
  o <> Ok (Some Succeeded) /\ forall aid ag', (aid, ag') ∈ co_agents st' -> exists ag, (aid, ag) ∈ co_agents st /\ ag_turns ag' = ag_turns ag.
Proof.
  assert (match HeldDemo.gated.2 with Ok [m] => mr_scope m | _ => "" end = RUN_SCOPE) as Hv by (vm_compute; reflexivity).
  assert (map fst (co_subtasks HeldDemo.gated.1) = ["t"]) as Hk by (vm_compute; reflexivity).
  destruct HeldDemo.gated as [st [gate|e]] eqn:Hg; [|discriminate Hv]. destruct (HeldDemo.acted gate st) as [st' o] eqn:Ha.
  exists st, gate, st', o. split; [reflexivity|]. split; [exact Ha|]. unfold HeldDemo.gated in Hg. unfold HeldDemo.acted in Ha.
  assert (settled HeldDemo.db (co_work HeldDemo.st0)) as Hw by (split; [reflexivity|reflexivity|vm_compute; reflexivity]).
  assert (NoDup (map fst (co_subtasks st))) as Hn by (cbn [fst] in Hk; rewrite Hk; apply NoDup_singleton).
  assert (material_pending HeldDemo.db "RUN" GateDemo.question) as Hq by (split_and!; [by exists "Q"|reflexivity|reflexivity|reflexivity|vm_compute; reflexivity]).
  destruct (gate_holds _ _ _ _ _ _ _ _ _ _ _ _ _ _ _ _ _ _ Hw Hg Hn Ha Hq) as (H1 & H2 & _).
  split; [exact H1|]. intros aid ag' Hin. destruct (H2 aid ag' Hin) as (ag & Hag & Ht & _); [left; vm_compute; reflexivity|]. exists ag. split; [exact Hag|exact Ht].
Defined.
