(* ===== verification/RunBounds.v ===== *)
(** * RunBounds: how much a run may do

    Theorems about [RunLoop]: the turns a run starts, the turns in flight and the
    Attempts it begins stay within its configuration.  The coordinator counts
    turns and rounds; the trace of calls shows that it does no more than it
    counts. *)

From S2P Require Import Prelude StateError Floats Json Db EvidenceMac Flush Samples FlushFacts Store Lifecycle Recovery DecisionGate.
From S2P Require Import Evaluate Revisions UnitOfWork Execution Finish Plans Messaging MessagingFacts RunConfig Scoped Coordinator RunLoop RunFacts.

(** ** Counting turns *)

Lemma busy_view l l' : map agent_view l' = map agent_view l -> busy_agents l' = busy_agents l.
Proof.
  revert l'. induction l as [|[k a] l IH]; intros [|[k' a'] l'] H; try done. cbn [map] in H. injection H as -> _ Hf Hl. specialize (IH _ Hl).
  unfold busy_agents in *. cbn [List.filter snd]. rewrite Hf. destruct (ag_future a); cbn [length]; lia.
Qed.

Lemma busy_update_le aid f l : (forall a, ag_future (f a) = true -> ag_future a = true) -> busy_agents (update_key aid f l) <= busy_agents l.
Proof.
  intros Hf. unfold busy_agents, update_key. induction l as [|[k a] l IH]; [done|]. cbn [map List.filter fst snd]. specialize (Hf a).
  destruct (str_eq k aid); cbn [snd]; [destruct (ag_future (f a)) eqn:E1|]; destruct (ag_future a) eqn:E2; cbn [length]; lia || by specialize (Hf eq_refl).
Qed.

Lemma update_absent {A} k (f : A -> A) d : k ∉ map fst d -> update_key k f d = d.
Proof.
  intros Hk. unfold update_key. rewrite <- (map_id d) at 2. apply map_ext_in. intros [i x] Hin. unfold str_eq. rewrite bool_decide_eq_false_2; [done|].
  cbn. intros ->. apply Hk, elem_map. exists (k, x). split; [by apply list_elem_of_In|done].
Qed.

Lemma busy_update_one aid f l ag : NoDup (map fst l) -> at_key aid l = Some ag -> ag_future ag = false -> ag_future (f ag) = true ->
  busy_agents (update_key aid f l) = busy_agents l + 1.
Proof.
  unfold at_key. induction l as [|[k a] l IH]; [done|]. cbn [map fst List.find]. intros [Hk Hn]%NoDup_cons. unfold str_eq at 1. case_bool_decide as E.
  - cbn. intros [= ->] Hf Hf'. subst k. unfold busy_agents. cbn [update_key map fst snd]. unfold str_eq at 1. rewrite bool_decide_eq_true_2 by done.
    change (map (fun kv => if str_eq kv.1 aid then (kv.1, f kv.2) else kv) l) with (update_key aid f l). rewrite update_absent by done.
    cbn [List.filter snd]. rewrite Hf, Hf'. cbn [length]. lia.
  - intros Ha Hf Hf'. specialize (IH Hn Ha Hf Hf'). unfold busy_agents in *. cbn [update_key map fst snd]. unfold str_eq at 1. rewrite bool_decide_eq_false_2 by done.
    change (map (fun kv => if str_eq kv.1 aid then (kv.1, f kv.2) else kv) l) with (update_key aid f l). cbn [List.filter snd].
    destruct (ag_future a); cbn [length]; lia.
Qed.

(** ** Counting what the run asked for *)

(** The turns an agent was started on, and the Attempts begun for a subtask. *)
Definition turns_started (aid : string) (calls : list Call) : Z :=
  Z.of_nat (length (List.filter (fun c => match c with StartTurn i _ => str_eq i aid | BeginAttempt _ _ => false end) calls)).
Definition attempts_begun (key : string) (calls : list Call) : Z :=
  Z.of_nat (length (List.filter (fun c => match c with StartTurn _ _ => false | BeginAttempt k _ => str_eq k key end) calls)).

(** What the coordinator counted: 0 for a name it does not know. *)
Definition turns_of (aid : string) (st : Co) : Z := match at_key aid (co_agents st) with Some a => ag_turns a | None => 0 end.
Definition rounds_of (key : string) (st : Co) : Z := match at_key key (co_subtasks st) with Some s => su_rounds s | None => 0 end.

Lemma started_snoc aid calls c : turns_started aid (calls ++ [c]) =
  turns_started aid calls + match c with StartTurn i _ => if str_eq i aid then 1 else 0 | BeginAttempt _ _ => 0 end.
Proof. unfold turns_started. rewrite List.filter_app, length_app. destruct c as [i n|k n]; cbn; [destruct (str_eq i aid)|]; cbn; lia. Qed.
Lemma begun_snoc key calls c : attempts_begun key (calls ++ [c]) =
  attempts_begun key calls + match c with StartTurn _ _ => 0 | BeginAttempt k _ => if str_eq k key then 1 else 0 end.
Proof. unfold attempts_begun. rewrite List.filter_app, length_app. destruct c as [i n|k n]; cbn; [|destruct (str_eq k key)]; cbn; lia. Qed.

Lemma turns_of_set aid f i st :
  turns_of i (set_agent aid f st).1 = if str_eq aid i then match at_key i (co_agents st) with Some a => ag_turns (f a) | None => 0 end else turns_of i st.
Proof.
  unfold turns_of. change (co_agents (set_agent aid f st).1) with (update_key aid f (co_agents st)). rewrite at_key_update.
  destruct (str_eq aid i); [|done]. by destruct (at_key i _).
Qed.
Lemma rounds_of_set key f k st :
  rounds_of k (set_subtask key f st).1 = if str_eq key k then match at_key k (co_subtasks st) with Some s => su_rounds (f s) | None => 0 end else rounds_of k st.
Proof.
  unfold rounds_of. change (co_subtasks (set_subtask key f st).1) with (update_key key f (co_subtasks st)). rewrite at_key_update.
  destruct (str_eq key k); [|done]. by destruct (at_key k _).
Qed.

Lemma view_at_key {A B} (v : string * A -> B) (g : B -> string) (h : B -> Z) (n : A -> Z) k l l' :
  (forall kv, g (v kv) = kv.1) -> (forall kv, h (v kv) = n kv.2) -> map v l' = map v l ->
  match at_key k l' with Some a => n a | None => 0 end = match at_key k l with Some a => n a | None => 0 end.
Proof.
  intros Hg Hh. unfold at_key. revert l'. induction l as [|[i x] l IH]; intros [|[i' x'] l'] H; try done. cbn [map] in H. injection H as H Hl.
  pose proof (f_equal g H) as Hk. rewrite !Hg in Hk. pose proof (f_equal h H) as Hn. rewrite !Hh in Hn. cbn [fst snd] in Hk, Hn. subst i'.
  cbn [List.find fst]. destruct (str_eq i k); [exact Hn|by apply IH].
Qed.

Section bounds.
Context (fold : string -> string) {P : Type} {HP : DecisionPolicy P} (policy : P).
Context (format_g : float -> string) (ev : Evaluator) (mach : Z -> Machine) (tree : Z -> string).
Context (redact : string -> string) (sum_floats : list float -> float) (config : RunConfig).

Definition turn_ok (n : Z) : Prop := 0 <= n /\ (n = 0 \/ le_Z (max_turns_per_agent config) (n - 1) = Ok false).
Definition flight_ok (n : Z) : Prop := n = 0 \/ le_Z (max_concurrent_turns config) (n - 1) = Ok false.
Definition round_ok (n : Z) : Prop := 0 <= n /\ (n <= 1 \/ Z_lt (n - 1) (max_verify_rounds config) = Ok true).

Record capped (st : Co) : Prop := {
  cp_agents : NoDup (map fst (co_agents st));
  cp_subtasks : NoDup (map fst (co_subtasks st));
  cp_turns : forall aid ag, (aid, ag) ∈ co_agents st -> turn_ok (ag_turns ag);
  cp_flight : flight_ok (busy_agents (co_agents st));
  cp_rounds : forall key s, (key, s) ∈ co_subtasks st -> round_ok (su_rounds s);
  cp_started : forall aid, turns_started aid (co_calls st) <= turns_of aid st;
  cp_begun : forall key, attempts_begun key (co_calls st) <= rounds_of key st
}.

Lemma flight_ok_mono a b : 0 <= a <= b -> flight_ok b -> flight_ok a.
Proof.
  intros Hab [->|H]; [left; lia|]. destruct (Z.eq_dec a 0) as [->|]; [by left|]. right. apply (le_Z_mono _ (a - 1) (b - 1)); [lia|exact H].
Qed.

Lemma busy_nonneg l : 0 <= busy_agents l.
Proof. unfold busy_agents. lia. Qed.

(** *** What does not count *)

Definition round_view (kv : string * _Subtask) : string * Z := (kv.1, su_rounds kv.2).
Definition same_counts (st st' : Co) : Prop :=
  map agent_view (co_agents st') = map agent_view (co_agents st) /\ map round_view (co_subtasks st') = map round_view (co_subtasks st) /\
  co_calls st' = co_calls st.
#[local] Instance same_counts_refl : Reflexive same_counts. Proof. done. Qed.
#[local] Instance same_counts_trans : Transitive same_counts. Proof. intros a b c (? & ? & ?) (? & ? & ?). split_and!; congruence. Qed.

Lemma turns_of_view aid st st' : map agent_view (co_agents st') = map agent_view (co_agents st) -> turns_of aid st' = turns_of aid st.
Proof. by apply (view_at_key agent_view (fun v => v.1.1) (fun v => v.1.2)). Qed.
Lemma rounds_of_view key st st' : map round_view (co_subtasks st') = map round_view (co_subtasks st) -> rounds_of key st' = rounds_of key st.
Proof. by apply (view_at_key round_view fst snd). Qed.

Lemma map_via {A B C} (f : A -> B) (g : B -> C) (h : A -> C) l l' : (forall a, h a = g (f a)) -> map f l' = map f l -> map h l' = map h l.
Proof.
  intros Hh H. assert (forall k, map h k = map g (map f k)) as E by (intros k; rewrite map_map; by apply map_ext). by rewrite !E, H.
Qed.

Lemma calm_counts st st' : calm st st' -> same_counts st st'.
Proof.
  intros (Ha & Hs & Hc). split_and!; [done| |done]. by apply (map_via subtask_view (fun v => (v.1.1.1.1.1.1.1.1, v.1.1.1.2))).
Qed.

Lemma capped_counts st st' : same_counts st st' -> capped st -> capped st'.
Proof.
  intros (Ha & Hs & Hc) [Hna Hns Ht Hf Hr Hst Hbe]. split.
  6: { intros aid. by rewrite Hc, (turns_of_view _ _ _ Ha). }
  6: { intros key. by rewrite Hc, (rounds_of_view _ _ _ Hs). }
  - rewrite (map_via agent_view (fun v => v.1.1) fst _ _ (fun _ => eq_refl) Ha). done.
  - rewrite (map_via round_view fst fst _ _ (fun _ => eq_refl) Hs). done.
  - intros aid ag Hin. assert (agent_view (aid, ag) ∈ map agent_view (co_agents st)) as Hv by (rewrite <- Ha; apply elem_map; eauto).
    apply elem_map in Hv as ([k a] & Hin' & [= <- -> _]). by eapply Ht.
  - by rewrite (busy_view _ _ Ha).
  - intros key s Hin. assert (round_view (key, s) ∈ map round_view (co_subtasks st)) as Hv by (rewrite <- Hs; apply elem_map; eauto).
    apply elem_map in Hv as ([k a] & Hin' & [= <- ->]). by eapply Hr.
Qed.

Lemma capped_steps {A} (m : ST Co A) : steps same_counts m -> hoare capped m (fun _ => capped) (fun _ => capped).
Proof. intros H st Hst. specialize (H st). destruct (m st) as [st' [a|e]]; by eapply capped_counts. Qed.
Lemma capped_calm {A} (m : ST Co A) : steps calm m -> hoare capped m (fun _ => capped) (fun _ => capped).
Proof. intros H. apply capped_steps. intros st. apply calm_counts, H. Qed.

(** *** Turns *)

Lemma capped_set_agent aid f st : (forall a, ag_turns (f a) = ag_turns a /\ (ag_future (f a) = true -> ag_future a = true)) -> capped st -> capped (set_agent aid f st).1.
Proof.
  intros Hf [Hna Hns Ht Hb Hr Hst Hbe]. split.
  6: { intros i. rewrite turns_of_set. specialize (Hst i). unfold turns_of in *. destruct (str_eq aid i); [|exact Hst]. destruct (at_key i _) as [a|]; [|exact Hst]. by rewrite (proj1 (Hf a)). }
  1: by cbn; rewrite keys_update. 1: done. 3,4: done. all: cbn.
  - intros i ag (a & Hin & ->)%elem_update. destruct (str_eq i aid); [rewrite (proj1 (Hf a))|]; by eapply Ht.
  - apply (flight_ok_mono _ (busy_agents (co_agents st))); [|done]. split; [apply busy_nonneg|]. apply busy_update_le. intros a. apply Hf.
Qed.

Lemma capped_finish_turn p aid : hoare capped (finish_turn p aid) (fun _ => capped) (fun _ => capped).
Proof.
  unfold finish_turn. eapply hoare_bind; [apply capped_calm; calm|intros ag]. destruct (po_done p aid) as [o|]; [|by apply hoare_ret].
  apply hoare_when; [|intros _ st Hst; done]. intros _. eapply hoare_bind; [apply capped_calm; calm|intros r].
  intros st Hst. apply capped_set_agent; [|done]. by intros a.
Qed.

(** The state while agents are woken: how many turns are in flight. *)
Definition waking (busy : Z) (st : Co) : Prop := capped st /\ busy_agents (co_agents st) = busy.

Lemma waking_calm {A} busy (m : ST Co A) : steps calm m -> hoare (waking busy) m (fun _ => waking busy) (fun _ => capped).
Proof.
  intros H st [Hc Hb]. specialize (H st). assert (forall st', calm st st' -> waking busy st') as Hw.
  { intros st' Hst. split; [by eapply capped_counts, Hc; apply calm_counts|]. by rewrite (busy_view _ _ (proj1 Hst)). }
  destruct (m st) as [st' [a|e]]; [by apply Hw|by apply (Hw st')].
Qed.

Lemma agent_ok_calm {aid ag} busy st st' : calm st st' -> waking busy st /\ at_key aid (co_agents st) = Some ag ->
  waking busy st' /\ exists ag', at_key aid (co_agents st') = Some ag' /\ ag_turns ag' = ag_turns ag /\ ag_future ag' = ag_future ag.
Proof.
  intros Hst [[Hc Hb] Hag]. split; [split; [by eapply capped_counts, Hc; apply calm_counts|by rewrite (busy_view _ _ (proj1 Hst))]|].
  destruct Hst as [Ha _]. revert Ha Hag. unfold at_key. generalize (co_agents st'), (co_agents st). intros l' l. revert l'.
  induction l as [|[k x] l IH]; intros [|[k' x'] l'] H; try done. cbn [map] in H. injection H as -> Ht Hf Hl. cbn [List.find fst snd].
  destruct (str_eq k aid); [|by apply IH]. intros [= <-]. by exists x'.
Qed.

Lemma wake_one_capped p gate blocked busy aid : le_Z (max_concurrent_turns config) busy = Ok false ->
  hoare (waking busy) (wake_one redact p config gate blocked busy aid) (fun busy' => waking busy') (fun _ => capped).
Proof.
  intros Hfull st Hw. unfold wake_one. rewrite agent_bind. destruct (at_key aid (co_agents st)) as [ag|] eqn:Hag; [|apply Hw].
  destruct (negb (ag_wake ag) || ag_future ag) eqn:Hidle; [done|]. boolify. destruct (blocked aid).
  { eapply (hoare_bind (waking busy) _ _ (fun _ => waking busy)); [apply waking_calm; calm|intros []; by apply hoare_ret|exact Hw]. }
  rewrite st_bind_run. assert (steps calm (set_agent aid (fun ag => ag {{ ag_wake := false }}))) as Hc by calm.
  destruct (agent_ok_calm busy _ _ (Hc st) (conj Hw Hag)) as (Hw1 & ag1 & Hag1 & Ht1 & Hf1). clear Hc Hw.
  change (set_agent aid (fun ag => ag {{ ag_wake := false }}) st) with ((set_agent aid (fun ag => ag {{ ag_wake := false }}) st).1, Ok (A := unit) ()).
  set (st1 := (set_agent aid (fun ag => ag {{ ag_wake := false }}) st).1) in *. clearbody st1. cbv beta iota.
  destruct (po_inbox p aid) as [mail|e].
  2: { eapply (hoare_bind (waking busy) _ _ (fun _ => waking busy)); [apply waking_calm; calm|intros []|exact Hw1].
       eapply (hoare_bind (waking busy) _ _ (fun _ => waking busy)); [apply waking_calm; calm|intros []; by apply hoare_ret]. }
  destruct (negb (0 <? mail)); [exact Hw1|]. rewrite lift_bind. destruct (le_Z (max_turns_per_agent config) (ag_turns ag)) as [[]|e] eqn:Hcap; [| |apply Hw1].
  { eapply (hoare_bind (waking busy) _ _ (fun _ => waking busy)); [apply waking_calm; calm|intros []; by apply hoare_ret|exact Hw1]. }
  rewrite st_bind_run. destruct Hw1 as [[Hna Hns Ht Hb Hr Hst Hbe] Hbusy]. split.
  - split.
    6: { intros i. match goal with |- _ <= turns_of i ?s => change (turns_started i (co_calls st1 ++ [StartTurn aid (1 + ag_turns ag)]) <=
           turns_of i (set_agent aid (fun ag => ag {{ ag_turns ::= Z.add 1; ag_started := true; ag_future := true }}) st1).1) end.
         rewrite started_snoc, turns_of_set. specialize (Hst i). unfold str_eq. case_bool_decide as E; [subst i|lia]. unfold turns_of in Hst. rewrite Hag1 in Hst |- *. change (turns_started aid (co_calls st1) + 1 <= 1 + ag_turns ag1). lia. }
    6: { intros key. change (attempts_begun key (co_calls st1 ++ [StartTurn aid (1 + ag_turns ag)]) <= rounds_of key st1). rewrite begun_snoc. specialize (Hbe key). lia. }
    1: by cbn; rewrite keys_update. 1: done. 3: done. all: cbn.
    + intros i a (a0 & Hin & ->)%elem_update. unfold str_eq. case_bool_decide as E; [subst i|by eapply Ht]. assert (a0 = ag1) as -> by exact (at_key_unique _ _ _ _ Hna Hin Hag1). change (turn_ok (1 + ag_turns ag1)).
      rewrite Ht1. destruct (Ht aid ag1 Hin) as [Hge _]. rewrite Ht1 in Hge. split; [lia|]. right. by replace (1 + ag_turns ag - 1) with (ag_turns ag) by lia.
    + rewrite (busy_update_one _ _ _ _ Hna Hag1) by (congruence || done). rewrite Hbusy. right. by replace (busy + 1 - 1) with busy by lia.
  - cbn. rewrite (busy_update_one _ _ _ _ Hna Hag1) by (congruence || done). by rewrite Hbusy.
Qed.

Lemma wake_capped p gate blocked : hoare capped (wake redact p config gate blocked) (fun _ => capped) (fun _ => capped).
Proof.
  intros st Hst. unfold wake. rewrite gets_bind. assert (waking (busy_agents (co_agents st)) st) as Hw by done. revert Hw. clear Hst.
  generalize (busy_agents (co_agents st)) as busy. generalize (map fst (co_agents st)) as aids. intros aids. revert st. induction aids as [|aid aids IH]; intros st busy Hw; [apply Hw|].
  cbn [wake_all]. rewrite lift_bind. destruct (le_Z (max_concurrent_turns config) busy) as [[]|e] eqn:Hfull; [apply Hw| |apply Hw].
  rewrite st_bind_run. pose proof (wake_one_capped p gate blocked busy aid Hfull st Hw) as H. destruct (wake_one _ _ _ _ _ _ _ st) as [st1 [b|e]]; [by apply IH|exact H].
Qed.

(** *** Rounds of verification *)

Lemma counts_calm {A} (m : ST Co A) : steps calm m -> steps same_counts m.
Proof. intros H st. apply calm_counts, H. Qed.
Lemma counts_set key f : (forall s, su_rounds (f s) = su_rounds s) -> steps same_counts (set_subtask key f).
Proof. intros Hf st. split; [done|]. split; [|done]. apply (map_update round_view). intros i s. unfold round_view. cbn. by rewrite Hf. Qed.

(** Nothing was counted, and at most one Attempt of the subtask was asked for. *)
Definition one_begun (key : string) (st st' : Co) : Prop :=
  map agent_view (co_agents st') = map agent_view (co_agents st) /\ map round_view (co_subtasks st') = map round_view (co_subtasks st) /\
  (co_calls st' = co_calls st \/ exists n, co_calls st' = co_calls st ++ [BeginAttempt key n]).

Lemma one_begun_same key st st' st'' : one_begun key st st' -> same_counts st' st'' -> one_begun key st st''.
Proof. intros (? & ? & H) (? & ? & Hc). split_and!; [congruence|congruence|by rewrite Hc]. Qed.

(** After the round was counted [_begin_attempt] asks for one Attempt at most,
    and for none of a subtask the run does not know. *)
Lemma begin_counts out run_id key parent mode others prepared st :
  let st1 := (set_subtask key (fun s => s {{ su_rounds ::= Z.add 1 }}) st).1 in let st2 := (begin_attempt out run_id key parent mode others prepared st).1 in
  one_begun key st1 st2 /\ (at_key key (co_subtasks st) = None -> co_calls st2 = co_calls st).
Proof.
  cbv zeta. split.
  2: { intros Hn. unfold begin_attempt. rewrite st_bind_run. change (set_subtask key (fun s => s {{ su_rounds ::= Z.add 1 }}) st) with
         ((set_subtask key (fun s => s {{ su_rounds ::= Z.add 1 }}) st).1, Ok (A := unit) ()). cbv beta iota. rewrite subtask_bind.
       change (co_subtasks (set_subtask key (fun s => s {{ su_rounds ::= Z.add 1 }}) st).1) with (update_key key (fun s => s {{ su_rounds ::= Z.add 1 }}) (co_subtasks st)).
       rewrite at_key_update, Hn. by destruct (str_eq key key). }
  assert (forall s1 A (m : ST Co A), steps same_counts m -> hoare (same_counts s1) m (fun _ => same_counts s1) (fun _ => one_begun key s1)) as Hpre.
  { intros s1 A m Hm s Hs. specialize (Hm s). assert (forall s', same_counts s s' -> same_counts s1 s') as Ht by (intros s' H; by etrans).
    destruct (m s) as [s' [a|e]]; [by apply Ht|]. destruct (Ht _ Hm) as (? & ? & ?). split_and!; auto. }
  assert (forall s1 A (m : ST Co A), steps same_counts m -> hoare (one_begun key s1) m (fun _ => one_begun key s1) (fun _ => one_begun key s1)) as Hpost.
  { intros s1 A m Hm s Hs. specialize (Hm s). destruct (m s) as [s' [a|e]]; by eapply one_begun_same. }
  unfold begin_attempt. rewrite st_bind_run. change (set_subtask key (fun s => s {{ su_rounds ::= Z.add 1 }}) st) with
    ((set_subtask key (fun s => s {{ su_rounds ::= Z.add 1 }}) st).1, Ok (A := unit) ()). set (st1 := (set_subtask _ _ st).1). clearbody st1. cbv beta iota.
  match goal with |- one_begun _ _ (?m st1).1 => enough (hoare (same_counts st1) m (fun _ => one_begun key st1) (fun _ => one_begun key st1)) as Hg
    by (specialize (Hg st1 ltac:(done)); by destruct (m st1) as [s [u|e]]) end.
  eapply hoare_bind; [apply Hpre, counts_calm; calm|intros sub]. eapply hoare_bind; [apply Hpre, counts_calm; calm|intros ag].
  eapply hoare_bind; [apply Hpre, counts_calm; calm|intros provider]. eapply hoare_bind; [apply Hpre, counts_calm; calm|intros run0].
  eapply hoare_bind; [apply Hpre, counts_calm; calm|intros run]. eapply (hoare_bind _ _ _ (fun _ => one_begun key st1)).
  { intros s (Ha & Hs & Hc). split_and!; [done|done|]. right. exists (su_rounds sub). rewrite <- Hc. reflexivity. }
  intros []. eapply hoare_bind; [apply Hpost, counts_calm; calm|intros begun]. apply Hpost, counts_set; reflexivity.
Qed.

(** A subtask that still has a round to go, or has none behind it. *)
Definition may_begin (key : string) (st : Co) : Prop :=
  forall s, (key, s) ∈ co_subtasks st -> su_rounds s = 0 \/ Z_lt (su_rounds s) (max_verify_rounds config) = Ok true.

Lemma capped_one_begun key st st2 : one_begun key (set_subtask key (fun s => s {{ su_rounds ::= Z.add 1 }}) st).1 st2 /\
  (at_key key (co_subtasks st) = None -> co_calls st2 = co_calls st) -> capped st -> may_begin key st -> capped st2.
Proof.
  intros [(Ha & Hs & Hc) Hno] [Hna Hns Ht Hb Hr Hst Hbe] Hm. set (st1 := (set_subtask _ _ st).1) in *.
  assert (capped (st1 {{ co_calls := co_calls st2 }})) as H1; [|by eapply capped_counts; [|exact H1]].
  assert (forall k, attempts_begun k (co_calls st2) <= rounds_of k st1) as Hbe1.
  { intros k. specialize (Hbe k). unfold st1. rewrite rounds_of_set. change (co_calls st1) with (co_calls st) in Hc. unfold str_eq. case_bool_decide as E.
    + subst k. unfold rounds_of in Hbe. destruct (at_key key (co_subtasks st)) as [s|]; [|by rewrite Hno].
      change (su_rounds (s {{ su_rounds ::= Z.add 1 }})) with (1 + su_rounds s).
      destruct Hc as [->|[n ->]]; [lia|]. rewrite begun_snoc. destruct (str_eq key key); lia.
    + destruct Hc as [->|[n ->]]; [lia|]. rewrite begun_snoc. unfold str_eq. rewrite bool_decide_eq_false_2 by done. lia. }
  split; [done|by cbn; rewrite keys_update|done|done| | |exact Hbe1].
  - intros k s (s0 & Hin & ->)%elem_update. unfold str_eq. case_bool_decide as E; [subst k|by eapply Hr].
    change (round_ok (1 + su_rounds s0)). destruct (Hr key s0 Hin) as [Hge _]. split; [lia|]. destruct (Hm s0 Hin) as [->|H]; [left; lia|right].
    by replace (1 + su_rounds s0 - 1) with (su_rounds s0) by lia.
  - intros aid. change (turns_started aid (co_calls st2) <= turns_of aid st). specialize (Hst aid). change (co_calls st1) with (co_calls st) in Hc.
    destruct Hc as [->|[n ->]]; [exact Hst|]. by rewrite started_snoc, Z.add_0_r.
Qed.

Lemma capped_begin out run_id key parent mode others prepared :
  hoare (fun st => capped st /\ may_begin key st) (begin_attempt out run_id key parent mode others prepared) (fun _ => capped) (fun _ => capped).
Proof.
  intros st [Hc Hm]. pose proof (begin_counts out run_id key parent mode others prepared st) as H. cbv zeta in H.
  assert (capped (begin_attempt out run_id key parent mode others prepared st).1) as H2; [|by destruct (begin_attempt _ _ _ _ _ _ _ st) as [st' [u|e]]].
  revert H. generalize (begin_attempt out run_id key parent mode others prepared st).1 as st2. intros st2 H. by eapply capped_one_begun.
Qed.

Lemma may_begin_counts key st st' : same_counts st st' -> may_begin key st -> may_begin key st'.
Proof.
  intros (_ & Hs & _) H s Hin. assert (round_view (key, s) ∈ map round_view (co_subtasks st)) as Hv by (rewrite <- Hs; apply elem_map; eauto).
  apply elem_map in Hv as ([k a] & Hin' & [= <- ->]). by apply H.
Qed.

Lemma capped_verify out ve fixture run_id lead_id key :
  hoare capped (_verify format_g ev mach tree out ve fixture config run_id lead_id key) (fun _ => capped) (fun _ => capped).
Proof.
  intros st Hst. unfold _verify. rewrite subtask_bind. destruct (at_key key (co_subtasks st)) as [sub|] eqn:Hsub; [|exact Hst]. rewrite lift_bind.
  destruct (require_some (su_attempt sub) _) as [a|]; [|exact Hst].
  assert (Z_lt (su_rounds sub) (max_verify_rounds config) = Ok true -> may_begin key st) as Hm.
  { intros H s Hin. right. by rewrite (at_key_unique _ _ _ _ (cp_subtasks _ Hst) Hin Hsub). }
  set (I := fun st => capped st /\ (Z_lt (su_rounds sub) (max_verify_rounds config) = Ok true -> may_begin key st)).
  assert (forall A (m : ST Co A), steps same_counts m -> hoare I m (fun _ => I) (fun _ => capped)) as HI.
  { intros A m Hc s [H1 H2]. specialize (Hc s). assert (forall s', same_counts s s' -> I s') as Hi; [|destruct (m s) as [s' [x|x]]; [by apply Hi|by apply (Hi s')]].
    intros s' Hs. split; [by eapply capped_counts|]. intros Hz. eapply may_begin_counts; [exact Hs|by apply H2]. }
  match goal with |- match ?m st with _ => _ end => enough (hoare I m (fun _ => capped) (fun _ => capped)) as Hg by (apply Hg; by split) end.
  eapply hoare_bind; [apply HI, counts_calm, calm_verify_attempt|intros v]. eapply hoare_bind; [apply HI, counts_set; reflexivity|intros []]. cbv zeta.
  intros st2 [Hc2 Hm2]. rewrite lift_bind. destruct (Z_lt (su_rounds sub) (max_verify_rounds config)) as [more|e] eqn:Hmore; [|exact Hc2].
  match goal with |- match ?m st2 with _ => _ end => enough (hoare (fun s => capped s /\ (more = true -> may_begin key s)) m (fun _ => capped) (fun _ => capped)) as Hg
    by (apply Hg; split; [done|intros ->; by apply Hm2]) end.
  eapply (hoare_bind _ _ _ (fun _ => capped)); [|intros text; apply capped_calm; calm].
  destruct (negb _ && more) eqn:Hb; [|intros s [Hs _]; exact Hs]. boolify. subst more.
  eapply hoare_bind; [intros s [Hs Hms]; apply (capped_begin out run_id key (Some a) (json_text (evidence_mode config)) (ve_others ve) (ve_prepared ve)); auto|intros []].
  eapply hoare_bind; [apply capped_calm, calm_fence|intros []]. eapply hoare_bind; [apply capped_calm, calm_subtask|intros sub2].
  eapply hoare_bind; [apply capped_calm, calm_bind_attempt|intros []]. eapply hoare_bind; [apply capped_steps, counts_set; reflexivity|intros []]. by apply hoare_ret.
Qed.

(** *** The loop *)

Lemma capped_verify_one out p fixture run_id lead_id gate key :
  hoare capped (verify_one format_g ev mach tree out p fixture config run_id lead_id gate key) (fun _ => capped) (fun _ => capped).
Proof.
  unfold verify_one. eapply hoare_bind; [apply capped_calm, calm_subtask|intros sub]. eapply hoare_bind; [apply capped_calm, calm_agent|intros worker].
  destruct (_ && _); [apply capped_calm; calm|]. destruct (_ && _); [|by apply hoare_ret].
  eapply hoare_bind; [apply capped_steps, counts_set; reflexivity|intros []]. eapply hoare_bind; [apply capped_verify|intros []]. by apply hoare_ret.
Qed.

Lemma capped_or_stop m k : hoare capped m (fun _ => capped) (fun _ => capped) -> hoare capped k (fun _ => capped) (fun _ => capped) ->
  hoare capped (or_stop m k) (fun _ => capped) (fun _ => capped).
Proof. intros Hm Hk. unfold or_stop. eapply hoare_bind; [exact Hm|intros [s|]]; [by apply hoare_ret|exact Hk]. Qed.

Lemma capped_act out fixture run_id lead_id p gate :
  hoare capped (act format_g ev mach tree redact out fixture config run_id lead_id p gate) (fun _ => capped) (fun _ => capped).
Proof.
  unfold act. apply capped_or_stop; [apply capped_calm, calm_hold_sandboxes|]. eapply hoare_bind; [apply capped_calm; calm|intros us].
  eapply hoare_bind; [apply capped_calm; calm|intros st0]. cbv zeta. eapply hoare_bind; [apply hoare_for_each; intros; apply capped_verify_one|intros worked].
  eapply hoare_bind; [apply capped_calm, calm_tell_all_pass|intros []]. eapply hoare_bind; [apply capped_calm, calm_deliveries|intros []].
  eapply hoare_bind; [apply wake_capped|intros []]. apply capped_calm, calm_completion.
Qed.

Lemma capped_finish_turns p : hoare capped (each_agent (finish_turn p)) (fun _ => capped) (fun _ => capped).
Proof.
  unfold each_agent. eapply hoare_bind; [apply capped_calm; calm|intros ids]. eapply hoare_bind; [apply hoare_for_each; intros; apply capped_finish_turn|intros us].
  by apply hoare_ret.
Qed.

Lemma capped_round out fixture run_id lead_id p :
  hoare capped (round fold policy format_g ev mach tree redact sum_floats out fixture config run_id lead_id p) (fun _ => capped) (fun _ => capped).
Proof.
  unfold round. eapply hoare_bind; [apply capped_calm, calm_tick|intros []]. apply capped_or_stop; [apply capped_calm, calm_caps|].
  eapply hoare_bind; [apply capped_finish_turns|intros []].
  eapply hoare_bind; [apply capped_calm, calm_each_agent; intros; apply calm_relay|intros []].
  eapply hoare_bind; [apply capped_calm, calm_each_agent; intros; apply calm_serve|intros []].
  eapply hoare_bind; [apply capped_calm; calm|intros []]. eapply hoare_bind; [apply capped_calm, calm_tell_decisions|intros []].
  eapply hoare_bind; [apply capped_calm, calm_read_gate|intros gate]. apply capped_act.
Qed.

Lemma capped_rounds out fixture run_id lead_id polls :
  hoare capped (rounds fold policy format_g ev mach tree redact sum_floats out fixture config run_id lead_id polls) (fun _ => capped) (fun _ => capped).
Proof. induction polls as [|p polls IH]; [by apply hoare_ret|]. apply capped_or_stop; [apply capped_round|exact IH]. Qed.

(** *** Before the loop *)

(** No turn was taken; the subtasks of [keys] have had no Attempt, the others at
    most one. *)
Record starting (keys : list string) (st : Co) : Prop := {
  sg_agents : NoDup (map fst (co_agents st));
  sg_subtasks : NoDup (map fst (co_subtasks st));
  sg_turns : forall aid ag, (aid, ag) ∈ co_agents st -> ag_turns ag = 0 /\ ag_future ag = false;
  sg_rounds : forall key s, (key, s) ∈ co_subtasks st -> 0 <= su_rounds s <= 1 /\ (key ∈ keys -> su_rounds s = 0);
  sg_started : forall aid, turns_started aid (co_calls st) = 0;
  sg_begun : forall key, attempts_begun key (co_calls st) <= rounds_of key st /\ (key ∈ keys -> attempts_begun key (co_calls st) = 0)
}.

Lemma busy_none l : (forall aid ag, (aid, ag) ∈ l -> ag_future ag = false) -> busy_agents l = 0.
Proof.
  unfold busy_agents. induction l as [|[k a] l IH]; [done|]. intros H. cbn [List.filter snd]. rewrite (H k a) by left. apply IH. intros aid ag Hin. apply (H aid). by right.
Qed.

Lemma starting_capped keys st : starting keys st -> capped st.
Proof.
  intros [Hna Hns Ht Hr Hst Hbe]. split; [done|done| | | | |].
  4: { intros aid. rewrite Hst. unfold turns_of. destruct (at_key aid (co_agents st)) as [ag|] eqn:Ha; [|done]. apply at_key_elem in Ha. destruct (Ht aid ag Ha) as [-> _]. done. }
  4: { intros key. apply Hbe. }
  - intros aid ag Hin. destruct (Ht aid ag Hin) as [-> _]. split; [lia|by left].
  - left. apply busy_none. intros aid ag Hin. by destruct (Ht aid ag Hin).
  - intros key s Hin. destruct (Hr key s Hin) as [Hb _]. split; [lia|left; lia].
Qed.

Lemma starting_counts keys st st' : same_counts st st' -> starting keys st -> starting keys st'.
Proof.
  intros (Ha & Hs & Hc) [Hna Hns Ht Hr Hst Hbe]. split.
  5: { intros aid. by rewrite Hc. }
  5: { intros key. by rewrite Hc, (rounds_of_view _ _ _ Hs). }
  - rewrite (map_via agent_view (fun v => v.1.1) fst _ _ (fun _ => eq_refl) Ha). done.
  - rewrite (map_via round_view fst fst _ _ (fun _ => eq_refl) Hs). done.
  - intros aid ag Hin. assert (agent_view (aid, ag) ∈ map agent_view (co_agents st)) as Hv by (rewrite <- Ha; apply elem_map; eauto).
    apply elem_map in Hv as ([k a] & Hin' & [= <- -> ->]). by eapply Ht.
  - intros key s Hin. assert (round_view (key, s) ∈ map round_view (co_subtasks st)) as Hv by (rewrite <- Hs; apply elem_map; eauto).
    apply elem_map in Hv as ([k a] & Hin' & [= <- ->]). by eapply Hr.
Qed.

Definition untouched (st : Co) : Prop := forall keys, starting keys st.

Lemma untouched_add_agent out plan m : hoare untouched (add_agent out config plan m) (fun _ => untouched) (fun _ => untouched).
Proof.
  intros st Hst. unfold add_agent. rewrite lift_bind. destruct (ou_factory _ _); [|exact Hst]. rewrite modify_bind.
  assert (forall keys, starting keys (st {{ co_agents ::= set_key (mb_agent_id m) (new_agent (spec_of config m) (mb_subtask_key m)) }})) as H1.
  { intros keys. destruct (Hst keys) as [Hna Hns Ht Hr Hs0 Hbe]. split; [by apply set_key_NoDup|done| |done|done|done]. cbn.
    intros aid ag [[= -> ->]|Hin]%set_key_elem; [done|by eapply Ht]. }
  unfold when. destruct (str_eq (mb_role m) "worker"); [|exact H1]. rewrite lift_bind. destruct (List.find _ _) as [sub|]; [|exact H1]. cbn [require_some].
  intros keys. destruct (H1 keys) as [Hna Hns Ht Hr Hs0 Hbe]. split; [done|by apply set_key_NoDup|done| |done|].
  - cbn. intros key s [[= -> ->]|Hin]%set_key_elem; [cbn; split; [lia|done]|by eapply Hr].
  - intros key. assert (attempts_begun key (co_calls st) = 0) as H0 by (destruct (Hst [key]) as [_ _ _ _ _ Hb]; apply Hb; left).
    match goal with |- attempts_begun _ ?c <= rounds_of _ ?s /\ _ => change (attempts_begun key (co_calls st) <= rounds_of key s /\ (key ∈ keys -> attempts_begun key (co_calls st) = 0)) end.
    rewrite H0. split; [|done]. unfold rounds_of. destruct (at_key key _) as [s|] eqn:Ea; [|done]. apply at_key_elem in Ea. cbn in Ea.
    apply set_key_elem in Ea as [[= -> ->]|Hin]; [cbn; lia|]. destruct (Hr key s Hin) as [? _]. lia.
Qed.

Lemma starting_one_begun key keys st st2 : one_begun key (set_subtask key (fun s => s {{ su_rounds ::= Z.add 1 }}) st).1 st2 /\
  (at_key key (co_subtasks st) = None -> co_calls st2 = co_calls st) -> key ∉ keys -> starting (key :: keys) st -> starting keys st2.
Proof.
  intros [(Ha & Hs & Hc) Hno] Hk [Hna Hns Ht Hr Hst Hbe]. set (st1 := (set_subtask _ _ st).1) in *.
  assert (starting keys (st1 {{ co_calls := co_calls st2 }})) as H1; [|by eapply starting_counts; [|exact H1]].
  change (co_calls st1) with (co_calls st) in Hc.
  assert (forall k, attempts_begun k (co_calls st2) <= rounds_of k st1 /\ (k ∈ keys -> attempts_begun k (co_calls st2) = 0)) as Hbe1.
  { intros k. destruct (Hbe k) as [Hle Hz]. unfold st1. rewrite rounds_of_set. unfold str_eq. case_bool_decide as E.
    + subst k. split; [|done]. rewrite (Hz ltac:(left)) in Hle. unfold rounds_of in Hle. destruct (at_key key (co_subtasks st)) as [s|]; [|by rewrite Hno, Hz by (done || left)].
      change (su_rounds (s {{ su_rounds ::= Z.add 1 }})) with (1 + su_rounds s).
      destruct Hc as [->|[n ->]]; [rewrite Hz by left; lia|]. rewrite begun_snoc, Hz by left. destruct (str_eq key key); lia.
    + assert (attempts_begun k (co_calls st2) = attempts_begun k (co_calls st)) as ->.
      { destruct Hc as [->|[n ->]]; [done|]. rewrite begun_snoc. unfold str_eq. rewrite bool_decide_eq_false_2 by done. lia. }
      split; [done|]. intros Hin. apply Hz. by right. }
  split; [done|by cbn; rewrite keys_update|done| | |exact Hbe1].
  - cbn. intros k s (s0 & Hin & ->)%elem_update. unfold str_eq. case_bool_decide as E.
    + subst k. change (0 <= 1 + su_rounds s0 <= 1 /\ (key ∈ keys -> 1 + su_rounds s0 = 0)). destruct (Hr key s0 Hin) as [_ ->]; [|left]. split; [lia|done].
    + destruct (Hr k s0 Hin) as [Hb Hz]. split; [done|]. intros Hin'. apply Hz. by right.
  - intros aid. change (turns_started aid (co_calls st2) = 0). specialize (Hst aid). destruct Hc as [->|[n ->]]; [done|]. by rewrite started_snoc, Z.add_0_r.
Qed.

Lemma starting_first out run_id key keys : key ∉ keys ->
  hoare (starting (key :: keys)) (first_attempt out run_id key) (fun _ => starting keys) (fun _ => starting keys).
Proof.
  intros Hk st [Hna Hns Ht Hr Hst Hbe]. unfold first_attempt. cbv zeta. rewrite st_bind_run.
  pose proof (begin_counts out run_id key None "synthetic" (ou_begin out key).1 (ou_begin out key).2 st) as Hc. cbv zeta in Hc.
  assert (starting keys (begin_attempt out run_id key None "synthetic" (ou_begin out key).1 (ou_begin out key).2 st).1) as H2
    by (by eapply starting_one_begun).
  destruct (begin_attempt _ _ _ _ _ _ _ st) as [st1 [u|e]]; [|exact H2].
  pose proof (calm_fence out key st1) as Hf. cbn in H2. destruct (_fence out key st1) as [st2 [v|e]]; exact (starting_counts _ _ _ (calm_counts _ _ Hf) H2).
Qed.

Lemma starting_all out run_id keys : NoDup keys ->
  hoare (starting keys) (for_each (first_attempt out run_id) keys) (fun _ => capped) (fun _ => capped).
Proof.
  induction keys as [|key keys IH]; intros Hn; [apply hoare_ret; intros st; by apply starting_capped|]. apply NoDup_cons in Hn as [Hk Hn]. cbn [for_each].
  intros st Hst. rewrite st_bind_run. pose proof (starting_first out run_id key keys Hk st Hst) as H. destruct (first_attempt out run_id key st) as [st1 [u|e]];
    [|by eapply starting_capped]. specialize (IH Hn st1 H). rewrite st_bind_run. by destruct (for_each _ keys st1) as [st2 [us|e]].
Qed.

Lemma capped_setup out run_id plan : hoare untouched (setup out config run_id plan) (fun _ => capped) (fun _ => capped).
Proof.
  assert (forall st, untouched st -> capped st) as Hu by (intros st H; apply (starting_capped []), H).
  assert (forall A (m : ST Co A), steps same_counts m -> hoare untouched m (fun _ => untouched) (fun _ => capped)) as HU.
  { intros A m Hc s Hs. specialize (Hc s). assert (untouched (m s).1) as H by (intros keys; eapply starting_counts; [exact Hc|apply Hs]).
    destruct (m s) as [s' [x|x]]; [exact H|by apply Hu]. }
  unfold setup. eapply hoare_bind; [apply HU, counts_calm; calm|intros fixture]. eapply hoare_bind; [apply HU, counts_calm; calm|intros rows].
  eapply hoare_bind; [intros st Hst; pose proof (hoare_for_each untouched (add_agent out config plan) (fun _ => untouched) rows (fun m _ => untouched_add_agent out plan m) st Hst) as H;
    destruct (for_each _ rows st) as [st' [us|e]]; [exact H|by apply Hu]|intros us].
  eapply hoare_bind; [apply HU, counts_calm; calm|intros agents]. eapply hoare_bind; [apply HU, counts_calm; calm|intros lead_id].
  eapply (hoare_bind _ _ _ (fun _ => capped)); [|intros []].
  - intros st Hst. unfold each_subtask. rewrite gets_bind, st_bind_run. unfold subtask_keys.
    pose proof (starting_all out run_id (map fst (co_subtasks st)) (sg_subtasks _ _ (Hst [])) st (Hst _)) as H. by destruct (for_each _ _ st) as [st' [us'|e]].
  - apply capped_calm. unfold start_all, open_hub, each_agent, each_subtask, start_agent, go_live, greet. calm.
Qed.

Lemma capped_loop out run_id plan polls w : capped (loop fold policy format_g ev mach tree redact sum_floats out config run_id plan polls (start out w)).1.
Proof.
  unfold loop. rewrite st_bind_run. assert (untouched (start out w)) as Hu.
  { intros keys. split; cbn; [constructor|constructor|by intros aid ag ?%not_elem_of_nil|by intros key s ?%not_elem_of_nil|done|done]. }
  pose proof (capped_setup out run_id plan _ Hu) as H. destruct (setup out config run_id plan (start out w)) as [st [fl|e]]; [|exact H].
  pose proof (capped_rounds out fl.1 run_id fl.2 polls st H) as H'. by destruct (rounds _ _ _ _ _ _ _ _ _ _ _ _ _ polls st) as [st' [s|e]].
Qed.
End bounds.

Module BoundsDemo.
(** The plan of the run of [RunDemo]. *)
Definition plan : PlanRow := match d_plans RunDemo.db !! "P" with
  | Some p => p
  | None => {| pl_id := "P"; pl_title := ""; pl_objective_id := None; pl_status := ""; pl_content := JNull; pl_content_sha256 := ""; pl_proposed_by := "";
      pl_proposed_by_casefold := None; pl_created_at := DateTime 0 true; pl_decision_request_id := ""; pl_decided_at := None |}
  end.
End BoundsDemo.

(** A count below a cap is within the cap's range, and one within the smallest
    cap is within every cap. *)
Lemma below_cap_met j lo hi n : in_range lo j hi -> le_Z j (n - 1) = Ok false -> n <= hi /\ forall k, j = JInt k -> n <= k.
Proof.
  intros Hj Hn. split; [pose proof (below_cap _ _ _ _ Hj Hn); lia|]. intros k ->. unfold le_Z in Hn. cbn in Hn. injection Hn as Hn. boolify. lia.
Qed.
Lemma one_met j hi n : in_range 1 j hi -> n <= 1 -> n <= hi /\ forall k, j = JInt k -> n <= k.
Proof.
  intros Hj Hn. pose proof Hj as [H1 H2]%and_then_Ok. split.
  - destruct (Z.lt_ge_cases 1 hi); [lia|]. destruct (Z.eq_dec hi 1); [lia|]. exfalso. unfold Z_le, le_Z in *. destruct (as_num j) as [[z|f]|]; [| |done].
    + injection H1 as H1. injection H2 as H2. boolify. lia.
    + injection H1 as H1. injection H2 as H2. assert (f_le_Z f 0 = true) as H0.
      { destruct (f_le_Z f 0) eqn:E0; [done|]. rewrite (f_le_Z_mono f hi 0) in H2; [done|lia|done]. }
      unfold f_le_Z, f_cmp_Z in H0. unfold f_cmp_Z in H1. destruct f as [s|s| |s m e]; try done; [by destruct s|]. destruct (Z.leb_spec 0 e).
      * destruct (Z.compare_spec ((if s then Zneg m else Zpos m) * 2 ^ e) 0), (Z.compare_spec ((if s then Zneg m else Zpos m) * 2 ^ e) 1); done || lia.
      * assert (0 < 2 ^ (- e)) by (apply Z.pow_pos_nonneg; lia).
        destruct (Z.compare_spec (if s then Zneg m else Zpos m) (0 * 2 ^ (- e))), (Z.compare_spec (if s then Zneg m else Zpos m) (1 * 2 ^ (- e))); done || nia.
  - intros k ->. unfold Z_le in H1. cbn in H1. injection H1 as H1. boolify. lia.
Qed.

(** C34: a run stays within its configuration, however long it has gone on,
    whatever the agents and the other sessions did, and also when an exception
    ends it.  No agent was started on more turns than its cap, and never on more
    than 30; no more turns are in flight than the cap, and never more than 8;
    for no subtask was [ExecutionService.begin], which creates one Attempt at
    most, called more often than the cap on its rounds of verification, and
    never more than 5 times.  What the coordinator counts of each agent and
    subtask is at least what it did and within the same caps.  A cap that is a
    whole number is met exactly. *)
Theorem run_bounds fold {P} {HP : DecisionPolicy P} policy format_g ev mach tree redact sum_floats out config run_id plan polls w st r :
  valid_config config -> loop fold policy format_g ev mach tree redact sum_floats out config run_id plan polls (start out w) = (st, r) ->
  (forall aid, turns_started aid (co_calls st) <= 30 /\ forall n, max_turns_per_agent config = JInt n -> turns_started aid (co_calls st) <= n) /\
  (forall key, attempts_begun key (co_calls st) <= 5 /\ forall n, max_verify_rounds config = JInt n -> attempts_begun key (co_calls st) <= n) /\
  busy_agents (co_agents st) <= 8 /\ (forall n, max_concurrent_turns config = JInt n -> busy_agents (co_agents st) <= n) /\
  (forall aid ag, (aid, ag) ∈ co_agents st -> turns_started aid (co_calls st) <= ag_turns ag <= 30 /\ forall n, max_turns_per_agent config = JInt n -> ag_turns ag <= n) /\
  (forall key s, (key, s) ∈ co_subtasks st -> attempts_begun key (co_calls st) <= su_rounds s <= 5 /\ forall n, max_verify_rounds config = JInt n -> su_rounds s <= n).
Proof.
  intros Hv Hl. pose proof (capped_loop fold policy format_g ev mach tree redact sum_floats config out run_id plan polls w) as Hc. rewrite Hl in Hc. cbn [fst] in Hc.
  destruct Hv as [_ Hcon _ _ _ Htur Hrou _ _]. destruct Hc as [Hna Hns Ht Hf Hr Hst Hbe].
  assert (forall aid ag, (aid, ag) ∈ co_agents st -> 0 <= ag_turns ag <= 30 /\ forall n, max_turns_per_agent config = JInt n -> ag_turns ag <= n) as Hturns.
  { intros aid ag Hin. destruct (Ht aid ag Hin) as [Hge [H0|H1]]; [|pose proof (below_cap_met _ _ _ _ Htur H1) as [? ?]; split; [lia|done]].
    pose proof (one_met _ 30 (ag_turns ag) Htur ltac:(lia)) as [? ?]. split; [lia|done]. }
  assert (forall key s, (key, s) ∈ co_subtasks st -> 0 <= su_rounds s <= 5 /\ forall n, max_verify_rounds config = JInt n -> su_rounds s <= n) as Hrounds.
  { intros key s Hin. destruct (Hr key s Hin) as [Hge [H0|H1]]; [pose proof (one_met _ 5 _ Hrou H0) as [? ?]; split; [lia|done]|].
    pose proof (below_cap_met _ _ _ _ Hrou (Z_lt_le _ _ H1)) as [? ?]. split; [lia|done]. }
  split_and!.
  - intros aid. specialize (Hst aid). unfold turns_of in Hst. destruct (at_key aid (co_agents st)) as [ag|] eqn:Ha.
    + apply at_key_elem in Ha. destruct (Hturns aid ag Ha) as [Hb Hn]. split; [lia|]. intros n E. specialize (Hn n E). lia.
    + pose proof (one_met _ 30 0 Htur ltac:(lia)) as [_ Hn]. split; [lia|]. intros n E. specialize (Hn n E). lia.
  - intros key. specialize (Hbe key). unfold rounds_of in Hbe. destruct (at_key key (co_subtasks st)) as [s|] eqn:Ha.
    + apply at_key_elem in Ha. destruct (Hrounds key s Ha) as [Hb Hn]. split; [lia|]. intros n E. specialize (Hn n E). lia.
    + pose proof (one_met _ 5 0 Hrou ltac:(lia)) as [_ Hn]. split; [lia|]. intros n E. specialize (Hn n E). lia.
  - destruct Hf as [->|Hf]; [lia|]. exact (proj1 (below_cap_met _ _ _ _ Hcon Hf)).
  - intros n Hn. destruct Hf as [->|Hf]; [|exact (proj2 (below_cap_met _ _ _ _ Hcon Hf) n Hn)]. exact (proj2 (one_met _ 8 0 Hcon ltac:(lia)) n Hn).
  - intros aid ag Hin. destruct (Hturns aid ag Hin) as [Hb Hn]. specialize (Hst aid). split; [|exact Hn].
    unfold turns_of in Hst. destruct (at_key aid (co_agents st)) as [ag'|] eqn:Ha; [|by apply at_key_None in Ha; destruct Ha; apply elem_map; exists (aid, ag)].
    rewrite (at_key_unique _ _ _ _ Hna Hin Ha) in *. lia.
  - intros key s Hin. destruct (Hrounds key s Hin) as [Hb Hn]. specialize (Hbe key). split; [|exact Hn].
    unfold rounds_of in Hbe. destruct (at_key key (co_subtasks st)) as [s'|] eqn:Ha; [|by apply at_key_None in Ha; destruct Ha; apply elem_map; exists (key, s)].
    rewrite (at_key_unique _ _ _ _ Hns Hin Ha) in *. lia.
Qed.

Lemma run_bounds_witness : exists st r, (forall aid, turns_started aid (co_calls st) <= 30) /\ co_calls st <> [] /\
  loop str_lower no_auto_resolve (fun _ => "30") EvaluateDemo.ev (fun _ => EvaluateDemo.mach) (fun _ => RevisionDemo.t2) (fun s => s) (foldl f_add f_zero)
    RunDemo.outside default_config RunDemo.run_id BoundsDemo.plan RunDemo.polls (start RunDemo.outside RunDemo.created.1) = (st, r) /\ r = Ok (Some Succeeded).
Proof.
  assert (valid_config default_config) as Hv by (apply (check_config_Ok _ ()); vm_compute; reflexivity).
  assert (match loop str_lower no_auto_resolve (fun _ => "30") EvaluateDemo.ev (fun _ => EvaluateDemo.mach) (fun _ => RevisionDemo.t2) (fun s => s) (foldl f_add f_zero)
    RunDemo.outside default_config RunDemo.run_id BoundsDemo.plan RunDemo.polls (start RunDemo.outside RunDemo.created.1) with (st, Ok (Some Succeeded)) => negb (Nat.eqb (length (co_calls st)) 0) | _ => false end = true) as Hr
    by (vm_compute; reflexivity).
  destruct (loop str_lower no_auto_resolve (fun _ => "30") EvaluateDemo.ev (fun _ => EvaluateDemo.mach) (fun _ => RevisionDemo.t2) (fun s => s) (foldl f_add f_zero)
    RunDemo.outside default_config RunDemo.run_id BoundsDemo.plan RunDemo.polls (start RunDemo.outside RunDemo.created.1)) as [st r] eqn:Hx.
  exists st, r. destruct (run_bounds _ _ _ _ _ _ _ _ _ _ _ _ _ _ _ _ Hv Hx) as (Ht & _).
  split; [intros aid; exact (proj1 (Ht aid))|]. split; [|split; [reflexivity|]]; cbv beta iota in Hr; destruct r as [[[]|]|]; first [discriminate Hr|reflexivity|intros E; rewrite E in Hr; discriminate Hr].
Defined.
