(* ===== verification/JsonParse.v ===== *)
(** * JsonParse: what [json.loads] reads

    The decoder of Python's [json] module on texts whose characters are code
    points below 256: an escape that names a larger one is refused here.  The
    round trip: the text of a value without floats reads back as the value. *)

From S2P Require Import Prelude Floats Json Db EvidenceMac JsonText RunConfig.

(** ** The decoder *)

Definition is_ws (c : ascii) : bool := existsb (fun n => (nat_of_ascii c =? n)%nat) [32; 9; 10; 13]%nat.

(** The text after its leading white space. *)
Fixpoint ws (s : string) : string :=
  match s with
  | String c t => if is_ws c then ws t else s
  | EmptyString => s
  end.

Definition hex_digit (c : ascii) : option Z :=
  if is_digit c then Some (digit_value c)
  else
    let n := Z.of_nat (nat_of_ascii (char_lower c)) - 87 in
    if (10 <=? n) && (n <=? 15) then Some n else None.

Definition code_unit (a b c d : ascii) : option Z :=
  a ← hex_digit a; b ← hex_digit b; c ← hex_digit c; d ← hex_digit d;
  Some (((a * 16 + b) * 16 + c) * 16 + d).

(** The character after a backslash, when it is not [u]. *)
Definition unescape (c : ascii) : option ascii :=
  match nat_of_ascii c with
  | 34%nat | 92%nat | 47%nat => Some c
  | 98%nat => Some (ascii_of_nat 8)
  | 102%nat => Some (ascii_of_nat 12)
  | 110%nat => Some (ascii_of_nat 10)
  | 114%nat => Some (ascii_of_nat 13)
  | 116%nat => Some (ascii_of_nat 9)
  | _ => None
  end.

(** What follows an opening quote: the string, and the text after its closing
    quote. *)
Fixpoint str_body (s : string) : option (string * string) :=
  match s with
  | EmptyString => None
  | String c r =>
      if bool_decide (c = dquote) then Some (EmptyString, r)
      else if bool_decide (c = backslash) then
        match r with
        | EmptyString => None
        | String e r =>
            if str_eq (char_str e) "u" then
              match r with
              | String h1 (String h2 (String h3 (String h4 r))) =>
                  z ← code_unit h1 h2 h3 h4;
                  if z <? 256 then '(t, r) ← str_body r; Some (String (ascii_of_nat (Z.to_nat z)) t, r) else None
              | _ => None
              end
            else x ← unescape e; '(t, r) ← str_body r; Some (String x t, r)
        end
      else if (nat_of_ascii c <? 32)%nat then None
      else '(t, r) ← str_body r; Some (String c t, r)
  end.

(** The longest prefix of digits, and the rest. *)
Fixpoint span_digits (s : string) : string * string :=
  match s with
  | String c t => if is_digit c then let '(a, b) := span_digits t in (String c a, b) else (EmptyString, s)
  | EmptyString => (EmptyString, EmptyString)
  end.

(** The number that a text of digits spells, after [acc]. *)
Fixpoint digits_value (acc : Z) (s : string) : Z :=
  match s with
  | String c t => digits_value (10 * acc + digit_value c) t
  | EmptyString => acc
  end.

(** [(\.[0-9]+)?] *)
Definition fraction (s : string) : string * string :=
  match s with
  | String c t =>
      if str_eq (char_str c) "." then
        let '(ds, r) := span_digits t in if str_truthy ds then (String c ds, r) else (EmptyString, s)
      else (EmptyString, s)
  | EmptyString => (EmptyString, s)
  end.

(** [([eE][-+]?[0-9]+)?] *)
Definition exponent (s : string) : string * string :=
  match s with
  | String c t =>
      if str_eq (str_lower (char_str c)) "e" then
        let '(neg, u) := sign_of t in
        let '(ds, r) := span_digits u in
        if str_truthy ds then (String c ((if neg then "-" else "") +:+ ds), r) else (EmptyString, s)
      else (EmptyString, s)
  | EmptyString => (EmptyString, s)
  end.

(** An [int] text of more digits raises [ValueError]. *)
Definition MAX_STR_DIGITS : nat := 4300.

Definition number (s : string) : option (json * string) :=
  let '(neg, u) := match s with
    | String c t => if str_eq (char_str c) "-" then (true, t) else (false, s)
    | EmptyString => (false, s)
    end in
  let '(whole, r) := match u with
    | String c t => if str_eq (char_str c) "0" then (char_str c, t) else span_digits u
    | EmptyString => (EmptyString, u)
    end in
  if negb (str_truthy whole) then None
  else
    let '(frac, r) := fraction r in
    let '(exp, r) := exponent r in
    let sign := if neg then "-" else "" in
    if str_truthy frac || str_truthy exp then
      f ← py_float (sign +:+ whole +:+ frac +:+ exp); Some (JFloat f, r)
    else if (MAX_STR_DIGITS <? String.length whole)%nat then None
    else let z := digits_value 0 whole in Some (JInt (if neg then - z else z), r).

(** The constants, the two infinities and NaN among them. *)
Definition constants : list (string * json) :=
  [("null", JNull); ("true", JBool true); ("false", JBool false); ("NaN", JFloat S754_nan);
   ("Infinity", JFloat (S754_infinity false)); ("-Infinity", JFloat (S754_infinity true))].

Fixpoint constant (l : list (string * json)) (s : string) : option (json * string) :=
  match l with
  | [] => None
  | (name, v) :: l =>
      match strip_prefix name s with
      | Some r => Some (v, r)
      | None => constant l s
      end
  end.

(** The elements of an array that is not empty. *)
Fixpoint elements (value : string -> option (json * string)) (fuel : nat) (s : string) : option (list json * string) :=
  match fuel with
  | O => None
  | S fuel =>
      '(v, r) ← value s;
      match ws r with
      | String c r =>
          if str_eq (char_str c) "]" then Some ([v], r)
          else if str_eq (char_str c) "," then '(l, r) ← elements value fuel (ws r); Some (v :: l, r)
          else None
      | EmptyString => None
      end
  end.

(** The pairs of an object that is not empty. *)
Fixpoint pairs (value : string -> option (json * string)) (fuel : nat) (s : string) : option (list (string * json) * string) :=
  match fuel, s with
  | S fuel, String q s =>
      if bool_decide (q = dquote) then
        '(k, r) ← str_body s;
        match ws r with
        | String c r =>
            if str_eq (char_str c) ":" then
              '(v, r) ← value (ws r);
              match ws r with
              | String c r =>
                  if str_eq (char_str c) "}" then Some ([(k, v)], r)
                  else if str_eq (char_str c) "," then '(l, r) ← pairs value fuel (ws r); Some ((k, v) :: l, r)
                  else None
              | EmptyString => None
              end
            else None
        | EmptyString => None
        end
      else None
  | _, _ => None
  end.

(** One value at the start of the text, and what follows it. *)
Fixpoint value (fuel : nat) (s : string) : option (json * string) :=
  match fuel, s with
  | S fuel, String c r =>
      if bool_decide (c = dquote) then '(x, r) ← str_body r; Some (JStr x, r)
      else if str_eq (char_str c) "[" then
        match ws r with
        | String d t =>
            if str_eq (char_str d) "]" then Some (JArr [], t)
            else '(l, t) ← elements (value fuel) (S (String.length r)) (ws r); Some (JArr l, t)
        | EmptyString => None
        end
      else if str_eq (char_str c) "{" then
        match ws r with
        | String d t =>
            if str_eq (char_str d) "}" then Some (JObj [], t)
            else '(l, t) ← pairs (value fuel) (S (String.length r)) (ws r); Some (JObj (kv_update [] l), t)
        | EmptyString => None
        end
      else match constant constants s with
      | Some x => Some x
      | None => number s
      end
  | _, _ => None
  end.

(** [json.loads(text)]; [None] where it raises. *)
Definition loads (s : string) : option json :=
  '(v, r) ← value (S (String.length s)) (ws s);
  if str_truthy (ws r) then None else Some v.

Definition quoted (s : string) : string := quote true s.
Example loads_tests :
  map loads ["[1, -20 ,0]"; " {} "; "[1,]"; "01"; "-"; "1.5e1"; "nul"; "true"; "[[],[null]]"] =
    [Some (JArr [JInt 1; JInt (-20); JInt 0]); Some (JObj []); None; None; None; Some (JFloat (f_ratio 15 1)); None; Some (JBool true);
     Some (JArr [JArr []; JArr [JNull]])] /\
  loads ("{" +:+ quoted "a" +:+ ":1," +:+ quoted "b" +:+ " : " +:+ quoted "x/y" +:+ "," +:+ quoted "a" +:+ ":2}") =
    Some (JObj [("a", JInt 2); ("b", JStr "x/y")]).
Proof. split; vm_compute; reflexivity. Qed.

(** ** Texts read back *)

(** Values that a text determines: no floats, distinct keys, integers within
    the digit limit. *)
Fixpoint loadable (j : json) : bool :=
  match j with
  | JFloat _ => false
  | JInt z => (String.length (pretty (Z.abs_N z)) <=? MAX_STR_DIGITS)%nat
  | JArr l => forallb loadable l
  | JObj kvs => bool_decide (NoDup (map fst kvs)) && forallb (fun kv => loadable kv.2) kvs
  | _ => true
  end.

Lemma loadable_plain j : loadable j = true -> plain j = true.
Proof.
  induction j as [| | | | |l IH|l IH] using json_nested_ind; try done; cbn [loadable plain]; rewrite ?andb_true_iff, !forallb_forall.
  - rewrite Forall_forall in IH. intros H x Hx. apply IH; [by apply list_elem_of_In|auto].
  - rewrite Forall_forall in IH. intros [_ H] x Hx. apply IH; [by apply list_elem_of_In|auto].
Qed.

Lemma str_body_char ea c rest :
  str_body (escape_char ea c +:+ rest) = ('(t, r) ← str_body rest; Some (String c t, r)).
Proof. destruct ea, c as [[] [] [] [] [] [] [] []]; reflexivity. Qed.

Lemma str_body_escape ea s r : str_body (escape ea s +:+ char_str dquote +:+ r) = Some (s, r).
Proof.
  induction s as [|c s IH]; [reflexivity|]. cbn [escape]. by rewrite str_app_assoc, str_body_char, IH.
Qed.

Lemma quote_app ea s r : quote ea s +:+ r = String dquote (escape ea s +:+ char_str dquote +:+ r).
Proof. unfold quote. by rewrite !str_app_assoc. Qed.

(** *** Integers *)

Lemma digits_value_pretty (n : N) s : digits_value 0 (pretty_N_go n s) = digits_value (Z.of_N n) s.
Proof.
  revert s. induction (N.lt_wf_0 n) as [n _ IH]. intros s. destruct (decide (0 < n)%N) as [Hn|Hn].
  - rewrite pretty_N_go_step by done. rewrite IH by (apply N.div_lt; lia). cbn [digits_value]. f_equal.
    assert (forall k, (k < 10)%N -> digit_value (pretty_N_char k) = Z.of_N k) as Hd.
    { intros k Hk. assert (k = 0 \/ k = 1 \/ k = 2 \/ k = 3 \/ k = 4 \/ k = 5 \/ k = 6 \/ k = 7 \/ k = 8 \/ k = 9)%N as Hc by lia.
      by repeat destruct Hc as [->|Hc]; subst. }
    rewrite Hd by (apply N.mod_lt; lia). pose proof (N.div_mod n 10 ltac:(lia)). lia.
  - assert (n = 0%N) as -> by lia. by rewrite pretty_N_go_0.
Qed.

Lemma pretty_N_value (n : N) : digits_value 0 (pretty n) = Z.of_N n.
Proof.
  change (pretty n) with (if decide (n = 0%N) then "0" else pretty_N_go n ""). case_decide as H; [by rewrite H|].
  by rewrite digits_value_pretty.
Qed.

(** A positive number's text does not start with a zero. *)
Lemma pretty_N_head (n : N) s : (0 < n)%N -> exists c t, pretty_N_go n s = String c t /\ c <> ascii_of_nat 48.
Proof.
  revert s. induction (N.lt_wf_0 n) as [n _ IH]. intros s Hn. rewrite pretty_N_go_step by done.
  destruct (decide (0 < n / 10)%N) as [Hd|Hd]; [apply IH; [apply N.div_lt; lia|done]|].
  assert (n / 10 = 0)%N as Hz by (by apply N.le_0_r, N.nlt_ge). rewrite Hz, pretty_N_go_0. eexists _, _. split; [done|].
  apply N.div_small_iff in Hz; [|lia]. rewrite N.mod_small by done.
  assert (n = 1 \/ n = 2 \/ n = 3 \/ n = 4 \/ n = 5 \/ n = 6 \/ n = 7 \/ n = 8 \/ n = 9)%N as Hc by lia.
  by repeat destruct Hc as [->|Hc]; subst.
Qed.

Lemma span_digits_app s r : str_forallb is_digit s = true -> (forall c t, r = String c t -> is_digit c = false) ->
  span_digits (s +:+ r) = (s, r).
Proof.
  intros Hs Hr. induction s as [|c s IH]; rewrite ?str_app_nil, ?str_app_cons; cbn [span_digits str_forallb] in *.
  - destruct r as [|c r]; [done|]. cbn [span_digits]. by rewrite (Hr c r eq_refl).
  - apply andb_true_iff in Hs as [-> Hs]. by rewrite IH.
Qed.

Definition after_int (c : ascii) : Prop := is_digit c = false /\ str_eq (char_str c) "." = false /\ str_eq (str_lower (char_str c)) "e" = false.

Lemma stops_after_int r c t : stops r = true -> r = String c t -> after_int c.
Proof.
  intros H ->. unfold stops, str_has_char in H. rewrite !orb_true_iff, !bool_decide_eq_true in H.
  by destruct H as [->|[->|[->|H]]].
Qed.

Lemma int_tail r : stops r = true -> fraction r = (EmptyString, r) /\ exponent r = (EmptyString, r).
Proof.
  intros H. destruct r as [|c r]; [done|]. destruct (stops_after_int _ c r H eq_refl) as (_ & Hp & He).
  unfold fraction, exponent. by rewrite Hp, He.
Qed.

(** The digits of [n], as [number] splits them off. *)
Lemma whole_digits (n : N) r : stops r = true ->
  match pretty n +:+ r with
  | String c t => if str_eq (char_str c) "0" then (char_str c, t) else span_digits (pretty n +:+ r)
  | EmptyString => (EmptyString, pretty n +:+ r)
  end = (pretty n, r).
Proof.
  intros Hr. assert (span_digits (pretty n +:+ r) = (pretty n, r)) as Hs.
  { apply span_digits_app; [apply pretty_N_digits|]. intros c t E. exact (proj1 (stops_after_int r c t Hr E)). }
  destruct (decide (n = 0%N)) as [->|Hn]; [done|].
  assert (exists c t, pretty n = String c t /\ c <> ascii_of_nat 48) as (c & t & E & Hc).
  { change (pretty n) with (if decide (n = 0%N) then "0" else pretty_N_go n ""). rewrite decide_False by done.
    apply pretty_N_head. lia. }
  rewrite E in Hs |- *. rewrite str_app_cons in Hs |- *.
  assert (str_eq (char_str c) "0" = false) as ->; [|done].
  apply bool_decide_eq_false. unfold char_str. intros [=]. by subst.
Qed.

Lemma digit_not_dash (n : N) r c t : pretty n +:+ r = String c t -> str_eq (char_str c) "-" = false.
Proof.
  pose proof (pretty_N_digits n) as Hd. pose proof (pretty_N_nonempty n) as Hne. destruct (pretty n) as [|d s]; [done|].
  rewrite str_app_cons. intros [= -> _]. cbn [str_forallb] in Hd. apply andb_true_iff in Hd as [Hd _].
  apply bool_decide_eq_false. unfold char_str. intros [= ->]. done.
Qed.

Lemma number_pretty z r : (String.length (pretty (Z.abs_N z)) <= MAX_STR_DIGITS)%nat -> stops r = true ->
  number (pretty z +:+ r) = Some (JInt z, r).
Proof.
  intros Hlen Hr. destruct (int_tail r Hr) as [Hf He].
  assert (forall neg : bool, (match (let '(whole, r0) := match pretty (Z.abs_N z) +:+ r with
      | String c t => if str_eq (char_str c) "0" then (char_str c, t) else span_digits (pretty (Z.abs_N z) +:+ r)
      | EmptyString => (EmptyString, pretty (Z.abs_N z) +:+ r) end in
    if negb (str_truthy whole) then None
    else let '(frac, r) := fraction r0 in let '(exp, r) := exponent r in let sign := if neg then "-" else "" in
      if str_truthy frac || str_truthy exp then f ← py_float (sign +:+ whole +:+ frac +:+ exp); Some (JFloat f, r)
      else if (MAX_STR_DIGITS <? String.length whole)%nat then None
      else let z := digits_value 0 whole in Some (JInt (if neg then - z else z), r)) with x => x end)
    = Some (JInt (if neg then - Z.abs z else Z.abs z), r)) as H.
  { intros neg. rewrite whole_digits by done. pose proof (pretty_N_nonempty (Z.abs_N z)) as Hne.
    assert (str_truthy (pretty (Z.abs_N z)) = true) as -> by (by destruct (pretty (Z.abs_N z))).
    cbn [negb]. rewrite Hf, He. cbn [str_truthy orb].
    destruct (Nat.ltb_spec MAX_STR_DIGITS (String.length (pretty (Z.abs_N z)))); [lia|].
    rewrite pretty_N_value, N2Z.inj_abs_N. done. }
  unfold number. destruct z as [|p|p].
  - specialize (H false). exact H.
  - specialize (H false). change (pretty (Zpos p)) with (pretty (Npos p)). change (Z.abs_N (Zpos p)) with (Npos p) in H.
    destruct (pretty (Npos p) +:+ r) as [|c t] eqn:E; [exact H|]. rewrite (digit_not_dash _ _ _ _ E). exact H.
  - specialize (H true). exact H.
Qed.

(** *** Lists, objects and values *)

Lemma kv_set_new k v d : k ∉ map fst d -> kv_set k v d = d ++ [(k, v)].
Proof.
  induction d as [|[k' v'] d IH]; [done|]. cbn [map fst kv_set app]. rewrite not_elem_of_cons. intros [Hk Hd].
  unfold str_eq. rewrite bool_decide_eq_false_2 by congruence. by rewrite IH.
Qed.

Lemma kv_update_new d l : NoDup (map fst (d ++ l)) -> kv_update d l = d ++ l.
Proof.
  revert d. induction l as [|[k v] l IH]; intros d H; cbn [kv_update foldl]; [by rewrite app_nil_r|].
  change (foldl _ _ l) with (kv_update (kv_set k v d) l). rewrite kv_set_new.
  - rewrite IH; [by rewrite <- app_assoc|]. by rewrite <- app_assoc.
  - rewrite map_app in H. apply NoDup_app in H as (_ & H & _). intros Hin. apply (H k Hin). cbn [map fst]. left.
Qed.

(** No value starts with white space. *)
Lemma ws_text ea j r : plain j = true -> ws (text ea j +:+ r) = text ea j +:+ r.
Proof.
  intros Hp. destruct (text_kind ea j Hp) as (c & s & -> & Hc). rewrite str_app_cons. cbn [ws].
  assert (is_ws c = false) as ->; [|done]. destruct (is_ws c) eqn:E; [|done]. exfalso.
  destruct c as [[] [] [] [] [] [] [] []]; vm_compute in E; try discriminate E; destruct j as [|[]| | | | |]; discriminate Hc.
Qed.

Definition reads (v : string -> option (json * string)) (ea : bool) (j : json) : Prop :=
  forall r, stops r = true -> v (text ea j +:+ r) = Some (j, r).

Lemma elements_join v ea l r fuel : l <> [] -> (length l <= fuel)%nat -> Forall (fun j => plain j = true /\ reads v ea j) l ->
  elements v fuel (str_join "," (map (text ea) l) +:+ "]" +:+ r) = Some (l, r).
Proof.
  intros Hl Hfuel H. revert fuel Hl Hfuel. induction H as [|j l [_ Hj] H IH]; intros [|fuel] Hne Hfuel; cbn [length] in Hfuel; try done; [lia|].
  cbn [map]. rewrite join_more. cbn [elements]. rewrite Hj by by apply more_stops.
  destruct l as [|k l]; [done|]. cbn [map more]. rewrite str_app_cons, str_app_nil.
  assert (plain k = true) as Hk by (by inversion_clear H as [|? ? []]).
  change (mbind _ (Some _)) with (
    '(l0, r0) ← elements v fuel (ws (str_join "," (map (text ea) (k :: l)) +:+ "]" +:+ r)); Some (j :: l0, r0)).
  assert (ws (str_join "," (map (text ea) (k :: l)) +:+ "]" +:+ r) = str_join "," (map (text ea) (k :: l)) +:+ "]" +:+ r) as ->.
  { cbn [map]. rewrite join_more. by apply ws_text. }
  rewrite IH; [done|done|cbn [length] in *; lia].
Qed.

Lemma pairs_join v ea l r fuel : l <> [] -> (length l <= fuel)%nat -> Forall (fun kv => plain kv.2 = true /\ reads v ea kv.2) l ->
  pairs v fuel (str_join "," (map (member ea) l) +:+ "}" +:+ r) = Some (l, r).
Proof.
  intros Hl Hfuel H. revert fuel Hl Hfuel. induction H as [|[k j] l [Hp Hj] H IH]; intros [|fuel] Hne Hfuel; cbn [length] in Hfuel; try done; [lia|].
  cbn [fst snd] in *. cbn [map]. rewrite join_more. unfold member at 1. cbn [fst snd]. rewrite !str_app_assoc, quote_app.
  cbn [pairs]. rewrite bool_decide_eq_true_2 by done. rewrite str_body_escape.
  assert (forall x, ws (":" +:+ x) = String (ascii_of_nat 58) x) as Hc by done.
  change (mbind _ (Some _)) with (match ws (":" +:+ text ea j +:+ more "}" r (map (member ea) l)) with
    | String c r0 => if str_eq (char_str c) ":" then '(v0, r1) ← v (ws r0);
        match ws r1 with
        | String c r0 => if str_eq (char_str c) "}" then Some ([(k, v0)], r0)
            else if str_eq (char_str c) "," then '(l0, r2) ← pairs v fuel (ws r0); Some ((k, v0) :: l0, r2) else None
        | EmptyString => None end else None
    | EmptyString => None end).
  rewrite Hc. change (str_eq (char_str (ascii_of_nat 58)) ":") with true. cbv iota. rewrite ws_text, Hj; [|by apply more_stops|done].
  destruct l as [|k2 l]; [done|]. cbn [map more].
  change (mbind _ (Some _)) with (
    '(l0, r0) ← pairs v fuel (ws (str_join "," (map (member ea) (k2 :: l)) +:+ "}" +:+ r)); Some ((k, j) :: l0, r0)).
  assert (ws (str_join "," (map (member ea) (k2 :: l)) +:+ "}" +:+ r) = str_join "," (map (member ea) (k2 :: l)) +:+ "}" +:+ r) as ->.
  { cbn [map]. rewrite join_more. unfold member at 1 3. by rewrite !str_app_assoc, quote_app. }
  rewrite IH; [done|done|cbn [length] in *; lia].
Qed.

(** Texts of the parts are no longer than the text of the whole. *)
Lemma length_append a b : String.length (a +:+ b) = (String.length a + String.length b)%nat.
Proof. induction a as [|c a IH]; rewrite ?str_app_nil, ?str_app_cons; [done|]. cbn [String.length]. by rewrite IH. Qed.

Lemma join_length sep l x : x ∈ l -> (String.length x <= String.length (str_join sep l))%nat.
Proof.
  induction l as [|y l IH]; [by intros []%elem_of_nil|]. destruct l as [|z l].
  - intros ->%list_elem_of_singleton. done.
  - change (str_join sep (y :: z :: l)) with (y +:+ sep +:+ str_join sep (z :: l)). rewrite !length_append.
    intros [->|H]%elem_of_cons; [lia|]. specialize (IH H). lia.
Qed.

Lemma join_count l : (length l <= S (String.length (str_join "," l)))%nat.
Proof.
  induction l as [|y [|z l] IH]; [cbn; lia..|].
  change (str_join "," (y :: z :: l)) with (y +:+ "," +:+ str_join "," (z :: l)). rewrite !length_append. cbn [length String.length] in *. lia.
Qed.

Lemma value_int fuel z r : loadable (JInt z) = true -> stops r = true -> value (S fuel) (pretty z +:+ r) = Some (JInt z, r).
Proof.
  intros Hj Hr. cbn [loadable] in *. apply Nat.leb_le in Hj. pose proof (number_pretty z r Hj Hr) as Hn.
  assert (constant constants (pretty z +:+ r) = None) as Hc.
  { assert (forall n : N, constant constants (pretty n +:+ r) = None /\ strip_prefix "Infinity" (pretty n +:+ r) = None) as Hd.
    { intros n. pose proof (pretty_N_digits n) as Hd. pose proof (pretty_N_nonempty n) as Hne. destruct (pretty n) as [|c s]; [done|].
      cbn [str_forallb] in Hd. apply andb_true_iff in Hd as [Hd _]. rewrite str_app_cons.
      destruct c as [[] [] [] [] [] [] [] []]; vm_compute in Hd; try discriminate Hd; by split. }
    destruct z as [|p|p]; [done|exact (proj1 (Hd (Npos p)))|].
    change (pretty (Zneg p)) with ("-" +:+ pretty (Npos p)). rewrite str_app_assoc.
    change (constant constants ("-" +:+ pretty (Npos p) +:+ r)) with
      (match strip_prefix "Infinity" (pretty (Npos p) +:+ r) with Some t => Some (JFloat (S754_infinity true), t) | None => None end).
    by rewrite (proj2 (Hd (Npos p))). }
  destruct (text_kind true (JInt z) eq_refl) as (c & s & E & Hk). cbn [text kind_char] in E, Hk. rewrite E, str_app_cons in Hn, Hc |- *.
  cbn [value]. rewrite Hc. destruct c as [[] [] [] [] [] [] [] []]; vm_compute in Hk; try discriminate Hk; exact Hn.
Qed.

(** A list of parts and its closing bracket: neither empty nor blank. *)
Lemma value_arr ea fuel l r : Forall (fun j => plain j = true /\ reads (value fuel) ea j) l ->
  value (S fuel) (text ea (JArr l) +:+ r) = Some (JArr l, r).
Proof.
  intros Hk. cbn [text]. rewrite !str_app_assoc. destruct l as [|x l]; [done|]. set (k := x :: l) in *.
  assert (exists d t, str_join "," (map (text ea) k) +:+ "]" +:+ r = String d t /\ ws (String d t) = String d t /\ str_eq (char_str d) "]" = false) as (d & t & E & Hw & Hd).
  { subst k. cbn [map]. rewrite join_more. inversion_clear Hk as [|? ? [Hx _] _]. pose proof (ws_text ea x (more "]" r (map (text ea) l)) Hx) as Hw.
    destruct (text_kind ea x Hx) as (d & t & E & Hd). rewrite E, str_app_cons in Hw |- *. eexists _, _. split; [reflexivity|]. split; [exact Hw|].
    apply bool_decide_eq_false. unfold char_str. intros [= ->]. by destruct x as [|[]| | | | |]. }
  change (value (S fuel) ("[" +:+ str_join "," (map (text ea) k) +:+ "]" +:+ r)) with
    (match ws (str_join "," (map (text ea) k) +:+ "]" +:+ r) with
     | String d t => if str_eq (char_str d) "]" then Some (JArr [], t)
         else '(l, t) ← elements (value fuel) (S (String.length (str_join "," (map (text ea) k) +:+ "]" +:+ r))) (ws (str_join "," (map (text ea) k) +:+ "]" +:+ r)); Some (JArr l, t)
     | EmptyString => None end).
  rewrite E, Hw, Hd, <- E, elements_join; [done|by subst k| |done].
  pose proof (join_count (map (text ea) k)) as Hc. rewrite length_map in Hc. rewrite length_append. lia.
Qed.

Lemma value_obj ea fuel l r : NoDup (map fst l) -> Forall (fun kv => plain kv.2 = true /\ reads (value fuel) ea kv.2) l ->
  value (S fuel) (text ea (JObj l) +:+ r) = Some (JObj l, r).
Proof.
  intros Hnd Hk. cbn [text]. rewrite !str_app_assoc. change (map (fun kv => _) l) with (map (member ea) l).
  destruct l as [|x l]; [done|]. set (k := x :: l) in *.
  assert (exists t, str_join "," (map (member ea) k) +:+ "}" +:+ r = String dquote t) as (t & E).
  { subst k. cbn [map]. rewrite join_more. unfold member at 1. rewrite str_app_assoc, quote_app. by eexists. }
  change (value (S fuel) ("{" +:+ str_join "," (map (member ea) k) +:+ "}" +:+ r)) with
    (match ws (str_join "," (map (member ea) k) +:+ "}" +:+ r) with
     | String d t => if str_eq (char_str d) "}" then Some (JObj [], t)
         else '(l, t) ← pairs (value fuel) (S (String.length (str_join "," (map (member ea) k) +:+ "}" +:+ r))) (ws (str_join "," (map (member ea) k) +:+ "}" +:+ r)); Some (JObj (kv_update [] l), t)
     | EmptyString => None end).
  rewrite E. change (ws (String dquote t)) with (String dquote t). change (str_eq (char_str dquote) "}") with false. cbv iota.
  rewrite <- E, pairs_join; [|by subst k| |done].
  - by rewrite <- (kv_update_new [] k Hnd) at 2.
  - pose proof (join_count (map (member ea) k)) as Hc. rewrite length_map in Hc. rewrite length_append. lia.
Qed.

Lemma value_text ea j fuel : loadable j = true -> (String.length (text ea j) < fuel)%nat -> reads (value fuel) ea j.
Proof.
  revert fuel. induction j as [|b|z|f|s|l IH|l IH] using json_nested_ind; intros [|fuel] Hj Hf r Hr; try lia; try discriminate Hj.
  - reflexivity.
  - by destruct b.
  - by apply value_int.
  - cbn [text]. rewrite quote_app. cbn [value]. rewrite bool_decide_eq_true_2 by done. by rewrite str_body_escape.
  - apply value_arr. cbn [text loadable] in *. rewrite !length_append in Hf. rewrite forallb_forall in Hj. rewrite Forall_forall in IH |- *.
    intros y Hy. pose proof (Hj y (proj1 (list_elem_of_In _ _) Hy)) as Hl. split; [by apply loadable_plain|].
    apply IH; [done..|]. pose proof (join_length "," (map (text ea) l) (text ea y) (list_elem_of_fmap_2 _ _ _ Hy)). cbn [String.length] in Hf. lia.
  - cbn [text loadable] in *. rewrite !length_append in Hf. apply andb_true_iff in Hj as [Hnd Hj]. apply bool_decide_eq_true in Hnd.
    apply value_obj; [done|]. rewrite forallb_forall in Hj. rewrite Forall_forall in IH |- *.
    intros y Hy. pose proof (Hj y (proj1 (list_elem_of_In _ _) Hy)) as Hl. split; [by apply loadable_plain|].
    apply IH; [done..|]. pose proof (join_length "," (map (member ea) l) (member ea y) (list_elem_of_fmap_2 _ _ _ Hy)) as Hm.
    unfold member in Hm at 1. rewrite !length_append in Hm. cbn [String.length] in Hf. fold (member ea) in Hf. lia.
Qed.

(** A value without floats is what its text reads back as. *)
Lemma loads_text ea j : loadable j = true -> loads (text ea j) = Some j.
Proof.
  intros Hj.
  unfold loads. pose proof (ws_text ea j "" (loadable_plain j Hj)) as Hw. rewrite str_app_empty in Hw. rewrite Hw.
  pose proof (value_text ea j (S (String.length (text ea j))) Hj ltac:(lia) "" eq_refl) as Hv. rewrite str_app_empty in Hv. by rewrite Hv.
Qed.
