(* ===== verification/Cursor.v ===== *)
(** * Cursor: the opaque cursor of the list endpoints

    Models [encode_cursor] and [decode_cursor] of [src/sdf_core/human_read.py]
    with what they use of Python's [base64] and [json]: the decoder skips every
    character that is not of the alphabet, as [base64] does, and the bytes may
    be any of the encodings that [json.loads] detects.  Reading a timestamp
    back, [datetime.fromisoformat], is an argument. *)

From S2P Require Import Prelude Floats Json Db EvidenceMac JsonText RunConfig JsonParse.

(** ** [base64.urlsafe_b64encode] and [base64.urlsafe_b64decode] *)

Module Base64.

Definition alphabet : string := "ABCDEFGHIJKLMNOPQRSTUVWXYZabcdefghijklmnopqrstuvwxyz0123456789-_".

Definition char_of (v : Z) : ascii := default (ascii_of_nat 65) (String.get (Z.to_nat v) alphabet).

(** The value of a byte of the text; [+] and [/] are read as [-] and [_]. *)
Definition sextet (c : Z) : option Z :=
  if (65 <=? c) && (c <=? 90) then Some (c - 65)
  else if (97 <=? c) && (c <=? 122) then Some (c - 71)
  else if (48 <=? c) && (c <=? 57) then Some (c + 4)
  else if (c =? 43) || (c =? 45) then Some 62
  else if (c =? 47) || (c =? 95) then Some 63
  else None.

Fixpoint encode (l : list Z) : string :=
  match l with
  | a :: b :: c :: l =>
      String (char_of (a / 4)) (String (char_of (a mod 4 * 16 + b / 16))
        (String (char_of (b mod 16 * 4 + c / 64)) (String (char_of (c mod 64)) (encode l))))
  | [a; b] => String (char_of (a / 4)) (String (char_of (a mod 4 * 16 + b / 16)) (String (char_of (b mod 16 * 4)) "="))
  | [a] => String (char_of (a / 4)) (String (char_of (a mod 4 * 16)) "==")
  | [] => EmptyString
  end.

(** [binascii.a2b_base64]: how many characters of a group of four were read,
    the bits they left, the padding seen, and the bytes still to come. *)
Fixpoint a2b (quad : nat) (bits : Z) (pads : nat) (l : list Z) : option (list Z) :=
  match l with
  | [] => if (quad =? 0)%nat then Some [] else None
  | c :: l =>
      if c =? 61 then
        if (2 <=? quad)%nat then if (4 <=? quad + S pads)%nat then Some [] else a2b quad bits (S pads) l
        else a2b quad bits pads l
      else match sextet c with
      | None => a2b quad bits pads l
      | Some v =>
          match quad with
          | O => a2b 1 v 0 l
          | 1%nat => out ← a2b 2 (v mod 16) 0 l; Some (bits * 4 + v / 16 :: out)
          | 2%nat => out ← a2b 3 (v mod 4) 0 l; Some (bits * 16 + v / 4 :: out)
          | _ => out ← a2b 0 0 0 l; Some (bits * 64 + v :: out)
          end
      end
  end.

Definition decode (l : list Z) : option (list Z) := a2b 0 0 0 l.

End Base64.

(** [s.rstrip("=")] *)
Fixpoint rstrip_eq (s : string) : string :=
  match s with
  | EmptyString => EmptyString
  | String c t => match rstrip_eq t with
                  | EmptyString => if str_eq (char_str c) "=" then EmptyString else char_str c
                  | t => String c t
                  end
  end.

(** ** [json.loads] on bytes *)

Inductive encoding : Type := Utf8 | Utf16 (big : bool) | Utf32 (big : bool).

Definition starts (p l : list Z) : bool := bool_decide (take (length p) l = p).

(** [json.detect_encoding], with the byte order mark that it skips. *)
Definition detect_encoding (b : list Z) : encoding * nat :=
  if starts [0; 0; 254; 255] b then (Utf32 true, 4%nat)
  else if starts [255; 254; 0; 0] b then (Utf32 false, 4%nat)
  else if starts [254; 255] b then (Utf16 true, 2%nat)
  else if starts [255; 254] b then (Utf16 false, 2%nat)
  else if starts [239; 187; 191] b then (Utf8, 3%nat)
  else match b with
  | b0 :: b1 :: b2 :: b3 :: _ =>
      if b0 =? 0 then (if b1 =? 0 then Utf32 true else Utf16 true, 0%nat)
      else if b1 =? 0 then (if (b2 =? 0) && (b3 =? 0) then Utf32 false else Utf16 false, 0%nat)
      else (Utf8, 0%nat)
  | [b0; b1] => (if b0 =? 0 then Utf16 true else if b1 =? 0 then Utf16 false else Utf8, 0%nat)
  | _ => (Utf8, 0%nat)
  end.

Definition char_below (n : Z) : option string := if n <? 256 then Some (char_str (ascii_of_nat (Z.to_nat n))) else None.

(** The text, [None] when the bytes are not one or name a code point above
    255. *)
Fixpoint decode_utf8 (l : list Z) : option string :=
  match l with
  | [] => Some EmptyString
  | b :: l =>
      if b <? 128 then t ← decode_utf8 l; c ← char_below b; Some (c +:+ t)
      else match l with
      | k :: l => if ((b =? 194) || (b =? 195)) && (128 <=? k) && (k <=? 191)
                  then t ← decode_utf8 l; c ← char_below ((b - 192) * 64 + (k - 128)); Some (c +:+ t) else None
      | [] => None
      end
  end.

Fixpoint decode_utf16 (big : bool) (l : list Z) : option string :=
  match l with
  | [] => Some EmptyString
  | a :: b :: l => c ← char_below (if big then a * 256 + b else b * 256 + a); t ← decode_utf16 big l; Some (c +:+ t)
  | _ => None
  end.

Fixpoint decode_utf32 (big : bool) (l : list Z) : option string :=
  match l with
  | [] => Some EmptyString
  | a :: b :: c :: d :: l =>
      c ← char_below (if big then ((a * 256 + b) * 256 + c) * 256 + d else ((d * 256 + c) * 256 + b) * 256 + a);
      t ← decode_utf32 big l; Some (c +:+ t)
  | _ => None
  end.

Definition loads_bytes (b : list Z) : option json :=
  let '(enc, bom) := detect_encoding b in
  let b := drop bom b in
  s ← match enc with Utf8 => decode_utf8 b | Utf16 big => decode_utf16 big b | Utf32 big => decode_utf32 big b end;
  loads s.

(** ** The cursor *)

Definition CursorError : exn := OtherError "CursorError" "cursor is not valid".

Definition encode_cursor (created_at : datetime) (row_id : string) : string :=
  let raw := utf8 (text true (JObj [("t", JStr (isoformat created_at)); ("id", JStr row_id)])) in
  rstrip_eq (Base64.encode raw).

Definition padding (n : nat) : string := match (n mod 4)%nat with 1%nat => "===" | 2%nat => "==" | 3%nat => "=" | _ => "" end.

Definition decode_cursor (fromisoformat : string -> option datetime) (cursor : string) : result (datetime * string) :=
  _ ← raise_if (negb (str_truthy cursor) || negb (str_eq (str_strip cursor) cursor)) CursorError;
  let padded := cursor +:+ padding (String.length cursor) in
  data ← require_some (raw ← Base64.decode (utf8 padded); loads_bytes raw) CursorError;
  match data with
  | JObj kvs =>
      _ ← raise_if (negb (bool_decide (sort_by str_le (map fst kvs) = ["id"; "t"]))) CursorError;
      match kv_get "t" kvs, kv_get "id" kvs with
      | JStr stamp, JStr row_id =>
          _ ← raise_if (negb (str_truthy row_id)) CursorError;
          created_at ← require_some (fromisoformat stamp) CursorError;
          Ok (created_at, row_id)
      | _, _ => Err CursorError
      end
  | _ => Err CursorError
  end.

Example encode_cursor_test :
  encode_cursor (DateTime 1709210096123456 true) "task-1" = "eyJ0IjoiMjAyNC0wMi0yOVQxMjozNDo1Ni4xMjM0NTYrMDA6MDAiLCJpZCI6InRhc2stMSJ9" /\
  decode_cursor (fun _ => Some (DateTime 7 true)) "eyJ0IjoiMjAyNC0wMi0yOVQxMjozNDo1Ni4xMjM0NTYrMDA6MDAiLCJpZCI6InRhc2stMSJ9" = Ok (DateTime 7 true, "task-1") /\
  map (decode_cursor (fun _ => None)) [""; " e30"; "e30"; "*"; "eyJ0Ij"; "eyJ0IjoiIiwiaWQiOiJhIn0"] = repeat (Err CursorError) 6.
Proof. split_and!; vm_compute; reflexivity. Qed.

(** ** A cursor reads back as what it was made of *)

Import Base64.

Definition byte (b : Z) : Prop := 0 <= b < 256.

(** A character of the alphabet: its own value, one byte of UTF-8, no blank and no padding. *)
Lemma char_of_spec v : 0 <= v < 64 ->
  let c := char_of v in
  (Z.of_nat (nat_of_ascii c) <? 128) = true /\ (Z.of_nat (nat_of_ascii c) =? 61) = false /\
  sextet (Z.of_nat (nat_of_ascii c)) = Some v /\ is_space c = false /\ str_eq (char_str c) "=" = false.
Proof.
  intros Hv. assert (forallb (fun n => let c := char_of (Z.of_nat n) in
    (Z.of_nat (nat_of_ascii c) <? 128) && negb (Z.of_nat (nat_of_ascii c) =? 61) &&
    bool_decide (sextet (Z.of_nat (nat_of_ascii c)) = Some (Z.of_nat n)) && negb (is_space c) && negb (str_eq (char_str c) "=")) (seq 0 64) = true) as T
    by (vm_compute; reflexivity).
  rewrite forallb_forall in T. specialize (T (Z.to_nat v) ltac:(apply in_seq; lia)). rewrite Z2Nat.id in T by lia.
  cbv zeta in T |- *. rewrite !andb_true_iff, !negb_true_iff, bool_decide_eq_true in T. destruct T as [[[[? ?] ?] ?] ?]. done.
Qed.

(** One character of the alphabet ahead of the decoder. *)
Lemma a2b_char v quad bits pads s : 0 <= v < 64 ->
  a2b quad bits pads (utf8 (String (char_of v) s)) =
  match quad with
  | O => a2b 1 v 0 (utf8 s)
  | 1%nat => out ← a2b 2 (v mod 16) 0 (utf8 s); Some (bits * 4 + v / 16 :: out)
  | 2%nat => out ← a2b 3 (v mod 4) 0 (utf8 s); Some (bits * 16 + v / 4 :: out)
  | _ => out ← a2b 0 0 0 (utf8 s); Some (bits * 64 + v :: out)
  end.
Proof.
  intros Hv. destruct (char_of_spec v Hv) as (Hn & He & Hs & _). cbn [utf8]. rewrite Hn. cbn [a2b]. by rewrite He, Hs.
Qed.

(** Induction over the groups of three bytes. *)
Lemma groups_ind (P : list Z -> Prop) : P [] -> (forall a, P [a]) -> (forall a b, P [a; b]) ->
  (forall a b c l, P l -> P (a :: b :: c :: l)) -> forall l, P l.
Proof.
  intros H0 H1 H2 H3. fix IH 1. intros [|a [|b [|c l]]]; [exact H0|apply H1|apply H2|]. apply H3, IH.
Qed.

(** The text without its padding. *)
Fixpoint bare (l : list Z) : string :=
  match l with
  | a :: b :: c :: l =>
      String (char_of (a / 4)) (String (char_of (a mod 4 * 16 + b / 16))
        (String (char_of (b mod 16 * 4 + c / 64)) (String (char_of (c mod 64)) (bare l))))
  | [a; b] => String (char_of (a / 4)) (String (char_of (a mod 4 * 16 + b / 16)) (char_str (char_of (b mod 16 * 4))))
  | [a] => String (char_of (a / 4)) (char_str (char_of (a mod 4 * 16)))
  | [] => EmptyString
  end.

Lemma a2b_pad2 bits : a2b 2 bits 0 (utf8 "==") = Some [].
Proof. reflexivity. Qed.

Lemma a2b_pad1 bits : a2b 3 bits 0 (utf8 "=") = Some [].
Proof. reflexivity. Qed.

Ltac sextet_range := Z.div_mod_to_equations; lia.

Lemma bare_decode l : Forall byte l -> Base64.decode (utf8 (bare l +:+ padding (String.length (bare l)))) = Some l.
Proof.
  unfold byte, Base64.decode. induction l as [|a|a b|a b c l IH] using groups_ind; intros Hl.
  - reflexivity.
  - inversion_clear Hl as [|? ? Ha _]. cbn [bare]. unfold char_str. rewrite !str_app_cons, str_app_nil. cbn [String.length]. change (padding 2) with "==".
    rewrite !a2b_char, a2b_pad2 by sextet_range. cbn. do 2 f_equal. sextet_range.
  - inversion_clear Hl as [|? ? Ha Hl']. inversion_clear Hl' as [|? ? Hb _]. cbn [bare]. unfold char_str. rewrite !str_app_cons, str_app_nil. cbn [String.length]. change (padding 3) with "=".
    rewrite !a2b_char, a2b_pad1 by sextet_range. cbn. f_equal. f_equal; [|f_equal]; sextet_range.
  - inversion_clear Hl as [|? ? Ha Hl']. inversion_clear Hl' as [|? ? Hb Hl'']. inversion_clear Hl'' as [|? ? Hc Hr]. cbn [bare]. rewrite !str_app_cons. cbn [String.length].
    assert (padding (S (S (S (S (String.length (bare l)))))) = padding (String.length (bare l))) as ->.
    { unfold padding. change (S (S (S (S (String.length (bare l)))))) with (4 + String.length (bare l))%nat.
      by rewrite <- Nat.Div0.add_mod_idemp_l, Nat.Div0.mod_same, Nat.add_0_l. }
    rewrite !a2b_char by sextet_range. rewrite IH by done. cbn. f_equal. f_equal; [|f_equal; [|f_equal]]; sextet_range.
Qed.

(** What holds of every character of the alphabet. *)
Lemma bare_chars (p : ascii -> bool) l : Forall byte l -> (forall v, 0 <= v < 64 -> p (char_of v) = true) -> str_forallb p (bare l) = true.
Proof.
  unfold byte. intros Hl Hp. induction l as [|a|a b|a b c l IH] using groups_ind; try done.
  - inversion_clear Hl. cbn [bare char_str str_forallb]. rewrite !Hp by sextet_range. done.
  - inversion_clear Hl as [|? ? Ha Hl']. inversion_clear Hl'. cbn [bare char_str str_forallb]. rewrite !Hp by sextet_range. done.
  - inversion_clear Hl as [|? ? Ha Hl']. inversion_clear Hl' as [|? ? Hb Hl'']. inversion_clear Hl''.
    cbn [bare str_forallb]. rewrite !Hp by sextet_range. by apply IH.
Qed.

Lemma rstrip_eq_bare s t : str_forallb (fun c => negb (str_eq (char_str c) "=")) s = true -> rstrip_eq t = "" -> rstrip_eq (s +:+ t) = s.
Proof.
  intros Hs Ht. induction s as [|c s IH]; [by rewrite str_app_nil|]. rewrite str_app_cons. cbn [rstrip_eq str_forallb] in *.
  apply andb_true_iff in Hs as [Hc Hs]. apply negb_true_iff in Hc. rewrite IH by done. destruct s; [|done]. by rewrite Hc.
Qed.

Lemma encode_bare l : exists p, Base64.encode l = bare l +:+ p /\ rstrip_eq p = "".
Proof.
  induction l as [|a|a b|a b c l (p & E & Hp)] using groups_ind.
  - by exists "".
  - by exists "==".
  - by exists "=".
  - exists p. split; [|done]. cbn [Base64.encode bare]. by rewrite E, !str_app_cons.
Qed.

Lemma str_strip_id s : str_forallb (fun c => negb (is_space c)) s = true -> str_strip s = s.
Proof.
  intros Hs. unfold str_strip. assert (str_lstrip s = s) as ->.
  { destruct s as [|c s]; [done|]. cbn [str_forallb str_lstrip] in *. apply andb_true_iff in Hs as [Hc _].
    apply negb_true_iff in Hc. by rewrite Hc. }
  induction s as [|c s IH]; [done|]. cbn [str_forallb str_rstrip] in *. apply andb_true_iff in Hs as [Hc Hs].
  rewrite IH by done. apply negb_true_iff in Hc. by destruct s; rewrite ?Hc.
Qed.

(** UTF-8 of code points below 256. *)
Lemma utf8_byte s : Forall byte (utf8 s).
Proof.
  unfold byte. induction s as [|c s IH]; [constructor|]. cbn [utf8]. pose proof (Ascii.nat_ascii_bounded c) as Hb.
  destruct (Z.ltb_spec (Z.of_nat (nat_of_ascii c)) 128).
  - constructor; [lia|done].
  - constructor; [sextet_range|constructor; [sextet_range|done]].
Qed.

Lemma char_below_ascii c : char_below (Z.of_nat (nat_of_ascii c)) = Some (char_str c).
Proof.
  unfold char_below. pose proof (Ascii.nat_ascii_bounded c) as Hb. destruct (Z.ltb_spec (Z.of_nat (nat_of_ascii c)) 256); [|lia].
  by rewrite Nat2Z.id, Ascii.ascii_nat_embedding.
Qed.

Lemma decode_utf8_utf8 s : decode_utf8 (utf8 s) = Some s.
Proof.
  induction s as [|c s IH]; [done|]. cbn [utf8]. pose proof (Ascii.nat_ascii_bounded c) as Hb.
  set (n := Z.of_nat (nat_of_ascii c)) in *. destruct (Z.ltb_spec n 128) as [Hn|Hn].
  - cbn [decode_utf8]. destruct (Z.ltb_spec n 128); [|lia]. rewrite IH. cbn. subst n. by rewrite char_below_ascii.
  - assert (n < 256) as Hn' by lia. cbn [decode_utf8]. destruct (Z.ltb_spec (192 + n / 64) 128); [sextet_range|].
    assert (((192 + n / 64 =? 194) || (192 + n / 64 =? 195)) && (128 <=? 128 + n mod 64) && (128 + n mod 64 <=? 191) = true) as ->.
    { rewrite !andb_true_iff, orb_true_iff, !Z.eqb_eq, !Z.leb_le. sextet_range. }
    rewrite IH. cbn. assert ((192 + n / 64 - 192) * 64 + (128 + n mod 64 - 128) = n) as -> by sextet_range.
    subst n. by rewrite char_below_ascii.
Qed.

Lemma utf8_app s t : utf8 (s +:+ t) = utf8 s ++ utf8 t.
Proof. induction s as [|c s IH]; [done|]. rewrite str_app_cons. cbn [utf8]. rewrite IH. by destruct (_ <? _). Qed.

(** Bytes that start like a JSON object are read as UTF-8. *)
Lemma loads_bytes_object s j : loads ("{" +:+ char_str dquote +:+ s) = Some j -> loads_bytes (utf8 ("{" +:+ char_str dquote +:+ s)) = Some j.
Proof.
  intros H. unfold loads_bytes.
  assert (detect_encoding (utf8 ("{" +:+ char_str dquote +:+ s)) = (Utf8, 0%nat)) as ->.
  { rewrite !utf8_app. change (utf8 "{") with [123]. change (utf8 (char_str dquote)) with [34]. cbn [app].
    destruct (utf8 s) as [|b2 [|b3 l]]; reflexivity. }
  cbv beta iota zeta. rewrite drop_0, decode_utf8_utf8. exact H.
Qed.

Lemma decode_encode fromisoformat created_at row_id :
  row_id <> "" -> fromisoformat (isoformat created_at) = Some created_at ->
  decode_cursor fromisoformat (encode_cursor created_at row_id) = Ok (created_at, row_id).
Proof.
  intros Hid Hiso. unfold encode_cursor. set (j := JObj [("t", JStr (isoformat created_at)); ("id", JStr row_id)]).
  assert (exists u, text true j = "{" +:+ char_str dquote +:+ u) as (u & Eu).
  { subst j. cbn [text map str_join fst snd]. unfold quote at 1. rewrite !str_app_assoc. by eexists. }
  assert (loads_bytes (utf8 (text true j)) = Some j) as Hload.
  { rewrite Eu. apply loads_bytes_object. rewrite <- Eu. by apply loads_text. }
  pose proof (utf8_byte (text true j)) as Hb. set (raw := utf8 (text true j)) in *.
  destruct (encode_bare raw) as (p & -> & Hp).
  rewrite (rstrip_eq_bare (bare raw) p); [|apply bare_chars; [done|]; intros v Hv; by destruct (char_of_spec v Hv) as (_ & _ & _ & _ & ->)|done].
  unfold decode_cursor. rewrite bare_decode by done.
  rewrite str_strip_id by (apply bare_chars; [done|]; intros v Hv; by destruct (char_of_spec v Hv) as (_ & _ & _ & -> & _)).
  assert (str_truthy (bare raw) = true) as ->.
  { subst raw. rewrite Eu, !utf8_app. change (utf8 "{") with [123]. change (utf8 (char_str dquote)) with [34]. by destruct (utf8 u). }
  unfold str_eq at 1. rewrite bool_decide_eq_true_2 by done.
  change (require_some (raw0 ← Some raw; loads_bytes raw0) CursorError) with (require_some (loads_bytes raw) CursorError).
  rewrite Hload. subst j. destruct row_id as [|c row_id]; [done|].
  change (require_some (fromisoformat (isoformat created_at)) CursorError ≫= (fun d => Ok (d, String c row_id)) = Ok (created_at, String c row_id)).
  by rewrite Hiso.
Qed.

(** C29: the cursor of a page names its last row and nothing else: decoding
    what [encode_cursor] made gives the row's timestamp and its id back,
    whatever characters the id holds, when reading a timestamp's own ISO text
    back gives the timestamp. *)
Theorem cursor_roundtrip fromisoformat created_at row_id :
  row_id <> "" -> fromisoformat (isoformat created_at) = Some created_at ->
  decode_cursor fromisoformat (encode_cursor created_at row_id) = Ok (created_at, row_id).
Proof. exact (decode_encode fromisoformat created_at row_id). Qed.

Lemma cursor_roundtrip_witness :
  let d := DateTime 1709210096123456 true in
  decode_cursor (fun s => if str_eq s "2024-02-29T12:34:56.123456+00:00" then Some (DateTime 1709210096123456 true) else None)
    (encode_cursor d "task-1") = Ok (d, "task-1").
Proof.
  intros d. apply (cursor_roundtrip _ d "task-1"); [discriminate|vm_compute; reflexivity].
Defined.
