(* ===== verification/Keyset.v ===== *)
(** * Keyset: reading a table page by page

    Models [keyset_page] of [src/sdf_core/human_read.py] over rows of any
    type: rows in [(created_at, id)] order, strictly after the cursor's row,
    at most [limit] of them and a cursor when more remain.  A client that
    follows the cursors reads every row once; rows that come and go between
    two requests do not disturb the others. *)

From S2P Require Import Prelude Floats Json Db EvidenceMac Flush Samples FlushFacts Store Cursor.

Section keyset.
Context {A : Type} (created_at : A -> datetime) (id : A -> string) (fromisoformat : string -> option datetime).
Implicit Types (rows l : list A) (r : A).

(** [_after(model, created_at, row_id)] *)
Definition after (pos : datetime * string) r : bool :=
  (dt_us pos.1 <? dt_us (created_at r)) ||
  (dt_us (created_at r) =? dt_us pos.1) && negb (str_le (id r) pos.2).

(** [ORDER BY created_at, id] *)
Definition order_le r r' : bool :=
  (dt_us (created_at r) <? dt_us (created_at r')) ||
  (dt_us (created_at r) =? dt_us (created_at r')) && str_le (id r) (id r').

Definition position r : datetime * string := (created_at r, id r).

(** The position the cursor names; no cursor and an empty one start at the
    first row. *)
Definition start (cursor : option string) : result (option (datetime * string)) :=
  if opt_truthy cursor then pos ← decode_cursor fromisoformat (or_empty cursor); Ok (Some pos) else Ok None.

Definition is_after (pos : option (datetime * string)) r : bool :=
  match pos with Some pos => after pos r | None => true end.

(** [.order_by(created_at, id).limit(limit + 1)] *)
Definition fetch (limit : nat) (pos : option (datetime * string)) rows : list A :=
  take (S limit) (sort_by order_le (List.filter (is_after pos) rows)).

(** At most [limit] of the fetched rows, and a cursor at the last of them
    when there was one more. *)
Definition cut (limit : nat) rows : list A * option string :=
  if (limit <? length rows)%nat
  then (take limit rows, (fun r => encode_cursor (created_at r) (id r)) <$> rows !! (limit - 1)%nat)
  else (rows, None).

Definition keyset_page (rows : list A) (limit : nat) (cursor : option string) : result (list A * option string) :=
  pos ← start cursor;
  Ok (cut limit (fetch limit pos rows)).

(** A client that follows the cursors: at most [fuel] requests, the [k]-th of
    them answered from what the table holds then. *)
Fixpoint read_pages (snapshot : nat -> list A) (limit fuel k : nat) (cursor : option string) : result (list (list A)) :=
  match fuel with
  | O => Err (TimeoutError "pages remain")
  | S fuel =>
      '(page, next) ← keyset_page (snapshot k) limit cursor;
      match next with
      | None => Ok [page]
      | Some _ => pages ← read_pages snapshot limit fuel (S k) next; Ok (page :: pages)
      end
  end.

(** Rows whose cursor reads back. *)
Definition readable r : Prop := id r <> "" /\ fromisoformat (isoformat (created_at r)) = Some (created_at r).

(** ** What a page holds *)

(** Strictly before. *)
Definition before r r' : Prop := order_le r' r = false.

Lemma after_position r r' : after (position r) r' = negb (order_le r' r).
Proof.
  unfold after, order_le, position. cbn [fst snd].
  destruct (Z.ltb_spec (dt_us (created_at r)) (dt_us (created_at r'))), (Z.ltb_spec (dt_us (created_at r')) (dt_us (created_at r)));
    destruct (Z.eqb_spec (dt_us (created_at r')) (dt_us (created_at r))); try lia; cbn; try done.
Qed.

Lemma order_total r r' : order_le r r' = true \/ order_le r' r = true.
Proof.
  unfold order_le. destruct (Z.ltb_spec (dt_us (created_at r)) (dt_us (created_at r'))); [by left|].
  destruct (Z.ltb_spec (dt_us (created_at r')) (dt_us (created_at r))); [by right|].
  destruct (Z.eqb_spec (dt_us (created_at r)) (dt_us (created_at r'))) as [E|]; [|lia]. rewrite E, Z.eqb_refl. apply str_le_total.
Qed.

Lemma order_trans r1 r2 r3 : order_le r1 r2 = true -> order_le r2 r3 = true -> order_le r1 r3 = true.
Proof.
  unfold order_le. rewrite !orb_true_iff, !andb_true_iff, !Z.ltb_lt, !Z.eqb_eq.
  intros [?|[? ?]] [?|[? ?]]; [left; lia..|right; split; [lia|]]. by eapply str_le_trans.
Qed.

Lemma after_trans pos r r' : after pos r = true -> order_le r r' = true -> after pos r' = true.
Proof.
  unfold after, order_le. rewrite !orb_true_iff, !andb_true_iff, !Z.ltb_lt, !Z.eqb_eq, !negb_true_iff.
  intros [?|[? Hp]] [?|[? Hr]]; [left; lia..|]. right. split; [lia|]. apply not_true_iff_false. intros Hc.
  rewrite (str_le_trans _ _ _ Hr Hc) in Hp. done.
Qed.

Lemma is_after_trans pos r r' : is_after pos r = true -> order_le r r' = true -> is_after pos r' = true.
Proof. destruct pos; [apply after_trans|done]. Qed.

Abbreviation in_order := (StronglySorted (fun r r' => order_le r r' = true)).

Lemma sorted_rows rows : in_order (sort_by order_le rows).
Proof. apply sort_by_sorted; [intros; apply order_total|intros ? ? ?; apply order_trans]. Qed.

Lemma sorted_split l1 r l2 : in_order (l1 ++ r :: l2) ->
  in_order l1 /\ Forall (fun r' => order_le r' r = true) l1 /\ Forall (fun r' => order_le r r' = true) l2 /\ in_order l2.
Proof.
  induction l1 as [|x l1 IH]; cbn [app]; intros H; apply StronglySorted_inv in H as [H Hx].
  - split_and!; [constructor|done..].
  - destruct (IH H) as (H1 & H2 & H3 & H4). apply Forall_app in Hx as [Hx1 Hx2]. split_and!; [by constructor| |done|done].
    inversion_clear Hx2. by constructor.
Qed.

Lemma sorted_concat (R : A -> A -> Prop) l1 l2 : StronglySorted R l1 -> StronglySorted R l2 -> (forall x y, x ∈ l1 -> y ∈ l2 -> R x y) -> StronglySorted R (l1 ++ l2).
Proof.
  intros H1 H2 H. induction H1 as [|x l1 H1 IH Hx]; [done|]. cbn [app]. constructor.
  - apply IH. intros a b Ha. apply H. by right.
  - apply Forall_app. split; [done|]. apply Forall_forall. intros y Hy. apply H; [left|done].
Qed.

(** The rows of a page are in order and after the cursor; what matched and is
    not on the page comes after the page's last row, which the next cursor
    names. *)
Record page_of (pos : option (datetime * string)) rows (limit : nat) (page : list A) (next : option string) : Prop := {
  page_rows : forall r, r ∈ page -> r ∈ rows /\ is_after pos r = true;
  page_order : in_order page;
  page_nodup : NoDup rows -> NoDup page;
  page_limit : (length page <= limit)%nat;
  page_last : next = None -> forall r, r ∈ rows -> is_after pos r = true -> r ∈ page;
  page_next : forall c, next = Some c -> length page = limit /\
    exists l r, page = l ++ [r] /\ c = encode_cursor (created_at r) (id r) /\
      forall r', r' ∈ rows -> is_after pos r' = true -> r' ∈ page \/ order_le r r' = true
}.

Lemma cut_fetched limit rows page next r : cut limit rows = (page, next) -> r ∈ page -> r ∈ rows.
Proof.
  unfold cut. destruct (limit <? length rows)%nat; intros [= <- _]; [|done]. intros H. rewrite <- (take_drop limit rows).
  apply elem_of_app. by left.
Qed.

Lemma fetch_page limit pos rows : (0 < limit)%nat ->
  let '(page, next) := cut limit (fetch limit pos rows) in page_of pos rows limit page next.
Proof.
  intros Hlim. unfold fetch, cut. set (s := sort_by order_le (List.filter (is_after pos) rows)).
  assert (forall r, r ∈ s <-> r ∈ rows /\ is_after pos r = true) as Hs.
  { intros r. unfold s. by rewrite sort_by_perm, elem_filterb. }
  assert (NoDup rows -> NoDup s) as Hnd.
  { intros Hr. unfold s. rewrite sort_by_perm. by apply NoDup_ListNoDup, List.NoDup_filter, NoDup_ListNoDup. }
  pose proof (sorted_rows (List.filter (is_after pos) rows)) as Hsort. fold s in Hsort. rewrite length_take.
  destruct (Nat.ltb_spec limit (S limit `min` length s)) as [Hl|Hl].
  - destruct (lookup_lt_is_Some_2 s (limit - 1)) as [r Hr]; [lia|].
    pose proof (take_drop_middle s (limit - 1) r Hr) as Hmid. replace (S (limit - 1)) with limit in Hmid by lia.
    assert (take limit s = take (limit - 1) s ++ [r]) as Ht.
    { replace limit with (S (limit - 1)) at 1 by lia. by apply take_S_r. }
    rewrite take_take, Nat.min_l, lookup_take_lt, Hr by lia. cbn [fmap option_fmap option_map].
    rewrite <- Hmid in Hsort. apply sorted_split in Hsort as (Hs1 & Hr1 & Hr2 & _). split.
    + intros x Hx. apply Hs. rewrite <- (take_drop limit s). apply elem_of_app. by left.
    + rewrite Ht. clear Ht Hmid. induction Hs1 as [|x l Hx1 IH Hx]; [repeat constructor|]. inversion_clear Hr1 as [|? ? Hxr Hr1']. cbn [app].
      constructor; [by apply IH|]. apply Forall_app. split; [done|by constructor].
    + intros Hn%Hnd. rewrite <- (take_drop limit s) in Hn. by apply NoDup_app in Hn as [? _].
    + rewrite length_take. lia.
    + done.
    + intros c [= <-]. split; [rewrite length_take; lia|]. exists (take (limit - 1) s), r. split_and!; [done..|].
      intros x Hx Ha. assert (x ∈ s) as Hin by (by apply Hs). rewrite <- (take_drop limit s) in Hin.
      apply elem_of_app in Hin as [Hin|Hin]; [by left|right]. rewrite Forall_forall in Hr2. by apply Hr2.
  - rewrite take_ge by lia. split; [by intros r ?%Hs|done|done|lia|intros _ r ? ?; by apply Hs|done].
Qed.

(** ** Following the cursors *)

Lemma start_decoded c pos : decode_cursor fromisoformat c = Ok pos -> start (Some c) = Ok (Some pos).
Proof.
  intros Hd. unfold start, opt_truthy. change (or_empty (Some c)) with c. destruct (str_truthy c) eqn:E; [by rewrite Hd|].
  exfalso. unfold decode_cursor in Hd. by rewrite E in Hd.
Qed.

Lemma start_at r : readable r -> start (Some (encode_cursor (created_at r) (id r))) = Ok (Some (position r)).
Proof. intros [Hid Hiso]. exact (start_decoded _ _ (decode_encode fromisoformat (created_at r) (id r) Hid Hiso)). Qed.

Lemma read_next snapshot limit fuel k pos cursor page next : start cursor = Ok pos ->
  cut limit (fetch limit pos (snapshot k)) = (page, next) ->
  read_pages snapshot limit (S fuel) k cursor =
  match next with None => Ok [page] | Some _ => pages ← read_pages snapshot limit fuel (S k) next; Ok (page :: pages) end.
Proof. intros Hs Hc. cbn [read_pages]. unfold keyset_page. rewrite Hs. cbn. by rewrite Hc. Qed.

Section snapshots.
Context (snapshot : nat -> list A) (limit : nat).
Hypothesis limit_pos : (0 < limit)%nat.
Hypothesis ids : forall k, NoDup (map id (snapshot k)).
Hypothesis all_readable : forall k r, r ∈ snapshot k -> readable r.

Lemma order_antisym k r r' : r ∈ snapshot k -> r' ∈ snapshot k -> order_le r r' = true -> order_le r' r = true -> r = r'.
Proof using ids.
  clear limit_pos.
  intros Hr Hr'. unfold order_le. rewrite !orb_true_iff, !andb_true_iff, !Z.ltb_lt, !Z.eqb_eq. intros H1 H2.
  apply (NoDup_map_inj id (snapshot k)); [apply ids|done..|].
  destruct H1 as [?|[? H1]], H2 as [?|[? H2]]; try lia. by apply str_le_antisym.
Qed.

Lemma strict_page k l : in_order l -> NoDup l -> (forall r, r ∈ l -> r ∈ snapshot k) -> StronglySorted before l.
Proof.
  intros Hl Hnd Hin. induction Hl as [|x l Hl IH Hx]; [constructor|]. apply NoDup_cons in Hnd as [Hnx Hnd].
  constructor; [apply IH; [done|]; intros r Hr; apply Hin; by right|]. apply Forall_forall. intros y Hy. rewrite Forall_forall in Hx.
  apply not_true_iff_false. intros Hyx. apply Hnx. rewrite (order_antisym k x y); [done|apply Hin; left|apply Hin; by right|by apply Hx|done].
Qed.

(** Every page, and the rows after it, lie after the position it was asked
    for; the pages are in order, and a row that every snapshot holds is on
    one of them. *)
Lemma read_pages_spec fuel k cursor pos pages : start cursor = Ok pos -> read_pages snapshot limit fuel k cursor = Ok pages ->
  (forall r, r ∈ concat pages -> is_after pos r = true /\ exists i, r ∈ snapshot (k + i)) /\
  StronglySorted before (concat pages) /\ Forall (fun page => (length page <= limit)%nat) pages /\
  (forall r, is_after pos r = true -> (forall i, r ∈ snapshot (k + i)) -> r ∈ concat pages).
Proof.
  revert k cursor pos pages. induction fuel as [|fuel IH]; intros k cursor pos pages Hs H; [done|].
  destruct (cut limit (fetch limit pos (snapshot k))) as [page next] eqn:Hc.
  rewrite (read_next _ _ _ _ _ _ _ _ Hs Hc) in H. pose proof (fetch_page limit pos (snapshot k) limit_pos) as Hp. rewrite Hc in Hp.
  assert (forall r, r ∈ page -> is_after pos r = true /\ exists i, r ∈ snapshot (k + i)) as Hpage.
  { intros r [Hr Ha]%(page_rows _ _ _ _ _ Hp). split; [done|]. exists 0%nat. by rewrite Nat.add_0_r. }
  assert (forall r, (forall i, r ∈ snapshot (k + i)) -> r ∈ snapshot k) as Hall by (intros r Hr; by rewrite <- (Nat.add_0_r k)).
  assert (StronglySorted before page) as Hstrict.
  { apply (strict_page k); [apply (page_order _ _ _ _ _ Hp)|apply (page_nodup _ _ _ _ _ Hp)|by intros r [? _]%(page_rows _ _ _ _ _ Hp)].
    by apply (NoDup_fmap_1 id). }
  destruct next as [c|].
  - destruct (page_next _ _ _ _ _ Hp c eq_refl) as (_ & l & r & -> & -> & Hnext).
    assert (r ∈ snapshot k /\ is_after pos r = true) as [Hrk Hra].
    { apply (page_rows _ _ _ _ _ Hp). apply elem_of_app. right. left. }
    apply bind_Ok in H as (rest & H & [= <-]). pose proof (start_at r (all_readable k r Hrk)) as Hstart.
    destruct (IH _ _ _ _ Hstart H) as (Hafter & Hord & Hlen & Hper). cbn [concat].
    assert (forall x, x ∈ concat rest -> before r x) as Hlt.
    { intros x [Hx _]%Hafter. cbn [is_after] in Hx. rewrite after_position in Hx. by apply negb_true_iff in Hx. }
    assert (forall x, x ∈ l ++ [r] -> order_le x r = true) as Hle.
    { pose proof (page_order _ _ _ _ _ Hp) as Hpo. apply sorted_split in Hpo as (_ & Hl & _). rewrite Forall_forall in Hl.
      intros x [Hx|Hx%list_elem_of_singleton]%elem_of_app; [by apply Hl|]. subst x. by destruct (order_total r r). }
    split_and!.
    + intros x [Hx|Hx]%elem_of_app; [by apply Hpage|]. destruct (Hafter x Hx) as (_ & i & Hi). split.
      * apply (is_after_trans pos r); [done|]. destruct (order_total r x) as [?|E]; [done|]. specialize (Hlt x Hx). unfold before in Hlt. congruence.
      * exists (S i). by rewrite Nat.add_succ_r.
    + apply sorted_concat; [done|done|]. intros x y Hx Hy. apply not_true_iff_false. intros Hyx.
      specialize (Hlt y Hy). unfold before in Hlt. rewrite (order_trans y x r Hyx (Hle x Hx)) in Hlt. done.
    + constructor; [apply (page_limit _ _ _ _ _ Hp)|done].
    + intros x Hx Hin. apply elem_of_app. destruct (Hnext x (Hall x Hin) Hx) as [?|Hle']; [by left|].
      destruct (order_le x r) eqn:Hxr.
      * left. rewrite (order_antisym k x r (Hall x Hin) Hrk Hxr Hle'). apply elem_of_app. right. left.
      * right. apply Hper; [|intros i; specialize (Hin (S i)); by rewrite Nat.add_succ_r in Hin].
        cbn [is_after]. by rewrite after_position, Hxr.
  - injection H as <-. cbn [concat]. rewrite app_nil_r. split_and!; [done|done|constructor; [apply (page_limit _ _ _ _ _ Hp)|constructor]|].
    intros r Hr Hin. apply (page_last _ _ _ _ _ Hp eq_refl); auto.
Qed.
End snapshots.

(** While the rows do not change, the rows left shrink by [limit] with every
    page: the cursors run out. *)
Lemma read_pages_ends rows limit fuel k cursor pos : (0 < limit)%nat -> NoDup rows -> (forall r, r ∈ rows -> readable r) ->
  start cursor = Ok pos -> (length (List.filter (is_after pos) rows) / limit < fuel)%nat ->
  exists pages, read_pages (fun _ => rows) limit fuel k cursor = Ok pages.
Proof.
  intros Hlim Hnd Hread. revert k cursor pos. induction fuel as [|fuel IH]; intros k cursor pos Hs Hf; [lia|].
  destruct (cut limit (fetch limit pos rows)) as [page next] eqn:Hc. rewrite (read_next (fun _ => rows) _ _ _ _ _ _ _ Hs Hc).
  destruct next as [c|]; [|by eexists]. pose proof (fetch_page limit pos rows Hlim) as Hp. rewrite Hc in Hp.
  destruct (page_next _ _ _ _ _ Hp c eq_refl) as (Hlen & l & r & Hpage & -> & _).
  assert (r ∈ page) as Hr by (rewrite Hpage; apply elem_of_app; right; left). apply (page_rows _ _ _ _ _ Hp) in Hr as [Hr Hra].
  destruct (IH (S k) _ _ (start_at r (Hread r Hr))) as [rest ->]; [|by eexists].
  assert (length page + length (List.filter (after (position r)) rows) <= length (List.filter (is_after pos) rows))%nat as Hcount.
  { rewrite <- length_app. apply submseteq_length, NoDup_submseteq.
    - apply NoDup_app. split_and!; [by apply (page_nodup _ _ _ _ _ Hp)| |by apply NoDup_ListNoDup, List.NoDup_filter, NoDup_ListNoDup].
      intros x Hx [_ Hax]%elem_filterb. pose proof (page_order _ _ _ _ _ Hp) as Hpo. rewrite Hpage in Hpo, Hx.
      apply sorted_split in Hpo as (_ & Hl & _). rewrite Forall_forall in Hl. rewrite after_position in Hax. apply negb_true_iff in Hax.
      apply elem_of_app in Hx as [Hx|Hx%list_elem_of_singleton]; [by rewrite Hl in Hax|]. subst x. destruct (order_total r r); congruence.
    - intros x [Hx|Hx]%elem_of_app; apply elem_filterb; [by apply (page_rows _ _ _ _ _ Hp)|].
      apply elem_filterb in Hx as [Hx Hax]. split; [done|]. apply (is_after_trans pos r); [done|].
      rewrite after_position in Hax. apply negb_true_iff in Hax. destruct (order_total r x); [done|congruence]. }
  rewrite Hlen in Hcount. cbn [is_after]. set (n' := length (List.filter (after (position r)) rows)) in *.
  set (n := length (List.filter (is_after pos) rows)) in *.
  assert ((n' + 1 * limit) / limit <= n / limit)%nat as Hdiv by (apply Nat.Div0.div_le_mono; lia).
  rewrite Nat.div_add in Hdiv by lia. change (n' / limit < fuel)%nat. lia.
Qed.

(** C28: a client that follows the cursors of an unchanged table stops after
    at most one request more than [rows / limit], and has then read every
    matching row exactly once, in [(created_at, id)] order, no page longer
    than [limit]. *)
Theorem pages_complete rows limit : (0 < limit)%nat -> NoDup (map id rows) -> (forall r, r ∈ rows -> readable r) ->
  exists pages, read_pages (fun _ => rows) limit (S (length rows / limit)) 0 None = Ok pages /\
    concat pages = sort_by order_le rows /\ Forall (fun page => (length page <= limit)%nat) pages.
Proof.
  intros Hlim Hids Hread. pose proof (NoDup_fmap_1 id rows Hids) as Hnd.
  assert (List.filter (is_after None) rows = rows) as Hall by (induction rows as [|r l IH]; [done|]; cbn; f_equal; apply IH; [by inversion_clear Hids| |by inversion_clear Hnd]; intros x Hx; apply Hread; by right).
  destruct (read_pages_ends rows limit (S (length rows / limit)) 0 None None Hlim Hnd Hread eq_refl) as [pages Hp]; [rewrite Hall; lia|].
  destruct (read_pages_spec (fun _ => rows) limit Hlim (fun _ => Hids) (fun _ => Hread) _ 0%nat None None pages eq_refl Hp) as (Hin & Hord & Hlen & Hper).
  exists pages. split_and!; [done| |done]. apply (StronglySorted_unique_strong (fun a b => order_le a b = true)).
  - intros x y Hx Hy Hxy Hyx. destruct (Hin x Hx) as (_ & i & Hix). rewrite sort_by_perm in Hy.
    by apply (order_antisym (fun _ => rows) (fun _ => Hids) 0%nat).
  - clear -Hord. induction Hord as [|x l Hl IH Hx]; constructor; [done|]. eapply Forall_impl; [exact Hx|]. intros y Hy.
    unfold before in Hy. destruct (order_total x y); [done|congruence].
  - apply sorted_rows.
  - rewrite sort_by_perm. apply NoDup_Permutation; [|done|].
    + clear -Hord. induction Hord as [|x l Hl IH Hx]; constructor; [|done]. intros Hin. rewrite Forall_forall in Hx. specialize (Hx x Hin).
      unfold before in Hx. destruct (order_total x x); congruence.
    + intros r. split; [by intros (_ & i & ?)%Hin|]. intros Hr. by apply Hper.
Qed.

(** The pages a client reads while other requests insert, change and
    remove rows are still in strict [(created_at, id)] order, so no row comes
    twice; every row on them was in the table; and a row that is there from
    the first request to the last is not missed. *)
Theorem pages_stable (snapshot : nat -> list A) limit fuel pages :
  (0 < limit)%nat -> (forall k, NoDup (map id (snapshot k))) -> (forall k r, r ∈ snapshot k -> readable r) ->
  read_pages snapshot limit fuel 0 None = Ok pages ->
  StronglySorted before (concat pages) /\ Forall (fun page => (length page <= limit)%nat) pages /\
  (forall r, r ∈ concat pages -> exists k, r ∈ snapshot k) /\
  (forall r, (forall k, r ∈ snapshot k) -> r ∈ concat pages).
Proof.
  intros Hlim Hids Hread Hp.
  destruct (read_pages_spec snapshot limit Hlim Hids Hread _ 0%nat None None pages eq_refl Hp) as (Hin & Hord & Hlen & Hper).
  split_and!; [done|done|by intros r [_ ?]%Hin|]. intros r Hr. by apply Hper.
Qed.
End keyset.

(** ** Concrete pages *)

Module KeysetDemo.
Definition at_us (us : Z) : datetime := DateTime (1700000000000000 + us) true.
Definition times : list datetime := map at_us [1; 2; 2; 3].
Definition fromisoformat (s : string) : option datetime := List.find (fun d => str_eq (isoformat d) s) times.
Definition task (id : string) (us : Z) : TaskRow := blank_TaskRow {{ tk_id := id; tk_created_at := at_us us }}.
Definition tasks : list TaskRow := [task "t3" 3; task "t2b" 2; task "t1" 1; task "t2a" 2].
End KeysetDemo.

Lemma tasks_readable r : r ∈ KeysetDemo.tasks -> readable tk_created_at tk_id KeysetDemo.fromisoformat r.
Proof.
  unfold KeysetDemo.tasks. rewrite !elem_of_cons, elem_of_nil. intros H. repeat destruct H as [->|H]; try done; (split; [done|vm_compute; reflexivity]).
Qed.

Lemma pages_complete_witness : exists pages,
  read_pages tk_created_at tk_id KeysetDemo.fromisoformat (fun _ => KeysetDemo.tasks) 2 3 0 None = Ok pages /\
  map (map tk_id) pages = [["t1"; "t2a"]; ["t2b"; "t3"]].
Proof.
  assert (0 < 2)%nat as Hlim by lia. assert (NoDup (map tk_id KeysetDemo.tasks)) as Hids by (by apply (bool_decide_unpack _)).
  destruct (pages_complete tk_created_at tk_id KeysetDemo.fromisoformat KeysetDemo.tasks 2 Hlim Hids tasks_readable) as (pages & Hp & _).
  change (S (length KeysetDemo.tasks / 2)) with 3%nat in Hp. exists pages. split; [exact Hp|].
  assert ((map (map tk_id) <$> read_pages tk_created_at tk_id KeysetDemo.fromisoformat (fun _ => KeysetDemo.tasks) 2 3 0 None) =
    Ok [["t1"; "t2a"]; ["t2b"; "t3"]]) as E by (vm_compute; reflexivity).
  rewrite Hp in E. injection E as E. exact E.
Defined.

Lemma pages_stable_witness : exists pages,
  read_pages tk_created_at tk_id KeysetDemo.fromisoformat
    (fun k => match k with O => KeysetDemo.tasks | _ => KeysetDemo.task "t0" 1 :: tail KeysetDemo.tasks end) 2 5 0 None = Ok pages /\
  StronglySorted (before tk_created_at tk_id) (concat pages) /\ map tk_id (concat pages) = ["t1"; "t2a"; "t2b"].
Proof.
  set (snapshot := fun k : nat => match k with O => KeysetDemo.tasks | _ => KeysetDemo.task "t0" 1 :: tail KeysetDemo.tasks end).
  set (result := [[KeysetDemo.task "t1" 1; KeysetDemo.task "t2a" 2]; [KeysetDemo.task "t2b" 2]]).
  assert (read_pages tk_created_at tk_id KeysetDemo.fromisoformat snapshot 2 5 0 None = Ok result) as E by (vm_compute; reflexivity).
  assert (0 < 2)%nat as Hlim by lia.
  assert (forall k, NoDup (map tk_id (snapshot k))) as Hids by (intros [|k]; by apply (bool_decide_unpack _)).
  assert (forall k r, r ∈ snapshot k -> readable tk_created_at tk_id KeysetDemo.fromisoformat r) as Hread.
  { intros [|k] r Hr; [by apply tasks_readable|]. apply elem_of_cons in Hr as [->|Hr]; [split; [done|vm_compute; reflexivity]|].
    apply tasks_readable. by right. }
  exists result. split; [exact E|]. split; [|reflexivity].
  exact (proj1 (pages_stable tk_created_at tk_id KeysetDemo.fromisoformat snapshot 2 5 result Hlim Hids Hread E)).
Defined.
