(* ===== verification/HumanRead.v ===== *)
(** * HumanRead: the list endpoints and the approver's inbox

    Models [src/sdf_core/human_read.py] and the handlers of
    [src/sdf_core/api.py] that page through it: the fields a row shows,
    redaction, the pages, and which pending requests a caller may decide.
    The environment's secret values, reading a timestamp back and the Unicode
    version of the interpreter are arguments. *)

From S2P Require Import Prelude Floats Json JsonText Db EvidenceMac Flush Samples FlushFacts Store Events.
From S2P Require Import DecisionGate Plans Auth Gate RunConfig JsonParse Cursor Keyset Redact.

Definition BODY_CHARS : nat := 400.

(** [redact_payload(value)]: every string redacted, a [body] cut first. *)
Fixpoint redact_payload (secrets : list string) (value : json) : json :=
  match value with
  | JStr s => JStr (redact secrets s)
  | JObj kvs =>
      JObj (map (fun kv => (kv.1,
        match kv.2 with
        | JStr v => JStr (redact secrets (if str_eq kv.1 "body" then str_take BODY_CHARS v else v))
        | _ => redact_payload secrets kv.2
        end)) kvs)
  | JArr l => JArr (map (redact_payload secrets) l)
  | _ => value
  end.

(** A secret that the cut divides is no longer recognised, and its first half
    is shown. *)
Example body_cut_first : let secret := "hunter2-hunter2-hunter2" in let pad := str_join "" (replicate 390 "x") in
  redact_payload [secret] (JObj [("text", JStr (pad +:+ secret)); ("body", JStr (pad +:+ secret))]) =
  JObj [("text", JStr (pad +:+ REDACTED)); ("body", JStr (pad +:+ "hunter2-hu"))].
Proof. vm_compute. reflexivity. Qed.

Definition InboxNormalizationError (msg : string) : exn := OtherError "InboxNormalizationError" msg.

Section human_read.
Context (secrets : list string) (fromisoformat : string -> option datetime) (unidata_version : string).

(** ** What a row shows *)

Definition task_fields (row : TaskRow) : list (string * json) :=
  [("id", JStr (tk_id row)); ("title", JStr (tk_title row)); ("status", JStr (tk_status row));
   ("acceptance_criteria", JArr (map JStr (tk_acceptance_criteria row))); ("created_at", JStr (isoformat (tk_created_at row)))].

Definition task_item (row : TaskRow) : json := redact_payload secrets (JObj (task_fields row)).

Definition attempts_of (d : Db) (task_id : string) : list AttemptRow :=
  sort_by (order_le at_created_at at_id) (select_rows (fun a => str_eq (at_task_id a) task_id) (d_attempts d)).

Definition task_detail (d : Db) (row : TaskRow) : json :=
  redact_payload secrets (JObj (task_fields row ++ [("attempt_ids", JArr (map (fun a => JStr (at_id a)) (attempts_of d (tk_id row))))])).

Definition json_float_opt (o : option float) : json := match o with Some f => JFloat f | None => JNull end.

Definition attempt_item (row : AttemptRow) : json :=
  redact_payload secrets (JObj [
    ("id", JStr (at_id row)); ("task_id", JStr (at_task_id row)); ("status", JStr (at_status row)); ("agent", JStr (at_agent row));
    ("parent_attempt_id", json_str (at_parent_attempt_id row)); ("model_tier", JStr (at_model_tier row)); ("cost_usd", JFloat (at_cost_usd row));
    ("provider", json_str (at_provider row)); ("latency_ms", json_float_opt (at_latency_ms row)); ("input_tokens", json_int (at_input_tokens row));
    ("output_tokens", json_int (at_output_tokens row)); ("escalation_reason", json_str (at_escalation_reason row));
    ("created_at", JStr (isoformat (at_created_at row))); ("model_profile", json_str (at_model_profile row)); ("outcome", json_str (at_outcome row));
    ("evidence_mode", JStr (at_evidence_mode row)); ("error_class", json_str (at_error_class row)); ("trace_id", json_str (at_trace_id row));
    ("principal", json_str (at_principal row))]).

Definition plan_item (row : PlanRow) : json :=
  redact_payload secrets (JObj [
    ("id", JStr (pl_id row)); ("title", JStr (pl_title row)); ("status", JStr (pl_status row)); ("objective_id", json_str (pl_objective_id row));
    ("proposed_by", JStr (pl_proposed_by row)); ("content_sha256", JStr (pl_content_sha256 row)); ("created_at", JStr (isoformat (pl_created_at row)));
    ("decision_request_id", JStr (pl_decision_request_id row))]).

Definition objective_item (row : GraphNodeRow) : json :=
  redact_payload secrets (JObj [
    ("id", JStr (gn_id row)); ("title", JStr (gn_title row)); ("owner", JStr (gn_owner row)); ("source", JStr (gn_source row));
    ("created_at", JStr (isoformat (gn_created_at row)))]).

(** ** The inbox *)

(** [_require_casefold_backfill(db)]: which of several plans the probe names
    is the database's choice; here the first. *)
Definition require_casefold_backfill (d : Db) : result unit :=
  match find_row (fun p => bool_decide (pl_proposed_by_casefold p = None)) (d_plans d) with
  | Some p => Err (InboxNormalizationError ("plan " +:+ pl_id p +:+ " is missing proposed_by_casefold; inbox listing is unavailable "
                +:+ "until migration 0033_plan_casefold has backfilled every plan"))
  | None => Ok ()
  end.

Definition require_returned_fold (plan : PlanRow) : result unit :=
  expected ← match casefold unidata_version (pl_proposed_by plan) with
    | Ok folded => Ok folded
    | Err _ => Err (InboxNormalizationError ("plan " +:+ pl_id plan +:+ " proposer cannot be casefolded; inbox listing is unavailable"))
    end;
  raise_if (negb (opt_str_eq (pl_proposed_by_casefold plan) (Some expected)))
    (InboxNormalizationError ("plan " +:+ pl_id plan +:+ " proposed_by_casefold does not match the pinned casefold; " +:+ "inbox listing is unavailable")).

(** The plan a request is joined with. *)
Definition plan_of (d : Db) (request : DecisionRequestRow) : option PlanRow :=
  if str_eq (dr_subject_kind request) "plan" then d_plans d !! dr_subject_id request else None.

(** [or_(subject_kind != "plan", visible_plan)]; a fold that is [NULL]
    compares as unknown. *)
Definition visible (single_user : bool) (caller_fold : string) (row : DecisionRequestRow * option PlanRow) : bool :=
  negb (str_eq (dr_subject_kind row.1) "plan") ||
  match row.2 with
  | Some plan => single_user || match pl_proposed_by_casefold plan with Some f => negb (str_eq f caller_fold) | None => false end
  | None => false
  end.

Definition inbox_rows (d : Db) (single_user : bool) (caller_fold : string) : list (DecisionRequestRow * option PlanRow) :=
  List.filter (visible single_user caller_fold)
    (map (fun r => (r, plan_of d r)) (select_rows (fun r => str_eq (dr_status r) "pending") (d_decision_requests d))).

Definition row_created_at (row : DecisionRequestRow * option PlanRow) : datetime := dr_created_at row.1.
Definition row_id (row : DecisionRequestRow * option PlanRow) : string := dr_id row.1.

Definition check_fold (row : DecisionRequestRow * option PlanRow) : result unit :=
  match row.2 with Some plan => require_returned_fold plan | None => Ok () end.

Definition UNSUPPORTED (dialect : string) : exn := InboxNormalizationError ("unsupported database " +:+ str_repr dialect +:+ " for casefold identity").

Definition inbox_page (dialect : string) (single_user : bool) (d : Db) (principal : Principal) (limit : nat) (cursor : option string)
    : result (list (DecisionRequestRow * option PlanRow) * option string) :=
  pos ← start fromisoformat cursor;
  _ ← require_casefold_backfill d;
  if negb (can_approve principal) then Ok ([], None)
  else
    caller_fold ← match casefold unidata_version (pc_name principal) with
      | Ok folded => Ok folded
      | Err e => Err (InboxNormalizationError ("caller identity cannot be casefolded; inbox listing is unavailable: " +:+ exn_text e))
      end;
    _ ← raise_if (negb (str_in dialect ["postgresql"; "sqlite"])) (UNSUPPORTED dialect);
    let rows := fetch row_created_at row_id limit pos (inbox_rows d single_user caller_fold) in
    _ ← result_map check_fold rows;
    Ok (cut row_created_at row_id limit rows).

Definition inbox_item (d : Db) (row : DecisionRequestRow * option PlanRow) : result json :=
  material ← material_payload d row.1;
  match decision_request_payload row.1, material with
  | JObj fields, JObj material =>
      let payload := kv_set "actionable" (JBool true) (kv_update fields material) in
      let payload := match row.2 with
        | Some plan => if str_eq (dr_subject_kind row.1) "plan"
            then kv_set "content_sha256" (JStr (pl_content_sha256 plan)) (kv_set "proposed_by" (JStr (pl_proposed_by plan)) payload) else payload
        | None => payload
        end in
      Ok (redact_payload secrets (JObj payload))
  | _, _ => Err (TypeError "mapping expected")
  end.

(** ** The handlers *)

(** [_read_page(loader)] *)
Definition read_page {A} (loader : result A) : result A :=
  match loader with
  | Err e => if bool_decide (e = CursorError) then Err (HTTPException 422 "cursor is not valid" []) else Err e
  | Ok page => Ok page
  end.

Definition page_body (items : list json) (next_cursor : option string) : json :=
  JObj [("items", JArr items); ("next_cursor", json_str next_cursor)].

Definition list_page {A} (created_at : A -> datetime) (id : A -> string) (item : A -> json) (rows : list A) (limit : nat) (cursor : option string) : result json :=
  '(rows, next_cursor) ← read_page (keyset_page created_at id fromisoformat rows limit cursor);
  Ok (page_body (map item rows) next_cursor).

Definition list_tasks (d : Db) : nat -> option string -> result json :=
  list_page tk_created_at tk_id task_item (rows (d_tasks d)).
Definition list_attempts (d : Db) : nat -> option string -> result json :=
  list_page at_created_at at_id attempt_item (rows (d_attempts d)).
Definition list_plans (d : Db) (status : option string) : nat -> option string -> result json :=
  list_page pl_created_at pl_id plan_item
    (select_rows (fun p => match status with Some s => str_eq (pl_status p) s | None => true end) (d_plans d)).
Definition list_objectives (d : Db) : nat -> option string -> result json :=
  list_page gn_created_at gn_id objective_item (select_rows (fun n => str_eq (gn_kind n) "objective") (d_graph_nodes d)).

Definition get_task (d : Db) (task_id : string) : result json :=
  task ← require_some (d_tasks d !! task_id) (HTTPException 404 "task not found" []);
  Ok (task_detail d task).
Definition get_attempt (d : Db) (attempt_id : string) : result json :=
  attempt ← require_some (d_attempts d !! attempt_id) (HTTPException 404 "attempt not found" []);
  Ok (attempt_item attempt).

Definition get_inbox (dialect : string) (single_user : bool) (d : Db) (principal : Principal) (limit : nat) (cursor : option string) : result json :=
  match read_page (inbox_page dialect single_user d principal limit cursor) with
  | Ok (page, next_cursor) => items ← result_map (inbox_item d) page; Ok (page_body items next_cursor)
  | Err (OtherError cls msg) => if str_eq cls "InboxNormalizationError" then Err (HTTPException 503 msg []) else Err (OtherError cls msg)
  | Err e => Err e
  end.
End human_read.

(** ** What the inbox holds *)

Section inbox.
Context (fromisoformat : string -> option datetime) (unidata_version : string).

Lemma elem_inbox_rows d su fold row :
  row ∈ inbox_rows d su fold <->
  (exists k, d_decision_requests d !! k = Some row.1) /\ dr_status row.1 = "pending" /\ row.2 = plan_of d row.1 /\ visible su fold row = true.
Proof.
  unfold inbox_rows. rewrite elem_filterb, elem_map. setoid_rewrite elem_select. unfold str_eq. setoid_rewrite bool_decide_eq_true. split.
  - intros [(r & [Hp Hk] & ->) Hv]. by cbn [fst snd].
  - intros (Hk & Hp & Hpl & Hv). split; [|done]. exists row.1. split; [done|]. destruct row. cbn [fst snd] in *. by rewrite Hpl.
Qed.

(** The folds of the rows that were read are those of their proposers. *)
Lemma check_fold_Ok row u plan : check_fold unidata_version row = Ok u -> row.2 = Some plan ->
  pl_proposed_by_casefold plan = Some (py_casefold (pl_proposed_by plan)) /\ casefold unidata_version (pl_proposed_by plan) = Ok (py_casefold (pl_proposed_by plan)).
Proof.
  unfold check_fold. intros H Hp. rewrite Hp in H. unfold require_returned_fold in H.
  destruct (casefold unidata_version (pl_proposed_by plan)) as [f|e] eqn:Hc; [|done]. pose proof (casefold_Ok _ _ _ Hc) as ->.
  cbn [result_bind mbind] in H. change (raise_if (negb (opt_str_eq (pl_proposed_by_casefold plan) (Some (py_casefold (pl_proposed_by plan)))))
    (InboxNormalizationError ("plan " +:+ pl_id plan +:+ " proposed_by_casefold does not match the pinned casefold; " +:+ "inbox listing is unavailable")) = Ok u) in H.
  apply raise_if_Ok, negb_false_iff, bool_decide_eq_true in H. done.
Qed.

(** A page the inbox answers with is a page of the rows this caller may
    decide. *)
Lemma inbox_page_Ok dialect su d p limit cursor page next : can_approve p = true ->
  inbox_page fromisoformat unidata_version dialect su d p limit cursor = Ok (page, next) ->
  exists pos, start fromisoformat cursor = Ok pos /\
    cut row_created_at row_id limit (fetch row_created_at row_id limit pos (inbox_rows d su (py_casefold (pc_name p)))) = (page, next) /\
    (forall row, row ∈ fetch row_created_at row_id limit pos (inbox_rows d su (py_casefold (pc_name p))) -> check_fold unidata_version row = Ok ()) /\
    exists f, casefold unidata_version (pc_name p) = Ok f.
Proof.
  intros Hc H. unfold inbox_page in H. rewrite Hc in H. apply bind_Ok in H as (pos & Hs & H). apply bind_Ok in H as (u & _ & H). cbn [negb] in H.
  apply bind_Ok in H as (f & Hf & H). destruct (casefold unidata_version (pc_name p)) as [f'|e] eqn:Hcf; [|done]. injection Hf as ->.
  pose proof (casefold_Ok _ _ _ Hcf) as ->. apply bind_Ok in H as (u' & _ & H). apply bind_Ok in H as (us & Hus & [= H]).
  exists pos. split_and!; [done|done| |by eexists]. intros row Hrow. destruct (result_map_all _ _ _ _ Hus Hrow) as [[] ?]. done.
Qed.
End inbox.

(** Approving a plan is refused for separation of duties only to its own
    proposer. *)
Lemma may_decide_separation h s plan_id plan name expected msg f :
  stored s = current s -> d_plans (current s) !! plan_id = Some plan -> str_strip name = name -> casefold (h_unidata_version h) name = Ok f ->
  may_decide h s plan_id true name expected false = Err (SeparationOfDutiesError msg) -> py_casefold name = py_casefold (pl_proposed_by plan).
Proof.
  intros Hs Hplan Hstrip Hf H. pose proof (casefold_Ok _ _ _ Hf) as ->. unfold may_decide, validate_human in H. rewrite Hstrip in H.
  destruct (negb (is_actor name) || is_reserved name); [done|]. cbn [mbind result_bind] in H. rewrite (pget_clean _ _ _ Hs), Hs, Hplan in H.
  cbn [require_some mbind result_bind] in H. destruct (negb (str_eq (pl_status plan) "proposed")); [done|]. cbn [raise_if mbind result_bind] in H.
  rewrite Hf in H. cbn [mbind result_bind] in H. destruct (casefold (h_unidata_version h) (pl_proposed_by plan)) as [g|e] eqn:Hg.
  - pose proof (casefold_Ok _ _ _ Hg) as ->. cbn [mbind result_bind andb negb] in H. rewrite andb_true_r in H.
    destruct (str_eq (py_casefold name) (py_casefold (pl_proposed_by plan))) eqn:E; [by apply bool_decide_eq_true in E|]. exfalso.
    cbn [raise_if mbind result_bind] in H. repeat (apply bind_Err in H as [H|(? & _ & H)]; [unfold raise_if, require_some in H; by repeat case_match|]). done.
  - exfalso. unfold casefold in Hg. cbn [mbind result_bind] in H. injection H as ->.
    apply bind_Err in Hg as [Hg|(? & _ & Hg)]; [unfold raise_if in Hg; by case_match|]. apply bind_Err in Hg as [Hg|(? & _ & Hg)]; [unfold raise_if in Hg; by case_match|done].
Qed.

(** C27: what the inbox lists for a caller who may approve is pending, and
    the caller may decide it: a request about a plan comes with the stored
    plan and its own fold, and unless the deployment is for a single user
    approving it is not refused as the caller's own proposal.  The rows come
    in [(created_at, id)] order after the cursor, at most [limit] of them, and
    when no cursor comes with them no actionable request is left out. *)
Theorem inbox_spec fromisoformat dialect su h s p limit cursor pos page next :
  stored s = current s -> can_approve p = true -> str_strip (pc_name p) = pc_name p -> (0 < limit)%nat -> start fromisoformat cursor = Ok pos ->
  inbox_page fromisoformat (h_unidata_version h) dialect su (current s) p limit cursor = Ok (page, next) ->
  (forall row, row ∈ page ->
     dr_status row.1 = "pending" /\ (exists k, d_decision_requests (current s) !! k = Some row.1) /\
     is_after row_created_at row_id pos row = true /\
     (dr_subject_kind row.1 = "plan" -> exists plan, row.2 = Some plan /\ d_plans (current s) !! dr_subject_id row.1 = Some plan /\
        pl_proposed_by_casefold plan = Some (py_casefold (pl_proposed_by plan)) /\
        (su = false -> forall expected msg, may_decide h s (dr_subject_id row.1) true (pc_name p) expected false <> Err (SeparationOfDutiesError msg)))) /\
  StronglySorted (fun a b => order_le row_created_at row_id a b = true) page /\ (length page <= limit)%nat /\
  (next = None -> forall row, row ∈ inbox_rows (current s) su (py_casefold (pc_name p)) -> is_after row_created_at row_id pos row = true -> row ∈ page).
Proof.
  intros Hclean Hc Hstrip Hlim Hpos H. destruct (inbox_page_Ok _ _ _ _ _ _ _ _ _ _ Hc H) as (pos' & Hs & Hcut & Hfold & f & Hcf). rewrite Hs in Hpos. injection Hpos as ->.
  pose proof (fetch_page row_created_at row_id limit pos (inbox_rows (current s) su (py_casefold (pc_name p))) Hlim) as Hp. rewrite Hcut in Hp.
  split_and!; [|apply (page_order _ _ _ _ _ _ _ Hp)|apply (page_limit _ _ _ _ _ _ _ Hp)|apply (page_last _ _ _ _ _ _ _ Hp)].
  intros row Hrow. destruct (page_rows _ _ _ _ _ _ _ Hp row Hrow) as [Hin Ha]. apply elem_inbox_rows in Hin as (Hk & Hst & Hpl & Hv).
  split_and!; [done..|]. intros Hkind. unfold plan_of in Hpl. unfold str_eq in Hpl. rewrite bool_decide_eq_true_2 in Hpl by done.
  unfold visible in Hv. unfold str_eq in Hv at 1. rewrite bool_decide_eq_true_2 in Hv by done. cbn [negb orb] in Hv.
  destruct row.2 as [plan|] eqn:Hr2; [|done]. assert (row ∈ fetch row_created_at row_id limit pos (inbox_rows (current s) su (py_casefold (pc_name p)))) as Hf.
  { by apply (cut_fetched _ _ _ _ _ _ _ Hcut). }
  destruct (check_fold_Ok _ _ _ _ (Hfold row Hf) Hr2) as [Hcase _]. exists plan. split_and!; [done..|].
  intros -> expected msg Hmay. rewrite Hcase in Hv. cbn [orb] in Hv. apply negb_true_iff, bool_decide_eq_false in Hv.
  apply Hv. symmetry. exact (may_decide_separation h s _ plan _ _ _ _ Hclean (eq_sym Hpl) Hstrip Hcf Hmay).
Qed.

(** ** Concrete pages *)

Module HumanReadDemo.
Import KeysetDemo.
Definition plan (id who : string) : PlanRow :=
  blank_PlanRow {{ pl_id := id; pl_status := "proposed"; pl_proposed_by := who; pl_proposed_by_casefold := Some (py_casefold who); pl_decision_request_id := "D-" +:+ id }}.
Definition request (id kind subject : string) (us : Z) : DecisionRequestRow :=
  blank_DecisionRequestRow {{ dr_id := id; dr_subject_kind := kind; dr_subject_id := subject; dr_status := "pending"; dr_created_at := at_us us }}.
Definition db : Db := empty_db {{
  d_plans := {["P1" := plan "P1" "alice"; "P2" := plan "P2" "BOB"]};
  d_decision_requests := {["D-P1" := request "D-P1" "plan" "P1" 2; "D-P2" := request "D-P2" "plan" "P2" 1; "D-A" := request "D-A" "agent_request" "M1" 3]} }}.
Definition bob : Principal := {| pc_name := "Bob"; pc_roles := ["approver"]; pc_kind := "human"; pc_token_id := None; pc_method := "token" |}.
Definition host : Host := {| h_environ := ∅; h_unidata_version := "15.0.0" |}.
Abbreviation answer := (inbox_page fromisoformat "15.0.0" "sqlite" false db bob 1 None).

Example inbox_test : (fun x => (map (fun row => dr_id row.1) x.1, bool_decide (x.2 = None))) <$> answer = Ok (["D-P1"], false).
Proof. vm_compute. reflexivity. Qed.
End HumanReadDemo.

Lemma inbox_spec_witness : exists page next, HumanReadDemo.answer = Ok (page, next) /\ map (fun row => dr_id row.1) page = ["D-P1"] /\
  StronglySorted (fun a b => order_le row_created_at row_id a b = true) page.
Proof.
  assert (match HumanReadDemo.answer with Ok (page, next) => map (fun row => dr_id row.1) page = ["D-P1"] | Err _ => False end) as Hx by (vm_compute; reflexivity).
  destruct HumanReadDemo.answer as [[page next]|] eqn:E; [|destruct Hx]. exists page, next. split; [reflexivity|]. split; [exact Hx|].
  assert (can_approve HumanReadDemo.bob = true) as Hc by (vm_compute; reflexivity).
  assert (0 < 1)%nat as Hlim by lia.
  exact (proj1 (proj2 (inbox_spec KeysetDemo.fromisoformat "sqlite" false HumanReadDemo.host (open_session HumanReadDemo.db) HumanReadDemo.bob 1 None None page next
    eq_refl Hc eq_refl Hlim eq_refl E))).
Defined.
