(* ===== verification/Impact.v ===== *)
(** * Impact: what may be claimed about an Objective, and the scorecard

    Models [src/sdf_core/impact.py] and [src/sdf_core/impact_repository.py].
    The datetimes of one column are all aware or all naive, as a database
    returns them, and the facts are compared by instant; the clock that
    decides which verifications have expired is read once.  [sum] of floats is
    an argument. *)

From S2P Require Import Prelude Floats Json Db EvidenceMac Flush Samples FlushFacts Store Acceptance.

Inductive EvidenceMode : Type := SYNTHETIC | LIVE.

#[export] Instance EvidenceMode_eq_dec : EqDecision EvidenceMode.
Proof. solve_decision. Defined.

Definition EvidenceMode_value (m : EvidenceMode) : string := match m with SYNTHETIC => "synthetic" | LIVE => "live" end.

(** [EvidenceMode(value)] *)
Definition evidence_mode (value : string) : result EvidenceMode :=
  if str_eq value "synthetic" then Ok SYNTHETIC
  else if str_eq value "live" then Ok LIVE
  else Err (ValueError (str_repr value +:+ " is not a valid EvidenceMode")).

(** ** Declarations and observations *)

Record MetricDeclaration : Type := {
  md_objective_id : string; md_metric_name : string; md_baseline : float; md_target : float; md_unit : string;
  md_source : string; md_owner : string; md_measurement_window_days : Z; md_declared_at : datetime
}.

(** [__post_init__] *)
Definition declaration_post_init (m : MetricDeclaration) : result unit :=
  _ ← raise_if (f_eq (md_target m) (md_baseline m)) (ValueError "target must differ from baseline");
  raise_if (md_measurement_window_days m <=? 0) (ValueError "measurement window must be a positive number of days").

Definition increases (m : MetricDeclaration) : bool := f_lt (md_baseline m) (md_target m).

Definition OverflowError (msg : string) : exn := OtherError "OverflowError" msg.
Definition days (n : Z) : Z := n * 86400 * seconds.

(** The range of [datetime]. *)
Definition datetime_min : Z := -62135596800000000.
Definition datetime_max : Z := 253402300799999999.

(** [declared_at + timedelta(days=...)] *)
Definition window_end (m : MetricDeclaration) : result datetime :=
  let n := md_measurement_window_days m in
  _ ← raise_if (999999999 <? Z.abs n) (OverflowError ("days=" +:+ pretty n +:+ "; must have magnitude <= 999999999"));
  let e := dt_add (md_declared_at m) (days n) in
  _ ← raise_if ((dt_us e <? datetime_min) || (datetime_max <? dt_us e)) (OverflowError "date value out of range");
  Ok e.

Record OutcomeObservation : Type := {
  ob_objective_id : string; ob_metric_name : string; ob_value : float; ob_observed_at : datetime; ob_source : string; ob_mode : EvidenceMode
}.

Definition covers (m : MetricDeclaration) (o : OutcomeObservation) : result bool :=
  if negb (str_eq (ob_objective_id o) (md_objective_id m) && str_eq (ob_metric_name o) (md_metric_name m)) then Ok false
  else
    started ← dt_le (md_declared_at m) (ob_observed_at o);
    if negb started then Ok false else e ← window_end m; dt_le (ob_observed_at o) e.

Definition improvement (m : MetricDeclaration) (observed : float) : float :=
  if increases m then f_sub observed (md_baseline m) else f_sub (md_baseline m) observed.

Definition f_abs (x : float) : float := SFabs x.
Definition f_is_zero (x : float) : bool := match x with S754_zero _ => true | _ => false end.

(** [a / b] *)
Definition py_div (a b : float) : result float :=
  if f_is_zero b then Err (OtherError "ZeroDivisionError" "float division by zero") else Ok (f_div a b).

Record BusinessImpact : Type := {
  bi_objective_id : string; bi_status : string; bi_claim_allowed : bool; bi_metric_name : option string; bi_baseline : option float;
  bi_target : option float; bi_observed : option float; bi_delta : option float; bi_target_attainment : option float;
  bi_observed_at : option datetime; bi_window_end : option datetime
}.

Definition float_or_null (o : option float) : json := match o with Some f => JFloat f | None => JNull end.

Definition impact_as_dict (b : BusinessImpact) : json :=
  JObj [("objective_id", JStr (bi_objective_id b)); ("status", JStr (bi_status b)); ("claim_allowed", JBool (bi_claim_allowed b));
        ("metric_name", json_str (bi_metric_name b)); ("baseline", float_or_null (bi_baseline b)); ("target", float_or_null (bi_target b));
        ("observed", float_or_null (bi_observed b)); ("delta", float_or_null (bi_delta b)); ("target_attainment", float_or_null (bi_target_attainment b));
        ("observed_at", json_str (isoformat <$> bi_observed_at b)); ("window_end", json_str (isoformat <$> bi_window_end b))].

(** [[x for x in l if p(x)]] *)
Fixpoint result_filter {A} (p : A -> result bool) (l : list A) : result (list A) :=
  match l with
  | [] => Ok []
  | x :: l => b ← p x; rest ← result_filter p l; Ok (if (b : bool) then x :: rest else rest)
  end.

Definition is_live (o : OutcomeObservation) : bool := bool_decide (ob_mode o = LIVE).
Definition later (a b : OutcomeObservation) : bool := dt_us (ob_observed_at b) <? dt_us (ob_observed_at a).

Definition not_measured (m : MetricDeclaration) (objective_id status : string) (e : datetime) : BusinessImpact := {|
  bi_objective_id := objective_id; bi_status := status; bi_claim_allowed := false; bi_metric_name := Some (md_metric_name m);
  bi_baseline := Some (md_baseline m); bi_target := Some (md_target m); bi_observed := None; bi_delta := None; bi_target_attainment := None;
  bi_observed_at := None; bi_window_end := Some e |}.

Definition measure_objective (objective_id : string) (declaration : option MetricDeclaration) (observations : list OutcomeObservation)
    : result BusinessImpact :=
  match declaration with
  | None => Ok {| bi_objective_id := objective_id; bi_status := "undeclared"; bi_claim_allowed := false; bi_metric_name := None; bi_baseline := None;
      bi_target := None; bi_observed := None; bi_delta := None; bi_target_attainment := None; bi_observed_at := None; bi_window_end := None |}
  | Some m =>
      e ← window_end m;
      in_window ← result_filter (covers m) observations;
      match List.filter is_live in_window with
      | [] => Ok (not_measured m objective_id (if bool_decide (in_window = []) then "unmeasured" else "synthetic_only") e)
      | o :: rest =>
          let latest := max_by later o rest in
          let delta := improvement m (ob_value latest) in
          let gap := f_abs (f_sub (md_target m) (md_baseline m)) in
          attainment ← py_div delta gap;
          Ok {| bi_objective_id := objective_id; bi_status := "measured"; bi_claim_allowed := true; bi_metric_name := Some (md_metric_name m);
                bi_baseline := Some (md_baseline m); bi_target := Some (md_target m); bi_observed := Some (ob_value latest); bi_delta := Some delta;
                bi_target_attainment := Some attainment; bi_observed_at := Some (ob_observed_at latest); bi_window_end := Some e |}
      end
  end.

(** ** Facts *)

Record TaskFact : Type := {
  tf_task_id : string; tf_created_at : datetime; tf_status : string; tf_acceptance_criteria : list string;
  tf_objective_id : option string; tf_has_artifact : bool
}.

Record AttemptFact : Type := {
  af_attempt_id : string; af_task_id : string; af_created_at : datetime; af_parent_attempt_id : option string; af_model_tier : option string;
  af_cost_usd : option float; af_escalation_reason : option string; af_outcome : option string; af_mode : EvidenceMode;
  af_agent : string; af_artifact_sha256 : option string
}.

Record EvidenceFact : Type := {
  ef_evidence_id : string; ef_attempt_id : option string; ef_status : string; ef_criterion : option string; ef_measured_at : datetime;
  ef_mode : EvidenceMode; ef_evidence_class : option string; ef_verifier_identity : option string; ef_verifier_role : option string;
  ef_subject_artifact_sha256 : option string; ef_oracle_digest : option string; ef_expires_at : option datetime; ef_content_authentic : bool
}.

Record ScorecardFacts : Type := { sf_tasks : list TaskFact; sf_attempts : list AttemptFact; sf_evidence : list EvidenceFact }.

Record Metric : Type := {
  mt_name : string; mt_value : option float; mt_numerator : json; mt_denominator : Z; mt_basis : string; mt_note : option string
}.

Definition metric_as_dict (m : Metric) : json :=
  JObj [("name", JStr (mt_name m)); ("value", float_or_null (mt_value m)); ("numerator", mt_numerator m); ("denominator", JInt (mt_denominator m));
        ("basis", JStr (mt_basis m)); ("note", json_str (mt_note m))].

(** The columns that the acceptance rule reads; a fact has no MAC of its own. *)
Definition fact_row (e : EvidenceFact) : EvidenceRow := blank_EvidenceRow {{
  ev_id := ef_evidence_id e; ev_status := ef_status e; ev_evidence_class := ef_evidence_class e; ev_verifier_identity := ef_verifier_identity e;
  ev_verifier_role := ef_verifier_role e; ev_subject_artifact_sha256 := ef_subject_artifact_sha256 e; ev_oracle_digest := ef_oracle_digest e;
  ev_expires_at := ef_expires_at e }}.

(** [is_verified_pass] on a fact. *)
Definition fact_verified (now : datetime) (e : EvidenceFact) (attempt_agent : string) (artifact_sha256 : option string) : result bool :=
  if negb (ef_content_authentic e) || negb (str_eq (ef_status e) "PASS") || negb (opt_truthy artifact_sha256) then Ok false
  else accepts (fact_row e) attempt_agent (or_empty artifact_sha256) now.

Definition basis (modes : list EvidenceMode) : string :=
  let live := bool_decide (LIVE ∈ modes) in
  let synthetic := bool_decide (SYNTHETIC ∈ modes) in
  if live then (if synthetic then "mixed" else "live") else if synthetic then "synthetic" else "none".

(** ** The scorecard *)

Definition is_verdict (e : EvidenceFact) : bool :=
  bool_decide (ef_evidence_class e = None) || opt_str_eq (ef_evidence_class e) (Some "verification").

Definition EXHAUSTED : string := "escalation_exhausted".

Section computation.
Context (fsum : list float -> float) (facts : ScorecardFacts) (now : datetime).

(** [attempts_by_task[task_id]]: by creation, then by id. *)
Definition attempts_of (task_id : string) : list AttemptFact :=
  sort_by (fun a b => (dt_us (af_created_at a) <? dt_us (af_created_at b)) ||
                      (dt_us (af_created_at a) =? dt_us (af_created_at b)) && str_le (af_attempt_id a) (af_attempt_id b))
    (List.filter (fun a => str_eq (af_task_id a) task_id) (sf_attempts facts)).

(** [evidence_by_attempt.get(attempt_id)] *)
Definition evidence_of (attempt_id : string) : list EvidenceFact :=
  List.filter (fun e => opt_truthy (ef_attempt_id e) && opt_str_eq (ef_attempt_id e) (Some attempt_id)) (sf_evidence facts).

Definition verdicts (a : AttemptFact) : list EvidenceFact := List.filter is_verdict (evidence_of (af_attempt_id a)).

Definition verified_row (a : AttemptFact) (e : EvidenceFact) : result bool := fact_verified now e (af_agent a) (af_artifact_sha256 a).

(** [set(criteria) <= passed] *)
Definition covered_by (criteria : list string) (verified : list EvidenceFact) : bool :=
  forallb (fun c => existsb (fun e => opt_truthy (ef_criterion e) && opt_str_eq (ef_criterion e) (Some c)) verified) criteria.

Definition accepts_task (t : TaskFact) (a : AttemptFact) : result bool :=
  let vs := verdicts a in
  if bool_decide (vs = []) || bool_decide (tf_acceptance_criteria t = []) then Ok false
  else if existsb (fun e => negb (str_eq (ef_status e) "PASS")) vs then Ok false
  else
    verified ← result_filter (verified_row a) vs;
    if negb (length verified =? length vs)%nat then Ok false
    else Ok (covered_by (tf_acceptance_criteria t) verified).

(** The first Attempt that accepts the Task, and its place. *)
Fixpoint first_accepting (t : TaskFact) (i : nat) (l : list AttemptFact) : result (option (nat * AttemptFact)) :=
  match l with
  | [] => Ok None
  | a :: l => ok ← accepts_task t a; if (ok : bool) then Ok (Some (i, a)) else first_accepting t (S i) l
  end.

(** [self.accepting.get(task_id)]; a Task's id is the key of its row. *)
Definition accepting (t : TaskFact) : result (option (nat * AttemptFact)) := first_accepting t 0 (attempts_of (tf_task_id t)).

Definition modes_of (tasks : list TaskFact) : list EvidenceMode :=
  concat (map (fun t => concat (map (fun a => af_mode a :: map ef_mode (evidence_of (af_attempt_id a))) (attempts_of (tf_task_id t)))) tasks).

Definition length_Z {A} (l : list A) : Z := Z.of_nat (length l).

(** [numerator / denominator] on integers. *)
Definition quotient (n d : Z) : float := f_ratio n (Z.to_pos d).

Definition ratio (name : string) (numerator : Z) (population : list TaskFact) : Metric :=
  let d := length_Z population in
  if d =? 0 then {| mt_name := name; mt_value := None; mt_numerator := JNull; mt_denominator := d; mt_basis := "none"; mt_note := None |}
  else {| mt_name := name; mt_value := Some (quotient numerator d); mt_numerator := JInt numerator; mt_denominator := d;
          mt_basis := basis (modes_of population); mt_note := None |}.

Definition escalated (t : TaskFact) : bool := existsb (fun a => opt_truthy (af_parent_attempt_id a)) (attempts_of (tf_task_id t)).

Definition conclusive (t : TaskFact) : list string :=
  concat (map (fun a => omap (fun e => if str_in (ef_status e) ["PASS"; "FAIL"] && opt_truthy (ef_criterion e) then ef_criterion e else None) (verdicts a))
    (attempts_of (tf_task_id t))).

Definition coverage : Metric :=
  let declared := sumZ (map (fun t => length_Z (tf_acceptance_criteria t)) (sf_tasks facts)) in
  let covered := sumZ (map (fun t => length_Z (List.filter (fun c => str_in c (conclusive t)) (tf_acceptance_criteria t))) (sf_tasks facts)) in
  if declared =? 0 then {| mt_name := "evidence_coverage"; mt_value := None; mt_numerator := JNull; mt_denominator := declared; mt_basis := "none"; mt_note := None |}
  else {| mt_name := "evidence_coverage"; mt_value := Some (quotient covered declared); mt_numerator := JInt covered; mt_denominator := declared;
          mt_basis := basis (modes_of (sf_tasks facts)); mt_note := None |}.

Definition measured_later (a b : EvidenceFact) : bool := dt_us (ef_measured_at b) <? dt_us (ef_measured_at a).

(** Seconds from a Task's creation to its last verified row. *)
Definition accepted_after (ta : TaskFact * AttemptFact) : result float :=
  verified ← result_filter (verified_row ta.2) (evidence_of (af_attempt_id ta.2));
  match verified with
  | [] => Err (ValueError "max() iterable argument is empty")
  | e :: rest => Ok (f_ratio (dt_us (ef_measured_at (max_by measured_later e rest)) - dt_us (tf_created_at ta.1)) 1000000)
  end.

Definition basis_if (accepted : list TaskFact) : string := if bool_decide (length accepted = 0)%nat then "none" else basis (modes_of accepted).

Definition time_to_accepted (accepted : list (TaskFact * AttemptFact)) : result Metric :=
  secs ← result_map accepted_after accepted;
  let total := fsum secs in
  let n := length_Z accepted in
  Ok {| mt_name := "time_to_accepted_evidence"; mt_value := if n =? 0 then None else Some (f_div total (f_of_Z n));
        mt_numerator := if n =? 0 then JNull else JFloat total; mt_denominator := n; mt_basis := basis_if (map fst accepted); mt_note := None |}.

(** [attempts_by_task.values()], in the order the Tasks appear in. *)
Definition all_attempts : list AttemptFact := concat (map (fun kv => attempts_of kv.1) (group af_task_id (sf_attempts facts))).

Definition cost_per_accepted (accepted : list TaskFact) : Metric :=
  let n := length_Z accepted in
  match mapM af_cost_usd all_attempts with
  | None => {| mt_name := "cost_per_accepted_task"; mt_value := None; mt_numerator := JNull; mt_denominator := n; mt_basis := basis_if accepted;
               mt_note := Some "incomplete cost attribution" |}
  | Some costs =>
      let total := fsum costs in
      {| mt_name := "cost_per_accepted_task"; mt_value := if n =? 0 then None else Some (f_div total (f_of_Z n));
         mt_numerator := if n =? 0 then JNull else JFloat total; mt_denominator := n; mt_basis := basis_if accepted; mt_note := None |}
  end.

(** [by_id.get(attempt_id)]: of several facts with one id the last. *)
Definition attempt_by_id (attempt_id : option string) : option AttemptFact :=
  if opt_truthy attempt_id then List.find (fun a => opt_str_eq attempt_id (Some (af_attempt_id a))) (rev (sf_attempts facts)) else None.

Definition pass_verified (e : EvidenceFact) : result bool :=
  let a := attempt_by_id (ef_attempt_id e) in
  fact_verified now e (match a with Some a => af_agent a | None => "" end) (a ≫= af_artifact_sha256).

Definition pass_metric (name note : string) (count total : Z) (modes : list EvidenceMode) : Metric := {|
  mt_name := name; mt_value := if total =? 0 then None else Some (quotient count total);
  mt_numerator := if total =? 0 then JNull else JFloat (f_of_Z count); mt_denominator := total;
  mt_basis := if total =? 0 then "none" else basis modes; mt_note := Some note |}.

Definition passes : list EvidenceFact := List.filter (fun e => str_eq (ef_status e) "PASS") (sf_evidence facts).

Definition pass_split : result (list Metric) :=
  verified ← result_filter pass_verified passes;
  let total := length_Z passes in
  let n := length_Z verified in
  Ok [pass_metric "verified_passes" "PASS rows that pass the verification acceptance gate (ADR 0039, ADR 0042)" n total (map ef_mode passes);
      pass_metric "unverified_legacy_passes"
        "PASS rows that are not verified: legacy, execution, outcome, expired, self-verified, or unbound" (total - n) total (map ef_mode passes)].

(** The accepted Tasks with the place of the Attempt that accepts them. *)
Fixpoint accepted_tasks (tasks : list TaskFact) : result (list (TaskFact * (nat * AttemptFact))) :=
  match tasks with
  | [] => Ok []
  | t :: tasks =>
      a ← accepting t; rest ← accepted_tasks tasks;
      Ok (match a with Some ia => (t, ia) :: rest | None => rest end)
  end.

Definition attempted : list TaskFact := List.filter (fun t => negb (bool_decide (length (attempts_of (tf_task_id t)) = 0%nat))) (sf_tasks facts).

Definition traced (t : TaskFact) : bool :=
  opt_truthy (tf_objective_id t) && tf_has_artifact t &&
  existsb (fun a => negb (bool_decide (length (evidence_of (af_attempt_id a)) = 0%nat))) (attempts_of (tf_task_id t)).

Definition exhausted (t : TaskFact) : bool := existsb (fun a => opt_str_eq (af_outcome a) (Some EXHAUSTED)) (attempts_of (tf_task_id t)).

Definition build_scorecard : result (list Metric) :=
  accepted ← accepted_tasks (sf_tasks facts);
  let first_success := List.filter (fun x => (x.2.1 =? 0)%nat) accepted in
  let escalated_tasks := List.filter escalated (sf_tasks facts) in
  time ← time_to_accepted (map (fun x => (x.1, x.2.2)) accepted);
  split ← pass_split;
  Ok ([ratio "first_attempt_success_rate" (length_Z first_success) attempted;
       ratio "accepted_task_rate" (length_Z accepted) (sf_tasks facts);
       coverage;
       ratio "trace_completeness" (length_Z (List.filter traced (sf_tasks facts))) (sf_tasks facts);
       time;
       ratio "escalation_rate" (length_Z escalated_tasks) attempted;
       cost_per_accepted (map fst accepted)] ++ split ++
      [ratio "escalation_exhaustion_rate" (length_Z (List.filter exhausted escalated_tasks)) escalated_tasks]).
End computation.

(** [Scorecard.metric] and [as_dict]. *)
Fixpoint metric (name : string) (metrics : list Metric) : result Metric :=
  match metrics with
  | [] => Err (KeyError name)
  | m :: metrics => if str_eq (mt_name m) name then Ok m else metric name metrics
  end.

Definition scorecard_as_dict (metrics : list Metric) : json := JObj [("metrics", JArr (map metric_as_dict metrics))].

(** ** The rows behind the facts *)

Section repository.
Context (env : environ) (d : Db).

Definition load_metric_declaration (objective_id : string) : result (option MetricDeclaration) :=
  match d_objective_metrics d !! objective_id with
  | None => Ok None
  | Some r =>
      let m := {| md_objective_id := om_objective_id r; md_metric_name := om_metric_name r; md_baseline := om_baseline r; md_target := om_target r;
                  md_unit := om_unit r; md_source := om_source r; md_owner := om_owner r;
                  md_measurement_window_days := om_measurement_window_days r; md_declared_at := om_declared_at r |} in
      _ ← declaration_post_init m; Ok (Some m)
  end.

Definition observation_of (r : OutcomeObservationRow) : result OutcomeObservation :=
  mode ← evidence_mode (oo_mode r);
  Ok {| ob_objective_id := oo_objective_id r; ob_metric_name := oo_metric_name r; ob_value := oo_value r; ob_observed_at := oo_observed_at r;
        ob_source := oo_source r; ob_mode := mode |}.

Definition load_observations (objective_id : string) : result (list OutcomeObservation) :=
  result_map observation_of (select_rows (fun r => str_eq (oo_objective_id r) objective_id) (d_outcome_observations d)).

(** The last edge wins when a Task implements several objectives. *)
Definition task_objective (task_id : string) : option string :=
  de_source_id <$> List.find (fun e => str_eq (de_target_id e) task_id)
    (rev (select_rows (fun e => str_eq (de_target_kind e) "task" && str_eq (de_source_kind e) "objective" && str_eq (de_relation e) "implements") (d_decision_edges d))).

Definition has_artifact (task_id : string) : bool :=
  existsb (fun r => match d_attempts d !! ar_attempt_id r with Some a => str_eq (at_task_id a) task_id | None => false end) (rows (d_artifacts d)).

(** The newest diff of an Attempt. *)
Definition diff_sha256 (attempt_id : string) : option string :=
  ar_sha256 <$> List.find (fun r => str_eq (ar_attempt_id r) attempt_id)
    (rev (sort_by (fun a b => (dt_us (ar_created_at a) <? dt_us (ar_created_at b)) ||
                              (dt_us (ar_created_at a) =? dt_us (ar_created_at b)) && str_le (ar_id a) (ar_id b))
            (select_rows (fun r => str_eq (ar_kind r) "diff") (d_artifacts d)))).

Definition task_fact (r : TaskRow) : TaskFact := {|
  tf_task_id := tk_id r; tf_created_at := tk_created_at r; tf_status := tk_status r; tf_acceptance_criteria := tk_acceptance_criteria r;
  tf_objective_id := task_objective (tk_id r); tf_has_artifact := has_artifact (tk_id r) |}.

Definition attempt_fact (r : AttemptRow) : result AttemptFact :=
  mode ← evidence_mode (at_evidence_mode r);
  Ok {| af_attempt_id := at_id r; af_task_id := at_task_id r; af_created_at := at_created_at r; af_parent_attempt_id := at_parent_attempt_id r;
        af_model_tier := Some (at_model_tier r); af_cost_usd := Some (at_cost_usd r); af_escalation_reason := at_escalation_reason r;
        af_outcome := at_outcome r; af_mode := mode; af_agent := at_agent r; af_artifact_sha256 := diff_sha256 (at_id r) |}.

Definition evidence_fact (r : EvidenceRow) : result EvidenceFact :=
  mode ← evidence_mode (ev_evidence_mode r);
  Ok {| ef_evidence_id := ev_id r; ef_attempt_id := ev_attempt_id r; ef_status := ev_status r; ef_criterion := ev_criterion r;
        ef_measured_at := ev_created_at r; ef_mode := mode; ef_evidence_class := ev_evidence_class r; ef_verifier_identity := ev_verifier_identity r;
        ef_verifier_role := ev_verifier_role r; ef_subject_artifact_sha256 := ev_subject_artifact_sha256 r; ef_oracle_digest := ev_oracle_digest r;
        ef_expires_at := ev_expires_at r; ef_content_authentic := stored_content_mac_ok env (Some d) r |}.

Definition load_scorecard_facts : result ScorecardFacts :=
  attempts ← result_map attempt_fact (rows (d_attempts d));
  evidence ← result_map evidence_fact (rows (d_evidence d));
  Ok {| sf_tasks := map task_fact (rows (d_tasks d)); sf_attempts := attempts; sf_evidence := evidence |}.
End repository.

(** ** What a claim rests on *)

Lemma result_filter_Ok {A} (p : A -> result bool) (f : A -> bool) l : (forall x, x ∈ l -> p x = Ok (f x)) -> result_filter p l = Ok (List.filter f l).
Proof.
  induction l as [|x l IH]; intros H; [done|]. cbn [result_filter List.filter]. rewrite H by left. cbn [mbind result_bind].
  rewrite IH by (intros y Hy; apply H; by right). cbn [mbind result_bind]. by destruct (f x).
Qed.

Lemma result_filter_elem {A} (p : A -> result bool) l l' : result_filter p l = Ok l' ->
  (forall x, x ∈ l' <-> x ∈ l /\ p x = Ok true) /\ (forall x, x ∈ l -> exists b, p x = Ok b).
Proof.
  revert l'. induction l as [|x l IH]; intros l' H; [injection H as <-; split; [intros x; split; [by intros ?%not_elem_of_nil|by intros [?%not_elem_of_nil _]]|by intros x ?%not_elem_of_nil]|].
  cbn [result_filter] in H. apply bind_Ok in H as (b & Hb & H). apply bind_Ok in H as (rest & Hr & [= <-]). destruct (IH rest Hr) as [IH1 IH2]. split.
  - intros y. destruct b; rewrite !elem_of_cons, IH1.
    + split; [intros [->|[Hy Hp]]; [by split; [left|]|by split; [right|]]|intros [[->|Hy] Hp]; [by left|by right]].
    + split; [intros [Hy Hp]; by split; [right|]|intros [[->|Hy] Hp]; [congruence|done]].
  - intros y [->|Hy]%elem_of_cons; [by exists b|by apply IH2].
Qed.

(** An observation a declaration's claim may rest on. *)
Definition supports (m : MetricDeclaration) (o : OutcomeObservation) : Prop := ob_mode o = LIVE /\ covers m o = Ok true.

Lemma swo_later : swo (fun _ => True) later.
Proof. split; unfold later; intros; rewrite ?Z.ltb_lt, ?Z.ltb_ge in *; lia. Qed.

Lemma max_later o l x : x ∈ o :: l -> dt_us (ob_observed_at x) <= dt_us (ob_observed_at (max_by later o l)).
Proof.
  intros Hx. pose proof (max_by_maximal (fun _ => True) later o l x swo_later) as H.
  assert (later x (max_by later o l) = false) as Hm.
  { apply H; [|exact Hx]. apply Forall_forall. done. }
  unfold later in Hm. apply Z.ltb_ge in Hm. exact Hm.
Qed.

(** Every way in which the measurement answers. *)
Lemma measure_cases oid decl obs r : measure_objective oid decl obs = Ok r ->
  (decl = None /\ bi_status r = "undeclared" /\ bi_claim_allowed r = false /\ bi_observed r = None /\ bi_delta r = None /\ bi_target_attainment r = None) \/
  exists m e, decl = Some m /\ window_end m = Ok e /\ bi_window_end r = Some e /\
    ((Forall (fun o => ~ supports m o) obs /\ bi_claim_allowed r = false /\ bi_observed r = None /\ bi_delta r = None /\ bi_target_attainment r = None /\
      (bi_status r = "synthetic_only" /\ Exists (fun o => ob_mode o = SYNTHETIC /\ covers m o = Ok true) obs \/
       bi_status r = "unmeasured" /\ Forall (fun o => covers m o = Ok false) obs)) \/
     (bi_status r = "measured" /\ bi_claim_allowed r = true /\ bi_baseline r = Some (md_baseline m) /\ bi_target r = Some (md_target m) /\
      exists o, o ∈ obs /\ supports m o /\ (forall o', o' ∈ obs -> supports m o' -> dt_us (ob_observed_at o') <= dt_us (ob_observed_at o)) /\
        bi_observed r = Some (ob_value o) /\ bi_observed_at r = Some (ob_observed_at o) /\ bi_delta r = Some (improvement m (ob_value o)) /\
        bi_target_attainment r = Some (f_div (improvement m (ob_value o)) (f_abs (f_sub (md_target m) (md_baseline m)))))).
Proof.
  destruct decl as [m|]; [|intros [= <-]; by left]. unfold measure_objective. intros H. right.
  apply bind_Ok in H as (e & He & H). apply bind_Ok in H as (win & Hw & H). destruct (result_filter_elem _ _ _ Hw) as [W1 W2].
  exists m, e. split; [done|]. split; [done|].
  assert (HL : forall o, o ∈ List.filter is_live win <-> o ∈ obs /\ supports m o).
  { intros o. rewrite elem_filterb, W1. unfold supports, is_live. rewrite bool_decide_eq_true. tauto. }
  destruct (List.filter is_live win) as [|o rest] eqn:Hl.
  - injection H as <-. cbn. split; [done|]. left. split; [|split; [done|split; [done|split; [done|split; [done|]]]]].
    { apply Forall_forall. intros o Ho Hs. by apply (not_elem_of_nil o), HL. }
    destruct (bool_decide_reflect (win = [])) as [->|Hne].
    + right. split; [done|]. apply Forall_forall. intros o Ho. destruct (W2 o Ho) as [[|] Hb]; [|done].
      exfalso. by apply (not_elem_of_nil o), W1.
    + left. split; [done|]. apply Exists_exists. destruct win as [|o win]; [done|].
      destruct (proj1 (W1 o) ltac:(left)) as [Ho Hc]. exists o. split; [done|]. split; [|done].
      destruct (ob_mode o) eqn:Hm; [done|]. exfalso. by apply (not_elem_of_nil o), HL.
  - apply bind_Ok in H as (att & Ha & [= <-]). cbn. split; [done|]. right. do 4 (split; [done|]).
    exists (max_by later o rest). assert (Hin : max_by later o rest ∈ o :: rest) by (apply elem_of_cons, max_by_elem). apply HL in Hin as [Hin Hs].
    split; [done|]. split; [done|]. split; [intros o' Ho' Hs'; apply max_later, HL; by split|]. do 3 (split; [done|]).
    unfold py_div in Ha. case_match; [done|]. by injection Ha as <-.
Qed.

(** ** What the scorecard counts *)

Lemma result_filter_total {A} (p : A -> result bool) l : (forall x, exists b, p x = Ok b) -> exists l', result_filter p l = Ok l'.
Proof.
  intros H. induction l as [|x l [l' IH]]; [by exists []|]. destruct (H x) as [b Hb]. cbn [result_filter]. rewrite Hb, IH. by eexists.
Qed.

Lemma result_filter_length {A} (p : A -> result bool) l l' : result_filter p l = Ok l' -> (length l' <= length l)%nat.
Proof.
  revert l'. induction l as [|x l IH]; intros l' H; [by injection H as <-|].
  cbn [result_filter] in H. apply bind_Ok in H as (b & Hb & H). apply bind_Ok in H as (rest & Hr & [= <-]). specialize (IH _ Hr).
  destruct b; cbn [length]; lia.
Qed.

(** As many are kept as there were: every one was kept. *)
Lemma result_filter_full {A} (p : A -> result bool) l l' : result_filter p l = Ok l' ->
  (length l' = length l <-> forall x, x ∈ l -> p x = Ok true).
Proof.
  revert l'. induction l as [|x l IH]; intros l' H; [injection H as <-; by split; [intros _ x ?%not_elem_of_nil|]|].
  cbn [result_filter] in H. apply bind_Ok in H as (b & Hb & H). apply bind_Ok in H as (rest & Hr & [= <-]).
  specialize (IH _ Hr). pose proof (result_filter_length _ _ _ Hr) as Hlen. destruct b; cbn [length].
  - split; [intros [= Heq] y [->|Hy]%elem_of_cons; [done|by apply IH]|]. intros Hall. f_equal. apply IH. intros y Hy. apply Hall. by right.
  - split; [lia|]. intros Hall. specialize (Hall x ltac:(left)). congruence.
Qed.

(** A fact that proves its criterion about an artifact. *)
Definition proves (now : datetime) (e : EvidenceFact) (agent : string) (artifact : option string) : Prop :=
  ef_content_authentic e = true /\ ef_status e = "PASS" /\
  exists digest, artifact = Some digest /\ digest <> "" /\ acceptable (fact_row e) agent digest now.

Lemma fact_verified_iff now e agent artifact : exists b, fact_verified now e agent artifact = Ok b /\ (b = true <-> proves now e agent artifact).
Proof.
  unfold fact_verified, proves, str_eq. destruct (ef_content_authentic e); [|exists false; by split; [|split; [|intros [? _]]]].
  destruct (bool_decide_reflect (ef_status e = "PASS")) as [Hs|Hs]; [|exists false; by split; [|split; [|intros (_ & ? & _)]]].
  destruct artifact as [d|]; [|exists false; by split; [|split; [|intros (_ & _ & d & ? & _)]]].
  destruct (decide (d = "")) as [->|Hd]; [exists false; by split; [|split; [|intros (_ & _ & d & [= <-] & ? & _)]]|].
  replace (opt_truthy (Some d)) with true by (by destruct d). change (or_empty (Some d)) with d.
  destruct (accepts_iff (fact_row e) agent d now) as (b & Hb & Hiff). exists b. split; [exact Hb|]. rewrite Hiff.
  split; [intros H; split; [done|]; split; [done|]; by exists d|by intros (_ & _ & d' & [= <-] & _ & H)].
Qed.

Lemma fact_verified_true now e agent artifact : fact_verified now e agent artifact = Ok true <-> proves now e agent artifact.
Proof.
  destruct (fact_verified_iff now e agent artifact) as (b & -> & H). rewrite <- H. split; [by intros [= ->]|by intros ->].
Qed.

(** The scorecard and the acceptance gate use one rule on a stored row. *)
Lemma evidence_fact_verified env d r f agent artifact now : evidence_fact env d r = Ok f ->
  fact_verified now f agent artifact = is_verified_pass env (Some d) r agent artifact now.
Proof.
  intros H. apply bind_Ok in H as (mode & _ & [= <-]). unfold fact_verified, is_verified_pass. cbn [ef_content_authentic ef_status].
  destruct (stored_content_mac_ok env (Some d) r) eqn:Hm; cbn [negb orb].
  - destruct (negb (str_eq (ev_status r) "PASS") || negb (opt_truthy artifact)); [done|].
    change (accepts (fact_row _) agent (or_empty artifact) now) with (accepts r agent (or_empty artifact) now).
    by destruct (accepts r agent (or_empty artifact) now) as [[|]|].
  - destruct (negb (str_eq (ev_status r) "PASS") || negb (opt_truthy artifact)); [done|].
    destruct (accepts_iff r agent (or_empty artifact) now) as (b & -> & _). by destruct b.
Qed.

Section scorecard_lemmas.
Context (fsum : list float -> float) (facts : ScorecardFacts) (now : datetime).

Definition row_proves (a : AttemptFact) (e : EvidenceFact) : Prop := proves now e (af_agent a) (af_artifact_sha256 a).

(** The Attempt has verdicts, every one proves its criterion, and together
    they cover the Task's criteria, of which there is at least one. *)
Definition accepted_by (t : TaskFact) (a : AttemptFact) : Prop :=
  a ∈ sf_attempts facts /\ af_task_id a = tf_task_id t /\ tf_acceptance_criteria t <> [] /\ verdicts facts a <> [] /\
  (forall e, e ∈ verdicts facts a -> row_proves a e) /\
  (forall c, c ∈ tf_acceptance_criteria t -> c <> "" /\ exists e, e ∈ verdicts facts a /\ ef_criterion e = Some c).

Lemma elem_attempts_of task_id a : a ∈ attempts_of facts task_id <-> a ∈ sf_attempts facts /\ af_task_id a = task_id.
Proof. unfold attempts_of. rewrite sort_by_perm, elem_filterb. unfold str_eq. rewrite bool_decide_eq_true. done. Qed.

Lemma covered_by_iff criteria verified : covered_by criteria verified = true <->
  forall c, c ∈ criteria -> c <> "" /\ exists e, e ∈ verified /\ ef_criterion e = Some c.
Proof.
  unfold covered_by. rewrite List.forallb_forall. setoid_rewrite <- list_elem_of_In. split; intros H c Hc; specialize (H c Hc).
  - apply List.existsb_exists in H as (e & He & [Ht Hq]%andb_true_iff). unfold opt_str_eq in Hq. apply bool_decide_eq_true in Hq.
    rewrite Hq in Ht. split; [by intros ->|]. exists e. split; [by apply list_elem_of_In|done].
  - destruct H as (Hne & e & He & Hq). apply List.existsb_exists. exists e. split; [by apply list_elem_of_In|].
    unfold opt_str_eq. rewrite Hq, bool_decide_true by done. by destruct c.
Qed.

Lemma accepts_task_iff t a : a ∈ attempts_of facts (tf_task_id t) -> exists b, accepts_task facts now t a = Ok b /\ (b = true <-> accepted_by t a).
Proof.
  intros [Ha Ht]%elem_attempts_of. unfold accepts_task, accepted_by.
  destruct (bool_decide_reflect (verdicts facts a = [])) as [Hv|Hv]; [exists false; split; [done|]; split; [done|tauto]|].
  destruct (bool_decide_reflect (tf_acceptance_criteria t = [])) as [Hc|Hc]; [exists false; split; [done|]; split; [done|tauto]|]. cbn [orb].
  destruct (existsb _ (verdicts facts a)) eqn:Hx.
  { exists false. split; [done|]. split; [done|]. intros (_ & _ & _ & _ & Hall & _).
    apply List.existsb_exists in Hx as (e & He%list_elem_of_In & Hn%negb_true_iff). apply Hall in He as (_ & Hs & _).
    unfold str_eq in Hn. apply bool_decide_eq_false in Hn. done. }
  destruct (result_filter_total (verified_row now a) (verdicts facts a)) as [vs Hvs].
  { intros e. destruct (fact_verified_iff now e (af_agent a) (af_artifact_sha256 a)) as (b & Hb & _). by exists b. }
  pose proof (result_filter_full _ _ _ Hvs) as Hfull. destruct (result_filter_elem _ _ _ Hvs) as [Hel _]. rewrite Hvs. cbn [mbind result_bind].
  destruct (Nat.eqb_spec (length vs) (length (verdicts facts a))) as [Heq|Hne]; cbn [negb].
  - exists (covered_by (tf_acceptance_criteria t) vs). split; [done|]. rewrite covered_by_iff.
    assert (Hall : forall e, e ∈ verdicts facts a -> row_proves a e).
    { intros e He. apply fact_verified_true, Hfull; done. }
    assert (Hiff : forall e, e ∈ vs <-> e ∈ verdicts facts a).
    { intros e. rewrite Hel. split; [tauto|]. intros He. split; [done|]. by apply Hfull. }
    setoid_rewrite Hiff. tauto.
  - exists false. split; [done|]. split; [done|]. intros (_ & _ & _ & _ & Hall & _). destruct Hne. apply Hfull.
    intros e He. by apply fact_verified_true, Hall.
Qed.

Lemma first_accepting_spec t l i : (forall a, a ∈ l -> a ∈ attempts_of facts (tf_task_id t)) ->
  exists o, first_accepting facts now t i l = Ok o /\
    match o with
    | Some (j, a) => (i <= j)%nat /\ l !! (j - i)%nat = Some a /\ accepted_by t a /\
        (forall k b, (k < j - i)%nat -> l !! k = Some b -> ~ accepted_by t b)
    | None => forall a, a ∈ l -> ~ accepted_by t a
    end.
Proof.
  revert i. induction l as [|a l IH]; intros i Hin; [exists None; split; [done|]; by intros a ?%not_elem_of_nil|].
  cbn [first_accepting]. destruct (accepts_task_iff t a) as (b & -> & Hb); [apply Hin; left|]. cbn [mbind result_bind]. destruct b.
  - exists (Some (i, a)). split; [done|]. split; [lia|]. rewrite Nat.sub_diag. split; [done|]. split; [by apply Hb|]. intros; lia.
  - assert (Hna : ~ accepted_by t a) by (intros H; by apply Hb in H).
    destruct (IH (S i)) as ([[j c]|] & -> & Ho); [intros x Hx; apply Hin; by right| |].
    + exists (Some (j, c)). split; [done|]. destruct Ho as (Hj & Hl & Hac & Hbefore). split; [lia|].
      replace (j - i)%nat with (S (j - S i)) by lia. split; [done|]. split; [done|].
      intros [|k] x Hk Hx; [by injection Hx as <-|]. apply (Hbefore k); [lia|done].
    + exists None. split; [done|]. intros x [->|Hx]%elem_of_cons; [done|by apply Ho].
Qed.

(** The accepting Attempt of a Task is the first in order that accepts it. *)
Lemma accepting_spec t : exists o, accepting facts now t = Ok o /\
  match o with
  | Some (j, a) => attempts_of facts (tf_task_id t) !! j = Some a /\ accepted_by t a /\
      (forall k b, (k < j)%nat -> attempts_of facts (tf_task_id t) !! k = Some b -> ~ accepted_by t b)
  | None => forall a, ~ accepted_by t a
  end.
Proof.
  destruct (first_accepting_spec t (attempts_of facts (tf_task_id t)) 0 (fun _ H => H)) as ([[j a]|] & H & Ho); eexists; (split; [exact H|]).
  - rewrite Nat.sub_0_r in Ho. tauto.
  - intros a Ha. apply (Ho a); [|done]. apply elem_attempts_of. unfold accepted_by in Ha. tauto.
Qed.

Lemma accepted_tasks_spec tasks : exists l, accepted_tasks facts now tasks = Ok l /\ map fst l `sublist_of` tasks /\
  (forall t j a, (t, (j, a)) ∈ l -> accepting facts now t = Ok (Some (j, a))) /\
  (forall t, t ∈ map fst l <-> t ∈ tasks /\ exists a, accepted_by t a).
Proof.
  induction tasks as [|t tasks (l & Hl & Hsub & Hacc & Hel)].
  { exists []. split; [done|]. split; [constructor|]. split; [by intros ??? ?%not_elem_of_nil|]. intros t. split; [by intros ?%not_elem_of_nil|by intros [?%not_elem_of_nil _]]. }
  cbn [accepted_tasks]. destruct (accepting_spec t) as (o & Ho & Hspec). rewrite Ho, Hl. cbn [mbind result_bind]. destruct o as [[j a]|].
  - exists ((t, (j, a)) :: l). split; [done|]. split; [by constructor|]. split.
    + intros t' j' a' [[= -> -> ->]|Hin]%elem_of_cons; [done|by apply Hacc].
    + intros t'. cbn [map fst]. rewrite !elem_of_cons, Hel. destruct Hspec as (_ & Hab & _).
      split; [intros [->|[Hin Hex]]; [split; [by left|by exists a]|split; [by right|done]]|intros [[->|Hin] Hex]; [by left|by right]].
  - exists l. split; [done|]. split; [by constructor|]. split; [done|]. intros t'. rewrite Hel, elem_of_cons.
    split; [intros [Hin Hex]; split; [by right|done]|intros [[->|Hin] [b Hb]]; [by destruct (Hspec b)|split; [done|by exists b]]].
Qed.

(** An accepted Task has a moment at which it was proved. *)
Lemma accepted_after_Ok t a : accepted_by t a -> exists s, accepted_after facts now (t, a) = Ok s.
Proof.
  intros (_ & _ & _ & Hne & Hall & _). unfold accepted_after. cbn [fst snd].
  destruct (result_filter_total (verified_row now a) (evidence_of facts (af_attempt_id a))) as [vs Hvs].
  { intros e. destruct (fact_verified_iff now e (af_agent a) (af_artifact_sha256 a)) as (b & Hb & _). by exists b. }
  rewrite Hvs. cbn [mbind result_bind]. destruct vs as [|e vs]; [|by eexists].
  exfalso. destruct (verdicts facts a) as [|e es] eqn:Hv; [done|]. apply (not_elem_of_nil e).
  destruct (result_filter_elem _ _ _ Hvs) as [Hel _]. apply Hel. split; [|apply fact_verified_true, Hall; left].
  assert (He : e ∈ verdicts facts a) by (rewrite Hv; left). unfold verdicts in He. by apply elem_filterb in He as [He _].
Qed.
End scorecard_lemmas.

Lemma filter_length_mono {A} (p q : A -> bool) l : (forall x, x ∈ l -> p x = true -> q x = true) ->
  (length (List.filter p l) <= length (List.filter q l))%nat.
Proof.
  induction l as [|x l IH]; intros H; [done|]. specialize (IH (fun y Hy => H y (list_elem_of_further _ _ _ Hy))).
  pose proof (H x ltac:(left)) as Hx. cbn [List.filter]. destruct (p x), (q x); cbn [length]; try (by specialize (Hx eq_refl)); lia.
Qed.

Lemma filter_length_all {A} (p : A -> bool) l : (length (List.filter p l) <= length l)%nat.
Proof. induction l as [|x l IH]; [done|]. cbn [List.filter]. destruct (p x); cbn [length]; lia. Qed.

Lemma sublist_filter_length {A} (q : A -> bool) l k : l `sublist_of` k -> (forall x, x ∈ l -> q x = true) ->
  (length l <= length (List.filter q k))%nat.
Proof.
  induction 1 as [|x l k Hs IH|x l k Hs IH]; intros H; [done| |]; cbn [List.filter].
  - rewrite (H x) by left. cbn [length]. specialize (IH (fun y Hy => H y (list_elem_of_further _ _ _ Hy))). lia.
  - specialize (IH H). destruct (q x); cbn [length]; lia.
Qed.

(** A ratio: undefined over nothing, otherwise a count of its population. *)
Definition is_rate (m : Metric) : Prop :=
  (mt_denominator m = 0 /\ mt_value m = None /\ mt_numerator m = JNull /\ mt_basis m = "none") \/
  (0 < mt_denominator m /\ exists n, 0 <= n <= mt_denominator m /\ mt_numerator m = JInt n /\ mt_value m = Some (quotient n (mt_denominator m))).

Lemma ratio_is_rate facts name n population : 0 <= n <= length_Z population -> is_rate (ratio facts name n population).
Proof.
  intros H. unfold ratio, is_rate. destruct (Z.eqb_spec (length_Z population) 0) as [E|E]; cbn; [by left|].
  right. split; [lia|]. by exists n.
Qed.

Lemma coverage_is_rate facts : is_rate (coverage facts).
Proof.
  unfold coverage, is_rate.
  set (declared := sumZ _). set (covered := sumZ _).
  assert (0 <= covered <= declared) as H.
  { unfold covered, declared. clear covered declared. induction (sf_tasks facts) as [|t l IH]; [done|]. cbn [map sumZ foldr].
    pose proof (filter_length_all (fun c => str_in c (conclusive facts t)) (tf_acceptance_criteria t)) as Hl.
    unfold sumZ in IH. unfold length_Z in *. lia. }
  destruct (Z.eqb_spec declared 0) as [E|E]; cbn; [by left|]. right. split; [lia|]. by exists covered.
Qed.

Lemma result_filter_sublist {A} (p : A -> result bool) l l' : result_filter p l = Ok l' -> l' `sublist_of` l.
Proof.
  revert l'. induction l as [|x l IH]; intros l' H; [by injection H as <-|].
  cbn [result_filter] in H. apply bind_Ok in H as (b & Hb & H). apply bind_Ok in H as (rest & Hr & [= <-]). specialize (IH _ Hr).
  destruct b; by constructor.
Qed.

Lemma result_map_total {A B} (f : A -> result B) l : (forall x, x ∈ l -> exists y, f x = Ok y) -> exists ys, result_map f l = Ok ys.
Proof.
  induction l as [|x l IH]; intros H; [by exists []|]. destruct (H x ltac:(left)) as [y Hy].
  destruct IH as [ys Hys]; [intros z Hz; apply H; by right|]. cbn [result_map]. rewrite Hy, Hys. by eexists.
Qed.

(** The rates of the scorecard, and its rows in order. *)
Definition RATES : list string :=
  ["first_attempt_success_rate"; "accepted_task_rate"; "evidence_coverage"; "trace_completeness"; "escalation_rate"; "escalation_exhaustion_rate"].

Definition pass_proves facts now (e : EvidenceFact) : Prop :=
  let a := attempt_by_id facts (ef_attempt_id e) in
  proves now e (match a with Some a => af_agent a | None => "" end) (a ≫= af_artifact_sha256).

Definition has_attempts facts (t : TaskFact) : bool := negb (bool_decide (length (attempts_of facts (tf_task_id t)) = 0%nat)).

Lemma has_attempts_elem facts t a : a ∈ attempts_of facts (tf_task_id t) -> has_attempts facts t = true.
Proof. unfold has_attempts. destruct (attempts_of _ _); [by intros ?%not_elem_of_nil|done]. Qed.

(** The scorecard is always computed, from the Tasks that are accepted. *)
Lemma build_scorecard_Ok fsum facts now : exists accepted time good,
  accepted_tasks facts now (sf_tasks facts) = Ok accepted /\
  result_filter (pass_verified facts now) (passes facts) = Ok good /\ mt_name time = "time_to_accepted_evidence" /\
  build_scorecard fsum facts now = Ok (
    [ratio facts "first_attempt_success_rate" (length_Z (List.filter (fun x => (x.2.1 =? 0)%nat) accepted)) (attempted facts);
     ratio facts "accepted_task_rate" (length_Z accepted) (sf_tasks facts); coverage facts;
     ratio facts "trace_completeness" (length_Z (List.filter (traced facts) (sf_tasks facts))) (sf_tasks facts); time;
     ratio facts "escalation_rate" (length_Z (List.filter (escalated facts) (sf_tasks facts))) (attempted facts);
     cost_per_accepted fsum facts (map fst accepted);
     pass_metric "verified_passes" "PASS rows that pass the verification acceptance gate (ADR 0039, ADR 0042)" (length_Z good) (length_Z (passes facts)) (map ef_mode (passes facts));
     pass_metric "unverified_legacy_passes"
       "PASS rows that are not verified: legacy, execution, outcome, expired, self-verified, or unbound"
       (length_Z (passes facts) - length_Z good) (length_Z (passes facts)) (map ef_mode (passes facts));
     ratio facts "escalation_exhaustion_rate" (length_Z (List.filter (exhausted facts) (List.filter (escalated facts) (sf_tasks facts))))
       (List.filter (escalated facts) (sf_tasks facts))]).
Proof.
  destruct (accepted_tasks_spec facts now (sf_tasks facts)) as (accepted & Ha & _ & Hacc & _). exists accepted.
  destruct (result_map_total (accepted_after facts now) (map (fun x => (x.1, x.2.2)) accepted)) as [secs Hsecs].
  { intros x ([t [j a]] & Hin & ->)%elem_map. apply Hacc in Hin. destruct (accepting_spec facts now t) as (o & Ho & Hs).
    rewrite Hin in Ho. injection Ho as <-. destruct Hs as (_ & Hs & _). exact (accepted_after_Ok facts now t a Hs). }
  destruct (result_filter_total (pass_verified facts now) (passes facts)) as [good Hgood].
  { intros e. unfold pass_verified. match goal with |- context [fact_verified now e ?a ?b] => destruct (fact_verified_iff now e a b) as (c & Hc & _) end.
    by exists c. }
  unfold build_scorecard, time_to_accepted, pass_split. rewrite Ha. cbn [mbind result_bind]. rewrite Hsecs. cbn [mbind result_bind]. rewrite Hgood. cbn [mbind result_bind].
  eexists {| mt_name := "time_to_accepted_evidence" |}, good. split; [done|]. split; [done|]. split; [|reflexivity]. done.
Qed.

(** The rows' names, in order. *)
Definition SCORECARD_NAMES : list string :=
  ["first_attempt_success_rate"; "accepted_task_rate"; "evidence_coverage"; "trace_completeness"; "time_to_accepted_evidence"; "escalation_rate";
   "cost_per_accepted_task"; "verified_passes"; "unverified_legacy_passes"; "escalation_exhaustion_rate"].

Lemma ratio_name facts name n population : mt_name (ratio facts name n population) = name.
Proof. unfold ratio. by case_match. Qed.

Lemma coverage_name facts : mt_name (coverage facts) = "evidence_coverage".
Proof. unfold coverage. by case_match. Qed.

Lemma cost_name fsum facts accepted : mt_name (cost_per_accepted fsum facts accepted) = "cost_per_accepted_task".
Proof. unfold cost_per_accepted. by case_match. Qed.

Lemma metric_lookup name ms i m : NoDup (map mt_name ms) -> ms !! i = Some m -> mt_name m = name -> metric name ms = Ok m.
Proof.
  revert i. induction ms as [|x ms IH]; intros [|i] Hd Hi Hn; try done; cbn [metric]; apply NoDup_cons in Hd as [Hx Hd].
  - injection Hi as <-. unfold str_eq. by rewrite bool_decide_true.
  - unfold str_eq. rewrite bool_decide_false; [by apply (IH i)|]. intros Heq. apply Hx, elem_map. exists m. split; [|congruence].
    by apply list_elem_of_lookup_2 with i.
Qed.

(** C18: the scorecard is computed from any facts.  Every rate is a count over
    its population, between 0 and 1, and undefined over nothing.  A Task
    counts as accepted exactly when one of its Attempts has verdicts, all of
    them authentic, independent and unexpired passes about the Attempt's own
    diff, that together cover its criteria; and a first Attempt counts as a
    success only for such a Task.  The PASS rows are split into those the
    acceptance rule verifies and the others, and on a stored row the rule is
    the acceptance gate's. *)
Theorem scorecard_spec fsum facts now : exists ms proven good,
  build_scorecard fsum facts now = Ok ms /\
  (forall name, name ∈ RATES -> exists m, metric name ms = Ok m /\ is_rate m) /\
  proven `sublist_of` sf_tasks facts /\ (forall t, t ∈ proven <-> t ∈ sf_tasks facts /\ exists a, accepted_by facts now t a) /\
  metric "accepted_task_rate" ms = Ok (ratio facts "accepted_task_rate" (length_Z proven) (sf_tasks facts)) /\
  (exists n, 0 <= n <= length_Z proven /\
     metric "first_attempt_success_rate" ms = Ok (ratio facts "first_attempt_success_rate" n (List.filter (has_attempts facts) (sf_tasks facts)))) /\
  good `sublist_of` passes facts /\ (forall e, e ∈ good <-> e ∈ passes facts /\ pass_proves facts now e) /\
  (exists v u, metric "verified_passes" ms = Ok v /\ metric "unverified_legacy_passes" ms = Ok u /\
     mt_denominator v = length_Z (passes facts) /\ mt_denominator u = length_Z (passes facts) /\
     (passes facts <> [] -> mt_numerator v = JFloat (f_of_Z (length_Z good)) /\
        mt_numerator u = JFloat (f_of_Z (length_Z (passes facts) - length_Z good)))) /\
  (forall env d r f agent artifact, evidence_fact env d r = Ok f ->
     fact_verified now f agent artifact = is_verified_pass env (Some d) r agent artifact now).
Proof.
  destruct (build_scorecard_Ok fsum facts now) as (accepted & time & good & Ha & Hg & Htn & ->).
  destruct (accepted_tasks_spec facts now (sf_tasks facts)) as (l & Hl & Hsub & Hacc & Hel). rewrite Ha in Hl. injection Hl as <-.
  destruct (result_filter_elem _ _ _ Hg) as [Hgel _].
  pose proof (filter_length_all (fun x : TaskFact * (nat * AttemptFact) => (x.2.1 =? 0)%nat) accepted) as Hfirst.
  pose proof (sublist_length _ _ Hsub) as Hlen. rewrite length_map in Hlen.
  assert (Hatt : (length accepted <= length (attempted facts))%nat).
  { rewrite <- (length_map fst accepted). apply sublist_filter_length; [done|]. intros t [_ [a Hab]]%Hel.
    apply (has_attempts_elem _ _ a), elem_attempts_of. unfold accepted_by in Hab. tauto. }
  assert (Hesc : (length (List.filter (escalated facts) (sf_tasks facts)) <= length (attempted facts))%nat).
  { apply filter_length_mono. intros t _ (a & Hin%list_elem_of_In & _)%List.existsb_exists. by apply (has_attempts_elem _ _ a). }
  eexists _, (map fst accepted), good. split; [reflexivity|]. match goal with |- context [metric _ ?l] => set (ms := l) end.
  assert (Hd : NoDup (map mt_name ms)).
  { replace (map mt_name ms) with SCORECARD_NAMES; [by apply (bool_decide_unpack _); vm_compute|].
    unfold ms. cbn [map]. by rewrite !ratio_name, coverage_name, Htn, cost_name. }
  pose proof (fun name i m => metric_lookup name ms i m Hd) as Hm. split; [|split; [done|split; [done|split; [|split; [|split; [|split; [|split]]]]]]].
  - intros name Hn. unfold RATES in Hn. rewrite !elem_of_cons, elem_of_nil in Hn.
    destruct Hn as [->|[->|[->|[->|[->|[->|[]]]]]]]; eexists.
    + split; [by apply (Hm _ 0%nat), ratio_name|apply ratio_is_rate; unfold length_Z; lia].
    + split; [by apply (Hm _ 1%nat), ratio_name|apply ratio_is_rate; unfold length_Z; lia].
    + split; [by apply (Hm _ 2%nat), coverage_name|apply coverage_is_rate].
    + split; [by apply (Hm _ 3%nat), ratio_name|apply ratio_is_rate].
      pose proof (filter_length_all (traced facts) (sf_tasks facts)). unfold length_Z. lia.
    + split; [by apply (Hm _ 5%nat), ratio_name|apply ratio_is_rate; unfold length_Z; lia].
    + split; [by apply (Hm _ 9%nat), ratio_name|apply ratio_is_rate].
      pose proof (filter_length_all (exhausted facts) (List.filter (escalated facts) (sf_tasks facts))). unfold length_Z. lia.
  - replace (length_Z (map fst accepted)) with (length_Z accepted) by (unfold length_Z; by rewrite length_map). by apply (Hm _ 1%nat), ratio_name.
  - eexists. split; [|by apply (Hm _ 0%nat), ratio_name]. unfold length_Z. rewrite length_map. lia.
  - by apply (result_filter_sublist (pass_verified facts now)).
  - intros e. rewrite Hgel. unfold pass_verified, pass_proves. by rewrite fact_verified_true.
  - eexists _, _. split; [by apply (Hm _ 7%nat)|]. split; [by apply (Hm _ 8%nat)|]. split; [done|]. split; [done|].
    intros Hne. unfold pass_metric. cbn [mt_numerator]. destruct (Z.eqb_spec (length_Z (passes facts)) 0) as [E|E]; [|done].
    destruct (passes facts); [done|]. unfold length_Z in E. cbn [length] in E. lia.
  - intros env d r f agent artifact H. exact (evidence_fact_verified env d r f agent artifact now H).
Qed.
