(* ===== verification/Usage.v ===== *)
(** * Usage: the ledger of what an agent's turns and sandboxes cost

    Models [src/sdf_core/usage.py].  Usage dicts are JSON objects whose
    listed models are strings, output is ASCII text, and token counts are small
    enough for a float.  The clock is
    an argument. *)

From S2P Require Import Prelude Floats Json Db EvidenceMac Flush Samples FlushFacts Store.
From S2P Require Import Checks Oracle Acceptance Evaluate DecisionGate Plans RunConfig Scoped Coordinator JsonParse CoreQuery.

Definition PRICES_PER_MTOK : list (string * (float * float)) := [("glm-5.3", (f_ratio 75 100, f_of_Z 3))].
Definition SANDBOX_USD_PER_SECOND : list (string * float) := [("e2b", f_ratio 303 10000000); ("daytona", f_ratio 303 10000000)].

Record TurnUsage : Type := {
  tu_input_tokens : option Z; tu_output_tokens : option Z; tu_cache_read_tokens : option Z; tu_cost_usd : option float; tu_model : option string;
  tu_detail : list (string * json)
}.

Definition no_usage : TurnUsage := {| tu_input_tokens := None; tu_output_tokens := None; tu_cache_read_tokens := None; tu_cost_usd := None;
  tu_model := None; tu_detail := [] |}.

(** [x or 0] *)
Definition tokens (o : option Z) : Z := default 0 o.

Definition has_tokens (u : TurnUsage) : bool :=
  negb (tokens (tu_input_tokens u) + tokens (tu_output_tokens u) + tokens (tu_cache_read_tokens u) =? 0).

(** [[^A-Z0-9]] becomes an underscore. *)
Definition env_char (c : ascii) : ascii :=
  let n := nat_of_ascii c in if ((48 <=? n) && (n <=? 57) || (65 <=? n) && (n <=? 90))%nat then c else ascii_of_nat 95.

Definition price_env_name (model : string) : string := "SDF_PRICE_" +:+ str_map env_char (str_upper model).

Fixpoint assoc {V} (k : string) (l : list (string * V)) : option V :=
  match l with [] => None | (i, v) :: l => if str_eq i k then Some v else assoc k l end.

Definition price_for (environ : environ) (model : option string) : option (float * float) :=
  if negb (opt_truthy model) then None
  else
    let raw := environ !! price_env_name (or_empty model) in
    if opt_truthy raw then
      match str_split (ascii_of_nat 44) (or_empty raw) with
      | [a; b] => a ← py_float a; b ← py_float b; Some (a, b)
      | _ => None
      end
    else assoc (str_lower (List.last (str_split slash (or_empty model)) "")) PRICES_PER_MTOK.

Definition sandbox_rate (environ : environ) (provider : string) : float :=
  let listed := default f_zero (assoc provider SANDBOX_USD_PER_SECOND) in
  let raw := environ !! ("SDF_" +:+ str_upper provider +:+ "_USD_PER_SECOND") in
  if opt_truthy raw then default listed (py_float (or_empty raw)) else listed.

(** [int(d.get(key) or 0)] *)
Definition count (key : string) (d : list (string * json)) : result Z := py_int (json_or (kv_get key d) (JInt 0)).

Definition delta (key : string) (before after : list (string * json)) : result Z :=
  a ← count key after; b ← count key before; Ok (Z.max 0 (a - b)).

(** [list(x)[-1]] of the models a dict lists, when there are any. *)
Definition last_model (models : json) : result (option string) :=
  match models with
  | JArr l => Ok (match List.last l JNull with JStr s => Some s | _ => None end)
  | JStr s => Ok (if str_truthy s then Some (String.substring (String.length s - 1) 1 s) else None)
  | JObj kvs => Ok (match kvs with [] => None | _ => Some (List.last (map fst kvs) "") end)
  | _ => Err (TypeError ("'" +:+ type_name models +:+ "' object is not iterable"))
  end.

(** [float(x or 0.0)] of a number. *)
Definition float_of (j : json) : result float :=
  match json_or j (JFloat f_zero) with
  | JFloat f => Ok f
  | JInt z => Ok (f_of_Z z)
  | JBool b => Ok (f_of_Z (if b then 1 else 0))
  | JStr s => require_some (py_float s) (ValueError ("could not convert string to float: " +:+ str_repr s))
  | j => Err (TypeError ("float() argument must be a string or a real number, not '" +:+ type_name j +:+ "'"))
  end.

(** [max(0.0, x)] *)
Definition f_max0 (x : float) : float := if f_lt f_zero x then x else f_zero.

Definition headless_delta (before after : list (string * json)) : result TurnUsage :=
  ca ← float_of (kv_get "cost" after); cb ← float_of (kv_get "cost" before);
  let cost := f_max0 (f_sub ca cb) in
  model ← last_model (json_or (json_or (kv_get "served_models" after) (kv_get "requested_models" after)) (JArr []));
  i ← delta "input_tokens" before after; o ← delta "output_tokens" before after; c ← delta "cache_read_tokens" before after;
  Ok {| tu_input_tokens := Some i; tu_output_tokens := Some o; tu_cache_read_tokens := Some c;
        tu_cost_usd := if f_truthy cost then Some cost else None; tu_model := model; tu_detail := [] |}.

(** The last line that is a JSON object with a count of input tokens. *)
Definition parse_session_usage (raw : string) : option (list (string * json)) :=
  head (omap (fun line => match loads line with
                          | Some (JObj kvs) => if kv_has "input_tokens" kvs then Some kvs else None
                          | _ => None
                          end) (rev (str_splitlines (str_strip raw)))).

Definition session_delta (before after : option (list (string * json))) : result TurnUsage :=
  let now := default [] after in
  if negb (json_truthy (kv_get "found" now)) then Ok (no_usage {{ tu_detail := [("reason", JStr "no session usage records")] }})
  else
    let prev := default [] before in
    model ← last_model (json_or (kv_get "models" now) (JArr []));
    i ← delta "input_tokens" prev now; o ← delta "output_tokens" prev now; c ← delta "cache_read_tokens" prev now;
    Ok {| tu_input_tokens := Some i; tu_output_tokens := Some o; tu_cache_read_tokens := Some c; tu_cost_usd := None; tu_model := model; tu_detail := [] |}.

(** Who ran, and where. *)
Record TurnContext : Type := {
  tc_attempt_id : string; tc_agent : string; tc_turn : Z; tc_session_id : option string; tc_sandbox_id : option string;
  tc_sandbox_provider : option string; tc_status : string; tc_error_class : option string; tc_seconds : option float; tc_model : option string;
  tc_run_id : option string
}.

(** [x if x else None] of a number. *)
Definition nonzero (o : option float) : option float := match o with Some f => if f_truthy f then Some f else None | None => None end.

(** The cost of a turn and where it comes from. *)
Definition turn_cost (environ : environ) (u : TurnUsage) (model : option string) : option float * string :=
  match nonzero (tu_cost_usd u) with
  | Some c => (Some c, "reported")
  | None =>
      if has_tokens u then
        match price_for environ model with
        | Some (p_in, p_out) =>
            (Some (f_div (f_add (f_mul (f_of_Z (tokens (tu_input_tokens u))) p_in) (f_mul (f_of_Z (tokens (tu_output_tokens u))) p_out)) (f_of_Z 1000000)),
             "estimated")
        | None => (tu_cost_usd u, "missing")
        end
      else (tu_cost_usd u, "missing")
  end.

(** The row of a turn; its key is the table's. *)
Definition turn_row (environ : environ) (now : datetime) (c : TurnContext) (u : TurnUsage) (id : Z) : UsageLedgerRow :=
  let model := if opt_truthy (tu_model u) then tu_model u else tc_model c in
  let source := if has_tokens u then "reported" else "missing" in
  let counted (o : option Z) := if has_tokens u then o else None in
  let '(cost, cost_source) := turn_cost environ u model in
  {| ul_id := id; ul_attempt_id := tc_attempt_id c; ul_run_id := tc_run_id c; ul_kind := "turn"; ul_agent := Some (tc_agent c); ul_turn := Some (tc_turn c);
     ul_session_id := tc_session_id c; ul_sandbox_id := tc_sandbox_id c; ul_sandbox_provider := tc_sandbox_provider c; ul_model := model;
     ul_input_tokens := counted (tu_input_tokens u); ul_output_tokens := counted (tu_output_tokens u);
     ul_cache_read_tokens := counted (tu_cache_read_tokens u); ul_seconds := tc_seconds c; ul_cost_usd := f_round 8 <$> nonzero cost; ul_source := source;
     ul_cost_source := cost_source; ul_status := tc_status c; ul_error_class := tc_error_class c;
     ul_detail := match tu_detail u with [] => None | kvs => Some (JObj kvs) end; ul_created_at := now |}.

Definition add_usage (row : Z -> UsageLedgerRow) (d : Db) : Db :=
  let id := next_id (d_usage_ledger d) in d {{ d_usage_ledger ::= insert id (row id) }}.

Definition record_turn (environ : environ) (now : datetime) (c : TurnContext) (u : TurnUsage) : Db -> Db := add_usage (turn_row environ now c u).

Definition sandbox_row (environ : environ) (now : datetime) (attempt_id agent : string) (sandbox_id : option string) (sandbox_provider : string)
    (seconds : float) (status : string) (error_class : option string) (detail : option json) (run_id : option string) (id : Z) : UsageLedgerRow :=
  let rate := sandbox_rate environ sandbox_provider in
  {| ul_id := id; ul_attempt_id := attempt_id; ul_run_id := run_id; ul_kind := "sandbox"; ul_agent := Some agent; ul_turn := None; ul_session_id := None;
     ul_sandbox_id := sandbox_id; ul_sandbox_provider := Some sandbox_provider; ul_model := None; ul_input_tokens := None; ul_output_tokens := None;
     ul_cache_read_tokens := None; ul_seconds := Some (f_round 3 seconds);
     ul_cost_usd := if f_truthy rate then Some (f_round 8 (f_mul seconds rate)) else None; ul_source := "estimated";
     ul_cost_source := if f_truthy rate then "estimated" else "missing"; ul_status := status; ul_error_class := error_class; ul_detail := detail;
     ul_created_at := now |}.

Definition record_sandbox (environ : environ) (now : datetime) (attempt_id agent : string) (sandbox_id : option string) (sandbox_provider : string)
    (seconds : float) (status : string) (error_class : option string) (detail : option json) (run_id : option string) : Db -> Db :=
  add_usage (sandbox_row environ now attempt_id agent sandbox_id sandbox_provider seconds status error_class detail run_id).

Definition ledger_rows (d : Db) (attempt_id : string) : list UsageLedgerRow :=
  sort_by (fun a b => ul_id a <=? ul_id b) (select_rows (fun r => str_eq (ul_attempt_id r) attempt_id) (d_usage_ledger d)).

Definition float_json (o : option float) : json := match o with Some f => JFloat f | None => JNull end.

Definition ledger_payload (r : UsageLedgerRow) : json :=
  JObj [("id", JInt (ul_id r)); ("attempt_id", JStr (ul_attempt_id r)); ("run_id", json_str (ul_run_id r)); ("kind", JStr (ul_kind r));
        ("agent", json_str (ul_agent r)); ("turn", json_int (ul_turn r)); ("session_id", json_str (ul_session_id r)); ("sandbox_id", json_str (ul_sandbox_id r));
        ("sandbox_provider", json_str (ul_sandbox_provider r)); ("model", json_str (ul_model r)); ("input_tokens", json_int (ul_input_tokens r));
        ("output_tokens", json_int (ul_output_tokens r)); ("cache_read_tokens", json_int (ul_cache_read_tokens r)); ("seconds", float_json (ul_seconds r));
        ("cost_usd", float_json (ul_cost_usd r)); ("source", JStr (ul_source r)); ("cost_source", JStr (ul_cost_source r)); ("status", JStr (ul_status r));
        ("error_class", json_str (ul_error_class r)); ("detail", default JNull (ul_detail r)); ("created_at", JStr (isoformat (ul_created_at r)))].

(** ** Nothing is recorded that was not reported or priced *)

(** A turn's row never shows counts that were not reported, and shows a cost
    only when one was reported or the tokens of a priced model were. *)
Lemma turn_row_spec environ now c u id : let r := turn_row environ now c u id in
  ul_kind r = "turn" /\ ul_attempt_id r = tc_attempt_id c /\ ul_agent r = Some (tc_agent c) /\
  (ul_source r = "reported" /\ has_tokens u = true /\ ul_input_tokens r = tu_input_tokens u /\ ul_output_tokens r = tu_output_tokens u \/
   ul_source r = "missing" /\ has_tokens u = false /\ ul_input_tokens r = None /\ ul_output_tokens r = None /\ ul_cache_read_tokens r = None) /\
  (ul_cost_source r = "missing" -> ul_cost_usd r = None) /\
  (ul_cost_source r = "estimated" -> has_tokens u = true /\ exists p, price_for environ (ul_model r) = Some p) /\
  (ul_cost_source r = "reported" <-> is_Some (nonzero (tu_cost_usd u))).
Proof.
  cbn zeta. unfold turn_row, turn_cost. set (model := if opt_truthy (tu_model u) then tu_model u else tc_model c).
  destruct (nonzero (tu_cost_usd u)) as [cost|] eqn:En; [|destruct (has_tokens u) eqn:Eh; [destruct (price_for environ model) as [[a b]|] eqn:Ep|]];
    cbn; rewrite ?Eh, ?En; cbn; (split; [done|]); (split; [done|]); (split; [done|]).
  - split; [destruct (has_tokens u); [by left|by right]|]. by repeat split.
  - split; [by left|]. split; [done|]. split; [intros _; split; [done|by exists (a, b)]|]. split; [done|by intros []].
  - split; [by left|]. split; [done|]. split; [done|]. split; [done|by intros []].
  - split; [by right|]. split; [done|]. split; [done|]. split; [done|by intros []].
Qed.

Example usage_tests : let env : environ := {["SDF_PRICE_MY_MODEL" := "1,2"]} in
  price_for env (Some "my-model") = Some (f_of_Z 1, f_of_Z 2) /\ price_for env (Some "zai/GLM-5.3") = Some (f_ratio 75 100, f_of_Z 3) /\
  price_for env (Some "other") = None /\ price_for env None = None /\
  session_delta (Some [("input_tokens", JInt 30)]) (Some [("found", JBool true); ("input_tokens", JInt 20); ("output_tokens", JInt 7); ("models", JArr [JStr "m"])]) =
    Ok {| tu_input_tokens := Some 0; tu_output_tokens := Some 7; tu_cache_read_tokens := Some 0; tu_cost_usd := None; tu_model := Some "m"; tu_detail := [] |} /\
  parse_session_usage "noise" = None.
Proof. vm_compute. done. Qed.
