(* ===== verification/Qualify.v ===== *)
(** * Qualify: which agents may be routed to, from trusted records

    Models [src/sdf_core/qualification.py], the measured route of
    [src/sdf_core/run_adapter.py] and the endpoints of [src/sdf_core/api.py]
    that show qualifications and routes.  [sum] of floats is an argument; the
    order of rows without an [order_by] is that of their tables. *)

From S2P Require Import Prelude Floats Json Db EvidenceMac Flush Samples FlushFacts Store Lifecycle Recovery Escalation Routing Events DecisionGate.
From S2P Require Import Checks Oracle Acceptance Evaluate Auth RunConfig Scoped Coordinator JsonParse CoreQuery Usage.

Definition VERIFIED_LOOP : string := "verified-fixture-loop".
Definition TRUSTED_RUNTIME_SOURCE_PREFIX : string := "run-".
Definition INFRA_ERRORS : list string := ["sandbox_error"; "provider_4xx"; "provider_429"; "provider_5xx"; "cleanup_failed"; "config_error"].
Definition ACTIVE_STATES : list string := map AttemptState_value [ACREATED; ADISPATCHED; ARUNNING].
Definition DEFAULT_WINDOW : nat := 20.

Record AgentQualification : Type := {
  aq_agent : string; aq_measurement : option RoutingMeasurement; aq_reason : string; aq_accepted_attempts : Z; aq_provenance : list (string * json)
}.

Definition aq_qualified (q : AgentQualification) : bool := bool_decide (is_Some (aq_measurement q)).

Definition sorted_strs (s : gset string) : json := JArr (map JStr (sort_by str_le (base.elements s))).

Definition measurement_json (m : RoutingMeasurement) : json :=
  JObj [("capabilities", sorted_strs (ms_capabilities m)); ("available", JBool (ms_available m)); ("latency_ms", JFloat (ms_latency_ms m));
        ("cost_usd", JFloat (ms_cost_usd m)); ("success_rate", JFloat (ms_success_rate m)); ("sample_count", JInt (ms_sample_count m));
        ("load", JFloat (ms_load m))].

Definition qualification_fields (q : AgentQualification) : list (string * json) :=
  [("agent", JStr (aq_agent q)); ("qualified", JBool (aq_qualified q)); ("reason", JStr (aq_reason q)); ("accepted_attempts", JInt (aq_accepted_attempts q));
   ("measurement", match aq_measurement q with Some m => measurement_json m | None => JNull end); ("provenance", JObj (aq_provenance q))].

Section qualification.
Context (env : environ) (fsum : list float -> float) (d : Db).

(** ** One Attempt *)

(** [_accepted]: every evaluator row is an authentic PASS, and there is one. *)
Definition evaluator_rows (evidence : list EvidenceRow) : list EvidenceRow :=
  List.filter (fun r => negb (opt_str_eq (ev_evidence_class r) (Some "execution") || opt_str_eq (ev_evidence_class r) (Some "outcome"))) evidence.

Definition accepted (evidence : list EvidenceRow) : bool :=
  match evaluator_rows evidence with
  | [] => false
  | rows => forallb (fun r => str_eq (ev_status r) "PASS" && stored_content_mac_ok env (Some d) r) rows
  end.

Definition measured_cost (rows : list UsageLedgerRow) : option float :=
  if bool_decide (rows = []) || existsb (fun r => str_eq (ul_cost_source r) "missing") rows then None
  else
    let total := fsum (map (fun r => default f_zero (nonzero (ul_cost_usd r))) rows) in
    if f_is_finite total && f_le f_zero total then Some total else None.

Definition evidence_for (attempt_id : string) : list EvidenceRow :=
  select_rows (fun r => opt_str_eq (ev_attempt_id r) (Some attempt_id)) (d_evidence d).
Definition ledger_for (attempt_id : string) : list UsageLedgerRow := select_rows (fun r => str_eq (ul_attempt_id r) attempt_id) (d_usage_ledger d).
Definition events_for (attempt_id : string) : list RuntimeEventRow := select_rows (fun r => str_eq (re_attempt_id r) attempt_id) (d_runtime_events d).

Definition attempt_accepted (attempt_id : string) : bool := accepted (evidence_for attempt_id).

(** ** One agent *)

Definition active_ids (agent : string) : list string :=
  map rd_attempt_id (select_rows (fun r => str_eq (rd_selected_agent r) agent) (d_routing_decisions d)) ++
  map ul_attempt_id (select_rows (fun r => opt_str_eq (ul_agent r) (Some agent)) (d_usage_ledger d)).

Definition is_active (ids : list string) (a : AttemptRow) : bool := str_in (at_id a) ids && str_in (at_status a) ACTIVE_STATES.

Definition active_attempts (agent : string) : Z := Z.of_nat (length (select_rows (is_active (active_ids agent)) (d_attempts d))).

(** Newest first. *)
Definition newest (a b : UsageLedgerRow) : bool :=
  (dt_us (ul_created_at b) <? dt_us (ul_created_at a)) || (dt_us (ul_created_at b) =? dt_us (ul_created_at a)) && (ul_id b <=? ul_id a).

(** [seen]: the newest sandbox row of each Attempt of the agent, newest first. *)
Fixpoint first_per_attempt (seen : list string) (rows : list UsageLedgerRow) : list UsageLedgerRow :=
  match rows with
  | [] => []
  | r :: rows => if str_in (ul_attempt_id r) seen then first_per_attempt seen rows else r :: first_per_attempt (ul_attempt_id r :: seen) rows
  end.

Definition sandbox_rows (agent : string) : list UsageLedgerRow :=
  first_per_attempt [] (sort_by newest (select_rows (fun r => str_eq (ul_kind r) "sandbox" && opt_str_eq (ul_agent r) (Some agent)) (d_usage_ledger d))).

(** The Attempt exists and is over. *)
Definition finished (attempt_id : string) : bool :=
  match d_attempts d !! attempt_id with Some a => negb (str_in (at_status a) ACTIVE_STATES) | None => false end.

Definition terminal_rows (window : nat) (agent : string) : list UsageLedgerRow :=
  take window (List.filter (fun r => finished (ul_attempt_id r)) (sandbox_rows agent)).

Definition latency_of (r : UsageLedgerRow) : option float :=
  match ul_seconds r with Some s => if f_is_finite s && f_le f_zero s then Some (f_mul s (f_of_Z 1000)) else None | None => None end.

Definition tool_capability (e : RuntimeEventRow) : option string :=
  if str_eq (re_kind e) "tool_action_executed" && str_in (re_source e) TRUSTED_ACTION_SOURCES then
    let payload := match re_payload e with JObj kvs => kvs | _ => [] end in
    if json_truthy (kv_get "tool" payload) && json_truthy (kv_get "action" payload)
    then Some ("tool:" +:+ py_str (kv_get "tool" payload) +:+ "." +:+ py_str (kv_get "action" payload)) else None
  else None.

Definition capabilities (accepted_ids : list string) : gset string :=
  (if bool_decide (accepted_ids = []) then ∅ else {[ VERIFIED_LOOP ]}) ∪
  list_to_set (concat (map (fun aid => omap tool_capability (events_for aid)) accepted_ids)).

Definition started (attempt_id : string) : bool :=
  existsb (fun e => str_eq (re_kind e) "runtime_started" && str_startswith TRUSTED_RUNTIME_SOURCE_PREFIX (re_source e)) (events_for attempt_id).

Definition error_class_of (attempt_id : string) : option string := d_attempts d !! attempt_id ≫= at_error_class.

Definition infra_error (e : option string) : bool := match e with Some e => str_in e INFRA_ERRORS | None => false end.

(** [sum(values) / len(values)] *)
Definition mean (values : list float) : float := f_div (fsum values) (f_of_Z (Z.of_nat (length values))).

Definition f_min1 (x : float) : float := if f_lt x (f_of_Z 1) then x else f_of_Z 1.

Definition json_strs (l : list string) : json := JArr (map JStr l).

Definition provenance (terminal accepted_ids costed : list string) (latest : string) (active capacity : Z) : list (string * json) :=
  [("attempt_ids", json_strs terminal); ("accepted_attempt_ids", json_strs accepted_ids);
   ("evidence_ids", json_strs (sort_by str_le (concat (map (fun aid => map ev_id (evidence_for aid)) terminal))));
   ("ledger_ids", JArr (map JInt (sort_by Z.leb (concat (map (fun aid => map ul_id (ledger_for aid)) terminal)))));
   ("cost_attempt_ids", json_strs (sort_by str_le costed)); ("availability_attempt_id", JStr latest);
   ("availability_error_class", json_str (error_class_of latest)); ("runtime_started_observed", JBool (started latest));
   ("active_attempts", JInt active); ("capacity", JInt capacity)].

(** The [continue]s and the end of the loop over the agents. *)
Definition qualify (capacity : Z) (window : nat) (agent : string) : result AgentQualification :=
  let rows := terminal_rows window agent in
  let terminal := map ul_attempt_id rows in
  let active := active_attempts agent in
  let load := f_min1 (f_ratio active (Z.to_pos capacity)) in
  match terminal with
  | [] => Ok {| aq_agent := agent; aq_measurement := None; aq_reason := "no finished live attempt measured"; aq_accepted_attempts := 0; aq_provenance := [] |}
  | latest :: _ =>
      let accepted_ids := List.filter attempt_accepted terminal in
      let costs := omap (fun aid => c ← measured_cost (ledger_for aid); Some (aid, c)) terminal in
      let latencies := omap latency_of rows in
      let available := started latest && negb (infra_error (error_class_of latest)) in
      let prov := provenance terminal accepted_ids (map fst costs) latest active capacity in
      let n := Z.of_nat (length accepted_ids) in
      let missing := (if bool_decide (costs = []) then ["cost"] else []) ++ (if bool_decide (latencies = []) then ["latency"] else []) in
      if negb (bool_decide (missing = [])) then
        Ok {| aq_agent := agent; aq_measurement := None; aq_reason := "unmeasured " +:+ str_join " and " missing +:+ " (no trusted ledger value)";
              aq_accepted_attempts := n; aq_provenance := prov |}
      else
        let m := {| ms_capabilities := capabilities accepted_ids; ms_available := available; ms_latency_ms := f_round 1 (mean latencies);
                    ms_cost_usd := f_round 8 (mean (map snd costs));
                    ms_success_rate := f_round 6 (f_ratio n (Z.to_pos (Z.of_nat (length terminal)))); ms_sample_count := Z.of_nat (length terminal);
                    ms_load := load |} in
        _ ← measurement_post_init m;
        Ok {| aq_agent := agent; aq_measurement := Some m;
              aq_reason := if available then "qualified"
                           else "unavailable: " +:+ (if infra_error (error_class_of latest) then "last live attempt ended in " +:+ or_empty (error_class_of latest)
                                                     else "no trusted runtime_started observation");
              aq_accepted_attempts := n; aq_provenance := prov |}
  end.

(** [list(dict.fromkeys(a.strip().lower() for a in agents if a and a.strip()))] *)
Definition agent_names (agents : list string) : list string :=
  fromkeys (map (fun a => str_lower (str_strip a)) (List.filter (fun a => str_truthy (str_strip a)) agents)).

Definition qualify_agents (agents : list string) (capacity : Z) (window : nat) : result (list AgentQualification) :=
  _ ← raise_if (capacity <? 1) (ValueError "capacity must be at least 1");
  result_map (qualify capacity window) (agent_names agents).

Definition verified_loop_completed (quals : list AgentQualification) : bool := existsb (fun q => 0 <? aq_accepted_attempts q) quals.
End qualification.

(** ** Selection *)

Record AgentRoute : Type := {
  ar_agent : option string; ar_mode : string; ar_reason : string; ar_request : option json; ar_candidates : list json
}.

(** [number(name, default)] *)
Definition env_number (environ : environ) (name : string) (dflt : float) : result float :=
  let raw := str_strip (default "" (environ !! name)) in
  value ← (if str_truthy raw then require_some (py_float raw) (ValueError (name +:+ " must be a number")) else Ok dflt);
  _ ← raise_if (negb (f_is_finite value) || f_lt value f_zero) (ValueError (name +:+ " must be a finite, non-negative number"));
  Ok value.

Definition routing_request_from_env (environ : environ) : result RoutingRequest :=
  let raw := environ !! "SDF_RUN_ROUTE_REQUIRE" in
  let listed := str_split (ascii_of_nat 44) (if opt_truthy raw then or_empty raw else VERIFIED_LOOP) in
  min_success ← env_number environ "SDF_RUN_ROUTE_MIN_SUCCESS" f_zero;
  _ ← raise_if (f_lt (f_of_Z 1) min_success) (ValueError "SDF_RUN_ROUTE_MIN_SUCCESS must be between 0 and 1");
  cost ← env_number environ "SDF_RUN_ROUTE_MAX_COST_USD" (f_of_Z 10);
  latency ← env_number environ "SDF_RUN_ROUTE_MAX_LATENCY_MS" (f_of_Z 3600000);
  limit ← truncated latency;
  Ok {| required_capabilities := list_to_set (List.filter str_truthy (map str_strip listed)); Routing.max_cost_usd := cost; max_latency_ms := limit;
        min_success_rate := min_success |}.

Definition request_dict (r : RoutingRequest) : json :=
  JObj [("required_capabilities", sorted_strs (required_capabilities r)); ("max_cost_usd", JFloat (Routing.max_cost_usd r));
        ("max_latency_ms", JInt (max_latency_ms r)); ("min_success_rate", JFloat (min_success_rate r))].

(** [ModelProfile(name, ModelTier.BASIC, frozenset(), 0.0, 0)] *)
Definition bare_profile (name : string) : ModelProfile :=
  {| mp_name := name; mp_tier := BASIC; mp_capabilities := ∅; mp_cost_usd := f_zero; mp_latency_ms := 0; mp_load := f_zero; mp_available := true |}.

Definition measurements_of (quals : list AgentQualification) : gmap string RoutingMeasurement :=
  list_to_map (omap (fun q => m ← aq_measurement q; Some (aq_agent q, m)) quals).

(** Why a candidate was not selected. *)
Definition rejection_of (decision : RouteDecision) (q : AgentQualification) : string :=
  if aq_qualified q then default "lower score" (assoc (aq_agent q) (rejected decision)) else aq_reason q.

Definition candidate_json (decision : RouteDecision) (q : AgentQualification) : json :=
  JObj (qualification_fields q ++
        (if opt_str_eq (mp_name <$> profile decision) (Some (aq_agent q)) then [("selected", JBool true)]
         else [("selected", JBool false); ("rejected", JStr (rejection_of decision q))])).

Section selection.
Context (env : environ) (fsum : list float -> float).

Definition select_agent (d : Db) (agents : list string) (request : RoutingRequest) (capacity : Z) : result AgentRoute :=
  quals ← qualify_agents env fsum d agents capacity DEFAULT_WINDOW;
  if negb (verified_loop_completed quals) then
    Ok {| ar_agent := None; ar_mode := "measured";
          ar_reason := "not qualified: no agent has completed the verified fixture loop with live Evidence"; ar_request := Some (request_dict request);
          ar_candidates := map (fun q => JObj (qualification_fields q)) quals |}
  else
    let profiles := map (fun q => bare_profile (aq_agent q)) quals in
    _ ← result_map profile_post_init profiles;
    decision ← route_measured request profiles (measurements_of quals);
    let candidates := map (candidate_json decision) quals in
    match profile decision with
    | None =>
        let reasons := str_join "; " (map (fun q => aq_agent q +:+ ": " +:+ rejection_of decision q) quals) in
        Ok {| ar_agent := None; ar_mode := "measured"; ar_reason := "no qualified agent (" +:+ reasons +:+ ")"; ar_request := Some (request_dict request);
              ar_candidates := candidates |}
    | Some p => Ok {| ar_agent := Some (mp_name p); ar_mode := "measured"; ar_reason := route_reason decision; ar_request := Some (request_dict request);
                      ar_candidates := candidates |}
    end.

Definition explicit_route (agent : string) : AgentRoute := {|
  ar_agent := Some agent; ar_mode := "explicit"; ar_reason := "configured by SDF_RUN_AGENT; not measured routing"; ar_request := None; ar_candidates := [] |}.

Definition RunAdapterConfigError (msg : string) : exn := OtherError "RunAdapterConfigError" msg.

(** The kinds a comma-separated list names. *)
Definition listed_agents (raw : string) : list string :=
  map (fun a => str_lower (str_strip a)) (List.filter (fun a => str_truthy (str_strip a)) (str_split (ascii_of_nat 44) raw)).

(** [_measured_route] *)
Definition measured_route (d : Db) (environ : environ) (capacity : Z) : result AgentRoute :=
  let candidates := listed_agents (default "" (environ !! "SDF_RUN_ROUTE_AGENTS")) in
  _ ← raise_if (bool_decide (candidates = []))
        (RunAdapterConfigError "SDF_RUN_AGENT=auto requires SDF_RUN_ROUTE_AGENTS (comma-separated agent kinds)");
  let unknown := List.filter (fun a => negb (str_in a Auth.AGENT_KINDS)) candidates in
  _ ← raise_if (negb (bool_decide (unknown = [])))
        (RunAdapterConfigError ("SDF_RUN_ROUTE_AGENTS has unknown agent kind(s): " +:+ str_join ", " unknown));
  request ← match routing_request_from_env environ with Err (ValueError msg) => Err (RunAdapterConfigError msg) | r => r end;
  route ← select_agent d candidates request capacity;
  match ar_agent route with
  | None => Err (RunAdapterConfigError ("measured routing: " +:+ ar_reason route))
  | Some _ => Ok route
  end.

(** ** Recording *)

Definition route_row (hex : string) (now : datetime) (attempt_id agent : string) (route : AgentRoute) : RoutingDecisionRow := {|
  rd_id := "ROUTE-" +:+ str_take 12 hex; rd_attempt_id := attempt_id; rd_selected_agent := agent; rd_mode := ar_mode route;
  rd_reason := str_take 500 (ar_reason route); rd_request := ar_request route; rd_candidates := ar_candidates route; rd_created_at := now |}.

Definition route_for (d : Db) (attempt_id : string) : option RoutingDecisionRow :=
  find_row (fun r => str_eq (rd_attempt_id r) attempt_id) (d_routing_decisions d).

Definition record_route (h : Host) (hex : string) (now : datetime) (s : Session) (attempt_id : string) (route : AgentRoute)
    : result (Session * RoutingDecisionRow) :=
  agent ← require_some (ar_agent route) (ValueError "cannot record a route without a selected agent");
  match route_for (current s) attempt_id with
  | Some existing =>
      _ ← raise_if (negb (str_eq (rd_selected_agent existing) agent)) (ValueError "attempt already has a routing decision for a different agent");
      Ok (s, existing)
  | None =>
      let row := route_row hex now attempt_id agent route in
      _ ← raise_if (bool_decide (is_Some (d_routing_decisions (current s) !! rd_id row))) (IntegrityError "routing_decisions.id");
      s ← change_and_flush h s ((current s) {{ d_routing_decisions ::= insert (rd_id row) row }});
      Ok (s, row)
  end.

Definition criterion_status_le (a b : string * string) : bool := str_le a.1 b.1 && (negb (str_eq a.1 b.1) || str_le a.2 b.2).

Definition routing_record (d : Db) (attempt_id : string) : option json :=
  row ← route_for d attempt_id;
  let attempt := d_attempts d !! attempt_id in
  let evidence := evidence_for d attempt_id in
  let ledger := ledger_for d attempt_id in
  let sandbox := List.find (fun r => str_eq (ul_kind r) "sandbox") ledger in
  let sessions := map re_session_id (List.filter (fun e => str_startswith TRUSTED_RUNTIME_SOURCE_PREFIX (re_source e)) (events_for d attempt_id)) in
  Some (JObj [("id", JStr (rd_id row)); ("attempt_id", JStr (rd_attempt_id row)); ("selected_agent", JStr (rd_selected_agent row));
    ("mode", JStr (rd_mode row)); ("reason", JStr (rd_reason row)); ("request", default JNull (rd_request row)); ("candidates", JArr (rd_candidates row));
    ("created_at", JStr (isoformat (rd_created_at row))); ("sessions", json_strs (sort_by str_le (remove_dups sessions)));
    ("outcome", JObj [("attempt_status", json_str (at_status <$> attempt)); ("error_class", json_str (attempt ≫= at_error_class));
       ("evidence", JArr (map (fun p => JArr [JStr p.1; JStr p.2])
          (sort_by criterion_status_le (map (fun e => (or_empty (ev_criterion e), ev_status e)) evidence))));
       ("accepted", JBool (accepted env d evidence)); ("measured_cost_usd", float_json (measured_cost fsum ledger));
       ("sandbox_seconds", float_json (sandbox ≫= ul_seconds)); ("evidence_ids", json_strs (sort_by str_le (map ev_id evidence)));
       ("ledger_ids", JArr (map JInt (sort_by Z.leb (map ul_id ledger))))])]).

(** ** Endpoints *)

Definition get_attempt_routing (d : Db) (attempt_id : string) : result json :=
  require_some (routing_record d attempt_id) (HTTPException 404 "no routing decision for this attempt" []).

Definition routing_capacity (environ : environ) : Z :=
  let raw := environ !! "SDF_RUN_MAX_CONCURRENT" in
  if opt_truthy raw then match int_of_text (or_empty raw) with Some n => Z.max 1 n | None => 2 end else 2.

Definition get_routing_qualifications (d : Db) (agents : option string) : result json :=
  let raw := if opt_truthy agents then or_empty agents else default "" (env !! "SDF_RUN_ROUTE_AGENTS") in
  let named := listed_agents raw in
  let names := if bool_decide (named = []) then sort_by str_le Auth.AGENT_KINDS else named in
  let unknown := List.filter (fun a => negb (str_in a Auth.AGENT_KINDS)) names in
  _ ← raise_if (negb (bool_decide (unknown = []))) (HTTPException 400 ("unknown agent kind(s): " +:+ str_join ", " unknown) []);
  quals ← qualify_agents env fsum d names (routing_capacity env) DEFAULT_WINDOW;
  Ok (JObj [("verified_loop_completed", JBool (verified_loop_completed quals)); ("agents", JArr (map (fun q => JObj (qualification_fields q)) quals));
            ("note", JStr ("measured only from live Attempts recorded in this database (usage-ledger sandbox rows, Evidence, " +:+
                           "trusted runtime events); configured profiles and caller-sent telemetry are never used"))]).
End selection.

(** ** What routing rests on *)

(** What the server itself records of an Attempt. *)
Definition trusted_attempt (a : AttemptRow) : string * string * option string := (at_id a, at_status a, at_error_class a).

Definition trusted_event (e : RuntimeEventRow) : bool :=
  str_startswith TRUSTED_RUNTIME_SOURCE_PREFIX (re_source e) || str_in (re_source e) TRUSTED_ACTION_SOURCES.

(** The same trusted records, whatever else an Attempt, an event, an outcome
    or any other table says. *)
Record trusted_same (d d' : Db) : Prop := {
  ts_ledger : d_usage_ledger d = d_usage_ledger d';
  ts_evidence : d_evidence d = d_evidence d';
  ts_artifacts : d_artifacts d = d_artifacts d';
  ts_routes : d_routing_decisions d = d_routing_decisions d';
  ts_events : forall e, trusted_event e = true -> e ∈ rows (d_runtime_events d) <-> e ∈ rows (d_runtime_events d');
  ts_attempts : forall k, trusted_attempt <$> d_attempts d !! k = trusted_attempt <$> d_attempts d' !! k
}.

Lemma trusted_same_sym d d' : trusted_same d d' -> trusted_same d' d.
Proof. intros [H1 H2 H3 H4 H5 H6]. constructor; try done. intros e He. by rewrite H5. Qed.

Section trusted.
Context (env : environ) (fsum : list float -> float) (d d' : Db) (Hs : trusted_same d d').

Lemma accepted_same evidence : accepted env d evidence = accepted env d' evidence.
Proof using Hs.
  unfold accepted. destruct (evaluator_rows evidence); [done|]. unfold stored_content_mac_ok, artifact_sha256_for_content_mac.
  by rewrite (ts_artifacts _ _ Hs).
Qed.

Lemma attempt_accepted_same aid : attempt_accepted env d aid = attempt_accepted env d' aid.
Proof using Hs. unfold attempt_accepted. rewrite accepted_same. unfold evidence_for. by rewrite (ts_evidence _ _ Hs). Qed.

Lemma count_same (p : AttemptRow -> bool) (q : string * string * option string -> bool) :
  (forall a, p a = q (trusted_attempt a)) -> length (select_rows p (d_attempts d)) = length (select_rows p (d_attempts d')).
Proof using Hs.
  intros Hp. assert (Hcount : forall m : gmap string AttemptRow, length (select_rows p m) = length (List.filter q (rows (trusted_attempt <$> m)))).
  { intros m. unfold select_rows, rows. rewrite map_to_list_fmap. induction (map_to_list m) as [|[k a] l IH]; [done|].
    cbn. rewrite Hp. destruct (q (trusted_attempt a)); cbn [length]; by rewrite IH. }
  rewrite !Hcount. do 2 f_equal. f_equal. apply map_eq. intros k. rewrite !lookup_fmap. apply (ts_attempts _ _ Hs).
Qed.

Lemma active_same agent : active_attempts d agent = active_attempts d' agent.
Proof using Hs.
  unfold active_attempts, active_ids. rewrite (ts_routes _ _ Hs), (ts_ledger _ _ Hs). f_equal.
  match goal with |- context [is_active ?l] => apply (count_same _ (fun t => str_in t.1.1 l && str_in t.1.2 ACTIVE_STATES)) end. done.
Qed.

Lemma finished_same aid : finished d aid = finished d' aid.
Proof using Hs.
  unfold finished. pose proof (ts_attempts _ _ Hs aid) as H.
  destruct (d_attempts d !! aid), (d_attempts d' !! aid); cbn in H; try done. injection H as _ H _. by rewrite H.
Qed.

Lemma error_class_same aid : error_class_of d aid = error_class_of d' aid.
Proof using Hs.
  unfold error_class_of. pose proof (ts_attempts _ _ Hs aid) as H.
  destruct (d_attempts d !! aid), (d_attempts d' !! aid); cbn in H; try done. by injection H as _ _ H.
Qed.

Lemma terminal_same window agent : terminal_rows d window agent = terminal_rows d' window agent.
Proof using Hs.
  unfold terminal_rows, sandbox_rows. rewrite (ts_ledger _ _ Hs). f_equal. apply List.filter_ext. intros r. apply finished_same.
Qed.

Lemma elem_events_for (x : Db) aid e : e ∈ events_for x aid <-> e ∈ rows (d_runtime_events x) /\ re_attempt_id e = aid.
Proof using Type.
  unfold events_for. rewrite elem_select, elem_rows. unfold str_eq. rewrite bool_decide_eq_true. tauto.
Qed.
End trusted.

Lemma started_sub d d' aid : trusted_same d d' -> started d aid = true -> started d' aid = true.
Proof.
  intros Hs (e & [He Ha]%list_elem_of_In%elem_events_for & Hk)%List.existsb_exists. apply List.existsb_exists. exists e. split; [|exact Hk].
  apply list_elem_of_In, elem_events_for. split; [|exact Ha]. apply (ts_events _ _ Hs); [|exact He].
  unfold trusted_event. apply andb_true_iff in Hk as [_ ->]. done.
Qed.

Lemma started_same d d' aid : trusted_same d d' -> started d aid = started d' aid.
Proof.
  intros Hs. apply eq_true_iff_eq. split; apply started_sub; [done|by apply trusted_same_sym].
Qed.

Lemma capabilities_sub d d' ids : trusted_same d d' -> capabilities d ids ⊆ capabilities d' ids.
Proof.
  intros Hs. unfold capabilities. apply union_mono_l. intros c. rewrite !elem_of_list_to_set, !list_elem_of_In, !List.in_concat.
  intros (l & (aid & <- & Hin)%List.in_map_iff & (e & [He Ha]%elem_events_for & Hc)%list_elem_of_In%list_elem_of_omap). eexists. split.
  - apply List.in_map_iff. exists aid. split; [reflexivity|exact Hin].
  - apply list_elem_of_In, list_elem_of_omap. exists e. split; [|exact Hc]. apply elem_events_for. split; [|exact Ha].
    apply (ts_events _ _ Hs); [|exact He]. unfold tool_capability in Hc. destruct (str_eq _ _ && str_in _ _) eqn:E; [|done].
    apply andb_true_iff in E as [_ E]. unfold trusted_event. by rewrite E, orb_true_r.
Qed.

Lemma capabilities_same d d' ids : trusted_same d d' -> capabilities d ids = capabilities d' ids.
Proof. intros Hs. apply set_eq. intros c. split; apply capabilities_sub; [done|by apply trusted_same_sym]. Qed.

Lemma qualify_same env fsum d d' capacity window agent : trusted_same d d' ->
  qualify env fsum d capacity window agent = qualify env fsum d' capacity window agent.
Proof.
  intros Hs. unfold qualify. rewrite (terminal_same d d' Hs), (active_same d d' Hs). destruct (map ul_attempt_id (terminal_rows d' window agent)) as [|latest rest]; [done|].
  assert (Hacc : List.filter (attempt_accepted env d) (latest :: rest) = List.filter (attempt_accepted env d') (latest :: rest)).
  { apply List.filter_ext. intros aid. by apply attempt_accepted_same. }
  rewrite Hacc, (started_same d d' latest Hs), (error_class_same d d' Hs), (capabilities_same d d' _ Hs). unfold provenance.
  rewrite (started_same d d' latest Hs), (error_class_same d d' Hs). unfold evidence_for, ledger_for. by rewrite (ts_ledger _ _ Hs), (ts_evidence _ _ Hs).
Qed.

Lemma qualify_agents_same env fsum d d' agents capacity window : trusted_same d d' ->
  qualify_agents env fsum d agents capacity window = qualify_agents env fsum d' agents capacity window.
Proof.
  intros Hs. unfold qualify_agents. destruct (raise_if _ _) as [u|]; [|done]. cbn [mbind result_bind].
  induction (agent_names agents) as [|a l IH]; [done|]. cbn [result_map]. by rewrite (qualify_same env fsum d d' capacity window a Hs), IH.
Qed.

(** C16: measured routing rests on trusted records alone.  Two databases with
    the same usage ledger, Evidence, artifacts, routing decisions, trusted
    events and, of each Attempt, the same id, status and error class, give the
    same qualifications, the same choice with the same reasons and the same
    answer to a caller; so no cost, latency, provider, token count, outcome,
    plan, message or untrusted event that a caller can send changes them. *)
Theorem routing_trusted_only env fsum d d' : trusted_same d d' ->
  (forall agents capacity window, qualify_agents env fsum d agents capacity window = qualify_agents env fsum d' agents capacity window) /\
  (forall agents request capacity, select_agent env fsum d agents request capacity = select_agent env fsum d' agents request capacity) /\
  (forall environ capacity, measured_route env fsum d environ capacity = measured_route env fsum d' environ capacity) /\
  (forall agents, get_routing_qualifications env fsum d agents = get_routing_qualifications env fsum d' agents).
Proof.
  intros Hs.
  assert (Hsel : forall agents request capacity, select_agent env fsum d agents request capacity = select_agent env fsum d' agents request capacity).
  { intros. unfold select_agent. by rewrite (qualify_agents_same env fsum d d' _ _ _ Hs). }
  split; [intros; by apply qualify_agents_same|]. split; [exact Hsel|]. split.
  - intros. unfold measured_route. do 2 (destruct (raise_if _ _); [|done]; cbn [mbind result_bind]).
    match goal with |- (request ← ?r; _) = _ => destruct r; [|done] end. cbn [mbind result_bind]. by rewrite Hsel.
  - intros. unfold get_routing_qualifications. destruct (raise_if _ _); [|done]. cbn [mbind result_bind].
    by rewrite (qualify_agents_same env fsum d d' _ _ _ Hs).
Qed.

(** ** What a selected agent has shown *)

Lemma qualify_measured env fsum d capacity window agent q m : qualify env fsum d capacity window agent = Ok q -> aq_measurement q = Some m ->
  aq_agent q = agent /\ exists r rest, terminal_rows d window agent = r :: rest /\
    ms_available m = started d (ul_attempt_id r) && negb (infra_error (error_class_of d (ul_attempt_id r))) /\
    ms_capabilities m = capabilities d (List.filter (attempt_accepted env d) (map ul_attempt_id (r :: rest))).
Proof.
  unfold qualify. destruct (terminal_rows d window agent) as [|r rest]; [by intros [= <-]|]. cbn [map].
  destruct (negb _); [by intros [= <-]|]. intros (u & _ & [= <-])%bind_Ok [= <-]. split; [done|]. by exists r, rest.
Qed.

(** [newest] is the order the rows are read in. *)
Lemma newest_total a b : newest a b = true \/ newest b a = true.
Proof. unfold newest. rewrite !orb_true_iff, !andb_true_iff, !Z.ltb_lt, !Z.eqb_eq, !Z.leb_le. lia. Qed.
Lemma newest_trans a b c : newest a b = true -> newest b c = true -> newest a c = true.
Proof. unfold newest. rewrite !orb_true_iff, !andb_true_iff, !Z.ltb_lt, !Z.eqb_eq, !Z.leb_le. lia. Qed.
Lemma newest_refl a : newest a a = true.
Proof. destruct (newest_total a a); done. Qed.

Lemma newest_older a b : newest a b = true -> dt_us (ul_created_at b) < dt_us (ul_created_at a) \/
  dt_us (ul_created_at b) = dt_us (ul_created_at a) /\ ul_id b <= ul_id a.
Proof. unfold newest. by rewrite orb_true_iff, andb_true_iff, Z.ltb_lt, Z.eqb_eq, Z.leb_le. Qed.

Lemma first_per_attempt_sub seen l r : r ∈ first_per_attempt seen l -> r ∈ l.
Proof.
  revert seen. induction l as [|x l IH]; intros seen; [done|]. cbn [first_per_attempt]. case_match; [intros ?%IH; by right|].
  intros [->|Hr]%elem_of_cons; [by left|right; by eapply IH].
Qed.

(** In an ordered list each Attempt keeps its newest row, and the order stays. *)
Lemma first_per_attempt_first l : StronglySorted newest l -> forall seen r, r ∈ l -> ul_attempt_id r ∉ seen ->
  exists x, x ∈ first_per_attempt seen l /\ ul_attempt_id x = ul_attempt_id r /\ newest x r = true.
Proof.
  induction 1 as [|y l Hl IH Hy]; intros seen r Hr Hs; [by apply not_elem_of_nil in Hr|]. cbn [first_per_attempt]. unfold str_in.
  rewrite Forall_forall in Hy. case_bool_decide as E.
  - apply elem_of_cons in Hr as [->|Hr]; [done|by apply IH].
  - destruct (decide (ul_attempt_id y = ul_attempt_id r)) as [Ey|Ey].
    + exists y. split; [by left|]. split; [done|]. apply elem_of_cons in Hr as [->|Hr]; [apply newest_refl|exact (Is_true_true_1 _ (Hy r Hr))].
    + apply elem_of_cons in Hr as [->|Hr]; [done|]. destruct (IH (ul_attempt_id y :: seen) r Hr) as (x & Hx & Hex); [|exists x; split; [by right|done]].
      intros [?|?]%elem_of_cons; [congruence|done].
Qed.

Lemma first_per_attempt_sorted l : StronglySorted newest l -> forall seen, StronglySorted newest (first_per_attempt seen l).
Proof.
  induction 1 as [|y l Hl IH Hy]; intros seen; [constructor|]. cbn [first_per_attempt]. destruct (str_in _ _); [apply IH|]. constructor; [apply IH|].
  rewrite Forall_forall in Hy |- *. intros x Hx%first_per_attempt_sub. by apply Hy.
Qed.

(** The rows of the agent's sandboxes. *)
Definition sandboxed (d : Db) (agent : string) (r : UsageLedgerRow) : Prop :=
  r ∈ rows (d_usage_ledger d) /\ ul_kind r = "sandbox" /\ ul_agent r = Some agent.

Lemma elem_sandboxed d agent r : sandboxed d agent r <->
  r ∈ sort_by newest (select_rows (fun r => str_eq (ul_kind r) "sandbox" && opt_str_eq (ul_agent r) (Some agent)) (d_usage_ledger d)).
Proof.
  rewrite sort_by_perm, elem_select, andb_true_iff, <- elem_rows. unfold sandboxed, str_eq, opt_str_eq. rewrite !bool_decide_eq_true. tauto.
Qed.

Lemma sandboxes_sorted d agent :
  StronglySorted newest (sort_by newest (select_rows (fun r => str_eq (ul_kind r) "sandbox" && opt_str_eq (ul_agent r) (Some agent)) (d_usage_ledger d))).
Proof.
  match goal with |- StronglySorted _ (sort_by _ ?l) => pose proof (sort_by_sorted newest newest_total newest_trans l) as H end. revert H. clear.
  induction 1 as [|x l Hl IH Hx]; constructor; [done|]. rewrite Forall_forall in Hx |- *. intros y Hy. by apply Is_true_true_2, Hx.
Qed.

(** The first measured row is the newest of all finished sandboxed Attempts of
    the agent. *)
Lemma terminal_latest d window agent r rest r' : terminal_rows d window agent = r :: rest ->
  sandboxed d agent r' -> finished d (ul_attempt_id r') = true -> newest r r' = true.
Proof.
  unfold terminal_rows, sandbox_rows. intros Hr Hs%elem_sandboxed Hf. pose proof (sandboxes_sorted d agent) as Hsort.
  destruct (first_per_attempt_first _ Hsort [] r' Hs) as (x & Hx & Ex & Hnew); [apply not_elem_of_nil|].
  apply (newest_trans r x r'); [|done]. pose proof (filter_sorted newest (fun r => finished d (ul_attempt_id r)) _ (first_per_attempt_sorted _ Hsort [])) as Ho.
  assert (Hin : x ∈ List.filter (fun r => finished d (ul_attempt_id r)) (first_per_attempt [] (sort_by newest
    (select_rows (fun r => str_eq (ul_kind r) "sandbox" && opt_str_eq (ul_agent r) (Some agent)) (d_usage_ledger d))))) by (apply elem_filterb; by rewrite Ex).
  destruct window as [|window]; [done|]. destruct (List.filter _ _) as [|y l]; [done|]. cbn [take] in Hr. injection Hr as -> _.
  apply elem_of_cons in Hin as [->|Hin]; [apply newest_refl|]. apply StronglySorted_inv in Ho as [_ Ho]. rewrite Forall_forall in Ho.
  exact (Is_true_true_1 _ (Ho x Hin)).
Qed.

(** The Attempts an agent is measured by were run by it in a sandbox, and are over. *)
Lemma elem_terminal d window agent r : r ∈ terminal_rows d window agent -> sandboxed d agent r /\ finished d (ul_attempt_id r) = true.
Proof.
  unfold terminal_rows. intros Hr. assert (Hin : r ∈ List.filter (fun r => finished d (ul_attempt_id r)) (sandbox_rows d agent)).
  { rewrite <- (take_drop window). apply elem_of_app. by left. }
  apply elem_filterb in Hin as [Hin Hf]. split; [|done]. apply elem_sandboxed. by eapply first_per_attempt_sub.
Qed.

(** An Attempt with Evidence of the evaluator, every row of which is an authentic
    PASS. *)
Definition proven (env : environ) (d : Db) (attempt_id : string) : Prop :=
  evaluator_rows (evidence_for d attempt_id) <> [] /\
  forall e, e ∈ evaluator_rows (evidence_for d attempt_id) -> ev_status e = "PASS" /\ stored_content_mac_ok env (Some d) e = true.

Lemma accepted_proven env d attempt_id : attempt_accepted env d attempt_id = true -> proven env d attempt_id.
Proof.
  unfold attempt_accepted, accepted, proven. intros Hacc. destruct (evaluator_rows _) as [|e es]; [done|]. split; [done|]. intros e' He'.
  rewrite List.forallb_forall in Hacc. apply list_elem_of_In, Hacc, andb_true_iff in He' as [Hs%bool_decide_eq_true Hmac]. done.
Qed.

(** What a measured capability rests on: the verified loop on any proven
    Attempt, a tool on a proven Attempt in which it was executed. *)
Lemma elem_capabilities env d ids c : c ∈ capabilities d (List.filter (attempt_accepted env d) ids) ->
  exists aid, aid ∈ ids /\ proven env d aid /\ (c = VERIFIED_LOOP \/ exists e, e ∈ events_for d aid /\ tool_capability e = Some c).
Proof.
  unfold capabilities. intros [Hc|Hc]%elem_of_union.
  - destruct (List.filter _ ids) as [|aid l] eqn:Hf; [by vm_compute in Hc|]. rewrite bool_decide_eq_false_2 in Hc by done.
    apply elem_of_singleton in Hc as ->. assert (Haid : aid ∈ aid :: l) by left. rewrite <- Hf in Haid. apply elem_filterb in Haid as [Haid Hacc].
    exists aid. split; [done|]. split; [by apply accepted_proven|by left].
  - apply elem_of_list_to_set, list_elem_of_In, List.in_concat in Hc as (l & Hl & Hc). apply list_elem_of_In, elem_map in Hl as (aid & Haid & ->).
    apply elem_filterb in Haid as [Haid Hacc]. apply list_elem_of_In, list_elem_of_omap in Hc as (e & He & Hc).
    exists aid. split; [done|]. split; [by apply accepted_proven|right; by exists e].
Qed.

Lemma elem_measurements quals name m : measurements_of quals !! name = Some m -> exists q, q ∈ quals /\ aq_agent q = name /\ aq_measurement q = Some m.
Proof.
  intros Hm%elem_of_list_to_map_2. apply list_elem_of_omap in Hm as (q & Hq & He). destruct (aq_measurement q) as [x|] eqn:E; [|done].
  injection He as <- <-. by exists q.
Qed.

Lemma best_elem scored c : best scored = Some c -> exists k, (c, k) ∈ scored.
Proof.
  destruct scored as [|x l]; [done|]. unfold best. pose proof (max_by_elem (fun a b : candidate * score => score_gt a.2 b.2) x l) as H.
  destruct (max_by _ x l) as [c' k]. intros [= <-]. exists k. destruct H as [<-|H]; [left|by right].
Qed.

Lemma route_measured_eligible request profiles ms decision p : route_measured request profiles ms = Ok decision -> profile decision = Some p ->
  p ∈ profiles /\ exists m, ms !! mp_name p = Some m /\ eligible request ∅ (p, Some m) = true.
Proof.
  intros (_ & _ & scored & Hsc & Hp)%route_measured_inv Hsome. rewrite Hsome in Hp. symmetry in Hp. apply fmap_Some in Hp as (c & Hb & ->).
  apply best_elem in Hb as [k Hk]. apply (result_map_elem _ _ _ Hsc) in Hk as (c' & Hc' & He). apply bind_Ok in He as (k' & _ & [= -> <-]).
  apply elem_filterb in Hc' as [Hc' Hel]. apply elem_measured_candidates in Hc' as (Hin & Hms & [m Hm]). split; [done|]. exists m.
  destruct c as [p o]. cbn in Hin, Hms, Hm, Hel |- *. subst o. rewrite Hm in Hel. split; [exact Hm|exact Hel].
Qed.

(** A trusted event of an Attempt. *)
Lemma started_by d attempt_id : started d attempt_id = true -> exists e, e ∈ events_for d attempt_id /\
  re_kind e = "runtime_started" /\ str_startswith "run-" (re_source e) = true.
Proof. unfold started. intros (e & He%list_elem_of_In & [Hk%bool_decide_eq_true Hs]%andb_true_iff)%existsb_exists. by exists e. Qed.

Lemma executed_by e c : tool_capability e = Some c -> re_kind e = "tool_action_executed" /\ re_source e ∈ TRUSTED_ACTION_SOURCES.
Proof. unfold tool_capability. destruct (_ && _) eqn:Hb; [|done]. apply andb_true_iff in Hb as [Hk%bool_decide_eq_true Hs%bool_decide_eq_true]. done. Qed.

(** C15: an agent is chosen by measurement only on a record of its own.  It is
    one of the agents asked for; the latest of its finished sandboxed Attempts
    (no other has a sandbox row of a later time, or of the same time and a higher
    id) was seen to start by a trusted event and did not end in an
    infrastructure error; and every capability the request requires was shown in a finished
    sandboxed Attempt of the agent with Evidence of the evaluator, every row of
    which is an authentic PASS: the verified loop, required by default, by
    having one, a tool by a trusted event of its execution there. *)
Theorem selected_agent_proven env fsum d agents request capacity route agent :
  select_agent env fsum d agents request capacity = Ok route -> ar_agent route = Some agent ->
  agent ∈ agent_names agents /\
  (exists r, sandboxed d agent r /\ finished d (ul_attempt_id r) = true /\
     (forall r', sandboxed d agent r' -> finished d (ul_attempt_id r') = true ->
        dt_us (ul_created_at r') < dt_us (ul_created_at r) \/ dt_us (ul_created_at r') = dt_us (ul_created_at r) /\ ul_id r' <= ul_id r) /\
     (exists e, e ∈ events_for d (ul_attempt_id r) /\ re_kind e = "runtime_started" /\ str_startswith "run-" (re_source e) = true) /\
     (forall c, error_class_of d (ul_attempt_id r) = Some c -> c ∉ INFRA_ERRORS)) /\
  (forall c, c ∈ required_capabilities request ->
     exists r, sandboxed d agent r /\ finished d (ul_attempt_id r) = true /\ proven env d (ul_attempt_id r) /\
       (c = VERIFIED_LOOP \/ exists e, e ∈ events_for d (ul_attempt_id r) /\ tool_capability e = Some c /\
          re_kind e = "tool_action_executed" /\ re_source e ∈ TRUSTED_ACTION_SOURCES)).
Proof.
  unfold select_agent. intros (quals & Hq & H)%bind_Ok Ha. destruct (negb (verified_loop_completed quals)); [by injection H as <-|].
  apply bind_Ok in H as (u & _ & H). apply bind_Ok in H as (decision & Hr & H). destruct (profile decision) as [p|] eqn:Hp; [|by injection H as <-].
  injection H as <-. cbn in Ha. injection Ha as <-.
  destruct (route_measured_eligible _ _ _ _ _ Hr Hp) as (_ & m & Hm & Hel). apply elem_measurements in Hm as (q & Hin & Hn & Hqm).
  unfold qualify_agents in Hq. apply bind_Ok in Hq as (u' & _ & Hq). apply (result_map_elem _ _ _ Hq) in Hin as (a & Ha & Hqa).
  destruct (qualify_measured _ _ _ _ _ _ _ _ Hqa Hqm) as (Hag & r & rest & Hrows & Hav & Hcap). assert (a = mp_name p) as -> by congruence.
  split; [exact Ha|]. unfold eligible in Hel. cbn [c_available c_capabilities snd fst] in Hel.
  apply andb_true_iff in Hel as [Hel _]. apply andb_true_iff in Hel as [Hel _]. apply andb_true_iff in Hel as [Hel _].
  apply andb_true_iff in Hel as [Hel Hreq%bool_decide_eq_true].
  rewrite Hav in Hel. apply andb_true_iff in Hel as [Hst Hinf%negb_true_iff]. split.
  - exists r. destruct (elem_terminal d DEFAULT_WINDOW (mp_name p) r) as [? ?]; [rewrite Hrows; left|]. do 2 (split; [done|]).
    split; [intros r' Hs Hf; by eapply newest_older, terminal_latest|]. split; [by apply started_by|].
    intros c E. rewrite E in Hinf. by apply bool_decide_eq_false in Hinf.
  - intros c Hc%Hreq. rewrite Hcap in Hc. apply elem_capabilities in Hc as (aid & Haid & Hpr & Hc). apply elem_map in Haid as (x & Hx & ->).
    exists x. destruct (elem_terminal d DEFAULT_WINDOW (mp_name p) x) as [? ?]; [by rewrite Hrows|]. do 3 (split; [done|]).
    destruct Hc as [->|(e & He & Ht)]; [by left|right]. exists e. do 2 (split; [done|]). by eapply executed_by.
Qed.

(** ** Recording a route once *)

Lemma flush_routes h s s' : flush h s = Ok s' -> d_routing_decisions (stored s') = d_routing_decisions (current s) /\ constraints_ok (stored s') = true /\ current s' = stored s'.
Proof. intros (_ & _ & Hsc & Hok & (_ & _ & _ & _ & _ & _ & _ & _ & Hr & _) & _)%flush_Ok. done. Qed.

(** An Attempt is routed once.  Recording the agent of a route gives its
    row back, keeps every row there was, and leaves at most this one for the
    Attempt; from then on the same agent is answered with the same row and no
    change, and another agent is refused. *)
Theorem record_route_once h hex now s attempt_id route s' row : record_route h hex now s attempt_id route = Ok (s', row) ->
  ar_agent route = Some (rd_selected_agent row) /\ rd_attempt_id row = attempt_id /\ row ∈ rows (d_routing_decisions (current s')) /\
  d_routing_decisions (current s) ⊆ d_routing_decisions (current s') /\
  forall hex2 now2 route2 agent2, ar_agent route2 = Some agent2 ->
    record_route h hex2 now2 s' attempt_id route2 =
      (if str_eq (rd_selected_agent row) agent2 then Ok (s', row)
       else Err (ValueError "attempt already has a routing decision for a different agent")).
Proof.
  unfold record_route at 1. destruct (ar_agent route) as [agent|] eqn:Ha; [|done]. cbn [require_some mbind result_bind].
  assert (Hagain : forall x, route_for (current x) attempt_id = Some row -> forall hex2 now2 route2 agent2, ar_agent route2 = Some agent2 ->
    record_route h hex2 now2 x attempt_id route2 = (if str_eq (rd_selected_agent row) agent2 then Ok (x, row)
       else Err (ValueError "attempt already has a routing decision for a different agent"))).
  { intros x Hx hex2 now2 route2 agent2 H2. unfold record_route. rewrite H2. cbn [require_some mbind result_bind]. rewrite Hx.
    by destruct (str_eq (rd_selected_agent row) agent2). }
  destruct (route_for (current s) attempt_id) as [existing|] eqn:Hf.
  - intros (u & Hsame%raise_if_Ok & [= <- <-])%bind_Ok. apply negb_false_iff, bool_decide_eq_true in Hsame. subst agent.
    pose proof Hf as (Hk & Hin)%find_row_Some. apply bool_decide_eq_true in Hk. split; [done|]. split; [done|]. split; [by apply elem_rows|].
    split; [done|]. by apply Hagain.
  - intros (u & Hfree%raise_if_Ok & (s1 & Hs1 & [= <- <-])%bind_Ok)%bind_Ok. unfold change_and_flush in Hs1.
    apply flush_routes in Hs1 as (Hr & Hok & Hcs). set (r := route_row hex now attempt_id agent route) in *. cbn [current] in Hr.
    assert (Hrow : d_routing_decisions (current s1) = <[rd_id r := r]> (d_routing_decisions (current s))) by (rewrite Hcs; exact Hr).
    split; [done|]. split; [done|]. split; [apply elem_rows; exists (rd_id r); rewrite Hrow; apply lookup_insert_eq|]. split.
    + rewrite Hrow. apply insert_subseteq. by apply bool_decide_eq_false, eq_None_not_Some in Hfree.
    + apply Hagain. apply (find_unique rd_attempt_id attempt_id _ (rd_id r)); [|rewrite Hrow; apply lookup_insert_eq|done].
      rewrite Hcs. unfold constraints_ok in Hok. repeat rewrite andb_true_iff in Hok. by destruct_and! Hok.
Qed.

Module QualifyDemo.
Definition env : environ := {["SDF_EVIDENCE_MAC_KEY" := "a configured key of thirty-two characters"]}.
Definition fsum (l : list float) : float := foldr f_add f_zero l.
Definition verdict : EvidenceRow := blank_EvidenceRow {{ ev_id := "E"; ev_attempt_id := Some "A"; ev_status := "PASS";
  ev_evidence_class := Some "verification"; ev_evidence_mode := "live" }}.
Definition signed : EvidenceRow := match stamp_evidence_content_mac env empty_db verdict with Ok e => e | Err _ => verdict end.
Definition sandbox : UsageLedgerRow := sandbox_row env (DateTime 5 true) "A" "codex" (Some "sb") "e2b" (f_of_Z 100) "ok" None None None 1.
Definition event (id : Z) (source kind : string) : RuntimeEventRow := blank_RuntimeEventRow {{ re_id := id; re_source := source; re_attempt_id := "A";
  re_sequence := id; re_kind := kind }}.
Definition db : Db := empty_db {{ d_attempts := {["A" := blank_AttemptRow {{ at_id := "A"; at_status := "completed"; at_evidence_mode := "live" }}]} }}
  {{ d_evidence := {["E" := signed]} }} {{ d_usage_ledger := {[1 := sandbox]} }} {{ d_runtime_events := {[1 := event 1 "run-e2b" "runtime_started"]} }}.
Definition request : RoutingRequest := match routing_request_from_env ∅ with Ok r => r | Err _ => {| required_capabilities := ∅;
  Routing.max_cost_usd := f_zero; max_latency_ms := 0; min_success_rate := f_zero |} end.
Definition chosen : AgentRoute := match select_agent env fsum db ["Codex"; "claude"] request 2 with Ok r => r | Err _ => explicit_route "" end.

Example chosen_codex : select_agent env fsum db ["Codex"; "claude"] request 2 = Ok chosen /\ ar_agent chosen = Some "codex".
Proof. vm_compute. done. Qed.

(** Without the key the Evidence is not authentic, and nobody is chosen. *)
Example unproven : (r ← select_agent ∅ fsum db ["codex"] request 2; Ok (ar_agent r)) = Ok None.
Proof. vm_compute. done. Qed.

(** The same records, with what a caller says about cost and telemetry. *)
Definition told : Db := (db {{ d_attempts := {["A" := blank_AttemptRow {{ at_id := "A"; at_status := "completed"; at_evidence_mode := "live";
    at_cost_usd := f_of_Z 1000; at_provider := Some "mine"; at_input_tokens := Some 5 }}]} }})
  {{ d_runtime_events ::= insert 2 (event 2 "caller" "runtime_started") }}.

Lemma same : trusted_same db told.
Proof.
  constructor; try reflexivity.
  - intros e He. rewrite !elem_rows. split; intros [k Hk].
    + exists k. change (d_runtime_events told) with (<[2:=event 2 "caller" "runtime_started"]> (d_runtime_events db)).
      rewrite lookup_insert_ne; [exact Hk|]. intros <-. by vm_compute in Hk.
    + change (d_runtime_events told) with (<[2:=event 2 "caller" "runtime_started"]> (d_runtime_events db)) in Hk.
      apply lookup_insert_Some in Hk as [[_ <-]|[_ Hk]]; [by vm_compute in He|by exists k].
  - intros k. change (d_attempts told) with ({["A" := blank_AttemptRow {{ at_id := "A"; at_status := "completed"; at_evidence_mode := "live";
      at_cost_usd := f_of_Z 1000; at_provider := Some "mine"; at_input_tokens := Some 5 }}]} : gmap string AttemptRow).
    change (d_attempts db) with ({["A" := blank_AttemptRow {{ at_id := "A"; at_status := "completed"; at_evidence_mode := "live" }}]} : gmap string AttemptRow).
    destruct (decide (k = "A")) as [->|Hk]; [by rewrite !lookup_singleton_eq|by rewrite !lookup_singleton_ne].
Qed.

Definition session : Session := open_session db.
Definition recorded : result (Session * RoutingDecisionRow) := record_route Demo.host "0123456789abcdef" (DateTime 9 true) session "A" (explicit_route "codex").
Definition route_recorded : RoutingDecisionRow := route_row "0123456789abcdef" (DateTime 9 true) "A" "codex" (explicit_route "codex").
Definition after : Session := match recorded with Ok (s, _) => s | Err _ => session end.

Example route_recorded_ok : recorded = Ok (after, route_recorded).
Proof. vm_compute. reflexivity. Qed.
End QualifyDemo.

Lemma routing_trusted_only_witness : trusted_same QualifyDemo.db QualifyDemo.told /\
  select_agent QualifyDemo.env QualifyDemo.fsum QualifyDemo.told ["Codex"; "claude"] QualifyDemo.request 2 = Ok QualifyDemo.chosen.
Proof.
  split; [exact QualifyDemo.same|].
  destruct (routing_trusted_only QualifyDemo.env QualifyDemo.fsum QualifyDemo.db QualifyDemo.told QualifyDemo.same) as (_ & H & _).
  rewrite <- H. exact (proj1 QualifyDemo.chosen_codex).
Defined.

Lemma selected_agent_proven_witness : select_agent QualifyDemo.env QualifyDemo.fsum QualifyDemo.db ["Codex"; "claude"] QualifyDemo.request 2 = Ok QualifyDemo.chosen /\
  "codex" ∈ agent_names ["Codex"; "claude"] /\ exists r, r ∈ rows (d_usage_ledger QualifyDemo.db) /\ ul_agent r = Some "codex".
Proof.
  split; [exact (proj1 QualifyDemo.chosen_codex)|].
  destruct (selected_agent_proven QualifyDemo.env QualifyDemo.fsum QualifyDemo.db ["Codex"; "claude"] QualifyDemo.request 2 QualifyDemo.chosen "codex"
    (proj1 QualifyDemo.chosen_codex) (proj2 QualifyDemo.chosen_codex)) as (Hin & (r & (Hr & _ & Ha) & _) & _).
  split; [exact Hin|]. exists r. split; [exact Hr|exact Ha].
Defined.

Lemma record_route_once_witness : QualifyDemo.recorded = Ok (QualifyDemo.after, QualifyDemo.route_recorded) /\
  record_route Demo.host "ffff" (DateTime 10 true) QualifyDemo.after "A" (explicit_route "claude") =
    Err (ValueError "attempt already has a routing decision for a different agent").
Proof.
  split; [exact QualifyDemo.route_recorded_ok|].
  destruct (record_route_once Demo.host "0123456789abcdef" (DateTime 9 true) QualifyDemo.session "A" (explicit_route "codex") QualifyDemo.after
    QualifyDemo.route_recorded QualifyDemo.route_recorded_ok) as (_ & _ & _ & _ & H).
  exact (H "ffff" (DateTime 10 true) (explicit_route "claude") "claude" eq_refl).
Defined.
