(* ===== verification/Graph.v ===== *)
(** * Graph: the endpoints of the decision graph and of its records

    Models the handlers of [src/sdf_core/api.py] that add nodes and Tasks to
    the decision graph, the trace of a Task, and the endpoints that show one
    record: a breadth-first walk over the edges in both directions, with the
    events and revisions of the Task's Attempts.  A handler takes the database
    its session opens on and returns the one it commits; an exception leaves
    the database as it was.  The body has passed the request model, whose
    field constraints are the [_valid] tests. *)

From S2P Require Import Prelude Floats Json Db EvidenceMac Flush Samples FlushFacts Store Events Revisions.

(** [Field(min_length=lo, max_length=hi)] *)
Definition length_between (lo hi : Z) (s : string) : bool := (lo <=? str_len s) && (str_len s <=? hi).
Definition at_most (hi : Z) (o : option string) : bool := match o with Some s => str_len s <=? hi | None => true end.

Record NodeRequest : Type := { nr_id : string; nr_title : string; nr_owner : string; nr_source : string }.

Definition NodeRequest_valid (p : NodeRequest) : bool :=
  length_between 1 120 (nr_id p) && length_between 1 500 (nr_title p) && length_between 1 120 (nr_owner p) && length_between 1 500 (nr_source p).

Record ObjectiveRequest : Type := {
  or_node : NodeRequest; or_business_context_id : string; or_success_metric : option string; or_baseline : option float;
  or_target : option float; or_measurement_source : option string; or_measurement_window : option string
}.

Definition ObjectiveRequest_valid (p : ObjectiveRequest) : bool :=
  NodeRequest_valid (or_node p) && at_most 500 (or_success_metric p) && at_most 500 (or_measurement_source p) && at_most 120 (or_measurement_window p).

Record TaskRequest : Type := {
  tr_id : string; tr_title : string; tr_objective_id : option string; tr_idempotency_key : string; tr_acceptance_criteria : list string
}.

Definition TaskRequest_valid (p : TaskRequest) : bool :=
  length_between 1 120 (tr_id p) && length_between 1 500 (tr_title p) && length_between 1 200 (tr_idempotency_key p).

(** ** What is shown *)

Definition node_payload (node : GraphNodeRow) : json :=
  JObj ([("id", JStr (gn_id node)); ("kind", JStr (gn_kind node)); ("title", JStr (gn_title node)); ("owner", JStr (gn_owner node));
         ("source", JStr (gn_source node))] ++
        match gn_metadata_json node with Some meta => [("metadata", meta)] | None => [] end).

Definition edge_payload (edge : DecisionEdgeRow) : json :=
  JObj [("source_kind", JStr (de_source_kind edge)); ("source_id", JStr (de_source_id edge)); ("target_kind", JStr (de_target_kind edge));
        ("target_id", JStr (de_target_id edge)); ("relation", JStr (de_relation edge)); ("confidence", JFloat (de_confidence edge))].

Definition time_or_null (t : option datetime) : json := json_str (isoformat <$> t).

Definition evidence_payload (e : EvidenceRow) : json :=
  JObj [("id", JStr (ev_id e)); ("attempt_id", json_str (ev_attempt_id e)); ("objective_id", json_str (ev_objective_id e)); ("kind", JStr (ev_kind e));
        ("status", JStr (ev_status e)); ("command", JStr (ev_command e)); ("exit_code", json_int (ev_exit_code e));
        ("artifact_ref", json_str (ev_artifact_ref e)); ("confidence", JFloat (ev_confidence e)); ("criterion", json_str (ev_criterion e));
        ("revision_id", json_str (ev_revision_id e)); ("tree_sha256", json_str (ev_tree_sha256 e)); ("evidence_mode", JStr (ev_evidence_mode e));
        ("evidence_class", json_str (ev_evidence_class e)); ("producer_identity", json_str (ev_producer_identity e));
        ("producer_role", json_str (ev_producer_role e)); ("verifier_identity", json_str (ev_verifier_identity e));
        ("verifier_role", json_str (ev_verifier_role e)); ("subject_artifact_sha256", json_str (ev_subject_artifact_sha256 e));
        ("oracle_digest", json_str (ev_oracle_digest e)); ("environment_digest", json_str (ev_environment_digest e));
        ("collected_at", time_or_null (ev_collected_at e)); ("expires_at", time_or_null (ev_expires_at e));
        ("oracle_visibility", json_str (ev_oracle_visibility e)); ("input_seed", json_str (ev_input_seed e))].

(** [normalized(row)] as the endpoint shows it. *)
Definition event_payload (row : RuntimeEventRow) : json :=
  let e := normalized row in
  JObj [("source", JStr (ne_source e)); ("attempt_id", JStr (ne_attempt_id e)); ("session_id", JStr (ne_session_id e)); ("sequence", JInt (ne_sequence e));
        ("kind", JStr (ne_kind e)); ("status", JStr (ne_status e)); ("payload", ne_payload e); ("created_at", JStr (isoformat (ne_created_at e)));
        ("category", JStr (ne_category e)); ("trusted_boundary", JBool (ne_trusted_boundary e)); ("acceptance_evidence", JBool (ne_acceptance_evidence e))].

(** ** Adding nodes *)

Section create.
Context (h : Host) (now : nat -> datetime).

Definition get_objective_node (d : Db) (objective_id : string) : result GraphNodeRow :=
  node ← require_some (d_graph_nodes d !! objective_id) (HTTPException 404 "objective not found" []);
  _ ← raise_if (negb (str_eq (gn_kind node) "objective")) (HTTPException 404 "objective not found" []);
  Ok node.

(** [api.add_node]: the key is free or the request conflicts. *)
Definition new_node (d : Db) (id kind title owner source : string) : result GraphNodeRow :=
  _ ← raise_if (bool_decide (is_Some (d_graph_nodes d !! id))) (HTTPException 409 ("node already exists: " +:+ id) []);
  Ok (mk_node id kind title source owner (now 0%nat) None).

Definition put_node (n : GraphNodeRow) (d : Db) : Db := d {{ d_graph_nodes ::= insert (gn_id n) n }}.

Definition put_edge (src dst : string * string) (relation source owner : string) (confidence : float) (at_time : datetime) (d : Db) : Db :=
  let id := next_id (d_decision_edges d) in
  d {{ d_decision_edges ::= insert id {| de_id := id; de_source_kind := src.1; de_source_id := src.2; de_target_kind := dst.1; de_target_id := dst.2;
       de_relation := relation; de_source := source; de_owner := owner; de_confidence := confidence; de_created_at := at_time; de_evidence_ref := None |} }}.

Definition create_domain_node (kind : string) (p : NodeRequest) (d : Db) : result (Db * json) :=
  node ← new_node d (nr_id p) kind (nr_title p) (nr_owner p) (nr_source p);
  d ← flush_change h d (put_node node);
  Ok (d, node_payload node).

Definition create_business_context : NodeRequest -> Db -> result (Db * json) := create_domain_node "business_context".
Definition create_assumption : NodeRequest -> Db -> result (Db * json) := create_domain_node "assumption".
Definition create_constraint : NodeRequest -> Db -> result (Db * json) := create_domain_node "constraint".
Definition create_decision : NodeRequest -> Db -> result (Db * json) := create_domain_node "decision".
Definition create_requirement : NodeRequest -> Db -> result (Db * json) := create_domain_node "requirement".

(** The declared metric fields that are given. *)
Definition metric_metadata (p : ObjectiveRequest) : list (string * json) :=
  List.filter (fun kv => negb (bool_decide (kv.2 = JNull)))
    [("success_metric", json_str (or_success_metric p)); ("baseline", match or_baseline p with Some x => JFloat x | None => JNull end);
     ("target", match or_target p with Some x => JFloat x | None => JNull end);
     ("source", JStr (if opt_truthy (or_measurement_source p) then or_empty (or_measurement_source p) else nr_source (or_node p)));
     ("owner", JStr (nr_owner (or_node p))); ("measurement_window", json_str (or_measurement_window p))].

Definition create_objective (p : ObjectiveRequest) (d : Db) : result (Db * json) :=
  let n := or_node p in
  _ ← require_some (d_graph_nodes d !! or_business_context_id p) (HTTPException 404 "business context not found" []);
  node ← new_node d (nr_id n) "objective" (nr_title n) (nr_owner n) (nr_source n);
  let metadata := metric_metadata p in
  let node := node {{ gn_metadata_json := if bool_decide (metadata = []) then None else Some (JObj [("metric", JObj metadata)]) }} in
  d ← flush_change h d (fun d => put_edge ("business_context", or_business_context_id p) ("objective", nr_id n) "motivates" (nr_source n) (nr_owner n)
                                   (f_of_Z 1) (now 1%nat) (put_node node d));
  Ok (d, node_payload node).

Definition task_payload (t : TaskRow) : json := JObj [("id", JStr (tk_id t)); ("title", JStr (tk_title t)); ("status", JStr (tk_status t))].

(** The answer's status is 200 when the key was used before, 201 otherwise. *)
Definition create_task (p : TaskRequest) (d : Db) : result (Db * (Z * json)) :=
  match find_row (fun t => str_eq (tk_idempotency_key t) (tr_idempotency_key p)) (d_tasks d) with
  | Some existing => Ok (d, (200, task_payload existing))
  | None =>
      _ ← raise_if (opt_truthy (tr_objective_id p) && negb (bool_decide (is_Some (d_graph_nodes d !! or_empty (tr_objective_id p)))))
            (HTTPException 404 "objective not found" []);
      node ← new_node d (tr_id p) "task" (tr_title p) "sdf" "api";
      let task := {| tk_id := tr_id p; tk_title := tr_title p; tk_status := "created"; tk_idempotency_key := tr_idempotency_key p;
                     tk_acceptance_criteria := tr_acceptance_criteria p; tk_created_at := now 1%nat |} in
      _ ← raise_if (bool_decide (is_Some (d_tasks d !! tr_id p))) (IntegrityError "tasks.id");
      d ← flush_change h d (fun d =>
            let d := (put_node node d) {{ d_tasks ::= insert (tr_id p) task }} in
            if opt_truthy (tr_objective_id p)
            then put_edge ("objective", or_empty (tr_objective_id p)) ("task", tr_id p) "implements" "api" "sdf" (f_of_Z 1) (now 2%nat) d else d);
      Ok (d, (201, task_payload task))
  end.
End create.

(** ** The trace of a Task *)

Definition endpoint : Type := string * string.
Definition source_of (e : DecisionEdgeRow) : endpoint := (de_source_kind e, de_source_id e).
Definition target_of (e : DecisionEdgeRow) : endpoint := (de_target_kind e, de_target_id e).

Definition touches (p : endpoint) (e : DecisionEdgeRow) : bool := bool_decide (target_of e = p) || bool_decide (source_of e = p).

(** The end of the edge that is not [p]; of a loop, [p]. *)
Definition related_node (p : endpoint) (e : DecisionEdgeRow) : endpoint := if bool_decide (target_of e = p) then source_of e else target_of e.

Record Walk : Type := {
  wk_queue : list endpoint; wk_seen : gset endpoint; wk_nodes : list GraphNodeRow; wk_edges : list DecisionEdgeRow; wk_seen_edges : gset Z
}.

(** [nodes[node.id] = node]: a key keeps its place. *)
Definition set_node (n : GraphNodeRow) (nodes : list GraphNodeRow) : list GraphNodeRow :=
  if existsb (fun m => str_eq (gn_id m) (gn_id n)) nodes then map (fun m => if str_eq (gn_id m) (gn_id n) then n else m) nodes else nodes ++ [n].

(** One edge of the loop over [related]. *)
Definition visit_edge (p : endpoint) (w : Walk) (e : DecisionEdgeRow) : Walk :=
  if bool_decide (de_id e ∈ wk_seen_edges w) then w
  else
    let r := related_node p e in
    let fresh := negb (bool_decide (r ∈ wk_seen w)) in
    {| wk_queue := if fresh then wk_queue w ++ [r] else wk_queue w; wk_seen := if fresh then {[ r ]} ∪ wk_seen w else wk_seen w;
       wk_nodes := wk_nodes w; wk_edges := wk_edges w ++ [e]; wk_seen_edges := {[ de_id e ]} ∪ wk_seen_edges w |}.

Definition related_edges (d : Db) (p : endpoint) : list DecisionEdgeRow := select_rows (touches p) (d_decision_edges d).

(** The body of [while queue]. *)
Definition visit (d : Db) (p : endpoint) (queue : list endpoint) (w : Walk) : Walk :=
  let nodes := match d_graph_nodes d !! p.2 with Some n => set_node n (wk_nodes w) | None => wk_nodes w end in
  fold_left (visit_edge p) (related_edges d p)
    {| wk_queue := queue; wk_seen := wk_seen w; wk_nodes := nodes; wk_edges := wk_edges w; wk_seen_edges := wk_seen_edges w |}.

Fixpoint walk (fuel : nat) (d : Db) (w : Walk) : option Walk :=
  match wk_queue w with
  | [] => Some w
  | p :: queue => match fuel with O => None | S fuel => walk fuel d (visit d p queue w) end
  end.

Definition walk_from (p : endpoint) : Walk := {| wk_queue := [p]; wk_seen := {[ p ]}; wk_nodes := []; wk_edges := []; wk_seen_edges := ∅ |}.

(** Every step after the first was queued by an edge of its own. *)
Definition walk_fuel (d : Db) : nat := S (size (d_decision_edges d)).

(** [sorted(events_for_attempts(db, attempt_ids), key=attempt_id)] *)
Definition task_events (d : Db) (task_id : string) : list RuntimeEventRow :=
  sort_by (fun a b => str_le (re_attempt_id a) (re_attempt_id b))
    (events_for_attempts d (map at_id (select_rows (fun a => str_eq (at_task_id a) task_id) (d_attempts d)))).

Definition task_revisions (d : Db) (task_id : string) : list json :=
  omap (fun r => revision_payload (Some r) (d_attempts d !! rv_attempt_id r))
    (sort_by (fun a b => str_le (rv_attempt_id a) (rv_attempt_id b))
       (select_rows (fun r => match d_attempts d !! rv_attempt_id r with Some a => str_eq (at_task_id a) task_id | None => false end)
          (d_attempt_revisions d))).

Definition get_task_trace (d : Db) (task_id : string) : result (option json) :=
  _ ← require_some (d_tasks d !! task_id) (HTTPException 404 "task not found" []);
  Ok (w ← walk (walk_fuel d) d (walk_from ("task", task_id));
      Some (JObj [("nodes", JArr (map node_payload (wk_nodes w))); ("edges", JArr (map edge_payload (wk_edges w)));
                  ("runtime_events", JArr (map event_payload (task_events d task_id))); ("revisions", JArr (task_revisions d task_id))])).

(** ** One record *)

Definition get_evidence (d : Db) (evidence_id : string) : result json :=
  evidence ← require_some (d_evidence d !! evidence_id) (HTTPException 404 "evidence not found" []);
  Ok (evidence_payload evidence).

Definition verification_json (attempt_id : string) (v : Verification) : json :=
  JObj [("attempt_id", JStr attempt_id); ("status", JStr (vf_status v)); ("problems", JArr (map JStr (vf_problems v))); ("artifacts", JInt (vf_artifacts v)); ("evidence", JInt (vf_evidence v))].

Definition get_attempt_revision (env : environ) (file_sha : string -> option string) (d : Db) (attempt_id : string) : result json :=
  attempt ← require_some (d_attempts d !! attempt_id) (HTTPException 404 "attempt not found" []);
  verification ← verify_attempt_revision env file_sha d attempt_id true;
  Ok (JObj [("attempt_id", JStr attempt_id); ("revision", default JNull (revision_payload (revision_for_attempt d attempt_id) (Some attempt)));
            ("verification", verification_json attempt_id verification); ("acceptance_evidence", JBool false)]).

Definition get_runtime_events (d : Db) (attempt_id : string) : result (list json) :=
  _ ← require_some (d_attempts d !! attempt_id) (HTTPException 404 "attempt not found" []);
  Ok (map event_payload (events_for_attempts d [attempt_id])).

Definition get_event_streams (d : Db) (attempt_id : string) : result json :=
  _ ← require_some (d_attempts d !! attempt_id) (HTTPException 404 "attempt not found" []);
  let rows := events_for_attempts d [attempt_id] in
  Ok (JObj [("attempt_id", JStr attempt_id); ("streams", JArr (map as_dict (summarize rows)));
            ("kinds", JObj (map (fun kv => (kv.1, JInt kv.2)) (kind_counts rows))); ("acceptance_evidence", JBool false)]).

(** ** What the walk visits *)

(** Rows are stored under their own keys. *)
Record keyed_graph (d : Db) : Prop := {
  kg_node : forall k n, d_graph_nodes d !! k = Some n -> gn_id n = k;
  kg_edge : forall k e, d_decision_edges d !! k = Some e -> de_id e = k
}.

(** Two endpoints joined by an edge, in either direction. *)
Definition adjacent (d : Db) (x y : endpoint) : Prop :=
  exists e, e ∈ rows (d_decision_edges d) /\ ((source_of e = x /\ target_of e = y) \/ (target_of e = x /\ source_of e = y)).

Definition connected (d : Db) : endpoint -> endpoint -> Prop := rtc (adjacent d).

Lemma touches_related p e : touches p e = true -> (source_of e = p /\ related_node p e = target_of e) \/ (target_of e = p /\ related_node p e = source_of e).
Proof.
  unfold touches, related_node. rewrite orb_true_iff, !bool_decide_eq_true.
  destruct (bool_decide_reflect (target_of e = p)) as [H|H]; [by right|]. intros [|]; [done|by left].
Qed.

Lemma touches_adjacent d p e : e ∈ rows (d_decision_edges d) -> touches p e = true -> adjacent d p (related_node p e).
Proof. intros He [[Hs ->]|[Ht ->]]%touches_related; exists e; auto. Qed.

Lemma elem_set_node n nodes m : NoDup (map gn_id nodes) ->
  (m ∈ set_node n nodes <-> m = n \/ (m ∈ nodes /\ gn_id m <> gn_id n)) /\ NoDup (map gn_id (set_node n nodes)).
Proof.
  intros Hnd. unfold set_node, str_eq. destruct (existsb _ nodes) eqn:E.
  - apply List.existsb_exists in E as (x & Hx%list_elem_of_In & Hi%bool_decide_eq_true). split.
    + rewrite elem_map. split.
      * intros (y & Hy & ->). case_bool_decide as Hq; [by left|by right].
      * intros [->|[Hm Hq]]; [exists x; by rewrite bool_decide_true|exists m; by rewrite bool_decide_false].
    + rewrite map_map. replace (map _ nodes) with (map gn_id nodes); [done|]. apply map_ext. intros y. by case_bool_decide.
  - assert (Hne : forall y, y ∈ nodes -> gn_id y <> gn_id n).
    { intros y Hy Hq. apply not_true_iff_false in E. apply E, List.existsb_exists. exists y. by rewrite bool_decide_true, <- list_elem_of_In. }
    split; [rewrite elem_of_app, list_elem_of_singleton; naive_solver|]. rewrite map_app. apply NoDup_app. split; [done|]. split; [|apply NoDup_singleton].
    intros i (y & Hy & ->)%elem_map Hi%list_elem_of_singleton. by apply (Hne y).
Qed.

Section walk_lemmas.
Context (d : Db) (p0 : endpoint) (Hk : keyed_graph d).

(** Everything around an endpoint has been collected. *)
Definition collected (w : Walk) (x : endpoint) : Prop :=
  (forall e, e ∈ rows (d_decision_edges d) -> touches x e = true -> e ∈ wk_edges w) /\
  (forall n, d_graph_nodes d !! x.2 = Some n -> n ∈ wk_nodes w).

Record walk_inv (active : list endpoint) (w : Walk) : Prop := {
  wi_start : p0 ∈ wk_seen w;
  wi_queue : forall x, x ∈ wk_queue w -> x ∈ wk_seen w;
  wi_connected : forall x, x ∈ wk_seen w -> connected d p0 x;
  wi_ids : forall i, i ∈ wk_seen_edges w <-> exists e, e ∈ wk_edges w /\ de_id e = i;
  wi_nodup : NoDup (map de_id (wk_edges w));
  wi_edges : forall e, e ∈ wk_edges w -> e ∈ rows (d_decision_edges d) /\ source_of e ∈ wk_seen w /\ target_of e ∈ wk_seen w;
  wi_nodes : forall n, n ∈ wk_nodes w -> exists x, x ∈ wk_seen w /\ d_graph_nodes d !! x.2 = Some n;
  wi_node_ids : NoDup (map gn_id (wk_nodes w));
  wi_collected : forall x, x ∈ wk_seen w -> x ∈ active \/ x ∈ wk_queue w \/ collected w x
}.

Lemma edge_id_inj e e' : e ∈ rows (d_decision_edges d) -> e' ∈ rows (d_decision_edges d) -> de_id e = de_id e' -> e = e'.
Proof using Hk.
  intros [k H1]%elem_rows [k' H2]%elem_rows Hi. pose proof (kg_edge _ Hk _ _ H1). pose proof (kg_edge _ Hk _ _ H2). congruence.
Qed.

Lemma visit_edge_inv p w e : walk_inv [p] w -> p ∈ wk_seen w -> e ∈ rows (d_decision_edges d) -> touches p e = true ->
  let w' := visit_edge p w e in
  walk_inv [p] w' /\ p ∈ wk_seen w' /\ e ∈ wk_edges w' /\ wk_edges w ⊆ wk_edges w' /\ wk_nodes w' = wk_nodes w /\
  (length (wk_queue w') + length (wk_edges w) <= length (wk_queue w) + length (wk_edges w'))%nat.
Proof using Hk.
  intros Hi Hp He Ht w'. unfold w', visit_edge. destruct (bool_decide_reflect (de_id e ∈ wk_seen_edges w)) as [Hin|Hin].
  { split; [done|]. split; [done|]. split; [|done]. apply (wi_ids _ _ Hi) in Hin as (e' & He' & Hid).
    destruct (wi_edges _ _ Hi _ He') as [Hr _]. by rewrite <- (edge_id_inj e' e). }
  pose proof (touches_adjacent d p e He Ht) as Hadj. apply touches_related in Ht. set (r := related_node p e) in *.
  set (fresh := negb (bool_decide (r ∈ wk_seen w))).
  assert (Hseen : forall x, x ∈ (if fresh then {[r]} ∪ wk_seen w else wk_seen w) <-> x = r \/ x ∈ wk_seen w).
  { intros x. unfold fresh. case_bool_decide; cbn [negb]; [|set_solver]. split; [auto|]. by intros [->|]. }
  assert (Hqueue : forall x, x ∈ (if fresh then wk_queue w ++ [r] else wk_queue w) <-> x ∈ wk_queue w \/ (fresh = true /\ x = r)).
  { intros x. destruct fresh; [rewrite elem_of_app, list_elem_of_singleton; tauto|]. split; [auto|]. by intros [|[? _]]. }
  cbn. split.
  - constructor; cbn.
    + apply Hseen. right. by apply (wi_start _ _ Hi).
    + intros x [Hx|[_ ->]]%Hqueue; apply Hseen; [right; by apply (wi_queue _ _ Hi)|by left].
    + intros x [->|Hx]%Hseen; [|by apply (wi_connected _ _ Hi)]. eapply rtc_r; [by apply (wi_connected _ _ Hi)|done].
    + intros i. rewrite elem_of_union, elem_of_singleton, (wi_ids _ _ Hi). setoid_rewrite elem_of_app. setoid_rewrite list_elem_of_singleton.
      split; [intros [->|(e' & ? & ?)]; [exists e; auto|exists e'; auto]|intros (e' & [?| ->] & Hid); [right; by exists e'|by left]].
    + rewrite map_app. apply NoDup_app. split; [apply (wi_nodup _ _ Hi)|]. split; [|apply NoDup_singleton].
      intros i (e' & He' & ->)%elem_map Hi'%list_elem_of_singleton. apply Hin, (wi_ids _ _ Hi). by exists e'.
    + intros e' [He'|Hq%list_elem_of_singleton]%elem_of_app; [|subst e'].
      * destruct (wi_edges _ _ Hi _ He') as (? & ? & ?). split; [done|]. split; apply Hseen; by right.
      * split; [done|]. destruct Ht as [[Hs Hr]|[Hs Hr]]; rewrite Hs, <- Hr; split; apply Hseen; auto.
    + intros n Hn. destruct (wi_nodes _ _ Hi _ Hn) as (x & ? & ?). exists x. split; [apply Hseen; by right|done].
    + apply (wi_node_ids _ _ Hi).
    + intros x Hx. destruct (decide (x ∈ wk_seen w)) as [Hs|Hs].
      * destruct (wi_collected _ _ Hi _ Hs) as [?|[?|[Hc1 Hc2]]]; [by left|right; left; apply Hqueue; by left|right; right].
        split; [intros e' ? ?; apply elem_of_app; left; by apply Hc1|done].
      * right. left. apply Hqueue. right. apply Hseen in Hx as [->|?]; [|done]. unfold fresh. by rewrite bool_decide_false.
  - split; [apply Hseen; by right|]. split; [apply elem_of_app; right; by apply list_elem_of_singleton|].
    split; [intros x Hx; apply elem_of_app; by left|]. split; [done|]. rewrite length_app. destruct fresh; rewrite ?length_app; cbn [length]; lia.
Qed.

Lemma visit_edges_inv p l w : walk_inv [p] w -> p ∈ wk_seen w -> (forall e, e ∈ l -> e ∈ rows (d_decision_edges d) /\ touches p e = true) ->
  let w' := fold_left (visit_edge p) l w in
  walk_inv [p] w' /\ (forall e, e ∈ l -> e ∈ wk_edges w') /\ wk_edges w ⊆ wk_edges w' /\ wk_nodes w' = wk_nodes w /\
  (length (wk_queue w') + length (wk_edges w) <= length (wk_queue w) + length (wk_edges w'))%nat.
Proof using Hk.
  revert w. induction l as [|e l IH]; intros w Hi Hp Hl; cbn [fold_left].
  { split; [done|]. split; [by intros e ?%not_elem_of_nil|]. split; [done|]. split; [done|lia]. }
  destruct (Hl e ltac:(left)) as [He Ht]. destruct (visit_edge_inv p w e Hi Hp He Ht) as (Hi' & Hp' & Hin & Hsub & Hn & Hlen).
  destruct (IH _ Hi' Hp') as (Hi2 & Hall & Hsub2 & Hn2 & Hlen2); [intros e' He'; apply Hl; by right|].
  split; [done|]. split; [intros e' [->|He']%elem_of_cons; [by apply Hsub2|by apply Hall]|]. split; [set_solver|]. split; [congruence|lia].
Qed.

Lemma visit_inv p queue w : walk_inv [] w -> wk_queue w = p :: queue ->
  let w' := visit d p queue w in
  walk_inv [] w' /\ (length (wk_queue w') + length (wk_edges w) < length (wk_queue w) + length (wk_edges w'))%nat.
Proof using Hk.
  intros Hi Hq. unfold visit. set (nodes := match d_graph_nodes d !! p.2 with Some n => set_node n (wk_nodes w) | None => wk_nodes w end).
  assert (Hp : p ∈ wk_seen w) by (apply (wi_queue _ _ Hi); rewrite Hq; left).
  assert (Hnodes : forall n, n ∈ nodes <-> n ∈ wk_nodes w \/ d_graph_nodes d !! p.2 = Some n).
  { intros n. unfold nodes. destruct (d_graph_nodes d !! p.2) as [m|] eqn:Hm; [|split; [auto|by intros [|]]].
    destruct (elem_set_node m (wk_nodes w) n (wi_node_ids _ _ Hi)) as [-> _]. split; [intros [->|[? _]]; auto|]. intros [Hn|[= ->]]; [|by left].
    destruct (wi_nodes _ _ Hi _ Hn) as (x & _ & Hx). destruct (decide (gn_id n = gn_id m)) as [Heq|]; [|by right]. left.
    pose proof (kg_node _ Hk _ _ Hx). pose proof (kg_node _ Hk _ _ Hm). congruence. }
  set (w1 := {| wk_queue := queue; wk_seen := wk_seen w; wk_nodes := nodes; wk_edges := wk_edges w; wk_seen_edges := wk_seen_edges w |}).
  assert (Hi1 : walk_inv [p] w1).
  { destruct Hi as [Hs Hqs Hc Hids Hnd Hed Hno Hni Hco]. constructor; cbn; try done.
    - intros x Hx. apply Hqs. rewrite Hq. by right.
    - intros n [Hn|Hn]%Hnodes; [by apply Hno|by exists p].
    - unfold nodes. destruct (d_graph_nodes d !! p.2) as [m|]; [|done]. by destruct (elem_set_node m (wk_nodes w) m Hni).
    - intros x Hx. destruct (Hco x Hx) as [Hx'|[Hx'|[H1 H2]]]; [by apply not_elem_of_nil in Hx'| |].
      + rewrite Hq in Hx'. apply elem_of_cons in Hx' as [->|]; [left; by apply list_elem_of_singleton|by right; left].
      + right. right. split; [done|]. intros n Hn. apply Hnodes. left. by apply H2. }
  assert (Hl : forall e, e ∈ related_edges d p -> e ∈ rows (d_decision_edges d) /\ touches p e = true).
  { intros e [Ht Hr]%elem_select. split; [by apply elem_rows|done]. }
  destruct (visit_edges_inv p (related_edges d p) w1 Hi1 Hp Hl) as ([Hs Hqs Hc Hids Hnd Hed Hno Hni Hco] & Hall & Hsub & Hn & Hlen).
  split; [|rewrite Hq; cbn [length] in *; cbn in Hlen; lia]. constructor; try done.
  intros x Hx. destruct (Hco x Hx) as [->%list_elem_of_singleton|?]; [|by right]. right. right. split.
  - intros e He Ht. apply Hall, elem_select. split; [done|]. by apply elem_rows.
  - intros n Hn'. rewrite Hn. apply Hnodes. by right.
Qed.

Lemma edges_bound w : walk_inv [] w -> (length (wk_edges w) <= size (d_decision_edges d))%nat.
Proof using Type.
  intros Hi. rewrite <- length_map_to_list, <- (length_fmap snd), <- (length_map de_id (wk_edges w)), <- (length_map de_id (_ <$> _)).
  apply submseteq_length, NoDup_submseteq; [apply (wi_nodup _ _ Hi)|]. intros i (e & He & ->)%elem_map. apply elem_map. exists e. split; [|done].
  by destruct (wi_edges _ _ Hi _ He).
Qed.

Lemma walk_Some fuel w : walk_inv [] w -> (length (wk_queue w) + size (d_decision_edges d) <= fuel + length (wk_edges w))%nat ->
  exists w', walk fuel d w = Some w' /\ walk_inv [] w' /\ wk_queue w' = [].
Proof using Hk.
  revert w. induction fuel as [|fuel IH]; intros w Hi Hf; pose proof (edges_bound w Hi) as Hb; cbn [walk]; destruct (wk_queue w) as [|p queue] eqn:Hq; eauto.
  - cbn [length] in Hf. lia.
  - destruct (visit_inv p queue w Hi Hq) as [Hi' Hlen]. apply IH; [done|]. rewrite Hq in Hlen. lia.
Qed.

Lemma walk_from_inv : walk_inv [] (walk_from p0).
Proof using Type.
  constructor; cbn.
  - by apply elem_of_singleton.
  - intros x ->%list_elem_of_singleton. by apply elem_of_singleton.
  - intros x ->%elem_of_singleton. apply rtc_refl.
  - intros i. split; [by intros ?%not_elem_of_empty|by intros (e & ?%not_elem_of_nil & _)].
  - constructor.
  - by intros e ?%not_elem_of_nil.
  - by intros n ?%not_elem_of_nil.
  - constructor.
  - intros x ->%elem_of_singleton. right. left. by apply list_elem_of_singleton.
Qed.

(** A finished walk has seen the component of its start, and only that. *)
Lemma walk_seen w x : walk_inv [] w -> wk_queue w = [] -> x ∈ wk_seen w <-> connected d p0 x.
Proof using Hk.
  intros Hi Hq. split; [apply (wi_connected _ _ Hi)|]. intros Hc.
  assert (Hstep : forall y z, adjacent d y z -> y ∈ wk_seen w -> z ∈ wk_seen w).
  { intros y z (e & He & Hends) Hy.
    destruct (wi_collected _ _ Hi _ Hy) as [?%not_elem_of_nil|[Hn|[Hcol _]]]; [done|rewrite Hq in Hn; by apply not_elem_of_nil in Hn|].
    assert (Ht : touches y e = true) by (unfold touches; rewrite orb_true_iff, !bool_decide_eq_true; tauto).
    destruct (wi_edges _ _ Hi _ (Hcol e He Ht)) as (_ & Hs & Htg). by destruct Hends as [[_ <-]|[_ <-]]. }
  pose proof (wi_start _ _ Hi) as Hstart. clear Hi Hq. induction Hc as [|y z x Hadj _ IH]; [done|]. apply IH. by apply (Hstep y).
Qed.
End walk_lemmas.

Lemma trace_walk d p0 : keyed_graph d -> exists w, walk (walk_fuel d) d (walk_from p0) = Some w /\ walk_inv d p0 [] w /\ wk_queue w = [].
Proof.
  intros Hk. apply (walk_Some d p0 Hk); [apply walk_from_inv|]. unfold walk_fuel. cbn. lia.
Qed.

(** C20: the walk of a Task's trace ends, and shows exactly the part of the
    decision graph connected to the Task: every edge with an end there, once,
    and every stored node of an endpoint there, once.  A Task that is not
    stored has no trace. *)
Theorem trace_spec d task_id : keyed_graph d ->
  (get_task_trace d task_id = Err (HTTPException 404 "task not found" []) <-> d_tasks d !! task_id = None) /\
  exists w, walk (walk_fuel d) d (walk_from ("task", task_id)) = Some w /\
    (is_Some (d_tasks d !! task_id) -> exists j, get_task_trace d task_id = Ok (Some j)) /\
    NoDup (map de_id (wk_edges w)) /\ NoDup (map gn_id (wk_nodes w)) /\
    (forall e, e ∈ wk_edges w <-> e ∈ rows (d_decision_edges d) /\
       exists x, connected d ("task", task_id) x /\ (source_of e = x \/ target_of e = x)) /\
    (forall n, n ∈ wk_nodes w <-> exists x, connected d ("task", task_id) x /\ d_graph_nodes d !! x.2 = Some n).
Proof.
  intros Hk. destruct (trace_walk d ("task", task_id) Hk) as (w & Hw & Hi & Hq). split.
  { unfold get_task_trace. destruct (d_tasks d !! task_id); cbn [require_some mbind result_bind]; split; done. }
  exists w. split; [done|]. split; [|split; [apply (wi_nodup _ _ _ _ Hi)|split; [apply (wi_node_ids _ _ _ _ Hi)|split]]].
  - intros [t Ht]. unfold get_task_trace. rewrite Ht, Hw. by eexists.
  - assert (Hdone : forall x, connected d ("task", task_id) x -> collected d w x).
    { intros x Hc. pose proof Hc as Hx. apply (walk_seen _ _ Hk w x Hi Hq) in Hx.
      destruct (wi_collected _ _ _ _ Hi _ Hx) as [?%not_elem_of_nil|[Hn|?]]; [done|rewrite Hq in Hn; by apply not_elem_of_nil in Hn|done]. }
    intros e. split.
    + intros He. destruct (wi_edges _ _ _ _ Hi _ He) as (Hr & Hs & _). split; [done|]. exists (source_of e). split; [|by left].
      by apply (walk_seen _ _ Hk w _ Hi Hq).
    + intros (Hr & x & Hc & Hends). apply (Hdone x Hc); [done|]. unfold touches. rewrite orb_true_iff, !bool_decide_eq_true. tauto.
  - intros n. split.
    + intros Hn. destruct (wi_nodes _ _ _ _ Hi _ Hn) as (x & Hs & Hx). exists x. split; [|done]. by apply (walk_seen _ _ Hk w _ Hi Hq).
    + intros (x & Hc & Hx). apply (walk_seen _ _ Hk w x Hi Hq) in Hc.
      destruct (wi_collected _ _ _ _ Hi _ Hc) as [?%not_elem_of_nil|[Hn|[_ Hcol]]]; [done|rewrite Hq in Hn; by apply not_elem_of_nil in Hn|by apply Hcol].
Qed.

(** ** Creating a Task twice *)

Lemma flush_change_Ok h d f d' : flush_change h d f = Ok d' ->
  flush h {| stored := d; current := f d |} = Ok (open_session d') /\ same_tables d' (f d) /\ constraints_ok d' = true.
Proof.
  unfold flush_change. intros ((st, cu) & Hf & [= <-])%bind_Ok. pose proof Hf as (_ & _ & Hsc & Hok & Hst & _)%flush_Ok.
  cbn [stored current] in *. subst cu. split; [exact Hf|]. split; [exact Hst|exact Hok].
Qed.

Lemma constraints_idempotency_key d : constraints_ok d = true -> unique_by tk_idempotency_key (d_tasks d) = true.
Proof. unfold constraints_ok. intros H. repeat rewrite andb_true_iff in H. by destruct_and! H. Qed.

(** Creating a Task is idempotent in its key.  A new Task is stored under
    its id as created, with its criteria and a node of its own, and when it
    names an objective with an edge from it; nothing else of the Tasks and
    nodes changes.  Any later request with the same key, whatever else it
    says, changes nothing and gets the same answer with status 200. *)
Theorem create_task_idempotent h now p d d' status j : create_task h now p d = Ok (d', (status, j)) ->
  (status = 200 /\ d' = d /\ (exists t, t ∈ rows (d_tasks d) /\ tk_idempotency_key t = tr_idempotency_key p /\ j = task_payload t) \/
   status = 201 /\ d_tasks d !! tr_id p = None /\ d_graph_nodes d !! tr_id p = None /\
     (exists t, d_tasks d' = <[tr_id p := t]> (d_tasks d) /\ tk_id t = tr_id p /\ tk_status t = "created" /\
        tk_idempotency_key t = tr_idempotency_key p /\ tk_acceptance_criteria t = tr_acceptance_criteria p /\ j = task_payload t) /\
     (exists n, d_graph_nodes d' = <[tr_id p := n]> (d_graph_nodes d) /\ gn_id n = tr_id p /\ gn_kind n = "task") /\
     (forall o, tr_objective_id p = Some o -> o <> "" -> is_Some (d_graph_nodes d !! o) /\
        exists e, e ∈ rows (d_decision_edges d') /\ source_of e = ("objective", o) /\ target_of e = ("task", tr_id p) /\ de_relation e = "implements")) /\
  forall now2 p2, tr_idempotency_key p2 = tr_idempotency_key p -> create_task h now2 p2 d' = Ok (d', (200, j)).
Proof.
  unfold create_task at 1. destruct (find_row _ (d_tasks d)) as [t|] eqn:Hf.
  { intros [= <- <- <-]. pose proof Hf as (Hk & Hin)%find_row_Some. unfold str_eq in Hk. apply bool_decide_eq_true in Hk. split.
    - left. split; [done|]. split; [done|]. exists t. split; [by apply elem_rows|done].
    - intros now2 p2 Hk2. unfold create_task. by rewrite Hk2, Hf. }
  intros (u & Hobj & H)%bind_Ok. apply bind_Ok in H as (node & Hnode & H). apply bind_Ok in H as (u2 & Hnew & H).
  apply bind_Ok in H as (d2 & Hflush & [= <- <- <-]). apply raise_if_Ok in Hobj, Hnew.
  apply bind_Ok in Hnode as (u3 & Hfree%raise_if_Ok & [= <-]).
  assert (Hn1 : d_tasks d !! tr_id p = None) by (by destruct (d_tasks d !! tr_id p)).
  assert (Hn2 : d_graph_nodes d !! tr_id p = None) by (by destruct (d_graph_nodes d !! tr_id p)).
  apply flush_change_Ok in Hflush as (_ & Hst & Hok). set (t := {| tk_id := tr_id p |}) in *.
  assert (Ht : d_tasks d2 = <[tr_id p := t]> (d_tasks d)).
  { destruct Hst as [-> _]. by destruct (opt_truthy (tr_objective_id p)). }
  split.
  - right. split; [done|]. split; [done|]. split; [done|]. split; [by exists t|].
    destruct Hst as (_ & _ & _ & _ & _ & _ & _ & _ & _ & _ & _ & Hgn & Hde & _). split.
    + eexists. rewrite Hgn. split; [destruct (opt_truthy (tr_objective_id p)); reflexivity|done].
    + intros o Ho Hne. rewrite Ho in Hobj, Hde. replace (opt_truthy (Some o)) with true in Hobj, Hde by (by destruct o).
      cbn [andb] in Hobj. split; [by apply negb_false_iff, bool_decide_eq_true in Hobj|].
      eexists. rewrite Hde. split; [apply elem_rows; eexists; apply lookup_insert_eq|by cbn].
  - intros now2 p2 Hk2. unfold create_task. rewrite Hk2.
    rewrite (find_unique tk_idempotency_key (tr_idempotency_key p) (d_tasks d2) (tr_id p) t); [done|by apply constraints_idempotency_key| |done].
    rewrite Ht. apply lookup_insert_eq.
Qed.

Module GraphDemo.
Definition now (n : nat) : datetime := DateTime (1000 + Z.of_nat n) true.
Definition node (id : string) : NodeRequest := {| nr_id := id; nr_title := "a title"; nr_owner := "ana"; nr_source := "doc" |}.
Definition objective : ObjectiveRequest := {| or_node := node "O"; or_business_context_id := "B"; or_success_metric := Some "latency"; or_baseline := None;
  or_target := None; or_measurement_source := None; or_measurement_window := None |}.
Definition task (key : string) (objective : option string) : TaskRequest :=
  {| tr_id := "T"; tr_title := "do it"; tr_objective_id := objective; tr_idempotency_key := key; tr_acceptance_criteria := ["it works"] |}.

Definition step {A} (f : Db -> result (Db * A)) (d : Db) : Db := match f d with Ok (d', _) => d' | Err _ => d end.
Definition db : Db :=
  step (create_assumption Demo.host now (node "X")) (step (create_objective Demo.host now objective) (step (create_business_context Demo.host now (node "B")) empty_db)).
Definition created : result (Db * (Z * json)) := create_task Demo.host now (task "k" (Some "O")) db.
Definition db_after : Db := step (fun _ => created) db.

Definition payload : json := JObj [("id", JStr "T"); ("title", JStr "do it"); ("status", JStr "created")].

Example created_ok : created = Ok (db_after, (201, payload)).
Proof. vm_compute. reflexivity. Qed.

Example errors :
  create_assumption Demo.host now (node "O") db_after = Err (HTTPException 409 "node already exists: O" []) /\
  create_task Demo.host now (task "k2" (Some "nothing")) db_after = Err (HTTPException 404 "objective not found" []) /\
  create_task Demo.host now (task "k2" None) db_after = Err (HTTPException 409 "node already exists: T" []) /\
  get_evidence db_after "E" = Err (HTTPException 404 "evidence not found" []).
Proof. vm_compute. done. Qed.

Lemma keyed : keyed_graph db_after.
Proof.
  assert (forallb (fun kv => str_eq (gn_id kv.2) kv.1) (map_to_list (d_graph_nodes db_after)) &&
          forallb (fun kv => bool_decide (de_id kv.2 = kv.1)) (map_to_list (d_decision_edges db_after)) = true) as [H1 H2]%andb_true_iff
    by (vm_compute; reflexivity).
  rewrite List.forallb_forall in H1, H2. split.
  - intros k n Hn%elem_of_map_to_list%list_elem_of_In%H1. unfold str_eq in Hn. by apply bool_decide_eq_true in Hn.
  - intros k e He%elem_of_map_to_list%list_elem_of_In%H2. by apply bool_decide_eq_true in He.
Qed.
End GraphDemo.

Lemma trace_spec_witness : keyed_graph GraphDemo.db_after /\
  exists w, walk (walk_fuel GraphDemo.db_after) GraphDemo.db_after (walk_from ("task", "T")) = Some w /\
    map gn_id (wk_nodes w) = ["T"; "O"; "B"] /\ map de_relation (wk_edges w) = ["implements"; "motivates"] /\ NoDup (map de_id (wk_edges w)).
Proof.
  split; [exact GraphDemo.keyed|]. destruct (trace_spec GraphDemo.db_after "T" GraphDemo.keyed) as [_ (w & Hw & _ & Hnd & _)].
  exists w. split; [exact Hw|].
  assert (Hw' : walk (walk_fuel GraphDemo.db_after) GraphDemo.db_after (walk_from ("task", "T")) = Some w) by exact Hw.
  vm_compute in Hw'. injection Hw' as <-. split; [reflexivity|]. split; [reflexivity|exact Hnd].
Defined.

Lemma create_task_idempotent_witness :
  create_task Demo.host GraphDemo.now (GraphDemo.task "k" (Some "O")) GraphDemo.db = Ok (GraphDemo.db_after, (201, GraphDemo.payload)) /\
  create_task Demo.host GraphDemo.now (GraphDemo.task "k" None) GraphDemo.db_after = Ok (GraphDemo.db_after, (200, GraphDemo.payload)).
Proof.
  split; [exact GraphDemo.created_ok|].
  destruct (create_task_idempotent Demo.host GraphDemo.now (GraphDemo.task "k" (Some "O")) GraphDemo.db GraphDemo.db_after 201 GraphDemo.payload
    GraphDemo.created_ok) as [_ H]. apply (H GraphDemo.now (GraphDemo.task "k" None)). reflexivity.
Defined.
