(* ===== verification/Objectives.v ===== *)
(** * Objectives: what is declared and observed about an Objective

    Models the handlers of [src/sdf_core/api.py] for the metric of an
    Objective, the outcomes reported for it, the Outcome Evidence recorded on
    it, and what may be claimed from them.  A handler takes the database its
    session opens on and returns the one it commits; the name of the
    authenticated principal, the clock and the random ids are arguments. *)

From S2P Require Import Prelude Floats Json Db EvidenceMac Flush Samples FlushFacts Store Acceptance Impact Graph.

Record MetricDeclarationRequest : Type := {
  mq_metric_name : string; mq_baseline : float; mq_target : float; mq_unit : string; mq_source : string; mq_owner : string;
  mq_measurement_window_days : Z
}.

Definition MetricDeclarationRequest_valid (p : MetricDeclarationRequest) : bool :=
  length_between 1 120 (mq_metric_name p) && length_between 1 40 (mq_unit p) && length_between 1 500 (mq_source p) &&
  length_between 1 120 (mq_owner p) && (0 <? mq_measurement_window_days p).

Record ObservationRequest : Type := {
  oq_metric_name : string; oq_value : float; oq_observed_at : datetime; oq_source : string; oq_mode : string
}.

Definition ObservationRequest_valid (p : ObservationRequest) : bool :=
  length_between 1 120 (oq_metric_name p) && length_between 1 500 (oq_source p) && str_in (oq_mode p) ["synthetic"; "live"].

Record OutcomeEvidenceRequest : Type := {
  eq_verifier_identity : string; eq_verifier_role : string; eq_status : string; eq_summary : string; eq_expires_at : option datetime;
  eq_confidence : float; eq_criterion : option string; eq_mode : string
}.

Definition OutcomeEvidenceRequest_valid (p : OutcomeEvidenceRequest) : bool :=
  length_between 1 120 (eq_verifier_identity p) && length_between 1 32 (eq_verifier_role p) && str_in (eq_status p) ["PASS"; "FAIL"; "INCONCLUSIVE"] &&
  length_between 1 4000 (eq_summary p) && f_le f_zero (eq_confidence p) && f_le (eq_confidence p) (f_of_Z 1) && at_most 500 (eq_criterion p) &&
  str_in (eq_mode p) ["synthetic"; "live"].

Section handlers.
Context (h : Host).

Definition declaration_payload (m : MetricDeclaration) : json :=
  JObj [("objective_id", JStr (md_objective_id m)); ("metric_name", JStr (md_metric_name m)); ("baseline", JFloat (md_baseline m));
        ("target", JFloat (md_target m)); ("unit", JStr (md_unit m)); ("source", JStr (md_source m)); ("owner", JStr (md_owner m));
        ("measurement_window_days", JInt (md_measurement_window_days m)); ("declared_at", JStr (isoformat (md_declared_at m)))].

Definition declare_objective_metric (now : datetime) (objective_id : string) (p : MetricDeclarationRequest) (d : Db) : result (Db * json) :=
  _ ← get_objective_node d objective_id;
  _ ← raise_if (bool_decide (is_Some (d_objective_metrics d !! objective_id)))
        (HTTPException 409 ("metric already declared for objective: " +:+ objective_id) []);
  let m := {| md_objective_id := objective_id; md_metric_name := mq_metric_name p; md_baseline := mq_baseline p; md_target := mq_target p;
              md_unit := mq_unit p; md_source := mq_source p; md_owner := mq_owner p;
              md_measurement_window_days := mq_measurement_window_days p; md_declared_at := now |} in
  _ ← match declaration_post_init m with Err (ValueError msg) => Err (HTTPException 422 msg []) | r => r end;
  d ← flush_change h d (fun d => d {{ d_objective_metrics ::= insert objective_id
        {| om_objective_id := md_objective_id m; om_metric_name := md_metric_name m; om_baseline := md_baseline m; om_target := md_target m;
           om_unit := md_unit m; om_source := md_source m; om_owner := md_owner m;
           om_measurement_window_days := md_measurement_window_days m; om_declared_at := md_declared_at m |} }});
  Ok (d, declaration_payload m).

Definition record_outcome_observation (hex : string) (now : datetime) (objective_id : string) (p : ObservationRequest) (d : Db) : result (Db * json) :=
  _ ← get_objective_node d objective_id;
  let observation_id := "OBSERVATION-" +:+ str_take 12 hex in
  _ ← raise_if (bool_decide (is_Some (d_outcome_observations d !! observation_id))) (IntegrityError "outcome_observations.id");
  d ← flush_change h d (fun d => d {{ d_outcome_observations ::= insert observation_id
        {| oo_id := observation_id; oo_objective_id := objective_id; oo_metric_name := oq_metric_name p; oo_value := oq_value p;
           oo_observed_at := oq_observed_at p; oo_source := oq_source p; oo_mode := oq_mode p; oo_created_at := now |} }});
  Ok (d, JObj [("id", JStr observation_id); ("objective_id", JStr objective_id); ("metric_name", JStr (oq_metric_name p)); ("value", JFloat (oq_value p));
               ("observed_at", JStr (isoformat (oq_observed_at p))); ("source", JStr (oq_source p)); ("mode", JStr (oq_mode p))]).

(** [_objective_attempt_agents]: of the Attempts of the Tasks that implement
    the Objective or are in one of its Plans. *)
Definition objective_tasks (d : Db) (objective_id : string) : list string :=
  map de_target_id (select_rows (fun e => str_eq (de_source_kind e) "objective" && str_eq (de_source_id e) objective_id &&
                                          str_eq (de_target_kind e) "task" && str_eq (de_relation e) "implements") (d_decision_edges d)) ++
  map pt_task_id (select_rows (fun t => str_in (pt_plan_id t)
    (map pl_id (select_rows (fun p => opt_str_eq (pl_objective_id p) (Some objective_id)) (d_plans d)))) (d_plan_tasks d)).

Definition objective_attempt_agents (d : Db) (objective_id : string) : list string :=
  List.filter str_truthy (map at_agent (select_rows (fun a => str_in (at_task_id a) (objective_tasks d objective_id)) (d_attempts d))).

Definition outcome_error (text : string) : exn := HTTPException 422 ("outcome evidence " +:+ text) [].

(** The row, and its node in the graph. *)
Definition outcome_row (evidence_id objective_id principal verifier summary : string) (now : datetime) (p : OutcomeEvidenceRequest) : EvidenceRow :=
  blank_EvidenceRow {{ ev_id := evidence_id; ev_attempt_id := None; ev_objective_id := Some objective_id; ev_kind := "outcome"; ev_status := eq_status p;
    ev_command := summary; ev_exit_code := None; ev_artifact_ref := None; ev_confidence := eq_confidence p; ev_criterion := eq_criterion p;
    ev_measured_at := Some now; ev_evidence_mode := eq_mode p; ev_created_at := now; ev_evidence_class := Some "outcome";
    ev_producer_identity := Some principal; ev_producer_role := Some "approver"; ev_verifier_identity := Some verifier;
    ev_verifier_role := Some (eq_verifier_role p); ev_collected_at := Some now; ev_expires_at := aware <$> eq_expires_at p }}.

Definition outcome_node (row : EvidenceRow) (objective_id verifier : string) (now : datetime) (p : OutcomeEvidenceRequest) : GraphNodeRow := {|
  gn_id := ev_id row; gn_kind := "evidence"; gn_title := eq_status p; gn_source := str_take 500 ("objective:" +:+ objective_id);
  gn_owner := str_take 120 verifier; gn_confidence := eq_confidence p; gn_created_at := now;
  gn_metadata_json := Some (JObj [("evidence_class", JStr "outcome"); ("objective_id", JStr objective_id); ("verifier_identity", JStr verifier);
    ("verifier_role", JStr (eq_verifier_role p)); ("expires_at", time_or_null (ev_expires_at row)); ("criterion", json_str (eq_criterion p))]) |}.

Definition record_outcome_evidence (hex : string) (now : datetime) (principal : option string) (objective_id : string)
    (p : OutcomeEvidenceRequest) (d : Db) : result (Db * json) :=
  _ ← get_objective_node d objective_id;
  _ ← raise_if (str_eq (eq_verifier_role p) "agent") (outcome_error "verifier_role cannot be agent");
  let verifier := str_strip (eq_verifier_identity p) in
  _ ← raise_if (negb (str_truthy verifier)) (outcome_error "requires a verifier_identity");
  let summary := str_strip (eq_summary p) in
  _ ← raise_if (negb (str_truthy summary)) (outcome_error "requires a summary");
  let principal := if opt_truthy principal then or_empty principal else "sdf" in
  _ ← raise_if (str_eq verifier principal)
        (outcome_error "verifier_identity must differ from producer_identity (ADR 0042); the principal who records the outcome cannot verify it");
  _ ← raise_if (str_in verifier (objective_attempt_agents d objective_id))
        (outcome_error "verifier_identity matches an attempt agent of this objective (ADR 0042); an attempt's agent cannot verify the objective it worked");
  let row := outcome_row ("EVIDENCE-OUTCOME-" +:+ hex) objective_id principal verifier summary now p in
  _ ← raise_if (bool_decide (is_Some (d_evidence d !! ev_id row))) (IntegrityError "evidence.id");
  _ ← raise_if (bool_decide (is_Some (d_graph_nodes d !! ev_id row))) (IntegrityError "graph_nodes.id");
  s ← change_and_flush h (open_session d)
        (put_node (outcome_node row objective_id verifier now p) (d {{ d_evidence ::= insert (ev_id row) row }}));
  s ← change_and_flush h s
        (put_edge ("evidence", ev_id row) ("objective", objective_id) "measures" "api" (str_take 120 principal) (eq_confidence p) now (current s));
  Ok (stored s, evidence_payload (default row (d_evidence (stored s) !! ev_id row))).

Definition list_objective_evidence (d : Db) (objective_id : string) : result (list json) :=
  _ ← get_objective_node d objective_id;
  Ok (map evidence_payload (sort_by (fun a b => dt_us (ev_created_at a) <=? dt_us (ev_created_at b))
        (select_rows (fun e => opt_str_eq (ev_objective_id e) (Some objective_id)) (d_evidence d)))).

Definition objective_impact (d : Db) (objective_id : string) : result BusinessImpact :=
  declaration ← load_metric_declaration d objective_id;
  observations ← load_observations d objective_id;
  measure_objective objective_id declaration observations.

Definition get_objective_impact (d : Db) (objective_id : string) : result json :=
  _ ← get_objective_node d objective_id;
  impact ← objective_impact d objective_id;
  Ok (impact_as_dict impact).

Definition get_impact_scorecard (fsum : list float -> float) (now : datetime) (d : Db) : result json :=
  facts ← load_scorecard_facts (h_environ h) d;
  metrics ← build_scorecard fsum facts now;
  Ok (scorecard_as_dict metrics).
End handlers.

(** ** What a claim rests on *)

(** A reported outcome of the declared metric, observed in its window. *)
Definition in_window (m : ObjectiveMetricRow) (r : OutcomeObservationRow) : Prop :=
  oo_objective_id r = om_objective_id m /\ oo_metric_name r = om_metric_name m /\
  dt_us (om_declared_at m) <= dt_us (oo_observed_at r) <= dt_us (om_declared_at m) + days (om_measurement_window_days m).

(** Only a live one can back a claim. *)
Definition backs (m : ObjectiveMetricRow) (r : OutcomeObservationRow) : Prop := oo_mode r = "live" /\ in_window m r.

Definition declaration_of (m : ObjectiveMetricRow) : MetricDeclaration := {|
  md_objective_id := om_objective_id m; md_metric_name := om_metric_name m; md_baseline := om_baseline m; md_target := om_target m; md_unit := om_unit m;
  md_source := om_source m; md_owner := om_owner m; md_measurement_window_days := om_measurement_window_days m; md_declared_at := om_declared_at m |}.

Lemma load_metric_declaration_Ok d oid o : load_metric_declaration d oid = Ok o -> o = declaration_of <$> d_objective_metrics d !! oid.
Proof.
  unfold load_metric_declaration. destruct (d_objective_metrics d !! oid) as [m|]; [|by intros [= <-]]. by intros (u & _ & [= <-])%bind_Ok.
Qed.

Lemma observation_of_Ok r o : observation_of r = Ok o ->
  ob_objective_id o = oo_objective_id r /\ ob_metric_name o = oo_metric_name r /\ ob_value o = oo_value r /\ ob_observed_at o = oo_observed_at r /\
  (ob_mode o = LIVE <-> oo_mode r = "live").
Proof.
  unfold observation_of. intros (mode & Hm & [= <-])%bind_Ok. cbn. split; [done|]. split; [done|]. split; [done|]. split; [done|].
  unfold evidence_mode, str_eq in Hm. case_bool_decide as H1; [injection Hm as <-; rewrite H1; done|].
  case_bool_decide as H2; [by injection Hm as <-|done].
Qed.

Lemma dt_le_Ok a b v : dt_le a b = Ok v -> v = (dt_us a <=? dt_us b).
Proof. unfold dt_le. destruct (Bool.eqb _ _); [by intros [= <-]|done]. Qed.

Lemma covers_window m r o b : observation_of r = Ok o -> covers (declaration_of m) o = Ok b -> (b = true <-> in_window m r).
Proof.
  intros (E1 & E2 & _ & E4 & _)%observation_of_Ok. unfold covers, in_window, str_eq. rewrite E1, E2, E4. cbn [declaration_of md_objective_id md_metric_name].
  case_bool_decide as H1; [|intros [= <-]; split; [done|tauto]].
  case_bool_decide as H2; [|intros [= <-]; split; [done|tauto]]. cbn [andb negb].
  intros (st & Hs%dt_le_Ok & Hc)%bind_Ok. cbn [md_declared_at declaration_of] in Hs. destruct (Z.leb_spec (dt_us (om_declared_at m)) (dt_us (oo_observed_at r))).
  - subst st. cbn [negb] in Hc. apply bind_Ok in Hc as (e & He & ->%dt_le_Ok).
    unfold window_end in He. apply bind_Ok in He as (? & _ & He). apply bind_Ok in He as (? & _ & [= <-]). cbn. rewrite Z.leb_le. tauto.
  - subst st. cbn [negb] in Hc. injection Hc as <-. split; [done|]. intros (_ & _ & ?). lia.
Qed.

Lemma covers_backs m r o b : observation_of r = Ok o -> covers (declaration_of m) o = Ok b ->
  (ob_mode o = LIVE /\ b = true <-> backs m r).
Proof.
  intros Ho Hc. rewrite (covers_window _ _ _ _ Ho Hc). unfold backs. apply observation_of_Ok in Ho as (_ & _ & _ & _ & ->). done.
Qed.

Lemma backs_observation m row : backs m row -> exists o, observation_of row = Ok o.
Proof. intros (Hmode & _). unfold observation_of. rewrite Hmode. by eexists. Qed.

(** What [objective_impact] measured, from the rows. *)
Lemma objective_impact_rows d oid r : objective_impact d oid = Ok r -> exists obs,
  measure_objective oid (declaration_of <$> d_objective_metrics d !! oid) obs = Ok r /\
  (forall o, o ∈ obs <-> exists row, row ∈ rows (d_outcome_observations d) /\ oo_objective_id row = oid /\ observation_of row = Ok o).
Proof.
  intros (decl & ->%load_metric_declaration_Ok & (obs & Ho & Hm)%bind_Ok)%bind_Ok. exists obs. split; [exact Hm|]. intros o.
  rewrite (result_map_elem _ _ _ Ho). setoid_rewrite elem_select. unfold str_eq. setoid_rewrite bool_decide_eq_true.
  split; intros (row & Hrow); exists row; [destruct Hrow as [[? ?] ?]; split; [by apply elem_rows|done]|].
  destruct Hrow as (Hr & ? & ?). split; [|done]. split; [done|]. by apply elem_rows.
Qed.

Lemma supports_backs d oid m obs r : measure_objective oid (Some (declaration_of m)) obs = Ok r ->
  (forall o, o ∈ obs <-> exists row, row ∈ rows (d_outcome_observations d) /\ oo_objective_id row = oid /\ observation_of row = Ok o) ->
  forall o row, row ∈ rows (d_outcome_observations d) -> oo_objective_id row = oid -> observation_of row = Ok o ->
  (supports (declaration_of m) o <-> backs m row).
Proof.
  intros Hm Hel o row Hr Hid Ho. assert (Hin : o ∈ obs) by (apply Hel; by exists row).
  unfold measure_objective in Hm. apply bind_Ok in Hm as (e & _ & Hm). apply bind_Ok in Hm as (win & Hw & _).
  destruct (result_filter_elem _ _ _ Hw) as [_ Hall]. destruct (Hall o Hin) as [b Hb].
  unfold supports. rewrite <- (covers_backs m row o b Ho Hb), Hb. split; [by intros [? [= ->]]|by intros [? ->]].
Qed.

(** What is said without a live outcome, from the rows. *)
Lemma unbacked_status d oid m obs r : objective_impact d oid = Ok r ->
  (forall o, o ∈ obs <-> exists row, row ∈ rows (d_outcome_observations d) /\ oo_objective_id row = oid /\ observation_of row = Ok o) ->
  (bi_status r = "synthetic_only" /\ Exists (fun o => ob_mode o = SYNTHETIC /\ covers (declaration_of m) o = Ok true) obs \/
   bi_status r = "unmeasured" /\ Forall (fun o => covers (declaration_of m) o = Ok false) obs) ->
  (bi_status r = "synthetic_only" /\ exists row, row ∈ rows (d_outcome_observations d) /\ oo_objective_id row = oid /\ in_window m row /\ oo_mode row = "synthetic") \/
  (bi_status r = "unmeasured" /\ forall row, row ∈ rows (d_outcome_observations d) -> oo_objective_id row = oid -> ~ in_window m row).
Proof.
  intros Hi Hel [[Hst (o & Hin & Hmode & Hc)%Exists_exists]|[Hst Hall]]; [left|right]; (split; [done|]).
  - apply Hel in Hin as (row & Hr & Hid & Ho). exists row. split; [done|]. split; [done|]. split; [by apply (covers_window m row o true Ho Hc)|].
    apply bind_Ok in Ho as (mode & Hm & [= <-]). cbn in Hmode. subst mode. unfold Impact.evidence_mode, str_eq in Hm.
    case_bool_decide; [done|]. by case_bool_decide.
  - intros row Hr Hid Hwin. unfold objective_impact in Hi. apply bind_Ok in Hi as (decl & _ & (obs' & Hobs & _)%bind_Ok).
    destruct (result_map_all _ _ _ row Hobs) as [o Ho]; [apply elem_select; unfold str_eq; rewrite bool_decide_eq_true; split; [done|by apply elem_rows]|].
    assert (Hin : o ∈ obs) by (apply Hel; by exists row). rewrite Forall_forall in Hall. pose proof (Hall o Hin) as Hc.
    by apply (covers_window m row o false Ho) in Hwin.
Qed.

(** C17: a business claim about an Objective is allowed exactly when its metric
    was declared and some outcome reported as live, of that Objective and
    metric, was observed between the declaration and the end of its window.
    What is claimed is then the latest such outcome against the declared
    baseline and target.  Without one nothing is claimed, and the answer says
    which: the metric is undeclared, the outcomes of the window are all
    synthetic, or there is none in the window. *)
Theorem claim_spec d oid r : objective_impact d oid = Ok r ->
  (bi_claim_allowed r = true <-> exists m row, d_objective_metrics d !! oid = Some m /\ row ∈ rows (d_outcome_observations d) /\
     oo_objective_id row = oid /\ backs m row) /\
  (bi_claim_allowed r = true -> bi_status r = "measured" /\
     exists m row, d_objective_metrics d !! oid = Some m /\ row ∈ rows (d_outcome_observations d) /\ oo_objective_id row = oid /\ backs m row /\
       (forall row', row' ∈ rows (d_outcome_observations d) -> oo_objective_id row' = oid -> backs m row' ->
          dt_us (oo_observed_at row') <= dt_us (oo_observed_at row)) /\
       bi_baseline r = Some (om_baseline m) /\ bi_target r = Some (om_target m) /\ bi_observed r = Some (oo_value row) /\
       bi_observed_at r = Some (oo_observed_at row) /\ bi_delta r = Some (improvement (declaration_of m) (oo_value row)) /\
       bi_target_attainment r = Some (f_div (improvement (declaration_of m) (oo_value row)) (f_abs (f_sub (om_target m) (om_baseline m))))) /\
  (bi_claim_allowed r = false -> bi_observed r = None /\ bi_delta r = None /\ bi_target_attainment r = None /\
     match d_objective_metrics d !! oid with
     | None => bi_status r = "undeclared"
     | Some m =>
         (bi_status r = "synthetic_only" /\ exists row, row ∈ rows (d_outcome_observations d) /\ oo_objective_id row = oid /\ in_window m row /\ oo_mode row = "synthetic") \/
         (bi_status r = "unmeasured" /\ forall row, row ∈ rows (d_outcome_observations d) -> oo_objective_id row = oid -> ~ in_window m row)
     end).
Proof.
  intros Hi. pose proof Hi as (obs & Hm & Hel)%objective_impact_rows. destruct (d_objective_metrics d !! oid) as [m|] eqn:Hd.
  2: { apply measure_cases in Hm as [(_ & Hst & Hc & Ho & Hde & Hat)|(m & e & [=] & _)]. rewrite Hc. split; [|split; [done|]].
    - split; [done|]. by intros (m & row & ? & _).
    - intros _. split; [done|]. split; [done|]. by split. }
  pose proof (supports_backs d oid m obs r Hm Hel) as Hback.
  apply measure_cases in Hm as [([=] & _)|(m' & e & [= <-] & _ & _ & [(Hno & Hc & Ho & Hde & Hat & Hst)|(Hst & Hc & Hbl & Htg & o & Hin & Hs & Hlast & Hr)])];
    rewrite Hc.
  - split; [|split; [done|]].
    + split; [done|]. intros (m' & row & [= <-] & Hrow & Hid & Hb). rewrite Forall_forall in Hno.
      exfalso. destruct (backs_observation m row Hb) as [o Hobs]. apply (Hno o); [apply Hel; by exists row|by apply (Hback o row)].
    + intros _. split; [done|]. split; [done|]. split; [done|]. by apply (unbacked_status d oid m obs).
  - pose proof Hin as (row & Hrow & Hid & Hobs)%Hel. pose proof Hobs as (_ & _ & Hv & Hat & _)%observation_of_Ok.
    assert (Hb : backs m row) by (by apply (Hback o row)).
    split; [split; [intros _; by exists m, row|done]|]. split; [|done]. intros _. split; [done|]. exists m, row. rewrite Hv, Hat in Hr.
    split; [done|]. split; [done|]. split; [done|]. split; [done|]. split; [|by destruct Hr as (-> & -> & -> & ->)].
    intros row' Hrow' Hid' Hb'. destruct (backs_observation m row' Hb') as [o' Hobs'].
    pose proof Hobs' as (_ & _ & _ & Hat' & _)%observation_of_Ok. rewrite <- Hat, <- Hat'. apply Hlast; [apply Hel; by exists row'|].
    by apply (Hback o' row').
Qed.

(** ** Outcome Evidence *)

Lemma flush_outcomes h s s' : flush h s = Ok s' ->
  d_objective_metrics (stored s') = d_objective_metrics (current s) /\ d_outcome_observations (stored s') = d_outcome_observations (current s).
Proof.
  unfold flush. intros (r & (-> & _)%guards_Ok & Hf)%bind_Ok. apply bind_Ok in Hf as (plans & _ & Hf). apply bind_Ok in Hf as (evidence & _ & Hf).
  by apply bind_Ok in Hf as (u & _ & [= <-]).
Qed.

Lemma stamp_only env d e e' : stamp_evidence_content_mac env d e = Ok e' ->
  exists mac, e' = (e {{ ev_content_mac_version := Some CONTENT_MAC_CURRENT }}) {{ ev_content_mac := Some mac }}.
Proof. unfold stamp_evidence_content_mac. intros (u & _ & (mac & _ & [= <-])%bind_Ok)%bind_Ok. by exists mac. Qed.

(** One flush that adds one Evidence row and otherwise no plan and no Attempt. *)
Lemma flush_adds_evidence h s s' row : flush h s = Ok s' -> d_plans (current s) = d_plans (stored s) -> d_attempts (current s) = d_attempts (stored s) ->
  d_evidence (current s) = <[ev_id row := row]> (d_evidence (stored s)) -> d_evidence (stored s) !! ev_id row = None ->
  d_plans (stored s') = d_plans (stored s) /\ d_attempts (stored s') = d_attempts (stored s) /\
  exists mac, d_evidence (stored s') = <[ev_id row := (row {{ ev_content_mac_version := Some CONTENT_MAC_CURRENT }}) {{ ev_content_mac := Some mac }}]> (d_evidence (stored s)).
Proof.
  intros Hf Hp Ha He Hn. split; [|split].
  - rewrite (flush_plans _ _ _ Hf), Hp; [done|]. intros k. by rewrite Hp.
  - rewrite (flush_attempts _ _ _ Hf), Ha; [done|]. intros k. by rewrite Ha.
  - apply flush_Ok in Hf as (_ & _ & _ & _ & _ & _ & _ & Hon). apply on_new_spec in Hon as (Hold & Hnone & Hnew).
    destruct (Hnew (ev_id row) row Hn) as (e' & Hst & Hk); [rewrite He; apply lookup_insert_eq|].
    apply stamp_only in Hst as [mac ->]. exists mac. apply map_eq. intros k. destruct (decide (k = ev_id row)) as [->|Hne].
    + by rewrite lookup_insert_eq, Hk.
    + rewrite lookup_insert_ne by done. specialize (Hold k). specialize (Hnone k). rewrite He, lookup_insert_ne in Hold, Hnone by done.
      destruct (d_evidence (stored s) !! k) eqn:E; [by apply Hold|by apply Hnone].
Qed.

(** The Attempt worked a Task of the Objective. *)
Definition worked_for (d : Db) (objective_id : string) (a : AttemptRow) : Prop :=
  (exists e, e ∈ rows (d_decision_edges d) /\ source_of e = ("objective", objective_id) /\ target_of e = ("task", at_task_id a) /\ de_relation e = "implements") \/
  (exists p t, p ∈ rows (d_plans d) /\ pl_objective_id p = Some objective_id /\ t ∈ rows (d_plan_tasks d) /\ pt_plan_id t = pl_id p /\ pt_task_id t = at_task_id a).

Lemma elem_objective_tasks d oid a : worked_for d oid a -> at_task_id a ∈ objective_tasks d oid.
Proof.
  unfold objective_tasks, source_of, target_of. rewrite elem_of_app, !elem_map.
  intros [(e & He & [= Hs1 Hs2] & [= Ht1 Ht2] & Hr)|(p & t & Hp & Ho & Ht & Hpt & Hid)].
  - left. exists e. split; [|done]. apply elem_select. split; [|by apply elem_rows]. unfold str_eq. by rewrite Hs1, Hs2, Ht1, Hr, !bool_decide_true.
  - right. exists t. split; [|done]. apply elem_select. split; [|by apply elem_rows]. unfold str_in. apply bool_decide_eq_true, elem_map.
    exists p. split; [|done]. apply elem_select. split; [|by apply elem_rows]. unfold opt_str_eq. by apply bool_decide_eq_true.
Qed.

Lemma objective_agents_complete d oid a : a ∈ rows (d_attempts d) -> worked_for d oid a -> at_agent a <> "" -> at_agent a ∈ objective_attempt_agents d oid.
Proof.
  intros Ha Hw Hne. apply elem_filterb. split; [|by destruct (at_agent a)]. apply elem_map. exists a. split; [|done].
  apply elem_select. split; [|by apply elem_rows]. unfold str_in. by apply bool_decide_eq_true, elem_objective_tasks.
Qed.

(** C19: recorded Outcome Evidence is about an Objective and no Attempt, has a
    content MAC, and names a verifier who is neither the recording principal
    nor the agent of any Attempt that worked a Task of the Objective; it can
    never count as a verified pass of an Attempt, and recording it changes no
    Task, plan, Attempt or other Evidence. *)
Theorem outcome_evidence_spec h hex now principal oid p d d' j : record_outcome_evidence h hex now principal oid p d = Ok (d', j) ->
  (exists n, d_graph_nodes d !! oid = Some n /\ gn_kind n = "objective") /\
  exists row verifier, d_evidence d !! ev_id row = None /\ d_evidence d' = <[ev_id row := row]> (d_evidence d) /\
    ev_evidence_class row = Some "outcome" /\ ev_attempt_id row = None /\ ev_objective_id row = Some oid /\ is_Some (ev_content_mac row) /\
    ev_verifier_identity row = Some verifier /\ verifier <> "" /\ ev_producer_identity row <> Some verifier /\ ev_verifier_role row <> Some "agent" /\
    (forall a, a ∈ rows (d_attempts d) -> worked_for d oid a -> at_agent a <> verifier) /\
    (forall env session agent artifact at_time, is_verified_pass env session row agent artifact at_time = Ok false) /\
    d_tasks d' = d_tasks d /\ d_plans d' = d_plans d /\ d_attempts d' = d_attempts d.
Proof.
  unfold record_outcome_evidence. intros (node & Hnode & H)%bind_Ok. apply bind_Ok in H as (? & Hrole%raise_if_Ok & H).
  apply bind_Ok in H as (? & Hver%raise_if_Ok & H). apply bind_Ok in H as (? & _ & H). apply bind_Ok in H as (? & Hprin%raise_if_Ok & H).
  apply bind_Ok in H as (? & Hagents%raise_if_Ok & H). apply bind_Ok in H as (? & Hfree%raise_if_Ok & H). apply bind_Ok in H as (? & _ & H).
  apply bind_Ok in H as (s1 & Hs1 & H). apply bind_Ok in H as (s2 & Hs2 & [= <- _]). split.
  { unfold get_objective_node in Hnode. apply bind_Ok in Hnode as (n & Hn & Hnode). apply bind_Ok in Hnode as (? & Hk%raise_if_Ok & _).
    exists n. split; [by destruct (d_graph_nodes d !! oid); [injection Hn as ->|]|]. by apply negb_false_iff, bool_decide_eq_true in Hk. }
  set (verifier := str_strip (eq_verifier_identity p)) in *. set (who := if opt_truthy principal then or_empty principal else "sdf") in *.
  set (row := outcome_row _ oid who verifier _ now p) in *.
  assert (Hnone : d_evidence d !! ev_id row = None) by (by destruct (d_evidence d !! ev_id row)).
  unfold change_and_flush in Hs1. pose proof Hs1 as (Ep & Ea & (mac & Ee))%(flush_adds_evidence _ _ _ row); [|done|done|done|done].
  cbn [stored] in Ep, Ea, Ee. pose proof (flush_same _ _ _ Hs1) as [Hst1 Hsc].
  apply flush_exact in Hs2; [|intros k; cbn [stored current]; by rewrite Hsc..]. subst s2.
  exists ((row {{ ev_content_mac_version := Some CONTENT_MAC_CURRENT }}) {{ ev_content_mac := Some mac }}), verifier.
  rewrite <- Hsc. split; [exact Hnone|]. split; [exact Ee|]. split; [done|]. split; [done|]. split; [done|]. split; [by eexists|]. split; [done|].
  unfold str_eq in Hrole, Hprin. apply bool_decide_eq_false in Hrole, Hprin. unfold str_in in Hagents. apply bool_decide_eq_false in Hagents.
  assert (Hne : verifier <> "") by (intros Hq; by rewrite Hq in Hver).
  split; [exact Hne|]. split; [intros [= Hq]; by apply Hprin|]. split; [intros [= Hq]; by apply Hrole|]. split.
  { intros a Ha Hw Hq. apply Hagents. rewrite <- Hq. apply objective_agents_complete; [done|done|by rewrite Hq]. }
  split; [|split; [destruct Hst1 as [Ht _]; exact Ht|split; [exact Ep|exact Ea]]].
  intros env session agent artifact at_time. unfold is_verified_pass. destruct (negb _ || _); [done|]. reflexivity.
Qed.

(** ** Any sequence of requests *)

Inductive OutcomeRequest : Type :=
  | DeclareMetric (now : datetime) (objective_id : string) (p : MetricDeclarationRequest)
  | Observe (hex : string) (now : datetime) (objective_id : string) (p : ObservationRequest)
  | RecordEvidence (hex : string) (now : datetime) (principal : option string) (objective_id : string) (p : OutcomeEvidenceRequest).

Definition committed {A} (d : Db) (r : result (Db * A)) : Db := match r with Ok (d', _) => d' | Err _ => d end.

(** The database after a request; a refused one leaves it. *)
Definition serve (h : Host) (d : Db) (q : OutcomeRequest) : Db :=
  match q with
  | DeclareMetric now oid p => committed d (declare_objective_metric h now oid p d)
  | Observe hex now oid p => committed d (record_outcome_observation h hex now oid p d)
  | RecordEvidence hex now principal oid p => committed d (record_outcome_evidence h hex now principal oid p d)
  end.

(** A declaration that could be measured against. *)
Definition well_declared (oid : string) (m : ObjectiveMetricRow) : Prop :=
  om_objective_id m = oid /\ f_eq (om_target m) (om_baseline m) = false /\ 0 < om_measurement_window_days m.

Lemma flush_change_outcomes h d f d' : flush_change h d f = Ok d' ->
  d_objective_metrics d' = d_objective_metrics (f d) /\ d_outcome_observations d' = d_outcome_observations (f d).
Proof. unfold flush_change. by intros (s & Hs%flush_outcomes & [= <-])%bind_Ok. Qed.

Lemma declare_metrics h now oid p d d' j : declare_objective_metric h now oid p d = Ok (d', j) ->
  d_objective_metrics d !! oid = None /\ d_outcome_observations d' = d_outcome_observations d /\
  exists m, d_objective_metrics d' = <[oid := m]> (d_objective_metrics d) /\ well_declared oid m.
Proof.
  unfold declare_objective_metric. intros (node & _ & H)%bind_Ok. apply bind_Ok in H as (? & Hfree%raise_if_Ok & H).
  apply bind_Ok in H as (u & Hpost & H). apply bind_Ok in H as (d2 & (Hm & Ho)%flush_change_outcomes & [= <- _]).
  split; [by destruct (d_objective_metrics d !! oid)|]. split; [exact Ho|]. eexists. split; [exact Hm|].
  destruct (declaration_post_init _) as [[]|err] eqn:Hp; [|by destruct err]. unfold declaration_post_init in Hp.
  apply bind_Ok in Hp as (? & Hp1%raise_if_Ok & Hp2%raise_if_Ok). cbn in Hp1, Hp2. unfold well_declared. cbn. split; [done|]. split; [done|]. lia.
Qed.

Lemma record_evidence_outcomes h hex now principal oid p d d' j : record_outcome_evidence h hex now principal oid p d = Ok (d', j) ->
  d_objective_metrics d' = d_objective_metrics d /\ d_outcome_observations d' = d_outcome_observations d.
Proof.
  unfold record_outcome_evidence. intros H. do 8 (apply bind_Ok in H as (? & _ & H)).
  apply bind_Ok in H as (s1 & Hs1 & H). apply bind_Ok in H as (s2 & Hs2 & [= <- _]).
  unfold change_and_flush in *. pose proof (flush_same _ _ _ Hs1) as [_ Hsc]. apply flush_outcomes in Hs1 as [E1 E2], Hs2 as [E3 E4].
  rewrite E3, E4. cbn [current] in *. split; [etransitivity; [|exact E1]|etransitivity; [|exact E2]]; by rewrite Hsc.
Qed.

Lemma observe_observations h hex now oid p d d' j : record_outcome_observation h hex now oid p d = Ok (d', j) ->
  d_objective_metrics d' = d_objective_metrics d /\ d_outcome_observations d ⊆ d_outcome_observations d'.
Proof.
  unfold record_outcome_observation. intros (node & _ & H)%bind_Ok. apply bind_Ok in H as (? & Hfree%raise_if_Ok & H).
  apply bind_Ok in H as (d2 & (Hm & Ho)%flush_change_outcomes & [= <- _]). split; [exact Hm|]. rewrite Ho. apply insert_subseteq.
  by apply bool_decide_eq_false, eq_None_not_Some in Hfree.
Qed.

(** Whatever is declared, reported and recorded afterwards, a declared
    metric keeps its baseline, target, window and time of declaration, a
    reported outcome is never changed or removed, and every metric ever
    declared has a target other than its baseline and a positive window. *)
Theorem declaration_final h requests d :
  let d' := fold_left (serve h) requests d in
  d_objective_metrics d ⊆ d_objective_metrics d' /\ d_outcome_observations d ⊆ d_outcome_observations d' /\
  (forall oid m, d_objective_metrics d' !! oid = Some m -> d_objective_metrics d !! oid = Some m \/ well_declared oid m).
Proof.
  revert d. induction requests as [|q requests IH]; intros d; cbn [fold_left]; [by split; [|split; [|left]]|].
  assert (d_objective_metrics d ⊆ d_objective_metrics (serve h d q) /\ d_outcome_observations d ⊆ d_outcome_observations (serve h d q) /\
    forall oid m, d_objective_metrics (serve h d q) !! oid = Some m -> d_objective_metrics d !! oid = Some m \/ well_declared oid m) as (H1 & H2 & H3).
  { destruct q as [now oid p|hex now oid p|hex now principal oid p]; cbn [serve]; unfold committed.
    - destruct (declare_objective_metric h now oid p d) as [[d' j]|] eqn:E; [|by auto]. apply declare_metrics in E as (Hn & Ho & m & Hm & Hw).
      rewrite Hm, Ho. split; [by apply insert_subseteq|]. split; [done|]. intros o x [[<- <-]|[_ Hx]]%lookup_insert_Some; [by right|by left].
    - destruct (record_outcome_observation h hex now oid p d) as [[d' j]|] eqn:E; [|by auto]. apply observe_observations in E as (Hm & Ho).
      rewrite Hm. by auto.
    - destruct (record_outcome_evidence h hex now principal oid p d) as [[d' j]|] eqn:E; [|by auto]. apply record_evidence_outcomes in E as (Hm & Ho).
      rewrite Hm, Ho. by auto. }
  destruct (IH (serve h d q)) as (I1 & I2 & I3). split; [by etransitivity|]. split; [by etransitivity|].
  intros oid m [Hm|Hw]%I3; [by apply H3|by right].
Qed.

Module ObjectivesDemo.
Definition now (n : Z) : datetime := DateTime (days n) true.
Definition db : Db := empty_db {{ d_graph_nodes := {["O" := mk_node "O" "objective" "faster" "doc" "ana" (now 0) None]} }}.
Definition metric : MetricDeclarationRequest := {| mq_metric_name := "latency_ms"; mq_baseline := f_of_Z 200; mq_target := f_of_Z 100; mq_unit := "ms";
  mq_source := "prod"; mq_owner := "ana"; mq_measurement_window_days := 30 |}.
Definition seen (value day : Z) (mode : string) : ObservationRequest :=
  {| oq_metric_name := "latency_ms"; oq_value := f_of_Z value; oq_observed_at := now day; oq_source := "prod"; oq_mode := mode |}.
Definition requests : list OutcomeRequest :=
  [DeclareMetric (now 1) "O" metric; Observe "aaaaaaaaaaaaaaaa" (now 2) "O" (seen 150 5 "live"); Observe "bbbbbbbbbbbbbbbb" (now 2) "O" (seen 90 50 "live");
   Observe "cccccccccccccccc" (now 2) "O" (seen 120 9 "synthetic"); DeclareMetric (now 3) "O" (metric {{ mq_baseline := f_of_Z 1000 }})].
Definition db_after : Db := fold_left (serve Demo.host) requests db.

(** The claim is the live outcome inside the window, half the way to the target. *)
Definition claim : BusinessImpact := {|
  bi_objective_id := "O"; bi_status := "measured"; bi_claim_allowed := true; bi_metric_name := Some "latency_ms"; bi_baseline := Some (f_of_Z 200);
  bi_target := Some (f_of_Z 100); bi_observed := Some (f_of_Z 150); bi_delta := Some (f_of_Z 50); bi_target_attainment := Some (f_ratio 1 2);
  bi_observed_at := Some (now 5); bi_window_end := Some (now 31) |}.

Example claim_measured : objective_impact db_after "O" = Ok claim.
Proof. vm_compute. reflexivity. Qed.

(** An accepted window that ends after the last date makes every later reading fail. *)
Example window_overflow : let d := committed db (declare_objective_metric Demo.host (now 1) "O" (metric {{ mq_measurement_window_days := 9999999 }}) db) in
  is_Some (d_objective_metrics d !! "O") /\ get_objective_impact d "O" = Err (OverflowError "date value out of range").
Proof. vm_compute. split; [by eexists|done]. Qed.

Definition outcome (verifier : string) : OutcomeEvidenceRequest := {| eq_verifier_identity := verifier; eq_verifier_role := "stakeholder"; eq_status := "PASS";
  eq_summary := "customers agree"; eq_expires_at := None; eq_confidence := f_of_Z 1; eq_criterion := None; eq_mode := "live" |}.
Definition worked : Db := db {{ d_attempts := {["A" := blank_AttemptRow {{ at_id := "A"; at_task_id := "T"; at_agent := "codex:1"; at_evidence_mode := "live" }}]} }}
  {{ d_decision_edges := {[1 := blank_DecisionEdgeRow {{ de_id := 1; de_source_kind := "objective"; de_source_id := "O"; de_target_kind := "task"; de_target_id := "T";
       de_relation := "implements" }}]} }}.
Definition recorded : result (Db * json) := record_outcome_evidence Demo.host "0f" (now 2) (Some "ana") "O" (outcome " bob ") worked.
Definition db_recorded : Db := committed worked recorded.
Definition answer : json := match recorded with Ok (_, j) => j | Err _ => JNull end.

Example refused : map (fun v => match record_outcome_evidence Demo.host "0f" (now 2) (Some "ana") "O" (outcome v) worked with Ok _ => 201 | Err (HTTPException s _ _) => s | Err _ => 500 end)
  ["ana"; "codex:1"; " "; "bob"] = [422; 422; 422; 201].
Proof. vm_compute. reflexivity. Qed.

Example recorded_ok : recorded = Ok (db_recorded, answer).
Proof. vm_compute. reflexivity. Qed.
End ObjectivesDemo.

Lemma claim_spec_witness : objective_impact ObjectivesDemo.db_after "O" = Ok ObjectivesDemo.claim /\
  exists m row, d_objective_metrics ObjectivesDemo.db_after !! "O" = Some m /\ row ∈ rows (d_outcome_observations ObjectivesDemo.db_after) /\
    oo_objective_id row = "O" /\ backs m row.
Proof.
  split; [exact ObjectivesDemo.claim_measured|].
  destruct (claim_spec ObjectivesDemo.db_after "O" ObjectivesDemo.claim ObjectivesDemo.claim_measured) as [H _]. apply H. reflexivity.
Defined.

Lemma outcome_evidence_spec_witness : ObjectivesDemo.recorded = Ok (ObjectivesDemo.db_recorded, ObjectivesDemo.answer) /\
  exists row, d_evidence ObjectivesDemo.db_recorded = <[ev_id row := row]> (d_evidence ObjectivesDemo.worked) /\ ev_evidence_class row = Some "outcome".
Proof.
  split; [exact ObjectivesDemo.recorded_ok|].
  destruct (outcome_evidence_spec Demo.host "0f" (ObjectivesDemo.now 2) (Some "ana") "O" (ObjectivesDemo.outcome " bob ") ObjectivesDemo.worked
    ObjectivesDemo.db_recorded ObjectivesDemo.answer ObjectivesDemo.recorded_ok) as [_ (row & verifier & _ & Hd & Hc & _)].
  exists row. split; [exact Hd|exact Hc].
Defined.
