(* ===== verification/Url.v ===== *)
(** * Url: the parts of a URL and the IPv4 addresses a host can spell

    What [src/sdf_core/credentials.py] uses of [urllib.parse.urlsplit],
    [ipaddress] and [socket.inet_aton].  Whether a text is an IPv6 address,
    and which kind, is an argument [ip6]. *)

From S2P Require Import Prelude Json.

(** ** [str.partition] and [str.rpartition] on one character *)

(** What is before the first [c], and what follows it when it occurs. *)
Fixpoint partition (c : ascii) (s : string) : string * option string :=
  match s with
  | EmptyString => (EmptyString, None)
  | String d t => if bool_decide (c = d) then (EmptyString, Some t) else let '(a, b) := partition c t in (String d a, b)
  end.

(** What precedes the last [c] when it occurs, and what is after it. *)
Fixpoint rpartition (c : ascii) (s : string) : option string * string :=
  match s with
  | EmptyString => (None, EmptyString)
  | String d t =>
      match rpartition c t with
      | (Some a, b) => (Some (String d a), b)
      | (None, b) => if bool_decide (c = d) then (Some EmptyString, b) else (None, String d b)
      end
  end.

Definition ch (s : string) : ascii := match s with String c _ => c | _ => Ascii.zero end.

(** ** IPv4 *)

Module Ipv4.

Fixpoint digits (base : Z) (digit : ascii -> option Z) (acc : Z) (s : string) : option Z :=
  match s with
  | EmptyString => Some acc
  | String c t => d ← digit c; digits base digit (acc * base + d) t
  end.

Definition digit_below (n : nat) (c : ascii) : option Z :=
  let k := nat_of_ascii c in if (48 <=? k)%nat && (k <? 48 + n)%nat then Some (Z.of_nat (k - 48)) else None.

(** A lower case hexadecimal digit. *)
Definition hex_digit (c : ascii) : option Z :=
  let k := nat_of_ascii c in
  if (97 <=? k)%nat && (k <=? 102)%nat then Some (Z.of_nat (k - 87)) else digit_below 10 c.

Definition is_hex (c : ascii) : bool := bool_decide (is_Some (hex_digit c)).

(** [IPv4Address._parse_octet] *)
Definition octet (s : string) : option Z :=
  if str_truthy s && str_forallb is_digit s && (str_len s <=? 3) && (str_eq s "0" || negb (str_startswith "0" s)) then
    v ← digits 10 (digit_below 10) 0 s; if v <=? 255 then Some v else None
  else None.

(** [int(IPv4Address(s))] of a dotted quad. *)
Definition parse (s : string) : option Z :=
  match str_split (ch ".") s with
  | [a; b; c; d] =>
      a ← octet a; b ← octet b; c ← octet c; d ← octet d; Some (((a * 256 + b) * 256 + c) * 256 + d)
  | _ => None
  end.

(** One part of a legacy address: hexadecimal after 0x, octal after 0. *)
Definition legacy_part (s : string) : option Z :=
  match strip_prefix "0x" s with
  | Some t => if str_truthy t then digits 16 hex_digit 0 t else None
  | None => if str_startswith "0" s then digits 8 (digit_below 8) 0 s else if str_truthy s then digits 10 (digit_below 10) 0 s else None
  end.

Definition below (limit : Z) (o : option Z) : option Z := v ← o; if v <? limit then Some v else None.

(** [int.from_bytes(socket.inet_aton(s))]: the last part fills what the
    earlier ones leave. *)
Definition inet_aton (s : string) : option Z :=
  let part s := below 256 (legacy_part s) in
  match str_split (ch ".") s with
  | [d] => below (2 ^ 32) (legacy_part d)
  | [a; d] => a ← part a; d ← below (2 ^ 24) (legacy_part d); Some (a * 2 ^ 24 + d)
  | [a; b; d] => a ← part a; b ← part b; d ← below (2 ^ 16) (legacy_part d); Some ((a * 256 + b) * 2 ^ 16 + d)
  | [a; b; c; d] => a ← part a; b ← part b; c ← part c; d ← part d; Some (((a * 256 + b) * 256 + c) * 256 + d)
  | _ => None
  end.

(** [address in network] for a network of [bits] leading bits. *)
Definition in_net (net : Z * Z) (a : Z) : bool := Z.shiftr a (32 - net.2) =? Z.shiftr net.1 (32 - net.2).

Definition quad (a b c d : Z) : Z := ((a * 256 + b) * 256 + c) * 256 + d.

Definition private_networks : list (Z * Z) := [
  (quad 0 0 0 0, 8); (quad 10 0 0 0, 8); (quad 127 0 0 0, 8); (quad 169 254 0 0, 16); (quad 172 16 0 0, 12);
  (quad 192 0 0 0, 24); (quad 192 0 0 170, 31); (quad 192 0 2 0, 24); (quad 192 168 0 0, 16); (quad 198 18 0 0, 15);
  (quad 198 51 100 0, 24); (quad 203 0 113 0, 24); (quad 240 0 0 0, 4); (quad 255 255 255 255, 32)
].
Definition private_exceptions : list (Z * Z) := [(quad 192 0 0 9, 32); (quad 192 0 0 10, 32)].

Definition is_private (a : Z) : bool :=
  existsb (fun n => in_net n a) private_networks && forallb (fun n => negb (in_net n a)) private_exceptions.
Definition is_global (a : Z) : bool := negb (in_net (quad 100 64 0 0, 10) a) && negb (is_private a).
Definition is_multicast (a : Z) : bool := in_net (quad 224 0 0 0, 4) a.

Example parse_tests : map parse ["127.0.0.1"; "1.2.3"; "01.2.3.4"; "256.0.0.1"; "8.8.8.8"; "a.b.c.d"] =
  [Some 2130706433; None; None; None; Some 134744072; None].
Proof. vm_compute. reflexivity. Qed.

Example inet_aton_tests : map inet_aton ["127.1"; "2130706433"; "0x7f000001"; "0177.0.0.1"; "08.1"; "1.2.3.256"; "0x"] =
  [Some 2130706433; Some 2130706433; Some 2130706433; Some 2130706433; None; None; None].
Proof. vm_compute. reflexivity. Qed.

(** The block of an address by its octets. *)
Definition byte (i : Z) (a : Z) : Z := Z.shiftr a (8 * i) mod 256.

Lemma in_net_range n bits a : 0 <= bits <= 32 -> 0 <= n ->
  in_net (n, bits) a = true <-> n / 2 ^ (32 - bits) * 2 ^ (32 - bits) <= a < (n / 2 ^ (32 - bits) + 1) * 2 ^ (32 - bits).
Proof.
  intros Hb Hn. unfold in_net. simpl. rewrite Z.eqb_eq, !Z.shiftr_div_pow2 by lia.
  assert (0 < 2 ^ (32 - bits)) as Hp by (apply Z.pow_pos_nonneg; lia).
  generalize dependent (2 ^ (32 - bits)). intros p Hp. split.
  - intros <-. pose proof (Z.mul_div_le a p Hp). pose proof (Z.mul_succ_div_gt a p Hp). lia.
  - intros [H1 H2]. symmetry. apply (Z.div_unique a p (n / p) (a - n / p * p)); lia.
Qed.

(** Whether [bits] and [n] are those of a network. *)
Definition is_net (n bits : Z) : bool := (0 <=? bits) && (bits <=? 32) && (0 <=? n).

(** The first address of a network, and the first one after it. *)
Definition net_lo (n bits : Z) : Z := n / 2 ^ (32 - bits) * 2 ^ (32 - bits).
Definition net_end (n bits : Z) : Z := (n / 2 ^ (32 - bits) + 1) * 2 ^ (32 - bits).

Lemma net_out n bits a : is_net n bits = true -> in_net (n, bits) a = false -> a < net_lo n bits \/ net_end n bits <= a.
Proof.
  intros Hn Hf. unfold is_net in Hn. boolify.
  destruct (Z.lt_ge_cases a (net_lo n bits)); [by left|]. destruct (Z.lt_ge_cases a (net_end n bits)); [|by right].
  exfalso. assert (in_net (n, bits) a = true) by (apply in_net_range; unfold net_lo, net_end in *; lia). congruence.
Qed.

(** Outside a network that no exception meets. *)
Lemma not_private n bits a : is_net n bits = true -> bool_decide ((n, bits) ∈ private_networks) = true ->
  forallb (fun e => (e.1 <? net_lo n bits) || (net_end n bits <=? e.1)) private_exceptions = true ->
  is_private a = false -> a < net_lo n bits \/ net_end n bits <= a.
Proof.
  intros Hn Hin%bool_decide_eq_true He Hp. apply net_out; [done|].
  destruct (in_net (n, bits) a) eqn:E; [|done]. apply andb_false_iff in Hp as [Hp|Hp].
  - rewrite <- Hp. symmetry. apply existsb_exists. exists (n, bits). split; [by apply list_elem_of_In|done].
  - exfalso. unfold is_net in Hn. boolify. apply in_net_range in E; [|lia|lia]. fold (net_lo n bits) (net_end n bits) in E.
    apply not_true_iff_false in Hp. apply Hp, forallb_forall. intros e Hx. apply negb_true_iff.
    rewrite forallb_forall in He. pose proof (He e Hx) as Ho. destruct (in_net e a) eqn:F; [|done].
    assert (e.2 = 32 /\ 0 <= e.1) as [Hk Hz] by by destruct Hx as [<-|[<-|[]]].
    destruct e as [m k]. simpl in *. subst k. apply in_net_range in F; [|lia|lia].
    change (2 ^ (32 - 32)) with 1 in F. rewrite Z.div_1_r in F. lia.
Qed.

(** An address that is neither in a private network nor multicast is outside
    this host, the private blocks, the link-local block and the reserved end. *)
Definition reachable (a : Z) : Prop :=
  ~ (quad 0 0 0 0 <= a <= quad 0 255 255 255) /\ ~ (quad 10 0 0 0 <= a <= quad 10 255 255 255) /\
  ~ (quad 100 64 0 0 <= a <= quad 100 127 255 255) /\ ~ (quad 127 0 0 0 <= a <= quad 127 255 255 255) /\
  ~ (quad 169 254 0 0 <= a <= quad 169 254 255 255) /\ ~ (quad 172 16 0 0 <= a <= quad 172 31 255 255) /\
  ~ (quad 192 168 0 0 <= a <= quad 192 168 255 255) /\ ~ (quad 224 0 0 0 <= a <= quad 255 255 255 255).

Lemma outside lo e n bits a : (net_lo n bits =? lo) && (net_end n bits =? e) = true ->
  a < net_lo n bits \/ net_end n bits <= a -> ~ (lo <= a <= e - 1).
Proof. intros H Ha. boolify. lia. Qed.

Lemma global_reachable a : is_global a = true -> is_multicast a = false -> reachable a.
Proof.
  intros Hg Hm. unfold is_global in Hg. apply andb_true_iff in Hg as [Hs%negb_true_iff Hp%negb_true_iff].
  assert (forall n bits lo e, is_net n bits = true -> bool_decide ((n, bits) ∈ private_networks) = true ->
    forallb (fun x => (x.1 <? net_lo n bits) || (net_end n bits <=? x.1)) private_exceptions = true ->
    (net_lo n bits =? lo) && (net_end n bits =? e) = true -> ~ (lo <= a <= e - 1)) as Hr.
  { intros n bits lo e H K L M. eapply outside; [done|]. by apply not_private. }
  pose proof (outside (quad 100 64 0 0) (quad 100 128 0 0) (quad 100 64 0 0) 10 a eq_refl (net_out (quad 100 64 0 0) 10 a eq_refl Hs)) as R1.
  pose proof (outside (quad 224 0 0 0) (quad 240 0 0 0) (quad 224 0 0 0) 4 a eq_refl (net_out (quad 224 0 0 0) 4 a eq_refl Hm)) as R2.
  pose proof (Hr (quad 240 0 0 0) 4 (quad 240 0 0 0) (quad 256 0 0 0) eq_refl eq_refl eq_refl eq_refl) as R3.
  unfold reachable. split_and!.
  - exact (Hr (quad 0 0 0 0) 8 (quad 0 0 0 0) (quad 1 0 0 0) eq_refl eq_refl eq_refl eq_refl).
  - exact (Hr (quad 10 0 0 0) 8 (quad 10 0 0 0) (quad 11 0 0 0) eq_refl eq_refl eq_refl eq_refl).
  - exact R1.
  - exact (Hr (quad 127 0 0 0) 8 (quad 127 0 0 0) (quad 128 0 0 0) eq_refl eq_refl eq_refl eq_refl).
  - exact (Hr (quad 169 254 0 0) 16 (quad 169 254 0 0) (quad 169 255 0 0) eq_refl eq_refl eq_refl eq_refl).
  - exact (Hr (quad 172 16 0 0) 12 (quad 172 16 0 0) (quad 172 32 0 0) eq_refl eq_refl eq_refl eq_refl).
  - exact (Hr (quad 192 168 0 0) 16 (quad 192 168 0 0) (quad 192 169 0 0) eq_refl eq_refl eq_refl eq_refl).
  - clear Hr Hp Hs Hm R1. unfold quad in *. lia.
Qed.
End Ipv4.

(** ** [urlsplit] *)

Record Url : Type := { url_scheme : string; url_netloc : string }.

Definition is_control (c : ascii) : bool := (nat_of_ascii c <=? 32)%nat.
Fixpoint lstrip_control (s : string) : string :=
  match s with String c t => if is_control c then lstrip_control t else s | EmptyString => s end.

(** Tabs and line ends are removed wherever they are. *)
Fixpoint drop_unsafe (s : string) : string :=
  match s with
  | EmptyString => EmptyString
  | String c t => if str_has_char c (String (ascii_of_nat 9) (String (ascii_of_nat 10) (String (ascii_of_nat 13) ""))) then drop_unsafe t
                  else String c (drop_unsafe t)
  end.

Definition is_scheme_char (c : ascii) : bool := is_alnum c || str_has_char c "+-.".
Definition is_alpha (c : ascii) : bool := is_upper c || is_lower c.

(** The scheme in lower case, and what follows it. *)
Definition split_scheme (url : string) : string * string :=
  match partition (ch ":") url with
  | (String c s, Some rest) =>
      if is_alpha c && str_forallb is_scheme_char (String c s) then (str_lower (String c s), rest) else ("", url)
  | _ => ("", url)
  end.

Fixpoint until_delimiter (s : string) : string :=
  match s with String c t => if str_has_char c "/?#" then "" else String c (until_delimiter t) | EmptyString => "" end.

Section url.
Context (ip6_ok : string -> bool).

(** [_check_bracketed_host]: a future address, or an IPv6 one. *)
Definition bracketed_host_ok (host : string) : bool :=
  match strip_prefix "v" host with
  | Some t =>
      match partition (ch ".") t with
      | (version, Some rest) => str_truthy version && str_forallb Ipv4.is_hex (str_lower version) && str_truthy rest
      | _ => false
      end
  | None => bool_decide (Ipv4.parse host = None) && ip6_ok host
  end.

(** [_check_bracketed_netloc] *)
Definition bracketed_netloc_ok (netloc : string) : bool :=
  let host_port := (rpartition (ch "@") netloc).2 in
  match partition (ch "[") host_port with
  | (before, Some bracketed) =>
      let '(host, port) := partition (ch "]") bracketed in
      negb (str_truthy before) && (negb (opt_truthy port) || str_startswith ":" (or_empty port)) && bracketed_host_ok host
  | (_, None) => bracketed_host_ok (partition (ch ":") host_port).1
  end.

(** [urlsplit]: [None] is its [ValueError]. *)
Definition urlsplit (text : string) : option Url :=
  let '(scheme, url) := split_scheme (drop_unsafe (lstrip_control text)) in
  match strip_prefix "//" url with
  | None => Some {| url_scheme := scheme; url_netloc := "" |}
  | Some t =>
      let netloc := until_delimiter t in
      let opens := str_has_char (ch "[") netloc in let closes := str_has_char (ch "]") netloc in
      if xorb opens closes || (opens && closes && negb (bracketed_netloc_ok netloc)) then None
      else Some {| url_scheme := scheme; url_netloc := netloc |}
  end.
End url.

(** [.username] and [.password] *)
Definition url_userinfo (u : Url) : option string * option string :=
  match (rpartition (ch "@") (url_netloc u)).1 with
  | Some userinfo => let '(name, password) := partition (ch ":") userinfo in (Some name, password)
  | None => (None, None)
  end.

(** [._hostinfo] *)
Definition url_hostinfo (u : Url) : string * option string :=
  let info := (rpartition (ch "@") (url_netloc u)).2 in
  let '(host, port) :=
    match partition (ch "[") info with
    | (_, Some bracketed) => let '(host, port) := partition (ch "]") bracketed in (host, (partition (ch ":") (or_empty port)).2)
    | (_, None) => partition (ch ":") info
    end in
  (host, if opt_truthy port then port else None).

(** [.hostname]: lower case, but for the zone of an address. *)
Definition url_hostname (u : Url) : option string :=
  let host := (url_hostinfo u).1 in
  if str_truthy host then
    match partition (ch "%") host with
    | (name, Some zone) => Some (str_lower name +:+ "%" +:+ zone)
    | (name, None) => Some (str_lower name)
    end
  else None.

(** Whether reading [.port] does not raise. *)
Definition url_port_ok (u : Url) : bool :=
  match (url_hostinfo u).2 with
  | None => true
  | Some port =>
      str_forallb is_digit port &&
      match Ipv4.digits 10 (Ipv4.digit_below 10) 0 port with Some n => n <=? 65535 | None => false end
  end.

Definition url_parts (ip6_ok : string -> bool) (text : string) :=
  u ← urlsplit ip6_ok text;
  Some (url_scheme u, url_userinfo u, url_hostname u, url_port_ok u).

Example urlsplit_tests : map (url_parts (fun s => str_eq s "::1"))
  ["https://api.openai.com/v1"; " HTTPS://User:p@Host.Example:8443?q"; "https://[::1]:80/"; "https://[::1/"; "api.example.com"; "https://h:99999"] =
  [Some ("https", (None, None), Some "api.openai.com", true); Some ("https", (Some "User", Some "p"), Some "host.example", true);
   Some ("https", (None, None), Some "::1", true); None; Some ("", (None, None), None, true);
   Some ("https", (None, None), Some "h", false)].
Proof. vm_compute. reflexivity. Qed.
