(* ===== verification/Credentials.v ===== *)
(** * Credentials: which secret an agent's sandbox gets

    Models [src/sdf_core/credentials.py], [src/sdf_core/agent_models.py] and
    [src/sdf_core/project_trust.py]: the declared mode of each agent kind, the
    variables a plan sets and strips, the base URLs it accepts, the models, and
    the [.env] file.  Whether a host is an IPv6 address is an argument, so is
    the connection reader; lifetimes of sandboxes are whole seconds. *)

From S2P Require Import Prelude Floats Json Db EvidenceMac Checks Evaluate Impact Usage Recovery Url.

Definition CredentialConfigError (msg : string) : exn := OtherError "CredentialConfigError" msg.

(** [environ.get(name, "").strip()] *)
Definition env_text (name : string) (env : environ) : string := str_strip (or_empty (env !! name)).

(** ** Project trust *)

Module ProjectTrust.
Definition ALWAYS : string := "always".
Definition NEVER : string := "never".
Definition VALUES : list string := [ALWAYS; NEVER].

Definition env_name (agent : string) : result string :=
  _ ← raise_if (negb (str_truthy agent && str_forallb is_lower agent)) (ValueError "bad agent kind");
  Ok ("SDF_" +:+ str_upper agent +:+ "_PROJECT_TRUST").

Definition setting (agent : string) (env : environ) : result string :=
  name ← env_name agent;
  let raw := or_empty (env !! name) in
  let value := str_lower (str_strip raw) in
  if negb (str_truthy value) then Ok ALWAYS
  else
    _ ← raise_if (negb (str_in value VALUES))
          (ValueError (name +:+ " must be one of " +:+ str_join ", " VALUES +:+ ", got " +:+ str_repr raw +:+ " (ADR-0021)"));
    Ok value.

Definition wants_trust (agent : string) (env : environ) : result bool := v ← setting agent env; Ok (str_eq v ALWAYS).

(** [bool(fresh_e2b) and wants_trust(...)]: the setting is read only for a
    fresh sandbox. *)
Definition effective (agent : string) (fresh_e2b : bool) (env : environ) : result bool :=
  if fresh_e2b then wants_trust agent env else Ok false.
End ProjectTrust.

(** ** Models *)

Definition MODEL_VARIABLES : list (string * string) := [
  ("claude", "ANTHROPIC_MODEL"); ("codex", "OPENAI_MODEL"); ("opencode", "OPENCODE_MODEL"); ("pi", "PI_MODEL");
  ("qwen", "QWEN_MODEL"); ("goose", "GOOSE_MODEL")
].
Definition DEFAULT_OPENCODE_MODEL : string := "vultr/glm-5.3".
Definition DEFAULT_MODELS : list (string * string) :=
  [("opencode", DEFAULT_OPENCODE_MODEL); ("pi", "glm-5.3"); ("qwen", "glm-5.3"); ("goose", "glm-5.3")].
Definition BARE_MODEL_AGENTS : list string := ["pi"; "qwen"; "goose"].
Definition MODEL_FLAGS : list (string * string) := [
  ("claude", "--model"); ("codex", "-m"); ("opencode", "--model"); ("pi", "--model"); ("qwen", "-m"); ("goose", "--model")
].

(** One character of class [first], then up to [more] of class [rest]. *)
Definition word (first rest : ascii -> bool) (more : Z) (s : string) : bool :=
  match s with String c t => first c && str_forallb rest t && (str_len t <=? more) | EmptyString => false end.

Definition model_char (extra : string) (c : ascii) : bool := is_alnum c || str_has_char c extra.
Definition is_model : string -> bool := word is_alnum (model_char "._:@/+-") 199.
Definition is_bare_model : string -> bool := word is_alnum (model_char "._@/+-") 199.
Definition is_opencode_model (s : string) : bool :=
  match partition slash s with
  | (provider, Some model) =>
      word (fun c => is_digit c || is_lower c) (fun c => is_digit c || is_lower c || str_has_char c "_-") 63 provider &&
      word is_alnum (model_char "._:@+-") 199 model
  | _ => false
  end.

Record AgentModelSelection : Type := { ms_agent : string; ms_model : option string; ms_small_model : option string }.

Definition provider_id (s : AgentModelSelection) : option string :=
  if str_eq (ms_agent s) "opencode" then m ← ms_model s; Some (partition slash m).1 else None.

(** [_read] *)
Definition read_model (variable : string) (env : environ) : result (option string) :=
  let raw := env_text variable env in
  if negb (str_truthy raw) then Ok None
  else _ ← raise_if (negb (is_model raw)) (CredentialConfigError (variable +:+ " is not a valid model name")); Ok (Some raw).

Definition resolve_agent_models (agent : string) (env : environ) : result AgentModelSelection :=
  match assoc agent MODEL_VARIABLES with
  | None => Ok {| ms_agent := agent; ms_model := None; ms_small_model := None |}
  | Some variable =>
      read ← read_model variable env;
      let model := match read with Some m => Some m | None => assoc agent DEFAULT_MODELS end in
      let opencode := str_eq agent "opencode" in
      _ ← (if opencode then
             m ← require_some model AssertionError;
             raise_if (negb (is_opencode_model m)) (CredentialConfigError (variable +:+ " must be <provider>/<model>, e.g. vultr/glm-5.3"))
           else Ok ());
      _ ← (if str_in agent BARE_MODEL_AGENTS then
             m ← require_some model AssertionError;
             raise_if (negb (is_bare_model m)) (CredentialConfigError (variable +:+ " must be a bare model id without ':', e.g. glm-5.3"))
           else Ok ());
      Ok {| ms_agent := agent; ms_model := model; ms_small_model := if opencode then model else None |}
  end.

Definition agent_model_args (agent : string) (env : environ) : result (list string) :=
  s ← resolve_agent_models agent env;
  match ms_model s with
  | None => Ok []
  | Some m => flag ← require_some (assoc agent MODEL_FLAGS) (KeyError agent); Ok [flag; m]
  end.

Definition model_agent_args (agents : list string) (env : environ) : result (list (string * list string)) :=
  args ← result_map (fun a => v ← agent_model_args a env; Ok (a, v)) (fromkeys agents);
  Ok (List.filter (fun kv : string * list string => match kv.2 with [] => false | _ => true end) args).

(** ** Agent kinds *)

Inductive CredentialMode : Type := SUBSCRIPTION | API_KEY.
Definition CredentialMode_value (m : CredentialMode) : string := match m with SUBSCRIPTION => "subscription" | API_KEY => "api-key" end.

#[export] Instance CredentialMode_eq_dec : EqDecision CredentialMode.
Proof. solve_decision. Defined.

Definition CONFLICTING_VARIABLES : list (string * list string) := [
  ("claude", ["ANTHROPIC_API_KEY"; "ANTHROPIC_AUTH_TOKEN"; "CLAUDE_CODE_OAUTH_TOKEN"; "CLAUDE_CODE_OAUTH_REFRESH_TOKEN";
    "ANTHROPIC_BASE_URL"; "CLAUDE_CODE_USE_BEDROCK"; "CLAUDE_CODE_USE_VERTEX"; "CLAUDE_CODE_USE_FOUNDRY"; "ANTHROPIC_PROFILE";
    "ANTHROPIC_FEDERATION_RULE_ID"; "ANTHROPIC_ORGANIZATION_ID"]);
  ("codex", ["OPENAI_API_KEY"; "CODEX_API_KEY"; "CODEX_AUTH_JSON"; "OPENAI_BASE_URL"]);
  ("opencode", ["OPENCODE_CONFIG"; "OPENCODE_CONFIG_CONTENT"; "OPENCODE_CONFIG_DIR"; "OPENCODE_PERMISSION"]);
  ("pi", ["PI_CODING_AGENT_DIR"; "PI_CODING_AGENT_SESSION_DIR"; "PI_PACKAGE_DIR"; "PI_SHARE_VIEWER_URL"; "PI_OAUTH_CALLBACK_HOST"]);
  ("qwen", ["QWEN_CODE_SYSTEM_SETTINGS_PATH"; "QWEN_CODE_SYSTEM_DEFAULTS_PATH"; "QWEN_HOME"; "QWEN_RUNTIME_DIR"; "QWEN_SANDBOX"]);
  ("goose", ["GOOSE_PROVIDER"; "GOOSE_MODEL"; "GOOSE_MODE"; "GOOSE_PATH_ROOT"; "GOOSE_ADDITIONAL_CONFIG_FILES"])
].

Definition OFFICIAL_OPENAI_BASE_URL : string := "https://api.openai.com/v1".
Definition OFFICIAL_ANTHROPIC_BASE_URL : string := "https://api.anthropic.com".

Record AgentSpec : Type := {
  mode_variable : string; connection_variable : string; api_key_source : string; api_key_target : string; api_key_seed : string;
  base_url_source : string; base_url_target : string; subscription_seeds : list (string * string); base_url_seed : option string;
  official_base_url : option string; base_url_required : bool; subscription_supported : bool; protocol : string; responses_api : bool
}.

(** The four kinds that talk to any OpenAI-compatible endpoint. *)
Definition headless_spec (upper seed : string) : AgentSpec := {|
  mode_variable := "SDF_CREDENTIAL_MODE_" +:+ upper; connection_variable := "SDF_CONNECTION_" +:+ upper;
  api_key_source := upper +:+ "_API_KEY"; api_key_target := upper +:+ "_API_KEY"; api_key_seed := seed;
  base_url_source := upper +:+ "_BASE_URL"; base_url_target := upper +:+ "_BASE_URL"; subscription_seeds := []; base_url_seed := None;
  official_base_url := None; base_url_required := true; subscription_supported := false; protocol := "openai"; responses_api := false
|}.

Definition claude_spec : AgentSpec := {|
  mode_variable := "SDF_CREDENTIAL_MODE_CLAUDE"; connection_variable := "SDF_CONNECTION_CLAUDE"; api_key_source := "ANTHROPIC_API_KEY";
  api_key_target := "ANTHROPIC_API_KEY"; api_key_seed := "claude-approve-api-key"; base_url_source := "ANTHROPIC_BASE_URL";
  base_url_target := "ANTHROPIC_BASE_URL"; subscription_seeds := []; base_url_seed := None;
  official_base_url := Some OFFICIAL_ANTHROPIC_BASE_URL; base_url_required := false; subscription_supported := true;
  protocol := "anthropic"; responses_api := false
|}.

Definition codex_spec : AgentSpec := {|
  mode_variable := "SDF_CREDENTIAL_MODE_CODEX"; connection_variable := "SDF_CONNECTION_CODEX"; api_key_source := "OPENAI_API_KEY";
  api_key_target := "OPENAI_API_KEY"; api_key_seed := "codex-auth-json-api-key"; base_url_source := "OPENAI_BASE_URL";
  base_url_target := "OPENAI_BASE_URL"; subscription_seeds := [("CODEX_AUTH_JSON", "codex-auth-json")];
  base_url_seed := Some "codex-config-base-url"; official_base_url := Some OFFICIAL_OPENAI_BASE_URL; base_url_required := false;
  subscription_supported := true; protocol := "openai"; responses_api := true
|}.

Definition AGENTS : list (string * AgentSpec) := [
  ("claude", claude_spec); ("codex", codex_spec); ("opencode", headless_spec "OPENCODE" "opencode-config");
  ("pi", headless_spec "PI" "pi-models"); ("qwen", headless_spec "QWEN" "qwen-key-ref"); ("goose", headless_spec "GOOSE" "goose-provider")
].
Definition MODEL_SEEDED_AGENTS : list string := ["opencode"; "pi"; "qwen"; "goose"].

Definition spec_of (agent : string) : result AgentSpec :=
  require_some (assoc agent AGENTS)
    (CredentialConfigError ("unknown agent kind " +:+ str_repr agent +:+ "; expected one of: " +:+ str_join ", " (map fst AGENTS))).

Definition protocol_of (agent : string) : result string := s ← spec_of agent; Ok (protocol s).
Definition responses_api_required (agent : string) : result bool := s ← spec_of agent; Ok (responses_api s).

Definition resolved_llm_base_url (agent : string) (env : environ) : result string :=
  s ← spec_of agent;
  let explicit := env_text (base_url_source s) env in
  Ok (if str_truthy explicit then explicit else or_empty (official_base_url s)).

(** [s.rstrip(".")] *)
Fixpoint rstrip_dots (s : string) : string :=
  match s with
  | EmptyString => EmptyString
  | String c t =>
      match rstrip_dots t with
      | EmptyString => if bool_decide (c = ch ".") then EmptyString else String c EmptyString
      | t' => String c t'
      end
  end.

(** What the code asks of an IPv6 address. *)
Record Ip6 : Type := { ip6_mapped : option Z; ip6_global : bool; ip6_multicast : bool }.

Section hosts.
Context (ip6 : string -> option Ip6).

Definition is_ip6 (host : string) : bool := bool_decide (is_Some (ip6 host)).

Definition endpoint_host (url : string) : string :=
  match urlsplit is_ip6 url with
  | Some u => str_lower (rstrip_dots (or_empty (url_hostname u)))
  | None => ""
  end.

Definition llm_attempt_provider (agent : string) (env : environ) : result string :=
  url ← resolved_llm_base_url agent env;
  let host := endpoint_host url in
  p ← protocol_of agent;
  Ok (str_take 120 (p +:+ ":" +:+ (if str_truthy host then host else "unspecified"))).

Definition inference_allow_hosts (env : environ) (kinds : list string) : result (list string) :=
  result_fold (fun hosts kind =>
    url ← resolved_llm_base_url kind env;
    let host := endpoint_host url in
    Ok (if str_truthy host && negb (str_in host hosts) then hosts ++ [host] else hosts)) [] kinds.

Definition inference_network (env : environ) (kinds : list string) : result json :=
  hosts ← inference_allow_hosts env kinds;
  Ok (JObj [("allow_out", JArr (map JStr hosts)); ("deny_out", JArr [JStr "0.0.0.0/0"]); ("allow_public_traffic", JBool false)]).

(** [_NUMERIC_HOST] *)
Definition is_numeric_part (s : string) : bool :=
  match strip_prefix "0x" s with Some t => str_forallb Ipv4.is_hex t | None => str_truthy s && str_forallb is_digit s end.
Definition is_numeric_host (s : string) : bool :=
  let parts := str_split (ch ".") s in (length parts <=? 4)%nat && forallb is_numeric_part parts.

(** [host.endswith(suffix)] *)
Definition str_endswith (suffix s : string) : bool :=
  str_eq (String.substring (String.length s - String.length suffix) (String.length suffix) s) suffix.

(** The address a host spells, when it spells one. *)
Definition host_address (variable host : string) : result (option (Z + Ip6)) :=
  match Ipv4.parse host, ip6 host with
  | Some a, _ => Ok (Some (inl a))
  | None, Some a => Ok (Some (inr a))
  | None, None =>
      if is_numeric_host host then
        a ← require_some (Ipv4.inet_aton host) (CredentialConfigError (variable +:+ " has an invalid numeric host"));
        Ok (Some (inl a))
      else Ok None
  end.

Definition address_ok (a : Z + Ip6) : bool :=
  match a with
  | inl v4 => Ipv4.is_global v4 && negb (Ipv4.is_multicast v4)
  | inr v6 =>
      match ip6_mapped v6 with
      | Some v4 => Ipv4.is_global v4 && negb (Ipv4.is_multicast v4)
      | None => ip6_global v6 && negb (ip6_multicast v6)
      end
  end.

Definition url_host (u : Url) : string := rstrip_dots (or_empty (url_hostname u)).

(** [_check_base_url] *)
Definition check_base_url (variable url : string) : result unit :=
  let unreachable := CredentialConfigError (variable +:+
    " points at a loopback, link-local, private or unspecified address, which a cloud sandbox cannot reach") in
  u ← require_some (urlsplit is_ip6 url) (CredentialConfigError (variable +:+ " is not a valid URL"));
  _ ← raise_if (negb (url_port_ok u)) (CredentialConfigError (variable +:+ " is not a valid URL"));
  _ ← raise_if (negb (str_eq (str_lower (url_scheme u)) "https")) (CredentialConfigError (variable +:+ " must use https"));
  _ ← raise_if (bool_decide ((url_userinfo u).1 <> None) || bool_decide ((url_userinfo u).2 <> None))
        (CredentialConfigError (variable +:+ " must not embed credentials"));
  let host := url_host u in
  _ ← raise_if (negb (str_truthy host)) (CredentialConfigError (variable +:+ " has no host"));
  _ ← raise_if (str_eq host "localhost" || str_endswith ".localhost" host) unreachable;
  address ← host_address variable host;
  match address with
  | None => Ok ()
  | Some a => raise_if (negb (address_ok a)) unreachable
  end.

(** ** Plans *)

Record SeedStep : Type := { seed_action : string; seed_variable : string }.
Record ConnectionMaterial : Type := { cm_variables : list (string * string); cm_expires_at : option datetime }.
Record CredentialPlan : Type := {
  cp_agent : string; cp_mode : CredentialMode; cp_connection_id : option string; cp_set_variables : list (string * string);
  cp_strip_variables : list string; cp_seed_steps : list SeedStep
}.

Definition keys (variables : list (string * string)) : list string := map fst variables.

(** [_redacted] *)
Definition redacted (variables : list (string * string)) : string :=
  "{" +:+ str_join ", " (map (fun name => str_repr name +:+ ": '<REDACTED>'") (keys variables)) +:+ "}".

(** The repr of a tuple, from those of its members. *)
Definition py_tuple (reprs : list string) : string :=
  match reprs with [x] => "(" +:+ x +:+ ",)" | _ => "(" +:+ str_join ", " reprs +:+ ")" end.

Definition repr_opt (o : option string) : string := match o with Some s => str_repr s | None => "None" end.

Definition seed_repr (s : SeedStep) : string :=
  "SeedStep(action=" +:+ str_repr (seed_action s) +:+ ", variable=" +:+ str_repr (seed_variable s) +:+ ")".

(** [CredentialPlan.__repr__] and [ConnectionMaterial.__repr__] *)
Definition plan_repr (p : CredentialPlan) : string :=
  "CredentialPlan(agent=" +:+ str_repr (cp_agent p) +:+ ", mode=" +:+ str_repr (CredentialMode_value (cp_mode p)) +:+
  ", connection_id=" +:+ repr_opt (cp_connection_id p) +:+ ", set_variables=" +:+ redacted (cp_set_variables p) +:+
  ", strip_variables=" +:+ py_tuple (map str_repr (cp_strip_variables p)) +:+
  ", seed_steps=" +:+ py_tuple (map seed_repr (cp_seed_steps p)) +:+ ")".

Definition material_repr (m : ConnectionMaterial) : string :=
  "ConnectionMaterial(variables=" +:+ redacted (cm_variables m) +:+ ", expires_at=" +:+
  repr_opt (isoformat <$> cm_expires_at m) +:+ ")".

(** [_mode] *)
Definition mode_of (spec : AgentSpec) (env : environ) : result CredentialMode :=
  let choices := "subscription or api-key" in
  let raw := env_text (mode_variable spec) env in
  _ ← raise_if (negb (str_truthy raw)) (CredentialConfigError (mode_variable spec +:+ " is not set; declare " +:+ choices));
  require_some (List.find (fun m => str_eq (CredentialMode_value m) raw) [SUBSCRIPTION; API_KEY])
    (CredentialConfigError (mode_variable spec +:+ " has an unknown value; expected " +:+ choices)).

(** [_plan]; every kind of [AGENTS] has its conflicting variables. *)
Definition plan (agent : string) (mode : CredentialMode) (connection_id : option string) (variables : list (string * string))
    (seeds : list SeedStep) : CredentialPlan := {|
  cp_agent := agent; cp_mode := mode; cp_connection_id := connection_id; cp_set_variables := variables;
  cp_strip_variables := List.filter (fun n => negb (str_in n (keys variables))) (default [] (assoc agent CONFLICTING_VARIABLES));
  cp_seed_steps := seeds
|}.

Definition EXPIRY_MARGIN : Z := 600 * seconds.

(** [datetime + timedelta] *)
Definition dt_plus (d : datetime) (us : Z) : result datetime :=
  let e := dt_add d us in
  _ ← raise_if ((dt_us e <? datetime_min) || (datetime_max <? dt_us e)) (OverflowError "date value out of range");
  Ok e.

(** [timedelta(seconds=n)], in microseconds. *)
Definition timedelta (n : Z) : result Z :=
  let d := n / 86400 in
  _ ← raise_if (999999999 <? Z.abs d) (OverflowError ("days=" +:+ pretty d +:+ "; must have magnitude <= 999999999"));
  Ok (n * seconds).

(** [f"{n:g}"] of an integer a float holds: six significant digits, the last
    rounded half to even. *)
Fixpoint drop_zeros (fuel : nat) (z : Z) : Z :=
  match fuel with S fuel => if z mod 10 =? 0 then drop_zeros fuel (z / 10) else z | O => z end.

Definition g_text (n : Z) : string :=
  let a := Z.abs n in
  let sign := if n <? 0 then "-" else "" in
  if a <? 1000000 then sign +:+ pretty a
  else
    let e := FloatRepr.ndigits 400 a - 1 in
    let scale := 10 ^ (e - 5) in
    let q := a / scale in
    let r := 2 * (a mod scale) in
    let q := if (scale <? r) || ((scale =? r) && Z.odd q) then q + 1 else q in
    let '(q, e) := if q =? 1000000 then (100000, e + 1) else (q, e) in
    let digits := pretty (drop_zeros 5 q) in
    let frac := String.substring 1 (String.length digits - 1) digits in
    sign +:+ str_take 1 digits +:+ (if str_truthy frac then "." +:+ frac else "") +:+ "e+" +:+
    (if e <? 10 then "0" else "") +:+ pretty e.

(** [_check_expiry] *)
Definition check_expiry (agent connection_id : string) (expires_at : option datetime) (timeout : Z) (now : datetime) : result unit :=
  match expires_at with
  | None => Ok ()
  | Some e =>
      let reconnect := "run: e2b-box auth connect " +:+ agent in
      _ ← raise_if (negb (dt_aware e)) (CredentialConfigError ("connection " +:+ str_repr connection_id +:+
            " reports an expiry without a timezone; " +:+ reconnect));
      lifetime ← timedelta timeout;
      until ← dt_plus now lifetime;
      deadline ← dt_plus until EXPIRY_MARGIN;
      late ← dt_le e deadline;
      raise_if late (CredentialConfigError ("connection " +:+ str_repr connection_id +:+ " for " +:+ agent +:+ " expires at " +:+
        isoformat e +:+ ", not later than now + sandbox timeout (" +:+ g_text timeout +:+ "s) + 0:10:00; " +:+ reconnect))
  end.

(** The api-key branch of [resolve_credential_plan]. *)
Definition api_key_plan (agent : string) (spec : AgentSpec) (env : environ) : result CredentialPlan :=
  let key := env_text (api_key_source spec) env in
  _ ← raise_if (negb (str_truthy key)) (CredentialConfigError (mode_variable spec +:+ "=api-key requires " +:+ api_key_source spec +:+ " to be set"));
  let base_url := env_text (base_url_source spec) env in
  _ ← raise_if (base_url_required spec && negb (str_truthy base_url))
        (CredentialConfigError (mode_variable spec +:+ "=api-key requires " +:+ base_url_source spec +:+ " to be set"));
  _ ← (if str_truthy base_url then check_base_url (base_url_source spec) base_url else Ok ());
  model ← (if str_in agent MODEL_SEEDED_AGENTS then
             s ← resolve_agent_models agent env;
             m ← require_some (ms_model s) AssertionError;
             variable ← require_some (assoc agent MODEL_VARIABLES) (KeyError agent);
             Ok [(variable, m)]
           else Ok []);
  Ok (plan agent API_KEY None
        ([(api_key_target spec, key)] ++ (if str_truthy base_url then [(base_url_target spec, base_url)] else []) ++ model)
        ([{| seed_action := api_key_seed spec; seed_variable := api_key_target spec |}] ++
         match base_url_seed spec with
         | Some seed => if str_truthy base_url then [{| seed_action := seed; seed_variable := base_url_target spec |}] else []
         | None => []
         end)).

(** Its subscription branch; the reader may be missing. *)
Definition subscription_plan (agent : string) (spec : AgentSpec) (env : environ)
    (read_connection : option (string -> string -> result ConnectionMaterial)) (timeout : Z) (now : datetime) : result CredentialPlan :=
  _ ← raise_if (str_truthy (env_text (base_url_source spec) env))
        (CredentialConfigError (base_url_source spec +:+ " is only allowed with " +:+ mode_variable spec +:+ "=api-key, not subscription"));
  let id := env_text (connection_variable spec) env in
  _ ← raise_if (negb (str_truthy id)) (CredentialConfigError (mode_variable spec +:+ "=subscription requires " +:+
        connection_variable spec +:+ " to name a herdr-e2b connection"));
  read ← require_some read_connection (CredentialConfigError
           ("no connection reader available to resolve subscription connection " +:+ str_repr id +:+ " for " +:+ agent));
  material ← read agent id;
  let allowed := default [] (assoc agent CONFLICTING_VARIABLES) in
  let unexpected := str_sorted (remove_dups (List.filter (fun n => negb (str_in n allowed)) (keys (cm_variables material)))) in
  _ ← raise_if (bool_decide (unexpected <> [])) (CredentialConfigError ("connection " +:+ str_repr id +:+
        " provides variables not valid for " +:+ agent +:+ ": " +:+ str_join ", " unexpected));
  _ ← raise_if (negb (existsb (fun kv : string * string => str_truthy (str_strip kv.2)) (cm_variables material)))
        (CredentialConfigError ("connection " +:+ str_repr id +:+ " provides no credential for " +:+ agent));
  _ ← check_expiry agent id (cm_expires_at material) timeout now;
  Ok (plan agent SUBSCRIPTION (Some id) (cm_variables material)
        (map (fun va : string * string => {| seed_action := va.2; seed_variable := va.1 |})
           (List.filter (fun va : string * string => str_in va.1 (keys (cm_variables material))) (subscription_seeds spec)))).

Definition resolve_credential_plan (agent : string) (env : environ)
    (read_connection : option (string -> string -> result ConnectionMaterial)) (timeout : Z) (now : datetime) : result CredentialPlan :=
  spec ← spec_of agent;
  mode ← mode_of spec env;
  _ ← raise_if (bool_decide (mode = SUBSCRIPTION) && negb (subscription_supported spec))
        (CredentialConfigError (mode_variable spec +:+ "=subscription is not supported for " +:+ agent +:+
           "; set it to api-key (there is no fallback)"));
  match mode with
  | API_KEY => api_key_plan agent spec env
  | SUBSCRIPTION => subscription_plan agent spec env read_connection timeout now
  end.
End hosts.

Example g_text_tests : map g_text [3600; 0; -5; 999999; 1000000; 1234565; 9999999] =
  ["3600"; "0"; "-5"; "999999"; "1e+06"; "1.23456e+06"; "1e+07"].
Proof. vm_compute. reflexivity. Qed.

Definition no_ip6 (s : string) : option Ip6 := None.

Example base_url_tests : map (fun u => is_ok (check_base_url no_ip6 "X" u))
  ["https://api.example.com/v1"; "http://api.example.com"; "https://127.1/"; "https://2130706433"; "https://10.0.0.8"; "https://0x7f.1";
   "https://u:p@example.com"; "https://LocalHost./"; "https://8.8.8.8:443/x"; "https://"; "https://172.31.0.1"; "https://172.32.0.1"] =
  [true; false; false; false; false; false; false; false; true; false; false; true].
Proof. vm_compute. reflexivity. Qed.

(** ** The [.env] file *)

(** The longest prefix of characters of a class, and the rest. *)
Fixpoint span (f : ascii -> bool) (s : string) : string * string :=
  match s with
  | String c t => if f c then let '(a, b) := span f t in (String c a, b) else (EmptyString, s)
  | EmptyString => (EmptyString, EmptyString)
  end.

Definition name_start (c : ascii) : bool := is_upper c || is_lower c || bool_decide (c = ch "_").
Definition name_char (c : ascii) : bool := is_alnum c || bool_decide (c = ch "_").
Definition starts (f : ascii -> bool) (s : string) : bool := match s with String c _ => f c | EmptyString => false end.

(** [NAME = raw], without blanks around the sign. *)
Definition assignment (s : string) : option (string * string) :=
  let '(name, rest) := span name_char s in
  if starts name_start name then raw ← strip_prefix "=" (str_lstrip rest); Some (name, str_lstrip raw) else None.

(** [_LINE.match]: an [export] that no name follows is itself the name. *)
Definition line_match (s : string) : option (string * string) :=
  match strip_prefix "export" s with
  | Some t =>
      match (if starts is_space t then assignment (str_lstrip t) else None) with
      | Some m => Some m
      | None => assignment s
      end
  | None => assignment s
  end.

(** What precedes a comment: the text before the first blanks that a [#] follows. *)
Fixpoint before_comment (s : string) : string :=
  match s with
  | EmptyString => EmptyString
  | String c t => if is_space c && str_startswith "#" (str_lstrip t) then EmptyString else String c (before_comment t)
  end.

(** [_parse_line], for line [number] of the file [dotenv]. *)
Definition parse_line (line dotenv : string) (number : nat) : result (option (string * string)) :=
  let stripped := str_strip line in
  if negb (str_truthy stripped) || str_startswith "#" stripped then Ok None
  else
    match line_match stripped with
    | None => Ok None
    | Some (name, raw) =>
        match raw with
        | String q t =>
            if bool_decide (q = dquote) || bool_decide (q = ch "'") then
              let '(value, rest) := partition q t in
              let rest' := str_strip (or_empty rest) in
              _ ← raise_if (bool_decide (rest = None) || (str_truthy rest' && negb (str_startswith "#" rest')))
                    (CredentialConfigError (dotenv +:+ ":" +:+ pretty number +:+ ": malformed quoted value for " +:+ name));
              Ok (Some (name, value))
            else Ok (Some (name, str_strip (before_comment raw)))
        | EmptyString => Ok (Some (name, ""))
        end
    end.

(** The loop of [load_dotenv]: the environment keeps what was loaded before a
    malformed line. *)
Fixpoint load_lines (dotenv : string) (number : nat) (lines : list string) (env : environ) : environ * result (list string) :=
  match lines with
  | [] => (env, Ok [])
  | line :: lines =>
      match parse_line line dotenv number with
      | Err e => (env, Err e)
      | Ok None => load_lines dotenv (S number) lines env
      | Ok (Some (name, value)) =>
          match env !! name with
          | Some _ => load_lines dotenv (S number) lines env
          | None =>
              let '(env', loaded) := load_lines dotenv (S number) lines (<[name := value]> env) in
              (env', loaded ← loaded; Ok (name :: loaded))
          end
      end
  end.

(** [_live_gate_opted_in] and [_hermetic_skips_dotenv]; [same_file] says
    whether the file is the repository's, [None] when resolving it fails. *)
Definition live_gate_opted_in (os_environ : environ) : bool :=
  existsb (fun kv : string * string => str_startswith "SDF_LIVE_" kv.1 && str_eq kv.2 "1") (map_to_list os_environ).
Definition hermetic_skips_dotenv (os_environ : environ) (same_file : option bool) : bool :=
  if negb (opt_str_eq (os_environ !! "SDF_TEST_HERMETIC") (Some "1")) || live_gate_opted_in os_environ then false
  else default false same_file.

(** [load_dotenv]: [explicit] says that a path was given, [text] is what the
    file holds when there is one. *)
Definition load_dotenv (os_environ : environ) (same_file : option bool) (explicit : bool) (dotenv : string) (text : option string)
    (env : environ) : environ * result (list string) :=
  if negb explicit && hermetic_skips_dotenv os_environ same_file then (env, Ok [])
  else match text with None => (env, Ok []) | Some t => load_lines dotenv 1 (str_splitlines t) env end.

Definition dquoted (s : string) : string := String dquote (s +:+ String dquote "").

Example parse_line_tests : map (fun l => parse_line l ".env" 3)
  ["export FOO = bar baz # note"; " # comment"; "A='x # y' # z"; "export=1"; "B=#c"; "C=" +:+ dquoted "open" +:+ "x"; "9A=1"; "exportA=1"; "K=a#b "] =
  [Ok (Some ("FOO", "bar baz")); Ok None; Ok (Some ("A", "x # y")); Ok (Some ("export", "1")); Ok (Some ("B", "#c"));
   Err (CredentialConfigError ".env:3: malformed quoted value for C"); Ok None; Ok (Some ("exportA", "1")); Ok (Some ("K", "a#b"))].
Proof. vm_compute. reflexivity. Qed.
