(* ===== verification/CredentialsFacts.v ===== *)
(** * CredentialsFacts: what a credential plan holds and what it hides *)

From S2P Require Import Prelude Floats Json Db EvidenceMac Checks Evaluate Impact Usage Recovery Url Credentials.

(** ** The tables *)

Lemma assoc_elem {V} k (l : list (string * V)) v : assoc k l = Some v -> (k, v) ∈ l.
Proof.
  induction l as [|[i w] l IH]; simpl; [done|]. unfold str_eq. case_bool_decide as E.
  - intros [= ->]. subst i. left.
  - intros H. right. auto.
Qed.

Lemma spec_elem agent spec : spec_of agent = Ok spec -> (agent, spec) ∈ AGENTS.
Proof. intros H%require_some_Ok. by apply assoc_elem. Qed.

(** One goal for each kind of agent. *)
Ltac each_kind H := unfold AGENTS in H; repeat (apply elem_of_cons in H as [[= -> ->]|H]); [..|by apply not_elem_of_nil in H].

(** Two names are not the same. *)
Ltac distinct := let K := fresh in intros K; vm_compute in K; discriminate K.

Definition conflicting (agent : string) : list string := default [] (assoc agent CONFLICTING_VARIABLES).

Lemma elem_strip agent mode id variables seeds n :
  n ∈ cp_strip_variables (plan agent mode id variables seeds) <-> n ∈ conflicting agent /\ n ∉ keys variables.
Proof. simpl. rewrite elem_filterb. unfold str_in. by rewrite negb_true_iff, bool_decide_eq_false. Qed.

Lemma mode_of_Ok spec env mode : mode_of spec env = Ok mode -> env_text (mode_variable spec) env = CredentialMode_value mode.
Proof.
  unfold mode_of. intros (u & _ & H)%bind_Ok. apply require_some_Ok, List.find_some in H as [_ H]. by apply bool_decide_eq_true in H.
Qed.

(** ** Base URLs *)

Section plans.
Context (ip6 : string -> option Ip6).

(** A URL that a sandbox may send its key to: encrypted, without a password in
    it, and not an address of this host, of a private network or of a link. *)
Record public_url (url : string) : Prop := {
  pu_url : exists u, urlsplit (is_ip6 ip6) url = Some u /\ url_port_ok u = true /\ str_lower (url_scheme u) = "https" /\
    url_userinfo u = (None, None) /\ url_host u <> "" /\ url_host u <> "localhost" /\ str_endswith ".localhost" (url_host u) = false /\
    (forall a, Ipv4.parse (url_host u) = Some a -> Ipv4.reachable a) /\
    (forall a, Ipv4.parse (url_host u) = None -> ip6 (url_host u) = None -> is_numeric_host (url_host u) = true ->
       Ipv4.inet_aton (url_host u) = Some a -> Ipv4.reachable a) /\
    (forall a v4, Ipv4.parse (url_host u) = None -> ip6 (url_host u) = Some a -> ip6_mapped a = Some v4 -> Ipv4.reachable v4) /\
    (forall a, Ipv4.parse (url_host u) = None -> ip6 (url_host u) = Some a -> ip6_mapped a = None ->
       ip6_global a = true /\ ip6_multicast a = false)
}.

Lemma address_ok_v4 a : address_ok (inl a) = true -> Ipv4.reachable a.
Proof. unfold address_ok. intros [H1 H2%negb_true_iff]%andb_true_iff. by apply Ipv4.global_reachable. Qed.

Lemma check_base_url_public variable url : check_base_url ip6 variable url = Ok () -> public_url url.
Proof.
  unfold check_base_url. intros (u & Hu%require_some_Ok & H)%bind_Ok.
  apply bind_Ok in H as (? & Hport%raise_if_Ok & H). apply bind_Ok in H as (? & Hs%raise_if_Ok & H).
  apply bind_Ok in H as (? & Hi%raise_if_Ok & H). apply bind_Ok in H as (? & Hh%raise_if_Ok & H).
  apply bind_Ok in H as (? & Hl%raise_if_Ok & H). apply bind_Ok in H as (address & Ha & H).
  apply negb_false_iff in Hport, Hs, Hh. apply bool_decide_eq_true in Hs.
  apply orb_false_iff in Hi as [Hi1%bool_decide_eq_false Hi2%bool_decide_eq_false], Hl as [Hl1%bool_decide_eq_false Hl2].
  apply dec_stable in Hi1, Hi2.
  assert (forall a, address = Some a -> address_ok a = true) as Hok.
  { intros a ->. by apply raise_if_Ok, negb_false_iff in H. }
  split. exists u. unfold host_address in Ha. split_and!; try done.
  - destruct (url_userinfo u) as [n p]. simpl in *. congruence.
  - intros E. by rewrite E in Hh.
  - intros a E. rewrite E in Ha. injection Ha as <-. by apply address_ok_v4, Hok.
  - intros a E E6 En Ea. rewrite E, E6, En, Ea in Ha. injection Ha as <-. by apply address_ok_v4, Hok.
  - intros a v4 E E6 Em. rewrite E, E6 in Ha. injection Ha as <-. specialize (Hok _ eq_refl). unfold address_ok in Hok. rewrite Em in Hok.
    apply address_ok_v4. exact Hok.
  - intros a E E6 Em. rewrite E, E6 in Ha. injection Ha as <-. specialize (Hok _ eq_refl). unfold address_ok in Hok. rewrite Em in Hok.
    apply andb_true_iff in Hok as [? ?%negb_true_iff]. split; assumption.
Qed.

(** ** What a plan holds *)

(** A variable of an api-key plan: the key, the base URL or the model, each
    from the one setting of its kind. *)
Inductive api_variable (agent : string) (spec : AgentSpec) (env : environ) : string -> string -> Prop :=
  | av_key : env_text (api_key_source spec) env <> "" ->
      api_variable agent spec env (api_key_target spec) (env_text (api_key_source spec) env)
  | av_base_url : env_text (base_url_source spec) env <> "" -> public_url (env_text (base_url_source spec) env) ->
      api_variable agent spec env (base_url_target spec) (env_text (base_url_source spec) env)
  | av_model variable selection model : assoc agent MODEL_VARIABLES = Some variable -> resolve_agent_models agent env = Ok selection ->
      ms_model selection = Some model -> api_variable agent spec env variable model.

(** What a subscription connection must give. *)
Record subscription_ok (agent : string) (spec : AgentSpec) (env : environ) (timeout : Z) (now : datetime)
    (read : string -> string -> result ConnectionMaterial) (p : CredentialPlan) : Prop := {
  so_kind : subscription_supported spec = true;
  so_no_base_url : env_text (base_url_source spec) env = "";
  so_material : exists id m, cp_connection_id p = Some id /\ id = env_text (connection_variable spec) env /\ id <> "" /\
    read agent id = Ok m /\ cp_set_variables p = cm_variables m /\
    (forall n, n ∈ keys (cm_variables m) -> n ∈ conflicting agent) /\
    (exists n v, (n, v) ∈ cm_variables m /\ str_strip v <> "") /\
    (forall e, cm_expires_at m = Some e -> dt_aware e = true /\ dt_us now + timeout * seconds + 600 * seconds < dt_us e)
}.

Record plan_ok (agent : string) (spec : AgentSpec) (env : environ) (timeout : Z) (now : datetime)
    (reader : option (string -> string -> result ConnectionMaterial)) (p : CredentialPlan) : Prop := {
  po_agent : cp_agent p = agent;
  po_declared : env_text (mode_variable spec) env = CredentialMode_value (cp_mode p);
  po_strip : forall n, n ∈ cp_strip_variables p <-> n ∈ conflicting agent /\ n ∉ keys (cp_set_variables p);
  po_seeds : forall s, s ∈ cp_seed_steps p -> seed_variable s ∈ keys (cp_set_variables p);
  po_api_key : cp_mode p = API_KEY -> cp_connection_id p = None /\ api_key_target spec ∈ keys (cp_set_variables p) /\
    (base_url_required spec = true -> base_url_target spec ∈ keys (cp_set_variables p)) /\
    forall n v, (n, v) ∈ cp_set_variables p -> api_variable agent spec env n v;
  po_subscription : cp_mode p = SUBSCRIPTION -> exists read, reader = Some read /\ subscription_ok agent spec env timeout now read p
}.

Lemma str_truthy_true s : str_truthy s = true <-> s <> "".
Proof. by destruct s. Qed.

Lemma str_truthy_false s : str_truthy s = false <-> s = "".
Proof. by destruct s. Qed.

Lemma api_key_plan_ok agent spec env timeout now reader p : (agent, spec) ∈ AGENTS ->
  env_text (mode_variable spec) env = CredentialMode_value API_KEY ->
  api_key_plan ip6 agent spec env = Ok p -> plan_ok agent spec env timeout now reader p.
Proof.
  intros Hs Hm. unfold api_key_plan. intros (? & Hk%raise_if_Ok%negb_false_iff & H)%bind_Ok.
  apply bind_Ok in H as (? & Hb%raise_if_Ok & H). apply bind_Ok in H as (u & Hc & H). apply bind_Ok in H as (model & Hmodel & [= <-]).
  apply str_truthy_true in Hk.
  assert (forall n v, (n, v) ∈ model -> api_variable agent spec env n v) as Hmv.
  { destruct (str_in agent MODEL_SEEDED_AGENTS); [|injection Hmodel as <-; by intros n v ?%not_elem_of_nil].
    apply bind_Ok in Hmodel as (s & Hsel & Hmodel). apply bind_Ok in Hmodel as (m & Hms%require_some_Ok & Hmodel).
    apply bind_Ok in Hmodel as (variable & Hv%require_some_Ok & [= <-]). intros n v [= -> ->]%list_elem_of_singleton. by eapply av_model. }
  split; try done.
  - intros n. apply elem_strip.
  - simpl. intros s [->|Hin]%elem_of_cons; [left|]. destruct (base_url_seed spec), (str_truthy _); simpl in *;
      try by apply not_elem_of_nil in Hin. apply list_elem_of_singleton in Hin as ->. simpl. set_solver.
  - intros _. split; [done|]. split; [left|]. split.
    + intros Hr. rewrite Hr in Hb. apply negb_false_iff in Hb. simpl in *. rewrite Hb. simpl. set_solver.
    + simpl. intros n v [[= -> ->]|Hin]%elem_of_cons; [by constructor|]. apply elem_of_app in Hin as [Hin|Hin]; [|by apply Hmv].
      destruct (str_truthy (env_text (base_url_source spec) env)) eqn:E; [|by apply not_elem_of_nil in Hin].
      apply list_elem_of_singleton in Hin as [= -> ->]. apply str_truthy_true in E. destruct u. constructor; [done|].
      by eapply check_base_url_public.
Qed.

Lemma check_expiry_Ok agent id expires_at timeout now e : check_expiry agent id expires_at timeout now = Ok () -> expires_at = Some e ->
  dt_aware e = true /\ dt_us now + timeout * seconds + 600 * seconds < dt_us e.
Proof.
  intros H ->. unfold check_expiry in H. apply bind_Ok in H as (? & Ha%raise_if_Ok%negb_false_iff & H).
  apply bind_Ok in H as (lifetime & Hl & H). apply bind_Ok in H as (until & Hu & H). apply bind_Ok in H as (deadline & Hd & H).
  apply bind_Ok in H as (late & Hlate & H%raise_if_Ok). subst late. split; [done|].
  unfold timedelta in Hl. apply bind_Ok in Hl as (? & _ & [= <-]). unfold dt_plus in *.
  apply bind_Ok in Hu as (? & _ & [= <-]). apply bind_Ok in Hd as (? & _ & [= <-]).
  unfold dt_le in Hlate. destruct (Bool.eqb _ _); [|done]. injection Hlate as Hlate. boolify. simpl in *. unfold EXPIRY_MARGIN in *. lia.
Qed.

Lemma subscription_plan_ok agent spec env timeout now reader p :
  env_text (mode_variable spec) env = CredentialMode_value SUBSCRIPTION -> subscription_supported spec = true ->
  subscription_plan agent spec env reader timeout now = Ok p -> plan_ok agent spec env timeout now reader p.
Proof.
  intros Hm Hsup. unfold subscription_plan. intros (? & Hb%raise_if_Ok%str_truthy_false & H)%bind_Ok.
  apply bind_Ok in H as (? & Hid%raise_if_Ok%negb_false_iff%str_truthy_true & H). apply bind_Ok in H as (read & Hr%require_some_Ok & H).
  apply bind_Ok in H as (m & Hread & H). apply bind_Ok in H as (? & Hun%raise_if_Ok%bool_decide_eq_false%dec_stable & H).
  apply bind_Ok in H as (? & Hne%raise_if_Ok%negb_false_iff & H). apply bind_Ok in H as ([] & He & [= <-]).
  split; try done.
  - intros n. apply elem_strip.
  - simpl. intros s (va & Hva & ->)%elem_map. apply elem_filterb in Hva as [_ Hva]. by apply bool_decide_eq_true in Hva.
  - intros _. exists read. split; [done|]. split; [done|done|]. exists (env_text (connection_variable spec) env), m.
    split_and!; try done.
    + intros n Hn. destruct (decide (n ∈ conflicting agent)) as [|Hnot]; [done|exfalso].
      assert (n ∈ str_sorted (remove_dups (List.filter (fun n => negb (str_in n (conflicting agent))) (keys (cm_variables m))))) as Hin.
      { unfold str_sorted. rewrite sort_by_perm, elem_of_remove_dups, elem_filterb. split; [done|].
        unfold str_in. by rewrite bool_decide_eq_false_2. }
      unfold conflicting in Hin. rewrite Hun in Hin. by apply not_elem_of_nil in Hin.
    + apply existsb_exists in Hne as ([n v] & Hin%list_elem_of_In & Hv). exists n, v. split; [done|]. by apply str_truthy_true.
    + intros e Hexp. by eapply check_expiry_Ok.
Qed.

(** C12: a plan is made only in the mode its kind declares, from the settings of
    that kind: an api-key plan sets the key, a base URL that is public and the
    model, nothing else; a subscription plan sets what the named connection
    gave, all of it the kind's own, for longer than the sandbox lives.  Every
    other variable that could replace the credential is stripped, and seeds
    name variables the plan sets. *)
Theorem credential_plan_spec agent env reader timeout now p :
  resolve_credential_plan ip6 agent env reader timeout now = Ok p ->
  exists spec, (agent, spec) ∈ AGENTS /\ plan_ok agent spec env timeout now reader p.
Proof.
  unfold resolve_credential_plan. intros (spec & Hs%spec_elem & H)%bind_Ok. apply bind_Ok in H as (mode & Hm%mode_of_Ok & H).
  apply bind_Ok in H as (? & Hsup%raise_if_Ok & H). exists spec. split; [done|].
  destruct mode; [|by eapply api_key_plan_ok]. simpl in Hsup. apply negb_false_iff in Hsup. by eapply subscription_plan_ok.
Qed.

(** ** What a plan depends on *)

(** The settings a kind reads. *)
Definition own_settings (agent : string) (spec : AgentSpec) : list string :=
  [mode_variable spec; connection_variable spec; api_key_source spec; base_url_source spec] ++
  match assoc agent MODEL_VARIABLES with Some v => [v] | None => [] end.

Definition agree (names : list string) (env env' : environ) : Prop := forall n, n ∈ names -> env !! n = env' !! n.

Lemma env_text_agree names env env' n : agree names env env' -> n ∈ names -> env_text n env = env_text n env'.
Proof. intros H Hn. unfold env_text. by rewrite (H n Hn). Qed.

Lemma models_agree agent spec env env' : agree (own_settings agent spec) env env' ->
  resolve_agent_models agent env = resolve_agent_models agent env'.
Proof.
  intros H. unfold resolve_agent_models. destruct (assoc agent MODEL_VARIABLES) as [v|] eqn:E; [|done].
  assert (read_model v env = read_model v env') as ->; [|done]. unfold read_model.
  rewrite (env_text_agree _ _ _ v H); [done|]. unfold own_settings. rewrite E. set_solver.
Qed.

Lemma api_key_plan_agree agent spec env env' : agree (own_settings agent spec) env env' ->
  api_key_plan ip6 agent spec env = api_key_plan ip6 agent spec env'.
Proof.
  intros H. unfold api_key_plan.
  rewrite (env_text_agree _ _ _ (api_key_source spec) H), (env_text_agree _ _ _ (base_url_source spec) H),
    (models_agree _ _ _ _ H); [done|unfold own_settings; set_solver..].
Qed.

Lemma resolve_agree agent spec env env' reader timeout now : (agent, spec) ∈ AGENTS -> agree (own_settings agent spec) env env' ->
  resolve_credential_plan ip6 agent env reader timeout now = resolve_credential_plan ip6 agent env' reader timeout now.
Proof.
  intros Hs H. assert (spec_of agent = Ok spec) as Hspec by by each_kind Hs.
  unfold resolve_credential_plan. rewrite Hspec. cbn [mbind result_bind].
  assert (forall n, n ∈ own_settings agent spec -> env_text n env = env_text n env') as Ht by (intros n; by apply env_text_agree).
  assert (mode_of spec env = mode_of spec env') as -> by (unfold mode_of; rewrite Ht; [done|unfold own_settings; set_solver]).
  rewrite (api_key_plan_agree _ _ _ _ H). unfold subscription_plan.
  rewrite (Ht (base_url_source spec)), (Ht (connection_variable spec)); [done|unfold own_settings; set_solver..].
Qed.

(** A plan with another key. *)
Definition with_key (spec : AgentSpec) (key : string) (p : CredentialPlan) : CredentialPlan :=
  match cp_mode p with
  | SUBSCRIPTION => p
  | API_KEY => {| cp_agent := cp_agent p; cp_mode := API_KEY; cp_connection_id := cp_connection_id p;
      cp_set_variables := map (fun kv => if str_eq kv.1 (api_key_target spec) then (kv.1, key) else kv) (cp_set_variables p);
      cp_strip_variables := cp_strip_variables p; cp_seed_steps := cp_seed_steps p |}
  end.

Lemma keys_with_key spec key p : keys (cp_set_variables (with_key spec key p)) = keys (cp_set_variables p).
Proof.
  unfold with_key, keys. destruct (cp_mode p); [done|]. simpl. rewrite List.map_map. apply List.map_ext.
  intros [n v]. simpl. by destruct (str_eq _ _).
Qed.

Lemma with_key_repr spec key p : plan_repr (with_key spec key p) = plan_repr p.
Proof.
  unfold plan_repr, redacted. rewrite keys_with_key. unfold with_key. destruct (cp_mode p) eqn:E; [by rewrite E|]. simpl. by rewrite ?E.
Qed.

Lemma env_text_insert_ne n k v env : n <> k -> env_text n (<[k := v]> env) = env_text n env.
Proof. intros H. unfold env_text. exact (f_equal (fun o => str_strip (or_empty o)) (lookup_insert_ne (M := gmap string) env k n v (not_eq_sym H))). Qed.

Lemma env_text_insert k v env : env_text k (<[k := v]> env) = str_strip v.
Proof. unfold env_text. exact (f_equal (fun o => str_strip (or_empty o)) (lookup_insert_eq (M := gmap string) env k v)). Qed.

Lemma models_insert agent spec k v env : (agent, spec) ∈ AGENTS -> k = api_key_source spec ->
  resolve_agent_models agent (<[k := v]> env) = resolve_agent_models agent env.
Proof.
  intros Hs ->. unfold resolve_agent_models, read_model. destruct (assoc agent MODEL_VARIABLES) as [n|] eqn:E; [|done].
  rewrite env_text_insert_ne; [done|]. each_kind Hs; simpl in E; injection E as <-; distinct.
Qed.

Lemma plan_with_key agent spec key key' base model seeds : (agent, spec) ∈ AGENTS -> api_key_target spec ∉ keys (base ++ model) ->
  plan agent API_KEY None ((api_key_target spec, key') :: base ++ model) seeds =
  with_key spec key' (plan agent API_KEY None ((api_key_target spec, key) :: base ++ model) seeds).
Proof.
  intros Hs Hn.
  assert (map (fun kv : string * string => if str_eq kv.1 (api_key_target spec) then (kv.1, key') else kv)
    ((api_key_target spec, key) :: base ++ model) = (api_key_target spec, key') :: base ++ model) as Hmap.
  { cbn [map fst]. unfold str_eq at 1. rewrite bool_decide_eq_true_2 by done. f_equal.
    rewrite List.map_ext_in with (g := id); [by rewrite List.map_id|]. intros [n v] Hin. cbn [fst]. unfold str_eq.
    rewrite bool_decide_eq_false_2; [done|]. intros ->. apply Hn, elem_map. exists (api_key_target spec, v).
    split; [by apply list_elem_of_In|done]. }
  unfold with_key, plan. cbn [cp_mode cp_set_variables cp_agent cp_connection_id cp_strip_variables cp_seed_steps].
  by rewrite Hmap.
Qed.

Lemma api_key_plan_insert agent spec env key : (agent, spec) ∈ AGENTS -> str_strip key <> "" -> forall key', str_strip key' <> "" ->
  api_key_plan ip6 agent spec (<[api_key_source spec := key']> env) =
  with_key spec (str_strip key') <$> api_key_plan ip6 agent spec (<[api_key_source spec := key]> env).
Proof.
  intros Hs Hk key' Hk'. unfold api_key_plan.
  assert (forall v, env_text (base_url_source spec) (<[api_key_source spec := v]> env) = env_text (base_url_source spec) env) as Hb.
  { intros v. apply env_text_insert_ne. each_kind Hs; distinct. }
  rewrite !Hb, !env_text_insert, !(models_insert _ _ _ _ _ Hs eq_refl).
  apply str_truthy_true in Hk, Hk'. rewrite Hk, Hk'. cbn [negb raise_if mbind result_bind fmap result_fmap].
  destruct (raise_if _ _) as [[]|e]; [|done]. cbn [mbind result_bind].
  destruct (if str_truthy _ then check_base_url _ _ _ else Ok ()) as [[]|e]; [|done]. cbn [mbind result_bind].
  destruct (if str_in _ _ then _ else _) as [model|e] eqn:Em; [|done]. cbn [app mbind result_bind fmap result_fmap]. f_equal.
  apply (plan_with_key _ _ _ _ (if str_truthy _ then _ else _)); [done|].
  assert (api_key_target spec ∉ keys model) as Hm.
  { destruct (str_in agent MODEL_SEEDED_AGENTS); [|injection Em as <-; by intros ?%not_elem_of_nil].
    apply bind_Ok in Em as (s & _ & Em). apply bind_Ok in Em as (m & _ & Em). apply bind_Ok in Em as (variable & Hv%require_some_Ok & [= <-]).
    intros H%list_elem_of_singleton. revert H. each_kind Hs; simpl in Hv; injection Hv as <-; distinct. }
  unfold keys. rewrite List.map_app. intros [H|H]%elem_of_app; [|by apply Hm].
  destruct (str_truthy (env_text _ env)); [|by apply not_elem_of_nil in H]. apply list_elem_of_singleton in H. revert H. each_kind Hs; distinct.
Qed.

(** C14: resolution depends on the settings of the kind alone, so no other
    variable is a fallback; and the key only becomes the value of its one
    variable: no error, no name, no seed and no printed plan depends on it. *)
Theorem credential_hidden agent spec env env' reader timeout now key key' : (agent, spec) ∈ AGENTS ->
  let resolve env := resolve_credential_plan ip6 agent env reader timeout now in
  (agree (own_settings agent spec) env env' -> resolve env = resolve env') /\
  (str_strip key <> "" -> str_strip key' <> "" ->
   resolve (<[api_key_source spec := key']> env) = with_key spec (str_strip key') <$> resolve (<[api_key_source spec := key]> env)) /\
  (forall p, plan_repr (with_key spec key p) = plan_repr p).
Proof.
  intros Hs resolve. split; [by apply resolve_agree|]. split; [|intros p; apply with_key_repr]. intros Hk Hk'.
  assert (spec_of agent = Ok spec) as Hspec by by each_kind Hs.
  unfold resolve, resolve_credential_plan. rewrite Hspec. cbn [mbind result_bind].
  assert (forall n v, n ∈ [mode_variable spec; connection_variable spec; base_url_source spec] ->
    env_text n (<[api_key_source spec := v]> env) = env_text n env) as Ht.
  { intros n v Hn. apply env_text_insert_ne. revert n Hn. apply Forall_forall.
    each_kind Hs; (repeat constructor); distinct. }
  assert (forall v, mode_of spec (<[api_key_source spec := v]> env) = mode_of spec env) as Hm.
  { intros v. unfold mode_of. by rewrite Ht by set_solver. }
  rewrite !Hm. destruct (mode_of spec env) as [mode|e]; [|done]. cbn [mbind result_bind].
  destruct (raise_if _ _) as [[]|e]; [|done]. cbn [mbind result_bind]. destruct mode; [|by apply api_key_plan_insert].
  unfold subscription_plan. rewrite !Ht by set_solver. cbn [fmap result_fmap].
  destruct (_ ≫= _) as [p|e] eqn:E; [|done]. assert (cp_mode p = SUBSCRIPTION) as Hmode.
  { repeat (apply bind_Ok in E as (? & _ & E)). injection E as <-. reflexivity. }
  cbn [fmap result_fmap]. unfold with_key. by rewrite Hmode.
Qed.
End plans.

(** ** The [.env] file *)

(** Loading never changes a variable that is already there, even an empty one;
    it answers the names it added, each once. *)
Lemma load_lines_spec dotenv lines : forall number env env' r, load_lines dotenv number lines env = (env', r) ->
  (forall n v, env !! n = Some v -> env' !! n = Some v) /\
  (forall names, r = Ok names -> NoDup names /\ forall n, n ∈ names <-> env !! n = None /\ is_Some (env' !! n)).
Proof.
  induction lines as [|line lines IH]; intros number env env' r H; simpl in H.
  { injection H as <- <-. split; [done|]. intros names [= <-]. split; [constructor|]. intros n.
    split; [by intros ?%not_elem_of_nil|]. intros [-> []]. done. }
  destruct (parse_line line dotenv number) as [[[name value]|]|e] eqn:E; [|by eapply IH|].
  - destruct (env !! name) as [w|] eqn:En; [by eapply IH|].
    destruct (load_lines _ _ _ _) as [env1 loaded] eqn:El. injection H as <- <-. destruct (IH _ _ _ _ El) as [Hkeep Hnames].
    split.
    + intros n v Hn. apply Hkeep. transitivity (env !! n); [|done]. apply (lookup_insert_ne (M := gmap string)). congruence.
    + intros names Hok. destruct loaded as [ns|e]; [|done]. simpl in Hok. injection Hok as <-.
      destruct (Hnames _ eq_refl) as [Hnd Hin]. assert ((<[name := value]> env) !! name = Some value) as Hself by exact (lookup_insert_eq (M := gmap string) env name value). split.
      * apply NoDup_cons. split; [|done]. rewrite Hin. intros [Hbad _]. congruence.
      * intros n. rewrite elem_of_cons, Hin. destruct (decide (n = name)) as [->|Hne].
        -- split; [intros _|by left]. split; [done|]. exists value. by apply Hkeep.
        -- assert ((<[name := value]> env) !! n = env !! n) as -> by exact (lookup_insert_ne (M := gmap string) env name n value (not_eq_sym Hne)).
           naive_solver.
  - injection H as <- <-. split; [done|]. by intros names.
Qed.

(** ** A concrete resolution *)

Module Demo.
Definition now : datetime := DateTime 0 true.
Definition env : environ := list_to_map [("SDF_CREDENTIAL_MODE_CODEX", "api-key"); ("OPENAI_API_KEY", " sk-demo ");
  ("OPENAI_BASE_URL", "https://models.example.com/v1"); ("SDF_CREDENTIAL_MODE_CLAUDE", "subscription"); ("SDF_CONNECTION_CLAUDE", "work")].
Definition reader (agent id : string) : result ConnectionMaterial :=
  Ok {| cm_variables := [("CLAUDE_CODE_OAUTH_TOKEN", "token")]; cm_expires_at := Some (DateTime (5000 * seconds) true) |}.
End Demo.

Lemma credential_plan_spec_witness : exists p spec, ("codex", spec) ∈ AGENTS /\
  plan_ok no_ip6 "codex" spec Demo.env 3600 Demo.now None p.
Proof. eexists. apply (credential_plan_spec no_ip6 "codex" Demo.env None 3600 Demo.now). vm_compute. reflexivity. Defined.

Example subscription_plan_demo :
  (p ← resolve_credential_plan no_ip6 "claude" Demo.env (Some Demo.reader) 3600 Demo.now; Ok (cp_connection_id p, keys (cp_set_variables p))) =
  Ok (Some "work", ["CLAUDE_CODE_OAUTH_TOKEN"]).
Proof. vm_compute. reflexivity. Qed.

Lemma credential_hidden_witness :
  let resolve env := resolve_credential_plan no_ip6 "codex" env None 3600 Demo.now in
  (agree (own_settings "codex" codex_spec) Demo.env Demo.env -> resolve Demo.env = resolve Demo.env) /\
  (str_strip "sk-one" <> "" -> str_strip "sk-two" <> "" ->
   resolve (<["OPENAI_API_KEY" := "sk-two"]> Demo.env) = with_key codex_spec (str_strip "sk-two") <$> resolve (<["OPENAI_API_KEY" := "sk-one"]> Demo.env)) /\
  (forall p, plan_repr (with_key codex_spec "sk-one" p) = plan_repr p).
Proof.
  apply (credential_hidden no_ip6 "codex" codex_spec Demo.env Demo.env None 3600 Demo.now "sk-one" "sk-two"). right; left.
Defined.
