(* ===== verification/Injection.v ===== *)
(** * Injection: the variables and seeds of a sandbox at its creation

    Models [src/sdf_core/credential_injection.py], the bridge of
    [src/sdf_core/plugin_bridge.py] to the installed plugin, and the command
    lines of [src/sdf_core/turn_guard.py] and [src/sdf_core/subagents.py].  The
    scripts that run inside a sandbox are text for another machine: an
    argument names them.  So is what the plugin's helper process answers. *)

From S2P Require Import Prelude Floats Json Db EvidenceMac Checks Evaluate Impact Usage Recovery Runtime Url Credentials CredentialsFacts.

(** ** Shell text *)

(** [shlex.quote] *)
Definition is_shell_safe (c : ascii) : bool := model_char "_@%+=:,./-" c.
Definition quote_char (c : ascii) : string :=
  if bool_decide (c = ch "'") then "'" +:+ dquoted "'" +:+ "'" else String c "".
Definition shell_quote (s : string) : string :=
  if negb (str_truthy s) then "''" else if str_forallb is_shell_safe s then s else "'" +:+ str_concat_map quote_char s +:+ "'".

Example shell_quote_tests : map shell_quote ["NAME"; ""; "a b"; "it's"] =
  ["NAME"; "''"; "'a b'"; "'it'" +:+ dquoted "'" +:+ "'s'"].
Proof. vm_compute. reflexivity. Qed.

(** ** Seeds *)

Definition SEED_ACTIONS : list string := [
  "claude-approve-api-key"; "codex-auth-json-api-key"; "codex-config-base-url"; "codex-auth-json"; "opencode-config"; "pi-models";
  "qwen-key-ref"; "goose-provider"
].

Definition CREDENTIAL_NAMES : list string := concat (map snd CONFLICTING_VARIABLES).

Record CredentialInjection : Type := {
  ci_envs : list (string * string); ci_strip_variables : list string; ci_seed_commands : list string;
  ci_metadata : list (string * CredentialMetadata); ci_credential_variables : list string
}.

(** [CredentialInjection.__post_init__]: provider names are always guarded. *)
Definition new_injection (envs : list (string * string)) (strip seeds : list string) (metadata : list (string * CredentialMetadata))
    (credentials : list string) : result CredentialInjection :=
  let guarded := credentials ++ CREDENTIAL_NAMES in
  match List.find (fun kv : string * string =>
    str_in kv.1 guarded && str_truthy kv.2 && existsb (str_contains kv.2) seeds) envs with
  | Some kv => Err (CredentialConfigError ("a credential seed command carries the value of " +:+ kv.1 +:+ "; seeds may name it only"))
  | None => Ok {| ci_envs := envs; ci_strip_variables := strip; ci_seed_commands := seeds; ci_metadata := metadata; ci_credential_variables := guarded |}
  end.

(** [d[k] = v] and [d.update(e)] on a dict of strings. *)
Fixpoint put (k v : string) (d : list (string * string)) : list (string * string) :=
  match d with
  | [] => [(k, v)]
  | (i, w) :: d => if str_eq i k then (i, v) :: d else (i, w) :: put k v d
  end.
Definition update (d e : list (string * string)) : list (string * string) := foldl (fun d kv => put kv.1 kv.2 d) d e.

Section seeds.
Context (script : string -> string) (pane_env : string).

Definition seed_command (step : SeedStep) : result string :=
  _ ← raise_if (negb (str_in (seed_action step) SEED_ACTIONS))
        (CredentialConfigError ("unknown credential seed action " +:+ str_repr (seed_action step)));
  Ok ("if [ -n " +:+ dquoted ("$" +:+ seed_variable step) +:+ " ]; then node -e " +:+ shell_quote (script (seed_action step)) +:+ " " +:+
      shell_quote (seed_variable step) +:+ "; fi").

Definition env_name_start (c : ascii) : bool := is_upper c || bool_decide (c = ch "_").
Definition env_name_char (c : ascii) : bool := is_upper c || is_digit c || bool_decide (c = ch "_").
Definition is_env_name (s : string) : bool := starts env_name_start s && str_forallb env_name_char s.

Definition pane_env_command (variables : list string) : result string :=
  let names := fromkeys variables in
  match List.find (fun n => negb (is_env_name n)) names with
  | Some n => Err (CredentialConfigError ("invalid sandbox variable name " +:+ str_repr n))
  | None => Ok ("node -e " +:+ shell_quote pane_env +:+ " " +:+ str_join " " names)
  end.

Section prepare.
Context (ip6 : string -> option Ip6) (reader : string -> string -> result ConnectionMaterial) (timeout : Z) (now : string -> datetime).

(** The plan of every kind, each resolved once; [now agent] is the clock then. *)
Definition resolve_plans (agents : list string) (env : environ) : result (list (string * CredentialPlan)) :=
  result_fold (fun plans agent =>
    if existsb (fun ap : string * CredentialPlan => str_eq ap.1 agent) plans then Ok plans
    else p ← resolve_credential_plan ip6 agent env (Some reader) timeout (now agent); Ok (plans ++ [(agent, p)])) [] agents.

Definition credential_envs (plans : list (string * CredentialPlan)) : list (string * string) :=
  foldl (fun envs ap => update envs (cp_set_variables ap.2)) [] plans.
Definition strips (plans : list (string * CredentialPlan)) : list string :=
  fromkeys (concat (map (fun ap => cp_strip_variables ap.2) plans)).

Definition plan_metadata (ap : string * CredentialPlan) : result (string * CredentialMetadata) :=
  let m := {| credential_mode := CredentialMode_value (cp_mode ap.2); connection_id := cp_connection_id ap.2 |} in
  _ ← credential_post_init m; Ok (ap.1, m).

Definition prepare_credential_injection (agents : list string) (env : environ) (base_envs : list (string * string)) : result CredentialInjection :=
  plans ← resolve_plans agents env;
  _ ← raise_if (bool_decide (map fst plans = []))
        (CredentialConfigError "no agent kinds to credential; name the agents the runtime will start");
  let credentials := credential_envs plans in
  let strip := strips plans in
  let clash := str_sorted (List.filter (fun n => str_in n (keys credentials)) strip) in
  _ ← raise_if (bool_decide (clash <> [])) (CredentialConfigError ("agent credentials conflict in one sandbox: " +:+ str_join ", " clash));
  let envs := update (List.filter (fun kv : string * string => negb (str_in kv.1 strip)) base_envs) credentials in
  seeds ← result_map seed_command (concat (map (fun ap => cp_seed_steps ap.2) plans));
  pane ← pane_env_command (str_sorted (keys credentials));
  metadata ← result_map plan_metadata plans;
  new_injection envs strip (seeds ++ [pane]) metadata (keys credentials).
End prepare.
End seeds.

(** ** Building the transport *)

Definition SANDBOX_PROVIDERS : list string := ["e2b"; "daytona"].
Definition DEFAULT_SANDBOX_PROVIDER : string := "e2b".

Definition resolve_sandbox_provider (env : environ) (provider : option string) : result string :=
  let raw := match provider with Some p => p | None => default DEFAULT_SANDBOX_PROVIDER (env !! "SDF_SANDBOX_PROVIDER") end in
  let stripped := str_lower (str_strip (if str_truthy raw then raw else DEFAULT_SANDBOX_PROVIDER)) in
  let selected := if str_truthy stripped then stripped else DEFAULT_SANDBOX_PROVIDER in
  _ ← raise_if (negb (str_in selected SANDBOX_PROVIDERS)) (CredentialConfigError
        ("SDF_SANDBOX_PROVIDER must be one of " +:+ str_join ", " (str_sorted SANDBOX_PROVIDERS) +:+ "; got " +:+ str_repr raw));
  Ok selected.

(** What [create_credentialed_transport] constructs: the provider's transport
    on an image, with an injection.  [prepare] is [prepare_credential_injection]
    on the caller's agents. *)
Record Transport : Type := { tp_provider : string; tp_image : string; tp_injection : CredentialInjection }.

(** [a or b or c] on optional strings, stripped. *)
Definition first_text (l : list string) : string := str_strip (default "" (List.find str_truthy l)).

Definition create_credentialed_transport (prepare : result CredentialInjection) (env : environ) (template snapshot provider : option string)
    : result Transport :=
  selected ← resolve_sandbox_provider env provider;
  if str_eq selected "daytona" then
    let image := first_text [or_empty snapshot; or_empty template; or_empty (env !! "SDF_DAYTONA_SNAPSHOT")] in
    _ ← raise_if (negb (str_truthy image)) (CredentialConfigError
          "Daytona credentialed transport requires snapshot= (or template= / SDF_DAYTONA_SNAPSHOT)");
    injection ← prepare;
    Ok {| tp_provider := selected; tp_image := image; tp_injection := injection |}
  else
    let image := str_strip (or_empty template) in
    _ ← raise_if (negb (str_truthy image)) (CredentialConfigError "E2B credentialed transport requires template=");
    injection ← prepare;
    Ok {| tp_provider := selected; tp_image := image; tp_injection := injection |}.

(** ** Seeding a sandbox

    The transport's connection and the provider's id; the commands run, in
    order; whether the sandbox was asked to stop.  [open] is the provider's
    creation, [connect] a new connection to a known sandbox, [exec] one command. *)

Record Box : Type := { bx_connected : bool; bx_id : option string; bx_ran : list string; bx_killed : bool }.

Definition HerdrRuntimeError (msg : string) : exn := OtherError "HerdrRuntimeError" msg.
Definition is_herdr_error (e : exn) : bool := str_eq (exn_class e) "HerdrRuntimeError".

(** [_kill_after_timeout]: the binding is forgotten whatever the provider says. *)
Definition kill_box (b : Box) : Box :=
  match bx_id b with
  | None => b
  | Some _ => {| bx_connected := false; bx_id := None; bx_ran := bx_ran b; bx_killed := true |}
  end.

Section box.
Context (open : result string) (connect : string -> result unit) (exec : string -> result string) (seeds : list string).

(** [_seed]: a failing seed kills the sandbox, and its output is dropped. *)
Fixpoint seed (commands : list string) (b : Box) : Box * result unit :=
  match commands with
  | [] => (b, Ok ())
  | c :: commands =>
      let b := {| bx_connected := bx_connected b; bx_id := bx_id b; bx_ran := bx_ran b ++ [c]; bx_killed := bx_killed b |} in
      match exec c with
      | Ok _ => seed commands b
      | Err e =>
          if is_herdr_error e then (kill_box b, Err (HerdrRuntimeError "credential seed step failed; sandbox killed")) else (b, Err e)
      end
  end.

(** [_ensure_sandbox]: only a sandbox it creates is fresh. *)
Definition ensure_sandbox (b : Box) : Box * result unit :=
  if bx_connected b then (b, Ok ())
  else
    match bx_id b with
    | Some id =>
        match connect id with
        | Ok _ => ({| bx_connected := true; bx_id := Some id; bx_ran := bx_ran b; bx_killed := bx_killed b |}, Ok ())
        | Err e => (b, Err e)
        end
    | None =>
        match open with
        | Ok id => seed seeds {| bx_connected := true; bx_id := Some id; bx_ran := bx_ran b; bx_killed := bx_killed b |}
        | Err e => (b, Err e)
        end
    end.

(** A sandbox that was created is handed out only when every seed ran in it, in
    order and once; when a seed fails it is stopped and forgotten, and the error
    is one text. *)
Lemma seed_spec commands : forall b b' r, bx_id b <> None -> seed commands b = (b', r) ->
  (r = Ok () -> b' = {| bx_connected := bx_connected b; bx_id := bx_id b; bx_ran := bx_ran b ++ commands; bx_killed := bx_killed b |}) /\
  (forall e, r = Err e -> is_herdr_error e = true -> bx_connected b' = false /\ bx_id b' = None /\ bx_killed b' = true /\
     e = HerdrRuntimeError "credential seed step failed; sandbox killed").
Proof.
  induction commands as [|c commands IH]; intros b b' r Hid H; simpl in H.
  { injection H as <- <-. split; [|by intros e]. intros _. rewrite app_nil_r. by destruct b. }
  destruct (exec c) as [out|e] eqn:Ec.
  - edestruct IH as [H1 H2]; [|exact H|]; [done|]. split; [|done]. intros Hr. rewrite (H1 Hr). simpl. by rewrite <- app_assoc.
  - destruct (is_herdr_error e) eqn:Ee; injection H as <- <-; (split; [done|]).
    + intros e' [= <-] _. unfold kill_box. simpl. by destruct (bx_id b).
    + intros e' [= <-] Hh. congruence.
Qed.
End box.

Definition CLAUDE_SETTINGS_SUFFIX : string := "/.config/sdf/claude-settings.json".

(** [prepare_agent_workspace]: the path its command printed, for Claude. *)
Definition prepare_agent_workspace (trust_script : string -> option string) (exec : string -> result string) (agent workspace : string)
    : result (option string) :=
  match trust_script agent with
  | None => Ok None
  | Some script =>
      out ← exec ("node -e " +:+ shell_quote script +:+ " " +:+ shell_quote workspace);
      if negb (str_eq agent "claude") then Ok None
      else
        let path := str_strip (List.last (str_splitlines (str_strip out)) "") in
        Ok (if str_startswith "/" path && str_endswith CLAUDE_SETTINGS_SUFFIX path then Some path else None)
  end.

(** ** The plugin bridge *)

(** [find_plugin], on the candidates that hold the module: modification time
    and path. *)
Definition newer (a b : float * string) : bool := if negb (f_eq a.1 b.1) then f_lt b.1 a.1 else negb (str_le a.2 b.2).
Definition find_plugin (searched : string) (candidates : list (float * string)) : result string :=
  match candidates with
  | [] => Err (CredentialConfigError ("herdr-e2b plugin not found: searched " +:+ searched +:+ " for src/connections.js"))
  | c :: l => Ok (max_by newer c l).2
  end.

(** The environment of the helper process. *)
Definition CHILD_VARIABLES : list string := ["HOME"; "PATH"; "USER"; "XDG_CONFIG_HOME"; "HERDR_PLUGIN_CONFIG_DIR"].
Definition child_environ (env : environ) : environ :=
  list_to_map (omap (fun n => v ← env !! n; Some (n, v)) CHILD_VARIABLES).

(** [_expiry]; [fromisoformat] is [datetime.fromisoformat] after [Z] became an offset. *)
Definition expiry (fromisoformat : string -> option datetime) (raw : json) (connection_id : string) : result (option datetime) :=
  match raw with
  | JNull => Ok None
  | _ =>
      e ← require_some (match raw with JStr s => fromisoformat s | _ => None end)
            (CredentialConfigError ("connection " +:+ str_repr connection_id +:+ " returned an unreadable expiry"));
      _ ← raise_if (negb (dt_aware e)) (CredentialConfigError ("connection " +:+ str_repr connection_id +:+ " returned an expiry without a timezone"));
      Ok (Some e)
  end.

Definition text_values (kvs : list (string * json)) : option (list (string * string)) :=
  mapM (fun kv : string * json => match kv.2 with JStr s => Some (kv.1, s) | _ => None end) kvs.

(** [PluginConnectionBridge.__call__] on the reply of the helper, [None] for
    output that is not a JSON object in UTF-8; [repr] prints a JSON value. *)
Definition read_reply (fromisoformat : string -> option datetime) (repr : json -> string) (reply : option (list (string * json)))
    (agent connection_id : string) : result ConnectionMaterial :=
  let id := str_repr connection_id in
  reply ← require_some reply (CredentialConfigError ("the herdr-e2b plugin bridge returned unreadable output for connection " +:+ id));
  _ ← (if json_truthy (kv_get "ok" reply) then Ok ()
       else if py_eq (kv_get "error" reply) (JStr "unknown-connection")
       then Err (CredentialConfigError ("unknown herdr-e2b connection " +:+ id +:+ "; run e2b-box auth list"))
       else Err (CredentialConfigError ("the herdr-e2b plugin could not provide connection " +:+ id +:+
              "; run e2b-box auth check " +:+ connection_id)));
  let harness := kv_get "harness" reply in
  _ ← raise_if (negb (py_eq harness (JStr agent)))
        (CredentialConfigError ("connection " +:+ id +:+ " is for harness " +:+ repr harness +:+ ", not agent " +:+ str_repr agent));
  variables ← require_some (match kv_get "variables" reply with JObj kvs => text_values kvs | _ => None end)
    (CredentialConfigError ("connection " +:+ id +:+ " returned malformed material"));
  expires ← expiry fromisoformat (kv_get "expiresAt" reply) connection_id;
  Ok {| cm_variables := variables; cm_expires_at := expires |}.

(** ** Command lines around a turn

    The scripts of [turn_guard.py] are text for the sandbox's shell. *)

Definition GRACE_S : Z := 3.

Definition check_id (value : string) : result string :=
  if (1 <=? str_len value) && (str_len value <=? 120) && str_forallb (model_char "_-") value then Ok value
  else Err (ValueError "turn id must be 1-120 letters, digits, underscores or hyphens").

Section turns.
Context (guard kill enter sweep : string).

Definition guard_argv (turn_id : string) (argv : list string) (grace : Z) : result (list string) :=
  _ ← raise_if (bool_decide (argv = [])) (ValueError "turn argv must not be empty");
  id ← check_id turn_id;
  Ok (["sh"; "-c"; guard; "sdf-turn-guard"; id; pretty grace] ++ argv).

Definition kill_argv (prefixes : list string) (grace : Z) : result (list string) :=
  _ ← raise_if (bool_decide (prefixes = [])) (ValueError "at least one turn-id prefix is required");
  ids ← result_map check_id prefixes;
  Ok (["sh"; "-c"; kill; "sdf-turn-kill"; pretty grace] ++ ids).

Definition check_root (root_pid : Z) : result unit := raise_if (root_pid <=? 1) (ValueError "root pid must be an integer > 1").

Definition enter_argv (turn_id : string) (root_pid : Z) : result (list string) :=
  _ ← check_root root_pid; id ← check_id turn_id; Ok ["sh"; "-c"; enter; "sdf-turn-enter"; id; pretty root_pid].

Definition sweep_argv (turn_id : string) (root_pid grace : Z) : result (list string) :=
  _ ← check_root root_pid; id ← check_id turn_id; Ok ["sh"; "-c"; sweep; "sdf-turn-sweep"; pretty grace; id; pretty root_pid].
End turns.

Definition CLAUDE_DISALLOWED_TOOLS : list string :=
  ["Agent"; "Task"; "Workflow"; "ListAgents"; "SendMessage"; "TeamCreate"; "TeamDelete"].
Definition CLAUDE_ARGS : list string := ["--disallowedTools"; str_join "," CLAUDE_DISALLOWED_TOOLS].
Definition CODEX_ARGS : list string :=
  ["-c"; "features.multi_agent=false"; "-c"; "features.multi_agent_v2={enabled=false,max_concurrent_threads_per_session=1}"].

(** [subagents.start_args] *)
Definition start_args (agent : string) : list string :=
  if str_eq agent "claude" then CLAUDE_ARGS else if str_eq agent "codex" then CODEX_ARGS else [].

(** ** What an injection holds *)

Lemma keys_put k v d n : n ∈ keys (put k v d) <-> n = k \/ n ∈ keys d.
Proof.
  induction d as [|[i w] d IH]; simpl; [set_solver|]. unfold str_eq. case_bool_decide as E; simpl; rewrite !elem_of_cons; [|rewrite IH; tauto].
  subst i. tauto.
Qed.

Lemma keys_dict_update e : forall d n, n ∈ keys (update d e) <-> n ∈ keys d \/ n ∈ keys e.
Proof.
  induction e as [|[k v] e IH]; intros d n; simpl; [set_solver|]. rewrite IH, keys_put, elem_of_cons. tauto.
Qed.

Lemma put_elem k v d n w : (n, w) ∈ put k v d -> (n = k /\ w = v) \/ (n, w) ∈ d.
Proof.
  induction d as [|[i x] d IH]; simpl; [set_solver|]. unfold str_eq. case_bool_decide as E; rewrite !elem_of_cons; [|naive_solver].
  intros [[= -> ->]|?]; [left|]; auto.
Qed.

Lemma update_elem e : forall d n w, (n, w) ∈ update d e -> (n, w) ∈ d \/ (n, w) ∈ e.
Proof.
  induction e as [|[k v] e IH]; intros d n w H; simpl in *; [by left|]. apply IH in H as [H|H]; [|right; by right].
  apply put_elem in H as [[-> ->]|H]; [right; left|by left].
Qed.

(** [put] leaves one entry per key. *)
Lemma put_NoDup k v d : NoDup (keys d) -> NoDup (keys (put k v d)).
Proof.
  induction d as [|[i w] d IH]; simpl; [intros _; repeat constructor; apply not_elem_of_nil|]. intros [Hi Hd]%NoDup_cons.
  unfold str_eq. case_bool_decide as E; simpl; apply NoDup_cons; [done|]. split; [|auto]. rewrite keys_put. naive_solver.
Qed.

Lemma put_same k v d w : NoDup (keys d) -> (k, w) ∈ put k v d -> w = v.
Proof.
  induction d as [|[i x] d IH]; simpl; [set_solver|]. intros [Hi Hd]%NoDup_cons. unfold str_eq. case_bool_decide as E.
  - subst i. rewrite elem_of_cons. intros [[= ->]|Hin]; [done|]. exfalso. apply Hi, elem_map. by exists (k, w).
  - rewrite elem_of_cons. intros [[= -> _]|Hin]; [done|auto].
Qed.

(** A key of the second dict has its value. *)
Lemma update_key e : forall d n w, NoDup (keys d) -> n ∈ keys e -> (n, w) ∈ update d e -> (n, w) ∈ e.
Proof.
  induction e as [|[k v] e IH]; intros d n w Hd Hn H; simpl in *; [set_solver|].
  destruct (decide (n ∈ keys e)) as [He|He]; [right; by eapply IH; [apply put_NoDup, Hd| |]|].
  apply elem_of_cons in Hn as [->|?]; [|done]. apply update_elem in H as [H|H].
  - apply put_same in H as ->; [left|done].
  - exfalso. apply He, elem_map. by exists (k, w).
Qed.

Lemma filter_NoDup (f : string * string -> bool) d : NoDup (keys d) -> NoDup (keys (List.filter f d)).
Proof.
  induction d as [|[k v] d IH]; simpl; [done|]. intros [Hk Hd]%NoDup_cons. destruct (f (k, v)); simpl; [|auto].
  apply NoDup_cons. split; [|auto]. intros (x & Hx & ->)%elem_map. apply Hk, elem_map. exists x. split; [|done].
  by apply elem_filterb in Hx as [? _].
Qed.

Lemma credential_envs_keys plans : forall envs n,
  n ∈ keys (foldl (fun envs ap => update envs (cp_set_variables ap.2)) envs plans) <->
  n ∈ keys envs \/ exists ap : string * CredentialPlan, ap ∈ plans /\ n ∈ keys (cp_set_variables ap.2).
Proof.
  induction plans as [|ap plans IH]; intros envs n; simpl; [set_solver|]. rewrite IH, keys_dict_update. setoid_rewrite elem_of_cons. naive_solver.
Qed.

Lemma credential_envs_elem plans : forall envs n v,
  (n, v) ∈ foldl (fun envs ap => update envs (cp_set_variables ap.2)) envs plans ->
  (n, v) ∈ envs \/ exists ap : string * CredentialPlan, ap ∈ plans /\ (n, v) ∈ cp_set_variables ap.2.
Proof.
  induction plans as [|ap plans IH]; intros envs n v H; simpl in *; [by left|]. setoid_rewrite elem_of_cons.
  apply IH in H as [H|(ap' & ? & ?)]; [|naive_solver]. apply update_elem in H as [H|H]; naive_solver.
Qed.

Lemma new_injection_Ok envs strip seeds metadata credentials i : new_injection envs strip seeds metadata credentials = Ok i ->
  ci_envs i = envs /\ ci_strip_variables i = strip /\ ci_seed_commands i = seeds /\ ci_metadata i = metadata /\
  ci_credential_variables i = credentials ++ CREDENTIAL_NAMES /\
  forall n v c, (n, v) ∈ envs -> n ∈ credentials ++ CREDENTIAL_NAMES -> v <> "" -> c ∈ seeds -> str_contains v c = false.
Proof.
  unfold new_injection. destruct (List.find _ _) eqn:E; [done|]. intros [= <-]. split_and!; try done.
  intros n v c Hin Hn Hv Hc. pose proof (List.find_none _ _ E (n, v) (proj1 (list_elem_of_In _ _) Hin)) as H. cbn [fst snd] in H.
  unfold str_in in H. rewrite bool_decide_eq_true_2, (proj2 (str_truthy_true v) Hv) in H by done. simpl in H.
  destruct (str_contains v c) eqn:F; [|done]. rewrite <- H. symmetry. apply existsb_exists. exists c.
  split; [by apply list_elem_of_In|done].
Qed.

Section injection.
Context (script : string -> string) (pane_env : string) (ip6 : string -> option Ip6).
Context (reader : string -> string -> result ConnectionMaterial) (timeout : Z) (now : string -> datetime).

Definition plan_for (agent : string) (env : environ) : result CredentialPlan :=
  resolve_credential_plan ip6 agent env (Some reader) timeout (now agent).

Lemma resolve_plans_spec agents env plans : resolve_plans ip6 reader timeout now agents env = Ok plans ->
  (forall a, a ∈ agents <-> a ∈ map fst plans) /\ (forall a p, (a, p) ∈ plans -> plan_for a env = Ok p).
Proof.
  unfold resolve_plans. set (step := fun plans agent => _).
  assert (forall agents acc plans, result_fold step acc agents = Ok plans -> (forall a p, (a, p) ∈ acc -> plan_for a env = Ok p) ->
    (forall a, a ∈ map fst plans <-> a ∈ map fst acc \/ a ∈ agents) /\ (forall a p, (a, p) ∈ plans -> plan_for a env = Ok p)) as Hgen.
  { clear. induction agents as [|agent agents IH]; intros acc plans H Hacc; simpl in H.
    { injection H as <-. split; [set_solver|done]. }
    apply bind_Ok in H as (acc' & Hstep & H). unfold step in Hstep. destruct (existsb _ acc) eqn:E.
    - injection Hstep as <-. destruct (IH _ _ H Hacc) as [H1 H2]. split; [|done]. intros a. rewrite H1, elem_of_cons.
      apply existsb_exists in E as ([a' p] & Hin%list_elem_of_In & Heq%bool_decide_eq_true). simpl in Heq. subst a'.
      assert (agent ∈ map fst acc) by (apply elem_map; by exists (agent, p)). naive_solver.
    - apply bind_Ok in Hstep as (p & Hp & [= <-]). destruct (IH _ _ H) as [H1 H2].
      + intros a q [Hin|[= -> ->]%list_elem_of_singleton]%elem_of_app; [by apply Hacc|done].
      + split; [|done]. intros a. rewrite H1, List.map_app, elem_of_app, elem_of_cons. simpl. rewrite list_elem_of_singleton. tauto. }
  intros H. destruct (Hgen _ _ _ H) as [H1 H2]; [by intros a p ?%not_elem_of_nil|]. split; [|done]. intros a. rewrite H1. set_solver.
Qed.

(** C13: what a sandbox that runs several kinds of agents is created with.  Each
    kind is resolved; every variable its plan sets is there, every one that
    could replace its credential is not, even when the caller asked for it; any
    other variable is the caller's.  No seed command carries the value of a
    credential, and each kind's metadata says its mode. *)
Theorem injection_spec agents env base_envs i : NoDup (keys base_envs) ->
  prepare_credential_injection script pane_env ip6 reader timeout now agents env base_envs = Ok i ->
  agents <> [] /\
  (forall agent, agent ∈ agents -> exists p, plan_for agent env = Ok p /\
     (forall n, n ∈ keys (cp_set_variables p) -> n ∈ keys (ci_envs i) /\ n ∈ ci_credential_variables i) /\
     (forall n, n ∈ cp_strip_variables p -> n ∉ keys (ci_envs i))) /\
  (forall n v, (n, v) ∈ ci_envs i ->
     (exists agent p, agent ∈ agents /\ plan_for agent env = Ok p /\ (n, v) ∈ cp_set_variables p) \/
     ((n, v) ∈ base_envs /\ forall agent p, agent ∈ agents -> plan_for agent env = Ok p -> n ∉ keys (cp_set_variables p))) /\
  (forall n v c, (n, v) ∈ ci_envs i -> n ∈ ci_credential_variables i -> v <> "" -> c ∈ ci_seed_commands i -> str_contains v c = false) /\
  (forall a m, (a, m) ∈ ci_metadata i -> exists p, plan_for a env = Ok p /\
     credential_mode m = CredentialMode_value (cp_mode p) /\ connection_id m = cp_connection_id p).
Proof.
  intros Hnd. unfold prepare_credential_injection. intros (plans & Hplans & H)%bind_Ok.
  apply bind_Ok in H as (? & Hne%raise_if_Ok%bool_decide_eq_false & H). apply bind_Ok in H as (? & Hclash%raise_if_Ok%bool_decide_eq_false%dec_stable & H).
  apply bind_Ok in H as (seeds & _ & H). apply bind_Ok in H as (pane & _ & H). apply bind_Ok in H as (metadata & Hmeta & H).
  apply new_injection_Ok in H as (He & Hs & Hc & Hm & Hg & Hval). destruct (resolve_plans_spec _ _ _ Hplans) as [Hag Hfor].
  pose proof (credential_envs_keys plans []) as Hkeys. fold (credential_envs plans) in Hkeys.
  assert (forall n, n ∈ strips plans -> n ∉ keys (credential_envs plans)) as Hdisj.
  { intros n Hn Hk. assert (n ∈ str_sorted (List.filter (fun n => str_in n (keys (credential_envs plans))) (strips plans))) as Hin.
    { unfold str_sorted. rewrite sort_by_perm, elem_filterb. split; [done|]. by apply bool_decide_eq_true. }
    rewrite Hclash in Hin. by apply not_elem_of_nil in Hin. }
  assert (forall n, n ∈ keys (ci_envs i) <-> n ∈ keys (credential_envs plans) \/ (n ∈ keys base_envs /\ n ∉ strips plans)) as Henvs.
  { intros n. rewrite He, keys_dict_update. unfold keys at 1. rewrite elem_map. setoid_rewrite elem_filterb. unfold str_in.
    setoid_rewrite negb_true_iff. setoid_rewrite bool_decide_eq_false. unfold keys at 3. rewrite elem_map. naive_solver. }
  assert (forall a p, (a, p) ∈ plans -> forall n, n ∈ keys (cp_set_variables p) -> n ∈ keys (credential_envs plans)) as Hset.
  { intros a p Hap n Hn. apply Hkeys. right. by exists (a, p). }
  rewrite Hg, Hc, Hm. split_and!.
  - intros ->. destruct plans as [|[a p] plans]; [done|]. exfalso. apply (not_elem_of_nil a), Hag. left.
  - intros agent ([a p] & Hap & ->)%Hag%elem_map. exists p. split; [by apply Hfor|]. split.
    + intros n Hn. rewrite Henvs, elem_of_app. pose proof (Hset _ _ Hap _ Hn). tauto.
    + intros n Hn. rewrite Henvs. assert (n ∈ strips plans) as Hst; [|naive_solver].
      unfold strips. rewrite elem_fromkeys, list_elem_of_In, List.in_concat. exists (cp_strip_variables p).
      split; [|by apply list_elem_of_In]. apply list_elem_of_In, elem_map. by exists (a, p).
  - intros n v Hin. rewrite He in Hin. destruct (decide (n ∈ keys (credential_envs plans))) as [Hk|Hk].
    + left. apply update_key in Hin; [|by apply filter_NoDup|done]. apply credential_envs_elem in Hin as [?%not_elem_of_nil|([a p] & Hap & Hv)]; [done|].
      exists a, p. split; [apply Hag, elem_map; by exists (a, p)|]. split; [by apply Hfor|done].
    + right. apply update_elem in Hin as [[Hin _]%elem_filterb|Hin]; [|exfalso; apply Hk, elem_map; by exists (n, v)].
      split; [done|]. intros agent p ([a q] & Hap & ->)%Hag%elem_map Hp Hn. simpl in Hp. rewrite (Hfor _ _ Hap) in Hp.
      injection Hp as ->. by eapply Hk, Hset.
  - intros n v c Hin. rewrite He in Hin. by apply Hval.
  - intros a m Hin. apply (result_map_elem _ _ _ Hmeta) in Hin as ([a' p] & Hap & Hpm). unfold plan_metadata in Hpm.
    apply bind_Ok in Hpm as (? & _ & [= <- <-]). exists p. split; [by apply Hfor|done].
Qed.
End injection.

Module InjectionDemo.
Definition script (action : string) : string := "require('" +:+ action +:+ "')".
Definition base : list (string * string) := [("LANG", "C"); ("CODEX_API_KEY", "stray")].
Definition injection : result CredentialInjection :=
  prepare_credential_injection script "pane" no_ip6 Demo.reader 3600 (fun _ => Demo.now) ["codex"; "claude"; "codex"] Demo.env base.
End InjectionDemo.

Example injection_demo : (i ← InjectionDemo.injection; Ok (keys (ci_envs i), length (ci_seed_commands i), map fst (ci_metadata i))) =
  Ok (["LANG"; "OPENAI_API_KEY"; "OPENAI_BASE_URL"; "CLAUDE_CODE_OAUTH_TOKEN"], 3%nat, ["codex"; "claude"]).
Proof. vm_compute. reflexivity. Qed.

Lemma injection_spec_witness : NoDup (keys InjectionDemo.base) /\ exists i, InjectionDemo.injection = Ok i /\
  ["codex"; "claude"; "codex"] <> [] /\
  (forall n v, (n, v) ∈ ci_envs i ->
     (exists agent p, agent ∈ ["codex"; "claude"; "codex"] /\ plan_for no_ip6 Demo.reader 3600 (fun _ => Demo.now) agent Demo.env = Ok p /\
        (n, v) ∈ cp_set_variables p) \/ (n, v) ∈ InjectionDemo.base).
Proof.
  assert (NoDup (keys InjectionDemo.base)) as Hnd by (apply (bool_decide_eq_true_1 (NoDup _)); vm_compute; reflexivity).
  split; [exact Hnd|]. destruct InjectionDemo.injection as [i|e] eqn:E; [|exfalso; vm_compute in E; discriminate E].
  exists i. split; [reflexivity|].
  destruct (injection_spec InjectionDemo.script "pane" no_ip6 Demo.reader 3600 (fun _ => Demo.now) ["codex"; "claude"; "codex"] Demo.env
    InjectionDemo.base i Hnd E) as (H1 & _ & H3 & _). split; [exact H1|]. intros n v Hin.
  destruct (H3 n v Hin) as [H|[H _]]; [left; exact H|right; exact H].
Defined.
