(* ===== verification/Timeline.v ===== *)
(** * Timeline: one ordered, redacted list of what is recorded about a run

    Models [src/sdf_core/timeline.py].  Rows come in key order where the code
    asks for none; [fold] is what the database's LIKE does to a character
    before it compares it (SQLite: the case of ASCII letters). *)

From S2P Require Import Prelude Floats Json Db EvidenceMac Flush Samples FlushFacts Store Checks DecisionGate Events.
From S2P Require Import Oracle Acceptance Evaluate Plans RunConfig Scoped Coordinator JsonParse CoreQuery Usage Redact.

Definition BODY_CHARS : nat := 400.
Definition EPOCH : datetime := DateTime 0 true.

(** [_ts] *)
Definition ts (value : option datetime) : datetime := match value with None => EPOCH | Some d => aware d end.

Definition ch (s : string) : ascii := match s with String c _ => c | EmptyString => Ascii.zero end.

Definition entry : Type := list (string * json).

Section timeline.
Context (secrets : list string) (fold : ascii -> ascii).

(** SQL's [text LIKE pattern] without an escape character. *)
Fixpoint like (pattern : string) : string -> bool :=
  match pattern with
  | EmptyString => fun text => str_eq text ""
  | String p pattern =>
      if bool_decide (p = ch "%") then
        fix any (text : string) := like pattern text || match text with EmptyString => false | String _ t => any t end
      else fun text =>
        match text with
        | EmptyString => false
        | String c t => (bool_decide (p = ch "_") || bool_decide (fold p = fold c)) && like pattern t
        end
  end.

(** [AuthAuditRow.path.contains(x)] *)
Definition path_contains (x : string) (a : AuthAuditRow) : bool :=
  match aa_path a with Some path => like ("%" +:+ x +:+ "%") path | None => false end.

(** [_entry] *)
Definition entry_of (at_ : option datetime) (source kind : string) (fields : list (string * json)) : entry :=
  [("at", JStr (isoformat (ts at_))); ("source", JStr source); ("kind", JStr kind)] ++
  match redact_value secrets (JObj fields) with JObj kvs => kvs | _ => [] end.

(** [_usage_entry]: a row's own kind and time are the entry's, its source gets
    another name. *)
Definition usage_entry (row : UsageLedgerRow) : entry :=
  let fields := match ledger_payload row with JObj kvs => kvs | _ => [] end in
  entry_of (Some (ul_created_at row)) "usage" ("usage_" +:+ ul_kind row)
    (List.filter (fun kv => negb (str_in kv.1 ["kind"; "created_at"; "source"])) fields ++ [("usage_source", kv_get "source" fields)]).

Definition attempt_entry (a : AttemptRow) : entry :=
  entry_of (Some (at_created_at a)) "attempt" "attempt_created"
    [("attempt_id", JStr (at_id a)); ("task_id", JStr (at_task_id a)); ("agent", JStr (at_agent a)); ("status", JStr (at_status a));
     ("provider", json_str (at_provider a)); ("cost_usd", JFloat (at_cost_usd a)); ("input_tokens", json_int (at_input_tokens a));
     ("output_tokens", json_int (at_output_tokens a)); ("latency_ms", float_json (at_latency_ms a));
     ("error_class", json_str (at_error_class a)); ("trace_id", json_str (at_trace_id a)); ("evidence_mode", JStr (at_evidence_mode a))].

Definition event_entry (e : RuntimeEventRow) : entry :=
  entry_of (Some (re_created_at e)) "runtime" (re_kind e)
    [("attempt_id", JStr (re_attempt_id e)); ("session_id", JStr (re_session_id e)); ("sequence", JInt (re_sequence e));
     ("status", JStr (re_status e)); ("event_source", JStr (re_source e)); ("category", JStr (EventCategory_value (category_of (re_kind e))));
     ("acceptance_evidence", JBool false); ("payload", re_payload e)].

Definition tool_entry (t : ToolAuditRow) : entry :=
  entry_of (Some (ta_created_at t)) "tool_audit" (ta_event t)
    [("attempt_id", JStr (ta_attempt_id t)); ("tool", JStr (ta_tool t)); ("action", JStr (ta_action t)); ("decision", JStr (ta_decision t));
     ("outcome", JStr (ta_outcome t)); ("detail", JStr (ta_detail t)); ("evidence_mode", JStr (ta_evidence_mode t))].

Definition evidence_entry (e : EvidenceRow) : entry :=
  entry_of (Some (ev_created_at e)) "evidence" (ev_kind e)
    [("attempt_id", json_str (ev_attempt_id e)); ("status", JStr (ev_status e)); ("criterion", json_str (ev_criterion e));
     ("exit_code", json_int (ev_exit_code e)); ("evidence_mode", JStr (ev_evidence_mode e)); ("evidence_class", json_str (ev_evidence_class e));
     ("producer_identity", json_str (ev_producer_identity e)); ("verifier_identity", json_str (ev_verifier_identity e));
     ("objective_id", json_str (ev_objective_id e)); ("subject_artifact_sha256", json_str (ev_subject_artifact_sha256 e));
     ("oracle_visibility", json_str (ev_oracle_visibility e)); ("input_seed", json_str (ev_input_seed e))].

Definition audit_entry (a : AuthAuditRow) : entry :=
  entry_of (Some (aa_at a)) "auth_audit" (aa_event a)
    [("principal", json_str (aa_principal a)); ("route", json_str (aa_route a)); ("path", json_str (aa_path a));
     ("status_code", json_int (aa_status_code a))].

(** [_attempt_entries] *)
Definition attempt_entries (d : Db) (attempt_ids : list string) : list entry :=
  match attempt_ids with
  | [] => []
  | _ =>
      map attempt_entry (select_rows (fun a => str_in (at_id a) attempt_ids) (d_attempts d)) ++
      map event_entry (events_for_attempts d attempt_ids) ++
      map tool_entry (select_rows (fun t => str_in (ta_attempt_id t) attempt_ids) (d_tool_audits d)) ++
      map evidence_entry (select_rows (fun e => match ev_attempt_id e with Some i => str_in i attempt_ids | None => false end) (d_evidence d)) ++
      map usage_entry (select_rows (fun u => str_in (ul_attempt_id u) attempt_ids) (d_usage_ledger d)) ++
      map audit_entry (select_rows (fun a => existsb (fun i => path_contains i a) attempt_ids) (d_auth_audit d))
  end.

(** ** The order of entries *)

Definition source_order (source : string) : Z :=
  default 99 (assoc source [("run", 0); ("attempt", 1); ("message", 2); ("runtime", 3); ("tool_audit", 4); ("turn_log", 5);
    ("decision", 6); ("evidence", 7); ("usage", 8); ("auth_audit", 9)]).

Definition text_of (j : json) : string := match j with JStr s => s | _ => "" end.
Definition sort_key (e : entry) : string * Z * Z :=
  (text_of (kv_get "at" e), source_order (text_of (kv_get "source" e)), match kv_get "sequence" e with JInt z => z | _ => 0 end).

Definition key_le (a b : entry) : bool :=
  let '(t, o, n) := sort_key a in
  let '(t', o', n') := sort_key b in
  if negb (str_eq t t') then str_le t t' else if negb (o =? o') then o <? o' else n <=? n'.

Definition sorted (entries : list entry) : list entry := sort_by key_le entries.

(** ** A run *)

Definition message_entry (m : AgentMessageRow) : entry :=
  entry_of (Some (mg_created_at m)) "message" (mg_kind m)
    [("seq", JInt (mg_seq m)); ("from_agent", JStr (mg_from_agent m)); ("to_agent", json_str (mg_to_agent m));
     ("attempt_id", json_str (mg_attempt_id m)); ("truncated", JBool (mg_truncated m)); ("body", JStr (redact secrets (str_take BODY_CHARS (mg_body m))))].

Definition decision_entries (r : DecisionRequestRow) : list entry :=
  entry_of (Some (dr_created_at r)) "decision" "decision_requested"
    [("request_id", JStr (dr_id r)); ("subject_id", JStr (dr_subject_id r)); ("requested_by", JStr (dr_requested_by r));
     ("question", JStr (str_take BODY_CHARS (dr_question r)))] ::
  match dr_resolved_at r with
  | Some _ => [entry_of (dr_resolved_at r) "decision" ("decision_" +:+ dr_status r) [("request_id", JStr (dr_id r)); ("resolved_by", json_str (dr_resolved_by r))]]
  | None => []
  end.

(** [(x or {}).items()] and [x or []] of a summary the coordinator wrote. *)
Definition items_of (j : json) : list (string * json) := match j with JObj kvs => kvs | _ => [] end.
Definition list_of (j : json) : list json := match j with JArr l => l | _ => [] end.

(** One logged turn; a name the entry has already is a duplicate argument. *)
Definition turn_entry (run : AgentRunRow) (agent : string) (turn : json) : result entry :=
  _ ← raise_if (existsb (fun kv : string * json => str_in kv.1 ["at"; "source"; "kind"; "agent"]) (items_of turn))
        (TypeError "_entry() got multiple values for an argument");
  Ok (entry_of (match rn_finished_at run with Some t => Some t | None => Some (rn_started_at run) end) "turn_log" "turn"
        (("agent", JStr agent) :: items_of turn)).

Definition member_json (m : AgentRunMemberRow) : json :=
  JObj [("agent_id", JStr (mb_agent_id m)); ("kind", JStr (mb_agent_kind m)); ("role", JStr (mb_role m)); ("sandbox_id", json_str (mb_sandbox_id m));
        ("status", JStr (mb_status m)); ("turns", JInt (mb_turns m)); ("input_tokens", JInt (mb_input_tokens m));
        ("output_tokens", JInt (mb_output_tokens m))].

Definition summary_of (run : AgentRunRow) : json := default JNull (rn_summary run).

(** The Attempts of a run: those its messages name and those of its summary. *)
Definition run_attempts (d : Db) (run : AgentRunRow) : list string :=
  str_sorted (remove_dups (
    omap (fun m => if opt_truthy (mg_attempt_id m) then mg_attempt_id m else None) (select_rows (fun m => str_eq (mg_run_id m) (rn_id run)) (d_agent_messages d)) ++
    concat (map (fun subtask : string * json => omap (fun a => match a with JStr s => Some s | _ => None end) (list_of (jget "attempts" subtask.2)))
      (items_of (jget "subtasks" (summary_of run)))))).

Definition run_entries (d : Db) (run : AgentRunRow) : result (list entry) :=
  turns ← result_map (fun at_ : string * json => turn_entry run at_.1 at_.2)
    (concat (map (fun cost : string * json => map (fun t => (cost.1, t)) (list_of (jget "turns" cost.2))) (items_of (jget "cost" (summary_of run)))));
  let attempts := run_attempts d run in
  Ok ([entry_of (Some (rn_started_at run)) "run" "run_started"
         [("run_id", JStr (rn_id run)); ("plan_id", JStr (rn_plan_id run)); ("started_by", json_str (rn_started_by run))]] ++
      match rn_finished_at run with
      | Some _ =>
          let error := redact secrets (or_empty (rn_error run)) in
          [entry_of (rn_finished_at run) "run" "run_finished"
             [("run_id", JStr (rn_id run)); ("status", JStr (rn_status run)); ("cost_usd", JFloat (rn_cost_usd run));
              ("error", if str_truthy error then JStr error else JNull)]]
      | None => []
      end ++
      map message_entry (select_rows (fun m => str_eq (mg_run_id m) (rn_id run)) (d_agent_messages d)) ++
      concat (map decision_entries (select_rows (fun r => opt_str_eq (dr_run_id r) (Some (rn_id run))) (d_decision_requests d))) ++
      turns ++ attempt_entries d attempts ++
      map usage_entry (select_rows (fun u => opt_str_eq (ul_run_id u) (Some (rn_id run)) &&
        negb (str_in (ul_attempt_id u) (match attempts with [] => [""] | _ => attempts end))) (d_usage_ledger d))).

Definition single_entries (d : Db) (a : AttemptRow) : list entry :=
  attempt_entries d [at_id a] ++
  map audit_entry (List.filter (fun r => opt_str_eq (aa_route r) (Some "/tasks/{task_id}/run"))
    (select_rows (path_contains (at_task_id a)) (d_auth_audit d))).

Definition entries_json (l : list entry) : json := JArr (map JObj (sorted l)).

(** [build_timeline] *)
Definition build_timeline (d : Db) (id : string) : result (option json) :=
  match d_agent_runs d !! id with
  | Some run =>
      entries ← run_entries d run;
      Ok (Some (JObj [("id", JStr (rn_id run)); ("kind", JStr "agent_run"); ("plan_id", JStr (rn_plan_id run)); ("status", JStr (rn_status run));
        ("trace_id", json_str (rn_trace_id run));
        ("members", JArr (map member_json (select_rows (fun m => str_eq (mb_run_id m) (rn_id run)) (d_agent_run_members d))));
        ("entries", entries_json entries)]))
  | None =>
      match d_attempts d !! id with
      | None => Ok None
      | Some a =>
          Ok (Some (JObj [("id", JStr (at_id a)); ("kind", JStr "attempt"); ("task_id", JStr (at_task_id a)); ("status", JStr (at_status a));
            ("error_class", json_str (at_error_class a)); ("trace_id", json_str (at_trace_id a)); ("entries", entries_json (single_entries d a))]))
      end
  end.

(** The endpoint [run_timeline]. *)
Definition run_timeline (d : Db) (run_id : string) : result json :=
  t ← build_timeline d run_id;
  require_some t (HTTPException 404 "no agent run or attempt with that id" []).
End timeline.

(** ** What a timeline shows *)

Lemma key_le_total a b : key_le a b = true \/ key_le b a = true.
Proof.
  unfold key_le. destruct (sort_key a) as [[t o] n], (sort_key b) as [[t' o'] n']. unfold str_eq.
  destruct (decide (t = t')) as [->|Hne].
  - rewrite !bool_decide_eq_true_2 by done. simpl. destruct (Z.eqb_spec o o') as [->|Ho]; [rewrite Z.eqb_refl; simpl|].
    + destruct (Z.le_ge_cases n n'); [left|right]; by apply Z.leb_le.
    + rewrite (proj2 (Z.eqb_neq o' o)) by congruence. simpl. rewrite !Z.ltb_lt. lia.
  - rewrite !bool_decide_eq_false_2 by congruence. simpl. apply str_le_total.
Qed.

Lemma key_le_trans a b c : key_le a b = true -> key_le b c = true -> key_le a c = true.
Proof.
  unfold key_le. destruct (sort_key a) as [[t o] n], (sort_key b) as [[t' o'] n'], (sort_key c) as [[t'' o''] n'']. unfold str_eq.
  repeat case_bool_decide; subst; simpl; try congruence.
  - destruct (Z.eqb_spec o o'), (Z.eqb_spec o' o''), (Z.eqb_spec o o''); simpl; rewrite ?Z.ltb_lt, ?Z.leb_le; lia.
  - intros Ha Hb. exfalso. eauto using str_le_antisym.
  - apply str_le_trans.
Qed.

(** Every recorded entry is shown once, by time, then source, then sequence. *)
Theorem timeline_sorted entries : sorted entries ≡ₚ entries /\ StronglySorted (fun a b => key_le a b = true) (sorted entries).
Proof. split; [apply sort_by_perm|]. apply sort_by_sorted; [apply key_le_total|apply key_le_trans]. Qed.

(** A literal pattern between two wildcards matches the texts that hold it. *)
Lemma like_any (fold : ascii -> ascii) pattern text :
  like fold (String (ch "%") pattern) text = like fold pattern text || match text with EmptyString => false | String _ t => like fold (String (ch "%") pattern) t end.
Proof. by destruct text. Qed.

Definition identity (c : ascii) : ascii := c.

(** The Task id goes into the pattern as it is, between wildcards: the audit of
    a run of Task [t10] is shown for an Attempt of Task [t1], and one of any
    Task for an Attempt of the Task named with an underscore. *)
Example foreign_audit :
  let audit := blank_AuthAuditRow {{ aa_id := 7; aa_path := Some "/tasks/t10/run"; aa_route := Some "/tasks/{task_id}/run"; aa_event := "mutation" }} in
  let attempt task := blank_AttemptRow {{ at_id := "attempt-1"; at_task_id := task }} in
  let d := empty_db {{ d_auth_audit := {[7 := audit]} }} in
  map (fun task => length (single_entries [] identity d (attempt task))) ["t1"; "_"; "t10"; "t2"] = [1%nat; 1%nat; 1%nat; 0%nat].
Proof. vm_compute. reflexivity. Qed.

(** A secret cut by the limit of a body is shown. *)
Example timeline_body_cut :
  let pad := str_join "" (replicate 390 "x") in
  let secret := "0123456789abcdefghij" in
  let m := blank_AgentMessageRow {{ mg_body := pad +:+ secret }} in
  text_of (kv_get "body" (message_entry [secret] m)) = pad +:+ "0123456789".
Proof. vm_compute. reflexivity. Qed.
