(* ===== verification/Measurement.v ===== *)
(** * Measurement: the local scorecard

    Models [src/sdf_core/measurement.py] and the endpoint [get_scorecard]: what
    each Attempt did, judged from its verified Evidence, and the rates over
    Attempts and Tasks.  Attempts created at one instant come in key order; the
    clock is read once; [fsum] is Python's sum of floats. *)

From S2P Require Import Prelude Floats Json Db EvidenceMac Flush Samples FlushFacts Store Checks Oracle Acceptance Evaluate DecisionGate Plans RunConfig Impact.

(** [_validate_finite] *)
Definition validate_finite (value : option float) (field_name : string) : result unit :=
  raise_if (match value with Some v => negb (f_is_finite v) | None => false end) (ValueError (field_name +:+ " must be finite")).

Record AttemptObservation : Type := {
  ao_attempt_id : string; ao_task_id : string; ao_status : string; ao_attempt_number : Z; ao_evidence_count : Z; ao_trace_complete : bool;
  ao_cost_usd : float; ao_accepted_evidence_seconds : option float; ao_escalated : bool; ao_escalation_exhausted : bool
}.

(** [AttemptObservation.__post_init__] *)
Definition observation_post_init (o : AttemptObservation) : result unit :=
  let blank s := negb (str_truthy (str_strip s)) in
  _ ← raise_if (blank (ao_attempt_id o) || blank (ao_task_id o) || blank (ao_status o))
        (ValueError "attempt and task identity fields must be non-empty");
  _ ← raise_if ((ao_attempt_number o <=? 0) || (ao_evidence_count o <? 0) || f_lt (ao_cost_usd o) f_zero)
        (ValueError "attempt number, evidence count and cost must be valid");
  _ ← validate_finite (Some (ao_cost_usd o)) "cost_usd";
  _ ← validate_finite (ao_accepted_evidence_seconds o) "accepted_evidence_seconds";
  raise_if (match ao_accepted_evidence_seconds o with Some s => f_lt s f_zero | None => false end)
    (ValueError "accepted_evidence_seconds must not be negative").

Record Scorecard : Type := {
  sc_first_attempt_success_rate : float; sc_accepted_task_rate : float; sc_evidence_coverage : float; sc_trace_completeness : float;
  sc_time_to_accepted_evidence_seconds : option float; sc_escalation_rate : float; sc_cost_per_accepted_task : option float;
  sc_escalation_exhaustion_rate : float; sc_verified_pass_count : Z; sc_unverified_legacy_pass_count : Z
}.

Definition scorecard_dict (s : Scorecard) : json :=
  JObj [("first_attempt_success_rate", JFloat (sc_first_attempt_success_rate s)); ("accepted_task_rate", JFloat (sc_accepted_task_rate s));
        ("evidence_coverage", JFloat (sc_evidence_coverage s)); ("trace_completeness", JFloat (sc_trace_completeness s));
        ("time_to_accepted_evidence_seconds", float_or_null (sc_time_to_accepted_evidence_seconds s)); ("escalation_rate", JFloat (sc_escalation_rate s));
        ("cost_per_accepted_task", float_or_null (sc_cost_per_accepted_task s)); ("escalation_exhaustion_rate", JFloat (sc_escalation_exhaustion_rate s));
        ("verified_pass_count", JInt (sc_verified_pass_count s)); ("unverified_legacy_pass_count", JInt (sc_unverified_legacy_pass_count s))].

(** [rate(numerator, denominator)] *)
Definition rate (numerator denominator : Z) : float := if denominator =? 0 then f_zero else quotient numerator denominator.

Definition succeeded (o : AttemptObservation) : bool := str_eq (str_lower (ao_status o)) "succeeded".

(** [len({item.task_id for item in items if p(item)})] *)
Definition task_count (p : AttemptObservation -> bool) (items : list AttemptObservation) : Z :=
  length_Z (remove_dups (map ao_task_id (List.filter p items))).
Definition count_of {A} (p : A -> bool) (items : list A) : Z := length_Z (List.filter p items).

Definition build_scorecard (fsum : list float -> float) (items : list AttemptObservation) (verified unverified : Z) : Scorecard :=
  let tasks := task_count (fun _ => true) items in
  let accepted := task_count succeeded items in
  let first := List.filter (fun o => ao_attempt_number o =? 1) items in
  let times := omap ao_accepted_evidence_seconds items in
  {| sc_first_attempt_success_rate := rate (count_of succeeded first) (length_Z first);
     sc_accepted_task_rate := rate accepted tasks;
     sc_evidence_coverage := rate (count_of (fun o => 0 <? ao_evidence_count o) items) (length_Z items);
     sc_trace_completeness := rate (count_of ao_trace_complete items) (length_Z items);
     sc_time_to_accepted_evidence_seconds := match times with [] => None | _ => Some (f_div (fsum times) (f_of_Z (length_Z times))) end;
     sc_escalation_rate := rate (task_count ao_escalated items) tasks;
     sc_cost_per_accepted_task := if accepted =? 0 then None else Some (f_div (fsum (map ao_cost_usd items)) (f_of_Z accepted));
     sc_escalation_exhaustion_rate := rate (task_count ao_escalation_exhausted items) tasks;
     sc_verified_pass_count := verified; sc_unverified_legacy_pass_count := unverified |}.

(** ** From the stored rows *)

Section rows.
Context (env : environ) (d : Db) (now : datetime).

(** [order_by(AttemptRow.task_id, AttemptRow.created_at)] *)
Definition attempts : list AttemptRow :=
  sort_by (fun a b => if negb (str_eq (at_task_id a) (at_task_id b)) then str_le (at_task_id a) (at_task_id b)
                      else dt_us (at_created_at a) <=? dt_us (at_created_at b)) (rows (d_attempts d)).

Definition evidence_rows (attempt_id : string) : list EvidenceRow :=
  List.filter (fun e => opt_truthy (ev_attempt_id e) && opt_str_eq (ev_attempt_id e) (Some attempt_id)) (rows (d_evidence d)).

(** [is_verified_pass(item, attempt_agent=..., artifact_sha256=...)] *)
Definition row_verified (attempt_agent : string) (attempt_id : option string) (e : EvidenceRow) : result bool :=
  is_verified_pass env (Some d) e attempt_agent
    (match attempt_id with Some i => if str_truthy i then diff_sha256 d i else None | None => None end) now.

(** Whether a PASS row of the whole database is verified. *)
Definition pass_row_verified (e : EvidenceRow) : result bool :=
  let agent := match ev_attempt_id e with Some i => if str_truthy i then match d_attempts d !! i with Some a => at_agent a | None => "" end else "" | None => "" end in
  row_verified agent (ev_attempt_id e) e.

Definition pass_counts : result (Z * Z) :=
  let passes := List.filter (fun e => str_eq (ev_status e) "PASS") (rows (d_evidence d)) in
  verified ← result_filter pass_row_verified passes;
  Ok (length_Z verified, length_Z passes - length_Z verified).

Definition is_verdict_row (e : EvidenceRow) : bool :=
  bool_decide (ev_evidence_class e = None) || opt_str_eq (ev_evidence_class e) (Some "verification").
Definition verdict_rows (a : AttemptRow) : list EvidenceRow := List.filter is_verdict_row (evidence_rows (at_id a)).
Definition verified_rows (a : AttemptRow) : result (list EvidenceRow) := result_filter (row_verified (at_agent a) (Some (at_id a))) (verdict_rows a).

(** What the verdicts say of an Attempt. *)
Definition verdict_status (verdicts verified : list EvidenceRow) : string :=
  if existsb (fun r => str_eq (ev_status r) "FAIL") verdicts then "failed"
  else if negb (bool_decide (verdicts = [])) && (length verified =? length verdicts)%nat && forallb (fun r => str_eq (ev_status r) "PASS") verdicts
  then "succeeded" else "inconclusive".

(** [min(measured)], comparing one by one. *)
Fixpoint min_time (best : datetime) (l : list datetime) : result datetime :=
  match l with [] => Ok best | t :: l => le ← dt_le best t; min_time (if (le : bool) then best else t) l end.

(** [max(0.0, (min(measured) - created_at).total_seconds())], unless the times
    cannot be compared. *)
Definition seconds_to (created_at : datetime) (measured : list datetime) : option float :=
  match measured with
  | [] => None
  | t :: l =>
      match min_time t l with
      | Ok m => if Bool.eqb (dt_aware m) (dt_aware created_at) then
                  let s := f_ratio (dt_us m - dt_us created_at) 1000000 in Some (if f_lt f_zero s then s else f_zero)
                else None
      | Err _ => None
      end
  end.

Definition accepted_seconds (a : AttemptRow) (status : string) (verified : list EvidenceRow) : option float :=
  let measured := omap ev_measured_at verified in
  if str_eq status "succeeded" && match d_tasks d !! at_task_id a with Some t => str_eq (tk_status t) "succeeded" | None => false end
  then seconds_to (at_created_at a) measured else None.

Definition trace_complete (a : AttemptRow) : bool :=
  let edges := List.filter (fun e => str_eq (de_source_id e) (at_id a) || str_eq (de_target_id e) (at_id a)) (rows (d_decision_edges d)) in
  let measures kind := existsb (fun e => str_eq (de_source_kind e) kind && str_eq (de_target_kind e) "attempt" && str_eq (de_target_id e) (at_id a) &&
                                         str_eq (de_relation e) "measures") edges in
  existsb (fun e => str_eq (de_source_kind e) "attempt" && str_eq (de_source_id e) (at_id a) && str_eq (de_target_kind e) "task" &&
                    str_eq (de_target_id e) (at_task_id a) && str_eq (de_relation e) "implements") edges &&
  measures "artifact" && (negb (bool_decide (evidence_rows (at_id a) = [])) && measures "evidence").

Definition observation (number : Z) (a : AttemptRow) : result AttemptObservation :=
  let verdicts := verdict_rows a in
  verified ← verified_rows a;
  let status := verdict_status verdicts verified in
  let o := {|
    ao_attempt_id := at_id a; ao_task_id := at_task_id a; ao_status := status; ao_attempt_number := number;
    ao_evidence_count := length_Z (evidence_rows (at_id a)); ao_trace_complete := trace_complete a;
    ao_cost_usd := if f_truthy (at_cost_usd a) then at_cost_usd a else f_zero;
    ao_accepted_evidence_seconds := accepted_seconds a status verified; ao_escalated := bool_decide (is_Some (at_parent_attempt_id a));
    ao_escalation_exhausted := match d_tasks d !! at_task_id a with Some t => str_eq (tk_status t) "escalation_exhausted" | None => false end |} in
  _ ← observation_post_init o; Ok o.

(** The Attempts of a Task are numbered in the order of the query. *)
Fixpoint observations (seen : list string) (l : list AttemptRow) : result (list AttemptObservation) :=
  match l with
  | [] => Ok []
  | a :: l =>
      let number := count_of (str_eq (at_task_id a)) seen + 1 in
      o ← observation number a; rest ← observations (at_task_id a :: seen) l; Ok (o :: rest)
  end.

Definition build_scorecard_from_db (fsum : list float -> float) : result Scorecard :=
  counts ← pass_counts;
  items ← observations [] attempts;
  Ok (build_scorecard fsum items counts.1 counts.2).

(** The endpoint. *)
Definition get_scorecard (fsum : list float -> float) : result json := s ← build_scorecard_from_db fsum; Ok (scorecard_dict s).

(** An Attempt is counted as succeeded when it has a verdict, every verdict is a
    PASS, and the acceptance rule and the MAC hold for each; a row that only
    ran or reported an outcome says nothing. *)
Theorem observation_succeeded number a o : observation number a = Ok o ->
  succeeded o = true <-> verdict_rows a <> [] /\ forall e, e ∈ verdict_rows a ->
    ev_status e = "PASS" /\ row_verified (at_agent a) (Some (at_id a)) e = Ok true.
Proof.
  unfold observation. intros (verified & Hv & H)%bind_Ok. apply bind_Ok in H as (? & _ & [= <-]).
  unfold succeeded. simpl. destruct (result_filter_elem _ _ _ Hv) as [Hel _].
  assert (length verified = length (verdict_rows a) <-> forall e, e ∈ verdict_rows a -> row_verified (at_agent a) (Some (at_id a)) e = Ok true) as Hlen.
  { clear - Hv. unfold verified_rows in Hv. revert verified Hv. induction (verdict_rows a) as [|e l IH]; intros verified Hv.
    - injection Hv as <-. split; [intros _ e ?%not_elem_of_nil; done|done].
    - cbn [result_filter] in Hv. apply bind_Ok in Hv as (b & Hb & Hv). apply bind_Ok in Hv as (rest & Hr & [= <-]).
      assert (length rest <= length l)%nat as Hle.
      { clear - Hr. revert rest Hr. induction l as [|x l IHl]; intros rest Hr; [by injection Hr as <-|]. cbn [result_filter] in Hr.
        apply bind_Ok in Hr as (c & _ & Hr). apply bind_Ok in Hr as (rest' & Hr' & [= <-]). specialize (IHl _ Hr'). destruct c; simpl; lia. }
      specialize (IH _ Hr). setoid_rewrite elem_of_cons. destruct b; simpl.
      + rewrite Nat.succ_inj_wd, IH. naive_solver.
      + split; [lia|]. intros Hall. specialize (Hall e (or_introl eq_refl)). congruence. }
  unfold verdict_status. destruct (existsb _ _) eqn:Ef.
  { split; [by intros Hbad%bool_decide_eq_true|]. intros [_ Hall]. exfalso. apply existsb_exists in Ef as (e & He%list_elem_of_In & Hs).
    apply bool_decide_eq_true in Hs. destruct (Hall e He). congruence. }
  destruct (negb _ && _ && _) eqn:E.
  - split; [intros _|intros _; reflexivity]. apply andb_true_iff in E as [[E1%negb_true_iff%bool_decide_eq_false E2%Nat.eqb_eq]%andb_true_iff E3].
    split; [done|]. intros e He. rewrite forallb_forall in E3. split; [|by apply Hlen].
    specialize (E3 e (proj1 (list_elem_of_In _ _) He)). by apply bool_decide_eq_true in E3.
  - split; [by intros Hbad%bool_decide_eq_true|]. intros [Hne Hall]. exfalso. rewrite <- not_true_iff_false in E. apply E.
    rewrite !andb_true_iff. split_and!.
    + by apply negb_true_iff, bool_decide_eq_false.
    + apply Nat.eqb_eq, Hlen. intros e He. by apply Hall.
    + apply forallb_forall. intros e He%list_elem_of_In. apply bool_decide_eq_true. by apply Hall.
Qed.
End rows.

(** ** Attribution of an outcome to a declared metric *)

Record ObjectiveMetric : Type := {
  oj_success_metric : string; oj_baseline : option float; oj_target : option float; oj_source : string; oj_owner : string; oj_measurement_window : string
}.
Record ImpactMeasurement : Type := {
  im_objective_id : string; im_value : float; im_source : string; im_environment : string; im_measured_at : datetime; im_baseline : option float
}.
Record ImpactAttribution : Type := { ia_is_attributable : bool; ia_delta : option float; ia_target_met : bool; ia_reason : string }.

Definition metric_post_init (m : ObjectiveMetric) : result unit :=
  _ ← raise_if (existsb (fun s => negb (str_truthy (str_strip s))) [oj_success_metric m; oj_source m; oj_owner m; oj_measurement_window m])
        (ValueError "metric identity fields must be non-empty");
  _ ← validate_finite (oj_baseline m) "baseline";
  validate_finite (oj_target m) "target".

Definition measurement_post_init (i : ImpactMeasurement) : result unit :=
  _ ← raise_if (existsb (fun s => negb (str_truthy (str_strip s))) [im_objective_id i; im_source i; im_environment i])
        (ValueError "impact measurement identity fields must be non-empty");
  _ ← validate_finite (Some (im_value i)) "value";
  validate_finite (im_baseline i) "baseline".

Definition not_attributed (reason : string) : ImpactAttribution :=
  {| ia_is_attributable := false; ia_delta := None; ia_target_met := false; ia_reason := reason |}.

(** [None != x] and [x != y] on floats. *)
Definition float_differs (a b : option float) : bool :=
  match a, b with Some x, Some y => negb (f_eq x y) | None, None => false | _, _ => true end.

Definition attribute (m : ObjectiveMetric) (outcome : ImpactMeasurement) : ImpactAttribution :=
  match oj_baseline m, oj_target m with
  | None, _ => not_attributed "baseline is required"
  | Some _, None => not_attributed "target is required"
  | Some baseline, Some target =>
      if negb (str_eq (im_environment outcome) "production") then not_attributed "only production outcomes can claim impact"
      else if negb (str_eq (im_source outcome) (oj_source m)) then not_attributed "outcome source does not match metric source"
      else if float_differs (im_baseline outcome) (Some baseline) then not_attributed "outcome baseline does not match declared baseline"
      else {| ia_is_attributable := true; ia_delta := Some (f_sub (im_value outcome) baseline);
              ia_target_met := if f_lt target baseline then f_le (im_value outcome) target else f_le target (im_value outcome);
              ia_reason := "production outcome measured against declared baseline" |}
  end.

(** Impact is claimed only for production, from the declared source, against
    the declared baseline. *)
Theorem attribute_spec m outcome : ia_is_attributable (attribute m outcome) = true <->
  exists b b' t, oj_baseline m = Some b /\ oj_target m = Some t /\ im_environment outcome = "production" /\
    im_source outcome = oj_source m /\ im_baseline outcome = Some b' /\ f_eq b' b = true.
Proof.
  unfold attribute, str_eq. destruct (oj_baseline m) as [b|]; [|split; [done|naive_solver]].
  destruct (oj_target m) as [t|]; [|split; [done|naive_solver]]. repeat case_bool_decide; simpl; [|split; [done|naive_solver]..].
  unfold float_differs. destruct (im_baseline outcome) as [b'|]; simpl; [|split; [done|naive_solver]].
  destruct (f_eq b' b) eqn:E; simpl; split; try done; [intros _; exists b, b', t; done|intros (? & ? & ? & [= <-] & _ & _ & _ & [= <-] & ?); congruence].
Qed.
