(* ===== verification/Attempt.v ===== *)
(** * Attempt: one Attempt from end to end

    Models [ExecutionService.run] of [src/sdf_core/execution.py]: [begin], the
    adapter, the measured telemetry, and [finish] or a failed Attempt.  What the
    adapter does, the time it takes, what other requests commit while it works
    and the class of an error are arguments; spans have no effect. *)

From S2P Require Import Prelude StateError Lifecycle Floats Json Db EvidenceMac Flush Samples FlushFacts Store RemoteEffects Recovery Escalation Checks.
From S2P Require Import Oracle Acceptance Evaluate Verdict Trees Revisions UnitOfWork Execution BeginFacts Finish FinishFacts DecisionGate Plans RunConfig Coordinator.

Record RunEnv : Type := {
  re_prepared : Prepared; re_before : Db -> Db; re_fence : result unit; re_adapter : result AdapterResult; re_during : Db -> Db;
  re_seconds : float; re_identity : string; re_error_class : exn -> string; re_sum : list float -> float; re_finish : FinishEnv
}.

(** [_sum_or_none] *)
Definition sum_or_none (values : list (option Z)) : option Z :=
  match omap id values with [] => None | present => Some (sumZ present) end.

(** [max(x, 0.0)] *)
Definition f_max (x : float) : float := if f_lt x f_zero then f_zero else x.

(** [_record_measured_telemetry]: only what a metering adapter has not written. *)
Definition record_measured_telemetry (re : RunEnv) (attempt_id : string) (error : option exn) : ST Work unit :=
  attempt ← gets (fun w => d_attempts (pending w) !! attempt_id);
  match attempt with
  | None => mret ()
  | Some a =>
      if bool_decide (is_Some (at_provider a)) then mret ()
      else
        _ ← flush_work;
        rows ← gets (fun w => select_rows (fun u => str_eq (ul_attempt_id u) attempt_id) (d_usage_ledger (pending w)));
        pend (set_attempt (fun a => a {{
          at_provider := Some (str_take 120 (re_identity re)); at_latency_ms := Some (f_round 1 (f_mul (f_max (re_seconds re)) (f_of_Z 1000)));
          at_cost_usd := f_round 8 (re_sum re (map (fun u => default f_zero (ul_cost_usd u)) rows));
          at_input_tokens := sum_or_none (map ul_input_tokens rows); at_output_tokens := sum_or_none (map ul_output_tokens rows);
          at_error_class := match error, at_error_class a with Some e, None => Some (re_error_class re e) | _, c => c end }}) attempt_id)
  end.

(** It leaves a session [finish] can begin in. *)
Lemma telemetry_usable re attempt_id error w w' u : usable w -> record_measured_telemetry re attempt_id error w = (w', Ok u) -> usable w'.
Proof.
  intros Hu. unfold record_measured_telemetry. rewrite gets_bind. destruct (d_attempts (pending w) !! attempt_id) as [a|]; [|by intros [= <- <-]].
  case_bool_decide; [by intros [= <- <-]|]. rewrite st_bind_run. destruct (flush_work w) as [w1 [u1|e]] eqn:Hf; [|done]. rewrite gets_bind.
  assert (usable w1) as Hu1.
  { revert Hf. unfold flush_work. destruct (inactive w) eqn:Hi; [done|]. destruct (flush (wk_host w) (session w)) as [s|e] eqn:Hs.
    - intros [= <-]. split; [exact Hi|]. change (none_new d_attempts s). intros k. by rewrite (flush_stored_current _ _ _ Hs).
    - by destruct (guards (session w)). }
  match goal with |- pend (set_attempt ?f _) _ = _ -> _ => pose proof (usable_set_attempt f attempt_id w1 Hu1) as H2; destruct (pend (set_attempt f attempt_id) w1) as [w2 r] end.
  by intros [= <- _].
Qed.

(** What of a run request [finish] gets. *)
Record RunRequest : Type := {
  rr_begin : BeginRequest; rr_commands : list (list string); rr_criterion_checks : option (list (string * list (list string)));
  rr_policies : gmap (string * Z) OraclePolicy
}.

Definition finish_request (rr : RunRequest) (attempt_id : string) (result : AdapterResult) (evidence_mode : option string) : FinishRequest := {|
  f_attempt_id := attempt_id; f_result := result; f_commands := rr_commands rr; f_criterion_checks := rr_criterion_checks rr;
  f_policies := rr_policies rr; f_validation_target := b_validation_target (rr_begin rr); f_evidence_mode := evidence_mode
|}.

Section run.
Context (format_g : float -> string) (ev : Evaluator) (mach : Z -> Machine) (tree : Z -> string).

(** [run] *)
Definition run (re : RunEnv) (rr : RunRequest) : ST Work string :=
  begun ← begin (re_before re) (re_prepared re) (rr_begin rr);
  if bg_existing begun then mret (bg_attempt begun)
  else
    let id := bg_attempt begun in
    let task_id := b_task_id (rr_begin rr) in
    _ ← lift (re_fence re);
    _ ← interfere (re_during re);
    match re_adapter re with
    | Err e => _ ← record_measured_telemetry re id (Some e); _ ← fail_attempt task_id id; fail e
    | Ok result =>
        _ ← record_measured_telemetry re id None;
        attempt ← gets (fun w => d_attempts (pending w) !! id);
        finish format_g ev mach tree (re_finish re) (finish_request rr id result (at_evidence_mode <$> attempt))
    end.

(** A dispatch key that is taken runs no adapter. *)
Theorem run_joins re rr w w1 b : begin (re_before re) (re_prepared re) (rr_begin rr) w = (w1, Ok b) -> bg_existing b = true ->
  run re rr w = (w1, Ok (bg_attempt b)).
Proof. intros Hb He. unfold run. rewrite st_bind_run, Hb. cbn beta iota. by rewrite He. Qed.

(** An adapter that raises never makes a run return; its error is what the
    caller sees unless failing the Attempt raises too. *)
Theorem run_adapter_raises re rr e w w' id : re_adapter re = Err e -> run re rr w = (w', Ok id) ->
  exists w1 b, begin (re_before re) (re_prepared re) (rr_begin rr) w = (w1, Ok b) /\ bg_existing b = true /\ w' = w1 /\ id = bg_attempt b.
Proof.
  intros He. unfold run. rewrite st_bind_run, He. destruct (begin _ _ _ w) as [w1 [b|x]]; [|done]. destruct (bg_existing b) eqn:Hb.
  - intros [= <- <-]. by exists w1, b.
  - intros H. exfalso. revert H. rewrite lift_bind. destruct (re_fence re); [|done]. rewrite st_bind_run.
    destruct (interfere _ w1) as [w2 [u2|]]; [|done]. rewrite st_bind_run. destruct (record_measured_telemetry _ _ _ w2) as [w3 [u3|]]; [|done].
    rewrite st_bind_run. by destruct (fail_attempt _ _ w3) as [w4 [u4|]].
Qed.
End run.

Module AttemptDemo.
Definition work : Work := BeginDemo.work {{ wk_host := {| h_environ := RevisionDemo.env; h_unidata_version := "15.0.0" |};
  wk_process := {| EXECUTOR_ID := "9-z"; owners := ∅; remote_effects := ∅; stop_blocked := ∅ |};
  committed := BeginDemo.db {{ d_tasks := {["T-1" := BeginDemo.task {{ tk_acceptance_criteria := ["works"] }}]} }};
  session := open_session (BeginDemo.db {{ d_tasks := {["T-1" := BeginDemo.task {{ tk_acceptance_criteria := ["works"] }}]} }}) }}.
Definition re (adapter : result AdapterResult) : RunEnv := {|
  re_prepared := {| pr_workspace := Ok (); pr_tree := Ok RevisionDemo.t1; pr_repository := "fixture:demo" |}; re_before := fun d => d; re_fence := Ok ();
  re_adapter := adapter; re_during := fun d => d; re_seconds := f_of_Z 2; re_identity := "fake"; re_error_class := fun _ => "agent_error";
  re_sum := foldr f_add f_zero; re_finish := FinishDemo.fe (fun m => m)
|}.
Definition rr : RunRequest := {| rr_begin := BeginDemo.request; rr_commands := []; rr_criterion_checks := Some [("works", [["pytest"; "tests/test_a.py"]])]; rr_policies := ∅ |}.
Definition attempt (adapter : result AdapterResult) : Work * result string :=
  run (fun _ => "30") EvaluateDemo.ev (fun _ => FinishDemo.mach) (fun _ => RevisionDemo.t2) (re adapter) rr work.
Definition seen (o : Work * result string) :=
  (is_ok o.2, task_status (committed o.1) "T-1", map (fun a => (at_status a, at_provider a, at_error_class a)) (rows (d_attempts (committed o.1)))).
End AttemptDemo.

(** A run that succeeds, one whose agent failed, and one whose adapter raised. *)
Example run_demo : map (fun a => AttemptDemo.seen (AttemptDemo.attempt a))
  [Ok (FinishDemo.result 0); Ok (FinishDemo.result 1); Err (RuntimeError "boom")] =
  [(true, Some "succeeded", [("completed", Some "fake", None)]); (true, Some "failed", [("failed", Some "fake", None)]);
   (false, Some "failed", [("failed", Some "fake", Some "agent_error")])].
Proof. vm_compute. reflexivity. Qed.
